(* ===== verification/_CoqProject ===== *)
-Q . S2P
Prelude.v
Ledger.v
Net.v
Rfc3339.v
Schema.v
Http.v
Json.v
Regex.v
Tables.v
Ztna.v
S2S.v
Routes.v
Auth.v
Login.v
Policy.v
Firewall.v
Hub.v
Agent.v
Devices.v
Session.v
RedisSession.v
Gateways.v
Groups.v
Users.v
Networks.v
GatewayAdmin.v
Admin.v
S2SAdmin.v
ZtnaAdmin.v
SmartRoutes.v
RateLimit.v
Sha256.v
Webhook.v
Scim.v
Mfa.v
Oidc.v
Ldap.v
Saml.v
Tenants.v
ClientConfig.v
Client.v
GatewayMode.v
NatTraversal.v
AuditLog.v
Siem.v
Mail.v
Settings.v
Pki.v
Proxy.v
Analytics.v
Compliance.v
