(* ===== verification/Prelude.v ===== *)
(** * Outpost: a verification of the access-control core

    Outpost is a WireGuard VPN with zero-trust access.  A _core_ server
    (src/internal/core) keeps users, devices, networks, gateways and policies
    in PostgreSQL, serves an HTTP API (src/internal/core/handler) and one gRPC
    service to the gateways.  A _gateway_ agent (src/internal/gateway) keeps a
    stream open to the core, applies the events it receives to its WireGuard
    interface, and turns the firewall configuration into iptables rules.
    Device posture is scored by src/internal/ztna, site-to-site tunnels are
    computed by src/internal/s2s, tokens and roles live in src/internal/auth
    and browser sessions in src/internal/session.  Identity providers reach
    the user tables through src/internal/auth/scim and src/internal/auth/ldap;
    the core is itself an OpenID provider (src/internal/auth/oidc) and asks
    for second factors (src/internal/auth/mfa); SAML logins come in through
    src/internal/auth/saml.  What changes is recorded and exported by
    src/internal/observability.  The _client_
    (src/internal/client) enrols a device, keeps its tunnel and its session up
    and reports the posture of the machine it runs on.

    The path this library follows end to end is the one a policy takes: tables
    of the database, rules computed by the core ([Policy]), events sent by the
    hub ([Hub]), events handled by the agent ([Agent]), commands given to
    iptables and the fate of a packet ([Firewall]).  Beside it stands who may
    change those tables: passwords, tokens and sessions ([Auth], [Login],
    [Session], [Mfa], [Oidc]), the HTTP endpoints ([Groups], [Users],
    [Networks], [GatewayAdmin], [Devices], [S2SAdmin], [ZtnaAdmin],
    [SmartRoutes], [Tenants], [Settings]) and the provisioning by third parties
    ([Scim], [Ldap], [Saml]); and the record kept of it ([AuditLog], [Siem]).

    ** Files

    Shared:
    - [Prelude]: automation, the hint and rewrite databases, 64-bit integers
      with their wrap-around, the functions of Go's [strings] and [strconv] the
      sources call, results, generic lemmas on lists and maps, and the class
      [GoRange]: the iteration order of a Go map is any permutation of its
      entries, so every theorem with that class holds for all orders.
    - [Ledger]: a counting argument for things issued once and spent once.
    - [Net]: IPv4 addresses and CIDR blocks as numbers, with their texts
      ([host(..)], [..::text] of PostgreSQL, [net.ParseCIDR] of Go) and the
      round trips between the two.
    - [Schema]: the rows of src/migrations the queries read, as records, and
      the uniqueness constraints the migrations declare ([db_ok]).
    - [Http]: the monad of handlers (below), with its rules for invariants,
      refusals and traces.
    - [Json]: JSON values and the decoding of request bodies.
    - [Regex]: Go's regular expressions as the sources use them, with a matcher.
    - [Tables]: the SQL statements that several endpoints share, and the
      invariant of the tables.
    - [Sha256]: SHA-256, HMAC and hexadecimal, computed.
    - [Rfc3339]: instants as text, with the Gregorian calendar.

    Pure components:
    - [Ztna]: ztna/posture.go ([Posture.Evaluate], [isVersionAtLeast]) and
      ztna/trust_score.go ([Trust.Calculate], [classifyTrustLevel]).
    - [S2S]: s2s/topology.go, mesh.go and hubspoke.go.
    - [Routes]: s2s/route.go (the route table) and s2s/health.go.
    - [Auth]: auth/password_policy.go, auth/rbac/enforcer.go, auth/jwt.go,
      auth/blacklist.go and auth/middleware.go.
    - [RateLimit]: the limiter of core/server.go, in memory and on Redis.

    Core and gateway:
    - [Policy]: core/grpc_gateway.go, [buildFirewallConfigFromPool] with each
      of its queries and loops, [fetchPeers] and [fetchSmartRoutesForGateway].
    - [Gateways]: the rest of core/grpc_gateway.go: GetConfig, the greeting of
      Sync, Heartbeat, the health monitor, the handlers of reports.
    - [Hub]: core/stream_hub.go, core/peer_notifier.go and [fetchS2STunnels].
    - [Firewall]: gateway/firewall.go on a model of the filter table.
    - [Agent]: the event handlers and the start of gateway/agent.go, with
      [AddPeer] and [RemovePeer] of gateway/wg_manager.go.

    HTTP endpoints of core/handler: [Login] (auth.go), [Devices] (device.go,
    helpers.go), [Groups], [Users], [Networks], [GatewayAdmin] (gateway.go),
    [S2SAdmin] (s2s.go), [ZtnaAdmin] (ztna.go), [SmartRoutes]
    (smartroute.go); [Admin] composes the first of these behind the
    authentication middleware the way core/server.go mounts them.

    Identity and integration:
    - [Session]: session/manager.go with its in-memory store; [RedisSession]:
      session/redis_store.go, the other implementation of the same interface.
    - [Mfa]: auth/mfa: the manager (TOTP, WebAuthn, backup codes, mailed
      codes) and its endpoints.
    - [Oidc]: auth/oidc: authorization codes, PKCE, tokens, the key set.
    - [Scim]: auth/scim: the provisioning of users and groups.
    - [Ldap]: auth/ldap: synchronisation with a directory, and login by bind.
    - [Saml]: auth/saml: the assertion endpoint and the accounts it makes.
    - [Webhook]: webhook/dispatcher.go: subscriptions, signed deliveries with
      retries, and the guard against internal addresses.
    - [Tenants]: tenant: the endpoints, statistics and the host middleware.
    - [AuditLog]: observability/audit*.go, the middleware that records requests,
      nested with authentication as in core/server.go, the export of the log,
      and core/handler/notification.go; [Siem]: observability/siem.go, the
      exporter as a step relation with restarts.
    - [Mail]: mail/mailer.go and core/handler/mail.go; [Settings]:
      core/handler/settings.go, dashboard.go and health.go.
    - [Pki]: pki/manager.go, the rotation of keys; [Analytics]: analytics;
      [Compliance]: compliance, with rates in binary64.
    - [NatTraversal]: nat: discovery, the STUN loop and the relays; [Proxy]:
      proxy/server.go, what the DMZ lets through to the core.

    The client:
    - [ClientConfig]: wireguard/config.go (the text of a configuration), and [downloadConfig] and [sendConfig] of
      core/handler/device.go.
    - [Client]: client/client.go (requests to the core and the files they
      leave), client/tunnel.go and tunnel_userspace.go (the state machine of
      the tunnel, its bring-up and failover) and client/posture_linux.go.
    - [GatewayMode]: client/gateway_mode.go: a client that acts as one end of a
      site-to-site tunnel.

    ** How code becomes definitions

    A handler is a function from the request, the claims put in the context by
    the middleware and the tables, to the response, the new tables and the
    notifications it makes.  In the older files the tables are passed
    explicitly; from [Http] on a handler is a term of the monad [H S E A]: a
    state [S], a trace of events [E] (notifications, pushes), and a result that
    is either [A] or a refusal with its HTTP status and text.  Its operations
    are those of the code: [exec] and [query] run a statement ([stmt]: a
    function on the state that fails the way PostgreSQL does: no rows, a
    unique or foreign key violated), [attempt] runs one whose error is only
    logged, [require] is an early return, [the] reads an optional value.
    Every call that can fail has a boolean argument saying whether it does
    ([fail], [fw_faults], [mfa_faults], ...), so error branches are part of
    each definition and a theorem that quantifies over the faults covers
    them.  The client is written in the same monad: its state is the client's
    and the core's, its events are the commands it gives to the operating
    system, whose outcomes are arguments.  A query is the list function its SQL text denotes; where the text
    does not fix an order, [rows] of the class [SqlOrder] returns any
    permutation of it.  Time is in nanoseconds since the epoch and an argument
    of the request, fixed during it.  [int] and [int64] are [Z] with the
    wrap-around written out ([add64], [mul64]) where the code computes with
    them.  Concurrency is explicit: the retry loop of device creation and the
    handlers that read before they write run against an arbitrary
    interference between statements where a theorem depends on it, backup
    codes are consumed by any interleaving of guarded updates, requests for
    sessions interleave call by call ([Session.run_op]), and Redis subscribers
    take their messages in any order (the relation [Hub.relay]).
    What a goroutine started by a handler computes is computed from the tables
    at that point.  Columns that a query names and no migration declares are
    flags of the state: without them the statement fails.

    Code outside the repository is a class with the laws it documents, each
    with an executable instance used by the witnesses: [JwtLib]
    (golang-jwt), [AuthEnv] (bcrypt, TOTP, SHA-256), [Unicode] (package
    unicode), [SliceSort] (sort.Slice), [Netfilter] (iptables and conntrack),
    [WgCtrl] (wgctrl), [DeviceEnv] (uuids and wgtypes keys), [RsaLib]
    (crypto/rsa), [GoLdap] (the LDAP client), and others in the file that
    needs them.  Two classes are interfaces of the program: [PeerNotifier],
    which the device handlers call and [hubPeerNotifier] implements, and
    [Store], which the session manager calls and which the in-memory and the
    Redis store implement.

    ** What the theorems show

    - Enforcement: the rules computed for a gateway accept exactly what the
      tables grant, whatever the iteration orders ([Policy]); the agent's
      iptables commands install exactly these rules, and a new packet of a
      served device is forwarded only when granted and not blocked, and no
      connection of a device survives the installation
      ([Firewall.gateway_enforces_policy]).  What is granted is stated apart
      from the code ([granted], [permitted], [ztna_blocks]); the whole address
      of a network is, although the documentation lets [allowed_ips] narrow it
      ([Policy.allowed_ips_ignored]).  Stopping the agent gives the filter table
      back ([Firewall.Cleanup_restores]).
    - Delivery: what each gateway receives from a broadcast, an addressed
      update, a device announcement and a global refresh ([Hub]); the peers of
      an interface follow the last event on each key, and receiving an event
      twice is harmless ([Agent]).
    - Authentication: soundness of login, of MFA verification and of refresh,
      the bound that lockout puts on guessing one attempt at a time, single use
      of backup codes,
      of mailed codes, of WebAuthn challenges and of authorization codes,
      permanence of logout, and of revocation when no request for the session is
      under way ([Login], [Auth], [Session], [RedisSession], [Mfa], [Oidc]); a
      SAML token is one of the account the verified assertion names ([Saml]); a
      name put into a search filter stays a value, whatever the user typed
      ([Ldap]).
    - The API as a whole: every request keeps the tables consistent, a refused
      request to the group, user, network and gateway endpoints changes nothing,
      and only administrators change anything through them ([Admin]); an
      administrator remains ([Users]).
    - Confinement of what is not an administrator: a SCIM client, an LDAP
      directory, a SAML provider and the MFA endpoints touch the rows they are meant for and
      never make an administrator ([Scim], [Ldap], [Saml], [Mfa]); the proxy
      opens six operations of the core and no others ([Proxy]).
    - Devices: an allocated address is fresh, inside the network and never the
      network, gateway or broadcast address; the retry loop of five attempts
      gives up only if each was disturbed (for blocks of prefix length 2 to 32:
      the query computes in int4); a user cannot see, change or delete another
      user's device; revoking cuts a device off.
    - Zero trust: exact scores, bounds and monotonicity of posture and trust;
      a report changes what the firewall lets through ([ZtnaAdmin]).
    - Site to site: both topologies connect all subnets; the route table
      refines a map from (destination, gateway) to its last advertisement and
      answers with a route of least metric; health is decided by the peer's
      own reports; the downloaded configuration is written from the rows of the
      pushed one.
    - Gateways: silence is detected at the third pass of the monitor.
    - The client: the configuration file a user downloads holds the key pair
      of the device and the best gateway of its network, is given to nobody
      else, and determines the configuration it was written from
      ([ClientConfig]); a client that refreshes in time keeps its session, and
      one that is told it is blocked takes its tunnel down ([Client]); the health of a tunnel is what [wg] says, and the file
      with its key exists only while it runs ([GatewayMode]).
    - Records: every change is logged once and the answer is not touched
      ([AuditLog.audit_exact]); exports and messages are read back as what was
      written ([AuditLog.csv_roundtrip], [Siem.syslog_roundtrip],
      [Mail.message_roundtrip]); the exporter skips only records that
      became visible after a later one was exported, whatever fails and whenever
      it restarts, and catches up when nothing fails
      ([Siem.cursor_skips_only_late], [Siem.export_completes]).
    - Administration: the settings are a finite map, batches are all or
      nothing ([Settings.settings_refine_map]); an owner has at most one active
      key and the job leaves none that ends within a week ([Pki]); the charts
      add up to the summary ([Analytics]); scores are in bounds
      ([Compliance]).
    - Integration: deliveries end, redirects included, and never reach an
      internal address
      ([Webhook]); the limiter admits at most its limit in any window
      ([RateLimit]); host names are exactly those of RFC 1123 with a dot
      ([SmartRoutes]).

    Lemmas with the word "fails", "leaks", "race", "bypasses" or the like in
    their names state, on a concrete input, where the code does less than its
    comments say.

    ** Bounds and termination

    Loops of the modelled code are over a list or have a constant bound (five
    attempts in [allocLoop], as in the code), so most functions are total by
    structural recursion.  Fuel is used in four places, and is enough in
    each: the recursion into nested SCIM patch values takes the depth of the
    value ([Scim.patches_end]), SHA-256 cuts its blocks with the length of the
    message as fuel, the bytes of a 64-bit
    integer are at most eight, and a reader of mail takes the length of the
    message.
    Addresses are IPv4.  Foreign keys cascade into the tables that are
    modelled.

    ** Not modelled

    Transport (listeners, TLS, gRPC and Redis connections, the loops that
    reconnect), log lines and metrics: they move bytes and have no state of
    the program.  The set-up code: configuration from the environment
    (src/internal/config), the database connection and the runner of
    migrations (src/internal/db), the programs of src/cmd, which start the
    parts modelled here, and outpostctl, which prints answers of the API.
    [EnsureInterface] of the gateway and the posture probes of macOS and
    Windows run programs of the operating system whose output is not in the
    repository.  HTML templates and images are data.  Generated protobuf code
    (src/pkg/pb) and the web interface (src/web-ui) are in no modelled
    language or not written by hand. *)

From Stdlib Require Import ZArith Lia Ascii String.
From stdpp Require Import base gmap strings list sorting pretty.

Declare Scope outpost_scope.
Delimit Scope outpost_scope with outpost.

Create HintDb outpost.
Create Rewrite HintDb outpost_str.

(** ** Automation *)

(** Case analysis on every [match]/[if]/[decide] of the goal and context,
    then stdpp's equality simplifier. *)
Ltac crunch :=
  repeat (first [ progress simplify_eq/= | case_match | case_decide | case_bool_decide ]);
  simplify_eq/=; auto.

(** Turn every boolean test in the context into the proposition it decides. *)
Ltac boolify :=
  repeat match goal with
  | H : _ && _ = true |- _ => apply andb_true_iff in H; destruct H
  | H : _ && _ = false |- _ => apply andb_false_iff in H
  | H : _ || _ = false |- _ => apply orb_false_iff in H; destruct H
  | H : _ || _ = true |- _ => apply orb_true_iff in H
  | H : negb _ = true |- _ => apply negb_true_iff in H
  | H : negb _ = false |- _ => apply negb_false_iff in H
  | H : (_ <? _)%Z = true |- _ => apply Z.ltb_lt in H
  | H : (_ <? _)%Z = false |- _ => apply Z.ltb_ge in H
  | H : (_ <=? _)%Z = true |- _ => apply Z.leb_le in H
  | H : (_ <=? _)%Z = false |- _ => apply Z.leb_gt in H
  | H : (_ =? _)%Z = true |- _ => apply Z.eqb_eq in H
  | H : (_ =? _)%Z = false |- _ => apply Z.eqb_neq in H
  | H : String.eqb _ _ = true |- _ => apply String.eqb_eq in H
  | H : String.eqb _ _ = false |- _ => apply String.eqb_neq in H
  | H : bool_decide _ = true |- _ => apply bool_decide_eq_true in H
  | H : bool_decide _ = false |- _ => apply bool_decide_eq_false in H
  end.

(** ** Machine integers

    Go's [int] is 64 bits wide on every platform the program is built for;
    additions and multiplications wrap around. *)
Section machine_ints.
Local Open Scope Z_scope.

Definition max_int64 : Z := 2 ^ 63 - 1.
Definition min_int64 : Z := - 2 ^ 63.

Definition wrap64 (z : Z) : Z := (z + 2 ^ 63) mod 2 ^ 64 - 2 ^ 63.

Definition in_int64 (z : Z) : Prop := min_int64 <= z <= max_int64.

Definition add64 (a b : Z) : Z := wrap64 (a + b).
Definition sub64 (a b : Z) : Z := wrap64 (a - b).
Definition mul64 (a b : Z) : Z := wrap64 (a * b).
(** Go's [/] truncates toward zero. *)
Definition div64 (a b : Z) : Z := wrap64 (Z.quot a b).

Lemma wrap64_small z : in_int64 z -> wrap64 z = z.
Proof.
  unfold in_int64, wrap64, min_int64, max_int64. intros H.
  rewrite Z.mod_small; lia.
Qed.

Lemma wrap64_range z : in_int64 (wrap64 z).
Proof.
  unfold in_int64, wrap64, min_int64, max_int64.
  pose proof (Z.mod_pos_bound (z + 2 ^ 63) (2 ^ 64)). lia.
Qed.

Lemma add64_small a b : in_int64 (a + b) -> add64 a b = a + b.
Proof. apply wrap64_small. Qed.

Lemma mul64_small a b : in_int64 (a * b) -> mul64 a b = a * b.
Proof. apply wrap64_small. Qed.

Lemma div64_nonneg a b : 0 <= a <= max_int64 -> 0 < b -> div64 a b = a / b.
Proof.
  intros Ha Hb. unfold div64. rewrite Z.quot_div_nonneg by lia.
  apply wrap64_small. unfold in_int64, min_int64.
  pose proof (Z.div_pos a b). pose proof (Z.div_le_upper_bound a b max_int64).
  unfold max_int64 in *. nia.
Qed.
End machine_ints.

(** ** Strings of the Go standard library *)

(** [strings.Split(s, sep)] for a one-byte separator. *)
Fixpoint split_on (c : ascii) (s : string) : list string :=
  match s with
  | EmptyString => [EmptyString]
  | String a s' =>
      if Ascii.eqb a c then EmptyString :: split_on c s'
      else match split_on c s' with
           | [] => [String a EmptyString]
           | w :: ws => String a w :: ws
           end
  end.

(** [strings.Join]. *)
Fixpoint strings_join (sep : string) (l : list string) : string :=
  match l with
  | [] => EmptyString
  | [s] => s
  | s :: l' => (s ++ sep ++ strings_join sep l')%string
  end.

(** [strings.CutPrefix]. *)
Fixpoint cut_prefix (s prefix : string) : option string :=
  match prefix, s with
  | EmptyString, _ => Some s
  | String p prefix', String a s' => if Ascii.eqb a p then cut_prefix s' prefix' else None
  | String _ _, EmptyString => None
  end.

(** [strings.TrimPrefix]. *)
Definition trim_prefix (s prefix : string) : string :=
  default s (cut_prefix s prefix).

(** A character does not occur in a string. *)
Fixpoint no_char (c : ascii) (s : string) : bool :=
  match s with
  | EmptyString => true
  | String a s' => negb (Ascii.eqb a c) && no_char c s'
  end.

(** stdpp blocks [simpl] on [String.append]; these equations replace it. *)
Lemma append_cons (a : ascii) (p t : string) : (String a p ++ t = String a (p ++ t))%string.
Proof. reflexivity. Qed.

Lemma append_nil (t : string) : ("" ++ t = t)%string.
Proof. reflexivity. Qed.

#[export] Hint Rewrite append_cons append_nil : outpost_str.

Ltac str_simpl := autorewrite with outpost_str in *; simpl in *.

Lemma cut_prefix_app p s : cut_prefix (p ++ s) p = Some s.
Proof.
  induction p as [|a p IH]; [by destruct s|]. str_simpl. by rewrite Ascii.eqb_refl.
Qed.

Lemma cut_prefix_Some s p t : cut_prefix s p = Some t <-> s = (p ++ t)%string.
Proof.
  split; [|intros ->; apply cut_prefix_app].
  revert s. induction p as [|a p IH]; intros [|b s] H; simpl in H; simplify_eq; auto.
  destruct (Ascii.eqb_spec b a); simplify_eq. rewrite append_cons. f_equal. auto.
Qed.

Lemma split_on_ne c s : split_on c s <> [].
Proof. destruct s as [|a s]; simpl; [done|]. destruct (Ascii.eqb a c), (split_on c s); done. Qed.

Lemma split_on_no_char c s : no_char c s = true -> split_on c s = [s].
Proof.
  induction s as [|a s IH]; simpl; [done|]. intros H. boolify.
  rewrite H, IH by done. done.
Qed.

Lemma split_on_app c s t :
  no_char c s = true -> split_on c (s ++ String c t) = s :: split_on c t.
Proof.
  induction s as [|a s IH]; str_simpl; intros H.
  - by rewrite Ascii.eqb_refl.
  - boolify. by rewrite H, IH by done.
Qed.

(** Splitting a join gives the parts back when no part holds the separator. *)
Lemma split_on_join c l :
  l <> [] -> Forall (fun s => no_char c s = true) l ->
  split_on c (strings_join (String c EmptyString) l) = l.
Proof.
  intros Hne Hall. induction Hall as [|s l Hs Hall IH]; [done|].
  destruct l as [|s' l]; simpl.
  - by apply split_on_no_char.
  - rewrite append_cons, append_nil, split_on_app by done. f_equal. by apply IH.
Qed.

Lemma no_char_app c s t : no_char c (s ++ t) = no_char c s && no_char c t.
Proof. induction s as [|a s IH]; str_simpl; [done|]. by rewrite IH, andb_assoc. Qed.

Lemma string_app_assoc (a b c : string) : (a ++ (b ++ c) = (a ++ b) ++ c)%string.
Proof. induction a as [|x a IH]; str_simpl; [done|]. by rewrite IH. Qed.

Lemma string_app_nil_r (a : string) : (a ++ "" = a)%string.
Proof. induction a as [|x a IH]; str_simpl; [done|]. by rewrite IH. Qed.

Lemma string_app_inj_l (p a b : string) : (p ++ a = p ++ b)%string -> a = b.
Proof. induction p as [|x p IH]; str_simpl; intros H; simplify_eq; auto. Qed.

(** ** Numbers in text *)

Definition is_digit (a : ascii) : bool :=
  let n := N_of_ascii a in (48 <=? n)%N && (n <=? 57)%N.

Definition digit_val (a : ascii) : Z := Z.of_N (N_of_ascii a) - 48.

(** The result of [strconv.ParseUint(s, 10, 64)] on the bytes after the sign:
    a syntax error, a range error or a value.  The scan stops at the first
    byte that decides. *)
Inductive num_res : Type :=
| NumOk (n : Z)
| NumSyntax
| NumRange.

Definition max_uint64 : Z := (2 ^ 64 - 1)%Z.

Fixpoint parse_uint_go (s : string) (acc : Z) : num_res :=
  match s with
  | EmptyString => NumOk acc
  | String a s' =>
      if is_digit a then
        let n := (acc * 10 + digit_val a)%Z in
        if (max_uint64 <? n)%Z then NumRange else parse_uint_go s' n
      else NumSyntax
  end.

Definition parse_uint (s : string) : num_res :=
  match s with
  | EmptyString => NumSyntax
  | _ => parse_uint_go s 0
  end.

(** [strconv.Atoi]: the value and whether an error was returned.  A range
    error still yields the closest machine integer, a syntax error yields 0. *)
Definition Atoi (s : string) : Z * bool :=
  let '(neg, t) :=
    match s with
    | String "-" t => (true, t)
    | String "+" t => (false, t)
    | _ => (false, s)
    end in
  match parse_uint t with
  | NumSyntax => (0%Z, true)
  | NumRange => ((if neg then min_int64 else max_int64), true)
  | NumOk n =>
      if neg then (if (2 ^ 63 <? n)%Z then (min_int64, true) else ((- n)%Z, false))
      else (if (2 ^ 63 <=? n)%Z then (max_int64, true) else (n, false))
  end.

(** [fmt.Sprintf("%d", z)]. *)
Definition itoa (z : Z) : string := pretty z.

Example atoi_ok : map Atoi ["13"; "-4"; "007"; ""; "1b"; "99999999999999999999"] =
  [(13, false); (-4, false); (7, false); (0, true); (0, true); (max_int64, true)]%Z.
Proof. vm_compute. reflexivity. Qed.

(** ** Option results of fallible calls *)

(** An error value of the Go code, by its message. *)
Inductive result (A : Type) : Type :=
| Ok (a : A)
| Err (msg : string).
Arguments Ok {A} a.
Arguments Err {A} msg.

Definition result_ok {A} (r : result A) : bool :=
  match r with Ok _ => true | Err _ => false end.

Definition result_opt {A} (r : result A) : option A :=
  match r with Ok a => Some a | Err _ => None end.

(** ** Lists *)

Lemma Forall_omap {A B} (P : A -> Prop) (Q : B -> Prop) (f : A -> option B) l :
  Forall P l -> (forall x y, P x -> f x = Some y -> Q y) -> Forall Q (omap f l).
Proof.
  intros HP Hf. induction HP as [|x l Hx _ IH]; simpl; [done|].
  destruct (f x) eqn:E; eauto.
Qed.

(** Rows with distinct keys: a key determines the row. *)
Lemma NoDup_map_inj {A B} (f : A -> B) l x y :
  NoDup (map f l) -> x ∈ l -> y ∈ l -> f x = f y -> x = y.
Proof.
  induction l as [|z l IH]; simpl; [by intros _ ?%elem_of_nil|]. intros Hnd Hx Hy E.
  apply NoDup_cons in Hnd as [Hz Hnd].
  assert (forall w, w ∈ l -> f w <> f z) as Hne.
  { intros w Hw Ew. apply Hz. rewrite <- Ew. apply list_elem_of_fmap. eauto. }
  apply elem_of_cons in Hx as [->|Hx], Hy as [->|Hy]; auto.
  - by destruct (Hne y Hy).
  - by destruct (Hne x Hx).
Qed.

Lemma NoDup_map_filter {A B} (f : A -> B) P `{!forall x, Decision (P x)} (l : list A) :
  NoDup (map f l) -> NoDup (map f (filter P l)).
Proof.
  induction l as [|x l IH]; simpl; [done|]. intros [Hx Hl]%NoDup_cons.
  rewrite filter_cons. case_decide; simpl; [|auto]. apply NoDup_cons. split; [|auto].
  intros (y & E & [_ Hy]%list_elem_of_filter)%list_elem_of_fmap. apply Hx.
  apply list_elem_of_fmap. eauto.
Qed.

(** Collecting at most one item per key, each item knowing its key. *)
Lemma NoDup_omap_key {K V B} (key : B -> K) (f : K * V -> option B) (l : list (K * V)) :
  NoDup (map fst l) -> (forall kv e, kv ∈ l -> f kv = Some e -> key e = kv.1) ->
  NoDup (map key (omap f l)).
Proof.
  induction l as [|kv l IH]; intros Hnd Hk; [constructor|].
  apply NoDup_cons in Hnd as [Hx Hnd].
  assert (NoDup (map key (omap f l))) as HIH.
  { apply IH; [done|]. intros. apply Hk; [by right|done]. }
  simpl. destruct (f kv) as [e|] eqn:E; [|done]. apply NoDup_cons. split; [|done].
  rewrite (Hk kv e) by (done || by left).
  intros (e' & Ee & (kv' & Hl & He')%list_elem_of_omap)%list_elem_of_fmap. apply Hx.
  rewrite Ee, (Hk kv' e') by (done || by right). apply list_elem_of_fmap. eauto.
Qed.

Lemma sum_list_with_ext {A} (f g : A -> nat) l :
  (forall x, x ∈ l -> f x = g x) -> sum_list_with f l = sum_list_with g l.
Proof.
  induction l as [|x l IH]; intros Hfg; simpl; [done|]. rewrite Hfg by by left.
  f_equal. apply IH. intros. apply Hfg. by right.
Qed.

(** Building a map from keyed rows with distinct keys. *)
Lemma foldl_insert_lookup {A V} (key : A -> string) (val : A -> V) (l : list A)
    (m : gmap string V) k v :
  NoDup (map key l) ->
  (foldl (fun m x => <[key x := (val x)]> m) m l) !! k = Some v <->
  (exists x, x ∈ l /\ key x = k /\ val x = v) \/ (~ (k ∈ map key l) /\ m !! k = Some v).
Proof.
  revert m. induction l as [|y l IH]; intros m Hnd; simpl.
  - split; [intros Hm; right; split; [by intros ?%elem_of_nil|done]|].
    intros [(x & Hx%elem_of_nil & _)|[_ ?]]; done.
  - apply NoDup_cons in Hnd as [Hy Hnd]. rewrite IH by done. setoid_rewrite elem_of_cons.
    destruct (decide (key y = k)) as [<-|Hne].
    + rewrite lookup_insert_eq. split.
      * intros [(x & ? & ? & ?)|[_ [= <-]]]; left; eauto.
      * intros [(x & [->|Hx] & E & <-)|[Hk _]].
        -- by right.
        -- destruct Hy. rewrite <- E. apply list_elem_of_fmap. eauto.
        -- destruct Hk. by left.
    + rewrite lookup_insert_ne by done. split.
      * intros [(x & ? & ? & ?)|[? ?]]; [left; eauto|right].
        split; [|done]. intros [->|?]; done.
      * intros [(x & [->|Hx] & E & <-)|[Hk ?]]; [done|left; eauto|right].
        split; [|done]. intros ?. apply Hk. by right.
Qed.

(** The first match in a concatenation when only one part can match. *)
Lemma find_app {A} (f : A -> bool) l1 l2 :
  List.find f (l1 ++ l2) = match List.find f l1 with Some x => Some x | None => List.find f l2 end.
Proof. induction l1 as [|x l1 IH]; simpl; [done|]. by destruct (f x). Qed.

Lemma find_flat_map_none {A B} (f : B -> bool) (g : A -> list B) l :
  (forall x, x ∈ l -> List.find f (g x) = None) -> List.find f (flat_map g l) = None.
Proof.
  induction l as [|x l IH]; intros Hn; simpl; [done|]. rewrite find_app, Hn by by left.
  apply IH. intros. apply Hn. by right.
Qed.

Lemma find_flat_map_one {A B} (f : B -> bool) (g : A -> list B) l x :
  x ∈ l -> (forall y, y ∈ l -> y <> x -> List.find f (g y) = None) ->
  (forall y, Decision (y = x)) ->
  List.find f (flat_map g l) = List.find f (g x).
Proof.
  intros Hx Hn Hdec. induction l as [|y l IH]; [by apply elem_of_nil in Hx|]. simpl.
  rewrite find_app. destruct (Hdec y) as [->|Hne].
  - destruct (List.find f (g x)) eqn:E; [done|]. apply find_flat_map_none.
    intros z Hz. destruct (Hdec z) as [->|]; [done|]. apply Hn; [by right|done].
  - rewrite Hn by (done || by left). apply IH.
    + apply elem_of_cons in Hx as [?|?]; [congruence|done].
    + intros z Hz. apply Hn. by right.
Qed.

(** ** Ranging over a map

    Go leaves the iteration order of a map unspecified, and two [range] loops
    over the same map may differ: a loop is identified by a number. *)
Class GoRange : Type := {
  range : forall {V : Type}, nat -> gmap string V -> list (string * V);
  range_perm : forall {V : Type} (loop : nat) (m : gmap string V),
    range loop m ≡ₚ map_to_list m;
}.

(** One admissible order, for running the definitions. *)
Definition range_default : GoRange := {|
  range := fun V _ m => map_to_list m;
  range_perm := fun V _ m => reflexivity _ |}.

(** The opposite order, admissible too. *)
Definition range_reverse : GoRange := {|
  range := fun V _ m => reverse (map_to_list m);
  range_perm := fun V _ m => reverse_Permutation _ |}.

Section range.
Context `{GoRange}.

Lemma elem_of_range {V} loop (m : gmap string V) k v :
  (k, v) ∈ range loop m <-> m !! k = Some v.
Proof. by rewrite (range_perm loop m), elem_of_map_to_list. Qed.

Lemma NoDup_range_fst {V} loop (m : gmap string V) : NoDup (map fst (range loop m)).
Proof.
  rewrite (fmap_Permutation fst (range loop m) (map_to_list m)) by apply range_perm.
  apply NoDup_fst_map_to_list.
Qed.
End range.
