(* ===== verification/Ledger.v ===== *)
(** * Issued and spent

    The counting argument behind single-use tickets (WebAuthn challenges,
    authorization codes): a run of steps, each of which may issue a ticket and
    may spend one, spends no more than it issues when the tickets in
    circulation pay for every step. *)

From S2P Require Import Prelude.
From Stdlib Require Import Lia.
From stdpp Require Import base list.

Section ledger.
Context {S X : Type} (step : S -> X -> S) (issues spends : S -> X -> bool) (circulating : S -> nat).

(** How many tickets a run issues and spends. *)
Fixpoint ledger (run : list X) (s : S) : nat * nat :=
  match run with
  | [] => (0, 0)
  | x :: run =>
      let '(i, p) := ledger run (step s x) in
      (if issues s x then Datatypes.S i else i, if spends s x then Datatypes.S p else p)
  end.

(** A step pays for what it spends and leaves in circulation. *)
Definition balanced (x : X) : Prop := forall s,
  (if spends s x then 1 else 0) + circulating (step s x) <= (if issues s x then 1 else 0) + circulating s.

Lemma ledger_balanced run s : Forall balanced run ->
  (ledger run s).2 <= (ledger run s).1 + circulating s.
Proof.
  intros Hb. revert s. induction Hb as [|x run Hx _ IH]; intros s; cbn [ledger]; [cbn; lia|].
  specialize (Hx s). specialize (IH (step s x)). destruct (ledger run (step s x)) as [i p]. cbn in *.
  destruct (issues s x), (spends s x); lia.
Qed.
End ledger.
