(* ===== verification/Net.v ===== *)
(** * IPv4 addresses and CIDR blocks as text

    The program moves addresses around as text: PostgreSQL renders [inet] and
    [cidr] columns ([host], [::text]), the Go code appends ["/32"], and the
    consumers parse the text again.  An address is its 32-bit value.  The
    parsers follow the IPv4 branch of Go's [net.ParseIP] and [net.ParseCIDR];
    the address columns of the model hold IPv4 values only, as the code itself
    assumes (["/32"] suffixes, [32 - masklen]). *)

From S2P Require Import Prelude.
From Stdlib Require Import ZArith Lia Ascii String.
From stdpp Require Import base gmap strings list sorting pretty.

Local Open Scope Z_scope.

Definition octet (ip : Z) (shift : Z) : Z := Z.land (Z.shiftr ip shift) 255.

(** [host(inet)] of PostgreSQL: dotted quad without the mask. *)
Definition host (ip : Z) : string :=
  (itoa (octet ip 24) ++ "." ++ itoa (octet ip 16) ++ "." ++
   itoa (octet ip 8) ++ "." ++ itoa (octet ip 0))%string.

(** One field of a dotted quad: at most 255, no leading zero, not empty. *)
Definition parse_octet (s : string) : option Z :=
  match s with
  | String "0" (String _ _) => None
  | _ => match parse_uint s with
         | NumOk n => if n <=? 255 then Some n else None
         | _ => None
         end
  end.

(** [net.ParseIP] on an IPv4 literal. *)
Definition ParseIPv4 (s : string) : option Z :=
  match split_on "." s with
  | [a; b; c; d] =>
      match parse_octet a, parse_octet b, parse_octet c, parse_octet d with
      | Some a, Some b, Some c, Some d => Some (a * 2^24 + b * 2^16 + c * 2^8 + d)
      | _, _, _, _ => None
      end
  | _ => None
  end.

(** A CIDR block: its base address and prefix length. *)
Record cidr := Cidr { cidr_base : Z; cidr_len : Z }.

#[export] Instance cidr_eq_dec : EqDecision cidr.
Proof. solve_decision. Defined.

Definition cidr_wf (c : cidr) : Prop :=
  0 <= cidr_base c < 2^32 /\ 0 <= cidr_len c <= 32 /\
  cidr_base c mod 2^(32 - cidr_len c) = 0.

(** [cidr::text]. *)
Definition cidr_text (c : cidr) : string :=
  (host (cidr_base c) ++ "/" ++ itoa (cidr_len c))%string.

(** Number of addresses of a block and membership. *)
Definition cidr_size (c : cidr) : Z := 2^(32 - cidr_len c).

Definition cidr_contains (c : cidr) (ip : Z) : bool :=
  (cidr_base c <=? ip) && (ip <? cidr_base c + cidr_size c).

(** [net.ParseCIDR] on an IPv4 block: the masked network. *)
Definition ParseCIDR (s : string) : option cidr :=
  match split_on "/" s with
  | [a; m] =>
      match ParseIPv4 a, parse_uint m with
      | Some ip, NumOk n =>
          if n <=? 32 then Some (Cidr (ip - ip mod 2^(32 - n)) n) else None
      | _, _ => None
      end
  | _ => None
  end.

(** Whether an address lies in a block given as text; a text that is not a
    block matches nothing. *)
Definition cidr_matches (text : string) (ip : Z) : bool :=
  match ParseCIDR text with
  | Some c => cidr_contains c ip
  | None => false
  end.

(** ** Round trips *)

#[local] Instance num_res_eq_dec : EqDecision num_res.
Proof. solve_decision. Defined.

Definition octet_ok (n : nat) : bool :=
  let s := itoa (Z.of_nat n) in
  bool_decide (parse_octet s = Some (Z.of_nat n)) &&
  bool_decide (parse_uint s = NumOk (Z.of_nat n)) &&
  no_char "." s && no_char "/" s.

Lemma octets_ok : forallb octet_ok (seq 0 256) = true.
Proof. vm_compute. reflexivity. Qed.

Lemma octet_facts z : 0 <= z < 256 ->
  parse_octet (itoa z) = Some z /\ parse_uint (itoa z) = NumOk z /\
  no_char "." (itoa z) = true /\ no_char "/" (itoa z) = true.
Proof.
  intros Hz. pose proof octets_ok as H. rewrite forallb_forall in H.
  specialize (H (Z.to_nat z)). rewrite in_seq in H. specialize (H ltac:(lia)).
  unfold octet_ok in H. rewrite Z2Nat.id in H by lia. boolify. auto.
Qed.

Lemma octet_div ip s : 0 <= s -> octet ip s = (ip / 2^s) mod 256.
Proof.
  intros Hs. unfold octet. rewrite Z.shiftr_div_pow2 by done.
  change 255 with (Z.ones 8). by rewrite Z.land_ones by lia.
Qed.

Lemma octet_range ip s : 0 <= s -> 0 <= octet ip s < 256.
Proof. intros Hs. rewrite octet_div by done. apply Z.mod_pos_bound. lia. Qed.

Lemma octets_recombine ip : 0 <= ip < 2^32 ->
  octet ip 24 * 2^24 + octet ip 16 * 2^16 + octet ip 8 * 2^8 + octet ip 0 = ip.
Proof.
  intros H. rewrite !octet_div by lia. change (2^0) with 1. rewrite Z.div_1_r.
  change (2^24) with 16777216. change (2^16) with 65536. change (2^8) with 256.
  change (2^32) with 4294967296 in H. Z.to_euclidean_division_equations. lia.
Qed.

Lemma octet_parse ip s : 0 <= s -> parse_octet (itoa (octet ip s)) = Some (octet ip s).
Proof. intros Hs. apply (octet_facts _ (octet_range ip s Hs)). Qed.

Lemma octet_no_dot ip s : 0 <= s -> no_char "." (itoa (octet ip s)) = true.
Proof. intros Hs. apply (octet_facts _ (octet_range ip s Hs)). Qed.

Lemma octet_no_slash ip s : 0 <= s -> no_char "/" (itoa (octet ip s)) = true.
Proof. intros Hs. apply (octet_facts _ (octet_range ip s Hs)). Qed.

Lemma no_slash_host ip : no_char "/" (host ip) = true.
Proof. unfold host. rewrite !no_char_app, !octet_no_slash by lia. done. Qed.

Lemma split_host ip :
  split_on "." (host ip) = map itoa [octet ip 24; octet ip 16; octet ip 8; octet ip 0].
Proof.
  unfold host. rewrite !append_cons, !append_nil.
  rewrite !split_on_app by (apply octet_no_dot; lia).
  rewrite split_on_no_char by (apply octet_no_dot; lia). done.
Qed.

Lemma ParseIPv4_host ip : 0 <= ip < 2^32 -> ParseIPv4 (host ip) = Some ip.
Proof.
  intros H. unfold ParseIPv4. rewrite split_host. cbn [map].
  rewrite !octet_parse by lia. by rewrite octets_recombine.
Qed.

Lemma host_inj a b : 0 <= a < 2^32 -> 0 <= b < 2^32 -> host a = host b -> a = b.
Proof.
  intros Ha Hb H. apply ParseIPv4_host in Ha, Hb. rewrite H in Ha. congruence.
Qed.

Lemma ParseCIDR_host ip n : 0 <= ip < 2^32 -> 0 <= n <= 32 ->
  ParseCIDR (host ip ++ "/" ++ itoa n) = Some (Cidr (ip - ip mod 2^(32 - n)) n).
Proof.
  intros Hip Hn. unfold ParseCIDR. rewrite append_cons, append_nil.
  destruct (octet_facts n) as (_ & Hp & _ & Hs); [lia|].
  rewrite split_on_app by apply no_slash_host.
  rewrite split_on_no_char, ParseIPv4_host, Hp by done.
  by rewrite (proj2 (Z.leb_le n 32)) by lia.
Qed.

(** Rendering a well-formed block and parsing it back is the identity. *)
Lemma ParseCIDR_text c : cidr_wf c -> ParseCIDR (cidr_text c) = Some c.
Proof.
  intros (Hb & Hl & Hm). unfold cidr_text. rewrite ParseCIDR_host by done.
  destruct c as [b l]; simpl in *. by rewrite Hm, Z.sub_0_r.
Qed.

Lemma cidr_matches_text c ip : cidr_wf c -> cidr_matches (cidr_text c) ip = cidr_contains c ip.
Proof. intros H. unfold cidr_matches. by rewrite ParseCIDR_text. Qed.

(** The ["/32"] text of an address matches that address only. *)
Lemma cidr_matches_host ip a : 0 <= ip < 2^32 ->
  cidr_matches (host ip ++ "/32") a = bool_decide (a = ip).
Proof.
  intros H. unfold cidr_matches.
  change "/32"%string with ("/" ++ itoa 32)%string. rewrite ParseCIDR_host by lia.
  unfold cidr_contains, cidr_size. simpl. change (2^(32-32)) with 1.
  rewrite Z.mod_1_r, Z.sub_0_r. apply eq_true_iff_eq.
  rewrite bool_decide_eq_true, andb_true_iff, Z.leb_le, Z.ltb_lt. lia.
Qed.

Lemma host_app_inj a b s : 0 <= a < 2^32 -> 0 <= b < 2^32 ->
  no_char "/" s = true ->
  (host a ++ String "/" s = host b ++ String "/" s)%string -> a = b.
Proof.
  intros Ha Hb Hs H. apply host_inj; [done..|].
  assert (split_on "/" (host a ++ String "/" s) = split_on "/" (host b ++ String "/" s)) as E
    by by rewrite H.
  rewrite !split_on_app in E by apply no_slash_host. congruence.
Qed.

Example net_examples :
  host 168427522 = "10.10.0.2"%string /\
  ParseCIDR "10.10.0.7/24" = Some (Cidr 168427520 24) /\
  ParseCIDR "10.10.0/24" = None /\ ParseIPv4 "10.01.0.2" = None /\
  cidr_matches "10.10.0.0/24" 168427522 = true.
Proof. vm_compute. auto. Qed.

(** ** [net.SplitHostPort] *)

Fixpoint cut_at (c : ascii) (s : string) : option (string * string) :=
  match s with
  | EmptyString => None
  | String a s => if Ascii.eqb a c then Some ("", s) else
      match cut_at c s with Some (u, v) => Some (String a u, v) | None => None end
  end%string.

(** The two forms [host:port] and [[host]:port]; the host of the first has no
    colon, and brackets occur nowhere else. *)
Definition SplitHostPort (hostport : string) : option (string * string) :=
  match hostport with
  | String "[" rest =>
      match cut_at "]" rest with
      | Some (h, String ":" port) =>
          if no_char ":" port && no_char "[" rest && no_char "]" port then Some (h, port) else None
      | _ => None
      end
  | _ =>
      match split_on ":" hostport with
      | [h; port] => if no_char "[" hostport && no_char "]" hostport then Some (h, port) else None
      | _ => None
      end
  end.

(** [net.JoinHostPort]. *)
Definition JoinHostPort (h port : string) : string :=
  (if no_char ":" h then h ++ ":" ++ port else "[" ++ h ++ "]:" ++ port)%string.

Lemma cut_at_app c s t : no_char c s = true -> cut_at c (s ++ String c t) = Some (s, t).
Proof.
  induction s as [|a s IH]; cbn [no_char]; [intros _; rewrite append_nil; cbn; by rewrite Ascii.eqb_refl|].
  rewrite append_cons. cbn [cut_at]. intros [Ha Hs]%andb_true_iff.
  destruct (Ascii.eqb a c); [done|]. by rewrite IH.
Qed.

(** What was joined is split again. *)
Lemma SplitHostPort_Join h port :
  no_char "[" h = true -> no_char "]" h = true ->
  no_char ":" port = true -> no_char "[" port = true -> no_char "]" port = true ->
  SplitHostPort (JoinHostPort h port) = Some (h, port).
Proof.
  intros Hh1 Hh2 Hp Hp1 Hp2. unfold JoinHostPort. destruct (no_char ":" h) eqn:Hc.
  - change (":" ++ port)%string with (String ":" port). unfold SplitHostPort.
    rewrite (split_on_app ":" h port), (split_on_no_char ":" port), !no_char_app by done. cbn [no_char].
    rewrite Hh1, Hh2, Hp1, Hp2. destruct h as [|a h]; [done|]. rewrite append_cons.
    cbn [no_char] in Hh1. destruct (Ascii.eqb_spec a "["); [done|].
    by destruct a as [[] [] [] [] [] [] [] []].
  - rewrite append_cons, append_nil. change ("]:" ++ port)%string with (String "]" (String ":" port)).
    unfold SplitHostPort. rewrite cut_at_app, no_char_app by done. cbn [no_char]. by rewrite Hp, Hp1, Hp2, Hh1.
Qed.
