(* ===== verification/Rfc3339.v ===== *)
(** * Instants as text

    The layout [time.RFC3339] of Go's package time, as the sources print and
    read it: [formatUTC] is [t.UTC().Format(time.RFC3339)], [parseRFC3339] is
    [time.Parse(time.RFC3339, s)].  Instants are in nanoseconds since 1970.  The
    calendar is the Gregorian one; that the two conversions between days and
    dates are inverse is checked for each of the 400 years of a cycle and each
    of the 366 days of a year, and the rest follows from these. *)

From S2P Require Import Prelude.
From Stdlib Require Import ZArith Lia Ascii String.
From stdpp Require Import base strings list.

Local Open Scope Z_scope.

(** ** Days and dates *)

Record date := { year : Z; month : Z; day : Z }.

(** The days of a cycle of 400 years that begins on a first of March. *)
Definition cycle : Z := 146097.

(** The day of the cycle gives the year of the cycle, the month counted from
    March, and the day. *)
Definition year_of_cycle (doe : Z) : Z := (doe - doe / 1460 + doe / 36524 - doe / 146096) / 365.
Definition day_of_year (doe yoe : Z) : Z := doe - (365 * yoe + yoe / 4 - yoe / 100).

Definition date_of (days : Z) : date :=
  let z := days + 719468 in
  let doe := z mod cycle in
  let yoe := year_of_cycle doe in
  let doy := day_of_year doe yoe in
  let mp := (5 * doy + 2) / 153 in
  let m := if mp <? 10 then mp + 3 else mp - 9 in
  {| year := yoe + z / cycle * 400 + (if m <=? 2 then 1 else 0); month := m; day := doy - (153 * mp + 2) / 5 + 1 |}.

Definition days_of (d : date) : Z :=
  let y := year d - (if month d <=? 2 then 1 else 0) in
  let mp := if 2 <? month d then month d - 3 else month d + 9 in
  let doy := (153 * mp + 2) / 5 + day d - 1 in
  let yoe := y mod 400 in
  y / 400 * cycle + (yoe * 365 + yoe / 4 - yoe / 100 + doy) - 719468.

Definition leap (y : Z) : bool := (y mod 4 =? 0) && (negb (y mod 100 =? 0) || (y mod 400 =? 0)).

Definition days_in (y m : Z) : Z :=
  if m =? 2 then if leap y then 29 else 28
  else if (m =? 4) || (m =? 6) || (m =? 9) || (m =? 11) then 30 else 31.

Fixpoint all_below (n : nat) (f : Z -> bool) (i : Z) : bool :=
  match n with O => true | S n => f i && all_below n f (i + 1) end.

Lemma all_below_spec n f i j : all_below n f i = true -> i <= j < i + Z.of_nat n -> f j = true.
Proof.
  revert i. induction n as [|n IH]; intros i Ha Hj; [lia|]. cbn [all_below] in Ha. apply andb_true_iff in Ha as [Hf Ha].
  destruct (decide (j = i)) as [->|]; [done|]. apply (IH (i + 1)); [done|lia].
Qed.

(** *** Years of the cycle *)

Definition first_day (y : Z) : Z := 365 * y + y / 4 - y / 100.

Definition last_day (y : Z) : Z := if y =? 399 then cycle - 1 else first_day (y + 1) - 1.

Lemma year_of_cycle_mono a b : 0 <= a <= b -> b < cycle -> year_of_cycle a <= year_of_cycle b.
Proof.
  intros Ha Hb. unfold year_of_cycle, cycle in *. apply Z.div_le_mono; [lia|].
  pose proof (Z.div_mod a 1460 ltac:(lia)). pose proof (Z.mod_pos_bound a 1460 ltac:(lia)).
  pose proof (Z.div_mod b 1460 ltac:(lia)). pose proof (Z.mod_pos_bound b 1460 ltac:(lia)).
  pose proof (Z.div_le_mono a b 36524 ltac:(lia) ltac:(lia)).
  pose proof (Z.div_mod a 146096 ltac:(lia)). pose proof (Z.mod_pos_bound a 146096 ltac:(lia)).
  pose proof (Z.div_mod b 146096 ltac:(lia)). pose proof (Z.mod_pos_bound b 146096 ltac:(lia)). lia.
Qed.

(** What is checked of each of the 400 years: the formula gives it for its first
    and its last day, the next year follows, and February has 29 days in it
    when it is long. *)
Definition year_ok (y : Z) : bool :=
  (year_of_cycle (first_day y) =? y) && (year_of_cycle (last_day y) =? y) && (0 <=? first_day y) && (last_day y <? cycle) &&
  ((y =? 399) || (first_day (y + 1) =? last_day y + 1)) &&
  (last_day y - first_day y =? 364 + (if leap (y + 1) then 1 else 0)).

Lemma years_checked : all_below 400 year_ok 0 = true.
Proof. vm_compute. reflexivity. Qed.

Lemma year_ok_spec y : 0 <= y < 400 ->
  year_of_cycle (first_day y) = y /\ year_of_cycle (last_day y) = y /\ 0 <= first_day y /\ last_day y < cycle /\
  (y = 399 \/ first_day (y + 1) = last_day y + 1) /\ last_day y - first_day y = 364 + (if leap (y + 1) then 1 else 0).
Proof.
  intros Hy. pose proof (all_below_spec 400 year_ok 0 y years_checked ltac:(lia)) as Hok. unfold year_ok in Hok.
  rewrite !andb_true_iff, orb_true_iff, !Z.eqb_eq, Z.leb_le, Z.ltb_lt in Hok. tauto.
Qed.

(** The year the formula gives for a day is the one the day lies in. *)
Lemma year_of_cycle_spec doe : 0 <= doe < cycle ->
  let y := year_of_cycle doe in 0 <= y < 400 /\ first_day y <= doe <= last_day y.
Proof.
  intros Hd. cbv zeta. assert (0 <= year_of_cycle doe < 400) as Hy.
  { pose proof (year_of_cycle_mono 0 doe ltac:(lia) ltac:(lia)) as H1.
    pose proof (year_of_cycle_mono doe (cycle - 1) ltac:(lia) ltac:(lia)) as H2.
    change (year_of_cycle 0) with 0 in H1. change (year_of_cycle (cycle - 1)) with 399 in H2. lia. }
  split; [done|]. split.
  - destruct (Z.le_gt_cases (first_day (year_of_cycle doe)) doe) as [|Hlt]; [done|exfalso].
    destruct (decide (year_of_cycle doe = 0)) as [E|E]; [rewrite E in Hlt; change (first_day 0) with 0 in Hlt; lia|].
    destruct (year_ok_spec (year_of_cycle doe - 1)) as (_ & Hl & _ & Hc & Hn & _); [lia|].
    destruct Hn as [Hn|Hn]; [lia|]. replace (year_of_cycle doe - 1 + 1) with (year_of_cycle doe) in Hn by lia.
    pose proof (year_of_cycle_mono doe (last_day (year_of_cycle doe - 1)) ltac:(lia) Hc) as Hm. lia.
  - destruct (Z.le_gt_cases doe (last_day (year_of_cycle doe))) as [|Hlt]; [done|exfalso].
    destruct (year_ok_spec (year_of_cycle doe) Hy) as (_ & _ & _ & _ & [Hn|Hn] & _).
    + rewrite Hn in Hlt. change (last_day 399) with (cycle - 1) in Hlt. lia.
    + destruct (decide (year_of_cycle doe = 399)) as [E|E]; [rewrite E in Hlt; change (last_day 399) with (cycle - 1) in Hlt; lia|].
      destruct (year_ok_spec (year_of_cycle doe + 1)) as (Hf & _ & H0 & _); [lia|].
      pose proof (year_of_cycle_mono (first_day (year_of_cycle doe + 1)) doe ltac:(lia) ltac:(lia)) as Hm. lia.
Qed.

(** *** Days of a year *)

Definition month_of (doy : Z) : Z := let mp := (5 * doy + 2) / 153 in if mp <? 10 then mp + 3 else mp - 9.
Definition day_of (doy : Z) : Z := doy - (153 * ((5 * doy + 2) / 153) + 2) / 5 + 1.

(** What is checked of each of the 366 days, the last of which is a 29th of
    February. *)
Definition doy_ok (doy : Z) : bool :=
  let m := month_of doy in let d := day_of doy in
  (1 <=? m) && (m <=? 12) && (1 <=? d) &&
  ((153 * (if 2 <? m then m - 3 else m + 9) + 2) / 5 + d - 1 =? doy) &&
  (d <=? (if m =? 2 then if doy =? 365 then 29 else 28 else days_in 1 m)).

Lemma doys_checked : all_below 366 doy_ok 0 = true.
Proof. vm_compute. reflexivity. Qed.

Lemma doy_ok_spec doy : 0 <= doy <= 365 ->
  1 <= month_of doy <= 12 /\ 1 <= day_of doy /\
  (153 * (if 2 <? month_of doy then month_of doy - 3 else month_of doy + 9) + 2) / 5 + day_of doy - 1 = doy /\
  day_of doy <= (if month_of doy =? 2 then if doy =? 365 then 29 else 28 else days_in 1 (month_of doy)).
Proof.
  intros Hd. pose proof (all_below_spec 366 doy_ok 0 doy doys_checked ltac:(lia)) as Hok. unfold doy_ok in Hok.
  rewrite !andb_true_iff, Z.eqb_eq, !Z.leb_le in Hok. tauto.
Qed.

Lemma leap_shift y k : leap (y + 400 * k) = leap y.
Proof.
  unfold leap. replace (y + 400 * k) with (y + k * 100 * 4) at 1 by lia. rewrite Z_mod_plus_full.
  replace (y + 400 * k) with (y + k * 4 * 100) at 1 by lia. rewrite Z_mod_plus_full.
  replace (y + 400 * k) with (y + k * 400) by lia. by rewrite Z_mod_plus_full.
Qed.

(** Every day has a date of the calendar, and only one. *)
Lemma date_of_days days :
  let d := date_of days in
  days_of d = days /\ 1 <= month d <= 12 /\ 1 <= day d <= days_in (year d) (month d).
Proof.
  assert (exists z, days = z - 719468) as [z ->] by (exists (days + 719468); lia).
  cbv zeta. unfold date_of, days_of. cbn [year month day]. replace (z - 719468 + 719468) with z by lia.
  pose proof (Z.div_mod z cycle ltac:(unfold cycle; lia)) as Hz. pose proof (Z.mod_pos_bound z cycle ltac:(unfold cycle; lia)) as Hdoe.
  revert Hz Hdoe. generalize (z mod cycle) (z / cycle).
  intros doe k Hz Hdoe. destruct (year_of_cycle_spec doe Hdoe) as [Hy Hin]. revert Hy Hin. generalize (year_of_cycle doe). intros y Hy Hin.
  destruct (year_ok_spec y Hy) as (_ & _ & _ & _ & _ & Hlen).
  assert (day_of_year doe y = doe - first_day y) as -> by (unfold day_of_year, first_day; lia).
  remember (doe - first_day y) as doy eqn:Edoy. change ((if (5 * doy + 2) / 153 <? 10 then _ else _)) with (month_of doy).
  change (doy - (153 * ((5 * doy + 2) / 153) + 2) / 5 + 1) with (day_of doy).
  assert (0 <= doy <= 364 + (if leap (y + 1) then 1 else 0)) as Hdoy by lia.
  destruct (doy_ok_spec doy) as (Hm & Hd1 & Hinv & Hd2); [destruct (leap (y + 1)); lia|].
  replace (y + k * 400 + (if month_of doy <=? 2 then 1 else 0) - (if month_of doy <=? 2 then 1 else 0)) with (y + k * 400) by lia.
  rewrite Z_mod_plus_full, Z.div_add, Z.mod_small, Z.div_small by lia. split_and!; [|lia|lia|lia|].
  - unfold first_day in Edoy. lia.
  - unfold days_in in *. destruct (Z.eqb_spec (month_of doy) 2) as [E2|E2]; [|exact Hd2]. rewrite E2 in *. change (2 <=? 2) with true. cbv iota.
    replace (y + k * 400 + 1) with (y + 1 + 400 * k) by lia. rewrite leap_shift.
    destruct (Z.eqb_spec doy 365) as [E3|E3]; destruct (leap (y + 1)); lia.
Qed.

(** ** Text *)

Definition second_ns : Z := 1000000000.

Definition digit_char (n : Z) : ascii := ascii_of_nat (Z.to_nat (48 + n)).

(** [k] digits, with leading zeros. *)
Fixpoint padded (k : nat) (n : Z) : string :=
  match k with
  | O => ""
  | S k => String (digit_char (n / 10 ^ Z.of_nat k mod 10)) (padded k n)
  end.

(** The number that [k] digits at the front of a text give, and the rest. *)
Fixpoint number (k : nat) (acc : Z) (s : string) : option (Z * string) :=
  match k with
  | O => Some (acc, s)
  | S k => match s with
           | String c s => if is_digit c then number k (acc * 10 + digit_val c) s else None
           | EmptyString => None
           end
  end.

Definition literal (c : ascii) (s : string) : option string :=
  match s with String x s => if Ascii.eqb x c then Some s else None | EmptyString => None end.

(** [t.UTC().Format(time.RFC3339)], for years of four digits. *)
Definition formatUTC (t : Z) : string :=
  let s := t / second_ns in
  let d := date_of (s / 86400) in
  let r := s mod 86400 in
  (padded 4 (year d) ++ "-" ++ padded 2 (month d) ++ "-" ++ padded 2 (day d) ++ "T" ++
   padded 2 (r / 3600) ++ ":" ++ padded 2 (r mod 3600 / 60) ++ ":" ++ padded 2 (r mod 60) ++ "Z")%string.

(** The digits of a fraction: nanoseconds, and the rest.  Digits after the
    ninth are dropped. *)
Fixpoint fraction (scale : Z) (s : string) : Z * string :=
  match s with
  | String c r => if is_digit c then let '(n, r) := fraction (scale / 10) r in (digit_val c * scale + n, r) else (0, s)
  | EmptyString => (0, s)
  end.

Definition optional_fraction (s : string) : option (Z * string) :=
  match s with
  | String c (String d r) =>
      if (Ascii.eqb c "." || Ascii.eqb c ",") && is_digit d then Some (fraction (second_ns / 10) (String d r))
      else Some (0, s)
  | _ => Some (0, s)
  end.

(** The offset from UTC in seconds; nothing may follow. *)
Definition zone (s : string) : option Z :=
  match s with
  | String c r =>
      if Ascii.eqb c "Z" then match r with EmptyString => Some 0 | _ => None end
      else if Ascii.eqb c "+" || Ascii.eqb c "-" then
        '(hh, r) ← number 2 0 r; r ← literal ":" r; '(mm, r) ← number 2 0 r;
        match r with
        | EmptyString => if (hh <=? 24) && (mm <=? 60) then Some ((if Ascii.eqb c "-" then -1 else 1) * (hh * 3600 + mm * 60)) else None
        | _ => None
        end
      else None
  | EmptyString => None
  end.

(** [time.Parse(time.RFC3339, s)]. *)
Definition parseRFC3339 (s : string) : option Z :=
  '(y, s) ← number 4 0 s; s ← literal "-" s; '(m, s) ← number 2 0 s; s ← literal "-" s; '(d, s) ← number 2 0 s;
  s ← literal "T" s; '(hh, s) ← number 2 0 s; s ← literal ":" s; '(mm, s) ← number 2 0 s; s ← literal ":" s;
  '(ss, s) ← number 2 0 s; '(ns, s) ← optional_fraction s; off ← zone s;
  if (1 <=? m) && (m <=? 12) && (1 <=? d) && (d <=? days_in y m) && (hh <=? 23) && (mm <=? 59) && (ss <=? 59)
  then Some ((days_of {| year := y; month := m; day := d |} * 86400 + hh * 3600 + mm * 60 + ss - off) * second_ns + ns)
  else None.

Lemma is_digit_char n : 0 <= n <= 9 -> is_digit (digit_char n) = true /\ digit_val (digit_char n) = n.
Proof.
  intros Hn. pose proof (all_below_spec 10 (fun i => is_digit (digit_char i) && (digit_val (digit_char i) =? i)) 0 n eq_refl ltac:(lia)) as Hd.
  by apply andb_true_iff in Hd as [Hd ?%Z.eqb_eq].
Qed.

Lemma number_padded k n rest acc : 0 <= n ->
  number k acc (padded k n ++ rest)%string = Some (acc * 10 ^ Z.of_nat k + n mod 10 ^ Z.of_nat k, rest).
Proof.
  intros Hn. revert acc. induction k as [|k IH]; intros acc; cbn [number padded].
  - change ("" ++ rest)%string with rest. rewrite Z.mod_1_r. do 2 f_equal. lia.
  - change (String ?c ?s ++ rest)%string with (String c (s ++ rest)). cbv iota.
    destruct (is_digit_char (n / 10 ^ Z.of_nat k mod 10)) as [-> ->].
    { pose proof (Z.mod_pos_bound (n / 10 ^ Z.of_nat k) 10 ltac:(lia)). lia. }
    rewrite IH. do 2 f_equal. rewrite Nat2Z.inj_succ, Z.pow_succ_r by lia.
    rewrite (Z.mul_comm 10), Z.rem_mul_r by (try apply Z.pow_nonzero; lia). lia.
Qed.

Lemma number_small k n rest : 0 <= n < 10 ^ Z.of_nat k -> number k 0 (padded k n ++ rest)%string = Some (n, rest).
Proof. intros Hn. rewrite number_padded by lia. by rewrite Z.mod_small by lia. Qed.

Lemma literal_app c rest : literal c (String c "" ++ rest)%string = Some rest.
Proof. change (String c "" ++ rest)%string with (String c rest). cbn [literal]. by rewrite Ascii.eqb_refl. Qed.

(** A separator after a number. *)
Ltac text_step := cbn [mbind option_bind]; rewrite literal_app; cbn [mbind option_bind].

(** The text of an instant is read back as that instant, to the second. *)
Theorem rfc3339_roundtrip t (Hy : 0 <= year (date_of (t / second_ns / 86400)) <= 9999) :
  parseRFC3339 (formatUTC t) = Some (t / second_ns * second_ns).
Proof.
  unfold parseRFC3339, formatUTC. set (s := t / second_ns) in *. set (d := date_of (s / 86400)) in *. set (r := s mod 86400).
  assert (0 <= r < 86400) as Hr by (apply Z.mod_pos_bound; lia).
  destruct (date_of_days (s / 86400)) as (Hdays & Hm & Hd). fold d in Hdays, Hm, Hd.
  assert (day d <= 31) as Hd31 by (revert Hd; unfold days_in; repeat case_match; lia).
  pose proof (Z.mod_pos_bound r 60 ltac:(lia)) as Hs. pose proof (Z.mod_pos_bound r 3600 ltac:(lia)) as Hmm.
  assert (0 <= r mod 3600 / 60 <= 59) as Hmin by (split; [apply Z.div_pos; lia|apply Z.lt_succ_r, Z.div_lt_upper_bound; lia]).
  assert (0 <= r / 3600 <= 23) as Hh by (split; [apply Z.div_pos; lia|apply Z.lt_succ_r, Z.div_lt_upper_bound; lia]).
  rewrite number_small by (change (10 ^ Z.of_nat 4) with 10000; change (10 ^ Z.of_nat 2) with 100; lia). text_step.
  rewrite number_small by (change (10 ^ Z.of_nat 4) with 10000; change (10 ^ Z.of_nat 2) with 100; lia). text_step.
  rewrite number_small by (change (10 ^ Z.of_nat 4) with 10000; change (10 ^ Z.of_nat 2) with 100; lia). text_step.
  rewrite number_small by (change (10 ^ Z.of_nat 4) with 10000; change (10 ^ Z.of_nat 2) with 100; lia). text_step.
  rewrite number_small by (change (10 ^ Z.of_nat 4) with 10000; change (10 ^ Z.of_nat 2) with 100; lia). text_step.
  rewrite number_small by (change (10 ^ Z.of_nat 4) with 10000; change (10 ^ Z.of_nat 2) with 100; lia). cbn [mbind option_bind optional_fraction zone Ascii.eqb Bool.eqb andb orb].
  rewrite !(proj2 (Z.leb_le _ _)) by lia. cbn [andb]. f_equal.
  replace {| year := year d; month := month d; day := day d |} with d by (by destruct d). rewrite Hdays.
  pose proof (Z.div_mod s 86400 ltac:(lia)) as E1. fold r in E1.
  pose proof (Z.div_mod r 3600 ltac:(lia)) as E2. pose proof (Z.div_mod (r mod 3600) 60 ltac:(lia)) as E3.
  assert ((r mod 3600) mod 60 = r mod 60) as E4.
  { symmetry. rewrite E2 at 1. replace (3600 * (r / 3600) + r mod 3600) with (r mod 3600 + (60 * (r / 3600)) * 60) by lia.
    apply Z_mod_plus_full. }
  rewrite E4 in E3. lia.
Qed.

Lemma rfc3339_roundtrip_witness : parseRFC3339 (formatUTC 1709210096123456789) = Some 1709210096000000000 /\
  formatUTC 1709210096123456789 = "2024-02-29T12:34:56Z"%string.
Proof.
  split; [|vm_compute; reflexivity]. apply (rfc3339_roundtrip 1709210096123456789). vm_compute. split; discriminate.
Defined.
