(* ===== verification/Schema.v ===== *)
(** * The relational state

    The tables of [migrations/] that the modelled code reads and writes, one
    record per row type with the columns in use.  A table is the list of its
    rows.  UUIDs and texts are strings, timestamps are instants
    in nanoseconds, [inet] and [cidr] columns are those of file [Net]. *)

From S2P Require Import Prelude Net.
From Stdlib Require Import ZArith Lia Ascii String.
From stdpp Require Import base gmap strings list sorting.

Local Open Scope Z_scope.

Record user := {
  u_id : string;
  u_username : string;
  u_email : string;
  u_password_hash : option string;
  u_first_name : string;
  u_last_name : string;
  u_phone : option string;
  u_is_active : bool;
  u_is_admin : bool;
  u_mfa_enabled : bool;
  u_created_at : Z;
  u_updated_at : Z;
}.

Record group := {
  gr_id : string;
  gr_name : string;
  gr_description : string;
  gr_is_system : bool;
  gr_created_at : Z;
}.

Record device := {
  d_id : string;
  d_user_id : string;
  d_name : string;
  d_pubkey : string;
  d_privkey : option string;
  d_assigned_ip : Z;
  d_is_approved : bool;
  d_last_handshake : option Z;
  d_network_id : option string;
  d_created_at : Z;
  d_updated_at : Z;
}.

Record network := {
  n_id : string;
  n_name : string;
  n_address : cidr;
  n_tunnel_cidr : option cidr;
  n_dns : list string;
  n_port : Z;
  n_keepalive : Z;
  n_is_active : bool;
  n_created_at : Z;
  n_updated_at : Z;
}.

Record gateway := {
  g_id : string;
  g_network_id : option string;
  g_name : string;
  g_public_ip : option Z;
  g_pubkey : string;
  g_privkey : option string;
  g_endpoint : string;
  g_is_active : bool;
  g_priority : Z;
  g_token_hash : string;
  g_last_seen : option Z;
  g_health_status : string;
  g_consecutive_failures : Z;
  g_created_at : Z;
  g_updated_at : Z;
}.

(** [network_acls.allowed_ips] as an array of blocks. *)
Record network_acl := {
  a_id : string;
  a_network_id : string;
  a_group_id : string;
  a_allowed_ips : list cidr;
}.

Record posture_row := {
  dp_device_id : string;
  dp_os_type : string;
  dp_os_version : string;
  dp_disk_encrypted : bool;
  dp_screen_lock : bool;
  dp_antivirus : bool;
  dp_firewall : bool;
  dp_score : Z;
  dp_checked_at : Z;
}.

Record trust_row := {
  ts_device_id : string;
  ts_score : Z;
  ts_level : string;
  ts_violations : list string;
  ts_evaluated_at : Z;
}.

(** The JSON object of [ztna_policies.conditions]; every key is optional. *)
Record conditions := {
  MinTrustScore : option Z;
  CondDiskEncryption : option bool;
  CondScreenLock : option bool;
  CondAntivirus : option bool;
  CondFirewall : option bool;
  CondMFA : option bool;
}.

(** [p_conditions] is [None] when the stored JSON does not decode into the
    struct of the code. *)
Record ztna_policy := {
  p_conditions : option conditions;
  p_action : string;
  p_network_ids : list string;
  p_is_active : bool;
  p_priority : Z;
}.

Record smart_route_entry := {
  e_smart_route_id : string;
  e_entry_type : string;
  e_value : string;
  e_action : string;
  e_priority : Z;
}.

Record db := {
  users : list user;
  devices : list device;
  networks : list network;
  gateways : list gateway;
  gateway_networks : list (string * string);   (* gateway_id, network_id *)
  groups : list group;
  user_groups : list (string * string);        (* user_id, group_id *)
  network_acls : list network_acl;
  device_posture : list posture_row;
  device_trust_scores : list trust_row;
  trust_auto : option (bool * bool);  (* auto_restrict_below_medium, auto_block_below_low *)
  ztna_policies : list ztna_policy;
  smart_routes : list (string * bool);          (* id, is_active *)
  smart_route_entries : list smart_route_entry;
  network_smart_routes : list (string * string); (* network_id, smart_route_id *)
  roles : list (string * string);               (* id, name *)
  user_roles : list (string * string);          (* user_id, role_id *)
  logins : list (string * Z);                   (* sessions: user_id, created_at *)
}.

(** One update function per table. *)
Definition set_devices (d : db) (l : list device) : db := {|
  users := users d; devices := l; networks := networks d; gateways := gateways d;
  gateway_networks := gateway_networks d; groups := groups d; user_groups := user_groups
  d; network_acls := network_acls d; device_posture := device_posture d;
  device_trust_scores := device_trust_scores d; trust_auto := trust_auto d;
  ztna_policies := ztna_policies d; smart_routes := smart_routes d; smart_route_entries
  := smart_route_entries d; network_smart_routes := network_smart_routes d; roles :=
  roles d; user_roles := user_roles d; logins := logins d |}.

Definition set_trust_scores (d : db) (l : list trust_row) : db := {|
  users := users d; devices := devices d; networks := networks d; gateways := gateways
  d; gateway_networks := gateway_networks d; groups := groups d; user_groups :=
  user_groups d; network_acls := network_acls d; device_posture := device_posture d;
  device_trust_scores := l; trust_auto := trust_auto d; ztna_policies := ztna_policies
  d; smart_routes := smart_routes d; smart_route_entries := smart_route_entries d;
  network_smart_routes := network_smart_routes d; roles := roles d; user_roles :=
  user_roles d; logins := logins d |}.

Definition set_gateways (d : db) (l : list gateway) : db := {|
  users := users d; devices := devices d; networks := networks d; gateways := l;
  gateway_networks := gateway_networks d; groups := groups d; user_groups := user_groups
  d; network_acls := network_acls d; device_posture := device_posture d;
  device_trust_scores := device_trust_scores d; trust_auto := trust_auto d;
  ztna_policies := ztna_policies d; smart_routes := smart_routes d; smart_route_entries
  := smart_route_entries d; network_smart_routes := network_smart_routes d; roles :=
  roles d; user_roles := user_roles d; logins := logins d |}.

Definition set_users (d : db) (l : list user) : db := {|
  users := l; devices := devices d; networks := networks d; gateways := gateways d;
  gateway_networks := gateway_networks d; groups := groups d; user_groups := user_groups
  d; network_acls := network_acls d; device_posture := device_posture d;
  device_trust_scores := device_trust_scores d; trust_auto := trust_auto d;
  ztna_policies := ztna_policies d; smart_routes := smart_routes d; smart_route_entries
  := smart_route_entries d; network_smart_routes := network_smart_routes d; roles :=
  roles d; user_roles := user_roles d; logins := logins d |}.

Definition set_networks (d : db) (l : list network) : db := {|
  users := users d; devices := devices d; networks := l; gateways := gateways d;
  gateway_networks := gateway_networks d; groups := groups d; user_groups := user_groups
  d; network_acls := network_acls d; device_posture := device_posture d;
  device_trust_scores := device_trust_scores d; trust_auto := trust_auto d;
  ztna_policies := ztna_policies d; smart_routes := smart_routes d; smart_route_entries
  := smart_route_entries d; network_smart_routes := network_smart_routes d; roles :=
  roles d; user_roles := user_roles d; logins := logins d |}.

Definition set_gateway_networks (d : db) (l : list (string * string)) : db := {|
  users := users d; devices := devices d; networks := networks d; gateways := gateways
  d; gateway_networks := l; groups := groups d; user_groups := user_groups d;
  network_acls := network_acls d; device_posture := device_posture d;
  device_trust_scores := device_trust_scores d; trust_auto := trust_auto d;
  ztna_policies := ztna_policies d; smart_routes := smart_routes d; smart_route_entries
  := smart_route_entries d; network_smart_routes := network_smart_routes d; roles :=
  roles d; user_roles := user_roles d; logins := logins d |}.

Definition set_groups (d : db) (l : list group) : db := {|
  users := users d; devices := devices d; networks := networks d; gateways := gateways
  d; gateway_networks := gateway_networks d; groups := l; user_groups := user_groups d;
  network_acls := network_acls d; device_posture := device_posture d;
  device_trust_scores := device_trust_scores d; trust_auto := trust_auto d;
  ztna_policies := ztna_policies d; smart_routes := smart_routes d; smart_route_entries
  := smart_route_entries d; network_smart_routes := network_smart_routes d; roles :=
  roles d; user_roles := user_roles d; logins := logins d |}.

Definition set_user_groups (d : db) (l : list (string * string)) : db := {|
  users := users d; devices := devices d; networks := networks d; gateways := gateways
  d; gateway_networks := gateway_networks d; groups := groups d; user_groups := l;
  network_acls := network_acls d; device_posture := device_posture d;
  device_trust_scores := device_trust_scores d; trust_auto := trust_auto d;
  ztna_policies := ztna_policies d; smart_routes := smart_routes d; smart_route_entries
  := smart_route_entries d; network_smart_routes := network_smart_routes d; roles :=
  roles d; user_roles := user_roles d; logins := logins d |}.

Definition set_network_acls (d : db) (l : list network_acl) : db := {|
  users := users d; devices := devices d; networks := networks d; gateways := gateways
  d; gateway_networks := gateway_networks d; groups := groups d; user_groups :=
  user_groups d; network_acls := l; device_posture := device_posture d;
  device_trust_scores := device_trust_scores d; trust_auto := trust_auto d;
  ztna_policies := ztna_policies d; smart_routes := smart_routes d; smart_route_entries
  := smart_route_entries d; network_smart_routes := network_smart_routes d; roles :=
  roles d; user_roles := user_roles d; logins := logins d |}.

Definition set_user_roles (d : db) (l : list (string * string)) : db := {|
  users := users d; devices := devices d; networks := networks d; gateways := gateways
  d; gateway_networks := gateway_networks d; groups := groups d; user_groups :=
  user_groups d; network_acls := network_acls d; device_posture := device_posture d;
  device_trust_scores := device_trust_scores d; trust_auto := trust_auto d;
  ztna_policies := ztna_policies d; smart_routes := smart_routes d; smart_route_entries
  := smart_route_entries d; network_smart_routes := network_smart_routes d; roles :=
  roles d; user_roles := l; logins := logins d |}.

Definition set_device_posture (d : db) (l : list posture_row) : db := {|
  users := users d; devices := devices d; networks := networks d; gateways := gateways
  d; gateway_networks := gateway_networks d; groups := groups d; user_groups :=
  user_groups d; network_acls := network_acls d; device_posture := l;
  device_trust_scores := device_trust_scores d; trust_auto := trust_auto d;
  ztna_policies := ztna_policies d; smart_routes := smart_routes d; smart_route_entries
  := smart_route_entries d; network_smart_routes := network_smart_routes d; roles :=
  roles d; user_roles := user_roles d; logins := logins d |}.

Definition set_ztna_policies (d : db) (l : list ztna_policy) : db := {|
  users := users d; devices := devices d; networks := networks d; gateways := gateways
  d; gateway_networks := gateway_networks d; groups := groups d; user_groups :=
  user_groups d; network_acls := network_acls d; device_posture := device_posture d;
  device_trust_scores := device_trust_scores d; trust_auto := trust_auto d;
  ztna_policies := l; smart_routes := smart_routes d; smart_route_entries :=
  smart_route_entries d; network_smart_routes := network_smart_routes d; roles := roles
  d; user_roles := user_roles d; logins := logins d |}.

Definition set_trust_auto (d : db) (l : option (bool * bool)) : db := {|
  users := users d; devices := devices d; networks := networks d; gateways := gateways
  d; gateway_networks := gateway_networks d; groups := groups d; user_groups :=
  user_groups d; network_acls := network_acls d; device_posture := device_posture d;
  device_trust_scores := device_trust_scores d; trust_auto := l; ztna_policies :=
  ztna_policies d; smart_routes := smart_routes d; smart_route_entries :=
  smart_route_entries d; network_smart_routes := network_smart_routes d; roles := roles
  d; user_roles := user_roles d; logins := logins d |}.

Definition set_smart_routes (d : db) (l : list (string * bool)) : db := {|
  users := users d; devices := devices d; networks := networks d; gateways := gateways
  d; gateway_networks := gateway_networks d; groups := groups d; user_groups :=
  user_groups d; network_acls := network_acls d; device_posture := device_posture d;
  device_trust_scores := device_trust_scores d; trust_auto := trust_auto d;
  ztna_policies := ztna_policies d; smart_routes := l; smart_route_entries :=
  smart_route_entries d; network_smart_routes := network_smart_routes d; roles := roles
  d; user_roles := user_roles d; logins := logins d |}.

Definition set_smart_route_entries (d : db) (l : list smart_route_entry) : db := {|
  users := users d; devices := devices d; networks := networks d; gateways := gateways
  d; gateway_networks := gateway_networks d; groups := groups d; user_groups :=
  user_groups d; network_acls := network_acls d; device_posture := device_posture d;
  device_trust_scores := device_trust_scores d; trust_auto := trust_auto d;
  ztna_policies := ztna_policies d; smart_routes := smart_routes d; smart_route_entries
  := l; network_smart_routes := network_smart_routes d; roles := roles d; user_roles :=
  user_roles d; logins := logins d |}.

Definition set_network_smart_routes (d : db) (l : list (string * string)) : db := {|
  users := users d; devices := devices d; networks := networks d; gateways := gateways
  d; gateway_networks := gateway_networks d; groups := groups d; user_groups :=
  user_groups d; network_acls := network_acls d; device_posture := device_posture d;
  device_trust_scores := device_trust_scores d; trust_auto := trust_auto d;
  ztna_policies := ztna_policies d; smart_routes := smart_routes d; smart_route_entries
  := smart_route_entries d; network_smart_routes := l; roles := roles d; user_roles :=
  user_roles d; logins := logins d |}.

Definition set_logins (d : db) (l : list (string * Z)) : db := {|
  users := users d; devices := devices d; networks := networks d; gateways := gateways
  d; gateway_networks := gateway_networks d; groups := groups d; user_groups :=
  user_groups d; network_acls := network_acls d; device_posture := device_posture d;
  device_trust_scores := device_trust_scores d; trust_auto := trust_auto d;
  ztna_policies := ztna_policies d; smart_routes := smart_routes d; smart_route_entries
  := smart_route_entries d; network_smart_routes := network_smart_routes d; roles :=
  roles d; user_roles := user_roles d; logins := l |}.

(** The row constraints of [devices] that the migrations declare: primary key,
    [UNIQUE (wireguard_pubkey)], [devices_assigned_ip_unique], and IPv4
    addresses. *)
Record devices_ok (l : list device) : Prop := {
  dev_id_unique : NoDup (map d_id l);
  dev_pubkey_unique : NoDup (map d_pubkey l);
  dev_ip_unique : NoDup (map d_assigned_ip l);
  dev_ip_range : Forall (fun d => 0 <= d_assigned_ip d < 2^32) l;
}.

(** Primary keys of the other tables the queries join on, the foreign key
    [devices.user_id], and well-formed blocks. *)
Record db_ok (d : db) : Prop := {
  ok_devices : devices_ok (devices d);
  ok_users : NoDup (map u_id (users d));
  ok_owners : forall dev, dev ∈ devices d -> exists u, u ∈ users d /\ u_id u = d_user_id dev;
  ok_networks : Forall (fun n => cidr_wf (n_address n)) (networks d);
}.

(** ** Queries *)

(** [ORDER BY key DESC LIMIT 1]. *)
Definition latest {A} (key : A -> Z) (l : list A) : option A :=
  fold_right (fun x acc =>
    match acc with
    | Some y => if key y <=? key x then Some x else Some y
    | None => Some x
    end) None l.

(** A lookup by primary key finds the row. *)
Lemma find_by_key {A} (key : A -> string) (l : list A) x :
  NoDup (map key l) -> x ∈ l -> List.find (fun y => String.eqb (key y) (key x)) l = Some x.
Proof.
  intros Hnd Hx. destruct (List.find _ l) as [y|] eqn:E.
  - apply find_some in E as [Hy%list_elem_of_In E%String.eqb_eq]. f_equal.
    by eapply NoDup_map_inj.
  - apply list_elem_of_In in Hx. pose proof (find_none _ _ E x Hx) as Hn. simpl in Hn.
    by rewrite String.eqb_refl in Hn.
Qed.

Lemma latest_None {A} (key : A -> Z) l : latest key l = None <-> l = [].
Proof. destruct l as [|x l]; simpl; [done|]. split; [|done]. repeat case_match; done. Qed.

Lemma latest_Some {A} (key : A -> Z) l x :
  latest key l = Some x -> x ∈ l /\ forall y, y ∈ l -> key y <= key x.
Proof.
  revert x. induction l as [|z l IH]; intros x; simpl; [done|].
  destruct (latest key l) as [y|] eqn:E.
  - destruct (IH y eq_refl) as [Hin Hmax].
    destruct (Z.leb_spec (key y) (key z)); intros [= <-]; rewrite elem_of_cons;
      (split; [by auto|]).
    + intros w [->|Hw]%elem_of_cons; [lia|]. specialize (Hmax w Hw). lia.
    + intros w [->|Hw]%elem_of_cons; [lia|auto].
  - apply latest_None in E as ->. intros [= <-]. split; [by left|].
    intros w [->|Hw]%elem_of_cons; [lia|]. by apply not_elem_of_nil in Hw.
Qed.
