(* ===== verification/Http.v ===== *)
(** * Request handlers

    The shape the HTTP handlers of [internal/core/handler] share: a sequence of
    checks and database statements in which any step may refuse the request
    and return early.  A handler is a computation [H] over the tables ([S]) and
    the notifications it makes ([E]); a statement either
    succeeds with new tables or fails with one of the errors the code tells
    apart.  The second half is the logic of such computations: weakest
    preconditions, invariants, and handlers that leave no trace when they
    refuse. *)

From S2P Require Import Prelude.
From Stdlib Require Import ZArith Lia Ascii String.
From stdpp Require Import base gmap strings list.

Local Open Scope Z_scope.

(** ** Replies and statements *)

(** [respondJSON] and [respondError]. *)
Inductive reply (B : Type) :=
| Reply (status : Z) (body : B)
| Failure (status : Z) (message : string).
Arguments Reply {B} status body.
Arguments Failure {B} status message.

(** An early return: the arguments of [respondError]. *)
Definition refusal : Type := Z * string.

Definition reply_status {B} (r : reply B) : Z :=
  match r with Reply s _ | Failure s _ => s end.

(** What the code distinguishes of an error: [pgx.ErrNoRows], a violated
    unique constraint (23505), a violated foreign key (23503, with its name
    where the code reads it), an input that does not parse (22P02), and the
    rest. *)
Inductive sql_error :=
| ErrNoRows
| ErrUnique (constraint : string)
| ErrForeignKey
| ErrForeignKeyOn (constraint : string)
| ErrBadText
| ErrOther.

(** A statement on the tables [S] that returns an [A]. *)
Definition stmt (S A : Type) : Type := S -> (A * S) + sql_error.

(** [strings.Contains]. *)
Fixpoint strings_Contains (s sub : string) : bool :=
  match cut_prefix s sub with
  | Some _ => true
  | None => match s with EmptyString => false | String _ s => strings_Contains s sub end
  end.

(** ** The computation of a handler *)

Section monad.
Context {S E : Type}.

Definition H (A : Type) : Type := S -> (A + refusal) * S * list E.

Definition ret {A} (a : A) : H A := fun s => (inl a, s, []).

Definition bind {A C} (m : H A) (k : A -> H C) : H C := fun s =>
  match m s with
  | (inl a, s1, es) => match k a s1 with (x, s2, fs) => (x, s2, es ++ fs) end
  | (inr r, s1, es) => (inr r, s1, es)
  end.

(** An early return. *)
Definition stop {A} (r : refusal) : H A := fun s => (inr r, s, []).
Definition respondError {A} (status : Z) (message : string) : H A := stop (status, message).
(** The answer at the end of a handler. *)
Definition respondJSON {B} (status : Z) (body : B) : H (Z * B) := ret (status, body).

Definition require (b : bool) (status : Z) (message : string) : H unit :=
  if b then ret tt else respondError status message.

Definition the {A} (o : option A) (status : Z) (message : string) : H A :=
  match o with Some a => ret a | None => respondError status message end.

(** A query that only reads. *)
Definition query {A} (fails : bool) (f : S -> A) (status : Z) (message : string) : H A :=
  if fails then respondError status message else fun s => (inl (f s), s, []).

Definition asks {A} (f : S -> A) : H A := fun s => (inl (f s), s, []).

(** A statement whose error the code answers. *)
Definition exec {A} (fails : bool) (st : stmt S A) (onerr : sql_error -> refusal) : H A := fun s =>
  match (if fails then inr ErrOther else st s) with
  | inl (a, s') => (inl a, s', [])
  | inr e => (inr (onerr e), s, [])
  end.

(** A statement whose error is only logged. *)
Definition attempt {A} (fails : bool) (st : stmt S A) : H (option A) := fun s =>
  match (if fails then inr ErrOther else st s) with
  | inl (a, s') => (inl (Some a), s', [])
  | inr _ => (inl None, s, [])
  end.

(** A deletion that affects no row changes nothing and answers 404. *)
Definition affected (st : stmt S nat) : stmt S nat := fun s =>
  match st s with inl (O, _) => inr ErrNoRows | r => r end.

Definition deleting (fails : bool) (st : stmt S nat) (failed missing : string) : H nat :=
  exec fails (affected st) (fun e => match e with ErrNoRows => (404, missing) | _ => (500, failed) end).

(** Notifications, computed from the tables at this point. *)
Definition emit (f : S -> list E) : H unit := fun s => (inl tt, s, f s).

Definition when (b : bool) (m : H unit) : H unit := if b then m else ret tt.

(** What other transactions make of the tables between two statements. *)
Definition interfere (env : S -> S) : H unit := fun s => (inl tt, env s, []).

(** A query whose rows are scanned one by one: the query, the scan of a row and
    the iteration can fail. *)
Definition fetch {A} (fails : nat -> bool) (k : nat) (f : S -> list A) (queryMsg scanMsg iterMsg : string)
  : H (list A) :=
  bind (query (fails k) f 500 queryMsg) (fun l =>
  bind (require (match l with [] => true | _ => negb (fails (k + 1)%nat) end) 500 scanMsg) (fun _ =>
  bind (require (negb (fails (k + 2)%nat)) 500 iterMsg) (fun _ => ret l))).

(** A transaction with [defer tx.Rollback]: an early return undoes it. *)
Definition atomically {A} (m : H A) : H A := fun s =>
  match m s with
  | (inl a, s', es) => (inl a, s', es)
  | (inr r, _, es) => (inr r, s, es)
  end.

(** A loop whose body may return early. *)
Fixpoint forM {A} (l : list A) (body : A -> H unit) : H unit :=
  match l with
  | [] => ret tt
  | x :: l => bind (body x) (fun _ => forM l body)
  end.

Definition run {B} (m : H (Z * B)) (s : S) : reply B * S * list E :=
  match m s with
  | (inl (st, b), s', es) => (Reply st b, s', es)
  | (inr (st, msg), s', es) => (Failure st msg, s', es)
  end.
End monad.

Arguments H : clear implicits.

Notation "'let!' x ':=' m 'in' k" := (bind m (fun x => k))
  (at level 10, x pattern, m at level 100, k at level 200,
   format "'[v' 'let!'  x  ':='  m  'in' '/' k ']'") : outpost_scope.
Notation "'do!' m 'in' k" := (bind m (fun _ => k))
  (at level 10, m at level 100, k at level 200,
   format "'[v' 'do!'  m  'in' '/' k ']'") : outpost_scope.

(** ** Weakest preconditions *)

Section logic.
Context {S E : Type}.
Implicit Types (s : S) (es : list E).

(** [Q] holds when [m] continues, [R] when it returns early. *)
Definition wp {A} (m : H S E A) (Q : A -> S -> list E -> Prop)
    (R : refusal -> S -> list E -> Prop) s : Prop :=
  match m s with
  | (inl a, s', es) => Q a s' es
  | (inr r, s', es) => R r s' es
  end.

Lemma wp_ret {A} (a : A) Q R s : wp (ret a) Q R s <-> Q a s [].
Proof. done. Qed.

Lemma wp_stop {A} (r : refusal) (Q : A -> _) R s : wp (stop r) Q R s <-> R r s [].
Proof. done. Qed.

Lemma wp_bind {A C} (m : H S E A) (k : A -> H S E C) Q R s :
  wp (bind m k) Q R s <->
  wp m (fun a s1 es => wp (k a) (fun c s2 fs => Q c s2 (es ++ fs)) (fun r s2 fs => R r s2 (es ++ fs)) s1) R s.
Proof.
  unfold wp, bind. destruct (m s) as [[[a|r] s1] es]; [|done].
  by destruct (k a s1) as [[[c|r] s2] fs].
Qed.

Lemma wp_require b st msg Q R s :
  wp (require b st msg) Q R s <-> if b then Q tt s [] else R (st, msg) s [].
Proof. by destruct b. Qed.

Lemma wp_the {A} (o : option A) st msg Q R s :
  wp (the o st msg) Q R s <-> match o with Some a => Q a s [] | None => R (st, msg) s [] end.
Proof. by destruct o. Qed.

Lemma wp_query {A} fails (f : S -> A) st msg Q R s :
  wp (query fails f st msg) Q R s <-> if fails then R (st, msg) s [] else Q (f s) s [].
Proof. by destruct fails. Qed.

Lemma wp_asks {A} (f : S -> A) Q R s : wp (asks f) Q R s <-> Q (f s) s [].
Proof. done. Qed.

Lemma wp_exec {A} fails (st : stmt S A) onerr Q R s :
  wp (exec fails st onerr) Q R s <->
  match (if fails then inr ErrOther else st s) with
  | inl (a, s') => Q a s' []
  | inr e => R (onerr e) s []
  end.
Proof. unfold wp, exec. by destruct (if fails then _ else _) as [[a s']|e]. Qed.

Lemma wp_attempt {A} fails (st : stmt S A) Q R s :
  wp (attempt fails st) Q R s <->
  match (if fails then inr ErrOther else st s) with
  | inl (a, s') => Q (Some a) s' []
  | inr _ => Q None s []
  end.
Proof. unfold wp, attempt. by destruct (if fails then _ else _) as [[a s']|e]. Qed.

Lemma wp_emit (f : S -> list E) Q R s : wp (emit f) Q R s <-> Q tt s (f s).
Proof. done. Qed.

Lemma wp_interfere env Q R s : wp (interfere env) Q R s <-> Q tt (env s) [].
Proof. done. Qed.

Lemma wp_when b (m : H S E unit) Q R s :
  wp (when b m) Q R s <-> if b then wp m Q R s else Q tt s [].
Proof. by destruct b. Qed.

Lemma wp_atomically {A} (m : H S E A) Q R s :
  wp (atomically m) Q R s <-> wp m Q (fun r _ es => R r s es) s.
Proof. unfold wp, atomically. by destruct (m s) as [[[a|r] s'] es]. Qed.

Lemma wp_mono {A} (m : H S E A) (Q Q' : A -> S -> list E -> Prop) (R R' : refusal -> S -> list E -> Prop) s :
  (forall a s' es, Q a s' es -> Q' a s' es) -> (forall r s' es, R r s' es -> R' r s' es) ->
  wp m Q R s -> wp m Q' R' s.
Proof. unfold wp. destruct (m s) as [[[a|r] s'] es]; auto. Qed.

(** A property of every outcome of a request. *)
Lemma run_wp {B} (m : H S E (Z * B)) s r s' es (P : reply B -> S -> list E -> Prop) :
  run m s = (r, s', es) ->
  wp m (fun a => P (Reply a.1 a.2)) (fun e => P (Failure e.1 e.2)) s -> P r s' es.
Proof. unfold run, wp. destruct (m s) as [[[[st a]|[st a]] s1] fs]; by intros [= <- <- <-]. Qed.

(** A property of the accepted requests. *)
Lemma run_Reply {B} (m : H S E (Z * B)) s st b s' es (Q : Z * B -> S -> list E -> Prop) :
  run m s = (Reply st b, s', es) -> wp m Q (fun _ _ _ => True) s -> Q (st, b) s' es.
Proof. unfold run, wp. destruct (m s) as [[[[? ?]|[? ?]] s1] fs]; by intros [= <- <- <- <-]. Qed.

(** ** Invariants *)

Definition preserves (I : S -> Prop) {A} (m : H S E A) : Prop :=
  forall s, I s -> wp m (fun _ s' _ => I s') (fun _ s' _ => I s') s.

Definition stmt_preserves (I : S -> Prop) {A} (st : stmt S A) : Prop :=
  forall s a s', I s -> st s = inl (a, s') -> I s'.

Context (I : S -> Prop).

Lemma preserves_ret {A} (a : A) : preserves I (ret a).
Proof. intros s Hs. exact Hs. Qed.
Lemma preserves_stop {A} r : preserves I (stop (A := A) r).
Proof. intros s Hs. exact Hs. Qed.
Lemma preserves_respondError {A} st msg : preserves I (respondError (A := A) st msg).
Proof. intros s Hs. exact Hs. Qed.
Lemma preserves_respondJSON {B} st (b : B) : preserves I (respondJSON st b).
Proof. intros s Hs. exact Hs. Qed.
Lemma preserves_require b st msg : preserves I (require b st msg).
Proof. intros s Hs. by destruct b. Qed.
Lemma preserves_the {A} (o : option A) st msg : preserves I (the o st msg).
Proof. intros s Hs. by destruct o. Qed.
Lemma preserves_query {A} fails (f : S -> A) st msg : preserves I (query fails f st msg).
Proof. intros s Hs. by destruct fails. Qed.
Lemma preserves_asks {A} (f : S -> A) : preserves I (asks f).
Proof. intros s Hs. exact Hs. Qed.
Lemma preserves_interfere env : (forall s, I s -> I (env s)) -> preserves I (interfere env).
Proof. intros He s Hs. by apply He. Qed.
Lemma preserves_emit f : preserves I (emit f).
Proof. intros s Hs. exact Hs. Qed.

Lemma preserves_bind {A C} (m : H S E A) (k : A -> H S E C) :
  preserves I m -> (forall a, preserves I (k a)) -> preserves I (bind m k).
Proof.
  intros Hm Hk s Hs. apply wp_bind. eapply wp_mono; [| |apply (Hm s Hs)]; [|done].
  intros a s1 es Hs1. apply (Hk a s1 Hs1).
Qed.

(** What a check establishes holds in the rest of the handler. *)
Lemma preserves_the_bind {A C} (o : option A) st msg (k : A -> H S E C) :
  (forall a, o = Some a -> preserves I (k a)) -> preserves I (bind (the o st msg) k).
Proof. intros Hk s Hs. apply wp_bind, wp_the. destruct o as [a|]; [|done]. by apply (Hk a eq_refl). Qed.

Lemma preserves_require_bind {C} b st msg (k : unit -> H S E C) :
  (b = true -> preserves I (k tt)) -> preserves I (bind (require b st msg) k).
Proof. intros Hk s Hs. apply wp_bind, wp_require. destruct b; [|done]. by apply (Hk eq_refl). Qed.

Lemma preserves_fetch {A} fails k (f : S -> list A) q sc it : preserves I (fetch fails k f q sc it).
Proof.
  apply preserves_bind; [apply preserves_query|]. intros l. apply preserves_bind; [apply preserves_require|].
  intros _. apply preserves_bind; [apply preserves_require|]. intros _. apply preserves_ret.
Qed.

Lemma preserves_exec {A} fails (st : stmt S A) onerr :
  stmt_preserves I st -> preserves I (exec fails st onerr).
Proof.
  intros Hst s Hs. apply wp_exec. destruct fails; [done|]. destruct (st s) as [[a s']|e] eqn:He; [|done].
  by eapply Hst.
Qed.

Lemma affected_preserves (st : stmt S nat) : stmt_preserves I st -> stmt_preserves I (affected st).
Proof.
  intros Hst s n s' Hs. unfold affected. destruct (st s) as [[[|m] s1]|e] eqn:E'; intros [= <- <-].
  by eapply Hst.
Qed.

Lemma preserves_deleting fails st failed missing :
  stmt_preserves I st -> preserves I (deleting fails st failed missing).
Proof. intros Hst. by apply preserves_exec, affected_preserves. Qed.

Lemma preserves_attempt {A} fails (st : stmt S A) :
  stmt_preserves I st -> preserves I (attempt fails st).
Proof.
  intros Hst s Hs. apply wp_attempt. destruct fails; [done|]. destruct (st s) as [[a s']|e] eqn:He; [|done].
  by eapply Hst.
Qed.

Lemma preserves_when b (m : H S E unit) : preserves I m -> preserves I (when b m).
Proof. destruct b; [done|intros _; apply preserves_ret]. Qed.

Lemma preserves_atomically {A} (m : H S E A) : preserves I m -> preserves I (atomically m).
Proof.
  intros Hm s Hs. apply wp_atomically. eapply wp_mono; [| |apply (Hm s Hs)]; done.
Qed.

Lemma preserves_forM {A} (l : list A) (body : A -> H S E unit) :
  (forall x, x ∈ l -> preserves I (body x)) -> preserves I (forM l body).
Proof.
  induction l as [|x l IH]; intros Hb; cbn [forM]; [apply preserves_ret|].
  apply preserves_bind; [apply Hb; set_solver|]. intros _. apply IH. set_solver.
Qed.

Lemma preserves_run {B} (m : H S E (Z * B)) s : preserves I m -> I s -> I (run m s).1.2.
Proof.
  intros Hm Hs. specialize (Hm s Hs). unfold run, wp in *. by destruct (m s) as [[[[? ?]|[? ?]] s'] es].
Qed.

End logic.

(** ** Handlers without a trace

    [pure m]: [m] neither writes nor notifies.  [clean m]: when [m] returns
    early it has done neither. *)
Section trace.
Context {S E : Type}.
Implicit Types (s : S) (es : list E).

Definition pure {A} (m : H S E A) : Prop :=
  forall s, wp m (fun _ s' es => s' = s /\ es = []) (fun _ s' es => s' = s /\ es = []) s.

Definition clean {A} (m : H S E A) : Prop :=
  forall s, wp m (fun _ _ _ => True) (fun _ s' es => s' = s /\ es = []) s.

(** [total m]: [m] never returns early. *)
Definition total {A} (m : H S E A) : Prop :=
  forall s, wp m (fun _ _ _ => True) (fun _ _ _ => False) s.

Lemma pure_clean {A} (m : H S E A) : pure m -> clean m.
Proof. intros Hm s. eapply wp_mono; [| |apply (Hm s)]; done. Qed.

Lemma total_clean {A} (m : H S E A) : total m -> clean m.
Proof. intros Hm s. eapply wp_mono; [| |apply (Hm s)]; done. Qed.

Lemma clean_bind {A C} (m : H S E A) (k : A -> H S E C) :
  pure m -> (forall a, clean (k a)) -> clean (bind m k).
Proof.
  intros Hm Hk s. apply wp_bind. eapply wp_mono; [| |apply (Hm s)]; [|done].
  intros a s1 es [-> ->]. eapply wp_mono; [| |apply (Hk a s)]; done.
Qed.

Lemma clean_bind_total {A C} (m : H S E A) (k : A -> H S E C) :
  clean m -> (forall a, total (k a)) -> clean (bind m k).
Proof.
  intros Hm Hk s. apply wp_bind. eapply wp_mono; [| |apply (Hm s)]; [|done].
  intros a s1 es _. eapply wp_mono; [| |apply (Hk a s1)]; done.
Qed.

Lemma total_bind {A C} (m : H S E A) (k : A -> H S E C) :
  total m -> (forall a, total (k a)) -> total (bind m k).
Proof.
  intros Hm Hk s. apply wp_bind. eapply wp_mono; [| |apply (Hm s)]; [|done].
  intros a s1 es _. eapply wp_mono; [| |apply (Hk a s1)]; done.
Qed.

Lemma clean_exec {A} fails (st : stmt S A) onerr : clean (exec fails st onerr).
Proof.
  intros s. apply wp_exec. destruct fails; [done|]. by destruct (st s) as [[a s']|e].
Qed.

(** [silent m]: [m] notifies nobody. *)
Definition silent {A} (m : H S E A) : Prop :=
  forall s, wp m (fun _ _ es => es = []) (fun _ _ es => es = []) s.

Lemma clean_atomically {A} (m : H S E A) : silent m -> clean (atomically m).
Proof. intros Hm s. apply wp_atomically. eapply wp_mono; [| |apply (Hm s)]; done. Qed.

Lemma silent_bind {A C} (m : H S E A) (k : A -> H S E C) :
  silent m -> (forall a, silent (k a)) -> silent (bind m k).
Proof.
  intros Hm Hk s. apply wp_bind. eapply wp_mono; [| |apply (Hm s)]; [|done].
  intros a s1 es ->. apply (Hk a s1).
Qed.

Lemma silent_exec {A} fails (st : stmt S A) onerr : silent (exec fails st onerr).
Proof. intros s. apply wp_exec. destruct fails; [done|]. by destruct (st s) as [[a s']|e]. Qed.

Lemma silent_attempt {A} fails (st : stmt S A) : silent (attempt fails st).
Proof. intros s. apply wp_attempt. destruct fails; [done|]. by destruct (st s) as [[a s']|e]. Qed.

Lemma silent_forM {A} (l : list A) (body : A -> H S E unit) :
  (forall x, silent (body x)) -> silent (forM l body).
Proof.
  intros Hb. induction l as [|x l IH]; cbn [forM]; [intros s; done|]. by apply silent_bind.
Qed.

Lemma pure_silent {A} (m : H S E A) : pure m -> silent m.
Proof. intros Hm s. eapply wp_mono; [| |apply (Hm s)]; naive_solver. Qed.

Lemma pure_preserves (I : S -> Prop) {A} (m : H S E A) : pure m -> preserves I m.
Proof. intros Hm s Hs. eapply wp_mono; [| |apply (Hm s)]; by intros ? ? ? [-> _]. Qed.

Lemma pure_bind {A C} (m : H S E A) (k : A -> H S E C) :
  pure m -> (forall a, pure (k a)) -> pure (bind m k).
Proof.
  intros Hm Hk s. apply wp_bind. eapply wp_mono; [| |apply (Hm s)]; [|done].
  intros a s1 es [-> ->]. apply (Hk a s).
Qed.

(** A step that only reads changes nothing for the accepted requests. *)
Lemma wp_pure {A C} (m : H S E A) (k : A -> H S E C) (Q : C -> S -> list E -> Prop) s :
  pure m -> (forall a, wp (k a) Q (fun _ _ _ => True) s) -> wp (bind m k) Q (fun _ _ _ => True) s.
Proof.
  intros Hm Hk. apply wp_bind. eapply wp_mono; [| |apply (Hm s)]; [|done]. intros a s1 es [-> ->]. apply Hk.
Qed.

Lemma pure_forM {A} (l : list A) (body : A -> H S E unit) :
  (forall x, pure (body x)) -> pure (forM l body).
Proof. intros Hb. induction l as [|x l IH]; cbn [forM]; [intros s; by split|]. by apply pure_bind. Qed.

Lemma pure_ret {A} (a : A) : pure (ret a). Proof. intros s. by split. Qed.
Lemma pure_require b st msg : pure (require b st msg). Proof. intros s. by destruct b. Qed.
Lemma pure_respondError {A} st msg : pure (respondError (A := A) st msg). Proof. intros s. by split. Qed.
Lemma pure_the {A} (o : option A) st msg : pure (the o st msg). Proof. intros s. by destruct o. Qed.
Lemma pure_query {A} fails (f : S -> A) st msg : pure (query fails f st msg).
Proof. intros s. by destruct fails. Qed.
Lemma pure_asks {A} (f : S -> A) : pure (asks f). Proof. intros s. by split. Qed.
Lemma pure_fetch {A} fails k (f : S -> list A) q sc it : pure (fetch fails k f q sc it).
Proof.
  apply pure_bind; [apply pure_query|]. intros l. apply pure_bind; [apply pure_require|].
  intros _. apply pure_bind; [apply pure_require|]. intros _. apply pure_ret.
Qed.
Lemma total_ret {A} (a : A) : total (ret a). Proof. intros s. constructor. Qed.
Lemma total_emit f : total (emit f). Proof. intros s. constructor. Qed.
Lemma total_asks {A} (f : S -> A) : total (asks f). Proof. intros s. constructor. Qed.
Lemma total_respondJSON {B} st (b : B) : total (respondJSON st b). Proof. intros s. constructor. Qed.
Lemma total_when b m : total m -> total (when b m). Proof. destruct b; [done|intros _; apply total_ret]. Qed.
Lemma total_attempt {A} fails (st : stmt S A) : total (attempt fails st).
Proof.
  intros s. apply wp_attempt. destruct fails; [done|]. by destruct (st s) as [[a s']|e].
Qed.

(** What every reply to an accepted request says. *)
Definition replies {B} (P : B -> Prop) (m : H S E (Z * B)) : Prop :=
  forall s, wp m (fun r _ _ => P r.2) (fun _ _ _ => True) s.

Lemma replies_json {B} (P : B -> Prop) st b : P b -> replies P (respondJSON st b).
Proof. by intros HP s. Qed.

Lemma replies_bind {A B} (P : B -> Prop) (m : H S E A) (k : A -> H S E (Z * B)) :
  (forall a, replies P (k a)) -> replies P (bind m k).
Proof. intros Hk s. apply wp_bind. unfold wp at 1. destruct (m s) as [[[a|r] s1] es]; [apply Hk|done]. Qed.

Lemma replies_fetch {A B} (P : B -> Prop) fails n (f : S -> list A) q sc it (k : list A -> H S E (Z * B)) :
  (forall s, replies P (k (f s))) -> replies P (bind (fetch fails n f q sc it) k).
Proof.
  intros Hk s. apply wp_bind. unfold fetch. apply wp_bind, wp_query. destruct (fails n); [done|].
  apply wp_bind, wp_require. destruct (match f s with [] => true | _ => _ end); [|done].
  apply wp_bind, wp_require. destruct (negb _); [|done]. apply Hk.
Qed.

Lemma run_replies {B} (P : B -> Prop) (m : H S E (Z * B)) s st b s' es :
  replies P m -> run m s = (Reply st b, s', es) -> P b.
Proof. intros Hm Hrun. refine (run_Reply _ _ _ _ _ _ (fun r _ _ => P r.2) Hrun (Hm s)). Qed.

(** The same with other transactions running between two statements. *)
Definition calm (env : S -> S) {A} (m : H S E A) : Prop :=
  forall s, wp m (fun _ _ _ => True) (fun _ s' es => (s' = s \/ s' = env s) /\ es = []) s.

Lemma clean_calm env {A} (m : H S E A) : clean m -> calm env m.
Proof. intros Hm s. eapply wp_mono; [| |apply (Hm s)]; naive_solver. Qed.

Lemma calm_bind env {A C} (m : H S E A) (k : A -> H S E C) :
  pure m -> (forall a, calm env (k a)) -> calm env (bind m k).
Proof.
  intros Hm Hk s. apply wp_bind. eapply wp_mono; [| |apply (Hm s)].
  - intros a s1 es [-> ->]. eapply wp_mono; [| |apply (Hk a s)]; done.
  - intros r s' es [-> ->]. auto.
Qed.

Lemma calm_interfere env {C} (k : H S E C) : clean k -> calm env (bind (interfere env) (fun _ => k)).
Proof.
  intros Hk s. apply wp_bind. cbn. eapply wp_mono; [| |apply (Hk (env s))]; [done|].
  intros r s' es [-> ->]. auto.
Qed.

Lemma calm_run {B} env (m : H S E (Z * B)) s st msg s' es :
  calm env m -> run m s = (Failure st msg, s', es) -> (s' = s \/ s' = env s) /\ es = [].
Proof.
  intros Hc. specialize (Hc s). unfold run, wp in *.
  destruct (m s) as [[[[? ?]|[? ?]] s1] fs]; intros [= <- <- <- <-]; done.
Qed.

Lemma clean_run {B} (m : H S E (Z * B)) s st msg s' es :
  clean m -> run m s = (Failure st msg, s', es) -> s' = s /\ es = [].
Proof.
  intros Hc. specialize (Hc s). unfold run, wp in *.
  destruct (m s) as [[[[? ?]|[? ?]] s1] fs]; intros [= <- <- <- <-]; done.
Qed.
End trace.

Create HintDb handlers.
#[export] Hint Resolve preserves_ret preserves_stop preserves_respondError preserves_respondJSON
  preserves_require preserves_the preserves_query preserves_asks preserves_emit preserves_fetch preserves_deleting
  preserves_exec preserves_attempt preserves_when preserves_atomically : handlers.
#[export] Hint Resolve preserves_bind preserves_forM : handlers.

(** Decompose an invariant goal along the handler; what is left are the
    statements. *)
Ltac invariant_steps :=
  repeat first
    [ apply preserves_the_bind; intros ? ? | apply preserves_require_bind; intros ?
    | apply preserves_bind; [|intros ?]
    | apply preserves_deleting | apply preserves_exec | apply preserves_attempt | apply preserves_when
    | apply preserves_atomically | apply preserves_forM; intros ? ?
    | solve [auto with handlers]
    | case_match ].

Create HintDb pure.
#[export] Hint Resolve pure_forM pure_require pure_respondError pure_ret : pure.

Ltac pure_step := solve [first
  [ apply pure_respondError | apply pure_require | apply pure_the | apply pure_query | apply pure_asks | apply pure_ret
  | apply pure_fetch | solve [auto with pure nocore] ]].

Ltac silent_steps := solve [repeat first
  [ apply silent_exec | apply silent_attempt | apply pure_silent; pure_step
  | apply silent_forM; intros ? | apply silent_bind; [|intros ?] | case_match ]].

Ltac total_steps := solve [repeat first
  [ apply total_ret | apply total_respondJSON | apply total_emit | apply total_asks
  | apply total_attempt | apply total_when | apply total_bind; [|intros ?] | case_match ]].

(** Decompose [clean] along the handler. *)
Ltac clean_steps :=
  repeat first
    [ apply clean_exec
    | apply clean_atomically; silent_steps
    | solve [apply total_clean; total_steps]
    | solve [apply pure_clean; pure_step]
    | apply clean_bind; [pure_step|intros ?]
    | apply clean_bind_total; [|intros ?; total_steps]
    | case_match ].

(** The same for [calm]. *)
Ltac calm_steps :=
  repeat first
    [ apply calm_interfere; solve [clean_steps]
    | apply calm_bind; [pure_step|intros ?]
    | apply clean_calm; solve [clean_steps]
    | case_match ].

(** Rewrite a weakest precondition along the handler. *)
Ltac wp_steps :=
  repeat first
    [ setoid_rewrite wp_bind | setoid_rewrite wp_require | setoid_rewrite wp_the
    | setoid_rewrite wp_query | setoid_rewrite wp_exec | setoid_rewrite wp_attempt
    | setoid_rewrite wp_emit | setoid_rewrite wp_when | setoid_rewrite wp_asks
    | setoid_rewrite wp_ret | setoid_rewrite wp_atomically ].
