(* ===== verification/Json.v ===== *)
(** * JSON values

    What the code uses of [encoding/json]: values, the case-insensitive lookup
    of a struct field by its key, and the decoding of optional integers and
    booleans.  Decoding into a struct visits the keys of an object in order; a
    key that matches no field is skipped, [null] clears a pointer, and a value
    of the wrong type makes the whole decoding fail. *)

From S2P Require Import Prelude.
From Stdlib Require Import ZArith Lia Ascii String.
From stdpp Require Import base strings list.

Local Open Scope Z_scope.

(** A number is an integer literal or another literal. *)
Inductive json :=
| JNull
| JBool (b : bool)
| JInt (z : Z)
| JFloat (literal : string)
| JString (s : string)
| JArray (l : list json)
| JObject (l : list (string * json)).

(** [foldName]: ASCII letters in upper case; of the other runes only LONG S and
    KELVIN SIGN fold to ASCII ones. *)
Definition upper (c : ascii) : ascii :=
  let n := nat_of_ascii c in
  if (97 <=? n)%nat && (n <=? 122)%nat then ascii_of_nat (n - 32) else c.

Fixpoint foldName (s : string) : string :=
  match s with
  | EmptyString => EmptyString
  | String "197" (String "191" r) => String "S" (foldName r)
  | String "226" (String "132" (String "170" r)) => String "K" (foldName r)
  | String c r => String (upper c) (foldName r)
  end.

Definition same_key (a b : string) : bool := String.eqb (foldName a) (foldName b).

Example same_key_ok : map (same_key "require_mfa") ["require_mfa"; "Require_MFA"; "require-mfa"]%string =
  [true; true; false].
Proof. vm_compute. reflexivity. Qed.

(** One key into an optional field: [None] is an [UnmarshalTypeError]. *)
Definition int_field (v : json) : option (option Z) :=
  match v with
  | JNull => Some None
  | JInt z => if (min_int64 <=? z) && (z <=? max_int64) then Some (Some z) else None
  | _ => None
  end.

Definition bool_field (v : json) : option (option bool) :=
  match v with JNull => Some None | JBool b => Some (Some b) | _ => None end.
