(* ===== verification/Regex.v ===== *)
(** * Regular expressions

    The part of Go's [regexp] the code uses: anchored matching of a whole string
    against classes, sequences, options and repetitions.  [matches] is
    executable (derivatives); [lang] is the meaning of an expression. *)

From S2P Require Import Prelude.
From Stdlib Require Import ZArith Lia Ascii String.
From stdpp Require Import base strings list.

Inductive regex :=
| RNone
| REps
| RClass (p : ascii -> bool)
| RSeq (r1 r2 : regex)
| RAlt (r1 r2 : regex)
| RStar (r : regex).

(** [r?], [r{0,n}]. *)
Definition ROpt (r : regex) : regex := RAlt REps r.

Fixpoint RUpTo (n : nat) (r : regex) : regex :=
  match n with
  | O => REps
  | S n => ROpt (RSeq r (RUpTo n r))
  end.

Fixpoint nullable (r : regex) : bool :=
  match r with
  | RNone | RClass _ => false
  | REps | RStar _ => true
  | RSeq r1 r2 => nullable r1 && nullable r2
  | RAlt r1 r2 => nullable r1 || nullable r2
  end.

(** Sequences and alternatives that drop what cannot match, so that derivatives
    stay small. *)
Definition seq_ (r1 r2 : regex) : regex :=
  match r1 with RNone => RNone | REps => r2 | _ => match r2 with RNone => RNone | _ => RSeq r1 r2 end end.

Definition alt_ (r1 r2 : regex) : regex :=
  match r1, r2 with RNone, r | r, RNone => r | _, _ => RAlt r1 r2 end.

Fixpoint deriv (c : ascii) (r : regex) : regex :=
  match r with
  | RNone | REps => RNone
  | RClass p => if p c then REps else RNone
  | RSeq r1 r2 =>
      if nullable r1 then alt_ (seq_ (deriv c r1) r2) (deriv c r2) else seq_ (deriv c r1) r2
  | RAlt r1 r2 => alt_ (deriv c r1) (deriv c r2)
  | RStar r' => seq_ (deriv c r') (RStar r')
  end.

(** [^r$] against the whole text. *)
Fixpoint matches (r : regex) (s : string) : bool :=
  match s with
  | EmptyString => nullable r
  | String c s => matches (deriv c r) s
  end.

(** ** The language of an expression *)

Inductive lang : regex -> list ascii -> Prop :=
| lang_eps : lang REps []
| lang_class p c : p c = true -> lang (RClass p) [c]
| lang_seq r1 r2 l1 l2 : lang r1 l1 -> lang r2 l2 -> lang (RSeq r1 r2) (l1 ++ l2)
| lang_alt1 r1 r2 l : lang r1 l -> lang (RAlt r1 r2) l
| lang_alt2 r1 r2 l : lang r2 l -> lang (RAlt r1 r2) l
| lang_star0 r : lang (RStar r) []
| lang_star r l1 l2 : l1 <> [] -> lang r l1 -> lang (RStar r) l2 -> lang (RStar r) (l1 ++ l2).

Create HintDb regex.
#[export] Hint Constructors lang : regex.

Lemma lang_nil_nullable r l : lang r l -> l = [] -> nullable r = true.
Proof.
  induction 1; intros E; cbn; try done.
  - apply app_eq_nil in E as [-> ->]. by rewrite IHlang1, IHlang2.
  - by rewrite IHlang.
  - by rewrite IHlang, orb_true_r.
Qed.

Lemma nullable_lang r : nullable r = true <-> lang r [].
Proof.
  split; [|intros Hl; by eapply lang_nil_nullable].
  induction r; cbn; intros Hn; try done; auto with regex.
  - apply andb_true_iff in Hn as [H1 H2]. change (@nil ascii) with ([] ++ [] : list ascii). auto with regex.
  - apply orb_true_iff in Hn as [H1|H2]; auto with regex.
Qed.

Lemma lang_seq_inv r1 r2 l : lang (RSeq r1 r2) l <-> exists l1 l2, l = l1 ++ l2 /\ lang r1 l1 /\ lang r2 l2.
Proof.
  split.
  - intros Hl. inversion Hl; subst; eauto 6.
  - intros (l1 & l2 & -> & H1 & H2). by constructor.
Qed.

Lemma lang_alt_inv r1 r2 l : lang (RAlt r1 r2) l <-> lang r1 l \/ lang r2 l.
Proof. split; [intros Hl; inversion Hl; subst; auto|intros [?|?]; auto with regex]. Qed.

Lemma lang_class_inv p l : lang (RClass p) l <-> exists c, l = [c] /\ p c = true.
Proof. split; [intros Hl; inversion Hl; subst; eauto|intros (c & -> & Hp); by constructor]. Qed.

Lemma lang_eps_inv l : lang REps l <-> l = [].
Proof. split; [intros Hl; by inversion Hl|intros ->; constructor]. Qed.

Lemma lang_none_inv l : lang RNone l <-> False.
Proof. split; [intros Hl; inversion Hl|done]. Qed.

Lemma lang_star_inv r l :
  lang (RStar r) l <-> l = [] \/ exists l1 l2, l1 <> [] /\ l = l1 ++ l2 /\ lang r l1 /\ lang (RStar r) l2.
Proof.
  split.
  - intros Hl. inversion Hl; subst; eauto 8.
  - intros [->|(l1 & l2 & Hne & -> & H1 & H2)]; auto with regex.
Qed.

Lemma lang_seq_ r1 r2 l : lang (seq_ r1 r2) l <-> lang (RSeq r1 r2) l.
Proof.
  rewrite lang_seq_inv. unfold seq_.
  destruct r1; try (destruct r2; try (by rewrite lang_seq_inv); rewrite lang_none_inv; split; [done|];
    intros (l1 & l2 & _ & _ & H2); by apply lang_none_inv in H2).
  - rewrite lang_none_inv. split; [done|]. intros (l1 & l2 & _ & H1 & _). by apply lang_none_inv in H1.
  - split; [intros Hl; exists [], l; auto with regex|]. intros (l1 & l2 & -> & ->%lang_eps_inv & H2). done.
Qed.

Lemma lang_alt_ r1 r2 l : lang (alt_ r1 r2) l <-> lang (RAlt r1 r2) l.
Proof.
  rewrite lang_alt_inv. unfold alt_.
  destruct r1, r2; rewrite ?lang_alt_inv, ?lang_none_inv; tauto.
Qed.

Lemma deriv_lang c r l : lang (deriv c r) l <-> lang r (c :: l).
Proof.
  revert l. induction r as [| |p|r1 IH1 r2 IH2|r1 IH1 r2 IH2|r IH]; intros l; cbn [deriv].
  - by rewrite !lang_none_inv.
  - rewrite lang_none_inv, lang_eps_inv. naive_solver.
  - rewrite lang_class_inv. destruct (p c) eqn:Hp.
    + rewrite lang_eps_inv. split; [intros ->; eauto|]. by intros (x & [= -> ->] & _).
    + rewrite lang_none_inv. split; [done|]. intros (x & [= -> ->] & Hx). congruence.
  - assert (lang (seq_ (deriv c r1) r2) l <-> exists l1 l2, l = l1 ++ l2 /\ lang r1 (c :: l1) /\ lang r2 l2) as H1.
    { rewrite lang_seq_, lang_seq_inv. by setoid_rewrite IH1. }
    rewrite lang_seq_inv. destruct (nullable r1) eqn:Hn.
    + rewrite lang_alt_, lang_alt_inv, H1, IH2. split.
      * intros [(l1 & l2 & -> & Ha & Hb)|Hb]; [exists (c :: l1), l2; auto|].
        exists [], (c :: l). split; [done|]. split; [by apply nullable_lang|done].
      * intros ([|x l1] & l2 & E & Ha & Hb); cbn in E; [subst; auto|]. injection E as <- ->. left. eauto.
    + rewrite H1. split.
      * intros (l1 & l2 & -> & Ha & Hb). exists (c :: l1), l2. auto.
      * intros ([|x l1] & l2 & E & Ha & Hb); cbn in E.
        -- apply nullable_lang in Ha. congruence.
        -- injection E as <- ->. eauto.
  - by rewrite lang_alt_, !lang_alt_inv, IH1, IH2.
  - rewrite lang_seq_, lang_seq_inv, lang_star_inv. setoid_rewrite IH. split.
    + intros (l1 & l2 & -> & Ha & Hb). right. exists (c :: l1), l2. auto.
    + intros [|([|x l1] & l2 & Hne & E & Ha & Hb)]; [done|done|]. injection E as <- ->. eauto.
Qed.

(** [matches] decides the language. *)
Theorem matches_lang r s : matches r s = true <-> lang r (list_ascii_of_string s).
Proof.
  revert r. induction s as [|c s IH]; intros r; cbn; [apply nullable_lang|]. by rewrite IH, deriv_lang.
Qed.

(** ** Bounded repetition of a class *)

Lemma lang_upto n p l :
  lang (RUpTo n (RClass p)) l <-> (length l <= n)%nat /\ Forall (fun c => p c = true) l.
Proof.
  revert l. induction n as [|n IH]; intros l; cbn [RUpTo].
  - rewrite lang_eps_inv. split; [intros ->; split; [cbn; lia|constructor]|]. destruct l; cbn; [done|lia].
  - unfold ROpt. rewrite lang_alt_inv, lang_eps_inv, lang_seq_inv. setoid_rewrite IH. setoid_rewrite lang_class_inv. split.
    + intros [->|(l1 & l2 & -> & (c & -> & Hc) & Hl & Hf)]; cbn; [split; [lia|constructor]|].
      split; [lia|]. by constructor.
    + intros [Hl Hf]. destruct l as [|c l]; [by left|]. right. apply Forall_cons in Hf as [Hc Hf]. cbn in Hl.
      exists [c], l. split; [done|]. split; [eauto|]. split; [lia|done].
Qed.
