(* ===== verification/Tables.v ===== *)
(** * Statements and integrity of the tables

    The INSERT, UPDATE and DELETE statements of the administration handlers,
    with the unique constraints, foreign keys and cascades that the migrations
    declare, and the invariant [integrity] that these constraints amount to.
    Every statement preserves it. *)

From S2P Require Import Prelude Net Schema Http.
From Stdlib Require Import ZArith Lia Ascii String.
From stdpp Require Import base gmap strings list.

Local Open Scope Z_scope.

(** ** Rows by key *)

Definition has {A} (key : A -> string) (l : list A) (k : string) : bool :=
  existsb (fun x => String.eqb (key x) k) l.

Definition without {A} (key : A -> string) (l : list A) (k : string) : list A :=
  List.filter (fun x => negb (String.eqb (key x) k)) l.

Definition upd {A} (key : A -> string) (k : string) (f : A -> A) (l : list A) : list A :=
  map (fun x => if String.eqb (key x) k then f x else x) l.

Definition byKey {A} (key : A -> string) (l : list A) (k : string) : option A :=
  List.find (fun x => String.eqb (key x) k) l.

(** Rows of a table that point to a row, as an affected-rows count. *)
Definition rowsWith {A} (key : A -> string) (l : list A) (k : string) : nat :=
  length (List.filter (fun x => String.eqb (key x) k) l).

Lemma has_true {A} (key : A -> string) l k : has key l k = true <-> k ∈ map key l.
Proof.
  unfold has. rewrite existsb_exists, list_elem_of_fmap. split.
  - intros (x & Hx & E%String.eqb_eq). exists x. by rewrite list_elem_of_In.
  - intros (x & -> & Hx). exists x. by rewrite String.eqb_refl, <- list_elem_of_In.
Qed.

Lemma has_false {A} (key : A -> string) l k : has key l k = false <-> k ∉ map key l.
Proof. by rewrite <- not_true_iff_false, has_true. Qed.

Lemma elem_of_without {A} (key : A -> string) l k x : x ∈ without key l k <-> x ∈ l /\ key x <> k.
Proof.
  unfold without. by rewrite list_elem_of_In, filter_In, <- list_elem_of_In, negb_true_iff, String.eqb_neq.
Qed.

Lemma byKey_Some {A} (key : A -> string) l k x : byKey key l k = Some x -> x ∈ l /\ key x = k.
Proof. intros [H E%String.eqb_eq]%find_some. by rewrite list_elem_of_In. Qed.

Lemma byKey_upd {A} (key : A -> string) k f l :
  (forall x, key x = k -> key (f x) = k) -> byKey key (upd key k f l) k = f <$> byKey key l k.
Proof.
  intros Hf. unfold byKey, upd. induction l as [|x l IH]; cbn; [done|].
  destruct (String.eqb_spec (key x) k) as [E|E].
  - by rewrite (proj2 (String.eqb_eq _ _) (Hf x E)).
  - by rewrite (proj2 (String.eqb_neq _ _) E).
Qed.

Lemma byKey_None {A} (key : A -> string) l k : byKey key l k = None <-> k ∉ map key l.
Proof.
  rewrite <- has_false. unfold byKey, has. induction l as [|x l IH]; cbn; [done|].
  by destruct (String.eqb (key x) k).
Qed.

Lemma byKey_app_own {A} (key : A -> string) l x k : key x = k -> k ∉ map key l -> byKey key (l ++ [x]) k = Some x.
Proof.
  intros <- Hx. unfold byKey. rewrite find_app. change (List.find _ l) with (byKey key l (key x)).
  rewrite (proj2 (byKey_None key l (key x))) by done. cbn. by rewrite String.eqb_refl.
Qed.

Lemma byKey_app_other {A} (key : A -> string) l x k : key x <> k -> byKey key (l ++ [x]) k = byKey key l k.
Proof.
  intros Hx. unfold byKey. rewrite find_app. destruct (List.find _ l); [done|]. cbn.
  by rewrite (proj2 (String.eqb_neq _ _) Hx).
Qed.

Lemma byKey_upd_other {A} (key : A -> string) k k' f l :
  (forall x, key (f x) = key x) -> k' <> k -> byKey key (upd key k f l) k' = byKey key l k'.
Proof.
  intros Hf Hne. unfold byKey, upd. induction l as [|x l IH]; cbn; [done|].
  destruct (String.eqb_spec (key x) k) as [E|E]; rewrite ?Hf; [|by rewrite IH].
  rewrite (proj2 (String.eqb_neq _ _)) by congruence. exact IH.
Qed.

Lemma rowsWith_0 {A} (key : A -> string) l k : rowsWith key l k = 0%nat <-> k ∉ map key l.
Proof.
  rewrite <- has_false. unfold rowsWith, has. induction l as [|x l IH]; cbn; [done|].
  by destruct (String.eqb (key x) k).
Qed.

Lemma without_id {A} (key : A -> string) l k : k ∉ map key l -> without key l k = l.
Proof.
  intros Hk. unfold without. induction l as [|x l IH]; [done|]. cbn in *.
  rewrite not_elem_of_cons in Hk. destruct Hk as [Hne Hk].
  rewrite (proj2 (String.eqb_neq _ _)) by congruence. cbn. by rewrite IH.
Qed.

Lemma upd_keys {A} (key : A -> string) k f l :
  (forall x, key (f x) = key x) -> map key (upd key k f l) = map key l.
Proof.
  intros Hf. unfold upd. rewrite map_map. apply map_ext. intros x. by destruct (String.eqb _ _).
Qed.

Lemma elem_of_upd {A} (key : A -> string) k f l y :
  y ∈ upd key k f l <-> (y ∈ l /\ key y <> k) \/ (exists x, x ∈ l /\ key x = k /\ y = f x).
Proof.
  unfold upd. rewrite list_elem_of_fmap. split.
  - intros (x & -> & Hx). destruct (String.eqb_spec (key x) k); [right; by exists x|by left].
  - intros [[Hy Hk]|(x & Hx & Hk & ->)]; [exists y|exists x]; split; try done.
    + by rewrite (proj2 (String.eqb_neq _ _) Hk).
    + by rewrite (proj2 (String.eqb_eq _ _) Hk).
Qed.

Lemma existsb_ext_in {A} (f g : A -> bool) l : (forall x, x ∈ l -> f x = g x) -> existsb f l = existsb g l.
Proof.
  induction l as [|x l IH]; intros Hfg; cbn; [done|]. rewrite Hfg by by left. f_equal.
  apply IH. intros. apply Hfg. by right.
Qed.

Lemma bind_ext_in {A B} (f g : A -> list B) l : (forall x, x ∈ l -> f x = g x) -> (l ≫= f) = (l ≫= g).
Proof.
  induction l as [|x l IH]; intros Hfg; cbn; [done|]. rewrite Hfg by by left. f_equal.
  apply IH. intros. apply Hfg. by right.
Qed.

(** ** Unique columns and foreign keys under the three kinds of change *)

Lemma unique_filter {A B} (col : A -> B) P (l : list A) :
  NoDup (map col l) -> NoDup (map col (List.filter P l)).
Proof.
  intros Hnd. induction l as [|x l IH]; cbn; [constructor|]. cbn in Hnd.
  apply NoDup_cons in Hnd as [Hx Hnd]. destruct (P x); [|auto]. cbn. constructor; [|auto].
  intros (y & Hxy & Hy%list_elem_of_In)%list_elem_of_fmap. apply Hx. apply filter_In in Hy as [Hy _].
  apply list_elem_of_fmap. exists y. by rewrite list_elem_of_In.
Qed.

Lemma NoDup_list_filter {A} P (l : list A) : NoDup l -> NoDup (List.filter P l).
Proof. intros Hnd. rewrite <- (map_id (List.filter P l)). apply unique_filter. by rewrite map_id. Qed.

Lemma unique_insert {A B} (col : A -> B) (l : list A) x :
  NoDup (map col l) -> col x ∉ map col l -> NoDup (map col (l ++ [x])).
Proof.
  intros Hnd Hx. rewrite map_app. apply NoDup_app. split; [done|]. split; [|apply NoDup_singleton].
  intros y Hy ->%list_elem_of_singleton. done.
Qed.

(** Nullable unique columns: nulls do not clash. *)
Definition unique {A B} (col : A -> option B) (l : list A) : Prop := NoDup (omap col l).

Lemma unique_map {A B} (col : A -> B) l : unique (Some ∘ col) l <-> NoDup (map col l).
Proof. unfold unique. enough (omap (Some ∘ col) l = map col l) as -> by done. induction l as [|x l IH]; cbn; [done|]. by f_equal. Qed.

Lemma unique_inj {A B} (col : A -> option B) l x y b :
  unique col l -> x ∈ l -> y ∈ l -> col x = Some b -> col y = Some b -> x = y.
Proof.
  unfold unique. induction l as [|z l IH]; [set_solver|]. cbn. intros Hnd Hx Hy Ex Ey.
  assert (forall w, w ∈ l -> col w = Some b -> col z <> Some b) as Hz.
  { intros w Hw Ew Ez. rewrite Ez in Hnd. apply NoDup_cons in Hnd as [Hb _]. apply Hb.
    apply list_elem_of_omap. eauto. }
  apply elem_of_cons in Hx as [->|Hx], Hy as [->|Hy]; [done|by destruct (Hz y Hy)|by destruct (Hz x Hx)|].
  apply IH; [|done..]. destruct (col z); [by apply NoDup_cons in Hnd as [_ ?]|done].
Qed.

Lemma unique_intro {A B} (col : A -> option B) l :
  NoDup l -> (forall x y b, x ∈ l -> y ∈ l -> col x = Some b -> col y = Some b -> x = y) -> unique col l.
Proof.
  unfold unique. induction l as [|z l IH]; intros Hnd Hinj; [constructor|].
  apply NoDup_cons in Hnd as [Hz Hnd]. assert (NoDup (omap col l)) as Hl.
  { apply IH; [done|]. intros x y b Hx Hy. apply Hinj; by right. }
  cbn. destruct (col z) as [b|] eqn:E; [|done]. constructor; [|done].
  intros (x & Hx & Ex)%list_elem_of_omap. rewrite (Hinj z x b) in Hz; [done|by left|by right|done..].
Qed.

(** Another row than the one with key [k] has the value [v]. *)
Definition clash {A B} `{EqDecision B} (key : A -> string) (col : A -> option B) (l : list A)
    (k : string) (v : option B) : bool :=
  match v with
  | None => false
  | Some b => existsb (fun x => negb (String.eqb (key x) k) && bool_decide (col x = Some b)) l
  end.

Lemma clash_false {A B} `{EqDecision B} (key : A -> string) (col : A -> option B) l k v x b :
  clash key col l k v = false -> v = Some b -> x ∈ l -> col x = Some b -> key x = k.
Proof.
  intros Hc -> Hx Ex. cbn in Hc. destruct (String.eqb_spec (key x) k) as [|Hk]; [done|].
  rewrite <- not_true_iff_false, existsb_exists in Hc. destruct Hc. exists x.
  rewrite <- list_elem_of_In, (proj2 (String.eqb_neq _ _) Hk), bool_decide_eq_true_2; done.
Qed.

Lemma NoDup_of_map {A B} (f : A -> B) (l : list A) : NoDup (map f l) -> NoDup l.
Proof.
  induction l as [|x l IH]; [constructor|]. cbn. intros [Hx Hl]%NoDup_cons. constructor; [|auto].
  intros Hin. apply Hx. by apply (list_elem_of_fmap_2 f).
Qed.

(** The updated row keeps its value or takes one that does not clash. *)
Lemma unique_upd {A B} `{EqDecision B} (key : A -> string) (col : A -> option B) k f (l : list A) :
  NoDup (map key l) -> unique col l -> (forall x, key (f x) = key x) ->
  (forall x, x ∈ l -> key x = k -> col (f x) = col x \/ clash key col l k (col (f x)) = false) ->
  unique col (upd key k f l).
Proof.
  intros Hkey Hcol Hf Hnew. apply unique_intro.
  { apply (NoDup_of_map key). by rewrite upd_keys. }
  assert (forall x y b, x ∈ l -> key x = k -> y ∈ l -> col (f x) = Some b -> col y = Some b -> key y = k) as Hown.
  { intros x y b Hx Hxk Hy Ex Ey. destruct (Hnew x Hx Hxk) as [E|Hc].
    - rewrite <- Hxk. f_equal. by eapply unique_inj; [..|rewrite <- E].
    - by eapply clash_false. }
  intros x y b Hx Hy Ex Ey. apply elem_of_upd in Hx, Hy.
  destruct Hx as [[Hx Hxk]|(x' & Hx & Hxk & ->)], Hy as [[Hy Hyk]|(y' & Hy & Hyk & ->)].
  - by eapply unique_inj.
  - destruct Hxk. by eapply (Hown y').
  - destruct Hyk. by eapply (Hown x').
  - f_equal. eapply (NoDup_map_inj key); [done..|congruence].
Qed.

Lemma unique_insert_clash {A B} `{EqDecision B} (key : A -> string) (col : A -> option B) l x :
  unique col l -> key x ∉ map key l -> clash key col l (key x) (col x) = false -> unique col (l ++ [x]).
Proof.
  intros Hu Hk Hc. unfold unique in *. rewrite omap_app. apply NoDup_app. split; [done|].
  cbn. destruct (col x) as [b|] eqn:E; [|split; [set_solver|constructor]].
  split; [|apply NoDup_singleton]. intros c Hc' ->%list_elem_of_singleton.
  apply list_elem_of_omap in Hc' as (y & Hy & Ey). apply Hk.
  rewrite <- (clash_false _ _ _ _ _ y b Hc eq_refl Hy Ey). by apply (list_elem_of_fmap_2 key).
Qed.

Lemma unique_list_filter {A B} (col : A -> option B) P l : unique col l -> unique col (List.filter P l).
Proof.
  unfold unique. intros Hnd. induction l as [|x l IH]; [done|]. cbn in *.
  destruct (col x) as [b|] eqn:E.
  - apply NoDup_cons in Hnd as [Hb Hnd]. destruct (P x); [|auto]. cbn. rewrite E. constructor; [|auto].
    intros (y & Hy & Ey)%list_elem_of_omap. apply Hb. apply list_elem_of_omap. exists y. split; [|done].
    apply list_elem_of_In in Hy. apply filter_In in Hy as [Hy _]. by apply list_elem_of_In.
  - destruct (P x); [|auto]. cbn. rewrite E. auto.
Qed.

(** [fk l t]: every reference of [l] is a key of [t]. *)
Definition fk (l t : list string) : Prop := forall x, x ∈ l -> x ∈ t.

#[export] Instance fk_dec l t : Decision (fk l t).
Proof. refine (cast_if (decide (Forall (fun x => x ∈ t) l))); abstract (by rewrite Forall_forall in *). Defined.

#[export] Instance unique_dec {A B} `{EqDecision B} (col : A -> option B) l : Decision (unique col l).
Proof. unfold unique. apply _. Defined.

Lemma fk_filter {A} (col : A -> string) P l t : fk (map col l) t -> fk (map col (List.filter P l)) t.
Proof.
  intros H x (y & -> & [Hy _]%list_elem_of_In%filter_In)%list_elem_of_fmap. apply H.
  apply list_elem_of_fmap. exists y. by rewrite list_elem_of_In.
Qed.

Lemma fk_omap_filter {A} (col : A -> option string) P l t :
  fk (omap col l) t -> fk (omap col (List.filter P l)) t.
Proof.
  intros H x (y & [Hy _]%list_elem_of_In%filter_In & E)%list_elem_of_omap. apply H.
  apply list_elem_of_omap. exists y. by rewrite list_elem_of_In.
Qed.

Lemma fk_omap_without {A} (col : A -> option string) key l t k :
  fk (omap col l) t -> fk (omap col (without key l k)) t.
Proof. apply fk_omap_filter. Qed.

(** A cascade: the rows that refer to the deleted key go with it. *)
Lemma fk_cascade {A C} (col : A -> string) (key : C -> string) l t k :
  fk (map col l) (map key t) -> fk (map col (without col l k)) (map key (without key t k)).
Proof.
  intros H x (y & -> & [Hy Hne]%elem_of_without)%list_elem_of_fmap.
  destruct (proj1 (list_elem_of_fmap _ _ _) (H (col y) (list_elem_of_fmap_2 col l y Hy))) as (z & E & Hz).
  apply list_elem_of_fmap. exists z. rewrite elem_of_without. split; [done|]. split; [done|congruence].
Qed.

Lemma fk_insert_l {A} (col : A -> string) l t x : fk (map col l) t -> col x ∈ t -> fk (map col (l ++ [x])) t.
Proof. intros H Hx y. rewrite map_app. intros [Hy| ->%list_elem_of_singleton]%elem_of_app; auto. Qed.

Lemma fk_insert_r {C} (key : C -> string) l t x : fk l (map key t) -> fk l (map key (t ++ [x])).
Proof. intros H y Hy. rewrite map_app. apply elem_of_app. auto. Qed.

Lemma fk_upd_r {C} (key : C -> string) k f l t :
  (forall x, key (f x) = key x) -> fk l (map key t) -> fk l (map key (upd key k f t)).
Proof. intros Hf H. by rewrite upd_keys. Qed.

Create HintDb integrity.
#[export] Hint Resolve unique_filter unique_list_filter NoDup_list_filter fk_omap_filter fk_omap_without fk_filter fk_cascade fk_insert_r fk_insert_l unique_insert : integrity.

(** ** The invariant *)

Definition acl_key (a : network_acl) : string * string := (a_network_id a, a_group_id a).

Definition network_wf (n : network) : Prop :=
  cidr_wf (n_address n) /\ match n_tunnel_cidr n with Some c => cidr_wf c | None => True end.

(** The unique pairs of migration 12; a null network makes a row distinct. *)
Definition gw_name_key (g : gateway) : option (string * string) :=
  n ← g_network_id g; Some (n, g_name g).
Definition gw_endpoint_key (g : gateway) : option (string * string) :=
  n ← g_network_id g; Some (n, g_endpoint g).

(** Set references, as the lists of the keys they name. *)
Definition device_nets (l : list device) : list string := omap d_network_id l.
Definition legacy_nets (l : list gateway) : list string := omap g_network_id l.

Record integrity (d : db) : Prop := {
  in_users : NoDup (map u_id (users d));
  in_usernames : NoDup (map u_username (users d));
  in_emails : NoDup (map u_email (users d));
  in_groups : NoDup (map gr_id (groups d));
  in_group_names : NoDup (map gr_name (groups d));
  in_networks : NoDup (map n_id (networks d));
  in_network_names : NoDup (map n_name (networks d));
  in_cidrs : Forall network_wf (networks d);
  in_gateways : NoDup (map g_id (gateways d));
  in_gateway_keys : NoDup (map g_pubkey (gateways d));
  in_gateway_names : unique gw_name_key (gateways d);
  in_gateway_endpoints : unique gw_endpoint_key (gateways d);
  in_devices : devices_ok (devices d);
  in_members : NoDup (user_groups d);
  in_acls : NoDup (map a_id (network_acls d));
  in_acl_keys : NoDup (map acl_key (network_acls d));
  in_served : NoDup (gateway_networks d);
  in_dev_user : fk (map d_user_id (devices d)) (map u_id (users d));
  in_dev_net : fk (device_nets (devices d)) (map n_id (networks d));
  in_mem_user : fk (map fst (user_groups d)) (map u_id (users d));
  in_mem_group : fk (map snd (user_groups d)) (map gr_id (groups d));
  in_acl_net : fk (map a_network_id (network_acls d)) (map n_id (networks d));
  in_acl_group : fk (map a_group_id (network_acls d)) (map gr_id (groups d));
  in_served_gw : fk (map fst (gateway_networks d)) (map g_id (gateways d));
  in_served_net : fk (map snd (gateway_networks d)) (map n_id (networks d));
  in_legacy : fk (legacy_nets (gateways d)) (map n_id (networks d));
}.

(** The part of it that the policy theorems use. *)
Lemma integrity_db_ok d : integrity d -> db_ok d.
Proof.
  intros Hi. split; [apply Hi..| |].
  - intros dev Hdev.
    destruct (proj1 (list_elem_of_fmap _ _ _) (in_dev_user d Hi _ (list_elem_of_fmap_2 d_user_id _ _ Hdev)))
      as (u & E & Hu). by exists u.
  - eapply Forall_impl; [apply (in_cidrs d Hi)|]. by intros n [Hn _].
Qed.

Lemma devices_ok_filter P l : devices_ok l -> devices_ok (List.filter P l).
Proof.
  intros [H1 H2 H3 H4]. split; [by apply unique_filter..|].
  rewrite Forall_forall in *. intros x [Hx _]%list_elem_of_In%filter_In. apply H4. by apply list_elem_of_In.
Qed.

#[export] Hint Resolve devices_ok_filter : integrity.
#[export] Hint Constructors NoDup : integrity.

(** ** Statements of the group tables *)

(** Input of PostgreSQL's [cidr] and [inet] types. *)
Class PgText : Type := {
  pg_cidr : string -> option cidr;
  pg_inet : string -> option Z;
  pg_cidr_wf : forall s c, pg_cidr s = Some c -> cidr_wf c;
}.

Definition insert_group (newID : string) (now : Z) (name description : string) : stmt db group := fun d =>
  let g := {| gr_id := newID; gr_name := name; gr_description := description; gr_is_system := false;
              gr_created_at := now |} in
  if has gr_id (groups d) newID then inr (ErrUnique "groups_pkey")
  else if has gr_name (groups d) name then inr (ErrUnique "groups_name_key")
  else inl (g, set_groups d (groups d ++ [g])).

(** [COALESCE($n, column)]. *)
Definition patch_group (name description : option string) (g : group) : group := {|
  gr_id := gr_id g; gr_name := default (gr_name g) name;
  gr_description := default (gr_description g) description; gr_is_system := gr_is_system g;
  gr_created_at := gr_created_at g |}.

Definition update_group (id : string) (name description : option string) : stmt db group := fun d =>
  match byKey gr_id (groups d) id with
  | None => inr ErrNoRows
  | Some g =>
      if clash gr_id (Some ∘ gr_name) (groups d) id (Some (default (gr_name g) name))
      then inr (ErrUnique "groups_name_key")
      else inl (patch_group name description g,
                set_groups d (upd gr_id id (patch_group name description) (groups d)))
  end.

(** Deleting a group takes its memberships and its access rules with it. *)
Definition delete_group (id : string) : stmt db nat := fun d =>
  inl (rowsWith gr_id (groups d) id,
       set_network_acls
         (set_user_groups (set_groups d (without gr_id (groups d) id)) (without snd (user_groups d) id))
         (without a_group_id (network_acls d) id)).

(** [INSERT .. ON CONFLICT DO NOTHING]. *)
Definition insert_member (uid gid : string) : stmt db unit := fun d =>
  if bool_decide ((uid, gid) ∈ user_groups d) then inl (tt, d)
  else if has u_id (users d) uid && has gr_id (groups d) gid
  then inl (tt, set_user_groups d (user_groups d ++ [(uid, gid)]))
  else inr ErrForeignKey.

Definition same_pair (a b : string * string) : bool := bool_decide (a = b).

Definition delete_member (uid gid : string) : stmt db nat := fun d =>
  inl (length (List.filter (same_pair (uid, gid)) (user_groups d)),
       set_user_groups d (List.filter (fun m => negb (same_pair (uid, gid) m)) (user_groups d))).

Definition insert_acl `{PgText} (newID nid gid : string) (texts : list string) : stmt db network_acl := fun d =>
  match mapM pg_cidr texts with
  | None => inr ErrBadText
  | Some ips =>
      let a := {| a_id := newID; a_network_id := nid; a_group_id := gid; a_allowed_ips := ips |} in
      if has a_id (network_acls d) newID then inr (ErrUnique "network_acls_pkey")
      else if bool_decide ((nid, gid) ∈ map acl_key (network_acls d))
      then inr (ErrUnique "network_acls_network_id_group_id_key")
      else if has n_id (networks d) nid && has gr_id (groups d) gid
      then inl (a, set_network_acls d (network_acls d ++ [a]))
      else inr ErrForeignKey
  end.

Definition this_acl (id gid : string) (a : network_acl) : bool :=
  String.eqb (a_id a) id && String.eqb (a_group_id a) gid.

Definition delete_acl (id gid : string) : stmt db nat := fun d =>
  inl (length (List.filter (this_acl id gid) (network_acls d)),
       set_network_acls d (List.filter (fun a => negb (this_acl id gid a)) (network_acls d))).

(** ** They preserve integrity *)

(** Split the invariant of the new tables; the columns that did not change
    keep theirs. *)
Ltac lookups := boolify; repeat match goal with
  | H : has _ _ _ = true |- _ => apply has_true in H
  | H : has _ _ _ = false |- _ => apply has_false in H
  end.

Ltac keep_integrity Hi := destruct Hi; split; cbn; try done; eauto with integrity.

Lemma NoDup_insert {A} (l : list A) x : NoDup l -> x ∉ l -> NoDup (l ++ [x]).
Proof. intros Hnd Hx. rewrite <- (map_id (l ++ [x])). apply unique_insert; by rewrite map_id. Qed.

(** The rows of a plain unique column after an update. *)
Lemma unique_upd_plain {A B} `{EqDecision B} (key : A -> string) (col : A -> B) k f (l : list A) :
  NoDup (map key l) -> NoDup (map col l) -> (forall x, key (f x) = key x) ->
  (forall x, x ∈ l -> key x = k -> clash key (Some ∘ col) l k (Some (col (f x))) = false) ->
  NoDup (map col (upd key k f l)).
Proof.
  intros Hkey Hcol Hf Hnew. apply (proj1 (unique_map _ _)). apply unique_upd; [done|by apply unique_map|done|].
  intros x Hx Hk. right. by apply Hnew.
Qed.

Lemma keys_upd {A} (key : A -> string) k f (l : list A) :
  (forall x, key (f x) = key x) -> NoDup (map key l) -> NoDup (map key (upd key k f l)).
Proof. intros Hf Hnd. by rewrite upd_keys. Qed.

#[export] Hint Resolve keys_upd fk_upd_r NoDup_insert : integrity.

Lemma insert_group_integrity newID now name desc : stmt_preserves integrity (insert_group newID now name desc).
Proof.
  intros d g d' Hi. unfold insert_group. repeat case_match; intros; simplify_eq.
  lookups. keep_integrity Hi.
Qed.

Lemma update_group_integrity id name desc : stmt_preserves integrity (update_group id name desc).
Proof.
  intros d g d' Hi. unfold update_group. repeat case_match; intros; simplify_eq.
  apply byKey_Some in H as [Hin Hk]. keep_integrity Hi.
  apply unique_upd_plain; [done..|]. intros x Hx Hxk. cbn.
  replace x with g0; [done|]. eapply (NoDup_map_inj gr_id); [done..|congruence].
Qed.

Lemma delete_group_integrity id : stmt_preserves integrity (delete_group id).
Proof.
  intros d n d' Hi. unfold delete_group. intros; simplify_eq. keep_integrity Hi.
Qed.

Lemma insert_member_integrity uid gid : stmt_preserves integrity (insert_member uid gid).
Proof.
  intros d u d' Hi. unfold insert_member. repeat case_match; intros; simplify_eq; [done|].
  lookups. keep_integrity Hi.
Qed.

Lemma delete_member_integrity uid gid : stmt_preserves integrity (delete_member uid gid).
Proof. intros d n d' Hi. unfold delete_member. intros; simplify_eq. keep_integrity Hi. Qed.

Lemma insert_acl_integrity `{PgText} newID nid gid texts :
  stmt_preserves integrity (insert_acl newID nid gid texts).
Proof.
  intros d a d' Hi. unfold insert_acl. repeat case_match; intros; simplify_eq.
  lookups. keep_integrity Hi.
Qed.

Lemma delete_acl_integrity id gid : stmt_preserves integrity (delete_acl id gid).
Proof. intros d n d' Hi. unfold delete_acl. intros; simplify_eq. keep_integrity Hi. Qed.

(** ** Statements of the user tables *)

Record new_user := {
  nu_username : string;
  nu_email : string;
  nu_hash : string;
  nu_first : string;
  nu_last : string;
  nu_admin : bool;
}.

Definition insert_user (newID : string) (now : Z) (r : new_user) : stmt db user := fun d =>
  let u := {| u_id := newID; u_username := nu_username r; u_email := nu_email r;
              u_password_hash := Some (nu_hash r); u_first_name := nu_first r; u_last_name := nu_last r;
              u_phone := None; u_is_active := true; u_is_admin := nu_admin r; u_mfa_enabled := false;
              u_created_at := now; u_updated_at := now |} in
  if has u_id (users d) newID then inr (ErrUnique "users_pkey")
  else if has u_username (users d) (nu_username r) then inr (ErrUnique "users_username_key")
  else if has u_email (users d) (nu_email r) then inr (ErrUnique "users_email_key")
  else inl (u, set_users d (users d ++ [u])).

(** [INSERT .. SELECT $1, id FROM roles WHERE name = $2 ON CONFLICT DO NOTHING]. *)
Definition insert_roles (uid role : string) : stmt db unit := fun d =>
  inl (tt, set_user_roles d (user_roles d ++
    List.filter (fun m => negb (bool_decide (m ∈ user_roles d)))
      (map (fun r => (uid, r.1)) (List.filter (fun r => String.eqb r.2 role) (roles d))))).

(** [INSERT .. SELECT $1, id FROM groups WHERE name = 'everyone' AND is_system]:
    at most one row, names being unique. *)
Definition everyone (d : db) : option group :=
  List.find (fun g => String.eqb (gr_name g) "everyone" && gr_is_system g) (groups d).

Definition insert_everyone (uid : string) : stmt db unit := fun d =>
  match everyone d with
  | None => inl (tt, d)
  | Some g => insert_member uid (gr_id g) d
  end.

Record user_patch := {
  up_email : option string;
  up_first : option string;
  up_last : option string;
  up_phone : option string;
  up_active : option bool;
  up_admin : option bool;
}.

Definition patch_user (now : Z) (p : user_patch) (u : user) : user := {|
  u_id := u_id u; u_username := u_username u; u_email := default (u_email u) (up_email p);
  u_password_hash := u_password_hash u; u_first_name := default (u_first_name u) (up_first p);
  u_last_name := default (u_last_name u) (up_last p);
  u_phone := match up_phone p with Some ph => Some ph | None => u_phone u end;
  u_is_active := default (u_is_active u) (up_active p);
  u_is_admin := default (u_is_admin u) (up_admin p);
  u_mfa_enabled := u_mfa_enabled u; u_created_at := u_created_at u; u_updated_at := now |}.

Definition update_user (now : Z) (id : string) (p : user_patch) : stmt db user := fun d =>
  match byKey u_id (users d) id with
  | None => inr ErrNoRows
  | Some u =>
      if clash u_id (Some ∘ u_email) (users d) id (Some (u_email (patch_user now p u)))
      then inr (ErrUnique "users_email_key")
      else inl (patch_user now p u, set_users d (upd u_id id (patch_user now p) (users d)))
  end.

(** Deleting a user takes the devices (with their reports), memberships, roles
    and sessions with it. *)
Definition owned_by (uid : string) (l : list device) (did : string) : bool :=
  existsb (fun dev => String.eqb (d_user_id dev) uid && String.eqb (d_id dev) did) l.

Definition drop_user (id : string) (d : db) : db :=
  let gone := owned_by id (devices d) in
  set_logins (set_user_roles (set_user_groups (set_trust_scores (set_device_posture
    (set_devices (set_users d (without u_id (users d) id)) (without d_user_id (devices d) id))
    (List.filter (fun p => negb (gone (dp_device_id p))) (device_posture d)))
    (List.filter (fun t => negb (gone (ts_device_id t))) (device_trust_scores d)))
    (without fst (user_groups d) id))
    (without fst (user_roles d) id))
    (without fst (logins d) id).

Definition delete_user (id : string) : stmt db nat := fun d =>
  inl (rowsWith u_id (users d) id, drop_user id d).

Lemma patch_user_id now p u : u_id (patch_user now p u) = u_id u. Proof. done. Qed.

Lemma insert_user_integrity newID now r : stmt_preserves integrity (insert_user newID now r).
Proof.
  intros d u d' Hi. unfold insert_user. repeat case_match; intros; simplify_eq.
  lookups. keep_integrity Hi.
Qed.

Lemma insert_roles_integrity uid role : stmt_preserves integrity (insert_roles uid role).
Proof. intros d u d' Hi. unfold insert_roles. intros; simplify_eq. keep_integrity Hi. Qed.

Lemma insert_everyone_integrity uid : stmt_preserves integrity (insert_everyone uid).
Proof.
  intros d u d' Hi. unfold insert_everyone. case_match; intros; simplify_eq; [|done].
  by eapply insert_member_integrity.
Qed.

(** The row an update patches is the row it looked up. *)
Lemma byKey_row {A} (key : A -> string) l k x y :
  NoDup (map key l) -> byKey key l k = Some x -> y ∈ l -> key y = k -> y = x.
Proof. intros Hnd [Hx Hk]%byKey_Some Hy Hyk. eapply (NoDup_map_inj key); [done..|congruence]. Qed.

(** A column the update leaves alone. *)
Lemma column_upd {A B} (key : A -> string) (col : A -> B) k f (l : list A) :
  (forall x, col (f x) = col x) -> map col (upd key k f l) = map col l.
Proof. intros Hf. unfold upd. rewrite map_map. apply map_ext. intros x. by destruct (String.eqb _ _). Qed.

Lemma update_user_integrity now id p : stmt_preserves integrity (update_user now id p).
Proof.
  intros d u d' Hi. unfold update_user. repeat case_match; intros; simplify_eq. keep_integrity Hi.
  - by rewrite (column_upd _ u_username).
  - apply unique_upd_plain; [done..|]. intros x Hx Hxk. by rewrite (byKey_row u_id (users d) id u0 x).
Qed.

Lemma delete_user_integrity id : stmt_preserves integrity (delete_user id).
Proof.
  intros d n d' Hi. unfold delete_user, drop_user. intros; simplify_eq. keep_integrity Hi.
Qed.

(** ** Statements of the network tables *)

Section network_statements.
Context `{PgText}.

(** A nullable [cidr] parameter. *)
Definition pg_cidr_opt (t : option string) : option (option cidr) :=
  match t with None => Some None | Some t => Some <$> pg_cidr t end.

Record new_network := {
  nn_name : string;
  nn_address : string;
  nn_tunnel : option string;
  nn_dns : list string;
  nn_port : Z;
  nn_keepalive : Z;
}.

Definition insert_network (newID : string) (now : Z) (r : new_network) : stmt db network := fun d =>
  match pg_cidr (nn_address r), pg_cidr_opt (nn_tunnel r) with
  | Some a, Some t =>
      let n := {| n_id := newID; n_name := nn_name r; n_address := a; n_tunnel_cidr := t; n_dns := nn_dns r;
                  n_port := nn_port r; n_keepalive := nn_keepalive r; n_is_active := true;
                  n_created_at := now; n_updated_at := now |} in
      if has n_id (networks d) newID then inr (ErrUnique "networks_pkey")
      else if has n_name (networks d) (nn_name r) then inr (ErrUnique "networks_name_key")
      else inl (n, set_networks d (networks d ++ [n]))
  | _, _ => inr ErrBadText
  end.

Record network_patch := {
  np_name : option string;
  np_address : option string;
  np_tunnel : option string;
  np_dns : option (list string);
  np_port : option Z;
  np_keepalive : option Z;
  np_active : option bool;
}.

Definition patch_network (now : Z) (p : network_patch) (a t : option cidr) (n : network) : network := {|
  n_id := n_id n; n_name := default (n_name n) (np_name p); n_address := default (n_address n) a;
  n_tunnel_cidr := match t with Some t => Some t | None => n_tunnel_cidr n end;
  n_dns := default (n_dns n) (np_dns p); n_port := default (n_port n) (np_port p);
  n_keepalive := default (n_keepalive n) (np_keepalive p);
  n_is_active := default (n_is_active n) (np_active p);
  n_created_at := n_created_at n; n_updated_at := now |}.

(** The parameters are converted before the row is looked for. *)
Definition update_network (now : Z) (id : string) (p : network_patch) : stmt db network := fun d =>
  match pg_cidr_opt (np_address p), pg_cidr_opt (np_tunnel p) with
  | Some a, Some t =>
      match byKey n_id (networks d) id with
      | None => inr ErrNoRows
      | Some n =>
          if clash n_id (Some ∘ n_name) (networks d) id (Some (n_name (patch_network now p a t n)))
          then inr (ErrUnique "networks_name_key")
          else inl (patch_network now p a t n,
                    set_networks d (upd n_id id (patch_network now p a t) (networks d)))
      end
  | _, _ => inr ErrBadText
  end.

(** Deleting a network detaches its devices and takes its access rules, its
    assignments, its smart-route bindings and the gateways whose legacy column
    names it. *)
Definition detach (nid : string) (dev : device) : device :=
  if bool_decide (d_network_id dev = Some nid) then {|
    d_id := d_id dev; d_user_id := d_user_id dev; d_name := d_name dev; d_pubkey := d_pubkey dev;
    d_privkey := d_privkey dev; d_assigned_ip := d_assigned_ip dev; d_is_approved := d_is_approved dev;
    d_last_handshake := d_last_handshake dev; d_network_id := None; d_created_at := d_created_at dev;
    d_updated_at := d_updated_at dev |}
  else dev.

Definition legacy_of (nid : string) (g : gateway) : bool := bool_decide (g_network_id g = Some nid).

Definition drop_network (id : string) (d : db) : db :=
  set_network_smart_routes (set_gateway_networks (set_gateways (set_network_acls (set_devices
    (set_networks d (without n_id (networks d) id))
    (map (detach id) (devices d)))
    (without a_network_id (network_acls d) id))
    (List.filter (fun g => negb (legacy_of id g)) (gateways d)))
    (List.filter (fun gn => negb (has g_id (List.filter (legacy_of id) (gateways d)) gn.1))
       (without snd (gateway_networks d) id)))
    (without fst (network_smart_routes d) id).

Definition delete_network (id : string) : stmt db nat := fun d =>
  inl (rowsWith n_id (networks d) id, drop_network id d).

Lemma pg_cidr_opt_wf t c : pg_cidr_opt t = Some (Some c) -> cidr_wf c.
Proof.
  destruct t as [t|]; cbn; [|done]. destruct (pg_cidr t) eqn:E; cbn; intros [= <-]. by eapply pg_cidr_wf.
Qed.

Lemma insert_network_integrity newID now r : stmt_preserves integrity (insert_network newID now r).
Proof.
  intros d n d' Hi. unfold insert_network. repeat case_match; intros; simplify_eq. lookups. keep_integrity Hi.
  apply Forall_app. split; [done|]. apply Forall_singleton. split; cbn.
  - by eapply pg_cidr_wf.
  - case_match; [|done]. subst. by eapply pg_cidr_opt_wf.
Qed.

Lemma Forall_upd {A} (P : A -> Prop) (key : A -> string) k f l :
  Forall P l -> (forall x, P x -> P (f x)) -> Forall P (upd key k f l).
Proof. intros HP Hf. apply Forall_map. eapply Forall_impl; [done|]. intros x Hx. case_match; auto. Qed.

Lemma Forall_list_filter {A} (P : A -> Prop) f l : Forall P l -> Forall P (List.filter f l).
Proof.
  rewrite !Forall_forall. intros HP x [Hx _]%list_elem_of_In%filter_In. apply HP. by apply list_elem_of_In.
Qed.

Lemma Forall_snoc_row {A} (P : A -> Prop) l x : Forall P l -> P x -> Forall P (l ++ [x])%list.
Proof. intros. apply Forall_app. auto. Qed.

Lemma update_network_integrity now id p : stmt_preserves integrity (update_network now id p).
Proof.
  intros d n d' Hi. unfold update_network. repeat case_match; intros; simplify_eq. keep_integrity Hi.
  - apply unique_upd_plain; [done..|]. intros x Hx Hxk. by rewrite (byKey_row n_id (networks d) id n0 x).
  - apply Forall_upd; [done|]. intros x [Hx Ht]. split; cbn.
    + destruct o as [c|]; cbn; [by eapply pg_cidr_opt_wf|done].
    + destruct o0 as [c|]; [by eapply pg_cidr_opt_wf|done].
Qed.

Lemma detach_column {B} (col : device -> B) nid l :
  (forall dev, col (detach nid dev) = col dev) -> map col (map (detach nid) l) = map col l.
Proof. intros Hc. rewrite map_map. by apply map_ext. Qed.

Lemma devices_ok_detach nid l : devices_ok l -> devices_ok (map (detach nid) l).
Proof.
  assert (forall dev, d_id (detach nid dev) = d_id dev /\ d_pubkey (detach nid dev) = d_pubkey dev /\
                      d_assigned_ip (detach nid dev) = d_assigned_ip dev) as Hd.
  { intros dev. unfold detach. by case_bool_decide. }
  intros [H1 H2 H3 H4]. split.
  - rewrite detach_column; [done|apply Hd].
  - rewrite detach_column; [done|apply Hd].
  - rewrite detach_column; [done|apply Hd].
  - apply Forall_map. eapply Forall_impl; [done|]. intros dev. cbn. destruct (Hd dev) as (_ & _ & ->). done.
Qed.

Lemma device_nets_detach nid l x : x ∈ device_nets (map (detach nid) l) <-> x ∈ device_nets l /\ x <> nid.
Proof.
  unfold device_nets. rewrite !list_elem_of_omap. split.
  - intros (dev' & (dev & -> & Hdev)%list_elem_of_fmap & E). unfold detach in E.
    case_bool_decide; [done|]. split; [eauto|congruence].
  - intros [(dev & Hdev & E) Hne]. exists dev. split; [|done]. apply list_elem_of_fmap. exists dev.
    unfold detach. rewrite bool_decide_eq_false_2; [done|congruence].
Qed.

(** References that avoid the deleted key. *)
Lemma fk_avoid {C} (key : C -> string) l l' t k :
  fk l (map key t) -> (forall x, x ∈ l' -> x ∈ l /\ x <> k) -> fk l' (map key (without key t k)).
Proof.
  intros Hfk Hl x [Hx Hne]%Hl. apply Hfk, list_elem_of_fmap in Hx as (z & -> & Hz).
  apply list_elem_of_fmap. exists z. by rewrite elem_of_without.
Qed.

Lemma fk_drop_gateways nid (gs : list gateway) (l : list (string * string)) :
  fk (map fst l) (map g_id gs) ->
  fk (map fst (List.filter (fun gn => negb (has g_id (List.filter (legacy_of nid) gs) gn.1)) (without snd l nid)))
     (map g_id (List.filter (fun g => negb (legacy_of nid g)) gs)).
Proof.
  intros Hfk x (gn & -> & [Hgn Hn]%list_elem_of_In%filter_In)%list_elem_of_fmap.
  apply list_elem_of_In in Hgn. apply elem_of_without in Hgn as [Hgn _].
  apply negb_true_iff, has_false in Hn.
  destruct (proj1 (list_elem_of_fmap _ _ _) (Hfk _ (list_elem_of_fmap_2 fst _ _ Hgn))) as (g & E & Hg).
  apply list_elem_of_fmap. exists g. split; [done|]. apply list_elem_of_In, filter_In.
  split; [by apply list_elem_of_In|]. destruct (legacy_of nid g) eqn:El; [|done]. destruct Hn.
  rewrite E. apply (list_elem_of_fmap_2 g_id). apply list_elem_of_In, filter_In.
  split; [by apply list_elem_of_In|done].
Qed.

Lemma delete_network_integrity id : stmt_preserves integrity (delete_network id).
Proof.
  intros d n d' Hi. unfold delete_network, drop_network. intros; simplify_eq.
  assert (forall (P : network -> bool), Forall network_wf (List.filter P (networks d))) as Hf.
  { intros P. rewrite Forall_forall. intros x [Hx _]%list_elem_of_In%filter_In.
    by apply (proj1 (Forall_forall _ _) (in_cidrs d Hi)), list_elem_of_In. }
  keep_integrity Hi.
  - by apply devices_ok_detach.
  - rewrite detach_column; [done|]. intros dev. unfold detach. by case_bool_decide.
  - apply (fk_avoid _ (device_nets (devices d))); [done|]. intros x Hx. by apply device_nets_detach.
  - by apply fk_drop_gateways.
  - apply (fk_avoid _ (legacy_nets (gateways d))); [done|]. intros x (g & Hg & E)%list_elem_of_omap.
    apply list_elem_of_In, filter_In in Hg as [Hg Hn]. apply list_elem_of_In in Hg. split.
    + apply list_elem_of_omap. eauto.
    + intros ->. unfold legacy_of in Hn. by rewrite bool_decide_eq_true_2 in Hn.
Qed.
End network_statements.

(** ** Statements of the gateway tables *)

Section gateway_statements.
Context `{PgText}.

Definition int32_ok (z : Z) : bool := (- 2^31 <=? z) && (z <? 2^31).

Definition pg_inet_opt (t : option string) : option (option Z) :=
  match t with None => Some None | Some t => Some <$> pg_inet t end.

Record new_gateway := {
  ng_network : string;
  ng_name : string;
  ng_pubkey : string;
  ng_privkey : string;
  ng_endpoint : string;
  ng_token_hash : string;
  ng_public_ip : option string;
  ng_priority : Z;
}.

(** The unique constraints a row must respect, in the order of their indexes. *)
Definition gateway_clash (l : list gateway) (g : gateway) : option string :=
  if clash g_id (Some ∘ g_pubkey) l (g_id g) (Some (g_pubkey g)) then Some "gateways_wireguard_pubkey_key"
  else if clash g_id gw_name_key l (g_id g) (gw_name_key g) then Some "gateways_network_name_key"
  else if clash g_id gw_endpoint_key l (g_id g) (gw_endpoint_key g) then Some "gateways_network_endpoint_key"
  else None.

Definition insert_gateway (newID : string) (now : Z) (r : new_gateway) : stmt db gateway := fun d =>
  match pg_inet_opt (ng_public_ip r), int32_ok (ng_priority r) with
  | Some ip, true =>
      let g := {| g_id := newID; g_network_id := Some (ng_network r); g_name := ng_name r; g_public_ip := ip;
                  g_pubkey := ng_pubkey r; g_privkey := Some (ng_privkey r); g_endpoint := ng_endpoint r;
                  g_is_active := true; g_priority := ng_priority r; g_token_hash := ng_token_hash r;
                  g_last_seen := None; g_health_status := "unknown"; g_consecutive_failures := 0;
                  g_created_at := now; g_updated_at := now |} in
      if has g_id (gateways d) newID then inr (ErrUnique "gateways_pkey")
      else match gateway_clash (gateways d) g with
           | Some constraint => inr (ErrUnique constraint)
           | None =>
               if has n_id (networks d) (ng_network r)
               then inl (g, set_gateways d (gateways d ++ [g]))
               else inr ErrForeignKey
           end
  | None, _ => inr ErrBadText
  | _, false => inr ErrOther
  end.

Definition insert_served (gid nid : string) : stmt db unit := fun d =>
  if bool_decide ((gid, nid) ∈ gateway_networks d) then inr (ErrUnique "gateway_networks_pkey")
  else if has g_id (gateways d) gid && has n_id (networks d) nid
  then inl (tt, set_gateway_networks d (gateway_networks d ++ [(gid, nid)]))
  else inr ErrForeignKey.

Definition delete_served (gid : string) : stmt db nat := fun d =>
  inl (rowsWith fst (gateway_networks d) gid, set_gateway_networks d (without fst (gateway_networks d) gid)).

Record gateway_patch := {
  gp_name : option string;
  gp_endpoint : option string;
  gp_public_ip : option string;
  gp_priority : option Z;
  gp_active : option bool;
}.

Definition patch_gateway (now : Z) (p : gateway_patch) (ip : option Z) (g : gateway) : gateway := {|
  g_id := g_id g; g_network_id := g_network_id g; g_name := default (g_name g) (gp_name p);
  g_public_ip := match ip with Some ip => Some ip | None => g_public_ip g end;
  g_pubkey := g_pubkey g; g_privkey := g_privkey g; g_endpoint := default (g_endpoint g) (gp_endpoint p);
  g_is_active := default (g_is_active g) (gp_active p); g_priority := default (g_priority g) (gp_priority p);
  g_token_hash := g_token_hash g; g_last_seen := g_last_seen g; g_health_status := g_health_status g;
  g_consecutive_failures := g_consecutive_failures g; g_created_at := g_created_at g; g_updated_at := now |}.

Definition relink_gateway (nid : string) (g : gateway) : gateway := {|
  g_id := g_id g; g_network_id := Some nid; g_name := g_name g; g_public_ip := g_public_ip g;
  g_pubkey := g_pubkey g; g_privkey := g_privkey g; g_endpoint := g_endpoint g; g_is_active := g_is_active g;
  g_priority := g_priority g; g_token_hash := g_token_hash g; g_last_seen := g_last_seen g;
  g_health_status := g_health_status g; g_consecutive_failures := g_consecutive_failures g;
  g_created_at := g_created_at g; g_updated_at := g_updated_at g |}.

(** [UPDATE gateways SET .. WHERE id = $1], whatever it sets. *)
Definition modify_gateway (id : string) (f : gateway -> gateway) (ref : option string) : stmt db gateway := fun d =>
  match byKey g_id (gateways d) id with
  | None => inr ErrNoRows
  | Some g =>
      match gateway_clash (gateways d) (f g) with
      | Some constraint => inr (ErrUnique constraint)
      | None =>
          if match ref with Some nid => has n_id (networks d) nid | None => true end
          then inl (f g, set_gateways d (upd g_id id f (gateways d)))
          else inr ErrForeignKey
      end
  end.

Definition update_gateway (now : Z) (id : string) (p : gateway_patch) : stmt db gateway := fun d =>
  match pg_inet_opt (gp_public_ip p), int32_ok (default 0 (gp_priority p)) with
  | Some ip, true => modify_gateway id (patch_gateway now p ip) None d
  | None, _ => inr ErrBadText
  | _, false => inr ErrOther
  end.

(** [UPDATE gateways SET network_id = $2 WHERE id = $1], executed: no row is no
    error. *)
Definition relink (id nid : string) : stmt db unit := fun d =>
  match modify_gateway id (relink_gateway nid) (Some nid) d with
  | inl (_, d') => inl (tt, d')
  | inr ErrNoRows => inl (tt, d)
  | inr e => inr e
  end.

Definition delete_gateway (id : string) : stmt db nat := fun d =>
  inl (rowsWith g_id (gateways d) id,
       set_gateway_networks (set_gateways d (without g_id (gateways d) id)) (without fst (gateway_networks d) id)).

Lemma gateway_clash_None l g : gateway_clash l g = None ->
  clash g_id (Some ∘ g_pubkey) l (g_id g) (Some (g_pubkey g)) = false /\
  clash g_id gw_name_key l (g_id g) (gw_name_key g) = false /\
  clash g_id gw_endpoint_key l (g_id g) (gw_endpoint_key g) = false.
Proof. unfold gateway_clash. by repeat case_match. Qed.

Lemma insert_gateway_integrity newID now r : stmt_preserves integrity (insert_gateway newID now r).
Proof.
  intros d g d' Hi. unfold insert_gateway. repeat case_match; intros; simplify_eq. lookups.
  match goal with Hc : gateway_clash _ _ = None |- _ =>
    apply gateway_clash_None in Hc as (Hpk & Hn & He) end.
  keep_integrity Hi.
  - apply (proj1 (unique_map _ _)). apply (unique_insert_clash g_id); [by apply unique_map|done..].
  - by apply (unique_insert_clash g_id).
  - by apply (unique_insert_clash g_id).
  - intros x. unfold legacy_nets. rewrite omap_app. intros [Hx|Hx]%elem_of_app; [auto|].
    cbn in Hx. apply list_elem_of_singleton in Hx as ->. done.
Qed.

Lemma insert_served_integrity gid nid : stmt_preserves integrity (insert_served gid nid).
Proof.
  intros d u d' Hi. unfold insert_served. repeat case_match; intros; simplify_eq. lookups. keep_integrity Hi.
Qed.

Lemma delete_served_integrity gid : stmt_preserves integrity (delete_served gid).
Proof. intros d n d' Hi. unfold delete_served. intros; simplify_eq. keep_integrity Hi. Qed.

Lemma modify_gateway_integrity id f ref :
  (forall g, g_id (f g) = g_id g) -> (forall g, g_pubkey (f g) = g_pubkey g) ->
  (forall g, g_network_id (f g) = match ref with Some _ => ref | None => g_network_id g end) ->
  stmt_preserves integrity (modify_gateway id f ref).
Proof.
  intros Hid Hpk Hnet d g d' Hi. unfold modify_gateway.
  destruct (byKey g_id (gateways d) id) as [g0|] eqn:Hg; [|done].
  destruct (gateway_clash _ _) eqn:Hc; [done|].
  destruct (match ref with Some nid => has n_id (networks d) nid | None => true end) eqn:Hr; intros; simplify_eq.
  apply gateway_clash_None in Hc as (_ & Hn & He). rewrite Hid in Hn, He.
  pose proof (byKey_Some _ _ _ _ Hg) as [Hg0 Hk]. subst id. keep_integrity Hi.
  - by rewrite (column_upd _ g_pubkey).
  - apply unique_upd; [done..|]. intros x Hx Hxk. right. by rewrite (byKey_row g_id (gateways d) (g_id g0) g0 x).
  - apply unique_upd; [done..|]. intros x Hx Hxk. right. by rewrite (byKey_row g_id (gateways d) (g_id g0) g0 x).
  - intros x (y & Hy & E)%list_elem_of_omap. apply elem_of_upd in Hy as [[Hy _]|(z & Hz & _ & ->)].
    + apply in_legacy0, list_elem_of_omap. eauto.
    + rewrite Hnet in E. destruct ref as [nid|]; simplify_eq.
      * by apply has_true.
      * apply in_legacy0, list_elem_of_omap. eauto.
Qed.

Lemma update_gateway_integrity now id p : stmt_preserves integrity (update_gateway now id p).
Proof.
  intros d g d' Hi. unfold update_gateway. repeat case_match; try done.
  by apply (modify_gateway_integrity id (patch_gateway now p o) None).
Qed.

Lemma relink_integrity id nid : stmt_preserves integrity (relink id nid).
Proof.
  intros d u d' Hi. unfold relink. repeat case_match; intros; simplify_eq; [|done].
  by eapply (modify_gateway_integrity id (relink_gateway nid) (Some nid)).
Qed.

Lemma delete_gateway_integrity id : stmt_preserves integrity (delete_gateway id).
Proof. intros d n d' Hi. unfold delete_gateway. intros; simplify_eq. keep_integrity Hi. Qed.
End gateway_statements.

#[export] Hint Resolve Forall_list_filter Forall_snoc_row Forall_upd : integrity.
#[export] Hint Resolve insert_group_integrity update_group_integrity delete_group_integrity
  insert_member_integrity delete_member_integrity insert_acl_integrity delete_acl_integrity
  insert_user_integrity insert_roles_integrity insert_everyone_integrity update_user_integrity
  delete_user_integrity insert_network_integrity update_network_integrity delete_network_integrity
  insert_gateway_integrity insert_served_integrity delete_served_integrity update_gateway_integrity
  relink_integrity delete_gateway_integrity : integrity.

(** ** Instances for running the definitions *)

#[export] Instance cidr_wf_dec c : Decision (cidr_wf c).
Proof. unfold cidr_wf. apply _. Defined.

#[export] Instance network_wf_dec n : Decision (network_wf n).
Proof. unfold network_wf. destruct (n_tunnel_cidr n); apply _. Defined.

(** PostgreSQL refuses a [cidr] with bits right of the mask. *)
Definition toy_cidr (s : string) : option cidr :=
  match ParseCIDR s with
  | Some c => if String.eqb (cidr_text c) s && bool_decide (cidr_wf c) then Some c else None
  | None => None
  end.

Lemma toy_cidr_wf s c : toy_cidr s = Some c -> cidr_wf c.
Proof.
  unfold toy_cidr. destruct (ParseCIDR s) as [c'|]; [|done]. case_match; [|done].
  intros [= <-]. boolify. done.
Qed.

Definition toy_pg : PgText := {|
  pg_cidr := toy_cidr;
  pg_inet := fun s => cidr_base <$> toy_cidr (s ++ "/32");
  pg_cidr_wf := toy_cidr_wf |}.

Example toy_pg_ok :
  map toy_cidr ["10.10.0.0/24"; "10.10.0.1/24"; "10.10.0.0/33"; ""; "0.0.0.0/0"]%string =
    [Some (Cidr 168427520 24); None; None; None; Some (Cidr 0 0)].
Proof. vm_compute. reflexivity. Qed.

Lemma devices_ok_check l :
  NoDup (map d_id l) -> NoDup (map d_pubkey l) -> NoDup (map d_assigned_ip l) ->
  Forall (fun d => 0 <= d_assigned_ip d < 2^32) l -> devices_ok l.
Proof. by split. Qed.

(** Check the invariant of concrete tables by evaluation. *)
Ltac check_integrity :=
  split; try apply devices_ok_check; apply (bool_decide_unpack _); vm_compute; exact I.
