(* ===== verification/Ztna.v ===== *)
(** * Zero-trust device checks

    [internal/ztna]: the posture checker ([posture.go]) and the trust score
    calculator ([trust_score.go]).  Module [Posture] holds the policy
    evaluation and the version comparison it uses, module [Trust] the scoring
    of a device from the rows of the database. *)

From S2P Require Import Prelude Net Schema.
From Stdlib Require Import ZArith Lia Ascii String.
From stdpp Require Import base gmap strings list sorting pretty.

Module Posture.
Local Open Scope Z_scope.

(** [DevicePosture]; times are instants in nanoseconds. *)
Record DevicePosture := {
  DeviceID : string;
  OSType : string;
  OSVersion : string;
  DiskEncrypted : bool;
  ScreenLockEnabled : bool;
  AntivirusActive : bool;
  FirewallEnabled : bool;
  LastChecked : Z;
  Score : Z;
}.

Record PosturePolicy := {
  ID : string;
  Name : string;
  NetworkID : string;
  RequireDiskEncryption : bool;
  RequireScreenLock : bool;
  RequireAntivirus : bool;
  RequireFirewall : bool;
  MinOSVersion : gmap string string;
  MinPostureScore : Z;
}.

(** The [i]-th component of a version, 0 when missing or not a number. *)
Definition part (parts : list string) (i : nat) : Z :=
  match parts !! i with
  | Some s => fst (Atoi s)
  | None => 0
  end.

(** The comparison loop over the indices [i .. i + n - 1]. *)
Fixpoint version_loop (actualParts requiredParts : list string) (i n : nat) : bool :=
  match n with
  | O => true
  | S n' =>
      let a := part actualParts i in
      let r := part requiredParts i in
      if r <? a then true
      else if a <? r then false
      else version_loop actualParts requiredParts (S i) n'
  end.

Definition isVersionAtLeast (actual required : string) : bool :=
  let actualParts := split_on "." actual in
  let requiredParts := split_on "." required in
  version_loop actualParts requiredParts 0
    (Nat.max (length actualParts) (length requiredParts)).

(** One check of [Evaluate]: on failure append the message and subtract. *)
Definition check (failed : bool) (msg : string) (penalty : Z) (st : Z * list string)
  : Z * list string :=
  if failed then (st.1 - penalty, st.2 ++ [msg]) else st.

Definition versionViolation (posture : DevicePosture) (minVer : string) : string :=
  (OSType posture ++ " version " ++ OSVersion posture ++ " is below minimum required "
     ++ minVer)%string.

Definition scoreViolation (score : Z) (policy : PosturePolicy) : string :=
  ("posture score " ++ itoa score ++ " is below minimum required "
     ++ itoa (MinPostureScore policy))%string.

Definition versionFails (posture : DevicePosture) (policy : PosturePolicy) : bool :=
  match MinOSVersion policy !! OSType posture with
  | Some minVer => negb (isVersionAtLeast (OSVersion posture) minVer)
  | None => false
  end.

(** The five checks in order, from the initial score of 100. *)
Definition checks (posture : DevicePosture) (policy : PosturePolicy) : Z * list string :=
  let st0 := (100, []) in
  let st1 := check (RequireDiskEncryption policy && negb (DiskEncrypted posture))
               "disk encryption is not enabled" 25 st0 in
  let st2 := check (RequireScreenLock policy && negb (ScreenLockEnabled posture))
               "screen lock is not enabled" 15 st1 in
  let st3 := check (RequireAntivirus policy && negb (AntivirusActive posture))
               "antivirus is not active" 20 st2 in
  let st4 := check (RequireFirewall policy && negb (FirewallEnabled posture))
               "firewall is not enabled" 15 st3 in
  match MinOSVersion policy !! OSType posture with
  | Some minVer =>
      check (negb (isVersionAtLeast (OSVersion posture) minVer))
        (versionViolation posture minVer) 25 st4
  | None => st4
  end.

Definition Evaluate (posture : DevicePosture) (policy : PosturePolicy)
  : bool * Z * list string :=
  let '(score0, violations0) := checks posture policy in
  let score := if score0 <? 0 then 0 else score0 in
  let violations :=
    if (0 <? MinPostureScore policy) && (score <? MinPostureScore policy)
    then violations0 ++ [scoreViolation score policy] else violations0 in
  (bool_decide (length violations = 0%nat), score, violations).

(** ** Version comparison against a reference order *)

(** Reference: lexicographic order on the infinite, zero-padded sequences of
    components, stated through the first index where they differ. *)
Definition version_ge (actual required : string) : Prop :=
  let a := part (split_on "." actual) in
  let r := part (split_on "." required) in
  (forall i, a i = r i) \/
  exists k, (forall i, (i < k)%nat -> a i = r i) /\ r k < a k.

Lemma part_beyond l i : (length l <= i)%nat -> part l i = 0.
Proof. intros H. unfold part. by rewrite lookup_ge_None_2. Qed.

Lemma version_loop_true al rl i n :
  version_loop al rl i n = true <->
  (forall j, (i <= j < i + n)%nat -> part al j = part rl j) \/
  exists k, (i <= k < i + n)%nat /\
    (forall j, (i <= j < k)%nat -> part al j = part rl j) /\ part rl k < part al k.
Proof.
  revert i. induction n as [|n IH]; intros i; simpl.
  { split; [|done]. left. lia. }
  destruct (Z.ltb_spec (part rl i) (part al i)) as [Hgt|Hle].
  { split; [|done]. intros _. right. exists i. repeat split; try lia. }
  destruct (Z.ltb_spec (part al i) (part rl i)) as [Hlt|Hge].
  { split; [done|]. intros [Hall|(k & Hk & Hj & Hgt)].
    - specialize (Hall i ltac:(lia)). lia.
    - destruct (decide (k = i)) as [->|]; [lia|]. specialize (Hj i ltac:(lia)). lia. }
  assert (part al i = part rl i) as Heq by lia.
  rewrite IH. clear IH. split.
  - intros [Hall|(k & Hk & Hj & Hgt)].
    + left. intros j Hj. destruct (decide (j = i)) as [->|]; [done|]. apply Hall. lia.
    + right. exists k. repeat split; try lia. intros j Hjk.
      destruct (decide (j = i)) as [->|]; [done|]. apply Hj. lia.
  - intros [Hall|(k & Hk & Hj & Hgt)].
    + left. intros j Hj. apply Hall. lia.
    + right. exists k. destruct (decide (k = i)) as [->|]; [lia|].
      repeat split; try lia. intros j Hjk. apply Hj. lia.
Qed.

Lemma isVersionAtLeast_spec a r : isVersionAtLeast a r = true <-> version_ge a r.
Proof.
  unfold isVersionAtLeast, version_ge. rewrite version_loop_true.
  set (al := split_on "." a). set (rl := split_on "." r).
  set (m := Nat.max (length al) (length rl)).
  assert (forall j, (m <= j)%nat -> part al j = part rl j) as Htail.
  { intros j Hj. unfold m in Hj. rewrite !part_beyond by lia. done. }
  split.
  - intros [Hall|(k & Hk & Hj & Hgt)].
    + left. intros i. destruct (decide (i < m)%nat); [apply Hall | apply Htail]; lia.
    + right. exists k. split; [|done]. intros i Hi. apply Hj. lia.
  - intros [Hall|(k & Hj & Hgt)]; [by left; auto|].
    right. exists k. assert (k < m)%nat.
    { destruct (decide (k < m)%nat); [done|]. rewrite Htail in Hgt by lia. lia. }
    repeat split; try lia. intros j Hjk. apply Hj. lia.
Qed.

Lemma version_ge_refl v : version_ge v v.
Proof. by left. Qed.

Lemma version_ge_trans u v w : version_ge u v -> version_ge v w -> version_ge u w.
Proof.
  unfold version_ge. set (pu := part _). set (pv := part _). set (pw := part _).
  intros [Huv|(k & Hk & Hgt)] [Hvw|(l & Hl & Hgt')].
  - left. intros i. by rewrite Huv.
  - right. exists l. split; [intros i Hi; rewrite Huv; auto | by rewrite Huv].
  - right. exists k. split; [intros i Hi; rewrite <- Hvw; auto | by rewrite <- Hvw].
  - right. exists (Nat.min k l). split.
    + intros i Hi. rewrite Hk by lia. apply Hl. lia.
    + destruct (Nat.lt_trichotomy k l) as [Hlt|[->|Hlt]].
      * rewrite Nat.min_l by lia. rewrite <- Hl by done. done.
      * rewrite Nat.min_id. lia.
      * rewrite Nat.min_r by lia. rewrite Hk by done. done.
Qed.

(** ** Policy evaluation *)

(** What the policy asks of the device, as a proposition. *)
Record satisfies (posture : DevicePosture) (policy : PosturePolicy) : Prop := {
  sat_disk : RequireDiskEncryption policy = true -> DiskEncrypted posture = true;
  sat_lock : RequireScreenLock policy = true -> ScreenLockEnabled posture = true;
  sat_av : RequireAntivirus policy = true -> AntivirusActive posture = true;
  sat_fw : RequireFirewall policy = true -> FirewallEnabled posture = true;
  sat_os : forall minVer, MinOSVersion policy !! OSType posture = Some minVer ->
           version_ge (OSVersion posture) minVer;
}.

Definition penalty (failed : bool) (p : Z) : Z := if failed then p else 0.

(** The points a device loses under a policy. *)
Definition lost (posture : DevicePosture) (policy : PosturePolicy) : Z :=
  penalty (RequireDiskEncryption policy && negb (DiskEncrypted posture)) 25 +
  penalty (RequireScreenLock policy && negb (ScreenLockEnabled posture)) 15 +
  penalty (RequireAntivirus policy && negb (AntivirusActive posture)) 20 +
  penalty (RequireFirewall policy && negb (FirewallEnabled posture)) 15 +
  penalty (versionFails posture policy) 25.

Lemma lost_range posture policy : 0 <= lost posture policy <= 100.
Proof. unfold lost, penalty. repeat case_match; lia. Qed.

Lemma implb_spec (r p : bool) : r && negb p = false <-> (r = true -> p = true).
Proof. destruct r, p; simpl; intuition discriminate. Qed.

Lemma versionFails_iff posture policy : versionFails posture policy = false <->
  forall minVer, MinOSVersion policy !! OSType posture = Some minVer -> version_ge (OSVersion posture) minVer.
Proof.
  unfold versionFails. destruct (MinOSVersion policy !! OSType posture) as [v|]; [|naive_solver].
  rewrite negb_false_iff, isVersionAtLeast_spec. naive_solver.
Qed.

Lemma lost_zero_iff posture policy : lost posture policy = 0 <-> satisfies posture policy.
Proof.
  transitivity
    (RequireDiskEncryption policy && negb (DiskEncrypted posture) = false /\
     RequireScreenLock policy && negb (ScreenLockEnabled posture) = false /\
     RequireAntivirus policy && negb (AntivirusActive posture) = false /\
     RequireFirewall policy && negb (FirewallEnabled posture) = false /\
     versionFails posture policy = false).
  { unfold lost, penalty. repeat case_match; intuition (try lia; try congruence). }
  rewrite !implb_spec, versionFails_iff. split; [intros (?&?&?&?&?); by constructor | by intros []].
Qed.

Lemma check_spec f m p score v :
  check f m p (score, v) = (score - penalty f p, v ++ (if f then [m] else [])).
Proof. unfold check, penalty. destruct f; simpl; f_equal; [lia|]. by rewrite app_nil_r. Qed.

Lemma checks_spec posture policy :
  exists msgs, checks posture policy = (100 - lost posture policy, msgs) /\
  Z.of_nat (length msgs) <= lost posture policy <= 25 * Z.of_nat (length msgs).
Proof.
  unfold checks, lost, versionFails.
  destruct (MinOSVersion policy !! OSType posture) as [v|]; rewrite !check_spec;
    eexists; (split; [f_equal; unfold penalty; lia|]);
    rewrite !length_app; unfold penalty; repeat case_match; simpl; lia.
Qed.

Lemma Evaluate_unfold posture policy :
  exists msgs,
  Z.of_nat (length msgs) <= lost posture policy <= 25 * Z.of_nat (length msgs) /\
  let score := 100 - lost posture policy in
  let v := if (0 <? MinPostureScore policy) && (score <? MinPostureScore policy)
           then msgs ++ [scoreViolation score policy] else msgs in
  Evaluate posture policy = (bool_decide (length v = 0%nat), score, v).
Proof.
  destruct (checks_spec posture policy) as (msgs & Hc & Hlen). exists msgs. split; [done|].
  unfold Evaluate. rewrite Hc. pose proof (lost_range posture policy).
  by rewrite (proj2 (Z.ltb_ge (100 - lost posture policy) 0)) by lia.
Qed.

Lemma Evaluate_score posture policy :
  (Evaluate posture policy).1.2 = 100 - lost posture policy.
Proof. by destruct (Evaluate_unfold posture policy) as (msgs & _ & ->). Qed.

Lemma Evaluate_violations posture policy :
  (Evaluate posture policy).1.1 = true <-> (Evaluate posture policy).2 = [].
Proof.
  destruct (Evaluate_unfold posture policy) as (msgs & _ & ->). simpl.
  by rewrite bool_decide_eq_true, length_zero_iff_nil.
Qed.

Lemma Evaluate_compliant posture policy :
  (Evaluate posture policy).1.1 = true <->
  lost posture policy = 0 /\ MinPostureScore policy <= 100.
Proof.
  rewrite Evaluate_violations.
  destruct (Evaluate_unfold posture policy) as (msgs & Hlen & ->). simpl.
  destruct ((0 <? MinPostureScore policy) && (100 - lost posture policy <? MinPostureScore policy))
    eqn:E; boolify.
  - split; [by destruct msgs|]. lia.
  - split.
    + intros ->. simpl in Hlen. destruct E; boolify; lia.
    + intros [Hl _]. destruct msgs; simpl in *; [done|lia].
Qed.

(** C33. [Evaluate] computes exactly the posture score: 100 less 25 points for a
    required disk encryption that is missing, 15 for the screen lock, 20 for the
    antivirus, 15 for the firewall and 25 for a system older than the policy asks
    in the reference order of versions, always within 0..100 so that the clamp
    never fires; and it declares the device compliant exactly when there is no
    violation, which is when it satisfies every requirement of the policy and the
    policy does not ask for an unreachable score above 100. *)
Theorem Evaluate_correct posture policy :
  let '(compliant, score, violations) := Evaluate posture policy in
  (exists outdated : bool,
     (outdated = false <-> forall minVer, MinOSVersion policy !! OSType posture = Some minVer ->
        version_ge (OSVersion posture) minVer) /\
     score = 100 - (penalty (RequireDiskEncryption policy && negb (DiskEncrypted posture)) 25 +
       penalty (RequireScreenLock policy && negb (ScreenLockEnabled posture)) 15 +
       penalty (RequireAntivirus policy && negb (AntivirusActive posture)) 20 +
       penalty (RequireFirewall policy && negb (FirewallEnabled posture)) 15 + penalty outdated 25)) /\
  0 <= score <= 100 /\
  (compliant = true <-> violations = []) /\
  (compliant = true <-> satisfies posture policy /\ MinPostureScore policy <= 100).
Proof.
  pose proof (Evaluate_score posture policy) as Hs.
  pose proof (Evaluate_violations posture policy) as Hv.
  pose proof (Evaluate_compliant posture policy) as Hc.
  destruct (Evaluate posture policy) as [[c s] v]. simpl in *. subst s.
  pose proof (lost_range posture policy). rewrite <- lost_zero_iff.
  split; [exists (versionFails posture policy); split; [apply versionFails_iff|done]|].
  split_and!; try lia; done.
Qed.

(** The device [q] is at least as hardened as [p] (same operating system). *)
Definition hardens (p q : DevicePosture) : Prop :=
  OSType p = OSType q /\ version_ge (OSVersion q) (OSVersion p) /\
  (DiskEncrypted p = true -> DiskEncrypted q = true) /\
  (ScreenLockEnabled p = true -> ScreenLockEnabled q = true) /\
  (AntivirusActive p = true -> AntivirusActive q = true) /\
  (FirewallEnabled p = true -> FirewallEnabled q = true).

Lemma penalty_mono f g w : (f = false -> g = false) -> 0 <= w -> penalty g w <= penalty f w.
Proof. unfold penalty. destruct f, g; simpl; intuition (try lia; discriminate). Qed.

Lemma lost_mono p q policy : hardens p q -> lost q policy <= lost p policy.
Proof.
  intros (Hos & Hv & Hd & Hs & Ha & Hf). unfold lost.
  assert (versionFails p policy = false -> versionFails q policy = false) as Hver.
  { unfold versionFails. rewrite Hos. destruct (MinOSVersion policy !! OSType q) as [v|]; [|done].
    rewrite !negb_false_iff, !isVersionAtLeast_spec. eauto using version_ge_trans. }
  repeat apply Z.add_le_mono; apply penalty_mono; try lia; try exact Hver;
    rewrite !implb_spec; auto.
Qed.

(** Hardening a device (a newer OS version, more protections on) never
    lowers its posture score and never turns a compliant device into a
    non-compliant one, under any policy. *)
Theorem Evaluate_monotone p q policy (H : hardens p q) :
  let '(cp, sp, _) := Evaluate p policy in
  let '(cq, sq, _) := Evaluate q policy in
  sp <= sq /\ (cp = true -> cq = true).
Proof.
  pose proof (Evaluate_score p policy). pose proof (Evaluate_compliant p policy) as Hcp.
  pose proof (Evaluate_score q policy). pose proof (Evaluate_compliant q policy) as Hcq.
  pose proof (lost_mono p q policy H). pose proof (lost_range q policy).
  destruct (Evaluate p policy) as [[cp sp] vp], (Evaluate q policy) as [[cq sq] vq].
  simpl in *. split; [lia|]. rewrite Hcp, Hcq. lia.
Qed.

Definition mac13 : DevicePosture := {|
  DeviceID := "d"; OSType := "macos"; OSVersion := "13.2"; DiskEncrypted := true;
  ScreenLockEnabled := false; AntivirusActive := true; FirewallEnabled := true;
  LastChecked := 0; Score := 0 |}.

Definition mac14 : DevicePosture := {|
  DeviceID := "d"; OSType := "macos"; OSVersion := "14"; DiskEncrypted := true;
  ScreenLockEnabled := true; AntivirusActive := true; FirewallEnabled := true;
  LastChecked := 0; Score := 0 |}.

Definition strict : PosturePolicy := {|
  ID := "p"; Name := "strict"; NetworkID := "n"; RequireDiskEncryption := true;
  RequireScreenLock := true; RequireAntivirus := true; RequireFirewall := true;
  MinOSVersion := {[ "macos" := "13.5" ]}; MinPostureScore := 70 |}.

Example Evaluate_mac13 : Evaluate mac13 strict =
  (false, 60, ["screen lock is not enabled";
               "macos version 13.2 is below minimum required 13.5";
               "posture score 60 is below minimum required 70"]).
Proof. vm_compute. reflexivity. Qed.

Lemma Evaluate_monotone_witness :
  let '(cp, sp, _) := Evaluate mac13 strict in
  let '(cq, sq, _) := Evaluate mac14 strict in
  sp <= sq /\ (cp = true -> cq = true).
Proof.
  apply (Evaluate_monotone mac13 mac14 strict).
  split; [done|]. split; [|done]. apply isVersionAtLeast_spec. vm_compute. reflexivity.
Defined.
End Posture.

Module Trust.
Local Open Scope Z_scope.

Inductive TrustLevel := TrustLevelHigh | TrustLevelMedium | TrustLevelLow | TrustLevelCritical.

#[export] Instance TrustLevel_eq_dec : EqDecision TrustLevel.
Proof. solve_decision. Defined.

(** The string value of the constant. *)
Definition level_text (l : TrustLevel) : string :=
  match l with
  | TrustLevelHigh => "high"
  | TrustLevelMedium => "medium"
  | TrustLevelLow => "low"
  | TrustLevelCritical => "critical"
  end.

(** Higher is more trusted. *)
Definition level_rank (l : TrustLevel) : Z :=
  match l with
  | TrustLevelHigh => 3
  | TrustLevelMedium => 2
  | TrustLevelLow => 1
  | TrustLevelCritical => 0
  end.

Record TrustScoreConfig := {
  WeightDiskEncryption : Z;
  WeightScreenLock : Z;
  WeightAntivirus : Z;
  WeightFirewall : Z;
  WeightOSVersion : Z;
  WeightMFA : Z;
  ThresholdHigh : Z;
  ThresholdMedium : Z;
  ThresholdLow : Z;
  AutoRestrictBelowMedium : bool;
  AutoBlockBelowLow : bool;
}.

Definition DefaultTrustScoreConfig : TrustScoreConfig := {|
  WeightDiskEncryption := 25; WeightScreenLock := 10; WeightAntivirus := 20;
  WeightFirewall := 15; WeightOSVersion := 15; WeightMFA := 15;
  ThresholdHigh := 80; ThresholdMedium := 50; ThresholdLow := 20;
  AutoRestrictBelowMedium := false; AutoBlockBelowLow := false |}.

Record TrustComponent := {
  CName : string;
  CWeight : Z;
  CPassed : bool;
  CScore : Z;
  CDetails : string;
}.

Record TrustScoreResult := {
  RDeviceID : string;
  RUserID : string;
  RScore : Z;
  RLevel : TrustLevel;
  RComponents : list TrustComponent;
  RViolations : list string;
  REvaluatedAt : Z;
}.

Definition classifyTrustLevel (score : Z) (config : TrustScoreConfig) : TrustLevel :=
  if ThresholdHigh config <=? score then TrustLevelHigh
  else if ThresholdMedium config <=? score then TrustLevelMedium
  else if ThresholdLow config <=? score then TrustLevelLow
  else TrustLevelCritical.

(** The running state of the six component blocks. *)
Record acc := { totalScore : Z; components : list TrustComponent; violations : list string }.

(** One component block: build the component, add its score, append it, and
    record the violation when it failed. *)
Definition component (name : string) (weight : Z) (passed : bool)
    (okDetails badDetails violation : string) (a : acc) : acc :=
  let score := if passed then weight else 0 in
  {| totalScore := add64 (totalScore a) score;
     components := components a ++
       [{| CName := name; CWeight := weight; CPassed := passed; CScore := score;
           CDetails := if passed then okDetails else badDetails |}];
     violations := if passed then violations a else violations a ++ [violation] |}.

(** The nanoseconds of [24*time.Hour]. *)
Definition day : Z := 24 * 3600 * 10^9.

(** [dp] joined with its device's owner: the first query of [Calculate]. *)
Definition latestPosture (d : db) (deviceID : string) : option (string * posture_row) :=
  latest (fun r => dp_checked_at r.2)
    (omap (fun r => match list_find (fun dv => d_id dv = dp_device_id r) (devices d) with
                    | Some (_, dv) => Some (d_user_id dv, r)
                    | None => None
                    end)
       (filter (fun r => dp_device_id r = deviceID) (device_posture d))).

Definition mfaEnabled (d : db) (userID : string) : bool :=
  match list_find (fun u => u_id u = userID) (users d) with
  | Some (_, u) => u_mfa_enabled u
  | None => false
  end.

(** The six component blocks in order. *)
Definition scoreComponents (config : TrustScoreConfig) (p : posture_row) (mfa : bool) : acc :=
  let os := (dp_os_type p ++ " " ++ dp_os_version p)%string in
  let a0 := {| totalScore := 0; components := []; violations := [] |} in
  let a1 := component "disk_encryption" (WeightDiskEncryption config) (dp_disk_encrypted p)
              "Full disk encryption enabled" "Disk encryption not detected"
              "disk encryption not enabled" a0 in
  let a2 := component "screen_lock" (WeightScreenLock config) (dp_screen_lock p)
              "Screen lock enabled" "Screen lock not enabled" "screen lock not enabled" a1 in
  let a3 := component "antivirus" (WeightAntivirus config) (dp_antivirus p)
              "Antivirus active" "Antivirus not detected" "antivirus not active" a2 in
  let a4 := component "firewall" (WeightFirewall config) (dp_firewall p)
              "Firewall enabled" "Firewall not enabled" "firewall not enabled" a3 in
  let a5 := component "os_version" (WeightOSVersion config) (75 <=? dp_score p)
              os (os ++ " — may need update") "OS version may be outdated" a4 in
  component "mfa" (WeightMFA config) mfa
    "MFA enabled for user" "MFA not enabled" "MFA not enabled for device owner" a5.

(** Which of the three database calls fail. *)
Record faults := { postureQueryFails : bool; mfaQueryFails : bool; insertFails : bool }.

(** The driver sends a nil slice as NULL, which the column [violations] refuses. *)
Definition nilSlice (l : list string) : bool := match l with [] => true | _ => false end.

(** [Calculate] at instant [now]: the result or error, and the database after
    it.  A failed insert is only logged; [violations] is nil until something is
    appended, so the row of a device without violations is refused. *)
Definition Calculate (f : faults) (config : TrustScoreConfig) (now : Z) (d : db)
    (deviceID : string) : result TrustScoreResult * db :=
  if postureQueryFails f then (Err "query", d) else
  match latestPosture d deviceID with
  | None =>
      (Ok {| RDeviceID := deviceID; RUserID := ""; RScore := 0; RLevel := TrustLevelCritical;
             RComponents := []; RViolations := ["no posture data available"];
             REvaluatedAt := now |}, d)
  | Some (userID, p) =>
      if mfaQueryFails f then (Err "query", d) else
      let a := scoreComponents config p (mfaEnabled d userID) in
      let level := classifyTrustLevel (totalScore a) config in
      let '(total, viol, level) :=
        if day <? now - dp_checked_at p then
          let t := div64 (mul64 (totalScore a) 80) 100 in
          (t, violations a ++ ["posture data is stale (>24h)"], classifyTrustLevel t config)
        else (totalScore a, violations a, level) in
      let d' :=
        if insertFails f || nilSlice viol then d
        else set_trust_scores d (device_trust_scores d ++
          [{| ts_device_id := deviceID; ts_score := total; ts_level := level_text level;
              ts_violations := viol; ts_evaluated_at := now |}]) in
      (Ok {| RDeviceID := deviceID; RUserID := userID; RScore := total; RLevel := level;
             RComponents := components a; RViolations := viol; REvaluatedAt := now |}, d')
  end.

(** ** Correctness *)

(** A configuration as its comments ask: weights that are points of a total
    of 100, thresholds in order. *)
Record config_ok (c : TrustScoreConfig) : Prop := {
  w_disk : 0 <= WeightDiskEncryption c;
  w_lock : 0 <= WeightScreenLock c;
  w_av : 0 <= WeightAntivirus c;
  w_fw : 0 <= WeightFirewall c;
  w_os : 0 <= WeightOSVersion c;
  w_mfa : 0 <= WeightMFA c;
  w_sum : WeightDiskEncryption c + WeightScreenLock c + WeightAntivirus c +
          WeightFirewall c + WeightOSVersion c + WeightMFA c = 100;
  t_order : ThresholdLow c <= ThresholdMedium c <= ThresholdHigh c;
}.

Definition pts (passed : bool) (w : Z) : Z := if passed then w else 0.

(** The points earned by the passed components, in unbounded integers. *)
Definition earned (c : TrustScoreConfig) (p : posture_row) (mfa : bool) : Z :=
  pts (dp_disk_encrypted p) (WeightDiskEncryption c) +
  pts (dp_screen_lock p) (WeightScreenLock c) +
  pts (dp_antivirus p) (WeightAntivirus c) +
  pts (dp_firewall p) (WeightFirewall c) +
  pts (75 <=? dp_score p) (WeightOSVersion c) +
  pts mfa (WeightMFA c).

Lemma pts_range b w : 0 <= w -> 0 <= pts b w <= w.
Proof. unfold pts. destruct b; lia. Qed.

Lemma earned_range c p mfa : config_ok c -> 0 <= earned c p mfa <= 100.
Proof.
  intros []. unfold earned.
  repeat match goal with |- context [pts ?b ?w] =>
    let H := fresh in assert (0 <= pts b w <= w) as H by (apply pts_range; lia);
    generalize dependent (pts b w); intros end.
  lia.
Qed.

Lemma component_total name w b ok bad v a t : totalScore a = t -> in_int64 (t + pts b w) ->
  totalScore (component name w b ok bad v a) = t + pts b w.
Proof. intros <- H. simpl. unfold pts in *. by apply add64_small. Qed.

Lemma scoreComponents_total c p mfa : config_ok c ->
  totalScore (scoreComponents c p mfa) = earned c p mfa.
Proof.
  intros []. unfold scoreComponents, earned.
  repeat match goal with |- context [pts ?b ?w] =>
    lazymatch goal with
    | _ : 0 <= pts b w <= w |- _ => fail
    | _ => assert (0 <= pts b w <= w) by (apply pts_range; lia)
    end end.
  repeat (apply component_total; [|unfold in_int64, min_int64, max_int64; lia]).
  rewrite <- (Z.add_0_l (pts _ _)). by apply component_total;
    [|unfold in_int64, min_int64, max_int64; lia].
Qed.

Lemma classify_mono c s s' : config_ok c -> s <= s' ->
  level_rank (classifyTrustLevel s c) <= level_rank (classifyTrustLevel s' c).
Proof.
  intros [] Hs. unfold classifyTrustLevel.
  repeat match goal with |- context [?a <=? ?b] => destruct (Z.leb_spec a b) end;
    simpl; lia.
Qed.

Lemma penalty_small s : 0 <= s <= 100 -> div64 (mul64 s 80) 100 = s * 80 / 100.
Proof.
  intros Hs. rewrite mul64_small by (unfold in_int64, min_int64, max_int64; lia).
  apply div64_nonneg; unfold max_int64; lia.
Qed.

(** The score [Calculate] is meant to return for a posture row. *)
Definition expected (c : TrustScoreConfig) (now : Z) (p : posture_row) (mfa : bool) : Z :=
  if day <? now - dp_checked_at p then earned c p mfa * 80 / 100 else earned c p mfa.

Lemma expected_range c now p mfa : config_ok c ->
  0 <= expected c now p mfa <= earned c p mfa.
Proof.
  intros Hc. pose proof (earned_range c p mfa Hc). unfold expected. case_match; [|lia].
  split; [apply Z.div_pos; lia|]. apply Z.div_le_upper_bound; lia.
Qed.

Lemma Calculate_some f c now d dev u p : config_ok c ->
  postureQueryFails f = false -> mfaQueryFails f = false ->
  latestPosture d dev = Some (u, p) ->
  exists r d', Calculate f c now d dev = (Ok r, d') /\
    RUserID r = u /\
    RScore r = expected c now p (mfaEnabled d u) /\
    RLevel r = classifyTrustLevel (expected c now p (mfaEnabled d u)) c /\
    d' = if insertFails f || nilSlice (RViolations r) then d else
      set_trust_scores d (device_trust_scores d ++
        [{| ts_device_id := dev; ts_score := RScore r; ts_level := level_text (RLevel r);
            ts_violations := RViolations r; ts_evaluated_at := now |}]).
Proof.
  intros Hc Hf1 Hf2 Hl. unfold Calculate. rewrite Hf1, Hl, Hf2.
  rewrite scoreComponents_total by done. unfold expected.
  rewrite penalty_small by (by apply earned_range).
  destruct (day <? now - dp_checked_at p); do 2 eexists; (split; [reflexivity|]);
    simpl; auto.
Qed.

(** When its two queries succeed, [Calculate] always returns a result.
    For a device with posture data the score is the sum of the weights of the
    passed components (the machine additions never wrap for weights that sum
    to 100), reduced by 20% when the posture is older than a day; it lies in
    0..100, the level is the tier of that final score, a stale posture never
    ranks above the fresh one, and exactly that score and level are stored
    when the device has some violation.
    A device without posture data scores 0 and is critical. *)
Theorem Calculate_correct f c now d dev (Hc : config_ok c)
    (Hq1 : postureQueryFails f = false) (Hq2 : mfaQueryFails f = false) :
  exists r d', Calculate f c now d dev = (Ok r, d') /\
  match latestPosture d dev with
  | None => RScore r = 0 /\ RLevel r = TrustLevelCritical /\ d' = d
  | Some (u, p) =>
      RScore r = expected c now p (mfaEnabled d u) /\ 0 <= RScore r <= 100 /\
      RLevel r = classifyTrustLevel (RScore r) c /\
      level_rank (RLevel r) <= level_rank (classifyTrustLevel (earned c p (mfaEnabled d u)) c) /\
      (insertFails f = false -> RViolations r <> [] -> exists row,
         device_trust_scores d' = device_trust_scores d ++ [row] /\
         ts_device_id row = dev /\ ts_score row = RScore r /\
         ts_level row = level_text (RLevel r) /\ ts_evaluated_at row = now)
  end.
Proof.
  destruct (latestPosture d dev) as [[u p]|] eqn:El.
  - destruct (Calculate_some f c now d dev u p) as (r & d' & E & _ & Hs & Hl & Hd); [done..|].
    exists r, d'. split; [done|].
    pose proof (expected_range c now p (mfaEnabled d u) Hc).
    pose proof (earned_range c p (mfaEnabled d u) Hc).
    rewrite Hl, Hs. split_and!; try lia; try done.
    + apply classify_mono; [done|lia].
    + intros Hi Hv. rewrite Hi in Hd. destruct (RViolations r); [done|]. subst d'. eexists. split; [reflexivity|].
      simpl. rewrite ?Hl, ?Hs. done.
  - unfold Calculate. rewrite Hq1, El. do 2 eexists. split; [reflexivity|]. done.
Qed.

(** [q] passes every component that [p] passes and is checked no earlier. *)
Definition row_hardens (p q : posture_row) : Prop :=
  (dp_disk_encrypted p = true -> dp_disk_encrypted q = true) /\
  (dp_screen_lock p = true -> dp_screen_lock q = true) /\
  (dp_antivirus p = true -> dp_antivirus q = true) /\
  (dp_firewall p = true -> dp_firewall q = true) /\
  dp_score p <= dp_score q /\ dp_checked_at p <= dp_checked_at q.

Lemma pts_mono a b w : (a = true -> b = true) -> 0 <= w -> pts a w <= pts b w.
Proof. unfold pts. destruct a, b; intuition (try lia; discriminate). Qed.

Lemma earned_mono c p q m m' : config_ok c -> row_hardens p q -> (m = true -> m' = true) ->
  earned c p m <= earned c q m'.
Proof.
  intros [] (Hd & Hs & Ha & Hf & Hsc & _) Hm. unfold earned.
  repeat apply Z.add_le_mono; apply pts_mono; auto.
  rewrite !Z.leb_le. lia.
Qed.

Lemma expected_mono c now p q m m' : config_ok c -> row_hardens p q -> (m = true -> m' = true) ->
  expected c now p m <= expected c now q m'.
Proof.
  intros Hc Hh Hm. pose proof (earned_mono c p q m m' Hc Hh Hm) as He.
  pose proof (expected_range c now p m Hc). destruct Hh as (_ & _ & _ & _ & _ & Hat).
  unfold expected in *. destruct (Z.ltb_spec day (now - dp_checked_at p)),
    (Z.ltb_spec day (now - dp_checked_at q)); try lia.
  apply Z.div_le_mono; lia.
Qed.

(** Trust is monotone.  In two databases where a device's latest posture
    passes more components, is fresher, and its owner keeps MFA on, the second
    score and the second trust level are at least the first. *)
Theorem Calculate_monotone f c now d1 d2 dev u1 p1 u2 p2 r1 r2 d1' d2' (Hc : config_ok c)
    (H1 : latestPosture d1 dev = Some (u1, p1)) (H2 : latestPosture d2 dev = Some (u2, p2))
    (Hh : row_hardens p1 p2) (Hm : mfaEnabled d1 u1 = true -> mfaEnabled d2 u2 = true)
    (E1 : Calculate f c now d1 dev = (Ok r1, d1')) (E2 : Calculate f c now d2 dev = (Ok r2, d2')) :
  RScore r1 <= RScore r2 /\ level_rank (RLevel r1) <= level_rank (RLevel r2).
Proof.
  assert (postureQueryFails f = false /\ mfaQueryFails f = false) as [Hf1 Hf2].
  { unfold Calculate in E1. rewrite H1 in E1. by destruct (postureQueryFails f), (mfaQueryFails f). }
  destruct (Calculate_some f c now d1 dev u1 p1 Hc Hf1 Hf2 H1) as (x1 & y1 & F1 & _ & S1 & L1 & _).
  destruct (Calculate_some f c now d2 dev u2 p2 Hc Hf1 Hf2 H2) as (x2 & y2 & F2 & _ & S2 & L2 & _).
  rewrite E1 in F1. rewrite E2 in F2. injection F1 as <- <-. injection F2 as <- <-.
  rewrite S1, S2, L1, L2.
  pose proof (expected_mono c now p1 p2 _ _ Hc Hh Hm). eauto using classify_mono.
Qed.

(** ** Witnesses *)

Definition nofault : faults := {| postureQueryFails := false; mfaQueryFails := false; insertFails := false |}.

Definition row (disk : bool) (at_ : Z) : posture_row := {|
  dp_device_id := "d1"; dp_os_type := "linux"; dp_os_version := "6.1"; dp_disk_encrypted := disk;
  dp_screen_lock := true; dp_antivirus := true; dp_firewall := true; dp_score := 80;
  dp_checked_at := at_ |}.

Definition dev1 : device := {|
  d_id := "d1"; d_user_id := "u1"; d_name := "laptop"; d_pubkey := "k1"; d_privkey := None;
  d_assigned_ip := 168427522; d_is_approved := true; d_last_handshake := None;
  d_network_id := Some "n1"; d_created_at := 0; d_updated_at := 0 |}.

Definition sample (r : posture_row) : db := {|
  users := [{| u_id := "u1"; u_username := "ann"; u_email := "a@x"; u_password_hash := None;
               u_first_name := ""; u_last_name := ""; u_phone := None; u_is_active := true;
               u_is_admin := false; u_mfa_enabled := true; u_created_at := 0; u_updated_at := 0 |}];
  devices := [dev1]; networks := []; gateways := []; gateway_networks := []; groups := []; user_groups := [];
  network_acls := []; device_posture := [r]; device_trust_scores := []; trust_auto := None;
  ztna_policies := []; smart_routes := []; smart_route_entries := [];
  network_smart_routes := []; roles := []; user_roles := []; logins := [] |}.

Lemma default_config_ok : config_ok DefaultTrustScoreConfig.
Proof. constructor; simpl; lia. Qed.

Example Calculate_stale :
  let '(r, d') := Calculate nofault DefaultTrustScoreConfig (3 * day) (sample (row false 0)) "d1" in
  RScore <$> result_opt r = Some 60 /\ RLevel <$> result_opt r = Some TrustLevelMedium /\
  map ts_score (device_trust_scores d') = [60].
Proof. vm_compute. auto. Qed.

Lemma Calculate_correct_witness :
  exists r d', Calculate nofault DefaultTrustScoreConfig (3 * day) (sample (row false 0)) "d1" = (Ok r, d') /\
  match latestPosture (sample (row false 0)) "d1" with
  | None => RScore r = 0 /\ RLevel r = TrustLevelCritical /\ d' = sample (row false 0)
  | Some (u, p) =>
      RScore r = expected DefaultTrustScoreConfig (3 * day) p (mfaEnabled (sample (row false 0)) u) /\
      0 <= RScore r <= 100 /\ RLevel r = classifyTrustLevel (RScore r) DefaultTrustScoreConfig /\
      level_rank (RLevel r) <= level_rank (classifyTrustLevel
        (earned DefaultTrustScoreConfig p (mfaEnabled (sample (row false 0)) u)) DefaultTrustScoreConfig) /\
      (insertFails nofault = false -> RViolations r <> [] -> exists row0,
         device_trust_scores d' = device_trust_scores (sample (row false 0)) ++ [row0] /\
         ts_device_id row0 = "d1"%string /\ ts_score row0 = RScore r /\
         ts_level row0 = level_text (RLevel r) /\ ts_evaluated_at row0 = 3 * day)
  end.
Proof.
  apply (Calculate_correct nofault DefaultTrustScoreConfig (3 * day) (sample (row false 0)) "d1");
    [exact default_config_ok | reflexivity | reflexivity].
Defined.

Lemma Calculate_monotone_witness :
  exists r1 r2, RScore r1 <= RScore r2 /\ level_rank (RLevel r1) <= level_rank (RLevel r2) /\
    RScore r1 = 60 /\ RScore r2 = 100.
Proof.
  pose (e1 := Calculate nofault DefaultTrustScoreConfig (3 * day) (sample (row false 0)) "d1").
  pose (e2 := Calculate nofault DefaultTrustScoreConfig (3 * day) (sample (row true (3 * day))) "d1").
  vm_compute in e1. vm_compute in e2.
  match eval unfold e1 in e1 with (Ok ?r1, ?d1) => match eval unfold e2 in e2 with (Ok ?r2, ?d2) =>
    exists r1, r2; edestruct (Calculate_monotone nofault DefaultTrustScoreConfig (3 * day)
      (sample (row false 0)) (sample (row true (3 * day))) "d1" "u1" (row false 0) "u1"
      (row true (3 * day)) r1 r2 d1 d2) end end;
  [exact default_config_ok | vm_compute; reflexivity | vm_compute; reflexivity
  | unfold row_hardens; simpl; unfold day; split_and!; try lia; done | done
  | vm_compute; reflexivity | vm_compute; reflexivity |].
  split_and!; [assumption | assumption | reflexivity | reflexivity].
Defined.

(** ** Where the code falls short *)

(** A device that passes every component has no violation to store, so its row
    is refused and the table keeps whatever level it had before. *)
Theorem perfect_score_not_stored :
  let '(r, d') := Calculate nofault DefaultTrustScoreConfig (3 * day) (sample (row true (3 * day))) "d1" in
  RScore <$> result_opt r = Some 100 /\ device_trust_scores d' = [].
Proof. vm_compute. auto. Qed.
End Trust.
