(* ===== verification/S2S.v ===== *)
(** * Site-to-site topologies

    [internal/s2s/topology.go], [mesh.go] and [hubspoke.go]: the WireGuard
    configuration every gateway of a tunnel receives. *)

From S2P Require Import Prelude.
From Stdlib Require Import ZArith Lia Ascii String.
From stdpp Require Import base gmap strings list sorting pretty.

Module Topology.

Inductive TopologyType := TopologyMesh | TopologyHubSpoke | TopologyOther (s : string).

(** The typed string constants of the source. *)
Definition topology_of_string (s : string) : TopologyType :=
  if String.eqb s "mesh" then TopologyMesh
  else if String.eqb s "hub_spoke" then TopologyHubSpoke
  else TopologyOther s.

Record Gateway := {
  ID : string;
  PublicKey : string;
  Endpoint : string;
  LocalSubnets : list string;
  IsHub : bool;
  ListenPort : Z;
}.

Record TunnelPeer := {
  P_GatewayID : string;
  P_PublicKey : string;
  P_Endpoint : string;
  P_AllowedIPs : list string;
  P_Keepalive : Z;
}.

Record TunnelConfig := {
  C_GatewayID : string;
  C_InterfaceName : string;
  C_PrivateKey : string;
  C_ListenPort : Z;
  C_LocalSubnets : list string;
  C_Peers : list TunnelPeer;
}.

(** The peer entry for a remote gateway. *)
Definition peerOf (remote : Gateway) (allowed : list string) : TunnelPeer := {|
  P_GatewayID := ID remote; P_PublicKey := PublicKey remote; P_Endpoint := Endpoint remote;
  P_AllowedIPs := allowed; P_Keepalive := 25 |}.

(** The inner loop of [calculateMesh]: every gateway but the [i]-th. *)
Definition meshPeers (gateways : list Gateway) (i : nat) : list TunnelPeer :=
  omap (fun '(j, remote) => if decide (i = j) then None
                            else Some (peerOf remote (LocalSubnets remote)))
    (imap pair gateways).

Definition meshConfig (gateways : list Gateway) (i : nat) (gw : Gateway) : TunnelConfig := {|
  C_GatewayID := ID gw;
  C_InterfaceName := ("wg-s2s-" ++ itoa (Z.of_nat i))%string;
  C_PrivateKey := "";
  C_ListenPort := ListenPort gw;
  C_LocalSubnets := LocalSubnets gw;
  C_Peers := meshPeers gateways i |}.

Definition calculateMesh (gateways : list Gateway) : list TunnelConfig :=
  imap (meshConfig gateways) gateways.

(** The first loop of [calculateHubSpoke]: the last hub seen and the spokes. *)
Definition splitHub (gateways : list Gateway) : option Gateway * list Gateway :=
  fold_left (fun '(hub, spokes) g =>
    if IsHub g then (Some g, spokes) else (hub, spokes ++ [g])) gateways (None, []).

(** The hub and the spokes, falling back to the first gateway. *)
Definition pickHub (gateways : list Gateway) : option (Gateway * list Gateway) :=
  match splitHub gateways with
  | (Some hub, spokes) => Some (hub, spokes)
  | (None, _) => match gateways with
                 | [] => None
                 | hub :: spokes => Some (hub, spokes)
                 end
  end.

Definition allSubnets (hub : Gateway) (spokes : list Gateway) : list string :=
  fold_left (fun acc spoke => acc ++ LocalSubnets spoke) spokes (LocalSubnets hub).

Definition hubConfig (hub : Gateway) (spokes : list Gateway) : TunnelConfig := {|
  C_GatewayID := ID hub;
  C_InterfaceName := "wg-s2s-hub";
  C_PrivateKey := "";
  C_ListenPort := ListenPort hub;
  C_LocalSubnets := LocalSubnets hub;
  C_Peers := map (fun spoke => peerOf spoke (LocalSubnets spoke)) spokes |}.

Definition spokeConfig (hub : Gateway) (spokes : list Gateway) (i : nat) (spoke : Gateway)
  : TunnelConfig := {|
  C_GatewayID := ID spoke;
  C_InterfaceName := ("wg-s2s-" ++ itoa (Z.of_nat i))%string;
  C_PrivateKey := "";
  C_ListenPort := ListenPort spoke;
  C_LocalSubnets := LocalSubnets spoke;
  C_Peers := [peerOf hub (allSubnets hub spokes)] |}.

Definition calculateHubSpoke (gateways : list Gateway) : list TunnelConfig :=
  match pickHub gateways with
  | None => []
  | Some (hub, spokes) => hubConfig hub spokes :: imap (spokeConfig hub spokes) spokes
  end.

Definition CalculateTopology (topology : TopologyType) (gateways : list Gateway)
  : list TunnelConfig :=
  match topology with
  | TopologyMesh => calculateMesh gateways
  | TopologyHubSpoke => calculateHubSpoke gateways
  | TopologyOther _ => []
  end.

(** ** What a topology promises: forwarding *)

(** Gateway [a] can deliver to a host of [subnet] behind gateway [b] in at
    most [n] hops: each hop follows a peer whose AllowedIPs hold the subnet. *)
Fixpoint reaches (n : nat) (cfgs : list TunnelConfig) (a subnet b : string) : Prop :=
  exists c, c ∈ cfgs /\ C_GatewayID c = a /\
  ((a = b /\ subnet ∈ C_LocalSubnets c) \/
   match n with
   | O => False
   | S n' => exists p, p ∈ C_Peers c /\ subnet ∈ P_AllowedIPs p /\
             reaches n' cfgs (P_GatewayID p) subnet b
   end).

Lemma reaches_local n cfgs c subnet :
  c ∈ cfgs -> subnet ∈ C_LocalSubnets c -> reaches n cfgs (C_GatewayID c) subnet (C_GatewayID c).
Proof. intros Hc Hs. destruct n; exists c; auto. Qed.

Lemma reaches_hop n cfgs c p subnet b :
  c ∈ cfgs -> p ∈ C_Peers c -> subnet ∈ P_AllowedIPs p ->
  reaches n cfgs (P_GatewayID p) subnet b -> reaches (S n) cfgs (C_GatewayID c) subnet b.
Proof. intros Hc Hp Hs Hr. exists c. eauto 8. Qed.

(** ** Mesh *)

Lemma elem_of_meshPeers gws i p :
  p ∈ meshPeers gws i <->
  exists j g, gws !! j = Some g /\ i <> j /\ p = peerOf g (LocalSubnets g).
Proof.
  unfold meshPeers. rewrite list_elem_of_omap. split.
  - intros ([j g] & (k & g' & [= -> ->] & Hk)%elem_of_lookup_imap & Hp).
    case_decide; simplify_eq. eauto.
  - intros (j & g & Hj & Hne & ->). exists (j, g). split.
    + apply elem_of_lookup_imap. eauto.
    + by rewrite decide_False.
Qed.

Lemma meshConfig_in gws i g : gws !! i = Some g -> meshConfig gws i g ∈ calculateMesh gws.
Proof. intros Hi. apply elem_of_lookup_imap. eauto. Qed.

Lemma mesh_reaches gws a b subnet :
  a ∈ gws -> b ∈ gws -> ID a <> ID b -> subnet ∈ LocalSubnets b ->
  reaches 1 (calculateMesh gws) (ID a) subnet (ID b).
Proof.
  intros [i Hi]%list_elem_of_lookup [j Hj]%list_elem_of_lookup Hne Hs.
  apply (reaches_hop _ _ (meshConfig gws i a) (peerOf b (LocalSubnets b))); [|simpl..|].
  - by apply meshConfig_in.
  - apply elem_of_meshPeers. exists j, b. split_and!; try done.
    intros ->. simplify_eq.
  - done.
  - apply (reaches_local _ _ (meshConfig gws j b)); [by apply meshConfig_in|done].
Qed.

Lemma omap_skip_length {A B} (f : A -> B) (l : list A) (i k : nat) :
  length (omap (fun '(j, x) => if decide (i = j) then None else Some (f x))
            (imap (fun j x => (k + j, x)%nat) l)) =
  if decide (k <= i < k + length l)%nat then (length l - 1)%nat else length l.
Proof.
  revert k. induction l as [|x l IH]; intros k; simpl.
  { case_decide; lia. }
  replace (imap ((fun j x => ((k + j)%nat, x)) ∘ S) l)
    with (imap (fun j x => ((S k + j)%nat, x)) l).
  2:{ apply imap_ext. intros j y _. simpl. f_equal. lia. }
  specialize (IH (S k)). rewrite Nat.add_0_r.
  destruct (decide (i = k)) as [->|]; cbn [length];
    [|apply (f_equal S) in IH]; (etrans; [exact IH|]); repeat case_decide; lia.
Qed.

Lemma meshPeers_length gws i : (i < length gws)%nat -> length (meshPeers gws i) = (length gws - 1)%nat.
Proof.
  intros Hi. pose proof (omap_skip_length (fun g => peerOf g (LocalSubnets g)) gws i 0) as H.
  simpl in H. rewrite decide_True in H by lia. exact H.
Qed.

(** A mesh configures every gateway, in order, with exactly one peer for
    each of the other gateways and none for itself: of [n] gateways each gets
    [n-1] peers, so that every tunnel is configured at both of its ends. *)
Theorem mesh_complete gws :
  length (calculateMesh gws) = length gws /\
  forall i a, gws !! i = Some a -> exists c, calculateMesh gws !! i = Some c /\
    C_GatewayID c = ID a /\ C_LocalSubnets c = LocalSubnets a /\
    length (C_Peers c) = (length gws - 1)%nat /\
    forall p, p ∈ C_Peers c <->
      exists j b, gws !! j = Some b /\ j <> i /\ p = peerOf b (LocalSubnets b).
Proof.
  unfold calculateMesh. split; [apply length_imap|]. intros i a Hi.
  exists (meshConfig gws i a). rewrite list_lookup_imap, Hi. split_and!; try done.
  - apply meshPeers_length. by apply lookup_lt_Some in Hi.
  - intros p. simpl. rewrite elem_of_meshPeers.
    split; intros (j & b & ? & ? & ?); eauto 6.
Qed.

(** ** Hub and spoke *)

Definition hubs (gws : list Gateway) : list Gateway := filter (fun g => IsHub g = true) gws.
Definition nonHubs (gws : list Gateway) : list Gateway := filter (fun g => IsHub g = false) gws.

Lemma splitHub_spec gws : splitHub gws = (last (hubs gws), nonHubs gws).
Proof.
  unfold splitHub, hubs, nonHubs. induction gws as [|g gws IH] using rev_ind; [done|].
  rewrite fold_left_app, IH, !filter_app, !filter_cons, !filter_nil. simpl.
  destruct (IsHub g); repeat case_decide; simplify_eq; by rewrite ?app_nil_r, ?last_snoc.
Qed.

Lemma allSubnets_spec hub spokes x :
  x ∈ allSubnets hub spokes <->
  x ∈ LocalSubnets hub \/ exists g, g ∈ spokes /\ x ∈ LocalSubnets g.
Proof.
  unfold allSubnets. induction spokes as [|g spokes IH] using rev_ind; simpl.
  { split; [auto|]. intros [?|(g & ?%elem_of_nil & _)]; done. }
  rewrite fold_left_app. simpl. rewrite elem_of_app, IH. setoid_rewrite elem_of_app.
  setoid_rewrite list_elem_of_singleton. naive_solver.
Qed.

(** With at most one designated hub, the hub and the spokes are exactly the
    gateways of the tunnel. *)
Lemma pickHub_perm gws : gws <> [] -> (length (hubs gws) <= 1)%nat ->
  exists hub spokes, pickHub gws = Some (hub, spokes) /\ hub :: spokes ≡ₚ gws.
Proof.
  intros Hne Hone. unfold pickHub. rewrite splitHub_spec.
  assert (gws ≡ₚ hubs gws ++ nonHubs gws) as Hperm.
  { unfold hubs, nonHubs. clear. induction gws as [|g gws IH]; simpl; [done|].
    rewrite !filter_cons. destruct (IsHub g) eqn:E; repeat case_decide; simplify_eq; simpl.
    - by apply perm_skip.
    - rewrite <- Permutation_middle. by apply perm_skip. }
  destruct (hubs gws) as [|h [|h' hs]] eqn:Eh; simpl in *.
  - destruct gws as [|g gws]; [done|]. exists g, gws. split; reflexivity.
  - exists h, (nonHubs gws). split; [reflexivity | by symmetry].
  - lia.
Qed.

Lemma hubConfig_in gws hub spokes : pickHub gws = Some (hub, spokes) ->
  hubConfig hub spokes ∈ calculateHubSpoke gws.
Proof. intros H. unfold calculateHubSpoke. rewrite H. left. Qed.

Lemma spokeConfig_in gws hub spokes i g : pickHub gws = Some (hub, spokes) ->
  spokes !! i = Some g -> spokeConfig hub spokes i g ∈ calculateHubSpoke gws.
Proof.
  intros H Hi. unfold calculateHubSpoke. rewrite H. right. apply elem_of_lookup_imap. eauto.
Qed.

Lemma hub_reaches gws hub spokes b subnet :
  pickHub gws = Some (hub, spokes) -> b ∈ hub :: spokes -> subnet ∈ LocalSubnets b ->
  reaches 1 (calculateHubSpoke gws) (ID hub) subnet (ID b).
Proof.
  intros Hp Hb Hs. apply elem_of_cons in Hb as [->|Hb].
  - apply (reaches_local _ _ (hubConfig hub spokes)); [by apply hubConfig_in|done].
  - pose proof Hb as [j Hj]%list_elem_of_lookup.
    apply (reaches_hop _ _ (hubConfig hub spokes) (peerOf b (LocalSubnets b))); [|simpl..|].
    + by apply hubConfig_in.
    + apply list_elem_of_fmap. eauto.
    + done.
    + apply (reaches_local _ _ (spokeConfig hub spokes j b)); [by eapply spokeConfig_in|done].
Qed.

Lemma reaches_mono n cfgs a subnet b : reaches n cfgs a subnet b -> reaches (S n) cfgs a subnet b.
Proof.
  revert a. induction n as [|n IH]; intros a (c & Hc & Ha & [H|H]); exists c; auto; [done|].
  destruct H as (p & Hp & Hs & Hr). split_and!; auto. right. exists p. auto.
Qed.

Lemma hubspoke_reaches gws hub spokes a b subnet :
  pickHub gws = Some (hub, spokes) -> a ∈ hub :: spokes -> b ∈ hub :: spokes ->
  subnet ∈ LocalSubnets b -> reaches 2 (calculateHubSpoke gws) (ID a) subnet (ID b).
Proof.
  intros Hp Ha Hb Hs. pose proof (hub_reaches gws hub spokes b subnet Hp Hb Hs) as Hhub.
  apply elem_of_cons in Ha as [->|Ha]; [by apply reaches_mono|].
  apply list_elem_of_lookup in Ha as [i Hi].
  apply (reaches_hop _ _ (spokeConfig hub spokes i a) (peerOf hub (allSubnets hub spokes)));
    [by eapply spokeConfig_in | by left | | done].
  apply allSubnets_spec. apply elem_of_cons in Hb as [->|Hb]; eauto.
Qed.

(** Both topologies deliver.  In a mesh, and in a hub-and-spoke tunnel
    with at most one designated hub (none falls back to the first gateway),
    every gateway can forward to every subnet of every other gateway, by
    following AllowedIPs of the computed configurations, in at most two
    hops. *)
Theorem CalculateTopology_connects topology gws a b subnet
    (Ht : topology = TopologyMesh \/
          (topology = TopologyHubSpoke /\ (length (hubs gws) <= 1)%nat))
    (Ha : a ∈ gws) (Hb : b ∈ gws) (Hne : ID a <> ID b) (Hs : subnet ∈ LocalSubnets b) :
  reaches 2 (CalculateTopology topology gws) (ID a) subnet (ID b).
Proof.
  destruct Ht as [->|[-> Hone]]; simpl CalculateTopology.
  - apply reaches_mono. by apply mesh_reaches.
  - destruct (pickHub_perm gws) as (hub & spokes & Hp & Hperm); [by intros ->; apply elem_of_nil in Ha|done|].
    apply (hubspoke_reaches gws hub spokes); rewrite ?Hperm; done.
Qed.

(** Several designated hubs.  Only the last one becomes the hub; any
    other gateway marked as a hub is neither hub nor spoke: with distinct
    identifiers it gets no configuration at all and appears as a peer
    nowhere. *)
Theorem extra_hub_dropped gws h g (Hnd : NoDup (map ID gws)) (Hg : g ∈ gws)
    (Hhub : IsHub g = true) (Hlast : last (hubs gws) = Some h) (Hne : g <> h) :
  forall c, c ∈ calculateHubSpoke gws ->
    C_GatewayID c <> ID g /\ forall p, p ∈ C_Peers c -> P_GatewayID p <> ID g.
Proof.
  unfold calculateHubSpoke, pickHub. rewrite splitHub_spec, Hlast.
  assert (h ∈ gws) as Hh.
  { apply last_Some_elem_of in Hlast. by apply list_elem_of_filter in Hlast as [_ ?]. }
  assert (forall x, x ∈ gws -> x <> g -> ID x <> ID g) as Hid.
  { intros x Hx Hxg E. apply Hxg. by eapply NoDup_map_inj. }
  assert (forall x, x ∈ nonHubs gws -> ID x <> ID g) as Hsp.
  { intros x [Hx Hin]%list_elem_of_filter. apply Hid; [done|]. intros ->. congruence. }
  intros c [->|(i & x & -> & Hx)%elem_of_lookup_imap]%elem_of_cons; simpl.
  - split; [by apply Hid|]. intros p (x & -> & Hx)%list_elem_of_fmap. by apply Hsp.
  - split; [apply Hsp; by eapply list_elem_of_lookup_2|].
    intros p ->%list_elem_of_singleton. simpl. by apply Hid.
Qed.

(** ** Witnesses *)

Definition gw (id net : string) (hub : bool) : Gateway := {|
  ID := id; PublicKey := id; Endpoint := id; LocalSubnets := [net]; IsHub := hub;
  ListenPort := 51820 |}.

Definition three : list Gateway :=
  [gw "a" "10.1.0.0/24" false; gw "b" "10.2.0.0/24" true; gw "c" "10.3.0.0/24" false].

Definition two_hubs : list Gateway :=
  [gw "a" "10.1.0.0/24" true; gw "b" "10.2.0.0/24" true; gw "c" "10.3.0.0/24" false].

Lemma CalculateTopology_connects_witness :
  reaches 2 (CalculateTopology TopologyHubSpoke three) "a" "10.3.0.0/24" "c".
Proof.
  apply (CalculateTopology_connects TopologyHubSpoke three (gw "a" "10.1.0.0/24" false)
           (gw "c" "10.3.0.0/24" false) "10.3.0.0/24").
  - right. split; [reflexivity|]. vm_compute. lia.
  - by left.
  - right. right. by left.
  - done.
  - by left.
Defined.

Lemma extra_hub_dropped_witness :
  map C_GatewayID (calculateHubSpoke two_hubs) = ["b"; "c"] /\
  forall c, c ∈ calculateHubSpoke two_hubs ->
    C_GatewayID c <> "a"%string /\ forall p, p ∈ C_Peers c -> P_GatewayID p <> "a"%string.
Proof.
  split; [vm_compute; reflexivity|].
  apply (extra_hub_dropped two_hubs (gw "b" "10.2.0.0/24" true) (gw "a" "10.1.0.0/24" true)).
  - vm_compute. repeat constructor; set_solver.
  - by left.
  - done.
  - reflexivity.
  - done.
Defined.
End Topology.
