(* ===== verification/Routes.v ===== *)
(** * Site-to-site route table and peer health

    [internal/s2s/route.go] (module [RouteTable]) and [health.go] (module
    [Health]).  Both structures are guarded by one lock that every method
    holds from its first to its last statement, so a history of calls is a
    sequence of atomic operations. *)

From S2P Require Import Prelude.
From Stdlib Require Import ZArith Lia Ascii String.
From stdpp Require Import base gmap strings list sorting pretty.

Module RouteTable.
Local Open Scope Z_scope.

Record RouteEntry := {
  Destination : string;
  ViaGateway : string;
  ViaPublicKey : string;
  ViaEndpoint : string;
  Metric : Z;
  IsActive : bool;
}.

#[export] Instance RouteEntry_eq_dec : EqDecision RouteEntry.
Proof. solve_decision. Defined.

(** The comparison the code sorts by. *)
Definition metric_le (a b : RouteEntry) : Prop := Metric a <= Metric b.

#[export] Instance metric_le_dec : RelDecision metric_le.
Proof. intros a b. unfold metric_le. apply _. Defined.

#[export] Instance metric_le_total : Total metric_le.
Proof. intros a b. unfold metric_le. lia. Qed.

#[export] Instance metric_le_trans : Transitive metric_le.
Proof. intros a b c. unfold metric_le. lia. Qed.

(** [sort.Slice] promises a sorted permutation; the order of equal metrics is
    left open. *)
Class SliceSort : Type := {
  sort_slice : list RouteEntry -> list RouteEntry;
  sort_slice_perm : forall l, sort_slice l ≡ₚ l;
  sort_slice_sorted : forall l, StronglySorted metric_le (sort_slice l);
}.

(** An admissible sort, for running the definitions. *)
Definition merge_slice_sort : SliceSort := {|
  sort_slice := merge_sort metric_le;
  sort_slice_perm := merge_sort_Permutation metric_le;
  sort_slice_sorted := StronglySorted_merge_sort metric_le |}.

Section table.
Context `{SliceSort} `{GoRange}.

Definition NewRouteTable : gmap string (list RouteEntry) := ∅.

(** The search loop of [Advertise]: overwrite the first route of the gateway,
    or append. *)
Fixpoint upsert (entry : RouteEntry) (routes : list RouteEntry) : list RouteEntry :=
  match routes with
  | [] => [entry]
  | r :: rs => if decide (ViaGateway r = ViaGateway entry) then entry :: rs
               else r :: upsert entry rs
  end.

Definition advertiseOne (gatewayID publicKey endpoint : string) (metric : Z)
    (rt : gmap string (list RouteEntry)) (subnet : string) : gmap string (list RouteEntry) :=
  let entry := {| Destination := subnet; ViaGateway := gatewayID; ViaPublicKey := publicKey;
                  ViaEndpoint := endpoint; Metric := metric; IsActive := true |} in
  <[subnet := sort_slice (upsert entry (default [] (rt !! subnet)))]> rt.

Definition Advertise (rt : gmap string (list RouteEntry)) (gatewayID publicKey endpoint : string)
    (subnets : list string) (metric : Z) : gmap string (list RouteEntry) :=
  fold_left (advertiseOne gatewayID publicKey endpoint metric) subnets rt.

(** Each destination keeps the routes of other gateways and disappears when
    none is left. *)
Definition Withdraw (rt : gmap string (list RouteEntry)) (gatewayID : string)
  : gmap string (list RouteEntry) :=
  omap (fun routes =>
    match filter (fun r => ViaGateway r <> gatewayID) routes with
    | [] => None
    | filtered => Some filtered
    end) rt.

Definition BestRoute (rt : gmap string (list RouteEntry)) (destination : string)
  : option RouteEntry :=
  match rt !! destination with
  | None => None
  | Some routes => snd <$> list_find (fun r => IsActive r = true) routes
  end.

Definition AllRoutes (rt : gmap string (list RouteEntry)) : list RouteEntry :=
  concat (map snd (range 0 rt)).

Definition RoutesForGateway (rt : gmap string (list RouteEntry)) (gatewayID : string)
  : list RouteEntry :=
  omap (fun '(_, routes) =>
    snd <$> list_find (fun r => ViaGateway r <> gatewayID /\ IsActive r = true) routes)
    (range 1 rt).

(** ** Invariant *)

Record routes_ok (dest : string) (routes : list RouteEntry) : Prop := {
  ok_ne : routes <> [];
  ok_sorted : StronglySorted metric_le routes;
  ok_via : NoDup (map ViaGateway routes);
  ok_dest : Forall (fun r => Destination r = dest /\ IsActive r = true) routes;
}.

Definition table_ok (rt : gmap string (list RouteEntry)) : Prop :=
  map_Forall routes_ok rt.

(** ** Abstract specification: one entry per destination and gateway *)

Definition spec_advertise (m : gmap (string * string) RouteEntry)
    (gatewayID publicKey endpoint : string) (subnets : list string) (metric : Z)
  : gmap (string * string) RouteEntry :=
  fold_left (fun m subnet => <[(subnet, gatewayID) :=
    {| Destination := subnet; ViaGateway := gatewayID; ViaPublicKey := publicKey;
       ViaEndpoint := endpoint; Metric := metric; IsActive := true |}]> m) subnets m.

Definition spec_withdraw (m : gmap (string * string) RouteEntry) (gatewayID : string)
  : gmap (string * string) RouteEntry :=
  filter (fun kv => kv.1.2 <> gatewayID) m.

(** The table holds exactly the entries of the specification. *)
Definition represents (rt : gmap string (list RouteEntry)) (m : gmap (string * string) RouteEntry)
  : Prop :=
  table_ok rt /\
  forall dest via e, m !! (dest, via) = Some e <->
    ViaGateway e = via /\ exists routes, rt !! dest = Some routes /\ e ∈ routes.

Lemma upsert_elem entry routes e : NoDup (map ViaGateway routes) ->
  e ∈ upsert entry routes <->
  e = entry \/ (e ∈ routes /\ ViaGateway e <> ViaGateway entry).
Proof.
  induction routes as [|r rs IH]; simpl; intros Hnd.
  { rewrite list_elem_of_singleton, elem_of_nil. tauto. }
  apply NoDup_cons in Hnd as [Hr Hnd].
  assert (forall x, x ∈ rs -> ViaGateway x <> ViaGateway r) as Hne.
  { intros x Hx E. apply Hr. apply list_elem_of_fmap. eauto. }
  case_decide as Hd; rewrite !elem_of_cons.
  - split; [intros [->|Hx]|]; auto; [right; split; [auto|]; rewrite <- Hd; auto|].
    intros [->|[[->|Hx] Hv]]; auto. congruence.
  - rewrite IH by done. split; [|tauto]. intros [->|[->|[Hx Hv]]]; auto.
Qed.

Lemma upsert_via entry routes : NoDup (map ViaGateway routes) ->
  NoDup (map ViaGateway (upsert entry routes)).
Proof.
  induction routes as [|r rs IH]; simpl; intros Hnd; [apply NoDup_singleton|].
  apply NoDup_cons in Hnd as [Hr Hnd]. case_decide as Hd; simpl.
  - apply NoDup_cons. by rewrite <- Hd.
  - apply NoDup_cons. split; [|auto]. intros (x & E & Hx)%list_elem_of_fmap.
    apply upsert_elem in Hx as [->|[Hx _]]; [done| |done].
    apply Hr. apply list_elem_of_fmap. eauto.
Qed.

Lemma table_ok_default rt dest : table_ok rt ->
  let routes := default [] (rt !! dest) in
  StronglySorted metric_le routes /\ NoDup (map ViaGateway routes) /\
  Forall (fun r => Destination r = dest /\ IsActive r = true) routes.
Proof.
  intros Hok. destruct (rt !! dest) as [routes|] eqn:E; simpl.
  - destruct (Hok _ _ E). auto.
  - split_and!; constructor.
Qed.

Lemma advertiseOne_represents gw pk ep metric rt m subnet :
  represents rt m ->
  represents (advertiseOne gw pk ep metric rt subnet) (spec_advertise m gw pk ep [subnet] metric).
Proof.
  intros [Hok Hm]. unfold advertiseOne, spec_advertise. simpl.
  set (entry := {| Destination := subnet |}).
  destruct (table_ok_default rt subnet Hok) as (Hs & Hv & Hd).
  set (routes := default [] (rt !! subnet)) in *.
  assert (forall e, e ∈ sort_slice (upsert entry routes) <->
    e = entry \/ (e ∈ routes /\ ViaGateway e <> gw)) as Hin.
  { intros e. rewrite sort_slice_perm. by apply upsert_elem. }
  split.
  - apply map_Forall_insert_2; [|done]. constructor.
    + intros E. apply (f_equal length) in E. rewrite sort_slice_perm in E.
      by destruct routes; simpl in E; [|case_decide].
    + apply sort_slice_sorted.
    + rewrite (fmap_Permutation _ _ _ (sort_slice_perm _)). by apply upsert_via.
    + apply Forall_forall. intros e [->|[He _]]%Hin; [done|].
      rewrite Forall_forall in Hd. auto.
  - intros dest via e. rewrite !lookup_insert.
    destruct (decide (subnet = dest)) as [<-|Hne].
    + destruct (decide ((subnet, gw) = (subnet, via))) as [[= <-]|Hvia].
      * split; [intros [= <-]; split; [done|]; eexists; split; [done|]; apply Hin; auto|].
        intros [Hvg (rs & [= <-] & He)]. apply Hin in He as [->|[_ Hx]]; [done|congruence].
      * rewrite Hm. split.
        -- intros [Hvg (rs & Hrs & He)]. split; [done|]. eexists. split; [done|].
           apply Hin. right. unfold routes. rewrite Hrs. split; [done|]. congruence.
        -- intros [Hvg (rs & [= <-] & He)]. split; [done|].
           apply Hin in He as [->|[He _]]; [simpl in *; congruence|].
           unfold routes in He. destruct (rt !! subnet) eqn:E; [eauto|].
           by apply elem_of_nil in He.
    + rewrite decide_False by congruence. apply Hm.
Qed.

Lemma Advertise_represents rt m gw pk ep subnets metric :
  represents rt m ->
  represents (Advertise rt gw pk ep subnets metric) (spec_advertise m gw pk ep subnets metric).
Proof.
  revert rt m. induction subnets as [|s subnets IH]; intros rt m Hr; [done|].
  simpl. apply IH. by apply (advertiseOne_represents gw pk ep metric rt m s).
Qed.

Lemma StronglySorted_filter {A} (R : relation A) P `{!forall x, Decision (P x)} (l : list A) :
  StronglySorted R l -> StronglySorted R (filter P l).
Proof.
  induction 1 as [|x l Hs IH Hall]; [constructor|]. rewrite filter_cons. case_decide; [|done].
  constructor; [done|]. rewrite Forall_forall in *. intros y [_ Hy]%list_elem_of_filter. auto.
Qed.

Lemma Withdraw_lookup rt gw dest routes :
  Withdraw rt gw !! dest = Some routes <->
  routes <> [] /\ exists rs, rt !! dest = Some rs /\
    routes = filter (fun r => ViaGateway r <> gw) rs.
Proof.
  unfold Withdraw. rewrite lookup_omap. destruct (rt !! dest) as [rs|]; simpl.
  2:{ split; [done|]. by intros (_ & ? & ? & _). }
  destruct (filter _ rs) as [|x l] eqn:E.
  - split; [done|]. intros (Hne & ? & [= <-] & ->). congruence.
  - split; [intros [= <-]; split; [done|]; eauto|]. intros (Hne & ? & [= <-] & ->). by rewrite E.
Qed.

Lemma Withdraw_represents rt m gw :
  represents rt m -> represents (Withdraw rt gw) (spec_withdraw m gw).
Proof.
  intros [Hok Hm]. split.
  - intros dest routes (Hne & rs & Hrs & ->)%Withdraw_lookup. destruct (Hok _ _ Hrs).
    constructor; auto using StronglySorted_filter.
    + by apply NoDup_map_filter.
    + rewrite Forall_forall in *. intros r [_ Hr]%list_elem_of_filter. auto.
  - intros dest via e. unfold spec_withdraw. rewrite map_lookup_filter_Some, Hm. simpl. split.
    + intros [[Hv (rs & Hrs & He)] Hne]. split; [done|].
      exists (filter (fun r => ViaGateway r <> gw) rs).
      assert (e ∈ filter (fun r => ViaGateway r <> gw) rs) as Hf
        by (apply list_elem_of_filter; split; [congruence|done]).
      split; [|done]. apply Withdraw_lookup. split; [|eauto]. intros E. rewrite E in Hf. inversion Hf.
    + intros [Hv (routes & (Hne & rs & Hrs & ->)%Withdraw_lookup & [Hg He]%list_elem_of_filter)].
      split; [eauto|]. congruence.
Qed.

(** ** Histories *)

Inductive op :=
| OpAdvertise (gatewayID publicKey endpoint : string) (subnets : list string) (metric : Z)
| OpWithdraw (gatewayID : string).

Definition step (rt : gmap string (list RouteEntry)) (o : op) : gmap string (list RouteEntry) :=
  match o with
  | OpAdvertise gw pk ep subnets metric => Advertise rt gw pk ep subnets metric
  | OpWithdraw gw => Withdraw rt gw
  end.

Definition spec_step (m : gmap (string * string) RouteEntry) (o : op)
  : gmap (string * string) RouteEntry :=
  match o with
  | OpAdvertise gw pk ep subnets metric => spec_advertise m gw pk ep subnets metric
  | OpWithdraw gw => spec_withdraw m gw
  end.

Definition run (ops : list op) : gmap string (list RouteEntry) := fold_left step ops NewRouteTable.
Definition spec_run (ops : list op) : gmap (string * string) RouteEntry :=
  fold_left spec_step ops ∅.

Lemma run_represents ops : represents (run ops) (spec_run ops).
Proof.
  unfold run, spec_run. induction ops as [|o ops IH] using rev_ind; simpl.
  { split; [by intros ? ? ?|]. intros dest via e. rewrite !lookup_empty. naive_solver. }
  rewrite !fold_left_app. simpl. destruct o; simpl.
  - by apply Advertise_represents.
  - by apply Withdraw_represents.
Qed.

(** The first route satisfying a test, in a list sorted by metric, has the
    least metric among those that satisfy it. *)
Lemma list_find_sorted_min P `{!forall x, Decision (P x)} l i e :
  StronglySorted metric_le l -> list_find P l = Some (i, e) ->
  e ∈ l /\ P e /\ forall e', e' ∈ l -> P e' -> Metric e <= Metric e'.
Proof.
  revert i. induction l as [|x l IH]; intros i Hs; simpl; [done|].
  apply StronglySorted_inv in Hs as [Hs Hall]. rewrite Forall_forall in Hall.
  case_decide as Hx.
  - intros [= <- <-]. split_and!; [by left|done|]. intros e' [->|He']%elem_of_cons _; [lia|].
    by apply Hall.
  - destruct (list_find P l) as [[j y]|] eqn:E; simpl; [|done]. intros [= <- <-].
    destruct (IH j Hs eq_refl) as (Hy & HPy & Hmin). split_and!; [by right|done|].
    intros e' [->|He']%elem_of_cons HP; [done|auto].
Qed.

(** Best entry of the specification for a destination, under a restriction on
    the gateway. *)
Definition best (m : gmap (string * string) RouteEntry) (dest : string) (ok : string -> Prop)
    (o : option RouteEntry) : Prop :=
  match o with
  | Some e => m !! (dest, ViaGateway e) = Some e /\ ok (ViaGateway e) /\
      forall via e', m !! (dest, via) = Some e' -> ok via -> Metric e <= Metric e'
  | None => forall via, ok via -> m !! (dest, via) = None
  end.

Lemma find_best rt m dest routes (ok : string -> Prop) `{!forall v, Decision (ok v)} :
  represents rt m -> rt !! dest = Some routes ->
  best m dest ok (snd <$> list_find (fun r => ok (ViaGateway r) /\ IsActive r = true) routes).
Proof.
  intros [Hok Hm] Hrt. destruct (Hok _ _ Hrt) as [_ Hs _ Hd]. rewrite Forall_forall in Hd.
  destruct (list_find _ routes) as [[i e]|] eqn:E; simpl.
  - apply list_find_sorted_min in E as (He & [Hv _] & Hmin); [|done].
    split_and!; [apply Hm; eauto|done|]. intros via e' He' Hvia.
    apply Hm in He' as [<- (rs & Hrs & Hin)]. simplify_eq. apply Hmin; [done|].
    split; [done|]. by apply Hd.
  - intros via Hvia. apply eq_None_not_Some. intros [e He].
    apply Hm in He as [<- (rs & Hrs & Hin)]. simplify_eq.
    apply list_find_None in E. rewrite Forall_forall in E. apply (E e Hin).
    split; [done|]. by apply Hd.
Qed.

(** C31. Refinement.  After any sequence of advertisements and withdrawals the
    table stays well formed (every destination has a non-empty list of active
    routes sorted by metric, one per gateway) and holds exactly the entries of
    the abstract map that keeps the last advertisement of each gateway for
    each destination and forgets withdrawn gateways. *)
Theorem route_table_refines ops :
  table_ok (run ops) /\
  forall dest via e, spec_run ops !! (dest, via) = Some e <->
    ViaGateway e = via /\ exists routes, run ops !! dest = Some routes /\ e ∈ routes.
Proof. apply run_represents. Qed.

(** [BestRoute] is optimal.  After any history it returns a currently
    advertised route to the destination whose metric is least among all
    gateways advertising it, and finds none exactly when no gateway does. *)
Theorem BestRoute_optimal ops dest :
  best (spec_run ops) dest (fun _ => True) (BestRoute (run ops) dest).
Proof.
  pose proof (run_represents ops) as Hr. unfold BestRoute.
  destruct (run ops !! dest) as [routes|] eqn:E.
  - pose proof (find_best _ _ dest routes (fun _ => True) Hr E) as Hb.
    rewrite (list_find_ext _ (fun r => IsActive r = true)) in Hb; [done|]. naive_solver.
  - intros via _. apply eq_None_not_Some. intros [e He].
    apply Hr in He as [_ (rs & Hrs & _)]. congruence.
Qed.

(** [RoutesForGateway] returns, for every destination reachable through
    another gateway and for no other, exactly one route, never via the gateway
    itself and with the least metric among the other gateways' routes, in
    whatever order the map is ranged over. *)
Theorem RoutesForGateway_correct ops gw :
  NoDup (map Destination (RoutesForGateway (run ops) gw)) /\
  (forall e, e ∈ RoutesForGateway (run ops) gw ->
     best (spec_run ops) (Destination e) (fun v => v <> gw) (Some e)) /\
  (forall dest via e, spec_run ops !! (dest, via) = Some e -> via <> gw ->
     exists e', e' ∈ RoutesForGateway (run ops) gw /\ Destination e' = dest).
Proof.
  pose proof (run_represents ops) as Hr. destruct Hr as [Hok Hm]. unfold RoutesForGateway.
  assert (forall dest routes e, run ops !! dest = Some routes ->
    snd <$> list_find (fun r => ViaGateway r <> gw /\ IsActive r = true) routes = Some e ->
    Destination e = dest) as Hdest.
  { intros dest routes e Hrt Hf. destruct (Hok _ _ Hrt) as [_ _ _ Hd].
    apply fmap_Some in Hf as ([i x] & Hf & ->). apply list_find_Some in Hf as (Hi & _ & _).
    rewrite Forall_lookup in Hd. by apply (Hd i). }
  split_and!.
  - apply NoDup_omap_key; [apply NoDup_range_fst|].
    intros [dest routes] e Hin%elem_of_range He. by eapply Hdest.
  - intros e ([dest routes] & Hin%elem_of_range & Hf)%list_elem_of_omap.
    rewrite (Hdest _ _ _ Hin Hf), <- Hf.
    exact (find_best _ _ dest routes (fun v => v <> gw) (conj Hok Hm) Hin).
  - intros dest via e He Hv. pose proof He as [Hve (routes & Hrt & Hin)]%Hm.
    pose proof (find_best _ _ dest routes (fun v => v <> gw) (conj Hok Hm) Hrt) as Hb.
    destruct (snd <$> list_find _ routes) as [e'|] eqn:E; simpl in Hb.
    + exists e'. split; [|by eapply Hdest]. apply list_elem_of_omap. exists (dest, routes).
      split; [by apply elem_of_range|done].
    + by rewrite Hb in He.
Qed.
End table.

Definition demo_ops : list op :=
  [OpAdvertise "g1" "k1" "e1" ["10.1.0.0/24"; "10.2.0.0/24"] 20;
   OpAdvertise "g2" "k2" "e2" ["10.1.0.0/24"] 10; OpWithdraw "g1"].

Example route_demo :
  let rt := @run merge_slice_sort demo_ops in
  ViaGateway <$> BestRoute rt "10.1.0.0/24" = Some "g2"%string /\
  BestRoute rt "10.2.0.0/24" = None /\
  @RoutesForGateway range_default rt "g2" = [].
Proof. vm_compute. auto. Qed.

Lemma route_table_refines_witness : table_ok (@run merge_slice_sort demo_ops).
Proof. apply (@route_table_refines merge_slice_sort demo_ops). Defined.

Lemma BestRoute_optimal_witness :
  best (spec_run demo_ops) "10.1.0.0/24" (fun _ => True)
    (BestRoute (@run merge_slice_sort demo_ops) "10.1.0.0/24").
Proof. apply (@BestRoute_optimal merge_slice_sort demo_ops "10.1.0.0/24"). Defined.

Lemma RoutesForGateway_correct_witness :
  NoDup (map Destination (@RoutesForGateway range_reverse (@run merge_slice_sort demo_ops) "g1")).
Proof. apply (@RoutesForGateway_correct merge_slice_sort range_reverse demo_ops "g1"). Defined.
End RouteTable.

Module Health.
Local Open Scope Z_scope.

Record PeerHealth := {
  GatewayID : string;
  RemoteGateway : string;
  TunnelID : string;
  Healthy : bool;
  LatencyMs : Z;
  LastCheck : Z;
  LastHealthy : Z;
  FailCount : Z;
}.

Record HealthTracker := {
  peers : gmap string PeerHealth;
  unhealthyThreshold : Z;
}.

Definition NewHealthTracker (threshold : Z) : HealthTracker := {|
  peers := ∅;
  unhealthyThreshold := if threshold <=? 0 then 3 else threshold |}.

Definition peerKey (tunnelID gatewayID remoteGatewayID : string) : string :=
  (tunnelID ++ ":" ++ gatewayID ++ ":" ++ remoteGatewayID)%string.

(** [Report] at instant [now]. *)
Definition Report (ht : HealthTracker) (now : Z) (tunnelID gatewayID remoteGatewayID : string)
    (isReachable : bool) (latencyMs : Z) : HealthTracker :=
  let key := peerKey tunnelID gatewayID remoteGatewayID in
  let ph := default {| GatewayID := gatewayID; RemoteGateway := remoteGatewayID;
                       TunnelID := tunnelID; Healthy := false; LatencyMs := 0; LastCheck := 0;
                       LastHealthy := 0; FailCount := 0 |} (peers ht !! key) in
  let fails := add64 (FailCount ph) 1 in
  let ph' :=
    if isReachable then
      {| GatewayID := GatewayID ph; RemoteGateway := RemoteGateway ph; TunnelID := TunnelID ph;
         Healthy := true; LatencyMs := latencyMs; LastCheck := now; LastHealthy := now;
         FailCount := 0 |}
    else
      {| GatewayID := GatewayID ph; RemoteGateway := RemoteGateway ph; TunnelID := TunnelID ph;
         Healthy := if unhealthyThreshold ht <=? fails then false else Healthy ph;
         LatencyMs := latencyMs; LastCheck := now; LastHealthy := LastHealthy ph;
         FailCount := fails |} in
  {| peers := <[key := ph']> (peers ht); unhealthyThreshold := unhealthyThreshold ht |}.

Definition IsHealthy (ht : HealthTracker) (tunnelID gatewayID remoteGatewayID : string) : bool :=
  match peers ht !! peerKey tunnelID gatewayID remoteGatewayID with
  | Some ph => Healthy ph
  | None => false
  end.

Definition GetHealth `{GoRange} (ht : HealthTracker) (tunnelID : string) : list PeerHealth :=
  filter (fun ph => TunnelID ph = tunnelID) (map snd (range 0 (peers ht))).

(** ** Specification over the history of reports *)

(** A report: instant, the three identifiers, reachability, latency. *)
Record report := {
  r_now : Z; r_tunnel : string; r_gw : string; r_remote : string; r_ok : bool; r_latency : Z }.

Definition apply_report (ht : HealthTracker) (r : report) : HealthTracker :=
  Report ht (r_now r) (r_tunnel r) (r_gw r) (r_remote r) (r_ok r) (r_latency r).

Definition run (threshold : Z) (rs : list report) : HealthTracker :=
  fold_left apply_report rs (NewHealthTracker threshold).

Definition triple (r : report) : string * string * string := (r_tunnel r, r_gw r, r_remote r).

(** The reachability results of one peer, oldest first. *)
Definition results (rs : list report) (k : string * string * string) : list bool :=
  map r_ok (filter (fun r => triple r = k) rs).

(** Failures since the last success, and whether there was a success. *)
Definition tally (bs : list bool) : bool * Z :=
  fold_left (fun '(seen, fails) b => if b : bool then (true, 0) else (seen, fails + 1)) bs (false, 0).

Definition threshold_of (t : Z) : Z := if t <=? 0 then 3 else t.

(** Identifiers without a colon (UUIDs): the three parts of a key are read
    back from it. *)
Definition ids_ok (rs : list report) : Prop :=
  Forall (fun r => no_char ":" (r_tunnel r) = true /\ no_char ":" (r_gw r) = true /\
                   no_char ":" (r_remote r) = true) rs.

Lemma peerKey_inj t g r t' g' r' :
  no_char ":" t = true -> no_char ":" g = true -> no_char ":" r = true ->
  no_char ":" t' = true -> no_char ":" g' = true -> no_char ":" r' = true ->
  peerKey t g r = peerKey t' g' r' -> (t, g, r) = (t', g', r').
Proof.
  intros Ht Hg Hr Ht' Hg' Hr' E. apply (f_equal (split_on ":")) in E. revert E.
  unfold peerKey. rewrite !append_cons, !append_nil.
  rewrite !split_on_app, !split_on_no_char by done. by intros [= -> -> ->].
Qed.

Lemma tally_snoc bs b : tally (bs ++ [b]) =
  if b then (true, 0) else ((tally bs).1, (tally bs).2 + 1).
Proof. unfold tally. rewrite fold_left_app. simpl. by destruct (fold_left _ bs _), b. Qed.

Lemma tally_bound bs : 0 <= (tally bs).2 <= Z.of_nat (length bs).
Proof.
  induction bs as [|b bs IH] using rev_ind; [done|].
  rewrite tally_snoc, length_app. destruct b; simpl; lia.
Qed.

Lemma results_snoc rs r k : results (rs ++ [r]) k =
  if decide (triple r = k) then results rs k ++ [r_ok r] else results rs k.
Proof.
  unfold results. rewrite filter_app, map_app, filter_cons, filter_nil.
  case_decide; simpl; [done|]. by rewrite app_nil_r.
Qed.

Lemma results_length rs k : (length (results rs k) <= length rs)%nat.
Proof. unfold results. rewrite length_map. apply length_filter. Qed.

(** The state of a peer's entry after a history. *)
Definition entry_of (t : Z) (rs : list report) (k : string * string * string) : Prop :=
  match peers (run t rs) !! peerKey k.1.1 k.1.2 k.2 with
  | None => results rs k = []
  | Some ph => FailCount ph = (tally (results rs k)).2 /\
      Healthy ph = (tally (results rs k)).1 && ((tally (results rs k)).2 <? threshold_of t)
  end.

Lemma run_threshold t rs : unhealthyThreshold (run t rs) = threshold_of t.
Proof.
  unfold run. induction rs as [|r rs IH] using rev_ind; [done|]. by rewrite fold_left_app.
Qed.

Lemma threshold_pos t : 0 < threshold_of t.
Proof. unfold threshold_of. destruct (Z.leb_spec t 0); lia. Qed.

Lemma run_entry t rs k : ids_ok rs -> Z.of_nat (length rs) <= max_int64 ->
  no_char ":" k.1.1 = true -> no_char ":" k.1.2 = true -> no_char ":" k.2 = true ->
  entry_of t rs k.
Proof.
  intros Hids Hlen K1 K2 K3. induction rs as [|r rs IH] using rev_ind.
  { unfold entry_of, run. simpl. by rewrite lookup_empty. }
  apply Forall_app in Hids as [Hids Hr]. rewrite length_app in Hlen. simpl in Hlen.
  apply Forall_singleton in Hr as (R1 & R2 & R3).
  specialize (IH Hids ltac:(lia)). unfold entry_of in *. rewrite results_snoc.
  unfold run. rewrite fold_left_app. fold (run t rs). simpl. rewrite lookup_insert.
  destruct k as [[kt kg] kr]; simpl in *. destruct (decide (triple r = (kt, kg, kr))) as [E|E].
  - injection E as <- <- <-. rewrite decide_True by done. rewrite tally_snoc, run_threshold.
    pose proof (results_length rs (r_tunnel r, r_gw r, r_remote r)).
    set (bs := results rs (r_tunnel r, r_gw r, r_remote r)) in *. pose proof (tally_bound bs).
    assert (add64 (tally bs).2 1 = (tally bs).2 + 1) as Hadd
      by (apply add64_small; unfold in_int64, min_int64, max_int64 in *; lia).
    pose proof (threshold_pos t).
    destruct (peers (run t rs) !! peerKey (r_tunnel r) (r_gw r) (r_remote r)) as [ph|]; simpl.
    + destruct IH as [-> ->]. rewrite Hadd. destruct (r_ok r); simpl; (split; [done|]).
      * symmetry. by apply Z.ltb_lt.
      * destruct (Z.leb_spec (threshold_of t) ((tally bs).2 + 1)),
          (Z.ltb_spec ((tally bs).2 + 1) (threshold_of t)),
          (Z.ltb_spec (tally bs).2 (threshold_of t)), (tally bs).1; simpl; done || lia.
    + rewrite IH in *. destruct (r_ok r); simpl; (split; [done|]).
      * symmetry. by apply Z.ltb_lt.
      * by destruct (threshold_of t <=? add64 0 1).
  - rewrite decide_False; [exact IH|]. intros Ek. apply E. by apply peerKey_inj in Ek.
Qed.

(** The health verdict of a peer depends exactly on its own reports: it
    is healthy if and only if it has been reachable at least once and fewer
    than the threshold of reports since then failed; other peers' reports
    never influence it (identifiers without a colon). *)
Theorem IsHealthy_correct t rs tunnel gw remote
    (Hids : ids_ok rs) (Hlen : Z.of_nat (length rs) <= max_int64)
    (Hid : no_char ":" tunnel = true /\ no_char ":" gw = true /\ no_char ":" remote = true) :
  let '(seen, fails) := tally (results rs (tunnel, gw, remote)) in
  IsHealthy (run t rs) tunnel gw remote = seen && (fails <? threshold_of t).
Proof.
  destruct Hid as (H1 & H2 & H3).
  pose proof (run_entry t rs (tunnel, gw, remote) Hids Hlen H1 H2 H3) as He.
  unfold entry_of in He. simpl in He. unfold IsHealthy.
  destruct (tally (results rs (tunnel, gw, remote))) as [seen fails] eqn:Et.
  destruct (peers (run t rs) !! _) as [ph|]; [by destruct He as [_ ->]|].
  rewrite He in Et. by injection Et as <- <-.
Qed.

Definition rep (gw : string) (ok : bool) : report :=
  {| r_now := 0; r_tunnel := "t"; r_gw := gw; r_remote := "r"; r_ok := ok; r_latency := 5 |}.

Definition history : list report :=
  [rep "a" false; rep "a" true; rep "b" true; rep "a" false; rep "a" false; rep "b" false].

Lemma IsHealthy_correct_witness :
  IsHealthy (run 2 history) "t" "a" "r" = false /\ IsHealthy (run 2 history) "t" "b" "r" = true.
Proof.
  split.
  - refine (IsHealthy_correct 2 history "t" "a" "r" _ _ _); [|vm_compute; discriminate|done].
    repeat constructor.
  - refine (IsHealthy_correct 2 history "t" "b" "r" _ _ _); [|vm_compute; discriminate|done].
    repeat constructor.
Defined.

(** The converse of the side condition: with a colon inside an identifier two
    different peers share one entry. *)
Example colon_collision :
  IsHealthy (run 3 [{| r_now := 0; r_tunnel := "t:a"; r_gw := "b"; r_remote := "c";
                       r_ok := true; r_latency := 0 |}]) "t" "a:b" "c" = true.
Proof. reflexivity. Qed.
End Health.
