(* ===== verification/Auth.v ===== *)
(** * Authentication primitives

    [internal/auth]: the password policy, the role enforcer, JWT issuing and
    validation over the JWT library, the token blacklist and the HTTP
    middleware that guards every protected route. *)

From S2P Require Import Prelude.
From Stdlib Require Import ZArith Lia Ascii String.
From stdpp Require Import base gmap strings list sorting pretty.

(** ** Password policy ([password_policy.go]) *)
Module PasswordPolicy.

(** The rune decoding and the character classes of Go's [unicode] package. *)
Class Unicode : Type := {
  runes : string -> list Z;
  IsUpper : Z -> bool;
  IsLower : Z -> bool;
  IsDigit : Z -> bool;
}.

Section policy.
Context `{Unicode}.

Record classes := { hasUpper : bool; hasLower : bool; hasDigit : bool; hasSpecial : bool }.

(** The loop body: the first class that fits. *)
Definition classify (c : classes) (r : Z) : classes :=
  if IsUpper r then {| hasUpper := true; hasLower := hasLower c; hasDigit := hasDigit c;
                       hasSpecial := hasSpecial c |}
  else if IsLower r then {| hasUpper := hasUpper c; hasLower := true; hasDigit := hasDigit c;
                            hasSpecial := hasSpecial c |}
  else if IsDigit r then {| hasUpper := hasUpper c; hasLower := hasLower c; hasDigit := true;
                            hasSpecial := hasSpecial c |}
  else {| hasUpper := hasUpper c; hasLower := hasLower c; hasDigit := hasDigit c;
          hasSpecial := true |}.

(** [None] is Go's [nil] error; [Some] carries the unmet requirements. *)
Definition ValidatePasswordPolicy (password : string) : option (list string) :=
  let c := fold_left classify (runes password)
    {| hasUpper := false; hasLower := false; hasDigit := false; hasSpecial := false |} in
  let missing :=
    (if (String.length password <? 8)%nat then ["at least 8 characters"] else []) ++
    (if hasUpper c then [] else ["at least one uppercase letter"]) ++
    (if hasLower c then [] else ["at least one lowercase letter"]) ++
    (if hasDigit c then [] else ["at least one digit"]) ++
    (if hasSpecial c then [] else ["at least one special character"]) in
  match missing with [] => None | _ => Some missing end.

Definition PolicyError (requirements : list string) : string :=
  ("password does not meet requirements: " ++ strings_join "; " requirements)%string.

Definition special (r : Z) : bool := negb (IsUpper r) && negb (IsLower r) && negb (IsDigit r).
Definition lower_only (r : Z) : bool := negb (IsUpper r) && IsLower r.
Definition digit_only (r : Z) : bool := negb (IsUpper r) && negb (IsLower r) && IsDigit r.

Lemma classes_eq a b : hasUpper a = hasUpper b -> hasLower a = hasLower b ->
  hasDigit a = hasDigit b -> hasSpecial a = hasSpecial b -> a = b.
Proof. destruct a, b; simpl; intros; subst; done. Qed.

Lemma classify_fold rs c : fold_left classify rs c =
  {| hasUpper := hasUpper c || existsb IsUpper rs;
     hasLower := hasLower c || existsb lower_only rs;
     hasDigit := hasDigit c || existsb digit_only rs;
     hasSpecial := hasSpecial c || existsb special rs |}.
Proof.
  revert c. induction rs as [|r rs IH]; intros c; simpl.
  { apply classes_eq; simpl; by rewrite orb_false_r. }
  rewrite IH. unfold classify, lower_only, digit_only, special.
  destruct (IsUpper r), (IsLower r), (IsDigit r); apply classes_eq; simpl;
    rewrite ?orb_true_r, ?orb_true_l; done.
Qed.

(** A password is accepted exactly when it has at least 8 bytes and a
    character of each of the four classes; otherwise the error lists exactly
    the unmet requirements. *)
Theorem ValidatePasswordPolicy_correct password :
  (ValidatePasswordPolicy password = None <->
     (8 <= String.length password)%nat /\
     (exists r, r ∈ runes password /\ IsUpper r = true) /\
     (exists r, r ∈ runes password /\ lower_only r = true) /\
     (exists r, r ∈ runes password /\ digit_only r = true) /\
     (exists r, r ∈ runes password /\ special r = true)) /\
  (forall ms, ValidatePasswordPolicy password = Some ms ->
     ms <> [] /\
     ("at least 8 characters"%string ∈ ms <-> (String.length password < 8)%nat) /\
     ("at least one uppercase letter"%string ∈ ms <-> Forall (fun r => IsUpper r = false) (runes password)) /\
     ("at least one special character"%string ∈ ms <-> Forall (fun r => special r = false) (runes password))).
Proof.
  assert (forall (f : Z -> bool) l, existsb f l = true <-> exists r, r ∈ l /\ f r = true) as Hex.
  { intros f l. rewrite existsb_exists. by setoid_rewrite list_elem_of_In. }
  assert (forall (f : Z -> bool) l, existsb f l = false <-> Forall (fun r => f r = false) l) as Hall.
  { intros f l. induction l as [|x l IH]; simpl; [by split|].
    rewrite orb_false_iff, Forall_cons, IH. done. }
  rewrite <- !Hex. setoid_rewrite <- Hall.
  unfold ValidatePasswordPolicy. rewrite classify_fold. simpl.
  destruct (Nat.ltb_spec (String.length password) 8) as [Hl|Hl];
  destruct (existsb IsUpper _), (existsb lower_only _), (existsb digit_only _), (existsb special _);
  simpl; (split; [split; [intros [=]|intros (?&?&?&?&?)]; try discriminate; try lia; auto|]);
  intros ms [= <-]; (split; [done|]);
  split_and!; (split; intros Hin;
    [ first [done | lia | exfalso; revert Hin; apply (bool_decide_unpack _); vm_compute; exact I]
    | first [lia | discriminate Hin | apply (bool_decide_unpack _); vm_compute; exact I] ]).
Qed.
End policy.

(** The ASCII part of the classes, for running the policy. *)
Definition ascii_unicode : Unicode := {|
  runes := fun s => map (fun a => Z.of_N (N_of_ascii a)) (String.list_ascii_of_string s);
  IsUpper := fun r => (65 <=? r)%Z && (r <=? 90)%Z;
  IsLower := fun r => (97 <=? r)%Z && (r <=? 122)%Z;
  IsDigit := fun r => (48 <=? r)%Z && (r <=? 57)%Z |}.

Example policy_demo :
  @ValidatePasswordPolicy ascii_unicode "Passw0rd!" = None /\
  @ValidatePasswordPolicy ascii_unicode "passw0r" =
    Some ["at least 8 characters"; "at least one uppercase letter"; "at least one special character"].
Proof. vm_compute. auto. Qed.

Lemma ValidatePasswordPolicy_correct_witness :
  exists r, r ∈ @runes ascii_unicode "Passw0rd!" /\ @special ascii_unicode r = true.
Proof.
  destruct (proj1 (proj1 (@ValidatePasswordPolicy_correct ascii_unicode "Passw0rd!")))
    as (_ & _ & _ & _ & Hs); [vm_compute; reflexivity|exact Hs].
Defined.
End PasswordPolicy.

(** ** Role enforcer ([rbac/enforcer.go]) *)
Module RBAC.

Record Role := { Name : string; Permissions : list string }.

(** The cache: role name to its set of permissions. *)
Definition LoadRoles (roles : list Role) : gmap string (gset string) :=
  fold_left (fun m r => <[Name r := list_to_set (Permissions r)]> m) roles ∅.

Definition Can (roles : gmap string (gset string)) (userRoles : list string)
    (resource action : string) : bool :=
  let required := (resource ++ ":" ++ action)%string in
  existsb (fun roleName =>
    match roles !! roleName with
    | None => false
    | Some perms => bool_decide ("*"%string ∈ perms) || bool_decide (required ∈ perms)
    end) userRoles.

(** The definition of a role in force: its last occurrence. *)
Definition in_force (roles : list Role) (r : Role) : Prop :=
  exists l1 l2, roles = l1 ++ r :: l2 /\ Forall (fun r' => Name r' <> Name r) l2.

Lemma LoadRoles_lookup roles name perms :
  LoadRoles roles !! name = Some perms <->
  exists r, in_force roles r /\ Name r = name /\ perms = list_to_set (Permissions r).
Proof.
  unfold LoadRoles. induction roles as [|x roles IH] using rev_ind.
  { simpl. rewrite lookup_empty. split; [done|].
    intros (r & (l1 & l2 & E & _) & _). by destruct l1. }
  rewrite fold_left_app. simpl. rewrite lookup_insert. case_decide as Hx.
  - split.
    + intros [= <-]. exists x. split_and!; [|done..]. by exists roles, [].
    + intros (r & (l1 & l2 & E & Hall) & Hn & ->). destruct l2 as [|y l2 _] using rev_ind.
      * apply app_inj_tail in E as [_ ->]. done.
      * rewrite app_comm_cons, app_assoc in E. apply app_inj_tail in E as [_ ->].
        apply Forall_app in Hall as [_ Hy]. rewrite Forall_singleton in Hy. congruence.
  - rewrite IH. clear IH. split.
    + intros (r & (l1 & l2 & -> & Hall) & Hn & ->). exists r. split_and!; [|done..].
      exists l1, (l2 ++ [x]). split; [by rewrite <- app_assoc|].
      apply Forall_app. split; [done|]. apply Forall_singleton. congruence.
    + intros (r & (l1 & l2 & E & Hall) & Hn & ->). exists r. split_and!; [|done..].
      destruct l2 as [|y l2 _] using rev_ind.
      * apply app_inj_tail in E as [_ ->]. congruence.
      * rewrite app_comm_cons, app_assoc in E. apply app_inj_tail in E as [-> ->].
        apply Forall_app in Hall as [Hall _]. by exists l1, l2.
Qed.

(** Access is granted exactly when one of the user's roles, in its last
    loaded definition, holds the wildcard or the permission
    ["resource:action"]; unknown roles grant nothing. *)
Theorem Can_correct roles userRoles resource action :
  Can (LoadRoles roles) userRoles resource action = true <->
  exists r, in_force roles r /\ Name r ∈ userRoles /\
    ("*"%string ∈ Permissions r \/ (resource ++ ":" ++ action)%string ∈ Permissions r).
Proof.
  unfold Can. rewrite existsb_exists. setoid_rewrite <- list_elem_of_In. split.
  - intros (name & Hin & Hc). destruct (LoadRoles roles !! name) as [perms|] eqn:E; [|done].
    apply LoadRoles_lookup in E as (r & Hr & <- & ->). exists r. split_and!; [done..|].
    rewrite orb_true_iff, !bool_decide_eq_true, !elem_of_list_to_set in Hc. done.
  - intros (r & Hr & Hin & Hp). exists (Name r). split; [done|].
    rewrite (proj2 (LoadRoles_lookup roles (Name r) (list_to_set (Permissions r)))) by eauto.
    rewrite orb_true_iff, !bool_decide_eq_true, !elem_of_list_to_set. done.
Qed.
End RBAC.

(** ** Tokens ([jwt.go], [blacklist.go]) *)
Module Token.
Local Open Scope Z_scope.

Record TokenClaims := {
  UserID : string;
  Username : string;
  Email : string;
  IsAdmin : bool;
  Roles : list string;
  TokenType : string;
  ExpiresAt : option Z;
  IssuedAt : option Z;
}.

(** The JWT library: HS256 signing, the signing method a token's header
    names, and verification of signature and registered claims under a key at
    an instant.  Its documented behaviour: a signed token names HMAC and
    verifies under its key, giving back its claims, until it expires; a token
    is never accepted at or after the expiry it carries; the claims are those
    written in the token. *)
Class JwtLib : Type := {
  jwt_sign : string -> TokenClaims -> option string;
  jwt_is_hmac : string -> bool;
  jwt_verify : string -> Z -> string -> option TokenClaims;
  jwt_sign_verify : forall k c t now e, jwt_sign k c = Some t ->
    ExpiresAt c = Some e -> now < e -> jwt_is_hmac t = true /\ jwt_verify k now t = Some c;
  jwt_verify_exp : forall k now t c e, jwt_verify k now t = Some c ->
    ExpiresAt c = Some e -> now < e;
  jwt_verify_payload : forall k k' now now' t c c', jwt_verify k now t = Some c ->
    jwt_verify k' now' t = Some c' -> c = c';
}.

(** [jwt.NewNumericDate] keeps whole seconds. *)
Definition second : Z := 10^9.
Definition NewNumericDate (t : Z) : Z := t - t mod second.
Definition hour : Z := 3600 * second.

Definition with_times (c : TokenClaims) (exp iat : option Z) : TokenClaims := {|
  UserID := UserID c; Username := Username c; Email := Email c; IsAdmin := IsAdmin c;
  Roles := Roles c; TokenType := TokenType c; ExpiresAt := exp; IssuedAt := iat |}.

Section tokens.
Context `{JwtLib}.

Definition GenerateToken (secret : string) (now : Z) (claims : TokenClaims) : result string :=
  let exp := match ExpiresAt claims with
             | None => Some (NewNumericDate (now + 24 * hour))
             | e => e end in
  let iat := match IssuedAt claims with
             | None => Some (NewNumericDate now)
             | i => i end in
  match jwt_sign secret (with_times claims exp iat) with
  | Some signed => Ok signed
  | None => Err "signing token"
  end.

Definition ValidateToken (secret : string) (now : Z) (tokenStr : string) : result TokenClaims :=
  if jwt_is_hmac tokenStr then
    match jwt_verify secret now tokenStr with
    | Some claims => Ok claims
    | None => Err "parsing token"
    end
  else Err "parsing token".

Lemma ValidateToken_Ok secret now t c :
  ValidateToken secret now t = Ok c <-> jwt_is_hmac t = true /\ jwt_verify secret now t = Some c.
Proof. unfold ValidateToken. repeat case_match; naive_solver. Qed.

Lemma ValidateToken_exp secret now t c e :
  ValidateToken secret now t = Ok c -> ExpiresAt c = Some e -> now < e.
Proof. intros [_ Hv]%ValidateToken_Ok He. eauto using jwt_verify_exp. Qed.

(** The claims as they are written into the token. *)
Definition issued (now : Z) (claims : TokenClaims) : TokenClaims :=
  with_times claims
    (Some (default (NewNumericDate (now + 24 * hour)) (ExpiresAt claims)))
    (Some (default (NewNumericDate now) (IssuedAt claims))).

Lemma GenerateToken_Ok secret now claims t : GenerateToken secret now claims = Ok t <->
  jwt_sign secret (issued now claims) = Some t.
Proof.
  unfold GenerateToken, issued. destruct (ExpiresAt claims), (IssuedAt claims); simpl;
    destruct (jwt_sign secret _); naive_solver.
Qed.

Lemma GenerateToken_valid secret now claims t later e : GenerateToken secret now claims = Ok t ->
  ExpiresAt (issued now claims) = Some e -> later < e ->
  ValidateToken secret later t = Ok (issued now claims).
Proof.
  intros Hs%GenerateToken_Ok He Hl. apply ValidateToken_Ok. by eapply jwt_sign_verify.
Qed.

Lemma GenerateToken_payload secret now claims t k later c : GenerateToken secret now claims = Ok t ->
  ValidateToken k later t = Ok c -> c = issued now claims.
Proof.
  intros Hg [_ Hv]%ValidateToken_Ok.
  destruct (ExpiresAt (issued now claims)) as [e|] eqn:He; [|done].
  pose proof (GenerateToken_valid secret now claims t (e - 1) e Hg He ltac:(lia)) as Hv'.
  apply ValidateToken_Ok in Hv' as [_ Hv']. by eapply jwt_verify_payload.
Qed.

Lemma NewNumericDate_bound t : t - second < NewNumericDate t <= t.
Proof.
  unfold NewNumericDate.
  pose proof (Z.mod_pos_bound t second ltac:(unfold second; lia)). lia.
Qed.

(** A token issued at [now] without an explicit expiry validates with
    exactly the issued identity during the following 24 hours (less the
    sub-second truncation of the expiry) and never from then on. *)
Theorem GenerateToken_roundtrip secret now claims t
    (Hexp : ExpiresAt claims = None) (Hgen : GenerateToken secret now claims = Ok t) :
  let e := NewNumericDate (now + 24 * hour) in
  now + 24 * hour - second < e <= now + 24 * hour /\
  (forall later, later < e -> exists c, ValidateToken secret later t = Ok c /\
     UserID c = UserID claims /\ IsAdmin c = IsAdmin claims /\ Roles c = Roles claims /\
     TokenType c = TokenType claims /\ ExpiresAt c = Some e) /\
  (forall k later c, e <= later -> ValidateToken k later t <> Ok c).
Proof.
  intros e. assert (ExpiresAt (issued now claims) = Some e) as He by (simpl; by rewrite Hexp).
  split; [apply NewNumericDate_bound|]. split.
  - intros later Hl. eexists. split; [by eapply GenerateToken_valid|]. done.
  - intros k later c Hl Hv. pose proof (GenerateToken_payload _ _ _ _ _ _ _ Hgen Hv) as ->.
    pose proof (ValidateToken_exp _ _ _ _ e Hv He). lia.
Qed.
End tokens.

(** *** Blacklist

    The table [token_blacklist]: hash to expiry.  [hash] stands for the hex
    SHA-256 of the raw token. *)
Section blacklist.
Context (HashToken : string -> string).

(** The table, and whether the database answers. *)
Definition IsBlacklisted (dbUp : bool) (bl : gmap string Z) (rawToken : string) : result bool :=
  if dbUp then Ok (bool_decide (is_Some (bl !! HashToken rawToken))) else Err "database".

(** [ON CONFLICT DO NOTHING]. *)
Definition Add (dbUp : bool) (bl : gmap string Z) (rawToken : string) (expiresAt : Z)
  : result (gmap string Z) :=
  if dbUp then
    Ok (match bl !! HashToken rawToken with
        | Some _ => bl
        | None => <[HashToken rawToken := expiresAt]> bl
        end)
  else Err "database".

(** [Cleanup] at instant [now]. *)
Definition Cleanup (now : Z) (bl : gmap string Z) : gmap string Z :=
  filter (fun kv => now <= kv.2) bl.
End blacklist.

(** *** A JWT library that satisfies the interface

    Tokens that carry key and claims in the clear, encoded in binary. *)
Fixpoint bits (p : positive) : string :=
  match p with
  | xH => ""
  | xO p => String "0" (bits p)
  | xI p => String "1" (bits p)
  end.

Fixpoint unbits (s : string) : positive :=
  match s with
  | String "0" s => xO (unbits s)
  | String _ s => xI (unbits s)
  | EmptyString => xH
  end.

Lemma unbits_bits p : unbits (bits p) = p.
Proof. induction p; simpl; congruence. Qed.

(** Fields are written with a dash before each character and a dot at the end. *)
Fixpoint field (s rest : string) : string :=
  match s with
  | EmptyString => String "." rest
  | String c s => String "-" (String c (field s rest))
  end.

Fixpoint fields (l : list string) : string :=
  match l with [] => ""%string | s :: l => field s (fields l) end.

Fixpoint unfields (s : string) : list string :=
  match s with
  | String "." s => ""%string :: unfields s
  | String _ (String c s) =>
      match unfields s with f :: fs => String c f :: fs | [] => [] end
  | _ => []
  end.

Lemma unfields_fields l : unfields (fields l) = l.
Proof.
  induction l as [|s l IH]; [done|]. cbn [fields].
  induction s as [|c s IHs]; cbn [field unfields]; [by rewrite IH|by rewrite IHs].
Qed.

Definition opt_code (o : option Z) : string :=
  match o with Some z => bits (encode z) | None => "-" end.

Definition opt_decode (s : string) : option Z :=
  if String.eqb s "-" then None else decode (unbits s).

Lemma opt_decode_code o : opt_decode (opt_code o) = o.
Proof.
  destruct o as [z|]; [|done]. unfold opt_decode, opt_code.
  destruct (String.eqb_spec (bits (encode z)) "-") as [E|_].
  - by destruct (encode z).
  - by rewrite unbits_bits, decode_encode.
Qed.

Definition claims_code (k : string) (c : TokenClaims) : list string :=
  [k; UserID c; Username c; Email c; (if IsAdmin c then "1" else "0"); TokenType c;
   opt_code (ExpiresAt c); opt_code (IssuedAt c)]%string ++ Roles c.

Definition claims_decode (l : list string) : option (string * TokenClaims) :=
  match l with
  | k :: u :: n :: e :: a :: t :: x :: y :: rs =>
      Some (k, {| UserID := u; Username := n; Email := e; IsAdmin := String.eqb a "1";
                  Roles := rs; TokenType := t; ExpiresAt := opt_decode x;
                  IssuedAt := opt_decode y |})
  | _ => None
  end.

Lemma claims_decode_code k c : claims_decode (claims_code k c) = Some (k, c).
Proof.
  destruct c as [u n e a rs t x y]. unfold claims_code, claims_decode. simpl.
  rewrite !opt_decode_code. by destruct a.
Qed.

Definition clear_verify (k : string) (now : Z) (t : string) : option TokenClaims :=
  match claims_decode (unfields t) with
  | Some (k', c) =>
      if decide (k = k') then
        match ExpiresAt c with
        | Some e => if now <? e then Some c else None
        | None => Some c
        end
      else None
  | None => None
  end.

Program Definition clear_jwt : JwtLib := {|
  jwt_sign := fun k c => Some (fields (claims_code k c));
  jwt_is_hmac := fun _ => true;
  jwt_verify := clear_verify |}.
Next Obligation.
  intros k c t now e Hs He Hnow. split; [done|]. unfold clear_verify.
  assert (t = fields (claims_code k c)) as -> by congruence.
  rewrite unfields_fields, claims_decode_code.
  rewrite decide_True by done. by rewrite He, (proj2 (Z.ltb_lt now e)).
Qed.
Next Obligation.
  intros k now t c e. unfold clear_verify. intros Hv He.
  repeat case_match; simplify_eq; boolify; done.
Qed.
Next Obligation.
  intros k k' now now' t c c'. unfold clear_verify. intros H1 H2.
  repeat case_match; simplify_eq; done.
Qed.

Definition ann (exp : option Z) (ty : string) : TokenClaims := {|
  UserID := "u1"; Username := "ann"; Email := "a@x"; IsAdmin := true; Roles := [];
  TokenType := ty; ExpiresAt := exp; IssuedAt := None |}.

Lemma GenerateToken_roundtrip_witness :
  exists t, @GenerateToken clear_jwt "s" 0 (ann None "") = Ok t /\
  exists c, @ValidateToken clear_jwt "s" hour t = Ok c /\ UserID c = "u1"%string.
Proof.
  eexists. split; [reflexivity|].
  edestruct (@GenerateToken_roundtrip clear_jwt "s" 0 (ann None "")) as (_ & Hok & _);
    [reflexivity|reflexivity|].
  destruct (Hok hour) as (c & Hv & Hu & _); [vm_compute; reflexivity|]. exists c. split; assumption.
Defined.
End Token.

(** ** HTTP middleware ([middleware.go]) *)
Module Middleware.
Import Token.
Local Open Scope Z_scope.

(** The outcome for one request: an error response, or the next handler runs
    with these claims in its context. *)
Inductive outcome :=
| Reject (status : Z) (message : string)
| Next (claims : TokenClaims).

Section middleware.
Context `{JwtLib} (HashToken : string -> string).

(** A blacklist as the middleware sees it: its table and whether the database
    answers; [None] when no blacklist was given. *)
Definition JWTMiddleware (secret : string) (blacklist : option (bool * gmap string Z))
    (now : Z) (header : string) : outcome :=
  if String.eqb header "" then Reject 401 "missing authorization header" else
  match cut_prefix header "Bearer " with
  | None => Reject 401 "invalid authorization header format"
  | Some tokenStr =>
      match ValidateToken secret now tokenStr with
      | Err _ => Reject 401 "invalid token"
      | Ok claims =>
          if String.eqb (TokenType claims) "mfa" then Reject 401 "mfa verification required" else
          match blacklist with
          | None => Next claims
          | Some (dbUp, bl) =>
              match IsBlacklisted HashToken dbUp bl tokenStr with
              | Err _ => Reject 500 "failed to check token status"
              | Ok true => Reject 401 "token has been revoked"
              | Ok false => Next claims
              end
          end
      end
  end.

(** [RequireAdmin] on the claims of the context. *)
Definition RequireAdmin (ctx : option TokenClaims) : outcome :=
  match ctx with
  | None => Reject 401 "unauthenticated"
  | Some claims => if IsAdmin claims then Next claims else Reject 403 "admin access required"
  end.

(** The chain used for administrative routes. *)
Definition adminRoute (secret : string) (blacklist : option (bool * gmap string Z))
    (now : Z) (header : string) : outcome :=
  match JWTMiddleware secret blacklist now header with
  | Next claims => RequireAdmin (Some claims)
  | Reject s m => Reject s m
  end.

Lemma JWTMiddleware_Next secret blacklist now header c :
  JWTMiddleware secret blacklist now header = Next c <->
  exists t, header = ("Bearer " ++ t)%string /\ ValidateToken secret now t = Ok c /\
    TokenType c <> "mfa"%string /\
    match blacklist with
    | None => True
    | Some (dbUp, bl) => dbUp = true /\ bl !! HashToken t = None
    end.
Proof.
  unfold JWTMiddleware. destruct (String.eqb_spec header "") as [->|Hne].
  { split; [done|]. intros (t & E & _). done. }
  destruct (cut_prefix header "Bearer ") as [t|] eqn:E; cycle 1.
  { split; [done|]. intros (t & -> & _). by rewrite cut_prefix_app in E. }
  apply cut_prefix_Some in E as ->.
  transitivity (ValidateToken secret now t = Ok c /\ TokenType c <> "mfa"%string /\
    match blacklist with None => True | Some (dbUp, bl) => dbUp = true /\ bl !! HashToken t = None end).
  - unfold IsBlacklisted. destruct (ValidateToken secret now t) as [c'|] eqn:Ev; [|naive_solver].
    destruct (String.eqb_spec (TokenType c') "mfa"); [naive_solver|].
    destruct blacklist as [[[] bl]|]; [|naive_solver..].
    case_bool_decide as Hb; [destruct Hb as [? Hb]|apply eq_None_not_Some in Hb];
      rewrite Hb; naive_solver.
  - split; [intros (?&?&?); by exists t|]. intros (t' & Et & Hr).
    apply (string_app_inj_l "Bearer ") in Et as <-. done.
Qed.

(** C10. a protected handler runs exactly when the Authorization header is
    ["Bearer "] followed by an HMAC token that verifies under the secret at
    this instant, is not an MFA-pending token and, when a blacklist is
    configured, the blacklist answers and does not hold it; the claims it sees
    are those of the token.  An admin route runs exactly when moreover the
    token says so. *)
Theorem adminRoute_correct secret blacklist now header c :
  (JWTMiddleware secret blacklist now header = Next c <->
   exists t, header = ("Bearer " ++ t)%string /\ jwt_is_hmac t = true /\
    jwt_verify secret now t = Some c /\ TokenType c <> "mfa"%string /\
    match blacklist with
    | None => True
    | Some (dbUp, bl) => dbUp = true /\ bl !! HashToken t = None
    end) /\
  (adminRoute secret blacklist now header = Next c <->
   JWTMiddleware secret blacklist now header = Next c /\ IsAdmin c = true).
Proof.
  split.
  - rewrite JWTMiddleware_Next. setoid_rewrite ValidateToken_Ok.
    split; [intros (t&?&(?&?)&?&?)|intros (t&?&?&?&?&?)]; exists t; auto.
  - unfold adminRoute, RequireAdmin.
    destruct (JWTMiddleware secret blacklist now header) as [|c'];
      [split; [done|by intros [? _]]|].
    destruct (IsAdmin c') eqn:E.
    + split; [intros [= <-]; auto|]. by intros [[= <-] _].
    + split; [done|]. intros [[= <-] ?]. congruence.
Qed.
End middleware.

Definition demo_claims : TokenClaims := ann (Some (24 * hour)) "".
Definition demo_token : string := default "" (@jwt_sign clear_jwt "s" demo_claims).

Lemma adminRoute_correct_witness :
  @adminRoute clear_jwt (fun t => t) "s" (Some (true, ∅)) 0 ("Bearer " ++ demo_token) = Next demo_claims.
Proof.
  apply (proj2 (@adminRoute_correct clear_jwt (fun t => t) "s" (Some (true, ∅)) 0
                  ("Bearer " ++ demo_token) demo_claims)).
  split; [|reflexivity].
  apply (proj1 (@adminRoute_correct clear_jwt (fun t => t) "s" (Some (true, ∅)) 0
                  ("Bearer " ++ demo_token) demo_claims)).
  exists demo_token. split; [reflexivity|]. split; [reflexivity|].
  split; [vm_compute; reflexivity|]. split; [discriminate|].
  split; [reflexivity|apply lookup_empty].
Defined.
End Middleware.
