(* ===== verification/Login.v ===== *)
(** * Account endpoints

    [internal/core/handler/auth.go]: login with account lockout, MFA
    verification with TOTP and backup codes, token refresh and logout, and the
    password reset and change flows, over the tables they use.  Requests are
    decoded bodies ([None] when the body does not decode); [time.Now()] is one
    instant per request; the [..Fails] arguments say which database calls
    fail. *)

From S2P Require Import Prelude Auth.
From Stdlib Require Import ZArith Lia Ascii String.
From stdpp Require Import base gmap strings list sorting pretty.
Import Token Middleware.

Local Open Scope Z_scope.

Definition minute : Z := 60 * second.

(** ** State *)

Record account := {
  ac_id : string;
  ac_username : string;
  ac_email : string;
  ac_password_hash : option string;
  ac_is_admin : bool;
  ac_is_active : bool;
  ac_must_change : bool;
  ac_mfa_enabled : bool;
  ac_failed : Z;
  ac_locked_until : option Z;
}.

Record backup_code := { bc_id : string; bc_user : string; bc_hash : string; bc_used : bool }.

Record reset_token := { rt_user : string; rt_hash : string; rt_expires : Z; rt_used : bool }.

Record auth_db := {
  accounts : list account;
  mfa_totp : gmap string string;           (* user_id -> secret *)
  backup_codes : list backup_code;
  reset_tokens : list reset_token;
  blacklist : gmap string Z;
}.

Definition set_accounts (d : auth_db) (l : list account) : auth_db := {|
  accounts := l; mfa_totp := mfa_totp d; backup_codes := backup_codes d;
  reset_tokens := reset_tokens d; blacklist := blacklist d |}.
Definition set_backup_codes (d : auth_db) (l : list backup_code) : auth_db := {|
  accounts := accounts d; mfa_totp := mfa_totp d; backup_codes := l;
  reset_tokens := reset_tokens d; blacklist := blacklist d |}.
Definition set_reset_tokens (d : auth_db) (l : list reset_token) : auth_db := {|
  accounts := accounts d; mfa_totp := mfa_totp d; backup_codes := backup_codes d;
  reset_tokens := l; blacklist := blacklist d |}.
Definition set_blacklist (d : auth_db) (b : gmap string Z) : auth_db := {|
  accounts := accounts d; mfa_totp := mfa_totp d; backup_codes := backup_codes d;
  reset_tokens := reset_tokens d; blacklist := b |}.

(** ** Responses *)

Record loginResponse := {
  lr_token : string;
  lr_expires_at : Z;       (* Unix seconds *)
  lr_mfa_required : bool;
  lr_mfa_token : string;
  lr_must_change : bool;
}.

Inductive body :=
| BError (message : string)
| BLocked (remaining : Z)          (* "account is locked, try again after ..." *)
| BPolicy (requirements : list string)
| BLogin (r : loginResponse)
| BOk (message : string).

Record response := { status : Z; payload : body }.

Definition respondError (s : Z) (m : string) : response := {| status := s; payload := BError m |}.

(** The external functions: bcrypt, TOTP, hashing of tokens. *)
Class AuthEnv : Type := {
  CheckPassword : string -> string -> bool;          (* hash, password *)
  HashPassword : string -> option string;
  totp_Validate : string -> string -> Z -> bool;     (* code, secret, instant *)
  HashToken : string -> string;
}.

Section handlers.
Context `{JwtLib} `{AuthEnv} `{PasswordPolicy.Unicode} (jwtSecret : string).

(** [UPDATE users SET .. WHERE id = ..]. *)
Definition updateAccount (id : string) (f : account -> account) (l : list account)
  : list account :=
  map (fun a => if decide (ac_id a = id) then f a else a) l.

Definition set_lockout (failed : Z) (locked : option Z) (a : account) : account := {|
  ac_id := ac_id a; ac_username := ac_username a; ac_email := ac_email a;
  ac_password_hash := ac_password_hash a; ac_is_admin := ac_is_admin a;
  ac_is_active := ac_is_active a; ac_must_change := ac_must_change a;
  ac_mfa_enabled := ac_mfa_enabled a; ac_failed := failed; ac_locked_until := locked |}.

Definition set_password (hash : string) (a : account) : account := {|
  ac_id := ac_id a; ac_username := ac_username a; ac_email := ac_email a;
  ac_password_hash := Some hash; ac_is_admin := ac_is_admin a;
  ac_is_active := ac_is_active a; ac_must_change := false;
  ac_mfa_enabled := ac_mfa_enabled a; ac_failed := ac_failed a;
  ac_locked_until := ac_locked_until a |}.

Definition findBy {A} (P : A -> bool) (l : list A) : option A :=
  snd <$> list_find (fun x => P x = true) l.

(** The user row and its password hash; a NULL hash fails to scan. *)
Definition loginRow (d : auth_db) (username : string) : option (account * string) :=
  a ← findBy (fun a => String.eqb (ac_username a) username) (accounts d);
  h ← ac_password_hash a;
  Some (a, h).

Definition session_claims (userID username email : string) (isAdmin : bool) : TokenClaims := {|
  UserID := userID; Username := username; Email := email; IsAdmin := isAdmin; Roles := [];
  TokenType := ""; ExpiresAt := None; IssuedAt := None |}.

Definition mfa_claims (now : Z) (userID username email : string) : TokenClaims := {|
  UserID := userID; Username := username; Email := email; IsAdmin := false; Roles := [];
  TokenType := "mfa"; ExpiresAt := Some (NewNumericDate (now + 10 * minute)); IssuedAt := None |}.

(** [expiresAt.Unix()]. *)
Definition unix (t : Z) : Z := t / second.

Definition sessionResponse (now : Z) (token : string) (mustChange : bool) : response :=
  {| status := 200; payload := BLogin {| lr_token := token;
       lr_expires_at := unix (now + 24 * hour); lr_mfa_required := false; lr_mfa_token := "";
       lr_must_change := mustChange |} |}.

(** *** Login *)
Record loginRequest := { lq_username : string; lq_password : string }.

Definition login (selectFails updateFails : bool) (now : Z) (d : auth_db)
    (req : option loginRequest) : response * auth_db :=
  match req with
  | None => (respondError 400 "invalid request body", d)
  | Some rq =>
    if String.eqb (lq_username rq) "" || String.eqb (lq_password rq) "" then
      (respondError 400 "username and password are required", d) else
    match (if selectFails then None else loginRow d (lq_username rq)) with
    | None => (respondError 401 "invalid credentials", d)
    | Some (a, hash) =>
      if negb (ac_is_active a) then (respondError 403 "account is disabled", d) else
      if (match ac_locked_until a with Some t => now <? t | None => false end) then
        ({| status := 403;
            payload := BLocked (let r := default 0 (ac_locked_until a) - now in
                                r - r mod second) |}, d) else
      if negb (CheckPassword hash (lq_password rq)) then
        let newAttempts := add64 (ac_failed a) 1 in
        let d' :=
          if updateFails then d else
          set_accounts d (updateAccount (ac_id a)
            (fun x => set_lockout newAttempts
               (if 5 <=? newAttempts then Some (now + 15 * minute) else ac_locked_until x) x)
            (accounts d)) in
        (respondError 401 "invalid credentials", d')
      else
        let d' :=
          if ((0 <? ac_failed a) || bool_decide (is_Some (ac_locked_until a))) && negb updateFails
          then set_accounts d (updateAccount (ac_id a) (set_lockout 0 None) (accounts d))
          else d in
        if ac_mfa_enabled a then
          match GenerateToken jwtSecret now (mfa_claims now (ac_id a) (ac_username a) (ac_email a)) with
          | Err _ => (respondError 500 "failed to generate mfa token", d')
          | Ok mfaToken =>
              ({| status := 200; payload := BLogin {| lr_token := ""; lr_expires_at := 0;
                    lr_mfa_required := true; lr_mfa_token := mfaToken; lr_must_change := false |} |}, d')
          end
        else
          match GenerateToken jwtSecret now
                  (session_claims (ac_id a) (ac_username a) (ac_email a) (ac_is_admin a)) with
          | Err _ => (respondError 500 "failed to generate token", d')
          | Ok token => (sessionResponse now token (ac_must_change a), d')
          end
    end
  end.

(** *** Backup codes *)

(** [UPDATE mfa_backup_codes SET used = true WHERE id = $1 AND used = false]:
    the table after it and the number of affected rows. *)
Definition consumeCode (id : string) (l : list backup_code) : list backup_code * nat :=
  (map (fun c => if decide (bc_id c = id /\ bc_used c = false)
                 then {| bc_id := bc_id c; bc_user := bc_user c; bc_hash := bc_hash c; bc_used := true |}
                 else c) l,
   length (filter (fun c => bc_id c = id /\ bc_used c = false) l)).

(** The loop over the selected rows (a snapshot), each update acting on the
    current table. *)
Fixpoint tryRows (updateFails : bool) (rows : list backup_code) (code : string)
    (l : list backup_code) : bool * list backup_code :=
  match rows with
  | [] => (false, l)
  | r :: rows' =>
      if CheckPassword (bc_hash r) code then
        if updateFails then tryRows updateFails rows' code l else
        let '(l', n) := consumeCode (bc_id r) l in
        if (n =? 0)%nat then tryRows updateFails rows' code l' else (true, l')
      else tryRows updateFails rows' code l
  end.

Definition unusedOf (userID : string) (l : list backup_code) : list backup_code :=
  filter (fun c => bc_user c = userID /\ bc_used c = false) l.

Definition tryBackupCode (selectFails updateFails : bool) (d : auth_db) (userID code : string)
  : bool * auth_db :=
  if selectFails then (false, d) else
  let '(ok, l) := tryRows updateFails (unusedOf userID (backup_codes d)) code (backup_codes d) in
  (ok, set_backup_codes d l).

(** *** MFA verification *)
Record mfaVerifyRequest := { mq_token : string; mq_code : string; mq_method : string }.

Record mfa_faults := {
  totpSelectFails : bool; codesSelectFails : bool; codesUpdateFails : bool; userSelectFails : bool }.

Definition verifyMFA (f : mfa_faults) (now : Z) (d : auth_db) (req : option mfaVerifyRequest)
  : response * auth_db :=
  match req with
  | None => (respondError 400 "invalid request body", d)
  | Some rq =>
    if String.eqb (mq_token rq) "" || String.eqb (mq_code rq) "" then
      (respondError 400 "mfa_token and code are required", d) else
    match ValidateToken jwtSecret now (mq_token rq) with
    | Err _ => (respondError 401 "invalid or expired mfa token", d)
    | Ok claims =>
      if negb (String.eqb (TokenType claims) "mfa") then
        (respondError 401 "invalid mfa token type", d) else
      match (if totpSelectFails f then None else mfa_totp d !! UserID claims) with
      | None => (respondError 500 "mfa not configured", d)
      | Some totpSecret =>
        let valid := totp_Validate (mq_code rq) totpSecret now in
        let '(valid, d') :=
          if negb valid && (String.eqb (mq_method rq) "backup" || (String.length (mq_code rq) =? 8)%nat)
          then tryBackupCode (codesSelectFails f) (codesUpdateFails f) d (UserID claims) (mq_code rq)
          else (valid, d) in
        if negb valid then (respondError 401 "invalid mfa code", d') else
        match (if userSelectFails f then None
               else findBy (fun a => String.eqb (ac_id a) (UserID claims)) (accounts d')) with
        | None => (respondError 500 "failed to read user info", d')
        | Some a =>
          match GenerateToken jwtSecret now
                  (session_claims (UserID claims) (Username claims) (Email claims) (ac_is_admin a)) with
          | Err _ => (respondError 500 "failed to generate token", d')
          | Ok token => (sessionResponse now token (ac_must_change a), d')
          end
        end
      end
    end
  end.

(** *** Refresh and logout.  [bl] says whether a blacklist is configured. *)
Definition refreshToken (bl blFails addFails userSelectFails : bool) (now : Z) (d : auth_db)
    (header : string) : response * auth_db :=
  match cut_prefix header "Bearer " with
  | None | Some EmptyString => (respondError 401 "missing authorization header", d)
  | Some tokenStr =>
    match ValidateToken jwtSecret now tokenStr with
    | Err _ => (respondError 401 "invalid or expired token", d)
    | Ok claims =>
      match (if bl then IsBlacklisted HashToken (negb blFails) (blacklist d) tokenStr else Ok false) with
      | Err _ => (respondError 500 "failed to check token status", d)
      | Ok true => (respondError 401 "token has been revoked", d)
      | Ok false =>
        if String.eqb (TokenType claims) "mfa" then
          (respondError 401 "mfa verification required", d) else
        match (if userSelectFails then None
               else findBy (fun a => String.eqb (ac_id a) (UserID claims)) (accounts d)) with
        | None => (respondError 500 "failed to verify account status", d)
        | Some a =>
          if negb (ac_is_active a) then (respondError 403 "account is disabled", d) else
          match GenerateToken jwtSecret now
                  (session_claims (UserID claims) (Username claims) (Email claims) (ac_is_admin a)) with
          | Err _ => (respondError 500 "failed to generate token", d)
          | Ok newToken =>
              let d' :=
                match bl, ExpiresAt claims with
                | true, Some e =>
                    match Add HashToken (negb addFails) (blacklist d) tokenStr e with
                    | Ok b => set_blacklist d b
                    | Err _ => d
                    end
                | _, _ => d
                end in
              (sessionResponse now newToken false, d')
          end
        end
      end
    end
  end.

Definition logout (bl addFails : bool) (now : Z) (d : auth_db) (header : string)
  : response * auth_db :=
  let ok := {| status := 200; payload := BOk "ok" |} in
  match cut_prefix header "Bearer " with
  | None | Some EmptyString => (ok, d)
  | Some tokenStr =>
    match ValidateToken jwtSecret now tokenStr with
    | Err _ => (ok, d)
    | Ok claims =>
      match bl, ExpiresAt claims with
      | true, Some e =>
          match Add HashToken (negb addFails) (blacklist d) tokenStr e with
          | Err _ => (respondError 500 "failed to invalidate token", d)
          | Ok b => (ok, set_blacklist d b)
          end
      | _, _ => (ok, d)
      end
    end
  end.

(** *** Passwords *)

(** [forgotPassword]: [plainToken] is the random token drawn ([None] when the
    generator fails).  The answer does not depend on the account; the third
    component is the mail sent, to the address and with the token. *)
Definition forgotPassword (selectFails insertFails mailer : bool) (plainToken : option string)
    (now : Z) (d : auth_db) (req : option string) : response * auth_db * option (string * string) :=
  match req with
  | None => (respondError 400 "invalid request body", d, None)
  | Some email =>
    if String.eqb email "" then (respondError 400 "email is required", d, None) else
    let ok := {| status := 200; payload := BOk "if the email exists, a reset link has been sent" |} in
    match (if selectFails then None
           else findBy (fun a => String.eqb (ac_email a) email && ac_is_active a) (accounts d)) with
    | None => (ok, d, None)
    | Some a =>
      match plainToken with
      | None => (ok, d, None)
      | Some tok =>
        if insertFails then (ok, d, None) else
        let row := {| rt_user := ac_id a; rt_hash := HashToken tok;
                      rt_expires := now + hour; rt_used := false |} in
        (ok, set_reset_tokens d (reset_tokens d ++ [row]),
         if mailer then Some (email, tok) else None)
      end
    end
  end.

Definition redeemable (now : Z) (hash : string) (r : reset_token) : Prop :=
  rt_hash r = hash /\ rt_used r = false /\ now < rt_expires r.

#[export] Instance redeemable_dec now hash r : Decision (redeemable now hash r).
Proof. unfold redeemable. apply _. Defined.

(** [UPDATE password_reset_tokens SET used = true WHERE .. RETURNING user_id]. *)
Definition redeem (now : Z) (hash : string) (l : list reset_token)
  : list reset_token * option string :=
  (map (fun r => if decide (redeemable now hash r)
                 then {| rt_user := rt_user r; rt_hash := rt_hash r; rt_expires := rt_expires r;
                         rt_used := true |} else r) l,
   rt_user <$> head (filter (redeemable now hash) l)).

Record resetPasswordRequest := { rq_token : string; rq_new : string }.

Definition resetPassword (updateTokFails updateUserFails : bool) (now : Z) (d : auth_db)
    (req : option resetPasswordRequest) : response * auth_db :=
  match req with
  | None => (respondError 400 "invalid request body", d)
  | Some rq =>
    if String.eqb (rq_token rq) "" || String.eqb (rq_new rq) "" then
      (respondError 400 "token and new_password are required", d) else
    match PasswordPolicy.ValidatePasswordPolicy (rq_new rq) with
    | Some ms => ({| status := 400; payload := BPolicy ms |}, d)
    | None =>
      if updateTokFails then (respondError 500 "failed to validate token", d) else
      let '(l, owner) := redeem now (HashToken (rq_token rq)) (reset_tokens d) in
      let d1 := set_reset_tokens d l in
      match owner with
      | None => (respondError 400 "invalid or expired reset token", d1)
      | Some userID =>
        match HashPassword (rq_new rq) with
        | None => (respondError 500 "failed to hash password", d1)
        | Some hash =>
          if updateUserFails then (respondError 500 "failed to update password", d1) else
          ({| status := 200; payload := BOk "password has been reset" |},
           set_accounts d1 (updateAccount userID (set_password hash) (accounts d1)))
        end
      end
    end
  end.

Record changePasswordRequest := { cq_current : string; cq_new : string }.

(** [changePassword] behind the middleware: [ctx] is what the context holds. *)
Definition changePassword (selectFails updateFails : bool) (d : auth_db)
    (ctx : option TokenClaims) (req : option changePasswordRequest) : response * auth_db :=
  match ctx with
  | None => (respondError 401 "authentication required", d)
  | Some claims =>
    match req with
    | None => (respondError 400 "invalid request body", d)
    | Some rq =>
      if String.eqb (cq_current rq) "" || String.eqb (cq_new rq) "" then
        (respondError 400 "current_password and new_password are required", d) else
      match PasswordPolicy.ValidatePasswordPolicy (cq_new rq) with
      | Some ms => ({| status := 400; payload := BPolicy ms |}, d)
      | None =>
        match (if selectFails then None
               else a ← findBy (fun a => String.eqb (ac_id a) (UserID claims)) (accounts d);
                    ac_password_hash a) with
        | None => (respondError 500 "failed to read user", d)
        | Some hash =>
          if negb (CheckPassword hash (cq_current rq)) then
            (respondError 401 "current password is incorrect", d) else
          match HashPassword (cq_new rq) with
          | None => (respondError 500 "failed to hash password", d)
          | Some newHash =>
            if updateFails then (respondError 500 "failed to update password", d) else
            ({| status := 200; payload := BOk "password changed successfully" |},
             set_accounts d (updateAccount (UserID claims) (set_password newHash) (accounts d)))
          end
        end
      end
    end
  end.

(** ** Login: what a successful answer means *)

(** The account may log in at [now] with this password. *)
Definition may_login (now : Z) (d : auth_db) (username password : string) (a : account) : Prop :=
  exists hash, loginRow d username = Some (a, hash) /\ ac_is_active a = true /\
    (forall t, ac_locked_until a = Some t -> t <= now) /\ CheckPassword hash password = true.

Lemma login_success sf uf now d rq r d' :
  login sf uf now d (Some rq) = ({| status := 200; payload := BLogin r |}, d') ->
  exists a, may_login now d (lq_username rq) (lq_password rq) a /\
    lr_mfa_required r = ac_mfa_enabled a /\
    if ac_mfa_enabled a then
      lr_token r = ""%string /\
      GenerateToken jwtSecret now (mfa_claims now (ac_id a) (ac_username a) (ac_email a)) =
        Ok (lr_mfa_token r)
    else
      lr_mfa_token r = ""%string /\
      GenerateToken jwtSecret now
        (session_claims (ac_id a) (ac_username a) (ac_email a) (ac_is_admin a)) = Ok (lr_token r).
Proof.
  unfold login, may_login, sessionResponse. case_match eqn:E0; [done|]. destruct sf; [done|].
  destruct (loginRow d (lq_username rq)) as [[a hash]|]; [|done].
  destruct (ac_is_active a) eqn:Ea; [|done]. simpl.
  destruct (match ac_locked_until a with Some t => now <? t | None => false end) eqn:El; [done|].
  destruct (CheckPassword hash (lq_password rq)) eqn:Ec; simpl; [|done].
  intros Hr. exists a.
  assert (forall t, ac_locked_until a = Some t -> t <= now) as Hlock.
  { intros t Ht. rewrite Ht in El. boolify. lia. }
  split; [by exists hash|].
  destruct (ac_mfa_enabled a);
    (destruct (GenerateToken jwtSecret now _) as [t|] eqn:Eg; simplify_eq/=; auto).
Qed.

(** C4. Login is sound.  A 200 answer with tokens is only given for an
    existing, active, unlocked account whose stored hash accepts the password.
    Without MFA the session token is valid when it is handed out, and whenever
    it validates it stands for that account: its id, its admin flag, no MFA
    type.  With MFA no session token is handed out, and the MFA token is refused
    by the middleware at every instant and under every blacklist. *)
Theorem login_sound sf uf now d rq r d'
    (H200 : login sf uf now d (Some rq) = ({| status := 200; payload := BLogin r |}, d')) :
  exists a, may_login now d (lq_username rq) (lq_password rq) a /\
  if ac_mfa_enabled a then
    lr_token r = ""%string /\
    forall bl later c, JWTMiddleware HashToken jwtSecret bl later ("Bearer " ++ lr_mfa_token r) <> Next c
  else
    (exists c, ValidateToken jwtSecret now (lr_token r) = Ok c) /\
    forall later c, ValidateToken jwtSecret later (lr_token r) = Ok c ->
      UserID c = ac_id a /\ IsAdmin c = ac_is_admin a /\ TokenType c = ""%string.
Proof.
  apply login_success in H200 as (a & Hm & _ & Ht). exists a. split; [done|].
  destruct (ac_mfa_enabled a); destruct Ht as [Ht Hg].
  - split; [done|]. intros bl later c (t & Et & Hv & Hty & _)%JWTMiddleware_Next.
    apply string_app_inj_l in Et as <-.
    pose proof (GenerateToken_payload _ _ _ _ _ _ _ Hg Hv) as ->. done.
  - split.
    + eexists. eapply GenerateToken_valid; [done|simpl; reflexivity|].
      pose proof (NewNumericDate_bound (now + 24 * hour)). unfold hour, minute, second in *. lia.
    + intros later c Hv. by rewrite (GenerateToken_payload _ _ _ _ _ _ _ Hg Hv).
Qed.

(** ** Lockout *)

Lemma findBy_map {A} (P : A -> bool) (f : A -> A) l :
  (forall x, P (f x) = P x) -> findBy P (map f l) = f <$> findBy P l.
Proof.
  intros Hf. unfold findBy. induction l as [|x l IH]; simpl; [done|]. rewrite Hf.
  case_decide; simpl; [done|].
  destruct (list_find _ (map f l)) as [[]|], (list_find _ l) as [[]|]; simpl in *; congruence.
Qed.

(** Updating lockout columns keeps the row of every username. *)
Lemma loginRow_lockout d id g username a hash :
  (forall x, exists n l, g x = set_lockout n l x) ->
  loginRow d username = Some (a, hash) -> ac_id a = id ->
  loginRow (set_accounts d (updateAccount id g (accounts d))) username = Some (g a, hash).
Proof.
  intros Hg Hrow Hid. unfold loginRow, updateAccount in *. simpl.
  rewrite findBy_map.
  - destruct (findBy _ (accounts d)) as [x|]; simpl in *; [|done].
    destruct (ac_password_hash x) as [h|] eqn:Eh; simpl in *; [|done]. simplify_eq.
    rewrite decide_True by done. destruct (Hg a) as (n & l & ->). simpl. by rewrite Eh.
  - intros x. case_decide; [|done]. by destruct (Hg x) as (n & l & ->).
Qed.

Definition locked_at (now : Z) (a : account) : bool :=
  match ac_locked_until a with Some t => now <? t | None => false end.

Lemma login_locked now d rq a hash :
  lq_username rq <> ""%string -> lq_password rq <> ""%string ->
  loginRow d (lq_username rq) = Some (a, hash) -> ac_is_active a = true -> locked_at now a = true ->
  exists r, login false false now d (Some rq) = (r, d) /\ status r = 403.
Proof.
  intros Hu Hp Hrow Ha Hl. unfold login. unfold locked_at in Hl.
  rewrite (proj2 (String.eqb_neq _ _) Hu), (proj2 (String.eqb_neq _ _) Hp). simpl.
  rewrite Hrow, Ha. simpl. rewrite Hl. eauto.
Qed.

Lemma login_wrong now d rq a hash :
  lq_username rq <> ""%string -> lq_password rq <> ""%string ->
  loginRow d (lq_username rq) = Some (a, hash) -> ac_is_active a = true -> locked_at now a = false ->
  CheckPassword hash (lq_password rq) = false ->
  let n := add64 (ac_failed a) 1 in
  exists d', login false false now d (Some rq) = (respondError 401 "invalid credentials", d') /\
    loginRow d' (lq_username rq) =
      Some (set_lockout n (if 5 <=? n then Some (now + 15 * minute) else ac_locked_until a) a, hash).
Proof.
  intros Hu Hp Hrow Ha Hl Hc n. unfold login. unfold locked_at in Hl.
  rewrite (proj2 (String.eqb_neq _ _) Hu), (proj2 (String.eqb_neq _ _) Hp). simpl.
  rewrite Hrow, Ha. simpl. rewrite Hl, Hc. simpl. eexists. split; [reflexivity|].
  etrans; [apply (loginRow_lockout d (ac_id a) _ (lq_username rq) a hash); [|done|done]|done].
  intros x. do 2 eexists. reflexivity.
Qed.

(** One login attempt: when, with which password, and which of the two
    statements of the handler the database fails (the error of the [UPDATE] is
    dropped). *)
Record attempt := {
  at_time : Z;
  at_password : string;
  at_selectFails : bool;
  at_updateFails : bool;
}.

(** A history of login attempts against one username, each served to its end
    before the next is; the number of answers that a guess can learn from
    (status 401). *)
Fixpoint guesses (username : string) (d : auth_db) (l : list attempt) : nat :=
  match l with
  | [] => 0
  | x :: l' =>
      let '(r, d') := login (at_selectFails x) (at_updateFails x) (at_time x) d
        (Some {| lq_username := username; lq_password := at_password x |}) in
      ((if (status r =? 401)%Z then 1 else 0) + guesses username d' l')%nat
  end.

(** The attempts during which a statement failed. *)
Fixpoint failures (l : list attempt) : nat :=
  match l with
  | [] => 0
  | x :: l' => ((if at_selectFails x || at_updateFails x then 1 else 0) + failures l')%nat
  end.

Lemma login_fault x d rq a hash :
  lq_username rq <> ""%string -> at_password x <> ""%string -> lq_password rq = at_password x ->
  loginRow d (lq_username rq) = Some (a, hash) -> ac_is_active a = true ->
  CheckPassword hash (at_password x) = false -> at_selectFails x || at_updateFails x = true ->
  exists r, login (at_selectFails x) (at_updateFails x) (at_time x) d (Some rq) = (r, d).
Proof.
  intros Hu Hp Ep Hrow Ha Hc Hx. unfold login. rewrite Ep.
  rewrite (proj2 (String.eqb_neq _ _) Hu), (proj2 (String.eqb_neq _ _) Hp). cbn [orb].
  destruct (at_selectFails x); [eauto|]. rewrite Hrow, Ha. cbn [negb].
  destruct (match ac_locked_until a with Some t => _ | None => false end); [eauto|].
  rewrite Hc. cbn [negb]. cbn in Hx. rewrite Hx. eauto.
Qed.

Lemma guesses_locked username d a hash l :
  username <> ""%string -> Forall (fun x => at_password x <> ""%string) l ->
  loginRow d username = Some (a, hash) -> ac_is_active a = true ->
  Forall (fun x => locked_at (at_time x) a = true /\ CheckPassword hash (at_password x) = false) l ->
  (guesses username d l <= failures l)%nat.
Proof.
  intros Hu Hne Hrow Ha Hl. induction l as [|x l IH]; [done|].
  apply Forall_cons in Hne as [Hp Hne], Hl as [[Ht Hc] Hl]. cbn [guesses failures].
  specialize (IH Hne Hl).
  destruct (at_selectFails x || at_updateFails x) eqn:Ex.
  - destruct (login_fault x d {| lq_username := username; lq_password := at_password x |} a hash)
      as [r ->]; [done..|]. destruct (status r =? 401); lia.
  - apply orb_false_iff in Ex as [-> ->].
    destruct (login_locked (at_time x) d {| lq_username := username; lq_password := at_password x |} a hash)
      as (r & -> & ->); [done..|]. simpl. lia.
Qed.

Lemma guesses_bound username T d a hash l :
  username <> ""%string -> Forall (fun x => at_password x <> ""%string) l ->
  loginRow d username = Some (a, hash) -> ac_is_active a = true ->
  0 <= ac_failed a <= 2^31 ->
  Forall (fun x => T <= at_time x < T + 15 * minute /\ CheckPassword hash (at_password x) = false) l ->
  Z.of_nat (guesses username d l) <= Z.max 1 (5 - ac_failed a) + Z.of_nat (failures l).
Proof.
  intros Hu Hne. revert d a. induction l as [|x l IH]; intros d a Hrow Ha Hf Hw; cbn [guesses failures]; [lia|].
  apply Forall_cons in Hne as [Hp Hne], Hw as [[Ht Hc] Hw].
  set (rq := {| lq_username := username; lq_password := at_password x |}).
  destruct (at_selectFails x || at_updateFails x) eqn:Ex.
  { destruct (login_fault x d rq a hash) as [r ->]; [done..|].
    specialize (IH Hne d a Hrow Ha Hf Hw). destruct (status r =? 401); lia. }
  apply orb_false_iff in Ex as [-> ->].
  destruct (locked_at (at_time x) a) eqn:El.
  { destruct (login_locked (at_time x) d rq a hash) as (r & -> & ->); [done..|]. simpl.
    specialize (IH Hne d a Hrow Ha Hf Hw). lia. }
  destruct (login_wrong (at_time x) d rq a hash) as (d' & -> & Hrow'); [done..|]. simpl.
  rewrite (add64_small (ac_failed a) 1) in Hrow'
    by (unfold in_int64, min_int64, max_int64; lia).
  destruct (Z.leb_spec 5 (ac_failed a + 1)) as [H5|H5].
  - assert (guesses username d' l <= failures l)%nat; [|lia].
    apply (guesses_locked username d' _ hash l Hu Hne Hrow' Ha).
    eapply Forall_impl; [exact Hw|]. intros y [Hy ?]. split; [|done]. unfold locked_at. simpl.
    apply Z.ltb_lt. lia.
  - assert (Z.of_nat (guesses username d' l) <= Z.max 1 (5 - (ac_failed a + 1)) + Z.of_nat (failures l)).
    { apply (IH Hne d' _ Hrow'); simpl; [done|lia|done]. }
    lia.
Qed.

(** C5. Account lockout limits guessing one attempt at a time.  Wrong
    passwords are tried against an active account within a window of 15
    minutes, each attempt served to its end before the next one starts and no
    correct login among them.  Then at most five of them are answered as wrong
    (one, once five failures are on record) plus one for every attempt during
    which a statement of the handler failed; all others are refused unseen.
    Nothing is claimed of attempts served at the same time, which read the same
    counter. *)
Theorem lockout_bounds_guessing username T d a hash attempts
    (Hu : username <> ""%string) (Hne : Forall (fun x => at_password x <> ""%string) attempts)
    (Hrow : loginRow d username = Some (a, hash)) (Ha : ac_is_active a = true)
    (Hf : 0 <= ac_failed a <= 2^31)
    (Hw : Forall (fun x => T <= at_time x < T + 15 * minute /\
                           CheckPassword hash (at_password x) = false) attempts) :
  (guesses username d attempts <= 5 + failures attempts)%nat /\
  (5 <= ac_failed a -> (guesses username d attempts <= 1 + failures attempts)%nat).
Proof. pose proof (guesses_bound username T d a hash attempts Hu Hne Hrow Ha Hf Hw). lia. Qed.

(** ** Backup codes *)

Lemma consumeCode_unused id l : NoDup (map bc_id l) ->
  let '(l', n) := consumeCode id l in
  NoDup (map bc_id l') /\
  (n <> 0%nat <-> exists c, c ∈ l /\ bc_id c = id /\ bc_used c = false) /\
  (forall c, c ∈ l' -> bc_id c = id -> bc_used c = true).
Proof.
  intros Hnd. unfold consumeCode. split_and!.
  - rewrite map_map. rewrite (map_ext _ bc_id); [done|]. intros c. by case_decide.
  - rewrite length_zero_iff_nil. split.
    + intros Hne. destruct (filter _ l) as [|c rest] eqn:E; [done|].
      assert (c ∈ filter (fun c => bc_id c = id /\ bc_used c = false) l) as Hc
        by (rewrite E; by left).
      apply list_elem_of_filter in Hc as [[? ?] ?]. eauto.
    + intros (c & Hc & Hid & Hu) E.
      assert (c ∈ filter (fun c => bc_id c = id /\ bc_used c = false) l) as Hf
        by (apply list_elem_of_filter; auto).
      rewrite E in Hf. by apply elem_of_nil in Hf.
  - intros c (x & -> & Hx)%list_elem_of_fmap. case_decide as Hd; simpl; [done|].
    intros Hid. destruct (bc_used x) eqn:E; [done|]. tauto.
Qed.

(** Updates issued by any number of concurrent requests, in the order in which
    the database executes them: how many report a consumed row for [id]. *)
Fixpoint successes (id : string) (steps : list string) (l : list backup_code) : nat :=
  match steps with
  | [] => 0
  | s :: steps' =>
      let '(l', n) := consumeCode s l in
      ((if decide (s = id /\ n <> 0%nat) then 1 else 0) + successes id steps' l')%nat
  end.

Lemma consumeCode_used id s l :
  (forall c, c ∈ l -> bc_id c = id -> bc_used c = true) ->
  forall c, c ∈ (consumeCode s l).1 -> bc_id c = id -> bc_used c = true.
Proof.
  intros Hu c (x & -> & Hx)%list_elem_of_fmap. case_decide; simpl; auto.
Qed.

Lemma successes_used id steps l : NoDup (map bc_id l) ->
  (forall c, c ∈ l -> bc_id c = id -> bc_used c = true) -> successes id steps l = 0%nat.
Proof.
  revert l. induction steps as [|s steps IH]; intros l Hnd Hu; cbn [successes]; [done|].
  pose proof (consumeCode_unused s l Hnd) as Hc. pose proof (consumeCode_used id s l Hu) as Hu'.
  destruct (consumeCode s l) as [l' n]. destruct Hc as (Hnd' & Hn & _).
  rewrite decide_False; [simpl; by apply IH|]. intros [-> (c & Hin & Hid & Hf)%Hn].
  specialize (Hu c Hin Hid). congruence.
Qed.

Lemma consumeCode_other s l c : c ∈ l -> bc_id c <> s -> c ∈ (consumeCode s l).1.
Proof.
  intros Hc Hne. apply list_elem_of_fmap. exists c. rewrite decide_False; [done|].
  intros [? _]. congruence.
Qed.

(** C7. a backup code is single use under concurrency.  However the guarded
    updates of concurrent verifications interleave, at most one of them
    consumes a given code, and exactly one does when the code is unused and
    some verification tries it. *)
Theorem backup_code_single_use id steps l (Hnd : NoDup (map bc_id l)) :
  (successes id steps l <= 1)%nat /\
  ((exists c, c ∈ l /\ bc_id c = id /\ bc_used c = false) -> id ∈ steps ->
   successes id steps l = 1%nat).
Proof.
  revert l Hnd. induction steps as [|s steps IH]; intros l Hnd; cbn [successes].
  { split; [lia|]. by intros _ ?%elem_of_nil. }
  pose proof (consumeCode_unused s l Hnd) as Hc. pose proof (consumeCode_other s l) as Ho.
  destruct (consumeCode s l) as [l' n]. simpl in Ho.
  destruct Hc as (Hnd' & Hn & Hu). specialize (IH _ Hnd').
  case_decide as Hd.
  - destruct Hd as [-> _]. rewrite successes_used by done. split; [lia|done].
  - split; [apply IH|]. intros (c & Hin & Hid & Hf) Hs.
    destruct (decide (s = id)) as [->|Hne]; [exfalso; apply Hd; split; [done|]; apply Hn; eauto|].
    apply IH; [|by apply elem_of_cons in Hs as [->|Hs]].
    exists c. split_and!; [apply Ho; congruence|done..].
Qed.

Lemma tryRows_fails rows code l : tryRows true rows code l = (false, l).
Proof. induction rows as [|r rows IH]; simpl; [done|]. by destruct (CheckPassword _ _). Qed.

Lemma tryRows_true rows code l l' :
  tryRows false rows code l = (true, l') ->
  exists r, r ∈ rows /\ CheckPassword (bc_hash r) code = true /\
    exists l0, l' = (consumeCode (bc_id r) l0).1 /\ (consumeCode (bc_id r) l0).2 <> 0%nat.
Proof.
  revert l. induction rows as [|r rows IH]; intros l; cbn [tryRows]; [done|].
  destruct (CheckPassword (bc_hash r) code) eqn:Ec.
  - destruct (consumeCode (bc_id r) l) as [l1 n] eqn:Econs. destruct (Nat.eqb_spec n 0).
    + intros (r' & Hr' & ?)%IH. exists r'. split; [by right|done].
    + intros [= <-]. exists r. split_and!; [by left|done|]. exists l. by rewrite Econs.
  - intros (r' & Hr' & ?)%IH. exists r'. split; [by right|done].
Qed.

(** C6. MFA verification is sound.  A 200 answer requires a valid MFA-pending
    token of this server and either a TOTP code accepted for the user's secret
    or an unused backup code of that user whose hash accepts the code and
    which is marked used by this very request; the session token returned
    carries the identity of the pending token and the account's current admin
    flag. *)
Theorem verifyMFA_sound f now d rq r d'
    (H200 : verifyMFA f now d (Some rq) = ({| status := 200; payload := BLogin r |}, d')) :
  exists claims secret a,
    ValidateToken jwtSecret now (mq_token rq) = Ok claims /\ TokenType claims = "mfa"%string /\
    mfa_totp d !! UserID claims = Some secret /\
    a ∈ accounts d /\ ac_id a = UserID claims /\
    (totp_Validate (mq_code rq) secret now = true \/
     exists c, c ∈ backup_codes d /\ bc_user c = UserID claims /\ bc_used c = false /\
       CheckPassword (bc_hash c) (mq_code rq) = true /\
       forall c', c' ∈ backup_codes d' -> bc_id c' = bc_id c -> bc_used c' = true) /\
    forall later, later <= now + 24 * hour - second ->
      exists c, ValidateToken jwtSecret later (lr_token r) = Ok c /\
        UserID c = UserID claims /\ IsAdmin c = ac_is_admin a /\ TokenType c = ""%string.
Proof.
  revert H200. unfold verifyMFA. case_match; [done|].
  destruct (ValidateToken jwtSecret now (mq_token rq)) as [claims|] eqn:Ev; [|done].
  destruct (String.eqb_spec (TokenType claims) "mfa") as [Hty|]; [simpl|done].
  destruct (totpSelectFails f); [done|].
  destruct (mfa_totp d !! UserID claims) as [secret|] eqn:Es; [|done].
  destruct (if negb (totp_Validate (mq_code rq) secret now) && _ then _ else _) as [valid d1] eqn:Eb.
  destruct valid; simpl; [|done].
  assert (accounts d1 = accounts d /\
    (totp_Validate (mq_code rq) secret now = true \/
     exists c, c ∈ backup_codes d /\ bc_user c = UserID claims /\ bc_used c = false /\
       CheckPassword (bc_hash c) (mq_code rq) = true /\
       forall c', c' ∈ backup_codes d1 -> bc_id c' = bc_id c -> bc_used c' = true)) as [Hacc Hproof].
  { destruct (totp_Validate (mq_code rq) secret now) eqn:Et; simpl in Eb; [by simplify_eq; auto|].
    destruct (String.eqb (mq_method rq) "backup" || _); [|done].
    unfold tryBackupCode in Eb. destruct (codesSelectFails f); [done|].
    destruct (codesUpdateFails f); [by rewrite tryRows_fails in Eb|].
    destruct (tryRows false _ _ _) as [ok l] eqn:Er. injection Eb as -> <-. split; [done|].
    apply tryRows_true in Er as (c & [[? ?] ?]%list_elem_of_filter & Hc & l0 & -> & _).
    right. exists c. split_and!; try done. intros c' Hc' Hid. simpl in Hc'.
    apply list_elem_of_fmap in Hc' as (x & -> & Hx). case_decide as Hd; simpl in *; [done|].
    destruct (bc_used x) eqn:E; [done|]. destruct Hd. auto. }
  rewrite Hacc. destruct (userSelectFails f); [done|]. unfold findBy.
  destruct (list_find _ (accounts d)) as [[i a]|] eqn:Ef; simpl; [|done].
  apply list_find_Some in Ef as (Hi & Hid & _). boolify.
  destruct (GenerateToken jwtSecret now _) as [t|] eqn:Eg; [|done].
  intros [= <- <-]. exists claims, secret, a. split_and!; try done.
  { by eapply list_elem_of_lookup_2. }
  intros later Hl. simpl. eexists. split; [eapply GenerateToken_valid; [done|simpl; reflexivity|]|done].
  pose proof (NewNumericDate_bound (now + 24 * hour)). lia.
Qed.

(** ** Histories of requests

    Every endpoint as an event, with its faults, plus the periodic cleanup of
    the blacklist.  A blacklist is configured. *)
Inductive event :=
| EvLogin (sf uf : bool) (rq : option loginRequest)
| EvVerify (f : mfa_faults) (rq : option mfaVerifyRequest)
| EvRefresh (blFails addFails uf : bool) (header : string)
| EvLogout (addFails : bool) (header : string)
| EvForgot (sf insf mailer : bool) (tok : option string) (rq : option string)
| EvReset (tf uf : bool) (rq : option resetPasswordRequest)
| EvChange (sf uf : bool) (ctx : option TokenClaims) (rq : option changePasswordRequest)
| EvCleanup.

Definition apply_event (d : auth_db) (te : Z * event) : auth_db :=
  let '(now, ev) := te in
  match ev with
  | EvLogin sf uf rq => (login sf uf now d rq).2
  | EvVerify f rq => (verifyMFA f now d rq).2
  | EvRefresh bf af uf h => (refreshToken true bf af uf now d h).2
  | EvLogout af h => (logout true af now d h).2
  | EvForgot sf insf m tok rq => (forgotPassword sf insf m tok now d rq).1.2
  | EvReset tf uf rq => (resetPassword tf uf now d rq).2
  | EvChange sf uf ctx rq => (changePassword sf uf d ctx rq).2
  | EvCleanup => set_blacklist d (Cleanup now (blacklist d))
  end.

Definition run (d : auth_db) (evs : list (Z * event)) : auth_db := fold_left apply_event evs d.

(** The blacklist grows by insertions that keep existing entries, and shrinks
    only by the cleanup. *)
Lemma apply_event_blacklist d now ev h x :
  blacklist d !! h = Some x ->
  blacklist (apply_event d (now, ev)) !! h = Some x \/ (ev = EvCleanup /\ x < now).
Proof.
  intros Hx. destruct ev; simpl.
  - left. unfold login. repeat case_match; done.
  - left. unfold verifyMFA, tryBackupCode. repeat (case_match; simplify_eq/=); done.
  - left. unfold refreshToken, Add. repeat (case_match; simplify_eq/=); try done.
    all: by rewrite lookup_insert_ne by congruence.
  - left. unfold logout, Add. repeat (case_match; simplify_eq/=); try done.
    all: by rewrite lookup_insert_ne by congruence.
  - left. unfold forgotPassword. repeat case_match; done.
  - left. unfold resetPassword. repeat (case_match; simplify_eq/=); done.
  - left. unfold changePassword. repeat case_match; done.
  - unfold Cleanup. destruct (decide (now <= x)); [left|right; split; [done|lia]].
    by apply map_lookup_filter_Some.
Qed.

(** A token is dead at [now]: on the blacklist for at least its lifetime, or
    past its expiry. *)
Definition dead (d : auth_db) (t : string) (e now : Z) : Prop :=
  (exists x, blacklist d !! HashToken t = Some x /\ e <= x) \/ e <= now.

Lemma dead_run d t e now evs : dead d t e now ->
  Forall (fun te => now <= te.1) evs -> forall last, now <= last ->
  Forall (fun te => te.1 <= last) evs -> dead (run d evs) t e last.
Proof.
  intros Hd Hge last Hlast Hle. unfold run.
  induction evs as [|[t0 ev] evs IH] using rev_ind; simpl.
  { destruct Hd as [Hd|Hd]; [by left|right; lia]. }
  apply Forall_app in Hge as [Hge Hge0], Hle as [Hle Hle0].
  rewrite Forall_singleton in Hge0, Hle0. simpl in Hge0, Hle0.
  rewrite fold_left_app. cbn [fold_left]. destruct (IH Hge Hle) as [(x & Hx & Hex)|]; [|by right].
  destruct (apply_event_blacklist _ t0 ev _ _ Hx) as [H'|[_ Hlt]]; [left; eauto|right; lia].
Qed.

Lemma dead_rejected d t e now claims k now0 :
  dead d t e now -> ValidateToken k now0 t = Ok claims -> ExpiresAt claims = Some e ->
  (forall c, JWTMiddleware HashToken jwtSecret (Some (true, blacklist d)) now ("Bearer " ++ t) <> Next c) /\
  (forall bf af uf r d', refreshToken true bf af uf now d ("Bearer " ++ t) <>
     ({| status := 200; payload := BLogin r |}, d')).
Proof.
  intros Hd Hv0 He.
  assert (forall c, ValidateToken jwtSecret now t = Ok c -> e <= now -> False) as Hexp.
  { intros c Hv Hl. apply ValidateToken_Ok in Hv0 as [_ Hv0]. pose proof Hv as [_ Hv1]%ValidateToken_Ok.
    pose proof (jwt_verify_payload _ _ _ _ _ _ _ Hv0 Hv1) as <-.
    pose proof (ValidateToken_exp _ _ _ _ e Hv He). lia. }
  split.
  - intros c (t' & Et & Hv & _ & _ & Hbl)%JWTMiddleware_Next. apply string_app_inj_l in Et as <-.
    destruct Hd as [(x & Hx & _)|Hl]; [congruence|eauto].
  - intros bf af uf r d'. unfold refreshToken. rewrite cut_prefix_app. destruct t as [|a t]; [done|].
    destruct (ValidateToken jwtSecret now (String a t)) as [c|] eqn:Hv; [|done].
    destruct Hd as [(x & Hx & _)|Hl]; [|by destruct (Hexp c eq_refl Hl)].
    unfold IsBlacklisted. destruct bf; simpl; [done|]. by rewrite bool_decide_true by eauto.
Qed.

(** C8. logout is permanent.  Once a logout answers 200 for a token that was
    valid (and whose hash is not already recorded with a shorter life), no
    later sequence of requests to any account endpoint and no cleanup makes
    the token usable again: the middleware rejects it and it cannot be
    refreshed, at every later instant. *)
Theorem logout_permanent d d1 now t claims e af evs last
    (Hv : ValidateToken jwtSecret now t = Ok claims) (He : ExpiresAt claims = Some e)
    (Hne : t <> ""%string)
    (Hbl : forall x, blacklist d !! HashToken t = Some x -> e <= x)
    (Hout : logout true af now d ("Bearer " ++ t) = ({| status := 200; payload := BOk "ok" |}, d1))
    (Hge : Forall (fun te => now <= te.1) evs) (Hlast : now <= last)
    (Hle : Forall (fun te => te.1 <= last) evs) :
  (forall c, JWTMiddleware HashToken jwtSecret (Some (true, blacklist (run d1 evs))) last ("Bearer " ++ t)
             <> Next c) /\
  (forall bf af' uf r d', refreshToken true bf af' uf last (run d1 evs) ("Bearer " ++ t) <>
     ({| status := 200; payload := BLogin r |}, d')).
Proof.
  assert (dead d1 t e now) as Hd.
  { revert Hout. unfold logout, Add. rewrite cut_prefix_app. destruct t as [|a t]; [done|].
    rewrite Hv, He. destruct af; simpl; [done|]. intros [= <-]. left. simpl.
    destruct (blacklist d !! HashToken (String a t)) as [x|] eqn:Ex; [eauto|].
    rewrite lookup_insert_eq. exists e. split; [done|lia]. }
  eapply dead_rejected; [by eapply dead_run|exact Hv|exact He].
Qed.

(** Refresh rotates.  A 200 answer requires a valid, unrevoked session
    token of an active account; the new token carries the same user with the
    account's current admin flag; and once the old token is recorded it is
    refused by the middleware and by any further refresh. *)
Theorem refreshToken_rotates bf uf now d t r d' claims e
    (Hv : ValidateToken jwtSecret now t = Ok claims) (He : ExpiresAt claims = Some e)
    (H200 : refreshToken true bf false uf now d ("Bearer " ++ t) =
            ({| status := 200; payload := BLogin r |}, d')) :
  TokenType claims <> "mfa"%string /\
  (exists a, a ∈ accounts d /\ ac_id a = UserID claims /\ ac_is_active a = true /\
     forall later, later <= now + 24 * hour - second ->
       exists c, ValidateToken jwtSecret later (lr_token r) = Ok c /\
         UserID c = UserID claims /\ IsAdmin c = ac_is_admin a) /\
  (forall later c, JWTMiddleware HashToken jwtSecret (Some (true, blacklist d')) later ("Bearer " ++ t)
     <> Next c) /\
  (forall later bf af uf r d2, refreshToken true bf af uf later d' ("Bearer " ++ t) <>
     ({| status := 200; payload := BLogin r |}, d2)).
Proof.
  revert H200. unfold refreshToken at 1. rewrite cut_prefix_app.
  destruct t as [|x t]; [done|]. rewrite Hv. unfold IsBlacklisted. destruct bf; simpl; [done|].
  case_bool_decide as Hb; [done|]. destruct (String.eqb_spec (TokenType claims) "mfa"); [done|].
  destruct uf; [done|]. unfold findBy.
  destruct (list_find _ (accounts d)) as [[i a]|] eqn:Ef; simpl; [|done].
  apply list_find_Some in Ef as (Hi & Hid & _). boolify.
  destruct (ac_is_active a) eqn:Ea; simpl; [|done].
  destruct (GenerateToken jwtSecret now _) as [t'|] eqn:Eg; [|done].
  rewrite He. unfold Add. simpl. intros [= <- <-]. split; [done|].
  assert (forall later, dead (set_blacklist d (match blacklist d !! HashToken (String x t) with
      | Some _ => blacklist d | None => <[HashToken (String x t) := e]> (blacklist d) end))
    (String x t) e later) as Hd.
  { intros later. left. simpl. apply eq_None_not_Some in Hb. rewrite Hb, lookup_insert_eq.
    exists e. split; [done|lia]. }
  split_and!.
  - exists a. split_and!; try done; [by eapply list_elem_of_lookup_2|].
    intros later Hl. simpl. eexists.
    split; [eapply GenerateToken_valid; [done|simpl; reflexivity|]|done].
    pose proof (NewNumericDate_bound (now + 24 * hour)). lia.
  - intros later. eapply dead_rejected; [apply Hd|exact Hv|exact He].
  - intros later. eapply dead_rejected; [apply Hd|exact Hv|exact He].
Qed.
End handlers.

(** ** The backup-code check of the MFA manager ([auth/mfa/manager.go]) *)

(** [UPDATE mfa_backup_codes SET used = true WHERE id = $1], without the
    [used = false] guard. *)
Definition markUsed (id : string) (l : list backup_code) : list backup_code :=
  map (fun c => if decide (bc_id c = id)
                then {| bc_id := bc_id c; bc_user := bc_user c; bc_hash := bc_hash c; bc_used := true |}
                else c) l.

(** The loop of [ValidateBackupCode] over the rows its SELECT returned, the
    update acting on the current table. *)
Definition validateRows `{AuthEnv} (rows : list backup_code) (code : string)
    (l : list backup_code) : bool * list backup_code :=
  match findBy (fun r => CheckPassword (bc_hash r) code) rows with
  | Some r => (true, markUsed (bc_id r) l)
  | None => (false, l)
  end.

(** [ValidateBackupCode] when the database answers every query. *)
Definition ValidateBackupCode `{AuthEnv} (l : list backup_code) (userID code : string)
  : bool * list backup_code :=
  validateRows (unusedOf userID l) code l.

(** ** Running the endpoints *)

Definition toy_env : AuthEnv := {|
  CheckPassword := String.eqb;
  HashPassword := fun p => Some p;
  totp_Validate := fun code secret _ => String.eqb code secret;
  HashToken := fun t => t |}.

Definition bob (active mfa : bool) : account := {|
  ac_id := "u2"; ac_username := "bob"; ac_email := "b@x"; ac_password_hash := Some "pw";
  ac_is_admin := true; ac_is_active := active; ac_must_change := false; ac_mfa_enabled := mfa;
  ac_failed := 0; ac_locked_until := None |}.

Definition code1 : backup_code :=
  {| bc_id := "c1"; bc_user := "u2"; bc_hash := "abcd1234"; bc_used := false |}.

Definition authdb (active mfa : bool) : auth_db := {|
  accounts := [bob active mfa]; mfa_totp := {[ "u2" := "123456" ]}; backup_codes := [code1];
  reset_tokens := []; blacklist := ∅ |}.

Definition lq (p : string) : option loginRequest := Some {| lq_username := "bob"; lq_password := p |}.

Definition token_of (r : response) : string :=
  match payload r with BLogin l => lr_token l | _ => "" end.
Definition mfa_token_of (r : response) : string :=
  match payload r with BLogin l => lr_mfa_token l | _ => "" end.

Definition session0 : string := token_of (@login clear_jwt toy_env "s" false false 0 (authdb true false) (lq "pw")).1.
Definition pending0 : string := mfa_token_of (@login clear_jwt toy_env "s" false false 0 (authdb true true) (lq "pw")).1.

Definition nofaults : mfa_faults := {|
  totpSelectFails := false; codesSelectFails := false; codesUpdateFails := false;
  userSelectFails := false |}.

Lemma login_sound_witness :
  exists a, @may_login toy_env 0 (authdb true false) "bob" "pw" a /\
  if ac_mfa_enabled a then session0 = ""%string /\
    (forall bl later c, @JWTMiddleware clear_jwt (@HashToken toy_env) "s" bl later ("Bearer " ++ "") <> Next c)
  else (exists c, @ValidateToken clear_jwt "s" 0 session0 = Ok c) /\
    forall later c, @ValidateToken clear_jwt "s" later session0 = Ok c ->
      UserID c = ac_id a /\ IsAdmin c = ac_is_admin a /\ TokenType c = ""%string.
Proof.
  refine (@login_sound clear_jwt toy_env "s" false false 0 (authdb true false)
           {| lq_username := "bob"; lq_password := "pw" |}
           {| lr_token := session0; lr_expires_at := 86400; lr_mfa_required := false;
              lr_mfa_token := ""; lr_must_change := false |} (authdb true false) _).
  vm_compute. reflexivity.
Defined.

Definition try (t : Z) (p : string) (uf : bool) : attempt :=
  {| at_time := t; at_password := p; at_selectFails := false; at_updateFails := uf |}.

(** Eight wrong guesses; the statement that records the third one fails. *)
Definition tries : list attempt :=
  [try 1 "a" false; try 2 "b" false; try 3 "c" true; try 4 "d" false; try 5 "e" false; try 6 "f" false;
   try 7 "g" false; try 8 "h" false].

Lemma lockout_bounds_guessing_witness :
  @guesses clear_jwt toy_env "s" "bob" (authdb true false) tries = 6%nat /\
  (@guesses clear_jwt toy_env "s" "bob" (authdb true false) tries <= 5 + failures tries)%nat.
Proof.
  split; [vm_compute; reflexivity|].
  apply (@lockout_bounds_guessing clear_jwt toy_env "s" "bob" 0 (authdb true false) (bob true false) "pw" tries);
    [discriminate | repeat constructor; discriminate | reflexivity | reflexivity | simpl; lia |].
  repeat constructor; simpl; unfold minute, second; try lia; reflexivity.
Defined.

Lemma backup_code_single_use_witness :
  successes "c1" ["c1"; "c2"; "c1"; "c1"] [code1] = 1%nat.
Proof.
  apply (backup_code_single_use "c1" ["c1"; "c2"; "c1"; "c1"] [code1]).
  - repeat constructor. by intros ?%elem_of_nil.
  - exists code1. split; [by left|]. split; reflexivity.
  - by left.
Defined.

Lemma verifyMFA_sound_witness :
  exists claims secret a,
    @ValidateToken clear_jwt "s" 0 pending0 = Ok claims /\ TokenType claims = "mfa"%string /\
    mfa_totp (authdb true true) !! UserID claims = Some secret /\
    a ∈ accounts (authdb true true) /\ ac_id a = UserID claims.
Proof.
  pose (v := @verifyMFA clear_jwt toy_env "s" nofaults 0 (authdb true true)
              (Some {| mq_token := pending0; mq_code := "abcd1234"; mq_method := "backup" |})).
  edestruct (@verifyMFA_sound clear_jwt toy_env "s" nofaults 0 (authdb true true)
              {| mq_token := pending0; mq_code := "abcd1234"; mq_method := "backup" |}
              (match payload v.1 with BLogin l => l | _ =>
                 {| lr_token := ""; lr_expires_at := 0; lr_mfa_required := false;
                    lr_mfa_token := ""; lr_must_change := false |} end) v.2)
    as (claims & secret & a & H1 & H2 & H3 & H4 & H5 & _).
  - vm_compute. reflexivity.
  - exists claims, secret, a. auto.
Defined.

Lemma logout_permanent_witness :
  status (@logout clear_jwt toy_env "s" true false 5 (authdb true false) ("Bearer " ++ session0)).1 = 200 /\
  forall c, @JWTMiddleware clear_jwt (@HashToken toy_env) "s"
    (Some (true, blacklist (@run clear_jwt toy_env PasswordPolicy.ascii_unicode "s"
       (@logout clear_jwt toy_env "s" true false 5 (authdb true false) ("Bearer " ++ session0)).2
       [(7, EvCleanup); (9, EvLogin false false (lq "x"))]))) 10 ("Bearer " ++ session0) <> Next c.
Proof.
  split; [vm_compute; reflexivity|].
  eapply (@logout_permanent clear_jwt toy_env PasswordPolicy.ascii_unicode "s" (authdb true false) _ 5
           session0 _ (24 * hour) false).
  - vm_compute. reflexivity.
  - vm_compute. reflexivity.
  - vm_compute. discriminate.
  - intros x. simpl. by rewrite lookup_empty.
  - vm_compute. reflexivity.
  - repeat constructor; simpl; lia.
  - lia.
  - repeat constructor; simpl; lia.
Defined.

Definition refreshed :=
  @refreshToken clear_jwt toy_env "s" true false false false 5 (authdb true false) ("Bearer " ++ session0).

Lemma refreshToken_rotates_witness :
  status refreshed.1 = 200 /\
  forall later c, @JWTMiddleware clear_jwt (@HashToken toy_env) "s" (Some (true, blacklist refreshed.2))
    later ("Bearer " ++ session0) <> Next c.
Proof.
  split; [vm_compute; reflexivity|].
  eapply (@refreshToken_rotates clear_jwt toy_env "s" false false 5 (authdb true false) session0
           (match payload refreshed.1 with BLogin l => l | _ =>
                 {| lr_token := ""; lr_expires_at := 0; lr_mfa_required := false;
                    lr_mfa_token := ""; lr_must_change := false |} end) refreshed.2 _ (24 * hour)).
  - vm_compute. reflexivity.
  - vm_compute. reflexivity.
  - vm_compute. reflexivity.
Defined.

(** ** Where the code falls short *)

(** An account disabled between the password step and the MFA step still
    receives a full session token, which the middleware accepts: unlike
    [login] and [refreshToken], [verifyMFA] does not look at [is_active]. *)
Theorem verifyMFA_disabled_account :
  let '(r, _) := @verifyMFA clear_jwt toy_env "s" nofaults 1 (authdb false true)
    (Some {| mq_token := pending0; mq_code := "123456"; mq_method := "totp" |}) in
  status r = 200 /\
  exists c, @JWTMiddleware clear_jwt (@HashToken toy_env) "s" (Some (true, ∅)) 2
    ("Bearer " ++ token_of r) = Next c /\ UserID c = "u2"%string /\ IsAdmin c = true.
Proof. vm_compute. eauto. Qed.

(** Two concurrent verifications through the MFA manager that both select the
    code before either updates it both succeed: the unguarded update makes a
    single-use code usable twice. *)
Theorem ValidateBackupCode_race :
  let snapshot := unusedOf "u2" [code1] in
  let '(ok1, l1) := @validateRows toy_env snapshot "abcd1234" [code1] in
  let '(ok2, _) := @validateRows toy_env snapshot "abcd1234" l1 in
  ok1 = true /\ ok2 = true.
Proof. vm_compute. auto. Qed.
