(* ===== verification/Policy.v ===== *)
(** * Access policy of a gateway

    [internal/core/grpc_gateway.go]: the peers, the firewall rules and the
    smart routes the core computes for one gateway from the tables, and the
    verdict the rules give on a packet.  The main theorem says that the ordered
    rule list decides every packet of every device exactly as the group ACLs
    and the zero-trust policies say, whatever the order in which Go ranges over
    its maps and the database returns unordered rows. *)

From S2P Require Import Prelude Net Schema.
From Stdlib Require Import ZArith Lia Ascii String.
From stdpp Require Import base gmap strings list sorting pretty.

Local Open Scope Z_scope.

(** ** Result order of a query *)

(** The order in which the database returns rows: [rows] for a query without
    [ORDER BY], or ordered by texts, whose order depends on the collation of
    the database; [rows_by] for an ascending integer key.  The number
    identifies the query. *)
Class SqlOrder : Type := {
  rows : forall {A : Type}, nat -> list A -> list A;
  rows_perm : forall {A : Type} q (l : list A), rows q l ≡ₚ l;
  rows_by : forall {A : Type}, nat -> (A -> Z) -> list A -> list A;
  rows_by_perm : forall {A : Type} q key (l : list A), rows_by q key l ≡ₚ l;
  rows_by_sorted : forall {A : Type} q key (l : list A),
    StronglySorted (fun x y => key x <= key y) (rows_by q key l);
}.

(** Insertion sort by an integer key. *)
Fixpoint insert_by {A} (key : A -> Z) (x : A) (l : list A) : list A :=
  match l with
  | [] => [x]
  | y :: l' => if key x <=? key y then x :: l else y :: insert_by key x l'
  end.

Definition sort_by {A} (key : A -> Z) (l : list A) : list A := foldr (insert_by key) [] l.

Lemma insert_by_perm {A} (key : A -> Z) x l : insert_by key x l ≡ₚ x :: l.
Proof.
  induction l as [|y l IH]; simpl; [done|]. case_match; [done|]. rewrite IH. constructor.
Qed.

Lemma sort_by_perm {A} (key : A -> Z) l : sort_by key l ≡ₚ l.
Proof. induction l as [|x l IH]; simpl; [done|]. by rewrite insert_by_perm, IH. Qed.

Lemma insert_by_sorted {A} (key : A -> Z) x l :
  StronglySorted (fun x y => key x <= key y) l ->
  StronglySorted (fun x y => key x <= key y) (insert_by key x l).
Proof.
  induction 1 as [|y l Hs IH Hall]; simpl; [repeat constructor|].
  case_match; boolify.
  - constructor; [by constructor|]. constructor; [done|].
    eapply Forall_impl; [exact Hall|]. intros z. simpl. lia.
  - constructor; [done|]. rewrite insert_by_perm. constructor; [lia|done].
Qed.

Lemma sort_by_sorted {A} (key : A -> Z) l :
  StronglySorted (fun x y => key x <= key y) (sort_by key l).
Proof. induction l; simpl; [constructor|by apply insert_by_sorted]. Qed.

Definition sql_default : SqlOrder := {|
  rows := fun _ _ l => l;
  rows_perm := fun _ _ l => reflexivity l;
  rows_by := fun _ _ key l => sort_by key l;
  rows_by_perm := fun _ _ key l => sort_by_perm key l;
  rows_by_sorted := fun _ _ key l => sort_by_sorted key l |}.

Definition sql_reverse : SqlOrder := {|
  rows := fun _ _ l => reverse l;
  rows_perm := fun _ _ l => reverse_Permutation l;
  rows_by := fun _ _ key l => sort_by key (reverse l);
  rows_by_perm := fun _ _ key l =>
    Permutation_trans (sort_by_perm key (reverse l)) (reverse_Permutation l);
  rows_by_sorted := fun _ _ key l => sort_by_sorted key (reverse l) |}.

Lemma elem_of_rows `{SqlOrder} {A} q (l : list A) x : x ∈ rows q l <-> x ∈ l.
Proof. by rewrite rows_perm. Qed.

Lemma elem_of_rows_by `{SqlOrder} {A} q key (l : list A) x : x ∈ rows_by q key l <-> x ∈ l.
Proof. by rewrite rows_by_perm. Qed.

(** ** Messages to the gateway ([proto/outpost/common/v1/types.proto]) *)

Inductive Action := ACTION_UNSPECIFIED | ACTION_ACCEPT | ACTION_DROP.

#[export] Instance Action_eq_dec : EqDecision Action.
Proof. solve_decision. Defined.

Record FirewallRule := {
  Source : string;
  Destination : string;
  Protocol : string;
  Port : string;
  RuleAction : Action;
}.

Record FirewallConfig := {
  Rules : list FirewallRule;
  NatEnabled : bool;
  NatInterface : string;
}.

Record firewallResult := {
  Config : FirewallConfig;
  BlockedPubkeys : list string;
}.

Record SmartRouteRule := {
  EntryType : string;
  Value : string;
  SRAction : string;
  Priority : Z;
}.

#[export] Instance SmartRouteRule_eq_dec : EqDecision SmartRouteRule.
Proof. solve_decision. Defined.

Record Peer := {
  PublicKey : string;
  AllowedIps : list string;
  Endpoint : string;
  PersistentKeepalive : Z;
}.

(** ** The queries of [buildFirewallConfigFromPool] *)

(** [JOIN gateway_networks gn ON gn.network_id = d.network_id WHERE
    gn.gateway_id = $1]: the gateway serves the device's network. *)
Definition served (d : db) (gw : string) (dev : device) : bool :=
  existsb (fun gn => String.eqb gn.1 gw && bool_decide (d_network_id dev = Some gn.2))
    (gateway_networks d).

(** [JOIN gateways g ON g.network_id = d.network_id WHERE g.id = $1]: the
    column that predates the junction table. *)
Definition servedLegacy (d : db) (gw : string) (dev : device) : bool :=
  existsb (fun g => String.eqb (g_id g) gw &&
    match g_network_id g with
    | Some n => bool_decide (d_network_id dev = Some n)
    | None => false
    end) (gateways d).

(** [d.is_approved = true AND d.wireguard_pubkey != '']. *)
Definition enrolled (dev : device) : bool :=
  d_is_approved dev && negb (String.eqb (d_pubkey dev) "").

(** The networks granted to a device: those its user's groups have an ACL on,
    and every network when the user is an administrator; active ones only. *)
Definition grantedByGroup (d : db) (dev : device) (n : network) : bool :=
  existsb (fun ug => String.eqb ug.1 (d_user_id dev) &&
    existsb (fun a => String.eqb (a_group_id a) ug.2 && String.eqb (n_id n) (a_network_id a))
      (network_acls d)) (user_groups d) && n_is_active n.

Definition grantedByAdmin (d : db) (dev : device) (n : network) : bool :=
  existsb (fun u => String.eqb (u_id u) (d_user_id dev) && u_is_admin u) (users d) &&
  n_is_active n.

(** The first query: [SELECT DISTINCT ... UNION SELECT DISTINCT ...]. *)
Definition aclRows (d : db) (gw : string) : list (string * string) :=
  remove_dups
    (dev ← devices d; n ← networks d;
     if served d gw dev && enrolled dev && (grantedByGroup d dev n || grantedByAdmin d dev n)
     then [(host (d_assigned_ip dev), cidr_text (n_address n))] else []).

(** The second query, for the default-deny rules and the public keys. *)
Definition allRows (d : db) (gw : string) : list (string * string) :=
  remove_dups
    (dev ← devices d;
     if (served d gw dev || servedLegacy d gw dev) && enrolled dev
     then [(host (d_assigned_ip dev), d_pubkey dev)] else []).

Record devicePosture := {
  IP : string;
  NetworkID : string;
  TrustScore : Z;
  TrustLevel : string;
  DiskEncrypted : bool;
  ScreenLock : bool;
  Antivirus : bool;
  Firewall : bool;
  MFAEnabled : bool;
}.

Definition latestTrust (d : db) (dev : device) : option trust_row :=
  latest ts_evaluated_at (List.filter (fun t => String.eqb (ts_device_id t) (d_id dev)) (device_trust_scores d)).

Definition latestChecks (d : db) (dev : device) : option posture_row :=
  latest dp_checked_at (List.filter (fun p => String.eqb (dp_device_id p) (d_id dev)) (device_posture d)).

(** One row of the third query, with its [COALESCE] defaults. *)
Definition postureRow (d : db) (dev : device) (u : user) : devicePosture :=
  let ts := latestTrust d dev in
  let dp := latestChecks d dev in
  {| IP := host (d_assigned_ip dev);
     NetworkID := default ""%string (d_network_id dev);
     TrustScore := default 0 (ts_score <$> ts);
     TrustLevel := default "critical"%string (ts_level <$> ts);
     DiskEncrypted := default false (dp_disk_encrypted <$> dp);
     ScreenLock := default false (dp_screen_lock <$> dp);
     Antivirus := default false (dp_antivirus <$> dp);
     Firewall := default false (dp_firewall <$> dp);
     MFAEnabled := u_mfa_enabled u |}.

(** The third query: one row per device ([DISTINCT ON (d.id)]); the inner join
    on [users] keeps devices whose owner exists. *)
Definition postureRows (d : db) (gw : string) : list devicePosture :=
  dev ← devices d;
  if served d gw dev && enrolled dev then
    match List.find (fun u => String.eqb (u_id u) (d_user_id dev)) (users d) with
    | Some u => [postureRow d dev u]
    | None => []
    end
  else [].

Definition policyRows (d : db) : list ztna_policy :=
  List.filter (fun p => p_is_active p &&
    (String.eqb (p_action p) "deny" || String.eqb (p_action p) "restrict")) (ztna_policies d).

(** Which queries the database fails to answer. *)
Record fw_faults := {
  aclFails : bool;
  allFails : bool;
  trustFails : bool;
  postureFails : bool;
  policyFails : bool;
}.

Definition no_faults : fw_faults := {|
  aclFails := false; allFails := false; trustFails := false; postureFails := false;
  policyFails := false |}.

(** ** [buildFirewallConfigFromPool] *)

(** [m[k] = append(m[k], v)]. *)
Definition appendTo (m : gmap string (list string)) (kv : string * string)
  : gmap string (list string) :=
  <[kv.1 := default [] (m !! kv.1) ++ [kv.2]]> m.

Definition deviceACLs (rs : list (string * string)) : gmap string (list string) :=
  foldl appendTo ∅ rs.

Definition devicePubkeys (rs : list (string * string)) : gmap string string :=
  foldl (fun m kv => <[kv.1 := kv.2]> m) ∅ rs.

Definition devicePostures (rs : list devicePosture) : gmap string devicePosture :=
  foldl (fun m p => <[IP p := p]> m) ∅ rs.

(** Step 1 of the enforcement, for one device. *)
Definition autoBlocks (autoRestrict autoBlock : bool) (p : devicePosture) : bool :=
  if autoBlock && (String.eqb (TrustLevel p) "critical" || String.eqb (TrustLevel p) "low")
  then true
  else autoRestrict && String.eqb (TrustLevel p) "critical".

(** [cond.X != nil && *cond.X && !p.X]. *)
Definition requiredMissing (c : option bool) (has : bool) : bool :=
  match c with Some true => negb has | _ => false end.

(** The conditions of a policy: the device fails at least one. *)
Definition failsConditions (cond : conditions) (p : devicePosture) : bool :=
  match MinTrustScore cond with Some m => TrustScore p <? m | None => false end ||
  requiredMissing (CondDiskEncryption cond) (DiskEncrypted p) ||
  requiredMissing (CondScreenLock cond) (ScreenLock p) ||
  requiredMissing (CondAntivirus cond) (Antivirus p) ||
  requiredMissing (CondFirewall cond) (Firewall p) ||
  requiredMissing (CondMFA cond) (MFAEnabled p).

(** The network filter: an empty list applies everywhere. *)
Definition appliesTo (networkIDs : list string) (p : devicePosture) : bool :=
  match networkIDs with
  | [] => true
  | _ => bool_decide (NetworkID p ∈ networkIDs)
  end.

Section build.
Context `{GoRange, SqlOrder}.

Definition blockedIn (blocked : gmap string bool) (ip : string) : bool :=
  default false (blocked !! ip).

Definition autoLoop (autoRestrict autoBlock : bool) (postures : gmap string devicePosture)
    (blocked : gmap string bool) : gmap string bool :=
  if autoRestrict || autoBlock then
    foldl (fun b kp => if autoBlocks autoRestrict autoBlock kp.2 then <[kp.1 := true]> b else b)
      blocked (range 0 postures)
  else blocked.

(** The loop over the devices for one policy; [loop] numbers the iteration. *)
Definition policyStep (loop : nat) (postures : gmap string devicePosture) (pol : ztna_policy)
    (blocked : gmap string bool) : gmap string bool :=
  match p_conditions pol with
  | None => blocked
  | Some cond =>
      foldl (fun b kp =>
        if blockedIn b kp.1 then b
        else if negb (appliesTo (p_network_ids pol) kp.2) then b
        else if failsConditions cond kp.2 then <[kp.1 := true]> b else b)
        blocked (range loop postures)
  end.

Fixpoint policyLoop (loop : nat) (postures : gmap string devicePosture) (pols : list ztna_policy)
    (blocked : gmap string bool) : gmap string bool :=
  match pols with
  | [] => blocked
  | pol :: pols => policyLoop (S loop) postures pols (policyStep loop postures pol blocked)
  end.

Definition rule (src dst : string) (a : Action) : FirewallRule := {|
  Source := src; Destination := dst; Protocol := ""; Port := ""; RuleAction := a |}.

(** The rules of one device with ACL entries. *)
Definition deviceRules (blocked : gmap string bool) (kv : string * list string) : list FirewallRule :=
  let src := (kv.1 ++ "/32")%string in
  if blockedIn blocked kv.1 then [rule src "" ACTION_DROP]
  else map (fun c => rule src c ACTION_ACCEPT) kv.2 ++ [rule src "" ACTION_DROP].

(** The default-deny rule of a device without ACL entries. *)
Definition denyRule (acls : gmap string (list string)) (ip : string) : list FirewallRule :=
  match acls !! ip with
  | Some _ => []
  | None => [rule (ip ++ "/32") "" ACTION_DROP]
  end.

Definition blockedKey (pubkeys : gmap string string) (kv : string * bool) : option string :=
  match pubkeys !! kv.1 with
  | Some pk => if String.eqb pk "" then None else Some pk
  | None => None
  end.

(** [autoRestrict] and [autoBlock] keep their zero values when the scan fails. *)
Definition trustFlags (f : fw_faults) (d : db) : bool * bool :=
  if trustFails f then (false, false) else default (false, false) (trust_auto d).

Definition ztnaBlocked (f : fw_faults) (d : db) (gw : string) : gmap string bool :=
  let flags := trustFlags f d in
  let postures :=
    devicePostures (if postureFails f then [] else rows 2 (postureRows d gw)) in
  let blocked := autoLoop flags.1 flags.2 postures ∅ in
  if policyFails f then blocked
  else policyLoop 3 postures (rows_by 3 p_priority (policyRows d)) blocked.

Definition buildFirewallConfigFromPool (f : fw_faults) (d : db) (gw : string)
  : option firewallResult :=
  if aclFails f then None else
  let acls := deviceACLs (rows 0 (aclRows d gw)) in
  let all := if allFails f then [] else rows 1 (allRows d gw) in
  let pubkeys := devicePubkeys all in
  let blocked := ztnaBlocked f d gw in
  let rules :=
    flat_map (deviceRules blocked) (range 1 acls) ++
    flat_map (fun kv => denyRule acls kv.1) all in
  Some {| Config := {| Rules := rules; NatEnabled := true; NatInterface := "" |};
          BlockedPubkeys := omap (blockedKey pubkeys) (range 2 blocked) |}.

Definition buildFirewallConfig (f : fw_faults) (d : db) (gw : string) : option FirewallConfig :=
  Config <$> buildFirewallConfigFromPool f d gw.

(** ** [fetchPeers] and [fetchSmartRoutesForGateway] *)

Definition peerRows (d : db) (gw : string) : list (string * string) :=
  remove_dups
    (dev ← devices d;
     if (served d gw dev || servedLegacy d gw dev) && enrolled dev
     then [(d_pubkey dev, (host (d_assigned_ip dev) ++ "/32")%string)] else []).

Definition fetchPeers (fails : bool) (d : db) (gw : string) : result (list Peer) :=
  if fails then Err "query" else
  Ok (map (fun r => {| PublicKey := r.1; AllowedIps := [r.2]; Endpoint := "";
                       PersistentKeepalive := 25 |}) (rows 4 (peerRows d gw))).

(** The network of a smart route is served by the gateway, through the
    junction table or the legacy column. *)
Definition servesNetwork (d : db) (gw n : string) : bool :=
  existsb (fun gn => String.eqb gn.1 gw && String.eqb gn.2 n) (gateway_networks d) ||
  existsb (fun g => String.eqb (g_id g) gw && bool_decide (g_network_id g = Some n)) (gateways d).

Definition smartRouteRows (d : db) (gw : string) : list SmartRouteRule :=
  remove_dups
    (e ← smart_route_entries d;
     if existsb (fun sr => String.eqb sr.1 (e_smart_route_id e) && sr.2) (smart_routes d) &&
        existsb (fun nsr => String.eqb nsr.2 (e_smart_route_id e) && servesNetwork d gw nsr.1)
          (network_smart_routes d)
     then [{| EntryType := e_entry_type e; Value := e_value e; SRAction := e_action e;
              Priority := e_priority e |}]
     else []).

(** [None] is the nil configuration. *)
Definition fetchSmartRoutesForGateway (fails : bool) (d : db) (gw : string)
  : option (list SmartRouteRule) :=
  if fails then None else
  match rows_by 5 Priority (smartRouteRows d gw) with
  | [] => None
  | rules => Some rules
  end.
End build.

(** ** Verdict of a rule list

    The first rule whose source and destination blocks hold the packet's
    addresses decides; an empty destination matches every address. *)
Definition rule_matches (r : FirewallRule) (src dst : Z) : bool :=
  cidr_matches (Source r) src &&
  (String.eqb (Destination r) "" || cidr_matches (Destination r) dst).

Definition verdict (rs : list FirewallRule) (src dst : Z) : option Action :=
  RuleAction <$> List.find (fun r => rule_matches r src dst) rs.

(** ** What the policy promises *)

(** The statements below are in terms of the rows of the tables only: none of
    the tests the builder makes occurs in them. *)

(** The level and the score of the newest evaluation of the device; one never
    evaluated counts as critical, with score 0. *)
Definition trust_level (d : db) (dev : device) : string :=
  match latestTrust d dev with Some t => ts_level t | None => "critical"%string end.

Definition trust_points (d : db) (dev : device) : Z :=
  match latestTrust d dev with Some t => ts_score t | None => 0 end.

(** The newest posture report of the device affirms a check. *)
Definition affirms (d : db) (dev : device) (check : posture_row -> bool) : Prop :=
  exists p, latestChecks d dev = Some p /\ check p = true.

(** The device breaks a condition of a policy: its score is below the minimum,
    a required check is not affirmed, or the second factor is required and its
    owner has none. *)
Definition breaks (d : db) (dev : device) (u : user) (c : conditions) : Prop :=
  (exists m, MinTrustScore c = Some m /\ trust_points d dev < m) \/
  (CondDiskEncryption c = Some true /\ ~ affirms d dev dp_disk_encrypted) \/
  (CondScreenLock c = Some true /\ ~ affirms d dev dp_screen_lock) \/
  (CondAntivirus c = Some true /\ ~ affirms d dev dp_antivirus) \/
  (CondFirewall c = Some true /\ ~ affirms d dev dp_firewall) \/
  (CondMFA c = Some true /\ u_mfa_enabled u = false).

(** The automatic thresholds: [auto_block_below_low] takes the levels low and
    critical, [auto_restrict_below_medium] the level critical. *)
Definition below_threshold (d : db) (dev : device) : Prop :=
  exists restrict block, trust_auto d = Some (restrict, block) /\
    ((block = true /\ trust_level d dev = "low"%string) \/
     ((block = true \/ restrict = true) /\ trust_level d dev = "critical"%string)).

(** Zero trust blocks the device: by the thresholds, or by an active policy
    that denies or restricts, covers its network and has a condition it breaks. *)
Definition violates (d : db) (dev : device) (u : user) : Prop :=
  exists pol cond, pol ∈ ztna_policies d /\ p_is_active pol = true /\
    (p_action pol = "deny"%string \/ p_action pol = "restrict"%string) /\
    (p_network_ids pol = [] \/ exists n, d_network_id dev = Some n /\ n ∈ p_network_ids pol) /\
    p_conditions pol = Some cond /\ breaks d dev u cond.

Definition ztna_blocks (d : db) (dev : device) (u : user) : Prop :=
  below_threshold d dev \/ violates d dev u.

(** The destination lies in a network granted to the owner of the device: an
    active network one of the owner's groups has an access list on, or any
    active network when the owner is an administrator.  As in the query of the
    builder the whole address block of the network is granted: the column
    [allowed_ips] of the access list plays no part at the gateway. *)
Definition granted (d : db) (dev : device) (dst : Z) : Prop :=
  exists n, n ∈ networks d /\ n_is_active n = true /\ cidr_contains (n_address n) dst = true /\
    ((exists g a, (d_user_id dev, g) ∈ user_groups d /\ a ∈ network_acls d /\
        a_group_id a = g /\ a_network_id a = n_id n) \/
     (exists u, u ∈ users d /\ u_id u = d_user_id dev /\ u_is_admin u = true)).

(** The part of that which the access lists name: the destination also lies
    in one of the [allowed_ips] of the entry. *)
Definition permitted (d : db) (dev : device) (dst : Z) : Prop :=
  exists n, n ∈ networks d /\ n_is_active n = true /\ cidr_contains (n_address n) dst = true /\
    ((exists g a c, (d_user_id dev, g) ∈ user_groups d /\ a ∈ network_acls d /\
        a_group_id a = g /\ a_network_id a = n_id n /\ c ∈ a_allowed_ips a /\ cidr_contains c dst = true) \/
     (exists u, u ∈ users d /\ u_id u = d_user_id dev /\ u_is_admin u = true)).

Lemma permitted_granted d dev dst : permitted d dev dst -> granted d dev dst.
Proof.
  intros (n & Hn & Ha & Hc & [(g & a & c & Hg & Hin & E & En & _)|Hadm]); exists n;
    (split_and!; [done..|]); [left; by exists g, a|by right].
Qed.

(** The gateway serves the network of the device through the junction table;
    the device is attached to it through the legacy column; the device is
    approved and has a key. *)
Definition serves (d : db) (gw : string) (dev : device) : Prop :=
  exists n, (gw, n) ∈ gateway_networks d /\ d_network_id dev = Some n.

Definition attached (d : db) (gw : string) (dev : device) : Prop :=
  exists g n, g ∈ gateways d /\ g_id g = gw /\ g_network_id g = Some n /\ d_network_id dev = Some n.

Definition admitted (dev : device) : Prop :=
  d_is_approved dev = true /\ d_pubkey dev <> ""%string.

(** ** The tests of the builder decide these conditions *)

Lemma served_iff d gw dev : served d gw dev = true <-> serves d gw dev.
Proof.
  unfold served, serves. rewrite existsb_exists. setoid_rewrite <- list_elem_of_In. split.
  - intros ([g n] & Hin & [E%String.eqb_eq Hn%bool_decide_eq_true]%andb_true_iff). cbn in E, Hn. subst.
    by exists n.
  - intros (n & Hin & Hn). exists (gw, n). by rewrite String.eqb_refl, bool_decide_true.
Qed.

Lemma servedLegacy_iff d gw dev : servedLegacy d gw dev = true <-> attached d gw dev.
Proof.
  unfold servedLegacy, attached. rewrite existsb_exists. setoid_rewrite <- list_elem_of_In. split.
  - intros (g & Hin & [E%String.eqb_eq Hn]%andb_true_iff). destruct (g_network_id g) as [n|] eqn:Eg; [|done].
    apply bool_decide_eq_true in Hn. by exists g, n.
  - intros (g & n & Hin & <- & Eg & Hn). exists g. rewrite String.eqb_refl, Eg. by rewrite bool_decide_true.
Qed.

Lemma enrolled_iff dev : enrolled dev = true <-> admitted dev.
Proof.
  unfold enrolled, admitted. rewrite andb_true_iff, negb_true_iff, String.eqb_neq. done.
Qed.

Lemma grants_iff d dev n :
  grantedByGroup d dev n || grantedByAdmin d dev n = true <->
  n_is_active n = true /\
  ((exists g a, (d_user_id dev, g) ∈ user_groups d /\ a ∈ network_acls d /\
      a_group_id a = g /\ a_network_id a = n_id n) \/
   (exists u, u ∈ users d /\ u_id u = d_user_id dev /\ u_is_admin u = true)).
Proof.
  unfold grantedByGroup, grantedByAdmin. rewrite orb_true_iff, !andb_true_iff, !existsb_exists.
  setoid_rewrite andb_true_iff. setoid_rewrite existsb_exists. setoid_rewrite andb_true_iff.
  setoid_rewrite String.eqb_eq. setoid_rewrite <- list_elem_of_In. split.
  - intros [[([w g] & Hug & <- & a & Ha & Eg & En) Hact]|[(u & Hu & Eu & Hadm) Hact]]; (split; [done|]).
    + left. exists g, a. auto.
    + right. eauto.
  - intros [Hact [(g & a & Hug & Ha & Eg & En)|(u & Hu & Eu & Hadm)]]; [left|right]; (split; [|done]).
    + exists (d_user_id dev, g). split; [done|]. split; [done|]. exists a. auto.
    + exists u. auto.
Qed.

Lemma requiredMissing_iff c b : requiredMissing c b = true <-> c = Some true /\ b = false.
Proof. destruct c as [[]|], b; cbn; naive_solver. Qed.

Lemma affirms_iff d dev check :
  default false (check <$> latestChecks d dev) = false <-> ~ affirms d dev check.
Proof.
  unfold affirms. destruct (latestChecks d dev) as [p|]; cbn.
  - destruct (check p) eqn:E; split; [done| |intros _ (? & [= <-] & ?); congruence|done].
    intros []. eauto.
  - split; [intros _ (? & [=] & _)|done].
Qed.

Lemma failsConditions_iff d dev u c :
  failsConditions c (postureRow d dev u) = true <-> breaks d dev u c.
Proof.
  unfold failsConditions, breaks. rewrite !orb_true_iff, !requiredMissing_iff.
  cbn [DiskEncrypted ScreenLock Antivirus Firewall MFAEnabled TrustScore postureRow].
  rewrite !affirms_iff. unfold trust_points.
  assert (default 0 (ts_score <$> latestTrust d dev) =
    match latestTrust d dev with Some t => ts_score t | None => 0 end) as -> by by destruct (latestTrust d dev).
  assert ((match MinTrustScore c with
           | Some m => match latestTrust d dev with Some t => ts_score t | None => 0 end <? m
           | None => false end = true) <->
          exists m, MinTrustScore c = Some m /\
            match latestTrust d dev with Some t => ts_score t | None => 0 end < m) as ->.
  { destruct (MinTrustScore c) as [m|]; [|naive_solver]. rewrite Z.ltb_lt. naive_solver. }
  tauto.
Qed.

Lemma autoBlocks_iff d dev u :
  autoBlocks (default (false, false) (trust_auto d)).1 (default (false, false) (trust_auto d)).2
    (postureRow d dev u) = true <-> below_threshold d dev.
Proof.
  unfold autoBlocks, below_threshold, trust_level. cbn [TrustLevel postureRow].
  assert (default "critical"%string (ts_level <$> latestTrust d dev) =
    match latestTrust d dev with Some t => ts_level t | None => "critical"%string end) as ->
    by by destruct (latestTrust d dev).
  set (l := match latestTrust d dev with Some t => ts_level t | None => "critical"%string end).
  destruct (trust_auto d) as [[r b]|]; cbn [default fst snd]; [|naive_solver].
  destruct (String.eqb_spec l "critical") as [->|Hc]; [destruct r, b; cbn; naive_solver|].
  destruct (String.eqb_spec l "low") as [->|Hl]; destruct r, b; cbn; naive_solver.
Qed.

Lemma elem_of_policyRows_iff d pol :
  pol ∈ policyRows d <-> pol ∈ ztna_policies d /\ p_is_active pol = true /\
    (p_action pol = "deny"%string \/ p_action pol = "restrict"%string).
Proof.
  unfold policyRows. rewrite list_elem_of_In, filter_In, <- list_elem_of_In, andb_true_iff, orb_true_iff,
    !String.eqb_eq. done.
Qed.

Lemma appliesTo_iff l d dev u : is_Some (d_network_id dev) ->
  appliesTo l (postureRow d dev u) = true <-> l = [] \/ exists n, d_network_id dev = Some n /\ n ∈ l.
Proof.
  intros [n En]. destruct l as [|x l]; [cbn; naive_solver|]. unfold appliesTo.
  rewrite bool_decide_eq_true. cbn [NetworkID postureRow]. rewrite En. cbn [default]. naive_solver.
Qed.

(** The declared rules, in terms of the builder's tests on the posture row. *)
Lemma ztna_blocks_iff d dev u : is_Some (d_network_id dev) ->
  ztna_blocks d dev u <->
  let p := postureRow d dev u in
  autoBlocks (default (false, false) (trust_auto d)).1 (default (false, false) (trust_auto d)).2 p = true \/
  exists pol cond, pol ∈ policyRows d /\ p_conditions pol = Some cond /\
    appliesTo (p_network_ids pol) p = true /\ failsConditions cond p = true.
Proof.
  intros Hn. cbv zeta. unfold ztna_blocks, violates. rewrite autoBlocks_iff.
  setoid_rewrite elem_of_policyRows_iff. setoid_rewrite (appliesTo_iff _ d dev u Hn).
  setoid_rewrite failsConditions_iff. naive_solver.
Qed.

Lemma serves_network d gw dev : serves d gw dev -> is_Some (d_network_id dev).
Proof. intros (n & _ & ->). by eexists. Qed.

(** ** The maps of the builder *)

Lemma foldl_appendTo_lookup rs m k :
  foldl appendTo m rs !! k =
  match map snd (List.filter (fun kv => String.eqb kv.1 k) rs) with
  | [] => m !! k
  | l => Some (default [] (m !! k) ++ l)
  end.
Proof.
  revert m. induction rs as [|[a c] rs IH]; intros m; [done|]. cbn [foldl].
  rewrite IH. unfold appendTo. cbn [fst snd List.filter].
  destruct (String.eqb_spec a k) as [->|Hne]; cbn [map].
  - rewrite lookup_insert_eq. destruct (map snd _); [done|]. cbn [default].
    simpl. by rewrite <- app_assoc.
  - by rewrite lookup_insert_ne.
Qed.

Lemma deviceACLs_lookup rs k :
  deviceACLs rs !! k =
  match map snd (List.filter (fun kv => String.eqb kv.1 k) rs) with [] => None | l => Some l end.
Proof.
  unfold deviceACLs. rewrite foldl_appendTo_lookup, lookup_empty. by destruct (map snd _).
Qed.

Lemma elem_of_entries (rs : list (string * string)) k c :
  c ∈ map snd (List.filter (fun kv => String.eqb kv.1 k) rs) <-> (k, c) ∈ rs.
Proof.
  rewrite list_elem_of_fmap. setoid_rewrite list_elem_of_In. setoid_rewrite filter_In.
  split.
  - intros ([a b] & -> & Hin & E%String.eqb_eq). simpl in *. by subst.
  - intros Hin. exists (k, c). split; [done|]. split; [done|]. apply String.eqb_refl.
Qed.

Lemma deviceACLs_Some rs k cs :
  deviceACLs rs !! k = Some cs -> (exists c, (k, c) ∈ rs) /\ forall c, c ∈ cs <-> (k, c) ∈ rs.
Proof.
  rewrite deviceACLs_lookup. destruct (map snd _) as [|c l] eqn:E; [done|]. intros [= <-].
  split.
  - exists c. rewrite <- elem_of_entries, E. by left.
  - intros c'. by rewrite <- E, elem_of_entries.
Qed.

Lemma deviceACLs_None rs k c : deviceACLs rs !! k = None -> (k, c) ∉ rs.
Proof.
  rewrite deviceACLs_lookup, <- elem_of_entries. destruct (map snd _); [|done].
  intros _. apply not_elem_of_nil.
Qed.

(** *** The blocking loops *)

Definition all_true (b : gmap string bool) : Prop := forall k v, b !! k = Some v -> v = true.

(** A loop body that blocks the devices satisfying a test. *)
Definition marks (f : gmap string bool -> string * devicePosture -> gmap string bool)
    (test : devicePosture -> bool) : Prop :=
  forall b kp, all_true b ->
    all_true (f b kp) /\
    forall k, blockedIn (f b kp) k = blockedIn b k || (String.eqb k kp.1 && test kp.2).

Lemma blockedIn_insert b k k' :
  blockedIn (<[k := true]> b) k' = String.eqb k' k || blockedIn b k'.
Proof.
  unfold blockedIn. destruct (String.eqb_spec k' k) as [->|Hne].
  - by rewrite lookup_insert_eq.
  - by rewrite lookup_insert_ne.
Qed.

Lemma all_true_insert b k : all_true b -> all_true (<[k := true]> b).
Proof.
  intros Hb k' v. destruct (decide (k = k')) as [->|].
  - rewrite lookup_insert_eq. congruence.
  - rewrite lookup_insert_ne by done. apply Hb.
Qed.

Lemma marks_insert (test : devicePosture -> bool) :
  marks (fun b kp => if test kp.2 then <[kp.1 := true]> b else b) test.
Proof.
  intros b kp Hb. split.
  - destruct (test kp.2); auto using all_true_insert.
  - intros k. destruct (test kp.2); rewrite ?blockedIn_insert;
      destruct (String.eqb k kp.1), (blockedIn b k); done.
Qed.

(** Skipping what is already blocked changes nothing. *)
Lemma marks_skip (test1 test2 : devicePosture -> bool) :
  marks (fun b kp => if blockedIn b kp.1 then b
                     else if negb (test1 kp.2) then b
                     else if test2 kp.2 then <[kp.1 := true]> b else b)
        (fun p => test1 p && test2 p).
Proof.
  intros b [a p] Hb. simpl. split.
  - repeat case_match; auto using all_true_insert.
  - intros k. destruct (blockedIn b a) eqn:Ea.
    + destruct (String.eqb_spec k a) as [->|]; [by rewrite Ea|by rewrite orb_false_r].
    + destruct (test1 p), (test2 p); simpl; rewrite ?blockedIn_insert, ?andb_false_r, ?orb_false_r;
        try done. rewrite andb_true_r. apply orb_comm.
Qed.

Lemma marks_foldl f test l b :
  marks f test -> all_true b ->
  all_true (foldl f b l) /\
  forall k, blockedIn (foldl f b l) k = true <->
    blockedIn b k = true \/ exists p, (k, p) ∈ l /\ test p = true.
Proof.
  intros Hf. revert b. induction l as [|[a p] l IH]; intros b Hb; simpl.
  - split; [done|]. intros k. split; [by left|]. by intros [|(p & ?%elem_of_nil & _)].
  - destruct (Hf b (a, p) Hb) as [Ht Hs]. destruct (IH _ Ht) as [Ht' Hs'].
    split; [done|]. intros k. rewrite Hs', Hs, orb_true_iff, andb_true_iff, String.eqb_eq.
    simpl. split.
    + intros [[?|[-> ?]]|(q & ? & ?)]; [by left|right; exists p|right; exists q];
        (split; [|done]); [by left|by right].
    + intros [?|(q & [[= -> ->]|?]%elem_of_cons & ?)]; [by do 2 left|by left; right|].
      right. eauto.
Qed.

Section blocking.
Context `{GoRange, SqlOrder}.

Lemma autoLoop_spec ar ab postures :
  all_true (autoLoop ar ab postures ∅) /\
  forall k, blockedIn (autoLoop ar ab postures ∅) k = true <->
    exists p, postures !! k = Some p /\ autoBlocks ar ab p = true.
Proof.
  unfold autoLoop. destruct (ar || ab) eqn:E.
  - destruct (marks_foldl _ _ (range 0 postures) ∅ (marks_insert (autoBlocks ar ab)))
      as [Ht Hs]; [by intros k v; rewrite lookup_empty|].
    split; [done|]. intros k. rewrite Hs. unfold blockedIn at 1. rewrite lookup_empty.
    setoid_rewrite elem_of_range. naive_solver.
  - apply orb_false_iff in E as [-> ->]. split; [by intros k v; rewrite lookup_empty|].
    intros k. unfold blockedIn. rewrite lookup_empty. simpl. split; [done|].
    intros (p & _ & Hp). done.
Qed.

Lemma policyStep_spec loop postures pol b :
  all_true b ->
  all_true (policyStep loop postures pol b) /\
  forall k, blockedIn (policyStep loop postures pol b) k = true <->
    blockedIn b k = true \/
    exists p cond, postures !! k = Some p /\ p_conditions pol = Some cond /\
      appliesTo (p_network_ids pol) p = true /\ failsConditions cond p = true.
Proof.
  intros Hb. unfold policyStep. destruct (p_conditions pol) as [cond|].
  - destruct (marks_foldl _ _ (range loop postures) b
      (marks_skip (appliesTo (p_network_ids pol)) (failsConditions cond)) Hb) as [Ht Hs].
    split; [done|]. intros k. rewrite Hs. setoid_rewrite elem_of_range.
    setoid_rewrite andb_true_iff. naive_solver.
  - split; [done|]. naive_solver.
Qed.

Lemma policyLoop_spec loop postures pols b :
  all_true b ->
  all_true (policyLoop loop postures pols b) /\
  forall k, blockedIn (policyLoop loop postures pols b) k = true <->
    blockedIn b k = true \/
    exists p pol cond, postures !! k = Some p /\ pol ∈ pols /\ p_conditions pol = Some cond /\
      appliesTo (p_network_ids pol) p = true /\ failsConditions cond p = true.
Proof.
  revert loop b. induction pols as [|pol pols IH]; intros loop b Hb; simpl.
  - split; [done|]. intros k. split; [by left|].
    intros [?|(p & pol & cond & _ & ?%elem_of_nil & _)]; done.
  - destruct (policyStep_spec loop postures pol b Hb) as [Ht Hs].
    destruct (IH (S loop) _ Ht) as [Ht' Hs']. split; [done|].
    intros k. rewrite Hs', Hs. setoid_rewrite elem_of_cons. split.
    + intros [[?|(p & cond & ?)]|(p & q & cond & ?)]; [by left|right; exists p, pol, cond|right; exists p, q, cond]; naive_solver.
    + intros [?|(p & q & cond & ? & [->|?] & ?)]; [by do 2 left|left; right; eauto|].
      right. exists p, q, cond. auto.
Qed.
End blocking.

(** ** Rows of the queries *)

Lemma elem_of_if {A} (b : bool) (x y : A) : x ∈ (if b then [y] else []) <-> b = true /\ x = y.
Proof.
  destruct b; [rewrite list_elem_of_singleton|rewrite elem_of_nil]; naive_solver.
Qed.

Lemma elem_of_aclRows d gw ip c :
  (ip, c) ∈ aclRows d gw <->
  exists dev n, dev ∈ devices d /\ n ∈ networks d /\
    served d gw dev = true /\ enrolled dev = true /\
    grantedByGroup d dev n || grantedByAdmin d dev n = true /\
    ip = host (d_assigned_ip dev) /\ c = cidr_text (n_address n).
Proof.
  unfold aclRows. rewrite elem_of_remove_dups, list_elem_of_bind.
  setoid_rewrite list_elem_of_bind. setoid_rewrite elem_of_if. split.
  - intros (dev & (n & [Ht [= -> ->]] & Hn) & Hd).
    apply andb_true_iff in Ht as [[??]%andb_true_iff ?]. exists dev, n. auto 10.
  - intros (dev & n & Hd & Hn & Hs & He & Hg & -> & ->). exists dev. split; [|done].
    exists n. by rewrite Hs, He, Hg.
Qed.

Lemma elem_of_allRows d gw ip pk :
  (ip, pk) ∈ allRows d gw <->
  exists dev, dev ∈ devices d /\ served d gw dev || servedLegacy d gw dev = true /\
    enrolled dev = true /\ ip = host (d_assigned_ip dev) /\ pk = d_pubkey dev.
Proof.
  unfold allRows. rewrite elem_of_remove_dups, list_elem_of_bind.
  setoid_rewrite elem_of_if. split.
  - intros (dev & [[Hs He]%andb_true_iff [= -> ->]] & Hd). exists dev. auto 10.
  - intros (dev & Hd & Hs & He & -> & ->). exists dev. by rewrite Hs, He.
Qed.

Section rows_facts.
Context (d : db) (Hok : db_ok d).

Lemma find_owner dev :
  dev ∈ devices d -> exists u, u ∈ users d /\ u_id u = d_user_id dev /\
    List.find (fun u => String.eqb (u_id u) (d_user_id dev)) (users d) = Some u.
Proof.
  intros Hd. destruct (ok_owners d Hok dev Hd) as (u & Hu & E). exists u.
  split; [done|]. split; [done|]. rewrite <- E. apply find_by_key; [apply Hok|done].
Qed.

Lemma device_by_ip dev dev' :
  dev ∈ devices d -> dev' ∈ devices d ->
  host (d_assigned_ip dev) = host (d_assigned_ip dev') -> dev = dev'.
Proof.
  intros Hd Hd' E. destruct (ok_devices d Hok) as [_ _ Hip Hrange].
  rewrite Forall_forall in Hrange. apply host_inj in E; [|auto..].
  by eapply (NoDup_map_inj d_assigned_ip).
Qed.

Lemma ip_range dev : dev ∈ devices d -> 0 <= d_assigned_ip dev < 2^32.
Proof.
  intros Hd. destruct (ok_devices d Hok) as [_ _ _ Hr]. rewrite Forall_forall in Hr. auto.
Qed.

Lemma elem_of_postureRows gw p :
  p ∈ postureRows d gw <->
  exists dev u, dev ∈ devices d /\ u ∈ users d /\ u_id u = d_user_id dev /\
    served d gw dev = true /\ enrolled dev = true /\ p = postureRow d dev u.
Proof.
  unfold postureRows. rewrite list_elem_of_bind. split.
  - intros (dev & Hp & Hd). destruct (served d gw dev && enrolled dev) eqn:E;
      [|by apply elem_of_nil in Hp].
    destruct (find_owner dev Hd) as (u & Hu & Eu & Hf). rewrite Hf in Hp.
    apply list_elem_of_singleton in Hp. boolify. eauto 10.
  - intros (dev & u & Hd & Hu & Eu & Hs & He & ->). exists dev. split; [|done].
    rewrite Hs, He, <- Eu. simpl. rewrite find_by_key; [by left|apply Hok|done].
Qed.

Lemma postureRows_ips gw : NoDup (map IP (postureRows d gw)).
Proof.
  unfold postureRows. destruct (ok_devices d Hok) as [_ _ Hip Hrange].
  induction (devices d) as [|dev l IH]; [constructor|].
  apply NoDup_cons in Hip as [Hx Hip]. apply Forall_cons in Hrange as [Hr Hrange].
  rewrite bind_cons, map_app. specialize (IH Hip Hrange).
  destruct (served d gw dev && enrolled dev); [|done].
  destruct (List.find _ _) as [u|]; [|done]. apply NoDup_cons. split; [|done].
  intros (p & E & (dev' & Hp & Hd')%list_elem_of_bind)%list_elem_of_fmap.
  destruct (served d gw dev' && enrolled dev'); [|by apply elem_of_nil in Hp].
  destruct (List.find _ _) as [u'|]; [|by apply elem_of_nil in Hp].
  apply list_elem_of_singleton in Hp as ->.
  change (host (d_assigned_ip dev) = host (d_assigned_ip dev')) in E.
  apply host_inj in E; [|exact Hr|].
  - apply Hx, list_elem_of_fmap. eauto.
  - rewrite Forall_forall in Hrange. auto.
Qed.

Lemma allRows_ips gw : NoDup (map fst (allRows d gw)).
Proof.
  apply NoDup_fmap_fst; [|apply NoDup_remove_dups].
  intros ip pk pk' (dev & Hd & _ & _ & -> & ->)%elem_of_allRows
    (dev' & Hd' & _ & _ & E & ->)%elem_of_allRows.
  by rewrite (device_by_ip dev dev').
Qed.

Context `{GoRange, SqlOrder}.

Lemma devicePostures_lookup gw k p :
  devicePostures (rows 2 (postureRows d gw)) !! k = Some p <->
  p ∈ postureRows d gw /\ IP p = k.
Proof.
  unfold devicePostures.
  rewrite (foldl_insert_lookup IP (fun p => p)).
  - rewrite lookup_empty. setoid_rewrite elem_of_rows. naive_solver.
  - rewrite (fmap_Permutation IP _ (postureRows d gw)) by apply rows_perm.
    apply postureRows_ips.
Qed.

Lemma devicePubkeys_lookup gw k pk :
  devicePubkeys (rows 1 (allRows d gw)) !! k = Some pk <-> (k, pk) ∈ allRows d gw.
Proof.
  unfold devicePubkeys. rewrite (foldl_insert_lookup fst snd).
  - rewrite lookup_empty. setoid_rewrite elem_of_rows. split.
    + intros [([a b] & ? & <- & <-)|[_ ?]]; done.
    + intros Hin. left. exists (k, pk). auto.
  - rewrite (fmap_Permutation fst _ (allRows d gw)) by apply rows_perm. apply allRows_ips.
Qed.

(** The computed set of blocked addresses is the declared one. *)
Lemma ztnaBlocked_spec gw :
  all_true (ztnaBlocked no_faults d gw) /\
  forall k, blockedIn (ztnaBlocked no_faults d gw) k = true <->
    exists dev u, dev ∈ devices d /\ u ∈ users d /\ u_id u = d_user_id dev /\
      served d gw dev = true /\ enrolled dev = true /\ k = host (d_assigned_ip dev) /\
      ztna_blocks d dev u.
Proof.
  unfold ztnaBlocked, trustFlags, no_faults. cbn [postureFails policyFails trustFails].
  set (postures := devicePostures _). set (fl := default _ (trust_auto d)).
  destruct (autoLoop_spec fl.1 fl.2 postures) as [Ht Hs].
  destruct (policyLoop_spec 3 postures (rows_by 3 p_priority (policyRows d)) _ Ht) as [Ht' Hs'].
  split; [done|]. intros k. rewrite Hs', Hs. subst postures.
  setoid_rewrite devicePostures_lookup. setoid_rewrite elem_of_postureRows. split.
  - intros [(p & [(dev & u & Hd & Hu & Eu & Hsv & He & ->) <-] & Hb)
           |(p & pol & cond & [(dev & u & Hd & Hu & Eu & Hsv & He & ->) <-] & Hpol & Hc & Ha & Hf)];
      exists dev, u; repeat (split; [done|]);
      apply ztna_blocks_iff; try by eapply serves_network, served_iff.
    + left. done.
    + right. exists pol, cond. rewrite elem_of_rows_by in Hpol. auto.
  - intros (dev & u & Hd & Hu & Eu & Hsv & He & -> & Hz).
    apply ztna_blocks_iff in Hz as [Hb|(pol & cond & Hpol & Hc & Ha & Hf)]; [| |by eapply serves_network, served_iff].
    + left. exists (postureRow d dev u). split; [|done]. split; [|done]. exists dev, u. auto 10.
    + right. exists (postureRow d dev u), pol, cond. rewrite elem_of_rows_by.
      split; [|done]. split; [|done]. exists dev, u. auto 10.
Qed.
End rows_facts.

(** ** Verdicts *)

Lemma cidr_text_ne c : cidr_text c <> ""%string.
Proof.
  intros E. assert (no_char "/" (cidr_text c) = true) as Hn by by rewrite E.
  unfold cidr_text in Hn. rewrite no_char_app in Hn. boolify. done.
Qed.

Lemma verdict_app l1 l2 src dst :
  verdict (l1 ++ l2) src dst =
  match verdict l1 src dst with Some a => Some a | None => verdict l2 src dst end.
Proof. unfold verdict. rewrite find_app. by destruct (List.find _ l1). Qed.

(** A rule for the host [a] says nothing on packets of another source. *)
Lemma rule_matches_src a dst' act src dst : 0 <= a < 2^32 ->
  rule_matches (rule (host a ++ "/32") dst' act) src dst =
  bool_decide (src = a) && (String.eqb dst' "" || cidr_matches dst' dst).
Proof. intros Ha. unfold rule_matches. cbn [Source Destination rule]. by rewrite cidr_matches_host. Qed.

Lemma verdict_accepts a cs src dst : 0 <= a < 2^32 -> Forall (fun c => c <> ""%string) cs ->
  verdict (map (fun c => rule (host a ++ "/32") c ACTION_ACCEPT) cs) src dst =
  if bool_decide (src = a) && existsb (fun c => cidr_matches c dst) cs
  then Some ACTION_ACCEPT else None.
Proof.
  intros Ha Hcs. unfold verdict. induction Hcs as [|c cs Hc Hcs IH]; cbn [map List.find existsb].
  - by rewrite andb_false_r.
  - rewrite rule_matches_src by done. apply String.eqb_neq in Hc as ->. cbn [orb].
    destruct (bool_decide (src = a)), (cidr_matches c dst); done.
Qed.

Lemma verdict_drop a src dst : 0 <= a < 2^32 ->
  verdict [rule (host a ++ "/32") "" ACTION_DROP] src dst =
  if bool_decide (src = a) then Some ACTION_DROP else None.
Proof.
  intros Ha. unfold verdict. cbn [List.find]. rewrite rule_matches_src by done.
  by destruct (bool_decide (src = a)).
Qed.

Lemma verdict_deviceRules blocked a cs src dst :
  0 <= a < 2^32 -> Forall (fun c => c <> ""%string) cs ->
  verdict (deviceRules blocked (host a, cs)) src dst =
  if bool_decide (src = a) then
    Some (if negb (blockedIn blocked (host a)) && existsb (fun c => cidr_matches c dst) cs
          then ACTION_ACCEPT else ACTION_DROP)
  else None.
Proof.
  intros Ha Hcs. unfold deviceRules. cbn [fst snd].
  destruct (blockedIn blocked (host a)); cbn [negb andb].
  - by apply verdict_drop.
  - rewrite verdict_app, verdict_accepts, verdict_drop by done.
    by destruct (bool_decide (src = a)), (existsb _ cs).
Qed.

Lemma verdict_None rs src dst :
  verdict rs src dst = None <-> List.find (fun r => rule_matches r src dst) rs = None.
Proof. unfold verdict. by destruct (List.find _ rs). Qed.

Section verdicts.
Context `{GoRange, SqlOrder} (d : db) (Hok : db_ok d) (gw : string).

Let acls := deviceACLs (rows 0 (aclRows d gw)).

Lemma acls_Some ip cs : acls !! ip = Some cs ->
  exists dev, dev ∈ devices d /\ served d gw dev = true /\ enrolled dev = true /\
    ip = host (d_assigned_ip dev) /\ Forall (fun c => c <> ""%string) cs /\
    forall dst, existsb (fun c => cidr_matches c dst) cs = true <-> granted d dev dst.
Proof.
  intros (Hex & Hcs)%deviceACLs_Some. setoid_rewrite elem_of_rows in Hcs.
  destruct Hex as (c0 & (dev & n0 & Hd & Hn0 & Hs & He & Hg0 & Hip & _)%elem_of_rows%elem_of_aclRows).
  exists dev. do 4 (split; [done|]). split.
  - apply Forall_forall. intros c (dev' & n & _ & _ & _ & _ & _ & _ & ->)%Hcs%elem_of_aclRows.
    apply cidr_text_ne.
  - intros dst. rewrite existsb_exists. setoid_rewrite <- list_elem_of_In.
    assert (Forall (fun n => cidr_wf (n_address n)) (networks d)) as Hwf by apply Hok.
    rewrite Forall_forall in Hwf. split.
    + intros (c & (dev' & n & Hd' & Hn & _ & _ & Hg & Hip' & ->)%Hcs%elem_of_aclRows & Hm).
      rewrite (device_by_ip d Hok dev dev') by congruence.
      rewrite cidr_matches_text in Hm by auto. apply grants_iff in Hg as [Hact Hg]. by exists n.
    + intros (n & Hn & Hact & Hc & Hg0'). pose proof (proj2 (grants_iff d dev n) (conj Hact Hg0')) as Hg. exists (cidr_text (n_address n)).
      rewrite Hcs, elem_of_aclRows, cidr_matches_text by auto. split; [|done].
      exists dev, n. auto 10.
Qed.

Lemma acls_None dev :
  dev ∈ devices d -> acls !! host (d_assigned_ip dev) = None ->
  served d gw dev = true -> enrolled dev = true -> forall dst, ~ granted d dev dst.
Proof.
  intros Hd Hl Hs He dst (n & Hn & Hact & _ & Hg0). pose proof (proj2 (grants_iff d dev n) (conj Hact Hg0)) as Hg.
  eapply (deviceACLs_None _ _ (cidr_text (n_address n)) Hl). rewrite elem_of_rows, elem_of_aclRows.
  exists dev, n. auto 10.
Qed.

(** The part of the rule list for devices with ACL entries. *)
Lemma verdict_acl_part blocked src dst :
  verdict (flat_map (deviceRules blocked) (range 1 acls)) src dst =
  match acls !! host src with
  | Some cs => if decide (0 <= src < 2^32) then
      Some (if negb (blockedIn blocked (host src)) && existsb (fun c => cidr_matches c dst) cs
            then ACTION_ACCEPT else ACTION_DROP) else None
  | None => None
  end.
Proof.
  assert (forall ip cs, (ip, cs) ∈ range 1 acls -> exists a, ip = host a /\ 0 <= a < 2^32 /\
    Forall (fun c => c <> ""%string) cs) as Hent.
  { intros ip cs (dev & Hd & _ & _ & -> & Hcs & _)%elem_of_range%acls_Some.
    eexists. split; [done|]. split; [by apply ip_range with d|done]. }
  assert (~ (0 <= src < 2^32) \/ acls !! host src = None ->
    verdict (flat_map (deviceRules blocked) (range 1 acls)) src dst = None) as Hnone.
  { intros Hcase. apply verdict_None, find_flat_map_none. intros [ip cs] Hin.
    destruct (Hent _ _ Hin) as (a & -> & Ha & Hcs). apply verdict_None.
    rewrite verdict_deviceRules by done. rewrite bool_decide_false; [done|]. intros ->.
    destruct Hcase as [?|Hl]; [done|]. apply elem_of_range in Hin. congruence. }
  destruct (acls !! host src) as [cs|] eqn:Hl; [|by apply Hnone; right].
  case_decide as Hr; [|by apply Hnone; left].
  assert (Hin : (host src, cs) ∈ range 1 acls) by by apply elem_of_range.
  unfold verdict. rewrite (find_flat_map_one _ _ _ (host src, cs)); [|done| |apply _].
  - destruct (Hent _ _ Hin) as (a & E & Ha & Hcs). apply host_inj in E; [|done..]. subst a.
    fold (verdict (deviceRules blocked (host src, cs)) src dst).
    rewrite verdict_deviceRules by done. by rewrite bool_decide_true.
  - intros [ip cs'] Hin' Hne. destruct (Hent _ _ Hin') as (a & -> & Ha & Hcs).
    apply verdict_None. rewrite verdict_deviceRules by done. rewrite bool_decide_false; [done|].
    intros ->. apply elem_of_range in Hin'. congruence.
Qed.
End verdicts.

Lemma accept_iff (b g : bool) (P : Prop) :
  (b = true <-> P) ->
  let v := Some (if negb b && g then ACTION_ACCEPT else ACTION_DROP) in
  (v = Some ACTION_ACCEPT <-> ~ P /\ g = true) /\ (v = Some ACTION_ACCEPT \/ v = Some ACTION_DROP).
Proof. intros HP. destruct b, g; simpl; intuition congruence. Qed.

Section main.
Context `{GoRange, SqlOrder} (d : db) (Hok : db_ok d) (gw : string).

(** The device whose packets a gateway handles: enrolled, with a network the
    gateway serves. *)
Definition on_gateway (dev : device) : Prop :=
  dev ∈ devices d /\ enrolled dev = true /\ served d gw dev || servedLegacy d gw dev = true.

Lemma on_gateway_iff dev :
  on_gateway dev <-> dev ∈ devices d /\ admitted dev /\ (serves d gw dev \/ attached d gw dev).
Proof. unfold on_gateway. by rewrite orb_true_iff, enrolled_iff, served_iff, servedLegacy_iff. Qed.

(** The default-deny part of the rule list. *)
Lemma verdict_deny_part (acls : gmap string (list string)) src dst :
  (forall dev, on_gateway dev -> d_assigned_ip dev = src -> acls !! host src = None ->
     verdict (flat_map (fun kv => denyRule acls kv.1) (rows 1 (allRows d gw))) src dst = Some ACTION_DROP) /\
  ((forall dev, on_gateway dev -> d_assigned_ip dev <> src) ->
     verdict (flat_map (fun kv => denyRule acls kv.1) (rows 1 (allRows d gw))) src dst = None).
Proof.
  assert (forall kv, kv ∈ rows 1 (allRows d gw) -> exists dev, on_gateway dev /\
    kv = (host (d_assigned_ip dev), d_pubkey dev)) as Hent.
  { intros [ip pk] (dev & Hd & Hs & He & -> & ->)%elem_of_rows%elem_of_allRows.
    exists dev. done. }
  assert (forall kv dev, kv = (host (d_assigned_ip dev), d_pubkey dev) -> on_gateway dev ->
    d_assigned_ip dev <> src -> List.find (fun r => rule_matches r src dst) (denyRule acls kv.1) = None)
    as Hother.
  { intros kv dev -> [Hd _] Hne. apply verdict_None. unfold denyRule. cbn [fst].
    destruct (acls !! _); [done|]. rewrite verdict_drop by by apply ip_range with d.
    by rewrite bool_decide_false by congruence. }
  split.
  - intros dev Hg <- Hnone. unfold verdict.
    rewrite (find_flat_map_one _ _ _ (host (d_assigned_ip dev), d_pubkey dev)); [| | |apply _].
    + cbn [fst]. unfold denyRule. rewrite Hnone.
      fold (verdict [rule (host (d_assigned_ip dev) ++ "/32") "" ACTION_DROP] (d_assigned_ip dev) dst).
      rewrite verdict_drop by (eapply ip_range; [done|apply Hg]). by rewrite bool_decide_true.
    + apply elem_of_rows, elem_of_allRows. exists dev. destruct Hg as (? & ? & ?). auto.
    + intros kv Hkv Hne. destruct (Hent kv Hkv) as (dev' & Hg' & ->).
      eapply Hother; [done|done|]. intros E. apply Hne.
      by rewrite (device_by_ip d Hok dev' dev) by (apply Hg' || apply Hg || by rewrite E).
  - intros Hno. apply verdict_None, find_flat_map_none. intros kv Hkv.
    destruct (Hent kv Hkv) as (dev' & Hg' & ->). eapply Hother; eauto.
Qed.

Lemma build_shape : exists r,
  buildFirewallConfigFromPool no_faults d gw = Some r /\
  let acls := deviceACLs (rows 0 (aclRows d gw)) in
  Rules (Config r) = flat_map (deviceRules (ztnaBlocked no_faults d gw)) (range 1 acls) ++
    flat_map (fun kv => denyRule acls kv.1) (rows 1 (allRows d gw)) /\
  BlockedPubkeys r = omap (blockedKey (devicePubkeys (rows 1 (allRows d gw))))
    (range 2 (ztnaBlocked no_faults d gw)).
Proof. eexists. split; [reflexivity|]. split; reflexivity. Qed.

Lemma blockedIn_device dev u :
  dev ∈ devices d -> u ∈ users d -> u_id u = d_user_id dev ->
  served d gw dev = true -> enrolled dev = true ->
  blockedIn (ztnaBlocked no_faults d gw) (host (d_assigned_ip dev)) = true <-> ztna_blocks d dev u.
Proof.
  intros Hd Hu Eu Hs He. destruct (ztnaBlocked_spec d Hok gw) as [_ ->]. split.
  - intros (dev' & u' & Hd' & Hu' & Eu' & _ & _ & E & Hb).
    apply (device_by_ip d Hok) in E; [|done..]. subst dev'.
    assert (u' = u) as -> by (eapply (NoDup_map_inj u_id); [apply Hok|done|done|congruence]).
    done.
  - intros Hb. exists dev, u. auto 10.
Qed.

Lemma rules_of_served dev u dst r :
  buildFirewallConfigFromPool no_faults d gw = Some r ->
  dev ∈ devices d -> u ∈ users d -> u_id u = d_user_id dev ->
  served d gw dev = true -> enrolled dev = true ->
  (verdict (Rules (Config r)) (d_assigned_ip dev) dst = Some ACTION_ACCEPT <->
     ~ ztna_blocks d dev u /\ granted d dev dst) /\
  (verdict (Rules (Config r)) (d_assigned_ip dev) dst = Some ACTION_ACCEPT \/
   verdict (Rules (Config r)) (d_assigned_ip dev) dst = Some ACTION_DROP).
Proof.
  intros Hr Hd Hu Eu Hs He. destruct build_shape as (r' & Hr' & Hrules & _).
  assert (r' = r) as -> by congruence. cbv zeta in Hrules.
  rewrite Hrules, verdict_app, verdict_acl_part by done.
  pose proof (blockedIn_device dev u Hd Hu Eu Hs He) as Hbl.
  destruct (deviceACLs _ !! _) as [cs|] eqn:Hl.
  - rewrite decide_True by by apply ip_range with d.
    destruct (acls_Some d Hok gw _ _ Hl) as (dev' & Hd' & _ & _ & E & _ & Hgr).
    apply (device_by_ip d Hok) in E; [|done..]. subst dev'. rewrite <- Hgr.
    by apply accept_iff.
  - rewrite (proj1 (verdict_deny_part _ _ dst) dev); [| |done|done].
    + split; [|by right]. split; [done|]. intros [_ Hg].
      by destruct (acls_None d gw dev Hd Hl Hs He dst).
    + split; [done|]. by rewrite He, Hs.
Qed.

(** Every computed rule is one the gateway can install, for a device of the
    gateway. *)
Definition rule_wf (r : FirewallRule) : Prop :=
  Protocol r = ""%string /\ RuleAction r <> ACTION_UNSPECIFIED /\
  (Destination r = ""%string \/ is_Some (ParseCIDR (Destination r))) /\
  exists dev, on_gateway dev /\ Source r = (host (d_assigned_ip dev) ++ "/32")%string.

Lemma build_rules_wf r :
  buildFirewallConfigFromPool no_faults d gw = Some r -> Forall rule_wf (Rules (Config r)).
Proof.
  intros Hr. destruct build_shape as (r' & Hr' & Hrules & _). assert (r' = r) as -> by congruence.
  cbv zeta in Hrules. rewrite Hrules. apply Forall_forall. intros x.
  assert (forall dev, on_gateway dev ->
    rule_wf (rule (host (d_assigned_ip dev) ++ "/32") "" ACTION_DROP)) as Hdrop.
  { intros dev Hg. repeat split; [done|by left|]. by exists dev. }
  rewrite elem_of_app, !list_elem_of_In, !in_flat_map. setoid_rewrite <- list_elem_of_In.
  intros [([ip cs] & Hin & Hx)|([ip pk] & Hin & Hx)].
  - apply elem_of_range in Hin.
    destruct (acls_Some d Hok gw _ _ Hin) as (dev & Hd & Hs & He & -> & _).
    assert (on_gateway dev) as Hg by (split; [done|]; by rewrite He, Hs).
    apply deviceACLs_Some in Hin as [_ Hcs]. unfold deviceRules in Hx. cbn [fst snd] in Hx.
    destruct (blockedIn _ _); [by apply list_elem_of_singleton in Hx as ->; auto|].
    apply elem_of_app in Hx as [(c & -> & Hc)%list_elem_of_fmap|Hx%list_elem_of_singleton];
      [|subst; auto].
    apply Hcs, elem_of_rows, elem_of_aclRows in Hc as (_ & n & _ & Hn & _ & _ & _ & _ & ->).
    repeat split; [done|right|by exists dev]. cbn [Destination rule].
    assert (Forall (fun n => cidr_wf (n_address n)) (networks d)) as Hwf by apply Hok.
    rewrite Forall_forall in Hwf. rewrite ParseCIDR_text by auto. by eexists.
  - apply elem_of_rows, elem_of_allRows in Hin as (dev & Hd & Hs & He & -> & _).
    unfold denyRule in Hx. cbn [fst] in Hx.
    destruct (deviceACLs _ !! _); [by apply elem_of_nil in Hx|].
    apply list_elem_of_singleton in Hx as ->. apply Hdrop. done.
Qed.

(** Every device of the gateway is the source of some DROP rule. *)
Lemma build_drops r dev :
  buildFirewallConfigFromPool no_faults d gw = Some r -> on_gateway dev ->
  exists x, x ∈ Rules (Config r) /\ RuleAction x = ACTION_DROP /\
    Source x = (host (d_assigned_ip dev) ++ "/32")%string.
Proof.
  intros Hr Hg. destruct build_shape as (r' & Hr' & Hrules & _). assert (r' = r) as -> by congruence.
  cbv zeta in Hrules. rewrite Hrules.
  exists (rule (host (d_assigned_ip dev) ++ "/32") "" ACTION_DROP). split; [|done].
  rewrite elem_of_app, !list_elem_of_In, !in_flat_map. setoid_rewrite <- list_elem_of_In.
  destruct (deviceACLs (rows 0 (aclRows d gw)) !! host (d_assigned_ip dev)) as [cs|] eqn:Hl.
  - left. exists (host (d_assigned_ip dev), cs). rewrite elem_of_range. split; [done|].
    unfold deviceRules. cbn [fst snd]. destruct (blockedIn _ _); [by left|].
    apply elem_of_app. right. by left.
  - right. exists (host (d_assigned_ip dev), d_pubkey dev). split.
    + apply elem_of_rows, elem_of_allRows. destruct Hg as (? & ? & ?). by exists dev.
    + unfold denyRule. cbn [fst]. rewrite Hl. by left.
Qed.


Lemma blocked_keys r pk :
  buildFirewallConfigFromPool no_faults d gw = Some r ->
  pk ∈ BlockedPubkeys r <->
  exists dev u, dev ∈ devices d /\ u ∈ users d /\ u_id u = d_user_id dev /\
    served d gw dev = true /\ enrolled dev = true /\ ztna_blocks d dev u /\ pk = d_pubkey dev.
Proof.
  intros Hr. destruct build_shape as (r' & Hr' & _ & Hb). assert (r' = r) as -> by congruence.
  destruct (ztnaBlocked_spec d Hok gw) as [Ht Hbl].
  rewrite Hb, list_elem_of_omap. unfold blockedKey. split.
  - intros ([k v] & Hin & Hk). apply elem_of_range in Hin. cbn [fst] in Hk.
    destruct (devicePubkeys _ !! k) as [pk'|] eqn:Hp; [|done].
    rewrite (devicePubkeys_lookup d Hok gw), elem_of_allRows in Hp.
    destruct Hp as (dev & Hd & _ & He & -> & ->).
    destruct (String.eqb_spec (d_pubkey dev) ""); [done|]. injection Hk as <-.
    pose proof (Ht _ _ Hin) as ->.
    destruct (proj1 (Hbl (host (d_assigned_ip dev)))) as (dev' & u & Hd' & Hu & Eu & Hs & He' & E & Hz).
    { unfold blockedIn. by rewrite Hin. }
    apply (device_by_ip d Hok) in E; [|done..]. subst dev'. exists dev, u. auto 10.
  - intros (dev & u & Hd & Hu & Eu & Hs & He & Hz & ->).
    pose proof (proj2 (blockedIn_device dev u Hd Hu Eu Hs He) Hz) as Hbk.
    unfold blockedIn in Hbk. destruct (ztnaBlocked no_faults d gw !! _) as [v|] eqn:Hl; [|done].
    exists (host (d_assigned_ip dev), v). rewrite elem_of_range. split; [done|]. cbn [fst].
    rewrite (proj2 (devicePubkeys_lookup d Hok gw (host (d_assigned_ip dev)) (d_pubkey dev))).
    + unfold enrolled in He. destruct (String.eqb (d_pubkey dev) ""); [by boolify|done].
    + apply elem_of_allRows. exists dev. by rewrite Hs.
Qed.

(** The zero-trust rules with the automatic restriction switched off: the
    level low or critical while [auto_block_below_low] is on, or a policy. *)
Lemma blocks_without_restrict dev u block : trust_auto d = Some (false, block) ->
  ztna_blocks d dev u <->
  (block = true /\ (trust_level d dev = "low"%string \/ trust_level d dev = "critical"%string)) \/
  violates d dev u.
Proof.
  intros Ht. unfold ztna_blocks, below_threshold. split.
  - intros [(r & b & E & Hb)|Hp]; [|by right]. left. rewrite Ht in E. injection E as <- <-. naive_solver.
  - intros [[-> Hl]|Hp]; [|by right]. left. exists false, true. naive_solver.
Qed.


(** [fetchPeers] returns one peer per enrolled device of the gateway's
    networks, the legacy column included, each with its own [/32]; no two peers
    share a key, and an address routes to one peer only. *)
Theorem fetchPeers_correct ps :
  fetchPeers false d gw = Ok ps ->
  (forall p, p ∈ ps <-> exists dev, on_gateway dev /\
     p = {| PublicKey := d_pubkey dev; AllowedIps := [(host (d_assigned_ip dev) ++ "/32")%string];
            Endpoint := ""; PersistentKeepalive := 25 |}) /\
  NoDup (map PublicKey ps) /\
  (forall ip p q a b, p ∈ ps -> q ∈ ps -> a ∈ AllowedIps p -> b ∈ AllowedIps q ->
     cidr_matches a ip = true -> cidr_matches b ip = true -> p = q).
Proof.
  unfold fetchPeers. intros [= <-].
  assert (forall r, r ∈ rows 4 (peerRows d gw) <-> exists dev, on_gateway dev /\
    r = (d_pubkey dev, (host (d_assigned_ip dev) ++ "/32")%string)) as Hin.
  { intros r. rewrite elem_of_rows. unfold peerRows. rewrite elem_of_remove_dups, list_elem_of_bind.
    setoid_rewrite elem_of_if. split.
    - intros (dev & [[Hs He]%andb_true_iff ->] & Hd). by exists dev.
    - intros (dev & (Hd & He & Hs) & ->). exists dev. by rewrite Hs, He. }
  split; [|split].
  - intros p. rewrite list_elem_of_fmap. setoid_rewrite Hin. split.
    + intros (r & -> & dev & Hg & ->). by exists dev.
    + intros (dev & Hg & ->). exists (d_pubkey dev, (host (d_assigned_ip dev) ++ "/32")%string).
      split; [reflexivity|]. by exists dev.
  - rewrite map_map. cbn [PublicKey]. apply NoDup_fmap_fst.
    + intros pk a b (dev & Hg & [= -> ->])%Hin (dev' & Hg' & [= E ->])%Hin.
      destruct (ok_devices d Hok) as [_ Hpk _ _].
      rewrite (NoDup_map_inj d_pubkey (devices d) dev dev'); [done|done|apply Hg|apply Hg'|done].
    + rewrite rows_perm. apply NoDup_remove_dups.
  - intros ip p q a b. rewrite !list_elem_of_fmap.
    intros (r & -> & Hr) (r' & -> & Hr'). cbn [AllowedIps].
    rewrite !list_elem_of_singleton. intros -> ->.
    apply Hin in Hr as (dev & Hg & ->), Hr' as (dev' & Hg' & ->). cbn [fst snd].
    rewrite !cidr_matches_host by (apply ip_range with d; [done|apply Hg || apply Hg']).
    rewrite !bool_decide_eq_true. intros -> E.
    by rewrite (device_by_ip d Hok dev dev') by (apply Hg || apply Hg' || by rewrite E).
Qed.

Lemma fetchSmartRoutes_spec rules :
  fetchSmartRoutesForGateway false d gw = Some rules ->
  rules <> [] /\ (forall r, r ∈ rules <-> r ∈ smartRouteRows d gw) /\
  StronglySorted (fun x y => Priority x <= Priority y) rules.
Proof.
  unfold fetchSmartRoutesForGateway. destruct (rows_by 5 Priority _) as [|r l] eqn:E; [done|].
  intros [= <-]. split; [done|]. rewrite <- E. split.
  - intros x. apply elem_of_rows_by.
  - apply rows_by_sorted.
Qed.
End main.

(** ** A small deployment *)

Definition mkUser (id : string) (admin : bool) : user := {|
  u_id := id; u_username := id; u_email := id; u_password_hash := None; u_first_name := "";
  u_last_name := ""; u_phone := None; u_is_active := true; u_is_admin := admin;
  u_mfa_enabled := false; u_created_at := 0; u_updated_at := 0 |}.

Definition mkDevice (id uid pk : string) (ip : Z) (net : string) : device := {|
  d_id := id; d_user_id := uid; d_name := id; d_pubkey := pk; d_privkey := None;
  d_assigned_ip := ip; d_is_approved := true; d_last_handshake := None;
  d_network_id := Some net; d_created_at := 0; d_updated_at := 0 |}.

Definition mkNetwork (id : string) (a : cidr) : network := {|
  n_id := id; n_name := id; n_address := a; n_tunnel_cidr := None; n_dns := []; n_port := 51820;
  n_keepalive := 25; n_is_active := true; n_created_at := 0; n_updated_at := 0 |}.

Definition mkGateway (id : string) (legacy : option string) : gateway := {|
  g_id := id; g_network_id := legacy; g_name := id; g_public_ip := None; g_pubkey := id;
  g_privkey := None; g_endpoint := ""; g_is_active := true; g_priority := 100;
  g_token_hash := id; g_last_seen := None; g_health_status := "healthy";
  g_consecutive_failures := 0; g_created_at := 0; g_updated_at := 0 |}.

Definition ann_dev := mkDevice "d1" "ann" "pkA" 168427522 "n1".
Definition bob_dev := mkDevice "d2" "bob" "pkB" 168427523 "n1".
Definition old_dev := mkDevice "d3" "bob" "pkC" 168427778 "n2".

(** Network n1 is 10.10.0.0/24, n2 is 10.10.1.0/24, n3 is 10.20.0.0/16; the
    gateway serves n1 through the junction table and n2 through the legacy
    column.  Ann's group has an ACL on n3; Bob is an administrator whose device
    has never been scored. *)
Definition demo_db : db := {|
  users := [mkUser "ann" false; mkUser "bob" true];
  devices := [ann_dev; bob_dev; old_dev];
  networks := [mkNetwork "n1" (Cidr 168427520 24); mkNetwork "n2" (Cidr 168427776 24);
               mkNetwork "n3" (Cidr 169082880 16)];
  gateways := [mkGateway "g1" (Some "n2")];
  gateway_networks := [("g1", "n1")];
  groups := [{| gr_id := "dev"; gr_name := "dev"; gr_description := ""; gr_is_system := false;
                gr_created_at := 0 |}];
  user_groups := [("ann", "dev")];
  network_acls := [{| a_id := "a1"; a_network_id := "n3"; a_group_id := "dev"; a_allowed_ips := [] |}];
  device_posture := [];
  device_trust_scores := [{| ts_device_id := "d1"; ts_score := 90; ts_level := "high";
                             ts_violations := []; ts_evaluated_at := 5 |}];
  trust_auto := Some (true, false);
  ztna_policies := [];
  smart_routes := [("s1", true)];
  smart_route_entries := [{| e_smart_route_id := "s1"; e_entry_type := "cidr";
                             e_value := "10.20.0.0/16"; e_action := "direct"; e_priority := 10 |}];
  network_smart_routes := [("n1", "s1")]; roles := []; user_roles := []; logins := [] |}.

Lemma demo_db_ok : db_ok demo_db.
Proof.
  split.
  - split; apply (bool_decide_unpack _); vm_compute; exact I.
  - apply (bool_decide_unpack _). vm_compute. exact I.
  - intros dev. simpl. rewrite !elem_of_cons, elem_of_nil.
    intros [->|[->|[->|[]]]]; (exists (mkUser "ann" false) + exists (mkUser "bob" true));
      (split; [|reflexivity]); rewrite !elem_of_cons; auto.
  - repeat (apply Forall_cons; split; [by repeat split; simpl; try lia|]). by apply Forall_nil.
Qed.

Lemma bob_blocked : ztna_blocks demo_db bob_dev (mkUser "bob" true).
Proof.
  left. exists true, false. split; [reflexivity|]. right. split; [by right|]. vm_compute. reflexivity.
Qed.


(** The same deployment with the automatic block instead of the restriction. *)
Definition block_db : db := set_trust_auto demo_db (Some (false, true)).

Lemma block_db_ok : db_ok block_db.
Proof. destruct demo_db_ok. by split. Qed.


Lemma fetchPeers_correct_witness : exists ps,
  @fetchPeers sql_default false demo_db "g1" = Ok ps /\ map PublicKey ps = ["pkA"; "pkB"; "pkC"]%string /\
  NoDup (map PublicKey ps).
Proof.
  eexists. split; [vm_compute; reflexivity|]. split; [reflexivity|].
  refine (proj1 (proj2 (@fetchPeers_correct sql_default demo_db demo_db_ok "g1" _ _))).
  vm_compute. reflexivity.
Defined.

(** ** Where the code falls short *)

(** When the query for all devices fails, only a warning is logged: a device
    without ACL entries gets no rule at all, so its packets fall through to
    whatever follows the chain instead of being denied. *)
Theorem all_devices_query_fails_open : exists r,
  @buildFirewallConfigFromPool range_default sql_default
    {| aclFails := false; allFails := true; trustFails := false; postureFails := false;
       policyFails := false |} demo_db "g1" = Some r /\
  verdict (Rules (Config r)) (d_assigned_ip old_dev) 169082881 = None.
Proof. eexists. split; [vm_compute; reflexivity|vm_compute; reflexivity]. Qed.

(** The gateway grants the whole network: an access list that names one
    address of it opens the others as well. *)
Theorem allowed_ips_ignored :
  let d := set_network_acls demo_db [{| a_id := "a1"; a_network_id := "n3"; a_group_id := "dev";
                                        a_allowed_ips := [Cidr 169082881 32] |}] in
  match @buildFirewallConfigFromPool range_default sql_default no_faults d "g1" with
  | Some r => verdict (Rules (Config r)) (d_assigned_ip ann_dev) 169082999 = Some ACTION_ACCEPT
  | None => False
  end.
Proof. vm_compute. reflexivity. Qed.

(** [auto_restrict_below_medium] blocks a device at level critical only: one
    at level low, which is below medium as well, keeps its access. *)
Theorem auto_restrict_spares_low p :
  TrustLevel p = "low"%string -> autoBlocks true false p = false.
Proof. intros E. unfold autoBlocks. by rewrite E. Qed.

(** A device the zero-trust rules block is still among the peers of the next
    full configuration. *)
Theorem blocked_device_still_peer : exists r ps,
  @buildFirewallConfigFromPool range_default sql_default no_faults demo_db "g1" = Some r /\
  @fetchPeers sql_default false demo_db "g1" = Ok ps /\
  "pkB"%string ∈ BlockedPubkeys r /\ "pkB"%string ∈ map PublicKey ps.
Proof.
  do 2 eexists. split; [vm_compute; reflexivity|]. split; [vm_compute; reflexivity|].
  split; vm_compute; repeat constructor.
Qed.
