(* ===== verification/Firewall.v ===== *)
(** * Packet filter of the gateway

    [internal/gateway/firewall.go].  The manager drives the [iptables] and
    [conntrack] programs; they are a parameter of the model, class [Netfilter],
    whose laws state their documented behaviour on the commands in use.  The
    theorems say what the chains hold after each operation and what happens to
    a packet that traverses FORWARD. *)

From S2P Require Import Prelude Net Schema Policy.
From Stdlib Require Import ZArith Lia Ascii String.
From stdpp Require Import base gmap strings list sorting pretty.

Local Open Scope Z_scope.

(** ** iptables and conntrack *)

(** A rule specification, as the words that follow the chain name. *)
Abbreviation spec := (list string).
(** A table: its chains and their rules. *)
Abbreviation table := (gmap string (list (list string))).

Inductive cmd :=
| NewChain (c : string)
| FlushChain (c : string)
| Append (c : string) (s : spec)
| CheckRule (c : string) (s : spec)
| InsertFirst (c : string) (s : spec)
| DeleteRule (c : string) (s : spec)
| DeleteChain (c : string).

Definition cmd_args (m : cmd) : list string :=
  match m with
  | NewChain c => ["-N"; c]
  | FlushChain c => ["-F"; c]
  | Append c s => "-A" :: c :: s
  | CheckRule c s => "-C" :: c :: s
  | InsertFirst c s => "-I" :: c :: "1" :: s
  | DeleteRule c s => "-D" :: c :: s
  | DeleteChain c => ["-X"; c]
  end%string.

Definition cmd_chain (m : cmd) : string :=
  match m with
  | NewChain c | FlushChain c | Append c _ | CheckRule c _ | InsertFirst c _ | DeleteRule c _
  | DeleteChain c => c
  end.

Definition outpostChain : string := "OUTPOST-FWD".
Definition smartChain : string := "OUTPOST-SMART".

(** The chains the program operates on, the first two built in. *)
Definition builtin_chains : list string := ["FORWARD"; "POSTROUTING"]%string.
Definition our_chains : list string := builtin_chains ++ [outpostChain; smartChain].

(** Some rule of the table jumps to the chain. *)
Definition referenced (t : table) (c : string) : bool :=
  existsb (fun kv => existsb (fun s => bool_decide (list.last s = Some c)) kv.2) (map_to_list t).

Fixpoint remove_first (s : spec) (l : list spec) : list spec :=
  match l with
  | [] => []
  | x :: l => if decide (x = s) then l else x :: remove_first s l
  end.

(** iptables(8): the effect of a command on a table and its success. *)
Definition cmd_effect (accepts : table -> spec -> bool) (m : cmd) (t : table) : table * bool :=
  match m with
  | NewChain c => match t !! c with None => (<[c := []]> t, true) | Some _ => (t, false) end
  | FlushChain c => match t !! c with Some _ => (<[c := []]> t, true) | None => (t, false) end
  | Append c s =>
      match t !! c with
      | Some l => if accepts t s then (<[c := l ++ [s]]> t, true) else (t, false)
      | None => (t, false)
      end
  | CheckRule c s =>
      (t, match t !! c with Some l => bool_decide (s ∈ l) | None => false end)
  | InsertFirst c s =>
      match t !! c with
      | Some l => if accepts t s then (<[c := s :: l]> t, true) else (t, false)
      | None => (t, false)
      end
  | DeleteRule c s =>
      match t !! c with
      | Some l => if decide (s ∈ l) then (<[c := remove_first s l]> t, true) else (t, false)
      | None => (t, false)
      end
  | DeleteChain c =>
      match t !! c with
      | Some [] => if referenced t c || bool_decide (c ∈ builtin_chains) then (t, false) else (delete c t, true)
      | _ => (t, false)
      end
  end.

Definition conntrackSpec : spec :=
  ["-m"; "conntrack"; "--ctstate"; "ESTABLISHED,RELATED"; "-j"; "ACCEPT"]%string.

(** A packet to forward; it is established when a connection between its
    endpoints is tracked. *)
Record packet := { p_src : Z; p_dst : Z; p_established : bool }.

Class Netfilter : Type := {
  kernel : Type;
  (** [iptables args]: the new state and whether the exit status is 0. *)
  iptables : list string -> kernel -> kernel * bool;
  (** [conntrack -D -s ip]. *)
  conntrack_D : string -> kernel -> kernel;
  filterT : kernel -> table;
  natT : kernel -> table;
  (** Tracked connections, original source and destination. *)
  tracked : kernel -> list (Z * Z);
  (** The tool accepts the rule specification, given the existing chains. *)
  accepts : table -> spec -> bool;
  (** The match part of a specification on a packet. *)
  spec_match : spec -> packet -> bool;

  iptables_filter : forall m k, cmd_chain m ∈ our_chains ->
    (filterT (iptables (cmd_args m) k).1, (iptables (cmd_args m) k).2) =
      cmd_effect accepts m (filterT k) /\
    natT (iptables (cmd_args m) k).1 = natT k /\
    tracked (iptables (cmd_args m) k).1 = tracked k;
  iptables_nat : forall m k, cmd_chain m ∈ our_chains ->
    (natT (iptables ("-t" :: "nat" :: cmd_args m)%string k).1,
     (iptables ("-t" :: "nat" :: cmd_args m)%string k).2) = cmd_effect accepts m (natT k) /\
    filterT (iptables ("-t" :: "nat" :: cmd_args m)%string k).1 = filterT k /\
    tracked (iptables ("-t" :: "nat" :: cmd_args m)%string k).1 = tracked k;
  conntrack_effect : forall ip k,
    filterT (conntrack_D ip k) = filterT k /\ natT (conntrack_D ip k) = natT k /\
    tracked (conntrack_D ip k) =
      List.filter (fun e => negb (bool_decide (ParseIPv4 ip = Some e.1))) (tracked k);

  (** Which rules are accepted depends on the existing chains only. *)
  accepts_dom : forall t t' s, dom t = dom t' -> accepts t s = accepts t' s;
  accepts_conntrack : forall t, accepts t conntrackSpec = true;
  accepts_jump : forall t c, is_Some (t !! c) -> accepts t ["-j"; c]%string = true;
  accepts_src : forall t s a, is_Some (ParseCIDR s) -> a ∈ ["ACCEPT"; "DROP"]%string ->
    accepts t ["-s"; s; "-j"; a]%string = true;
  accepts_src_dst : forall t s d a, is_Some (ParseCIDR s) -> is_Some (ParseCIDR d) ->
    a ∈ ["ACCEPT"; "DROP"]%string -> accepts t ["-s"; s; "-d"; d; "-j"; a]%string = true;
  accepts_dst : forall t d a, is_Some (ParseCIDR d) -> a ∈ ["ACCEPT"; "DROP"]%string ->
    accepts t ["-d"; d; "-j"; a]%string = true;

  match_conntrack : forall p, spec_match conntrackSpec p = p_established p;
  match_jump : forall c p, spec_match ["-j"; c]%string p = true;
  match_src : forall s a p, spec_match ["-s"; s; "-j"; a]%string p = cidr_matches s (p_src p);
  match_src_dst : forall s d a p, spec_match ["-s"; s; "-d"; d; "-j"; a]%string p =
    cidr_matches s (p_src p) && cidr_matches d (p_dst p);
  match_dst : forall d a p, spec_match ["-d"; d; "-j"; a]%string p = cidr_matches d (p_dst p);
}.

(** ** The manager *)

(** [strings.Fields]: the maximal runs of non-space bytes. *)
Definition is_space (c : ascii) : bool :=
  let n := N_of_ascii c in (n =? 32)%N || ((9 <=? n)%N && (n <=? 13)%N).

Fixpoint fields_go (s : string) (cur : string) : list string :=
  match s with
  | EmptyString => if String.eqb cur "" then [] else [cur]
  | String c s =>
      if is_space c then if String.eqb cur "" then fields_go s "" else cur :: fields_go s ""
      else fields_go s (cur ++ String c "")
  end.

Definition strings_Fields (s : string) : list string := fields_go s "".

(** [detectDefaultInterface], given the output of [ip route show default]
    ([None] when the command fails): the word after the first [dev]. *)
Fixpoint wordAfterDev (l : list string) : string :=
  match l with
  | f :: ((g :: _) as rest) => if String.eqb f "dev" then g else wordAfterDev rest
  | _ => ""
  end.

Definition detectDefaultInterface (out : option string) : string :=
  match out with
  | None => ""
  | Some s => wordAfterDev (strings_Fields s)
  end.

(** [buildRuleArgs]: [None] when the rule is skipped. *)
Definition buildRuleArgs (r : FirewallRule) : option (list string) :=
  if String.eqb (Source r) "" then None else
  let args := ["-A"; outpostChain]%string ++ ["-s"; Source r]%string in
  let args := args ++ (if String.eqb (Destination r) "" then [] else ["-d"; Destination r]%string) in
  let args := args ++
    (if String.eqb (Protocol r) "" then []
     else ["-p"; Protocol r]%string ++ (if String.eqb (Port r) "" then [] else ["--dport"; Port r]%string)) in
  match RuleAction r with
  | ACTION_ACCEPT => Some (args ++ ["-j"; "ACCEPT"]%string)
  | ACTION_DROP => Some (args ++ ["-j"; "DROP"]%string)
  | ACTION_UNSPECIFIED => None
  end.

Section manager.
Context `{Netfilter}.

(** Each operation returns the state and whether it returned a nil error. *)
Definition Init (k : kernel) : kernel * bool :=
  let '(k, _) := iptables ["-N"; outpostChain]%string k in
  let '(k, present) := iptables ["-C"; "FORWARD"; "-j"; outpostChain]%string k in
  if present then (k, true)
  else iptables ["-I"; "FORWARD"; "1"; "-j"; outpostChain]%string k.

Definition applyRule (k : kernel) (r : FirewallRule) : kernel :=
  match buildRuleArgs r with
  | None => k
  | Some args => (iptables args k).1
  end.

Definition applyNat (route : option string) (c : FirewallConfig) (k : kernel) : kernel :=
  if NatEnabled c then
    let natIface := if String.eqb (NatInterface c) "" then detectDefaultInterface route
                    else NatInterface c in
    if negb (String.eqb natIface "") then
      let '(k, present) :=
        iptables ["-t"; "nat"; "-C"; "POSTROUTING"; "-o"; natIface; "-j"; "MASQUERADE"]%string k in
      if present then k
      else (iptables ["-t"; "nat"; "-A"; "POSTROUTING"; "-o"; natIface; "-j"; "MASQUERADE"]%string k).1
    else k
  else k.

(** The loop of [flushConntrackForDroppedSources] with its [seen] set. *)
Fixpoint flushLoop (rules : list FirewallRule) (seen : gset string) (k : kernel) : kernel :=
  match rules with
  | [] => k
  | r :: rules =>
      if negb (bool_decide (RuleAction r = ACTION_DROP)) then flushLoop rules seen k
      else if String.eqb (Source r) "" || bool_decide (Source r ∈ seen) then flushLoop rules seen k
      else flushLoop rules ({[Source r]} ∪ seen)
             (conntrack_D (default ""%string (head (split_on "/" (Source r)))) k)
  end.

Definition flushConntrackForDroppedSources (c : FirewallConfig) (k : kernel) : kernel :=
  flushLoop (Rules c) ∅ k.

Definition Apply (route : option string) (cfg : option FirewallConfig) (k : kernel) : kernel * bool :=
  match cfg with
  | None => (k, true)
  | Some c =>
      let '(k, ok) := iptables ["-F"; outpostChain]%string k in
      if negb ok then (k, false) else
      let k := (iptables (["-A"; outpostChain]%string ++ conntrackSpec) k).1 in
      let k := foldl applyRule k (Rules c) in
      let k := applyNat route c k in
      (flushConntrackForDroppedSources c k, true)
  end.

(** The action of a [cidr] smart route, if supported. *)
Definition smartAction (a : string) : option string :=
  if String.eqb a "block" then Some "DROP"%string
  else if String.eqb a "direct" then Some "ACCEPT"%string
  else None.

Definition applySmart (k : kernel) (r : SmartRouteRule) : kernel :=
  if String.eqb (EntryType r) "cidr" then
    match smartAction (SRAction r) with
    | Some a => (iptables ["-A"; smartChain; "-d"; Value r; "-j"; a]%string k).1
    | None => k
    end
  else k.

Definition ApplySmartRoutes (cfg : option (list SmartRouteRule)) (k : kernel) : kernel * bool :=
  match cfg with
  | None | Some [] =>
      let k := (iptables ["-D"; "FORWARD"; "-j"; smartChain]%string k).1 in
      let k := (iptables ["-F"; smartChain]%string k).1 in
      let k := (iptables ["-X"; smartChain]%string k).1 in
      (k, true)
  | Some rules =>
      let k := (iptables ["-N"; smartChain]%string k).1 in
      let '(k, ok) := iptables ["-F"; smartChain]%string k in
      if negb ok then (k, false) else
      let '(k, present) := iptables ["-C"; "FORWARD"; "-j"; smartChain]%string k in
      let '(k, ok) :=
        if present then (k, true)
        else iptables ["-I"; "FORWARD"; "1"; "-j"; smartChain]%string k in
      if negb ok then (k, false) else (foldl applySmart k rules, true)
  end.

Definition Cleanup (k : kernel) : kernel :=
  let k := (iptables ["-D"; "FORWARD"; "-j"; smartChain]%string k).1 in
  let k := (iptables ["-F"; smartChain]%string k).1 in
  let k := (iptables ["-X"; smartChain]%string k).1 in
  let k := (iptables ["-D"; "FORWARD"; "-j"; outpostChain]%string k).1 in
  let k := (iptables ["-F"; outpostChain]%string k).1 in
  (iptables ["-X"; outpostChain]%string k).1.

(** ** Traversal of FORWARD *)

(** The rule that decides in a chain without jumps. *)
Definition chain_target (l : list spec) (p : packet) : option string :=
  s ← List.find (fun s => spec_match s p) l; list.last s.

(** FORWARD: a rule with target ACCEPT or DROP decides; a jump runs the chain
    and continues when it does not decide.  [None] is the policy of FORWARD. *)
Fixpoint forward (t : table) (l : list spec) (p : packet) : option string :=
  match l with
  | [] => None
  | s :: l =>
      if spec_match s p then
        match list.last s with
        | Some tgt =>
            match t !! tgt with
            | Some chain =>
                match chain_target chain p with Some v => Some v | None => forward t l p end
            | None => Some tgt
            end
        | None => forward t l p
        end
      else forward t l p
  end.

Definition forwarded (k : kernel) (p : packet) : option string :=
  forward (filterT k) (default [] (filterT k !! "FORWARD"%string)) p.
End manager.

(** ** Effects of the commands *)

(** The words of a rule after the chain name. *)
Definition ruleSpec (r : FirewallRule) : option spec := drop 2 <$> buildRuleArgs r.

Lemma buildRuleArgs_eq r : buildRuleArgs r = (fun s => "-A" :: outpostChain :: s)%string <$> ruleSpec r.
Proof.
  unfold ruleSpec, buildRuleArgs. destruct (String.eqb (Source r) ""); [done|].
  by destruct (RuleAction r).
Qed.

Definition smartSpec (r : SmartRouteRule) : option spec :=
  if String.eqb (EntryType r) "cidr" then
    (fun a => ["-d"; Value r; "-j"; a]%string) <$> smartAction (SRAction r)
  else None.

Section effects.
Context `{Netfilter}.

(** States that differ in the filter table only. *)
Definition same_rest (k k' : kernel) : Prop := natT k' = natT k /\ tracked k' = tracked k.

Lemma same_rest_trans k1 k2 k3 : same_rest k1 k2 -> same_rest k2 k3 -> same_rest k1 k3.
Proof. unfold same_rest. intuition congruence. Qed.

(** One command on the filter table, as an equation on the pair. *)
Lemma run_filter m k t ok :
  cmd_chain m ∈ our_chains -> cmd_effect accepts m (filterT k) = (t, ok) ->
  exists k', iptables (cmd_args m) k = (k', ok) /\ filterT k' = t /\ same_rest k k'.
Proof.
  intros Hc E. destruct (iptables_filter m k Hc) as (Hf & Hn & Ht).
  destruct (iptables (cmd_args m) k) as [k' ok'] eqn:Hr. simpl in *. rewrite E in Hf.
  injection Hf as <- <-. exists k'. done.
Qed.

Lemma run_append c s k l :
  c ∈ our_chains -> filterT k !! c = Some l ->
  let k' := (iptables ("-A" :: c :: s)%string k).1 in
  filterT k' = (if accepts (filterT k) s then <[c := l ++ [s]]> (filterT k) else filterT k) /\
  same_rest k k'.
Proof.
  intros Hc Hl. destruct (cmd_effect accepts (Append c s) (filterT k)) as [t ok] eqn:E.
  destruct (run_filter (Append c s) _ _ _ Hc E) as (k' & Hr & Ht & Hs).
  change ("-A" :: c :: s)%string with (cmd_args (Append c s)). rewrite Hr. simpl.
  split; [|done]. subst t. simpl in E. rewrite Hl in E. destruct (accepts _ s); congruence.
Qed.

(** Appending optional rules one after the other. *)
Lemma foldl_append {A} (f : kernel -> A -> kernel) (g : A -> option spec) c rs k l :
  c ∈ our_chains ->
  (forall k x, f k x = match g x with Some s => (iptables ("-A" :: c :: s)%string k).1 | None => k end) ->
  filterT k !! c = Some l ->
  filterT (foldl f k rs) = <[c := l ++ List.filter (accepts (filterT k)) (omap g rs)]> (filterT k) /\
  same_rest k (foldl f k rs).
Proof.
  intros Hc Hf. revert k l. induction rs as [|r rs IH]; intros k l Hl; simpl.
  - rewrite app_nil_r, insert_id by done. split; done.
  - rewrite Hf. destruct (g r) as [s|]; [|by apply IH].
    destruct (run_append c s k l Hc Hl) as [Ht Hs]. set (k' := (iptables _ k).1) in *.
    cbn [List.filter].
    assert (dom (filterT k') = dom (filterT k)) as Hdom.
    { rewrite Ht. destruct (accepts _ s); [|done]. rewrite dom_insert_lookup_L; [done|by eexists]. }
    assert (List.filter (accepts (filterT k')) (omap g rs) = List.filter (accepts (filterT k)) (omap g rs))
      as Hfil.
    { apply filter_ext. intros. by apply accepts_dom. }
    destruct (accepts (filterT k) s) eqn:Ea.
    + destruct (IH k' (l ++ [s])) as [Ht' Hs']; [by rewrite Ht, lookup_insert_eq|].
      rewrite Ht', Hfil, Ht, insert_insert_eq, <- app_assoc. split; [done|].
      by eapply same_rest_trans.
    + destruct (IH k' l) as [Ht' Hs']; [by rewrite Ht|].
      rewrite Ht', Hfil, Ht. split; [done|]. by eapply same_rest_trans.
Qed.

Lemma applyNat_filter route c k :
  filterT (applyNat route c k) = filterT k /\ tracked (applyNat route c k) = tracked k.
Proof.
  unfold applyNat. destruct (NatEnabled c); [|done]. set (ifc := if String.eqb (NatInterface c) "" then _ else _).
  destruct (String.eqb ifc ""); [done|]. simpl.
  assert ("POSTROUTING"%string ∈ our_chains) as Hc by (right; left).
  pose proof (iptables_nat (CheckRule "POSTROUTING" ["-o"; ifc; "-j"; "MASQUERADE"]%string) k Hc)
    as (_ & Hf & Ht). cbn [cmd_args] in Hf, Ht.
  destruct (iptables _ k) as [k1 present]. simpl in Hf, Ht. destruct present; [done|].
  pose proof (iptables_nat (Append "POSTROUTING" ["-o"; ifc; "-j"; "MASQUERADE"]%string) k1 Hc)
    as (_ & Hf' & Ht'). cbn [cmd_args] in Hf', Ht'. by rewrite Hf', Ht', Hf, Ht.
Qed.

(** The source address of a DROP rule without its mask. *)
Definition dropSource (r : FirewallRule) : option Z :=
  if bool_decide (RuleAction r = ACTION_DROP) && negb (String.eqb (Source r) "")
  then ParseIPv4 (default ""%string (head (split_on "/" (Source r)))) else None.

Lemma flushLoop_spec rules seen k :
  filterT (flushLoop rules seen k) = filterT k /\ natT (flushLoop rules seen k) = natT k /\
  (forall e, e ∈ tracked (flushLoop rules seen k) -> e ∈ tracked k) /\
  (forall e, e ∈ tracked k -> (forall r, r ∈ rules -> dropSource r <> Some e.1) ->
     e ∈ tracked (flushLoop rules seen k)) /\
  (forall e r, e ∈ tracked (flushLoop rules seen k) -> r ∈ rules -> Source r ∉ seen ->
     dropSource r <> Some e.1).
Proof.
  revert seen k. induction rules as [|r rules IH]; intros seen k; cbn [flushLoop].
  - do 4 (split; [done|]). by intros e r _ ?%elem_of_nil.
  - destruct (bool_decide (RuleAction r = ACTION_DROP)) eqn:Ea; cbn [negb].
    2:{ destruct (IH seen k) as (H1 & H2 & H3 & H4 & H5). do 3 (split; [done|]). split.
        - intros e He Hr. apply H4; [done|]. intros x Hx. apply Hr. by right.
        - intros e x He [->|Hx]%elem_of_cons; [unfold dropSource; by rewrite Ea|eauto]. }
    destruct (String.eqb (Source r) "" || bool_decide (Source r ∈ seen)) eqn:Es.
    + destruct (IH seen k) as (H1 & H2 & H3 & H4 & H5). do 3 (split; [done|]). split.
      * intros e He Hr. apply H4; [done|]. intros x Hx. apply Hr. by right.
      * intros e x He [->|Hx]%elem_of_cons Hns; [|eauto]. unfold dropSource. rewrite Ea.
        apply orb_true_iff in Es as [->|Es%bool_decide_eq_true]; [done|]. by destruct Hns.
    + apply orb_false_iff in Es as [Es Ens%bool_decide_eq_false].
      set (ip := default ""%string (head (split_on "/" (Source r)))).
      destruct (conntrack_effect ip k) as (Hf & Hn & Ht).
      destruct (IH ({[Source r]} ∪ seen) (conntrack_D ip k)) as (H1 & H2 & H3 & H4 & H5).
      assert (dropSource r = ParseIPv4 ip) as Hds by (unfold dropSource; by rewrite Ea, Es).
      assert (forall e, e ∈ tracked (conntrack_D ip k) <-> e ∈ tracked k /\ ParseIPv4 ip <> Some e.1) as Hin.
      { intros e. rewrite Ht, !list_elem_of_In, filter_In, negb_true_iff, bool_decide_eq_false. done. }
      split; [congruence|]. split; [congruence|]. split; [|split].
      * intros e He. by apply H3, Hin in He as [? _].
      * intros e He Hr. apply H4; [apply Hin; split; [done|]|].
        -- rewrite <- Hds. apply Hr. by left.
        -- intros x Hx. apply Hr. by right.
      * intros e x He [->|Hx]%elem_of_cons Hns; [rewrite Hds; by apply H3, Hin in He as [_ ?]|].
        destruct (decide (Source x = Source r)) as [E|Hne].
        -- apply H3, Hin in He as [_ Hne']. intros Hd. apply Hne'. rewrite <- Hd. unfold dropSource.
           destruct (bool_decide (RuleAction x = ACTION_DROP) && negb (String.eqb (Source x) "")) eqn:Ex.
           ++ by rewrite E.
           ++ unfold dropSource in Hd. by rewrite Ex in Hd.
        -- eapply H5; [done|done|]. set_solver.
Qed.
End effects.

Section operations.
Context `{Netfilter}.

Lemma forward_in : "FORWARD"%string ∈ our_chains. Proof. left. Qed.
Lemma outpost_in : outpostChain ∈ our_chains. Proof. do 2 right. left. Qed.
Lemma smart_in : smartChain ∈ our_chains. Proof. do 3 right. left. Qed.

Definition jump (c : string) : spec := ["-j"; c]%string.

(** The two steps shared by [Init] and [ApplySmartRoutes]: creating a chain
    that may exist, and hooking it at the top of FORWARD if it is not there. *)
Lemma run_new c k : c ∈ our_chains ->
  let k' := (iptables ["-N"; c]%string k).1 in
  filterT k' = <[c := default [] (filterT k !! c)]> (filterT k) /\ same_rest k k'.
Proof.
  intros Hc. destruct (cmd_effect accepts (NewChain c) (filterT k)) as [t ok] eqn:E.
  destruct (run_filter (NewChain c) _ _ _ Hc E) as (k' & Hr & Ht & Hs).
  change ["-N"; c]%string with (cmd_args (NewChain c)). rewrite Hr. simpl. split; [|done].
  subst t. simpl in E. destruct (filterT k !! c) as [l|] eqn:El; simpl; injection E as <- _.
  - by rewrite insert_id.
  - done.
Qed.

Definition hook (c : string) (k : kernel) : kernel * bool :=
  let '(k, present) := iptables ["-C"; "FORWARD"; "-j"; c]%string k in
  if present then (k, true) else iptables ["-I"; "FORWARD"; "1"; "-j"; c]%string k.

Definition hooked (c : string) (fwd : list spec) : list spec :=
  if bool_decide (jump c ∈ fwd) then fwd else jump c :: fwd.

Lemma hook_effect c k fwd :
  filterT k !! "FORWARD"%string = Some fwd -> is_Some (filterT k !! c) ->
  exists k', hook c k = (k', true) /\
    filterT k' = <["FORWARD"%string := hooked c fwd]> (filterT k) /\ same_rest k k'.
Proof.
  intros Hf Hc. unfold hook.
  destruct (run_filter (CheckRule "FORWARD" (jump c)) k (filterT k) (bool_decide (jump c ∈ fwd)))
    as (k1 & Hr1 & Ht1 & Hs1); [apply forward_in|simpl; by rewrite Hf|].
  unfold hooked. change ["-C"; "FORWARD"; "-j"; c]%string with (cmd_args (CheckRule "FORWARD" (jump c))).
  rewrite Hr1. destruct (bool_decide (jump c ∈ fwd)).
  - exists k1. rewrite Ht1, insert_id by done. done.
  - destruct (run_filter (InsertFirst "FORWARD" (jump c)) k1
      (<["FORWARD"%string := jump c :: fwd]> (filterT k)) true) as (k2 & Hr2 & Ht2 & Hs2);
      [apply forward_in| |].
    { simpl. rewrite Ht1, Hf. unfold jump. by rewrite accepts_jump. }
    exists k2. cbn [cmd_args jump] in Hr2. unfold jump in Hr2. split; [done|].
    split; [done|]. by eapply same_rest_trans.
Qed.

Lemma hooked_twice c fwd : hooked c (hooked c fwd) = hooked c fwd.
Proof.
  unfold hooked. destruct (bool_decide (jump c ∈ fwd)) eqn:E.
  - by rewrite E.
  - rewrite bool_decide_true by by left. done.
Qed.

Lemma Init_effect k fwd :
  filterT k !! "FORWARD"%string = Some fwd ->
  exists k', Init k = (k', true) /\
    filterT k' = <["FORWARD"%string := hooked outpostChain fwd]>
      (<[outpostChain := default [] (filterT k !! outpostChain)]> (filterT k)) /\ same_rest k k'.
Proof.
  intros Hf. unfold Init. destruct (run_new outpostChain k outpost_in) as [Ht Hs].
  destruct (iptables ["-N"; outpostChain]%string k) as [k1 ok1]. simpl in Ht, Hs.
  destruct (hook_effect outpostChain k1 fwd) as (k2 & Hr & Ht2 & Hs2).
  - rewrite Ht, lookup_insert_ne by done. done.
  - rewrite Ht, lookup_insert_eq. by eexists.
  - exists k2. split; [exact Hr|]. split; [by rewrite Ht2, Ht|]. by eapply same_rest_trans.
Qed.

Lemma flush_effect c k l :
  c ∈ our_chains -> filterT k !! c = Some l ->
  exists k', iptables ["-F"; c]%string k = (k', true) /\ filterT k' = <[c := []]> (filterT k) /\
    same_rest k k'.
Proof.
  intros Hc Hl. apply (run_filter (FlushChain c)); [done|]. simpl. by rewrite Hl.
Qed.

Lemma Apply_effect route c k old :
  filterT k !! outpostChain = Some old ->
  exists k', Apply route (Some c) k = (k', true) /\
    filterT k' = <[outpostChain := conntrackSpec ::
      List.filter (accepts (filterT k)) (omap ruleSpec (Rules c))]> (filterT k) /\
    forall e, e ∈ tracked k' <->
      e ∈ tracked k /\ forall r, r ∈ Rules c -> dropSource r <> Some e.1.
Proof.
  intros Hl. unfold Apply.
  destruct (flush_effect outpostChain k old outpost_in Hl) as (k1 & -> & Ht1 & Hs1). cbn [negb].
  destruct (run_append outpostChain conntrackSpec k1 []) as [Ht2 Hs2];
    [apply outpost_in|by rewrite Ht1, lookup_insert_eq|].
  cbn [app] in *. set (k2 := (iptables _ k1).1) in *.
  rewrite accepts_conntrack, Ht1, insert_insert_eq in Ht2.
  destruct (foldl_append applyRule ruleSpec outpostChain (Rules c) k2 [conntrackSpec])
    as [Ht3 Hs3]; [apply outpost_in| |by rewrite Ht2, lookup_insert_eq|].
  { intros k' r. unfold applyRule. rewrite buildRuleArgs_eq. by destruct (ruleSpec r). }
  set (k3 := foldl applyRule k2 (Rules c)) in *.
  destruct (applyNat_filter route c k3) as [Ht4 Hc4].
  destruct (flushLoop_spec (Rules c) ∅ (applyNat route c k3)) as (Hf & _ & H1 & H2 & H3).
  eexists. split; [reflexivity|]. unfold flushConntrackForDroppedSources. split.
  - rewrite Hf, Ht4, Ht3, Ht2, insert_insert_eq. do 2 f_equal. apply filter_ext. intros s.
    apply accepts_dom. rewrite dom_insert_lookup_L; [done|by eexists].
  - assert (tracked (applyNat route c k3) = tracked k) as Hk.
    { rewrite Hc4. destruct Hs1, Hs2, Hs3. congruence. }
    intros e. rewrite Hk in H1, H2. split.
    + intros He. split; [auto|]. intros r Hr. eapply H3; [done|done|set_solver].
    + intros [He Hr]. auto.
Qed.

Lemma Apply_installs_cases route c k :
  match filterT k !! outpostChain with
  | Some _ => exists k', Apply route (Some c) k = (k', true) /\
      filterT k' = <[outpostChain := conntrackSpec ::
        List.filter (accepts (filterT k)) (omap ruleSpec (Rules c))]> (filterT k) /\
      forall e, e ∈ tracked k' <->
        e ∈ tracked k /\ forall r, r ∈ Rules c -> dropSource r <> Some e.1
  | None => exists k', Apply route (Some c) k = (k', false) /\ filterT k' = filterT k /\
      same_rest k k'
  end.
Proof.
  destruct (filterT k !! outpostChain) as [old|] eqn:Hl; [by eapply Apply_effect|].
  destruct (run_filter (FlushChain outpostChain) k (filterT k) false) as (k1 & Hr & Ht & Hs);
    [apply outpost_in|simpl; by rewrite Hl|].
  exists k1. unfold Apply. cbn [cmd_args] in Hr. rewrite Hr. done.
Qed.

(** [Apply] replaces the OUTPOST-FWD chain: it then holds the rule for
    established connections followed by the rules of the configuration in
    order, less those without source or action and those the tool refuses; no
    other chain changes; the tracked connections lost are exactly those whose
    source is the address of a DROP rule; and the call returns no error.  When
    the chain does not exist [Apply] fails and changes nothing. *)
Theorem Apply_installs route c k :
  match filterT k !! outpostChain with
  | Some _ => exists k', Apply route (Some c) k = (k', true) /\
      filterT k' = <[outpostChain := conntrackSpec ::
        List.filter (accepts (filterT k)) (omap ruleSpec (Rules c))]> (filterT k) /\
      forall e, e ∈ tracked k' <->
        e ∈ tracked k /\ forall r, r ∈ Rules c -> dropSource r <> Some e.1
  | None => exists k', Apply route (Some c) k = (k', false) /\ filterT k' = filterT k /\
      same_rest k k'
  end.
Proof. apply Apply_installs_cases. Qed.
End operations.

(** ** From the policy to the packet *)

Definition action_text (a : Action) : string :=
  match a with ACTION_ACCEPT => "ACCEPT" | ACTION_DROP => "DROP" | ACTION_UNSPECIFIED => "" end.

Lemma ParseCIDR_slash32 ip : 0 <= ip < 2^32 -> is_Some (ParseCIDR (host ip ++ "/32")).
Proof.
  intros Hip. change "/32"%string with ("/" ++ itoa 32)%string. rewrite ParseCIDR_host by lia.
  by eexists.
Qed.

Lemma slash32_ne a : (host a ++ "/32")%string <> ""%string.
Proof.
  intros E. assert (no_char "/" (host a ++ "/32") = true) as Hn by by rewrite E.
  rewrite no_char_app in Hn. boolify. done.
Qed.

Lemma dropSource_host r a :
  0 <= a < 2^32 -> RuleAction r = ACTION_DROP -> Source r = (host a ++ "/32")%string ->
  dropSource r = Some a.
Proof.
  intros Ha Hact Hs. unfold dropSource. rewrite Hact, Hs, bool_decide_true by done.
  rewrite (proj2 (String.eqb_neq _ _) (slash32_ne a)). cbn [negb andb].
  rewrite split_on_app by apply no_slash_host. by apply ParseIPv4_host.
Qed.

Section enforcement.
Context `{Netfilter, GoRange, SqlOrder} (d : db) (Hok : db_ok d) (gw : string).

Lemma ruleSpec_wf r : rule_wf d gw r ->
  exists s, ruleSpec r = Some s /\ (forall t, accepts t s = true) /\
    (forall p, spec_match s p = rule_matches r (p_src p) (p_dst p)) /\
    list.last s = Some (action_text (RuleAction r)).
Proof.
  intros (Hp & Ha & Hd & dev & Hg & Hs).
  assert (0 <= d_assigned_ip dev < 2^32) as Hr by (apply ip_range with d; [done|apply Hg]).
  assert (is_Some (ParseCIDR (Source r))) as Hps by (rewrite Hs; by apply ParseCIDR_slash32).
  assert (Hne : Source r <> ""%string) by (rewrite Hs; apply slash32_ne).
  assert (action_text (RuleAction r) ∈ ["ACCEPT"; "DROP"]%string) as Hat
    by (destruct (RuleAction r); [done|by left|by right; left]).
  apply String.eqb_neq in Hne.
  destruct (String.eqb_spec (Destination r) "") as [Hde|Hde].
  - exists ["-s"; Source r; "-j"; action_text (RuleAction r)]%string. split; [|split; [|split]].
    + unfold ruleSpec, buildRuleArgs. rewrite Hne, Hp, Hde. by destruct (RuleAction r).
    + intros t. by apply accepts_src.
    + intros p. rewrite match_src. unfold rule_matches. rewrite Hde. by rewrite andb_true_r.
    + done.
  - destruct Hd as [?|Hd]; [done|]. apply String.eqb_neq in Hde.
    exists ["-s"; Source r; "-d"; Destination r; "-j"; action_text (RuleAction r)]%string.
    split; [|split; [|split]].
    + unfold ruleSpec, buildRuleArgs. rewrite Hne, Hp, Hde. by destruct (RuleAction r).
    + intros t. by apply accepts_src_dst.
    + intros p. rewrite match_src_dst. unfold rule_matches. by rewrite Hde.
    + done.
Qed.

Lemma chain_target_verdict t rs p :
  Forall (rule_wf d gw) rs ->
  chain_target (List.filter (accepts t) (omap ruleSpec rs)) p =
  action_text <$> verdict rs (p_src p) (p_dst p).
Proof.
  unfold chain_target, verdict. induction 1 as [|r rs Hr Hrs IH]; [done|].
  destruct (ruleSpec_wf r Hr) as (s & Hs & Ha & Hm & Hl). cbn [omap list_omap]. rewrite Hs.
  cbn [List.filter]. rewrite Ha. cbn [List.find]. rewrite Hm.
  destruct (rule_matches r (p_src p) (p_dst p)); [by simpl|]. done.
Qed.

End enforcement.

(** ** Smart routes and cleanup *)

Lemma remove_first_notin s l : s ∉ l -> remove_first s l = l.
Proof.
  induction l as [|x l IH]; intros Hs; simpl; [done|]. apply not_elem_of_cons in Hs as [Hne Hs].
  rewrite decide_False by congruence. by rewrite IH.
Qed.

Definition no_ref (t : table) (c : string) : Prop :=
  forall x l s, t !! x = Some l -> s ∈ l -> list.last s <> Some c.

Lemma referenced_false t c : no_ref t c -> referenced t c = false.
Proof.
  intros Hn. unfold referenced. apply not_true_iff_false.
  intros ([x l] & Hin & (s & Hs & Hl%bool_decide_eq_true)%existsb_exists)%existsb_exists.
  rewrite <- !list_elem_of_In, elem_of_map_to_list in *. simpl in *. by eapply Hn.
Qed.

Lemma no_ref_insert t c x l :
  no_ref t c -> (forall s, s ∈ l -> list.last s <> Some c) -> no_ref (<[x := l]> t) c.
Proof.
  intros Ht Hl y l' s. destruct (decide (x = y)) as [->|].
  - rewrite lookup_insert_eq. intros [= <-]. apply Hl.
  - rewrite lookup_insert_ne by done. apply Ht.
Qed.

Lemma no_ref_delete t c x : no_ref t c -> no_ref (delete x t) c.
Proof. intros Ht y l s [_ Hy]%lookup_delete_Some. by apply (Ht y). Qed.

(** The targets of the rules the manager writes. *)
Lemma ruleSpec_last r s : ruleSpec r = Some s ->
  list.last s = Some "ACCEPT"%string \/ list.last s = Some "DROP"%string.
Proof.
  unfold ruleSpec, buildRuleArgs. destruct (String.eqb (Source r) ""); [done|].
  destruct (RuleAction r); intros [= <-]; [left|right]; by rewrite !app_comm_cons, last_app.
Qed.

Lemma smartSpec_last r s : smartSpec r = Some s ->
  list.last s = Some "ACCEPT"%string \/ list.last s = Some "DROP"%string.
Proof.
  unfold smartSpec, smartAction. intros Hs. repeat case_match; simplify_eq/=; auto.
Qed.

Section cleanup.
Context `{Netfilter}.

Definition unhook (c : string) (k : kernel) : kernel :=
  let k := (iptables ["-D"; "FORWARD"; "-j"; c]%string k).1 in
  let k := (iptables ["-F"; c]%string k).1 in
  (iptables ["-X"; c]%string k).1.

Lemma unhook_effect c k fwd :
  c ∈ [outpostChain; smartChain] -> filterT k !! "FORWARD"%string = Some fwd ->
  no_ref (<["FORWARD"%string := remove_first (jump c) fwd]> (filterT k)) c ->
  filterT (unhook c k) = delete c (<["FORWARD"%string := remove_first (jump c) fwd]> (filterT k)).
Proof.
  intros Hc Hf Hn. unfold unhook.
  assert (c ∈ our_chains) as Hoc by (do 2 right; done).
  assert (Hcb : c ∉ builtin_chains).
  { rewrite !elem_of_cons, elem_of_nil in Hc. destruct Hc as [->|[->|[]]];
      apply (bool_decide_unpack _); vm_compute; exact I. }
  destruct (run_filter (DeleteRule "FORWARD" (jump c)) k
    (<["FORWARD"%string := remove_first (jump c) fwd]> (filterT k)) (bool_decide (jump c ∈ fwd)))
    as (k1 & Hr1 & Ht1 & _); [apply forward_in| |].
  { simpl. rewrite Hf. case_decide as Hj; [by rewrite bool_decide_true|].
    by rewrite bool_decide_false, remove_first_notin, insert_id. }
  change ["-D"; "FORWARD"; "-j"; c]%string with (cmd_args (DeleteRule "FORWARD" (jump c))).
  rewrite Hr1. cbn [fst]. rewrite <- Ht1 in Hn |- *.
  destruct (filterT k1 !! c) as [l|] eqn:Hl.
  - destruct (flush_effect c k1 l Hoc Hl) as (k2 & -> & Ht2 & _). cbn [fst].
    destruct (run_filter (DeleteChain c) k2 (delete c (filterT k2)) true) as (k3 & Hr3 & Ht3 & _);
      [done| |].
    { simpl. rewrite Ht2, lookup_insert_eq, referenced_false, bool_decide_false; [done|done|].
      apply no_ref_insert; [done|]. by intros ? ?%elem_of_nil. }
    cbn [cmd_args] in Hr3. rewrite Hr3. cbn [fst]. rewrite Ht3, Ht2. by rewrite delete_insert_eq.
  - destruct (run_filter (FlushChain c) k1 (filterT k1) false) as (k2 & Hr2 & Ht2 & _);
      [done|simpl; by rewrite Hl|]. cbn [cmd_args] in Hr2. rewrite Hr2. cbn [fst].
    destruct (run_filter (DeleteChain c) k2 (filterT k2) false) as (k3 & Hr3 & Ht3 & _);
      [done|simpl; by rewrite Ht2, Hl|]. cbn [cmd_args] in Hr3. rewrite Hr3. cbn [fst].
    by rewrite Ht3, Ht2, delete_id.
Qed.

Lemma ApplySmartRoutes_effect rules k fwd :
  rules <> [] -> filterT k !! "FORWARD"%string = Some fwd ->
  exists k', ApplySmartRoutes (Some rules) k = (k', true) /\
    filterT k' = <[smartChain := List.filter (accepts (<[smartChain := []]> (filterT k)))
                                   (omap smartSpec rules)]>
                 (<["FORWARD"%string := hooked smartChain fwd]> (filterT k)) /\ same_rest k k'.
Proof.
  intros Hne Hf. destruct rules as [|r0 rules']; [done|]. set (rules := r0 :: rules').
  destruct (run_new smartChain k smart_in) as [Ht1 Hs1].
  set (k1 := (iptables ["-N"; smartChain]%string k).1) in *.
  destruct (flush_effect smartChain k1 (default [] (filterT k !! smartChain)) smart_in)
    as (k2 & Hr2 & Ht2 & Hs2); [by rewrite Ht1, lookup_insert_eq|].
  rewrite Ht1, insert_insert_eq in Ht2.
  destruct (hook_effect smartChain k2 fwd) as (k3 & Hr3 & Ht3 & Hs3);
    [by rewrite Ht2, lookup_insert_ne|rewrite Ht2, lookup_insert_eq; by eexists|].
  assert (filterT k3 !! smartChain = Some []) as Hl3.
  { by rewrite Ht3, lookup_insert_ne, Ht2, lookup_insert_eq. }
  destruct (foldl_append applySmart smartSpec smartChain rules k3 [] smart_in) as [Ht4 Hs4];
    [|done|].
  { intros k' r. unfold applySmart, smartSpec. destruct (String.eqb _ _); [|done].
    by destruct (smartAction _). }
  exists (foldl applySmart k3 rules). split; [|split].
  - unfold ApplySmartRoutes, rules. fold rules k1. rewrite Hr2. cbn [negb].
    unfold hook in Hr3. destruct (iptables ["-C"; _; _; _]%string k2) as [k' present].
    by rewrite Hr3.
  - rewrite Ht4. cbn [app].
    rewrite (filter_ext _ (accepts (<[smartChain := []]> (filterT k)))).
    + rewrite Ht3, Ht2. rewrite (insert_insert_ne _ "FORWARD"%string smartChain) by done.
      by rewrite insert_insert_eq.
    + intros s. apply accepts_dom. rewrite Ht3, Ht2. apply dom_insert_lookup_L.
      by rewrite lookup_insert_ne.
  - do 3 (eapply same_rest_trans; [done|]). done.
Qed.

(** *** What the manager may change *)

Definition ours : list string := [outpostChain; smartChain].

Definition terminal (s : spec) : Prop :=
  list.last s = Some "ACCEPT"%string \/ list.last s = Some "DROP"%string.

(** A table without a trace of the manager. *)
Record clean (t : table) (fwd : list spec) : Prop := {
  cl_forward : t !! "FORWARD"%string = Some fwd;
  cl_absent : forall c, c ∈ ours -> t !! c = None;
  cl_no_ref : forall c, c ∈ ours -> no_ref t c;
}.

(** A table the manager may have produced from [t0]: distinct jumps to its
    chains on top of FORWARD, rules that accept or drop in its chains, and
    nothing else changed. *)
Record managed (t0 : table) (fwd js : list spec) (t : table) : Prop := {
  mg_forward : t !! "FORWARD"%string = Some (js ++ fwd);
  mg_jumps : Forall (fun s => exists c, c ∈ ours /\ s = jump c) js;
  mg_nodup : NoDup js;
  mg_chains : forall c l, c ∈ ours -> t !! c = Some l -> Forall terminal l;
  mg_other : forall x, x <> "FORWARD"%string -> x ∉ ours -> t !! x = t0 !! x;
}.

Lemma ours_not_forward : "FORWARD"%string ∉ ours.
Proof. apply (bool_decide_unpack _). vm_compute. exact I. Qed.

Lemma terminal_not_ours s c : terminal s -> c ∈ ours -> list.last s <> Some c.
Proof.
  intros Ht Hc. unfold ours in Hc. rewrite !elem_of_cons, elem_of_nil in Hc.
  destruct Ht as [->| ->], Hc as [->|[->|[]]]; discriminate.
Qed.

Lemma clean_jump t fwd c : clean t fwd -> c ∈ ours -> jump c ∉ fwd.
Proof. intros Ht Hc Hin. by eapply (cl_no_ref _ _ Ht c Hc "FORWARD" fwd (jump c)); [apply Ht|..]. Qed.

Lemma remove_first_app s l l' : s ∉ l' -> remove_first s (l ++ l') = remove_first s l ++ l'.
Proof.
  intros Hs. induction l as [|x l IH]; simpl; [by apply remove_first_notin|].
  case_decide; [done|]. by rewrite IH.
Qed.

Lemma remove_first_NoDup s l : NoDup l -> NoDup (remove_first s l) /\ (s ∉ remove_first s l) /\
  forall x, x ∈ remove_first s l -> x ∈ l.
Proof.
  induction 1 as [|x l Hx Hl (IH1 & IH2 & IH3)]; simpl.
  - split; [constructor|]. split; [apply not_elem_of_nil|done].
  - case_decide as E.
    + subst. split; [done|]. split; [done|]. by right.
    + split; [constructor; auto|]. rewrite not_elem_of_cons. split; [done|].
      intros y. rewrite !elem_of_cons. naive_solver.
Qed.

Lemma hooked_managed t0 fwd js t c l :
  clean t0 fwd -> managed t0 fwd js t -> c ∈ ours -> Forall terminal l ->
  exists js', managed t0 fwd js' (<["FORWARD"%string := hooked c (js ++ fwd)]> (<[c := l]> t)).
Proof.
  intros Hc [Hf Hj Hn Hch Hot] Hco Hl.
  assert (Hcf : c <> "FORWARD"%string) by (intros ->; by apply ours_not_forward).
  assert (exists js', hooked c (js ++ fwd) = js' ++ fwd /\
    Forall (fun s => exists c, c ∈ ours /\ s = jump c) js' /\ NoDup js') as (js' & -> & Hj' & Hn').
  { unfold hooked. case_bool_decide as Hin; [by exists js|]. exists (jump c :: js). split; [done|].
    split; [constructor; eauto|]. constructor; [|done]. intros ?. apply Hin, elem_of_app. by left. }
  exists js'. split; [by rewrite lookup_insert_eq|done|done| |].
  - intros x l' Hx. rewrite lookup_insert_ne by (intros <-; by apply ours_not_forward).
    destruct (decide (x = c)) as [->|].
    + rewrite lookup_insert_eq. by intros [= <-].
    + rewrite lookup_insert_ne by done. by apply Hch.
  - intros x Hx Hxo. rewrite lookup_insert_ne, lookup_insert_ne by (done || by intros ->). auto.
Qed.

Lemma insert_managed t0 fwd js t c l :
  managed t0 fwd js t -> c ∈ ours -> Forall terminal l -> managed t0 fwd js (<[c := l]> t).
Proof.
  intros [Hf Hj Hn Hch Hot] Hco Hl.
  split; [rewrite lookup_insert_ne by (intros ->; by apply ours_not_forward); done|done|done| |].
  - intros x l' Hx. destruct (decide (x = c)) as [->|].
    + rewrite lookup_insert_eq. by intros [= <-].
    + rewrite lookup_insert_ne by done. by apply Hch.
  - intros x Hx Hxo. rewrite lookup_insert_ne by (by intros ->). auto.
Qed.

Lemma specs_terminal {A} (g : A -> option spec) (f : spec -> bool) rs :
  (forall r s, g r = Some s -> terminal s) -> Forall terminal (List.filter f (omap g rs)).
Proof.
  intros Hg. apply Forall_forall. intros s.
  rewrite list_elem_of_In, filter_In, <- list_elem_of_In, list_elem_of_omap.
  intros [(r & _ & Hr) _]. by eapply Hg.
Qed.

Lemma unhook_managed t0 fwd js c k :
  clean t0 fwd -> managed t0 fwd js (filterT k) -> c ∈ ours ->
  managed t0 fwd (remove_first (jump c) js) (filterT (unhook c k)) /\
  filterT (unhook c k) !! c = None /\
  forall x, x ∈ ours -> x <> c -> filterT (unhook c k) !! x = filterT k !! x.
Proof.
  intros Hcl [Hf Hj Hn Hch Hot] Hc.
  destruct (remove_first_NoDup (jump c) js Hn) as (Hn' & Hni & Hsub).
  pose proof (clean_jump _ _ c Hcl Hc) as Hnf.
  assert (Hof : forall x, x ∈ ours -> x <> "FORWARD"%string) by (intros x Hx ->; by apply ours_not_forward).
  assert (filterT (unhook c k) =
    delete c (<["FORWARD"%string := remove_first (jump c) js ++ fwd]> (filterT k))) as Ht.
  { rewrite <- remove_first_app by done. apply unhook_effect; [done|done|].
    rewrite remove_first_app by done. intros x l s Hx Hs.
    destruct (decide (x = "FORWARD"%string)) as [->|Hxf].
    - rewrite lookup_insert_eq in Hx. injection Hx as <-. apply elem_of_app in Hs as [Hs|Hs].
      + rewrite Forall_forall in Hj. destruct (Hj s (Hsub s Hs)) as (c' & Hc' & ->).
        cbn. intros [= ->]. done.
      + eapply (cl_no_ref _ _ Hcl c Hc "FORWARD"); [apply Hcl|done].
    - rewrite lookup_insert_ne in Hx by done. destruct (decide (x ∈ ours)) as [Hxo|Hxo].
      + apply terminal_not_ours; [|done]. pose proof (Hch x l Hxo Hx) as Hl.
        rewrite Forall_forall in Hl. auto.
      + rewrite Hot in Hx by done. by eapply (cl_no_ref _ _ Hcl c Hc x). }
  rewrite Ht. split; [split|split].
  - by rewrite lookup_delete_ne, lookup_insert_eq by auto.
  - apply Forall_forall. intros s Hs. rewrite Forall_forall in Hj. auto.
  - done.
  - intros x l Hx. rewrite lookup_delete_Some, lookup_insert_ne by (symmetry; auto).
    intros [_ ?]. eauto.
  - intros x Hxf Hxo. rewrite lookup_delete_ne, lookup_insert_ne by (done || by intros ->). auto.
  - apply lookup_delete_eq.
  - intros x Hx Hxc. by rewrite lookup_delete_ne, lookup_insert_ne by (done || symmetry; auto).
Qed.

(** The operations of a running gateway. *)
Inductive op :=
| OpInit
| OpApply (route : option string) (c : option FirewallConfig)
| OpSmart (c : option (list SmartRouteRule)).

Definition run_op (k : kernel) (o : op) : kernel :=
  match o with
  | OpInit => (Init k).1
  | OpApply route c => (Apply route c k).1
  | OpSmart c => (ApplySmartRoutes c k).1
  end.

Lemma run_op_managed t0 fwd k o :
  clean t0 fwd -> (exists js, managed t0 fwd js (filterT k)) ->
  exists js, managed t0 fwd js (filterT (run_op k o)).
Proof.
  intros Hcl (js & Hm). assert (outpostChain ∈ ours) as Hoin by left.
  assert (smartChain ∈ ours) as Hsin by (right; left). destruct o as [|route c|c]; cbn [run_op].
  - destruct (Init_effect k _ (mg_forward _ _ _ _ Hm)) as (k' & -> & Ht & _). cbn [fst]. rewrite Ht.
    eapply hooked_managed; [done|done|done|]. destruct (filterT k !! outpostChain) as [l|] eqn:E; [|by constructor].
    exact (mg_chains _ _ _ _ Hm outpostChain l Hoin E).
  - destruct c as [c|]; [|by exists js].
    pose proof (@Apply_installs_cases _ route c k) as Ha.
    destruct (filterT k !! outpostChain); destruct Ha as (k' & -> & Ht & _); cbn [fst]; rewrite Ht;
      exists js; [|done]. apply insert_managed; [done|done|]. constructor; [by left|].
    apply specs_terminal. apply ruleSpec_last.
  - assert (forall k', k' = unhook smartChain k -> exists js, managed t0 fwd js (filterT k')) as Hun.
    { intros k' ->. eexists. by apply unhook_managed. }
    destruct c as [[|r rules]|]; [by apply Hun| |by apply Hun].
    destruct (ApplySmartRoutes_effect (r :: rules) k _ ltac:(done) (mg_forward _ _ _ _ Hm))
      as (k' & -> & Ht & _). cbn [fst]. rewrite Ht. rewrite insert_insert_ne by done.
    eapply hooked_managed; [done|done|done|]. apply specs_terminal. apply smartSpec_last.
Qed.

Lemma run_ops_managed t0 fwd k ops :
  clean t0 fwd -> (exists js, managed t0 fwd js (filterT k)) ->
  exists js, managed t0 fwd js (filterT (foldl run_op k ops)).
Proof.
  intros Hcl. revert k. induction ops as [|o ops IH]; intros k Hk; [done|].
  apply IH. by apply run_op_managed.
Qed.

(** C32. Stopping leaves no trace.  With [iptables] behaving as its interface says,
    whatever sequence of [Init], [Apply] and [ApplySmartRoutes] runs on a gateway
    whose filter table has a FORWARD chain, none of the program's chains and no
    rule that mentions them, [Cleanup] gives the table back as it was. *)
Theorem Cleanup_restores k fwd ops :
  clean (filterT k) fwd -> filterT (Cleanup (foldl run_op k ops)) = filterT k.
Proof.
  intros Hcl.
  assert (exists js, managed (filterT k) fwd js (filterT (foldl run_op k ops))) as (js & Hm).
  { apply run_ops_managed; [done|]. exists []. split; [apply Hcl|constructor|constructor| |done].
    intros c l Hc Hl. rewrite (cl_absent _ _ Hcl c Hc) in Hl. done. }
  change (Cleanup ?k') with (unhook outpostChain (unhook smartChain k')).
  set (k1 := foldl run_op k ops) in *.
  destruct (unhook_managed _ _ _ smartChain k1 Hcl Hm) as (Hm1 & Hs1 & _); [right; left|].
  destruct (unhook_managed _ _ _ outpostChain _ Hcl Hm1) as (Hm2 & Ho2 & Hx2); [left|].
  assert (remove_first (jump outpostChain) (remove_first (jump smartChain) js) = []) as Hjs.
  { destruct (remove_first_NoDup (jump smartChain) js (mg_nodup _ _ _ _ Hm)) as (Hn & Hni & _).
    destruct (remove_first_NoDup (jump outpostChain) _ Hn) as (_ & Hni' & Hsub).
    pose proof (mg_jumps _ _ _ _ Hm2) as Hj. destruct (remove_first _ (remove_first _ js)) as [|s l]; [done|].
    apply Forall_cons in Hj as [(c & Hc & ->) _]. unfold ours in Hc.
    rewrite !elem_of_cons, elem_of_nil in Hc. destruct Hc as [->|[->|[]]].
    - destruct Hni'. by left.
    - destruct Hni. apply Hsub. by left. }
  rewrite Hjs in Hm2. apply map_eq. intros x.
  destruct (decide (x = "FORWARD"%string)) as [->|Hxf].
  { rewrite (mg_forward _ _ _ _ Hm2). symmetry. apply Hcl. }
  destruct (decide (x ∈ ours)) as [Hxo|Hxo]; [|by apply Hm2].
  rewrite (cl_absent _ _ Hcl x Hxo). destruct (decide (x = outpostChain)) as [->|Hne]; [done|].
  rewrite Hx2 by done. unfold ours in Hxo. rewrite !elem_of_cons, elem_of_nil in Hxo.
  destruct Hxo as [->|[->|[]]]; done.
Qed.
End cleanup.

(** ** A netfilter to run the manager on *)

Record sim_kernel := { s_filter : table; s_nat : table; s_tracked : list (Z * Z) }.

Definition parse_cmd (args : list string) : option cmd :=
  match args with
  | o :: c :: rest =>
      if String.eqb o "-N" then Some (NewChain c)
      else if String.eqb o "-F" then Some (FlushChain c)
      else if String.eqb o "-A" then Some (Append c rest)
      else if String.eqb o "-C" then Some (CheckRule c rest)
      else if String.eqb o "-I" then Some (InsertFirst c (tail rest))
      else if String.eqb o "-D" then Some (DeleteRule c rest)
      else if String.eqb o "-X" then Some (DeleteChain c)
      else None
  | _ => None
  end.

Fixpoint sim_accepts (t : table) (s : spec) : bool :=
  match s with
  | o :: v :: rest =>
      if String.eqb o "-j" then bool_decide (v ∈ ["ACCEPT"; "DROP"; "MASQUERADE"]%string) || bool_decide (v ∈ dom t)
      else (if String.eqb o "-s" || String.eqb o "-d" then bool_decide (is_Some (ParseCIDR v)) else true) &&
           sim_accepts t rest
  | _ => false
  end.

Fixpoint sim_match (s : spec) (p : packet) : bool :=
  match s with
  | o :: v :: rest =>
      (if String.eqb o "-s" then cidr_matches v (p_src p)
       else if String.eqb o "-d" then cidr_matches v (p_dst p)
       else if String.eqb o "--ctstate" then p_established p else true) && sim_match rest p
  | _ => true
  end.

Definition sim_iptables (args : list string) (k : sim_kernel) : sim_kernel * bool :=
  let nat := match args with o :: _ => String.eqb o "-t" | [] => false end in
  match parse_cmd (if nat then drop 2 args else args) with
  | None => (k, false)
  | Some m =>
      if nat then
        let '(t, ok) := cmd_effect sim_accepts m (s_nat k) in
        ({| s_filter := s_filter k; s_nat := t; s_tracked := s_tracked k |}, ok)
      else
        let '(t, ok) := cmd_effect sim_accepts m (s_filter k) in
        ({| s_filter := t; s_nat := s_nat k; s_tracked := s_tracked k |}, ok)
  end.

Definition sim_conntrack (ip : string) (k : sim_kernel) : sim_kernel := {|
  s_filter := s_filter k; s_nat := s_nat k;
  s_tracked := List.filter (fun e => negb (bool_decide (ParseIPv4 ip = Some e.1))) (s_tracked k) |}.

Lemma parse_cmd_args m : parse_cmd (cmd_args m) = Some m.
Proof. by destruct m. Qed.

Lemma sim_iptables_filter m k :
  sim_iptables (cmd_args m) k =
  let '(t, ok) := cmd_effect sim_accepts m (s_filter k) in
  ({| s_filter := t; s_nat := s_nat k; s_tracked := s_tracked k |}, ok).
Proof.
  unfold sim_iptables.
  assert (match cmd_args m with o :: _ => String.eqb o "-t" | [] => false end = false) as ->
    by by destruct m.
  by rewrite parse_cmd_args.
Qed.

Lemma sim_iptables_nat m k :
  sim_iptables ("-t" :: "nat" :: cmd_args m)%string k =
  let '(t, ok) := cmd_effect sim_accepts m (s_nat k) in
  ({| s_filter := s_filter k; s_nat := t; s_tracked := s_tracked k |}, ok).
Proof.
  change (sim_iptables ("-t" :: "nat" :: cmd_args m)%string k) with
    (match parse_cmd (cmd_args m) with
     | None => (k, false)
     | Some m => let '(t, ok) := cmd_effect sim_accepts m (s_nat k) in
         ({| s_filter := s_filter k; s_nat := t; s_tracked := s_tracked k |}, ok)
     end).
  by rewrite parse_cmd_args.
Qed.

Lemma sim_accepts_dom t t' s : dom t = dom t' -> sim_accepts t s = sim_accepts t' s.
Proof.
  intros E. revert s. fix IH 1. intros [|o [|v rest]]; [done|done|]. cbn [sim_accepts].
  by rewrite E, IH.
Qed.

Lemma sim_action t a : a ∈ ["ACCEPT"; "DROP"]%string -> sim_accepts t ["-j"; a]%string = true.
Proof.
  intros Ha. cbn [sim_accepts]. simpl. rewrite !elem_of_cons, elem_of_nil in Ha.
  by destruct Ha as [->|[->|[]]].
Qed.

Program Definition sim_netfilter : Netfilter := {|
  kernel := sim_kernel; iptables := sim_iptables; conntrack_D := sim_conntrack;
  filterT := s_filter; natT := s_nat; tracked := s_tracked; accepts := sim_accepts;
  spec_match := sim_match |}.
Next Obligation. intros m k _. rewrite sim_iptables_filter. by destruct (cmd_effect _ _ _). Qed.
Next Obligation. intros m k _. rewrite sim_iptables_nat. by destruct (cmd_effect _ _ _). Qed.
Next Obligation. done. Qed.
Next Obligation. apply sim_accepts_dom. Qed.
Next Obligation. done. Qed.
Next Obligation.
  intros t c Hc. cbn [sim_accepts]. simpl. apply orb_true_iff. right.
  by apply bool_decide_eq_true, elem_of_dom.
Qed.
Next Obligation.
  intros t s a Hs Ha. pose proof (sim_action t a Ha) as Hj.
  change (bool_decide (is_Some (ParseCIDR s)) && sim_accepts t ["-j"; a]%string = true).
  by rewrite bool_decide_true.
Qed.
Next Obligation.
  intros t s d a Hs Hd Ha. pose proof (sim_action t a Ha) as Hj.
  change (bool_decide (is_Some (ParseCIDR s)) &&
    (bool_decide (is_Some (ParseCIDR d)) && sim_accepts t ["-j"; a]%string) = true).
  by rewrite !bool_decide_true.
Qed.
Next Obligation.
  intros t d a Hd Ha. pose proof (sim_action t a Ha) as Hj.
  change (bool_decide (is_Some (ParseCIDR d)) && sim_accepts t ["-j"; a]%string = true).
  by rewrite bool_decide_true.
Qed.
Next Obligation. intros p. simpl. by rewrite andb_true_r. Qed.
Next Obligation. done. Qed.
Next Obligation. intros s a p. simpl. by rewrite andb_true_r. Qed.
Next Obligation. intros s d a p. simpl. by rewrite andb_true_r. Qed.
Next Obligation. intros d a p. simpl. by rewrite andb_true_r. Qed.

(** A freshly booted gateway with one connection of Bob's tracked. *)
Definition boot : sim_kernel := {|
  s_filter := {[ "FORWARD"%string := [] ]}; s_nat := {[ "POSTROUTING"%string := [] ]};
  s_tracked := [(168427523, 169082881); (1, 2)] |}.

Definition route0 : option string := Some "default via 172.17.0.1 dev eth0 proto dhcp"%string.

Lemma boot_clean : clean (s_filter boot) [].
Proof.
  split.
  - done.
  - intros c. unfold ours. rewrite !elem_of_cons, elem_of_nil. intros [->|[->|[]]]; done.
  - intros c _ x l s. simpl. intros [<- <-]%lookup_singleton_Some ?%elem_of_nil. done.
Qed.

Definition demo_cfg : FirewallConfig :=
  match @buildFirewallConfig range_default sql_default no_faults demo_db "g1" with
  | Some c => c
  | None => {| Rules := []; NatEnabled := false; NatInterface := "" |}
  end.

Lemma Apply_installs_witness : exists k',
  @Apply sim_netfilter route0 (Some demo_cfg) (@Init sim_netfilter boot).1 = (k', true) /\
  s_filter k' !! outpostChain = Some [conntrackSpec;
    ["-s"; "10.10.0.3/32"; "-j"; "DROP"];
    ["-s"; "10.10.0.2/32"; "-d"; "10.20.0.0/16"; "-j"; "ACCEPT"];
    ["-s"; "10.10.0.2/32"; "-j"; "DROP"];
    ["-s"; "10.10.1.2/32"; "-j"; "DROP"]]%string /\
  s_tracked k' = [(1, 2)].
Proof.
  pose proof (@Apply_installs sim_netfilter route0 demo_cfg (@Init sim_netfilter boot).1) as Ha.
  assert (@filterT sim_netfilter (@Init sim_netfilter boot).1 !! outpostChain = Some []) as E
    by (vm_compute; reflexivity).
  rewrite E in Ha. destruct Ha as (k' & Hk & _). exists k'. split; [exact Hk|].
  assert (k' = (@Apply sim_netfilter route0 (Some demo_cfg) (@Init sim_netfilter boot).1).1) as ->
    by (rewrite Hk; reflexivity).
  split; vm_compute; reflexivity.
Defined.


Definition direct_route : list SmartRouteRule :=
  default [] (@fetchSmartRoutesForGateway sql_default false demo_db "g1").

Definition demo_ops : list op :=
  [OpInit; OpApply route0 (Some demo_cfg); OpSmart (Some direct_route); OpInit; OpSmart None].

Lemma Cleanup_restores_witness :
  @filterT sim_netfilter (@Cleanup sim_netfilter (foldl (@run_op sim_netfilter) boot demo_ops)) =
  @filterT sim_netfilter boot.
Proof. exact (@Cleanup_restores sim_netfilter boot [] demo_ops boot_clean). Defined.

(** ** Where the code falls short *)

(** The smart-route chain is consulted before the access-control chain, and a
    ["direct"] entry becomes a terminal ACCEPT: a device whose packets the
    policy drops reaches every destination some smart route calls direct. *)
Theorem smart_direct_bypasses_policy :
  let k1 := (@Apply sim_netfilter route0 (Some demo_cfg) (@Init sim_netfilter boot).1).1 in
  let k2 := (@ApplySmartRoutes sim_netfilter (Some direct_route) k1).1 in
  let p := {| p_src := d_assigned_ip bob_dev; p_dst := 169082881; p_established := false |} in
  @forwarded sim_netfilter k1 p = Some "DROP"%string /\
  @forwarded sim_netfilter k2 p = Some "ACCEPT"%string.
Proof. vm_compute. auto. Qed.
