(* ===== verification/Hub.v ===== *)
(** * Event distribution to the gateways

    [internal/core/stream_hub.go] and [internal/core/peer_notifier.go].  A core
    keeps the streams of the gateways connected to it and, when Redis is
    configured, relays every event to the other cores through one Pub/Sub
    channel.  An operation of the hub is the list of its effects: messages on
    local streams and publications.  A system of several cores with the inboxes
    of their subscribers gives the effects their meaning. *)

From S2P Require Import Prelude Net Schema Policy.
From Stdlib Require Import ZArith Lia Ascii String.
From stdpp Require Import base gmap strings list sorting pretty.

Local Open Scope Z_scope.

(** ** Events ([proto/outpost/gateway/v1/gateway.proto]) *)

Inductive PeerAction := PEER_UNSPECIFIED | PEER_ADD | PEER_MODIFY | PEER_REMOVE.

Inductive S2SAction :=
| S2S_UNSPECIFIED | S2S_ADD_TUNNEL | S2S_REMOVE_TUNNEL | S2S_UPDATE_PEERS | S2S_UPDATE_ROUTES.

Record S2SPeer := {
  SP_GatewayId : string;
  SP_PublicKey : string;
  SP_Endpoint : string;
  SP_AllowedIps : list string;
  SP_PersistentKeepalive : Z;
}.

Record S2STunnelConfig := {
  TunnelId : string;
  InterfaceName : string;
  TC_PrivateKey : string;
  TC_ListenPort : Z;
  TC_Peers : list S2SPeer;
  LocalSubnets : list string;
}.

Record GatewayConfig := {
  GatewayId : string;
  NetworkName : string;
  PrivateKey : string;
  ListenPort : Z;
  Addresses : list string;
  Peers : list Peer;
  CfgFirewall : option FirewallConfig;
  S2STunnels : list S2STunnelConfig;
  SmartRoutes : option (list SmartRouteRule);
}.

Inductive CoreEvent :=
| EvPeerUpdate (a : PeerAction) (p : Peer)
| EvS2SUpdate (a : S2SAction) (t : option S2STunnelConfig)
| EvFirewallUpdate (c : option FirewallConfig)
| EvFullResync (c : GatewayConfig)
| EvSmartRouteUpdate (c : option (list SmartRouteRule)).

#[export] Instance PeerAction_eq_dec : EqDecision PeerAction.
Proof. solve_decision. Defined.
#[export] Instance S2SAction_eq_dec : EqDecision S2SAction.
Proof. solve_decision. Defined.
#[export] Instance Peer_eq_dec : EqDecision Peer.
Proof. solve_decision. Defined.
#[export] Instance S2SPeer_eq_dec : EqDecision S2SPeer.
Proof. solve_decision. Defined.
#[export] Instance S2STunnelConfig_eq_dec : EqDecision S2STunnelConfig.
Proof. solve_decision. Defined.
#[export] Instance FirewallRule_eq_dec : EqDecision FirewallRule.
Proof. solve_decision. Defined.
#[export] Instance FirewallConfig_eq_dec : EqDecision FirewallConfig.
Proof. solve_decision. Defined.
#[export] Instance GatewayConfig_eq_dec : EqDecision GatewayConfig.
Proof. solve_decision. Defined.
#[export] Instance CoreEvent_eq_dec : EqDecision CoreEvent.
Proof. solve_decision. Defined.

(** ** StreamHub *)

(** A stream, by its identity: two connections of one gateway differ. *)
Definition streamSender : Type := nat.

Record StreamHub := {
  streams : gmap string streamSender;
  rdb : bool;
}.

Definition NewStreamHub (redis : bool) : StreamHub := {| streams := ∅; rdb := redis |}.

(** [Register] and the cleanup function it returns. *)
Definition Register (h : StreamHub) (gatewayID : string) (s : streamSender) : StreamHub :=
  {| streams := <[gatewayID := s]> (streams h); rdb := rdb h |}.

Definition unregister (h : StreamHub) (gatewayID : string) : StreamHub :=
  {| streams := delete gatewayID (streams h); rdb := rdb h |}.

Definition ConnectedCount (h : StreamHub) : nat := size (streams h).

Inductive effect :=
| Send (s : streamSender) (e : CoreEvent)
| Publish (e : CoreEvent).

#[export] Instance effect_eq_dec : EqDecision effect.
Proof. solve_decision. Defined.

Section hub.
Context `{GoRange}.

Definition broadcastLocal (h : StreamHub) (e : CoreEvent) : list effect :=
  map (fun ks => Send ks.2 e) (range 10 (streams h)).

Definition publish (h : StreamHub) (e : CoreEvent) : list effect :=
  if rdb h then [Publish e] else [].

Definition Broadcast (h : StreamHub) (e : CoreEvent) : list effect :=
  broadcastLocal h e ++ publish h e.

Definition BroadcastPeerUpdate (h : StreamHub) (a : PeerAction) (p : Peer) : list effect :=
  Broadcast h (EvPeerUpdate a p).

Definition SendTo (h : StreamHub) (gatewayID : string) (e : CoreEvent) : list effect :=
  match streams h !! gatewayID with
  | Some s => [Send s e]
  | None => []
  end.

Definition SendFirewallUpdate (h : StreamHub) (gatewayID : string) (c : FirewallConfig) : list effect :=
  let event := EvFirewallUpdate (Some c) in
  SendTo h gatewayID event ++ publish h event.

Definition SendSmartRouteUpdate (h : StreamHub) (gatewayID : string)
    (c : option (list SmartRouteRule)) : list effect :=
  let event := EvSmartRouteUpdate c in
  SendTo h gatewayID event ++ publish h event.
End hub.

(** ** Several cores

    Redis Pub/Sub hands a published message to every subscriber, the publisher
    included, in publication order; each core with Redis runs the loop of
    [subscribe].  [sl_inbox] holds the messages a subscriber has not yet taken. *)
Record slot := { sl_hub : StreamHub; sl_inbox : list CoreEvent }.

Record system := {
  cores : list slot;
  delivered : list (streamSender * CoreEvent);   (* oldest first *)
}.

Definition enqueue (e : CoreEvent) (sl : slot) : slot :=
  if rdb (sl_hub sl) then {| sl_hub := sl_hub sl; sl_inbox := sl_inbox sl ++ [e] |} else sl.

Section system.
Context `{GoRange} (up : streamSender -> bool).   (* streams whose Send succeeds *)

Definition exec_effect (y : system) (f : effect) : system :=
  match f with
  | Send s e => {| cores := cores y;
                   delivered := if up s then delivered y ++ [(s, e)] else delivered y |}
  | Publish e => {| cores := map (enqueue e) (cores y); delivered := delivered y |}
  end.

Definition exec (y : system) (fs : list effect) : system := foldl exec_effect y fs.

(** One iteration of [subscribe] on some core: take a message, forward it to
    the local gateways. *)
Inductive relay : system -> system -> Prop :=
| relay_step y before sl e rest after :
    cores y = before ++ sl :: after -> sl_inbox sl = e :: rest ->
    relay y (exec {| cores := before ++ {| sl_hub := sl_hub sl; sl_inbox := rest |} :: after;
                     delivered := delivered y |} (broadcastLocal (sl_hub sl) e)).

Definition quiescent (y : system) : Prop := Forall (fun sl => sl_inbox sl = []) (cores y).

(** How often a stream got an event. *)
Definition times (y : system) (s : streamSender) (e : CoreEvent) : nat :=
  length (filter (fun d => d = (s, e)) (delivered y)).

(** How often a stream is registered on a hub. *)
Definition registered (h : StreamHub) (s : streamSender) : nat :=
  length (filter (fun ks => ks.2 = s) (map_to_list (streams h))).

(** Copies an inbox will still bring to a stream. *)
Definition owed (s : streamSender) (e : CoreEvent) (sl : slot) : nat :=
  length (filter (fun x => x = e) (sl_inbox sl)) * registered (sl_hub sl) s.

Definition due (y : system) (s : streamSender) (e : CoreEvent) : nat :=
  times y s e + (if up s then sum_list_with (owed s e) (cores y) else 0).
End system.

(** ** Delivery *)

Section delivery.
Context `{GoRange} (up : streamSender -> bool).

Lemma registered_range h s :
  length (filter (fun ks => ks.2 = s) (range 10 (streams h))) = registered h s.
Proof. unfold registered. by rewrite (range_perm 10 (streams h)). Qed.

Lemma exec_app y f g : exec up y (f ++ g) = exec up (exec up y f) g.
Proof. apply foldl_app. Qed.

Lemma exec_sends y (l : list (string * streamSender)) e' s e :
  cores (exec up y (map (fun ks => Send ks.2 e') l)) = cores y /\
  times (exec up y (map (fun ks => Send ks.2 e') l)) s e =
  (times y s e + if up s && bool_decide (e' = e) then length (filter (fun ks => ks.2 = s) l) else 0)%nat.
Proof.
  revert y. induction l as [|[k x] l IH]; intros y.
  - split; [done|]. rewrite filter_nil. simpl. case_match; lia.
  - change (exec up y (map _ ((k, x) :: l))) with
      (exec up (exec_effect up y (Send x e')) (map (fun ks => Send ks.2 e') l)).
    destruct (IH (exec_effect up y (Send x e'))) as [-> ->]. split; [done|].
    unfold times. cbn [exec_effect delivered]. rewrite filter_cons. cbn [snd].
    destruct (up x) eqn:Ux.
    + rewrite filter_app, length_app, filter_cons, filter_nil.
      destruct (decide (x = s)) as [->|Hx].
      * rewrite Ux. cbn [andb]. destruct (decide ((s, e') = (s, e))) as [[= ->]|Hne].
        -- rewrite bool_decide_true by done. simpl. lia.
        -- rewrite bool_decide_false by congruence. simpl. lia.
      * rewrite decide_False by congruence. simpl. lia.
    + destruct (decide (x = s)) as [->|Hx]; [|done]. by rewrite Ux.
Qed.

Lemma broadcastLocal_times y h e' s e :
  cores (exec up y (broadcastLocal h e')) = cores y /\
  times (exec up y (broadcastLocal h e')) s e =
  (times y s e + if up s && bool_decide (e' = e) then registered h s else 0)%nat.
Proof. unfold broadcastLocal. rewrite <- registered_range. apply exec_sends. Qed.

(** A relay step keeps what every stream is due. *)
Lemma relay_due y y' s e : relay up y y' -> due up y' s e = due up y s e.
Proof.
  intros [y0 before sl e' rest after Hc Hi]. unfold due.
  set (y1 := {| cores := _; delivered := _ |}).
  destruct (broadcastLocal_times y1 (sl_hub sl) e' s e) as [-> ->]. rewrite Hc.
  replace (times y1 s e) with (times y0 s e) by done. cbn [cores y1].
  rewrite !sum_list_with_app. cbn [sum_list_with]. unfold owed at 2 5. cbn [sl_inbox sl_hub].
  rewrite Hi, filter_cons. destruct (up s); cbn [andb]; [|lia].
  destruct (decide (e' = e)) as [->|Hne].
  - rewrite bool_decide_true by done. cbn [length]. lia.
  - rewrite bool_decide_false by done. lia.
Qed.

Lemma relays_due y y' s e : rtc (relay up) y y' -> due up y' s e = due up y s e.
Proof. induction 1 as [|y1 y2 y3 H12 _ IH]; [done|]. by rewrite IH, (relay_due y1 y2). Qed.

Lemma quiescent_due y s e : quiescent y -> due up y s e = times y s e.
Proof.
  intros Hq. unfold due.
  assert (sum_list_with (owed s e) (cores y) = 0%nat) as ->.
  { induction Hq as [|sl l Hsl _ IH]; simpl; [done|]. unfold owed at 1. by rewrite Hsl, IH. }
  destruct (up s); lia.
Qed.

(** Every pending message is eventually relayed. *)
Definition pending (y : system) : nat := sum_list_with (fun sl => length (sl_inbox sl)) (cores y).

Lemma relay_pending y y' : relay up y y' -> pending y = S (pending y').
Proof.
  intros [y0 before sl e' rest after Hc Hi]. unfold pending.
  set (y1 := {| cores := _; delivered := _ |}).
  destruct (broadcastLocal_times y1 (sl_hub sl) e' 0%nat e') as [-> _]. rewrite Hc. cbn [cores y1].
  rewrite !sum_list_with_app. cbn [sum_list_with sl_inbox]. rewrite Hi. cbn [length]. lia.
Qed.

Lemma relay_progress y : quiescent y \/ exists y', relay up y y'.
Proof.
  destruct (decide (Forall (fun sl => sl_inbox sl = []) (cores y))) as [Hq|Hn]; [by left|right].
  apply not_Forall_Exists, Exists_exists in Hn as (sl & Hin & Hne); [|apply _].
  apply list_elem_of_split in Hin as (before & after & Hc).
  destruct (sl_inbox sl) as [|e rest] eqn:Hi; [done|]. eexists. by econstructor.
Qed.

Lemma relays_terminate y : exists y', rtc (relay up) y y' /\ quiescent y'.
Proof.
  remember (pending y) as n eqn:Hn. revert y Hn. induction n as [|n IH]; intros y Hn.
  - destruct (relay_progress y) as [Hq|(y' & Hr)]; [exists y; split; [constructor|done]|].
    apply relay_pending in Hr. lia.
  - destruct (relay_progress y) as [Hq|(y' & Hr)]; [exists y; split; [constructor|done]|].
    destruct (IH y') as (y'' & Hrs & Hq); [apply relay_pending in Hr; lia|].
    exists y''. split; [by econstructor|done].
Qed.

(** What an effect adds to what a stream is due. *)
Definition gains (y : system) (f : effect) (s : streamSender) (e : CoreEvent) : nat :=
  match f with
  | Send s' e' => if up s && bool_decide (s' = s) && bool_decide (e' = e) then 1 else 0
  | Publish e' =>
      if up s && bool_decide (e' = e)
      then sum_list_with (fun sl => if rdb (sl_hub sl) then registered (sl_hub sl) s else 0%nat) (cores y)
      else 0
  end.

Lemma enqueue_owed s e e' sl :
  owed s e (enqueue e' sl) =
  (owed s e sl + if bool_decide (e' = e) then (if rdb (sl_hub sl) then registered (sl_hub sl) s else 0) else 0)%nat.
Proof.
  unfold owed, enqueue. destruct (rdb (sl_hub sl)); cbn [sl_inbox sl_hub];
    [|case_bool_decide; lia].
  rewrite filter_app, length_app, filter_cons, filter_nil.
  case_bool_decide; [rewrite decide_True by done|rewrite decide_False by done]; simpl; lia.
Qed.

Lemma exec_effect_due y f s e : due up (exec_effect up y f) s e = (due up y s e + gains y f s e)%nat.
Proof.
  unfold due, gains, times. destruct f as [s' e'|e']; cbn [exec_effect delivered cores].
  - destruct (up s') eqn:Us.
    + rewrite filter_app, length_app, filter_cons, filter_nil.
      destruct (decide ((s', e') = (s, e))) as [[= -> ->]|Hne]; [rewrite Us, !bool_decide_true by done; simpl; lia|].
      assert (up s && bool_decide (s' = s) && bool_decide (e' = e) = false) as ->.
      { apply andb_false_iff. destruct (decide (s' = s)); [|left; rewrite bool_decide_false, andb_false_r by done; done].
        right. apply bool_decide_false. congruence. }
      simpl. lia.
    + destruct (decide (s' = s)) as [->|Hne]; [rewrite Us; simpl; lia|].
      rewrite (bool_decide_false (s' = s)), andb_false_r by done. simpl. lia.
  - destruct (up s); cbn [andb]; [|lia]. rewrite <- Nat.add_assoc. f_equal.
    induction (cores y) as [|sl l IH]; cbn [map sum_list_with]; [case_match; lia|].
    rewrite enqueue_owed, IH. case_bool_decide; lia.
Qed.

Lemma exec_effect_hubs y f : map sl_hub (cores (exec_effect up y f)) = map sl_hub (cores y).
Proof.
  destruct f as [s e|e]; [done|]. cbn [exec_effect cores]. rewrite map_map. apply map_ext.
  intros sl. unfold enqueue. by destruct (rdb (sl_hub sl)).
Qed.

(** The gateways a publication reaches. *)
Definition relayed (y : system) (s : streamSender) : nat :=
  sum_list_with (fun h => if rdb h then registered h s else 0%nat) (map sl_hub (cores y)).

Lemma gains_publish y e' s e :
  gains y (Publish e') s e = (if up s && bool_decide (e' = e) then relayed y s else 0)%nat.
Proof.
  unfold gains, relayed. case_match; [|done].
  induction (cores y) as [|sl l IH]; cbn [map sum_list_with]; [done|]. by rewrite IH.
Qed.

Lemma gains_hubs y y' f s e :
  map sl_hub (cores y') = map sl_hub (cores y) -> gains y' f s e = gains y f s e.
Proof.
  intros E. destruct f as [s' e'|e']; [done|]. rewrite !gains_publish. unfold relayed. by rewrite E.
Qed.

Lemma exec_due y fs s e :
  due up (exec up y fs) s e = (due up y s e + sum_list_with (fun f => gains y f s e) fs)%nat.
Proof.
  revert y. induction fs as [|f fs IH]; intros y; [simpl; unfold exec; simpl; lia|].
  change (exec up y (f :: fs)) with (exec up (exec_effect up y f) fs).
  rewrite IH, exec_effect_due. cbn [sum_list_with].
  rewrite (sum_list_with_ext _ (fun f => gains y f s e)).
  - lia.
  - intros g _. apply gains_hubs, exec_effect_hubs.
Qed.

(** The outcome of an operation once every relay has happened. *)
Lemma outcome y fs y' s e :
  quiescent y -> rtc (relay up) (exec up y fs) y' -> quiescent y' ->
  times y' s e = (times y s e + sum_list_with (fun f => gains y f s e) fs)%nat.
Proof.
  intros Hq Hr Hq'. rewrite <- (quiescent_due y' s e), (relays_due _ _ s e Hr), exec_due by done.
  by rewrite quiescent_due.
Qed.

Lemma gains_broadcastLocal y h e' s e :
  sum_list_with (fun f => gains y f s e) (broadcastLocal h e') =
  (if up s && bool_decide (e' = e) then registered h s else 0)%nat.
Proof.
  unfold broadcastLocal. rewrite <- registered_range.
  induction (range 10 (streams h)) as [|[k x] l IH]; cbn [map sum_list_with]; [case_match; done|].
  rewrite IH. cbn [gains snd]. rewrite filter_cons. cbn [snd].
  destruct (up s), (bool_decide (e' = e)); cbn [andb]; rewrite ?andb_false_r; try done.
  rewrite andb_true_r. case_bool_decide; [rewrite decide_True by done|rewrite decide_False by done]; done.
Qed.

Lemma gains_publication y h e' s e :
  sum_list_with (fun f => gains y f s e) (publish h e') =
  (if rdb h && up s && bool_decide (e' = e) then relayed y s else 0)%nat.
Proof.
  unfold publish. destruct (rdb h); cbn [sum_list_with]; [|done]. rewrite gains_publish. simpl. lia.
Qed.

(** Broadcast: once the subscribers have taken their messages, which
    always happens, every gateway connected to the sending core has received
    the event once from it, and every gateway of every core with Redis once
    more when the sending core publishes; no stream received any other event. *)
Theorem Broadcast_delivers y h e :
  quiescent y ->
  (exists y', rtc (relay up) (exec up y (Broadcast h e)) y' /\ quiescent y') /\
  forall y', rtc (relay up) (exec up y (Broadcast h e)) y' -> quiescent y' ->
  forall s e', up s = true ->
    times y' s e' = (times y s e' +
      if bool_decide (e = e') then registered h s + (if rdb h then relayed y s else 0) else 0)%nat.
Proof.
  intros Hq. split; [apply relays_terminate|]. intros y' Hr Hq' s e' Hup.
  rewrite (outcome y _ y' s e' Hq Hr Hq'). f_equal. unfold Broadcast.
  rewrite sum_list_with_app, gains_broadcastLocal, gains_publication, Hup.
  destruct (bool_decide (e = e')), (rdb h); simpl; lia.
Qed.

(** A firewall update addressed to a gateway reaches it; with a single
    core it reaches no other gateway, but with Redis it also reaches every
    gateway of every core, since the publication does not carry the address. *)
Theorem SendFirewallUpdate_delivers y h gw c y' s e :
  quiescent y -> rtc (relay up) (exec up y (SendFirewallUpdate h gw c)) y' -> quiescent y' ->
  up s = true ->
  times y' s e = (times y s e +
    if bool_decide (EvFirewallUpdate (Some c) = e) then
      (if bool_decide (streams h !! gw = Some s) then 1 else 0) + (if rdb h then relayed y s else 0)
    else 0)%nat.
Proof.
  intros Hq Hr Hq' Hup. rewrite (outcome y _ y' s e Hq Hr Hq'). f_equal.
  unfold SendFirewallUpdate. rewrite sum_list_with_app, gains_publication, Hup.
  set (p := bool_decide (EvFirewallUpdate (Some c) = e)).
  assert (sum_list_with (fun f => gains y f s e) (SendTo h gw (EvFirewallUpdate (Some c))) =
    if p && bool_decide (streams h !! gw = Some s) then 1%nat else 0%nat) as ->.
  { unfold SendTo. destruct (streams h !! gw) as [x|]; cbn [sum_list_with gains].
    - rewrite Hup. fold p. cbn [andb]. destruct (decide (x = s)) as [->|Hne].
      + rewrite (bool_decide_true (s = s)), (bool_decide_true (Some s = Some s)) by done. by destruct p.
      + rewrite (bool_decide_false (x = s)), (bool_decide_false (Some x = Some s)) by congruence.
        by destruct p.
    - rewrite (bool_decide_false (None = Some s)) by done. by destruct p. }
  destruct p, (rdb h), (bool_decide (streams h !! gw = Some s)); simpl; lia.
Qed.
End delivery.

(** ** Site-to-site configuration of a gateway

    [fetchS2STunnels] of [grpc_gateway.go] and [buildS2SConfigs] of
    [peer_notifier.go], which are the same code. *)

Record s2s_tunnel := { t_id : string; t_name : string; t_topology : string; t_is_active : bool }.

Record s2s_member := {
  m_tunnel_id : string;
  m_gateway_id : string;
  m_local_subnets : list string;   (* as text *)
  m_private_key : option string;
  m_public_key : option string;
  m_listen_port : Z;
}.

Record s2s_route := {
  sr_tunnel_id : string;
  sr_destination : string;         (* as text *)
  sr_via_gateway : string;
  sr_metric : Z;
  sr_is_active : bool;
}.

Record s2s_tables := {
  s2s_tunnels : list s2s_tunnel;
  s2s_tunnel_members : list s2s_member;
  s2s_routes : list s2s_route;
}.

(** A conversion to [int32]. *)
Definition wrap32 (z : Z) : Z := (z + 2^31) mod 2^32 - 2^31.

(** The inner loop over the peers: the first one that is the gateway of the
    route gets its destination. *)
Fixpoint addRoute (peers : list S2SPeer) (dest via : string) : list S2SPeer :=
  match peers with
  | [] => []
  | p :: peers =>
      if String.eqb (SP_GatewayId p) via then
        {| SP_GatewayId := SP_GatewayId p; SP_PublicKey := SP_PublicKey p;
           SP_Endpoint := SP_Endpoint p; SP_AllowedIps := SP_AllowedIps p ++ [dest];
           SP_PersistentKeepalive := SP_PersistentKeepalive p |} :: peers
      else p :: addRoute peers dest via
  end.

Section s2s.
Context `{SqlOrder}.

Definition s2sPeers (d : db) (t : s2s_tables) (tunnelID gatewayID : string) : list S2SPeer :=
  m ← List.filter (fun m => String.eqb (m_tunnel_id m) tunnelID &&
                            negb (String.eqb (m_gateway_id m) gatewayID)) (s2s_tunnel_members t);
  g ← List.filter (fun g => String.eqb (g_id g) (m_gateway_id m)) (gateways d);
  [{| SP_GatewayId := m_gateway_id m;
      SP_PublicKey := default (g_pubkey g) (m_public_key m);
      SP_Endpoint := g_endpoint g;
      SP_AllowedIps := m_local_subnets m;
      SP_PersistentKeepalive := 25 |}].

Definition tunnelRoutes (t : s2s_tables) (tunnelID : string) : list s2s_route :=
  List.filter (fun r => String.eqb (sr_tunnel_id r) tunnelID && sr_is_active r) (s2s_routes t).

(** The two inner queries may fail for a tunnel. *)
Record s2s_faults := { memberFails : bool; peerFails : string -> bool; routeFails : string -> bool }.

Definition tunnelConfig (f : s2s_faults) (d : db) (t : s2s_tables) (gatewayID : string)
    (tm : s2s_tunnel * s2s_member) : option S2STunnelConfig :=
  let tunnelID := t_id tm.1 in
  if peerFails f tunnelID then None else
  let peers := rows 21 (s2sPeers d t tunnelID gatewayID) in
  let peers :=
    if routeFails f tunnelID then peers
    else foldl (fun ps r => addRoute ps (sr_destination r) (sr_via_gateway r)) peers
           (rows_by 22 sr_metric (tunnelRoutes t tunnelID)) in
  Some {| TunnelId := tunnelID; InterfaceName := "wg-s2s-" ++ t_name tm.1;
          TC_PrivateKey := default ""%string (m_private_key tm.2);
          TC_ListenPort := wrap32 (m_listen_port tm.2); TC_Peers := peers; LocalSubnets := [] |}.

Definition fetchS2STunnels (f : s2s_faults) (d : db) (t : s2s_tables) (gatewayID : string)
  : list S2STunnelConfig :=
  if memberFails f then [] else
  omap (tunnelConfig f d t gatewayID)
    (rows 20 (tn ← List.filter t_is_active (s2s_tunnels t);
              m ← List.filter (fun m => String.eqb (m_tunnel_id m) (t_id tn) &&
                                        String.eqb (m_gateway_id m) gatewayID) (s2s_tunnel_members t);
              [(tn, m)])).

Definition buildS2SConfigs := fetchS2STunnels.
End s2s.

(** ** The notifiers *)

(** [LEFT JOIN]: a row of nulls when nothing matches. *)
Definition left_join {A} (l : list A) : list (option A) :=
  match l with [] => [None] | _ => map Some l end.

(** [SELECT DISTINCT COALESCE(gn.gateway_id, g.id)] over the networks; a null
    fails to scan and is skipped. *)
Definition gatewaysOfNetworks (d : db) (nets : list (option string)) : list string :=
  omap id (remove_dups
    (n ← nets;
     gn ← left_join (List.filter (fun gn => bool_decide (n = Some gn.2)) (gateway_networks d));
     g ← left_join (List.filter (fun g => match n, g_network_id g with
                                          | Some a, Some b => String.eqb a b | _, _ => false end) (gateways d));
     [match gn with Some gn => Some gn.1 | None => g_id <$> g end])).

Section notifier.
Context `{GoRange, SqlOrder}.

(** The peer of a removal: its key, every other field left zero. *)
Definition removedPeer (pubkey : string) : Peer :=
  {| PublicKey := pubkey; AllowedIps := []; Endpoint := ""; PersistentKeepalive := 0 |}.

Definition removePeer (h : StreamHub) (pubkey : string) : list effect :=
  BroadcastPeerUpdate h PEER_REMOVE (removedPeer pubkey).

Definition removeZTNABlockedPeers (h : StreamHub) (pubkeys : list string) : list effect :=
  flat_map (removePeer h) pubkeys.

Definition sendFirewallResult (h : StreamHub) (gatewayID : string) (result : option firewallResult)
  : list effect :=
  match result with
  | None => []
  | Some r => SendFirewallUpdate h gatewayID (Config r) ++ removeZTNABlockedPeers h (BlockedPubkeys r)
  end.

Definition findGatewaysForPeer (fails : bool) (d : db) (pubkey : string) : list string :=
  if fails then [] else
  rows 11 (remove_dups
    (dev ← devices d; gn ← gateway_networks d;
     if String.eqb (d_pubkey dev) pubkey && bool_decide (d_network_id dev = Some gn.2)
     then [gn.1] else [])).

(** Recomputing and pushing the configuration of each gateway of a list; the
    faults of the queries may differ from one gateway to the next. *)
Definition RefreshFirewallForGateways (f : string -> fw_faults) (d : db) (h : StreamHub)
    (gatewayIDs : list string) : list effect :=
  flat_map (fun gw => sendFirewallResult h gw (buildFirewallConfigFromPool (f gw) d gw)) gatewayIDs.

Definition refreshFirewallForPeer (fails : bool) (f : string -> fw_faults) (d : db) (h : StreamHub)
    (pubkey : string) : list effect :=
  RefreshFirewallForGateways f d h (findGatewaysForPeer fails d pubkey).

Definition NotifyPeerAdd (fails : bool) (f : string -> fw_faults) (d : db) (h : StreamHub)
    (pubkey : string) (allowedIPs : list string) : list effect :=
  BroadcastPeerUpdate h PEER_ADD
    {| PublicKey := pubkey; AllowedIps := allowedIPs; Endpoint := ""; PersistentKeepalive := 25 |} ++
  refreshFirewallForPeer fails f d h pubkey.

Definition NotifyPeerRemove (fails : bool) (f : string -> fw_faults) (d : db) (h : StreamHub)
    (pubkey : string) : list effect :=
  let gatewayIDs := findGatewaysForPeer fails d pubkey in
  removePeer h pubkey ++ RefreshFirewallForGateways f d h gatewayIDs.

Definition RefreshFirewallForUser (fails : bool) (f : string -> fw_faults) (d : db) (h : StreamHub)
    (userID : string) : list effect :=
  if fails then [] else
  RefreshFirewallForGateways f d h
    (rows 12 (gatewaysOfNetworks d
      (map d_network_id (List.filter (fun dev => String.eqb (d_user_id dev) userID && enrolled dev)
                           (devices d))))).

Definition RefreshFirewallForGroup (fails : bool) (f : string -> fw_faults) (d : db) (h : StreamHub)
    (groupID : string) : list effect :=
  if fails then [] else
  RefreshFirewallForGateways f d h
    (rows 13 (gatewaysOfNetworks d
      (map (fun a => Some (a_network_id a))
         (List.filter (fun a => String.eqb (a_group_id a) groupID) (network_acls d))))).

Definition RefreshAllFirewalls (fails : bool) (f : string -> fw_faults) (d : db) (h : StreamHub)
  : list effect :=
  if fails then [] else
  RefreshFirewallForGateways f d h
    (rows 14 (remove_dups (map g_id (List.filter g_is_active (gateways d))))).

Definition NotifySmartRouteUpdate (fails : bool) (f : string -> bool) (d : db) (h : StreamHub)
    (smartRouteID : string) : list effect :=
  if fails then [] else
  flat_map (fun gw => SendSmartRouteUpdate h gw (fetchSmartRoutesForGateway (f gw) d gw))
    (rows 15 (gatewaysOfNetworks d
      (map (fun nsr => Some nsr.1)
         (List.filter (fun nsr => String.eqb nsr.2 smartRouteID) (network_smart_routes d))))).

Definition NotifyS2SUpdate (f : s2s_faults) (d : db) (t : s2s_tables) (h : StreamHub)
    (gatewayID : string) : list effect :=
  flat_map (fun cfg => SendTo h gatewayID (EvS2SUpdate S2S_ADD_TUNNEL (Some cfg)))
    (buildS2SConfigs f d t gatewayID).

(** The gateways that share an active tunnel with a gateway, itself included. *)
Definition s2sPartners (t : s2s_tables) (gatewayID : string) : list string :=
  remove_dups
    (m1 ← List.filter (fun m => String.eqb (m_gateway_id m) gatewayID) (s2s_tunnel_members t);
     tn ← List.filter (fun tn => String.eqb (t_id tn) (m_tunnel_id m1) && t_is_active tn) (s2s_tunnels t);
     m2 ← List.filter (fun m => String.eqb (m_tunnel_id m) (m_tunnel_id m1)) (s2s_tunnel_members t);
     [m_gateway_id m2]).

Definition NotifyGatewayNetworksChanged (fails : bool) (f : fw_faults) (fs : s2s_faults) (d : db)
    (t : s2s_tables) (h : StreamHub) (gatewayID : string) : list effect :=
  match buildFirewallConfigFromPool f d gatewayID with
  | Some r => SendFirewallUpdate h gatewayID (Config r)
  | None => []
  end ++
  (if fails then [] else
   flat_map (fun gw => NotifyS2SUpdate fs d t h gw) (rows 16 (s2sPartners t gatewayID))).
End notifier.

(** ** What the notifiers send *)

Section notifier_facts.
Context `{GoRange, SqlOrder}.

Lemma elem_of_flat_map {A B} (f : A -> list B) l x : x ∈ flat_map f l <-> exists y, y ∈ l /\ x ∈ f y.
Proof. rewrite list_elem_of_In, in_flat_map. by setoid_rewrite <- list_elem_of_In. Qed.

Lemma elem_of_broadcastLocal h e s e' :
  Send s e' ∈ broadcastLocal h e <-> e' = e /\ exists id, streams h !! id = Some s.
Proof.
  unfold broadcastLocal. rewrite list_elem_of_fmap. split.
  - intros ([id x] & [= -> ->] & Hin%elem_of_range). eauto.
  - intros [-> [id Hid]]. exists (id, s). by rewrite elem_of_range.
Qed.

Lemma elem_of_publish h e s e' : Send s e' ∉ publish h e.
Proof.
  unfold publish. destruct (rdb h); [|apply not_elem_of_nil].
  by intros ?%list_elem_of_singleton.
Qed.

Lemma elem_of_Broadcast h e s e' :
  Send s e' ∈ Broadcast h e <-> e' = e /\ exists id, streams h !! id = Some s.
Proof.
  unfold Broadcast. rewrite elem_of_app, elem_of_broadcastLocal.
  pose proof (elem_of_publish h e s e'). tauto.
Qed.

Lemma elem_of_SendTo h gw e s e' : Send s e' ∈ SendTo h gw e <-> e' = e /\ streams h !! gw = Some s.
Proof.
  unfold SendTo. destruct (streams h !! gw) as [x|].
  - rewrite list_elem_of_singleton. split; [by intros [= -> ->]|by intros [-> [= ->]]].
  - rewrite elem_of_nil. naive_solver.
Qed.

Lemma elem_of_refresh f d h gws s e :
  Send s e ∈ RefreshFirewallForGateways f d h gws <->
  exists gw r, gw ∈ gws /\ buildFirewallConfigFromPool (f gw) d gw = Some r /\
    ((e = EvFirewallUpdate (Some (Config r)) /\ streams h !! gw = Some s) \/
     (exists pk id, pk ∈ BlockedPubkeys r /\ streams h !! id = Some s /\
        e = EvPeerUpdate PEER_REMOVE (removedPeer pk))).
Proof.
  unfold RefreshFirewallForGateways. rewrite elem_of_flat_map. unfold sendFirewallResult. split.
  - intros (gw & Hgw & Hin). destruct (buildFirewallConfigFromPool (f gw) d gw) as [r|] eqn:Hr;
      [|by apply elem_of_nil in Hin]. exists gw, r. do 2 (split; [done|]).
    apply elem_of_app in Hin as [Hin|Hin].
    + unfold SendFirewallUpdate in Hin.
      apply elem_of_app in Hin as [Hin|Hin]; [|by apply elem_of_publish in Hin].
      left. by apply elem_of_SendTo.
    + right. apply elem_of_flat_map in Hin as (pk & Hpk & [-> [id Hid]]%elem_of_Broadcast). eauto.
  - intros (gw & r & Hgw & Hr & Hc). exists gw. split; [done|]. rewrite Hr. apply elem_of_app.
    destruct Hc as [[-> Hs]|(pk & id & Hpk & Hid & ->)].
    + left. unfold SendFirewallUpdate. apply elem_of_app. left. by apply elem_of_SendTo.
    + right. apply elem_of_flat_map. exists pk. split; [done|]. apply elem_of_Broadcast. eauto.
Qed.

Lemma elem_of_findGateways d pk gw :
  gw ∈ findGatewaysForPeer false d pk <->
  exists dev, dev ∈ devices d /\ d_pubkey dev = pk /\ served d gw dev = true.
Proof.
  unfold findGatewaysForPeer. rewrite elem_of_rows, elem_of_remove_dups, list_elem_of_bind.
  setoid_rewrite list_elem_of_bind. setoid_rewrite elem_of_if. unfold served. split.
  - intros (dev & (gn & [[Hpk%String.eqb_eq Hn]%andb_true_iff ->] & Hgn) & Hd). exists dev.
    split; [done|]. split; [done|]. apply existsb_exists. exists gn.
    split; [by apply list_elem_of_In|]. by rewrite String.eqb_refl.
  - intros (dev & Hd & Hpk & (gn & Hgn & [Hg%String.eqb_eq Hn]%andb_true_iff)%existsb_exists).
    exists dev. split; [|done]. exists gn. split; [|by apply list_elem_of_In].
    split; [|done]. by rewrite Hpk, String.eqb_refl.
Qed.

(** The actions on a peer sent to one stream, oldest first. *)
Definition peer_action (s : streamSender) (pk : string) (f : effect) : option PeerAction :=
  match f with
  | Send s' (EvPeerUpdate a p) =>
      if bool_decide (s' = s) && String.eqb (PublicKey p) pk then Some a else None
  | _ => None
  end.

Definition peer_actions (s : streamSender) (pk : string) (fs : list effect) : list PeerAction :=
  omap (peer_action s pk) fs.

Lemma elem_of_peer_actions s pk fs a :
  a ∈ peer_actions s pk fs <-> exists p, Send s (EvPeerUpdate a p) ∈ fs /\ PublicKey p = pk.
Proof.
  unfold peer_actions. rewrite list_elem_of_omap. split.
  - intros (f & Hf & E). unfold peer_action in E. repeat case_match; try done. boolify. simplify_eq.
    eauto.
  - intros (p & Hf & <-). eexists. split; [done|]. cbn [peer_action].
    by rewrite bool_decide_true, String.eqb_refl.
Qed.

Lemma last_const {A} (a : A) l : (forall x, x ∈ l -> x = a) -> l <> [] -> list.last l = Some a.
Proof.
  intros Hl Hne. destruct (list.last l) as [x|] eqn:E.
  - f_equal. apply Hl. by apply last_Some_elem_of.
  - by apply last_None in E.
Qed.

Context (d : db) (Hok : db_ok d).

(** With a single core, a global refresh sends every connected gateway of
    an active row its own configuration and no other, and makes every connected
    gateway drop exactly the peers that the zero-trust rules block on some
    active gateway. *)
Theorem RefreshAllFirewalls_exact h s :
  rdb h = false ->
  let effects := RefreshAllFirewalls false (fun _ => no_faults) d h in
  (forall c, Send s (EvFirewallUpdate (Some c)) ∈ effects <->
     exists g, g ∈ gateways d /\ g_is_active g = true /\ streams h !! g_id g = Some s /\
       buildFirewallConfig no_faults d (g_id g) = Some c) /\
  (forall pk, PEER_REMOVE ∈ peer_actions s pk effects <->
     (exists id, streams h !! id = Some s) /\
     exists g dev u, g ∈ gateways d /\ g_is_active g = true /\ dev ∈ devices d /\ u ∈ users d /\
       u_id u = d_user_id dev /\ served d (g_id g) dev = true /\ enrolled dev = true /\
       ztna_blocks d dev u /\ pk = d_pubkey dev).
Proof.
  intros Hr. cbv zeta. unfold RefreshAllFirewalls.
  assert (forall gw, gw ∈ rows 14 (remove_dups (map g_id (List.filter g_is_active (gateways d)))) <->
    exists g, g ∈ gateways d /\ g_is_active g = true /\ g_id g = gw) as Hgw.
  { intros gw. rewrite elem_of_rows, elem_of_remove_dups, list_elem_of_fmap.
    setoid_rewrite list_elem_of_In. setoid_rewrite filter_In. naive_solver. }
  split.
  - intros c. rewrite elem_of_refresh. setoid_rewrite Hgw. unfold buildFirewallConfig. split.
    + intros (gw & r & (g & Hg & Ha & <-) & Hb & [[[= ->] Hs]|(pk & id & _ & _ & [=])]).
      exists g. by rewrite Hb.
    + intros (g & Hg & Ha & Hs & Hb). apply fmap_Some in Hb as (r & Hb & ->).
      exists (g_id g), r. split; [by exists g|]. auto.
  - intros pk. rewrite elem_of_peer_actions. setoid_rewrite elem_of_refresh. setoid_rewrite Hgw. split.
    + intros (p & (gw & r & (g & Hg & Ha & <-) & Hb & [[[=] _]|(pk' & id & Hpk & Hid & [= ->])]) & <-).
      split; [eauto|]. pose proof (blocked_keys d Hok (g_id g) r pk' Hb) as Hbl.
      apply Hbl in Hpk as (dev & u & ? & ? & ? & ? & ? & ? & ->). exists g, dev, u. auto 10.
    + intros ([id Hid] & g & dev & u & Hg & Ha & Hd & Hu & Eu & Hs & He & Hz & ->).
      destruct (build_shape d (g_id g)) as (r & Hb & _).
      exists (removedPeer (d_pubkey dev)). split; [|reflexivity]. exists (g_id g), r. split; [by exists g|].
      split; [done|]. right. eexists _, id. split; [|split; [done|reflexivity]].
      apply (blocked_keys d Hok (g_id g) r _ Hb). exists dev, u. auto 10.
Qed.

(** Announcing a device leaves it a peer exactly when it may be one: the
    last action every connected gateway receives for its key is the addition,
    or the removal when the zero-trust rules block the device. *)
Theorem NotifyPeerAdd_settles h dev u gw ips id s :
  dev ∈ devices d -> u ∈ users d -> u_id u = d_user_id dev ->
  enrolled dev = true -> served d gw dev = true -> streams h !! id = Some s ->
  let actions := peer_actions s (d_pubkey dev)
    (NotifyPeerAdd false (fun _ => no_faults) d h (d_pubkey dev) ips) in
  (ztna_blocks d dev u -> list.last actions = Some PEER_REMOVE) /\
  (~ ztna_blocks d dev u -> list.last actions = Some PEER_ADD).
Proof.
  intros Hd Hu Eu He Hs Hid. cbv zeta. unfold NotifyPeerAdd, refreshFirewallForPeer.
  unfold peer_actions. rewrite omap_app, last_app.
  set (gws := findGatewaysForPeer _ _ _).
  assert (forall a, a ∈ peer_actions s (d_pubkey dev)
    (RefreshFirewallForGateways (fun _ => no_faults) d h gws) <-> a = PEER_REMOVE /\ ztna_blocks d dev u)
    as Hb.
  { intros a. rewrite elem_of_peer_actions. setoid_rewrite elem_of_refresh. split.
    - intros (p & (gw' & r & Hgw' & Hr & [[[=] _]|(pk & id' & Hpk & _ & [= -> ->])]) & Ep). split; [done|].
      apply (blocked_keys d Hok gw' r pk Hr) in Hpk as (dev' & u' & Hd' & Hu' & Eu' & _ & _ & Hz & ->).
      assert (dev' = dev) as -> by (eapply (NoDup_map_inj d_pubkey); [apply (ok_devices d Hok)|done..]).
      assert (u' = u) as -> by (eapply (NoDup_map_inj u_id); [apply Hok|done|done|congruence]). done.
    - intros [-> Hz]. destruct (build_shape d gw) as (r & Hr & _).
      exists (removedPeer (d_pubkey dev)). split; [|reflexivity]. exists gw, r. split; [apply elem_of_findGateways; eauto|].
      split; [done|]. right. eexists _, id. split; [|split; [done|reflexivity]].
      apply (blocked_keys d Hok gw r _ Hr). exists dev, u. auto 10. }
  assert (list.last (peer_actions s (d_pubkey dev) (BroadcastPeerUpdate h PEER_ADD
    {| PublicKey := d_pubkey dev; AllowedIps := ips; Endpoint := ""; PersistentKeepalive := 25 |}))
    = Some PEER_ADD) as Hadd.
  { apply last_const.
    - intros a (p & [[= ->] _]%elem_of_Broadcast & _)%elem_of_peer_actions. done.
    - intros E. apply (not_elem_of_nil PEER_ADD). rewrite <- E, elem_of_peer_actions.
      eexists. split; [apply elem_of_Broadcast; eauto|done]. }
  unfold peer_actions in Hb, Hadd. split.
  - intros Hz. erewrite last_const; [reflexivity| |].
    + intros a [-> _]%Hb. done.
    + intros E. apply (not_elem_of_nil PEER_REMOVE). rewrite <- E. by apply Hb.
  - intros Hz. destruct (omap _ (RefreshFirewallForGateways _ _ _ _)) as [|a l] eqn:E; [exact Hadd|].
    destruct Hz. apply (Hb a). left.
Qed.
End notifier_facts.

(** ** A running system *)

Definition hub1 (redis : bool) : StreamHub := Register (NewStreamHub redis) "g1" 1%nat.
Definition hub2 (redis : bool) : StreamHub := Register (NewStreamHub redis) "g2" 2%nat.

(** Two cores sharing a Redis, one gateway on each. *)
Definition two_cores : system := {|
  cores := [{| sl_hub := hub1 true; sl_inbox := [] |}; {| sl_hub := hub2 true; sl_inbox := [] |}];
  delivered := [] |}.

Lemma two_cores_quiescent : quiescent two_cores.
Proof. repeat constructor. Qed.

Definition bye : CoreEvent := EvPeerUpdate PEER_REMOVE (removedPeer "pkA").

Lemma Broadcast_delivers_witness : exists y',
  rtc (@relay range_default (fun _ => true)) (exec (fun _ => true) two_cores (@Broadcast range_default (hub1 true) bye)) y' /\
  quiescent y' /\ times y' 1%nat bye = 2%nat /\ times y' 2%nat bye = 1%nat.
Proof.
  destruct (@Broadcast_delivers range_default (fun _ => true) two_cores (hub1 true) bye two_cores_quiescent)
    as [(y' & Hr & Hq) Ht].
  exists y'. split; [exact Hr|]. split; [exact Hq|].
  rewrite !(Ht y' Hr Hq) by reflexivity. vm_compute. split; reflexivity.
Defined.

Definition some_config : FirewallConfig := {| Rules := []; NatEnabled := true; NatInterface := "" |}.

Lemma SendFirewallUpdate_delivers_witness : exists y',
  rtc (@relay range_default (fun _ => true))
    (exec (fun _ => true) two_cores (SendFirewallUpdate (hub1 true) "g1" some_config)) y' /\
  times y' 1%nat (EvFirewallUpdate (Some some_config)) = 2%nat.
Proof.
  destruct (@relays_terminate range_default (fun _ => true)
    (exec (fun _ => true) two_cores (SendFirewallUpdate (hub1 true) "g1" some_config))) as (y' & Hr & Hq).
  exists y'. split; [exact Hr|].
  rewrite (@SendFirewallUpdate_delivers range_default (fun _ => true) two_cores (hub1 true) "g1" some_config
             y' 1%nat _ two_cores_quiescent Hr Hq eq_refl).
  vm_compute. reflexivity.
Defined.

Lemma RefreshAllFirewalls_exact_witness :
  PEER_REMOVE ∈ peer_actions 1%nat "pkB"
    (@RefreshAllFirewalls range_default sql_default false (fun _ => no_faults) demo_db (hub1 false)).
Proof.
  apply (proj2 (@RefreshAllFirewalls_exact range_default sql_default demo_db demo_db_ok (hub1 false) 1%nat
                  eq_refl) "pkB"%string).
  split; [exists "g1"%string; reflexivity|].
  exists (mkGateway "g1" (Some "n2"%string)), bob_dev, (mkUser "bob" true).
  repeat match goal with |- _ /\ _ => split end; try reflexivity; try exact bob_blocked; repeat constructor.
Defined.

Lemma NotifyPeerAdd_settles_witness :
  list.last (peer_actions 1%nat "pkB" (@NotifyPeerAdd range_default sql_default false (fun _ => no_faults)
    demo_db (hub1 true) "pkB" ["10.10.0.3/32"%string])) = Some PEER_REMOVE.
Proof.
  apply (@NotifyPeerAdd_settles range_default sql_default demo_db demo_db_ok (hub1 true) bob_dev
           (mkUser "bob" true) "g1" ["10.10.0.3/32"%string] "g1" 1%nat); try reflexivity;
    try exact bob_blocked; repeat constructor.
Defined.

(** ** Where the code falls short *)

(** Redis carries no address: a configuration computed for gateway [g1] is
    delivered to gateway [g2] of the other core, which will apply it in place
    of its own. *)
Theorem firewall_update_leaks c y' :
  rtc (@relay range_default (fun _ => true))
    (exec (fun _ => true) two_cores (SendFirewallUpdate (hub1 true) "g1" c)) y' -> quiescent y' ->
  times y' 2%nat (EvFirewallUpdate (Some c)) = 1%nat.
Proof.
  intros Hr Hq. rewrite (outcome (fun _ => true) two_cores _ y' _ _ two_cores_quiescent Hr Hq).
  unfold SendFirewallUpdate. rewrite sum_list_with_app, gains_publication. cbn.
  rewrite !bool_decide_true by done. vm_compute. reflexivity.
Qed.

(** A gateway that reconnects before its old stream has ended is lost: the
    cleanup of the old stream deletes the entry of the new one. *)
Theorem stale_cleanup_disconnects h gw s_old s_new e :
  SendTo (unregister (Register (Register h gw s_old) gw s_new) gw) gw e = [].
Proof. unfold SendTo. cbn. by rewrite lookup_delete_eq. Qed.

(** Peers are announced to every gateway, firewall rules only to those that
    serve the device's network: another gateway accepts the peer and has no
    rule about its packets. *)
Theorem peer_on_unserved_gateway :
  let h := Register (hub1 false) "g2" 2%nat in
  PEER_ADD ∈ peer_actions 2%nat "pkA" (@NotifyPeerAdd range_default sql_default false
    (fun _ => no_faults) demo_db h "pkA" ["10.10.0.2/32"%string]) /\
  exists r, @buildFirewallConfigFromPool range_default sql_default no_faults demo_db "g2" = Some r /\
    verdict (Rules (Config r)) (d_assigned_ip ann_dev) 169082881 = None.
Proof.
  split.
  - apply elem_of_peer_actions.
    exists {| PublicKey := "pkA"; AllowedIps := ["10.10.0.2/32"%string]; Endpoint := "";
              PersistentKeepalive := 25 |}.
    split; [|reflexivity]. apply elem_of_app. left.
    apply elem_of_Broadcast. split; [reflexivity|]. exists "g2"%string. reflexivity.
  - eexists. split; [vm_compute; reflexivity|vm_compute; reflexivity].
Qed.

(** When the device's row is already gone, no gateway is found and no firewall
    configuration is recomputed. *)
Theorem remove_after_delete `{GoRange, SqlOrder} f d h pk :
  (forall dev, dev ∈ devices d -> d_pubkey dev <> pk) ->
  NotifyPeerRemove false f d h pk = removePeer h pk.
Proof.
  intros Hno. unfold NotifyPeerRemove.
  destruct (findGatewaysForPeer false d pk) as [|gw l] eqn:E.
  - unfold RefreshFirewallForGateways. simpl. by rewrite app_nil_r.
  - assert (gw ∈ findGatewaysForPeer false d pk) as Hin by (rewrite E; by left).
    apply elem_of_findGateways in Hin as (dev & Hd & Hpk & _). by destruct (Hno dev Hd).
Qed.
