(* ===== verification/Agent.v ===== *)
(** * The gateway agent

    [internal/gateway/agent.go] and [internal/gateway/wg_manager.go]: how a
    gateway applies its initial configuration and the events of the core to the
    WireGuard interface and to the packet filter.  The [wgctrl] library is a
    parameter, class [WgCtrl], whose laws state the effect of [ConfigureDevice]
    on the peers of the interface as WireGuard documents it: a peer is created
    or updated, its allowed addresses are replaced, and an address block belongs
    to the last peer it was given to. *)

From S2P Require Import Prelude Net Schema Policy Hub Firewall.
From Stdlib Require Import ZArith Lia Ascii String.
From stdpp Require Import base gmap strings list sorting pretty.

Local Open Scope Z_scope.

(** ** wgctrl *)

Record wg_peer := {
  w_allowed : list cidr;
  w_endpoint : option string;
  w_keepalive : option Z;
}.

#[export] Instance wg_peer_eq_dec : EqDecision wg_peer.
Proof. solve_decision. Defined.

(** [wgtypes.PeerConfig]; a nil pointer leaves the setting as it is. *)
Record PeerConfig := {
  pc_key : string;
  pc_remove : bool;
  pc_replace_allowed : bool;
  pc_allowed : list cidr;
  pc_endpoint : option string;
  pc_keepalive : option Z;
}.

(** The blocks given to one peer leave every other peer. *)
Definition take_from (l : list cidr) (p : wg_peer) : wg_peer :=
  {| w_allowed := filter (fun c => c ∉ l) (w_allowed p); w_endpoint := w_endpoint p;
     w_keepalive := w_keepalive p |}.

Definition peer_effect (c : PeerConfig) (m : gmap string wg_peer) : gmap string wg_peer :=
  if pc_remove c then delete (pc_key c) m else
  let old := default {| w_allowed := []; w_endpoint := None; w_keepalive := None |} (m !! pc_key c) in
  <[pc_key c :=
    {| w_allowed := (if pc_replace_allowed c then [] else w_allowed old) ++ pc_allowed c;
       w_endpoint := match pc_endpoint c with Some e => Some e | None => w_endpoint old end;
       w_keepalive := match pc_keepalive c with Some k => Some k | None => w_keepalive old end |}]>
    (take_from (pc_allowed c) <$> m).

Class WgCtrl : Type := {
  wgdev : Type;
  (** [wgtypes.ParseKey]: the canonical text of the key. *)
  ParseKey : string -> option string;
  (** [net.ResolveUDPAddr("udp", endpoint)]. *)
  ResolveUDPAddr : string -> option string;
  (** [ConfigureDevice] with one peer: the interface and whether the error is nil. *)
  ConfigurePeer : PeerConfig -> wgdev -> wgdev * bool;
  peersOf : wgdev -> gmap string wg_peer;
  configure_ok : forall c w, (ConfigurePeer c w).2 = true ->
    peersOf (ConfigurePeer c w).1 = peer_effect c (peersOf w);
  configure_fails : forall c w, (ConfigurePeer c w).2 = false ->
    peersOf (ConfigurePeer c w).1 = peersOf w;
}.

(** ** WGManager *)

Section wg_manager.
Context `{WgCtrl}.

(** [AddPeer]; the [keepalive] argument is not used by the code. *)
Definition AddPeer (pubkey : string) (allowedIPs : list string) (endpoint : string) (keepalive : Z)
    (w : wgdev) : wgdev * bool :=
  match ParseKey pubkey with
  | None => (w, false)
  | Some key =>
      ConfigurePeer {| pc_key := key; pc_remove := false; pc_replace_allowed := true;
        pc_allowed := omap ParseCIDR allowedIPs;
        pc_endpoint := if String.eqb endpoint "" then None else ResolveUDPAddr endpoint;
        pc_keepalive := None |} w
  end.

Definition RemovePeer (pubkey : string) (w : wgdev) : wgdev * bool :=
  match ParseKey pubkey with
  | None => (w, false)
  | Some key =>
      ConfigurePeer {| pc_key := key; pc_remove := true; pc_replace_allowed := false;
        pc_allowed := []; pc_endpoint := None; pc_keepalive := None |} w
  end.
End wg_manager.

(** ** Agent *)

Section agent.
Context `{WgCtrl, Netfilter} (route : option string).  (* output of [ip route show default] *)

(** [a.wg] is nil without WireGuard, [a.fw] is nil when [Init] failed. *)
Record Agent := {
  wg : option wgdev;
  fw : bool;
  kern : kernel;
}.

Definition withWg (a : Agent) (w : wgdev) : Agent := {| wg := Some w; fw := fw a; kern := kern a |}.
Definition withKern (a : Agent) (k : kernel) : Agent := {| wg := wg a; fw := fw a; kern := k |}.

Definition handlePeerUpdate (action : PeerAction) (p : Peer) (a : Agent) : Agent :=
  match wg a with
  | None => a
  | Some w =>
      match action with
      | PEER_ADD | PEER_MODIFY =>
          withWg a (AddPeer (PublicKey p) (AllowedIps p) (Endpoint p) (PersistentKeepalive p) w).1
      | PEER_REMOVE => withWg a (RemovePeer (PublicKey p) w).1
      | PEER_UNSPECIFIED => a
      end
  end.

Definition addS2SPeer (w : wgdev) (p : S2SPeer) : wgdev :=
  if String.eqb (SP_PublicKey p) "" then w
  else (AddPeer (SP_PublicKey p) (SP_AllowedIps p) (SP_Endpoint p) (SP_PersistentKeepalive p) w).1.

Definition removeS2SPeer (w : wgdev) (p : S2SPeer) : wgdev :=
  if String.eqb (SP_PublicKey p) "" then w else (RemovePeer (SP_PublicKey p) w).1.

Definition handleS2SUpdate (action : S2SAction) (tunnel : option S2STunnelConfig) (a : Agent) : Agent :=
  match tunnel, wg a with
  | Some t, Some w =>
      match action with
      | S2S_ADD_TUNNEL | S2S_UPDATE_ROUTES | S2S_UPDATE_PEERS =>
          withWg a (foldl addS2SPeer w (TC_Peers t))
      | S2S_REMOVE_TUNNEL => withWg a (foldl removeS2SPeer w (TC_Peers t))
      | S2S_UNSPECIFIED => a
      end
  | _, _ => a
  end.

Definition handleFirewallUpdate (c : option FirewallConfig) (a : Agent) : Agent :=
  if fw a then withKern a (Apply route c (kern a)).1 else a.

Definition handleSmartRouteUpdate (c : option (list SmartRouteRule)) (a : Agent) : Agent :=
  if fw a then withKern a (ApplySmartRoutes c (kern a)).1 else a.

Definition addConfigPeer (w : wgdev) (p : Peer) : wgdev :=
  (AddPeer (PublicKey p) (AllowedIps p) (Endpoint p) (PersistentKeepalive p) w).1.

Definition handleFullResync (c : GatewayConfig) (a : Agent) : Agent :=
  match wg a with
  | None => a
  | Some w =>
      let w := foldl addConfigPeer w (Peers c) in
      let w := foldl addS2SPeer w (flat_map TC_Peers (S2STunnels c)) in
      let a := withWg a w in
      match fw a, SmartRoutes c with
      | true, Some rules => withKern a (ApplySmartRoutes (Some rules) (kern a)).1
      | _, _ => a
      end
  end.

(** The dispatch of [runSync]. *)
Definition handle (a : Agent) (e : CoreEvent) : Agent :=
  match e with
  | EvPeerUpdate act p => handlePeerUpdate act p a
  | EvS2SUpdate act t => handleS2SUpdate act t a
  | EvFirewallUpdate c => handleFirewallUpdate c a
  | EvSmartRouteUpdate c => handleSmartRouteUpdate c a
  | EvFullResync c => handleFullResync c a
  end.

(** The part of [Run] between the first configuration and the loops, on a
    configured interface ([None] when wgctrl is not available). *)
Definition startup (cfg : GatewayConfig) (w : option wgdev) (k : kernel) : Agent :=
  let w := (fun w => foldl addConfigPeer w (Peers cfg)) <$> w in
  let '(k, ok) := Init k in
  if ok then
    let k := match CfgFirewall cfg with Some c => (Apply route (Some c) k).1 | None => k end in
    let k := match SmartRoutes cfg with Some r => (ApplySmartRoutes (Some r) k).1 | None => k end in
    {| wg := w; fw := true; kern := k |}
  else {| wg := w; fw := false; kern := k |}.

(** The delay of [Run] before attempt [n+1], in seconds. *)
Definition backoff (attempt : Z) : Z := Z.min (attempt * 2) 30.
End agent.

(** ** Which peers an interface has *)

(** The additions ([true]) and removals of an event, in order. *)
Definition s2s_keys (l : list S2SPeer) (add : bool) : list (string * bool) :=
  map (fun p => (SP_PublicKey p, add))
    (List.filter (fun p => negb (String.eqb (SP_PublicKey p) "")) l).

Definition key_actions (e : CoreEvent) : list (string * bool) :=
  match e with
  | EvPeerUpdate (PEER_ADD | PEER_MODIFY) p => [(PublicKey p, true)]
  | EvPeerUpdate PEER_REMOVE p => [(PublicKey p, false)]
  | EvS2SUpdate (S2S_ADD_TUNNEL | S2S_UPDATE_ROUTES | S2S_UPDATE_PEERS) (Some t) =>
      s2s_keys (TC_Peers t) true
  | EvS2SUpdate S2S_REMOVE_TUNNEL (Some t) => s2s_keys (TC_Peers t) false
  | EvFullResync c =>
      map (fun p => (PublicKey p, true)) (Peers c) ++ s2s_keys (flat_map TC_Peers (S2STunnels c)) true
  | _ => []
  end.

Section peers.
Context `{WgCtrl, Netfilter} (route : option string).
(** The interface accepts every configuration. *)
Context (Hup : forall c w, (ConfigurePeer c w).2 = true).

Definition key_step (s : gset string) (ka : string * bool) : gset string :=
  match ParseKey ka.1 with
  | None => s
  | Some k => if ka.2 then {[k]} ∪ s else s ∖ {[k]}
  end.

Lemma AddPeer_dom pk ips ep ka w :
  dom (peersOf (AddPeer pk ips ep ka w).1) = key_step (dom (peersOf w)) (pk, true).
Proof.
  unfold AddPeer, key_step. cbn [fst snd]. destruct (ParseKey pk) as [k|]; [|done].
  rewrite configure_ok by apply Hup. unfold peer_effect. cbn [pc_remove pc_key].
  by rewrite dom_insert_L, dom_fmap_L.
Qed.

Lemma RemovePeer_dom pk w :
  dom (peersOf (RemovePeer pk w).1) = key_step (dom (peersOf w)) (pk, false).
Proof.
  unfold RemovePeer, key_step. cbn [fst snd]. destruct (ParseKey pk) as [k|]; [|done].
  rewrite configure_ok by apply Hup. unfold peer_effect. cbn [pc_remove pc_key].
  by rewrite dom_delete_L.
Qed.

Lemma foldl_S2S_dom l w :
  dom (peersOf (foldl addS2SPeer w l)) = foldl key_step (dom (peersOf w)) (s2s_keys l true) /\
  dom (peersOf (foldl removeS2SPeer w l)) = foldl key_step (dom (peersOf w)) (s2s_keys l false).
Proof.
  unfold s2s_keys. revert w. induction l as [|p l IH]; intros w; [done|]. cbn [foldl List.filter].
  destruct (IH (addS2SPeer w p)) as [-> _]. destruct (IH (removeS2SPeer w p)) as [_ ->].
  unfold addS2SPeer, removeS2SPeer.
  destruct (String.eqb (SP_PublicKey p) ""); cbn [negb map foldl]; [done|].
  by rewrite AddPeer_dom, RemovePeer_dom.
Qed.

Lemma foldl_config_dom l w :
  dom (peersOf (foldl addConfigPeer w l)) =
  foldl key_step (dom (peersOf w)) (map (fun p => (PublicKey p, true)) l).
Proof.
  revert w. induction l as [|p l IH]; intros w; [done|]. cbn [foldl map]. rewrite IH.
  unfold addConfigPeer. by rewrite AddPeer_dom.
Qed.

Lemma handle_dom a w e :
  wg a = Some w -> exists w', wg (handle route a e) = Some w' /\
    dom (peersOf w') = foldl key_step (dom (peersOf w)) (key_actions e).
Proof.
  intros Hw. destruct e as [act p|act t|c|c|c]; cbn [handle].
  - unfold handlePeerUpdate. rewrite Hw. destruct act; (eexists; split; [done|]); cbn [key_actions foldl];
      by rewrite ?AddPeer_dom, ?RemovePeer_dom.
  - unfold handleS2SUpdate. rewrite Hw. destruct t as [t|]; [|exists w; split; [done|by destruct act]].
    destruct act; (eexists; split; [done|]); cbn [key_actions]; try done; apply foldl_S2S_dom.
  - unfold handleFirewallUpdate. exists w. by destruct (fw a).
  - unfold handleFullResync. rewrite Hw. eexists. split; [by destruct (fw _), (SmartRoutes c)|].
    cbn [key_actions]. rewrite foldl_app. destruct (foldl_S2S_dom (flat_map TC_Peers (S2STunnels c))
      (foldl addConfigPeer w (Peers c))) as [-> _]. by rewrite foldl_config_dom.
  - unfold handleSmartRouteUpdate. exists w. by destruct (fw a).
Qed.

(** The last action on a key decides. *)
Lemma foldl_key_step k l s :
  k ∈ foldl key_step s l <->
  match list.last (omap (fun ka => if bool_decide (ParseKey ka.1 = Some k) then Some ka.2 else None) l) with
  | Some b => b = true
  | None => k ∈ s
  end.
Proof.
  induction l as [|[pk b] l IH] using rev_ind; [done|].
  rewrite foldl_app, omap_app, last_app. cbn [foldl omap list_omap fst snd].
  unfold key_step at 1. cbn [fst snd]. destruct (ParseKey pk) as [k'|] eqn:Hk.
  - destruct (decide (k' = k)) as [->|Hne].
    + rewrite bool_decide_true by done. cbn [list.last]. destruct b; set_solver.
    + rewrite bool_decide_false by congruence. cbn [list.last]. rewrite <- IH. destruct b; set_solver.
  - rewrite bool_decide_false by congruence. cbn [list.last]. exact IH.
Qed.

(** After any sequence of events a gateway has a peer exactly when the
    last addition or removal of its key was an addition, or it was never
    touched and was there before. *)
Theorem peers_track_events a w es :
  wg a = Some w ->
  exists w', wg (foldl (handle route) a es) = Some w' /\
  forall k, k ∈ dom (peersOf w') <->
    match list.last (omap (fun ka => if bool_decide (ParseKey ka.1 = Some k) then Some ka.2 else None)
                       (flat_map key_actions es)) with
    | Some b => b = true
    | None => k ∈ dom (peersOf w)
    end.
Proof.
  intros Hw.
  assert (exists w', wg (foldl (handle route) a es) = Some w' /\
    dom (peersOf w') = foldl key_step (dom (peersOf w)) (flat_map key_actions es)) as (w' & Hw' & Hd).
  { revert a w Hw. induction es as [|e es IH]; intros a w Hw; [by exists w|]. cbn [foldl flat_map].
    destruct (handle_dom a w e Hw) as (w1 & Hw1 & Hd1). destruct (IH _ _ Hw1) as (w2 & Hw2 & Hd2).
    exists w2. split; [done|]. by rewrite foldl_app, Hd2, Hd1. }
  exists w'. split; [done|]. intros k. rewrite Hd. apply foldl_key_step.
Qed.
End peers.

(** ** Duplicate deliveries

    With Redis the gateways of the publishing core get every broadcast twice
    (see [Broadcast_delivers]). *)

Lemma take_from_twice l p : take_from l (take_from l p) = take_from l p.
Proof.
  unfold take_from. cbn [w_allowed w_endpoint w_keepalive]. f_equal. rewrite list_filter_filter.
  apply list_filter_iff. naive_solver.
Qed.

Lemma peer_effect_twice c m :
  pc_replace_allowed c = true \/ pc_remove c = true ->
  peer_effect c (peer_effect c m) = peer_effect c m.
Proof.
  unfold peer_effect. destruct (pc_remove c).
  - intros _. apply map_eq. intros x. destruct (decide (pc_key c = x)) as [->|];
      by rewrite ?lookup_delete_eq, ?lookup_delete_ne.
  - intros [->|?]; [|done]. cbv zeta. rewrite lookup_insert_eq. cbn [default from_option id w_endpoint w_keepalive].
    apply map_eq. intros x. destruct (decide (pc_key c = x)) as [<-|Hne].
    + rewrite !lookup_insert_eq. f_equal. f_equal; by destruct (pc_endpoint c), (pc_keepalive c).
    + rewrite !lookup_insert_ne, !lookup_fmap, lookup_insert_ne, lookup_fmap by done.
      destruct (m !! x) as [p|]; [|done]. cbn. by rewrite take_from_twice.
Qed.

Section duplicates.
Context `{WgCtrl, Netfilter} (route : option string).
Context (Hup : forall c w, (ConfigurePeer c w).2 = true).
Context (t0 : table) (fwd : list spec) (Hclean : clean t0 fwd).

Lemma Apply_twice c k :
  filterT (Apply route c (Apply route c k).1).1 = filterT (Apply route c k).1.
Proof.
  destruct c as [c|]; [|done]. pose proof (Apply_installs_cases route c k) as H1.
  destruct (filterT k !! outpostChain) as [old|] eqn:Hl.
  - destruct H1 as (k1 & -> & Ht1 & _). cbn [fst].
    pose proof (Apply_installs_cases route c k1) as H2.
    rewrite Ht1, lookup_insert_eq in H2. destruct H2 as (k2 & -> & Ht2 & _). cbn [fst].
    rewrite Ht2, Ht1, insert_insert_eq. do 2 f_equal. apply filter_ext. intros s.
    apply accepts_dom. rewrite dom_insert_lookup_L; [done|by eexists].
  - destruct H1 as (k1 & -> & Ht1 & _). cbn [fst].
    pose proof (Apply_installs_cases route c k1) as H2. rewrite Ht1, Hl in H2.
    destruct H2 as (k2 & -> & Ht2 & _). cbn [fst]. by rewrite Ht2, Ht1.
Qed.

Lemma unhook_twice js c k :
  managed t0 fwd js (filterT k) -> c ∈ ours ->
  filterT (unhook c (unhook c k)) = filterT (unhook c k).
Proof.
  intros Hm Hc. destruct (unhook_managed t0 fwd js c k Hclean Hm Hc) as (Hm1 & Ha1 & _).
  destruct (unhook_managed t0 fwd _ c _ Hclean Hm1 Hc) as (Hm2 & Ha2 & Hx2).
  assert (remove_first (jump c) (remove_first (jump c) js) = remove_first (jump c) js) as Hj.
  { apply remove_first_notin. apply (remove_first_NoDup (jump c) js), Hm. }
  rewrite Hj in Hm2. apply map_eq. intros x.
  destruct (decide (x = "FORWARD"%string)) as [->|Hf].
  { by rewrite (mg_forward _ _ _ _ Hm2), (mg_forward _ _ _ _ Hm1). }
  destruct (decide (x = c)) as [->|Hne]; [congruence|].
  destruct (decide (x ∈ ours)) as [Ho|Ho]; [by apply Hx2|].
  by rewrite (mg_other _ _ _ _ Hm2), (mg_other _ _ _ _ Hm1).
Qed.

Lemma ApplySmartRoutes_twice js c k :
  managed t0 fwd js (filterT k) ->
  filterT (ApplySmartRoutes c (ApplySmartRoutes c k).1).1 = filterT (ApplySmartRoutes c k).1.
Proof.
  intros Hm. assert (smartChain ∈ ours) as Hs by (right; left).
  destruct c as [[|r rules]|]; [by eapply unhook_twice| |by eapply unhook_twice].
  set (rs := r :: rules). assert (rs <> []) as Hne by done.
  destruct (ApplySmartRoutes_effect rs k _ Hne (mg_forward _ _ _ _ Hm)) as (k1 & -> & Ht1 & _).
  cbn [fst].
  destruct (ApplySmartRoutes_effect rs k1 (hooked smartChain (js ++ fwd)) Hne) as (k2 & -> & Ht2 & _).
  { by rewrite Ht1, lookup_insert_ne, lookup_insert_eq. }
  cbn [fst]. rewrite Ht2, hooked_twice.
  assert (forall s, accepts (<[smartChain := []]> (filterT k1)) s =
                    accepts (<[smartChain := []]> (filterT k)) s) as Hacc.
  { intros s. apply accepts_dom. rewrite Ht1.
    rewrite insert_insert_eq, !dom_insert_L.
    assert ("FORWARD"%string ∈ dom (filterT k)); [|set_solver].
    apply elem_of_dom. rewrite (mg_forward _ _ _ _ Hm). by eexists. }
  rewrite (filter_ext _ _ Hacc), Ht1.
  rewrite (insert_insert_ne (<["FORWARD"%string := _]> _) "FORWARD"%string smartChain) by done.
  by rewrite !insert_insert_eq.
Qed.

(** The two ends of a peer update. *)
Lemma AddPeer_twice pk ips ep ka w :
  peersOf (AddPeer pk ips ep ka (AddPeer pk ips ep ka w).1).1 = peersOf (AddPeer pk ips ep ka w).1.
Proof.
  unfold AddPeer. destruct (ParseKey pk); [|done]. rewrite !configure_ok by apply Hup.
  apply peer_effect_twice. by left.
Qed.

Lemma RemovePeer_twice pk w :
  peersOf (RemovePeer pk (RemovePeer pk w).1).1 = peersOf (RemovePeer pk w).1.
Proof.
  unfold RemovePeer. destruct (ParseKey pk); [|done]. rewrite !configure_ok by apply Hup.
  apply peer_effect_twice. by right.
Qed.

Definition repeatable (e : CoreEvent) : bool :=
  match e with EvPeerUpdate _ _ | EvFirewallUpdate _ | EvSmartRouteUpdate _ => true | _ => false end.

(** Receiving a peer, firewall or smart-route event twice has the effect
    of receiving it once, on the peers of the interface and on the filter
    table, in every state the manager can be in. *)
Theorem duplicate_delivery_harmless js a e :
  managed t0 fwd js (filterT (kern a)) -> repeatable e = true ->
  let once := handle route a e in
  let twice := handle route once e in
  peersOf <$> wg twice = peersOf <$> wg once /\ filterT (kern twice) = filterT (kern once).
Proof.
  intros Hm He. destruct e as [act p|act t|c|c|c]; try done; cbn [handle]; cbv zeta.
  - unfold handlePeerUpdate. destruct (wg a) as [w|] eqn:Hw; [|rewrite !Hw; done].
    destruct act; cbn [wg withWg kern]; rewrite ?Hw; cbn [fmap option_fmap option_map];
      rewrite ?AddPeer_twice, ?RemovePeer_twice; done.
  - unfold handleFirewallUpdate. destruct (fw a) eqn:Hf; [|by rewrite Hf].
    cbn [fw withKern kern wg]. rewrite Hf. cbn [kern withKern wg]. split; [done|]. apply Apply_twice.
  - unfold handleSmartRouteUpdate. destruct (fw a) eqn:Hf; [|by rewrite Hf].
    cbn [fw withKern kern wg]. rewrite Hf. cbn [kern withKern wg]. split; [done|].
    by eapply ApplySmartRoutes_twice.
Qed.
End duplicates.

(** ** An agent to run *)

Program Definition sim_wg : WgCtrl := {|
  wgdev := gmap string wg_peer;
  ParseKey := fun s => if String.eqb s "" then None else Some s;
  ResolveUDPAddr := fun s => Some s;
  ConfigurePeer := fun c w => (peer_effect c w, true);
  peersOf := fun w => w |}.
Next Obligation. done. Qed.
Next Obligation. done. Qed.

Lemma sim_wg_up : forall c w, (@ConfigurePeer sim_wg c w).2 = true.
Proof. done. Qed.

Definition agent0 : @Agent sim_wg sim_netfilter :=
  @Build_Agent sim_wg sim_netfilter (Some ∅) true (@Init sim_netfilter boot).1.

Definition addA : CoreEvent := EvPeerUpdate PEER_ADD
  {| PublicKey := "pkA"; AllowedIps := ["10.10.0.2/32"%string]; Endpoint := ""; PersistentKeepalive := 25 |}.

Lemma peers_track_events_witness : exists w',
  wg (foldl (@handle sim_wg sim_netfilter route0) agent0 [addA; bye; addA; EvFirewallUpdate None]) = Some w' /\
  "pkA"%string ∈ dom w'.
Proof.
  destruct (@peers_track_events sim_wg sim_netfilter route0 sim_wg_up agent0 ∅
              [addA; bye; addA; EvFirewallUpdate None] eq_refl) as (w' & Hw & Hk).
  exists w'. split; [exact Hw|]. apply (proj2 (Hk "pkA"%string)). vm_compute. reflexivity.
Defined.

Lemma agent0_managed : exists js, managed (s_filter boot) [] js (@filterT sim_netfilter (kern agent0)).
Proof.
  apply (@run_op_managed sim_netfilter (s_filter boot) [] boot OpInit boot_clean).
  exists []. split; [reflexivity|constructor|constructor| |done].
  intros c l Hc Hl. pose proof (cl_absent _ _ boot_clean c Hc) as Hn.
  change (s_filter boot !! c = Some l) in Hl. congruence.
Qed.

Lemma duplicate_delivery_harmless_witness :
  let once := @handle sim_wg sim_netfilter route0 agent0 (EvFirewallUpdate (Some demo_cfg)) in
  let twice := @handle sim_wg sim_netfilter route0 once (EvFirewallUpdate (Some demo_cfg)) in
  @peersOf sim_wg <$> wg twice = @peersOf sim_wg <$> wg once /\
  @filterT sim_netfilter (kern twice) = @filterT sim_netfilter (kern once).
Proof.
  destruct agent0_managed as (js & Hm).
  exact (@duplicate_delivery_harmless sim_wg sim_netfilter route0 sim_wg_up (s_filter boot) [] boot_clean
           js agent0 (EvFirewallUpdate (Some demo_cfg)) Hm eq_refl).
Defined.

(** ** Where the code falls short *)

(** A full resync only adds: a peer the configuration no longer lists stays on
    the interface, and its firewall configuration is not applied. *)
Theorem full_resync_keeps_stale `{WgCtrl, Netfilter} route a w c k :
  (forall cf w, (ConfigurePeer cf w).2 = true) ->
  wg a = Some w -> k ∈ dom (peersOf w) -> SmartRoutes c = None ->
  exists w', wg (handle route a (EvFullResync c)) = Some w' /\ k ∈ dom (peersOf w') /\
    kern (handle route a (EvFullResync c)) = kern a.
Proof.
  intros Hup Hw Hk Hs. destruct (handle_dom route Hup a w (EvFullResync c) Hw) as (w' & Hw' & Hd).
  exists w'. split; [done|]. split.
  - rewrite Hd. cbn [key_actions]. unfold s2s_keys.
    assert (forall l s, k ∈ s -> Forall (fun ka => ka.2 = true) l -> k ∈ foldl key_step s l) as Hadd.
    { intros l. induction l as [|[pk b] l IH]; intros s Hin Hall; [done|]. cbn [foldl].
      apply Forall_cons in Hall as [Hb Hall]. simpl in Hb. subst b. apply IH; [|done].
      unfold key_step. cbn [fst snd]. destruct (ParseKey pk); set_solver. }
    apply Hadd; [done|]. apply Forall_app. split; apply Forall_fmap, Forall_true; done.
  - cbn [handle]. unfold handleFullResync. rewrite Hw, Hs. by destruct (fw _).
Qed.

(** The keepalive the core asks for never reaches the interface. *)
Theorem keepalive_ignored `{WgCtrl} pk ips ep ka ka' w : AddPeer pk ips ep ka w = AddPeer pk ips ep ka' w.
Proof. reflexivity. Qed.
