(* ===== verification/Devices.v ===== *)
(** * Device endpoints

    [internal/core/handler/device.go] and [helpers.go]: listing, creation with
    address allocation, self-enrollment, update, deletion, approval and
    revocation.  A handler maps the tables and a request to a response, the new
    tables and the effects of the peer notifier.  [fail n] says that the
    database does not answer query number [n] of the handler.  The allocation
    loop runs against concurrent writers, a function from the tables a statement
    read to the tables it writes to. *)

From S2P Require Import Prelude Net Schema Policy Hub Auth.
From Stdlib Require Import ZArith Lia Ascii String.
From stdpp Require Import base gmap strings list list_numbers sorting pretty.
Import Auth.Token.

Local Open Scope Z_scope.

(** ** Helpers ([helpers.go]) *)

Definition defaultPage : Z := 1.
Definition defaultPerPage : Z := 50.
Definition maxPerPage : Z := 100.

(** [queryInt] on the value of a query parameter. *)
Definition queryInt (v : string) (fallback : Z) : Z :=
  if String.eqb v "" then fallback
  else let '(n, err) := Atoi v in if err then fallback else n.

Definition parsePagination (page perPage : string) : Z * Z :=
  let p := queryInt page defaultPage in
  let pp := queryInt perPage defaultPerPage in
  let p := if p <? 1 then defaultPage else p in
  let pp := if pp <? 1 then defaultPerPage else pp in
  (p, if maxPerPage <? pp then maxPerPage else pp).

(** [offset := (page - 1) * perPage], in machine arithmetic. *)
Definition pageOffset (page perPage : Z) : Z := mul64 (sub64 page 1) perPage.

Definition ptrOrNil (s : string) : option string := if String.eqb s "" then None else Some s.

(** [base64.StdEncoding.DecodeString]: the number of bytes decoded, or
    [None] for corrupt input.  Line breaks are skipped. *)
Definition b64_char (c : ascii) : bool :=
  let n := N_of_ascii c in
  ((65 <=? n) && (n <=? 90) || (97 <=? n) && (n <=? 122) || (48 <=? n) && (n <=? 57) ||
   (n =? 43) || (n =? 47))%N.

Fixpoint b64_len (l : list ascii) : option nat :=
  match l with
  | [] => Some 0%nat
  | a :: b :: c :: d :: rest =>
      if negb (b64_char a && b64_char b) then None
      else if Ascii.eqb c "=" then
        (if Ascii.eqb d "=" then match rest with [] => Some 1%nat | _ => None end else None)
      else if negb (b64_char c) then None
      else if Ascii.eqb d "=" then match rest with [] => Some 2%nat | _ => None end
      else if negb (b64_char d) then None
      else (fun n => (3 + n)%nat) <$> b64_len rest
  | _ => None
  end.

Definition line_break (c : ascii) : bool :=
  (N_of_ascii c =? 10)%N || (N_of_ascii c =? 13)%N.

Definition base64_decoded_len (s : string) : option nat :=
  b64_len (List.filter (fun c => negb (line_break c)) (String.list_ascii_of_string s)).

Definition validWireGuardKey (s : string) : bool :=
  Nat.eqb (String.length s) 44 && bool_decide (String.get 43 s = Some "="%char) &&
  bool_decide (base64_decoded_len s = Some 32%nat).

(** Code outside the repository: [uuid.Parse] (the canonical text), the text
    input of PostgreSQL's [uuid] type, and the functions of wgtypes, with a key
    given by its base64 text. *)
Class DeviceEnv : Type := {
  uuid_Parse : string -> option string;
  pg_uuid : string -> option string;
  wgtypes_GeneratePrivateKey : option string;
  wgtypes_ParseKey : string -> option string;
  wgtypes_PublicKey : string -> string;
  (** The driver's text of an [inet] column scanned without [host]. *)
  inet_Text : Z -> string;
}.

(** The key functions of [internal/wireguard/keygen.go]. *)
Definition GeneratePrivateKey `{DeviceEnv} : option string := wgtypes_GeneratePrivateKey.

Definition wg_PublicKey `{DeviceEnv} (privateKey : string) : option string :=
  wgtypes_PublicKey <$> wgtypes_ParseKey privateKey.

(** ** The notifier interface ([PeerNotifier]) *)

Class PeerNotifier (E : Type) : Type := {
  notifyAdd : db -> string -> list string -> list E;
  notifyRemove : db -> string -> list E;
}.

(** Its implementation by the stream hub. *)
Definition hubPeerNotifier `{GoRange, SqlOrder} (fails : bool) (f : string -> fw_faults) (h : StreamHub)
  : PeerNotifier effect := {|
  notifyAdd := fun d => NotifyPeerAdd fails f d h;
  notifyRemove := fun d => NotifyPeerRemove fails f d h |}.

(** ** Responses *)

Record deviceResponse := {
  dr_ID : string;
  dr_UserID : string;
  dr_OwnerName : string;
  dr_Name : string;
  dr_WireguardPubkey : string;
  dr_AssignedIP : string;
  dr_IsApproved : bool;
  dr_LastHandshake : option Z;
  dr_NetworkID : option string;
  dr_NetworkName : option string;
  dr_CreatedAt : Z;
  dr_UpdatedAt : Z;
}.

Record gatewayEndpointResponse := {
  ge_ID : string;
  ge_Endpoint : string;
  ge_ServerPublicKey : string;
  ge_Priority : Z;
  ge_HealthStatus : string;
}.

Record enrollResponse := {
  er_DeviceID : string;
  er_Address : string;
  er_DNS : list string;
  er_Endpoint : string;
  er_ServerPublicKey : string;
  er_AllowedIPs : list string;
  er_PersistentKeepalive : Z;
  er_Gateways : list gatewayEndpointResponse;
}.

Inductive dbody :=
| BError (message : string)
| BDevice (d : deviceResponse)
| BDevices (l : list deviceResponse) (total : Z) (page perPage : Z)
| BEnroll (e : enrollResponse)
| BStatus (s : string)
| BEmpty.

Record resp := { r_status : Z; r_body : dbody }.

Definition respondError (st : Z) (m : string) : resp := {| r_status := st; r_body := BError m |}.

Definition ownerName (d : db) (uid : string) : string :=
  default ""%string (u_username <$> List.find (fun u => String.eqb (u_id u) uid) (users d)).

Definition networkName (d : db) (nid : option string) : option string :=
  n ← nid; n_name <$> List.find (fun x => String.eqb (n_id x) n) (networks d).

(** The row of a listing. *)
Definition listRow (d : db) (dev : device) : deviceResponse := {|
  dr_ID := d_id dev; dr_UserID := d_user_id dev; dr_OwnerName := ownerName d (d_user_id dev);
  dr_Name := d_name dev; dr_WireguardPubkey := d_pubkey dev;
  dr_AssignedIP := host (d_assigned_ip dev); dr_IsApproved := d_is_approved dev;
  dr_LastHandshake := d_last_handshake dev; dr_NetworkID := d_network_id dev;
  dr_NetworkName := networkName d (d_network_id dev); dr_CreatedAt := d_created_at dev;
  dr_UpdatedAt := d_updated_at dev |}.

(** *** The addresses a device can be given

    [generate_series(2, (1 << (32 - masklen)) - 2)], less the addresses in use;
    without [ORDER BY] the database may return any of them.  The bounds are
    [integer]s of 32 bits: a shift takes its count modulo 32 and keeps the low
    bits, a subtraction that leaves the range is an error.  So a /0 has the
    bound -1 and an empty series, and for a /1 the statement fails. *)
Definition in_int4 (z : Z) : bool := (- 2^31 <=? z) && (z <? 2^31).

Definition int4_shl (a n : Z) : Z := wrap32 (a * 2^(n mod 32)).

Definition int4_sub (a b : Z) : option Z := if in_int4 (a - b) then Some (a - b) else None.

Definition allocLast (c : cidr) : option Z := int4_sub (int4_shl 1 (32 - cidr_len c)) 2.

Definition allocOffsets (c : cidr) : option (list Z) := (fun last => seqZ 2 (last - 1)) <$> allocLast c.

(** [None]: the statement fails. *)
Definition freeAddresses (c : cidr) (d : db) : option (list Z) :=
  (fun offsets =>
     List.filter (fun ip => negb (existsb (fun dev => Z.eqb (d_assigned_ip dev) ip) (devices d)))
       (map (fun off => cidr_base c + off) offsets)) <$> allocOffsets c.

Inductive insert_result :=
| Inserted (dev : device) (d : db)
| ViolatesId
| ViolatesPubkey
| ViolatesAssignedIp
| NoRows
| DbError.

(** The columns a caller gives for a new row. *)
Record new_device := {
  nd_user : string;
  nd_name : string;
  nd_pubkey : string;
  nd_privkey : option string;
  nd_approved : bool;
  nd_network : string;
}.

Section handlers.
Context `{SqlOrder, DeviceEnv} {E : Type} (notifier : option (PeerNotifier E)).

(** The [INSERT ... SELECT FROM candidate]: the candidate is chosen from the
    tables the statement reads ([snap]); constraints hold on the tables at the
    time of the insertion ([cur]). *)
Definition insertDevice (c : cidr) (newID : string) (now : Z) (r : new_device) (snap cur : db)
  : insert_result :=
  match rows 30 <$> freeAddresses c snap with
  | None => DbError
  | Some [] => NoRows
  | Some (ip :: _) =>
      if existsb (fun dev => String.eqb (d_id dev) newID) (devices cur) then ViolatesId
      else if existsb (fun dev => String.eqb (d_pubkey dev) (nd_pubkey r)) (devices cur) then ViolatesPubkey
      else if existsb (fun dev => Z.eqb (d_assigned_ip dev) ip) (devices cur) then ViolatesAssignedIp
      else if negb (existsb (fun u => String.eqb (u_id u) (nd_user r)) (users cur)) ||
              negb (existsb (fun n => String.eqb (n_id n) (nd_network r)) (networks cur)) then DbError
      else
        let dev := {| d_id := newID; d_user_id := nd_user r; d_name := nd_name r;
                      d_pubkey := nd_pubkey r; d_privkey := nd_privkey r; d_assigned_ip := ip;
                      d_is_approved := nd_approved r; d_last_handshake := None;
                      d_network_id := Some (nd_network r); d_created_at := now; d_updated_at := now |} in
        Inserted dev (set_devices cur (devices cur ++ [dev]))
  end.

(** The retry loop: [todo] attempts are left, [i] is the number of the next
    one.  [env i d] is what concurrent transactions make of the tables between
    the read and the write of attempt [i]; [newID i] is the generated key. *)
Inductive alloc_result :=
| Allocated (dev : device) (d : db)
| Refused (r : insert_result) (d : db)
| OutOfRetries (d : db).

Fixpoint allocLoop (todo i : nat) (c : cidr) (newID : nat -> string) (now : Z) (r : new_device)
    (env : nat -> db -> db) (fails : nat -> bool) (d : db) : alloc_result :=
  match todo with
  | O => OutOfRetries d
  | S todo =>
      if fails i then Refused DbError d else
      let cur := env i d in
      match insertDevice c (newID i) now r d cur with
      | Inserted dev d' => Allocated dev d'
      | ViolatesAssignedIp => allocLoop todo (S i) c newID now r env fails cur
      | res => Refused res cur
      end
  end.

(** ** [list] and [listMy] *)

(** [ORDER BY created_at DESC LIMIT perPage OFFSET offset]; PostgreSQL refuses
    a negative offset. *)
Definition window {A} (limit offset : Z) (l : list A) : option (list A) :=
  if offset <? 0 then None else Some (take (Z.to_nat limit) (drop (Z.to_nat offset) l)).

Definition listDevices (fail : nat -> bool) (d : db) (sel : device -> bool) (page perPage : string) : resp :=
  let '(p, pp) := parsePagination page perPage in
  let offset := pageOffset p pp in
  if fail 0%nat then respondError 500 "failed to count devices" else
  let total := Z.of_nat (length (List.filter sel (devices d))) in
  if fail 1%nat then respondError 500 "failed to query devices" else
  match window pp offset (rows_by 31 (fun dev => - d_created_at dev) (List.filter sel (devices d))) with
  | None => respondError 500 "failed to query devices"
  | Some l => {| r_status := 200; r_body := BDevices (map (listRow d) l) total p pp |}
  end.

Definition list_ (fail : nat -> bool) (d : db) (page perPage : string) : resp :=
  listDevices fail d (fun _ => true) page perPage.

Definition listMy (fail : nat -> bool) (d : db) (claims : option TokenClaims) (page perPage : string) : resp :=
  match claims with
  | None => respondError 401 "authentication required"
  | Some c =>
      match uuid_Parse (UserID c) with
      | None => respondError 500 "invalid user ID in token"
      | Some uid => listDevices fail d (fun dev => String.eqb (d_user_id dev) uid) page perPage
      end
  end.

(** ** [create] *)

Record createDeviceRequest := {
  cq_Name : string;
  cq_WireguardPubkey : string;
  cq_UserID : string;
  cq_NetworkID : string;
}.

Definition maxRetries : nat := 5.

(** The key pair of the request: the public key and the generated private key. *)
Definition createKeys (pubkey : string) : result (string * string) :=
  if String.eqb pubkey "" || String.eqb pubkey "auto-generated" then
    match GeneratePrivateKey with
    | None => Err "failed to generate key pair"
    | Some priv =>
        match wg_PublicKey priv with
        | None => Err "failed to derive public key"
        | Some pub => Ok (pub, priv)
        end
    end
  else Ok (pubkey, ""%string).

Definition allocCIDR (n : network) : cidr := default (n_address n) (n_tunnel_cidr n).

(** The network of a new device: the requested one if active, or the oldest
    active one.  A text that is not a uuid makes the query fail. *)
Definition resolveNetwork (fails : bool) (d : db) (networkID : string) : result (option network) :=
  if fails then Err "failed to read network" else
  if negb (String.eqb networkID "") then
    match pg_uuid networkID with
    | None => Err "failed to read network"
    | Some nid => Ok (List.find (fun n => String.eqb (n_id n) nid && n_is_active n) (networks d))
    end
  else Ok (head (rows_by 32 n_created_at (List.filter n_is_active (networks d)))).

(** [rawUserID]: the body, then the query parameter, then the caller. *)
Definition rawUserID (body query own : string) : string :=
  if negb (String.eqb body "") then body else if negb (String.eqb query "") then query else own.

Definition createdRow (dev : device) : deviceResponse := {|
  dr_ID := d_id dev; dr_UserID := d_user_id dev; dr_OwnerName := ""; dr_Name := d_name dev;
  dr_WireguardPubkey := d_pubkey dev; dr_AssignedIP := host (d_assigned_ip dev);
  dr_IsApproved := d_is_approved dev; dr_LastHandshake := d_last_handshake dev;
  dr_NetworkID := None; dr_NetworkName := None; dr_CreatedAt := d_created_at dev;
  dr_UpdatedAt := d_updated_at dev |}.

Definition create (fail : nat -> bool) (env : nat -> db -> db) (newID : nat -> string) (now : Z)
    (d : db) (claims : option TokenClaims) (queryUser : string) (body : option createDeviceRequest)
  : resp * db :=
  match body with
  | None => (respondError 400 "invalid JSON", d)
  | Some req =>
      if String.eqb (cq_Name req) "" then (respondError 400 "name is required", d) else
      if negb (String.eqb (cq_WireguardPubkey req) "" || String.eqb (cq_WireguardPubkey req) "auto-generated") &&
         negb (validWireGuardKey (cq_WireguardPubkey req))
      then (respondError 400 "invalid WireGuard public key: must be 44-character base64 (32 bytes)", d) else
      match createKeys (cq_WireguardPubkey req) with
      | Err m => (respondError 500 m, d)
      | Ok (pubkey, privkey) =>
          match claims with
          | None => (respondError 401 "authentication required", d)
          | Some c =>
              let raw := rawUserID (cq_UserID req) queryUser (UserID c) in
              if negb (IsAdmin c) && negb (String.eqb raw (UserID c))
              then (respondError 403 "you can only create devices for yourself", d) else
              match uuid_Parse raw with
              | None => (respondError 400 "invalid user_id", d)
              | Some uid =>
                  match resolveNetwork (fail 0%nat) d (cq_NetworkID req) with
                  | Err m => (respondError 500 m, d)
                  | Ok None => (respondError 422 "no active network found", d)
                  | Ok (Some n) =>
                      match allocLoop maxRetries 0 (allocCIDR n) newID now
                        {| nd_user := uid; nd_name := cq_Name req; nd_pubkey := pubkey;
                           nd_privkey := ptrOrNil privkey; nd_approved := false; nd_network := n_id n |}
                        env (fun i => fail (S i)) d with
                      | Allocated dev d' => ({| r_status := 201; r_body := BDevice (createdRow dev) |}, d')
                      | Refused ViolatesPubkey d' =>
                          (respondError 409 "device with this public key already exists", d')
                      | Refused ViolatesId d' => (respondError 409 "device already exists", d')
                      | Refused NoRows d' =>
                          (respondError 500 "no available IP addresses in the network", d')
                      | Refused _ d' => (respondError 500 "failed to create device", d')
                      | OutOfRetries d' =>
                          (respondError 500 "failed to allocate IP address after retries", d')
                      end
                  end
              end
          end
      end
  end.

(** ** [get], [update], [delete] *)

(** [WHERE id = $1 AND (user_id = $2 OR $3 = true)]; the statement fails when
    the user of the token is not a uuid. *)
Definition visible (c : TokenClaims) (id : string) (dev : device) : bool :=
  String.eqb (d_id dev) id &&
  (bool_decide (pg_uuid (UserID c) = Some (d_user_id dev)) || IsAdmin c).

Definition badCaller (c : TokenClaims) : bool := negb (bool_decide (is_Some (pg_uuid (UserID c)))).

Definition getRow (d : db) (dev : device) : deviceResponse := {|
  dr_ID := d_id dev; dr_UserID := d_user_id dev; dr_OwnerName := ownerName d (d_user_id dev);
  dr_Name := d_name dev; dr_WireguardPubkey := d_pubkey dev;
  dr_AssignedIP := host (d_assigned_ip dev); dr_IsApproved := d_is_approved dev;
  dr_LastHandshake := d_last_handshake dev; dr_NetworkID := None; dr_NetworkName := None;
  dr_CreatedAt := d_created_at dev; dr_UpdatedAt := d_updated_at dev |}.

Definition get (fail : nat -> bool) (d : db) (claims : option TokenClaims) (rawId : string) : resp :=
  match uuid_Parse rawId, claims with
  | None, _ => respondError 400 "invalid UUID"
  | _, None => respondError 401 "authentication required"
  | Some id, Some c =>
      if fail 0%nat || badCaller c then respondError 500 "failed to get device" else
      match List.find (visible c id) (devices d) with
      | None => respondError 404 "device not found"
      | Some dev => {| r_status := 200; r_body := BDevice (getRow d dev) |}
      end
  end.

Definition rename (name : string) (now : Z) (dev : device) : device := {|
  d_id := d_id dev; d_user_id := d_user_id dev; d_name := name; d_pubkey := d_pubkey dev;
  d_privkey := d_privkey dev; d_assigned_ip := d_assigned_ip dev;
  d_is_approved := d_is_approved dev; d_last_handshake := d_last_handshake dev;
  d_network_id := d_network_id dev; d_created_at := d_created_at dev; d_updated_at := now |}.

(** [UPDATE ... WHERE sel]: the rows that satisfy the condition change. *)
Definition updateWhere (sel : device -> bool) (f : device -> device) (d : db) : db :=
  set_devices d (map (fun dev => if sel dev then f dev else dev) (devices d)).

Definition updatedRow (dev : device) : deviceResponse := {|
  dr_ID := d_id dev; dr_UserID := d_user_id dev; dr_OwnerName := ""; dr_Name := d_name dev;
  dr_WireguardPubkey := d_pubkey dev; dr_AssignedIP := inet_Text (d_assigned_ip dev);
  dr_IsApproved := d_is_approved dev; dr_LastHandshake := d_last_handshake dev;
  dr_NetworkID := d_network_id dev; dr_NetworkName := None; dr_CreatedAt := d_created_at dev;
  dr_UpdatedAt := d_updated_at dev |}.

(** The body is [None] when it does not decode, its name is optional. *)
Definition update (fail : nat -> bool) (now : Z) (d : db) (claims : option TokenClaims) (rawId : string)
    (body : option (option string)) : resp * db :=
  match uuid_Parse rawId, body, claims with
  | None, _, _ => (respondError 400 "invalid UUID", d)
  | _, None, _ => (respondError 400 "invalid JSON", d)
  | _, Some None, _ => (respondError 400 "no fields to update", d)
  | _, _, None => (respondError 401 "authentication required", d)
  | Some id, Some (Some name), Some c =>
      if fail 0%nat || badCaller c then (respondError 500 "failed to update device", d) else
      match List.find (visible c id) (devices d) with
      | None => (respondError 404 "device not found", d)
      | Some dev =>
          ({| r_status := 200; r_body := BDevice (updatedRow (rename name now dev)) |},
           updateWhere (visible c id) (rename name now) d)
      end
  end.

Definition notify (f : PeerNotifier E -> list E) : list E :=
  match notifier with Some n => f n | None => [] end.

(** The ownership check and the deletion are two statements; [env] is what
    other transactions make of the tables between them. *)
Definition delete_ (fail : nat -> bool) (env : db -> db) (d : db) (claims : option TokenClaims)
    (rawId : string) : resp * db * list E :=
  match uuid_Parse rawId, claims with
  | None, _ => (respondError 400 "invalid UUID", d, [])
  | _, None => (respondError 401 "authentication required", d, [])
  | Some id, Some c =>
      if fail 0%nat || badCaller c then (respondError 500 "failed to fetch device", d, []) else
      match List.find (visible c id) (devices d) with
      | None => (respondError 404 "device not found", d, [])
      | Some dev =>
          let d1 := env d in
          if fail 1%nat then (respondError 500 "failed to delete device", d1, []) else
          let d' := set_devices d1 (List.filter (fun x => negb (String.eqb (d_id x) id)) (devices d1)) in
          if negb (existsb (fun x => String.eqb (d_id x) id) (devices d1))
          then (respondError 404 "device not found", d', []) else
          let pubkey := d_pubkey dev in
          ({| r_status := 204; r_body := BEmpty |}, d',
           if negb (String.eqb pubkey "") then notify (fun n => notifyRemove (PeerNotifier := n) d' pubkey) else [])
      end
  end.

(** ** [approve] and [revoke] *)

Definition setApproved (b : bool) (now : Z) (dev : device) : device := {|
  d_id := d_id dev; d_user_id := d_user_id dev; d_name := d_name dev; d_pubkey := d_pubkey dev;
  d_privkey := d_privkey dev; d_assigned_ip := d_assigned_ip dev; d_is_approved := b;
  d_last_handshake := d_last_handshake dev; d_network_id := d_network_id dev;
  d_created_at := d_created_at dev; d_updated_at := now |}.

Definition approve (fail : nat -> bool) (now : Z) (d : db) (rawId : string) : resp * db * list E :=
  match uuid_Parse rawId with
  | None => (respondError 400 "invalid UUID", d, [])
  | Some id =>
      if fail 0%nat then (respondError 500 "failed to approve device", d, []) else
      match List.find (fun dev => String.eqb (d_id dev) id) (devices d) with
      | None => (respondError 404 "device not found", d, [])
      | Some dev =>
          let d' := updateWhere (fun dev => String.eqb (d_id dev) id) (setApproved true now) d in
          ({| r_status := 200; r_body := BStatus "approved" |}, d',
           if negb (String.eqb (d_pubkey dev) "")
           then notify (fun n => notifyAdd (PeerNotifier := n) d' (d_pubkey dev)
                          [(host (d_assigned_ip dev) ++ "/32")%string])
           else [])
      end
  end.

Definition revoke (fail : nat -> bool) (now : Z) (d : db) (rawId : string) : resp * db * list E :=
  match uuid_Parse rawId with
  | None => (respondError 400 "invalid UUID", d, [])
  | Some id =>
      if fail 0%nat then (respondError 500 "failed to revoke device", d, []) else
      match List.find (fun dev => String.eqb (d_id dev) id) (devices d) with
      | None => (respondError 404 "device not found", d, [])
      | Some dev =>
          let d' := updateWhere (fun dev => String.eqb (d_id dev) id) (setApproved false now) d in
          ({| r_status := 200; r_body := BStatus "revoked" |}, d',
           if negb (String.eqb (d_pubkey dev) "")
           then notify (fun n => notifyRemove (PeerNotifier := n) d' (d_pubkey dev)) else [])
      end
  end.

(** ** [enroll] *)

Record enrollRequest := { eq_Name : string; eq_WireguardPubkey : string }.

(** Active gateways with their active networks, by descending priority and
    then by age. *)
Definition gatewayRows (d : db) : list (gateway * network) :=
  sort_by (fun gn => - g_priority gn.1) (sort_by (fun gn => g_created_at gn.1) (rows 33
    (g ← List.filter g_is_active (gateways d);
     gn ← List.filter (fun gn => String.eqb gn.1 (g_id g)) (gateway_networks d);
     n ← List.filter (fun n => String.eqb (n_id n) gn.2 && n_is_active n) (networks d);
     [(g, n)]))).

(** The endpoint a client dials: the public address with the network's port,
    or the internal endpoint. *)
Definition clientEndpoint (g : gateway) (n : network) : string :=
  match g_public_ip g with
  | Some ip => (host ip ++ ":" ++ itoa (n_port n))%string
  | None => g_endpoint g
  end.

Definition gatewayEntry (gn : gateway * network) : gatewayEndpointResponse := {|
  ge_ID := g_id gn.1; ge_Endpoint := clientEndpoint gn.1 gn.2; ge_ServerPublicKey := g_pubkey gn.1;
  ge_Priority := g_priority gn.1; ge_HealthStatus := g_health_status gn.1 |}.

Definition defaultDNS : list string := ["1.1.1.1"; "8.8.8.8"]%string.

Definition enrollReply (d : db) (g : gateway) (n : network) (id ip : string) : enrollResponse := {|
  er_DeviceID := id;
  er_Address := (ip ++ "/" ++ itoa (cidr_len (allocCIDR n)))%string;
  er_DNS := match n_dns n with [] => defaultDNS | l => l end;
  er_Endpoint := clientEndpoint g n;
  er_ServerPublicKey := g_pubkey g;
  er_AllowedIPs := [cidr_text (n_address n)];
  er_PersistentKeepalive := 25;
  er_Gateways := map gatewayEntry (gatewayRows d) |}.

Definition maxEnrollRetries : nat := 5.

Definition enroll (fail : nat -> bool) (env : nat -> db -> db) (newID : nat -> string) (now : Z)
    (d : db) (claims : option TokenClaims) (body : option enrollRequest) : resp * db * list E :=
  match body with
  | None => (respondError 400 "invalid JSON", d, [])
  | Some req =>
      if String.eqb (eq_Name req) "" then (respondError 400 "name is required", d, []) else
      if String.eqb (eq_WireguardPubkey req) "" then (respondError 400 "wireguard_pubkey is required", d, []) else
      if negb (validWireGuardKey (eq_WireguardPubkey req))
      then (respondError 400 "invalid WireGuard public key: must be 44-character base64 (32 bytes)", d, []) else
      if fail 0%nat then (respondError 500 "failed to read gateway/network configuration", d, []) else
      match gatewayRows d with
      | [] => (respondError 422 "no active gateway with an active network — create and activate a gateway first", d, [])
      | (g, n) :: _ =>
          match claims with
          | None => (respondError 401 "authentication required", d, [])
          | Some c =>
              match uuid_Parse (UserID c) with
              | None => (respondError 500 "invalid user ID in token", d, [])
              | Some uid =>
                  match allocLoop maxEnrollRetries 0 (allocCIDR n) newID now
                    {| nd_user := uid; nd_name := eq_Name req; nd_pubkey := eq_WireguardPubkey req;
                       nd_privkey := None; nd_approved := true; nd_network := n_id n |}
                    env (fun i => fail (S (S i))) d with
                  | Allocated dev d' =>
                      ({| r_status := 201; r_body := BEnroll (enrollReply d g n (d_id dev) (host (d_assigned_ip dev))) |},
                       d',
                       notify (fun nt => notifyAdd (PeerNotifier := nt) d' (eq_WireguardPubkey req)
                                 [(host (d_assigned_ip dev) ++ "/32")%string]))
                  | Refused ViolatesPubkey d' =>
                      match (if fail 1%nat then None else
                             List.find (fun dev => String.eqb (d_pubkey dev) (eq_WireguardPubkey req)) (devices d')) with
                      | None => (respondError 500 "failed to look up existing device", d', [])
                      | Some old =>
                          ({| r_status := 200;
                              r_body := BEnroll (enrollReply d g n (d_id old) (host (d_assigned_ip old))) |}, d', [])
                      end
                  | Refused ViolatesId d' => (respondError 409 "device with this name already exists", d', [])
                  | Refused NoRows d' => (respondError 500 "no available IP addresses in the network", d', [])
                  | Refused _ d' => (respondError 500 "failed to create device", d', [])
                  | OutOfRetries d' => (respondError 500 "failed to allocate IP address after retries", d', [])
                  end
              end
          end
      end
  end.

(** ** [resolveAllowedIPs] *)

Definition wildcard : list cidr := [Cidr 0 0].

Definition allowedRows (d : db) (userID : string) : list string :=
  remove_dups
    (a ← network_acls d;
     ug ← List.filter (fun ug => String.eqb ug.1 userID && String.eqb ug.2 (a_group_id a)) (user_groups d);
     n ← List.filter (fun n => String.eqb (n_id n) (a_network_id a) && n_is_active n) (networks d);
     if bool_decide (a_allowed_ips a = wildcard) then [cidr_text (n_address n)]
     else map cidr_text (a_allowed_ips a)).

Definition resolveAllowedIPs (fails : bool) (d : db) (userID fallbackCIDR : string) : list string :=
  if fails then [fallbackCIDR] else
  match rows 35 (allowedRows d userID) with
  | [] => [fallbackCIDR]
  | cidrs => cidrs
  end.
End handlers.

(** ** Allocation *)

Lemma block_end p m q : 0 < p -> q * p < p * m -> q * p + p <= p * m.
Proof. intros Hp Hq. assert (q < m) by nia. nia. Qed.

Lemma cidr_end c : cidr_wf c -> cidr_base c + cidr_size c <= 2^32.
Proof.
  intros (Hb & Hl & Hm). unfold cidr_size.
  assert (0 < 2 ^ (32 - cidr_len c)) as Hp by (apply Z.pow_pos_nonneg; lia).
  assert (2 ^ 32 = 2 ^ (32 - cidr_len c) * 2 ^ cidr_len c) as Hs.
  { rewrite <- Z.pow_add_r by lia. f_equal. lia. }
  apply Z.mod_divide in Hm as (q & Hq); [|lia]. rewrite Hs, Hq in *.
  apply block_end; lia.
Qed.

(** An address of the block that is neither its first, the gateway's, nor its
    last one, and that no device has. *)
Definition is_free (c : cidr) (d : db) (ip : Z) : Prop :=
  cidr_base c + 2 <= ip <= cidr_base c + cidr_size c - 2 /\
  forall dev, dev ∈ devices d -> d_assigned_ip dev <> ip.

Lemma allocLast_len c : 0 <= cidr_len c <= 32 ->
  allocLast c = if cidr_len c =? 0 then Some (-1) else if cidr_len c =? 1 then None else Some (cidr_size c - 2).
Proof.
  intros Hl. unfold allocLast, cidr_size.
  assert (forallb (fun l => bool_decide (int4_sub (int4_shl 1 (32 - l)) 2 =
    if l =? 0 then Some (-1) else if l =? 1 then None else Some (2^(32 - l) - 2))) (seqZ 0 33) = true) as Hall
    by (vm_compute; reflexivity).
  rewrite forallb_forall in Hall. specialize (Hall (cidr_len c)). rewrite <- list_elem_of_In, elem_of_seqZ in Hall.
  apply bool_decide_eq_true in Hall; [done|lia].
Qed.

Lemma elem_of_freeAddresses c d l ip : freeAddresses c d = Some l ->
  ip ∈ l <-> (exists last, allocLast c = Some last /\ cidr_base c + 2 <= ip <= cidr_base c + last) /\
             forall dev, dev ∈ devices d -> d_assigned_ip dev <> ip.
Proof.
  unfold freeAddresses, allocOffsets. destruct (allocLast c) as [last|]; [|done]. cbn. intros [= <-].
  rewrite list_elem_of_In, filter_In, <- list_elem_of_In, list_elem_of_fmap, negb_true_iff.
  setoid_rewrite elem_of_seqZ. split.
  - intros ((off & -> & Hoff) & Hn). split; [exists last; split; [done|lia]|]. intros dev Hd E.
    apply not_true_iff_false in Hn. apply Hn, existsb_exists. exists dev.
    rewrite <- list_elem_of_In. split; [done|]. by apply Z.eqb_eq.
  - intros [(? & [= <-] & Hr) Hn]. split.
    + exists (ip - cidr_base c). split; [lia|]. lia.
    + apply not_true_iff_false. intros (dev & Hd%list_elem_of_In & E%Z.eqb_eq)%existsb_exists.
      by eapply Hn.
Qed.

Lemma freeAddresses_sound c d l ip : 0 <= cidr_len c <= 32 ->
  freeAddresses c d = Some l -> ip ∈ l -> is_free c d ip.
Proof.
  intros Hl Hf [(last & Hla & Hr) Hn]%(elem_of_freeAddresses c d l ip Hf). split; [|done].
  rewrite allocLast_len in Hla by done. destruct (Z.eqb_spec (cidr_len c) 0); [injection Hla as <-; lia|].
  destruct (Z.eqb_spec (cidr_len c) 1); [done|]. injection Hla as <-. lia.
Qed.

(** Of a block of at most 2^30 addresses every free one is found. *)
Lemma freeAddresses_complete c d : 2 <= cidr_len c <= 32 ->
  exists l, freeAddresses c d = Some l /\ forall ip, ip ∈ l <-> is_free c d ip.
Proof.
  intros Hl. pose proof (allocLast_len c ltac:(lia)) as Hla.
  rewrite (proj2 (Z.eqb_neq _ _)), (proj2 (Z.eqb_neq _ _)) in Hla by lia.
  assert (exists l, freeAddresses c d = Some l) as [l Hf]
    by (unfold freeAddresses, allocOffsets; rewrite Hla; by eexists).
  exists l. split; [done|]. intros ip. rewrite (elem_of_freeAddresses c d l ip Hf), Hla. unfold is_free. split.
  - intros [(? & [= <-] & ?) ?]. split; [lia|done].
  - intros [? ?]. split; [|done]. eexists. split; [done|lia].
Qed.

Lemma existsb_false {A} (f : A -> bool) l x : existsb f l = false -> x ∈ l -> f x = false.
Proof.
  intros He Hx. destruct (f x) eqn:E; [|done]. apply not_true_iff_false in He. destruct He.
  apply existsb_exists. exists x. by rewrite <- list_elem_of_In.
Qed.

Lemma devices_ok_app l dev :
  devices_ok l -> 0 <= d_assigned_ip dev < 2^32 ->
  (forall x, x ∈ l -> d_id x <> d_id dev /\ d_pubkey x <> d_pubkey dev /\
     d_assigned_ip x <> d_assigned_ip dev) -> devices_ok (l ++ [dev]).
Proof.
  intros [Hi Hp Ha Hr] Hip Hx.
  assert (forall (B : Type) (f : device -> B), NoDup (map f l) -> (forall x, x ∈ l -> f x <> f dev) ->
    NoDup (map f (l ++ [dev]))) as Hnd.
  { intros B f Hf Hne. rewrite map_app. apply NoDup_app. split; [done|]. split; [|apply NoDup_singleton].
    intros y (x & -> & Hx')%list_elem_of_fmap E%list_elem_of_singleton. by apply (Hne x). }
  split.
  - apply Hnd; [done|]. intros x Hin. by apply Hx.
  - apply Hnd; [done|]. intros x Hin. by apply Hx.
  - apply Hnd; [done|]. intros x Hin. by apply Hx.
  - apply Forall_app. split; [done|]. by apply Forall_singleton.
Qed.

Section allocation.
Context `{SqlOrder}.

(** What a successful insertion is. *)
Record inserted (c : cidr) (newID : string) (now : Z) (r : new_device) (snap cur : db)
    (dev : device) (d' : db) : Prop := {
  ins_free : exists l, freeAddresses c snap = Some l /\ d_assigned_ip dev ∈ l;
  ins_fresh : forall x, x ∈ devices cur -> d_id x <> d_id dev /\ d_pubkey x <> d_pubkey dev /\
    d_assigned_ip x <> d_assigned_ip dev;
  ins_row : d_id dev = newID /\ d_user_id dev = nd_user r /\ d_pubkey dev = nd_pubkey r /\
    d_is_approved dev = nd_approved r /\ d_network_id dev = Some (nd_network r);
  ins_columns : d_name dev = nd_name r /\ d_privkey dev = nd_privkey r;
  ins_db : d' = set_devices cur (devices cur ++ [dev]);
}.

Lemma insertDevice_inserted c newID now r snap cur dev d' :
  insertDevice c newID now r snap cur = Inserted dev d' -> inserted c newID now r snap cur dev d'.
Proof.
  unfold insertDevice. destruct (freeAddresses c snap) as [free|] eqn:Hfree; [|done]. cbn [fmap option_fmap option_map].
  destruct (rows 30 free) as [|ip l] eqn:Hrows; [done|].
  destruct (existsb _ (devices cur)) eqn:E1; [done|].
  destruct (existsb _ (devices cur)) eqn:E2 in |- *; [done|].
  destruct (existsb (fun dev => Z.eqb (d_assigned_ip dev) ip) (devices cur)) eqn:E3; [done|].
  destruct (_ || _); [done|]. intros [= <- <-]. split; cbn.
  - exists free. split; [done|]. rewrite <- (elem_of_rows 30), Hrows. by left.
  - intros x Hx. apply (existsb_false _ _ x) in E1, E2, E3; [|done..]. cbv beta in *. boolify. auto.
  - done.
  - done.
  - done.
Qed.

Lemma inserted_ok c newID now r snap cur dev d' :
  cidr_wf c -> inserted c newID now r snap cur dev d' -> devices_ok (devices cur) ->
  devices_ok (devices d') /\
  cidr_base c + 2 <= d_assigned_ip dev <= cidr_base c + cidr_size c - 2.
Proof.
  intros Hc [(l & Hl & Hf) Hx _ _ ->] Hok.
  apply (freeAddresses_sound c snap l) in Hf as [Hr _]; [|apply Hc|done]. split; [|done].
  cbn. apply devices_ok_app; [done| |done]. pose proof (cidr_end c Hc). destruct Hc as [? _]. lia.
Qed.

(** The tables the attempts read, one after the other. *)
Fixpoint states (env : nat -> db -> db) (i k : nat) (d : db) : db :=
  match k with O => d | S k => states env (S i) k (env i d) end.

Definition alloc_db (a : alloc_result) : db :=
  match a with Allocated _ d | Refused _ d | OutOfRetries d => d end.

Lemma allocLoop_ok todo i c newID now r env fails d :
  cidr_wf c -> (forall i d, devices_ok (devices d) -> devices_ok (devices (env i d))) ->
  devices_ok (devices d) ->
  let a := allocLoop todo i c newID now r env fails d in
  devices_ok (devices (alloc_db a)) /\
  forall dev d', a = Allocated dev d' ->
    exists k, (k < todo)%nat /\ devices_ok (devices (states env i (S k) d)) /\
      inserted c (newID (i + k)%nat) now r (states env i k d) (states env i (S k) d) dev d'.
Proof.
  intros Hc Henv. revert i d. induction todo as [|todo IH]; intros i d Hok; cbn [allocLoop]; [done|].
  destruct (fails i); [done|]. pose proof (Henv i d Hok) as Hok'.
  destruct (insertDevice c (newID i) now r d (env i d)) as [dev d'| | | | |] eqn:Ei; try done.
  - apply insertDevice_inserted in Ei. cbv zeta. split; [by eapply inserted_ok|].
    intros ? ? [= <- <-]. exists 0%nat. rewrite Nat.add_0_r. split; [lia|]. done.
  - destruct (IH (S i) (env i d) Hok') as [Hdb Hall]. split; [done|]. intros dev d' Ha.
    destruct (Hall dev d' Ha) as (k & Hk & Hst & Hins). exists (S k). split; [lia|].
    replace (i + S k)%nat with (S i + k)%nat by lia. done.
Qed.

Lemma insertDevice_collision c newID now r d cur :
  insertDevice c newID now r d cur = ViolatesAssignedIp -> cur <> d.
Proof.
  unfold insertDevice. destruct (freeAddresses c d) as [free|] eqn:Hfree; [|done]. cbn [fmap option_fmap option_map].
  destruct (rows 30 free) as [|ip l] eqn:Hrows; [done|].
  intros Hv ->. assert (ip ∈ free) as Hf by (rewrite <- (elem_of_rows 30), Hrows; by left).
  apply (elem_of_freeAddresses c d free ip Hfree) in Hf as [_ Hf].
  assert (existsb (fun dev => Z.eqb (d_assigned_ip dev) ip) (devices d) = false) as E.
  { apply not_true_iff_false. intros (dev & Hd%list_elem_of_In & Eq%Z.eqb_eq)%existsb_exists.
    by eapply Hf. }
  rewrite E in Hv. repeat case_match; done.
Qed.

Lemma allocLoop_interference todo i c newID now r env fails d d' :
  allocLoop todo i c newID now r env fails d = OutOfRetries d' ->
  forall k, (k < todo)%nat -> env (i + k)%nat (states env i k d) <> states env i k d.
Proof.
  revert i d. induction todo as [|todo IH]; intros i d Ha k Hk; [lia|].
  cbn [allocLoop] in Ha. destruct (fails i); [done|].
  destruct (insertDevice c (newID i) now r d (env i d)) eqn:Ei; try done.
  destruct k as [|k]; cbn [states].
  - rewrite Nat.add_0_r. by eapply insertDevice_collision.
  - replace (i + S k)%nat with (S i + k)%nat by lia. apply (IH _ _ Ha). lia.
Qed.

Lemma insertDevice_NoRows c newID now r d cur :
  insertDevice c newID now r d cur = NoRows -> freeAddresses c d = Some [].
Proof.
  unfold insertDevice. destruct (freeAddresses c d) as [free|] eqn:Hfree; [|done]. cbn [fmap option_fmap option_map].
  destruct (rows 30 free) as [|ip l] eqn:Hrows.
  - intros _. f_equal. apply Permutation_nil_r. by rewrite <- Hrows, rows_perm.
  - repeat case_match; done.
Qed.

Lemma allocLoop_full todo i c newID now r env fails d d' :
  allocLoop todo i c newID now r env fails d = Refused NoRows d' ->
  exists k, (k < todo)%nat /\ freeAddresses c (states env i k d) = Some [].
Proof.
  revert i d. induction todo as [|todo IH]; intros i d Ha; [done|].
  cbn [allocLoop] in Ha. destruct (fails i); [done|].
  destruct (insertDevice c (newID i) now r d (env i d)) eqn:Ei; try done.
  - destruct (IH _ _ Ha) as (k & Hk & E). exists (S k). split; [lia|done].
  - exists 0%nat. split; [lia|]. by eapply insertDevice_NoRows.
Qed.

Lemma insertDevice_undisturbed c newID now r d :
  2 <= cidr_len c <= 32 -> (exists ip, is_free c d ip) ->
  (forall dev, dev ∈ devices d -> d_id dev <> newID /\ d_pubkey dev <> nd_pubkey r) ->
  (exists u, u ∈ users d /\ u_id u = nd_user r) ->
  (exists n, n ∈ networks d /\ n_id n = nd_network r) ->
  exists dev d', insertDevice c newID now r d d = Inserted dev d'.
Proof.
  intros Hlen (ip0 & Hip0) Hnew (u & Hu & Eu) (n & Hn & En). unfold insertDevice.
  destruct (freeAddresses_complete c d Hlen) as (free & Hfree & Hfr). rewrite Hfree. cbn [fmap option_fmap option_map].
  destruct (rows 30 free) as [|ip l] eqn:Hrows.
  { apply Hfr in Hip0. rewrite <- (elem_of_rows 30), Hrows in Hip0. by apply elem_of_nil in Hip0. }
  assert (ip ∈ free) as [_ Hip]%Hfr by (rewrite <- (elem_of_rows 30), Hrows; by left).
  assert (forall f : device -> bool, (forall x, x ∈ devices d -> f x = false) -> existsb f (devices d) = false)
    as Hex.
  { intros f Hf. apply not_true_iff_false. intros (x & Hx%list_elem_of_In & E)%existsb_exists.
    by rewrite Hf in E. }
  rewrite !Hex.
  - rewrite (proj2 (existsb_exists _ (users d))), (proj2 (existsb_exists _ (networks d))); [eauto| |].
    + exists n. rewrite <- list_elem_of_In. split; [done|]. by apply String.eqb_eq.
    + exists u. rewrite <- list_elem_of_In. split; [done|]. by apply String.eqb_eq.
  - intros x Hx. apply Z.eqb_neq. by apply Hip.
  - intros x Hx. apply String.eqb_neq. by apply Hnew.
  - intros x Hx. apply String.eqb_neq. by apply Hnew.
Qed.

(** C21. The allocation loop gives up only under interference, for a block of
    prefix length 2 to 32 (for a /0 the query finds nothing and for a /1 it
    fails): when it runs out of attempts, a concurrent writer changed the tables
    between the read and the write of every one of them; when it reports a full
    network, in the tables some attempt read every address from the third to the
    last but one of the block belonged to a device; and when one of these is
    free, the first attempt undisturbed and answered, the key and identifier new
    and the owner and network there, it adds a device with such an address. *)
Theorem alloc_progress todo c newID now r env fails d : 2 <= cidr_len c <= 32 ->
  (forall d', allocLoop todo 0 c newID now r env fails d = OutOfRetries d' ->
     forall k, (k < todo)%nat -> env k (states env 0 k d) <> states env 0 k d) /\
  (forall d', allocLoop todo 0 c newID now r env fails d = Refused NoRows d' ->
     exists k, (k < todo)%nat /\
       forall ip, cidr_base c + 2 <= ip <= cidr_base c + cidr_size c - 2 ->
         exists dev, dev ∈ devices (states env 0 k d) /\ d_assigned_ip dev = ip) /\
  (forall ip, (0 < todo)%nat -> fails 0%nat = false -> env 0%nat d = d ->
   cidr_base c + 2 <= ip <= cidr_base c + cidr_size c - 2 ->
   (forall dev, dev ∈ devices d -> d_assigned_ip dev <> ip) ->
   (forall dev, dev ∈ devices d -> d_id dev <> newID 0%nat /\ d_pubkey dev <> nd_pubkey r) ->
   (exists u, u ∈ users d /\ u_id u = nd_user r) ->
   (exists n, n ∈ networks d /\ n_id n = nd_network r) ->
   exists dev, allocLoop todo 0 c newID now r env fails d =
       Allocated dev (set_devices d (devices d ++ [dev])) /\
     cidr_base c + 2 <= d_assigned_ip dev <= cidr_base c + cidr_size c - 2 /\
     (forall x, x ∈ devices d -> d_assigned_ip x <> d_assigned_ip dev)).
Proof.
  intros Hlen. split; [|split].
  - intros d'. apply (allocLoop_interference todo 0).
  - intros d' (k & Hk & Hfree)%allocLoop_full. exists k. split; [done|]. intros ip Hr.
    destruct (freeAddresses_complete c (states env 0 k d) Hlen) as (l & Hl & Hin). rewrite Hfree in Hl. injection Hl as <-.
    destruct (List.find (fun dev => Z.eqb (d_assigned_ip dev) ip) (devices (states env 0 k d))) as [dev|] eqn:Hd.
    + apply find_some in Hd as [Hd%list_elem_of_In E%Z.eqb_eq]. by exists dev.
    + exfalso. apply (not_elem_of_nil ip), Hin. split; [done|]. intros dev Hdev%list_elem_of_In E.
      pose proof (find_none _ _ Hd _ Hdev) as Hne. cbv beta in Hne. apply Z.eqb_neq in Hne. done.
  - intros ip Ht Hf He Hr Hfree Hnew Hu Hn. destruct todo as [|todo]; [lia|]. cbn [allocLoop]. rewrite Hf, He.
    destruct (insertDevice_undisturbed c (newID 0%nat) now r d Hlen (ex_intro _ ip (conj Hr Hfree)) Hnew Hu Hn)
      as (dev & d' & Hins). rewrite Hins. apply insertDevice_inserted in Hins as [(l & Hl & Hin) Hx _ _ ->].
    exists dev. split; [done|]. apply (freeAddresses_sound c d l) in Hin as [? _]; [|lia|done]. split; [done|].
    intros x Hxin. by apply Hx.
Qed.
End allocation.

(** ** The endpoints *)

Section endpoints.
Context `{SqlOrder, DeviceEnv} {E : Type} (notifier : option (PeerNotifier E)).

Definition nets_ok (d : db) : Prop := Forall (fun n => cidr_wf (allocCIDR n)) (networks d).

Lemma resolveNetwork_Some f d nid n :
  resolveNetwork f d nid = Ok (Some n) -> n ∈ networks d /\ n_is_active n = true.
Proof.
  unfold resolveNetwork. destruct f; [done|]. destruct (negb (String.eqb nid "")).
  - destruct (pg_uuid nid); [|done]. intros [= [Hn%list_elem_of_In Hb]%find_some]. boolify. done.
  - intros [= Hh%head_Some_elem_of]. rewrite elem_of_rows_by, list_elem_of_In, filter_In in Hh.
    by rewrite <- list_elem_of_In in Hh.
Qed.

(** C20. Creating a device, in the presence of concurrent writers that respect
    the constraints of the table: the constraints still hold, whatever the
    answer; and a 201 means that one row was added to the tables as the other
    writers of the attempts so far had left them ([states]), and nothing else
    changed.  The row has the requested name and is pending approval, it belongs
    to the caller (or, for an administrator, to any user) and to an active
    network, it has the public key of the request when one was given, and an
    address of the network's allocation block that no other device has and that
    is neither the network, nor the gateway, nor the broadcast address. *)
Theorem create_sound fail env newID now d claims query body r d' :
  (forall i d, devices_ok (devices d) -> devices_ok (devices (env i d))) ->
  devices_ok (devices d) -> nets_ok d ->
  create fail env newID now d claims query body = (r, d') ->
  devices_ok (devices d') /\
  (r_status r = 201 -> exists c n dev req k,
     claims = Some c /\ body = Some req /\ n ∈ networks d /\ n_is_active n = true /\ (k < 5)%nat /\
     let before := states env 0 (S k) d in
     d' = set_devices before (devices before ++ [dev]) /\ r_body r = BDevice (createdRow dev) /\
     d_name dev = cq_Name req /\ d_is_approved dev = false /\ d_network_id dev = Some (n_id n) /\
     (IsAdmin c = true \/ uuid_Parse (UserID c) = Some (d_user_id dev)) /\
     (cq_WireguardPubkey req <> ""%string -> cq_WireguardPubkey req <> "auto-generated"%string ->
        d_pubkey dev = cq_WireguardPubkey req /\ d_privkey dev = None) /\
     cidr_base (allocCIDR n) + 2 <= d_assigned_ip dev <=
       cidr_base (allocCIDR n) + cidr_size (allocCIDR n) - 2 /\
     (forall x, x ∈ devices before -> d_assigned_ip x <> d_assigned_ip dev)).
Proof.
  intros Henv Hok Hnets. unfold create, respondError.
  destruct body as [req|]; [|by intros [= <- <-]]. destruct (String.eqb _ ""); [by intros [= <- <-]|].
  destruct (_ && _); [by intros [= <- <-]|].
  destruct (createKeys _) as [[pub priv]|] eqn:Hkeys; [|by intros [= <- <-]].
  destruct claims as [c|]; [|by intros [= <- <-]]. cbv zeta.
  destruct (negb (IsAdmin c) && _) eqn:Hadm; [by intros [= <- <-]|].
  destruct (uuid_Parse (rawUserID _ _ _)) as [uid|] eqn:Huid; [|by intros [= <- <-]].
  destruct (resolveNetwork _ d _) as [[n|]|] eqn:Hn; [|by intros [= <- <-]|by intros [= <- <-]].
  apply resolveNetwork_Some in Hn as [Hn Hact].
  assert (cidr_wf (allocCIDR n)) as Hwf by (unfold nets_ok in Hnets; rewrite Forall_forall in Hnets; auto).
  set (row := {| nd_user := uid |}).
  destruct (allocLoop_ok maxRetries 0 (allocCIDR n) newID now row env (fun i => fail (S i)) d Hwf Henv Hok)
    as [Hdb Hall].
  destruct (allocLoop _ _ _ _ _ _ _ _ _) as [dev d1|res d1|d1] eqn:Ha; cbn [alloc_db] in Hdb.
  2:{ destruct res; intros [= <- <-]; done. }
  2:{ intros [= <- <-]. done. }
  intros [= <- <-]. split; [done|]. intros _.
  destruct (Hall dev d1 eq_refl) as (k & Hk & Hcur & Hins).
  destruct (inserted_ok _ _ _ _ _ _ _ _ Hwf Hins Hcur) as [_ Hr].
  destruct Hins as [_ Hfresh (_ & Hu & Hpub & Hap & Hnet) [Hname Hpriv] ->].
  exists c, n, dev, req, k. do 5 (split; [done|]). cbv zeta. split_and!; try done; try lia.
  - destruct (IsAdmin c); [by left|right]. apply negb_false_iff, String.eqb_eq in Hadm.
    rewrite <- Hadm, Hu. done.
  - intros Hne1%String.eqb_neq Hne2%String.eqb_neq. unfold createKeys in Hkeys. rewrite Hne1, Hne2 in Hkeys.
    cbn in Hkeys. injection Hkeys as <- <-. rewrite Hpub, Hpriv. done.
  - intros x Hx. by apply Hfresh.
Qed.

(** C22. A caller who is not an administrator sees and changes only their own
    devices: [get] answers 200 only with a device of the caller, and no row of
    another user is changed or removed by [update] or [delete], whatever
    statements fail; a deletion of a device of another user answers 404 and
    notifies nobody.  For [delete], whose check and deletion are separate
    statements, this holds whatever other transactions do in between that does
    not give a device to another owner. *)
Theorem ownership_enforced fail env now d c rawId body :
  IsAdmin c = false ->
  (forall x, get fail d (Some c) rawId = {| r_status := 200; r_body := BDevice x |} ->
     pg_uuid (UserID c) = Some (dr_UserID x)) /\
  (forall dev, dev ∈ devices d -> pg_uuid (UserID c) <> Some (d_user_id dev) ->
     dev ∈ devices (update fail now d (Some c) rawId body).2) /\
  ((forall x y, x ∈ devices d -> y ∈ devices (env d) -> d_id x = d_id y -> d_user_id x = d_user_id y) ->
   forall dev, dev ∈ devices d -> dev ∈ devices (env d) -> pg_uuid (UserID c) <> Some (d_user_id dev) ->
     dev ∈ devices (delete_ notifier fail env d (Some c) rawId).1.2) /\
  (forall dev, NoDup (map d_id (devices d)) -> dev ∈ devices d ->
     pg_uuid (UserID c) <> Some (d_user_id dev) -> is_Some (pg_uuid (UserID c)) ->
     uuid_Parse rawId = Some (d_id dev) -> fail 0%nat = false ->
     delete_ notifier fail env d (Some c) rawId = (respondError 404 "device not found", d, [])).
Proof.
  intros Hadm.
  assert (forall id dev, visible c id dev = true ->
            pg_uuid (UserID c) = Some (d_user_id dev) /\ d_id dev = id) as Hvis.
  { intros id dev. unfold visible. rewrite Hadm, orb_false_r. intros Hb. boolify. auto. }
  split; [|split; [|split]].
  - intros x. unfold get, respondError. destruct (uuid_Parse rawId) as [id|]; [|done].
    destruct (_ || _); [done|]. destruct (List.find _ _) as [dev|] eqn:Hf; [|done].
    apply find_some in Hf as [_ Hv]. intros [= <-]. by apply Hvis in Hv as [? _].
  - intros dev Hd Hne. unfold update. destruct (uuid_Parse rawId) as [id|]; [|done].
    destruct body as [[name|]|]; [|done|done]. destruct (_ || _); [done|].
    destruct (List.find _ _); [|done]. cbn. apply list_elem_of_fmap. exists dev. split; [|done].
    destruct (visible c id dev) eqn:Hv; [|done]. by apply Hvis in Hv as [? _].
  - intros Howner dev Hd He Hne. unfold delete_. destruct (uuid_Parse rawId) as [id|]; [|done].
    destruct (_ || _); [done|]. destruct (List.find _ _) as [own|] eqn:Hf; [|done].
    apply find_some in Hf as [Hown%list_elem_of_In [Hu Hid]%Hvis].
    assert (d_id dev <> id) as Hidne.
    { intros <-. apply Hne. rewrite Hu. f_equal. by apply (Howner own dev). }
    destruct (fail 1%nat); [done|]. cbv zeta.
    destruct (negb (existsb _ _)); cbn;
      rewrite list_elem_of_In, filter_In, <- list_elem_of_In, negb_true_iff, String.eqb_neq; auto.
  - intros dev Hnd Hd Hne Hk Hid Hf0. unfold delete_, badCaller.
    rewrite Hid, Hf0, (bool_decide_true _ Hk). cbn.
    destruct (List.find _ _) as [own|] eqn:Hf; [exfalso|done].
    apply find_some in Hf as [Hown%list_elem_of_In [Hu Hido]%Hvis]. apply Hne.
    by rewrite (NoDup_map_inj d_id (devices d) own dev) in Hu.
Qed.

(** The rows of a page, for one order of the selected devices. *)
Lemma window_pages {A} (pp : nat) (l : list A) (k : nat) :
  concat (map (fun i => take pp (drop (i * pp) l)) (seq 0 k)) = take (k * pp) l.
Proof.
  induction k as [|k IH]; [done|]. rewrite seq_S, map_app, concat_app, IH. cbn [map concat Nat.add].
  rewrite app_nil_r. replace (S k * pp)%nat with (k * pp + pp)%nat by lia.
  by rewrite take_take_drop.
Qed.

End endpoints.

Section revocation.
Context `{GoRange, SqlOrder, DeviceEnv}.

Lemma remove_actions fails f d h pk id s :
  streams h !! id = Some s ->
  list.last (peer_actions s pk (NotifyPeerRemove fails f d h pk)) = Some PEER_REMOVE.
Proof.
  intros Hid. apply last_const.
  - intros a (p & Hin & _)%elem_of_peer_actions. unfold NotifyPeerRemove in Hin.
    apply elem_of_app in Hin as [[[= ->] _]%elem_of_Broadcast|Hin]; [done|].
    apply elem_of_refresh in Hin as (gw & r & _ & _ & [[[=] _]|(pk' & id' & _ & _ & [= ->])]). done.
  - intros Hnil. apply (not_elem_of_nil PEER_REMOVE). rewrite <- Hnil, elem_of_peer_actions.
    exists (removedPeer pk). split; [|done]. unfold NotifyPeerRemove. apply elem_of_app. left.
    apply elem_of_Broadcast. eauto.
Qed.

(** C23. Revoking a device that exists and has a key, with the update
    answered, cuts it off and does no more: only the devices table changes, no
    row is added or removed, the row of the device keeps every column but its
    approval, which it loses, and its time of change, and the other rows are
    untouched; so no gateway counts the device among its peers or its rules any
    more, and the last action every connected gateway receives for its key is the
    removal, whatever queries of the notification fail. *)
Theorem revoke_cuts_off fails f h fail now d rawId dev :
  NoDup (map d_id (devices d)) -> dev ∈ devices d -> d_pubkey dev <> ""%string ->
  uuid_Parse rawId = Some (d_id dev) -> fail 0%nat = false ->
  let '(r, d', effects) := revoke (Some (hubPeerNotifier fails f h)) fail now d rawId in
  r_status r = 200 /\
  d' = set_devices d (devices d') /\ map d_id (devices d') = map d_id (devices d) /\
  (exists x, x ∈ devices d' /\ d_id x = d_id dev /\ d_is_approved x = false /\
     d_user_id x = d_user_id dev /\ d_name x = d_name dev /\ d_pubkey x = d_pubkey dev /\
     d_privkey x = d_privkey dev /\ d_assigned_ip x = d_assigned_ip dev /\
     d_last_handshake x = d_last_handshake dev /\ d_network_id x = d_network_id dev /\
     d_created_at x = d_created_at dev) /\
  (forall x gw, x ∈ devices d' -> d_id x = d_id dev -> ~ on_gateway d' gw x) /\
  (forall x, d_id x <> d_id dev -> x ∈ devices d' <-> x ∈ devices d) /\
  (forall id s, streams h !! id = Some s ->
     list.last (peer_actions s (d_pubkey dev) effects) = Some PEER_REMOVE).
Proof.
  intros Hnd Hd Hpk Hid Hf. unfold revoke. rewrite Hid, Hf, find_by_key by done.
  apply String.eqb_neq in Hpk. rewrite Hpk. cbn [negb notify].
  split; [done|]. split; [done|]. split; [|split; [|split; [|split]]].
  - unfold updateWhere. cbn. rewrite map_map. apply map_ext. intros x. destruct (String.eqb (d_id x) (d_id dev)); reflexivity.
  - exists (setApproved false now dev). split; [|done]. unfold updateWhere. cbn. apply list_elem_of_fmap. exists dev.
    by rewrite String.eqb_refl.
  - intros x gw Hx Hxid (_ & He & _). unfold updateWhere in Hx. cbn in Hx.
    apply list_elem_of_fmap in Hx as (y & -> & Hy).
    destruct (String.eqb_spec (d_id y) (d_id dev)) as [E|E]; [done|]. by destruct E.
  - intros x Hne. unfold updateWhere. cbn. rewrite list_elem_of_fmap. split.
    + intros (y & -> & Hy). destruct (String.eqb_spec (d_id y) (d_id dev)) as [Ey|Ey]; [|done].
      by destruct Hne.
    + intros Hx. exists x. apply String.eqb_neq in Hne. by rewrite Hne.
  - intros id s Hs. by eapply remove_actions.
Qed.
End revocation.

(** ** A deployment to run the endpoints on *)

Definition key43 : string := "AAAAAAAAAAAAAAAAAAAAAAAAAAAAAAAAAAAAAAAAAAA=".

Definition toy_device_env : DeviceEnv := {|
  uuid_Parse := fun s => if String.eqb s "" then None else Some s;
  pg_uuid := fun s => if String.eqb s "" then None else Some s;
  wgtypes_GeneratePrivateKey := Some "priv"%string;
  wgtypes_ParseKey := Some;
  wgtypes_PublicKey := fun p => ("pub-" ++ p)%string;
  inet_Text := host |}.

Definition claims_of (uid : string) (admin : bool) : TokenClaims := {|
  UserID := uid; Username := uid; Email := uid; IsAdmin := admin; Roles := []; TokenType := "";
  ExpiresAt := None; IssuedAt := None |}.

Definition noFail : nat -> bool := fun _ => false.

(** A small network, 10.9.0.0/29, so that every free address can be listed. *)
Definition tiny_db : db := {|
  users := [mkUser "ann" false; mkUser "bob" true];
  devices := [mkDevice "d1" "ann" "pkA" 168361986 "n1"];
  networks := [mkNetwork "n1" (Cidr 168361984 29)];
  gateways := [mkGateway "g1" None];
  gateway_networks := [("g1", "n1")%string];
  groups := []; user_groups := []; network_acls := []; device_posture := []; device_trust_scores := [];
  trust_auto := None; ztna_policies := []; smart_routes := []; smart_route_entries := [];
  network_smart_routes := []; roles := []; user_roles := []; logins := [] |}.

Lemma tiny_devices_ok : devices_ok (devices tiny_db).
Proof. split; apply (bool_decide_unpack _); vm_compute; exact I. Qed.

Lemma tiny_nets_ok : nets_ok tiny_db.
Proof. apply Forall_singleton. by repeat split. Qed.

Definition newIDs (i : nat) : string := "new-" ++ pretty i.

(** A writer that takes the next address before the first attempt writes. *)
Definition racer (i : nat) (d : db) : db :=
  if Nat.eqb i 0 then set_devices d (devices d ++ [mkDevice "dx" "ann" "pkX" 168361987 "n1"]) else d.

Definition create_body : option createDeviceRequest :=
  Some {| cq_Name := "laptop"; cq_WireguardPubkey := ""; cq_UserID := ""; cq_NetworkID := "" |}.

Lemma create_sound_witness :
  let '(r, d') := @create sql_default toy_device_env noFail (fun _ d => d) newIDs 7 tiny_db
                    (Some (claims_of "ann" false)) "" create_body in
  r_status r = 201 /\ map d_assigned_ip (devices d') = [168361986; 168361987] /\ devices_ok (devices d').
Proof.
  destruct (@create sql_default toy_device_env noFail (fun _ d => d) newIDs 7 tiny_db
              (Some (claims_of "ann" false)) "" create_body) as [r d'] eqn:Hc.
  destruct (@create_sound sql_default toy_device_env noFail (fun _ d => d) newIDs 7 tiny_db
              (Some (claims_of "ann" false)) "" create_body r d'
              (fun _ d Hd => Hd) tiny_devices_ok tiny_nets_ok Hc) as [Hok _].
  vm_compute in Hc. injection Hc as <- <-. split; [reflexivity|]. split; [reflexivity|exact Hok].
Defined.

Definition row0 : new_device := {|
  nd_user := "ann"; nd_name := "laptop"; nd_pubkey := "pkN"; nd_privkey := None;
  nd_approved := false; nd_network := "n1" |}.

(** The third part of [alloc_progress] on the small network. *)
Lemma alloc_progress_witness : exists dev,
  @allocLoop sql_default maxRetries 0 (Cidr 168361984 29) newIDs 7 row0 (fun _ d => d) noFail tiny_db =
    Allocated dev (set_devices tiny_db (devices tiny_db ++ [dev])) /\
  168361984 + 2 <= d_assigned_ip dev <= 168361984 + 8 - 2 /\
  (forall x, x ∈ devices tiny_db -> d_assigned_ip x <> d_assigned_ip dev).
Proof.
  assert (2 <= cidr_len (Cidr 168361984 29) <= 32) as Hlen by (cbn; lia).
  apply (proj2 (proj2 (@alloc_progress sql_default maxRetries (Cidr 168361984 29) newIDs 7 row0
                         (fun _ d => d) noFail tiny_db Hlen)) 168361990).
  - unfold maxRetries. lia.
  - reflexivity.
  - reflexivity.
  - vm_compute. split; discriminate.
  - intros dev. cbn. rewrite list_elem_of_singleton. intros ->. discriminate.
  - intros dev. cbn. rewrite list_elem_of_singleton. intros ->. split; discriminate.
  - exists (mkUser "ann" false). split; [apply elem_of_cons; left; reflexivity|reflexivity].
  - exists (mkNetwork "n1" (Cidr 168361984 29)).
    split; [apply elem_of_cons; left; reflexivity|reflexivity].
Defined.

(** With the racer the first attempt collides and the second one succeeds. *)
Example collision_retried :
  match @allocLoop sql_default maxRetries 0 (Cidr 168361984 29) newIDs 7 row0 racer noFail tiny_db with
  | Allocated dev d' => d_assigned_ip dev = 168361988 /\ d_id dev = "new-1"%string /\ length (devices d') = 3%nat
  | _ => False
  end.
Proof. vm_compute. auto. Qed.

Lemma ownership_enforced_witness :
  @delete_ toy_device_env effect None noFail (fun d => d) tiny_db (Some (claims_of "carol" false)) "d1" =
  (respondError 404 "device not found", tiny_db, []).
Proof.
  refine (proj2 (proj2 (proj2 (@ownership_enforced toy_device_env effect None noFail (fun d => d) 7 tiny_db
     (claims_of "carol" false) "d1" None eq_refl))) (mkDevice "d1" "ann" "pkA" 168361986 "n1") _ _ _ _ _ _).
  - apply (bool_decide_unpack _). vm_compute. exact I.
  - apply elem_of_cons. left. reflexivity.
  - discriminate.
  - exists "carol"%string. reflexivity.
  - reflexivity.
  - reflexivity.
Defined.

Lemma revoke_cuts_off_witness :
  list.last (peer_actions 1%nat "pkA"
    (@revoke toy_device_env effect (Some (@hubPeerNotifier range_default sql_default false
       (fun _ => no_faults) (hub1 false))) noFail 9 tiny_db "d1").2) = Some PEER_REMOVE.
Proof.
  pose proof (@revoke_cuts_off range_default sql_default toy_device_env false (fun _ => no_faults)
    (hub1 false) noFail 9 tiny_db "d1" (mkDevice "d1" "ann" "pkA" 168361986 "n1")) as Hr.
  destruct (@revoke toy_device_env effect _ noFail 9 tiny_db "d1") as [[r d'] fs].
  cbn [snd]. apply (Hr) with (id := "g1"%string).
  - apply (bool_decide_unpack _). vm_compute. exact I.
  - apply elem_of_cons. left. reflexivity.
  - discriminate.
  - reflexivity.
  - reflexivity.
  - reflexivity.
Defined.

(** ** Where the code falls short *)

(** Enrolling with a public key that is already registered answers with the
    registered device, whoever owns it: any user who knows a key learns the
    identifier and the address of another user's device. *)
Theorem enroll_discloses_device :
  let d := set_devices tiny_db [mkDevice "d1" "ann" key43 168361986 "n1"] in
  let '(r, d', _) := @enroll sql_default toy_device_env effect None noFail (fun _ d => d) newIDs 7 d
    (Some (claims_of "carol" false)) (Some {| eq_Name := "x"; eq_WireguardPubkey := key43 |}) in
  r_status r = 200 /\
  match r_body r with
  | BEnroll e => er_DeviceID e = "d1"%string /\ er_Address e = "10.9.0.2/29"%string
  | _ => False
  end.
Proof. vm_compute. auto. Qed.

(** A client configuration falls back to the whole network of the device when
    the user has no ACL, while the gateway drops every packet of such a device. *)
Theorem fallback_is_unreachable :
  @resolveAllowedIPs sql_default false tiny_db "ann" "10.9.0.0/29" = ["10.9.0.0/29"%string] /\
  exists r, @buildFirewallConfigFromPool range_default sql_default no_faults tiny_db "g1" = Some r /\
    verdict (Rules (Config r)) 168361986 168361987 = Some ACTION_DROP.
Proof.
  split; [vm_compute; reflexivity|]. eexists. split; [vm_compute; reflexivity|vm_compute; reflexivity].
Qed.

(** The offset of a listing wraps around for huge page numbers; the database
    then refuses the negative offset and the endpoint answers 500. *)
Theorem huge_page_fails :
  r_status (@list_ sql_default noFail tiny_db "9223372036854775807" "100") = 500.
Proof. vm_compute. reflexivity. Qed.
