(* ===== verification/Session.v ===== *)
(** * Sessions

    [internal/session/manager.go].  The manager keeps sessions in a fast store
    and in a database table.  The store is an interface, class [Store], with
    the laws the manager relies on; [MemoryStore] is shown to be an instance,
    and the theorems about the manager are proved against the interface.
    Instants are in nanoseconds. *)

From S2P Require Import Prelude Auth Policy.
From Stdlib Require Import ZArith Lia Ascii String.
From stdpp Require Import base gmap strings list sorting pretty.

Local Open Scope Z_scope.

Record Session := {
  ID : string;
  SUserID : string;
  IPAddress : string;
  UserAgent : string;
  CreatedAt : Z;
  SExpiresAt : Z;
  Data : gmap string string;
}.

(** [time.Now().After(s.ExpiresAt)]. *)
Definition isExpired (now : Z) (s : Session) : bool := SExpiresAt s <? now.

(** ** The store interface

    The operations, and the laws the manager relies on: a store never returns
    what was not put in, what was deleted, or what has expired.  It may forget
    sessions earlier, since the manager falls back on the table.  [sound] is
    what a store needs to find the sessions of a user, and [fits] says which
    sessions it can keep for their whole life. *)

Class Store : Type := {
  store : Type;
  storeCreate : Z -> Session -> store -> store * bool;
  storeGet : Z -> string -> store -> store * option Session;
  storeDelete : Z -> string -> store -> store;
  storeDeleteByUser : Z -> string -> store -> store;
  (** The session a store would return for an identifier at an instant. *)
  holds : store -> Z -> string -> option Session;
  sound : Z -> store -> Prop;
  fits : Z -> Session -> Prop;

  sound_later : forall now now' st, now <= now' -> sound now st -> sound now' st;
  get_sound : forall now id st, sound now st -> sound now (storeGet now id st).1;
  create_sound : forall now s st, fits now s -> sound now st -> sound now (storeCreate now s st).1;
  delete_sound : forall now id st, sound now st -> sound now (storeDelete now id st);
  deleteByUser_sound : forall now uid st, sound now st -> sound now (storeDeleteByUser now uid st);

  get_result : forall now id st, (storeGet now id st).2 = holds st now id;
  get_frame : forall now id st now' id' s, now <= now' ->
    holds (storeGet now id st).1 now' id' = Some s -> holds st now' id' = Some s;
  create_holds : forall now s st, (storeCreate now s st).2 = true -> now <= SExpiresAt s ->
    holds (storeCreate now s st).1 now (ID s) = Some s;
  create_frame : forall now s st now' id' s', now <= now' ->
    holds (storeCreate now s st).1 now' id' = Some s' ->
    (id' = ID s /\ s' = s) \/ holds st now' id' = Some s';
  delete_holds : forall now id st now' id' s, now <= now' ->
    holds (storeDelete now id st) now' id' = Some s -> id' <> id /\ holds st now' id' = Some s;
  deleteByUser_holds : forall now uid st now' id' s, sound now st -> now <= now' ->
    holds (storeDeleteByUser now uid st) now' id' = Some s -> SUserID s <> uid /\ holds st now' id' = Some s;
  holds_live : forall st now id s, holds st now id = Some s -> now <= SExpiresAt s;
}.

(** ** MemoryStore *)

Abbreviation MemoryStore := (gmap string Session).

Definition ms_Create (s : Session) (m : MemoryStore) : MemoryStore := <[ID s := s]> m.

Definition ms_Get (now : Z) (id : string) (m : MemoryStore) : MemoryStore * option Session :=
  match m !! id with
  | None => (m, None)
  | Some s => if isExpired now s then (delete id m, None) else (m, Some s)
  end.

Definition ms_Delete (id : string) (m : MemoryStore) : MemoryStore := delete id m.

Definition ms_DeleteByUser (uid : string) (m : MemoryStore) : MemoryStore :=
  filter (fun ks => SUserID ks.2 <> uid) m.

(** [List] ranges over the map and keeps the live sessions of the user. *)
Definition ms_List `{GoRange} (now : Z) (uid : string) (m : MemoryStore) : list Session :=
  List.filter (fun s => String.eqb (SUserID s) uid && (now <? SExpiresAt s)) (map snd (range 40 m)).

Definition withExpiry (s : Session) (e : Z) : Session := {|
  ID := ID s; SUserID := SUserID s; IPAddress := IPAddress s; UserAgent := UserAgent s;
  CreatedAt := CreatedAt s; SExpiresAt := e; Data := Data s |}.

Definition ms_Touch (now : Z) (id : string) (ttl : Z) (m : MemoryStore) : MemoryStore * bool :=
  match m !! id with
  | None => (m, false)
  | Some old => (<[id := withExpiry old (now + ttl)]> m, true)
  end.

Definition ms_holds (m : MemoryStore) (now : Z) (id : string) : option Session :=
  s ← m !! id; if isExpired now s then None else Some s.

Lemma ms_holds_Some m now id s : ms_holds m now id = Some s <-> m !! id = Some s /\ now <= SExpiresAt s.
Proof.
  unfold ms_holds. destruct (m !! id) as [x|]; [|by split; [|intros []]]. cbn. unfold isExpired.
  destruct (SExpiresAt x <? now) eqn:E; boolify; split.
  - done.
  - intros [[= <-] ?]. lia.
  - by intros [= <-].
  - by intros [[= <-] _].
Qed.

Program Definition memory_store : Store := {|
  store := MemoryStore;
  storeCreate := fun _ s m => (ms_Create s m, true);
  storeGet := ms_Get;
  storeDelete := fun _ => ms_Delete;
  storeDeleteByUser := fun _ => ms_DeleteByUser;
  holds := ms_holds;
  sound := fun _ _ => True;
  fits := fun _ _ => True |}.
Solve Obligations with try done.
Next Obligation.
  intros now id m. unfold ms_Get, ms_holds. destruct (m !! id) as [s|]; [|done].
  cbn. by destruct (isExpired now s).
Qed.
Next Obligation.
  intros now id m now' id' s Hle. unfold ms_Get. destruct (m !! id) as [x|]; [|done].
  destruct (isExpired now x); [|done]. cbn [fst]. rewrite !ms_holds_Some, lookup_delete_Some. tauto.
Qed.
Next Obligation. intros now s m _ Hle. cbn [fst]. apply ms_holds_Some. unfold ms_Create. by rewrite lookup_insert_eq. Qed.
Next Obligation.
  intros now s m now' id' s' _. cbn [fst]. unfold ms_Create. rewrite !ms_holds_Some, lookup_insert_Some.
  intros [[[<- <-]|[_ ?]] ?]; auto.
Qed.
Next Obligation. intros now id m now' id' s _. unfold ms_Delete. rewrite !ms_holds_Some, lookup_delete_Some. intuition congruence. Qed.
Next Obligation.
  intros now uid m now' id' s _ _. unfold ms_DeleteByUser. rewrite !ms_holds_Some, map_lookup_filter_Some. tauto.
Qed.
Next Obligation. intros m now id s. rewrite ms_holds_Some. tauto. Qed.

(** ** Manager *)

Section manager.
Context `{Store} (ttl : Z).

Record state := { fast : store; sessions : list Session }.

(** [CreateSession] with the generated identifier ([None] when the random
    source fails). *)
Definition CreateSession (dbFails : bool) (now : Z) (newID : option string) (userID ip agent : string)
    (m : state) : state * option Session :=
  match newID with
  | None => (m, None)
  | Some id =>
      let s := {| ID := id; SUserID := userID; IPAddress := ip; UserAgent := agent; CreatedAt := now;
                  SExpiresAt := now + ttl; Data := ∅ |} in
      let '(f, ok) := storeCreate now s (fast m) in
      if negb ok then ({| fast := f; sessions := sessions m |}, None)
      else ({| fast := f; sessions := if dbFails then sessions m else s :: sessions m |}, Some s)
  end.

(** The database fallback of [ValidateSession]; the row has no [Data]. *)
Definition fromRow (s : Session) : Session := {|
  ID := ID s; SUserID := SUserID s; IPAddress := IPAddress s; UserAgent := UserAgent s;
  CreatedAt := CreatedAt s; SExpiresAt := SExpiresAt s; Data := ∅ |}.

Definition selectLive (dbFails : bool) (now : Z) (id : string) (l : list Session) : option Session :=
  if dbFails then None
  else fromRow <$> List.find (fun s => String.eqb (ID s) id && (now <? SExpiresAt s)) l.

Definition ValidateSession (dbFails : bool) (now : Z) (id : string) (m : state) : state * option Session :=
  let '(f, r) := storeGet now id (fast m) in
  match r with
  | Some s => ({| fast := f; sessions := sessions m |}, Some s)
  | None =>
      match selectLive dbFails now id (sessions m) with
      | None => ({| fast := f; sessions := sessions m |}, None)
      | Some s => ({| fast := (storeCreate now s f).1; sessions := sessions m |}, Some s)
      end
  end.

Definition deleteRows (keep : Session -> bool) (m : state) (f : store) : state :=
  {| fast := f; sessions := List.filter keep (sessions m) |}.

(** [true] is a nil error. *)
Definition RevokeSession (dbFails : bool) (now : Z) (id : string) (m : state) : state * bool :=
  let f := storeDelete now id (fast m) in
  if dbFails then ({| fast := f; sessions := sessions m |}, false)
  else (deleteRows (fun s => negb (String.eqb (ID s) id)) m f, true).

Definition RevokeAllSessions (dbFails : bool) (now : Z) (uid : string) (m : state) : state * bool :=
  let f := storeDeleteByUser now uid (fast m) in
  if dbFails then ({| fast := f; sessions := sessions m |}, false)
  else (deleteRows (fun s => negb (String.eqb (SUserID s) uid)) m f, true).

(** [revokeHandler]: the status of the answer. *)
Definition revokeHandler (dbFails1 dbFails2 : bool) (now : Z) (claims : option Auth.Token.TokenClaims)
    (id : string) (m : state) : state * Z :=
  match claims with
  | None => (m, 401)
  | Some c =>
      if String.eqb id "" then (m, 400) else
      let '(m, r) := ValidateSession dbFails1 now id m in
      match r with
      | None => (m, 404)
      | Some s =>
          if negb (String.eqb (SUserID s) (Auth.Token.UserID c)) then (m, 403) else
          let '(m, ok) := RevokeSession dbFails2 now id m in
          (m, if ok then 204 else 500)
      end
  end.

(** [ListSessions]: the live rows of the user, the latest first; [scanFails]
    says which rows the driver cannot scan. *)
Definition userRows `{SqlOrder} (now : Z) (uid : string) (m : state) : list Session :=
  rows_by 41 (fun s => - CreatedAt s)
    (List.filter (fun s => String.eqb (SUserID s) uid && (now <? SExpiresAt s)) (sessions m)).

Definition ListSessions `{SqlOrder} (dbFails : bool) (scanFails : Session -> bool) (now : Z) (uid : string)
    (m : state) : option (list Session) :=
  if dbFails then None
  else mapM (fun s => if scanFails s then None else Some (fromRow s)) (userRows now uid m).

Definition listHandler `{SqlOrder} (dbFails : bool) (scanFails : Session -> bool) (now : Z)
    (claims : option Auth.Token.TokenClaims) (m : state) : Z * list Session :=
  match claims with
  | None => (401, [])
  | Some c =>
      match ListSessions dbFails scanFails now (Auth.Token.UserID c) m with
      | None => (500, [])
      | Some l => (200, l)
      end
  end.

(** [revokeAllHandler]: the status of the answer. *)
Definition revokeAllHandler (dbFails : bool) (now : Z) (claims : option Auth.Token.TokenClaims) (m : state) : state * Z :=
  match claims with
  | None => (m, 401)
  | Some c =>
      let '(m, ok) := RevokeAllSessions dbFails now (Auth.Token.UserID c) m in
      (m, if ok then 204 else 500)
  end.

(** *** Interleaved requests

    Each operation makes one or two calls after the one to the store, and the
    calls of different requests, on whichever core, may interleave.  A request
    that has made a call and has another one to make is in flight. *)
Inductive op :=
| OCreate (newID : option string) (userID ip agent : string)
| OValidate (id : string)
| ORevoke (id : string)
| ORevokeAll (uid : string).

Inductive flight :=
| Inserting (s : Session)       (* stored; the INSERT is outstanding *)
| Reading (id : string)         (* not in the store; the SELECT is outstanding *)
| Filling (s : Session)         (* the row is read; it is to be put into the store *)
| Revoking (id : string)        (* out of the store; the DELETE is outstanding *)
| RevokingAll (uid : string).

Inductive call :=
| Begin (o : op)                          (* a request makes its first call *)
| Continue (i : nat) (dbFails : bool).    (* the i-th request in flight makes its next one *)

Record system := { sys : state; flights : list flight }.

Definition newSession (now : Z) (id userID ip agent : string) : Session := {|
  ID := id; SUserID := userID; IPAddress := ip; UserAgent := agent; CreatedAt := now;
  SExpiresAt := now + ttl; Data := ∅ |}.

Definition with_fast (m : state) (f : store) : state := {| fast := f; sessions := sessions m |}.

Definition begin_op (now : Z) (o : op) (m : state) : state * list flight :=
  match o with
  | OCreate None _ _ _ => (m, [])
  | OCreate (Some id) u i a =>
      let s := newSession now id u i a in
      let '(f, ok) := storeCreate now s (fast m) in (with_fast m f, if ok then [Inserting s] else [])
  | OValidate id =>
      let '(f, r) := storeGet now id (fast m) in
      (with_fast m f, match r with Some _ => [] | None => [Reading id] end)
  | ORevoke id => (with_fast m (storeDelete now id (fast m)), [Revoking id])
  | ORevokeAll uid => (with_fast m (storeDeleteByUser now uid (fast m)), [RevokingAll uid])
  end.

Definition continue_op (now : Z) (x : flight) (dbFails : bool) (m : state) : state * list flight :=
  match x with
  | Inserting s => (if dbFails then m else {| fast := fast m; sessions := s :: sessions m |}, [])
  | Reading id =>
      (m, match selectLive dbFails now id (sessions m) with Some s => [Filling s] | None => [] end)
  | Filling s => (with_fast m (storeCreate now s (fast m)).1, [])
  | Revoking id =>
      (if dbFails then m else deleteRows (fun s => negb (String.eqb (ID s) id)) m (fast m), [])
  | RevokingAll uid =>
      (if dbFails then m else deleteRows (fun s => negb (String.eqb (SUserID s) uid)) m (fast m), [])
  end.

Definition run_op (x : system) (tc : Z * call) : system :=
  match tc.2 with
  | Begin o =>
      let '(m, fl) := begin_op tc.1 o (sys x) in {| sys := m; flights := flights x ++ fl |}
  | Continue i f =>
      match flights x !! i with
      | None => x
      | Some y =>
          let '(m, fl) := continue_op tc.1 y f (sys x) in
          {| sys := m; flights := delete i (flights x) ++ fl |}
      end
  end.

(** The state an operation leaves when it is run by itself. *)
Definition alone (f : bool) (now : Z) (o : op) (m : state) : state :=
  match o with
  | OCreate nid u i a => (CreateSession f now nid u i a m).1
  | OValidate id => (ValidateSession f now id m).1
  | ORevoke id => (RevokeSession f now id m).1
  | ORevokeAll uid => (RevokeAllSessions f now uid m).1
  end.

(** Uninterrupted, the calls of a request are the operation. *)
Lemma uninterrupted f now o m :
  foldl run_op {| sys := m; flights := [] |} [(now, Begin o); (now, Continue 0 f); (now, Continue 0 f)] =
  {| sys := alone f now o m; flights := [] |}.
Proof.
  destruct m as [st l]. destruct o as [[nid|] u i a|id|id|uid]; cbn.
  - unfold CreateSession, newSession. cbn. destruct (storeCreate _ _ _) as [st' [|]]; cbn; [|done]. by destruct f.
  - done.
  - unfold ValidateSession. cbn. destruct (storeGet now id st) as [st' [x|]]; cbn; [done|].
    destruct (selectLive f now id l) as [x|]; done.
  - unfold RevokeSession, with_fast, deleteRows. cbn. by destruct f.
  - unfold RevokeAllSessions, with_fast, deleteRows. cbn. by destruct f.
Qed.

(** ** Revocation *)

(** The sessions in flight towards the store or the table. *)
Definition flights_all (P : Session -> Prop) (l : list flight) : Prop :=
  Forall (fun y => match y with Inserting s | Filling s => P s | _ => True end) l.

(** A session that neither the store nor the table nor a request in flight can
    bring back. *)
Definition dead (t : Z) (id : string) (x : system) : Prop :=
  (forall t', t <= t' -> holds (fast (sys x)) t' id = None) /\
  Forall (fun s => ID s <> id) (sessions (sys x)) /\ flights_all (fun s => ID s <> id) (flights x).

(** No request for the session is in flight. *)
Definition untouched (id : string) (l : list flight) : Prop :=
  flights_all (fun s => ID s <> id) l /\ Reading id ∉ l.

Lemma selectLive_None f now id l : Forall (fun s => ID s <> id) l -> selectLive f now id l = None.
Proof.
  intros Hl. unfold selectLive. destruct f; [done|]. destruct (List.find _ l) as [s|] eqn:E; [|done].
  apply find_some in E as [Hin%list_elem_of_In Hb]. boolify. rewrite Forall_forall in Hl.
  by destruct (Hl s Hin).
Qed.

Lemma selectLive_row f now id l s : selectLive f now id l = Some s ->
  exists r, r ∈ l /\ s = fromRow r /\ ID r = id /\ now < SExpiresAt r.
Proof.
  unfold selectLive. destruct f; [done|]. destruct (List.find _ l) as [x|] eqn:E; [|done].
  intros [= <-]. apply find_some in E as [Hin%list_elem_of_In Hb]. boolify. by exists x.
Qed.

Lemma Forall_List_filter {A} (P : A -> Prop) f l : Forall P l -> Forall P (List.filter f l).
Proof. induction 1; simpl; [done|]. case_match; auto. Qed.

Lemma None_iff_not_Some {A} (o : option A) : (forall x, o = Some x -> False) -> o = None.
Proof. destruct o as [x|]; [|done]. intros Hn. by destruct (Hn x). Qed.

(** *** What every call keeps

    A condition on sessions that holds of those in the store, in the table and
    in flight is kept by every call, if the sessions that are created meet it. *)
Record everywhere (P : Session -> Prop) (t : Z) (x : system) : Prop := {
  in_store : forall t' id s, t <= t' -> holds (fast (sys x)) t' id = Some s -> P s /\ ID s = id;
  in_table : Forall P (sessions (sys x));
  in_flight : flights_all P (flights x);
}.

(** What a store is given to keep: sessions expire within the time to live. *)
Record fresh (t : Z) (x : system) : Prop := {
  fresh_sound : sound t (fast (sys x));
  fresh_rows : Forall (fun s => SExpiresAt s <= t + ttl) (sessions (sys x));
  fresh_flights : flights_all (fun s => SExpiresAt s <= t + ttl) (flights x);
}.

Context (fits_ttl : forall now s, SExpiresAt s <= now + ttl -> fits now s).

Lemma flights_all_nil P : flights_all P [].
Proof. constructor. Qed.
#[local] Hint Resolve flights_all_nil : core.

Lemma flights_all_impl (P Q : Session -> Prop) l : (forall s, P s -> Q s) -> flights_all P l -> flights_all Q l.
Proof. intros Hi Hl. eapply Forall_impl; [exact Hl|]. intros []; cbn; auto. Qed.

Lemma flights_all_lookup P l i y : flights_all P l -> l !! i = Some y ->
  match y with Inserting s | Filling s => P s | _ => True end.
Proof. intros Hl Hi. unfold flights_all in Hl. rewrite Forall_forall in Hl. apply (Hl y). by eapply list_elem_of_lookup_2. Qed.

Lemma flights_all_delete P l i fl : flights_all P l -> flights_all P fl -> flights_all P (delete i l ++ fl).
Proof. intros Hl Hf. apply Forall_app. split; [by apply Forall_delete|done]. Qed.

Lemma flights_all_app P l fl : flights_all P l -> flights_all P fl -> flights_all P (l ++ fl).
Proof. intros Hl Hf. by apply Forall_app. Qed.

Lemma fresh_later t t' x : t <= t' -> fresh t x -> fresh t' x.
Proof.
  intros Hle [Hs Hr Hf]. split; [by eapply sound_later| |].
  - eapply Forall_impl; [exact Hr|]. cbn. lia.
  - eapply flights_all_impl; [|exact Hf]. cbn. lia.
Qed.

Lemma run_op_fresh t x c : fresh t x -> fresh t (run_op x (t, c)).
Proof.
  intros [Hs Hr Hf]. destruct c as [o|i f]; unfold run_op; cbn [fst snd].
  - destruct o as [[nid|] u ip a|id|id|uid]; cbn [begin_op].
    + set (s := newSession t nid u ip a).
      pose proof (create_sound t s (fast (sys x)) (fits_ttl t s ltac:(cbn; lia)) Hs) as Hc.
      destruct (storeCreate t s _) as [st [|]]; (split; cbn; [done|done|]); apply flights_all_app; try done.
      apply Forall_singleton. cbn. lia.
    + split; cbn; [done..|]. by rewrite app_nil_r.
    + pose proof (get_sound t id (fast (sys x)) Hs) as Hg. destruct (storeGet t id _) as [st [r|]];
        (split; cbn; [done|done|]); apply flights_all_app; try done. by apply Forall_singleton.
    + split; cbn; [by apply delete_sound|done|]. apply flights_all_app; [done|by apply Forall_singleton].
    + split; cbn; [by apply deleteByUser_sound|done|]. apply flights_all_app; [done|by apply Forall_singleton].
  - destruct (flights x !! i) as [y|] eqn:Hi; [|done]. pose proof (flights_all_lookup _ _ _ _ Hf Hi) as Hy.
    destruct y as [s|id|s|id|uid]; cbn [continue_op].
    + destruct f; split; cbn; try done; try (by apply flights_all_delete). by constructor.
    + split; cbn; [done|done|]. apply flights_all_delete; [done|].
      destruct (selectLive f t id _) as [s|] eqn:E; [|done]. apply Forall_singleton.
      apply selectLive_row in E as (r & Hin & -> & _). rewrite Forall_forall in Hr. by apply (Hr r).
    + split; cbn; [|done|by apply flights_all_delete]. apply create_sound; [by apply fits_ttl|done].
    + destruct f; split; cbn; try done; try (by apply flights_all_delete). by apply Forall_List_filter.
    + destruct f; split; cbn; try done; try (by apply flights_all_delete). by apply Forall_List_filter.
Qed.

Lemma everywhere_later P t t' x : t <= t' -> everywhere P t x -> everywhere P t' x.
Proof. intros Hle [Hh Hr Hf]. split; [|done|done]. intros t1 id s Ht1. apply Hh. lia. Qed.

(** The condition does not look at the data, which the table does not have. *)
Lemma run_op_everywhere P t x c :
  (forall s, P s -> P (fromRow s)) -> everywhere P t x -> sound t (fast (sys x)) ->
  (forall id u ip a, c = Begin (OCreate (Some id) u ip a) -> P (newSession t id u ip a)) ->
  everywhere P t (run_op x (t, c)).
Proof.
  intros Hrow [Hh Hr Hf] Hsound Hnew. destruct c as [o|i f]; unfold run_op; cbn [fst snd].
  - destruct o as [[nid|] u ip a|id|id|uid]; cbn [begin_op].
    + set (s := newSession t nid u ip a). assert (P s) as Hs by by eapply Hnew.
      pose proof (create_frame t s (fast (sys x))) as Hc.
      destruct (storeCreate t s _) as [st ok]. split; cbn; [|done|].
      * intros t' id s' Ht' [[-> ->]|Hs']%Hc; [done|by eapply Hh|done].
      * apply flights_all_app; [done|]. destruct ok; [by apply Forall_singleton|done].
    + split; cbn; [done..|]. by rewrite app_nil_r.
    + pose proof (get_frame t id (fast (sys x))) as Hg. destruct (storeGet t id _) as [st r]. split; cbn; [|done|].
      * intros t' id' s' Ht' Hs'%Hg; [by eapply Hh|done].
      * apply flights_all_app; [done|]. destruct r; [done|by apply Forall_singleton].
    + split; cbn; [|done|apply flights_all_app; [done|by apply Forall_singleton]].
      intros t' id' s' Ht' [_ Hs']%delete_holds; [by eapply Hh|done].
    + split; cbn; [|done|apply flights_all_app; [done|by apply Forall_singleton]].
      intros t' id' s' Ht' [_ Hs']%deleteByUser_holds; [by eapply Hh|done|done].
  - destruct (flights x !! i) as [y|] eqn:Hi; [|done]. pose proof (flights_all_lookup _ _ _ _ Hf Hi) as Hy.
    destruct y as [s|id|s|id|uid]; cbn [continue_op].
    + destruct f; split; cbn; try done; try (by apply flights_all_delete). by constructor.
    + split; cbn; [done|done|]. apply flights_all_delete; [done|].
      destruct (selectLive f t id _) as [s|] eqn:E; [|done]. apply Forall_singleton.
      apply selectLive_row in E as (r & Hin & -> & _). rewrite Forall_forall in Hr. by apply Hrow, (Hr r).
    + split; cbn; [|done|by apply flights_all_delete].
      intros t' id' s' Ht' [[-> ->]|Hs']%create_frame; [done|by eapply Hh|done].
    + destruct f; split; cbn; try done; try (by apply flights_all_delete). by apply Forall_List_filter.
    + destruct f; split; cbn; try done; try (by apply flights_all_delete). by apply Forall_List_filter.
Qed.

(** A condition every allowed call keeps holds along a history. *)
Lemma run_inv (I : Z -> system -> Prop) (ok : call -> Prop) :
  (forall t t' x, t <= t' -> I t x -> I t' x) -> (forall t x c, ok c -> I t x -> I t (run_op x (t, c))) ->
  forall l t t' x, StronglySorted (fun a b => a.1 <= b.1) l -> Forall (fun tc => t <= tc.1 <= t') l ->
  Forall (fun tc => ok tc.2) l -> t <= t' -> I t x -> I t' (foldl run_op x l).
Proof.
  intros Hlater Hstep l. induction l as [|[t1 c] l IH]; intros t t' x Hs Hb Hok Ht Hx; cbn [foldl]; [by eapply Hlater|].
  apply StronglySorted_inv in Hs as [Hs Hall]. apply Forall_cons in Hb as [Hb1 Hb], Hok as [Hok1 Hok]. cbn [fst snd] in *.
  apply (IH t1 t'); [done| |done|lia|].
  - rewrite Forall_forall in Hb, Hall. apply Forall_forall. intros y Hy. specialize (Hb y Hy). specialize (Hall y Hy). cbn in *. lia.
  - apply Hstep; [done|]. eapply Hlater; [|done]. lia.
Qed.

(** *** A dead session stays dead *)

Definition not_created (id : string) (c : call) : Prop := forall u ip a, c <> Begin (OCreate (Some id) u ip a).

Lemma run_op_dead t id x c : not_created id c -> dead t id x -> fresh t x -> dead t id (run_op x (t, c)).
Proof.
  intros Hnew (Hh & Hr & Hf) [Hsound _ _].
  assert (forall t' s, t <= t' -> holds (fast (sys x)) t' id = Some s -> False) as Hno by (intros t' s Ht'; by rewrite Hh).
  destruct c as [o|i f]; unfold run_op; cbn [fst snd].
  - destruct o as [[nid|] u ip a|y|y|uid]; cbn [begin_op].
    + set (s := newSession t nid u ip a). assert (ID s <> id) as Hs by (cbn; intros ->; by eapply Hnew).
      pose proof (create_frame t s (fast (sys x))) as Hc. destruct (storeCreate t s _) as [st ok]. split_and!; cbn; [|done|].
      * intros t' Ht'. apply None_iff_not_Some. intros z [[E _]|Hz]%Hc; [by apply Hs|by eapply Hno|done].
      * apply flights_all_app; [done|]. destruct ok; [by apply Forall_singleton|done].
    + split_and!; cbn; [done..|]. by rewrite app_nil_r.
    + pose proof (get_frame t y (fast (sys x))) as Hg. destruct (storeGet t y _) as [st r]. split_and!; cbn; [|done|].
      * intros t' Ht'. apply None_iff_not_Some. intros z Hz%Hg; [by eapply Hno|done].
      * apply flights_all_app; [done|]. destruct r; [done|by apply Forall_singleton].
    + split_and!; cbn; [|done|apply flights_all_app; [done|by apply Forall_singleton]].
      intros t' Ht'. apply None_iff_not_Some. intros z [_ Hz]%delete_holds; [by eapply Hno|done].
    + split_and!; cbn; [|done|apply flights_all_app; [done|by apply Forall_singleton]].
      intros t' Ht'. apply None_iff_not_Some. intros z [_ Hz]%deleteByUser_holds; [by eapply Hno|done|done].
  - destruct (flights x !! i) as [y|] eqn:Hi; [|done]. pose proof (flights_all_lookup _ _ _ _ Hf Hi) as Hy.
    destruct y as [s|y|s|y|uid]; cbn [continue_op].
    + destruct f; split_and!; cbn; try done; try (by apply flights_all_delete). by constructor.
    + split_and!; cbn; [done|done|]. apply flights_all_delete; [done|].
      destruct (selectLive f t y _) as [s|] eqn:E; [|done]. apply Forall_singleton.
      apply selectLive_row in E as (r & Hin & -> & _). rewrite Forall_forall in Hr. by apply (Hr r).
    + split_and!; cbn; [|done|by apply flights_all_delete]. intros t' Ht'. apply None_iff_not_Some.
      intros z [[-> _]|Hz]%create_frame; [done|by eapply Hno|done].
    + destruct f; split_and!; cbn; try done; try (by apply flights_all_delete). by apply Forall_List_filter.
    + destruct f; split_and!; cbn; try done; try (by apply flights_all_delete). by apply Forall_List_filter.
Qed.

Lemma run_dead t t' id x l : StronglySorted (fun a b => a.1 <= b.1) l -> Forall (fun tc => t <= tc.1 <= t') l ->
  Forall (fun tc => not_created id tc.2) l -> t <= t' -> dead t id x -> fresh t x -> dead t' id (foldl run_op x l).
Proof.
  intros Hs Hb Hn Ht Hd Hf. apply (run_inv (fun t x => dead t id x /\ fresh t x) (not_created id)) with t; try done.
  - intros a b y Hle [(Hh & ? & ?) Hfr]. split; [|by eapply fresh_later]. split_and!; [|done|done]. intros c Hc. apply Hh. lia.
  - intros a y c Hc [Hy Hfr]. split; [by apply run_op_dead|by apply run_op_fresh].
Qed.

Lemma dead_refused dbFails later id x t :
  dead t id x -> t <= later -> (ValidateSession dbFails later id (sys x)).2 = None.
Proof.
  intros (Hh & Hr & _) Hle. unfold ValidateSession. pose proof (get_result later id (fast (sys x))) as Hg.
  destruct (storeGet later id _) as [st r]. cbn [snd] in Hg. rewrite Hh in Hg by lia. subst r. by rewrite selectLive_None.
Qed.

(** *** Between the two calls of a revocation

    The store has forgotten the session, the row may still be there. *)
Definition leaving (Q : Session -> Prop) (t : Z) (id : string) (x : system) : Prop :=
  (forall t', t <= t' -> holds (fast (sys x)) t' id = None) /\
  Forall (fun s => ID s = id -> Q s) (sessions (sys x)) /\ untouched id (flights x).

Definition elsewhere (id : string) (c : call) : Prop := not_created id c /\ c <> Begin (OValidate id).

Lemma untouched_app id l fl : untouched id l -> untouched id fl -> untouched id (l ++ fl).
Proof. intros [H1 H2] [H3 H4]. split; [by apply flights_all_app|]. rewrite elem_of_app. tauto. Qed.

Lemma untouched_delete id l i : untouched id l -> untouched id (delete i l).
Proof.
  intros [H1 H2]. split; [by apply Forall_delete|]. intros Hin. apply H2.
  eapply elem_of_submseteq; [exact Hin|]. apply sublist_submseteq, sublist_delete.
Qed.

Lemma run_op_leaving Q t id x c :
  elsewhere id c -> leaving Q t id x -> fresh t x -> leaving Q t id (run_op x (t, c)).
Proof.
  intros [Hnew Hval] (Hh & Hr & Hun) [Hsound _ _]. pose proof Hun as [Hf Hread].
  assert (forall t' s, t <= t' -> holds (fast (sys x)) t' id = Some s -> False) as Hno by (intros t' s Ht'; by rewrite Hh).
  assert (forall y : flight, (match y with Inserting s | Filling s => ID s <> id | _ => True end) -> y <> Reading id -> untouched id [y]) as Hone.
  { intros y Hy Hne. split; [by apply Forall_singleton|]. intros E%list_elem_of_singleton. congruence. }
  assert (untouched id []) as Hnil by (split; [constructor|apply not_elem_of_nil]).
  destruct c as [o|i f]; unfold run_op; cbn [fst snd].
  - destruct o as [[nid|] u ip a|y|y|uid]; cbn [begin_op].
    + set (s := newSession t nid u ip a). assert (ID s <> id) as Hs by (cbn; intros ->; by eapply Hnew).
      pose proof (create_frame t s (fast (sys x))) as Hc. destruct (storeCreate t s _) as [st ok]. split_and!; cbn; [|done|].
      * intros t' Ht'. apply None_iff_not_Some. intros z [[E _]|Hz]%Hc; [by apply Hs|by eapply Hno|done].
      * apply untouched_app; [done|]. destruct ok; [by apply Hone|done].
    + split_and!; cbn; [done..|]. by rewrite app_nil_r.
    + assert (y <> id) as Hy by (intros ->; by apply Hval).
      pose proof (get_frame t y (fast (sys x))) as Hg. destruct (storeGet t y _) as [st r]. split_and!; cbn; [|done|].
      * intros t' Ht'. apply None_iff_not_Some. intros z Hz%Hg; [by eapply Hno|done].
      * apply untouched_app; [done|]. destruct r; [done|]. apply Hone; [done|]. by intros [= ->].
    + split_and!; cbn; [|done|apply untouched_app; [done|by apply Hone]].
      intros t' Ht'. apply None_iff_not_Some. intros z [_ Hz]%delete_holds; [by eapply Hno|done].
    + split_and!; cbn; [|done|apply untouched_app; [done|by apply Hone]].
      intros t' Ht'. apply None_iff_not_Some. intros z [_ Hz]%deleteByUser_holds; [by eapply Hno|done|done].
  - destruct (flights x !! i) as [y|] eqn:Hi; [|done]. pose proof (flights_all_lookup _ _ _ _ Hf Hi) as Hy.
    pose proof (untouched_delete id _ i Hun) as Hdel.
    destruct y as [s|y|s|y|uid]; cbn [continue_op].
    + destruct f; split_and!; cbn; auto using untouched_app. constructor; [|done]. intros ?. by destruct Hy.
    + assert (y <> id) as Hne.
      { intros ->. apply Hread. by eapply list_elem_of_lookup_2. }
      split_and!; cbn; [done|done|]. apply untouched_app; [done|].
      destruct (selectLive f t y _) as [s|] eqn:E; [|done]. apply selectLive_row in E as (r & Hin & -> & Er & _).
      apply Hone; [|done]. cbn. congruence.
    + split_and!; cbn; [|done|by apply untouched_app]. intros t' Ht'. apply None_iff_not_Some.
      intros z [[-> _]|Hz]%create_frame; [done|by eapply Hno|done].
    + destruct f; split_and!; cbn; try done; try (by apply untouched_app). by apply Forall_List_filter.
    + destruct f; split_and!; cbn; try done; try (by apply untouched_app). by apply Forall_List_filter.
Qed.

Lemma run_leaving Q t t' id x l : StronglySorted (fun a b => a.1 <= b.1) l -> Forall (fun tc => t <= tc.1 <= t') l ->
  Forall (fun tc => elsewhere id tc.2) l -> t <= t' -> leaving Q t id x -> fresh t x ->
  leaving Q t' id (foldl run_op x l) /\ fresh t' (foldl run_op x l).
Proof.
  intros Hs Hb Hn Ht Hd Hf. apply (run_inv (fun t x => leaving Q t id x /\ fresh t x) (elsewhere id)) with t; try done.
  - intros a b y Hle [(Hh & ? & ?) Hfr]. split; [|by eapply fresh_later]. split_and!; [|done|done]. intros c Hc. apply Hh. lia.
  - intros a y c Hc [Hy Hfr]. split; [by apply run_op_leaving|by apply run_op_fresh].
Qed.

(** The second call of the revocation: the rows of the session go. *)
Lemma leaves Q t id x i y keep :
  leaving Q t id x -> flights x !! i = Some y ->
  (continue_op t y false (sys x) = (deleteRows keep (sys x) (fast (sys x)), [])) ->
  (forall s, ID s = id -> Q s -> keep s = false) -> dead t id (run_op x (t, Continue i false)).
Proof.
  intros (Hh & Hr & Hun) Hi Hc Hk. unfold run_op. cbn [fst snd]. rewrite Hi, Hc. split_and!; cbn; [done| |].
  - apply Forall_forall. intros s. rewrite list_elem_of_In, filter_In, <- list_elem_of_In. intros [Hin Hb] E.
    rewrite Forall_forall in Hr. rewrite (Hk s E (Hr s Hin E)) in Hb. done.
  - rewrite app_nil_r. by apply untouched_delete.
Qed.

(** *** Revocation is final *)

Definition at_rest (st0 : store) : system := {| sys := {| fast := st0; sessions := [] |}; flights := [] |}.

Definition created_for (id uid : string) (c : call) : Prop :=
  forall u ip a, c = Begin (OCreate (Some id) u ip a) -> u = uid.

Lemma at_rest_fresh t st0 : sound t st0 -> fresh t (at_rest st0).
Proof. intros Hs. split; cbn; [done|constructor|constructor]. Qed.

Lemma run_owned st0 t0 t id uid l : sound t0 st0 -> (forall t x, holds st0 t x = None) ->
  StronglySorted (fun a b => a.1 <= b.1) l -> Forall (fun tc => t0 <= tc.1 <= t) l -> t0 <= t ->
  Forall (fun tc => created_for id uid tc.2) l ->
  everywhere (fun s => ID s = id -> SUserID s = uid) t (foldl run_op (at_rest st0) l) /\
  fresh t (foldl run_op (at_rest st0) l).
Proof.
  intros Hs0 Hh0 Hs Hb Ht Hl.
  apply (run_inv (fun t x => everywhere (fun s => ID s = id -> SUserID s = uid) t x /\ fresh t x) (created_for id uid)) with t0; try done.
  - intros a b x Hle [He Hf]. split; [by eapply everywhere_later|by eapply fresh_later].
  - intros a x c Hc [He Hf]. split; [|by apply run_op_fresh]. apply run_op_everywhere; [done|done|apply Hf|].
    intros nid u ip ag ->. cbn. intros ->. by eapply Hc.
  - split; [|by apply at_rest_fresh]. split; cbn; [|constructor|constructor]. intros t' x s _. by rewrite Hh0.
Qed.

(** Revoking all sessions of a user reaches every session made for the user, on
    whichever core and however often it was used: [calls1] is any history, the
    revocation makes its first call at [t1] and its second at [t2], [mid] comes
    between and [calls2] after. *)
Lemma logged_out_everywhere st0 t0 t1 t2 later calls1 mid calls2 i id uid dbFails :
  sound t0 st0 -> (forall t x, holds st0 t x = None) ->
  StronglySorted (fun a b => a.1 <= b.1) calls1 -> StronglySorted (fun a b => a.1 <= b.1) mid ->
  StronglySorted (fun a b => a.1 <= b.1) calls2 ->
  Forall (fun tc => t0 <= tc.1 <= t1) calls1 -> Forall (fun tc => t1 <= tc.1 <= t2) mid ->
  Forall (fun tc => t2 <= tc.1 <= later) calls2 -> t0 <= t1 <= t2 -> t2 <= later ->
  Forall (fun tc => created_for id uid tc.2) calls1 -> Forall (fun tc => elsewhere id tc.2) mid ->
  Forall (fun tc => not_created id tc.2) calls2 ->
  let x1 := foldl run_op (at_rest st0) calls1 in
  let x2 := foldl run_op (run_op x1 (t1, Begin (ORevokeAll uid))) mid in
  untouched id (flights x1) -> flights x2 !! i = Some (RevokingAll uid) ->
  let x3 := foldl run_op (run_op x2 (t2, Continue i false)) calls2 in
  (ValidateSession dbFails later id (sys x3)).2 = None.
Proof.
  intros Hs0 Hh0 S1 S2 S3 B1 B2 B3 T1 T2 C1 C2 C3. cbv zeta. set (x1 := foldl run_op _ calls1). set (x2 := foldl run_op _ mid).
  intros Hun Hi. destruct (run_owned st0 t0 t1 id uid calls1) as [[Hh Hr _] Hf]; [done..|lia|done|].
  assert (leaving (fun s => SUserID s = uid) t1 id (run_op x1 (t1, Begin (ORevokeAll uid)))) as Hl.
  { split_and!; cbn.
    - intros t' Ht'. apply None_iff_not_Some. intros y [Hu Hy]%deleteByUser_holds; [|apply Hf|done]. apply Hu.
      destruct (Hh _ _ _ Ht' Hy) as [Ho E]. auto.
    - done.
    - apply untouched_app; [done|]. split; [by apply Forall_singleton|]. by intros [=]%list_elem_of_singleton. }
  destruct (run_leaving _ t1 t2 id _ mid S2 B2 C2 ltac:(lia) Hl) as [Hl2 Hf2]; [by apply run_op_fresh|]. fold x2 in Hl2, Hf2.
  eapply dead_refused; [|reflexivity]. apply (run_dead t2); [done..|lia| |by apply run_op_fresh].
  eapply leaves; [exact Hl2|exact Hi|reflexivity|]. cbn. intros s _ ->. by rewrite String.eqb_refl.
Qed.

(** Revoking a session is final on every core: once [RevokeSession] has made
    both its calls without an error of the database, no later validation accepts
    the identifier, provided that no request for the session was in flight when
    it began, that none came between its two calls, and that no session is
    created under the identifier again; and a validation never returns a session
    past its expiry. *)
Theorem revoked_stays_revoked x1 t1 t2 later mid calls2 i id dbFails :
  fresh t1 x1 -> untouched id (flights x1) -> t1 <= t2 -> t2 <= later ->
  StronglySorted (fun a b => a.1 <= b.1) mid -> StronglySorted (fun a b => a.1 <= b.1) calls2 ->
  Forall (fun tc => t1 <= tc.1 <= t2) mid -> Forall (fun tc => t2 <= tc.1 <= later) calls2 ->
  Forall (fun tc => elsewhere id tc.2) mid -> Forall (fun tc => not_created id tc.2) calls2 ->
  let x2 := foldl run_op (run_op x1 (t1, Begin (ORevoke id))) mid in
  flights x2 !! i = Some (Revoking id) ->
  let x3 := foldl run_op (run_op x2 (t2, Continue i false)) calls2 in
  (ValidateSession dbFails later id (sys x3)).2 = None /\
  forall f at' id' s, (ValidateSession f at' id' (sys x3)).2 = Some s -> at' <= SExpiresAt s.
Proof.
  intros Hf Hun T1 T2 S2 S3 B2 B3 C2 C3. cbv zeta. set (x2 := foldl run_op _ mid). intros Hi. split.
  - assert (leaving (fun _ => True) t1 id (run_op x1 (t1, Begin (ORevoke id)))) as Hl.
    { split_and!; cbn.
      - intros t' Ht'. apply None_iff_not_Some. intros y [Hne _]%delete_holds; done.
      - apply Forall_forall. done.
      - apply untouched_app; [done|]. split; [by apply Forall_singleton|]. by intros [=]%list_elem_of_singleton. }
    destruct (run_leaving _ t1 t2 id _ mid S2 B2 C2 ltac:(lia) Hl) as [Hl2 Hf2]; [by apply run_op_fresh|]. fold x2 in Hl2, Hf2.
    eapply dead_refused; [|reflexivity]. apply (run_dead t2); [done..|lia| |by apply run_op_fresh].
    eapply leaves; [exact Hl2|exact Hi|reflexivity|]. cbn. intros s -> _. by rewrite String.eqb_refl.
  - intros f at' id' s. set (m := sys _). unfold ValidateSession. pose proof (get_result at' id' (fast m)) as Hg.
    destruct (storeGet at' id' (fast m)) as [st [r|]]; cbn [snd] in Hg.
    + intros [= <-]. symmetry in Hg. by eapply holds_live.
    + destruct (selectLive f at' id' (sessions m)) as [y|] eqn:Hs; [|done]. intros [= <-].
      apply selectLive_row in Hs as (r & _ & -> & _ & ?). cbn. lia.
Qed.

(** A session is accepted from its creation on: at once from the store, and
    from the table when the store has lost it, until the table's row expires. *)
Theorem created_accepted now nid uid ip agent m s m'
    (Hrun : CreateSession false now (Some nid) uid ip agent m = (m', Some s)) (Hpos : 0 < ttl) :
  ID s = nid /\ SUserID s = uid /\ (forall dbFails, (ValidateSession dbFails now nid m').2 = Some s) /\
  forall later, later < now + ttl -> holds (fast m') later nid = None \/ holds (fast m') later nid = Some s ->
    (ValidateSession false later nid m').2 = Some s.
Proof.
  revert Hrun. unfold CreateSession. set (s0 := {| ID := nid |}). pose proof (create_holds now s0 (fast m)) as Hc.
  destruct (storeCreate now s0 (fast m)) as [st [|]]; cbn [negb]; [|done]. intros [= <- <-]. cbn [fst snd ID SExpiresAt s0] in Hc.
  split_and!; [done|done| |].
  - intros dbFails. unfold ValidateSession. pose proof (get_result now nid st) as Hg. cbn [fast].
    destruct (storeGet now nid st) as [st' r]. cbn [snd] in Hg. by rewrite Hg, Hc by lia.
  - intros later Hl Hor. unfold ValidateSession. pose proof (get_result later nid st) as Hg. cbn [fast sessions] in *.
    destruct (storeGet later nid st) as [st' r]. cbn [snd] in Hg. destruct Hor as [E|E]; rewrite E in Hg; subst r; [|done].
    unfold selectLive. cbn [List.find ID SExpiresAt s0]. rewrite String.eqb_refl, (proj2 (Z.ltb_lt _ _)) by lia. done.
Qed.

(** The list a user sees has the live rows of the user, each once, the latest
    first, and none once all are revoked. *)
Theorem listHandler_exact `{SqlOrder} now c m :
  let '(st, l) := listHandler false (fun _ => false) now (Some c) m in
  st = 200 /\ StronglySorted (fun x y => CreatedAt y <= CreatedAt x) l /\
  (forall s, s ∈ l <-> exists r, r ∈ sessions m /\ s = fromRow r /\ SUserID r = Auth.Token.UserID c /\ now < SExpiresAt r) /\
  listHandler false (fun _ => false) now (Some c) (revokeAllHandler false now (Some c) m).1 = (200, []).
Proof.
  assert (forall m, listHandler false (fun _ => false) now (Some c) m =
    (200, map fromRow (userRows now (Auth.Token.UserID c) m))) as Hl.
  { intros m'. unfold listHandler, ListSessions. generalize (userRows now (Auth.Token.UserID c) m'). intros l.
    assert (mapM (fun s => Some (fromRow s)) l = Some (map fromRow l)) as ->; [|done].
    induction l as [|x l IH]; [done|]. cbn -[fromRow]. by rewrite IH. }
  rewrite !Hl. unfold userRows. split_and!; [done| | |].
  - pose proof (rows_by_sorted 41 (fun s => - CreatedAt s)
      (List.filter (fun s => String.eqb (SUserID s) (Auth.Token.UserID c) && (now <? SExpiresAt s)) (sessions m))) as Hs.
    induction Hs as [|x l Hs IH Hx]; cbn; constructor; [done|].
    apply Forall_fmap. eapply Forall_impl; [exact Hx|]. intros y Hy. cbn in *. lia.
  - intros s. change (map fromRow ?l) with (fromRow <$> l). rewrite list_elem_of_fmap. split.
    + intros (r & -> & Hr). rewrite rows_by_perm, list_elem_of_In, filter_In, <- list_elem_of_In in Hr.
      destruct Hr as [Hin Hb]. boolify. by exists r.
    + intros (r & Hin & -> & Hu & Hlive). exists r. split; [done|].
      rewrite rows_by_perm, list_elem_of_In, filter_In, <- list_elem_of_In. split; [done|].
      by rewrite Hu, String.eqb_refl, (proj2 (Z.ltb_lt _ _)).
  - f_equal. cbn [revokeAllHandler RevokeAllSessions fst deleteRows sessions].
    assert (List.filter (fun s => String.eqb (SUserID s) (Auth.Token.UserID c) && (now <? SExpiresAt s))
      (List.filter (fun s => negb (String.eqb (SUserID s) (Auth.Token.UserID c))) (sessions m)) = []) as ->.
    { induction (sessions m) as [|x l IH]; [done|]. cbn. destruct (String.eqb (SUserID x) (Auth.Token.UserID c)) eqn:E; cbn; [done|].
      by rewrite E. }
    by assert (rows_by 41 (fun s => - CreatedAt s) [] = []) as -> by (apply Permutation_nil_r, rows_by_perm).
Qed.
End manager.

(** ** A manager over the memory store *)

Definition sess (id uid : string) (e : Z) : Session := {|
  ID := id; SUserID := uid; IPAddress := "1.2.3.4"; UserAgent := "x"; CreatedAt := 0;
  SExpiresAt := e; Data := ∅ |}.

Definition m0 : @state memory_store :=
  @Build_state memory_store {[ "s1"%string := sess "s1" "ann" 100 ]}
    [sess "s1" "ann" 100; sess "s2" "bob" 100].

Definition x0 : @system memory_store := {| sys := m0; flights := [] |}.

Definition between : list (Z * call) := [(6, Begin (OValidate "s2")); (7, Begin (OCreate (Some "s3"%string) "ann" "" ""))].
Definition later_calls : list (Z * call) := [(9, Begin (OValidate "s1")); (10, Continue 1 false); (11, Continue 0 false)].

Lemma revoked_stays_revoked_witness :
  let x2 := foldl (@run_op memory_store 100) (@run_op memory_store 100 x0 (5, Begin (ORevoke "s1"))) between in
  (@ValidateSession memory_store false 12 "s1"
     (sys (foldl (@run_op memory_store 100) (@run_op memory_store 100 x2 (8, Continue 0 false)) later_calls))).2 = None.
Proof.
  refine (proj1 (@revoked_stays_revoked memory_store 100 (fun _ _ _ => I) x0 5 8 12 between later_calls 0 "s1" false _ _ _ _ _ _ _ _ _ _ _)).
  - split; [exact I|repeat constructor; discriminate|constructor].
  - split; [constructor|apply not_elem_of_nil].
  - discriminate.
  - discriminate.
  - repeat constructor; discriminate.
  - repeat constructor; discriminate.
  - repeat constructor; discriminate.
  - repeat constructor; discriminate.
  - repeat constructor; discriminate.
  - repeat constructor; discriminate.
  - vm_compute. reflexivity.
Defined.

(** ** Where the code falls short *)

(** A revocation whose calls run after a validation has read the row and
    before that validation repopulates the store is undone: the revoked session
    is accepted from the store until it expires. *)
Theorem revoke_race :
  let x := {| sys := @Build_state memory_store ∅ [sess "s1" "ann" 100]; flights := [] |} in
  let x' := foldl (@run_op memory_store 100) x
    [(5, Begin (OValidate "s1")); (5, Continue 0 false); (6, Begin (ORevoke "s1")); (6, Continue 1 false); (7, Continue 0 false)] in
  sessions (sys x') = [] /\ flights x' = [] /\
  (@ValidateSession memory_store false 50 "s1" (sys x')).2 = Some (sess "s1" "ann" 100).
Proof. vm_compute. auto. Qed.

(** [Touch] on the memory store does not look at the expiry: an expired session
    that is still in the map becomes valid again. *)
Theorem touch_revives_expired id s m now ttl :
  m !! id = Some s -> SExpiresAt s < now -> 0 <= ttl ->
  ms_holds m now id = None /\ ms_holds (ms_Touch now id ttl m).1 now id = Some (withExpiry s (now + ttl)).
Proof.
  intros Hs He Ht. unfold ms_holds, ms_Touch. rewrite Hs. cbn [fst]. rewrite lookup_insert_eq. cbn.
  unfold isExpired. cbn [SExpiresAt withExpiry].
  rewrite (proj2 (Z.ltb_lt _ _) He), (proj2 (Z.ltb_ge _ _)) by lia. done.
Qed.
