(* ===== verification/RedisSession.v ===== *)
(** * Sessions in Redis

    [internal/session/redis_store.go]: the session store that several cores
    share.  Redis is modelled by its keys with their expiry in milliseconds of
    its clock; a session is stored under its identifier, and a set per user
    lists the identifiers of the user's sessions.  With a Redis that answers,
    the store keeps the laws of class [Store] for sessions that live at most
    the 24 hours of the index, so the theorems on the manager hold for it.
    The encoding of a session as JSON and back is the identity on its fields. *)

From S2P Require Import Prelude Auth Policy Session.
From Stdlib Require Import ZArith Lia Ascii String.
From stdpp Require Import base gmap strings list sorting pretty.

Local Open Scope Z_scope.

Definition millisecond : Z := 1000000.

(** The clock of Redis counts milliseconds. *)
Definition mstime (now : Z) : Z := now / millisecond.

(** What [Set] and [Expire] of go-redis send for a positive duration: whole
    milliseconds, and one for less than that. *)
Definition formatMs (d : Z) : Z := if d <? millisecond then 1 else d / millisecond.

Record redis := {
  r_keys : gmap string (Session * Z);         (* session:ID -> value, last millisecond *)
  r_users : gmap string (gset string * Z);    (* user_sessions:ID -> members, last millisecond *)
}.

(** Redis drops a key once its clock is past the expiry. *)
Definition alive {A} (now : Z) (x : A * Z) : option A := if mstime now <=? x.2 then Some x.1 else None.

Definition redis_Get (now : Z) (id : string) (r : redis) : option Session := r_keys r !! id ≫= alive now.

Definition redis_Del (id : string) (r : redis) : redis := {| r_keys := delete id (r_keys r); r_users := r_users r |}.

Definition redis_Set (now : Z) (id : string) (s : Session) (ttl : Z) (r : redis) : redis :=
  {| r_keys := <[id := (s, mstime now + formatMs ttl)]> (r_keys r); r_users := r_users r |}.

Definition members (now : Z) (uid : string) (r : redis) : gset string := default ∅ (r_users r !! uid ≫= alive now).

Definition redis_SRem (now : Z) (uid id : string) (r : redis) : redis :=
  match r_users r !! uid with
  | Some (l, t) =>
      if mstime now <=? t then {| r_keys := r_keys r; r_users := <[uid := (l ∖ {[id]}, t)]> (r_users r) |} else r
  | None => r
  end.

Definition userIndexTTL : Z := 24 * 3600 * 1000.

(** [SAdd] followed by [Expire]. *)
Definition redis_SAdd (now : Z) (uid id : string) (r : redis) : redis :=
  {| r_keys := r_keys r; r_users := <[uid := ({[id]} ∪ members now uid r, mstime now + userIndexTTL)]> (r_users r) |}.

(** ** The operations

    [f] says which of the calls of an operation, in their order, fail. *)

(** [true] is a nil error.  The commands of a pipeline fail one by one; the
    first error is the one that is returned. *)
Definition rs_Create (f : nat -> bool) (now : Z) (s : Session) (r : redis) : redis * bool :=
  let ttl := SExpiresAt s - now in
  if ttl <=? 0 then (r, false)
  else
    let r := if f 0%nat then r else redis_Set now (ID s) s ttl r in
    let r := if f 1%nat then r else redis_SAdd now (SUserID s) (ID s) r in
    (r, negb (f 0%nat || f 1%nat)).

Definition rs_Get (f : nat -> bool) (now : Z) (id : string) (r : redis) : redis * option Session :=
  if f 0%nat then (r, None) else
  match redis_Get now id r with
  | None => (r, None)
  | Some s => if isExpired now s then (if f 1%nat then r else redis_Del id r, None) else (r, Some s)
  end.

Definition rs_Delete (f : nat -> bool) (now : Z) (id : string) (r : redis) : redis * bool :=
  let '(r, s) := rs_Get f now id r in
  let r := match s with Some s => if f 2%nat then r else redis_SRem now (SUserID s) id r | None => r end in
  if f 3%nat then (r, false) else (redis_Del id r, true).

Definition rs_DeleteByUser (f : nat -> bool) (now : Z) (uid : string) (r : redis) : redis * bool :=
  if f 0%nat then (r, false) else
  let ids := members now uid r in
  let r := if f 1%nat then r else {| r_keys := filter (fun kv => kv.1 ∉ ids) (r_keys r); r_users := r_users r |} in
  if f 2%nat then (r, false) else ({| r_keys := r_keys r; r_users := delete uid (r_users r) |}, true).

(** [List]; [order] is the order in which Redis returns the members, and [f i]
    the failures of the round of the i-th of them. *)
Fixpoint listMembers (f : nat -> nat -> bool) (now : Z) (uid : string) (ids : list string) (r : redis) : redis * list Session :=
  match ids with
  | [] => (r, [])
  | id :: ids =>
      let '(r, s) := rs_Get (f (S (length ids))) now id r in
      match s with
      | None => listMembers f now uid ids (if f (S (length ids)) 2%nat then r else redis_SRem now uid id r)
      | Some s => let '(r, l) := listMembers f now uid ids r in (r, s :: l)
      end
  end.

Definition rs_List (f : nat -> nat -> bool) (now : Z) (order : gset string -> list string) (uid : string) (r : redis)
  : redis * option (list Session) :=
  if f 0%nat 0%nat then (r, None) else
  let '(r, l) := listMembers f now uid (order (members now uid r)) r in (r, Some l).

Definition rs_Touch (f : nat -> bool) (now : Z) (id : string) (ttl : Z) (r : redis) : redis * bool :=
  let '(r, s) := rs_Get f now id r in
  match s with
  | None => (r, false)
  | Some s => if f 2%nat then (r, false) else (redis_Set now id (withExpiry s (now + ttl)) ttl r, true)
  end.

(** ** The index covers the sessions *)

(** Every session Redis still has is listed under its user, in a set that
    lives at least as long. *)
Record rs_sound (now : Z) (r : redis) : Prop := {
  key_id : forall id s t, r_keys r !! id = Some (s, t) -> ID s = id;
  key_indexed : forall id s t, r_keys r !! id = Some (s, t) -> mstime now <= t ->
    exists l t', r_users r !! SUserID s = Some (l, t') /\ id ∈ l /\ t <= t';
  index_bounded : forall u l t, r_users r !! u = Some (l, t) -> t <= mstime now + userIndexTTL;
}.

(** A session the index outlives. *)
Definition rs_fits (now : Z) (s : Session) : Prop := SExpiresAt s - now <= userIndexTTL * millisecond.

Definition rs_holds (r : redis) (now : Z) (id : string) : option Session :=
  s ← redis_Get now id r; if isExpired now s then None else Some s.

Lemma mstime_mono a b : a <= b -> mstime a <= mstime b.
Proof. intros. apply Z.div_le_mono; unfold millisecond; lia. Qed.

Lemma rs_holds_Some r now id s : rs_holds r now id = Some s <->
  (exists t, r_keys r !! id = Some (s, t) /\ mstime now <= t) /\ now <= SExpiresAt s.
Proof.
  unfold rs_holds, redis_Get, alive, isExpired. destruct (r_keys r !! id) as [[x t]|]; cbn.
  2:{ split; [done|]. by intros [(? & ? & _) _]. }
  destruct (mstime now <=? t) eqn:E; boolify; cbn.
  - destruct (SExpiresAt x <? now) eqn:E2; boolify; split.
    + done.
    + intros [(? & [= <- <-] & _) ?]. lia.
    + intros [= <-]. eauto.
    + by intros [(? & [= <- <-] & _) ?].
  - split; [done|]. intros [(? & [= <- <-] & ?) ?]. lia.
Qed.

Lemma rs_holds_shrinks (r r' : redis) now id s :
  (forall x, r_keys r' !! id = Some x -> r_keys r !! id = Some x) -> rs_holds r' now id = Some s -> rs_holds r now id = Some s.
Proof. intros Hk. rewrite !rs_holds_Some. intros [(t & Ht & ?) ?]. eauto 6. Qed.

Lemma rs_sound_later now now' r : now <= now' -> rs_sound now r -> rs_sound now' r.
Proof.
  intros Hle%mstime_mono [H1 H2 H3]. split; [done| |].
  - intros id s t Hk Ht. apply (H2 id s t Hk). lia.
  - intros u l t Hu. specialize (H3 u l t Hu). lia.
Qed.

(** Operations that only remove keys, and from an index only what has no key. *)
Lemma rs_sound_shrinks now r r' : rs_sound now r ->
  (forall id x, r_keys r' !! id = Some x -> r_keys r !! id = Some x) ->
  (forall u l t, r_users r' !! u = Some (l, t) -> exists l', r_users r !! u = Some (l', t)) ->
  (forall id s t u l t', r_keys r' !! id = Some (s, t) -> SUserID s = u -> r_users r !! u = Some (l, t') -> id ∈ l ->
     exists l', r_users r' !! u = Some (l', t') /\ id ∈ l') ->
  rs_sound now r'.
Proof.
  intros [H1 H2 H3] Hk Hu Hi. split.
  - intros id s t Hs. by eapply H1, Hk.
  - intros id s t Hs Ht. destruct (H2 id s t) as (l & t' & Hl & Hin & Hle); [by apply Hk|done|].
    destruct (Hi id s t _ l t' Hs eq_refl Hl Hin) as (l' & Hl' & Hin'). eauto 6.
  - intros u l t Hl. destruct (Hu u l t Hl) as [l' Hl']. by eapply H3.
Qed.

Lemma redis_Del_sound now id r : rs_sound now r -> rs_sound now (redis_Del id r).
Proof.
  intros Hs. eapply rs_sound_shrinks; [exact Hs|..]; cbn.
  - intros i x Hx. by apply lookup_delete_Some in Hx as [_ ?].
  - eauto.
  - eauto.
Qed.

Lemma rs_Get_sound f now id r : rs_sound now r -> rs_sound now (rs_Get f now id r).1.
Proof.
  intros Hs. unfold rs_Get. destruct (f 0%nat); [done|]. destruct (redis_Get now id r) as [s|]; [|done].
  destruct (isExpired now s); [|done]. cbn. destruct (f 1%nat); [done|]. by apply redis_Del_sound.
Qed.

Lemma rs_Get_keys f now id r i x : r_keys (rs_Get f now id r).1 !! i = Some x -> r_keys r !! i = Some x.
Proof.
  unfold rs_Get. destruct (f 0%nat); [done|]. destruct (redis_Get now id r) as [s|]; [|done].
  destruct (isExpired now s); [|done]. cbn. destruct (f 1%nat); [done|]. cbn. by intros [_ ?]%lookup_delete_Some.
Qed.

Lemma redis_SRem_sound now uid id r : rs_sound now r ->
  (forall s t, r_keys r !! id = Some (s, t) -> SUserID s = uid -> False) -> rs_sound now (redis_SRem now uid id r).
Proof.
  intros Hs Hno. unfold redis_SRem. destruct (r_users r !! uid) as [[l t]|] eqn:Hl; [|done].
  destruct (mstime now <=? t); [|done]. eapply rs_sound_shrinks; [exact Hs|..]; cbn.
  - done.
  - intros u l' t'. rewrite lookup_insert_Some. intros [[<- [= <- <-]]|[_ ?]]; eauto.
  - intros i s t1 u l1 t' Hk Hu Hl1 Hin. destruct (decide (u = uid)) as [->|Hne].
    + rewrite Hl in Hl1. injection Hl1 as <- <-. rewrite lookup_insert_eq. eexists. split; [done|].
      assert (i <> id) by (intros ->; by eapply Hno). set_solver.
    + rewrite lookup_insert_ne by done. eauto.
Qed.

Lemma rs_Delete_sound f now id r : f 3%nat = false -> rs_sound now r -> rs_sound now (rs_Delete f now id r).1.
Proof.
  intros F3 Hs. unfold rs_Delete. pose proof (rs_Get_sound f now id r Hs) as Hg. destruct (rs_Get f now id r) as [r1 s]. cbn [fst] in Hg.
  rewrite F3. cbn [fst].
  assert (redis_Del id (match s with Some s => if f 2%nat then r1 else redis_SRem now (SUserID s) id r1 | None => r1 end) =
    match s with Some s => if f 2%nat then redis_Del id r1 else redis_SRem now (SUserID s) id (redis_Del id r1) | None => redis_Del id r1 end)
    as ->.
  { destruct s as [s|]; [|done]. destruct (f 2%nat); [done|]. unfold redis_SRem, redis_Del. cbn.
    by destruct (r_users r1 !! SUserID s) as [[l t]|]; [destruct (mstime now <=? t)|]. }
  pose proof (redis_Del_sound now id r1 Hg) as Hd. destruct s as [s|]; [|done]. destruct (f 2%nat); [done|].
  apply redis_SRem_sound; [done|]. intros x t. cbn. by rewrite lookup_delete_eq.
Qed.

Lemma rs_Delete_keys f now id r i x : f 3%nat = false ->
  r_keys (rs_Delete f now id r).1 !! i = Some x -> i <> id /\ r_keys r !! i = Some x.
Proof.
  intros F3. unfold rs_Delete. pose proof (rs_Get_keys f now id r i x) as Hg. destruct (rs_Get f now id r) as [r1 s]. cbn [fst] in Hg.
  rewrite F3. cbn [fst redis_Del r_keys]. rewrite lookup_delete_Some. intros [Hne Hx]. split; [done|]. apply Hg.
  destruct s as [s|]; [|done]. destruct (f 2%nat); [done|]. unfold redis_SRem in Hx.
  by destruct (r_users r1 !! SUserID s) as [[l t]|]; [destruct (mstime now <=? t)|].
Qed.

Lemma rs_DeleteByUser_sound now uid r : rs_sound now r -> rs_sound now (rs_DeleteByUser (fun _ => false) now uid r).1.
Proof.
  intros Hs. pose proof Hs as [H1 H2 H3]. unfold rs_DeleteByUser. cbn. split; cbn.
  - intros id s t Hk. apply map_lookup_filter_Some in Hk as [Hk _]. by eapply H1.
  - intros id s t Hk Ht. apply map_lookup_filter_Some in Hk as [Hk Hni]. cbn in Hni.
    destruct (H2 id s t Hk Ht) as (l & t' & Hl & Hin & Hle). exists l, t'. split; [|done].
    rewrite lookup_delete_ne; [done|]. intros ->. apply Hni. unfold members. rewrite Hl. cbn. unfold alive. cbn.
    by rewrite (proj2 (Z.leb_le _ _)) by lia.
  - intros u l t. rewrite lookup_delete_Some. intros [_ ?]. by eapply H3.
Qed.

Lemma rs_DeleteByUser_holds now uid r now' id s : rs_sound now r -> now <= now' ->
  rs_holds (rs_DeleteByUser (fun _ => false) now uid r).1 now' id = Some s -> SUserID s <> uid /\ rs_holds r now' id = Some s.
Proof.
  intros [H1 H2 H3] Hle%mstime_mono. rewrite !rs_holds_Some. unfold rs_DeleteByUser. cbn. intros [(t & Hk & Ht) Hx].
  apply map_lookup_filter_Some in Hk as [Hk Hni]. cbn in Hni. split; [|eauto 6]. intros <-. apply Hni.
  destruct (H2 id s t Hk) as (l & t' & Hl & Hin & Hle'); [lia|]. unfold members. rewrite Hl. cbn. unfold alive. cbn.
  by rewrite (proj2 (Z.leb_le _ _)) by lia.
Qed.

Lemma formatMs_bound d : 0 < d -> d <= userIndexTTL * millisecond -> formatMs d <= userIndexTTL.
Proof.
  intros Hp Hd. unfold formatMs, userIndexTTL, millisecond in *. case_match; boolify; [lia|].
  apply Z.div_le_upper_bound; lia.
Qed.

Lemma rs_Create_sound now s r : rs_fits now s -> rs_sound now r -> rs_sound now (rs_Create (fun _ => false) now s r).1.
Proof.
  intros Hf [H1 H2 H3]. unfold rs_Create. destruct (SExpiresAt s - now <=? 0) eqn:E; [done|]. boolify. cbn.
  pose proof (formatMs_bound (SExpiresAt s - now) ltac:(lia) Hf) as Hb. split; cbn.
  - intros id x t. rewrite lookup_insert_Some. intros [[<- [= <- <-]]|[_ Hk]]; [done|by eapply H1].
  - intros id x t Hk Ht. destruct (decide (SUserID x = SUserID s)) as [Hu|Hu].
    + rewrite Hu, lookup_insert_eq. do 2 eexists. split; [done|]. apply lookup_insert_Some in Hk as [[<- [= <- <-]]|[Hne Hk]].
      * split; [set_solver|lia].
      * destruct (H2 id x t Hk Ht) as (l & t' & Hl & Hin & Hle). pose proof (H3 _ _ _ Hl). split; [|lia].
        apply elem_of_union. right. unfold members. cbn. rewrite <- Hu, Hl. cbn. unfold alive. cbn.
        by rewrite (proj2 (Z.leb_le _ _)) by lia.
    + rewrite lookup_insert_ne by done. apply lookup_insert_Some in Hk as [[<- [= <- <-]]|[_ Hk]]; [done|eauto].
  - intros u l t. rewrite lookup_insert_Some. intros [[<- [= <- <-]]|[_ ?]]; [lia|by eapply H3].
Qed.

Lemma rs_Create_keys f now s r i x : r_keys (rs_Create f now s r).1 !! i = Some x ->
  (i = ID s /\ x.1 = s) \/ r_keys r !! i = Some x.
Proof.
  unfold rs_Create. destruct (_ <=? 0); [auto|]. cbn. destruct (f 0%nat), (f 1%nat); cbn; auto;
    rewrite lookup_insert_Some; (intros [[<- <-]|[_ ?]]; auto).
Qed.

Lemma rs_Create_holds now s r : (rs_Create (fun _ => false) now s r).2 = true ->
  rs_holds (rs_Create (fun _ => false) now s r).1 now (ID s) = Some s.
Proof.
  unfold rs_Create. destruct (SExpiresAt s - now <=? 0) eqn:E; [done|]. boolify. intros _. apply rs_holds_Some. cbn.
  rewrite lookup_insert_eq. split; [|lia]. eexists. split; [done|]. unfold formatMs, millisecond. case_match; boolify; [lia|].
  pose proof (Z.div_pos (SExpiresAt s - now) 1000000 ltac:(lia) ltac:(lia)). lia.
Qed.

(** The Redis store, when Redis answers, keeps the laws of the interface. *)
Program Definition redis_store : Store := {|
  store := redis;
  storeCreate := rs_Create (fun _ => false);
  storeGet := rs_Get (fun _ => false);
  storeDelete := fun now id r => (rs_Delete (fun _ => false) now id r).1;
  storeDeleteByUser := fun now uid r => (rs_DeleteByUser (fun _ => false) now uid r).1;
  holds := rs_holds;
  sound := rs_sound;
  fits := rs_fits |}.
Next Obligation. intros *. apply rs_sound_later. Qed.
Next Obligation. intros *. apply rs_Get_sound. Qed.
Next Obligation. intros *. apply rs_Create_sound. Qed.
Next Obligation. intros *. by apply rs_Delete_sound. Qed.
Next Obligation. intros *. apply rs_DeleteByUser_sound. Qed.
Next Obligation.
  intros now id r. unfold rs_Get, rs_holds. cbn. destruct (redis_Get now id r) as [s|]; [|done]. cbn. by destruct (isExpired now s).
Qed.
Next Obligation. intros now id r now' id' s _. apply rs_holds_shrinks. apply rs_Get_keys. Qed.
Next Obligation. intros now s r Hok _. by apply rs_Create_holds. Qed.
Next Obligation.
  intros now s r now' id' s' _. rewrite !rs_holds_Some. intros [(t & Hk & ?) ?].
  apply rs_Create_keys in Hk as [[-> <-]|Hk]; [by left|right; eauto 6].
Qed.
Next Obligation.
  intros now id r now' id' s _. rewrite !rs_holds_Some. intros [(t & Hk & ?) ?]. apply rs_Delete_keys in Hk as [Hne Hk]; [|done].
  split; [done|eauto 6].
Qed.
Next Obligation. intros *. apply rs_DeleteByUser_holds. Qed.
Next Obligation. intros r now id s. rewrite rs_holds_Some. tauto. Qed.

(** ** The manager over Redis *)

Definition empty_redis : redis := {| r_keys := ∅; r_users := ∅ |}.

Lemma empty_sound now : rs_sound now empty_redis.
Proof. split; cbn; intros *; by rewrite lookup_empty. Qed.

Lemma rs_fits_ttl ttl : ttl <= userIndexTTL * millisecond -> forall now s, SExpiresAt s <= now + ttl -> rs_fits now s.
Proof. intros Ht now s Hs. unfold rs_fits. lia. Qed.


Definition day : Z := 24 * 3600 * 1000 * millisecond.
Definition hours (n : Z) : Z := n * 3600 * 1000 * millisecond.

(** Requests whose calls interleave; the insertion of [s2] fails. *)
Definition busy : list (Z * call) :=
  [(1, Begin (OCreate (Some "s1"%string) "ann" "10.0.0.1" "x")); (2, Begin (OCreate (Some "s2"%string) "ann" "10.0.0.1" "y"));
   (3, Continue 1 true); (4, Continue 0 false); (hours 3, Begin (OValidate "s1")); (hours 4, Begin (ORevoke "s2"));
   (hours 5, Begin (OCreate (Some "s3"%string) "bob" "" ""))].

Definition meanwhile : list (Z * call) := [(hours 6, Continue 0 false); (hours 6, Continue 0 false)].

Definition after_logout : list (Z * call) :=
  [(hours 7, Begin (OValidate "s1")); (hours 7, Continue 0 false); (hours 8, Begin (OCreate (Some "s4"%string) "ann" "" ""))].


(** ** The list *)

(** A set lists sessions of its user only. *)
Definition index_owned (r : redis) : Prop := forall u l t id s t',
  r_users r !! u = Some (l, t) -> id ∈ l -> r_keys r !! id = Some (s, t') -> SUserID s = u.

Lemma redis_SRem_keys now uid id r : r_keys (redis_SRem now uid id r) = r_keys r.
Proof. unfold redis_SRem. destruct (r_users r !! uid) as [[l t]|]; [|done]. by destruct (mstime now <=? t). Qed.

Lemma rs_Get_holds now id r now' id' : now <= now' ->
  rs_holds (rs_Get (fun _ => false) now id r).1 now' id' = rs_holds r now' id'.
Proof.
  intros Hle. unfold rs_Get. destruct (redis_Get now id r) as [s|] eqn:Hg; [|done].
  destruct (isExpired now s) eqn:He; [|done]. cbn. unfold rs_holds, redis_Get at 1. cbn.
  destruct (decide (id' = id)) as [->|Hne]; [|by rewrite lookup_delete_ne].
  rewrite lookup_delete_eq. cbn. unfold redis_Get in *. destruct (r_keys r !! id) as [[x t]|]; [|done]. cbn in *.
  unfold alive in *. cbn in *. destruct (mstime now <=? t); [|done]. injection Hg as ->.
  destruct (mstime now' <=? t); [|done]. cbn. unfold isExpired in *. boolify. by rewrite (proj2 (Z.ltb_lt _ _)) by lia.
Qed.

Lemma listMembers_exact now uid ids r : let '(r', l) := listMembers (fun _ _ => false) now uid ids r in
  l = omap (rs_holds r now) ids /\ forall now' id, now <= now' -> rs_holds r' now' id = rs_holds r now' id.
Proof.
  revert r. induction ids as [|id ids IH]; intros r; cbn [listMembers omap list_omap]; [done|].
  pose proof (rs_Get_holds now id r) as Hfr.
  assert ((rs_Get (fun _ => false) now id r).2 = rs_holds r now id) as Hr by (apply (@get_result redis_store)).
  destruct (rs_Get (fun _ => false) now id r) as [r1 s]. cbn [fst snd] in Hfr, Hr. subst s.
  destruct (rs_holds r now id) as [s|].
  - specialize (IH r1). destruct (listMembers _ now uid ids r1) as [r2 l]. destruct IH as [-> IH]. split.
    + f_equal. apply list_omap_ext, Forall2_same_length_lookup_2; [done|]. intros i x y Hx Hy.
      rewrite Hx in Hy. injection Hy as <-. by apply Hfr.
    + intros now' id' Hle. by rewrite IH, Hfr.
  - assert (forall now' id', now <= now' -> rs_holds (redis_SRem now uid id r1) now' id' = rs_holds r now' id') as Hfr'.
    { intros now' id' Hle. unfold rs_holds, redis_Get. rewrite redis_SRem_keys. by apply Hfr. }
    specialize (IH (redis_SRem now uid id r1)). destruct (listMembers _ now uid ids _) as [r2 l]. destruct IH as [-> IH]. split.
    + apply list_omap_ext, Forall2_same_length_lookup_2; [done|]. intros i x y Hx Hy.
      rewrite Hx in Hy. injection Hy as <-. by apply Hfr'.
    + intros now' id' Hle. by rewrite IH, Hfr'.
Qed.

(** Listing returns the live sessions of the user, each once, and tidies the
    index without losing any session. *)
Theorem rs_List_exact now order uid r (Hs : rs_sound now r) (Ho : index_owned r)
    (Hord : forall l, order l ≡ₚ elements l) :
  exists r' l, rs_List (fun _ _ => false) now order uid r = (r', Some l) /\ NoDup (map ID l) /\
    (forall s, s ∈ l <-> SUserID s = uid /\ rs_holds r now (ID s) = Some s) /\
    (forall now' id, now <= now' -> rs_holds r' now' id = rs_holds r now' id).
Proof.
  unfold rs_List. pose proof (listMembers_exact now uid (order (members now uid r)) r) as Hl.
  destruct (listMembers _ now uid _ r) as [r' l]. destruct Hl as [-> Hfr]. exists r'. eexists. split; [done|].
  assert (forall id s, rs_holds r now id = Some s -> ID s = id) as Hid.
  { intros id s [(t & Hk & _) _]%rs_holds_Some. by eapply key_id. }
  assert (NoDup (order (members now uid r))) as Hnd by (rewrite Hord; apply NoDup_elements).
  assert (forall id, id ∈ order (members now uid r) <-> id ∈ members now uid r) as Hel.
  { intros id. rewrite Hord. apply elem_of_elements. }
  split_and!; [| |done].
  - clear Hel. induction (order (members now uid r)) as [|id ids IH]; [constructor|]. apply NoDup_cons in Hnd as [Hni Hnd].
    cbn. destruct (rs_holds r now id) as [s|] eqn:E; [|by apply IH]. cbn. constructor; [|by apply IH].
    change (map ID ?l) with (ID <$> l). intros (s' & Hid' & Hin)%list_elem_of_fmap. apply list_elem_of_omap in Hin as (id' & Hin & E').
    apply Hid in E, E'. congruence.
  - intros s. rewrite list_elem_of_omap. split.
    + intros (id & Hin & E). pose proof (Hid _ _ E) as <-. split; [|done]. apply Hel in Hin.
      apply rs_holds_Some in E as [(t & Hk & _) _]. unfold members in Hin.
      destruct (r_users r !! uid) as [[l t']|] eqn:Hu; [|set_solver]. cbn in Hin. unfold alive in Hin. cbn in Hin.
      destruct (mstime now <=? t'); [|set_solver]. by eapply Ho.
    + intros [Hu E]. exists (ID s). split; [|done]. apply Hel. pose proof E as [(t & Hk & Ht) _]%rs_holds_Some.
      destruct (key_indexed _ _ Hs _ _ _ Hk Ht) as (l & t' & Hl & Hin & Hle). unfold members. rewrite <- Hu, Hl. cbn.
      unfold alive. cbn. by rewrite (proj2 (Z.leb_le _ _)) by lia.
Qed.

(** ** Where the code falls short *)

Definition made (ttl : Z) : @state redis_store :=
  (@CreateSession redis_store ttl false 0 (Some "s1"%string) "ann" "" "" (@Build_state redis_store empty_redis [])).1.

(** The lifetime of a session is a setting, that of the index is 24 hours: with
    sessions of 48 hours, revoking all sessions of a user on the second day
    succeeds and leaves them valid in Redis. *)
Lemma index_expires_first :
  let '(m, ok) := @RevokeAllSessions redis_store false (hours 30) "ann" (made (2 * day)) in
  ok = true /\ sessions m = [] /\ option_map ID (@ValidateSession redis_store false (hours 40) "s1" m).2 = Some "s1"%string.
Proof. vm_compute. auto. Qed.

(** The error of the store is dropped when a session is revoked: if Redis fails
    then, the row is deleted, the revocation succeeds, and the session stays
    valid in Redis. *)
Lemma failed_delete_keeps_session :
  let '(r, ok) := rs_Delete (fun _ => true) (hours 1) "s1" (fast (made day)) in
  ok = false /\ option_map ID (@ValidateSession redis_store false (hours 2) "s1" (@Build_state redis_store r [])).2 = Some "s1"%string.
Proof. vm_compute. auto. Qed.

(** [Touch] prolongs a session and not the index. *)
Lemma touch_outlives_index :
  let '(r, ok) := rs_Touch (fun _ => false) (hours 20) "s1" day (fast (made day)) in
  let '(r', ok') := rs_DeleteByUser (fun _ => false) (hours 30) "ann" r in
  ok = true /\ ok' = true /\ option_map ID (rs_holds r' (hours 40) "s1") = Some "s1"%string.
Proof. vm_compute. auto. Qed.
