(* ===== verification/Gateways.v ===== *)
(** * The gateway service of the core

    [internal/core/grpc_gateway.go]: authentication of gateways, their initial
    configuration, heartbeats, the health monitor and the reports a gateway
    sends.  [HashToken] stands for the hex SHA-256 of a token.  Instants are in
    nanoseconds. *)

From S2P Require Import Prelude Net Schema Policy Hub.
From Stdlib Require Import ZArith Lia Ascii String.
From stdpp Require Import base gmap strings list sorting pretty.

Local Open Scope Z_scope.

Definition second : Z := 1000000000.

(** gRPC status codes in use. *)
Inductive code := Unauthenticated | PermissionDenied.

Inductive rpc (A : Type) :=
| RpcOk (a : A)
| RpcErr (c : code) (msg : string).
Arguments RpcOk {A} a.
Arguments RpcErr {A} c msg.

Section service.
Context `{GoRange, SqlOrder} (HashToken : string -> string).

(** The active gateway with a token hash. *)
Definition gatewayByToken (d : db) (token : string) : option gateway :=
  List.find (fun g => String.eqb (g_token_hash g) (HashToken token) && g_is_active g) (gateways d).

(** [authenticateStream]; the argument is the list of [authorization] values of
    the metadata, [None] without metadata. *)
Definition authenticateStream (fails : bool) (d : db) (md : option (list string)) : result string :=
  match md with
  | None => Err "no metadata"
  | Some [] => Err "no authorization header"
  | Some (v :: _) =>
      let token := trim_prefix v "Bearer " in
      if String.eqb token "" then Err "empty token" else
      if fails then Err "token lookup" else
      match gatewayByToken d token with
      | Some g => Ok (g_id g)
      | None => Err "token lookup"
      end
  end.

(** ** [GetConfig] *)

Record cfg_faults := {
  tokenFails : bool;
  netFails : bool;
  legacyFails : bool;
  peersFail : bool;
  smartFails : bool;
  fwFaults : fw_faults;
  s2sFaults : s2s_faults;
}.

(** [host(COALESCE(tunnel_cidr, address)::inet + 1) || '/' || masklen(...)]. *)
Definition gatewayAddress (n : network) : string :=
  let c := default (n_address n) (n_tunnel_cidr n) in
  (host (cidr_base c + 1) ++ "/" ++ itoa (cidr_len c))%string.

Definition netRows (d : db) (gw : string) : list (Z * string) :=
  gn ← List.filter (fun gn => String.eqb gn.1 gw) (gateway_networks d);
  n ← List.filter (fun n => String.eqb (n_id n) gn.2) (networks d);
  [(n_port n, gatewayAddress n)].

(** The loop keeps the first port that is not 0. *)
Definition portAndAddresses (rs : list (Z * string)) : Z * list string :=
  foldl (fun acc r => (if acc.1 =? 0 then r.1 else acc.1, acc.2 ++ [r.2])) (0, []) rs.

Definition legacyNetwork (d : db) (gw : string) : option network :=
  g ← List.find (fun g => String.eqb (g_id g) gw && bool_decide (is_Some (g_network_id g))) (gateways d);
  nid ← g_network_id g;
  List.find (fun n => String.eqb (n_id n) nid) (networks d).

Definition GetConfig (f : cfg_faults) (d : db) (t : s2s_tables) (token : string) : rpc GatewayConfig :=
  if String.eqb token "" then RpcErr Unauthenticated "gateway token is required" else
  match (if tokenFails f then None else gatewayByToken d token) with
  | None => RpcErr Unauthenticated "invalid or inactive gateway token"
  | Some g =>
      let gw := g_id g in
      let '(port, addrs) := portAndAddresses (if netFails f then [] else rows 50 (netRows d gw)) in
      let '(port, addrs) :=
        match addrs with
        | [] =>
            if legacyFails f then (port, addrs) else
            match legacyNetwork d gw with
            | Some n => (n_port n, [gatewayAddress n])
            | None => (port, addrs)
            end
        | _ => (port, addrs)
        end in
      RpcOk {|
        GatewayId := gw; NetworkName := g_name g; PrivateKey := default ""%string (g_privkey g);
        ListenPort := port; Addresses := addrs;
        Peers := match fetchPeers (peersFail f) d gw with Ok ps => ps | Err _ => [] end;
        CfgFirewall := buildFirewallConfig (fwFaults f) d gw;
        S2STunnels := fetchS2STunnels (s2sFaults f) d t gw;
        SmartRoutes := fetchSmartRoutesForGateway (smartFails f) d gw |}
  end.

(** The first event of [Sync], after registration: a full resync unless the
    peers could not be read or there is nothing to send. *)
Definition syncGreeting (f : cfg_faults) (d : db) (t : s2s_tables) (gw : string) : option CoreEvent :=
  match fetchPeers (peersFail f) d gw with
  | Err _ => None
  | Ok ps =>
      let tunnels := fetchS2STunnels (s2sFaults f) d t gw in
      let fwc := buildFirewallConfig (fwFaults f) d gw in
      if negb (bool_decide (ps = [])) || negb (bool_decide (tunnels = [])) || bool_decide (is_Some fwc) then
        Some (EvFullResync {|
          GatewayId := ""; NetworkName := ""; PrivateKey := ""; ListenPort := 0; Addresses := [];
          Peers := ps; CfgFirewall := fwc; S2STunnels := tunnels;
          SmartRoutes := fetchSmartRoutesForGateway (smartFails f) d gw |})
      else None
  end.

(** ** Heartbeats and health *)

Definition setHealth (g : gateway) (seen : option Z) (health : string) (failures : Z) : gateway := {|
  g_id := g_id g; g_network_id := g_network_id g; g_name := g_name g; g_public_ip := g_public_ip g;
  g_pubkey := g_pubkey g; g_privkey := g_privkey g; g_endpoint := g_endpoint g;
  g_is_active := g_is_active g; g_priority := g_priority g; g_token_hash := g_token_hash g;
  g_last_seen := seen; g_health_status := health; g_consecutive_failures := failures;
  g_created_at := g_created_at g; g_updated_at := g_updated_at g |}.

Definition beat (now : Z) (g : gateway) : gateway := setHealth g (Some now) "healthy" 0.

(** [Heartbeat]; the request may name a gateway. *)
Definition Heartbeat (authFails updFails : bool) (now : Z) (d : db) (md : option (list string))
    (reqID : string) : rpc unit * db :=
  match authenticateStream authFails d md with
  | Err _ => (RpcErr Unauthenticated "invalid gateway token", d)
  | Ok gw =>
      if negb (String.eqb reqID "") && negb (String.eqb reqID gw)
      then (RpcErr PermissionDenied "gateway_id does not match authenticated gateway", d)
      else
        (RpcOk tt,
         if updFails then d
         else set_gateways d (map (fun g => if String.eqb (g_id g) gw then beat now g else g) (gateways d)))
  end.

(** The two statements of [monitorGatewayHealthTick] on one row.  A row that
    was never seen ([last_seen] null) is not stale. *)
Definition countFailure (now : Z) (g : gateway) : gateway :=
  if g_is_active g &&
     match g_last_seen g with Some t => t <? now - 90 * second | None => false end &&
     negb (String.eqb (g_health_status g) "unhealthy")
  then setHealth g (g_last_seen g) (g_health_status g) (g_consecutive_failures g + 1) else g.

Definition failing (g : gateway) : bool :=
  g_is_active g && (3 <=? g_consecutive_failures g) && negb (String.eqb (g_health_status g) "unhealthy").

Definition markUnhealthy (g : gateway) : gateway :=
  if failing g then setHealth g (g_last_seen g) "unhealthy" (g_consecutive_failures g) else g.

(** A pass of the monitor: the new tables and the gateways it marked.
    [pushResyncForPeersOfGateway], called for each of them, only logs. *)
Definition monitorGatewayHealthTick (countFails markFails : bool) (now : Z) (d : db) : db * list string :=
  let d := if countFails then d else set_gateways d (map (countFailure now) (gateways d)) in
  if markFails then (d, [])
  else (set_gateways d (map markUnhealthy (gateways d)),
        map g_id (List.filter failing (gateways d))).

(** The healthy gateways [pushResyncForPeersOfGateway] selects. *)
Definition resyncTargets (d : db) (gw : string) : list string :=
  remove_dups
    (gn1 ← List.filter (fun gn => String.eqb gn.1 gw) (gateway_networks d);
     gn2 ← List.filter (fun gn => String.eqb gn.2 gn1.2) (gateway_networks d);
     g2 ← List.filter (fun g => String.eqb (g_id g) gn2.1 && negb (String.eqb (g_id g) gw) &&
                                g_is_active g && String.eqb (g_health_status g) "healthy") (gateways d);
     [g_id g2]).

(** ** Reports *)

Record PeerStats := {
  ps_PublicKey : string;
  ps_Endpoint : string;
  ps_RxBytes : Z;
  ps_TxBytes : Z;
  ps_LastHandshake : option Z;   (* a zero time counts as absent *)
}.

Definition inGatewayNetworks (d : db) (gw : string) (dev : device) : bool := served d gw dev.

Definition setHandshake (t : Z) (dev : device) : device := {|
  d_id := d_id dev; d_user_id := d_user_id dev; d_name := d_name dev; d_pubkey := d_pubkey dev;
  d_privkey := d_privkey dev; d_assigned_ip := d_assigned_ip dev; d_is_approved := d_is_approved dev;
  d_last_handshake := Some t; d_network_id := d_network_id dev; d_created_at := d_created_at dev;
  d_updated_at := d_updated_at dev |}.

Record peer_stats_row := {
  pst_gateway : string; pst_device : string; pst_rx : Z; pst_tx : Z;
  pst_handshake : option Z; pst_endpoint : string }.

Record flow_row := {
  fl_gateway : string; fl_device : string; fl_user : string; fl_src : Z; fl_sent : Z; fl_recv : Z }.

Record stats_db := { base : db; peer_stats : list peer_stats_row; flow_records : list flow_row }.

(** One iteration of [handlePeerStats]; each statement may fail on its own. *)
Definition handlePeerStat (fails : nat -> bool) (gw : string) (s : stats_db) (ps : PeerStats) : stats_db :=
  let sel dev := String.eqb (d_pubkey dev) (ps_PublicKey ps) && inGatewayNetworks (base s) gw dev in
  let b := match ps_LastHandshake ps with
           | Some t => if fails 0%nat then base s
                       else set_devices (base s) (map (fun dev => if sel dev then setHandshake t dev else dev)
                                                      (devices (base s)))
           | None => base s
           end in
  {| base := b;
     peer_stats := if fails 1%nat then peer_stats s else
       peer_stats s ++ map (fun dev => {| pst_gateway := gw; pst_device := d_id dev;
         pst_rx := ps_RxBytes ps; pst_tx := ps_TxBytes ps; pst_handshake := ps_LastHandshake ps;
         pst_endpoint := ps_Endpoint ps |}) (List.filter sel (devices b));
     flow_records := if fails 2%nat then flow_records s else
       flow_records s ++ map (fun dev => {| fl_gateway := gw; fl_device := d_id dev;
         fl_user := d_user_id dev; fl_src := d_assigned_ip dev; fl_sent := ps_TxBytes ps;
         fl_recv := ps_RxBytes ps |}) (List.filter sel (devices b)) |}.

Definition handlePeerStats (fails : nat -> nat -> bool) (gw : string) (s : stats_db) (l : list PeerStats)
  : stats_db :=
  foldl (fun s ip => handlePeerStat (fails ip.1) gw s ip.2) s (imap pair l).

(** A row of [s2s_tunnel_health], keyed by tunnel, gateway and remote gateway. *)
Record s2s_health := {
  sh_is_healthy : bool;
  sh_latency_ms : Z;
  sh_failures : Z;
  sh_last_check : Z;
  sh_last_healthy : option Z;
}.

(** [handleS2SHealth]; a statement that fails is only logged. *)
Definition handleS2SHealth (fails : bool) (now : Z) (gw tunnel remote : string) (isHealthy : bool) (latency : Z)
    (m : gmap (string * string * string) s2s_health) : gmap (string * string * string) s2s_health :=
  let k := (tunnel, gw, remote) in
  if fails then m else
  if isHealthy then
    <[k := {| sh_is_healthy := true; sh_latency_ms := latency; sh_failures := 0; sh_last_check := now;
              sh_last_healthy := Some now |}]> m
  else
    <[k := match m !! k with
           | None => {| sh_is_healthy := false; sh_latency_ms := 0; sh_failures := 1;
                        sh_last_check := now; sh_last_healthy := None |}
           | Some old => {| sh_is_healthy := false; sh_latency_ms := 0; sh_failures := sh_failures old + 1;
                            sh_last_check := now; sh_last_healthy := sh_last_healthy old |}
           end]> m.
End service.

(** ** The health monitor over time *)

Definition tickRow (now : Z) (g : gateway) : gateway := markUnhealthy (countFailure now g).

(** Passes of the monitor at the given instants, without database faults: the
    tables and everything that was marked, in order. *)
Definition runMonitor (ts : list Z) (d : db) : db * list string :=
  foldl (fun acc now => let '(d, ids) := monitorGatewayHealthTick false false now acc.1 in
                        (d, acc.2 ++ ids)) (d, []) ts.

Definition row_run (ts : list Z) (g : gateway) : gateway := foldl (fun g now => tickRow now g) g ts.

(** How often a row is marked. *)
Fixpoint row_marks (ts : list Z) (g : gateway) : nat :=
  match ts with
  | [] => 0
  | now :: ts => (if failing (countFailure now g) then 1 else 0) + row_marks ts (tickRow now g)
  end.

Lemma tickRow_id now g : g_id (tickRow now g) = g_id g.
Proof. unfold tickRow, markUnhealthy, countFailure. repeat case_match; done. Qed.

Lemma countFailure_id now g : g_id (countFailure now g) = g_id g.
Proof. unfold countFailure. case_match; done. Qed.

Lemma count_filter_key (P : gateway -> bool) l g :
  NoDup (map g_id l) -> g ∈ l ->
  length (filter (fun i => i = g_id g) (map g_id (List.filter P l))) = if P g then 1%nat else 0%nat.
Proof.
  induction l as [|x l IH]; intros Hnd Hg; [by apply elem_of_nil in Hg|].
  cbn [map] in Hnd. apply NoDup_cons in Hnd as [Hx Hnd].
  assert (forall l', (forall y, y ∈ l' -> g_id y <> g_id x) ->
    length (filter (fun i => i = g_id x) (map g_id (List.filter P l'))) = 0%nat) as Hz.
  { intros l' Hl'. induction l' as [|y l' IHl]; [done|]. cbn [List.filter].
    assert (g_id y <> g_id x) by (apply Hl'; by left).
    destruct (P y); cbn [map]; [rewrite filter_cons, decide_False by done|]; apply IHl; intros; apply Hl'; by right. }
  apply elem_of_cons in Hg as [->|Hg].
  - cbn [List.filter].
    assert (forall y, y ∈ l -> g_id y <> g_id x) as Hne.
    { intros y Hy E. apply Hx. rewrite <- E. apply list_elem_of_fmap. eauto. }
    destruct (P x); cbn [map]; [rewrite filter_cons, decide_True by done; cbn [length]|]; by rewrite Hz.
  - assert (g_id x <> g_id g) as Hne.
    { intros E. apply Hx. rewrite E. apply list_elem_of_fmap. eauto. }
    cbn [List.filter]. destruct (P x); cbn [map]; [rewrite filter_cons, decide_False by done|]; auto.
Qed.

Lemma runMonitor_row ts d g :
  NoDup (map g_id (gateways d)) -> g ∈ gateways d ->
  row_run ts g ∈ gateways (runMonitor ts d).1 /\
  length (filter (fun i => i = g_id g) (runMonitor ts d).2) = row_marks ts g.
Proof.
  unfold runMonitor.
  assert (forall d rep, NoDup (map g_id (gateways d)) -> forall g, g ∈ gateways d ->
    let r := foldl (fun acc now => let '(d, ids) := monitorGatewayHealthTick false false now acc.1 in
                                   (d, acc.2 ++ ids)) (d, rep) ts in
    row_run ts g ∈ gateways r.1 /\
    length (filter (fun i => i = g_id g) r.2) =
      (length (filter (fun i => i = g_id g) rep) + row_marks ts g)%nat) as Hgen.
  { clear d g. induction ts as [|now ts IH]; intros d rep Hnd g Hg; cbv zeta; cbn [foldl row_run row_marks].
    - split; [done|]. cbn [snd]. lia.
    - cbn [monitorGatewayHealthTick fst snd].
      set (d1 := set_gateways _ (map markUnhealthy _)).
      set (ids := map g_id _).
      assert (gateways d1 = map (tickRow now) (gateways d)) as Hd1.
      { cbn. by rewrite map_map. }
      destruct (IH d1 (rep ++ ids)) with (g := tickRow now g) as [Hin Hcnt].
      { rewrite Hd1, map_map. by rewrite (map_ext _ g_id) by apply tickRow_id. }
      { rewrite Hd1. apply list_elem_of_fmap. eauto. }
      split; [exact Hin|]. rewrite tickRow_id in Hcnt. etransitivity; [exact Hcnt|].
      rewrite filter_app, length_app.
      assert (length (filter (fun i => i = g_id g) ids) = if failing (countFailure now g) then 1%nat else 0%nat)
        as ->; [|lia].
      unfold ids. cbn [gateways set_gateways]. rewrite <- (countFailure_id now g).
      apply count_filter_key.
      + rewrite map_map. by rewrite (map_ext _ g_id) by apply countFailure_id.
      + apply list_elem_of_fmap. eauto. }
  intros Hnd Hg. destruct (Hgen d [] Hnd g Hg) as [H1 H2]. split; [done|]. by rewrite H2.
Qed.

(** A gateway row the monitor watches. *)
Definition watched (g : gateway) (seen : Z) : Prop :=
  g_is_active g = true /\ g_last_seen g = Some seen /\ g_health_status g <> "unhealthy"%string /\
  0 <= g_consecutive_failures g < 3.

Definition stale (seen now : Z) : Prop := seen < now - 90 * second.

Lemma tickRow_stale now seen g :
  watched g seen -> stale seen now ->
  failing (countFailure now g) = (3 <=? g_consecutive_failures g + 1) /\
  tickRow now g = setHealth g (Some seen)
    (if 3 <=? g_consecutive_failures g + 1 then "unhealthy" else g_health_status g)
    (g_consecutive_failures g + 1).
Proof.
  intros (Ha & Hs & Hh & Hf) Hst. apply String.eqb_neq in Hh.
  assert (countFailure now g = setHealth g (Some seen) (g_health_status g) (g_consecutive_failures g + 1)) as Hc.
  { unfold countFailure. rewrite Ha, Hs, Hh. unfold stale in Hst. by rewrite (proj2 (Z.ltb_lt _ _) Hst). }
  assert (failing (countFailure now g) = (3 <=? g_consecutive_failures g + 1)) as Hfl.
  { unfold failing. rewrite Hc. cbn. by rewrite Ha, Hh, andb_true_r. }
  split; [done|]. unfold tickRow, markUnhealthy. rewrite Hfl, Hc.
  destruct (3 <=? g_consecutive_failures g + 1); done.
Qed.

Lemma tickRow_unhealthy now g :
  g_health_status g = "unhealthy"%string -> tickRow now g = g /\ failing (countFailure now g) = false.
Proof.
  intros Hh. assert (countFailure now g = g) as Hc.
  { unfold countFailure. rewrite Hh. by rewrite andb_false_r. }
  unfold tickRow, markUnhealthy, failing. rewrite Hc, Hh, !andb_false_r. done.
Qed.

Lemma row_run_unhealthy ts g :
  g_health_status g = "unhealthy"%string -> row_run ts g = g /\ row_marks ts g = 0%nat.
Proof.
  intros Hh. induction ts as [|now ts IH]; [done|]. cbn [row_run foldl row_marks].
  destruct (tickRow_unhealthy now g Hh) as [-> ->]. exact IH.
Qed.

Lemma row_run_stale ts seen g :
  watched g seen -> Forall (stale seen) ts ->
  g_health_status (row_run ts g) =
    (if 3 <=? g_consecutive_failures g + Z.of_nat (length ts) then "unhealthy"%string else g_health_status g) /\
  row_marks ts g = (if (3 <=? g_consecutive_failures g + Z.of_nat (length ts))%Z then 1%nat else 0%nat).
Proof.
  intros Hw Hts. revert g Hw. induction Hts as [|now ts Hst Hts IH]; intros g Hw.
  - destruct Hw as (_ & _ & _ & Hf). cbn [row_run foldl row_marks length].
    rewrite (proj2 (Z.leb_gt _ _)) by lia. done.
  - destruct (tickRow_stale now seen g Hw Hst) as [Hfl Htk]. cbn [row_marks length]. rewrite Hfl.
    change (row_run (now :: ts) g) with (row_run ts (tickRow now g)).
    destruct (Z.leb_spec 3 (g_consecutive_failures g + 1)) as [Hge|Hlt].
    + destruct (row_run_unhealthy ts (tickRow now g)) as [-> ->]; [by rewrite Htk|].
      rewrite Htk. cbn. rewrite (proj2 (Z.leb_le _ _)) by lia. done.
    + destruct (IH (tickRow now g)) as [-> ->].
      { rewrite Htk. destruct Hw as (? & ? & ? & ?). split; [done|]. split; [done|]. split; [done|].
        cbn. lia. }
      rewrite Htk. cbn [g_consecutive_failures g_health_status setHealth].
      replace (g_consecutive_failures g + 1 + Z.of_nat (length ts)) with
        (g_consecutive_failures g + Z.of_nat (S (length ts))) by lia. done.
Qed.

(** The monitor marks a gateway unhealthy exactly at its third pass after
    the gateway has been silent for 90 seconds, and reports it once; a gateway
    seen within 90 seconds of every pass is left as it is; and a heartbeat
    makes the row healthy with its counter at zero. *)
Theorem monitor_detects_silence d g seen ts :
  NoDup (map g_id (gateways d)) -> g ∈ gateways d -> watched g seen ->
  (Forall (stale seen) ts -> exists g', g' ∈ gateways (runMonitor ts d).1 /\ g_id g' = g_id g /\
     g_health_status g' =
       (if 3 <=? g_consecutive_failures g + Z.of_nat (length ts) then "unhealthy"%string
        else g_health_status g) /\
     length (filter (fun i => i = g_id g) (runMonitor ts d).2) =
       (if (3 <=? g_consecutive_failures g + Z.of_nat (length ts))%Z then 1%nat else 0%nat)) /\
  (Forall (fun now => ~ stale seen now) ts -> g ∈ gateways (runMonitor ts d).1 /\
     length (filter (fun i => i = g_id g) (runMonitor ts d).2) = 0%nat) /\
  (forall now, g_health_status (beat now g) = "healthy"%string /\ watched (beat now g) now /\
     g_consecutive_failures (beat now g) = 0).
Proof.
  intros Hnd Hg Hw. split; [|split].
  - intros Hts. destruct (runMonitor_row ts d g Hnd Hg) as [Hin Hcnt].
    destruct (row_run_stale ts seen g Hw Hts) as [Hh Hm].
    exists (row_run ts g). split; [done|]. split; [|split; [done|congruence]].
    clear. revert g. induction ts as [|now ts IH]; intros g; [done|].
    change (row_run (now :: ts) g) with (row_run ts (tickRow now g)). by rewrite IH, tickRow_id.
  - intros Hts. destruct (runMonitor_row ts d g Hnd Hg) as [Hin Hcnt].
    assert (row_run ts g = g /\ row_marks ts g = 0%nat) as [Hr Hm].
    { destruct Hw as (Ha & Hs & Hh & Hf). clear -Ha Hs Hf Hts.
      induction Hts as [|now ts Hst _ IH]; [done|]. cbn [row_run foldl row_marks].
      assert (countFailure now g = g) as Hc.
      { unfold countFailure. rewrite Hs. unfold stale in Hst.
        by rewrite (proj2 (Z.ltb_ge seen _)), andb_false_r by lia. }
      assert (failing g = false) as Hfl.
      { unfold failing. by rewrite (proj2 (Z.leb_gt 3 _)), andb_false_r by lia. }
      unfold tickRow, markUnhealthy. by rewrite Hc, Hfl. }
    rewrite Hr in Hin. rewrite Hm in Hcnt. done.
  - intros now. split; [done|]. split; [|done]. destruct Hw as (Ha & _). repeat split; done.
Qed.

(** ** Scope of the reports *)

(** A report of a gateway changes only the devices of its own networks, and
    nothing of them but the time of the last handshake. *)
Lemma handlePeerStat_scope fails gw s ps dev :
  dev ∈ devices (base s) -> inGatewayNetworks (base s) gw dev = false ->
  dev ∈ devices (base (handlePeerStat fails gw s ps)).
Proof.
  intros Hd Hn. unfold handlePeerStat. cbn [base]. destruct (ps_LastHandshake ps) as [t|]; [|done].
  destruct (fails 0%nat); [done|]. cbn. apply list_elem_of_fmap. exists dev. split; [|done].
  by rewrite Hn, andb_false_r.
Qed.

(** The failure counter of a tunnel peer is the number of unhealthy reports
    since the last healthy one. *)
Lemma handleS2SHealth_counts now gw t r lat m :
  let k := (t, gw, r) in
  (forall x, handleS2SHealth false now gw t r true lat m !! k = Some x -> sh_failures x = 0) /\
  (forall x, handleS2SHealth false now gw t r false lat m !! k = Some x ->
     sh_failures x = default 0 (sh_failures <$> m !! k) + 1).
Proof.
  cbv zeta. unfold handleS2SHealth. split; intros x; rewrite lookup_insert_eq; intros [= <-]; [done|].
  by destruct (m !! (t, gw, r)).
Qed.

Definition quiet_gateway : gateway := setHealth (mkGateway "g1" None) (Some 0) "healthy" 0.

Definition quiet_db : db := set_gateways demo_db [quiet_gateway].

Lemma monitor_detects_silence_witness : exists g',
  g' ∈ gateways (runMonitor [100 * second; 160 * second; 220 * second; 280 * second] quiet_db).1 /\
  g_id g' = "g1"%string /\ g_health_status g' = "unhealthy"%string /\
  length (filter (fun i => i = "g1"%string)
    (runMonitor [100 * second; 160 * second; 220 * second; 280 * second] quiet_db).2) = 1%nat.
Proof.
  refine (proj1 (@monitor_detects_silence quiet_db quiet_gateway 0
    [100 * second; 160 * second; 220 * second; 280 * second] _ _ _) _).
  - apply NoDup_singleton.
  - apply elem_of_cons. left. reflexivity.
  - split; [reflexivity|]. split; [reflexivity|]. split; [discriminate|]. cbn. lia.
  - repeat constructor; vm_compute; reflexivity.
Defined.

(** A gateway that was never seen is never marked. *)
Lemma never_seen_never_marked now g :
  g_last_seen g = None -> g_consecutive_failures g < 3 -> tickRow now g = g.
Proof.
  intros Hs Hf. assert (countFailure now g = g) as Hc.
  { unfold countFailure. by rewrite Hs, andb_false_r. }
  unfold tickRow, markUnhealthy, failing. rewrite Hc.
  by rewrite (proj2 (Z.leb_gt 3 _)), andb_false_r by done.
Qed.
