(* ===== verification/Groups.v ===== *)
(** * The group endpoints

    [internal/core/handler/group.go]: groups, their members and their network
    access rules.  Every endpoint is a handler of file [Http] over the
    statements of file [Tables]; the change of a membership or of a rule asks
    the firewall refresher to push new configurations. *)

From S2P Require Import Prelude Net Schema Policy Hub Devices Http Tables.
From Stdlib Require Import ZArith Lia Ascii String.
From stdpp Require Import base gmap strings list.

Local Open Scope Z_scope.
Local Open Scope string_scope.
Local Open Scope outpost_scope.

(** ** Interfaces and responses *)

(** [FirewallRefresher]. *)
Class FirewallRefresher (E : Type) : Type := {
  refreshForUser : db -> string -> list E;
  refreshForGroup : db -> string -> list E;
  refreshAll : db -> list E;
}.

(** Its implementation by the stream hub. *)
Definition hubRefresher `{GoRange, SqlOrder} (fails : bool) (f : string -> fw_faults) (h : StreamHub)
  : FirewallRefresher effect := {|
  refreshForUser := fun d => RefreshFirewallForUser fails f d h;
  refreshForGroup := fun d => RefreshFirewallForGroup fails f d h;
  refreshAll := fun d => RefreshAllFirewalls fails f d h |}.

Record groupListItem := {
  gi_ID : string;
  gi_Name : string;
  gi_Description : string;
  gi_IsSystem : bool;
  gi_MemberCount : Z;
  gi_CreatedAt : Z;
}.

Record groupMember := { gm_UserID : string; gm_Username : string; gm_Email : string }.

Record groupACL := {
  ga_ID : string;
  ga_NetworkID : string;
  ga_NetworkName : string;
  ga_AllowedIPs : list string;
}.

Record groupDetail := {
  gd_ID : string;
  gd_Name : string;
  gd_Description : string;
  gd_IsSystem : bool;
  gd_CreatedAt : Z;
  gd_Members : list groupMember;
  gd_ACLs : list groupACL;
}.

Inductive groupBody :=
| GbList (l : list groupListItem)
| GbItem (g : groupListItem)
| GbDetail (g : groupDetail)
| GbMembers (l : list groupMember)
| GbACLs (l : list groupACL)
| GbACL (a : groupACL)
| GbAdded (userID groupID : string)
| GbNone.

Record createGroupRequest := { cg_Name : string; cg_Description : string }.
Record updateGroupRequest := { ug_Name : option string; ug_Description : option string }.
Record addACLRequest := { aa_NetworkID : string; aa_AllowedIPs : option (list string) }.

(** ** The queries *)

Section handlers.
Context `{SqlOrder} `{DeviceEnv} `{PgText} {E : Type} (refresher : option (FirewallRefresher E)).
Context (fail : nat -> bool).

Definition memberCount (d : db) (gid : string) : Z := Z.of_nat (rowsWith snd (user_groups d) gid).

Definition groupRow (d : db) (g : group) : groupListItem := {|
  gi_ID := gr_id g; gi_Name := gr_name g; gi_Description := gr_description g;
  gi_IsSystem := gr_is_system g; gi_MemberCount := memberCount d (gr_id g); gi_CreatedAt := gr_created_at g |}.

(** [users JOIN user_groups .. WHERE ug.group_id = $1]. *)
Definition memberRows (gid : string) (d : db) : list groupMember :=
  rows 42 (u ← users d; ug ← user_groups d;
    if String.eqb ug.1 (u_id u) && String.eqb ug.2 gid
    then [{| gm_UserID := u_id u; gm_Username := u_username u; gm_Email := u_email u |}] else []).

Definition aclRow (n : network) (a : network_acl) : groupACL := {|
  ga_ID := a_id a; ga_NetworkID := a_network_id a; ga_NetworkName := n_name n;
  ga_AllowedIPs := map cidr_text (a_allowed_ips a) |}.

(** [network_acls JOIN networks .. WHERE a.group_id = $1]. *)
Definition groupACLRows (gid : string) (d : db) : list groupACL :=
  rows 43 (a ← network_acls d; n ← networks d;
    if String.eqb (n_id n) (a_network_id a) && String.eqb (a_group_id a) gid then [aclRow n a] else []).

(** ** The endpoints *)

Definition list_ : H db E (Z * groupBody) :=
  let! l := fetch fail 0 (fun d => map (groupRow d) (rows_by 41 (fun g => - gr_created_at g) (groups d)))
    "failed to query groups" "failed to scan group" "failed to iterate groups" in
  respondJSON 200 (GbList l).

Definition create (newID : string) (now : Z) (body : option createGroupRequest) : H db E (Z * groupBody) :=
  let! req := the body 400 "invalid JSON" in
  do! require (negb (String.eqb (cg_Name req) "")) 400 "name is required" in
  let! g := exec (fail 0%nat) (insert_group newID now (cg_Name req) (cg_Description req)) (fun e =>
    match e with
    | ErrUnique _ => (409, "group with this name already exists")
    | _ => (500, "failed to create group")
    end) in
  respondJSON 201 (GbItem {| gi_ID := gr_id g; gi_Name := gr_name g; gi_Description := gr_description g;
    gi_IsSystem := gr_is_system g; gi_MemberCount := 0; gi_CreatedAt := gr_created_at g |}).

Definition get (rawId : string) : H db E (Z * groupBody) :=
  let! id := the (uuid_Parse rawId) 400 "invalid UUID" in
  let! row := query (fail 0%nat) (fun d => byKey gr_id (groups d) id) 500 "failed to fetch group" in
  let! g := the row 404 "group not found" in
  let! members := fetch fail 1 (memberRows id)
    "failed to query members" "failed to scan member" "failed to iterate members" in
  let! acls := fetch fail 4 (groupACLRows id)
    "failed to query acls" "failed to scan acl" "failed to iterate acls" in
  respondJSON 200 (GbDetail {| gd_ID := gr_id g; gd_Name := gr_name g; gd_Description := gr_description g;
    gd_IsSystem := gr_is_system g; gd_CreatedAt := gr_created_at g; gd_Members := members; gd_ACLs := acls |}).

Definition update (rawId : string) (body : option updateGroupRequest) : H db E (Z * groupBody) :=
  let! id := the (uuid_Parse rawId) 400 "invalid UUID" in
  let! req := the body 400 "invalid JSON" in
  let! g := exec (fail 0%nat) (update_group id (ug_Name req) (ug_Description req)) (fun e =>
    match e with
    | ErrNoRows => (404, "group not found")
    | ErrUnique _ => (409, "group with this name already exists")
    | _ => (500, "failed to update group")
    end) in
  let! n := asks (fun d => memberCount d id) in
  respondJSON 200 (GbItem {| gi_ID := gr_id g; gi_Name := gr_name g; gi_Description := gr_description g;
    gi_IsSystem := gr_is_system g; gi_MemberCount := n; gi_CreatedAt := gr_created_at g |}).

(** The check of [is_system] and the deletion are two statements. *)
Definition delete_ (env : db -> db) (rawId : string) : H db E (Z * groupBody) :=
  let! id := the (uuid_Parse rawId) 400 "invalid UUID" in
  let! row := query (fail 0%nat) (fun d => gr_is_system <$> byKey gr_id (groups d) id) 500 "failed to fetch group" in
  let! isSystem := the row 404 "group not found" in
  do! require (negb isSystem) 403 "cannot delete a system group" in
  do! interfere env in
  do! deleting (fail 1%nat) (delete_group id) "failed to delete group" "group not found" in
  respondJSON 204 GbNone.

Definition listMembers (rawId : string) : H db E (Z * groupBody) :=
  let! id := the (uuid_Parse rawId) 400 "invalid group id" in
  let! members := fetch fail 0 (memberRows id)
    "failed to query members" "failed to scan member" "failed to iterate members" in
  respondJSON 200 (GbMembers members).

Definition refreshUser (uid : string) : H db E unit :=
  emit (fun d => match refresher with Some r => refreshForUser (FirewallRefresher := r) d uid | None => [] end).

Definition refreshGroup (gid : string) : H db E unit :=
  emit (fun d => match refresher with Some r => refreshForGroup (FirewallRefresher := r) d gid | None => [] end).

Definition addMember (rawId : string) (body : option string) : H db E (Z * groupBody) :=
  let! gid := the (uuid_Parse rawId) 400 "invalid UUID" in
  let! rawUser := the body 400 "invalid JSON" in
  do! require (negb (String.eqb rawUser "")) 400 "user_id is required" in
  let! uid := the (uuid_Parse rawUser) 400 "invalid user_id" in
  do! exec (fail 0%nat) (insert_member uid gid) (fun e =>
    match e with
    | ErrForeignKey => (400, "user or group not found")
    | _ => (500, "failed to add member")
    end) in
  do! refreshUser uid in
  respondJSON 201 (GbAdded uid gid).

Definition removeMember (rawId rawUser : string) : H db E (Z * groupBody) :=
  let! gid := the (uuid_Parse rawId) 400 "invalid UUID" in
  let! uid := the (uuid_Parse rawUser) 400 "invalid UUID" in
  do! deleting (fail 0%nat) (delete_member uid gid) "failed to remove member" "member not found" in
  do! refreshUser uid in
  respondJSON 204 GbNone.

Definition listACLs (rawId : string) : H db E (Z * groupBody) :=
  let! id := the (uuid_Parse rawId) 400 "invalid UUID" in
  let! acls := fetch fail 0 (groupACLRows id)
    "failed to query acls" "failed to scan acl" "failed to iterate acls" in
  respondJSON 200 (GbACLs acls).

Definition addACL (newID rawId : string) (body : option addACLRequest) : H db E (Z * groupBody) :=
  let! gid := the (uuid_Parse rawId) 400 "invalid UUID" in
  let! req := the body 400 "invalid JSON" in
  do! require (negb (String.eqb (aa_NetworkID req) "")) 400 "network_id is required" in
  let! nid := the (uuid_Parse (aa_NetworkID req)) 400 "invalid network_id" in
  let allowedIPs := default ["0.0.0.0/0"] (aa_AllowedIPs req) in
  let! a := exec (fail 0%nat) (insert_acl newID nid gid allowedIPs) (fun e =>
    match e with
    | ErrUnique _ => (409, "acl for this network and group already exists")
    | ErrForeignKey => (400, "network or group not found")
    | ErrBadText => (400, "invalid CIDR format in allowed_ips")
    | _ => (500, "failed to create acl")
    end) in
  let! name := asks (fun d => default "" (n_name <$> byKey n_id (networks d) nid)) in
  do! refreshGroup gid in
  respondJSON 201 (GbACL {| ga_ID := a_id a; ga_NetworkID := nid; ga_NetworkName := name;
    ga_AllowedIPs := map cidr_text (a_allowed_ips a) |}).

Definition removeACL (rawId rawAcl : string) : H db E (Z * groupBody) :=
  let! gid := the (uuid_Parse rawId) 400 "invalid UUID" in
  let! aid := the (uuid_Parse rawAcl) 400 "invalid UUID" in
  do! deleting (fail 0%nat) (delete_acl aid gid) "failed to delete acl" "acl not found" in
  do! refreshGroup gid in
  respondJSON 204 GbNone.
End handlers.

(** ** The routes *)

Inductive request :=
| List
| Create (newID : string) (now : Z) (body : option createGroupRequest)
| Get (id : string)
| Update (id : string) (body : option updateGroupRequest)
| Delete (id : string)
| ListMembers (id : string)
| AddMember (id : string) (body : option string)
| RemoveMember (id user : string)
| ListACLs (id : string)
| AddACL (newID id : string) (body : option addACLRequest)
| RemoveACL (id acl : string).

(** [Routes]: which requests [auth.RequireAdmin] guards. *)
Definition admin_only (r : request) : bool :=
  match r with List | Get _ | ListMembers _ | ListACLs _ => false | _ => true end.

Section facts.
Context `{SqlOrder} `{DeviceEnv} `{PgText} {E : Type} (refresher : option (FirewallRefresher E)).

Definition serve (fail : nat -> bool) (env : db -> db) (r : request) : H db E (Z * groupBody) :=
  match r with
  | List => list_ fail
  | Create newID now body => create fail newID now body
  | Get id => get fail id
  | Update id body => update fail id body
  | Delete id => delete_ fail env id
  | ListMembers id => listMembers fail id
  | AddMember id body => addMember refresher fail id body
  | RemoveMember id user => removeMember refresher fail id user
  | ListACLs id => listACLs fail id
  | AddACL newID id body => addACL refresher fail newID id body
  | RemoveACL id acl => removeACL refresher fail id acl
  end.

Lemma groups_integrity fail env r :
  (forall d, integrity d -> integrity (env d)) -> preserves integrity (serve fail env r).
Proof.
  intros Henv. destruct r; cbn [serve];
    unfold list_, create, get, update, delete_, listMembers, addMember, removeMember, listACLs, addACL,
      removeACL, refreshUser, refreshGroup;
    repeat first [ apply preserves_interfere; exact Henv | progress invariant_steps
                 | solve [auto with integrity handlers] ].
Qed.

Lemma groups_calm fail env r : calm env (serve fail env r).
Proof.
  destruct r; cbn [serve];
    unfold list_, create, get, update, delete_, listMembers, addMember, removeMember, listACLs, addACL,
      removeACL, refreshUser, refreshGroup, deleting; calm_steps.
Qed.
End facts.

(** ** What a change of membership refreshes *)

Section refresh.
Context `{GoRange, SqlOrder}.

(** Some gateway rules depend on the memberships of [uid]: the gateway serves
    an enrolled device of that user. *)
Definition serves_user (d : db) (uid gw : string) : bool :=
  existsb (fun dev => String.eqb (d_user_id dev) uid && enrolled dev && served d gw dev) (devices d).

Lemma grantedByGroup_others d l uid dev n :
  (forall ug, ug.1 <> uid -> ug ∈ l <-> ug ∈ user_groups d) -> d_user_id dev <> uid ->
  grantedByGroup (set_user_groups d l) dev n = grantedByGroup d dev n.
Proof.
  intros Hl Hne. unfold grantedByGroup. cbn. f_equal. apply eq_true_iff_eq. rewrite !existsb_exists.
  setoid_rewrite andb_true_iff. setoid_rewrite String.eqb_eq. setoid_rewrite <- list_elem_of_In.
  split; intros (ug & Hug & E & Ha); exists ug; (split; [apply Hl|]); auto; congruence.
Qed.

Lemma aclRows_others d l uid gw :
  (forall ug, ug.1 <> uid -> ug ∈ l <-> ug ∈ user_groups d) -> serves_user d uid gw = false ->
  aclRows (set_user_groups d l) gw = aclRows d gw.
Proof.
  intros Hl Hs. unfold aclRows. f_equal. apply bind_ext_in. intros dev Hdev.
  apply bind_ext_in. intros n _.
  change (served (set_user_groups d l) gw dev) with (served d gw dev).
  change (grantedByAdmin (set_user_groups d l) dev n) with (grantedByAdmin d dev n).
  destruct (served d gw dev && enrolled dev) eqn:Hsv; [|done]. apply andb_true_iff in Hsv as [Hsv He].
  rewrite (grantedByGroup_others d l uid); [done..|]. intros <-.
  unfold serves_user in Hs. rewrite <- not_true_iff_false, existsb_exists in Hs. apply Hs. exists dev.
  by rewrite <- list_elem_of_In, String.eqb_refl, He, Hsv.
Qed.

Lemma config_others f d l uid gw :
  (forall ug, ug.1 <> uid -> ug ∈ l <-> ug ∈ user_groups d) -> serves_user d uid gw = false ->
  buildFirewallConfig f (set_user_groups d l) gw = buildFirewallConfig f d gw.
Proof.
  intros Hl Hs. unfold buildFirewallConfig, buildFirewallConfigFromPool.
  rewrite (aclRows_others d l uid gw Hl Hs). reflexivity.
Qed.

Lemma gatewaysOfNetworks_served d nets n gn :
  Some n ∈ nets -> gn ∈ gateway_networks d -> gn.2 = n -> gn.1 ∈ gatewaysOfNetworks d nets.
Proof.
  intros Hn Hgn E. unfold gatewaysOfNetworks. apply list_elem_of_omap. exists (Some gn.1).
  split; [|done]. apply elem_of_remove_dups, list_elem_of_bind. exists (Some n). split; [|done].
  apply list_elem_of_bind. exists (Some gn). split.
  - apply list_elem_of_bind. set (gs := List.filter _ _). destruct gs as [|g gs].
    + exists None. by split; [left|left].
    + exists (Some g). split; [by left|]. left.
  - set (l := List.filter _ _). assert (gn ∈ l) as Hl.
    { apply list_elem_of_In, filter_In. split; [by apply list_elem_of_In|]. apply bool_decide_eq_true. congruence. }
    destruct l as [|a l]; [by apply elem_of_nil in Hl|]. unfold left_join. by apply (list_elem_of_fmap_2 Some).
Qed.

Lemma refresh_reaches d h uid gw s c :
  serves_user d uid gw = true -> streams h !! gw = Some s ->
  buildFirewallConfig no_faults d gw = Some c ->
  Send s (EvFirewallUpdate (Some c)) ∈ RefreshFirewallForUser false (fun _ => no_faults) d h uid.
Proof.
  intros (dev & Hdev%list_elem_of_In & Hs)%existsb_exists Hst (r & Hb & ->)%fmap_Some. boolify.
  apply elem_of_refresh. exists gw, r. split; [|auto]. apply elem_of_rows.
  apply existsb_exists in H2 as (gn & Hgn%list_elem_of_In & [Eg%String.eqb_eq En]%andb_true_iff).
  rewrite <- Eg. apply bool_decide_eq_true in En.
  eapply gatewaysOfNetworks_served; [|done|done]. apply list_elem_of_fmap. exists dev. split; [done|].
  apply list_elem_of_In, filter_In. split; [by apply list_elem_of_In|].
  apply andb_true_iff. split; [by apply String.eqb_eq|done].
Qed.
End refresh.

(** A gateway whose configuration a statement on memberships changes gets the
    new one. *)
Section membership.
Context `{GoRange, SqlOrder} `{DeviceEnv} `{PgText}.

Definition informed (h : StreamHub) (d d' : db) (es : list effect) : Prop :=
  forall gw s c, streams h !! gw = Some s -> buildFirewallConfig no_faults d' gw = Some c ->
    buildFirewallConfig no_faults d gw = Some c \/ Send s (EvFirewallUpdate (Some c)) ∈ es.

Lemma informed_same h d es : informed h d d es.
Proof. intros gw s c _ Hc. by left. Qed.

Lemma informed_membership h d l uid :
  (forall ug, ug.1 <> uid -> ug ∈ l <-> ug ∈ user_groups d) ->
  informed h d (set_user_groups d l)
    (RefreshFirewallForUser false (fun _ => no_faults) (set_user_groups d l) h uid).
Proof.
  intros Hl gw s c Hs Hc. destruct (serves_user d uid gw) eqn:Hu.
  - right. by eapply refresh_reaches.
  - left. by rewrite <- (config_others no_faults d l uid gw).
Qed.

Lemma member_added (uid gid : string) ug (l : list (string * string)) :
  ug.1 <> uid -> ug ∈ (l ++ [(uid, gid)])%list <-> ug ∈ l.
Proof. intros Hne. rewrite elem_of_app, list_elem_of_singleton. naive_solver. Qed.

Lemma member_dropped (uid gid : string) ug (l : list (string * string)) :
  ug.1 <> uid -> ug ∈ List.filter (fun m => negb (same_pair (uid, gid) m)) l <-> ug ∈ l.
Proof.
  intros Hne. rewrite list_elem_of_In, filter_In, <- list_elem_of_In. unfold same_pair.
  rewrite negb_true_iff, bool_decide_eq_false. naive_solver.
Qed.

(** Whatever the request, a membership handler that answers has informed the
    gateways. *)
Lemma addMember_informs fail h rawId body d :
  wp (addMember (Some (hubRefresher false (fun _ => no_faults) h)) fail rawId body)
     (fun _ d' es => informed h d d' es) (fun _ _ _ => True) d.
Proof.
  unfold addMember, refreshUser. apply wp_bind, wp_the. destruct (uuid_Parse rawId) as [gid|]; [|done].
  apply wp_bind, wp_the. destruct body as [raw|]; [|done].
  apply wp_bind, wp_require. case_match; [|done]. apply wp_bind, wp_the. destruct (uuid_Parse raw) as [uid|]; [|done].
  apply wp_bind, wp_exec. destruct (if fail 0%nat then _ else _) as [[[] d']|e] eqn:He; [|done].
  apply wp_bind, wp_emit. apply wp_ret. cbn. destruct (fail 0%nat); [done|]. unfold insert_member in He.
  repeat case_match; simplify_eq; rewrite app_nil_r.
  - apply informed_same.
  - apply informed_membership. intros ug. apply member_added.
Qed.

Lemma removeMember_informs fail h rawId rawUser d :
  wp (removeMember (Some (hubRefresher false (fun _ => no_faults) h)) fail rawId rawUser)
     (fun _ d' es => informed h d d' es) (fun _ _ _ => True) d.
Proof.
  unfold removeMember, refreshUser, deleting. apply wp_bind, wp_the. destruct (uuid_Parse rawId) as [gid|]; [|done].
  apply wp_bind, wp_the. destruct (uuid_Parse rawUser) as [uid|]; [|done].
  apply wp_bind, wp_exec. destruct (if fail 0%nat then _ else _) as [[n d']|e] eqn:He; [|done].
  apply wp_bind, wp_emit. apply wp_ret. cbn. destruct (fail 0%nat); [done|].
  unfold affected, delete_member in He. case_match; simplify_eq. rewrite app_nil_r.
  apply informed_membership. intros ug. apply member_dropped.
Qed.

(** A change of membership reaches every gateway it matters to: after an
    accepted addition or removal of a member, each connected gateway either has
    the configuration it had, or has been sent its new one. *)
Theorem membership_informs fail env h r d st b d' es :
  match r with AddMember _ _ | RemoveMember _ _ => True | _ => False end ->
  run (serve (Some (hubRefresher false (fun _ => no_faults) h)) fail env r) d = (Reply st b, d', es) ->
  informed h d d' es.
Proof.
  intros Hr Hrun. apply (run_Reply _ _ _ _ _ _ (fun _ d' es => informed h d d' es) Hrun).
  destruct r; try done; [apply addMember_informs|apply removeMember_informs].
Qed.
End membership.

(** ** System groups stay *)

Section system.
Context `{SqlOrder} `{DeviceEnv} `{PgText} {E : Type} (refresher : option (FirewallRefresher E)).

Definition system_group (gid : string) (d : db) : Prop :=
  NoDup (map gr_id (groups d)) /\ exists g, g ∈ groups d /\ gr_id g = gid /\ gr_is_system g = true.

Lemma system_byKey gid d g :
  system_group gid d -> byKey gr_id (groups d) gid = Some g -> gr_is_system g = true.
Proof.
  intros [Hnd (g0 & Hg0 & Ek & Hs)] Hg. by rewrite <- (byKey_row gr_id _ gid g g0 Hnd Hg Hg0 Ek).
Qed.

Lemma delete_group_others gid id : id <> gid -> stmt_preserves (system_group gid) (delete_group id).
Proof.
  intros Hne d n d' [Hnd (g & Hg & Ek & Hs)]. unfold delete_group. intros [= <- <-]. split; cbn.
  - by apply unique_filter.
  - exists g. rewrite elem_of_without. repeat split; congruence.
Qed.

Lemma insert_group_system gid newID now name desc :
  stmt_preserves (system_group gid) (insert_group newID now name desc).
Proof.
  intros d a d' [Hnd (g & Hg & Ek & Hs)]. unfold insert_group. repeat case_match; intros; simplify_eq.
  lookups. split; cbn; [by apply unique_insert|]. exists g. rewrite elem_of_app. auto.
Qed.

Lemma update_group_system gid id name desc : stmt_preserves (system_group gid) (update_group id name desc).
Proof.
  intros d a d' [Hnd (g & Hg & Ek & Hs)]. unfold update_group. repeat case_match; intros; simplify_eq.
  split; cbn; [by apply keys_upd|].
  destruct (decide (gr_id g = id)) as [Ei|Ei].
  - exists (patch_group name desc g). rewrite elem_of_upd. split; [right; eauto|done].
  - exists g. rewrite elem_of_upd. auto.
Qed.

(** Statements on the other tables. *)
Lemma other_tables gid {A} (st : stmt db A) :
  (forall d a d', st d = inl (a, d') -> groups d' = groups d) -> stmt_preserves (system_group gid) st.
Proof. intros Hst d a d' Hd Hs. unfold system_group. by rewrite (Hst d a d' Hs). Qed.

Lemma delete_keeps_system fail env gid rawId :
  (forall d, system_group gid d -> system_group gid (env d)) ->
  preserves (system_group gid) (delete_ (E := E) fail env rawId).
Proof.
  intros Henv d Hd. unfold delete_. apply wp_bind, wp_the. destruct (uuid_Parse rawId) as [id|]; [|done].
  apply wp_bind, wp_query. case_match; [done|]. apply wp_bind, wp_the.
  destruct (byKey gr_id (groups d) id) as [g|] eqn:Hg; [|done]. cbn.
  apply wp_bind, wp_require. destruct (gr_is_system g) eqn:Hs; [done|]. cbn.
  assert (id <> gid) as Hne by (intros ->; pose proof (system_byKey gid d g Hd Hg); congruence).
  assert (preserves (system_group gid) (bind (interfere (E := E) env) (fun _ =>
    bind (deleting (fail 1%nat) (delete_group id) "failed to delete group" "group not found") (fun _ =>
    respondJSON 204 GbNone)))) as Hrest.
  { apply preserves_bind; [by apply preserves_interfere|]. intros _. invariant_steps.
    by apply delete_group_others. }
  exact (Hrest d Hd).
Qed.

(** A system group outlives every request: whatever the endpoints of
    groups are asked, in whatever interleaving with transactions that keep it,
    it is still there and still a system group. *)
Theorem system_group_survives gid fail env r d :
  (forall d, system_group gid d -> system_group gid (env d)) -> system_group gid d ->
  system_group gid (run (serve refresher fail env r) d).1.2.
Proof.
  intros Henv Hd. apply preserves_run; [|done].
  destruct r; cbn [serve]; try (by apply delete_keeps_system);
    unfold list_, create, get, update, listMembers, addMember, removeMember, listACLs, addACL, removeACL,
      refreshUser, refreshGroup; invariant_steps;
    first [ apply insert_group_system | apply update_group_system | apply other_tables ].
  - intros ? ? ?. unfold insert_member. repeat case_match; intros; by simplify_eq.
  - intros ? ? ?. unfold delete_member. intros; by simplify_eq.
  - intros ? ? ?. unfold insert_acl. repeat case_match; intros; by simplify_eq.
  - intros ? ? ?. unfold delete_acl. intros; by simplify_eq.
Qed.
End system.

(** ** Concrete requests *)

Lemma demo_integrity : integrity demo_db.
Proof. check_integrity. Qed.

(** The demo endpoints: one core with gateway g1 connected. *)
Definition demo_serve (fail : nat -> bool) (r : request) : H db effect (Z * groupBody) :=
  @serve sql_default toy_device_env toy_pg effect
    (Some (@hubRefresher range_default sql_default false (fun _ => no_faults) (hub1 false))) fail id r.

Definition after (r : request) (d : db) : db := (run (demo_serve noFail r) d).1.2.

Definition g1_config (d : db) : option FirewallConfig :=
  @buildFirewallConfig range_default sql_default no_faults d "g1".

Lemma membership_informs_witness :
  run (demo_serve noFail (RemoveMember "dev" "ann")) demo_db =
    (Reply 204 GbNone, after (RemoveMember "dev" "ann") demo_db,
     (run (demo_serve noFail (RemoveMember "dev" "ann")) demo_db).2) /\
  g1_config (after (RemoveMember "dev" "ann") demo_db) <> g1_config demo_db /\
  @informed range_default sql_default (hub1 false) demo_db (after (RemoveMember "dev" "ann") demo_db)
    (run (demo_serve noFail (RemoveMember "dev" "ann")) demo_db).2.
Proof.
  split; [vm_compute; reflexivity|]. split; [by vm_compute|].
  eapply (@membership_informs range_default sql_default toy_device_env toy_pg noFail id (hub1 false)
    (RemoveMember "dev" "ann") demo_db 204 GbNone); [exact I|vm_compute; reflexivity].
Defined.

(** The demo tables with the seeded group of all users. *)
Definition everyone_group : group := {|
  gr_id := "all"; gr_name := "everyone"; gr_description := ""; gr_is_system := true; gr_created_at := 0 |}.

Definition seeded_db : db := set_groups demo_db (everyone_group :: groups demo_db).

Lemma seeded_system : system_group "all" seeded_db.
Proof.
  split; [apply (bool_decide_unpack _); vm_compute; exact I|].
  exists everyone_group. split; [left|done].
Qed.

Lemma system_group_survives_witness :
  (run (demo_serve noFail (Delete "all")) seeded_db).1.1 = Failure 403 "cannot delete a system group" /\
  (run (demo_serve noFail (Delete "dev")) seeded_db).1.1 = Reply 204 GbNone /\
  system_group "all" (after (Delete "dev") seeded_db).
Proof.
  split; [vm_compute; reflexivity|]. split; [vm_compute; reflexivity|].
  exact (@system_group_survives sql_default toy_device_env toy_pg effect
    (Some (@hubRefresher range_default sql_default false (fun _ => no_faults) (hub1 false)))
    "all" noFail id (Delete "dev") seeded_db (fun d Hd => Hd) seeded_system).
Defined.

(** ** Where the code falls short *)

(** Deleting a group changes the rules of gateway g1 and tells it nothing. *)
Theorem group_delete_is_silent :
  run (demo_serve noFail (Delete "dev")) demo_db = (Reply 204 GbNone, after (Delete "dev") demo_db, []) /\
  g1_config (after (Delete "dev") demo_db) <> g1_config demo_db.
Proof. split; [vm_compute; reflexivity|by vm_compute]. Qed.

(** Neither does removing an access rule, nor adding it: the gateways of the
    rule's network are refreshed, not those of the members' devices. *)
Theorem acl_change_misses_gateway :
  let r1 := RemoveACL "dev" "a1" in
  let r2 := AddACL "a2" "dev" (Some {| aa_NetworkID := "n3"; aa_AllowedIPs := None |}) in
  let d1 := after r1 demo_db in
  run (demo_serve noFail r1) demo_db = (Reply 204 GbNone, d1, []) /\
  g1_config d1 <> g1_config demo_db /\
  reply_status (run (demo_serve noFail r2) d1).1.1 = 201 /\
  (run (demo_serve noFail r2) d1).2 = [] /\
  g1_config (after r2 d1) <> g1_config d1.
Proof. repeat split; first [vm_compute; reflexivity|by vm_compute]. Qed.
