(* ===== verification/Users.v ===== *)
(** * The user endpoints

    [internal/core/handler/user.go]: accounts, with the peers and firewall rules
    that follow them.  The two goroutines an update starts are merged in any
    order ([Goroutines]). *)

From S2P Require Import Prelude Net Schema Auth Login Policy Hub Devices Http Tables Groups.
From Stdlib Require Import ZArith Lia Ascii String.
From stdpp Require Import base gmap strings list.
Import Auth.Token.

Local Open Scope Z_scope.
Local Open Scope string_scope.
Local Open Scope outpost_scope.

(** The effects of two goroutines, each in its own order. *)
Class Goroutines : Type := {
  merge : forall {A : Type}, list A -> list A -> list A;
  merge_perm : forall {A : Type} (l1 l2 : list A), merge l1 l2 ≡ₚ (l1 ++ l2)%list;
  merge_left : forall {A : Type} (l1 l2 : list A), l1 `sublist_of` merge l1 l2;
  merge_right : forall {A : Type} (l1 l2 : list A), l2 `sublist_of` merge l1 l2;
}.

Definition first_then : Goroutines := {|
  merge := fun A l1 l2 => (l1 ++ l2)%list;
  merge_perm := fun A l1 l2 => reflexivity _;
  merge_left := fun A l1 l2 => sublist_inserts_r l2 l1 l1 (reflexivity l1);
  merge_right := fun A l1 l2 => sublist_inserts_l l1 l2 l2 (reflexivity l2) |}.

Lemma elem_of_merge `{Goroutines} {A} (l1 l2 : list A) x : x ∈ merge l1 l2 <-> x ∈ l1 \/ x ∈ l2.
Proof. by rewrite merge_perm, elem_of_app. Qed.

(** ** Requests and responses *)

Record userResponse := {
  ur_ID : string;
  ur_Username : string;
  ur_Email : string;
  ur_FirstName : string;
  ur_LastName : string;
  ur_Phone : option string;
  ur_IsActive : bool;
  ur_IsAdmin : bool;
  ur_MFAEnabled : bool;
  ur_LastLogin : option Z;
  ur_CreatedAt : Z;
  ur_UpdatedAt : Z;
}.

Inductive userBody :=
| UbUsers (l : list userResponse) (total page perPage : Z)
| UbUser (u : userResponse)
| UbNone.

Record createUserRequest := {
  cu_Username : string;
  cu_Email : string;
  cu_Password : string;
  cu_FirstName : string;
  cu_LastName : string;
  cu_IsAdmin : bool;
}.

Definition userRow (last : option Z) (u : user) : userResponse := {|
  ur_ID := u_id u; ur_Username := u_username u; ur_Email := u_email u; ur_FirstName := u_first_name u;
  ur_LastName := u_last_name u; ur_Phone := u_phone u; ur_IsActive := u_is_active u; ur_IsAdmin := u_is_admin u;
  ur_MFAEnabled := u_mfa_enabled u; ur_LastLogin := last; ur_CreatedAt := u_created_at u;
  ur_UpdatedAt := u_updated_at u |}.

(** [MAX(s.created_at)] over the sessions of a user. *)
Definition lastLogin (d : db) (uid : string) : option Z :=
  foldr (fun l acc => if String.eqb l.1 uid
                      then Some (match acc with Some t => Z.max t l.2 | None => l.2 end) else acc)
    None (logins d).

(** The text of the last-login column in the [RETURNING] list of an update:
    [(SELECT MAX(s.created_at) FROM sessions s WHERE s.user_id = id)], as the
    source has it, or with the name qualified, [s.user_id = users.id], as the
    [SELECT] of [get] has it.  PostgreSQL looks an unqualified name up in the
    innermost [FROM] first, so [id] is [sessions.id], which the migrations
    declare TEXT, while [user_id] is UUID: no operator compares the two, and the
    statement is rejected whenever it is prepared. *)
Inductive last_login_text := UnqualifiedId | QualifiedId.

Class ReturningText : Type := { returning_text : last_login_text }.

Definition as_written : ReturningText := {| returning_text := UnqualifiedId |}.
Definition as_repaired : ReturningText := {| returning_text := QualifiedId |}.

Definition returningLastLogin `{ReturningText} {A} (st : stmt db A) : stmt db A := fun d =>
  match returning_text with
  | UnqualifiedId => inr ErrOther
  | QualifiedId => st d
  end.

Lemma returningLastLogin_preserves `{ReturningText} (I : db -> Prop) {A} (st : stmt db A) :
  stmt_preserves I st -> stmt_preserves I (returningLastLogin st).
Proof. intros Hst d a d' Hd. unfold returningLastLogin. destruct returning_text; [done|]. by apply Hst. Qed.

(** The message of a unique violation. *)
Definition conflict (constraint : string) : refusal :=
  (409, if strings_Contains constraint "email" then "user with this email already exists"
        else if strings_Contains constraint "username" then "user with this username already exists"
        else "user already exists").

Section handlers.
Context `{SqlOrder} `{DeviceEnv} `{PasswordPolicy.Unicode} `{AuthEnv} `{Goroutines} `{ReturningText} {E : Type}.
Context (notifier : option (PeerNotifier E)) (refresher : option (FirewallRefresher E)).
Context (mailer : option (string -> string -> list E)) (fail : nat -> bool).

Definition list_ (page perPage : string) : H db E (Z * userBody) :=
  let '(p, pp) := parsePagination page perPage in
  let! win := query (fail 0%nat)
    (fun d => window pp (pageOffset p pp) (rows_by 51 (fun u => - u_created_at u) (users d)))
    500 "failed to query users" in
  let! l := the win 500 "failed to query users" in
  do! require (match l with [] => true | _ => negb (fail 1%nat) end) 500 "failed to scan user" in
  do! require (negb (fail 2%nat)) 500 "failed to iterate users" in
  let! total := query (fail 3%nat) (fun d => Z.of_nat (length (users d))) 500 "failed to count users" in
  let! us := asks (fun d => map (fun u => userRow (lastLogin d (u_id u)) u) l) in
  respondJSON 200 (UbUsers us total p pp).

Definition create (newID : string) (now : Z) (body : option createUserRequest) : H db E (Z * userBody) :=
  let! req := the body 400 "invalid JSON" in
  do! require (negb (String.eqb (cu_Username req) "")) 400 "username is required" in
  do! require (negb (String.eqb (cu_Email req) "")) 400 "email is required" in
  do! require (negb (String.eqb (cu_Password req) "")) 400 "password is required" in
  do! match PasswordPolicy.ValidatePasswordPolicy (cu_Password req) with
      | Some ms => respondError 400 ("password does not meet requirements: " ++ strings_join "; " ms)
      | None => ret tt
      end in
  let! hash := the (HashPassword (cu_Password req)) 500 "failed to hash password" in
  do! require (negb (fail 0%nat)) 500 "failed to begin transaction" in
  let! u := atomically (
    let! u := exec (fail 1%nat) (insert_user newID now {| nu_username := cu_Username req;
        nu_email := cu_Email req; nu_hash := hash; nu_first := cu_FirstName req; nu_last := cu_LastName req;
        nu_admin := cu_IsAdmin req |}) (fun e =>
      match e with ErrUnique c => conflict c | _ => (500, "failed to create user") end) in
    let roleName := if cu_IsAdmin req then "admin" else "user" in
    do! exec (fail 2%nat) (insert_roles (u_id u) roleName) (fun _ => (500, "failed to assign role")) in
    let! added := attempt (fail 3%nat) (insert_everyone (u_id u)) in
    (* a failed statement has aborted the transaction: Commit fails *)
    do! require (bool_decide (is_Some added) && negb (fail 4%nat)) 500 "failed to commit user creation" in
    ret u) in
  do! emit (fun _ => match mailer with Some send => send (u_email u) (u_username u) | None => [] end) in
  respondJSON 201 (UbUser (userRow None u)).

Definition get (claims : option TokenClaims) (rawId : string) : H db E (Z * userBody) :=
  let! id := the (uuid_Parse rawId) 400 "invalid UUID" in
  let! c := the claims 401 "unauthenticated" in
  do! require (IsAdmin c || String.eqb (UserID c) id) 403 "access denied" in
  let! row := query (fail 0%nat) (fun d => byKey u_id (users d) id) 500 "failed to fetch user" in
  let! u := the row 404 "user not found" in
  let! last := asks (fun d => lastLogin d id) in
  respondJSON 200 (UbUser (userRow last u)).

(** The non-empty keys of a user's devices. *)
Definition userKeys (d : db) (uid : string) : list string :=
  rows 52 (List.filter (fun pk => negb (String.eqb pk ""))
             (map d_pubkey (List.filter (fun dev => String.eqb (d_user_id dev) uid) (devices d)))).

Definition removePeers (d : db) (pks : list string) : list E :=
  match notifier with
  | Some n => flat_map (fun pk => notifyRemove (PeerNotifier := n) d pk) pks
  | None => []
  end.

Definition removeUserPeers (fails : bool) (d : db) (uid : string) : list E :=
  match notifier with
  | None => []
  | Some _ => if fails then [] else removePeers d (userKeys d uid)
  end.

Definition update (now : Z) (rawId : string) (body : option user_patch) : H db E (Z * userBody) :=
  let! id := the (uuid_Parse rawId) 400 "invalid UUID" in
  let! req := the body 400 "invalid JSON" in
  let! u := exec (fail 0%nat) (returningLastLogin (update_user now id req)) (fun e =>
    match e with
    | ErrNoRows => (404, "user not found")
    | ErrUnique c => conflict c
    | _ => (500, "failed to update user")
    end) in
  do! emit (fun d => merge
    (if bool_decide (up_active req = Some false) then removeUserPeers (fail 1%nat) d id else [])
    (if bool_decide (is_Some (up_active req)) || bool_decide (is_Some (up_admin req))
     then match refresher with Some r => refreshForUser (FirewallRefresher := r) d id | None => [] end
     else [])) in
  let! last := asks (fun d => lastLogin d id) in
  respondJSON 200 (UbUser (userRow last u)).

Definition activeAdmin (u : user) : bool := u_is_admin u && u_is_active u.

Definition activeAdmins (d : db) : nat := length (List.filter activeAdmin (users d)).

(** The last active administrator may not be deleted. *)
Definition guardLastAdmin (isActiveAdmin : bool) : H db E unit :=
  if isActiveAdmin then
    let! n := query (fail 2%nat) activeAdmins 500 "failed to count admins" in
    require (1 <? Z.of_nat n)%Z 409 "cannot delete the last admin user"
  else ret tt.

(** A serializable transaction: nothing happens in between, or the commit
    fails.  A query that fails inside it makes the deletion fail. *)
Definition delete_ (rawId : string) : H db E (Z * userBody) :=
  let! id := the (uuid_Parse rawId) 400 "invalid UUID" in
  do! require (negb (fail 0%nat)) 500 "failed to delete user" in
  let! devicePubkeys := atomically (
    let! row := query (fail 1%nat) (fun d => option_map activeAdmin (byKey u_id (users d) id)) 500 "failed to fetch user" in
    let! isActiveAdmin := the row 404 "user not found" in
    do! guardLastAdmin isActiveAdmin in
    let! pks := asks (fun d => if fail 3%nat then [] else userKeys d id) in
    do! deleting (fail 3%nat || fail 4%nat) (delete_user id) "failed to delete user" "user not found" in
    do! require (negb (fail 5%nat)) 500 "failed to delete user" in
    ret pks) in
  do! emit (fun d => removePeers d devicePubkeys) in
  respondJSON 204 UbNone.

Definition activate (now : Z) (rawId : string) : H db E (Z * userBody) :=
  let! id := the (uuid_Parse rawId) 400 "invalid UUID" in
  let! u := exec (fail 0%nat) (returningLastLogin (update_user now id {| up_email := None; up_first := None; up_last := None;
      up_phone := None; up_active := Some true; up_admin := None |})) (fun e =>
    match e with ErrNoRows => (404, "user not found") | _ => (500, "failed to activate user") end) in
  let! last := asks (fun d => lastLogin d id) in
  respondJSON 200 (UbUser (userRow last u)).
End handlers.

(** ** The routes *)

Inductive request :=
| List (page perPage : string)
| Create (newID : string) (now : Z) (body : option createUserRequest)
| Get (claims : option TokenClaims) (id : string)
| Update (now : Z) (id : string) (body : option user_patch)
| Delete (id : string)
| Activate (now : Z) (id : string).

Definition admin_only (r : request) : bool := match r with Get _ _ => false | _ => true end.

Section facts.
Context `{SqlOrder} `{DeviceEnv} `{PasswordPolicy.Unicode} `{AuthEnv} `{Goroutines} `{ReturningText} {E : Type}.
Context (notifier : option (PeerNotifier E)) (refresher : option (FirewallRefresher E)).
Context (mailer : option (string -> string -> list E)).

Definition serve (fail : nat -> bool) (r : request) : H db E (Z * userBody) :=
  match r with
  | List page perPage => list_ fail page perPage
  | Create newID now body => create mailer fail newID now body
  | Get claims id => get fail claims id
  | Update now id body => update notifier refresher fail now id body
  | Delete id => delete_ notifier fail id
  | Activate now id => activate fail now id
  end.

Lemma users_integrity fail r : preserves integrity (serve fail r).
Proof.
  destruct r; cbn [serve]; unfold list_, create, get, update, delete_, guardLastAdmin, activate; invariant_steps;
    try apply returningLastLogin_preserves; auto with integrity.
Qed.

Lemma users_clean fail r : clean (serve fail r).
Proof.
  destruct r; cbn [serve]; unfold list_, create, get, update, delete_, guardLastAdmin, activate; clean_steps.
Qed.
End facts.

(** ** An active administrator remains *)

Definition admin_present (d : db) : Prop :=
  NoDup (map u_id (users d)) /\ exists u, u ∈ users d /\ activeAdmin u = true.

(** Two rows that satisfy a condition: one of them is not row [k]. *)
Lemma another_row {A} (key : A -> string) (P : A -> bool) (l : list A) k :
  NoDup (map key l) -> (1 < length (List.filter P l))%nat ->
  exists x, x ∈ l /\ P x = true /\ key x <> k.
Proof.
  intros Hnd Hlen. pose proof (unique_filter key P l Hnd) as Hnd'.
  assert (forall x, x ∈ List.filter P l -> x ∈ l /\ P x = true) as Hin.
  { intros x [Hx HP]%list_elem_of_In%filter_In. by rewrite list_elem_of_In. }
  destruct (List.filter P l) as [|x [|y l']] eqn:E; cbn in Hlen; [lia|lia|].
  destruct (decide (key x = k)) as [<-|Hne].
  - exists y. destruct (Hin y) as [Hy HP]; [by right; left|]. split; [done|]. split; [done|].
    cbn in Hnd'. apply NoDup_cons in Hnd' as [Hx _]. intros Ey. apply Hx. rewrite <- Ey. left.
  - exists x. destruct (Hin x) as [Hx HP]; [by left|]. done.
Qed.

(** The requests that do not themselves deactivate or demote. *)
Definition demotes (r : request) : bool :=
  match r with
  | Update _ _ (Some p) => bool_decide (up_active p = Some false) || bool_decide (up_admin p = Some false)
  | _ => false
  end.

Lemma insert_user_admin newID now r : stmt_preserves admin_present (insert_user newID now r).
Proof.
  intros d u d' [Hnd (a & Ha & Hact)]. unfold insert_user. repeat case_match; intros; simplify_eq. lookups.
  split; cbn; [by apply unique_insert|]. exists a. rewrite elem_of_app. auto.
Qed.

Lemma update_user_admin now id p :
  up_active p <> Some false -> up_admin p <> Some false -> stmt_preserves admin_present (update_user now id p).
Proof.
  intros Hact Hadm d u d' [Hnd (a & Ha & Haa)]. unfold update_user. repeat case_match; intros; simplify_eq.
  split; cbn; [by apply keys_upd|]. destruct (decide (u_id a = id)) as [Ei|Ei].
  - exists (patch_user now p a). rewrite elem_of_upd. split; [right; eauto|].
    unfold activeAdmin in *. cbn. apply andb_true_iff in Haa as [H1 H2]. rewrite H1, H2.
    destruct (up_active p) as [[]|], (up_admin p) as [[]|]; done.
  - exists a. rewrite elem_of_upd. auto.
Qed.

Lemma other_tables_admin {A} (st : stmt db A) :
  (forall d a d', st d = inl (a, d') -> users d' = users d) -> stmt_preserves admin_present st.
Proof. intros Hst d a d' Hd Hs. unfold admin_present. by rewrite (Hst d a d' Hs). Qed.

Lemma drop_user_admin id d :
  NoDup (map u_id (users d)) -> (exists u, u ∈ users d /\ activeAdmin u = true /\ u_id u <> id) ->
  admin_present (drop_user id d).
Proof.
  intros Hnd (u & Hu & Ha & Hne). split; cbn; [by apply unique_filter|].
  exists u. by rewrite elem_of_without.
Qed.

Section admins.
Context `{SqlOrder} `{DeviceEnv} `{PasswordPolicy.Unicode} `{AuthEnv} `{Goroutines} `{ReturningText} {E : Type}.
Context (notifier : option (PeerNotifier E)) (refresher : option (FirewallRefresher E)).
Context (mailer : option (string -> string -> list E)).

Lemma guardLastAdmin_spec fail b d :
  wp (guardLastAdmin (E := E) fail b) (fun _ d' es => d' = d /\ es = [] /\ (b = true -> (1 < activeAdmins d)%nat))
     (fun _ d' _ => d' = d) d.
Proof.
  unfold guardLastAdmin. destruct b; [|by apply wp_ret]. apply wp_bind, wp_query. case_match; [done|].
  apply wp_require. destruct (Z.ltb_spec 1 (Z.of_nat (activeAdmins d))); [|done]. split; [done|]. split; [done|lia].
Qed.

Lemma delete_keeps_admin fail rawId : preserves admin_present (delete_ notifier fail rawId).
Proof.
  intros d Hd. unfold delete_. apply wp_bind, wp_the. destruct (uuid_Parse rawId) as [id|]; [|done].
  apply wp_bind, wp_require. case_match; [|done].
  apply wp_bind, wp_atomically, wp_bind, wp_query. case_match; [done|].
  apply wp_bind, wp_the. destruct (byKey u_id (users d) id) as [u|] eqn:Hu; [|done].
  apply wp_bind. eapply wp_mono; [| |apply guardLastAdmin_spec]; [|done]. intros _ d1 es (-> & -> & Hcount).
  apply wp_bind, wp_asks, wp_bind. unfold deleting. apply wp_exec.
  destruct (if fail 3%nat || fail 4%nat then _ else _) as [[n d1]|e] eqn:He; [|done].
  apply wp_bind, wp_require. destruct (negb (fail 5%nat)); [|done]. apply wp_ret, wp_bind, wp_emit, wp_ret.
  destruct (fail 3%nat || fail 4%nat); [done|]. unfold affected, delete_user in He. case_match; simplify_eq.
  destruct Hd as [Hnd (a & Ha & Haa)]. apply drop_user_admin; [done|].
  destruct (activeAdmin u) eqn:Eu; [apply another_row; auto|].
  exists a. split; [done|]. split; [done|]. intros Ea.
  rewrite (byKey_row u_id (users d) id u a) in Haa; [congruence|done..].
Qed.

(** C29. The endpoints of users never lock everybody out, except through an
    update that deactivates or demotes: if there is an active administrator
    before a request, there is one after it, whatever the database fails to
    answer. *)
Theorem admin_survives fail r d :
  demotes r = false -> admin_present d ->
  admin_present (run (serve notifier refresher mailer fail r) d).1.2.
Proof.
  intros Hr Hd. apply preserves_run; [|done]. destruct r; cbn [serve]; try apply delete_keeps_admin;
    unfold list_, create, get, update, activate; invariant_steps.
  - apply insert_user_admin.
  - apply other_tables_admin. unfold insert_roles. intros; by simplify_eq.
  - apply other_tables_admin. unfold insert_roles. intros; by simplify_eq.
  - apply other_tables_admin. unfold insert_everyone, insert_member. intros ? ? ?.
    repeat case_match; intros; by simplify_eq.
  - apply returningLastLogin_preserves. subst body. cbn in Hr. boolify. by apply update_user_admin.
  - by apply returningLastLogin_preserves, update_user_admin.
Qed.
End admins.

(** ** What a deletion leaves *)

Definition user_gone (uid : string) (d : db) : Prop :=
  (uid ∉ map u_id (users d)) /\ (uid ∉ map d_user_id (devices d)) /\ (uid ∉ map fst (user_groups d)) /\
  (uid ∉ map fst (user_roles d)) /\ (uid ∉ map fst (logins d)).

Lemma not_elem_of_without {A} (key : A -> string) l k : k ∉ map key (without key l k).
Proof. intros (x & -> & [_ Hx]%elem_of_without)%list_elem_of_fmap. done. Qed.

Lemma drop_user_gone id d : user_gone id (drop_user id d).
Proof. repeat split; apply not_elem_of_without. Qed.

Section erase.
Context `{GoRange, SqlOrder} `{DeviceEnv} `{PasswordPolicy.Unicode} `{AuthEnv} `{Goroutines} `{ReturningText}.
Context (fails : bool) (f : string -> fw_faults) (h : StreamHub).

(** The peers given to a gateway are those of devices. *)
Lemma fetchPeers_keys d gw ps p :
  fetchPeers false d gw = Ok ps -> p ∈ ps -> exists dev, dev ∈ devices d /\ d_pubkey dev = PublicKey p.
Proof.
  unfold fetchPeers. intros [= <-] (r & -> & Hr)%list_elem_of_fmap. rewrite elem_of_rows in Hr.
  unfold peerRows in Hr. rewrite elem_of_remove_dups, list_elem_of_bind in Hr.
  destruct Hr as (dev & Hin & Hdev). exists dev. split; [done|]. apply elem_of_if in Hin as [_ ->]. done.
Qed.

Lemma elem_of_userKeys d uid pk :
  pk ∈ userKeys d uid <-> pk <> "" /\ exists dev, dev ∈ devices d /\ d_user_id dev = uid /\ d_pubkey dev = pk.
Proof.
  unfold userKeys. rewrite elem_of_rows, list_elem_of_In, filter_In, <- list_elem_of_In, list_elem_of_fmap.
  rewrite negb_true_iff, String.eqb_neq. setoid_rewrite list_elem_of_In. setoid_rewrite filter_In.
  setoid_rewrite String.eqb_eq. naive_solver.
Qed.

Lemma removePeers_told d pks pk gw s :
  pk ∈ pks -> streams h !! gw = Some s ->
  PEER_REMOVE ∈ peer_actions s pk (removePeers (Some (hubPeerNotifier fails f h)) d pks).
Proof.
  intros Hpk Hs. apply elem_of_peer_actions. exists (removedPeer pk). split; [|done]. cbn.
  apply elem_of_flat_map. exists pk. split; [done|]. unfold NotifyPeerRemove. apply elem_of_app. left.
  apply elem_of_Broadcast. eauto.
Qed.

(** The deletion that answers has read the keys of the user and dropped it. *)
Lemma user_delete_spec fail rawId d :
  wp (delete_ (Some (hubPeerNotifier fails f h)) fail rawId)
     (fun _ d' es => exists id, uuid_Parse rawId = Some id /\ id ∈ map u_id (users d) /\ d' = drop_user id d /\
        es = removePeers (Some (hubPeerNotifier fails f h)) d' (userKeys d id))
     (fun _ _ _ => True) d.
Proof.
  unfold delete_. apply wp_bind, wp_the. destruct (uuid_Parse rawId) as [id|]; [|done].
  apply wp_bind, wp_require. case_match; [|done].
  apply wp_bind, wp_atomically, wp_bind, wp_query. case_match; [done|].
  apply wp_bind, wp_the. destruct (byKey u_id (users d) id) as [u|] eqn:Hu; [|done].
  apply wp_bind. eapply wp_mono; [| |apply guardLastAdmin_spec]; [|done]. intros _ d1 es (-> & -> & Hcount).
  apply wp_bind, wp_asks, wp_bind. unfold deleting. apply wp_exec.
  destruct (fail 3%nat); [done|]. cbn [orb]. destruct (fail 4%nat); [done|].
  destruct (affected (delete_user id) d) as [[n d1]|e] eqn:He; [|done].
  apply wp_bind, wp_require. destruct (negb (fail 5%nat)); [|done]. apply wp_ret, wp_bind, wp_emit, wp_ret.
  unfold affected, delete_user in He. case_match; simplify_eq.
  exists id. split; [done|]. apply byKey_Some in Hu as [Hu <-]. split; [by apply (list_elem_of_fmap_2 u_id)|].
  split; [done|]. cbn. by rewrite app_nil_r.
Qed.

(** Deleting a user erases it: the row, its devices, memberships, roles and
    sessions go, the rows of the others stay, every connected gateway is told to
    drop every peer of that user, and no gateway is given such a peer again. *)
Theorem delete_erases fail refresher mailer rawId d st b d' es :
  integrity d ->
  run (serve (Some (hubPeerNotifier fails f h)) refresher mailer fail (Delete rawId)) d = (Reply st b, d', es) ->
  exists id, uuid_Parse rawId = Some id /\ user_gone id d' /\
    (forall u, u ∈ users d -> u_id u <> id -> u ∈ users d') /\
    (forall dev, dev ∈ devices d -> d_user_id dev <> id -> dev ∈ devices d') /\
    forall dev, dev ∈ devices d -> d_user_id dev = id -> d_pubkey dev <> "" ->
      (forall gw s, streams h !! gw = Some s -> PEER_REMOVE ∈ peer_actions s (d_pubkey dev) es) /\
      (forall gw ps p, fetchPeers false d' gw = Ok ps -> p ∈ ps -> PublicKey p <> d_pubkey dev).
Proof.
  intros Hi Hrun.
  pose proof (run_Reply _ _ _ _ _ _ _ Hrun (user_delete_spec fail rawId d)) as (id & Hid & _ & -> & ->).
  exists id. split; [done|]. split; [apply drop_user_gone|].
  split; [intros u Hu Hne; by apply elem_of_without|].
  split; [intros dev Hdev Hne; by apply elem_of_without|].
  intros dev Hdev Hown Hpk. split.
  - intros gw s Hs. eapply removePeers_told; [|done]. apply elem_of_userKeys. eauto.
  - intros gw ps p Hps Hp E. apply (fetchPeers_keys _ _ _ _ Hps) in Hp as (dev' & Hdev' & E').
    apply elem_of_without in Hdev' as [Hdev' Hne]. apply Hne. rewrite <- Hown. f_equal.
    eapply (NoDup_map_inj d_pubkey); [apply (in_devices d Hi)|done|done|congruence].
Qed.
End erase.

(** ** What a creation establishes *)

Section creation.
Context `{SqlOrder} `{DeviceEnv} `{PasswordPolicy.Unicode} `{AuthEnv} `{Goroutines} `{ReturningText} {E : Type}.
Context (notifier : option (PeerNotifier E)) (refresher : option (FirewallRefresher E)).
Context (mailer : option (string -> string -> list E)).

(** The rows a new account needs: the account itself with the hash of a password
    that satisfies the policy, the role of its kind, and the group of all
    users. *)
Definition account_created (req : createUserRequest) (d d' : db) : Prop :=
  exists u, u ∈ users d' /\ (u_id u ∉ map u_id (users d)) /\ u_username u = cu_Username req /\
    u_email u = cu_Email req /\ u_is_active u = true /\ u_is_admin u = cu_IsAdmin req /\
    u_password_hash u = HashPassword (cu_Password req) /\ is_Some (u_password_hash u) /\
    PasswordPolicy.ValidatePasswordPolicy (cu_Password req) = None /\
    (forall r, r ∈ roles d -> r.2 = (if cu_IsAdmin req then "admin" else "user") -> (u_id u, r.1) ∈ user_roles d') /\
    (forall g, everyone d = Some g -> (u_id u, gr_id g) ∈ user_groups d').

Lemma insert_user_spec newID now r d u d1 :
  insert_user newID now r d = inl (u, d1) ->
  d1 = set_users d (users d ++ [u])%list /\ u_id u = newID /\ (newID ∉ map u_id (users d)) /\
  u_username u = nu_username r /\ u_email u = nu_email r /\ u_is_active u = true /\
  u_is_admin u = nu_admin r /\ u_password_hash u = Some (nu_hash r).
Proof. unfold insert_user. repeat case_match; intros; simplify_eq. lookups. done. Qed.

Lemma insert_roles_spec uid role d a d1 r :
  insert_roles uid role d = inl (a, d1) -> r ∈ roles d -> r.2 = role -> (uid, r.1) ∈ user_roles d1.
Proof.
  unfold insert_roles. intros [= <- <-] Hr Er. cbn. apply elem_of_app.
  destruct (decide ((uid, r.1) ∈ user_roles d)) as [|Hn]; [by left|right].
  apply list_elem_of_In, filter_In. rewrite bool_decide_eq_false_2 by done. split; [|done].
  apply list_elem_of_In, list_elem_of_fmap. exists r. split; [done|]. apply list_elem_of_In, filter_In.
  rewrite Er, String.eqb_refl. split; [by apply list_elem_of_In|done].
Qed.

Lemma insert_everyone_spec uid d a d1 :
  insert_everyone uid d = inl (a, d1) ->
  users d1 = users d /\ user_roles d1 = user_roles d /\
  forall g, everyone d = Some g -> (uid, gr_id g) ∈ user_groups d1.
Proof.
  unfold insert_everyone, insert_member. destruct (everyone d) as [g|] eqn:Hg.
  - repeat case_match; intros; simplify_eq; (split; [done|]); (split; [done|]); intros g' [= <-].
    + by boolify.
    + cbn. apply elem_of_app. right. by left.
  - intros [= <- <-]. naive_solver.
Qed.

(** An accepted creation leaves a usable account and nothing half done: the
    user is active, carries the role of its kind, belongs to the group of all
    users when there is one, and its password satisfies the policy; any failure
    in between leaves the tables as they were. *)
Theorem create_establishes fail newID now req d :
  match run (serve notifier refresher mailer fail (Create newID now (Some req))) d with
  | (Reply st _, d', _) => st = 201 /\ account_created req d d'
  | (Failure _ _, d', es) => d' = d /\ es = []
  end.
Proof.
  destruct (run _ d) as [[[st b|st msg] d'] es] eqn:Hrun.
  2: { eapply clean_run; [|exact Hrun]. apply users_clean. }
  refine (run_Reply _ _ _ _ _ _ (fun r d' _ => r.1 = 201 /\ account_created req d d') Hrun _).
  cbn [serve]. unfold create. apply wp_bind, wp_the. do 3 (apply wp_bind, wp_require; case_match; [|done]).
  apply wp_bind. destruct (PasswordPolicy.ValidatePasswordPolicy _) eqn:Hpol; [done|]. apply wp_ret.
  apply wp_bind, wp_the. destruct (HashPassword _) as [hash|] eqn:Hhash; [|done].
  apply wp_bind, wp_require. case_match; [|done]. apply wp_bind, wp_atomically, wp_bind, wp_exec.
  destruct (fail 1%nat); [done|]. destruct (insert_user _ _ _ d) as [[u d1]|] eqn:Hu; [|done].
  apply wp_bind, wp_exec. destruct (fail 2%nat); [done|].
  destruct (insert_roles _ _ d1) as [[x d2]|] eqn:Hro; [|done].
  apply wp_bind, wp_attempt. destruct (fail 3%nat); [by apply wp_bind, wp_require|].
  destruct (insert_everyone _ d2) as [[y d3]|] eqn:Hev; [|by apply wp_bind, wp_require].
  apply wp_bind, wp_require. destruct (bool_decide _ && _); [|done]. apply wp_ret, wp_bind, wp_emit, wp_ret. split; [done|].
  apply insert_user_spec in Hu as (-> & Hid & Hnew & ? & ? & ? & ? & Hh).
  assert (forall r, r ∈ roles d -> r.2 = (if cu_IsAdmin req then "admin" else "user") -> (u_id u, r.1) ∈ user_roles d2)
    as Hro' by (intros r; by apply (insert_roles_spec _ _ _ _ _ r Hro)).
  apply insert_everyone_spec in Hev as (Eu & Er & Hev).
  unfold insert_roles in Hro. injection Hro as <- <-. exists u. cbn in Eu. rewrite Eu, Er, Hid in *.
  split; [apply elem_of_app; right; by left|]. rewrite Hh, Hhash. repeat split; done.
Qed.
End creation.

(** ** Concrete requests *)

Definition demo_notifier : option (PeerNotifier effect) :=
  Some (@hubPeerNotifier range_default sql_default false (fun _ => no_faults) (hub1 false)).

Definition demo_refresher : option (FirewallRefresher effect) :=
  Some (@hubRefresher range_default sql_default false (fun _ => no_faults) (hub1 false)).

Definition demo_serve (r : request) : H db effect (Z * userBody) :=
  @serve sql_default toy_device_env PasswordPolicy.ascii_unicode toy_env first_then as_written effect
    demo_notifier demo_refresher None noFail r.

Definition after (r : request) (d : db) : db := (run (demo_serve r) d).1.2.

(** The same server with the [RETURNING] lists repaired. *)
Definition repaired_serve (r : request) : H db effect (Z * userBody) :=
  @serve sql_default toy_device_env PasswordPolicy.ascii_unicode toy_env first_then as_repaired effect
    demo_notifier demo_refresher None noFail r.

Definition repaired_after (r : request) (d : db) : db := (run (repaired_serve r) d).1.2.

Lemma demo_admin : admin_present demo_db.
Proof.
  split; [apply (bool_decide_unpack _); vm_compute; exact I|].
  exists (mkUser "bob" true). split; [right; left|done].
Qed.

Lemma admin_survives_witness :
  (run (demo_serve (Delete "bob")) demo_db).1.1 = Failure 409 "cannot delete the last admin user" /\
  (run (demo_serve (Delete "ann")) demo_db).1.1 = Reply 204 UbNone /\
  admin_present (after (Delete "ann") demo_db).
Proof.
  split; [vm_compute; reflexivity|]. split; [vm_compute; reflexivity|].
  exact (@admin_survives sql_default toy_device_env PasswordPolicy.ascii_unicode toy_env first_then as_written effect
    demo_notifier demo_refresher None noFail (Delete "ann") demo_db eq_refl demo_admin).
Defined.

Lemma delete_erases_witness :
  exists id, uuid_Parse (DeviceEnv := toy_device_env) "ann" = Some id /\
    user_gone id (after (Delete "ann") demo_db) /\
    PEER_REMOVE ∈ peer_actions 1%nat "pkA" (run (demo_serve (Delete "ann")) demo_db).2.
Proof.
  edestruct (@delete_erases range_default sql_default toy_device_env PasswordPolicy.ascii_unicode toy_env first_then as_written
    false (fun _ => no_faults) (hub1 false) noFail demo_refresher None "ann" demo_db 204 UbNone
    (after (Delete "ann") demo_db) (run (demo_serve (Delete "ann")) demo_db).2)
    as (id & Hid & Hgone & _ & _ & Htold); [apply demo_integrity|vm_compute; reflexivity|].
  exists id. split; [exact Hid|]. split; [exact Hgone|]. injection Hid as <-.
  refine (proj1 (Htold ann_dev _ eq_refl _) "g1" 1%nat _); [left|discriminate|reflexivity].
Defined.

(** ** Where the code falls short *)

Definition only_active (b : bool) : user_patch := {|
  up_email := None; up_first := None; up_last := None; up_phone := None; up_active := Some b; up_admin := None |}.

(** An account cannot be updated or activated at all: the statement of either
    request is rejected, for every account and every body, and the answer is
    500. *)
Theorem update_and_activate_fail `{SqlOrder} `{DeviceEnv} `{PasswordPolicy.Unicode} `{AuthEnv} `{Goroutines} {E}
    notifier refresher mailer fail now rawId id body d :
  let srv := @serve _ _ _ _ _ as_written E notifier refresher mailer fail in
  uuid_Parse rawId = Some id ->
  run (srv (Update now rawId (Some body))) d = (Failure 500 "failed to update user", d, []) /\
  run (srv (Activate now rawId)) d = (Failure 500 "failed to activate user", d, []).
Proof.
  cbv zeta. intros Hid. cbn [serve]. unfold update, activate, run, the, exec, bind, returningLastLogin. rewrite Hid.
  split; cbn; destruct (fail 0%nat); reflexivity.
Qed.

(** Once the statement is repaired, deactivating the last administrator is
    accepted; deleting it is not. *)
Theorem update_locks_everybody_out :
  reply_status (run (repaired_serve (Update 9 "bob" (Some (only_active false)))) demo_db).1.1 = 200 /\
  activeAdmins (repaired_after (Update 9 "bob" (Some (only_active false))) demo_db) = 0%nat.
Proof. split; vm_compute; reflexivity. Qed.

(** With the statement repaired, a deactivated user's devices are removed from the gateways, and given back
    to the next gateway that asks for its configuration. *)
Theorem deactivated_user_returns :
  let r := Update 9 "ann" (Some (only_active false)) in
  PEER_REMOVE ∈ peer_actions 1%nat "pkA" (run (repaired_serve r) demo_db).2 /\
  exists ps, @fetchPeers sql_default false (repaired_after r demo_db) "g1" = Ok ps /\ ("pkA" ∈ map PublicKey ps).
Proof.
  split.
  - apply (bool_decide_unpack _). vm_compute. exact I.
  - eexists. split; [vm_compute; reflexivity|]. left.
Qed.

(** Activating the user again adds nothing back until then. *)
Theorem activation_is_silent :
  (run (repaired_serve (Activate 10 "ann")) (repaired_after (Update 9 "ann" (Some (only_active false))) demo_db)).2 = [].
Proof. vm_compute. reflexivity. Qed.
