(* ===== verification/Networks.v ===== *)
(** * The network endpoints

    [internal/core/handler/network.go]: networks with their address blocks,
    ports and name servers. *)

From S2P Require Import Prelude Net Schema Auth Policy Hub Devices Http Tables.
From Stdlib Require Import ZArith Lia Ascii String.
From stdpp Require Import base gmap strings list.
Import Auth.Token.

Local Open Scope Z_scope.
Local Open Scope string_scope.
Local Open Scope outpost_scope.

(** [NetworkFirewallRefresher]: a push to a list of gateways. *)
Definition refresher_of (E : Type) : Type := db -> list string -> list E.

Definition hubGatewayRefresher `{GoRange, SqlOrder} (f : string -> fw_faults) (h : StreamHub)
  : refresher_of effect := fun d gws => RefreshFirewallForGateways f d h gws.

Record networkResponse := {
  nr_ID : string;
  nr_Name : string;
  nr_Address : string;
  nr_TunnelCIDR : option string;
  nr_DNS : list string;
  nr_Port : Z;
  nr_Keepalive : Z;
  nr_IsActive : bool;
  nr_CreatedAt : Z;
  nr_UpdatedAt : Z;
}.

Inductive networkBody :=
| NbPage (l : list networkResponse) (total page perPage : Z)
| NbMine (l : list networkResponse) (total : Z)
| NbNetwork (n : networkResponse)
| NbNone.

Record createNetworkRequest := {
  cn_Name : string;
  cn_Address : string;
  cn_TunnelCIDR : option string;
  cn_DNS : list string;
  cn_Port : Z;
  cn_Keepalive : Z;
}.

Definition networkRow (n : network) : networkResponse := {|
  nr_ID := n_id n; nr_Name := n_name n; nr_Address := cidr_text (n_address n);
  nr_TunnelCIDR := option_map cidr_text (n_tunnel_cidr n); nr_DNS := n_dns n; nr_Port := n_port n;
  nr_Keepalive := n_keepalive n; nr_IsActive := n_is_active n; nr_CreatedAt := n_created_at n;
  nr_UpdatedAt := n_updated_at n |}.

(** ** Validation *)

(** Both results of [net.ParseCIDR]: the address as written and the masked
    block. *)
Definition parseCIDR2 (s : string) : option (Z * cidr) :=
  match split_on "/" s with
  | [a; _] =>
      match ParseIPv4 a, ParseCIDR s with
      | Some ip, Some c => Some (ip, c)
      | _, _ => None
      end
  | _ => None
  end.

(** The text is a block without host bits ([!ip.Equal(ipNet.IP)]). *)
Definition checkCIDR {E} (s format bits : string) : H db E unit :=
  match parseCIDR2 s with
  | None => respondError 400 format
  | Some (ip, c) =>
      require (ip =? cidr_base c)%Z 400 (bits ++ s ++ " has host bits set, did you mean " ++ cidr_text c ++ "?")
  end.

(** [req.X != nil && *req.X != ""]. *)
Definition checkOptCIDR {E} (s : option string) (format bits : string) : H db E unit :=
  match s with
  | Some t => if String.eqb t "" then ret tt else checkCIDR t (format ++ t) bits
  | None => ret tt
  end.

Definition validIP (s : string) : bool := match ParseIPv4 s with Some _ => true | None => false end.

(** The loop over the name servers, up to the first invalid one. *)
Definition checkDNS {E} (l : list string) : H db E unit :=
  forM l (fun dns => require (validIP dns) 400 ("invalid DNS server IP: " ++ dns)).

Lemma pure_checkCIDR {E} s format bits : pure (checkCIDR (E := E) s format bits).
Proof. unfold checkCIDR. repeat case_match; auto with pure. Qed.

Lemma pure_checkOptCIDR {E} s format bits : pure (checkOptCIDR (E := E) s format bits).
Proof. unfold checkOptCIDR. repeat case_match; auto using pure_checkCIDR with pure. Qed.

Lemma pure_checkDNS {E} l : pure (checkDNS (E := E) l).
Proof. apply pure_forM. intros dns. apply pure_require. Qed.

#[export] Hint Resolve pure_checkCIDR pure_checkOptCIDR pure_checkDNS : pure.

Definition port_ok (p : Z) : bool := ((1 <=? p) && (p <=? 65535))%Z.
Definition keepalive_ok (k : Z) : bool := ((0 <=? k) && (k <=? 3600))%Z.

(** ** The endpoints *)

Section handlers.
Context `{SqlOrder} `{DeviceEnv} `{PgText} {E : Type} (refresher : option (refresher_of E)).
Context (fail : nat -> bool).

Definition list_ (page perPage : string) : H db E (Z * networkBody) :=
  let '(p, pp) := parsePagination page perPage in
  let! total := query (fail 0%nat) (fun d => Z.of_nat (length (networks d))) 500 "failed to count networks" in
  let! win := query (fail 1%nat)
    (fun d => window pp (pageOffset p pp) (rows_by 61 (fun n => - n_created_at n) (networks d)))
    500 "failed to query networks" in
  let! l := the win 500 "failed to query networks" in
  do! require (match l with [] => true | _ => negb (fail 2%nat) end) 500 "failed to scan network" in
  do! require (negb (fail 3%nat)) 500 "failed to iterate networks" in
  respondJSON 200 (NbPage (map networkRow l) total p pp).

(** [SELECT DISTINCT .. JOIN network_acls .. JOIN user_groups]: the active
    networks some group of the user has an access rule on. *)
Definition reachable (uid : string) (d : db) (n : network) : bool :=
  n_is_active n &&
  existsb (fun ug => String.eqb ug.1 uid &&
    existsb (fun a => String.eqb (a_network_id a) (n_id n) && String.eqb (a_group_id a) ug.2) (network_acls d))
    (user_groups d).

Definition listMy (claims : option TokenClaims) : H db E (Z * networkBody) :=
  let! c := the claims 401 "unauthorized" in
  do! require (bool_decide (is_Some (pg_uuid (UserID c)))) 500 "failed to query networks" in
  let! l := fetch fail 0
    (fun d => rows_by 62 (fun n => - n_created_at n) (List.filter (reachable (UserID c) d) (networks d)))
    "failed to query networks" "failed to scan network" "failed to iterate networks" in
  respondJSON 200 (NbMine (map networkRow l) (Z.of_nat (length l))).

Definition create (newID : string) (now : Z) (body : option createNetworkRequest) : H db E (Z * networkBody) :=
  let! req := the body 400 "invalid JSON" in
  do! require (negb (String.eqb (cn_Name req) "")) 400 "name is required" in
  do! require (negb (String.eqb (cn_Address req) "")) 400 "address (CIDR) is required" in
  do! checkCIDR (cn_Address req) ("invalid CIDR format: " ++ cn_Address req) "invalid network address: " in
  let port := if (cn_Port req =? 0)%Z then 51820 else cn_Port req in
  do! require (port_ok port) 400 "port must be between 1 and 65535" in
  let keepalive := if (cn_Keepalive req =? 0)%Z then 25 else cn_Keepalive req in
  do! require (keepalive_ok keepalive) 400 "keepalive must be between 0 and 3600" in
  do! checkDNS (cn_DNS req) in
  do! checkOptCIDR (cn_TunnelCIDR req) "invalid tunnel_cidr format: " "invalid tunnel_cidr: " in
  let! n := exec (fail 0%nat) (insert_network newID now {| nn_name := cn_Name req; nn_address := cn_Address req;
      nn_tunnel := cn_TunnelCIDR req; nn_dns := cn_DNS req; nn_port := port; nn_keepalive := keepalive |}) (fun e =>
    match e with
    | ErrUnique c =>
        (409, if strings_Contains c "name" then "network with this name already exists"
              else if strings_Contains c "address" then "network with this address already exists"
              else "network already exists")
    | _ => (500, "failed to create network")
    end) in
  respondJSON 201 (NbNetwork (networkRow n)).

Definition get (rawId : string) : H db E (Z * networkBody) :=
  let! id := the (uuid_Parse rawId) 400 "invalid UUID" in
  let! row := query (fail 0%nat) (fun d => byKey n_id (networks d) id) 500 "failed to fetch network" in
  let! n := the row 404 "network not found" in
  respondJSON 200 (NbNetwork (networkRow n)).

Definition update (now : Z) (rawId : string) (body : option network_patch) : H db E (Z * networkBody) :=
  let! id := the (uuid_Parse rawId) 400 "invalid UUID" in
  let! req := the body 400 "invalid JSON" in
  do! checkOptCIDR (np_address req) "invalid CIDR format: " "invalid network address: " in
  do! require (match np_port req with Some p => port_ok p | None => true end) 400
        "port must be between 1 and 65535" in
  do! require (match np_keepalive req with Some k => keepalive_ok k | None => true end) 400
        "keepalive must be between 0 and 3600" in
  do! checkDNS (default [] (np_dns req)) in
  do! checkOptCIDR (np_tunnel req) "invalid tunnel_cidr format: " "invalid tunnel_cidr: " in
  let! n := exec (fail 0%nat) (update_network now id req) (fun e =>
    match e with
    | ErrNoRows => (404, "network not found")
    | ErrUnique _ => (409, "network with this name already exists")
    | _ => (500, "failed to update network")
    end) in
  respondJSON 200 (NbNetwork (networkRow n)).

(** [gateway_networks gn FULL OUTER JOIN gateways g ON g.network_id = $1]: the
    condition does not mention [gn], so a gateway that satisfies it is paired
    with every row. *)
Definition fullJoin (id : string) (d : db) : list (option (string * string) * option gateway) :=
  let matched := List.filter (legacy_of id) (gateways d) in
  (gn ← gateway_networks d; g ← matched; [(Some gn, Some g)]) ++
  (match matched with [] => map (fun gn => (Some gn, None)) (gateway_networks d) | _ => [] end) ++
  map (fun g => (None, Some g))
    (List.filter (fun g => negb (legacy_of id g) || match gateway_networks d with [] => true | _ => false end)
       (gateways d)).

Definition joinKept (id : string) (r : option (string * string) * option gateway) : bool :=
  match r.1 with Some gn => String.eqb gn.2 id | None => false end ||
  match r.2 with Some g => legacy_of id g | None => false end.

Definition joinID (r : option (string * string) * option gateway) : option string :=
  match r.1 with Some gn => Some gn.1 | None => option_map g_id r.2 end.

Definition gatewaysBefore (id : string) (d : db) : list string :=
  rows 63 (remove_dups (omap joinID (List.filter (joinKept id) (fullJoin id d)))).

(** The gateways are read before the deletion; an error of that query is
    ignored. *)
Definition delete_ (env : db -> db) (rawId : string) : H db E (Z * networkBody) :=
  let! id := the (uuid_Parse rawId) 400 "invalid UUID" in
  let! gatewayIDs := asks (fun d =>
    match refresher with Some _ => if fail 0%nat then [] else gatewaysBefore id d | None => [] end) in
  do! interfere env in
  do! deleting (fail 1%nat) (delete_network id) "failed to delete network" "network not found" in
  do! emit (fun d => match refresher, gatewayIDs with
                     | Some r, _ :: _ => r d gatewayIDs
                     | _, _ => []
                     end) in
  respondJSON 204 NbNone.
End handlers.

(** ** The routes *)

Inductive request :=
| List (page perPage : string)
| ListMy (claims : option TokenClaims)
| Create (newID : string) (now : Z) (body : option createNetworkRequest)
| Get (id : string)
| Update (now : Z) (id : string) (body : option network_patch)
| Delete (id : string).

Definition admin_only (r : request) : bool :=
  match r with List _ _ | ListMy _ | Get _ => false | _ => true end.

Section facts.
Context `{SqlOrder} `{DeviceEnv} `{PgText} {E : Type} (refresher : option (refresher_of E)).

Definition serve (fail : nat -> bool) (env : db -> db) (r : request) : H db E (Z * networkBody) :=
  match r with
  | List page perPage => list_ fail page perPage
  | ListMy claims => listMy fail claims
  | Create newID now body => create fail newID now body
  | Get id => get fail id
  | Update now id body => update fail now id body
  | Delete id => delete_ refresher fail env id
  end.

Lemma networks_integrity fail env r :
  (forall d, integrity d -> integrity (env d)) -> preserves integrity (serve fail env r).
Proof.
  intros Henv. destruct r; cbn [serve];
    unfold list_, listMy, create, get, update, delete_, checkOptCIDR, checkCIDR, checkDNS;
    repeat first [ apply preserves_interfere; exact Henv | progress invariant_steps
                 | solve [auto with integrity handlers] ].
Qed.

Lemma networks_calm fail env r : calm env (serve fail env r).
Proof.
  destruct r; cbn [serve];
    unfold list_, listMy, create, get, update, delete_, deleting; calm_steps.
Qed.
End facts.

(** ** Stored networks are valid *)

Definition network_valid (n : network) : Prop :=
  1 <= n_port n <= 65535 /\ 0 <= n_keepalive n <= 3600 /\ Forall (fun s => validIP s = true) (n_dns n) /\
  network_wf n.

Definition networks_valid (d : db) : Prop := Forall network_valid (networks d).

Lemma port_ok_spec p : port_ok p = true <-> 1 <= p <= 65535.
Proof. unfold port_ok. rewrite andb_true_iff, !Z.leb_le. done. Qed.

Lemma keepalive_ok_spec k : keepalive_ok k = true <-> 0 <= k <= 3600.
Proof. unfold keepalive_ok. rewrite andb_true_iff, !Z.leb_le. done. Qed.

(** The loop over the name servers passes when all of them are addresses. *)
Lemma checkDNS_spec {E} l d :
  wp (checkDNS (E := E) l) (fun _ d' es => d' = d /\ es = [] /\ Forall (fun s => validIP s = true) l)
     (fun _ d' es => d' = d /\ es = []) d.
Proof.
  unfold checkDNS. induction l as [|x l IH]; cbn [forM]; [apply wp_ret; done|].
  apply wp_bind, wp_require. destruct (validIP x) eqn:Hx; [|done].
  eapply wp_mono; [| |apply IH]; [|done]. intros _ d' es (-> & -> & Hl). by auto.
Qed.

Lemma preserves_checkDNS {E C} (I : db -> Prop) l (k : unit -> H db E C) :
  (Forall (fun s => validIP s = true) l -> preserves I (k tt)) -> preserves I (bind (checkDNS l) k).
Proof.
  intros Hk d Hd. apply wp_bind. eapply wp_mono; [| |apply checkDNS_spec].
  - intros [] d1 es (-> & -> & Hl). by apply Hk.
  - by intros r d' es [-> ->].
Qed.

Section validity.
Context `{SqlOrder} `{DeviceEnv} `{PgText} {E : Type} (refresher : option (refresher_of E)).

Lemma insert_network_valid newID now r :
  1 <= nn_port r <= 65535 -> 0 <= nn_keepalive r <= 3600 -> Forall (fun s => validIP s = true) (nn_dns r) ->
  stmt_preserves networks_valid (insert_network newID now r).
Proof.
  intros Hp Hk Hdns d n d' Hd. unfold insert_network. repeat case_match; intros; simplify_eq.
  apply Forall_app. split; [done|]. apply Forall_singleton. do 3 (split; [done|]). split; cbn.
  - by eapply pg_cidr_wf.
  - case_match; [|done]. subst. by eapply pg_cidr_opt_wf.
Qed.

Lemma update_network_valid now id p :
  (forall x, np_port p = Some x -> 1 <= x <= 65535) -> (forall x, np_keepalive p = Some x -> 0 <= x <= 3600) ->
  Forall (fun s => validIP s = true) (default [] (np_dns p)) ->
  stmt_preserves networks_valid (update_network now id p).
Proof.
  intros Hp Hk Hdns d n d' Hd. unfold update_network. repeat case_match; intros; simplify_eq.
  apply Forall_upd; [done|]. intros x (Hxp & Hxk & Hxd & Hxa & Hxt). unfold network_valid. cbn.
  split; [destruct (np_port p); cbn; auto|]. split; [destruct (np_keepalive p); cbn; auto|].
  split; [destruct (np_dns p); cbn; auto|]. split; cbn.
  - destruct o as [c|]; cbn; [by eapply pg_cidr_opt_wf|done].
  - destruct o0 as [c|]; [by eapply pg_cidr_opt_wf|done].
Qed.

Lemma delete_network_valid id : stmt_preserves networks_valid (delete_network id).
Proof.
  intros d n d' Hd. unfold delete_network. intros [= <- <-]. unfold networks_valid in *. cbn.
  rewrite Forall_forall in *. intros x [Hx _]%elem_of_without. by apply Hd.
Qed.

Lemma preserves_checkCIDR (I : db -> Prop) s format bits : preserves I (checkCIDR (E := E) s format bits).
Proof. unfold checkCIDR. invariant_steps. Qed.

Lemma preserves_checkOptCIDR (I : db -> Prop) s format bits : preserves I (checkOptCIDR (E := E) s format bits).
Proof. unfold checkOptCIDR, checkCIDR. invariant_steps. Qed.

Lemma create_valid fail newID now body : preserves networks_valid (create (E := E) fail newID now body).
Proof.
  unfold create. apply preserves_the_bind. intros req _. do 2 (apply preserves_require_bind; intros _).
  apply preserves_bind; [apply preserves_checkCIDR|intros _]. set (port := if (_ =? 0)%Z then 51820 else _).
  apply preserves_require_bind. intros Hp%port_ok_spec. set (ka := if (_ =? 0)%Z then 25 else _).
  apply preserves_require_bind. intros Hk%keepalive_ok_spec. apply preserves_checkDNS. intros Hdns.
  apply preserves_bind; [apply preserves_checkOptCIDR|intros _].
  apply preserves_bind; [|intros n; apply preserves_respondJSON].
  apply preserves_exec. by apply insert_network_valid.
Qed.

Lemma update_valid fail now rawId body : preserves networks_valid (update (E := E) fail now rawId body).
Proof.
  unfold update. apply preserves_the_bind. intros id _. apply preserves_the_bind. intros req _.
  apply preserves_bind; [apply preserves_checkOptCIDR|intros _].
  apply preserves_require_bind. intros Hp. apply preserves_require_bind. intros Hk.
  apply preserves_checkDNS. intros Hdns. apply preserves_bind; [apply preserves_checkOptCIDR|intros _].
  apply preserves_bind; [|intros n; apply preserves_respondJSON].
  apply preserves_exec. apply update_network_valid; [..|done].
  - intros x E'. rewrite E' in Hp. by apply port_ok_spec.
  - intros x E'. rewrite E' in Hk. by apply keepalive_ok_spec.
Qed.

(** Whatever is asked, every stored network keeps a port between 1 and
    65535, a keepalive between 0 and 3600, name servers that are addresses, and
    blocks without host bits. *)
Theorem networks_stay_valid fail env r d :
  (forall d, networks_valid d -> networks_valid (env d)) -> networks_valid d ->
  networks_valid (run (serve refresher fail env r) d).1.2.
Proof.
  intros Henv Hd. apply preserves_run; [|done]. destruct r; cbn [serve].
  - unfold list_. invariant_steps.
  - unfold listMy. invariant_steps.
  - by apply create_valid.
  - unfold get. invariant_steps.
  - by apply update_valid.
  - unfold delete_. repeat first [ apply preserves_interfere; exact Henv | progress invariant_steps
                                 | apply delete_network_valid ].
Qed.

(** The networks shown to a user are the ones the firewall lets its
    devices reach through groups: the page is a permutation of the active
    networks for which the gateway policy finds a group of the owner. *)
Theorem listMy_matches_policy fail env c d st l total d' es dev :
  d_user_id dev = UserID c ->
  run (serve refresher fail env (ListMy (Some c))) d = (Reply st (NbMine l total), d', es) ->
  d' = d /\ es = [] /\ total = Z.of_nat (length l) /\
  l ≡ₚ map networkRow (List.filter (grantedByGroup d dev) (networks d)).
Proof.
  intros Hown Hrun.
  refine (run_Reply _ _ _ _ _ _ (fun r d' es => d' = d /\ es = [] /\
    match r.2 with NbMine l total => total = Z.of_nat (length l) /\
      l ≡ₚ map networkRow (List.filter (grantedByGroup d dev) (networks d)) | _ => True end) Hrun _).
  cbn [serve]. unfold listMy. apply wp_bind, wp_the, wp_bind, wp_require. case_match; [|done].
  apply wp_bind. unfold fetch. apply wp_bind, wp_query. case_match; [done|].
  apply wp_bind, wp_require. destruct (match rows_by _ _ _ with [] => true | _ => _ end); [|done].
  apply wp_bind, wp_require. destruct (negb (fail _)); [|done]. apply wp_ret, wp_ret.
  split; [done|]. split; [done|]. cbn. split; [by rewrite length_map|].
  rewrite rows_by_perm. apply Permutation_map. apply reflexive_eq. apply filter_ext. intros n.
  unfold reachable, grantedByGroup. rewrite Hown, andb_comm. f_equal. apply existsb_ext_in. intros ug _. f_equal.
  apply existsb_ext_in. intros a _. by rewrite andb_comm, (String.eqb_sym (n_id n)).
Qed.
End validity.

(** ** What a deletion refreshes *)

Section deletion.
Context `{GoRange, SqlOrder} `{DeviceEnv} `{PgText} (h : StreamHub).

Lemma gatewaysBefore_complete id d gw : (gw, id) ∈ gateway_networks d -> gw ∈ gatewaysBefore id d.
Proof.
  intros Hgn. unfold gatewaysBefore. apply elem_of_rows, elem_of_remove_dups, list_elem_of_omap.
  assert (forall og, (Some (gw, id), og) ∈ fullJoin id d ->
    exists r, r ∈ List.filter (joinKept id) (fullJoin id d) /\ joinID r = Some gw) as Hrow.
  { intros og Hr. exists (Some (gw, id), og). split; [|done]. apply list_elem_of_In, filter_In.
    split; [by apply list_elem_of_In|]. unfold joinKept. cbn. by rewrite String.eqb_refl. }
  destruct (List.filter (legacy_of id) (gateways d)) as [|g gs] eqn:Hm.
  - apply (Hrow None). unfold fullJoin. rewrite Hm. apply elem_of_app. right. apply elem_of_app. left.
    by apply (list_elem_of_fmap_2 (fun gn => (Some gn, None))).
  - apply (Hrow (Some g)). unfold fullJoin. rewrite Hm. apply elem_of_app. left.
    apply list_elem_of_bind. exists (gw, id). split; [|done]. apply list_elem_of_bind. exists g. split; [|left]. left.
Qed.

Lemma network_delete_spec fail rawId d :
  fail 0%nat = false ->
  wp (delete_ (Some (hubGatewayRefresher (fun _ => no_faults) h)) fail id rawId)
     (fun _ d' es => exists nid, uuid_Parse rawId = Some nid /\ d' = drop_network nid d /\
        forall gw s c, (gw, nid) ∈ gateway_networks d -> streams h !! gw = Some s ->
          buildFirewallConfig no_faults d' gw = Some c -> Send s (EvFirewallUpdate (Some c)) ∈ es)
     (fun _ _ _ => True) d.
Proof.
  intros Hf. unfold delete_. apply wp_bind, wp_the. destruct (uuid_Parse rawId) as [nid|]; [|done].
  apply wp_bind, wp_asks. rewrite Hf. apply wp_bind, wp_interfere, wp_bind. unfold deleting, id.
  apply wp_exec. destruct (fail 1%nat); [done|].
  destruct (affected (delete_network nid) d) as [[n d1]|e] eqn:He; [|done].
  apply wp_bind, wp_emit, wp_ret. unfold affected, delete_network in He. case_match; simplify_eq.
  exists nid. split; [done|]. split; [done|]. intros gw s c Hgn Hs (r & Hb & ->)%fmap_Some.
  pose proof (gatewaysBefore_complete nid d gw Hgn) as Hin.
  destruct (gatewaysBefore nid d) as [|g0 gs] eqn:Hg; [by apply elem_of_nil in Hin|].
  rewrite app_nil_r. cbn [app]. unfold hubGatewayRefresher.
  apply elem_of_refresh. exists gw, r. split; [done|]. split; [done|]. by left.
Qed.

(** Deleting a network tells the gateways that served it: provided the
    query for them answers, each connected one is sent its configuration
    without that network. *)
Theorem network_delete_refreshes fail rawId d st b d' es gw nid s c :
  fail 0%nat = false ->
  run (serve (Some (hubGatewayRefresher (fun _ => no_faults) h)) fail id (Delete rawId)) d = (Reply st b, d', es) ->
  uuid_Parse rawId = Some nid -> (gw, nid) ∈ gateway_networks d -> streams h !! gw = Some s ->
  buildFirewallConfig no_faults d' gw = Some c ->
  Send s (EvFirewallUpdate (Some c)) ∈ es /\ (nid ∉ map n_id (networks d')) /\
  (forall dev, dev ∈ devices d' -> d_network_id dev <> Some nid).
Proof.
  intros Hf Hrun Hid Hgn Hs Hc.
  destruct (run_Reply _ _ _ _ _ _ _ Hrun (network_delete_spec fail rawId d Hf)) as (nid' & Hid' & -> & Hsent).
  rewrite Hid in Hid'. injection Hid' as <-. split; [by eapply Hsent|]. split.
  - intros (x & -> & [_ Hx]%elem_of_without)%list_elem_of_fmap. done.
  - intros dev Hdev E. cbn in Hdev. assert (nid ∈ device_nets (map (detach nid) (devices d))) as Hn
      by (apply list_elem_of_omap; eauto). by apply device_nets_detach in Hn as [_ ?].
Qed.
End deletion.

(** ** Concrete requests *)

Definition demo_serve (fail : nat -> bool) (r : request) : H db effect (Z * networkBody) :=
  @serve sql_default toy_device_env toy_pg effect
    (Some (@hubGatewayRefresher range_default sql_default (fun _ => no_faults) (hub1 false))) fail id r.

Definition after (fail : nat -> bool) (r : request) (d : db) : db := (run (demo_serve fail r) d).1.2.

Definition lan : createNetworkRequest := {|
  cn_Name := "lan"; cn_Address := "192.168.7.0/24"; cn_TunnelCIDR := None; cn_DNS := ["192.168.7.1"];
  cn_Port := 0; cn_Keepalive := 0 |}.

Lemma demo_valid : networks_valid demo_db.
Proof.
  repeat (apply Forall_cons; split;
    [do 3 (split; [cbn; first [lia|constructor]|]); apply (bool_decide_unpack _); vm_compute; exact I|]).
  by apply Forall_nil.
Qed.

Lemma networks_stay_valid_witness :
  reply_status (run (demo_serve noFail (Create "n9" 5 (Some lan))) demo_db).1.1 = 201 /\
  length (networks (after noFail (Create "n9" 5 (Some lan)) demo_db)) = 4%nat /\
  networks_valid (after noFail (Create "n9" 5 (Some lan)) demo_db).
Proof.
  split; [vm_compute; reflexivity|]. split; [vm_compute; reflexivity|].
  exact (@networks_stay_valid sql_default toy_device_env toy_pg effect
    (Some (@hubGatewayRefresher range_default sql_default (fun _ => no_faults) (hub1 false)))
    noFail id (Create "n9" 5 (Some lan)) demo_db (fun d Hd => Hd) demo_valid).
Defined.

Lemma listMy_matches_policy_witness :
  exists l, run (demo_serve noFail (ListMy (Some (claims_of "ann" false)))) demo_db =
      (Reply 200 (NbMine l 1), demo_db, []) /\
    l ≡ₚ map networkRow (List.filter (grantedByGroup demo_db ann_dev) (networks demo_db)) /\
    map nr_ID l = ["n3"].
Proof.
  eexists. split; [vm_compute; reflexivity|]. split; [|reflexivity].
  refine (proj2 (proj2 (proj2 (@listMy_matches_policy sql_default toy_device_env toy_pg effect
    (Some (@hubGatewayRefresher range_default sql_default (fun _ => no_faults) (hub1 false)))
    noFail id (claims_of "ann" false) demo_db 200 _ 1 demo_db [] ann_dev eq_refl _)))).
  vm_compute. reflexivity.
Defined.

Lemma network_delete_refreshes_witness :
  exists c, @buildFirewallConfig range_default sql_default no_faults (after noFail (Delete "n1") demo_db) "g1" = Some c /\
    Send 1%nat (EvFirewallUpdate (Some c)) ∈ (run (demo_serve noFail (Delete "n1")) demo_db).2.
Proof.
  eexists. split; [vm_compute; reflexivity|].
  eapply (@network_delete_refreshes range_default sql_default toy_device_env toy_pg (hub1 false) noFail "n1" demo_db
    204 NbNone (after noFail (Delete "n1") demo_db) _ "g1" "n1");
    [reflexivity|vm_compute; reflexivity|reflexivity|left|reflexivity|vm_compute; reflexivity].
Defined.

(** ** Where the code falls short *)

(** An error of the query for the gateways is ignored: nobody is refreshed.
    PostgreSQL refuses that query, a full join whose condition is not a
    comparison of the two sides. *)
Theorem network_delete_silent :
  let fail k := (k =? 0)%nat in
  (run (demo_serve fail (Delete "n1")) demo_db).2 = [] /\
  @buildFirewallConfig range_default sql_default no_faults (after fail (Delete "n1") demo_db) "g1" <>
  @buildFirewallConfig range_default sql_default no_faults demo_db "g1".
Proof. split; [vm_compute; reflexivity|by vm_compute]. Qed.

(** Changing the address or the activity of a network changes the rules of the
    gateways and refreshes none. *)
Theorem network_update_silent :
  let r := Update 5 "n3" (Some {| np_name := None; np_address := None; np_tunnel := None; np_dns := None;
                                  np_port := None; np_keepalive := None; np_active := Some false |}) in
  reply_status (run (demo_serve noFail r) demo_db).1.1 = 200 /\ (run (demo_serve noFail r) demo_db).2 = [] /\
  @buildFirewallConfig range_default sql_default no_faults (after noFail r demo_db) "g1" <>
  @buildFirewallConfig range_default sql_default no_faults demo_db "g1".
Proof. split; [vm_compute; reflexivity|]. split; [vm_compute; reflexivity|by vm_compute]. Qed.

(** An empty [tunnel_cidr] passes the checks and fails in the database. *)
Theorem empty_tunnel_is_an_error :
  (run (demo_serve noFail (Create "n9" 5 (Some {| cn_Name := "lan"; cn_Address := "192.168.7.0/24";
     cn_TunnelCIDR := Some ""; cn_DNS := []; cn_Port := 0; cn_Keepalive := 0 |}))) demo_db).1.1 =
  Failure 500 "failed to create network".
Proof. vm_compute. reflexivity. Qed.

(** Deleting a network deletes the gateways whose legacy column names it, with
    the other networks they serve. *)
Theorem network_delete_drops_gateway :
  g_id <$> gateways (after noFail (Delete "n2") demo_db) = [] /\
  gateway_networks (after noFail (Delete "n2") demo_db) = [] /\ gateway_networks demo_db = [("g1", "n1")].
Proof. repeat split; vm_compute; reflexivity. Qed.
