(* ===== verification/GatewayAdmin.v ===== *)
(** * The gateway endpoints

    [internal/core/handler/gateway.go]: gateways, their keys and tokens, and the
    networks they serve. *)

From S2P Require Import Prelude Net Schema Auth Login Policy Hub Devices Gateways Http Tables Groups Networks.
From Stdlib Require Import ZArith Lia Ascii String.
From stdpp Require Import base gmap strings list.
Import Auth.Token.

Local Open Scope Z_scope.
Local Open Scope string_scope.
Local Open Scope outpost_scope.

(** [GatewayNetworkChangeNotifier]. *)
Definition network_notifier (E : Type) : Type := db -> string -> list E.

Definition hubNetworkNotifier `{GoRange, SqlOrder} (fails : bool) (f : fw_faults) (fs : s2s_faults)
    (t : s2s_tables) (h : StreamHub) : network_notifier effect :=
  fun d gw => NotifyGatewayNetworksChanged fails f fs d t h gw.

Record gatewayNetworkInfo := { gni_ID : string; gni_Name : string; gni_Address : string }.

Record gatewayResponse := {
  gw_ID : string;
  gw_NetworkID : option string;
  gw_Name : string;
  gw_PublicIP : option string;
  gw_WireguardPubkey : string;
  gw_Endpoint : string;
  gw_IsActive : bool;
  gw_HealthStatus : string;
  gw_Priority : Z;
  gw_LastSeen : option Z;
  gw_CreatedAt : Z;
  gw_UpdatedAt : Z;
  gw_NetworkIDs : list string;
  gw_Networks : list gatewayNetworkInfo;
}.

Inductive gatewayBody :=
| WbPage (l : list gatewayResponse) (total page perPage : Z)
| WbGateway (g : gatewayResponse)
| WbCreated (g : gatewayResponse) (token privateKey : string)
| WbNone.

Record createGatewayRequest := {
  cw_Name : string;
  cw_NetworkID : string;
  cw_NetworkIDs : list string;
  cw_Endpoint : string;
  cw_PublicIP : option string;
  cw_Priority : option Z;
}.

Record updateGatewayRequest := {
  uw_patch : gateway_patch;
  uw_NetworkIDs : list string;
}.

Definition gatewayRow (ids : list string) (g : gateway) : gatewayResponse := {|
  gw_ID := g_id g; gw_NetworkID := g_network_id g; gw_Name := g_name g;
  gw_PublicIP := option_map host (g_public_ip g); gw_WireguardPubkey := g_pubkey g; gw_Endpoint := g_endpoint g;
  gw_IsActive := g_is_active g; gw_HealthStatus := g_health_status g; gw_Priority := g_priority g;
  gw_LastSeen := g_last_seen g; gw_CreatedAt := g_created_at g; gw_UpdatedAt := g_updated_at g;
  gw_NetworkIDs := ids; gw_Networks := [] |}.

Definition addNetworks (l : list gatewayNetworkInfo) (g : gatewayResponse) : gatewayResponse := {|
  gw_ID := gw_ID g; gw_NetworkID := gw_NetworkID g; gw_Name := gw_Name g; gw_PublicIP := gw_PublicIP g;
  gw_WireguardPubkey := gw_WireguardPubkey g; gw_Endpoint := gw_Endpoint g; gw_IsActive := gw_IsActive g;
  gw_HealthStatus := gw_HealthStatus g; gw_Priority := gw_Priority g; gw_LastSeen := gw_LastSeen g;
  gw_CreatedAt := gw_CreatedAt g; gw_UpdatedAt := gw_UpdatedAt g;
  gw_NetworkIDs := (gw_NetworkIDs g ++ map gni_ID l)%list; gw_Networks := (gw_Networks g ++ l)%list |}.

(** [generateToken]: random bytes in hex, and the hash that is stored. *)
Definition generateToken `{AuthEnv} (random : option string) : option (string * string) :=
  option_map (fun p => (p, HashToken p)) random.

Section handlers.
Context `{SqlOrder} `{DeviceEnv} `{AuthEnv} `{PgText} {E : Type} (notifier : option (network_notifier E)).
Context (fail : nat -> bool).

(** [gateway_networks JOIN networks .. WHERE gn.gateway_id = ANY($1)]. *)
Definition junctionRows (ids : list string) (d : db) : list (string * gatewayNetworkInfo) :=
  rows 72 (gn ← gateway_networks d; n ← networks d;
    if bool_decide (gn.1 ∈ ids) && String.eqb (n_id n) gn.2
    then [(gn.1, {| gni_ID := n_id n; gni_Name := n_name n; gni_Address := cidr_text (n_address n) |})] else []).

(** Appends its networks to each gateway; an error is only logged. *)
Definition loadGatewayNetworks (fails : bool) (d : db) (l : list gatewayResponse) : list gatewayResponse :=
  if fails then l else
  let rs := junctionRows (map gw_ID l) d in
  map (fun g => addNetworks (map snd (List.filter (fun r => String.eqb r.1 (gw_ID g)) rs)) g) l.

Definition loadOne (k : nat) (g : gatewayResponse) : H db E gatewayResponse :=
  asks (fun d => match loadGatewayNetworks (fail k) d [g] with [g] => g | _ => g end).

Definition list_ (page perPage : string) : H db E (Z * gatewayBody) :=
  let '(p, pp) := parsePagination page perPage in
  let! total := query (fail 0%nat) (fun d => Z.of_nat (length (gateways d))) 500 "failed to count gateways" in
  let! win := query (fail 1%nat)
    (fun d => window pp (pageOffset p pp) (rows_by 71 (fun g => - g_created_at g) (gateways d)))
    500 "failed to query gateways" in
  let! l := the win 500 "failed to query gateways" in
  do! require (match l with [] => true | _ => negb (fail 2%nat) end) 500 "failed to scan gateway" in
  do! require (negb (fail 3%nat)) 500 "failed to iterate gateways" in
  let! gs := asks (fun d => loadGatewayNetworks (fail 4%nat) d (map (gatewayRow []) l)) in
  respondJSON 200 (WbPage gs total p pp).

(** The loop over the identifiers, up to the first one that does not parse. *)
Fixpoint parseIDs (l : list string) : H db E (list string) :=
  match l with
  | [] => ret []
  | nid :: l =>
      let! id := the (uuid_Parse nid) 400 ("invalid network_id: " ++ nid) in
      let! ids := parseIDs l in
      ret (id :: ids)
  end.

Definition defaultPort (endpoint : string) : string :=
  if strings_Contains endpoint ":" then endpoint else endpoint ++ ":51820".

Definition collectIDs (req : createGatewayRequest) : H db E (list string) :=
  match cw_NetworkIDs req with
  | _ :: _ => parseIDs (cw_NetworkIDs req)
  | [] => if negb (String.eqb (cw_NetworkID req) "") then
            let! id := the (uuid_Parse (cw_NetworkID req)) 400 "invalid network_id" in ret [id]
          else ret []
  end.

(** One row of the junction table per network. *)
Definition assign (k : nat) (gid : string) (nids : list string) : H db E unit :=
  forM nids (fun nid =>
    exec (fail k) (insert_served gid nid) (fun _ => (500, "failed to assign network to gateway"))).

Definition create (newID : string) (now : Z) (random : option string) (body : option createGatewayRequest)
  : H db E (Z * gatewayBody) :=
  let! req := the body 400 "invalid JSON" in
  do! require (negb (String.eqb (cw_Name req) "")) 400 "name is required" in
  do! require (negb (String.eqb (cw_Endpoint req) "")) 400 "endpoint is required" in
  do! require (match cw_PublicIP req with Some ip => negb (String.eqb ip "") | None => false end) 400
    "public_ip is required: clients need a reachable IP address for the WireGuard endpoint" in
  do! require (validIP (default "" (cw_PublicIP req))) 400
    "public_ip must be a valid IPv4 or IPv6 address (no CIDR, no port)" in
  let! networkIDs := collectIDs req in
  let! primary := the (head networkIDs) 400 "at least one network is required" in
  let! privKey := the GeneratePrivateKey 500 "failed to generate keypair" in
  let! pubKey := the (wg_PublicKey privKey) 500 "failed to derive public key" in
  let! tok := the (generateToken random) 500 "failed to generate token" in
  do! require (negb (fail 0%nat)) 500 "failed to begin transaction" in
  let! g := atomically (
    let! g := exec (fail 1%nat) (insert_gateway newID now {| ng_network := primary; ng_name := cw_Name req;
        ng_pubkey := pubKey; ng_privkey := privKey; ng_endpoint := defaultPort (cw_Endpoint req);
        ng_token_hash := tok.2; ng_public_ip := cw_PublicIP req; ng_priority := default 0 (cw_Priority req) |})
      (fun e => match e with
                | ErrUnique c =>
                    (409, if strings_Contains c "name" then "gateway with this name already exists"
                          else if strings_Contains c "endpoint" then "gateway with this endpoint already exists"
                          else "gateway already exists")
                | _ => (500, "failed to create gateway")
                end) in
    do! assign 2 (g_id g) networkIDs in
    do! require (negb (fail 3%nat)) 500 "failed to commit transaction" in
    ret g) in
  let! r := loadOne 4 (gatewayRow networkIDs g) in
  respondJSON 201 (WbCreated r tok.1 privKey).

Definition get (rawId : string) : H db E (Z * gatewayBody) :=
  let! id := the (uuid_Parse rawId) 400 "invalid UUID" in
  let! row := query (fail 0%nat) (fun d => byKey g_id (gateways d) id) 500 "failed to fetch gateway" in
  let! g := the row 404 "gateway not found" in
  let! r := loadOne 1 (gatewayRow [] g) in
  respondJSON 200 (WbGateway r).

(** The part of an update that replaces the networks; the update of the legacy
    column is only logged when it fails, and says whether the transaction is
    still good. *)
Definition replaceNetworks (id : string) (raw : list string) : H db E bool :=
  match raw with
  | [] => ret true
  | _ =>
      let! networkIDs := parseIDs raw in
      do! exec (fail 2%nat) (delete_served id) (fun _ => (500, "failed to update gateway networks")) in
      do! assign 3 id networkIDs in
      let! ok := attempt (fail 4%nat) (relink id (hd "" networkIDs)) in
      ret (bool_decide (is_Some ok))
  end.

Definition update (now : Z) (rawId : string) (body : option updateGatewayRequest) : H db E (Z * gatewayBody) :=
  let! id := the (uuid_Parse rawId) 400 "invalid UUID" in
  let! req := the body 400 "invalid JSON" in
  do! require (match gp_public_ip (uw_patch req) with
               | Some ip => String.eqb ip "" || validIP ip
               | None => true
               end) 400 "public_ip must be a valid IPv4 or IPv6 address (no CIDR, no port)" in
  do! require (negb (fail 0%nat)) 500 "failed to begin transaction" in
  let! g := atomically (
    let! g := exec (fail 1%nat) (update_gateway now id (uw_patch req)) (fun e =>
      match e with
      | ErrNoRows => (404, "gateway not found")
      | ErrUnique _ => (409, "gateway with this name or endpoint already exists")
      | _ => (500, "failed to update gateway")
      end) in
    let! ok := replaceNetworks id (uw_NetworkIDs req) in
    do! require (ok && negb (fail 5%nat)) 500 "failed to commit transaction" in
    ret g) in
  do! emit (fun d => match uw_NetworkIDs req, notifier with
                     | _ :: _, Some n => n d id
                     | _, _ => []
                     end) in
  let! r := loadOne 6 (gatewayRow [] g) in
  respondJSON 200 (WbGateway r).

Definition delete_ (rawId : string) : H db E (Z * gatewayBody) :=
  let! id := the (uuid_Parse rawId) 400 "invalid UUID" in
  do! deleting (fail 0%nat) (delete_gateway id) "failed to delete gateway" "gateway not found" in
  respondJSON 204 WbNone.
End handlers.

(** ** The routes *)

Inductive request :=
| List (page perPage : string)
| Create (newID : string) (now : Z) (random : option string) (body : option createGatewayRequest)
| Get (id : string)
| Update (now : Z) (id : string) (body : option updateGatewayRequest)
| Delete (id : string).

Definition admin_only (r : request) : bool := match r with List _ _ | Get _ => false | _ => true end.

Section facts.
Context `{SqlOrder} `{DeviceEnv} `{AuthEnv} `{PgText} {E : Type} (notifier : option (network_notifier E)).

Definition serve (fail : nat -> bool) (r : request) : H db E (Z * gatewayBody) :=
  match r with
  | List page perPage => list_ fail page perPage
  | Create newID now random body => create fail newID now random body
  | Get id => get fail id
  | Update now id body => update notifier fail now id body
  | Delete id => delete_ fail id
  end.

Lemma pure_parseIDs l : pure (parseIDs (E := E) l).
Proof.
  induction l as [|nid l IH]; cbn [parseIDs]; [apply pure_ret|]. apply pure_bind; [apply pure_the|]. intros id.
  apply pure_bind; [done|]. intros ids. apply pure_ret.
Qed.

Lemma pure_collectIDs req : pure (collectIDs (E := E) req).
Proof.
  unfold collectIDs. repeat case_match; auto using pure_parseIDs, pure_bind, pure_the with pure.
Qed.

Lemma silent_assign fail k gid nids : silent (assign (E := E) fail k gid nids).
Proof. apply silent_forM. intros nid. apply silent_exec. Qed.

Lemma gateways_integrity fail r : preserves integrity (serve fail r).
Proof.
  assert (forall req, preserves integrity (collectIDs (E := E) req)) as Hc
    by (intros; apply pure_preserves, pure_collectIDs).
  assert (forall l, preserves integrity (parseIDs (E := E) l)) as Hp
    by (intros; apply pure_preserves, pure_parseIDs).
  destruct r; cbn [serve]; unfold list_, create, get, update, delete_, replaceNetworks, assign, loadOne;
    repeat first [ apply Hc | apply Hp | progress invariant_steps | solve [auto with integrity handlers] ].
Qed.
End facts.
#[export] Hint Resolve pure_parseIDs pure_collectIDs : pure.

Section trace.
Context `{SqlOrder} `{DeviceEnv} `{AuthEnv} `{PgText} {E : Type} (notifier : option (network_notifier E)).

Lemma gateways_clean fail r : clean (serve notifier fail r).
Proof.
  destruct r; cbn [serve]; unfold list_, create, get, update, delete_, replaceNetworks, loadOne, deleting, assign;
    clean_steps.
Qed.
End trace.

(** ** From creation to configuration *)

Section creation.
Context `{GoRange} `{SqlOrder} `{DeviceEnv} `{AuthEnv} `{PgText} {E : Type} (notifier : option (network_notifier E)).

Definition sees (d : db) (gid : string) (nids : list string) : Prop :=
  forall n, (gid, n) ∈ gateway_networks d <-> n ∈ nids.

(** The tables with more rows in the junction table. *)
Lemma assign_spec fail k gid nids d :
  wp (assign (E := E) fail k gid nids)
     (fun _ d' es => es = [] /\ d' = set_gateway_networks d (gateway_networks d ++ map (pair gid) nids)%list)
     (fun _ _ _ => True) d.
Proof.
  revert d. unfold assign. induction nids as [|n nids IH]; intros d; cbn [forM].
  { apply wp_ret. split; [done|]. cbn. rewrite app_nil_r. by destruct d. }
  apply wp_bind, wp_exec. destruct (fail k); [done|]. destruct (insert_served gid n d) as [[[] d1]|] eqn:Hi; [|done].
  eapply wp_mono; [| |apply IH]; [|done]. intros _ d2 es [-> ->]. split; [done|].
  unfold insert_served in Hi. repeat case_match; simplify_eq. cbn. by rewrite <- app_assoc.
Qed.

Lemma insert_gateway_spec newID now r d g d1 :
  insert_gateway newID now r d = inl (g, d1) ->
  d1 = set_gateways d (gateways d ++ [g])%list /\ g_id g = newID /\ (newID ∉ map g_id (gateways d)) /\
  g_token_hash g = ng_token_hash r /\ g_is_active g = true /\ g_privkey g = Some (ng_privkey r) /\
  g_name g = ng_name r /\ g_network_id g = Some (ng_network r).
Proof. unfold insert_gateway. repeat case_match; intros; simplify_eq. lookups. done. Qed.

(** The networks a request names. *)
Definition requested (req : createGatewayRequest) : option (list string) :=
  match cw_NetworkIDs req with
  | _ :: _ => mapM uuid_Parse (cw_NetworkIDs req)
  | [] => if negb (String.eqb (cw_NetworkID req) "") then option_map (fun x => [x]) (uuid_Parse (cw_NetworkID req))
          else Some []
  end.

Lemma parseIDs_spec l d :
  wp (parseIDs (E := E) l) (fun ids d' es => d' = d /\ es = [] /\ mapM uuid_Parse l = Some ids)
     (fun _ _ _ => True) d.
Proof.
  induction l as [|nid l IH]; cbn [parseIDs]; [by apply wp_ret|]. apply wp_bind, wp_the.
  destruct (uuid_Parse nid) as [x|] eqn:Ex; [|done]. apply wp_bind. eapply wp_mono; [| |apply IH]; [|done].
  intros ids d1 es (-> & -> & Hids). apply wp_ret. split; [done|]. split; [done|]. cbn. by rewrite Ex, Hids.
Qed.

Lemma collectIDs_spec req d :
  wp (collectIDs (E := E) req) (fun ids d' es => d' = d /\ es = [] /\ requested req = Some ids)
     (fun _ _ _ => True) d.
Proof.
  unfold collectIDs, requested. destruct (cw_NetworkIDs req) as [|x l]; [|apply parseIDs_spec].
  destruct (negb _); [|by apply wp_ret]. apply wp_bind, wp_the. by destruct (uuid_Parse _); [apply wp_ret|].
Qed.

(** What an accepted creation leaves: the row with the hash of the token that
    was returned, and one junction row per network. *)
Definition gateway_created (req : createGatewayRequest) (r : gatewayResponse) (token priv : string)
    (d d' : db) : Prop :=
  exists g nids, requested req = Some nids /\ is_Some (head nids) /\ gateways d' = (gateways d ++ [g])%list /\ g_id g = gw_ID r /\ (g_id g ∉ map g_id (gateways d)) /\
    g_token_hash g = HashToken token /\ g_is_active g = true /\ g_privkey g = Some priv /\
    gateway_networks d' = (gateway_networks d ++ map (pair (g_id g)) nids)%list.

Lemma create_spec fail newID now random req d :
  wp (create (E := E) fail newID now random (Some req))
     (fun a d' _ => match a.2 with WbCreated r token priv => random = Some token /\ gateway_created req r token priv d d'
                    | _ => False end)
     (fun _ _ _ => True) d.
Proof.
  unfold create. apply wp_bind, wp_the. apply wp_bind, wp_require. case_match; [|done].
  apply wp_bind, wp_require. case_match; [|done].
  apply wp_bind, wp_require. destruct (match cw_PublicIP req with Some _ => _ | None => _ end); [|done].
  apply wp_bind, wp_require. case_match; [|done].
  apply wp_bind. eapply wp_mono; [| |apply collectIDs_spec]; [|done]. intros nids d0 es (-> & -> & Hreq).
  apply wp_bind, wp_the. destruct (head nids) as [primary|] eqn:Hhd; [|done].
  apply wp_bind, wp_the. destruct GeneratePrivateKey as [priv|]; [|done].
  apply wp_bind, wp_the. destruct (wg_PublicKey priv) as [pub|]; [|done].
  apply wp_bind, wp_the. destruct random as [tok|]; [|done]. cbn [generateToken option_map fst snd].
  apply wp_bind, wp_require. case_match; [|done]. apply wp_bind, wp_atomically, wp_bind, wp_exec.
  destruct (fail 1%nat); [done|]. destruct (insert_gateway _ _ _ d) as [[g d1]|] eqn:Hg; [|done].
  apply insert_gateway_spec in Hg as (-> & Hid & Hnew & Htok & Hact & Hpriv & _ & Hnet).
  apply wp_bind. eapply wp_mono; [| |apply assign_spec]; [|done]. intros _ d2 es [-> ->].
  apply wp_bind, wp_require. case_match; [|done]. apply wp_ret. apply wp_bind. unfold loadOne. apply wp_asks, wp_ret.
  cbn [snd]. split; [done|]. exists g, nids. rewrite Hid, Hhd. split; [done|]. split; [by eexists|]. split; [done|].
  split; [by unfold loadGatewayNetworks; destruct (fail 4%nat)|]. done.
Qed.

Lemma find_last {A} (P : A -> bool) l x : (forall y, y ∈ l -> P y = false) -> P x = true ->
  List.find P (l ++ [x])%list = Some x.
Proof.
  intros Hl Hx. induction l as [|y l IH]; cbn; [by rewrite Hx|]. rewrite (Hl y) by by left.
  apply IH. intros z Hz. apply Hl. by right.
Qed.

(** The token and the private key a creation returns are the ones the new
    gateway needs: with them it is given a configuration, its own, with its
    private key, provided no other gateway's token has the same hash; and it
    serves exactly the networks of the request. *)
Theorem created_gateway_configured fail newID now random req d st r token priv d' es f t :
  run (serve notifier fail (Create newID now random (Some req))) d = (Reply st (WbCreated r token priv), d', es) ->
  fk (map fst (gateway_networks d)) (map g_id (gateways d)) ->
  token <> "" -> (HashToken token ∉ map g_token_hash (gateways d)) -> tokenFails f = false ->
  (exists cfg, GetConfig HashToken f d' t token = RpcOk cfg /\ GatewayId cfg = gw_ID r /\ PrivateKey cfg = priv) /\
  exists nids, requested req = Some nids /\ nids <> [] /\ sees d' (gw_ID r) nids.
Proof.
  intros Hrun Hfk Htok Hfresh Hf.
  destruct (run_Reply _ _ _ _ _ _ _ Hrun (create_spec fail newID now random req d))
    as (_ & g & nids & Hreq & Hne & Hgs & Hid & Hnew & Hhash & Hact & Hpriv & Hgn).
  assert (gatewayByToken HashToken d' token = Some g) as Hby.
  { unfold gatewayByToken. rewrite Hgs. apply find_last.
    - intros y Hy. apply andb_false_iff. left. apply String.eqb_neq. intros E'. apply Hfresh.
      rewrite <- E'. by apply (list_elem_of_fmap_2 g_token_hash).
    - by rewrite Hhash, String.eqb_refl, Hact. }
  split.
  - unfold GetConfig. rewrite (proj2 (String.eqb_neq token "") Htok), Hf, Hby.
    destruct (portAndAddresses _) as [port addrs]. destruct (match addrs with [] => _ | _ => _ end) as [p a].
    eexists. split; [reflexivity|]. cbn. by rewrite Hid, Hpriv.
  - exists nids. rewrite <- Hid. split; [done|]. split; [intros ->; by destruct Hne|].
    intros n. rewrite Hgn, elem_of_app, list_elem_of_fmap. split; [|naive_solver].
    intros [Hold|(m & [= ->] & Hm)]; [|done]. destruct Hnew. apply Hfk.
    by apply (list_elem_of_fmap_2 fst) in Hold.
Qed.
End creation.

(** ** Replacing the networks of a gateway *)

Section replacement.
Context `{GoRange} `{SqlOrder} `{DeviceEnv} `{AuthEnv} `{PgText}.
Context (fails : bool) (fs : s2s_faults) (t : s2s_tables) (h : StreamHub).

Definition hub_notifier : option (network_notifier effect) :=
  Some (hubNetworkNotifier fails no_faults fs t h).

(** The networks of one gateway are replaced, those of the others stay. *)
Definition networks_replaced (id : string) (nids : list string) (d d' : db) : Prop :=
  sees d' id nids /\ (forall gw n, gw <> id -> (gw, n) ∈ gateway_networks d' <-> (gw, n) ∈ gateway_networks d) /\
  exists g, g ∈ gateways d' /\ g_id g = id /\ g_network_id g = head nids.

Lemma update_gateway_spec now id p d g d1 :
  update_gateway now id p d = inl (g, d1) ->
  gateway_networks d1 = gateway_networks d /\ g ∈ gateways d1 /\ g_id g = id.
Proof.
  unfold update_gateway, modify_gateway. repeat case_match; intros; simplify_eq.
  match goal with Hb : byKey _ _ _ = Some _ |- _ => apply byKey_Some in Hb as [Hin Hk] end.
  split; [done|]. split; [|done]. cbn. apply elem_of_upd. right. eauto.
Qed.

Lemma relink_spec id nid d d1 :
  relink id nid d = inl (tt, d1) -> id ∈ map g_id (gateways d) ->
  gateway_networks d1 = gateway_networks d /\
  exists g, g ∈ gateways d1 /\ g_id g = id /\ g_network_id g = Some nid.
Proof.
  unfold relink, modify_gateway. destruct (byKey g_id (gateways d) id) as [g|] eqn:Hb.
  - apply byKey_Some in Hb as [Hin Hk]. repeat case_match; intros; simplify_eq. split; [done|].
    exists (relink_gateway nid g). cbn. split; [|done]. apply elem_of_upd. right. eauto.
  - intros _ Hin. by apply byKey_None in Hb.
Qed.

Lemma replaceNetworks_spec fail id raw d :
  raw <> [] -> id ∈ map g_id (gateways d) ->
  wp (replaceNetworks (E := effect) fail id raw)
     (fun ok d' es => es = [] /\ (ok = true -> exists nids, mapM uuid_Parse raw = Some nids /\ networks_replaced id nids d d'))
     (fun _ _ _ => True) d.
Proof.
  intros Hne Hin. unfold replaceNetworks. destruct raw as [|x raw]; [done|].
  apply wp_bind. eapply wp_mono; [| |apply parseIDs_spec]; [|done]. intros nids d1 es (-> & -> & Hids).
  apply wp_bind, wp_exec. destruct (fail 2%nat); [done|]. cbn [delete_served].
  apply wp_bind. eapply wp_mono; [| |apply assign_spec]; [|done]. intros _ d2 es [-> ->].
  apply wp_bind, wp_attempt. destruct (fail 4%nat); [by apply wp_ret|].
  destruct (relink _ _ _) as [[[] d3]|] eqn:Hr; [|by apply wp_ret]. apply wp_ret. split; [done|]. intros _.
  exists nids. split; [done|]. apply relink_spec in Hr as [Hgn (g & Hg & Hk & Hn)]; [|done].
  assert (nids <> []) as Hnn by (intros ->; by apply mapM_Some, Forall2_length in Hids).
  split; [|split].
  - intros n. rewrite Hgn. cbn. rewrite elem_of_app, elem_of_without, list_elem_of_fmap. naive_solver.
  - intros gw n Hne'. rewrite Hgn. cbn. rewrite elem_of_app, elem_of_without, list_elem_of_fmap. naive_solver.
  - exists g. split; [done|]. split; [done|]. rewrite Hn. by destruct nids.
Qed.

Lemma update_spec fail now rawId req d :
  uw_NetworkIDs req <> [] ->
  wp (update hub_notifier fail now rawId (Some req))
     (fun _ d' es => exists id nids, uuid_Parse rawId = Some id /\ mapM uuid_Parse (uw_NetworkIDs req) = Some nids /\
        networks_replaced id nids d d' /\ es = NotifyGatewayNetworksChanged fails no_faults fs d' t h id)
     (fun _ _ _ => True) d.
Proof.
  intros Hne. unfold update. apply wp_bind, wp_the. destruct (uuid_Parse rawId) as [id|]; [|done].
  apply wp_bind, wp_the, wp_bind, wp_require. destruct (match gp_public_ip _ with Some _ => _ | None => _ end); [|done].
  apply wp_bind, wp_require. case_match; [|done]. apply wp_bind, wp_atomically, wp_bind, wp_exec.
  destruct (fail 1%nat); [done|]. destruct (update_gateway _ _ _ d) as [[g d1]|] eqn:Hu; [|done].
  apply update_gateway_spec in Hu as (Hgn & Hg & Hid).
  apply wp_bind. eapply wp_mono; [| |apply replaceNetworks_spec]; [|done|done|].
  2: { rewrite <- Hid. by apply (list_elem_of_fmap_2 g_id). }
  intros ok d2 es [-> Hok]. apply wp_bind, wp_require. destruct ok; [|done]. destruct (negb (fail 5%nat)); [|done].
  apply wp_ret, wp_bind, wp_emit. unfold loadOne. apply wp_bind, wp_asks, wp_ret.
  destruct (Hok eq_refl) as (nids & Hids & Hs & Hothers & Hprim). exists id, nids.
  split; [done|]. split; [done|]. split.
  - split; [done|]. split; [|done]. intros gw n Hgw. by rewrite Hothers, Hgn.
  - cbn [hub_notifier app]. destruct (uw_NetworkIDs req); [done|]. by rewrite app_nil_r.
Qed.

(** An accepted update with networks replaces exactly the networks of that
    gateway, keeps the primary one in the legacy column, and pushes the new
    configuration to the gateway when it is connected. *)
Theorem update_replaces_networks fail now rawId req d st b d' es id :
  uw_NetworkIDs req <> [] -> uuid_Parse rawId = Some id ->
  run (serve hub_notifier fail (Update now rawId (Some req))) d = (Reply st b, d', es) ->
  exists nids, mapM uuid_Parse (uw_NetworkIDs req) = Some nids /\ networks_replaced id nids d d' /\
    forall s c, streams h !! id = Some s -> buildFirewallConfig no_faults d' id = Some c ->
      Send s (EvFirewallUpdate (Some c)) ∈ es.
Proof.
  intros Hne Hid Hrun.
  destruct (run_Reply _ _ _ _ _ _ _ Hrun (update_spec fail now rawId req d Hne)) as (id' & nids & Hid' & Hids & Hrep & ->).
  rewrite Hid in Hid'. injection Hid' as <-. exists nids. split; [done|]. split; [done|].
  intros s c Hs (r & Hb & ->)%fmap_Some. unfold NotifyGatewayNetworksChanged. rewrite Hb.
  apply elem_of_app. left. unfold SendFirewallUpdate. apply elem_of_app. left. by apply elem_of_SendTo.
Qed.
End replacement.

(** ** Concrete requests *)

Definition no_tunnels : s2s_tables := {| s2s_tunnels := []; s2s_tunnel_members := []; s2s_routes := [] |}.

Definition s2s_ok : s2s_faults := {|
  memberFails := false; peerFails := fun _ => false; routeFails := fun _ => false |}.

Definition cfg_ok : cfg_faults := {|
  tokenFails := false; netFails := false; legacyFails := false; peersFail := false; smartFails := false;
  fwFaults := no_faults; s2sFaults := s2s_ok |}.

Definition demo_serve (r : request) : H db effect (Z * gatewayBody) :=
  @serve sql_default toy_device_env toy_env toy_pg effect
    (@hub_notifier range_default sql_default false s2s_ok no_tunnels (hub1 false)) noFail r.

Definition after (r : request) (d : db) : db := (run (demo_serve r) d).1.2.

Definition newGateway (nids : list string) : createGatewayRequest := {|
  cw_Name := "paris"; cw_NetworkID := ""; cw_NetworkIDs := nids; cw_Endpoint := "vpn.example";
  cw_PublicIP := Some "192.0.2.1"; cw_Priority := None |}.

Definition demo_create : request := Create "g9" 7 (Some "tok") (Some (newGateway ["n1"; "n3"])).

Definition created_body (b : reply gatewayBody) : gatewayResponse :=
  match b with Reply _ (WbCreated r _ _) => r | _ => gatewayRow [] (mkGateway "" None) end.

Lemma created_gateway_configured_witness :
  (exists cfg, @GetConfig range_default sql_default (HashToken (AuthEnv := toy_env)) cfg_ok
     (after demo_create demo_db) no_tunnels "tok" = RpcOk cfg /\ GatewayId cfg = "g9" /\ PrivateKey cfg = "priv") /\
  exists nids, @requested toy_device_env (newGateway ["n1"; "n3"]) = Some nids /\ nids <> [] /\
    sees (after demo_create demo_db) "g9" nids.
Proof.
  refine (@created_gateway_configured range_default sql_default toy_device_env toy_env toy_pg effect
    (@hub_notifier range_default sql_default false s2s_ok no_tunnels (hub1 false)) noFail "g9" 7 (Some "tok")
    (newGateway ["n1"; "n3"]) demo_db 201 (created_body (run (demo_serve demo_create) demo_db).1.1) "tok" "priv"
    (after demo_create demo_db) [] cfg_ok no_tunnels _ _ _ _ eq_refl);
    [vm_compute; reflexivity|apply demo_integrity|discriminate|].
  apply (bool_decide_unpack _). vm_compute. exact I.
Defined.

Definition move_to (nids : list string) : updateGatewayRequest := {|
  uw_patch := {| gp_name := None; gp_endpoint := None; gp_public_ip := None; gp_priority := None; gp_active := None |};
  uw_NetworkIDs := nids |}.

Lemma update_replaces_networks_witness :
  let r := Update 7 "g1" (Some (move_to ["n3"; "n2"])) in
  exists nids, mapM (uuid_Parse (DeviceEnv := toy_device_env)) ["n3"; "n2"] = Some nids /\
    networks_replaced "g1" nids demo_db (after r demo_db).
Proof.
  intros r.
  destruct (@update_replaces_networks range_default sql_default toy_device_env toy_env toy_pg false s2s_ok no_tunnels
    (hub1 false) noFail 7 "g1" (move_to ["n3"; "n2"]) demo_db 200
    (match (run (demo_serve r) demo_db).1.1 with Reply _ b => b | _ => WbNone end) (after r demo_db)
    (run (demo_serve r) demo_db).2 "g1") as (nids & Hids & Hrep & _);
    [discriminate|reflexivity|vm_compute; reflexivity|].
  exists nids. split; [exact Hids|exact Hrep].
Defined.

(** ** Where the code falls short *)

(** The answer to a creation lists each network twice: once as requested, once
    as loaded. *)
Theorem create_lists_networks_twice :
  gw_NetworkIDs (created_body (run (demo_serve demo_create) demo_db).1.1) = ["n1"; "n3"; "n1"; "n3"].
Proof. vm_compute. reflexivity. Qed.

(** Deleting a gateway tells nobody, the gateway included. *)
Theorem gateway_delete_silent :
  run (demo_serve (Delete "g1")) demo_db = (Reply 204 WbNone, after (Delete "g1") demo_db, []) /\
  gateways (after (Delete "g1") demo_db) = [].
Proof. split; vm_compute; reflexivity. Qed.

(** An error of the update of the legacy column is logged as harmless; it has
    aborted the transaction, so the whole request fails. *)
Theorem legacy_clash_fails_commit :
  let twin := {| g_id := "g2"; g_network_id := Some "n3"; g_name := "g1"; g_public_ip := None; g_pubkey := "k2";
    g_privkey := None; g_endpoint := "other"; g_is_active := true; g_priority := 0; g_token_hash := "h2";
    g_last_seen := None; g_health_status := "unknown"; g_consecutive_failures := 0; g_created_at := 0;
    g_updated_at := 0 |} in
  let d := set_gateways demo_db (gateways demo_db ++ [twin])%list in
  (run (demo_serve (Update 7 "g1" (Some (move_to ["n3"])))) d).1.1 = Failure 500 "failed to commit transaction".
Proof. vm_compute. reflexivity. Qed.
