(* ===== verification/Admin.v ===== *)
(** * The administration API

    The four groups of endpoints behind the authentication middleware
    ([internal/core/server.go] mounts them under [auth.JWTMiddleware], each
    router guards its writes with [auth.RequireAdmin]).  A request is served by
    its handler; a history is a sequence of requests, each with its own faults
    of the database and interleaved with other transactions. *)

From S2P Require Import Prelude Net Schema Auth Login Policy Hub Devices Http Tables.
From S2P Require Groups Users Networks GatewayAdmin.
From Stdlib Require Import ZArith Lia Ascii String.
From stdpp Require Import base gmap strings list.
Import Auth.Token Auth.Middleware.

Local Open Scope Z_scope.
Local Open Scope string_scope.
Local Open Scope outpost_scope.

Inductive request :=
| GroupReq (r : Groups.request)
| UserReq (r : Users.request)
| NetworkReq (r : Networks.request)
| GatewayReq (r : GatewayAdmin.request).

Inductive body :=
| GroupBody (b : Groups.groupBody)
| UserBody (b : Users.userBody)
| NetworkBody (b : Networks.networkBody)
| GatewayBody (b : GatewayAdmin.gatewayBody).

Definition admin_only (r : request) : bool :=
  match r with
  | GroupReq r => Groups.admin_only r
  | UserReq r => Users.admin_only r
  | NetworkReq r => Networks.admin_only r
  | GatewayReq r => GatewayAdmin.admin_only r
  end.

(** The claims a handler reads from the context are those of the token. *)
Definition with_claims (c : TokenClaims) (r : request) : request :=
  match r with
  | UserReq (Users.Get _ id) => UserReq (Users.Get (Some c) id)
  | NetworkReq (Networks.ListMy _) => NetworkReq (Networks.ListMy (Some c))
  | r => r
  end.

Section api.
Context `{JwtLib} `{SqlOrder} `{DeviceEnv} `{PgText} `{PasswordPolicy.Unicode} `{AuthEnv} `{Users.Goroutines} `{Users.ReturningText}.
Context {E : Type} (refresher : option (Groups.FirewallRefresher E)) (notifier : option (PeerNotifier E)).
Context (mailer : option (string -> string -> list E)) (gwRefresher : option (Networks.refresher_of E)).
Context (netNotifier : option (GatewayAdmin.network_notifier E)).

Definition tagged {B} (tag : B -> body) (m : H db E (Z * B)) : H db E (Z * body) :=
  let! a := m in ret (a.1, tag a.2).

Definition serve (fail : nat -> bool) (env : db -> db) (r : request) : H db E (Z * body) :=
  match r with
  | GroupReq r => tagged GroupBody (Groups.serve refresher fail env r)
  | UserReq r => tagged UserBody (Users.serve notifier refresher mailer fail r)
  | NetworkReq r => tagged NetworkBody (Networks.serve gwRefresher fail env r)
  | GatewayReq r => tagged GatewayBody (GatewayAdmin.serve netNotifier fail r)
  end.

(** A request with its header, through the middleware. *)
Definition api (secret : string) (blacklist : option (bool * gmap string Z)) (now : Z) (header : string)
    (fail : nat -> bool) (env : db -> db) (r : request) : H db E (Z * body) :=
  match JWTMiddleware HashToken secret blacklist now header with
  | Reject st msg => respondError st msg
  | Next c =>
      match (if admin_only r then RequireAdmin (Some c) else Next c) with
      | Reject st msg => respondError st msg
      | Next c => serve fail env (with_claims c r)
      end
  end.

Lemma tagged_preserves (I : db -> Prop) {B} (tag : B -> body) m : preserves I m -> preserves I (tagged tag m).
Proof. intros Hm. apply preserves_bind; [done|]. intros a. apply preserves_ret. Qed.

Lemma tagged_calm env {B} (tag : B -> body) m : calm env m -> calm env (tagged tag m).
Proof.
  intros Hm d. unfold tagged. apply wp_bind. eapply wp_mono; [| |apply (Hm d)]; done.
Qed.

Lemma tagged_pure {B} (tag : B -> body) m : pure m -> pure (tagged tag m).
Proof. intros Hm. apply pure_bind; [done|]. intros a. apply pure_ret. Qed.

Lemma admin_integrity fail env r :
  (forall d, integrity d -> integrity (env d)) -> preserves integrity (serve fail env r).
Proof.
  intros Henv. destruct r; apply tagged_preserves.
  - by apply Groups.groups_integrity.
  - apply Users.users_integrity.
  - by apply Networks.networks_integrity.
  - apply GatewayAdmin.gateways_integrity.
Qed.

Lemma admin_calm fail env r : calm env (serve fail env r).
Proof.
  destruct r; apply tagged_calm.
  - apply Groups.groups_calm.
  - apply clean_calm, Users.users_clean.
  - apply Networks.networks_calm.
  - apply clean_calm, GatewayAdmin.gateways_clean.
Qed.

(** ** Integrity over histories *)

(** The requests to the device endpoints that write. *)
Inductive device_request :=
| DeviceCreate (claims : option TokenClaims) (query : string) (b : option createDeviceRequest)
| DeviceUpdate (claims : option TokenClaims) (id : string) (b : option (option string))
| DeviceDelete (claims : option TokenClaims) (id : string)
| DeviceApprove (id : string)
| DeviceRevoke (id : string)
| DeviceEnroll (claims : option TokenClaims) (b : option enrollRequest).

(** The tables such a request leaves. *)
Definition device_step (fail : nat -> bool) (env : nat -> db -> db) (newID : nat -> string) (now : Z)
    (r : device_request) (d : db) : db :=
  match r with
  | DeviceCreate claims query b => (Devices.create fail env newID now d claims query b).2
  | DeviceUpdate claims id b => (Devices.update fail now d claims id b).2
  | DeviceDelete claims id => (Devices.delete_ notifier fail (env 0%nat) d claims id).1.2
  | DeviceApprove id => (Devices.approve notifier fail now d id).1.2
  | DeviceRevoke id => (Devices.revoke notifier fail now d id).1.2
  | DeviceEnroll claims b => (Devices.enroll notifier fail env newID now d claims b).1.2
  end.

(** An update that keeps the keys and references of every device. *)
Definition keeps_keys (f : device -> device) : Prop :=
  forall dev, d_id (f dev) = d_id dev /\ d_pubkey (f dev) = d_pubkey dev /\
    d_assigned_ip (f dev) = d_assigned_ip dev /\ d_user_id (f dev) = d_user_id dev /\
    d_network_id (f dev) = d_network_id dev.

Lemma map_devices_integrity f d : keeps_keys f -> integrity d -> integrity (set_devices d (map f (devices d))).
Proof.
  intros Hf Hi.
  assert (forall B (col : device -> B), (forall dev, col (f dev) = col dev) ->
    map col (map f (devices d)) = map col (devices d)) as Hcol.
  { intros B col Hc. rewrite map_map. by apply map_ext. }
  assert (device_nets (map f (devices d)) = device_nets (devices d)) as Hnets.
  { unfold device_nets. clear Hi Hcol. induction (devices d) as [|x l IH]; cbn; [done|].
    rewrite (proj2 (proj2 (proj2 (proj2 (Hf x))))), IH. done. }
  pose proof (in_devices d Hi) as [H1' H2' H3' H4']. keep_integrity Hi.
  - split; [rewrite Hcol; [done|apply Hf]..|].
    apply Forall_map. eapply Forall_impl; [done|]. intros x. cbn. by rewrite (proj1 (proj2 (proj2 (Hf x)))).
  - rewrite Hcol; [done|apply Hf].
  - unfold device_nets in Hnets. by rewrite Hnets.
Qed.

Lemma updateWhere_integrity sel f d : keeps_keys f -> integrity d -> integrity (updateWhere sel f d).
Proof.
  intros Hf Hi. apply map_devices_integrity; [|done]. intros dev. destruct (sel dev); [apply Hf|done].
Qed.

Lemma inserted_integrity c newID now r snap cur dev d' :
  cidr_wf c -> insertDevice c newID now r snap cur = Inserted dev d' -> integrity cur -> integrity d'.
Proof.
  intros Hc Hins Hi. pose proof (insertDevice_inserted _ _ _ _ _ _ _ _ Hins) as Hin.
  destruct (inserted_ok _ _ _ _ _ _ _ _ Hc Hin (in_devices cur Hi)) as [Hok _].
  destruct Hin as [_ _ (_ & Hu & _ & _ & Hn) _ ->]. unfold insertDevice in Hins.
  repeat case_match; try done. boolify.
  keep_integrity Hi.
  - apply fk_insert_l; [done|]. rewrite Hu. by apply has_true.
  - intros x. unfold device_nets. rewrite omap_app. intros [Hx|Hx]%elem_of_app; [auto|].
    cbn in Hx. rewrite Hn in Hx. apply list_elem_of_singleton in Hx as ->. by apply has_true.
Qed.

Lemma allocLoop_integrity todo i c newID now r (env : nat -> db -> db) fails d :
  cidr_wf c -> (forall i d, integrity d -> integrity (env i d)) -> integrity d ->
  integrity (alloc_db (allocLoop todo i c newID now r env fails d)).
Proof.
  intros Hc Henv. revert i d. induction todo as [|todo IH]; intros i d Hi; cbn; [done|].
  destruct (fails i); [done|]. destruct (insertDevice _ _ _ _ _ _) eqn:Hins; cbn; auto.
  by eapply inserted_integrity; [| |apply Henv].
Qed.

(** The block addresses are taken from. *)
Lemma allocCIDR_wf d n : integrity d -> n ∈ networks d -> cidr_wf (allocCIDR n).
Proof.
  intros Hi Hn. destruct (proj1 (Forall_forall _ _) (in_cidrs d Hi) n Hn) as [Ha Ht].
  unfold allocCIDR. by destruct (n_tunnel_cidr n).
Qed.

(** The tables after a creation or an enrollment are those of the allocation
    loop on some network, if it was reached. *)
Lemma create_cases fail env newID now d claims query b :
  (Devices.create fail env newID now d claims query b).2 = d \/
  exists n r, n ∈ networks d /\
    (Devices.create fail env newID now d claims query b).2 =
    alloc_db (allocLoop maxRetries 0 (allocCIDR n) newID now r env (fun i => fail (S i)) d).
Proof.
  unfold Devices.create. destruct b as [req|]; [|by left]. do 2 (case_match; [by left|]).
  destruct (createKeys _) as [[pk sk]|]; [|by left]. destruct claims as [c|]; [|by left].
  case_match; [by left|]. destruct (uuid_Parse _) as [uid|]; [|by left].
  destruct (resolveNetwork _ d _) as [[n|]|] eqn:Hn; [|by left..]. right.
  match goal with |- context [allocLoop _ _ _ _ _ ?r _ _ _] => exists n, r end.
  split; [by eapply resolveNetwork_Some|].
  destruct (allocLoop _ _ _ _ _ _ _ _ _) as [dev d'|[] d'|d']; reflexivity.
Qed.

Lemma gatewayRows_in d g n : (g, n) ∈ gatewayRows d -> n ∈ networks d.
Proof.
  unfold gatewayRows. rewrite !sort_by_perm, elem_of_rows, list_elem_of_bind. setoid_rewrite list_elem_of_bind.
  setoid_rewrite list_elem_of_bind. setoid_rewrite list_elem_of_singleton.
  intros (g' & (gn & (n' & [= -> ->] & Hn) & _) & _). apply list_elem_of_In, filter_In in Hn as [Hn _].
  by apply list_elem_of_In.
Qed.

Lemma enroll_cases fail env newID now d claims b :
  (Devices.enroll notifier fail env newID now d claims b).1.2 = d \/
  exists n r, n ∈ networks d /\
    (Devices.enroll notifier fail env newID now d claims b).1.2 =
    alloc_db (allocLoop maxEnrollRetries 0 (allocCIDR n) newID now r env (fun i => fail (S (S i))) d).
Proof.
  unfold Devices.enroll. destruct b as [req|]; [|by left]. do 4 (case_match; [by left|]).
  destruct (gatewayRows d) as [|[g n] l] eqn:Hg; [by left|]. destruct claims as [c|]; [|by left].
  destruct (uuid_Parse _) as [uid|]; [|by left]. right.
  match goal with |- context [allocLoop _ _ _ _ _ ?r _ _ _] => exists n, r end.
  split; [apply (gatewayRows_in d g n); rewrite Hg; left|].
  destruct (allocLoop _ _ _ _ _ _ _ _ _) as [dev d'|[] d'|d']; try reflexivity. by case_match.
Qed.

Lemma filter_devices_integrity P d : integrity d -> integrity (set_devices d (List.filter P (devices d))).
Proof. intros Hi. keep_integrity Hi. Qed.

Lemma device_step_integrity fail env newID now r d :
  (forall i d, integrity d -> integrity (env i d)) -> integrity d ->
  integrity (device_step fail env newID now r d).
Proof.
  intros Henv Hi. destruct r; cbn [device_step].
  - destruct (create_cases fail env newID now d claims query b) as [->|(n & r & Hn & ->)]; [done|].
    apply allocLoop_integrity; [by eapply allocCIDR_wf|done|done].
  - unfold Devices.update. repeat case_match; cbn; try done. by apply updateWhere_integrity.
  - unfold Devices.delete_. repeat case_match; cbn; try done; try apply Henv; try done;
      apply filter_devices_integrity; by apply Henv.
  - unfold Devices.approve. repeat case_match; cbn; try done; by apply updateWhere_integrity.
  - unfold Devices.revoke. repeat case_match; cbn; try done; by apply updateWhere_integrity.
  - destruct (enroll_cases fail env newID now d claims b) as [->|(n & r & Hn & ->)]; [done|].
    apply allocLoop_integrity; [by eapply allocCIDR_wf|done|done].
Qed.

(** One served request of a history. *)
Inductive event :=
| Served (fail : nat -> bool) (env : db -> db) (r : request)
| DeviceServed (fail : nat -> bool) (env : nat -> db -> db) (newID : nat -> string) (now : Z) (r : device_request).

(** The other transactions of an event keep the tables well formed. *)
Definition well_behaved (e : event) : Prop :=
  match e with
  | Served _ env _ => forall d, integrity d -> integrity (env d)
  | DeviceServed _ env _ _ _ => forall i d, integrity d -> integrity (env i d)
  end.

Definition step (d : db) (e : event) : db :=
  match e with
  | Served fail env r => (run (serve fail env r) d).1.2
  | DeviceServed fail env newID now r => device_step fail env newID now r d
  end.

(** The tables stay well formed: however many requests are served by the
    group, user, network, gateway and device endpoints, with whatever database
    errors and whatever well-behaved transactions in between, keys stay unique,
    references stay resolved and blocks stay well formed. *)
Theorem api_integrity evs d :
  Forall well_behaved evs -> integrity d -> integrity (foldl step d evs).
Proof.
  intros Hevs. revert d. induction Hevs as [|e evs He _ IH]; intros d Hd; cbn; [done|]. apply IH.
  destruct e; cbn; [|by apply device_step_integrity].
  apply (preserves_run integrity); [|done]. by apply admin_integrity.
Qed.

(** C11. A refused request to the group, user, network or gateway endpoints
    leaves no trace: when the answer is an error, nobody is notified and the
    tables are as they were, or as another transaction left them in between. *)
Theorem refusal_leaves_no_trace secret blacklist now header fail env r d st msg d' es :
  run (api secret blacklist now header fail env r) d = (Failure st msg, d', es) ->
  (d' = d \/ d' = env d) /\ es = [].
Proof.
  apply calm_run. unfold api. repeat case_match; first [apply admin_calm | apply clean_calm, pure_clean; auto with pure].
Qed.

(** ** Only administrators write *)

Lemma groups_read_pure fail env r : Groups.admin_only r = false -> pure (Groups.serve refresher fail env r).
Proof.
  destruct r; cbn; intros Hr; try done;
    unfold Groups.list_, Groups.get, Groups.listMembers, Groups.listACLs;
    repeat first [ pure_step | apply pure_bind; [|intros ?] ].
Qed.

Lemma users_read_pure fail r : Users.admin_only r = false -> pure (Users.serve notifier refresher mailer fail r).
Proof.
  destruct r; cbn; intros Hr; try done; unfold Users.get;
    repeat first [ pure_step | apply pure_bind; [|intros ?] ].
Qed.

Lemma networks_read_pure fail env r : Networks.admin_only r = false -> pure (Networks.serve gwRefresher fail env r).
Proof.
  destruct r; cbn; intros Hr; try done;
    unfold Networks.list_, Networks.listMy, Networks.get; repeat case_match;
    repeat first [ pure_step | apply pure_bind; [|intros ?] ].
Qed.

Lemma gateways_read_pure fail r : GatewayAdmin.admin_only r = false -> pure (GatewayAdmin.serve netNotifier fail r).
Proof.
  destruct r; cbn; intros Hr; try done;
    unfold GatewayAdmin.list_, GatewayAdmin.get, GatewayAdmin.loadOne; repeat case_match;
    repeat first [ pure_step | apply pure_bind; [|intros ?] ].
Qed.

Lemma with_claims_admin c r : admin_only (with_claims c r) = admin_only r.
Proof. by destruct r as [r|r|r|r]; try destruct r. Qed.

Lemma read_pure fail env r : admin_only r = false -> pure (serve fail env r).
Proof.
  destruct r; cbn; intros Hr; apply tagged_pure.
  - by apply groups_read_pure.
  - by apply users_read_pure.
  - by apply networks_read_pure.
  - by apply gateways_read_pure.
Qed.

Lemma pure_run {B} (m : H db E (Z * B)) d : pure m -> (run m d).1.2 = d /\ (run m d).2 = [].
Proof.
  intros Hm. specialize (Hm d). unfold run, wp in *. destruct (m d) as [[[[? ?]|[? ?]] d'] es]; done.
Qed.

(** C12. Only administrators change anything: a request whose header does not
    carry a valid, unrevoked session token of an administrator leaves the
    tables as they are and notifies nobody. *)
Theorem only_admins_write secret blacklist now header fail env r d :
  (forall c, JWTMiddleware HashToken secret blacklist now header = Next c -> IsAdmin c = false) ->
  (run (api secret blacklist now header fail env r) d).1.2 = d /\
  (run (api secret blacklist now header fail env r) d).2 = [].
Proof.
  intros Hc. apply pure_run. unfold api. destruct (JWTMiddleware _ _ _ _ _) as [st msg|c]; [auto with pure|].
  specialize (Hc c eq_refl). destruct (admin_only r) eqn:Hr.
  - unfold RequireAdmin. rewrite Hc. auto with pure.
  - apply read_pure. by rewrite with_claims_admin.
Qed.
End api.

(** ** Concrete requests *)

Definition demo_serve (fail : nat -> bool) (env : db -> db) (r : request) : H db effect (Z * body) :=
  @serve sql_default toy_device_env toy_pg PasswordPolicy.ascii_unicode toy_env Users.first_then Users.as_written effect
    Users.demo_refresher Users.demo_notifier None
    (Some (@Networks.hubGatewayRefresher range_default sql_default (fun _ => no_faults) (hub1 false))) None fail env r.

(** A network, a gateway on it, a user in a group, a device, and the deletion of
    the network. *)
Definition demo_history : list event := [
  Served noFail id (NetworkReq (Networks.Create "n9" 5 (Some Networks.lan)));
  Served noFail id (GatewayReq (GatewayAdmin.Create "g9" 6 (Some "tok") (Some (GatewayAdmin.newGateway ["n9"]))));
  Served noFail id (GroupReq (Groups.AddMember "dev" (Some "bob")));
  DeviceServed noFail (fun _ d => d) newIDs 7
    (DeviceCreate (Some (claims_of "bob" true)) "" (Some {| cq_Name := "laptop"; cq_WireguardPubkey := "";
       cq_UserID := ""; cq_NetworkID := "n9" |}));
  Served noFail id (UserReq (Users.Delete "ann"));
  Served noFail id (NetworkReq (Networks.Delete "n9")) ].

Definition demo_step : db -> event -> db :=
  @step sql_default toy_device_env toy_pg PasswordPolicy.ascii_unicode toy_env Users.first_then Users.as_written effect
    Users.demo_refresher Users.demo_notifier None
    (Some (@Networks.hubGatewayRefresher range_default sql_default (fun _ => no_faults) (hub1 false))) None.

Lemma demo_well_behaved : Forall well_behaved demo_history.
Proof. repeat (apply Forall_cons; split; [cbn; auto|]). by apply Forall_nil. Qed.

Lemma api_integrity_witness :
  map d_id (devices (foldl demo_step demo_db demo_history)) = ["d2"; "d3"; "new-0"] /\
  map d_network_id (devices (foldl demo_step demo_db demo_history)) = [Some "n1"; Some "n2"; None] /\
  map g_id (gateways (foldl demo_step demo_db demo_history)) = ["g1"] /\
  integrity (foldl demo_step demo_db demo_history).
Proof.
  split; [vm_compute; reflexivity|]. split; [vm_compute; reflexivity|]. split; [vm_compute; reflexivity|].
  exact (@api_integrity sql_default toy_device_env toy_pg PasswordPolicy.ascii_unicode toy_env Users.first_then Users.as_written effect
    Users.demo_refresher Users.demo_notifier None
    (Some (@Networks.hubGatewayRefresher range_default sql_default (fun _ => no_faults) (hub1 false))) None
    demo_history demo_db demo_well_behaved Groups.demo_integrity).
Defined.

Definition demo_api (header : string) (fail : nat -> bool) (r : request) : H db effect (Z * body) :=
  @api clear_jwt sql_default toy_device_env toy_pg PasswordPolicy.ascii_unicode toy_env Users.first_then Users.as_written effect
    Users.demo_refresher Users.demo_notifier None
    (Some (@Networks.hubGatewayRefresher range_default sql_default (fun _ => no_faults) (hub1 false))) None
    "s" None 0 header fail id r.

Lemma refusal_leaves_no_trace_witness :
  exists st msg, (run (demo_api ("Bearer " ++ session0) noFail (UserReq (Users.Delete "bob"))) demo_db).1.1 =
      Failure st msg /\
    (run (demo_api ("Bearer " ++ session0) noFail (UserReq (Users.Delete "bob"))) demo_db).2 = [].
Proof.
  exists 409, "cannot delete the last admin user". split; [vm_compute; reflexivity|].
  refine (proj2 (@refusal_leaves_no_trace clear_jwt sql_default toy_device_env toy_pg PasswordPolicy.ascii_unicode
    toy_env Users.first_then Users.as_written effect Users.demo_refresher Users.demo_notifier None
    (Some (@Networks.hubGatewayRefresher range_default sql_default (fun _ => no_faults) (hub1 false))) None
    "s" None 0 ("Bearer " ++ session0) noFail id (UserReq (Users.Delete "bob")) demo_db 409
    "cannot delete the last admin user" demo_db _ _)).
  vm_compute. reflexivity.
Defined.

(** The token of an administrator who has not given the second factor. *)
Lemma only_admins_write_witness :
  (run (demo_api ("Bearer " ++ pending0) noFail (UserReq (Users.Delete "ann"))) demo_db).1.2 = demo_db /\
  (run (demo_api ("Bearer " ++ session0) noFail (UserReq (Users.Delete "ann"))) demo_db).1.2 <> demo_db.
Proof.
  split; [|by vm_compute].
  refine (proj1 (@only_admins_write clear_jwt sql_default toy_device_env toy_pg PasswordPolicy.ascii_unicode
    toy_env Users.first_then Users.as_written effect Users.demo_refresher Users.demo_notifier None
    (Some (@Networks.hubGatewayRefresher range_default sql_default (fun _ => no_faults) (hub1 false))) None
    "s" None 0 ("Bearer " ++ pending0) noFail id (UserReq (Users.Delete "ann")) demo_db _)).
  intros c. vm_compute. discriminate.
Defined.
