(* ===== verification/S2SAdmin.v ===== *)
(** * The site-to-site endpoints

    [internal/core/handler/s2s.go]: tunnels, their members, routes and allowed
    domains, and the configuration file a gateway can download.  The tables have
    the columns the endpoints use; [view] is the part the configuration pushed
    over gRPC reads (file [Hub]). *)

From S2P Require Import Prelude Net Schema Auth Policy Hub Devices Http Tables.
From Stdlib Require Import ZArith Lia Ascii String.
From stdpp Require Import base gmap strings list.

Local Open Scope Z_scope.
Local Open Scope string_scope.
Local Open Scope outpost_scope.

(** ** Tables *)

Record tunnel_row := {
  tr_id : string;
  tr_name : string;
  tr_description : string;
  tr_topology : string;
  tr_hub : option string;
  tr_is_active : bool;
  tr_created_at : Z;
  tr_updated_at : Z;
}.

Record member_row := {
  mr_tunnel_id : string;
  mr_gateway_id : string;
  mr_local_subnets : list cidr;
  mr_private_key : option string;
  mr_public_key : option string;
  mr_listen_port : Z;
}.

Record route_row := {
  rr_id : string;
  rr_tunnel_id : string;
  rr_destination : cidr;
  rr_via_gateway : string;
  rr_metric : Z;
  rr_is_active : bool;
  rr_created_at : Z;
}.

Record domain_row := { dm_id : string; dm_tunnel_id : string; dm_domain : string; dm_created_at : Z }.

Record store := {
  base : db;
  tunnels : list tunnel_row;
  members : list member_row;
  troutes : list route_row;
  domains : list domain_row;
}.

Definition set_tunnels (s : store) l := {|
  base := base s; tunnels := l; members := members s; troutes := troutes s; domains := domains s |}.
Definition set_members (s : store) l := {|
  base := base s; tunnels := tunnels s; members := l; troutes := troutes s; domains := domains s |}.
Definition set_troutes (s : store) l := {|
  base := base s; tunnels := tunnels s; members := members s; troutes := l; domains := domains s |}.
Definition set_domains (s : store) l := {|
  base := base s; tunnels := tunnels s; members := members s; troutes := troutes s; domains := l |}.

Definition view (s : store) : s2s_tables := {|
  s2s_tunnels := map (fun t => {| t_id := tr_id t; t_name := tr_name t; t_topology := tr_topology t;
                                  t_is_active := tr_is_active t |}) (tunnels s);
  s2s_tunnel_members := map (fun m => {| m_tunnel_id := mr_tunnel_id m; m_gateway_id := mr_gateway_id m;
    m_local_subnets := map cidr_text (mr_local_subnets m); m_private_key := mr_private_key m;
    m_public_key := mr_public_key m; m_listen_port := mr_listen_port m |}) (members s);
  s2s_routes := map (fun r => {| sr_tunnel_id := rr_tunnel_id r; sr_destination := cidr_text (rr_destination r);
    sr_via_gateway := rr_via_gateway r; sr_metric := rr_metric r; sr_is_active := rr_is_active r |}) (troutes s) |}.

Definition member_key (m : member_row) : string * string := (mr_tunnel_id m, mr_gateway_id m).
Definition domain_key (x : domain_row) : string * string := (dm_tunnel_id x, dm_domain x).

(** ** Statements *)

Section statements.
Context `{DeviceEnv} `{PgText}.

Record new_tunnel := { nt_name : string; nt_description : string; nt_topology : string; nt_hub : option string }.

Definition insert_tunnel (newID : string) (now : Z) (r : new_tunnel) : stmt store tunnel_row := fun s =>
  match match nt_hub r with None => Some None | Some h => option_map Some (pg_uuid h) end with
  | None => inr ErrBadText
  | Some hub =>
      let t := {| tr_id := newID; tr_name := nt_name r; tr_description := nt_description r;
                  tr_topology := nt_topology r; tr_hub := hub; tr_is_active := true; tr_created_at := now;
                  tr_updated_at := now |} in
      if has tr_id (tunnels s) newID then inr (ErrUnique "s2s_tunnels_pkey")
      else if has tr_name (tunnels s) (nt_name r) then inr (ErrUnique "s2s_tunnels_name_key")
      else if match hub with Some h => has g_id (gateways (base s)) h | None => true end
      then inl (t, set_tunnels s (tunnels s ++ [t])%list)
      else inr ErrForeignKey
  end.

Definition patch_tunnel (now : Z) (name description : option string) (t : tunnel_row) : tunnel_row := {|
  tr_id := tr_id t; tr_name := default (tr_name t) name; tr_description := default (tr_description t) description;
  tr_topology := tr_topology t; tr_hub := tr_hub t; tr_is_active := tr_is_active t;
  tr_created_at := tr_created_at t; tr_updated_at := now |}.

Definition update_tunnel (now : Z) (id : string) (name description : option string) : stmt store tunnel_row := fun s =>
  match byKey tr_id (tunnels s) id with
  | None => inr ErrNoRows
  | Some t =>
      if clash tr_id (Some ∘ tr_name) (tunnels s) id (Some (default (tr_name t) name))
      then inr (ErrUnique "s2s_tunnels_name_key")
      else inl (patch_tunnel now name description t,
                set_tunnels s (upd tr_id id (patch_tunnel now name description) (tunnels s)))
  end.

(** Deleting a tunnel takes its members, routes and domains with it. *)
Definition delete_tunnel (id : string) : stmt store nat := fun s =>
  inl (rowsWith tr_id (tunnels s) id,
       {| base := base s; tunnels := without tr_id (tunnels s) id; members := without mr_tunnel_id (members s) id;
          troutes := without rr_tunnel_id (troutes s) id; domains := without dm_tunnel_id (domains s) id |}).

Definition set_subnets (l : list cidr) (m : member_row) : member_row := {|
  mr_tunnel_id := mr_tunnel_id m; mr_gateway_id := mr_gateway_id m; mr_local_subnets := l;
  mr_private_key := mr_private_key m; mr_public_key := mr_public_key m; mr_listen_port := mr_listen_port m |}.

(** [INSERT .. ON CONFLICT (tunnel_id, gateway_id) DO UPDATE SET local_subnets]. *)
Definition upsert_member (tid gid : string) (texts : list string) (priv pub : string) : stmt store unit := fun s =>
  match mapM pg_cidr texts with
  | None => inr ErrBadText
  | Some subnets =>
      if bool_decide ((tid, gid) ∈ map member_key (members s)) then
        inl (tt, set_members s (map (fun m => if bool_decide (member_key m = (tid, gid)) then set_subnets subnets m else m)
                                  (members s)))
      else if has tr_id (tunnels s) tid && has g_id (gateways (base s)) gid then
        inl (tt, set_members s (members s ++ [{| mr_tunnel_id := tid; mr_gateway_id := gid;
          mr_local_subnets := subnets; mr_private_key := Some priv; mr_public_key := Some pub;
          mr_listen_port := 0 |}])%list)
      else inr ErrForeignKey
  end.

Definition is_member (tid gid : string) (m : member_row) : bool := bool_decide (member_key m = (tid, gid)).

Definition delete_tunnel_member (tid gid : string) : stmt store nat := fun s =>
  inl (length (List.filter (is_member tid gid) (members s)),
       set_members s (List.filter (fun m => negb (is_member tid gid m)) (members s))).

Definition insert_route (newID : string) (now : Z) (tid dest via : string) (metric : Z) : stmt store route_row := fun s =>
  match pg_cidr dest, int32_ok metric with
  | Some c, true =>
      let r := {| rr_id := newID; rr_tunnel_id := tid; rr_destination := c; rr_via_gateway := via;
                  rr_metric := metric; rr_is_active := true; rr_created_at := now |} in
      if has rr_id (troutes s) newID then inr (ErrUnique "s2s_routes_pkey")
      else if has tr_id (tunnels s) tid && has g_id (gateways (base s)) via
      then inl (r, set_troutes s (troutes s ++ [r])%list)
      else inr ErrForeignKey
  | None, _ => inr ErrBadText
  | _, false => inr ErrOther
  end.

Definition is_route (id tid : string) (r : route_row) : bool :=
  String.eqb (rr_id r) id && String.eqb (rr_tunnel_id r) tid.

Definition delete_route (id tid : string) : stmt store nat := fun s =>
  inl (length (List.filter (is_route id tid) (troutes s)),
       set_troutes s (List.filter (fun r => negb (is_route id tid r)) (troutes s))).

Definition insert_domain (newID : string) (now : Z) (tid domain : string) : stmt store domain_row := fun s =>
  let x := {| dm_id := newID; dm_tunnel_id := tid; dm_domain := domain; dm_created_at := now |} in
  if has dm_id (domains s) newID then inr (ErrUnique "s2s_allowed_domains_pkey")
  else if bool_decide ((tid, domain) ∈ map domain_key (domains s))
  then inr (ErrUnique "s2s_allowed_domains_tunnel_id_domain_key")
  else if has tr_id (tunnels s) tid then inl (x, set_domains s (domains s ++ [x])%list)
  else inr ErrForeignKey.

Definition is_domain (id tid : string) (x : domain_row) : bool :=
  String.eqb (dm_id x) id && String.eqb (dm_tunnel_id x) tid.

Definition delete_domain (id tid : string) : stmt store nat := fun s =>
  inl (length (List.filter (is_domain id tid) (domains s)),
       set_domains s (List.filter (fun x => negb (is_domain id tid x)) (domains s))).
End statements.

(** ** The invariant of the tables *)

Record s2s_wf (s : store) : Prop := {
  wf_tunnels : NoDup (map tr_id (tunnels s));
  wf_names : NoDup (map tr_name (tunnels s));
  wf_topology : Forall (fun t => tr_topology t = "mesh" \/ tr_topology t = "hub_spoke") (tunnels s);
  wf_hub : Forall (fun t => tr_topology t = "hub_spoke" -> is_Some (tr_hub t)) (tunnels s);
  wf_members : NoDup (map member_key (members s));
  wf_routes : NoDup (map rr_id (troutes s));
  wf_dests : Forall (fun r => cidr_wf (rr_destination r)) (troutes s);
  wf_subnets : Forall (fun m => Forall cidr_wf (mr_local_subnets m)) (members s);
  wf_domains : NoDup (map domain_key (domains s));
  wf_mem_tunnel : fk (map mr_tunnel_id (members s)) (map tr_id (tunnels s));
  wf_mem_gw : fk (map mr_gateway_id (members s)) (map g_id (gateways (base s)));
  wf_rt_tunnel : fk (map rr_tunnel_id (troutes s)) (map tr_id (tunnels s));
  wf_rt_gw : fk (map rr_via_gateway (troutes s)) (map g_id (gateways (base s)));
  wf_dm_tunnel : fk (map dm_tunnel_id (domains s)) (map tr_id (tunnels s));
}.

Ltac keep_s2s Hi := destruct Hi; split; cbn; try done; eauto with integrity.

Section preservation.
Context `{DeviceEnv} `{PgText}.

Lemma insert_tunnel_wf newID now r :
  (nt_topology r = "mesh" \/ nt_topology r = "hub_spoke") ->
  (nt_topology r = "hub_spoke" -> is_Some (nt_hub r)) ->
  stmt_preserves s2s_wf (insert_tunnel newID now r).
Proof.
  intros Ht Hh s t s' Hi. unfold insert_tunnel.
  destruct (match nt_hub r with None => Some None | Some h => option_map Some (pg_uuid h) end) as [hub|] eqn:Hhub;
    [|done].
  assert (nt_topology r = "hub_spoke" -> is_Some hub) as Hs.
  { intros E. destruct (Hh E) as [h Eh]. rewrite Eh in Hhub. destruct (pg_uuid h); cbn in Hhub; [|done].
    injection Hhub as <-. eauto. }
  destruct (has tr_id _ _) eqn:?; [done|]. destruct (has tr_name _ _) eqn:?; [done|].
  destruct (match hub with Some h => has g_id (gateways (base s)) h | None => true end); [|done].
  intros [= <- <-]. lookups. keep_s2s Hi.
Qed.

Lemma update_tunnel_wf now id name desc : stmt_preserves s2s_wf (update_tunnel now id name desc).
Proof.
  intros s t s' Hi. unfold update_tunnel. repeat case_match; intros; simplify_eq. keep_s2s Hi.
  apply unique_upd_plain; [done..|]. intros x Hx Hk. by rewrite (byKey_row tr_id (tunnels s) id t0 x).
Qed.

Lemma delete_tunnel_wf id : stmt_preserves s2s_wf (delete_tunnel id).
Proof. intros s n s' Hi. unfold delete_tunnel. intros; simplify_eq. unfold without. keep_s2s Hi. Qed.

Lemma mapM_cidr_wf texts subnets : mapM pg_cidr texts = Some subnets -> Forall cidr_wf subnets.
Proof.
  intros Hm%mapM_Some. induction Hm as [|t c texts subnets Ht _ IH]; [constructor|].
  constructor; [by eapply pg_cidr_wf|done].
Qed.

Lemma upsert_member_wf tid gid texts priv pub : stmt_preserves s2s_wf (upsert_member tid gid texts priv pub).
Proof.
  intros s u s' Hi. unfold upsert_member. destruct (mapM pg_cidr texts) as [subnets|] eqn:Hm; [|done].
  apply mapM_cidr_wf in Hm. case_bool_decide.
  - intros [= <- <-].
    assert (forall B (col : member_row -> B), (forall m, col (set_subnets subnets m) = col m) ->
      map col (map (fun m => if bool_decide (member_key m = (tid, gid)) then set_subnets subnets m else m) (members s))
      = map col (members s)) as Hcol.
    { intros B col Hc. rewrite map_map. apply map_ext. intros m. case_bool_decide; auto. }
    keep_s2s Hi; try (by rewrite Hcol). apply Forall_map. eapply Forall_impl; [done|]. intros m Hm'. cbn.
    by case_bool_decide.
  - case_match; [|done]. intros [= <- <-]. lookups. keep_s2s Hi.
Qed.

Lemma delete_tunnel_member_wf tid gid : stmt_preserves s2s_wf (delete_tunnel_member tid gid).
Proof. intros s n s' Hi. unfold delete_tunnel_member. intros; simplify_eq. keep_s2s Hi. Qed.

Lemma insert_route_wf newID now tid dest via metric : stmt_preserves s2s_wf (insert_route newID now tid dest via metric).
Proof.
  intros s r s' Hi. unfold insert_route. repeat case_match; intros; simplify_eq; lookups. keep_s2s Hi.
  apply Forall_snoc_row; [done|]. cbn. by eapply pg_cidr_wf.
Qed.

Lemma delete_route_wf id tid : stmt_preserves s2s_wf (delete_route id tid).
Proof. intros s n s' Hi. unfold delete_route. intros; simplify_eq. keep_s2s Hi. Qed.

Lemma insert_domain_wf newID now tid domain : stmt_preserves s2s_wf (insert_domain newID now tid domain).
Proof.
  intros s x s' Hi. unfold insert_domain. repeat case_match; intros; simplify_eq; lookups. keep_s2s Hi.
Qed.

Lemma delete_domain_wf id tid : stmt_preserves s2s_wf (delete_domain id tid).
Proof. intros s n s' Hi. unfold delete_domain. intros; simplify_eq. keep_s2s Hi. Qed.
End preservation.

#[export] Hint Resolve update_tunnel_wf delete_tunnel_wf upsert_member_wf delete_tunnel_member_wf insert_route_wf
  delete_route_wf insert_domain_wf delete_domain_wf : integrity.

(** ** Responses *)

Record s2sMember := { sm_TunnelID : string; sm_GatewayID : string; sm_GatewayName : string; sm_LocalSubnets : list string }.

Record s2sRoute := {
  rt_ID : string;
  rt_TunnelID : string;
  rt_Destination : string;
  rt_ViaGateway : string;
  rt_GatewayName : string;
  rt_Metric : Z;
  rt_IsActive : bool;
  rt_CreatedAt : string;
}.

Record s2sAllowedDomain := { ad_ID : string; ad_TunnelID : string; ad_Domain : string; ad_CreatedAt : string }.

Inductive s2sBody :=
| SbTunnels (l : list tunnel_row)
| SbTunnel (t : tunnel_row)
| SbMembers (l : list s2sMember)
| SbAdded (tunnelID gatewayID : string)
| SbRoutes (l : list s2sRoute)
| SbRoute (r : s2sRoute)
| SbFile (filename content : string)
| SbDomains (l : list s2sAllowedDomain)
| SbDomain (d : s2sAllowedDomain)
| SbNone.

(** [S2SNotifier]: gateway, tunnel, action. *)
Definition s2s_notifier (E : Type) : Type := store -> string -> string -> string -> list E.

(** The hub recomputes the tunnels of the gateway, whatever the action. *)
Definition hubS2SNotifier `{GoRange, SqlOrder} (f : s2s_faults) (h : StreamHub) : s2s_notifier effect :=
  fun s gw _ _ => NotifyS2SUpdate f (base s) (view s) h gw.

(** Whether the driver scans a [timestamptz] into a Go string, and the text. *)
Class PgxScan : Type := { timestamp_Text : Z -> option string }.

(** ** The configuration file *)

Record memberInfo := {
  mi_GatewayID : string;
  mi_GatewayName : string;
  mi_WireguardPubkey : string;
  mi_Endpoint : string;
  mi_LocalSubnets : list string;
}.

Definition nl : string := String "010" "".

(** [routesByGateway]: the destinations of each gateway, in order. *)
Definition routesByGateway (rs : list (string * string)) : gmap string (list string) := foldl appendTo ∅ rs.

Definition peerAllowedIPs (routes : gmap string (list string)) (m : memberInfo) : list string :=
  (mi_LocalSubnets m ++ default [] (routes !! mi_GatewayID m))%list.

Definition peerSection (routes : gmap string (list string)) (m : memberInfo) : string :=
  let allowed := peerAllowedIPs routes m in
  nl ++ "# Peer: " ++ mi_GatewayName m ++ nl ++ "[Peer]" ++ nl ++
  (if String.eqb (mi_WireguardPubkey m) "" then "PublicKey = <MISSING_PUBKEY>" ++ nl
   else "PublicKey = " ++ mi_WireguardPubkey m ++ nl) ++
  (if String.eqb (mi_Endpoint m) "" then "" else "Endpoint = " ++ mi_Endpoint m ++ nl) ++
  (match allowed with [] => "" | _ => "AllowedIPs = " ++ strings_join ", " allowed ++ nl end) ++
  "PersistentKeepalive = 25" ++ nl.

Definition configText (tunnelName generated : string) (self : memberInfo) (ms : list memberInfo)
    (routes : gmap string (list string)) : string :=
  "# WireGuard S2S config for tunnel: " ++ tunnelName ++ nl ++
  "# Gateway: " ++ mi_GatewayName self ++ nl ++ "# Generated: " ++ generated ++ nl ++ nl ++
  "[Interface]" ++ nl ++ "PrivateKey = <PRIVATE_KEY>" ++ nl ++
  (match mi_LocalSubnets self with [] => "" | l => "Address = " ++ strings_join ", " l ++ nl end) ++
  strings_join "" (map (peerSection routes)
    (List.filter (fun m => negb (String.eqb (mi_GatewayID m) (mi_GatewayID self))) ms)).

(** ** The endpoints *)

Section handlers.
Context `{SqlOrder} `{DeviceEnv} `{PgText} `{PgxScan} {E : Type} (notifier : option (s2s_notifier E)).
Context (fail : nat -> bool).

Definition list_ : H store E (Z * s2sBody) :=
  let! l := fetch fail 0 (fun s => rows_by 81 (fun t => - tr_created_at t) (tunnels s))
    "failed to list tunnels" "failed to scan tunnel" "failed to iterate tunnels" in
  respondJSON 200 (SbTunnels l).

Definition create (newID : string) (now : Z) (body : option new_tunnel) : H store E (Z * s2sBody) :=
  let! req := the body 400 "invalid JSON" in
  do! require (negb (String.eqb (nt_name req) "" || String.eqb (nt_topology req) "")) 400
        "name and topology are required" in
  do! require (String.eqb (nt_topology req) "mesh" || String.eqb (nt_topology req) "hub_spoke") 400
        "topology must be 'mesh' or 'hub_spoke'" in
  do! require (negb (String.eqb (nt_topology req) "hub_spoke") ||
               match nt_hub req with Some h => negb (String.eqb h "") | None => false end) 400
        "hub_gateway_id is required for hub_spoke topology" in
  let! t := exec (fail 0%nat) (insert_tunnel newID now req) (fun e =>
    match e with
    | ErrUnique c => (409, if strings_Contains c "name" then "tunnel with this name already exists"
                           else "tunnel already exists")
    | _ => (500, "failed to create tunnel")
    end) in
  respondJSON 201 (SbTunnel t).

Definition get (rawId : string) : H store E (Z * s2sBody) :=
  let! id := the (uuid_Parse rawId) 400 "invalid UUID" in
  let! row := query (fail 0%nat) (fun s => byKey tr_id (tunnels s) id) 500 "failed to get tunnel" in
  let! t := the row 404 "tunnel not found" in
  respondJSON 200 (SbTunnel t).

Definition update (now : Z) (rawId : string) (body : option (option string * option string)) : H store E (Z * s2sBody) :=
  let! id := the (uuid_Parse rawId) 400 "invalid UUID" in
  let! req := the body 400 "invalid JSON" in
  do! require (bool_decide (is_Some req.1) || bool_decide (is_Some req.2)) 400 "no fields to update" in
  let! t := exec (fail 0%nat) (update_tunnel now id req.1 req.2) (fun e =>
    match e with
    | ErrNoRows => (404, "tunnel not found")
    | ErrUnique _ => (409, "tunnel name already exists")
    | _ => (500, "failed to update tunnel")
    end) in
  respondJSON 200 (SbTunnel t).

Definition delete_ (rawId : string) : H store E (Z * s2sBody) :=
  let! id := the (uuid_Parse rawId) 400 "invalid UUID" in
  do! deleting (fail 0%nat) (delete_tunnel id) "failed to delete tunnel" "tunnel not found" in
  respondJSON 204 SbNone.

(** [s2s_tunnel_members JOIN gateways .. WHERE m.tunnel_id = $1]. *)
Definition joinMembers {A} (f : member_row -> gateway -> A) (tid : string) (s : store) : list A :=
  m ← List.filter (fun m => String.eqb (mr_tunnel_id m) tid) (members s);
  g ← List.filter (fun g => String.eqb (g_id g) (mr_gateway_id m)) (gateways (base s));
  [f m g].

Definition listMembers (rawId : string) : H store E (Z * s2sBody) :=
  let! tid := the (uuid_Parse rawId) 400 "invalid UUID" in
  let! l := fetch fail 0 (fun s => rows 82 (joinMembers (fun m g => {| sm_TunnelID := mr_tunnel_id m;
      sm_GatewayID := mr_gateway_id m; sm_GatewayName := g_name g;
      sm_LocalSubnets := map cidr_text (mr_local_subnets m) |}) tid s))
    "failed to list members" "failed to scan member" "failed to iterate members" in
  respondJSON 200 (SbMembers l).

Definition notifyOne (gw tid action : string) : H store E unit :=
  emit (fun s => match notifier with Some n => n s gw tid action | None => [] end).

Definition addMember (rawId : string) (body : option (string * option (list string))) : H store E (Z * s2sBody) :=
  let! tid := the (uuid_Parse rawId) 400 "invalid UUID" in
  let! req := the body 400 "invalid JSON" in
  do! require (negb (String.eqb req.1 "")) 400 "gateway_id is required" in
  let! gid := the (uuid_Parse req.1) 400 "invalid gateway_id" in
  let subnets := default [] req.2 in
  let! privKey := the GeneratePrivateKey 500 "failed to generate S2S private key" in
  let! pubKey := the (wg_PublicKey privKey) 500 "failed to derive S2S public key" in
  do! exec (fail 0%nat) (upsert_member tid gid subnets privKey pubKey) (fun e =>
    match e with
    | ErrForeignKey => (400, "gateway or tunnel not found")
    | _ => (500, "failed to add member")
    end) in
  do! notifyOne req.1 tid "add" in
  respondJSON 201 (SbAdded tid gid).

Definition removeMember (rawId rawGateway : string) : H store E (Z * s2sBody) :=
  let! tid := the (uuid_Parse rawId) 400 "invalid UUID" in
  let! gid := the (uuid_Parse rawGateway) 400 "invalid UUID" in
  do! deleting (fail 0%nat) (delete_tunnel_member tid gid) "failed to remove member" "member not found" in
  do! notifyOne gid tid "remove" in
  respondJSON 204 SbNone.

(** Scanning a route, whose [created_at] goes into a string. *)
Definition scanRoute (name : string) (r : route_row) : option s2sRoute :=
  option_map (fun created => {| rt_ID := rr_id r; rt_TunnelID := rr_tunnel_id r;
    rt_Destination := cidr_text (rr_destination r); rt_ViaGateway := rr_via_gateway r; rt_GatewayName := name;
    rt_Metric := rr_metric r; rt_IsActive := rr_is_active r; rt_CreatedAt := created |})
    (timestamp_Text (rr_created_at r)).

Definition listRoutes (rawId : string) : H store E (Z * s2sBody) :=
  let! tid := the (uuid_Parse rawId) 400 "invalid UUID" in
  let! rs := query (fail 0%nat) (fun s => rows_by 84 (fun rg => rr_metric rg.1)
      (r ← List.filter (fun r => String.eqb (rr_tunnel_id r) tid) (troutes s);
       g ← List.filter (fun g => String.eqb (g_id g) (rr_via_gateway r)) (gateways (base s));
       [(r, g_name g)])) 500 "failed to list routes" in
  let! l := the (mapM (fun rg => scanRoute rg.2 rg.1) rs) 500 "failed to scan route" in
  do! require (negb (fail 1%nat)) 500 "failed to iterate routes" in
  respondJSON 200 (SbRoutes l).

Definition notifyTunnelMembers (k : nat) (tid action : string) : H store E unit :=
  emit (fun s => match notifier with
    | None => []
    | Some n => if fail k then [] else
        flat_map (fun gw => n s gw tid action)
          (rows 85 (map mr_gateway_id (List.filter (fun m => String.eqb (mr_tunnel_id m) tid) (members s))))
    end).

Record addRouteRequest := { ar_Destination : string; ar_ViaGateway : string; ar_Metric : option Z }.

Definition addRoute (newID : string) (now : Z) (rawId : string) (body : option addRouteRequest) : H store E (Z * s2sBody) :=
  let! tid := the (uuid_Parse rawId) 400 "invalid UUID" in
  let! req := the body 400 "invalid JSON" in
  do! require (negb (String.eqb (ar_Destination req) "" || String.eqb (ar_ViaGateway req) "")) 400
        "destination and via_gateway are required" in
  let! via := the (uuid_Parse (ar_ViaGateway req)) 400 "invalid via_gateway" in
  let metric := default 100 (ar_Metric req) in
  let! r := exec (fail 0%nat) (insert_route newID now tid (ar_Destination req) via metric) (fun e =>
    match e with
    | ErrForeignKey => (400, "tunnel or gateway not found")
    | ErrBadText => (400, "invalid CIDR format for destination")
    | _ => (500, "failed to add route")
    end) in
  let! name := asks (fun s => default "" (option_map g_name (byKey g_id (gateways (base s)) via))) in
  (* the row is stored when its columns are scanned *)
  let! rt := the (scanRoute name r) 500 "failed to add route" in
  do! notifyTunnelMembers 1 tid "route_add" in
  respondJSON 201 (SbRoute rt).

Definition removeRoute (rawId rawRoute : string) : H store E (Z * s2sBody) :=
  let! tid := the (uuid_Parse rawId) 400 "invalid UUID" in
  let! rid := the (uuid_Parse rawRoute) 400 "invalid UUID" in
  do! deleting (fail 0%nat) (delete_route rid tid) "failed to delete route" "route not found" in
  do! notifyTunnelMembers 1 tid "route_remove" in
  respondJSON 204 SbNone.

Definition memberInfoRow (m : member_row) (g : gateway) : memberInfo := {|
  mi_GatewayID := mr_gateway_id m; mi_GatewayName := g_name g; mi_WireguardPubkey := g_pubkey g;
  mi_Endpoint := g_endpoint g; mi_LocalSubnets := map cidr_text (mr_local_subnets m) |}.

Definition activeRoutes (tid : string) (s : store) : list (string * string) :=
  map (fun r => (rr_via_gateway r, cidr_text (rr_destination r)))
    (rows_by 86 rr_metric (List.filter (fun r => String.eqb (rr_tunnel_id r) tid && rr_is_active r) (troutes s))).

Definition generateConfig (generated rawId rawGateway : string) : H store E (Z * s2sBody) :=
  let! tid := the (uuid_Parse rawId) 400 "invalid UUID" in
  let! gid := the (uuid_Parse rawGateway) 400 "invalid UUID" in
  let! row := query (fail 0%nat) (fun s => option_map tr_name (byKey tr_id (tunnels s) tid)) 500 "failed to get tunnel" in
  let! tunnelName := the row 404 "tunnel not found" in
  let! ms := fetch fail 1 (fun s => rows 83 (joinMembers memberInfoRow tid s))
    "failed to query members" "failed to scan member" "failed to iterate members" in
  let! self := the (list.last (List.filter (fun m => String.eqb (mi_GatewayID m) gid) ms)) 404
    "gateway is not a member of this tunnel" in
  let! rs := fetch fail 4 (activeRoutes tid)
    "failed to query routes" "failed to scan route" "failed to iterate routes" in
  respondJSON 200 (SbFile ("s2s-" ++ tunnelName ++ "-" ++ mi_GatewayName self ++ ".conf")
    (configText tunnelName generated self ms (routesByGateway rs))).

Definition scanDomain (x : domain_row) : option s2sAllowedDomain :=
  option_map (fun created => {| ad_ID := dm_id x; ad_TunnelID := dm_tunnel_id x; ad_Domain := dm_domain x;
                                ad_CreatedAt := created |}) (timestamp_Text (dm_created_at x)).

Definition listDomains (rawId : string) : H store E (Z * s2sBody) :=
  let! tid := the (uuid_Parse rawId) 400 "invalid UUID" in
  let! xs := query (fail 0%nat) (fun s => rows_by 87 dm_created_at
      (List.filter (fun x => String.eqb (dm_tunnel_id x) tid) (domains s))) 500 "failed to list domains" in
  let! l := the (mapM scanDomain xs) 500 "failed to scan domain" in
  do! require (negb (fail 1%nat)) 500 "failed to iterate domains" in
  respondJSON 200 (SbDomains l).

Definition addDomain (newID : string) (now : Z) (rawId : string) (body : option string) : H store E (Z * s2sBody) :=
  let! tid := the (uuid_Parse rawId) 400 "invalid UUID" in
  let! domain := the body 400 "invalid JSON" in
  do! require (negb (String.eqb domain "")) 400 "domain is required" in
  let! x := exec (fail 0%nat) (insert_domain newID now tid domain) (fun e =>
    match e with
    | ErrUnique _ => (409, "domain already exists for this tunnel")
    | ErrForeignKey => (404, "tunnel not found")
    | _ => (500, "failed to add domain")
    end) in
  let! d := the (scanDomain x) 500 "failed to add domain" in
  respondJSON 201 (SbDomain d).

Definition removeDomain (rawId rawDomain : string) : H store E (Z * s2sBody) :=
  let! tid := the (uuid_Parse rawId) 400 "invalid UUID" in
  let! did := the (uuid_Parse rawDomain) 400 "invalid UUID" in
  do! deleting (fail 0%nat) (delete_domain did tid) "failed to delete domain" "domain not found" in
  respondJSON 204 SbNone.
End handlers.

(** ** The routes *)

Inductive request :=
| List
| Create (newID : string) (now : Z) (body : option new_tunnel)
| Get (id : string)
| Update (now : Z) (id : string) (body : option (option string * option string))
| Delete (id : string)
| ListMembers (id : string)
| AddMember (id : string) (body : option (string * option (list string)))
| RemoveMember (id gateway : string)
| ListRoutes (id : string)
| AddRoute (newID : string) (now : Z) (id : string) (body : option addRouteRequest)
| RemoveRoute (id route : string)
| GenerateConfig (generated id gateway : string)
| ListDomains (id : string)
| AddDomain (newID : string) (now : Z) (id : string) (body : option string)
| RemoveDomain (id domain : string).

Definition admin_only (r : request) : bool :=
  match r with
  | List | Get _ | ListMembers _ | ListRoutes _ | GenerateConfig _ _ _ | ListDomains _ => false
  | _ => true
  end.

Section facts.
Context `{SqlOrder} `{DeviceEnv} `{PgText} `{PgxScan} {E : Type} (notifier : option (s2s_notifier E)).

Definition serve (fail : nat -> bool) (r : request) : H store E (Z * s2sBody) :=
  match r with
  | List => list_ fail
  | Create newID now body => create fail newID now body
  | Get id => get fail id
  | Update now id body => update fail now id body
  | Delete id => delete_ fail id
  | ListMembers id => listMembers fail id
  | AddMember id body => addMember notifier fail id body
  | RemoveMember id gw => removeMember notifier fail id gw
  | ListRoutes id => listRoutes fail id
  | AddRoute newID now id body => addRoute notifier fail newID now id body
  | RemoveRoute id route => removeRoute notifier fail id route
  | GenerateConfig generated id gw => generateConfig fail generated id gw
  | ListDomains id => listDomains fail id
  | AddDomain newID now id body => addDomain fail newID now id body
  | RemoveDomain id domain => removeDomain fail id domain
  end.

Lemma create_wf fail newID now body : preserves s2s_wf (create (E := E) fail newID now body).
Proof.
  unfold create. apply preserves_the_bind. intros req _. apply preserves_require_bind. intros _.
  apply preserves_require_bind. intros Ht. apply preserves_require_bind. intros Hh.
  apply preserves_bind; [|intros t; apply preserves_respondJSON]. apply preserves_exec. apply insert_tunnel_wf.
  - apply orb_true_iff in Ht. rewrite !String.eqb_eq in Ht. done.
  - intros E'. rewrite E' in Hh. cbn in Hh. destruct (nt_hub req); [eauto|done].
Qed.

(** Site-to-site tables stay well formed: tunnel names and memberships are
    unique, a tunnel is a mesh or has a hub, members and routes name existing
    tunnels and gateways, and subnets and destinations are blocks, whatever is
    asked of the endpoints. *)
Theorem s2s_stays_wf fail r s : s2s_wf s -> s2s_wf (run (serve fail r) s).1.2.
Proof.
  intros Hs. apply (preserves_run s2s_wf); [|done]. destruct r; cbn [serve]; try apply create_wf;
    unfold list_, get, update, delete_, listMembers, addMember, removeMember, listRoutes, addRoute, removeRoute,
      generateConfig, listDomains, addDomain, removeDomain, notifyOne, notifyTunnelMembers;
    invariant_steps; auto with integrity.
Qed.
End facts.

(** ** The file and the push agree *)

Section agreement.
Context `{SqlOrder}.

(** A peer with more allowed addresses. *)
Definition allow (ips : list string) (p : S2SPeer) : S2SPeer := {|
  SP_GatewayId := SP_GatewayId p; SP_PublicKey := SP_PublicKey p; SP_Endpoint := SP_Endpoint p;
  SP_AllowedIps := (SP_AllowedIps p ++ ips)%list; SP_PersistentKeepalive := SP_PersistentKeepalive p |}.

Lemma allow_nil p : allow [] p = p.
Proof. destruct p. unfold allow. cbn. by rewrite app_nil_r. Qed.

Lemma allow_allow a b p : allow b (allow a p) = allow (a ++ b)%list p.
Proof. unfold allow. cbn. by rewrite <- app_assoc. Qed.

(** With distinct gateways, the inner loop reaches the one peer it is for. *)
Lemma addRoute_map peers dest via :
  NoDup (map SP_GatewayId peers) ->
  Hub.addRoute peers dest via = map (fun p => if String.eqb (SP_GatewayId p) via then allow [dest] p else p) peers.
Proof.
  induction peers as [|p peers IH]; [done|]. cbn. intros [Hp Hnd]%NoDup_cons.
  destruct (String.eqb_spec (SP_GatewayId p) via) as [<-|Hne]; [|by rewrite IH]. f_equal.
  rewrite <- (map_id peers) at 1. apply map_ext_in. intros q Hq.
  destruct (String.eqb_spec (SP_GatewayId q) (SP_GatewayId p)) as [E|]; [|done].
  destruct Hp. rewrite <- E. apply (list_elem_of_fmap_2 SP_GatewayId). by apply list_elem_of_In.
Qed.

Definition destsVia (rs : list (string * string)) (gw : string) : list string :=
  map snd (List.filter (fun r => String.eqb r.1 gw) rs).

(** The whole loop gives each peer the destinations of its gateway. *)
Lemma foldl_addRoute (rs : list (string * string)) peers :
  NoDup (map SP_GatewayId peers) ->
  foldl (fun ps r => Hub.addRoute ps r.2 r.1) peers rs = map (fun p => allow (destsVia rs (SP_GatewayId p)) p) peers.
Proof.
  revert peers. induction rs as [|[via dest] rs IH]; intros peers Hnd; cbn [foldl].
  { rewrite <- (map_id peers) at 1. apply map_ext. intros p. by rewrite allow_nil. }
  rewrite addRoute_map by done. rewrite IH.
  2: { rewrite map_map. erewrite map_ext; [exact Hnd|]. intros p. by destruct (String.eqb _ _). }
  rewrite map_map. apply map_ext. intros p. unfold destsVia. cbn [List.filter fst].
  rewrite (String.eqb_sym via). destruct (String.eqb_spec (SP_GatewayId p) via) as [<-|]; [|done].
  rewrite allow_allow. done.
Qed.

Lemma routesByGateway_lookup rs k : default [] (routesByGateway rs !! k) = destsVia rs k.
Proof.
  unfold routesByGateway, destsVia. rewrite foldl_appendTo_lookup, lookup_empty.
  by destruct (map snd _).
Qed.

Definition pairs (tid : string) (s : store) : list (member_row * gateway) := joinMembers pair tid s.

Definition peerOf (mg : member_row * gateway) : S2SPeer := {|
  SP_GatewayId := mr_gateway_id mg.1; SP_PublicKey := default (g_pubkey mg.2) (mr_public_key mg.1);
  SP_Endpoint := g_endpoint mg.2; SP_AllowedIps := map cidr_text (mr_local_subnets mg.1);
  SP_PersistentKeepalive := 25 |}.

Lemma filter_app_list {A} (P : A -> bool) l1 l2 :
  List.filter P (l1 ++ l2)%list = (List.filter P l1 ++ List.filter P l2)%list.
Proof. induction l1 as [|x l1 IH]; cbn; [done|]. destruct (P x); cbn; by rewrite IH. Qed.

Lemma bind_singleton {A B} (f : A -> B) l : (l ≫= fun x => [f x]) = map f l.
Proof. induction l as [|x l IH]; cbn; [done|]. by rewrite IH. Qed.

Lemma joinMembers_map {A} (f : member_row -> gateway -> A) tid s :
  joinMembers f tid s = map (fun mg => f mg.1 mg.2) (pairs tid s).
Proof.
  unfold pairs, joinMembers. induction (List.filter _ (members s)) as [|m ms IH]; cbn; [done|].
  rewrite map_app, <- IH. f_equal. by rewrite !bind_singleton, map_map.
Qed.

Lemma bind_cons_list {A B} (x : A) (l : list A) (f : A -> list B) : ((x :: l) ≫= f) = (f x ++ (l ≫= f))%list.
Proof. done. Qed.

Lemma map_filter_pairs (P : member_row -> bool) m (gs : list gateway) :
  map peerOf (List.filter (fun mg => P mg.1) (map (pair m) gs)) =
  if P m then map (fun g => peerOf (m, g)) gs else [].
Proof.
  induction gs as [|g gs IH]; cbn; [by destruct (P m)|]. destruct (P m); cbn; [|done]. by rewrite IH.
Qed.

Lemma s2sPeers_pairs tid gid s :
  s2sPeers (base s) (view s) tid gid =
  map peerOf (List.filter (fun mg => negb (String.eqb (mr_gateway_id mg.1) gid)) (pairs tid s)).
Proof.
  unfold s2sPeers, pairs, joinMembers. cbn [view s2s_tunnel_members].
  induction (members s) as [|m ms IH]; cbn [map List.filter m_tunnel_id]; [done|].
  destruct (String.eqb (mr_tunnel_id m) tid); cbn [andb]; [|apply IH].
  cbn [m_gateway_id].
  rewrite (bind_cons_list m), filter_app_list, map_app, <- IH, bind_singleton, (map_filter_pairs (fun m => negb (String.eqb (mr_gateway_id m) gid))).
  destruct (String.eqb (mr_gateway_id m) gid); cbn [negb]; [done|].
  by rewrite bind_cons_list, bind_singleton.
Qed.

(** A tunnel has one row per member gateway. *)
Lemma filter_key_unit {A} (key : A -> string) l k :
  NoDup (map key l) -> List.filter (fun x => String.eqb (key x) k) l = [] \/
    exists x, key x = k /\ List.filter (fun x => String.eqb (key x) k) l = [x].
Proof.
  induction l as [|y l IH]; cbn; [by left|]. intros [Hy Hnd]%NoDup_cons.
  destruct (String.eqb_spec (key y) k) as [<-|]; [|auto]. right. exists y. split; [done|]. f_equal.
  destruct (IH Hnd) as [|(x & Ex & E)]; [done|]. destruct Hy. rewrite <- Ex. apply (list_elem_of_fmap_2 key).
  assert (x ∈ List.filter (fun x => String.eqb (key x) (key y)) l) as Hx by (rewrite E; left).
  apply list_elem_of_In, filter_In in Hx as [Hx _]. by apply list_elem_of_In.
Qed.

Lemma pairs_NoDup tid s :
  NoDup (map member_key (members s)) -> NoDup (map g_id (gateways (base s))) ->
  NoDup (map (fun mg => mr_gateway_id mg.1) (pairs tid s)).
Proof.
  intros Hm Hg. unfold pairs, joinMembers. induction (members s) as [|m ms IH]; cbn [List.filter]; [constructor|].
  cbn in Hm. apply NoDup_cons in Hm as [Hk Hm].
  destruct (String.eqb_spec (mr_tunnel_id m) tid) as [<-|]; [|by apply IH].
  rewrite bind_cons_list, map_app, bind_singleton.
  destruct (filter_key_unit g_id (gateways (base s)) (mr_gateway_id m) Hg) as [->|(g & Eg & ->)]; [by apply IH|].
  cbn. constructor; [|by apply IH]. intros (mg & E & Hmg)%list_elem_of_fmap.
  apply list_elem_of_bind in Hmg as (m' & Hin & Hm'). apply list_elem_of_bind in Hin as (g' & Hin & _).
  apply list_elem_of_singleton in Hin as ->. cbn in E. apply list_elem_of_In, filter_In in Hm' as [Hm' Et].
  apply Hk. apply list_elem_of_fmap. exists m'. split; [|by apply list_elem_of_In].
  apply String.eqb_eq in Et. unfold member_key. congruence.
Qed.

(** The routes the push and the file read, up to the order of equal metrics. *)
Lemma routes_agree tid s :
  map (fun r => (sr_via_gateway r, sr_destination r)) (rows_by 22 sr_metric (tunnelRoutes (view s) tid)) ≡ₚ
  activeRoutes tid s.
Proof.
  unfold activeRoutes. rewrite !rows_by_perm. unfold tunnelRoutes. cbn [view s2s_routes].
  apply reflexive_eq. induction (troutes s) as [|r rs IH]; cbn; [done|].
  destruct (String.eqb (rr_tunnel_id r) tid && rr_is_active r); cbn; by rewrite IH.
Qed.

Lemma destsVia_perm rs rs' gw : rs ≡ₚ rs' -> destsVia rs gw ≡ₚ destsVia rs' gw.
Proof.
  intros Hp. unfold destsVia. apply Permutation_map. induction Hp; cbn.
  - done.
  - destruct (String.eqb _ _); [by constructor|done].
  - destruct (String.eqb (fst x) gw), (String.eqb (fst y) gw); try done. constructor.
  - by etransitivity.
Qed.

Lemma foldl_routes (rs : list s2s_route) peers :
  foldl (fun ps r => Hub.addRoute ps (sr_destination r) (sr_via_gateway r)) peers rs =
  foldl (fun ps r => Hub.addRoute ps r.2 r.1) peers (map (fun r => (sr_via_gateway r, sr_destination r)) rs).
Proof. revert peers. induction rs as [|r rs IH]; intros peers; cbn; [done|]. apply IH. Qed.

(** What the configuration of a tunnel gives to one peer. *)
Definition same_peer (s : store) (tid : string) (m : memberInfo) (p : S2SPeer) : Prop :=
  mi_GatewayID m = SP_GatewayId p /\ mi_Endpoint m = SP_Endpoint p /\
  peerAllowedIPs (routesByGateway (activeRoutes tid s)) m ≡ₚ SP_AllowedIps p.

(** The rows the downloaded file is written from and the configuration pushed
    over gRPC describe the same tunnel: the peers of a member are the same
    gateways at the same endpoints, with the same allowed addresses up to order.
    The key that names a peer is another matter. *)
Theorem download_matches_push f s gid tn m cfg :
  s2s_wf s -> NoDup (map g_id (gateways (base s))) ->
  peerFails f (t_id tn) = false -> routeFails f (t_id tn) = false ->
  tunnelConfig f (base s) (view s) gid (tn, m) = Some cfg ->
  (forall p, p ∈ TC_Peers cfg -> exists mi, mi ∈ joinMembers memberInfoRow (t_id tn) s /\
     mi_GatewayID mi <> gid /\ same_peer s (t_id tn) mi p) /\
  (forall mi, mi ∈ joinMembers memberInfoRow (t_id tn) s -> mi_GatewayID mi <> gid ->
     exists p, p ∈ TC_Peers cfg /\ same_peer s (t_id tn) mi p).
Proof.
  intros Hwf Hg Hpf Hrf. unfold tunnelConfig. cbn [fst]. rewrite Hpf, Hrf. intros [= <-]. cbn [TC_Peers].
  set (tid := t_id tn). set (peers := s2sPeers (base s) (view s) tid gid).
  rewrite foldl_routes, foldl_addRoute.
  2: { rewrite (fmap_Permutation SP_GatewayId _ peers) by apply rows_perm. unfold peers.
       rewrite s2sPeers_pairs. unfold fmap. rewrite map_map. cbn [peerOf SP_GatewayId].
       apply unique_filter. apply pairs_NoDup; [apply Hwf|done]. }
  assert (forall mg p, p = allow (destsVia (map (fun r => (sr_via_gateway r, sr_destination r))
      (rows_by 22 sr_metric (tunnelRoutes (view s) tid))) (SP_GatewayId (peerOf mg))) (peerOf mg) ->
      same_peer s tid (memberInfoRow mg.1 mg.2) p) as Hsame.
  { intros mg p ->. split; [done|]. split; [done|]. unfold peerAllowedIPs. rewrite routesByGateway_lookup. cbn.
    apply Permutation_app_head. symmetry. apply destsVia_perm, routes_agree. }
  rewrite joinMembers_map. unfold peers. split.
  - intros p (q & -> & Hq)%list_elem_of_fmap. rewrite elem_of_rows, s2sPeers_pairs in Hq.
    apply list_elem_of_fmap in Hq as (mg & -> & Hmg). apply list_elem_of_In, filter_In in Hmg as [Hmg Hne].
    apply negb_true_iff, String.eqb_neq in Hne. exists (memberInfoRow mg.1 mg.2). split; [|split; [done|by apply Hsame]].
    apply (list_elem_of_fmap_2 (fun mg => memberInfoRow mg.1 mg.2)). by apply list_elem_of_In.
  - intros mi (mg & -> & Hmg)%list_elem_of_fmap Hne. eexists. split; [|by apply Hsame].
    apply (list_elem_of_fmap_2 (fun p => allow (destsVia _ (SP_GatewayId p)) p)). rewrite elem_of_rows, s2sPeers_pairs.
    apply list_elem_of_fmap_2. apply list_elem_of_In, filter_In. split; [by apply list_elem_of_In|].
    by apply negb_true_iff, String.eqb_neq.
Qed.
End agreement.

(** ** Who is told *)

Section told.
Context `{GoRange, SqlOrder} `{DeviceEnv} `{PgText} `{PgxScan} (f : s2s_faults) (h : StreamHub).

Definition members_told (tid : string) (s' : store) (es : list effect) : Prop :=
  forall gw st cfg, (tid, gw) ∈ map member_key (members s') -> streams h !! gw = Some st ->
    cfg ∈ fetchS2STunnels f (base s') (view s') gw ->
    Send st (EvS2SUpdate S2S_ADD_TUNNEL (Some cfg)) ∈ es.

Lemma notifyTunnelMembers_tells tid action s :
  members_told tid s (flat_map (fun gw => hubS2SNotifier f h s gw tid action)
    (rows 85 (map mr_gateway_id (List.filter (fun m => String.eqb (mr_tunnel_id m) tid) (members s))))).
Proof.
  intros gw st cfg (m & E & Hm)%list_elem_of_fmap Hst Hcfg. injection E as -> ->. apply elem_of_flat_map.
  exists (mr_gateway_id m). split.
  - rewrite elem_of_rows. apply (list_elem_of_fmap_2 mr_gateway_id). apply list_elem_of_In, filter_In.
    split; [by apply list_elem_of_In|]. apply String.eqb_refl.
  - unfold hubS2SNotifier, NotifyS2SUpdate. apply elem_of_flat_map. exists cfg. split; [done|]. by apply elem_of_SendTo.
Qed.

(** Every accepted change of the routes of a tunnel reaches its members:
    each connected gateway of the tunnel is sent the configuration of each of
    its tunnels, computed with the new routes. *)
Theorem route_change_tells_members fail r rawId s st b s' es tid :
  match r with AddRoute _ _ i _ | RemoveRoute i _ => i = rawId | _ => False end ->
  uuid_Parse rawId = Some tid -> fail 1%nat = false ->
  run (serve (Some (hubS2SNotifier f h)) fail r) s = (Reply st b, s', es) -> members_told tid s' es.
Proof.
  intros Hr Hid Hf Hrun. refine (run_Reply _ _ _ _ _ _ (fun _ s' es => members_told tid s' es) Hrun _).
  destruct r; try done; subst rawId; cbn [serve].
  - unfold addRoute, notifyTunnelMembers. apply wp_bind, wp_the. rewrite Hid. apply wp_bind, wp_the.
    destruct body as [req|]; [|done]. apply wp_bind, wp_require. case_match; [|done].
    apply wp_bind, wp_the. destruct (uuid_Parse (ar_ViaGateway req)) as [via|]; [|done].
    apply wp_bind, wp_exec. destruct (if fail 0%nat then _ else _) as [[r s1]|]; [|done].
    apply wp_bind, wp_asks, wp_bind, wp_the. destruct (scanRoute _ _); [|done].
    apply wp_bind, wp_emit, wp_ret. cbn [app]. rewrite app_nil_r, Hf. apply notifyTunnelMembers_tells.
  - unfold removeRoute, notifyTunnelMembers, deleting. apply wp_bind, wp_the. rewrite Hid. apply wp_bind, wp_the.
    destruct (uuid_Parse route) as [rid|]; [|done].
    apply wp_bind, wp_exec. destruct (if fail 0%nat then _ else _) as [[n s1]|]; [|done].
    apply wp_bind, wp_emit, wp_ret. cbn [app]. rewrite app_nil_r, Hf. apply notifyTunnelMembers_tells.
Qed.
End told.

(** ** Concrete requests *)

Definition any_time : PgxScan := {| timestamp_Text := fun _ => Some "then" |}.
(** The driver reads timestamps in binary and refuses a string for them. *)
Definition no_time : PgxScan := {| timestamp_Text := fun _ => None |}.

Definition lan_member (gw : string) (base : Z) (key : string) : member_row := {|
  mr_tunnel_id := "t1"; mr_gateway_id := gw; mr_local_subnets := [Cidr base 24]; mr_private_key := Some ("priv-" ++ key);
  mr_public_key := Some key; mr_listen_port := 0 |}.

Definition demo_store : store := {|
  base := set_gateways demo_db [mkGateway "g1" (Some "n2"); mkGateway "g2" (Some "n3")];
  tunnels := [{| tr_id := "t1"; tr_name := "offices"; tr_description := ""; tr_topology := "mesh"; tr_hub := None;
                 tr_is_active := true; tr_created_at := 0; tr_updated_at := 0 |}];
  members := [lan_member "g1" 3232235520 "k1"; lan_member "g2" 3232235776 "k2"];
  troutes := [{| rr_id := "r1"; rr_tunnel_id := "t1"; rr_destination := Cidr 167772160 8; rr_via_gateway := "g2";
                rr_metric := 100; rr_is_active := true; rr_created_at := 0 |}];
  domains := [] |}.

Lemma demo_store_wf : s2s_wf demo_store.
Proof.
  split; apply (bool_decide_unpack _); vm_compute; exact I.
Qed.

Definition s2s_hub : StreamHub := Register (Register (NewStreamHub false) "g1" 1%nat) "g2" 2%nat.

Definition all_fine : s2s_faults := {| memberFails := false; peerFails := fun _ => false; routeFails := fun _ => false |}.

Definition demo_serve (scan : PgxScan) (r : request) : H store effect (Z * s2sBody) :=
  @serve sql_default toy_device_env toy_pg scan effect
    (Some (@hubS2SNotifier range_default sql_default all_fine s2s_hub)) noFail r.

Definition demo_route : request := AddRoute "r2" 9 "t1"
  (Some {| ar_Destination := "172.16.0.0/12"; ar_ViaGateway := "g2"; ar_Metric := None |}).

Lemma s2s_stays_wf_witness :
  length (troutes (run (demo_serve any_time demo_route) demo_store).1.2) = 2%nat /\
  s2s_wf (run (demo_serve any_time demo_route) demo_store).1.2.
Proof.
  split; [vm_compute; reflexivity|].
  exact (@s2s_stays_wf sql_default toy_device_env toy_pg any_time effect
    (Some (@hubS2SNotifier range_default sql_default all_fine s2s_hub)) noFail demo_route demo_store demo_store_wf).
Defined.

Definition demo_tunnel : s2s_tunnel * s2s_member :=
  ({| t_id := "t1"; t_name := "offices"; t_topology := "mesh"; t_is_active := true |},
   {| m_tunnel_id := "t1"; m_gateway_id := "g1"; m_local_subnets := ["192.168.0.0/24"]; m_private_key := Some "priv-k1";
      m_public_key := Some "k1"; m_listen_port := 0 |}).

Lemma download_matches_push_witness :
  exists cfg, @tunnelConfig sql_default all_fine (base demo_store) (view demo_store) "g1" demo_tunnel = Some cfg /\
    map SP_AllowedIps (TC_Peers cfg) = [["192.168.1.0/24"; "10.0.0.0/8"]] /\
    exists p, p ∈ TC_Peers cfg /\ @same_peer sql_default demo_store "t1"
      (memberInfoRow (lan_member "g2" 3232235776 "k2") (mkGateway "g2" (Some "n3"))) p.
Proof.
  eexists. split; [vm_compute; reflexivity|]. split; [vm_compute; reflexivity|].
  refine (proj2 (@download_matches_push sql_default all_fine demo_store "g1" demo_tunnel.1 demo_tunnel.2 _
    demo_store_wf _ eq_refl eq_refl _) _ _ _).
  - apply (bool_decide_unpack _). vm_compute. exact I.
  - vm_compute. reflexivity.
  - right. left.
  - discriminate.
Defined.

Lemma route_change_tells_members_witness :
  let out := run (demo_serve any_time demo_route) demo_store in
  length (List.filter (fun e => match e with Send 1%nat (EvS2SUpdate _ _) => true | _ => false end) out.2) = 1%nat /\
  @members_told sql_default all_fine s2s_hub "t1" out.1.2 out.2.
Proof.
  split; [vm_compute; reflexivity|].
  eapply (@route_change_tells_members range_default sql_default toy_device_env toy_pg any_time all_fine s2s_hub noFail
    demo_route "t1" demo_store); [reflexivity|reflexivity|reflexivity|vm_compute; reflexivity].
Defined.

(** ** Where the code falls short *)

(** The file gives the WireGuard key of the gateway; the tunnel uses the key of
    the membership. *)
Theorem download_has_wrong_key :
  map mi_WireguardPubkey (joinMembers memberInfoRow "t1" demo_store) = ["g1"; "g2"] /\
  exists cfg, @tunnelConfig sql_default all_fine (base demo_store) (view demo_store) "g1" demo_tunnel = Some cfg /\
    map SP_PublicKey (TC_Peers cfg) = ["k2"].
Proof. split; [vm_compute; reflexivity|]. eexists. split; vm_compute; reflexivity. Qed.

(** When the driver does not scan timestamps into strings, a route is stored,
    the request answers 500 and no gateway learns of it. *)
Theorem route_stored_but_refused :
  let out := run (demo_serve no_time demo_route) demo_store in
  out.1.1 = Failure 500 "failed to add route" /\ length (troutes out.1.2) = 2%nat /\ out.2 = [] /\
  (run (demo_serve no_time (ListRoutes "t1")) demo_store).1.1 = Failure 500 "failed to scan route".
Proof. repeat split; vm_compute; reflexivity. Qed.

(** Removing a member tells only that gateway, and only about its other
    tunnels: nothing is torn down and the remaining members keep the peer. *)
Theorem member_removal_leaves_tunnel :
  let out := run (demo_serve any_time (RemoveMember "t1" "g2")) demo_store in
  out.1.1 = Reply 204 SbNone /\ out.2 = [] /\
  @fetchS2STunnels sql_default all_fine (base out.1.2) (view out.1.2) "g1" <>
  @fetchS2STunnels sql_default all_fine (base demo_store) (view demo_store) "g1".
Proof. split; [vm_compute; reflexivity|]. split; [vm_compute; reflexivity|by vm_compute]. Qed.

(** Deleting a tunnel tells nobody. *)
Theorem tunnel_delete_silent :
  (run (demo_serve any_time (Delete "t1")) demo_store).1.1 = Reply 204 SbNone /\
  (run (demo_serve any_time (Delete "t1")) demo_store).2 = [].
Proof. split; vm_compute; reflexivity. Qed.
