(* ===== verification/ZtnaAdmin.v ===== *)
(** * The zero-trust endpoints

    [internal/core/handler/ztna.go]: trust scores and their configuration,
    conditional access policies, split DNS rules, and the posture reports of the
    clients.  The tables have the columns the endpoints use; [dbOf] puts the
    policies and the flags of the configuration where the firewall builder
    (file [Policy]) reads them. *)

From S2P Require Import Prelude Net Schema Json Ztna Auth Policy Hub Devices Http Tables Groups.
From Stdlib Require Import ZArith Lia Ascii String.
From stdpp Require Import base gmap strings list.
Import Ztna.Trust Auth.Token.

Local Open Scope Z_scope.
Local Open Scope string_scope.
Local Open Scope outpost_scope.

(** ** Tables *)

Record policy_row := {
  pr_id : string;
  pr_name : string;
  pr_description : option string;
  pr_is_active : bool;
  pr_conditions : json;
  pr_action : string;
  pr_network_ids : list string;
  pr_priority : Z;
  pr_created_at : Z;
  pr_updated_at : Z;
}.

Record dns_row := {
  dn_id : string;
  dn_network_id : string;
  dn_domain : string;
  dn_server : string;
  dn_is_active : bool;
  dn_created_at : Z;
}.

Record zstore := {
  zbase : db;
  zconfig : option TrustScoreConfig;   (* the row of trust_score_config *)
  zpolicies : list policy_row;
  zdns : list dns_row;
}.

Definition set_base (s : zstore) d := {|
  zbase := d; zconfig := zconfig s; zpolicies := zpolicies s; zdns := zdns s |}.
Definition set_config (s : zstore) c := {|
  zbase := zbase s; zconfig := Some c; zpolicies := zpolicies s; zdns := zdns s |}.
Definition set_policies (s : zstore) l := {|
  zbase := zbase s; zconfig := zconfig s; zpolicies := l; zdns := zdns s |}.
Definition set_dns (s : zstore) l := {|
  zbase := zbase s; zconfig := zconfig s; zpolicies := zpolicies s; zdns := l |}.

(** [json.Unmarshal] into the struct of the conditions. *)
Definition condition_key (c : conditions) (kv : string * json) : option conditions :=
  let '(k, v) := kv in
  if same_key k "min_trust_score" then
    (fun x => {| MinTrustScore := x; CondDiskEncryption := CondDiskEncryption c; CondScreenLock := CondScreenLock c;
                 CondAntivirus := CondAntivirus c; CondFirewall := CondFirewall c; CondMFA := CondMFA c |}) <$> int_field v
  else if same_key k "require_disk_encryption" then
    (fun x => {| MinTrustScore := MinTrustScore c; CondDiskEncryption := x; CondScreenLock := CondScreenLock c;
                 CondAntivirus := CondAntivirus c; CondFirewall := CondFirewall c; CondMFA := CondMFA c |}) <$> bool_field v
  else if same_key k "require_screen_lock" then
    (fun x => {| MinTrustScore := MinTrustScore c; CondDiskEncryption := CondDiskEncryption c; CondScreenLock := x;
                 CondAntivirus := CondAntivirus c; CondFirewall := CondFirewall c; CondMFA := CondMFA c |}) <$> bool_field v
  else if same_key k "require_antivirus" then
    (fun x => {| MinTrustScore := MinTrustScore c; CondDiskEncryption := CondDiskEncryption c; CondScreenLock := CondScreenLock c;
                 CondAntivirus := x; CondFirewall := CondFirewall c; CondMFA := CondMFA c |}) <$> bool_field v
  else if same_key k "require_firewall" then
    (fun x => {| MinTrustScore := MinTrustScore c; CondDiskEncryption := CondDiskEncryption c; CondScreenLock := CondScreenLock c;
                 CondAntivirus := CondAntivirus c; CondFirewall := x; CondMFA := CondMFA c |}) <$> bool_field v
  else if same_key k "require_mfa" then
    (fun x => {| MinTrustScore := MinTrustScore c; CondDiskEncryption := CondDiskEncryption c; CondScreenLock := CondScreenLock c;
                 CondAntivirus := CondAntivirus c; CondFirewall := CondFirewall c; CondMFA := x |}) <$> bool_field v
  else Some c.

Definition no_conditions : conditions := {|
  MinTrustScore := None; CondDiskEncryption := None; CondScreenLock := None; CondAntivirus := None;
  CondFirewall := None; CondMFA := None |}.

Definition unmarshalConditions (j : json) : option conditions :=
  match j with
  | JNull => Some no_conditions
  | JObject l => foldl (fun c kv => c ≫= fun c => condition_key c kv) (Some no_conditions) l
  | _ => None
  end.

Definition policyOf (p : policy_row) : ztna_policy := {|
  p_conditions := unmarshalConditions (pr_conditions p); p_action := pr_action p;
  p_network_ids := pr_network_ids p; p_is_active := pr_is_active p; p_priority := pr_priority p |}.

Definition dbOf (s : zstore) : db :=
  let d := zbase s in {|
  users := users d; devices := devices d; networks := networks d; gateways := gateways d;
  gateway_networks := gateway_networks d; groups := groups d; user_groups := user_groups d;
  network_acls := network_acls d; device_posture := device_posture d;
  device_trust_scores := device_trust_scores d;
  trust_auto := (fun c => (AutoRestrictBelowMedium c, AutoBlockBelowLow c)) <$> zconfig s;
  ztna_policies := map policyOf (zpolicies s); smart_routes := smart_routes d;
  smart_route_entries := smart_route_entries d; network_smart_routes := network_smart_routes d;
  roles := roles d; user_roles := user_roles d; logins := logins d |}.

(** ** Statements *)

(** PostgreSQL's [jsonb] input, for a JSON string the driver sends as text. *)
Class PgJson : Type := { pg_jsonb : string -> option json }.

Section statements.
Context `{PgJson}.

(** The driver marshals a value, except that a string is taken as JSON text. *)
Definition encodeJSONB (j : json) : option json :=
  match j with JString t => pg_jsonb t | _ => Some j end.

(** The columns of the configuration are 32-bit integers. *)
Definition config_fits (c : TrustScoreConfig) : bool :=
  forallb int32_ok [WeightDiskEncryption c; WeightScreenLock c; WeightAntivirus c; WeightFirewall c;
    WeightOSVersion c; WeightMFA c; ThresholdHigh c; ThresholdMedium c; ThresholdLow c].

Definition upsert_config (c : TrustScoreConfig) : stmt zstore unit := fun s =>
  if config_fits c then inl (tt, set_config s c) else inr ErrOther.

Record createPolicyRequest := {
  cp_Name : string;
  cp_Description : option string;
  cp_Conditions : option json;
  cp_Action : string;
  cp_NetworkIDs : option (list string);
  cp_Priority : Z;
}.

(** [conditions] is NOT NULL and a missing one is sent as NULL. *)
Definition insert_policy (newID : string) (now : Z) (r : createPolicyRequest) (action : string) (nets : list string)
  : stmt zstore policy_row := fun s =>
  match cp_Conditions r ≫= encodeJSONB with
  | None => inr ErrOther
  | Some j =>
      let p := {| pr_id := newID; pr_name := cp_Name r; pr_description := cp_Description r; pr_is_active := true;
                  pr_conditions := j; pr_action := action; pr_network_ids := nets; pr_priority := cp_Priority r;
                  pr_created_at := now; pr_updated_at := now |} in
      if negb (int32_ok (cp_Priority r)) then inr ErrOther
      else if has pr_id (zpolicies s) newID then inr (ErrUnique "ztna_policies_pkey")
      else if has pr_name (zpolicies s) (cp_Name r) then inr (ErrUnique "ztna_policies_name_key")
      else inl (p, set_policies s (zpolicies s ++ [p])%list)
  end.

Record updatePolicyRequest := {
  up_Name : option string;
  up_Description : option string;
  up_IsActive : option bool;
  up_Conditions : option json;
  up_Action : option string;
  up_NetworkIDs : option (list string);
  up_Priority : option Z;
}.

Definition patch_policy (now : Z) (r : updatePolicyRequest) (cond : option json) (p : policy_row) : policy_row := {|
  pr_id := pr_id p; pr_name := default (pr_name p) (up_Name r);
  pr_description := match up_Description r with Some x => Some x | None => pr_description p end;
  pr_is_active := default (pr_is_active p) (up_IsActive r); pr_conditions := default (pr_conditions p) cond;
  pr_action := default (pr_action p) (up_Action r); pr_network_ids := default (pr_network_ids p) (up_NetworkIDs r);
  pr_priority := default (pr_priority p) (up_Priority r); pr_created_at := pr_created_at p; pr_updated_at := now |}.

Definition update_policy (now : Z) (id : string) (r : updatePolicyRequest) : stmt zstore policy_row := fun s =>
  match match up_Conditions r with None => Some None | Some j => Some <$> encodeJSONB j end with
  | None => inr ErrOther
  | Some cond =>
      if negb (int32_ok (default 0 (up_Priority r))) then inr ErrOther else
      match byKey pr_id (zpolicies s) id with
      | None => inr ErrNoRows
      | Some p =>
          if clash pr_id (Some ∘ pr_name) (zpolicies s) id (Some (default (pr_name p) (up_Name r)))
          then inr (ErrUnique "ztna_policies_name_key")
          else inl (patch_policy now r cond p,
                    set_policies s (upd pr_id id (patch_policy now r cond) (zpolicies s)))
      end
  end.

Definition delete_policy (id : string) : stmt zstore nat := fun s =>
  inl (rowsWith pr_id (zpolicies s) id, set_policies s (without pr_id (zpolicies s) id)).

Definition insert_dns (newID : string) (now : Z) (nid domain server : string) : stmt zstore dns_row := fun s =>
  let x := {| dn_id := newID; dn_network_id := nid; dn_domain := domain; dn_server := server; dn_is_active := true;
              dn_created_at := now |} in
  if has dn_id (zdns s) newID then inr (ErrUnique "dns_rules_pkey")
  else if has n_id (networks (zbase s)) nid then inl (x, set_dns s (zdns s ++ [x])%list)
  else inr ErrForeignKey.

Definition delete_dns (id : string) : stmt zstore nat := fun s =>
  inl (rowsWith dn_id (zdns s) id, set_dns s (without dn_id (zdns s) id)).

Definition insert_posture (row : posture_row) : stmt zstore unit := fun s =>
  if negb (int32_ok (dp_score row)) then inr ErrOther
  else if has d_id (devices (zbase s)) (dp_device_id row)
  then inl (tt, set_base s (set_device_posture (zbase s) (device_posture (zbase s) ++ [row])%list))
  else inr ErrForeignKey.
End statements.

(** ** Requests and responses *)

Record trustScoreSummary := {
  tss_DeviceID : string;
  tss_DeviceName : string;
  tss_UserID : string;
  tss_Username : string;
  tss_Score : Z;
  tss_Level : string;
  tss_EvaluatedAt : Z;
}.

Record postureReport := {
  po_DeviceID : string;
  po_OSType : string;
  po_OSVersion : string;
  po_DiskEncrypted : bool;
  po_ScreenLockEnabled : bool;
  po_AntivirusActive : bool;
  po_FirewallEnabled : bool;
}.

Record createDNSRuleRequest := { dr_NetworkID : string; dr_Domain : string; dr_DNSServer : string }.

(** The answer to a report: the trust score when it was computed, the reason
    when the device is told it is blocked. *)
Record postureReply := {
  ry_PostureScore : Z;
  ry_Trust : option (Z * TrustLevel);
  ry_Blocked : option string;
}.

Inductive ztnaBody :=
| ZbScore (r : TrustScoreResult)
| ZbScores (l : list trustScoreSummary)
| ZbConfig (c : TrustScoreConfig)
| ZbHistory (l : list (Z * string * Z))
| ZbPolicies (l : list policy_row)
| ZbPolicy (p : policy_row)
| ZbRules (l : list dns_row)
| ZbRule (r : dns_row)
| ZbPosture (r : postureReply)
| ZbNone.

Definition uuid_Nil : string := "00000000-0000-0000-0000-000000000000".

(** ** Scores *)

(** The score of a report: the weights of the four checks. *)
Definition postureScore (config : TrustScoreConfig) (r : postureReport) : Z :=
  let add (b : bool) w score := if b then add64 score w else score in
  add (po_FirewallEnabled r) (WeightFirewall config)
    (add (po_AntivirusActive r) (WeightAntivirus config)
      (add (po_ScreenLockEnabled r) (WeightScreenLock config)
        (add (po_DiskEncrypted r) (WeightDiskEncryption config) 0))).

(** The row a report stores. *)
Definition reportRow (id : string) (at_ score : Z) (r : postureReport) : posture_row := {|
  dp_device_id := id; dp_os_type := po_OSType r; dp_os_version := po_OSVersion r;
  dp_disk_encrypted := po_DiskEncrypted r; dp_screen_lock := po_ScreenLockEnabled r;
  dp_antivirus := po_AntivirusActive r; dp_firewall := po_FirewallEnabled r; dp_score := score;
  dp_checked_at := at_ |}.

(** The sum of the weights, or the refusal at the first negative one. *)
Fixpoint sumWeights (total : Z) (ws : list Z) : option Z :=
  match ws with
  | [] => Some total
  | w :: ws => if (w <? 0)%Z then None else sumWeights (add64 total w) ws
  end.

Definition weights (c : TrustScoreConfig) : list Z :=
  [WeightDiskEncryption c; WeightScreenLock c; WeightAntivirus c; WeightFirewall c; WeightOSVersion c; WeightMFA c].

(** ** What a report is told *)

(** The checks of the device and of its owner. *)
Record checks := { ck_disk : bool; ck_lock : bool; ck_av : bool; ck_fw : bool; ck_mfa : bool }.

Definition no_checks : checks := {| ck_disk := false; ck_lock := false; ck_av := false; ck_fw := false; ck_mfa := false |}.

(** [devices JOIN users LEFT JOIN LATERAL (latest posture) WHERE d.id = $1]. *)
Definition deviceChecks (d : db) (id : string) : checks :=
  match byKey d_id (devices d) id with
  | None => no_checks
  | Some dev =>
      match byKey u_id (users d) (d_user_id dev) with
      | None => no_checks
      | Some u =>
          let dp := latestChecks d dev in
          {| ck_disk := default false (dp_disk_encrypted <$> dp); ck_lock := default false (dp_screen_lock <$> dp);
             ck_av := default false (dp_antivirus <$> dp); ck_fw := default false (dp_firewall <$> dp);
             ck_mfa := u_mfa_enabled u |}
      end
  end.

(** [if cond.X != nil && *cond.X && !x { failReason = msg }]. *)
Definition require_check (c : option bool) (has : bool) (msg : string) (reason : option string) : option string :=
  if requiredMissing c has then Some msg else reason.

(** The reason of the last condition that fails. *)
Definition failReason (cond : conditions) (trustScore : Z) (k : checks) : option string :=
  let r := match MinTrustScore cond with
           | Some m => if (trustScore <? m)%Z
                       then Some ("trust score " ++ itoa trustScore ++ " below minimum " ++ itoa m) else None
           | None => None
           end in
  let r := require_check (CondDiskEncryption cond) (ck_disk k) "disk encryption is required but not enabled" r in
  let r := require_check (CondScreenLock cond) (ck_lock k) "screen lock is required but not enabled" r in
  let r := require_check (CondAntivirus cond) (ck_av k) "antivirus is required but not active" r in
  let r := require_check (CondFirewall cond) (ck_fw k) "firewall is required but not enabled" r in
  require_check (CondMFA cond) (ck_mfa k) "MFA is required but not enabled" r.

(** The loop over the policies; the scan of a row can fail. *)
Fixpoint policyReason (fail : nat -> bool) (i : nat) (trustScore : Z) (k : checks) (pols : list policy_row) : option string :=
  match pols with
  | [] => None
  | p :: pols =>
      if fail i then policyReason fail (i + 1) trustScore k pols else
      match unmarshalConditions (pr_conditions p) with
      | None => policyReason fail (i + 1) trustScore k pols
      | Some cond =>
          match failReason cond trustScore k with
          | Some reason => Some ("ZTNA policy '" ++ pr_name p ++ "' violation: " ++ reason ++ ". Contact your administrator.")
          | None => policyReason fail (i + 1) trustScore k pols
          end
      end
  end.

Definition enforced (p : policy_row) : bool :=
  pr_is_active p && (String.eqb (pr_action p) "deny" || String.eqb (pr_action p) "restrict").

(** The automatic thresholds. *)
Definition autoReason (flags : bool * bool) (trust : option TrustScoreResult) : option string :=
  match trust with
  | None => None
  | Some t =>
      let level := level_text (RLevel t) in
      if flags.2 && (String.eqb level "critical" || String.eqb level "low")
      then Some "Device trust score is too low (auto-block policy). Contact your administrator."
      else if flags.1 && String.eqb level "critical"
      then Some "Device trust score is critical (auto-restrict policy). Contact your administrator."
      else None
  end.

(** [checkDeviceZTNABlock]: the reason when the device is blocked. *)
Definition checkDeviceZTNABlock `{SqlOrder} (fail : nat -> bool) (s : zstore) (id : string)
    (trust : option TrustScoreResult) : option string :=
  let flags := if fail 0%nat then (false, false)
               else default (false, false) (trust_auto (dbOf s)) in
  match autoReason flags trust with
  | Some reason => Some reason
  | None =>
      if fail 1%nat then None else
      let k := if fail 2%nat then no_checks else deviceChecks (dbOf s) id in
      policyReason fail 3 (match trust with Some t => RScore t | None => 0 end) k
        (rows_by 94 pr_priority (List.filter enforced (zpolicies s)))
  end.

(** ** The endpoints *)

Section handlers.
Context `{SqlOrder} `{DeviceEnv} `{PgJson} {E : Type} (refresher : option (FirewallRefresher E)).
Context (fail : nat -> bool).

Definition refreshEverywhere : H zstore E unit :=
  emit (fun s => match refresher with Some r => refreshAll (FirewallRefresher := r) (dbOf s) | None => [] end).

(** [loadTrustConfig] and [getTrustConfig]: the defaults when there is no row. *)
Definition loadTrustConfig (fails : bool) (s : zstore) : TrustScoreConfig :=
  if fails then DefaultTrustScoreConfig else default DefaultTrustScoreConfig (zconfig s).

Definition calcFaults (k : nat) : faults := {|
  postureQueryFails := fail k; mfaQueryFails := fail (k + 1)%nat; insertFails := fail (k + 2)%nat |}.

Definition calculate (k : nat) (config : TrustScoreConfig) (now : Z) (id : string)
  : H zstore E (option TrustScoreResult) := fun s =>
  let '(r, d) := Calculate (calcFaults k) config now (zbase s) id in (inl (result_opt r), set_base s d, []).

Definition getDeviceTrustScore (now : Z) (rawId : string) : H zstore E (Z * ztnaBody) :=
  let! id := the (uuid_Parse rawId) 400 "invalid UUID" in
  let! config := asks (loadTrustConfig (fail 0%nat)) in
  let! r := calculate 1 config now id in
  let! result := the r 500 "failed to calculate trust score" in
  respondJSON 200 (ZbScore result).

(** The latest score of each device, with its owner. *)
Definition scoreRows (d : db) : list trustScoreSummary :=
  rows 91 (dev ← devices d;
    match latestTrust d dev, byKey u_id (users d) (d_user_id dev) with
    | Some t, Some u => [{| tss_DeviceID := d_id dev; tss_DeviceName := d_name dev; tss_UserID := d_user_id dev;
        tss_Username := u_username u; tss_Score := ts_score t; tss_Level := ts_level t;
        tss_EvaluatedAt := ts_evaluated_at t |}]
    | _, _ => []
    end).

Definition listTrustScores : H zstore E (Z * ztnaBody) :=
  let! l := fetch fail 0 (fun s => scoreRows (zbase s))
    "failed to query trust scores" "failed to scan trust score" "failed to list trust scores" in
  respondJSON 200 (ZbScores l).

Definition getTrustConfig : H zstore E (Z * ztnaBody) :=
  let! config := asks (loadTrustConfig (fail 0%nat)) in
  respondJSON 200 (ZbConfig config).

Definition updateTrustConfig (body : option TrustScoreConfig) : H zstore E (Z * ztnaBody) :=
  let! config := the body 400 "invalid JSON" in
  let! total := the (sumWeights 0 (weights config)) 400 "weights must not be negative" in
  do! require (total =? 100)%Z 400 "component weights must sum to 100" in
  do! require (negb ((ThresholdHigh config <=? ThresholdMedium config)%Z || (ThresholdMedium config <=? ThresholdLow config)%Z))
    400 "thresholds must be high > medium > low" in
  do! exec (fail 0%nat) (upsert_config config) (fun _ => (500, "failed to update trust config")) in
  do! refreshEverywhere in
  respondJSON 200 (ZbConfig config).

Definition getTrustHistory (rawId : string) : H zstore E (Z * ztnaBody) :=
  let! id := the (uuid_Parse rawId) 400 "invalid UUID" in
  let! l := fetch fail 0 (fun s => map (fun t => (ts_score t, ts_level t, ts_evaluated_at t))
      (take 100 (rows_by 92 (fun t => - ts_evaluated_at t)
        (List.filter (fun t => String.eqb (ts_device_id t) id) (device_trust_scores (zbase s))))))
    "failed to query trust history" "failed to scan trust history" "failed to list trust history" in
  respondJSON 200 (ZbHistory l).

(** [ORDER BY priority ASC, created_at DESC]. *)
Definition listPolicies : H zstore E (Z * ztnaBody) :=
  let! l := fetch fail 0 (fun s => sort_by pr_priority (rows_by 93 (fun p => - pr_created_at p) (zpolicies s)))
    "failed to query policies" "failed to scan policy" "failed to list policies" in
  respondJSON 200 (ZbPolicies l).

Definition action_ok (a : string) : bool :=
  String.eqb a "allow" || String.eqb a "restrict" || String.eqb a "deny".

Definition createPolicy (newID : string) (now : Z) (body : option createPolicyRequest) : H zstore E (Z * ztnaBody) :=
  let! req := the body 400 "invalid JSON" in
  do! require (negb (String.eqb (cp_Name req) "")) 400 "name is required" in
  let action := if String.eqb (cp_Action req) "" then "allow" else cp_Action req in
  do! require (action_ok action) 400 "action must be allow, restrict, or deny" in
  let! p := exec (fail 0%nat) (insert_policy newID now req action (default [] (cp_NetworkIDs req)))
    (fun _ => (500, "failed to create policy")) in
  do! refreshEverywhere in
  respondJSON 201 (ZbPolicy p).

Definition getPolicy (rawId : string) : H zstore E (Z * ztnaBody) :=
  let! id := the (uuid_Parse rawId) 400 "invalid UUID" in
  let! row := query (fail 0%nat) (fun s => byKey pr_id (zpolicies s) id) 500 "failed to get policy" in
  let! p := the row 404 "policy not found" in
  respondJSON 200 (ZbPolicy p).

Definition updatePolicy (now : Z) (rawId : string) (body : option updatePolicyRequest) : H zstore E (Z * ztnaBody) :=
  let! id := the (uuid_Parse rawId) 400 "invalid UUID" in
  let! req := the body 400 "invalid JSON" in
  do! require (match up_Action req with Some a => action_ok a | None => true end)
    400 "action must be allow, restrict, or deny" in
  let! p := exec (fail 0%nat) (update_policy now id req) (fun e =>
    match e with ErrNoRows => (404, "policy not found") | _ => (500, "failed to update policy") end) in
  do! refreshEverywhere in
  respondJSON 200 (ZbPolicy p).

Definition deletePolicy (rawId : string) : H zstore E (Z * ztnaBody) :=
  let! id := the (uuid_Parse rawId) 400 "invalid UUID" in
  do! deleting (fail 0%nat) (delete_policy id) "failed to delete policy" "policy not found" in
  do! refreshEverywhere in
  respondJSON 204 ZbNone.

Definition listDNSRules (networkID : string) : H zstore E (Z * ztnaBody) :=
  let! sel := if String.eqb networkID "" then ret (fun _ => true)
              else let! nid := the (uuid_Parse networkID) 400 "invalid network_id" in
                   ret (fun r => String.eqb (dn_network_id r) nid) in
  let! l := fetch fail 0 (fun s => rows 95 (List.filter sel (zdns s)))
    "failed to query DNS rules" "failed to scan DNS rule" "failed to list DNS rules" in
  respondJSON 200 (ZbRules l).

Definition createDNSRule (newID : string) (now : Z) (body : option createDNSRuleRequest) : H zstore E (Z * ztnaBody) :=
  let! req := the body 400 "invalid JSON" in
  do! require (negb (String.eqb (dr_Domain req) "")) 400 "domain is required" in
  do! require (negb (String.eqb (dr_DNSServer req) "")) 400 "dns_server is required" in
  do! require (negb (String.eqb (dr_NetworkID req) uuid_Nil)) 400 "network_id is required" in
  let! r := exec (fail 0%nat) (insert_dns newID now (dr_NetworkID req) (dr_Domain req) (dr_DNSServer req))
    (fun _ => (500, "failed to create DNS rule")) in
  respondJSON 201 (ZbRule r).

Definition deleteDNSRule (rawId : string) : H zstore E (Z * ztnaBody) :=
  let! id := the (uuid_Parse rawId) 400 "invalid UUID" in
  do! deleting (fail 0%nat) (delete_dns id) "failed to delete DNS rule" "DNS rule not found" in
  respondJSON 204 ZbNone.

(** A report at the instant [dbnow] of the database and [now] of the server;
    [env] is what other transactions do after the check of the owner. *)
Definition reportPosture (env : zstore -> zstore) (dbnow now : Z) (claims : option TokenClaims)
    (body : option postureReport) : H zstore E (Z * ztnaBody) :=
  let! c := the claims 401 "authentication required" in
  let! req := the body 400 "invalid JSON" in
  do! require (negb (String.eqb (po_DeviceID req) "")) 400 "device_id is required" in
  let! id := the (uuid_Parse (po_DeviceID req)) 400 "invalid device_id" in
  do! require (negb (String.eqb (po_OSType req) "")) 400 "os_type is required" in
  let! row := query (fail 0%nat) (fun s => byKey d_id (devices (zbase s)) id) 500 "failed to verify device ownership" in
  let! dev := the row 404 "device not found" in
  do! require (String.eqb (d_user_id dev) (UserID c) || IsAdmin c) 403 "you can only report posture for your own devices" in
  do! interfere env in
  let! config := asks (loadTrustConfig (fail 1%nat)) in
  let score := postureScore config req in
  do! exec (fail 2%nat) (insert_posture (reportRow id dbnow score req)) (fun _ => (500, "failed to save posture report")) in
  let! trust := calculate 3 config now id in
  do! emit (fun s => match refresher with
                     | Some r => refreshForUser (FirewallRefresher := r) (dbOf s) (d_user_id dev)
                     | None => []
                     end) in
  let! blocked := asks (fun s => checkDeviceZTNABlock (fun i => fail (i + 6)%nat) s id trust) in
  respondJSON 200 (ZbPosture {| ry_PostureScore := score;
    ry_Trust := (fun t => (RScore t, RLevel t)) <$> trust; ry_Blocked := blocked |}).
End handlers.

(** [Routes]. *)
Inductive request :=
| GetScore (now : Z) (id : string)
| ListScores
| GetConfig
| UpdateConfig (body : option TrustScoreConfig)
| History (id : string)
| ListPolicies
| CreatePolicy (newID : string) (now : Z) (body : option createPolicyRequest)
| GetPolicy (id : string)
| UpdatePolicy (now : Z) (id : string) (body : option updatePolicyRequest)
| DeletePolicy (id : string)
| ReportPosture (dbnow now : Z) (claims : option TokenClaims) (body : option postureReport)
| ListRules (networkID : string)
| CreateRule (newID : string) (now : Z) (body : option createDNSRuleRequest)
| DeleteRule (id : string).

(** The requests [auth.RequireAdmin] guards. *)
Definition admin_only (r : request) : bool :=
  match r with
  | UpdateConfig _ | CreatePolicy _ _ _ | UpdatePolicy _ _ _ | DeletePolicy _ | CreateRule _ _ _ | DeleteRule _ => true
  | _ => false
  end.

Definition serve `{SqlOrder} `{DeviceEnv} `{PgJson} {E} (refresher : option (FirewallRefresher E)) (fail : nat -> bool)
    (env : zstore -> zstore) (r : request) : H zstore E (Z * ztnaBody) :=
  match r with
  | GetScore now id => getDeviceTrustScore fail now id
  | ListScores => listTrustScores fail
  | GetConfig => getTrustConfig fail
  | UpdateConfig body => updateTrustConfig refresher fail body
  | History id => getTrustHistory fail id
  | ListPolicies => listPolicies fail
  | CreatePolicy newID now body => createPolicy refresher fail newID now body
  | GetPolicy id => getPolicy fail id
  | UpdatePolicy now id body => updatePolicy refresher fail now id body
  | DeletePolicy id => deletePolicy refresher fail id
  | ReportPosture dbnow now claims body => reportPosture refresher fail env dbnow now claims body
  | ListRules networkID => listDNSRules fail networkID
  | CreateRule newID now body => createDNSRule fail newID now body
  | DeleteRule id => deleteDNSRule fail id
  end.

(** ** The configuration stays valid *)

Definition config_valid (s : zstore) : Prop :=
  forall c, zconfig s = Some c -> config_ok c /\ config_fits c = true.

(** On weights that fit their columns the machine sum is the sum. *)
Lemma sumWeights_sum ws total t :
  (forallb int32_ok ws = true) -> 0 <= total -> total + 2^31 * Z.of_nat (length ws) <= max_int64 ->
  sumWeights total ws = Some t -> t = total + foldr Z.add 0 ws /\ Forall (fun w => 0 <= w) ws.
Proof.
  revert total. induction ws as [|w ws IH]; intros total Hf H0 Hmax; cbn [sumWeights foldr]; [intros [= <-]; split; [lia|constructor]|].
  cbn [forallb] in Hf. apply andb_true_iff in Hf as [Hw Hf]. unfold int32_ok in Hw. boolify.
  destruct (Z.ltb_spec w 0); [done|]. intros Ht. cbn [length] in Hmax.
  rewrite add64_small in Ht by (unfold in_int64, min_int64, max_int64 in *; lia).
  destruct (IH (total + w) Hf) as [-> Hall]; [lia|lia|done|]. split; [lia|]. by constructor.
Qed.

Lemma accepted_config_ok c :
  sumWeights 0 (weights c) = Some 100 ->
  negb ((ThresholdHigh c <=? ThresholdMedium c) || (ThresholdMedium c <=? ThresholdLow c))%Z = true ->
  config_fits c = true -> config_ok c.
Proof.
  intros Hsum Ht Hf.
  destruct (sumWeights_sum (weights c) 0 100) as [Hs Hall]; try done.
  { unfold config_fits, weights in *. cbn [forallb] in *. boolify. by rewrite ?H0, ?H, ?H1, ?H2, ?H3, ?H4. }
  unfold weights in *. cbn [foldr] in Hs. repeat (apply Forall_cons in Hall as [? Hall]). boolify. split; lia.
Qed.

Section config.
Context `{SqlOrder} `{DeviceEnv} `{PgJson} {E : Type} (refresher : option (FirewallRefresher E)).

Lemma calculate_config fail k c now id : preserves config_valid (calculate (E := E) fail k c now id).
Proof. intros s Hs. unfold wp, calculate. by destruct (Calculate _ _ _ _ _). Qed.

(** Statements on other tables keep the configuration. *)
Lemma other_tables_config {A} (st : stmt zstore A) :
  (forall s a s', st s = inl (a, s') -> zconfig s' = zconfig s) -> stmt_preserves config_valid st.
Proof. intros Hst s a s' Hs E' c Hc. apply Hs. by rewrite <- (Hst s a s' E'). Qed.

Lemma updateTrustConfig_valid fail body : preserves config_valid (updateTrustConfig refresher fail body).
Proof.
  unfold updateTrustConfig. apply preserves_the_bind. intros c _. apply preserves_the_bind. intros t Ht.
  apply preserves_require_bind. intros Ht'. apply Z.eqb_eq in Ht' as ->. apply preserves_require_bind. intros Hth.
  unfold refreshEverywhere. invariant_steps. intros s a s' _. unfold upsert_config. case_match; [|done].
  intros [= <- <-] c' [= <-]. split; [by apply accepted_config_ok|done].
Qed.

(** The stored weights and thresholds always make sense: whatever is asked
    of the endpoints, the configuration has weights that are not negative and
    sum to 100 and ordered thresholds, although the handler adds the weights in
    machine integers; so every score is computed from a valid configuration. *)
Theorem trust_config_stays_valid fail env r s :
  (forall s, config_valid s -> config_valid (env s)) -> config_valid s ->
  let s' := (run (serve refresher fail env r) s).1.2 in
  config_valid s' /\ forall fails, config_ok (loadTrustConfig fails s').
Proof.
  intros Henv Hs s'. assert (config_valid s') as Hs'.
  2: { split; [done|]. intros fails. unfold loadTrustConfig. destruct fails; [apply default_config_ok|].
       destruct (zconfig s') as [c|] eqn:Ec; [by apply Hs'|apply default_config_ok]. }
  apply (preserves_run config_valid); [|done]. destruct r; cbn [serve]; try apply updateTrustConfig_valid;
    unfold getDeviceTrustScore, listTrustScores, getTrustConfig, getTrustHistory, listPolicies, createPolicy, getPolicy,
      updatePolicy, deletePolicy, reportPosture, listDNSRules, createDNSRule, deleteDNSRule, refreshEverywhere;
    repeat first [ apply preserves_interfere; exact Henv | apply calculate_config | progress invariant_steps ];
    apply other_tables_config; intros ? ? ?;
    unfold insert_policy, update_policy, delete_policy, insert_posture, insert_dns, delete_dns;
    repeat case_match; intros; by simplify_eq.
Qed.
End config.

(** ** Reports *)

Lemma latest_last {A} (key : A -> Z) l x : (forall y, y ∈ l -> key y < key x) -> latest key (l ++ [x])%list = Some x.
Proof.
  induction l as [|y l IH]; intros Hl; [done|]. change (latest key (y :: (l ++ [x])%list) = Some x). unfold latest. cbn [fold_right].
  fold (latest key (l ++ [x])%list). rewrite IH by (intros; apply Hl; by right).
  destruct (Z.leb_spec (key x) (key y)); [|done]. assert (key y < key x) by (apply Hl; left). lia.
Qed.

(** The points of the four reported checks. *)
Definition check_points (c : TrustScoreConfig) (r : postureReport) : Z :=
  pts (po_DiskEncrypted r) (WeightDiskEncryption c) + pts (po_ScreenLockEnabled r) (WeightScreenLock c) +
  pts (po_AntivirusActive r) (WeightAntivirus c) + pts (po_FirewallEnabled r) (WeightFirewall c).

Lemma add_points (b : bool) w t : 0 <= t <= 1000 -> 0 <= w <= 100 -> (if b then add64 t w else t) = t + pts b w.
Proof.
  intros Ht Hw. destruct b; cbn [pts]; [|lia]. apply add64_small. unfold in_int64, min_int64, max_int64. lia.
Qed.

Lemma postureScore_points c r : config_ok c -> postureScore c r = check_points c r.
Proof.
  intros []. unfold postureScore, check_points. cbv zeta.
  pose proof (pts_range (po_DiskEncrypted r) _ w_disk0). pose proof (pts_range (po_ScreenLockEnabled r) _ w_lock0).
  pose proof (pts_range (po_AntivirusActive r) _ w_av0). pose proof (pts_range (po_FirewallEnabled r) _ w_fw0).
  rewrite (add_points (po_DiskEncrypted r)), (add_points (po_ScreenLockEnabled r)),
    (add_points (po_AntivirusActive r)), (add_points (po_FirewallEnabled r)) by lia. lia.
Qed.

Lemma check_points_range c r :
  config_ok c -> 0 <= check_points c r <= 100 - WeightOSVersion c - WeightMFA c.
Proof.
  intros []. unfold check_points, pts.
  destruct (po_DiskEncrypted r), (po_ScreenLockEnabled r), (po_AntivirusActive r), (po_FirewallEnabled r); lia.
Qed.

(** A device without violations has earned everything. *)
Lemma no_violation_full f c now d id r d' :
  config_ok c -> Calculate f c now d id = (Ok r, d') -> RViolations r = [] -> RScore r = 100.
Proof.
  intros Hc. unfold Calculate. destruct (postureQueryFails f); [done|].
  destruct (latestPosture d id) as [[u p]|]; [|intros [= <- _]; done]. destruct (mfaQueryFails f); [done|].
  rewrite scoreComponents_total by done.
  destruct (day <? now - dp_checked_at p)%Z; intros [= <- _] Hv; cbn in Hv |- *; [by apply app_eq_nil in Hv as [_ ?]|].
  destruct Hc. unfold earned, pts.
  destruct (dp_disk_encrypted p), (dp_screen_lock p), (dp_antivirus p), (dp_firewall p), (75 <=? dp_score p)%Z,
    (mfaEnabled d u); cbn in Hv; try done; lia.
Qed.

(** With a database that answers. *)
Lemma policyReason_ok fail i sc k pols :
  (forall i, fail i = false) -> policyReason fail i sc k pols = policyReason (fun _ => false) i sc k pols.
Proof. intros Hf. revert i. induction pols as [|p pols IH]; intros i; cbn; [done|]. rewrite Hf, IH. done. Qed.

Lemma checkDeviceZTNABlock_ok `{SqlOrder} fail s id trust :
  (forall i, fail i = false) -> checkDeviceZTNABlock fail s id trust = checkDeviceZTNABlock (fun _ => false) s id trust.
Proof. intros Hf. unfold checkDeviceZTNABlock. by rewrite !Hf, policyReason_ok. Qed.

Section report.
Context `{SqlOrder} `{DeviceEnv} `{PgJson} {E : Type} (refresher : option (FirewallRefresher E)).
Context (fail : nat -> bool) (env : zstore -> zstore) (dbnow now : Z).

(** The tables once the row of the report is in. *)
Definition reported (s : zstore) (id : string) (req : postureReport) : db :=
  set_device_posture (zbase s)
    (device_posture (zbase s) ++ [reportRow id dbnow (postureScore (loadTrustConfig false s) req) req])%list.

Inductive accepted (c : TokenClaims) (req : postureReport) (s s' : zstore) (y : postureReply) (es : list E) : Prop :=
| Accepted id dev result d
  (ac_parse : uuid_Parse (po_DeviceID req) = Some id)
  (ac_row : byKey d_id (devices (zbase s)) id = Some dev)
  (ac_owner : d_user_id dev = UserID c \/ IsAdmin c = true)
  (ac_there : has d_id (devices (zbase (env s))) id = true)
  (ac_calc : Calculate nofault (loadTrustConfig false (env s)) now (reported (env s) id req) id = (result, d))
  (ac_after : s' = set_base (env s) d)
  (ac_told : es = match refresher with
                  | Some r => refreshForUser (FirewallRefresher := r) (dbOf s') (d_user_id dev)
                  | None => []
                  end)
  (ac_reply : y = {| ry_PostureScore := postureScore (loadTrustConfig false (env s)) req;
     ry_Trust := (fun t => (RScore t, RLevel t)) <$> result_opt result;
     ry_Blocked := checkDeviceZTNABlock (fun _ => false) s' id (result_opt result) |}).

(** With a database that answers, this is what an accepted report does. *)
Lemma report_spec c req s st b s' es :
  (forall i, fail i = false) ->
  run (reportPosture refresher fail env dbnow now (Some c) (Some req)) s = (Reply st b, s', es) ->
  st = 200 /\ exists y, b = ZbPosture y /\ accepted c req s s' y es.
Proof.
  intros Hf Hrun.
  refine (run_Reply _ _ _ _ _ _ (fun a s' es => a.1 = 200 /\ exists y, a.2 = ZbPosture y /\ accepted c req s s' y es) Hrun _).
  unfold reportPosture. apply wp_bind, wp_the, wp_bind, wp_the, wp_bind, wp_require. case_match; [|done].
  apply wp_bind, wp_the. destruct (uuid_Parse _) as [id|] eqn:Hid; [|done]. apply wp_bind, wp_require. case_match; [|done].
  apply wp_bind, wp_query. rewrite Hf. apply wp_bind, wp_the. destruct (byKey _ _ _) as [dev|] eqn:Hdev; [|done].
  apply wp_bind, wp_require. destruct (String.eqb _ _ || _) eqn:Hown; [|done].
  apply wp_bind, wp_interfere, wp_bind, wp_asks, wp_bind, wp_exec. rewrite !Hf.
  unfold insert_posture. cbn [dp_score dp_device_id reportRow]. destruct (negb (int32_ok _)); [done|].
  destruct (has d_id _ id) eqn:Hhas; [|done]. apply wp_bind. unfold calculate, wp at 1.
  assert (calcFaults fail 3 = nofault) as -> by (unfold calcFaults, nofault; by rewrite !Hf).
  destruct (Calculate _ _ _ _ _) as [res d] eqn:Hc. apply wp_bind, wp_emit, wp_bind, wp_asks, wp_ret. cbn [app].
  split; [done|]. eexists. split; [done|]. eapply Accepted; [exact Hid|exact Hdev| |exact Hhas|exact Hc|reflexivity| |].
  - apply orb_true_iff in Hown as [->%String.eqb_eq|]; auto.
  - by rewrite ?app_nil_r.
  - f_equal. apply checkDeviceZTNABlock_ok. intros i. apply Hf.
Qed.
End report.

(** The rows of a device in a table of dated rows are all older than [t]. *)
Definition older {A} (dev : A -> string) (at_ : A -> Z) (l : list A) (id : string) (t : Z) : Prop :=
  forall x, x ∈ l -> dev x = id -> at_ x < t.

Lemma latestPosture_reported dbnow s id req dev :
  list_find (fun dv => d_id dv = id) (devices (zbase s)) = Some dev ->
  older dp_device_id dp_checked_at (device_posture (zbase s)) id dbnow ->
  latestPosture (reported dbnow s id req) id =
    Some (d_user_id dev.2, reportRow id dbnow (postureScore (loadTrustConfig false s) req) req).
Proof.
  intros Hdev Hold. destruct dev as [i dev]. unfold latestPosture. cbn [device_posture devices reported set_device_posture].
  rewrite filter_app, omap_app. cbn [filter list_filter]. rewrite decide_True by done. cbn [omap list_omap]. cbn [dp_device_id reportRow].
  rewrite Hdev. apply latest_last. intros [u p] (q & Hq & Hp)%list_elem_of_omap. apply list_elem_of_filter in Hq as [Eq Hq].
  repeat case_match; simplify_eq. cbn. by apply Hold.
Qed.

Lemma has_list_find id d : has d_id (devices d) id = true ->
  exists i dev, list_find (fun dv => d_id dv = id) (devices d) = Some (i, dev).
Proof.
  intros Hh. destruct (list_find _ _) as [[i dev]|] eqn:E; [eauto|]. apply list_find_None in E.
  lookups. apply list_elem_of_fmap in Hh as (dev & -> & Hdev). rewrite Forall_forall in E. by destruct (E dev Hdev).
Qed.

Section scores.
Context `{SqlOrder} `{DeviceEnv} `{PgJson} {E : Type} (refresher : option (FirewallRefresher E)).

(** A report is scored by what it says: with a database that answers, the
    posture score is the points of the four checks, the trust score adds the
    weight of the system version when these reach 75 and the weight of MFA when
    the owner of the device has it, both lie between 0 and 100, and the level
    is the tier of the score. *)
Theorem report_scored fail env dbnow now c req s st b s' es id :
  (forall i, fail i = false) -> config_valid (env s) -> uuid_Parse (po_DeviceID req) = Some id ->
  older dp_device_id dp_checked_at (device_posture (zbase (env s))) id dbnow -> now - dbnow <= day ->
  run (serve refresher fail env (ReportPosture dbnow now (Some c) (Some req))) s = (Reply st b, s', es) ->
  let config := loadTrustConfig false (env s) in
  let points := check_points config req in
  exists y u, b = ZbPosture y /\ ry_PostureScore y = points /\ 0 <= points <= 100 /\
    let total := points + pts (75 <=? points)%Z (WeightOSVersion config) + pts (mfaEnabled (zbase (env s)) u) (WeightMFA config) in
    0 <= total <= 100 /\ ry_Trust y = Some (total, classifyTrustLevel total config).
Proof.
  intros Hf Hv Hid Hold Hfresh Hrun. cbn [serve] in Hrun.
  destruct (report_spec _ _ _ _ _ _ _ _ _ _ _ _ Hf Hrun) as (_ & y & -> & [id' dev res d Hp _ _ Hh Hcalc _ _ Hy]).
  rewrite Hid in Hp. injection Hp as <-. intros config points.
  assert (config_ok config) as Hc.
  { unfold config, loadTrustConfig. destruct (zconfig (env s)) eqn:Ec; [by apply Hv|apply default_config_ok]. }
  assert (postureScore config req = points) as Hpoints by (by apply postureScore_points).
  destruct (has_list_find _ _ Hh) as (i & dv & Hdv).
  pose proof (latestPosture_reported dbnow (env s) id req (i, dv) Hdv Hold) as Hl. cbn [snd] in Hl. fold config in Hl, Hcalc.
  rewrite Hpoints in Hl. set (row := reportRow id dbnow points req) in *.
  destruct (Calculate_some nofault config now (reported dbnow (env s) id req) id (d_user_id dv) row Hc eq_refl eq_refl Hl)
    as (r & d' & Hr & _ & Hs & Hlv & _).
  rewrite Hcalc in Hr. injection Hr as -> ->.
  pose proof (earned_range config row (mfaEnabled (zbase (env s)) (d_user_id dv)) Hc) as Hrange.
  change (mfaEnabled (reported dbnow (env s) id req) (d_user_id dv)) with (mfaEnabled (zbase (env s)) (d_user_id dv)) in Hs, Hlv.
  assert (expected config now row (mfaEnabled (zbase (env s)) (d_user_id dv)) =
    earned config row (mfaEnabled (zbase (env s)) (d_user_id dv))) as Hexp.
  { unfold expected. cbn [row reportRow dp_checked_at]. destruct (Z.ltb_spec day (now - dbnow)); [lia|done]. }
  rewrite Hexp in Hs, Hlv. exists y, (d_user_id dv). split; [done|].
  pose proof (check_points_range config req Hc). pose proof (w_os _ Hc). pose proof (w_mfa _ Hc).
  subst y. cbn [ry_PostureScore ry_Trust result_opt fmap option_fmap option_map]. split; [done|]. split; [unfold points; lia|].
  rewrite Hs, Hlv. split; [exact Hrange|done].
Qed.
End scores.

(** ** The notice and the firewall *)

Lemma require_check_Some c has msg r :
  is_Some (require_check c has msg r) <-> requiredMissing c has = true \/ is_Some r.
Proof. unfold require_check. destruct (requiredMissing c has); naive_solver. Qed.

Lemma failReason_Some cond k p :
  DiskEncrypted p = ck_disk k -> ScreenLock p = ck_lock k -> Antivirus p = ck_av k -> Firewall p = ck_fw k ->
  MFAEnabled p = ck_mfa k ->
  is_Some (failReason cond (TrustScore p) k) <-> failsConditions cond p = true.
Proof.
  intros E1 E2 E3 E4 E5. unfold failReason, failsConditions. rewrite E1, E2, E3, E4, E5, !require_check_Some, !orb_true_iff.
  destruct (MinTrustScore cond) as [m|]; [destruct (TrustScore p <? m)%Z|]; naive_solver.
Qed.

Lemma policyReason_Some i sc k pols :
  is_Some (policyReason (fun _ => false) i sc k pols) <->
  exists p cond, p ∈ pols /\ unmarshalConditions (pr_conditions p) = Some cond /\ is_Some (failReason cond sc k).
Proof.
  revert i. induction pols as [|p pols IH]; intros i; cbn [policyReason].
  - split; [by intros [? ?]|]. intros (p & cond & Hp & _). by apply elem_of_nil in Hp.
  - setoid_rewrite elem_of_cons. destruct (unmarshalConditions (pr_conditions p)) as [cond|] eqn:Hc.
    + destruct (failReason cond sc k) eqn:Hr.
      * split; [|eauto]. intros _. exists p, cond. split; [by left|]. rewrite Hr. eauto.
      * rewrite IH. split; [naive_solver|]. intros (q & cond' & [->|Hq] & Hq' & Hs); [|eauto].
        rewrite Hc in Hq'. injection Hq' as <-. rewrite Hr in Hs. by destruct Hs.
    + rewrite IH. split; [naive_solver|]. intros (q & cond' & [->|Hq] & Hq' & Hs); [congruence|eauto].
Qed.

Lemma autoReason_Some flags t p :
  Policy.TrustLevel p = level_text (RLevel t) ->
  is_Some (autoReason flags (Some t)) <-> autoBlocks flags.1 flags.2 p = true.
Proof.
  intros Hp. unfold autoReason, autoBlocks. rewrite Hp. destruct (flags.2 && _); [naive_solver|].
  destruct (flags.1 && _); naive_solver.
Qed.

Lemma elem_of_policyRows s pol :
  pol ∈ policyRows (dbOf s) <-> exists p, p ∈ zpolicies s /\ enforced p = true /\ pol = policyOf p.
Proof.
  unfold policyRows. cbn [ztna_policies dbOf]. rewrite list_elem_of_In, filter_In, <- list_elem_of_In, list_elem_of_fmap.
  unfold enforced. split.
  - intros [(p & -> & Hp) He]. eauto.
  - intros (p & Hp & He & ->). eauto.
Qed.

Section notice.
Context `{SqlOrder}.

(** A score that is stored and newer than the others is the one the firewall
    reads, so the two agree on every condition. *)
Lemma notice_iff s dev u t :
  NoDup (map d_id (devices (zbase s))) -> NoDup (map u_id (users (zbase s))) ->
  dev ∈ devices (zbase s) -> u ∈ users (zbase s) -> u_id u = d_user_id dev ->
  (exists row, latestTrust (zbase s) dev = Some row /\ ts_score row = RScore t /\ ts_level row = level_text (RLevel t)) ->
  is_Some (checkDeviceZTNABlock (fun _ => false) s (d_id dev) (Some t)) <->
  let p := postureRow (dbOf s) dev u in
  let flags := default (false, false) (trust_auto (dbOf s)) in
  autoBlocks flags.1 flags.2 p = true \/
  exists pol cond, pol ∈ policyRows (dbOf s) /\ p_conditions pol = Some cond /\ failsConditions cond p = true.
Proof.
  intros Hd Hu Hdev Hus Eu (row & Hrow & Es & El). cbv zeta.
  set (p := postureRow (dbOf s) dev u). set (flags := default (false, false) (trust_auto (dbOf s))).
  assert (Policy.TrustLevel p = level_text (RLevel t) /\ TrustScore p = RScore t) as [Hlv Hsc].
  { assert (latestTrust (dbOf s) dev = Some row) as Hrow' by exact Hrow.
    unfold p, postureRow. cbn [Policy.TrustLevel TrustScore]. by rewrite Hrow'. }
  assert (deviceChecks (dbOf s) (d_id dev) = {| ck_disk := DiskEncrypted p; ck_lock := ScreenLock p; ck_av := Antivirus p;
    ck_fw := Firewall p; ck_mfa := MFAEnabled p |}) as Hk.
  { unfold deviceChecks. cbn [devices users dbOf]. unfold byKey. rewrite (find_by_key d_id) by done.
    by rewrite <- Eu, (find_by_key u_id) by done. }
  unfold checkDeviceZTNABlock. fold flags. rewrite <- (autoReason_Some flags t p Hlv).
  destruct (autoReason flags (Some t)) as [reason|] eqn:Ha; [naive_solver|].
  rewrite policyReason_Some, Hk. setoid_rewrite elem_of_rows_by. setoid_rewrite elem_of_policyRows. split.
  - intros (q & cond & Hq & Hcond & Hfail). right. apply list_elem_of_In, filter_In in Hq as [Hq%list_elem_of_In He].
    exists (policyOf q), cond. split; [eauto|]. split; [done|]. rewrite <- Hsc in Hfail. by rewrite <- failReason_Some.
  - intros [[? ?]|(pol & cond & (q & Hq & He & ->) & Hcond & Hfail)]; [done|]. exists q, cond.
    split; [apply list_elem_of_In, filter_In; split; [by apply list_elem_of_In|done]|]. split; [done|].
    rewrite <- Hsc. by rewrite failReason_Some.
Qed.
End notice.

(** A reported device has posture data. *)
Lemma latestPosture_some dbnow s id req :
  has d_id (devices (zbase s)) id = true -> exists u p, latestPosture (reported dbnow s id req) id = Some (u, p).
Proof.
  intros (i & dv & Hdv)%has_list_find. destruct (latestPosture _ id) as [[u p]|] eqn:El; [eauto|].
  unfold latestPosture in El. apply latest_None in El. cbn [device_posture devices reported set_device_posture] in El.
  rewrite filter_app, omap_app in El. cbn [filter list_filter] in El. rewrite decide_True in El by done.
  cbn [omap list_omap dp_device_id reportRow] in El. rewrite Hdv in El. by apply app_eq_nil in El as [_ ?].
Qed.

(** A score below 100 is stored, and is the latest of its device. *)
Lemma stored_score c now d id r d' dev :
  config_ok c -> Calculate nofault c now d id = (Ok r, d') -> RScore r < 100 -> d_id dev = id ->
  (exists u p, latestPosture d id = Some (u, p)) ->
  older ts_device_id ts_evaluated_at (device_trust_scores d) id now ->
  exists row, latestTrust d' dev = Some row /\ ts_score row = RScore r /\ ts_level row = level_text (RLevel r).
Proof.
  intros Hc Hcalc Hlow <- (u & p & Hl) Hold.
  destruct (Calculate_some nofault c now d (d_id dev) u p Hc eq_refl eq_refl Hl) as (r0 & d0 & E0 & _ & _ & _ & Hd).
  rewrite Hcalc in E0. injection E0 as <- <-. destruct (RViolations r) as [|v vs] eqn:Hv.
  { pose proof (no_violation_full _ _ _ _ _ _ _ Hc Hcalc Hv). lia. }
  cbn [nofault insertFails nilSlice orb] in Hd. subst d'. eexists. split.
  { unfold latestTrust. cbn [device_trust_scores set_trust_scores]. rewrite List.filter_app. cbn [List.filter ts_device_id].
    rewrite String.eqb_refl. apply latest_last.
    intros t Ht. apply list_elem_of_In, filter_In in Ht as [Ht E]. apply String.eqb_eq in E. cbn.
    apply Hold; [by apply list_elem_of_In|done]. }
  done.
Qed.

Lemma Calculate_tables f c now d id r d' : Calculate f c now d id = (r, d') -> devices d' = devices d /\ users d' = users d.
Proof.
  unfold Calculate. destruct (postureQueryFails f); [by intros [= <- <-]|].
  destruct (latestPosture d id) as [[u p]|]; [|by intros [= <- <-]]. destruct (mfaQueryFails f); [by intros [= <- <-]|].
  destruct (day <? _)%Z; intros E%(f_equal snd); cbn [snd] in E; subst d'; by destruct (_ || _).
Qed.

Section agreement.
Context `{SqlOrder} `{DeviceEnv} `{PgJson} {E : Type} (refresher : option (FirewallRefresher E)).

(** The client and the gateway agree: with a database that answers and a
    device that has not earned every point, a device its gateways block is told
    so in the answer to its report; and it is told so only when it is blocked,
    as long as no policy is limited to some networks. *)
Theorem notice_matches_firewall fail env dbnow now c req s st y s' es dev u sc lv :
  (forall i, fail i = false) -> config_valid (env s) ->
  NoDup (map d_id (devices (zbase (env s)))) -> NoDup (map u_id (users (zbase (env s)))) ->
  dev ∈ devices (zbase (env s)) -> uuid_Parse (po_DeviceID req) = Some (d_id dev) ->
  u ∈ users (zbase (env s)) -> u_id u = d_user_id dev ->
  older ts_device_id ts_evaluated_at (device_trust_scores (zbase (env s))) (d_id dev) now ->
  run (serve refresher fail env (ReportPosture dbnow now (Some c) (Some req))) s = (Reply st (ZbPosture y), s', es) ->
  ry_Trust y = Some (sc, lv) -> sc < 100 ->
  (ztna_blocks (dbOf s') dev u -> is_Some (ry_Blocked y)) /\
  (Forall (fun p => pr_network_ids p = []) (zpolicies s') -> is_Some (ry_Blocked y) -> ztna_blocks (dbOf s') dev u).
Proof.
  intros Hf Hv Hnd Hnu Hdev Hid Hu Eu Hold Hrun Htr Hlow. cbn [serve] in Hrun.
  destruct (report_spec _ _ _ _ _ _ _ _ _ _ _ _ Hf Hrun) as (_ & y' & [= <-] & [id' dev0 res d Hp _ _ Hh Hcalc -> _ ->]).
  rewrite Hid in Hp. injection Hp as <-. cbn [ry_Trust ry_Blocked] in *.
  destruct res as [r|e]; [|done]. cbn in Htr. injection Htr as <- <-.
  assert (config_ok (loadTrustConfig false (env s))) as Hc.
  { unfold loadTrustConfig. destruct (zconfig (env s)) eqn:Ec; [by apply Hv|apply default_config_ok]. }
  destruct (Calculate_tables _ _ _ _ _ _ _ Hcalc) as [Ed Eus].
  pose proof (stored_score _ _ _ _ _ _ dev Hc Hcalc Hlow eq_refl (latestPosture_some _ _ _ _ Hh) Hold) as Hrow.
  rewrite (notice_iff (set_base (env s) d) dev u r); cbn [zbase set_base zpolicies]; [|by rewrite ?Ed, ?Eus..|done].
  cbv zeta. unfold ztna_blocks. rewrite autoBlocks_iff. setoid_rewrite failsConditions_iff. split.
  - intros [Ha|(pol & cond & Hpol & Hact & Hden & _ & Hcond & Hfail)]; [by left|]. right. exists pol, cond.
    split; [|done]. by apply elem_of_policyRows_iff.
  - intros Hall [Ha|(pol & cond & Hpol & Hcond & Hfail)]; [by left|]. right. exists pol, cond.
    pose proof Hpol as (? & ? & ?)%elem_of_policyRows_iff. do 3 (split; [done|]). split; [|done].
    left. apply elem_of_policyRows in Hpol as (q & Hq & _ & ->).
    rewrite Forall_forall in Hall. cbn [p_network_ids policyOf]. by rewrite (Hall q Hq).
Qed.

(** Nobody reports for the device of somebody else: unless the caller owns
    the device or is an administrator, a report changes nothing and reaches
    nobody. *)
Theorem foreign_report_refused fail env dbnow now c req s id dev :
  uuid_Parse (po_DeviceID req) = Some id -> byKey d_id (devices (zbase s)) id = Some dev ->
  d_user_id dev <> UserID c -> IsAdmin c = false ->
  exists st msg, run (serve refresher fail env (ReportPosture dbnow now (Some c) (Some req))) s = (Failure st msg, s, []).
Proof.
  intros Hid Hdev Hown Hadm. cbn [serve]. unfold reportPosture, run, the, require, query, bind, ret, respondError, stop.
  repeat first [rewrite Hid | rewrite Hdev]. destruct (negb (String.eqb (po_DeviceID req) "")); [|eauto].
  destruct (negb (String.eqb (po_OSType req) "")); [|eauto]. destruct (fail 0%nat); [eauto|]. rewrite Hdev.
  apply String.eqb_neq in Hown. rewrite Hown, Hadm. eauto.
Qed.
End agreement.

(** ** Who is told *)

Section told.
Context `{GoRange, SqlOrder} `{DeviceEnv} `{PgJson} (h : StreamHub).

Definition hub_refresher : option (FirewallRefresher effect) := Some (hubRefresher false (fun _ => no_faults) h).

Definition all_told (d : db) (es : list effect) : Prop :=
  forall g st c, g ∈ gateways d -> g_is_active g = true -> streams h !! g_id g = Some st ->
    buildFirewallConfig no_faults d (g_id g) = Some c -> Send st (EvFirewallUpdate (Some c)) ∈ es.

Lemma refreshAll_tells d : all_told d (RefreshAllFirewalls false (fun _ => no_faults) d h).
Proof.
  intros g st c Hg Ha Hst (r & Hb & ->)%fmap_Some. apply elem_of_refresh. exists (g_id g), r.
  split; [|auto]. rewrite elem_of_rows, elem_of_remove_dups. apply (list_elem_of_fmap_2 g_id).
  apply list_elem_of_In, filter_In. split; [by apply list_elem_of_In|done].
Qed.

Lemma refreshEverywhere_tells {B} (st : Z) (b : B) s :
  wp (bind (refreshEverywhere hub_refresher) (fun _ => respondJSON st b))
    (fun _ s' es => all_told (dbOf s') es) (fun _ _ _ => True) s.
Proof. apply wp_bind, wp_emit, wp_ret. cbn [hub_refresher hubRefresher refreshAll]. rewrite app_nil_r. apply refreshAll_tells. Qed.

(** A change of the policies or of the thresholds is enforced at once: after
    an accepted creation, update or deletion of a policy, or a change of the
    trust configuration, every connected active gateway has been sent the
    configuration that follows from the new tables. *)
Theorem policy_change_enforced fail env r s st b s' es :
  match r with UpdateConfig _ | CreatePolicy _ _ _ | UpdatePolicy _ _ _ | DeletePolicy _ => True | _ => False end ->
  run (serve hub_refresher fail env r) s = (Reply st b, s', es) -> all_told (dbOf s') es.
Proof.
  intros Hr Hrun. refine (run_Reply _ _ _ _ _ _ (fun _ s' es => all_told (dbOf s') es) Hrun _).
  destruct r; try done; cbn [serve]; unfold updateTrustConfig, createPolicy, updatePolicy, deletePolicy, deleting;
    repeat first [ apply refreshEverywhere_tells | apply wp_bind, wp_the; case_match; [|done]
      | apply wp_bind, wp_require; case_match; [|done]
      | apply wp_bind, wp_exec; destruct (if fail 0%nat then _ else _) as [[? ?]|]; [cbn [app]|done] ].
Qed.

Lemma Calculate_stores f c now d id r d' : Calculate f c now d id = (r, d') ->
  d' = d \/ exists row, ts_device_id row = id /\ d' = set_trust_scores d (device_trust_scores d ++ [row])%list.
Proof.
  unfold Calculate. destruct (postureQueryFails f); [intros [= <- <-]; by left|].
  destruct (latestPosture d id) as [[u p]|]; [|intros [= <- <-]; by left].
  destruct (mfaQueryFails f); [intros [= <- <-]; by left|].
  destruct (day <? _)%Z; intros E%(f_equal snd); cbn [snd] in E; subst d'; (destruct (_ || _); [by left|]);
    right; eexists; (split; [|reflexivity]); reflexivity.
Qed.

(** The rows of a device say nothing about the others. *)
Lemma latest_others {A} (dev : A -> string) (at_ : A -> Z) l x id :
  dev x <> id ->
  latest at_ (List.filter (fun y => String.eqb (dev y) id) (l ++ [x])%list) =
  latest at_ (List.filter (fun y => String.eqb (dev y) id) l).
Proof. intros Hx%String.eqb_neq. rewrite List.filter_app. cbn [List.filter]. by rewrite Hx, app_nil_r. Qed.

(** Posture and trust rows of one device reach only the gateways that serve an
    enrolled device of its owner. *)
Lemma config_other_device f s d' id owner gw prow :
  (forall dev, dev ∈ devices (zbase s) -> d_id dev = id -> d_user_id dev = owner) ->
  dp_device_id prow = id ->
  let d1 := set_device_posture (zbase s) (device_posture (zbase s) ++ [prow])%list in
  (d' = d1 \/ exists row, ts_device_id row = id /\ d' = set_trust_scores d1 (device_trust_scores d1 ++ [row])%list) ->
  serves_user (dbOf s) owner gw = false ->
  buildFirewallConfig f (dbOf (set_base s d')) gw = buildFirewallConfig f (dbOf s) gw.
Proof.
  intros Hown <- d1 Hd Hs.
  assert (forall dev, dev ∈ devices (zbase s) -> served (dbOf s) gw dev && enrolled dev = true -> dp_device_id prow <> d_id dev) as Hne.
  { intros dev Hdev [Hsv Hen]%andb_true_iff E. pose proof (Hown dev Hdev (eq_sym E)) as Eo.
    unfold serves_user in Hs. rewrite <- not_true_iff_false, existsb_exists in Hs. apply Hs. exists dev.
    by rewrite <- list_elem_of_In, Eo, String.eqb_refl, Hen, Hsv. }
  assert (postureRows (dbOf (set_base s d')) gw = postureRows (dbOf s) gw) as Hp.
  { unfold postureRows. destruct Hd as [->|(row & Hrow & ->)]; apply bind_ext_in; intros dev Hdev;
      change (served (dbOf (set_base s _)) gw dev) with (served (dbOf s) gw dev);
      (destruct (served (dbOf s) gw dev && enrolled dev) eqn:Hsv; [|done]); pose proof (Hne dev Hdev Hsv);
      cbn [users dbOf zbase set_base]; (destruct (List.find _ _); [|done]); unfold postureRow, latestTrust, latestChecks;
      cbn [device_posture device_trust_scores dbOf zbase set_base set_device_posture set_trust_scores d1];
      rewrite ?(latest_others dp_device_id), ?(latest_others ts_device_id) by congruence; done. }
  unfold buildFirewallConfig, buildFirewallConfigFromPool, ztnaBlocked. rewrite Hp.
  destruct Hd as [->|(row & _ & ->)]; reflexivity.
Qed.

(** A report is enforced at once: after an accepted report every connected
    gateway either has the configuration it had or has been sent the one that
    follows from the new posture and trust score. *)
Theorem report_enforced fail dbnow now c req s st b s' es :
  (forall i, fail i = false) -> NoDup (map d_id (devices (zbase s))) ->
  run (serve hub_refresher fail id (ReportPosture dbnow now (Some c) (Some req))) s = (Reply st b, s', es) ->
  informed h (dbOf s) (dbOf s') es.
Proof.
  intros Hf Hnd Hrun. cbn [serve] in Hrun.
  destruct (report_spec _ _ _ _ _ _ _ _ _ _ _ _ Hf Hrun) as (_ & y & _ & [did dev res d _ Hrow _ _ Hcalc -> -> _]).
  intros gw stm cfg Hst Hcfg. cbn [hub_refresher hubRefresher refreshForUser id] in *.
  destruct (serves_user (dbOf s) (d_user_id dev) gw) eqn:Hu.
  - right. eapply refresh_reaches; [|done|done]. destruct (Calculate_stores _ _ _ _ _ _ _ Hcalc) as [->|(row & _ & ->)]; exact Hu.
  - left. rewrite <- Hcfg. symmetry.
    eapply (config_other_device no_faults s d did (d_user_id dev) gw
      (reportRow did dbnow (postureScore (loadTrustConfig false s) req) req)); [|reflexivity|exact (Calculate_stores _ _ _ _ _ _ _ Hcalc)|done].
    intros dv Hdv E. f_equal. apply byKey_Some in Hrow as [Hin Ein]. eapply (NoDup_map_inj d_id); [done..|]. congruence.
Qed.
End told.

(** ** Concrete requests *)

Definition toy_json : PgJson := {| pg_jsonb := fun _ => None |}.

Definition mkPolicy (name : string) (cond : json) (nets : list string) : policy_row := {|
  pr_id := name; pr_name := name; pr_description := None; pr_is_active := true; pr_conditions := cond;
  pr_action := "deny"; pr_network_ids := nets; pr_priority := 0; pr_created_at := 0; pr_updated_at := 0 |}.

Definition needs_disk : json := JObject [("require_disk_encryption", JBool true)].

Definition demo_store : zstore := {|
  zbase := demo_db; zconfig := Some DefaultTrustScoreConfig; zpolicies := [mkPolicy "disk" needs_disk []]; zdns := [] |}.

Lemma demo_config_valid : config_valid demo_store.
Proof. intros c [= <-]. split; [apply default_config_ok|reflexivity]. Qed.

Definition demo_serve (r : request) : H zstore effect (Z * ztnaBody) :=
  @serve sql_default toy_device_env toy_json effect (@hub_refresher range_default sql_default (hub1 false)) noFail id r.

Definition report_of (disk : bool) : postureReport := {|
  po_DeviceID := "d1"; po_OSType := "linux"; po_OSVersion := "6.1"; po_DiskEncrypted := disk; po_ScreenLockEnabled := true;
  po_AntivirusActive := true; po_FirewallEnabled := true |}.

Definition ann_reports (disk : bool) : request := ReportPosture 10 11 (Some (claims_of "ann" false)) (Some (report_of disk)).

(** A configuration whose weights overflow to 100 is refused by the columns. *)
Definition wrapping_config : TrustScoreConfig := {|
  WeightDiskEncryption := 2^62; WeightScreenLock := 2^62; WeightAntivirus := 2^62; WeightFirewall := 2^62;
  WeightOSVersion := 50; WeightMFA := 50; ThresholdHigh := 80; ThresholdMedium := 50; ThresholdLow := 20;
  AutoRestrictBelowMedium := false; AutoBlockBelowLow := true |}.

Lemma trust_config_stays_valid_witness :
  sumWeights 0 (weights wrapping_config) = Some 100 /\
  (run (demo_serve (UpdateConfig (Some wrapping_config))) demo_store).1.1 = Failure 500 "failed to update trust config" /\
  config_valid (run (demo_serve (ann_reports false)) demo_store).1.2.
Proof.
  split; [vm_compute; reflexivity|]. split; [vm_compute; reflexivity|].
  exact (proj1 (@trust_config_stays_valid sql_default toy_device_env toy_json effect
    (@hub_refresher range_default sql_default (hub1 false)) noFail id (ann_reports false) demo_store
    (fun s Hs => Hs) demo_config_valid)).
Defined.

(** The part of a reply that the statements below speak of. *)
Definition verdict_of (r : reply ztnaBody) : option (Z * option (Z * TrustLevel) * bool) :=
  match r with
  | Reply _ (ZbPosture y) => Some (ry_PostureScore y, ry_Trust y, bool_decide (is_Some (ry_Blocked y)))
  | _ => None
  end.

Lemma older_demo_trust : older ts_device_id ts_evaluated_at (device_trust_scores (zbase demo_store)) "d1" 11.
Proof. intros t [->|Ht]%elem_of_cons _; [cbn; lia|]. by apply elem_of_nil in Ht. Qed.

Lemma report_scored_witness :
  verdict_of (run (demo_serve (ann_reports false)) demo_store).1.1 = Some (45, Some (45, TrustLevelLow), true) /\
  exists y u, (run (demo_serve (ann_reports false)) demo_store).1.1 = Reply 200 (ZbPosture y) /\
    ry_PostureScore y = check_points DefaultTrustScoreConfig (report_of false) /\
    ry_Trust y = Some (45 + pts (mfaEnabled demo_db u) 15,
                       classifyTrustLevel (45 + pts (mfaEnabled demo_db u) 15) DefaultTrustScoreConfig).
Proof.
  split; [vm_compute; reflexivity|].
  destruct (@report_scored sql_default toy_device_env toy_json effect (@hub_refresher range_default sql_default (hub1 false))
    noFail id 10 11 (claims_of "ann" false) (report_of false) demo_store 200
    (match (run (demo_serve (ann_reports false)) demo_store).1.1 with Reply _ b => b | _ => ZbNone end)
    (run (demo_serve (ann_reports false)) demo_store).1.2 (run (demo_serve (ann_reports false)) demo_store).2 "d1"
    (fun i => eq_refl) demo_config_valid eq_refl (fun x Hx => match not_elem_of_nil x Hx with end)
    ltac:(vm_compute; discriminate) ltac:(vm_compute; reflexivity)) as (y & u & Hb & Hp & _ & _ & Ht).
  exists y, u. split; [|split; [exact Hp|exact Ht]].
  transitivity (Reply 200 (match (run (demo_serve (ann_reports false)) demo_store).1.1 with Reply _ b => b | _ => ZbNone end));
    [vm_compute; reflexivity|]. by rewrite Hb.
Defined.

Lemma notice_matches_firewall_witness :
  let out := run (demo_serve (ann_reports false)) demo_store in
  exists y, out.1.1 = Reply 200 (ZbPosture y) /\
    ry_Blocked y = Some "ZTNA policy 'disk' violation: disk encryption is required but not enabled. Contact your administrator." /\
    ztna_blocks (dbOf out.1.2) ann_dev (mkUser "ann" false).
Proof.
  eexists. split; [vm_compute; reflexivity|]. split; [vm_compute; reflexivity|].
  eapply (@notice_matches_firewall sql_default toy_device_env toy_json effect
    (@hub_refresher range_default sql_default (hub1 false)) noFail id 10 11 (claims_of "ann" false) (report_of false)
    demo_store 200 _ _ _ ann_dev (mkUser "ann" false) 45 TrustLevelLow).
  - done.
  - exact demo_config_valid.
  - apply (bool_decide_unpack _). vm_compute. exact I.
  - apply (bool_decide_unpack _). vm_compute. exact I.
  - left.
  - reflexivity.
  - left.
  - reflexivity.
  - exact older_demo_trust.
  - vm_compute. reflexivity.
  - vm_compute. reflexivity.
  - lia.
  - apply (bool_decide_unpack _). vm_compute. exact I.
  - vm_compute. eauto.
Defined.

Lemma foreign_report_refused_witness :
  exists st msg, run (demo_serve (ReportPosture 10 11 (Some (claims_of "eve" false)) (Some (report_of true)))) demo_store =
    (Failure st msg, demo_store, []).
Proof.
  apply (@foreign_report_refused sql_default toy_device_env toy_json effect
    (@hub_refresher range_default sql_default (hub1 false)) noFail id 10 11 (claims_of "eve" false) (report_of true)
    demo_store "d1" ann_dev); [reflexivity|vm_compute; reflexivity|done|reflexivity].
Defined.

Lemma policy_change_enforced_witness :
  let out := run (demo_serve (DeletePolicy "disk")) demo_store in
  out.1.1 = Reply 204 ZbNone /\ @all_told range_default sql_default (hub1 false) (dbOf out.1.2) out.2.
Proof.
  split; [vm_compute; reflexivity|].
  eapply (@policy_change_enforced range_default sql_default toy_device_env toy_json (hub1 false) noFail id
    (DeletePolicy "disk") demo_store 204 ZbNone); [exact I|vm_compute; reflexivity].
Defined.

Definition g1_blocks (s : zstore) : option (list string) :=
  BlockedPubkeys <$> @buildFirewallConfigFromPool range_default sql_default no_faults (dbOf s) "g1".

Lemma report_enforced_witness :
  let out := run (demo_serve (ann_reports true)) demo_store in
  g1_blocks demo_store = Some ["pkB"; "pkA"] /\ g1_blocks out.1.2 = Some ["pkB"] /\
  @informed range_default sql_default (hub1 false) (dbOf demo_store) (dbOf out.1.2) out.2.
Proof.
  split; [vm_compute; reflexivity|]. split; [vm_compute; reflexivity|].
  eapply (@report_enforced range_default sql_default toy_device_env toy_json (hub1 false) noFail 10 11
    (claims_of "ann" false) (report_of true) demo_store 200).
  - done.
  - apply (bool_decide_unpack _). vm_compute. exact I.
  - vm_compute. reflexivity.
Defined.

(** ** Where the code falls short *)

(** A policy limited to a network the device is not in blocks nothing, but the
    client is told that it is blocked. *)
Theorem notice_ignores_networks :
  let s := set_policies demo_store [mkPolicy "disk" needs_disk ["n9"]] in
  let out := run (demo_serve (ann_reports false)) s in
  verdict_of out.1.1 = Some (45, Some (45, TrustLevelLow), true) /\ g1_blocks out.1.2 = Some [].
Proof. split; vm_compute; reflexivity. Qed.

(** A report scores at most the weights of its four checks, but the component of
    the system version asks for 75: with the default weights it is never
    earned, and no device scores more than 85. *)
Theorem os_weight_out_of_reach c req :
  config_ok c -> 25 < WeightOSVersion c + WeightMFA c ->
  postureScore c req < 75 /\ (postureScore DefaultTrustScoreConfig req <= 70).
Proof.
  intros Hc Hw. rewrite (postureScore_points c) by done. pose proof (check_points_range c req Hc).
  split; [lia|]. rewrite postureScore_points by apply default_config_ok.
  pose proof (check_points_range _ req default_config_ok) as Hd. cbn in Hd. lia.
Qed.

(** A device that earns every point has no violation, its score is refused by
    the table, and the gateways go on blocking it for its old one while it is
    told that all is well. *)
Definition strict_config : TrustScoreConfig := {|
  WeightDiskEncryption := 25; WeightScreenLock := 15; WeightAntivirus := 20; WeightFirewall := 20; WeightOSVersion := 10;
  WeightMFA := 10; ThresholdHigh := 80; ThresholdMedium := 50; ThresholdLow := 20; AutoRestrictBelowMedium := false;
  AutoBlockBelowLow := true |}.

Definition ann_with_mfa : user := {|
  u_id := "ann"; u_username := "ann"; u_email := "ann"; u_password_hash := None; u_first_name := ""; u_last_name := "";
  u_phone := None; u_is_active := true; u_is_admin := false; u_mfa_enabled := true; u_created_at := 0; u_updated_at := 0 |}.

Theorem perfect_report_stays_blocked :
  let s0 := set_config (set_base demo_store (set_users demo_db [ann_with_mfa; mkUser "bob" true])) strict_config in
  let s1 := set_base s0 (set_trust_scores (zbase s0) [{| ts_device_id := "d1"; ts_score := 10; ts_level := "critical";
    ts_violations := ["firewall not enabled"]; ts_evaluated_at := 5 |}]) in
  let out := run (demo_serve (ann_reports true)) s1 in
  verdict_of out.1.1 = Some (80, Some (100, TrustLevelHigh), false) /\ g1_blocks out.1.2 = Some ["pkB"; "pkA"].
Proof. split; vm_compute; reflexivity. Qed.

(** A policy without conditions, and a second one of the same name, answer 500. *)
Theorem policy_errors_are_internal :
  let create cond name := CreatePolicy "p2" 1 (Some {| cp_Name := name; cp_Description := None; cp_Conditions := cond;
    cp_Action := ""; cp_NetworkIDs := None; cp_Priority := 0 |}) in
  (run (demo_serve (create None "open")) demo_store).1.1 = Failure 500 "failed to create policy" /\
  (run (demo_serve (create (Some needs_disk) "disk")) demo_store).1.1 = Failure 500 "failed to create policy" /\
  reply_status (run (demo_serve (create (Some needs_disk) "open")) demo_store).1.1 = 201.
Proof. repeat split; vm_compute; reflexivity. Qed.
