(* ===== verification/SmartRoutes.v ===== *)
(** * The smart-route endpoints

    [internal/core/handler/smartroute.go]: routes with their entries, the proxy
    servers they name, and the networks they apply to.  A change is pushed to
    the gateways by the notifier of file [Hub]; [dbOf] puts the tables where the
    notifier reads them.  Host names are checked with a regular expression (file
    [Regex]). *)

From S2P Require Import Prelude Net Schema Regex Json Policy Hub Devices Http Tables Groups ZtnaAdmin.
From Stdlib Require Import ZArith Lia Ascii String.
From stdpp Require Import base gmap strings list.

Local Open Scope Z_scope.
Local Open Scope string_scope.
Local Open Scope outpost_scope.

(** ** Host names *)

Definition in_range (lo hi c : ascii) : bool :=
  ((nat_of_ascii lo <=? nat_of_ascii c) && (nat_of_ascii c <=? nat_of_ascii hi))%nat.

(** [[a-zA-Z0-9]] and [[a-zA-Z0-9\-]]. *)
Definition alnum (c : ascii) : bool := in_range "a" "z" c || in_range "A" "Z" c || in_range "0" "9" c.
Definition alnum_dash (c : ascii) : bool := alnum c || Ascii.eqb c "-".

(** [[a-zA-Z0-9]([a-zA-Z0-9\-]{0,61}[a-zA-Z0-9])?]. *)
Definition labelRe : regex :=
  RSeq (RClass alnum) (ROpt (RSeq (RUpTo 61 (RClass alnum_dash)) (RClass alnum))).

Definition validHostnameRe : regex :=
  RSeq (RStar (RSeq labelRe (RClass (Ascii.eqb ".")))) labelRe.

(** What the expression is meant to say (RFC 1123): labels of 1 to 63 letters,
    digits and dashes that neither start nor end with a dash. *)
Definition label_ok (l : list ascii) : Prop :=
  (1 <= length l <= 63)%nat /\ Forall (fun c => alnum_dash c = true) l /\
  head l <> Some "-"%char /\ last l <> Some "-"%char.

Definition hostname_ok (s : string) : Prop :=
  Forall (fun w => label_ok (list_ascii_of_string w)) (split_on "." s).

Lemma alnum_dash_iff c : alnum_dash c = true -> alnum c = true <-> c <> "-"%char.
Proof.
  unfold alnum_dash. destruct (Ascii.eqb_spec c "-") as [->|]; [|rewrite orb_false_r; tauto]. intros _. split; [discriminate|done].
Qed.

Lemma labelRe_spec l : lang labelRe l <-> label_ok l.
Proof.
  unfold labelRe, ROpt. rewrite lang_seq_inv. setoid_rewrite lang_class_inv. setoid_rewrite lang_alt_inv.
  setoid_rewrite lang_eps_inv. setoid_rewrite lang_seq_inv. setoid_rewrite lang_upto. setoid_rewrite lang_class_inv. split.
  - assert (forall c, alnum c = true -> alnum_dash c = true /\ c <> "-"%char) as Hal.
    { intros c Hc. unfold alnum_dash. rewrite Hc. split; [done|]. intros ->. discriminate. }
    intros (l1 & l2 & -> & (c & -> & Hc) & [->|(m & e & -> & [Hlen Hm] & (d & -> & Hd))]).
    + apply Hal in Hc as [Hc Hne]. split; [cbn; lia|]. cbn. split; [by constructor|]. split; congruence.
    + apply Hal in Hc as [Hc Hne], Hd as [Hd Hne']. split; [cbn; rewrite length_app; cbn; lia|]. cbn.
      split; [constructor; [done|]; apply Forall_app; split; [done|by constructor]|]. split; [congruence|].
      rewrite app_comm_cons, last_snoc. congruence.
  - intros (Hlen & Hall & Hh & Hl). destruct l as [|c l]; [cbn in Hlen; lia|]. cbn in Hlen, Hh.
    apply Forall_cons in Hall as [Hc Hall]. exists [c], l. split; [done|].
    split; [exists c; split; [done|]; apply alnum_dash_iff; congruence|].
    destruct l as [|x l] using rev_ind; [by left|]. right. exists l, [x]. split; [done|].
    rewrite length_app in Hlen. cbn in Hlen. apply Forall_app in Hall as [Hall Hx]. apply Forall_cons in Hx as [Hx _].
    split; [split; [lia|done]|]. exists x. split; [done|]. apply alnum_dash_iff; [done|].
    rewrite app_comm_cons, last_snoc in Hl. congruence.
Qed.

Lemma list_ascii_app s t : list_ascii_of_string (s ++ t) = (list_ascii_of_string s ++ list_ascii_of_string t)%list.
Proof. induction s as [|c s IH]; [done|]. rewrite append_cons. cbn. by rewrite IH. Qed.

Lemma label_no_dot w : label_ok (list_ascii_of_string w) -> no_char "." w = true.
Proof.
  intros (_ & Hall & _). induction w as [|c w IH]; [done|]. cbn in *. apply Forall_cons in Hall as [Hc Hall].
  rewrite (IH Hall), andb_true_r. destruct (Ascii.eqb_spec c "."); [subst; discriminate|done].
Qed.

Lemma join_split c s : strings_join (String c "") (split_on c s) = s.
Proof.
  induction s as [|a s IH]; [done|]. cbn [split_on]. destruct (Ascii.eqb_spec a c) as [->|Hne].
  - destruct (split_on c s) as [|w ws] eqn:E; [by apply split_on_ne in E|].
    change (strings_join (String c "") ("" :: w :: ws)) with ("" ++ String c "" ++ strings_join (String c "") (w :: ws)).
    rewrite IH. by str_simpl.
  - destruct (split_on c s) as [|w ws] eqn:E; [by apply split_on_ne in E|]. rewrite <- IH. destruct ws; [done|].
    cbn [strings_join]. by rewrite append_cons.
Qed.

(** A sequence of labels ended by dots, then a label. *)
Lemma hostname_lang l : lang validHostnameRe l <->
  exists ws, ws <> [] /\ Forall (fun w => label_ok (list_ascii_of_string w)) ws /\
    l = list_ascii_of_string (strings_join "." ws).
Proof.
  unfold validHostnameRe. rewrite lang_seq_inv. split.
  - intros (l1 & l2 & -> & Hs & Hl). revert Hs. remember (RStar _) as r eqn:Er. intros Hs. revert l2 Hl.
    induction Hs as [| | | | |r0|r0 m1 m2 Hne Hm1 _ Hm2 IH]; try discriminate; intros l2 Hl.
    + apply labelRe_spec in Hl. exists [string_of_list_ascii l2]. rewrite <- (list_ascii_of_string_of_list_ascii l2) in Hl.
      split; [done|]. split; [by constructor|]. cbn. by rewrite list_ascii_of_string_of_list_ascii.
    + injection Er as ->. apply lang_seq_inv in Hm1 as (w & d & -> & Hw%labelRe_spec & (c & -> & Hc)%lang_class_inv).
      apply Ascii.eqb_eq in Hc as <-. destruct (IH eq_refl l2 Hl) as (ws & Hwne & Hws & E).
      exists (string_of_list_ascii w :: ws). rewrite <- (list_ascii_of_string_of_list_ascii w) in Hw.
      split; [done|]. split; [by constructor|]. destruct ws as [|w' ws]; [done|].
      change (strings_join "." (string_of_list_ascii w :: w' :: ws)) with
        (string_of_list_ascii w ++ "." ++ strings_join "." (w' :: ws)).
      rewrite !list_ascii_app, list_ascii_of_string_of_list_ascii, <- E. cbn. by rewrite <- !(assoc_L (++)%list).
  - intros (ws & Hne & Hws & ->). induction Hws as [|w ws Hw Hws IH]; [done|]. apply labelRe_spec in Hw.
    destruct ws as [|w' ws]; [exists [], (list_ascii_of_string w); auto with regex|].
    destruct IH as (l1 & l2 & E & Hs & Hl); [done|].
    exists ((list_ascii_of_string w ++ ["."%char]) ++ l1)%list, l2. split.
    + change (strings_join "." (w :: w' :: ws)) with (w ++ "." ++ strings_join "." (w' :: ws)).
      rewrite !list_ascii_app, E. cbn. by rewrite <- !(assoc_L (++)%list).
    + split; [|done]. apply lang_star; [by destruct (list_ascii_of_string w)| |done]. apply lang_seq; [done|by constructor].
Qed.

Lemma hostname_matches s : matches validHostnameRe s = true <-> hostname_ok s.
Proof.
  rewrite matches_lang, hostname_lang. unfold hostname_ok. split.
  - intros (ws & Hne & Hws & E). apply (f_equal string_of_list_ascii) in E.
    rewrite !string_of_list_ascii_of_string in E. rewrite E, split_on_join; [done|done|].
    eapply Forall_impl; [done|]. intros w. apply label_no_dot.
  - intros Hs. exists (split_on "." s). split; [apply split_on_ne|]. split; [done|]. by rewrite join_split.
Qed.

(** C30. The expression accepts exactly the host names: a text matches when, and
    only when, each of its parts between dots is a label. *)
Theorem validHostnameRe_correct s : matches validHostnameRe s = true <-> hostname_ok s.
Proof. apply hostname_matches. Qed.

(** ** Tables *)

Record sroute_row := {
  sm_id : string;
  sm_name : string;
  sm_description : option string;
  sm_is_active : bool;
  sm_created_at : Z;
  sm_updated_at : Z;
}.

Record entry_row := {
  en_id : string;
  en_route_id : string;
  en_type : string;
  en_value : string;
  en_action : string;
  en_proxy_id : option string;
  en_priority : Z;
  en_created_at : Z;
}.

Record proxy_row := {
  px_id : string;
  px_name : string;
  px_type : string;
  px_address : string;
  px_port : Z;
  px_username : option string;
  px_password : option string;
  px_extra : option json;
  px_is_active : bool;
  px_created_at : Z;
  px_updated_at : Z;
}.

Record rstore := {
  rbase : db;
  sroutes : list sroute_row;
  sentries : list entry_row;
  sproxies : list proxy_row;
  slinks : list (string * string);   (* network_id, smart_route_id *)
}.

Definition set_sroutes (s : rstore) l := {|
  rbase := rbase s; sroutes := l; sentries := sentries s; sproxies := sproxies s; slinks := slinks s |}.
Definition set_sentries (s : rstore) l := {|
  rbase := rbase s; sroutes := sroutes s; sentries := l; sproxies := sproxies s; slinks := slinks s |}.
Definition set_sproxies (s : rstore) l := {|
  rbase := rbase s; sroutes := sroutes s; sentries := sentries s; sproxies := l; slinks := slinks s |}.
Definition set_slinks (s : rstore) l := {|
  rbase := rbase s; sroutes := sroutes s; sentries := sentries s; sproxies := sproxies s; slinks := l |}.

Definition entryOf (e : entry_row) : smart_route_entry := {|
  e_smart_route_id := en_route_id e; e_entry_type := en_type e; e_value := en_value e; e_action := en_action e;
  e_priority := en_priority e |}.

Definition dbOf (s : rstore) : db :=
  let d := rbase s in {|
  users := users d; devices := devices d; networks := networks d; gateways := gateways d;
  gateway_networks := gateway_networks d; groups := groups d; user_groups := user_groups d;
  network_acls := network_acls d; device_posture := device_posture d; device_trust_scores := device_trust_scores d;
  trust_auto := trust_auto d; ztna_policies := ztna_policies d;
  smart_routes := map (fun r => (sm_id r, sm_is_active r)) (sroutes s);
  smart_route_entries := map entryOf (sentries s); network_smart_routes := slinks s;
  roles := roles d; user_roles := user_roles d; logins := logins d |}.

(** ** Statements *)

Section statements.
Context `{DeviceEnv} `{PgJson}.

Definition insert_sroute (newID : string) (now : Z) (name : string) (description : option string) : stmt rstore sroute_row := fun s =>
  let r := {| sm_id := newID; sm_name := name; sm_description := description; sm_is_active := true;
              sm_created_at := now; sm_updated_at := now |} in
  if has sm_id (sroutes s) newID then inr (ErrUnique "smart_routes_pkey")
  else if has sm_name (sroutes s) name then inr (ErrUnique "smart_routes_name_key")
  else inl (r, set_sroutes s (sroutes s ++ [r])%list).

Record updateRouteRequest := { ru_Name : option string; ru_Description : option string; ru_IsActive : option bool }.

Definition patch_sroute (now : Z) (q : updateRouteRequest) (r : sroute_row) : sroute_row := {|
  sm_id := sm_id r; sm_name := default (sm_name r) (ru_Name q);
  sm_description := match ru_Description q with Some x => Some x | None => sm_description r end;
  sm_is_active := default (sm_is_active r) (ru_IsActive q); sm_created_at := sm_created_at r; sm_updated_at := now |}.

Definition update_sroute (now : Z) (id : string) (q : updateRouteRequest) : stmt rstore sroute_row := fun s =>
  match byKey sm_id (sroutes s) id with
  | None => inr ErrNoRows
  | Some r =>
      if clash sm_id (Some ∘ sm_name) (sroutes s) id (Some (default (sm_name r) (ru_Name q)))
      then inr (ErrUnique "smart_routes_name_key")
      else inl (patch_sroute now q r, set_sroutes s (upd sm_id id (patch_sroute now q) (sroutes s)))
  end.

(** Its entries and its networks go with a route. *)
Definition delete_sroute (id : string) : stmt rstore nat := fun s =>
  inl (rowsWith sm_id (sroutes s) id,
       {| rbase := rbase s; sroutes := without sm_id (sroutes s) id; sentries := without en_route_id (sentries s) id;
          sproxies := sproxies s; slinks := without snd (slinks s) id |}).

Definition entry_key (e : entry_row) : string * string * string := (en_route_id e, en_type e, en_value e).

Definition insert_entry (newID : string) (now : Z) (route type value action : string) (proxy : option string) (priority : Z)
  : stmt rstore entry_row := fun s =>
  match match proxy with None => Some None | Some p => option_map Some (pg_uuid p) end with
  | None => inr ErrBadText
  | Some proxy =>
      let e := {| en_id := newID; en_route_id := route; en_type := type; en_value := value; en_action := action;
                  en_proxy_id := proxy; en_priority := priority; en_created_at := now |} in
      if negb (int32_ok priority) then inr ErrOther
      else if has en_id (sentries s) newID then inr (ErrUnique "smart_route_entries_pkey")
      else if bool_decide (entry_key e ∈ map entry_key (sentries s))
      then inr (ErrUnique "smart_route_entries_smart_route_id_entry_type_value_key")
      else if negb (has sm_id (sroutes s) route) then inr (ErrForeignKeyOn "smart_route_entries_smart_route_id_fkey")
      else if match proxy with Some p => has px_id (sproxies s) p | None => true end
      then inl (e, set_sentries s (sentries s ++ [e])%list)
      else inr (ErrForeignKeyOn "smart_route_entries_proxy_id_fkey")
  end.

Definition is_entry (id route : string) (e : entry_row) : bool :=
  String.eqb (en_id e) id && String.eqb (en_route_id e) route.

Definition delete_entry (id route : string) : stmt rstore nat := fun s =>
  inl (length (List.filter (is_entry id route) (sentries s)),
       set_sentries s (List.filter (fun e => negb (is_entry id route e)) (sentries s))).

(** [$7::jsonb]. *)
Definition pg_jsonb_opt (t : option string) : option (option json) :=
  match t with None => Some None | Some t => option_map Some (pg_jsonb t) end.

Record proxyRequest := {
  pq_Name : string;
  pq_Type : string;
  pq_Address : string;
  pq_Port : Z;
  pq_Username : option string;
  pq_Password : option string;
  pq_ExtraConfig : option string;
}.

Definition insert_proxy (newID : string) (now : Z) (q : proxyRequest) : stmt rstore proxy_row := fun s =>
  match pg_jsonb_opt (pq_ExtraConfig q) with
  | None => inr ErrBadText
  | Some extra =>
      let p := {| px_id := newID; px_name := pq_Name q; px_type := pq_Type q; px_address := pq_Address q;
                  px_port := pq_Port q; px_username := pq_Username q; px_password := pq_Password q; px_extra := extra;
                  px_is_active := true; px_created_at := now; px_updated_at := now |} in
      if has px_id (sproxies s) newID then inr (ErrUnique "proxy_servers_pkey")
      else if has px_name (sproxies s) (pq_Name q) then inr (ErrUnique "proxy_servers_name_key")
      else inl (p, set_sproxies s (sproxies s ++ [p])%list)
  end.

Record proxyPatch := {
  pp_Name : option string;
  pp_Type : option string;
  pp_Address : option string;
  pp_Port : option Z;
  pp_Username : option string;
  pp_Password : option string;
  pp_ExtraConfig : option string;
  pp_IsActive : option bool;
}.

Definition orElse {A} (x y : option A) : option A := match x with Some _ => x | None => y end.

Definition patch_proxy (now : Z) (q : proxyPatch) (extra : option json) (p : proxy_row) : proxy_row := {|
  px_id := px_id p; px_name := default (px_name p) (pp_Name q); px_type := default (px_type p) (pp_Type q);
  px_address := default (px_address p) (pp_Address q); px_port := default (px_port p) (pp_Port q);
  px_username := orElse (pp_Username q) (px_username p); px_password := orElse (pp_Password q) (px_password p);
  px_extra := orElse extra (px_extra p); px_is_active := default (px_is_active p) (pp_IsActive q);
  px_created_at := px_created_at p; px_updated_at := now |}.

Definition update_proxy (now : Z) (id : string) (q : proxyPatch) : stmt rstore proxy_row := fun s =>
  match pg_jsonb_opt (pp_ExtraConfig q) with
  | None => inr ErrBadText
  | Some extra =>
      match byKey px_id (sproxies s) id with
      | None => inr ErrNoRows
      | Some p =>
          if clash px_id (Some ∘ px_name) (sproxies s) id (Some (default (px_name p) (pp_Name q)))
          then inr (ErrUnique "proxy_servers_name_key")
          else inl (patch_proxy now q extra p, set_sproxies s (upd px_id id (patch_proxy now q extra) (sproxies s)))
      end
  end.

(** [ON DELETE SET NULL] since migration 11. *)
Definition unlink_proxy (id : string) (e : entry_row) : entry_row := {|
  en_id := en_id e; en_route_id := en_route_id e; en_type := en_type e; en_value := en_value e; en_action := en_action e;
  en_proxy_id := if bool_decide (en_proxy_id e = Some id) then None else en_proxy_id e;
  en_priority := en_priority e; en_created_at := en_created_at e |}.

Definition delete_proxy (id : string) : stmt rstore nat := fun s =>
  inl (rowsWith px_id (sproxies s) id,
       {| rbase := rbase s; sroutes := sroutes s; sentries := map (unlink_proxy id) (sentries s);
          sproxies := without px_id (sproxies s) id; slinks := slinks s |}).

Definition insert_link (network route : string) : stmt rstore unit := fun s =>
  match pg_uuid network with
  | None => inr ErrBadText
  | Some nid =>
      if bool_decide ((nid, route) ∈ slinks s) then inr (ErrUnique "network_smart_routes_pkey")
      else if negb (has n_id (networks (rbase s)) nid) then inr (ErrForeignKeyOn "network_smart_routes_network_id_fkey")
      else if has sm_id (sroutes s) route then inl (tt, set_slinks s (slinks s ++ [(nid, route)])%list)
      else inr (ErrForeignKeyOn "network_smart_routes_smart_route_id_fkey")
  end.

Definition delete_link (network route : string) : stmt rstore nat := fun s =>
  inl (length (List.filter (same_pair (network, route)) (slinks s)),
       set_slinks s (List.filter (fun l => negb (same_pair (network, route) l)) (slinks s))).
End statements.

(** ** Responses *)

Record smartRouteEntry := { se_row : entry_row; se_ProxyName : option string }.

Record smartRoute := { st_row : sroute_row; st_Entries : list smartRouteEntry }.

Record proxyServer := {
  ps_ID : string;
  ps_Name : string;
  ps_Type : string;
  ps_Address : string;
  ps_Port : Z;
  ps_Username : option string;
  ps_Password : option string;
  ps_ExtraConfig : option string;
  ps_IsActive : bool;
  ps_CreatedAt : Z;
  ps_UpdatedAt : Z;
}.

Record networkSmartRoute := {
  ns_NetworkID : string;
  ns_SmartRouteID : string;
  ns_NetworkName : string;
  ns_NetworkAddress : string;
}.

Inductive smartBody :=
| RbRoutes (l : list smartRoute)
| RbRoute (r : smartRoute)
| RbEntry (e : smartRouteEntry)
| RbProxies (l : list proxyServer)
| RbProxy (p : proxyServer)
| RbNetworks (l : list networkSmartRoute)
| RbAssociated
| RbNone.

(** The driver: the text of a [jsonb] column, and a [cidr] column scanned into a
    string. *)
Class SmartPg : Type := {
  jsonb_text : json -> string;
  cidr_Scan : cidr -> option string;
}.

(** ** The endpoints *)

Section handlers.
Context `{SqlOrder} `{DeviceEnv} `{PgJson} `{SmartPg} {E : Type} (notifier : option (db -> string -> list E)).
Context (fail : nat -> bool).

Definition notifyRoute (id : string) : H rstore E unit :=
  emit (fun s => match notifier with Some n => n (dbOf s) id | None => [] end).

Definition listRoutes : H rstore E (Z * smartBody) :=
  let! l := fetch fail 0 (fun s => map (fun r => {| st_row := r; st_Entries := [] |})
      (rows_by 101 (fun r => - sm_created_at r) (sroutes s)))
    "failed to list smart routes" "failed to scan smart route" "failed to iterate smart routes" in
  respondJSON 200 (RbRoutes l).

Definition createRoute (newID : string) (now : Z) (body : option (string * option string)) : H rstore E (Z * smartBody) :=
  let! req := the body 400 "invalid JSON" in
  do! require (negb (String.eqb req.1 "")) 400 "name is required" in
  let! r := exec (fail 0%nat) (insert_sroute newID now req.1 req.2) (fun e =>
    match e with
    | ErrUnique _ => (409, "smart route with this name already exists")
    | _ => (500, "failed to create smart route")
    end) in
  respondJSON 201 (RbRoute {| st_row := r; st_Entries := [] |}).

(** The [LEFT JOIN] with the proxy server. *)
Definition entryReply (s : rstore) (e : entry_row) : smartRouteEntry := {|
  se_row := e; se_ProxyName := en_proxy_id e ≫= fun p => px_name <$> byKey px_id (sproxies s) p |}.

(** [ORDER BY e.priority ASC, e.created_at ASC]. *)
Definition routeEntries (id : string) (s : rstore) : list smartRouteEntry :=
  map (entryReply s) (sort_by en_priority (rows_by 102 en_created_at
    (List.filter (fun e => String.eqb (en_route_id e) id) (sentries s)))).

Definition getRoute (rawId : string) : H rstore E (Z * smartBody) :=
  let! id := the (uuid_Parse rawId) 400 "invalid UUID" in
  let! row := query (fail 0%nat) (fun s => byKey sm_id (sroutes s) id) 500 "failed to get smart route" in
  let! r := the row 404 "smart route not found" in
  let! es := fetch fail 1 (routeEntries id) "failed to fetch entries" "failed to scan entry" "failed to iterate entries" in
  respondJSON 200 (RbRoute {| st_row := r; st_Entries := es |}).

Definition updateRoute (now : Z) (rawId : string) (body : option updateRouteRequest) : H rstore E (Z * smartBody) :=
  let! id := the (uuid_Parse rawId) 400 "invalid UUID" in
  let! req := the body 400 "invalid JSON" in
  let! r := exec (fail 0%nat) (update_sroute now id req) (fun e =>
    match e with
    | ErrUnique _ => (409, "smart route with this name already exists")
    | ErrNoRows => (404, "smart route not found")
    | _ => (500, "failed to update smart route")
    end) in
  do! notifyRoute id in
  respondJSON 200 (RbRoute {| st_row := r; st_Entries := [] |}).

Definition deleteRoute (rawId : string) : H rstore E (Z * smartBody) :=
  let! id := the (uuid_Parse rawId) 400 "invalid UUID" in
  do! deleting (fail 0%nat) (delete_sroute id) "failed to delete smart route" "smart route not found" in
  do! notifyRoute id in
  respondJSON 204 RbNone.

Record entryRequest := {
  eq_EntryType : string;
  eq_Value : string;
  eq_Action : string;
  eq_ProxyID : option string;
  eq_Priority : option Z;
}.

Definition one_of (x : string) (l : list string) : bool := existsb (String.eqb x) l.

(** [strings.HasPrefix(value, ".")] and the text behind the dot. *)
Definition dot_tail (value : string) : option string := cut_prefix value ".".

(** The value must fit its type. *)
Definition checkValue (type value : string) : H rstore E unit :=
  if String.eqb type "cidr" then
    require (bool_decide (is_Some (ParseCIDR value))) 400 ("invalid CIDR format: " ++ value)
  else if String.eqb type "domain" then
    require (matches validHostnameRe value) 400 ("invalid domain: " ++ value)
  else if String.eqb type "domain_suffix" then
    let! rest := the (dot_tail value) 400 "domain_suffix must start with '.'" in
    require (matches validHostnameRe rest) 400 ("invalid domain suffix: " ++ value)
  else ret tt.

Definition entryError (e : sql_error) : refusal :=
  match e with
  | ErrUnique c => (409, if strings_Contains c "smart_route_id" then "duplicate entry for this route" else "entry already exists")
  | ErrForeignKeyOn c =>
      (400, if strings_Contains c "proxy" then "proxy server not found"
            else if strings_Contains c "smart_route" then "smart route not found" else "referenced resource not found")
  | _ => (500, "failed to add entry")
  end.

Definition addEntry (newID : string) (now : Z) (rawId : string) (body : option entryRequest) : H rstore E (Z * smartBody) :=
  let! id := the (uuid_Parse rawId) 400 "invalid UUID" in
  let! req := the body 400 "invalid JSON" in
  do! require (negb (String.eqb (eq_EntryType req) "" || String.eqb (eq_Value req) "" || String.eqb (eq_Action req) ""))
    400 "entry_type, value, and action are required" in
  do! require (one_of (eq_EntryType req) ["domain"; "cidr"; "domain_suffix"])
    400 "entry_type must be 'domain', 'cidr', or 'domain_suffix'" in
  do! require (one_of (eq_Action req) ["proxy"; "direct"; "block"]) 400 "action must be 'proxy', 'direct', or 'block'" in
  do! require (negb (String.eqb (eq_Action req) "proxy" && bool_decide (eq_ProxyID req = None)))
    400 "proxy_id is required when action is 'proxy'" in
  do! checkValue (eq_EntryType req) (eq_Value req) in
  do! require (match eq_Priority req with Some p => negb (p <? 0)%Z | None => true end) 400 "priority must not be negative" in
  let! e := exec (fail 0%nat) (insert_entry newID now id (eq_EntryType req) (eq_Value req) (eq_Action req) (eq_ProxyID req)
      (default 100 (eq_Priority req))) entryError in
  do! notifyRoute id in
  let! reply := asks (fun s => entryReply s e) in
  respondJSON 201 (RbEntry reply).

Definition deleteEntry (rawId rawEntry : string) : H rstore E (Z * smartBody) :=
  let! id := the (uuid_Parse rawId) 400 "invalid UUID" in
  let! entry := the (uuid_Parse rawEntry) 400 "invalid UUID" in
  do! deleting (fail 0%nat) (delete_entry entry id) "failed to delete entry" "entry not found" in
  do! notifyRoute id in
  respondJSON 204 RbNone.

(** [Scan], then [ps.Password = nil]. *)
Definition scanProxy (p : proxy_row) : proxyServer := {|
  ps_ID := px_id p; ps_Name := px_name p; ps_Type := px_type p; ps_Address := px_address p; ps_Port := px_port p;
  ps_Username := px_username p; ps_Password := px_password p; ps_ExtraConfig := jsonb_text <$> px_extra p;
  ps_IsActive := px_is_active p; ps_CreatedAt := px_created_at p; ps_UpdatedAt := px_updated_at p |}.

Definition hidePassword (p : proxyServer) : proxyServer := {|
  ps_ID := ps_ID p; ps_Name := ps_Name p; ps_Type := ps_Type p; ps_Address := ps_Address p; ps_Port := ps_Port p;
  ps_Username := ps_Username p; ps_Password := None; ps_ExtraConfig := ps_ExtraConfig p; ps_IsActive := ps_IsActive p;
  ps_CreatedAt := ps_CreatedAt p; ps_UpdatedAt := ps_UpdatedAt p |}.

Definition listProxyServers : H rstore E (Z * smartBody) :=
  let! l := fetch fail 0 (fun s => map (fun p => hidePassword (scanProxy p)) (rows_by 103 (fun p => - px_created_at p) (sproxies s)))
    "failed to list proxy servers" "failed to scan proxy server" "failed to iterate proxy servers" in
  respondJSON 200 (RbProxies l).

Definition proxyTypes : list string := ["socks5"; "http"; "shadowsocks"; "vless"].
Definition badType : string := "type must be 'socks5', 'http', 'shadowsocks', or 'vless'".
Definition port_ok (p : Z) : bool := negb ((p <? 1) || (65535 <? p))%Z.

Definition createProxyServer (newID : string) (now : Z) (body : option proxyRequest) : H rstore E (Z * smartBody) :=
  let! req := the body 400 "invalid JSON" in
  do! require (negb (String.eqb (pq_Name req) "" || String.eqb (pq_Type req) "" || String.eqb (pq_Address req) "" ||
                     (pq_Port req =? 0)%Z)) 400 "name, type, address, and port are required" in
  do! require (port_ok (pq_Port req)) 400 "port must be between 1 and 65535" in
  do! require (one_of (pq_Type req) proxyTypes) 400 badType in
  let! p := exec (fail 0%nat) (insert_proxy newID now req) (fun e =>
    match e with ErrUnique _ => (409, "proxy server already exists") | _ => (500, "failed to create proxy server") end) in
  respondJSON 201 (RbProxy (hidePassword (scanProxy p))).

Definition getProxyServer (rawId : string) : H rstore E (Z * smartBody) :=
  let! id := the (uuid_Parse rawId) 400 "invalid UUID" in
  let! row := query (fail 0%nat) (fun s => byKey px_id (sproxies s) id) 500 "failed to get proxy server" in
  let! p := the row 404 "proxy server not found" in
  respondJSON 200 (RbProxy (hidePassword (scanProxy p))).

Definition updateProxyServer (now : Z) (rawId : string) (body : option proxyPatch) : H rstore E (Z * smartBody) :=
  let! id := the (uuid_Parse rawId) 400 "invalid UUID" in
  let! req := the body 400 "invalid JSON" in
  do! require (match pp_Port req with Some p => port_ok p | None => true end) 400 "port must be between 1 and 65535" in
  do! require (match pp_Type req with Some t => one_of t proxyTypes | None => true end) 400 badType in
  let! p := exec (fail 0%nat) (update_proxy now id req) (fun e =>
    match e with
    | ErrUnique _ => (409, "proxy server with this name already exists")
    | ErrNoRows => (404, "proxy server not found")
    | _ => (500, "failed to update proxy server")
    end) in
  respondJSON 200 (RbProxy (hidePassword (scanProxy p))).

Definition deleteProxyServer (rawId : string) : H rstore E (Z * smartBody) :=
  let! id := the (uuid_Parse rawId) 400 "invalid UUID" in
  do! exec (fail 0%nat) (affected (delete_proxy id)) (fun e =>
    match e with
    | ErrForeignKey | ErrForeignKeyOn _ => (409, "proxy server is referenced by route entries")
    | ErrNoRows => (404, "proxy server not found")
    | _ => (500, "failed to delete proxy server")
    end) in
  respondJSON 204 RbNone.

(** [network_smart_routes JOIN networks]; the address is scanned into a string. *)
Definition linkRows (id : string) (s : rstore) : list (option networkSmartRoute) :=
  rows 104 (l ← slinks s; n ← networks (rbase s);
    if String.eqb l.2 id && String.eqb (n_id n) l.1
    then [(fun a => {| ns_NetworkID := l.1; ns_SmartRouteID := l.2; ns_NetworkName := n_name n; ns_NetworkAddress := a |})
            <$> cidr_Scan (n_address n)]
    else []).

Definition listRouteNetworks (rawId : string) : H rstore E (Z * smartBody) :=
  let! id := the (uuid_Parse rawId) 400 "invalid UUID" in
  let! rs := query (fail 0%nat) (linkRows id) 500 "failed to list route networks" in
  let! l := the (if fail 1%nat then match rs with [] => Some [] | _ => None end else mapM (fun x => x) rs)
    500 "failed to scan network association" in
  do! require (negb (fail 2%nat)) 500 "failed to iterate network associations" in
  respondJSON 200 (RbNetworks l).

Definition linkError (e : sql_error) : refusal :=
  match e with
  | ErrUnique _ => (409, "network is already associated with this route")
  | ErrForeignKeyOn c =>
      (400, if strings_Contains c "network" then "network not found"
            else if strings_Contains c "smart_route" then "smart route not found" else "referenced resource not found")
  | _ => (500, "failed to associate network")
  end.

Definition addRouteNetwork (rawId : string) (body : option string) : H rstore E (Z * smartBody) :=
  let! id := the (uuid_Parse rawId) 400 "invalid UUID" in
  let! network := the body 400 "invalid JSON" in
  do! require (negb (String.eqb network "")) 400 "network_id is required" in
  let! _ := the (uuid_Parse network) 400 "invalid network_id: not a valid UUID" in
  do! exec (fail 0%nat) (insert_link network id) linkError in
  do! notifyRoute id in
  respondJSON 201 RbAssociated.

Definition removeRouteNetwork (rawId rawNetwork : string) : H rstore E (Z * smartBody) :=
  let! id := the (uuid_Parse rawId) 400 "invalid UUID" in
  let! network := the (uuid_Parse rawNetwork) 400 "invalid UUID" in
  do! deleting (fail 0%nat) (delete_link network id) "failed to remove network association" "association not found" in
  do! notifyRoute id in
  respondJSON 204 RbNone.
End handlers.

(** [Routes]. *)
Inductive request :=
| ListRoutes
| CreateRoute (newID : string) (now : Z) (body : option (string * option string))
| GetRoute (id : string)
| UpdateRoute (now : Z) (id : string) (body : option updateRouteRequest)
| DeleteRoute (id : string)
| AddEntry (newID : string) (now : Z) (id : string) (body : option entryRequest)
| DeleteEntry (id entry : string)
| ListProxies
| CreateProxy (newID : string) (now : Z) (body : option proxyRequest)
| GetProxy (id : string)
| UpdateProxy (now : Z) (id : string) (body : option proxyPatch)
| DeleteProxy (id : string)
| ListNetworks (id : string)
| AddNetwork (id : string) (body : option string)
| RemoveNetwork (id network : string).

Definition admin_only (r : request) : bool :=
  match r with ListRoutes | GetRoute _ | ListProxies | GetProxy _ | ListNetworks _ => false | _ => true end.

Definition serve `{SqlOrder} `{DeviceEnv} `{PgJson} `{SmartPg} {E} (notifier : option (db -> string -> list E))
    (fail : nat -> bool) (r : request) : H rstore E (Z * smartBody) :=
  match r with
  | ListRoutes => listRoutes fail
  | CreateRoute newID now body => createRoute fail newID now body
  | GetRoute id => getRoute fail id
  | UpdateRoute now id body => updateRoute notifier fail now id body
  | DeleteRoute id => deleteRoute notifier fail id
  | AddEntry newID now id body => addEntry notifier fail newID now id body
  | DeleteEntry id entry => deleteEntry notifier fail id entry
  | ListProxies => listProxyServers fail
  | CreateProxy newID now body => createProxyServer fail newID now body
  | GetProxy id => getProxyServer fail id
  | UpdateProxy now id body => updateProxyServer fail now id body
  | DeleteProxy id => deleteProxyServer fail id
  | ListNetworks id => listRouteNetworks fail id
  | AddNetwork id body => addRouteNetwork notifier fail id body
  | RemoveNetwork id network => removeRouteNetwork notifier fail id network
  end.

(** ** The invariant of the tables *)

(** What an entry may say. *)
Definition value_ok (type value : string) : Prop :=
  (type = "cidr" /\ is_Some (ParseCIDR value)) \/ (type = "domain" /\ hostname_ok value) \/
  (type = "domain_suffix" /\ exists rest, value = "." ++ rest /\ hostname_ok rest).

Definition entry_valid (e : entry_row) : Prop :=
  value_ok (en_type e) (en_value e) /\ en_action e ∈ ["proxy"; "direct"; "block"] /\ 0 <= en_priority e < 2^31.

Definition proxy_valid (p : proxy_row) : Prop := px_type p ∈ proxyTypes /\ 1 <= px_port p <= 65535.

Record smart_wf (s : rstore) : Prop := {
  wf_route_ids : NoDup (map sm_id (sroutes s));
  wf_route_names : NoDup (map sm_name (sroutes s));
  wf_proxy_ids : NoDup (map px_id (sproxies s));
  wf_proxy_names : NoDup (map px_name (sproxies s));
  wf_entry_ids : NoDup (map en_id (sentries s));
  wf_entry_keys : NoDup (map entry_key (sentries s));
  wf_entries : Forall entry_valid (sentries s);
  wf_proxies : Forall proxy_valid (sproxies s);
  wf_entry_route : fk (map en_route_id (sentries s)) (map sm_id (sroutes s));
  wf_entry_proxy : fk (omap en_proxy_id (sentries s)) (map px_id (sproxies s));
  wf_links : NoDup (slinks s);
  wf_link_net : fk (map fst (slinks s)) (map n_id (networks (rbase s)));
  wf_link_route : fk (map snd (slinks s)) (map sm_id (sroutes s));
}.

Ltac keep_smart Hi := destruct Hi; split; cbn; try done; eauto with integrity.

Lemma one_of_elem x l : one_of x l = true <-> x ∈ l.
Proof.
  unfold one_of. rewrite existsb_exists. setoid_rewrite String.eqb_eq. setoid_rewrite <- list_elem_of_In.
  split; [by intros (y & Hy & ->)|eauto].
Qed.

Section preservation.
Context `{DeviceEnv} `{PgJson}.

Lemma insert_sroute_wf newID now name desc : stmt_preserves smart_wf (insert_sroute newID now name desc).
Proof. intros s r s' Hi. unfold insert_sroute. repeat case_match; intros; simplify_eq; lookups. keep_smart Hi. Qed.

Lemma update_sroute_wf now id q : stmt_preserves smart_wf (update_sroute now id q).
Proof.
  intros s r s' Hi. unfold update_sroute. repeat case_match; intros; simplify_eq. keep_smart Hi.
  apply unique_upd_plain; [done..|]. intros x Hx Hk. by rewrite (byKey_row sm_id (sroutes s) id s0 x).
Qed.

Lemma delete_sroute_wf id : stmt_preserves smart_wf (delete_sroute id).
Proof. intros s n s' Hi. unfold delete_sroute. intros; simplify_eq. unfold without. keep_smart Hi. Qed.

Lemma insert_entry_wf newID now route type value action proxy prio :
  value_ok type value -> action ∈ ["proxy"; "direct"; "block"] -> 0 <= prio ->
  stmt_preserves smart_wf (insert_entry newID now route type value action proxy prio).
Proof.
  intros Hv Ha Hp s e s' Hi. unfold insert_entry.
  destruct (match proxy with None => Some None | Some p => option_map Some (pg_uuid p) end) as [px|]; [|done].
  destruct (int32_ok prio) eqn:Hfit; cbn [negb]; [|done]. destruct (has en_id _ _) eqn:?; [done|]. case_bool_decide; [done|].
  destruct (has sm_id _ _) eqn:?; cbn [negb]; [|done].
  destruct (match px with Some p => has px_id (sproxies s) p | None => true end) eqn:Hpx; [|done].
  intros [= <- <-]. lookups. unfold int32_ok in Hfit. boolify. keep_smart Hi.
  - apply Forall_snoc_row; [done|]. split; [done|]. split; [done|]. cbn. lia.
  - intros x. rewrite omap_app. intros [Hx|Hx]%elem_of_app; [by apply wf_entry_proxy0|]. cbn in Hx.
    destruct px as [p|]; [|by apply elem_of_nil in Hx]. apply list_elem_of_singleton in Hx as ->. by apply has_true.
Qed.

Lemma delete_entry_wf id route : stmt_preserves smart_wf (delete_entry id route).
Proof. intros s n s' Hi. unfold delete_entry. intros; simplify_eq. keep_smart Hi. Qed.

Lemma insert_proxy_wf newID now q :
  pq_Type q ∈ proxyTypes -> 1 <= pq_Port q <= 65535 -> stmt_preserves smart_wf (insert_proxy newID now q).
Proof.
  intros Ht Hp s p s' Hi. unfold insert_proxy. repeat case_match; intros; simplify_eq; lookups. keep_smart Hi.
  apply Forall_snoc_row; [done|]. split; done.
Qed.

Lemma update_proxy_wf now id q :
  (forall t, pp_Type q = Some t -> t ∈ proxyTypes) -> (forall p, pp_Port q = Some p -> 1 <= p <= 65535) ->
  stmt_preserves smart_wf (update_proxy now id q).
Proof.
  intros Ht Hp s p s' Hi. unfold update_proxy. repeat case_match; intros; simplify_eq. keep_smart Hi.
  - apply unique_upd_plain; [done..|]. intros x Hx Hk. by rewrite (byKey_row px_id (sproxies s) id p0 x).
  - apply Forall_upd; [done|]. intros x [Htx Hpx]. split; cbn.
    + destruct (pp_Type q) eqn:E; [by apply Ht|done].
    + destruct (pp_Port q) eqn:E; [by apply Hp|done].
Qed.

Lemma delete_proxy_wf id : stmt_preserves smart_wf (delete_proxy id).
Proof.
  intros s n s' Hi. unfold delete_proxy. intros; simplify_eq.
  assert (forall B (col : entry_row -> B), (forall e, col (unlink_proxy id e) = col e) ->
    map col (map (unlink_proxy id) (sentries s)) = map col (sentries s)) as Hcol.
  { intros B col Hc. rewrite map_map. by apply map_ext. }
  unfold without. keep_smart Hi; try (by rewrite Hcol).
  - apply Forall_map. eapply Forall_impl; [done|]. by intros e.
  - eapply fk_avoid; [done|]. intros x (e & He & Hx)%list_elem_of_omap. apply list_elem_of_fmap in He as (e' & -> & He').
    cbn in Hx. case_bool_decide; [done|]. split; [|congruence]. apply list_elem_of_omap. eauto.
Qed.

Lemma insert_link_wf network route : stmt_preserves smart_wf (insert_link network route).
Proof.
  intros s u s' Hi. unfold insert_link. destruct (pg_uuid network) as [nid|]; [|done]. case_bool_decide; [done|].
  destruct (has n_id _ _) eqn:?; cbn [negb]; [|done]. destruct (has sm_id _ _) eqn:?; [|done]. intros [= <- <-]. lookups. keep_smart Hi.
Qed.

Lemma delete_link_wf network route : stmt_preserves smart_wf (delete_link network route).
Proof. intros s n s' Hi. unfold delete_link. intros; simplify_eq. keep_smart Hi. Qed.
End preservation.

#[export] Hint Resolve insert_sroute_wf update_sroute_wf delete_sroute_wf delete_entry_wf delete_proxy_wf insert_link_wf
  delete_link_wf : integrity.

Section facts.
Context `{SqlOrder} `{DeviceEnv} `{PgJson} `{SmartPg} {E : Type} (notifier : option (db -> string -> list E)).

Lemma checkValue_ok type value (k : unit -> H rstore E (Z * smartBody)) :
  one_of type ["domain"; "cidr"; "domain_suffix"] = true ->
  (value_ok type value -> preserves smart_wf (k tt)) -> preserves smart_wf (bind (checkValue type value) k).
Proof.
  rewrite one_of_elem, !elem_of_cons, elem_of_nil. intros Ht Hk. unfold checkValue, value_ok in *.
  destruct Ht as [->|[->|[->|[]]]]; cbn [String.eqb Ascii.eqb eqb].
  - apply preserves_require_bind. rewrite hostname_matches. auto.
  - apply preserves_require_bind. rewrite bool_decide_eq_true. auto.
  - intros s Hs. apply wp_bind, wp_bind, wp_the. destruct (dot_tail value) as [rest|] eqn:Hr; [|done].
    apply wp_require. destruct (matches _ rest) eqn:Hm; [|done]. cbn [app].
    apply cut_prefix_Some in Hr. apply hostname_matches in Hm. apply Hk; [|done]. right. right. eauto.
Qed.

Lemma addEntry_wf fail newID now id body : preserves smart_wf (addEntry notifier fail newID now id body).
Proof.
  unfold addEntry. apply preserves_the_bind. intros rid _. apply preserves_the_bind. intros req _.
  apply preserves_require_bind. intros _. apply preserves_require_bind. intros Ht.
  apply preserves_require_bind. intros Ha. apply preserves_require_bind. intros _.
  apply checkValue_ok; [done|]. intros Hv. apply preserves_require_bind. intros Hp. unfold notifyRoute. invariant_steps.
  all: apply insert_entry_wf; [done|by apply one_of_elem|]; cbn; boolify; lia.
Qed.

Lemma port_ok_iff p : port_ok p = true <-> 1 <= p <= 65535.
Proof. unfold port_ok. rewrite negb_true_iff, orb_false_iff, !Z.ltb_ge. lia. Qed.

(** Smart routes stay meaningful: whatever is asked of the endpoints, each
    stored entry has one of the three types with a value of that type, one of
    the three actions and a priority that is not negative; a route has an entry
    once; each proxy server has a known type and a valid port; and entries and
    networks refer to routes, proxies and networks that exist. *)
Theorem smart_stays_wf fail r s : smart_wf s -> smart_wf (run (serve notifier fail r) s).1.2.
Proof.
  intros Hs. apply (preserves_run smart_wf); [|done]. destruct r; cbn [serve]; try apply addEntry_wf;
    unfold listRoutes, createRoute, getRoute, updateRoute, deleteRoute, deleteEntry, listProxyServers, createProxyServer,
      getProxyServer, updateProxyServer, deleteProxyServer, listRouteNetworks, addRouteNetwork, removeRouteNetwork, notifyRoute;
    invariant_steps; auto with integrity.
  all: first [ by apply affected_preserves, delete_proxy_wf
             | apply insert_proxy_wf; [by apply one_of_elem|by apply port_ok_iff]
             | apply update_proxy_wf; intros; simplify_eq; first [by apply one_of_elem|by apply port_ok_iff] ].
Qed.

(** *** Passwords *)

(** The proxy servers a reply carries. *)
Definition reply_proxies (b : smartBody) : list proxyServer :=
  match b with RbProxies l => l | RbProxy p => [p] | _ => [] end.

Definition no_password (b : smartBody) : Prop := Forall (fun p => ps_Password p = None) (reply_proxies b).

(** The password of a proxy server is never handed out: no reply of these
    endpoints carries one, whether the server was just stored, is listed or was
    changed. *)
Theorem passwords_hidden fail r s st b s' es :
  run (serve notifier fail r) s = (Reply st b, s', es) -> no_password b.
Proof.
  apply run_replies. destruct r; cbn [serve];
    unfold listRoutes, createRoute, getRoute, updateRoute, deleteRoute, addEntry, deleteEntry, listProxyServers,
      createProxyServer, getProxyServer, updateProxyServer, deleteProxyServer, listRouteNetworks, addRouteNetwork,
      removeRouteNetwork;
    repeat first [ apply replies_json; by repeat constructor | apply replies_fetch; intros ? | apply replies_bind; intros ? ].
  apply replies_json. unfold no_password. cbn. apply Forall_map, Forall_forall. by intros.
Qed.
End facts.

(** ** The gateways hear of a change *)

Section push.
Context `{GoRange} `{SqlOrder} `{DeviceEnv} `{PgJson} `{SmartPg} (h : StreamHub).

Definition hub_notifier : option (db -> string -> list effect) :=
  Some (fun d id => NotifySmartRouteUpdate false (fun _ => false) d h id).

(** A gateway serves a network that uses the route. *)
Definition served_route (d : db) (route gw : string) : Prop :=
  exists n, (n, route) ∈ network_smart_routes d /\ (gw, n) ∈ gateway_networks d.

Definition route_told (d : db) (route : string) (es : list effect) : Prop :=
  forall gw st, served_route d route gw -> streams h !! gw = Some st ->
    Send st (EvSmartRouteUpdate (fetchSmartRoutesForGateway false d gw)) ∈ es.

Lemma notify_tells d route : route_told d route (NotifySmartRouteUpdate false (fun _ => false) d h route).
Proof.
  intros gw st (n & Hl & Hg) Hst. unfold NotifySmartRouteUpdate. apply list_elem_of_In, in_flat_map. exists gw. split.
  - apply list_elem_of_In, elem_of_rows. apply (gatewaysOfNetworks_served d _ n (gw, n)); [|done|done].
    apply list_elem_of_fmap. exists (n, route). split; [done|]. apply list_elem_of_In, filter_In.
    split; [by apply list_elem_of_In|]. apply String.eqb_refl.
  - apply list_elem_of_In. unfold SendSmartRouteUpdate, SendTo. rewrite Hst. apply elem_of_app. left. by left.
Qed.

(** Whatever follows the notification only reads. *)
Lemma notifyRoute_tells {B} id (k : unit -> H rstore effect B) s :
  pure (k tt) ->
  wp (bind (notifyRoute hub_notifier id) k) (fun _ s' es => route_told (dbOf s') id es) (fun _ _ _ => True) s.
Proof.
  intros Hk. apply wp_bind, wp_emit. eapply wp_mono; [| |apply Hk]; [|done].
  intros a s' es [-> ->]. rewrite app_nil_r. apply notify_tells.
Qed.

Lemma checkValue_pure type value : pure (checkValue (E := effect) type value).
Proof. unfold checkValue. repeat case_match; repeat first [ pure_step | apply pure_bind; [|intros ?] ]. Qed.

(** The route a request is about. *)
Definition changed_route (r : request) : option string :=
  match r with
  | UpdateRoute _ id _ | AddEntry _ _ id _ | DeleteEntry id _ | AddNetwork id _ => uuid_Parse id
  | _ => None
  end.

(** A change of a smart route is pushed at once: after an accepted update of
    a route, a new or removed entry, or a new network, every connected gateway
    that serves a network of the route has been sent the rules that follow from
    the new tables. *)
Theorem smart_change_reaches fail r id s st b s' es :
  changed_route r = Some id ->
  run (serve hub_notifier fail r) s = (Reply st b, s', es) -> route_told (dbOf s') id es.
Proof.
  intros Hid Hrun. refine (run_Reply _ _ _ _ _ _ (fun _ s' es => route_told (dbOf s') id es) Hrun _). clear Hrun.
  destruct r; try done; cbn in Hid; cbn [serve]; unfold updateRoute, addEntry, deleteEntry, addRouteNetwork, deleting;
    rewrite Hid; apply wp_bind, wp_the; cbn beta iota;
    repeat first
      [ apply notifyRoute_tells; solve [repeat first [ pure_step | apply pure_bind; [|intros ?] ]]
      | apply wp_bind, wp_the; case_match; [|done]
      | apply wp_bind, wp_require; case_match; [|done]
      | apply wp_bind, wp_exec; destruct (if fail 0%nat then _ else _) as [[? ?]|]; [cbn [app]|done]
      | apply wp_pure; [apply checkValue_pure|intros ?] ].
Qed.
End push.

(** ** A deployment to run the endpoints on *)

Definition toy_pg : SmartPg := {| jsonb_text := fun _ => "{}"; cidr_Scan := fun _ => Some "10.10.0.0/24" |}.

Definition demo_proxy : proxy_row := {|
  px_id := "p1"; px_name := "exit"; px_type := "socks5"; px_address := "203.0.113.5"; px_port := 1080;
  px_username := Some "u"; px_password := Some "secret"; px_extra := None; px_is_active := true; px_created_at := 1;
  px_updated_at := 1 |}.

Definition mkEntry (id type value action : string) (proxy : option string) (prio : Z) : entry_row := {|
  en_id := id; en_route_id := "s1"; en_type := type; en_value := value; en_action := action; en_proxy_id := proxy;
  en_priority := prio; en_created_at := 1 |}.

Definition demo_store : rstore := {|
  rbase := demo_db;
  sroutes := [{| sm_id := "s1"; sm_name := "media"; sm_description := None; sm_is_active := true; sm_created_at := 1;
                 sm_updated_at := 1 |}];
  sentries := [mkEntry "e1" "cidr" "10.20.0.0/16" "direct" None 10;
               mkEntry "e2" "domain_suffix" ".example.com" "proxy" (Some "p1") 20];
  sproxies := [demo_proxy];
  slinks := [("n1", "s1")] |}.

Definition demo_serve (r : request) : H rstore effect (Z * smartBody) :=
  @serve sql_default toy_device_env toy_json toy_pg effect (@hub_notifier sql_default (hub1 false)) noFail r.

Definition block_ads : request := AddEntry "e3" 5 "s1" (Some {|
  eq_EntryType := "domain"; eq_Value := "ads.example.com"; eq_Action := "block"; eq_ProxyID := None; eq_Priority := None |}).

Example hostnames_accepted :
  map (matches validHostnameRe) ["a"; "a-b.example.com"; "-a.com"; "a..b"; "a."; ""; "x_y"] =
  [true; true; false; false; false; false; false].
Proof. vm_compute. reflexivity. Qed.

Lemma smart_demo_wf : smart_wf demo_store.
Proof.
  split; try (apply (bool_decide_unpack _); vm_compute; exact I); try (by intros x Hx; vm_compute in Hx |- *; set_solver).
  repeat (apply Forall_cons; split); [| |by apply Forall_nil]; (split; [|split; [cbn; set_solver|by cbn]]).
  - left. split; [done|]. vm_compute. eauto.
  - right. right. split; [done|]. exists "example.com". split; [done|]. apply hostname_matches. by vm_compute.
Qed.

Lemma smart_stays_wf_witness :
  length (sentries (run (demo_serve block_ads) demo_store).1.2) = 3%nat /\
  smart_wf (run (demo_serve block_ads) demo_store).1.2.
Proof.
  split; [by vm_compute|].
  apply (@smart_stays_wf sql_default toy_device_env toy_json toy_pg effect (@hub_notifier sql_default (hub1 false)) noFail
    block_ads demo_store smart_demo_wf).
Defined.

Lemma passwords_hidden_witness :
  px_password demo_proxy = Some "secret" /\
  (run (demo_serve ListProxies) demo_store).1.1 = Reply 200 (RbProxies [hidePassword (@scanProxy toy_pg demo_proxy)]) /\
  no_password (RbProxies [hidePassword (@scanProxy toy_pg demo_proxy)]).
Proof.
  split; [done|]. split; [by vm_compute|].
  eapply (@passwords_hidden sql_default toy_device_env toy_json toy_pg effect (@hub_notifier sql_default (hub1 false)) noFail
    ListProxies demo_store 200). vm_compute. reflexivity.
Defined.

Definition with_ads : db := dbOf (run (demo_serve block_ads) demo_store).1.2.

Lemma smart_change_reaches_witness :
  map Value <$> @fetchSmartRoutesForGateway sql_default false with_ads "g1" =
    Some ["10.20.0.0/16"; ".example.com"; "ads.example.com"] /\
  Send 1%nat (EvSmartRouteUpdate (@fetchSmartRoutesForGateway sql_default false with_ads "g1")) ∈
    (run (demo_serve block_ads) demo_store).2.
Proof.
  split; [by vm_compute|]. unfold with_ads.
  destruct (run (demo_serve block_ads) demo_store) as [[o s'] es] eqn:E.
  assert (exists st b, o = Reply st b) as (st & b & ->).
  { exists 201. eexists. apply (f_equal (fun x => x.1.1)) in E. cbn [fst] in E. rewrite <- E. vm_compute. reflexivity. }
  refine (@smart_change_reaches sql_default toy_device_env toy_json toy_pg (hub1 false) noFail block_ads "s1" demo_store
    st b s' es eq_refl E "g1" 1%nat _ eq_refl).
  apply (f_equal (fun x => x.1.2)) in E. cbn [fst snd] in E. subst s'. exists "n1". split; vm_compute; set_solver.
Defined.

(** ** Where the code falls short *)

(** Deleting a route removes its networks first: the gateways that apply it are
    not told, and keep its rules. *)
Theorem deletion_not_pushed :
  let out := run (demo_serve (DeleteRoute "s1")) demo_store in
  served_route (dbOf demo_store) "s1" "g1" /\ out.1.1 = Reply 204 RbNone /\ out.2 = [].
Proof. split; [exists "n1"; split; vm_compute; set_solver|]. split; by vm_compute. Qed.

(** The same when a route's only network is removed. *)
Theorem unlinking_not_pushed :
  let out := run (demo_serve (RemoveNetwork "s1" "n1")) demo_store in
  out.1.1 = Reply 204 RbNone /\ out.2 = [].
Proof. split; by vm_compute. Qed.

(** A deleted proxy server leaves its entries behind: they still say [proxy],
    and name none; the answer meant for a server in use is never given. *)
Theorem proxy_in_use_deleted :
  let out := run (demo_serve (DeleteProxy "p1")) demo_store in
  out.1.1 = Reply 204 RbNone /\
  map (fun e => (en_action e, en_proxy_id e)) (sentries out.1.2) = [("direct", None); ("proxy", None)].
Proof. split; by vm_compute. Qed.

(** Both constraint names contain [network]: a route that does not exist is
    reported as a missing network. *)
Theorem missing_route_misreported :
  (run (demo_serve (AddNetwork "s9" (Some "n1"))) demo_store).1.1 = Failure 400 "network not found".
Proof. by vm_compute. Qed.
