(* ===== verification/RateLimit.v ===== *)
(** * The rate limiter of the login endpoints

    [ipRateLimiter] of [internal/core/server.go]: in memory a sliding window per
    client address, with Redis a counter per address that expires, and the
    middleware that asks one of them.  Times are nanoseconds; the code reads
    the clock while it holds the mutex, so the times of the operations never
    decrease.  The lists of attempts are filtered in place, but each belongs to
    one map entry that is written back under the same mutex. *)

From S2P Require Import Prelude Net.
From Stdlib Require Import ZArith Lia Ascii String.
From stdpp Require Import base gmap strings list sorting.

Local Open Scope Z_scope.
Local Open Scope outpost_scope.

(** ** In memory *)

Record ipRateLimiter := { attempts : gmap string (list Z); limit : Z; window : Z }.

Definition newIPRateLimiter (limit window : Z) : ipRateLimiter := {|
  attempts := ∅; limit := limit; window := window |}.

Definition set_attempts (rl : ipRateLimiter) m : ipRateLimiter := {|
  attempts := m; limit := limit rl; window := window rl |}.

(** The attempts after [cutoff]. *)
Definition recent (cutoff : Z) (l : list Z) : list Z := List.filter (fun t => cutoff <? t) l.
Arguments recent : simpl never.

(** One tick of the cleanup goroutine. *)
Definition cleanup (now : Z) (rl : ipRateLimiter) : ipRateLimiter :=
  set_attempts rl (omap (fun l => match recent (now - window rl) l with [] => None | valid => Some valid end) (attempts rl)).

Definition allow (ip : string) (now : Z) (rl : ipRateLimiter) : bool * ipRateLimiter :=
  let cutoff := now - window rl in
  let old := default [] (attempts rl !! ip) in
  let valid := recent cutoff old in
  let m := if ((length valid =? 0) && (0 <? length old))%nat then delete ip (attempts rl) else attempts rl in
  if limit rl <=? Z.of_nat (length valid) then (false, set_attempts rl (<[ip := valid]> m))
  else (true, set_attempts rl (<[ip := (valid ++ [now])%list]> m)).

(** The operations on a limiter in the order in which they take the mutex, each
    with the time it reads; the answers to the requests. *)
Inductive op := Request (ip : string) | Tick.

Fixpoint answers (ops : list (Z * op)) (rl : ipRateLimiter) : list bool :=
  match ops with
  | [] => []
  | (now, Request ip) :: ops => let '(ok, rl) := allow ip now rl in ok :: answers ops rl
  | (now, Tick) :: ops => answers ops (cleanup now rl)
  end.

(** ** What it promises

    The reference limiter keeps every request it ever let through. *)
Definition ideal (limit window : Z) (log : list (string * Z)) (ip : string) (now : Z) : bool :=
  Z.of_nat (length (List.filter (fun x => String.eqb x.1 ip && (now - window <? x.2)) log)) <? limit.

Fixpoint ideal_answers (limit window : Z) (ops : list (Z * op)) (log : list (string * Z)) : list bool :=
  match ops with
  | [] => []
  | (now, Request ip) :: ops =>
      let ok := ideal limit window log ip now in
      ok :: ideal_answers limit window ops (if ok then log ++ [(ip, now)] else log)%list
  | (_, Tick) :: ops => ideal_answers limit window ops log
  end.

(** The times do not decrease from [now] on. *)
Fixpoint ordered (now : Z) (ops : list (Z * op)) : Prop :=
  match ops with [] => True | (t, _) :: ops => now <= t /\ ordered t ops end.

(** The times a log has for an address. *)
Definition times (log : list (string * Z)) (ip : string) : list Z :=
  map snd (List.filter (fun x => String.eqb x.1 ip) log).

Lemma times_snoc log ip ip' t :
  times (log ++ [(ip, t)])%list ip' = if String.eqb ip ip' then (times log ip' ++ [t])%list else times log ip'.
Proof.
  unfold times. rewrite List.filter_app, map_app. cbn. destruct (String.eqb ip ip'); [done|]. by rewrite app_nil_r.
Qed.

Lemma recent_app c l1 l2 : recent c (l1 ++ l2)%list = (recent c l1 ++ recent c l2)%list.
Proof. apply List.filter_app. Qed.

Lemma recent_later c c' l : c <= c' -> recent c' (recent c l) = recent c' l.
Proof.
  intros Hc. unfold recent. induction l as [|t l IH]; [done|]. cbn. destruct (Z.ltb_spec c t); cbn; rewrite IH; [done|].
  by destruct (Z.ltb_spec c' t); [lia|].
Qed.

Lemma ideal_times limit window log ip now :
  ideal limit window log ip now = (Z.of_nat (length (recent (now - window) (times log ip))) <? limit).
Proof.
  unfold ideal, recent, times. f_equal. f_equal. induction log as [|[a t] log IH]; [done|]. cbn.
  destruct (String.eqb a ip); cbn; [|done]. destruct (now - window <? t); cbn; congruence.
Qed.

(** The simulation: both know the same attempts in any window that ends now or
    later. *)
Definition sim (now : Z) (rl : ipRateLimiter) (log : list (string * Z)) : Prop :=
  forall ip c, now - window rl <= c -> recent c (default [] (attempts rl !! ip)) = recent c (times log ip).

Lemma sim_later now now' rl log : now <= now' -> sim now rl log -> sim now' rl log.
Proof. intros Hle Hs ip c Hc. apply Hs. lia. Qed.

Lemma sim_cleanup now rl log : sim now rl log -> sim now (cleanup now rl) log.
Proof.
  intros Hs ip c Hc. change (window (cleanup now rl)) with (window rl) in Hc. rewrite <- (Hs ip c Hc). cbn. rewrite lookup_omap.
  destruct (attempts rl !! ip) as [l|]; [|done].
  cbn. rewrite <- (recent_later _ c l Hc). by destruct (recent (now - window rl) l).
Qed.

Lemma allow_sim now ip rl log : sim now rl log ->
  let ok := ideal (limit rl) (window rl) log ip now in
  (allow ip now rl).1 = ok /\ sim now (allow ip now rl).2 (if ok then log ++ [(ip, now)] else log)%list.
Proof.
  intros Hs. cbn zeta. rewrite ideal_times, <- (Hs ip) by lia. unfold allow.
  set (old := default [] (attempts rl !! ip)). set (valid := recent _ old).
  set (m := if ((length valid =? 0) && (0 <? length old))%nat then delete ip (attempts rl) else attempts rl).
  assert (forall ip', ip <> ip' -> m !! ip' = attempts rl !! ip') as Hm.
  { intros ip' Hne. unfold m. destruct (_ && _); [by rewrite lookup_delete_ne|done]. }
  destruct (Z.leb_spec (limit rl) (Z.of_nat (length valid))) as [Hle|Hlt];
    [rewrite (proj2 (Z.ltb_ge _ _)) by lia|rewrite (proj2 (Z.ltb_lt _ _)) by lia]; cbn [fst snd]; (split; [done|]);
    intros ip' c Hc; cbn in Hc |- *; destruct (decide (ip = ip')) as [<-|Hne].
  - rewrite lookup_insert_eq. cbn. unfold valid. rewrite recent_later by lia. by apply Hs.
  - rewrite lookup_insert_ne, Hm by done. by apply Hs.
  - rewrite lookup_insert_eq, times_snoc, String.eqb_refl. cbn. rewrite !recent_app. f_equal.
    unfold valid. rewrite recent_later by lia. by apply Hs.
  - rewrite lookup_insert_ne, Hm by done. rewrite times_snoc. destruct (String.eqb_spec ip ip'); [done|]. by apply Hs.
Qed.

Lemma allow_params ip now rl : limit (allow ip now rl).2 = limit rl /\ window (allow ip now rl).2 = window rl.
Proof. unfold allow. by destruct (_ <=? _). Qed.

Lemma answers_sim ops : forall now rl log, ordered now ops -> sim now rl log ->
  answers ops rl = ideal_answers (limit rl) (window rl) ops log.
Proof.
  induction ops as [|[t [ip|]] ops IH]; intros now rl log; cbn [ordered answers ideal_answers]; [done| |];
    intros [Hle Ho] Hs%(sim_later now t); try done.
  - destruct (allow_sim t ip rl log Hs) as [Hok Hs']. destruct (allow_params ip t rl) as [Hl Hw].
    destruct (allow ip t rl) as [ok rl']. cbn in *. subst ok. f_equal.
    rewrite (IH t rl' _ Ho Hs'). by rewrite Hl, Hw.
  - rewrite (IH t _ log Ho (sim_cleanup _ _ _ Hs)). done.
Qed.

(** C36. The limiter forgets attempts, on every request and in the background,
    but never one that matters: whatever requests arrive and whenever the
    cleanup runs, it answers as the limiter that remembers everything. *)
Theorem limiter_refines limit window now ops :
  ordered now ops ->
  answers ops (newIPRateLimiter limit window) = ideal_answers limit window ops [].
Proof.
  intros Ho. apply (answers_sim ops now (newIPRateLimiter limit window) [] Ho).
  intros ip c _. cbn. by rewrite lookup_empty.
Qed.

(** The requests that were let through. *)
Fixpoint let_through (ops : list (Z * op)) (bs : list bool) : list (string * Z) :=
  match ops, bs with
  | (now, Request ip) :: ops, b :: bs => ((if b then [(ip, now)] else []) ++ let_through ops bs)%list
  | (_, Tick) :: ops, bs => let_through ops bs
  | _, _ => []
  end.

Definition within (a w : Z) (t : Z) : bool := (a <? t) && (t <=? a + w).

(** No window of the log holds more than the limit. *)
Definition fair_log (limit window now : Z) (log : list (string * Z)) : Prop :=
  Forall (fun x => x.2 <= now) log /\
  forall ip a, Z.of_nat (length (List.filter (within a window) (times log ip))) <= limit.

Lemma filter_length_le {A} (f g : A -> bool) l :
  (forall x, x ∈ l -> f x = true -> g x = true) -> (length (List.filter f l) <= length (List.filter g l))%nat.
Proof.
  induction l as [|x l IH]; intros Hfg; [done|]. cbn.
  assert (length (List.filter f l) <= length (List.filter g l))%nat as Hle.
  { apply IH. intros y Hy. apply Hfg. by right. }
  destruct (f x) eqn:Hf; [rewrite (Hfg x); [cbn; lia|by left|done]|]. destruct (g x); cbn; lia.
Qed.

Lemma fair_later limit window now now' log : now <= now' -> fair_log limit window now log -> fair_log limit window now' log.
Proof. intros Hle [Ht Hw]. split; [|done]. eapply Forall_impl; [done|]. cbn. lia. Qed.

Lemma fair_snoc limit window now log ip :
  ideal limit window log ip now = true -> fair_log limit window now log ->
  fair_log limit window now (log ++ [(ip, now)])%list.
Proof.
  rewrite ideal_times, Z.ltb_lt. intros Hi [Ht Hw]. split; [apply Forall_app; split; [done|by repeat constructor]|].
  intros ip' a. rewrite times_snoc. destruct (String.eqb_spec ip ip') as [<-|]; [|done].
  rewrite List.filter_app, length_app. cbn. destruct (within a window now) eqn:Hin; cbn; [|specialize (Hw ip a); lia].
  unfold within in Hin. boolify.
  assert (length (List.filter (within a window) (times log ip)) <= length (recent (now - window) (times log ip)))%nat; [|lia].
  apply filter_length_le. intros t _. unfold within. rewrite andb_true_iff, !Z.ltb_lt. lia.
Qed.

Lemma fair_run limit window ops : forall now log, ordered now ops -> fair_log limit window now log ->
  exists now', fair_log limit window now' (log ++ let_through ops (ideal_answers limit window ops log))%list.
Proof.
  induction ops as [|[t [ip|]] ops IH]; intros now log; cbn [ordered ideal_answers let_through].
  - intros _ Hf. exists now. by rewrite app_nil_r.
  - intros [Hle Ho] Hf%(fair_later _ _ now t); [|done]. destruct (ideal limit window log ip t) eqn:Hi.
    + rewrite (assoc_L (++)%list). apply (IH t); [done|]. by apply fair_snoc.
    + by apply (IH t).
  - intros [Hle Ho] Hf%(fair_later _ _ now t); [|done]. by apply (IH t).
Qed.

(** C37. The in-memory limit holds over every window, not only over those that
    start at some request: when requests and cleanups take the mutex in the order
    of time, then of the requests from one address after any moment and up to
    [window] later at most [limit] (not negative) are let through. *)
Theorem window_bound limit window now ops ip a :
  0 <= limit -> ordered now ops ->
  Z.of_nat (length (List.filter (within a window)
    (times (let_through ops (answers ops (newIPRateLimiter limit window))) ip))) <= limit.
Proof.
  intros Hl Ho. rewrite (answers_sim ops now _ []) by (done || by intros ? ? _; cbn; rewrite lookup_empty).
  destruct (fair_run limit window ops now []) as (now' & _ & Hw); [done|by split|]. apply Hw.
Qed.

(** Nothing is kept for long: after a tick every entry has an attempt of the last
    window, and never more than the limit. *)
Definition bounded (rl : ipRateLimiter) : Prop :=
  map_Forall (fun _ l => Z.of_nat (length l) <= Z.max 0 (limit rl)) (attempts rl).

Lemma recent_length c l : (length (recent c l) <= length l)%nat.
Proof. apply List.filter_length_le. Qed.

Lemma allow_bounded ip now rl : bounded rl -> bounded (allow ip now rl).2.
Proof.
  intros Hb. unfold allow, bounded. set (old := default [] _).
  assert (Z.of_nat (length old) <= Z.max 0 (limit rl)) as Hold.
  { unfold old. destruct (attempts rl !! ip) as [l|] eqn:E; cbn; [by apply (Hb ip)|lia]. }
  pose proof (recent_length (now - window rl) old) as Hr.
  destruct (Z.leb_spec (limit rl) (Z.of_nat (length (recent (now - window rl) old)))); cbn [snd set_attempts attempts limit];
    (apply map_Forall_insert_2; [try rewrite length_app; cbn; lia|]); destruct (_ && _); try apply map_Forall_delete; done.
Qed.

Lemma cleanup_bounded now rl : bounded rl -> bounded (cleanup now rl).
Proof.
  intros Hb ip l. cbn. rewrite lookup_omap. destruct (attempts rl !! ip) as [l0|] eqn:E; [|done]. cbn.
  pose proof (recent_length (now - window rl) l0) as Hr. apply Hb in E. destruct (recent _ l0) eqn:Er; [done|].
  intros [= <-]. cbn in *. lia.
Qed.

(** The limiter does not grow without bound: no address ever has more
    entries than the limit, and after a tick only the addresses with an attempt
    in the last window have any. *)
Theorem limiter_memory limit window ops now :
  let state := foldl (fun rl (x : Z * op) => match x.2 with Request ip => (allow ip x.1 rl).2 | Tick => cleanup x.1 rl end)
                 (newIPRateLimiter limit window) ops in
  bounded state /\
  forall ip l, attempts (cleanup now state) !! ip = Some l -> l <> [] /\ Forall (fun t => now - window < t) l.
Proof.
  set (step := fun rl (x : Z * op) => _). cbn zeta.
  assert (forall rl, bounded rl -> bounded (foldl step rl ops) /\ RateLimit.window (foldl step rl ops) = RateLimit.window rl) as Hind.
  { induction ops as [|[t [ip|]] ops IH]; intros rl Hb; [done| |]; cbn [foldl step fst snd].
    - destruct (IH _ (allow_bounded ip t rl Hb)) as [? ->]. split; [done|]. apply allow_params.
    - by destruct (IH _ (cleanup_bounded t rl Hb)) as [? ->]. }
  destruct (Hind (newIPRateLimiter limit window)) as [Hb Hw]; [apply map_Forall_empty|]. split; [done|].
  intros ip l. cbn. rewrite lookup_omap, Hw. cbn. destruct (attempts _ !! ip) as [l0|]; [|done]. cbn.
  destruct (recent (now - window) l0) as [|t l1] eqn:E; [done|]. intros [= <-]. split; [done|]. rewrite <- E.
  apply Forall_forall. intros x (Hx & Hlt)%list_elem_of_In%filter_In. by apply Z.ltb_lt.
Qed.

(** ** With Redis *)

(** What the limiter uses of Redis, and its documented behaviour: a counter and
    its deadline as seen at a moment. *)
Class RedisCounters : Type := {
  redis : Type;
  Incr : string -> Z -> redis -> Z * redis;
  Expire : string -> Z -> Z -> redis -> redis;      (* key, duration, now *)
  counter : redis -> string -> Z -> option (Z * option Z);
}.

Definition live (now : Z) (v : option (Z * option Z)) : option (Z * option Z) :=
  match v with
  | Some (n, Some e) => if now <? e then Some (n, Some e) else None
  | _ => v
  end.

Class RedisLaws `{RedisCounters} : Prop := {
  incr_counter k now r : let '(n, e) := default (0, None) (counter r k now) in
    (Incr k now r).1 = n + 1 /\ counter (Incr k now r).2 k now = Some (n + 1, e);
  incr_other k k' now t r : k <> k' -> counter (Incr k now r).2 k' t = counter r k' t;
  expire_counter k d now r n e : 0 < d -> counter r k now = Some (n, e) ->
    counter (Expire k d now r) k now = Some (n, Some (now + d));
  expire_other k k' d now t r : k <> k' -> counter (Expire k d now r) k' t = counter r k' t;
  counter_later k r now now' : now <= now' -> counter r k now' = live now' (counter r k now);
}.

Section redis.
Context `{RedisLaws}.

Definition rkey (ip : string) : string := ("ratelimit:" ++ ip)%string.

(** The faults: whether each call fails. *)
Definition allowRedis (incrFails expireFails : bool) (limit window : Z) (ip : string) (now : Z) (r : redis) : bool * redis :=
  if incrFails then (true, r)
  else
    let '(count, r) := Incr (rkey ip) now r in
    let r := if (count =? 1) && negb expireFails then Expire (rkey ip) window now r else r in
    (count <=? limit, r).

Fixpoint redis_answers (limit window : Z) (reqs : list (Z * string)) (r : redis) : list bool :=
  match reqs with
  | [] => []
  | (now, ip) :: reqs => let '(ok, r) := allowRedis false false limit window ip now r in
      ok :: redis_answers limit window reqs r
  end.

Fixpoint ordered_reqs (now : Z) (reqs : list (Z * string)) : Prop :=
  match reqs with [] => True | (t, _) :: reqs => now <= t /\ ordered_reqs t reqs end.

Lemma rkey_inj a b : rkey a = rkey b -> a = b.
Proof. apply string_app_inj_l. Qed.

Lemma allowRedis_counter limit window ip now r n e :
  counter r (rkey ip) now = Some (n, e) -> 1 <= n ->
  (allowRedis false false limit window ip now r).1 = (n + 1 <=? limit) /\
  counter (allowRedis false false limit window ip now r).2 (rkey ip) now = Some (n + 1, e).
Proof.
  intros Hc Hn. pose proof (incr_counter (rkey ip) now r) as Hi. rewrite Hc in Hi. cbn in Hi. unfold allowRedis.
  destruct (Incr (rkey ip) now r) as [c r']. cbn in Hi. destruct Hi as [-> Hi].
  rewrite (proj2 (Z.eqb_neq (n + 1) 1)) by lia. by split.
Qed.

Lemma allowRedis_first limit window ip now r :
  0 < window -> counter r (rkey ip) now = None ->
  (allowRedis false false limit window ip now r).1 = (1 <=? limit) /\
  counter (allowRedis false false limit window ip now r).2 (rkey ip) now = Some (1, Some (now + window)).
Proof.
  intros Hw Hc. pose proof (incr_counter (rkey ip) now r) as Hi. rewrite Hc in Hi. cbn in Hi. unfold allowRedis.
  destruct (Incr (rkey ip) now r) as [c r']. cbn in Hi. destruct Hi as [-> Hi]. cbn. split; [done|].
  by apply (expire_counter _ _ _ _ 1 None).
Qed.

Lemma allowRedis_other fi fe limit window ip ip' now t r :
  ip <> ip' -> counter (allowRedis fi fe limit window ip now r).2 (rkey ip') t = counter r (rkey ip') t.
Proof.
  intros Hne. assert (rkey ip <> rkey ip') as Hk by (intros ?%rkey_inj; done). unfold allowRedis. destruct fi; [done|].
  pose proof (incr_other (rkey ip) (rkey ip') now t r Hk) as Hi. destruct (Incr _ now r) as [c r']. cbn in *.
  destruct (_ && _); [rewrite expire_other by done|]; done.
Qed.

(** The answers to the requests of one address. *)
Definition answers_to (ip : string) (reqs : list (Z * string)) (bs : list bool) : list bool :=
  map snd (List.filter (fun x => String.eqb x.1.2 ip) (zip reqs bs)).

Definition requests_of (ip : string) (reqs : list (Z * string)) : nat :=
  length (List.filter (fun x => String.eqb x.2 ip) reqs).

Lemma redis_counts limit window ip e : forall reqs now r n,
  ordered_reqs now reqs -> Forall (fun x => x.1 < e) reqs -> 1 <= n -> counter r (rkey ip) now = Some (n, Some e) ->
  answers_to ip reqs (redis_answers limit window reqs r) =
    map (fun i => n + Z.of_nat i <=? limit) (seq 1 (requests_of ip reqs)).
Proof.
  induction reqs as [|[t a] reqs IH]; intros now r n; cbn [ordered_reqs redis_answers]; [done|].
  intros [Hle Ho] [Ht Hall]%Forall_cons Hn Hc. cbn in Ht.
  assert (counter r (rkey ip) t = Some (n, Some e)) as Hct.
  { rewrite (counter_later _ _ now t) by done. rewrite Hc. cbn. by rewrite (proj2 (Z.ltb_lt t e)) by lia. }
  destruct (decide (a = ip)) as [->|Hne].
  - destruct (allowRedis_counter limit window ip t r n (Some e) Hct Hn) as [Ha Hc'].
    destruct (allowRedis false false limit window ip t r) as [ok r']. cbn in Ha, Hc'. subst ok.
    pose proof (IH t r' (n + 1) Ho Hall ltac:(lia) Hc') as Hk.
    unfold answers_to, requests_of in *. cbn. rewrite String.eqb_refl. cbn. rewrite Hk. f_equal.
    rewrite <- (seq_shift _ 1), map_map. apply map_ext. intros i. f_equal. lia.
  - assert (counter (allowRedis false false limit window a t r).2 (rkey ip) t = Some (n, Some e)) as Hc'
      by by rewrite allowRedis_other.
    destruct (allowRedis false false limit window a t r) as [ok r']. cbn in Hc'.
    pose proof (IH t r' n Ho Hall Hn Hc') as Hk. unfold answers_to, requests_of in *. cbn.
    by destruct (String.eqb_spec a ip).
Qed.

(** With Redis the first [limit] requests of an address are let through and
    the others refused, until [window] after the first one: requests of other
    addresses and through other cores do not matter. *)
Theorem redis_window_exact limit window ip now reqs r :
  0 < window -> counter r (rkey ip) now = None -> ordered_reqs now reqs -> Forall (fun x => x.1 < now + window) reqs ->
  answers_to ip ((now, ip) :: reqs) (redis_answers limit window ((now, ip) :: reqs) r) =
    map (fun i => Z.of_nat i <=? limit) (seq 1 (S (requests_of ip reqs))).
Proof.
  intros Hw Hc Ho Hall. cbn [redis_answers].
  destruct (allowRedis_first limit window ip now r Hw Hc) as [Ha Hc'].
  destruct (allowRedis false false limit window ip now r) as [ok r']. cbn in Ha, Hc'. subst ok.
  pose proof (redis_counts limit window ip (now + window) reqs now r' 1 Ho Hall ltac:(lia) Hc') as Hk.
  unfold answers_to, requests_of in *. cbn. rewrite String.eqb_refl. cbn. rewrite Hk. f_equal.
  rewrite <- (seq_shift _ 1), map_map. apply map_ext. intros i. f_equal. lia.
Qed.
End redis.

(** ** The middleware *)

(** [chimiddleware.RealIP] has set the remote address before. *)
Definition clientIP (remoteAddr : string) : string :=
  match SplitHostPort remoteAddr with Some (h, _) => h | None => remoteAddr end.

(** What is answered: the refusal, or what the next handler says. *)
Definition rateLimitMiddleware {L R} (allow : string -> L -> bool * L) (remoteAddr : string) (next : R) (rl : L)
  : (Z * string + R) * L :=
  let '(ok, rl) := allow (clientIP remoteAddr) rl in
  (if ok then inr next else inl (429, "too many requests"%string), rl).

(** The limiter of the [/auth] routes. *)
Definition authRateLimiter : ipRateLimiter := newIPRateLimiter 10 60000000000.

(** ** A Redis to run it with *)

Definition toy_redis : RedisCounters := {|
  redis := gmap string (Z * option Z);
  Incr := fun k now r => let '(n, e) := default (0, None) (live now (r !! k)) in (n + 1, <[k := (n + 1, e)]> r);
  Expire := fun k d now r => match live now (r !! k) with Some (n, _) => <[k := (n, Some (now + d))]> r | None => r end;
  counter := fun r k now => live now (r !! k) |}.

Lemma live_live now now' v : now <= now' -> live now' (live now v) = live now' v.
Proof.
  intros Hle. destruct v as [[n [e|]]|]; [|done..]. cbn. destruct (Z.ltb_spec now e); [done|]. cbn.
  by destruct (Z.ltb_spec now' e); [lia|].
Qed.

Lemma live_Some now v n e m : live now v = Some (n, e) -> live now (Some (m, e)) = Some (m, e).
Proof. destruct v as [[n' [e'|]]|]; cbn; [|naive_solver..]. destruct (now <? e') eqn:E; [|done]. intros [= -> <-]. by rewrite E. Qed.

#[export] Instance toy_redis_laws : @RedisLaws toy_redis.
Proof.
  split; cbn.
  - intros k now r. destruct (live now (r !! k)) as [[n e]|] eqn:E; cbn; rewrite lookup_insert_eq; (split; [done|]).
    + by eapply live_Some.
    + done.
  - intros k k' now t r Hne. destruct (default _ _) as [n e]. cbn. by rewrite lookup_insert_ne.
  - intros k d now r n e Hd ->. rewrite lookup_insert_eq. cbn. by rewrite (proj2 (Z.ltb_lt now (now + d))) by lia.
  - intros k k' d now t r Hne. destruct (live now (r !! k)) as [[n e]|]; [|done]. by rewrite lookup_insert_ne.
  - intros k r now now' Hle. by rewrite live_live.
Qed.

(** ** Runs *)

Definition burst (t : Z) (n : nat) : list (Z * string) := replicate n (t, "198.51.100.7"%string).
Definition as_ops (reqs : list (Z * string)) : list (Z * op) := map (fun x => (x.1, Request x.2)) reqs.
Definition second : Z := 1000000000.

(** Eleven requests, then another after the window, with a tick in between. *)
Definition demo_ops : list (Z * op) :=
  (as_ops (burst 0 11) ++ [(60 * second, Tick)] ++ as_ops (burst (61 * second) 1))%list.

Lemma limiter_refines_witness :
  answers demo_ops authRateLimiter = (replicate 10 true ++ [false; true])%list /\
  answers demo_ops authRateLimiter = ideal_answers 10 (60 * second) demo_ops [].
Proof.
  split; [by vm_compute|]. apply (limiter_refines 10 (60 * second) 0 demo_ops). vm_compute. repeat (split; [discriminate|]). exact I.
Defined.

Lemma window_bound_witness :
  Z.of_nat (length (List.filter (within (-1) (60 * second))
    (times (let_through demo_ops (answers demo_ops (newIPRateLimiter 10 (60 * second)))) "198.51.100.7"))) <= 10.
Proof.
  apply (window_bound 10 (60 * second) 0 demo_ops); [lia|]. vm_compute. repeat (split; [discriminate|]). exact I.
Defined.

Lemma redis_window_exact_witness :
  @answers_to "198.51.100.7" (burst 0 12) (@redis_answers toy_redis 10 (60 * second) (burst 0 12) ∅) =
    map (fun i => Z.of_nat i <=? 10) (seq 1 12).
Proof.
  apply (@redis_window_exact toy_redis toy_redis_laws 10 (60 * second) "198.51.100.7" 0 (burst 0 11) ∅).
  - done.
  - done.
  - vm_compute. repeat (split; [discriminate|]). exact I.
  - repeat constructor.
Defined.

(** ** Where the code falls short *)

(** The counter restarts with each window: with Redis twice the limit is let
    through within two seconds, in memory half of it. *)
Theorem redis_boundary_burst :
  let reqs := ((0, "198.51.100.7"%string) :: burst (59 * second) 9 ++ burst (61 * second) 10)%list in
  forallb id (@redis_answers toy_redis 10 (60 * second) reqs ∅) = true /\
  length (List.filter id (answers (as_ops (drop 1 reqs)) authRateLimiter)) = 10%nat.
Proof. split; by vm_compute. Qed.

(** The result of [Expire] is dropped: when it fails the counter has no deadline,
    and once it passed the limit the address is refused forever. *)
Theorem redis_lockout `{RedisLaws} limit window ip now now' r n :
  now <= now' -> 1 <= n -> limit <= n -> counter r (rkey ip) now = Some (n, None) ->
  (allowRedis false false limit window ip now' r).1 = false /\
  counter (allowRedis false false limit window ip now' r).2 (rkey ip) now' = Some (n + 1, None).
Proof.
  intros Hle Hn Hl Hc. destruct (allowRedis_counter limit window ip now' r n None) as [-> ->]; [|done|].
  - rewrite (counter_later _ _ now now') by done. by rewrite Hc.
  - split; [|done]. apply Z.leb_gt. lia.
Qed.

Example failed_expire_leaves_no_deadline :
  @counter toy_redis (@allowRedis toy_redis false true 10 (60 * second) "198.51.100.7" 0 ∅).2 (rkey "198.51.100.7") 0 = Some (1, None).
Proof. by vm_compute. Qed.
