(* ===== verification/Sha256.v ===== *)
(** * SHA-256, HMAC and hexadecimal text

    What [internal/webhook] uses of [crypto/sha256], [crypto/hmac] and
    [encoding/hex].  Bytes and 32-bit words are integers. *)

From S2P Require Import Prelude.
From Stdlib Require Import ZArith Lia Ascii String.
From stdpp Require Import base strings list.

Local Open Scope Z_scope.

Definition is_byte (b : Z) : Prop := 0 <= b < 256.

(** ** Words *)

Definition w32 (z : Z) : Z := z mod 2^32.
Definition add32 (a b : Z) : Z := w32 (a + b).
Definition rotr (n w : Z) : Z := Z.lor (Z.shiftr w n) (w32 (Z.shiftl w (32 - n))).
Definition not32 (w : Z) : Z := 2^32 - 1 - w.

Definition Sigma0 (x : Z) : Z := Z.lxor (Z.lxor (rotr 2 x) (rotr 13 x)) (rotr 22 x).
Definition Sigma1 (x : Z) : Z := Z.lxor (Z.lxor (rotr 6 x) (rotr 11 x)) (rotr 25 x).
Definition sigma0 (x : Z) : Z := Z.lxor (Z.lxor (rotr 7 x) (rotr 18 x)) (Z.shiftr x 3).
Definition sigma1 (x : Z) : Z := Z.lxor (Z.lxor (rotr 17 x) (rotr 19 x)) (Z.shiftr x 10).
Definition Ch (x y z : Z) : Z := Z.lxor (Z.land x y) (Z.land (not32 x) z).
Definition Maj (x y z : Z) : Z := Z.lxor (Z.lxor (Z.land x y) (Z.land x z)) (Z.land y z).

(** *** The constants: the first 32 bits of the fractional parts of the cube roots
    of the first 64 primes, and of the square roots of the first eight. *)

Definition is_prime (p : nat) : bool := forallb (fun d => negb (p mod d =? 0)%nat) (seq 2 (p - 2)).
Definition primes : list nat := Eval vm_compute in List.filter is_prime (seq 2 310).

(** The [n]-th root of [x], bit by bit. *)
Definition iroot (n x : Z) : Z :=
  foldr (fun i r => let r' := r + 2 ^ Z.of_nat i in if r' ^ n <=? x then r' else r) 0 (seq 0 40).

Definition root_bits (n : Z) (p : nat) : Z := w32 (iroot n (Z.of_nat p * 2 ^ (32 * n))).

Definition K : list Z := Eval vm_compute in map (root_bits 3) primes.

Record digest := Digest { dA : Z; dB : Z; dC : Z; dD : Z; dE : Z; dF : Z; dG : Z; dH : Z }.

Definition init : digest := Eval vm_compute in
  match map (root_bits 2) (take 8 primes) with
  | [a; b; c; d; e; f; g; h] => Digest a b c d e f g h
  | _ => Digest 0 0 0 0 0 0 0 0
  end.

(** ** Blocks *)

(** Big-endian words. *)
Fixpoint words (l : list Z) : list Z :=
  match l with
  | a :: b :: c :: d :: l => (a * 2^24 + b * 2^16 + c * 2^8 + d) :: words l
  | _ => []
  end.

Definition be32 (w : Z) : list Z := [w / 2^24 mod 256; w / 2^16 mod 256; w / 2^8 mod 256; w mod 256].
Definition be64 (n : Z) : list Z := (be32 (n / 2^32) ++ be32 n)%list.

Definition pad (msg : list Z) : list Z :=
  let n := Z.of_nat (length msg) in
  (msg ++ 0x80 :: replicate (Z.to_nat ((55 - n) mod 64)) 0 ++ be64 (8 * n))%list.

(** The schedule holds the last sixteen words; [n] more follow. *)
Fixpoint schedule (n : nat) (last : list Z) : list Z :=
  match n, last with
  | S n, w0 :: rest =>
      let w := add32 (add32 (sigma1 (nth 13 rest 0)) (nth 8 rest 0)) (add32 (sigma0 (nth 0 rest 0)) w0) in
      w :: schedule n (rest ++ [w])%list
  | _, _ => []
  end.

Definition round (s : digest) (kw : Z * Z) : digest :=
  let '(Digest a b c d e f g h) := s in
  let t1 := add32 (add32 (add32 h (Sigma1 e)) (add32 (Ch e f g) kw.1)) kw.2 in
  let t2 := add32 (Sigma0 a) (Maj a b c) in
  Digest (add32 t1 t2) a b c (add32 d t1) e f g.

Definition block (s : digest) (b : list Z) : digest :=
  let ws := words b in
  let r := foldl round s (combine K (ws ++ schedule 48 ws)%list) in
  Digest (add32 (dA s) (dA r)) (add32 (dB s) (dB r)) (add32 (dC s) (dC r)) (add32 (dD s) (dD r))
         (add32 (dE s) (dE r)) (add32 (dF s) (dF r)) (add32 (dG s) (dG r)) (add32 (dH s) (dH r)).

(** The blocks of 64 bytes; a length of the list is fuel enough. *)
Fixpoint blocks (fuel : nat) (s : digest) (l : list Z) : digest :=
  match fuel with
  | O => s
  | S fuel => match l with [] => s | _ => blocks fuel (block s (take 64 l)) (drop 64 l) end
  end.

Definition sha256 (msg : list Z) : list Z :=
  let p := pad msg in
  let '(Digest a b c d e f g h) := blocks (length p) init p in
  (be32 a ++ be32 b ++ be32 c ++ be32 d ++ be32 e ++ be32 f ++ be32 g ++ be32 h)%list.

(** [hmac.New(sha256.New, key)], then [Write] and [Sum(nil)]. *)
Definition hmac_sha256 (key msg : list Z) : list Z :=
  let k := if (64 <? length key)%nat then sha256 key else key in
  let k := (k ++ replicate (64 - length k) 0)%list in
  sha256 (map (Z.lxor 0x5c) k ++ sha256 (map (Z.lxor 0x36) k ++ msg))%list.

(** ** Text *)

Definition bytes (s : string) : list Z := map (fun c => Z.of_nat (nat_of_ascii c)) (list_ascii_of_string s).

Definition hex_digit (n : Z) : ascii := ascii_of_nat (Z.to_nat (if n <? 10 then 48 + n else 87 + n)).

(** [hex.EncodeToString]. *)
Fixpoint EncodeToString (l : list Z) : string :=
  match l with
  | [] => ""
  | b :: l => String (hex_digit (b / 16)) (String (hex_digit (b mod 16)) (EncodeToString l))
  end.

(** [hex.DecodeString], as a receiver reads the signature. *)
Definition hex_val (c : ascii) : option Z :=
  let n := Z.of_nat (nat_of_ascii c) in
  if (48 <=? n) && (n <=? 57) then Some (n - 48)
  else if (97 <=? n) && (n <=? 102) then Some (n - 87)
  else if (65 <=? n) && (n <=? 70) then Some (n - 55)
  else None.

Fixpoint DecodeString (s : string) : option (list Z) :=
  match s with
  | EmptyString => Some []
  | String a (String b s) =>
      match hex_val a, hex_val b, DecodeString s with
      | Some x, Some y, Some l => Some ((16 * x + y) :: l)
      | _, _, _ => None
      end
  | _ => None
  end.

(** ** Published test vectors (FIPS 180-2, RFC 4231) *)

Example sha256_empty :
  EncodeToString (sha256 []) = "e3b0c44298fc1c149afbf4c8996fb92427ae41e4649b934ca495991b7852b855"%string.
Proof. by vm_compute. Qed.

Example sha256_abc :
  EncodeToString (sha256 (bytes "abc")) = "ba7816bf8f01cfea414140de5dae2223b00361a396177a9cb410ff61f20015ad"%string.
Proof. by vm_compute. Qed.

Example sha256_two_blocks :
  EncodeToString (sha256 (bytes "abcdbcdecdefdefgefghfghighijhijkijkljklmklmnlmnomnopnopq")) =
  "248d6a61d20638b8e5c026930c3e6039a33ce45964ff2167f6ecedd419db06c1"%string.
Proof. by vm_compute. Qed.

Example hmac_jefe :
  EncodeToString (hmac_sha256 (bytes "Jefe") (bytes "what do ya want for nothing?")) =
  "5bdcc146bf60754e6a042426089575c75a003f089d2739839dec58b964ec3843"%string.
Proof. by vm_compute. Qed.

Example hmac_long_key :
  EncodeToString (hmac_sha256 (replicate 131 0xaa) (bytes "Test Using Larger Than Block-Size Key - Hash Key First")) =
  "60e431591ee0b67f0d8a26aacbf5b77f8e0bc6213728c5140546040f0ee37f54"%string.
Proof. by vm_compute. Qed.

(** ** Shape of the results *)

Lemma pad_blocks msg : Z.of_nat (length (pad msg)) mod 64 = 0.
Proof.
  unfold pad. rewrite length_app. cbn [length]. rewrite length_app, length_replicate. cbn [length be64 be32 app].
  set (n := Z.of_nat (length msg)). pose proof (Z.mod_pos_bound (55 - n) 64 ltac:(lia)) as Hb.
  replace (Z.of_nat _) with (n + 9 + (55 - n) mod 64) by (unfold n in *; lia).
  rewrite Zplus_mod_idemp_r. replace (n + 9 + (55 - n)) with 64 by lia. done.
Qed.

Lemma be32_bytes w : Forall is_byte (be32 w).
Proof.
  unfold be32. rewrite !Forall_cons, Forall_nil. unfold is_byte.
  split; [|split; [|split; [|split; [|exact I]]]]; by apply Z.mod_pos_bound.
Qed.

Lemma sha256_bytes msg : length (sha256 msg) = 32%nat /\ Forall is_byte (sha256 msg).
Proof.
  unfold sha256. destruct (blocks _ _ _) as [a b c d e f g h]. split; [done|].
  repeat (apply Forall_app; split); apply be32_bytes.
Qed.

Definition hex_digit_ok (n : nat) : bool :=
  match hex_val (hex_digit (Z.of_nat n)) with Some v => v =? Z.of_nat n | None => false end.

Lemma hex_digits_ok : forallb hex_digit_ok (seq 0 16) = true.
Proof. by vm_compute. Qed.

Lemma hex_val_digit n : 0 <= n < 16 -> hex_val (hex_digit n) = Some n.
Proof.
  intros Hn. pose proof hex_digits_ok as Hall. rewrite forallb_forall in Hall.
  specialize (Hall (Z.to_nat n)). unfold hex_digit_ok in Hall. rewrite Z2Nat.id in Hall by lia.
  destruct (hex_val (hex_digit n)) as [v|]; [|specialize (Hall ltac:(apply in_seq; lia)); done].
  f_equal. apply Z.eqb_eq, Hall, in_seq. lia.
Qed.

Lemma hex_roundtrip l : Forall is_byte l -> DecodeString (EncodeToString l) = Some l.
Proof.
  induction 1 as [|b l Hb _ IH]; [done|]. cbn [EncodeToString DecodeString]. unfold is_byte in Hb.
  rewrite !hex_val_digit by (split; [try apply Z.div_pos; try apply Z.mod_pos_bound; lia|];
    first [apply Z.div_lt_upper_bound; lia | apply Z.mod_pos_bound; lia]).
  rewrite IH. do 2 f_equal. symmetry. apply Z.div_mod. lia.
Qed.
