(* ===== verification/Webhook.v ===== *)
(** * Webhooks

    [internal/webhook/dispatcher.go]: subscriptions and their cache, the signed
    delivery with its retries, and the guard against addresses inside the
    network.  [http.Client] is modelled with the redirects it follows; name
    resolution, the answers of the subscribers, URL parsing and JSON encoding are
    parameters; signatures are computed (file [Sha256]). *)

From S2P Require Import Prelude Net Policy Devices Http Tables Sha256.
From Stdlib Require Import ZArith Lia Ascii String.
From stdpp Require Import base gmap strings list.

Local Open Scope Z_scope.
Local Open Scope outpost_scope.

(** ** Addresses *)

(** [net.IP]: four or sixteen bytes. *)
Definition IP : Type := list Z.

Definition ip_wf (ip : IP) : Prop := (length ip = 4%nat \/ length ip = 16%nat) /\ Forall is_byte ip.

Definition To4 (ip : IP) : option IP :=
  if (length ip =? 4)%nat then Some ip
  else if bool_decide (length ip = 16%nat /\ take 12 ip = (replicate 10 0 ++ [255; 255])%list) then Some (drop 12 ip)
  else None.

Definition IPv6loopback : IP := (replicate 15 0 ++ [1])%list.
Definition IPv6unspecified : IP := replicate 16 0.
(** Equality of addresses of the same length. *)
Definition ip_eqb (a b : IP) : bool := bool_decide (a = b).
Definition byte_at (i : nat) (ip : IP) : Z := nth i ip 0.

Definition IsLoopback (ip : IP) : bool :=
  match To4 ip with Some ip4 => byte_at 0 ip4 =? 127 | None => ip_eqb ip IPv6loopback end.

Definition IsPrivate (ip : IP) : bool :=
  match To4 ip with
  | Some ip4 =>
      (byte_at 0 ip4 =? 10) ||
      ((byte_at 0 ip4 =? 172) && (Z.land (byte_at 1 ip4) 0xf0 =? 16)) ||
      ((byte_at 0 ip4 =? 192) && (byte_at 1 ip4 =? 168))
  | None => (length ip =? 16)%nat && (Z.land (byte_at 0 ip) 0xfe =? 0xfc)
  end.

Definition IsLinkLocalUnicast (ip : IP) : bool :=
  match To4 ip with
  | Some ip4 => (byte_at 0 ip4 =? 169) && (byte_at 1 ip4 =? 254)
  | None => (length ip =? 16)%nat && (byte_at 0 ip =? 0xfe) && (Z.land (byte_at 1 ip) 0xc0 =? 0x80)
  end.

Definition IsLinkLocalMulticast (ip : IP) : bool :=
  match To4 ip with
  | Some ip4 => (byte_at 0 ip4 =? 224) && (byte_at 1 ip4 =? 0) && (byte_at 2 ip4 =? 0)
  | None => (length ip =? 16)%nat && (byte_at 0 ip =? 0xff) && (Z.land (byte_at 1 ip) 0x0f =? 0x02)
  end.

(** [ip.Equal(IPv4zero) || ip.Equal(IPv6unspecified)]. *)
Definition IsUnspecified (ip : IP) : bool :=
  match To4 ip with Some ip4 => ip_eqb ip4 [0; 0; 0; 0] | None => ip_eqb ip IPv6unspecified end.

Definition isPrivateIP (ip : IP) : bool :=
  IsLoopback ip || IsPrivate ip || IsLinkLocalUnicast ip || IsLinkLocalMulticast ip || IsUnspecified ip.

(** *** The blocks this means *)

Definition value (ip : IP) : Z := foldl (fun acc b => acc * 256 + b) 0 ip.

Definition v4 (a b c d : Z) : Z := value [a; b; c; d].

Definition internal4 : list cidr :=
  [Cidr (v4 127 0 0 0) 8; Cidr (v4 10 0 0 0) 8; Cidr (v4 172 16 0 0) 12; Cidr (v4 192 168 0 0) 16;
   Cidr (v4 169 254 0 0) 16; Cidr (v4 224 0 0 0) 24; Cidr (v4 0 0 0 0) 32].

Definition block6 (base len v : Z) : bool := (base <=? v) && (v <? base + 2^(128 - len)).

(** [::1], [::], [fc00::/7], [fe80::/10] and the link-local multicast blocks of
    the sixteen flags. *)
Definition internal6 : list (Z * Z) :=
  ([(1, 128); (0, 128); (0xfc00 * 2^112, 7); (0xfe80 * 2^112, 10)] ++
   map (fun f => ((0xff02 + 16 * Z.of_nat f) * 2^112, 16)) (seq 0 16))%list.

Definition internal (ip : IP) : bool :=
  match To4 ip with
  | Some ip4 => existsb (fun c => cidr_contains c (value ip4)) internal4
  | None => existsb (fun b => block6 b.1 b.2 (value ip)) internal6
  end.

(** The masks, byte by byte. *)
Definition mask_facts (n : nat) : bool :=
  let b := Z.of_nat n in
  Bool.eqb (Z.land b 0xf0 =? 16) ((16 <=? b) && (b <? 32)) &&
  Bool.eqb (Z.land b 0xfe =? 0xfc) ((252 <=? b) && (b <? 254)) &&
  Bool.eqb (Z.land b 0xc0 =? 0x80) ((128 <=? b) && (b <? 192)) &&
  Bool.eqb (Z.land b 0x0f =? 0x02) (existsb (fun f => b =? 2 + 16 * Z.of_nat f) (seq 0 16)).

Lemma masks_ok : forallb mask_facts (seq 0 256) = true.
Proof. by vm_compute. Qed.

Lemma mask_byte b : is_byte b ->
  (Z.land b 0xf0 =? 16) = ((16 <=? b) && (b <? 32)) /\
  (Z.land b 0xfe =? 0xfc) = ((252 <=? b) && (b <? 254)) /\
  (Z.land b 0xc0 =? 0x80) = ((128 <=? b) && (b <? 192)) /\
  (Z.land b 0x0f =? 0x02) = existsb (fun f => b =? 2 + 16 * Z.of_nat f) (seq 0 16).
Proof.
  unfold is_byte. intros Hb. pose proof masks_ok as Hall. rewrite forallb_forall in Hall.
  specialize (Hall (Z.to_nat b) ltac:(apply in_seq; lia)). unfold mask_facts in Hall. rewrite Z2Nat.id in Hall by lia.
  boolify. repeat split; by apply eqb_prop.
Qed.

Lemma value_acc l acc : foldl (fun acc b => acc * 256 + b) acc l = acc * 256 ^ Z.of_nat (length l) + value l.
Proof.
  unfold value. revert acc. induction l as [|b l IH]; intros acc; [cbn; lia|]. cbn [foldl length].
  rewrite IH, (IH (0 * 256 + b)), Nat2Z.inj_succ, Z.pow_succ_r by lia. lia.
Qed.

Lemma value_cons b l : value (b :: l) = b * 256 ^ Z.of_nat (length l) + value l.
Proof. unfold value at 1. cbn [foldl]. by rewrite value_acc. Qed.

Lemma value_bound l : Forall is_byte l -> 0 <= value l < 256 ^ Z.of_nat (length l).
Proof.
  induction 1 as [|b l Hb _ IH]; [cbn; lia|]. rewrite value_cons. cbn [length]. unfold is_byte in Hb.
  rewrite Nat2Z.inj_succ, Z.pow_succ_r by lia. nia.
Qed.

Lemma value_inj l1 l2 : Forall is_byte l1 -> Forall is_byte l2 -> length l1 = length l2 -> value l1 = value l2 -> l1 = l2.
Proof.
  intros H1. revert l2. induction H1 as [|b l1 Hb H1 IH]; intros [|b' l2] H2 Hlen; try done.
  apply Forall_cons in H2 as [Hb' H2]. injection Hlen as Hlen. rewrite !value_cons, Hlen. intros Hv.
  pose proof (value_bound l1 H1) as B1. pose proof (value_bound l2 H2) as B2. rewrite Hlen in B1.
  assert (b = b') as -> by nia. f_equal. apply IH; [done..|]. lia.
Qed.

(** Blocks of a prefix of two bytes. *)
Lemma prefix_bounds c q d p r : 0 <= r < p -> c * p <= q * p + r < d * p <-> c <= q < d.
Proof. intros Hr. split; intros [H1 H2]; split; nia. Qed.

Lemma block_two b0 b1 r x y len n : is_byte b1 -> 0 <= r < 2^112 -> 0 <= y -> 0 <= n -> y + n <= 256 -> 2^(128 - len) = n * 2^112 ->
  block6 ((x * 256 + y) * 2^112) len (b0 * 2^120 + b1 * 2^112 + r) = ((b0 =? x) && (y <=? b1) && (b1 <? y + n)).
Proof.
  unfold is_byte, block6. intros Hb Hr Hy Hn Hyn ->. apply eq_true_iff_eq. rewrite !andb_true_iff, !Z.leb_le, !Z.ltb_lt, Z.eqb_eq.
  replace (b0 * 2^120 + b1 * 2^112 + r) with ((b0 * 256 + b1) * 2^112 + r) by lia.
  replace ((x * 256 + y) * 2^112 + n * 2^112) with ((x * 256 + y + n) * 2^112) by lia.
  rewrite (prefix_bounds _ _ _ _ _ Hr). lia.
Qed.

Lemma internal4_ok a b c d : Forall is_byte [a; b; c; d] ->
  isPrivateIP [a; b; c; d] = existsb (fun blk => cidr_contains blk (value [a; b; c; d])) internal4.
Proof.
  intros Hall. rewrite !Forall_cons in Hall. destruct Hall as (Ha & Hb & Hc & Hd & _).
  destruct (mask_byte b Hb) as (Hm & _). unfold is_byte in *.
  unfold isPrivateIP, IsLoopback, IsPrivate, IsLinkLocalUnicast, IsLinkLocalMulticast, IsUnspecified. cbn [To4 length Nat.eqb].
  unfold byte_at, ip_eqb. cbn [nth]. rewrite Hm.
  unfold internal4, cidr_contains, cidr_size, v4, value. cbn [existsb foldl cidr_base cidr_len].
  apply eq_true_iff_eq. rewrite !orb_true_iff, !andb_true_iff, !Z.eqb_eq, !Z.leb_le, !Z.ltb_lt, bool_decide_eq_true.
  assert ([a; b; c; d] = [0; 0; 0; 0] <-> a = 0 /\ b = 0 /\ c = 0 /\ d = 0) as -> by (split; [by intros [= -> -> -> ->]|naive_solver]).
  change (2 ^ (32 - 8)) with 16777216. change (2 ^ (32 - 12)) with 1048576. change (2 ^ (32 - 16)) with 65536.
  change (2 ^ (32 - 24)) with 256. change (2 ^ (32 - 32)) with 1. clear Hm.
  assert (exists v, v = (((0 * 256 + a) * 256 + b) * 256 + c) * 256 + d) as [v Hv] by eauto. rewrite <- !Hv.
  split; intros Hcases; repeat destruct Hcases as [Hcases|Hcases].
  all: lia.
Qed.

Lemma existsb_and {A} (c : bool) (f : A -> bool) l : existsb (fun x => c && f x) l = c && existsb f l.
Proof. induction l as [|x l IH]; cbn; [by rewrite andb_false_r|]. rewrite IH. by destruct c. Qed.

Lemma existsb_same {A} (f g : A -> bool) l : (forall x, In x l -> f x = g x) -> existsb f l = existsb g l.
Proof. induction l as [|x l IH]; intros Hfg; [done|]. cbn. rewrite Hfg, IH; [done|..]; intros; try apply Hfg; by constructor. Qed.

Lemma existsb_map {A B} (g : A -> B) (f : B -> bool) l : existsb f (map g l) = existsb (fun x => f (g x)) l.
Proof. induction l as [|x l IH]; cbn; [done|]. by rewrite IH. Qed.

(** The blocks against the conditions on the first two bytes. *)
Lemma six_blocks b0 b1 r : is_byte b0 -> is_byte b1 -> 0 <= r < 2^112 ->
  let v := b0 * 2^120 + b1 * 2^112 + r in
  block6 (value IPv6loopback) 128 v || (252 <=? b0) && (b0 <? 254) || (b0 =? 254) && ((128 <=? b1) && (b1 <? 192)) ||
  (b0 =? 255) && existsb (fun f => b1 =? 2 + 16 * Z.of_nat f) (seq 0 16) || block6 (value IPv6unspecified) 128 v =
  existsb (fun b => block6 b.1 b.2 v) internal6.
Proof.
  intros H0 H1 Hr v.
  assert (block6 (0xfc00 * 2^112) 7 v = (252 <=? b0) && (b0 <? 254)) as E1.
  { unfold block6, v. apply eq_true_iff_eq. rewrite !andb_true_iff, !Z.leb_le, !Z.ltb_lt.
    change (0xfc00 * 2^112) with (252 * 2^120). change (2^(128-7)) with (2 * 2^120).
    replace (b0 * 2^120 + b1 * 2^112 + r) with (b0 * 2^120 + (b1 * 2^112 + r)) by lia.
    replace (252 * 2^120 + 2 * 2^120) with (254 * 2^120) by lia. apply prefix_bounds. unfold is_byte in H1. lia. }
  assert (block6 (0xfe80 * 2^112) 10 v = (b0 =? 254) && ((128 <=? b1) && (b1 <? 192))) as E2.
  { rewrite andb_assoc. apply (block_two b0 b1 r 254 128 10 64); done. }
  assert (existsb (fun b => block6 b.1 b.2 v) (map (fun f => ((0xff02 + 16 * Z.of_nat f) * 2^112, 16)) (seq 0 16)) =
    (b0 =? 255) && existsb (fun f => b1 =? 2 + 16 * Z.of_nat f) (seq 0 16)) as E3.
  { rewrite <- existsb_and, existsb_map. apply existsb_same. intros f [_ Hf]%in_seq. cbn [fst snd].
    replace (0xff02 + 16 * Z.of_nat f) with (255 * 256 + (2 + 16 * Z.of_nat f)) by lia. unfold v.
    rewrite (block_two b0 b1 r 255 (2 + 16 * Z.of_nat f) 16 1) by (done || lia).
    rewrite <- andb_assoc. f_equal. apply eq_true_iff_eq. rewrite andb_true_iff, Z.leb_le, Z.ltb_lt, Z.eqb_eq. lia. }
  unfold internal6. rewrite existsb_app, E3. cbn [existsb fst snd]. rewrite E1, E2.
  change (value IPv6loopback) with 1. change (value IPv6unspecified) with 0. rewrite orb_false_r.
  generalize (block6 1 128 v), (block6 0 128 v). intros [] []; rewrite ?orb_true_r, ?orb_false_r; cbn; try done; by rewrite ?orb_assoc.
Qed.

Lemma internal6_ok ip : length ip = 16%nat -> Forall is_byte ip -> To4 ip = None ->
  isPrivateIP ip = existsb (fun b => block6 b.1 b.2 (value ip)) internal6.
Proof.
  intros Hlen Hall H4. unfold isPrivateIP, IsLoopback, IsPrivate, IsLinkLocalUnicast, IsLinkLocalMulticast, IsUnspecified.
  rewrite H4, Hlen, Nat.eqb_refl. cbn [andb].
  assert (forall c : IP, Forall is_byte c -> length c = 16%nat -> ip_eqb ip c = block6 (value c) 128 (value ip)) as Heq.
  { intros c Hc Hlc. apply eq_true_iff_eq. unfold ip_eqb. rewrite bool_decide_eq_true. unfold block6. rewrite andb_true_iff, Z.leb_le, Z.ltb_lt.
    change (2^(128-128)) with 1. split; [intros ->; lia|]. intros Hv. apply value_inj; [done..|congruence|lia]. }
  rewrite (Heq IPv6loopback), (Heq IPv6unspecified) by (done || (unfold is_byte; repeat constructor; lia)).
  destruct ip as [|b0 [|b1 l]]; [done..|]. unfold byte_at. cbn [nth].
  rewrite !Forall_cons in Hall. destruct Hall as (H0 & H1 & Hl). injection Hlen as Hlen.
  pose proof (value_bound l Hl) as Hr. rewrite Hlen in Hr. change (256 ^ Z.of_nat 14) with (2^112) in Hr.
  destruct (mask_byte b0 H0) as (_ & -> & _). destruct (mask_byte b1 H1) as (_ & _ & -> & ->).
  assert (value (b0 :: b1 :: l) = b0 * 2^120 + b1 * 2^112 + value l) as ->.
  { rewrite !value_cons. cbn [length]. rewrite Hlen. change (256 ^ Z.of_nat 15) with (2^120).
    change (256 ^ Z.of_nat 14) with (2^112). lia. }
  apply six_blocks; done.
Qed.

Lemma To4_bytes ip ip4 : Forall is_byte ip -> To4 ip = Some ip4 -> Forall is_byte ip4 /\ length ip4 = 4%nat /\ To4 ip4 = Some ip4.
Proof.
  intros Hall. unfold To4 at 1. destruct (Nat.eqb_spec (length ip) 4) as [E|_].
  - intros [= <-]. split; [done|]. split; [done|]. unfold To4. by rewrite E.
  - case_bool_decide as Hm; [|done]. intros [= <-]. destruct Hm as [Hlen _].
    assert (length (drop 12 ip) = 4%nat) as E by (rewrite length_drop; lia).
    split; [by apply Forall_drop|]. split; [done|]. unfold To4. by rewrite E.
Qed.

(** Both forms of an IPv4 address are judged alike. *)
Lemma isPrivateIP_To4 ip ip4 : To4 ip = Some ip4 -> To4 ip4 = Some ip4 -> isPrivateIP ip = isPrivateIP ip4.
Proof.
  intros H1 H2. unfold isPrivateIP, IsLoopback, IsPrivate, IsLinkLocalUnicast, IsLinkLocalMulticast, IsUnspecified.
  by rewrite H1, H2.
Qed.

Lemma isPrivateIP_internal ip : ip_wf ip -> isPrivateIP ip = internal ip.
Proof.
  intros [Hlen Hall]. unfold internal. destruct (To4 ip) as [ip4|] eqn:E.
  - destruct (To4_bytes ip ip4 Hall E) as (Hall4 & Hl4 & E4). rewrite (isPrivateIP_To4 ip ip4) by done.
    destruct ip4 as [|a [|b [|c [|d [|]]]]]; try done. by apply internal4_ok.
  - destruct Hlen as [Hl|Hl]; [unfold To4 in E; by rewrite Hl in E|]. by apply internal6_ok.
Qed.

(** C39. Of the addresses of four or sixteen bytes the guard refuses exactly those of
    the inside: the loopback, private, link-local and unspecified blocks of IPv4
    and IPv6, an IPv4 address in IPv6 form as the IPv4 address. *)
Theorem isPrivateIP_blocks ip : ip_wf ip -> isPrivateIP ip = internal ip.
Proof. apply isPrivateIP_internal. Qed.

(** ** Connections *)

(** What name resolution answers for a host at some moment. *)
Definition resolver : Type := string -> option (list IP).

Inductive dial_result :=
| Dialled (ip : IP) (port : string)
| DialRefused (message : string).

(** The dialer is handed the text of the first address. *)
Definition safeDialContext (lookup : resolver) (addr : string) : dial_result :=
  match SplitHostPort addr with
  | None => DialRefused "invalid address"
  | Some (host, port) =>
      match lookup host with
      | None => DialRefused "DNS lookup failed"
      | Some [] => DialRefused "no IPs resolved"
      | Some (ip :: ips) =>
          if existsb isPrivateIP (ip :: ips) then DialRefused "resolved IP is in a private/internal range"
          else Dialled ip port
      end
  end.

(** ** Subscriptions *)

Record Event := {
  ev_ID : string;
  ev_Type : string;
  ev_Timestamp : option Z;
  ev_Data : string;
}.

Record Subscription := {
  su_ID : string;
  su_URL : string;
  su_Secret : string;
  su_Events : list string;
  su_IsActive : bool;
  su_CreatedAt : Z;
}.

(** The table, and the copy of it a core keeps ([subs]). *)
Record wstore := { subscriptions : list Subscription; subs : list Subscription }.

Definition set_subscriptions (s : wstore) l := {| subscriptions := l; subs := subs s |}.
Definition set_subs (s : wstore) l := {| subscriptions := subscriptions s; subs := l |}.

(** What is outside: the driver and the standard library's encoders, and the
    scheme and host name of a URL. *)
Class WebEnv : Type := {
  json_Marshal : Event -> option string;
  url_Parse : string -> option (string * string);
  http_NewRequest_ok : string -> bool;
}.

(** [strings.ToLower] on ASCII text. *)
Definition lower (c : ascii) : ascii :=
  let n := nat_of_ascii c in if ((65 <=? n) && (n <=? 90))%nat then ascii_of_nat (n + 32) else c.
Definition ToLower (s : string) : string := string_of_list_ascii (map lower (list_ascii_of_string s)).

Section webhook.
Context `{SqlOrder} `{DeviceEnv} `{WebEnv}.

(** ** Delivery *)

Definition signPayload (secret payload : string) : string := EncodeToString (hmac_sha256 (bytes secret) (bytes payload)).

Record http_request := { rq_URL : string; rq_Body : string; rq_Header : list (string * string) }.

Inductive wh_effect :=
| Connect (ip : IP) (port : string)
| Post (r : http_request)
| Get (url : string)
| Sleep (ns : Z).

(** How one request of the HTTP client goes: the address dialled for it
    ([None]: an idle connection is used again), what names resolve to at that
    moment, and what comes of it, with the Location of an answer. *)
Inductive hop_result :=
| NoConnection
| NoAnswer
| Answer (status : Z) (location : option string).

Record hop := { h_dial : option string; h_lookup : resolver; h_result : hop_result }.

(** One use of the client: the request and those it is redirected to.  It
    ends without an answer when there is no further hop (the timeout, or a
    location that cannot be asked). *)
Definition exchange : Type := list hop.

(** Every connection of the client is made by [safeDialContext]. *)
Definition dialled (h : hop) : option (list wh_effect) :=
  match h_dial h with
  | None => Some []
  | Some addr => match safeDialContext (h_lookup h) addr with
                 | DialRefused _ => None
                 | Dialled ip port => Some [Connect ip port]
                 end
  end.

(** [http.Client] follows the redirects with a Location: 307 and 308 with the
    same method and body, the others with a GET. *)
Definition is_redirect (status : Z) : bool := existsb (Z.eqb status) [301; 302; 303; 307; 308].

Definition redirected (status : Z) (url : string) (req : wh_effect) : wh_effect :=
  match req with
  | Post r => if (status =? 307) || (status =? 308)
              then Post {| rq_URL := url; rq_Body := rq_Body r; rq_Header := rq_Header r |} else Get url
  | _ => Get url
  end.

(** [n]: the requests it may still make. *)
Fixpoint follow (n : nat) (x : exchange) (req : wh_effect) : option Z * list wh_effect :=
  match n, x with
  | S n, h :: x =>
      match dialled h with
      | None => (None, [])
      | Some es =>
          match h_result h with
          | NoConnection => (None, es)
          | NoAnswer => (None, es ++ [req])%list
          | Answer status location =>
              match (if is_redirect status then location else None) with
              | None => (Some status, es ++ [req])%list
              | Some url => let '(st, fs) := follow n x (redirected status url req) in (st, es ++ req :: fs)%list
              end
          end
      end
  | _, _ => (None, [])
  end.

(** It stops after ten requests. *)
Definition maxRequests : nat := 10.

Definition Do (x : exchange) (r : http_request) : option Z * list wh_effect := follow maxRequests x (Post r).

Definition is2xx (status : Z) : bool := (200 <=? status) && (status <? 300).

Inductive delivery := Delivered | MarshalFailed | RequestFailed | Exhausted.

Definition webhookRequest (sub : Subscription) (event : Event) (payload sig : string) : http_request := {|
  rq_URL := su_URL sub; rq_Body := payload;
  rq_Header := [("Content-Type", "application/json"); ("X-Outpost-Signature-256", "sha256=" ++ sig);
                ("X-Outpost-Event-ID", ev_ID event); ("X-Outpost-Event-Type", ev_Type event)]%string |}.

Definition second : Z := 1000000000.
Definition maxRetries : nat := 3.

(** The attempts that remain; [net] answers the [k]-th one. *)
Fixpoint tries (n k : nat) (backoff : Z) (net : nat -> exchange) (r : http_request) : delivery * list wh_effect :=
  match n with
  | O => (Exhausted, [])
  | S n =>
      if negb (http_NewRequest_ok (rq_URL r)) then (RequestFailed, []) else
      let '(status, es) := Do (net k) r in
      if match status with Some st => is2xx st | None => false end then (Delivered, es)
      else let '(d, fs) := tries n (S k) (mul64 backoff 2) net r in (d, es ++ Sleep backoff :: fs)%list
  end.

Definition deliverWebhook (net : nat -> exchange) (sub : Subscription) (event : Event) : delivery * list wh_effect :=
  match json_Marshal event with
  | None => (MarshalFailed, [])
  | Some payload => tries maxRetries 0 second net (webhookRequest sub event payload (signPayload (su_Secret sub) payload))
  end.

Definition matchesEvent (filters : list string) (eventType : string) : bool :=
  existsb (fun f => String.eqb f "*" || String.eqb f eventType) filters.

(** The goroutines of a dispatch: one delivery per matching subscription of the
    cache. *)
Definition Dispatch (newID : string) (now : Z) (event : Event) (s : wstore) : list (Subscription * Event) :=
  let event := {| ev_ID := if String.eqb (ev_ID event) "" then newID else ev_ID event; ev_Type := ev_Type event;
                  ev_Timestamp := match ev_Timestamp event with None => Some now | t => t end; ev_Data := ev_Data event |} in
  map (fun sub => (sub, event)) (List.filter (fun sub => matchesEvent (su_Events sub) (ev_Type event)) (subs s)).

(** The rows the cache holds. *)
Definition activeSubs (s : wstore) : list Subscription := rows 110 (List.filter su_IsActive (subscriptions s)).

(** Any error leaves the cache as it is. *)
Definition LoadSubscriptions (fails : bool) (s : wstore) : wstore := if fails then s else set_subs s (activeSubs s).

(** ** The endpoints *)

(** The secret has no JSON name; [created] shows it. *)
Inductive hookBody :=
| WbList (l : list Subscription)
| WbCreated (sub : Subscription) (secret : string)
| WbOne (sub : Subscription)
| WbDelivered
| WbNone.

Definition validateWebhookURL (lookup : resolver) (rawURL : string) : option string :=
  match url_Parse rawURL with
  | None => Some "invalid URL"
  | Some (scheme, host) =>
      let scheme := ToLower scheme in
      if negb (String.eqb scheme "https" || String.eqb scheme "http") then Some "URL scheme must be http or https"
      else if String.eqb host "" then Some "URL must have a hostname"
      else match lookup host with
           | None => Some "cannot resolve hostname"
           | Some ips => if existsb isPrivateIP ips then Some "URL must not point to a private/internal address" else None
           end
  end%string.

(** Thirty-two random bytes. *)
Definition generateSecret (random : option (list Z)) : option string := EncodeToString <$> random.

Record createSubscriptionRequest := { cs_URL : string; cs_Secret : string; cs_Events : list string }.

Definition insert_subscription (newID : string) (now : Z) (url secret : string) (events : list string)
  : stmt wstore Subscription := fun s =>
  let r := {| su_ID := newID; su_URL := url; su_Secret := secret; su_Events := events; su_IsActive := true; su_CreatedAt := now |} in
  if has su_ID (subscriptions s) newID then inr (ErrUnique "webhook_subscriptions_pkey")
  else inl (r, set_subscriptions s (subscriptions s ++ [r])%list).

Definition delete_subscription (raw : string) : stmt wstore nat := fun s =>
  match pg_uuid raw with
  | None => inr ErrBadText
  | Some id => inl (rowsWith su_ID (subscriptions s) id, set_subscriptions s (without su_ID (subscriptions s) id))
  end.

Definition reload (fails : bool) : H wstore wh_effect unit := interfere (LoadSubscriptions fails).

Definition listSubscriptions (fail : nat -> bool) : H wstore wh_effect (Z * hookBody) :=
  let! l := query (fail 0%nat) (fun s => rows_by 111 (fun r => - su_CreatedAt r) (subscriptions s)) 500 "failed to list subscriptions" in
  do! require (match l with [] => true | _ => negb (fail 1%nat) end) 500 "failed to scan subscription" in
  respondJSON 200 (WbList l).

Definition createSubscription (fail : nat -> bool) (lookup : resolver) (newID : string) (now : Z) (random : option (list Z))
    (body : option createSubscriptionRequest) : H wstore wh_effect (Z * hookBody) :=
  let! req := the body 400 "invalid request body" in
  do! require (negb (String.eqb (cs_URL req) "")) 400 "url is required" in
  do! match validateWebhookURL lookup (cs_URL req) with
      | Some err => respondError 400 ("invalid webhook URL: " ++ err)
      | None => ret tt
      end in
  let! secret := (if String.eqb (cs_Secret req) "" || String.eqb (cs_Secret req) "auto"
                  then the (generateSecret random) 500 "failed to generate secret" else ret (cs_Secret req)) in
  let events := match cs_Events req with [] => ["*"%string] | l => l end in
  let! sub := exec (fail 0%nat) (insert_subscription newID now (cs_URL req) secret events)
    (fun _ => (500, "failed to create subscription"%string)) in
  do! reload (fail 1%nat) in
  respondJSON 201 (WbCreated sub secret).

(** Every error of the query is answered 404. *)
Definition findSubscription (fail : nat -> bool) (raw : string) : H wstore wh_effect Subscription :=
  do! the (uuid_Parse raw) 400 "invalid subscription ID" in
  let! row := query (fail 0%nat) (fun s => pg_uuid raw ≫= byKey su_ID (subscriptions s)) 404 "subscription not found" in
  the row 404 "subscription not found".

Definition getSubscription (fail : nat -> bool) (raw : string) : H wstore wh_effect (Z * hookBody) :=
  let! sub := findSubscription fail raw in
  respondJSON 200 (WbOne sub).

Definition deleteSubscription (fail : nat -> bool) (raw : string) : H wstore wh_effect (Z * hookBody) :=
  do! the (uuid_Parse raw) 400 "invalid subscription ID" in
  do! deleting (fail 0%nat) (delete_subscription raw) "failed to delete subscription" "subscription not found" in
  do! reload (fail 1%nat) in
  respondJSON 204 WbNone.

Definition testEvent (newID : string) (now : Z) : Event := {|
  ev_ID := newID; ev_Type := "webhook.test"; ev_Timestamp := Some now;
  ev_Data := "message: This is a test event from Outpost VPN." |}.

Definition testSubscription (fail : nat -> bool) (net : nat -> exchange) (newID : string) (now : Z) (raw : string)
  : H wstore wh_effect (Z * hookBody) :=
  let! sub := findSubscription fail raw in
  let '(d, es) := deliverWebhook net sub (testEvent newID now) in
  do! emit (fun _ => es) in
  match d with
  | Delivered => respondJSON 200 WbDelivered
  | _ => respondError 502 "test delivery failed"
  end.
End webhook.

(** [Routes]. *)
Inductive request :=
| ListSubs
| CreateSub (lookup : resolver) (newID : string) (now : Z) (random : option (list Z)) (body : option createSubscriptionRequest)
| GetSub (id : string)
| DeleteSub (id : string)
| TestSub (net : nat -> exchange) (newID : string) (now : Z) (id : string).

Definition admin_only (r : request) : bool := match r with ListSubs | GetSub _ => false | _ => true end.

Definition serve `{SqlOrder} `{DeviceEnv} `{WebEnv} (fail : nat -> bool) (r : request) : H wstore wh_effect (Z * hookBody) :=
  match r with
  | ListSubs => listSubscriptions fail
  | CreateSub lookup newID now random body => createSubscription fail lookup newID now random body
  | GetSub id => getSubscription fail id
  | DeleteSub id => deleteSubscription fail id
  | TestSub net newID now id => testSubscription fail net newID now id
  end.

(** ** Theorems *)

Section facts.
Context `{SqlOrder} `{DeviceEnv} `{WebEnv}.

Definition outside (e : wh_effect) : Prop :=
  match e with Connect ip _ => ip_wf ip -> internal ip = false | _ => True end.

Lemma safeDial_outside lookup addr ip port : safeDialContext lookup addr = Dialled ip port -> ip_wf ip -> internal ip = false.
Proof.
  unfold safeDialContext. destruct (SplitHostPort addr) as [[host p]|]; [|done]. destruct (lookup host) as [[|a ips]|]; [done| |done].
  cbn [existsb]. destruct (isPrivateIP a) eqn:Ha; [done|]. cbn. destruct (existsb isPrivateIP ips); [done|].
  intros [= <- <-] Hwf. by rewrite <- isPrivateIP_internal.
Qed.

(** What holds of the connections the guard lets pass and of every request a
    use of the client can lead to, holds of all it does. *)
Lemma follow_all (P : wh_effect -> Prop) (Q : wh_effect -> Prop) n : (forall h es, dialled h = Some es -> Forall P es) ->
  (forall req, Q req -> P req) -> (forall st url req, Q req -> Q (redirected st url req)) ->
  forall x req, Q req -> Forall P (follow n x req).2.
Proof.
  intros Hd Hq Hr. induction n as [|n IH]; intros [|h x] req HQ; cbn [follow]; try by constructor.
  destruct (dialled h) as [es|] eqn:Hes; [|by constructor]. apply Hd in Hes.
  destruct (h_result h) as [| |st loc]; [done|apply Forall_app; auto|].
  destruct (if is_redirect st then loc else None) as [url|]; [|apply Forall_app; auto].
  specialize (IH x (redirected st url req) (Hr _ _ _ HQ)). destruct (follow n x _) as [s fs].
  apply Forall_app. split; [done|]. constructor; auto.
Qed.

Lemma dialled_outside h es : dialled h = Some es -> Forall outside es.
Proof.
  unfold dialled. destruct (h_dial h) as [addr|]; [|intros [= <-]; by constructor].
  destruct (safeDialContext (h_lookup h) addr) as [ip port|] eqn:Hd; [|done]. intros [= <-]. constructor; [|by constructor].
  cbn. by apply (safeDial_outside (h_lookup h) addr ip port).
Qed.

Definition is_request (e : wh_effect) : bool := match e with Post _ | Get _ => true | _ => false end.

Lemma redirected_request st url req : is_request (redirected st url req) = true.
Proof. unfold redirected. by repeat case_match. Qed.

Lemma Do_outside x r : Forall outside (Do x r).2.
Proof.
  apply (follow_all outside (fun req => is_request req = true)); [apply dialled_outside| |intros; apply redirected_request|done].
  by intros [].
Qed.

Lemma tries_outside n : forall k backoff net r, Forall outside (tries n k backoff net r).2.
Proof.
  induction n as [|n IH]; intros k backoff net r; cbn [tries]; [by constructor|]. destruct (negb _); [by constructor|].
  pose proof (Do_outside (net k) r) as Hd. destruct (Do (net k) r) as [status es]. destruct (match status with Some _ => _ | None => _ end); [done|].
  specialize (IH (S k) (mul64 backoff 2) net r). destruct (tries n _ _ net r) as [d fs]. cbn in *.
  apply Forall_app. split; [done|]. by constructor.
Qed.

(** C38. No delivery ever opens a connection into the network, whatever the name
    server answers and however often it changes its mind between the check of
    the URL and the connections, and wherever the subscriber redirects to. *)
Theorem deliveries_stay_outside net sub event : Forall outside (deliverWebhook net sub event).2.
Proof. unfold deliverWebhook. destruct (json_Marshal event); [apply tries_outside|by constructor]. Qed.

(** *** The retries *)

Definition requests (es : list wh_effect) : nat := length (List.filter is_request es).
Definition pauses (es : list wh_effect) : list Z := omap (fun e => match e with Sleep d => Some d | _ => None end) es.

Lemma requests_app es fs : requests (es ++ fs)%list = (requests es + requests fs)%nat.
Proof. unfold requests. by rewrite List.filter_app, length_app. Qed.

Lemma pauses_app es fs : pauses (es ++ fs)%list = (pauses es ++ pauses fs)%list.
Proof. apply omap_app. Qed.

Lemma dialled_silent h es : dialled h = Some es -> requests es = 0%nat /\ pauses es = [].
Proof. unfold dialled. repeat case_match; intros; simplify_eq; done. Qed.

(** A use of the client makes ten requests at most, and does not sleep. *)
Lemma follow_bound n : forall x req, is_request req = true ->
  (requests (follow n x req).2 <= n)%nat /\ pauses (follow n x req).2 = [].
Proof.
  induction n as [|n IH]; intros [|h x] req Hreq; cbn [follow]; try by (cbn; split; [lia|]).
  destruct (dialled h) as [es|] eqn:Hes; [|cbn; split; [lia|done]]. apply dialled_silent in Hes as [Hr Hp].
  assert (requests [req] = 1%nat /\ pauses [req] = []) as [Hr1 Hp1] by (by destruct req).
  destruct (h_result h) as [| |st loc]; cbn [snd]; rewrite ?requests_app, ?pauses_app, ?Hr, ?Hp, ?Hr1, ?Hp1;
    [split; [lia|done]|split; [lia|done]|].
  destruct (if is_redirect st then loc else None) as [url|]; cbn [snd];
    [|rewrite requests_app, pauses_app, Hr, Hp, Hr1, Hp1; split; [lia|done]].
  destruct (IH x (redirected st url req) (redirected_request _ _ _)) as [IHr IHp]. destruct (follow n x _) as [s fs]. cbn [snd] in *.
  change (req :: fs) with ([req] ++ fs)%list. rewrite !requests_app, !pauses_app, Hr, Hp, Hr1, Hp1, IHp. split; [lia|done].
Qed.

Lemma Do_bound x r : (requests (Do x r).2 <= maxRequests)%nat /\ pauses (Do x r).2 = [].
Proof. by apply follow_bound. Qed.

(** An answer is preceded by the request itself. *)
Lemma follow_sends n x req st : (follow n x req).1 = Some st -> req ∈ (follow n x req).2.
Proof.
  destruct n as [|n], x as [|h x]; cbn [follow]; try done. destruct (dialled h) as [es|]; [|done].
  destruct (h_result h) as [| |st' loc]; [done|done|]. destruct (if is_redirect st' then loc else None) as [url|].
  - destruct (follow n x _) as [s fs]. intros _. cbn. set_solver.
  - intros _. cbn. set_solver.
Qed.

Lemma Do_sends x r st : (Do x r).1 = Some st -> Post r ∈ (Do x r).2.
Proof. apply follow_sends. Qed.

(** Whether the [k]-th attempt is answered with success. *)
Definition succeeds (net : nat -> exchange) (r : http_request) (k : nat) : bool :=
  match (Do (net k) r).1 with Some st => is2xx st | None => false end.

(** [n] pauses, each twice as long as the one before. *)
Fixpoint doubling (b : Z) (n : nat) : list Z := match n with O => [] | S n => b :: doubling (b * 2) n end.

(** What [n] attempts from the [k]-th one on come to. *)
Lemma tries_spec net r n : forall k b, http_NewRequest_ok (rq_URL r) = true -> 0 <= b -> b * 2 ^ Z.of_nat n <= max_int64 ->
  (requests (tries n k b net r).2 <= maxRequests * n)%nat /\
  match find (succeeds net r) (seq k n) with
  | Some j => (tries n k b net r).1 = Delivered /\ pauses (tries n k b net r).2 = doubling b (j - k)
  | None => (tries n k b net r).1 = Exhausted /\ pauses (tries n k b net r).2 = doubling b n
  end.
Proof.
  induction n as [|n IH]; intros k b Hr Hb Hmax; cbn [seq find]; [cbn; repeat split; lia|].
  cbn [tries]. rewrite Hr. cbn [negb]. destruct (Do_bound (net k) r) as [Hp Hs]. unfold succeeds at 1.
  destruct (Do (net k) r) as [status es]. cbn [fst snd] in *. destruct (match status with Some _ => _ | None => _ end).
  - cbn [fst snd]. rewrite Nat.sub_diag, Hs. repeat split; lia.
  - rewrite Nat2Z.inj_succ, Z.pow_succ_r in Hmax by lia.
    assert (1 <= 2 ^ Z.of_nat n) as Hpos by (pose proof (Z.pow_pos_nonneg 2 (Z.of_nat n)); lia).
    assert (mul64 b 2 = b * 2) as Hm by (apply mul64_small; unfold in_int64, min_int64, max_int64 in *; nia).
    specialize (IH (S k) (mul64 b 2) Hr). rewrite Hm in *. specialize (IH ltac:(lia) ltac:(nia)).
    destruct (tries n (S k) (b * 2) net r) as [d fs]. cbn [fst snd] in *. destruct IH as [Hreq IH].
    rewrite requests_app, pauses_app, Hs. change (requests (Sleep b :: fs)) with (requests fs).
    change (pauses (Sleep b :: fs)) with (b :: pauses fs). split; [lia|].
    destruct (find (succeeds net r) (seq (S k) n)) as [j|] eqn:Hf.
    + apply find_some in Hf as [[Hj _]%in_seq _]. destruct IH as (-> & ->). split; [done|].
      by replace (j - k)%nat with (S (j - S k)) by lia.
    + by destruct IH as (-> & ->).
Qed.


(** *** Signatures *)

Definition signed (secret payload : string) (e : wh_effect) : Prop :=
  match e with
  | Post r => rq_Body r = payload /\
      exists sig, ("X-Outpost-Signature-256", "sha256=" ++ sig)%string ∈ rq_Header r /\
        DecodeString sig = Some (hmac_sha256 (bytes secret) (bytes (rq_Body r)))
  | _ => True
  end.

Lemma hmac_bytes key msg : Forall is_byte (hmac_sha256 key msg).
Proof. apply sha256_bytes. Qed.

(** A delivery sends the request, and what a redirect makes of it. *)
Lemma tries_all (P Q : wh_effect -> Prop) net r n : (forall h es, dialled h = Some es -> Forall P es) ->
  (forall req, Q req -> P req) -> (forall st url req, Q req -> Q (redirected st url req)) -> (forall d, P (Sleep d)) -> Q (Post r) ->
  forall k b, Forall P (tries n k b net r).2.
Proof.
  intros Hd Hq Hr Hs HQ. induction n as [|n IH]; intros k b; cbn [tries]; [by constructor|]. destruct (negb _); [by constructor|].
  pose proof (follow_all P Q maxRequests Hd Hq Hr (net k) (Post r) HQ) as Hf. change (follow maxRequests (net k) (Post r)) with (Do (net k) r) in Hf.
  destruct (Do (net k) r) as [status es]. destruct (match status with Some _ => _ | None => _ end); [done|].
  specialize (IH (S k) (mul64 b 2)). destruct (tries n _ _ net r) as [d fs]. cbn in *. apply Forall_app. split; [done|]. by constructor.
Qed.

(** What a subscriber receives can be verified: every POST of a delivery,
    retries and redirects included, carries the same body, and the hexadecimal
    text of its signature header decodes to the HMAC-SHA256 of that body under
    the secret. *)
Theorem deliveries_signed net sub event payload :
  json_Marshal event = Some payload -> Forall (signed (su_Secret sub) payload) (deliverWebhook net sub event).2.
Proof.
  intros Hm. unfold deliverWebhook. rewrite Hm. apply (tries_all _ (signed (su_Secret sub) payload)); [|done| |done|].
  - intros h es. unfold dialled. repeat case_match; intros; simplify_eq; by repeat constructor.
  - intros st url [| r | |] Hr; try done. cbn. by case_match.
  - split; [done|]. exists (signPayload (su_Secret sub) payload). split; [cbn; set_solver|]. apply hex_roundtrip, hmac_bytes.
Qed.

(** *** The cache *)

Definition coherent (s : wstore) : Prop := subs s ≡ₚ List.filter su_IsActive (subscriptions s).

Lemma reload_coherent s : coherent (LoadSubscriptions false s).
Proof. unfold coherent, LoadSubscriptions, activeSubs. cbn. apply rows_perm. Qed.

(** A change is followed by a reload. *)
Lemma exec_coherent {A} fails (st : stmt wstore A) onerr status (k : A -> hookBody) :
  preserves (E := wh_effect) coherent (let! a := exec fails st onerr in do! reload false in respondJSON status (k a)).
Proof.
  intros s Hs. apply wp_bind, wp_exec. destruct (if fails then _ else _) as [[a s']|e]; [|done].
  apply wp_bind, wp_interfere, wp_ret. apply reload_coherent.
Qed.

Lemma serve_coherent fail r : fail 1%nat = false -> preserves coherent (serve fail r).
Proof.
  intros Hf. destruct r; cbn [serve]; unfold listSubscriptions, createSubscription, getSubscription, deleteSubscription,
    testSubscription, findSubscription, deleting; rewrite ?Hf;
    repeat first [ apply exec_coherent | apply preserves_the_bind; intros ? ? | apply preserves_require_bind; intros ?
                 | apply preserves_bind; [|intros ?] | solve [auto with handlers] | case_match ].
Qed.

(** Events reach the subscribers the table has: after any request whose
    reload does not fail, an event is sent to exactly the active subscriptions
    that ask for its type or for everything. *)
Theorem dispatch_exact fail r s newID now event sub :
  coherent s -> fail 1%nat = false ->
  let s' := (run (serve fail r) s).1.2 in
  coherent s' /\
  (sub ∈ map fst (Dispatch newID now event s') <->
   sub ∈ subscriptions s' /\ su_IsActive sub = true /\ ("*"%string ∈ su_Events sub \/ ev_Type event ∈ su_Events sub)).
Proof.
  intros Hs Hf. cbn zeta. pose proof (preserves_run coherent (serve fail r) s (serve_coherent fail r Hf) Hs) as Hc. split; [done|].
  set (s' := (run (serve fail r) s).1.2) in *. unfold Dispatch. rewrite map_map, map_id. cbn [ev_Type].
  unfold coherent in Hc. rewrite list_elem_of_In, filter_In, <- list_elem_of_In, Hc, list_elem_of_In, filter_In, <- list_elem_of_In.
  unfold matchesEvent. rewrite existsb_exists. setoid_rewrite orb_true_iff. setoid_rewrite String.eqb_eq.
  setoid_rewrite <- list_elem_of_In. naive_solver.
Qed.
End facts.

(** ** Runs *)

Definition toy_web : WebEnv := {|
  json_Marshal := fun e => Some ("{event " ++ ev_Type e ++ "}")%string;
  url_Parse := fun u => match cut_prefix u "https://" with Some h => Some ("https", h) | None => None end%string;
  http_NewRequest_ok := fun _ => true |}.

Definition demo_sub (id : string) (events : list string) : Subscription := {|
  su_ID := id; su_URL := "https://hooks.example"; su_Secret := "Jefe"; su_Events := events; su_IsActive := true; su_CreatedAt := 1 |}.

Definition demo_store : wstore := {|
  subscriptions := [demo_sub "w1" ["*"]; demo_sub "w2" ["user.created"]];
  subs := [demo_sub "w1" ["*"]; demo_sub "w2" ["user.created"]] |}.

Definition demo_event : Event := {| ev_ID := "e1"; ev_Type := "peer.added"; ev_Timestamp := Some 1; ev_Data := "" |}.

(** A server that is down, then busy, then sends the client on to another. *)
Definition demo_hop (addr : string) (r : hop_result) : hop :=
  {| h_dial := Some addr; h_lookup := fun _ => Some [[203; 0; 113; 9]]; h_result := r |}.

Definition demo_net (k : nat) : exchange :=
  match k with
  | O => [demo_hop "hooks.example:443" NoAnswer]
  | 1%nat => [demo_hop "hooks.example:443" (Answer 503 None)]
  | _ => [demo_hop "hooks.example:443" (Answer 308 (Some "https://new.example")); demo_hop "new.example:443" (Answer 200 None)]
  end%string.

Definition demo_delivery := @deliverWebhook toy_web demo_net (demo_sub "w1" ["*"%string]) demo_event.

Example addresses_judged :
  map isPrivateIP [[127; 0; 0; 1]; [172; 31; 255; 255]; [172; 32; 0; 1]; [203; 0; 113; 9]; IPv6loopback;
    (replicate 10 0 ++ [255; 255; 10; 1; 2; 3])%list; 0xfe :: 0xbf :: replicate 14 7; 0x20 :: 0x01 :: replicate 14 7] =
  [true; true; false; false; true; true; true; false].
Proof. by vm_compute. Qed.

Lemma isPrivateIP_blocks_witness :
  isPrivateIP [192; 168; 1; 9] = true /\ isPrivateIP [192; 168; 1; 9] = internal [192; 168; 1; 9].
Proof.
  split; [by vm_compute|]. apply isPrivateIP_blocks. split; [by left|]. repeat constructor; unfold is_byte; lia.
Defined.


Lemma deliveries_signed_witness :
  requests demo_delivery.2 = 4%nat /\ Forall (signed "Jefe" "{event peer.added}") demo_delivery.2.
Proof.
  split; [by vm_compute|].
  apply (@deliveries_signed toy_web demo_net (demo_sub "w1" ["*"%string]) demo_event "{event peer.added}"). done.
Defined.

Definition demo_serve (fail : nat -> bool) (r : request) := @serve sql_default toy_device_env toy_web fail r.

Lemma dispatch_exact_witness :
  let s' := (run (demo_serve noFail (DeleteSub "w2")) demo_store).1.2 in
  coherent s' /\
  (demo_sub "w1" ["*"%string] ∈ map fst (Dispatch "e2" 5 demo_event s') <->
   demo_sub "w1" ["*"%string] ∈ subscriptions s' /\ true = true /\
   ("*"%string ∈ ["*"%string] \/ "peer.added"%string ∈ ["*"%string])).
Proof.
  apply (@dispatch_exact sql_default toy_device_env toy_web noFail (DeleteSub "w2") demo_store "e2" 5 demo_event
    (demo_sub "w1" ["*"%string])); [|done]. unfold coherent. done.
Defined.

(** ** Where the code falls short *)

(** The result of the reload is dropped: when it fails the deletion is confirmed,
    and the deleted subscription goes on receiving events. *)
Theorem deleted_still_served :
  let out := run (demo_serve (fun k => Nat.eqb k 1) (DeleteSub "w1")) demo_store in
  out.1.1 = Reply 204 WbNone /\ ~ (demo_sub "w1" ["*"%string] ∈ subscriptions out.1.2) /\
  map fst (Dispatch "e2" 5 demo_event out.1.2) = [demo_sub "w1" ["*"%string]].
Proof. split; [by vm_compute|]. split; [vm_compute; set_solver|by vm_compute]. Qed.
