(* ===== verification/Scim.v ===== *)
(** * SCIM provisioning

    [internal/auth/scim/handler.go]: users and groups as an identity provider
    sees them.  The tables are those of file [Schema]; [external] is the column
    [scim_external_id] of [users] and [scim_token] the setting with the bearer
    token, as the text of its JSON value.  Bodies are decoded before; the value
    of a patch operation, which the code decodes itself, is a JSON value.  A
    statement that fails is named by its place: a path of numbers, one per loop
    it is in. *)

From S2P Require Import Prelude Json Schema Sha256 Login Policy Hub Devices Http Tables Groups.
From Stdlib Require Import ZArith Lia Ascii String.
From stdpp Require Import base gmap strings list sorting.

Local Open Scope Z_scope.
Local Open Scope string_scope.
Local Open Scope outpost_scope.

(** ** Resources *)

Record SCIMEmail := { em_Value : string; em_Type : string; em_Primary : bool }.

Record SCIMUser := {
  sc_ID : string;
  sc_ExternalID : string;
  sc_UserName : string;
  sc_GivenName : string;
  sc_FamilyName : string;
  sc_Formatted : string;
  sc_Emails : list SCIMEmail;
  sc_Active : bool;
  sc_Created : Z;
  sc_LastModified : Z;
}.

Record SCIMMember := { me_Value : string; me_Display : string; me_Ref : string }.

Record SCIMGroup := { sg_ID : string; sg_Name : string; sg_Members : list SCIMMember; sg_Created : Z }.

Record PatchOperation := { po_Op : string; po_Path : string; po_Value : json }.

Record CreateUserRequest := {
  sq_ExternalID : string;
  sq_UserName : string;
  sq_Name : option (string * string);      (* givenName, familyName *)
  sq_Emails : list SCIMEmail;
  sq_Active : option bool;
  sq_Password : string;
}.

Record SCIMListResponse (A : Type) := {
  TotalResults : Z;
  StartIndex : Z;
  ItemsPerPage : Z;
  Resources : list A;
}.
Arguments TotalResults {A}.
Arguments StartIndex {A}.
Arguments ItemsPerPage {A}.
Arguments Resources {A}.

(** ** Helpers *)

Definition quote : string := String "034" "".

(** [strPtrOrNil] and [nilIfEmpty]. *)
Definition strPtrOrNil (s : string) : option string := if String.eqb s "" then None else Some s.

Definition defaultCount : Z := 100.

Definition parseSCIMPagination (startIndex count : string) : Z * Z :=
  let s := queryInt startIndex 1 in
  let c := queryInt count defaultCount in
  let s := if (s <? 1)%Z then 1 else s in
  let c := if (c <? 1)%Z then defaultCount else c in
  (s, if (1000 <? c)%Z then 1000 else c).

(** The last primary address, or the first one. *)
Definition primaryEmail (l : list SCIMEmail) : string :=
  foldl (fun email e => if em_Primary e || String.eqb email "" then em_Value e else email) "" l.

(** [path[len(path)-len(suffix):] == suffix]: the text before it. *)
Fixpoint cut_suffix (s suffix : string) : option string :=
  if String.eqb s suffix then Some ""
  else match s with
       | EmptyString => None
       | String c s => option_map (String c) (cut_suffix s suffix)
       end.

Definition filterPrefix : string := "members[value eq " ++ quote.
Definition filterSuffix : string := quote ++ "]".

Definition parseMemberFilter (path : string) : option string :=
  match cut_prefix path filterPrefix with
  | Some rest => match cut_suffix rest filterSuffix with Some "" => None | id => id end
  | None => None
  end.

(** The text of a [jsonb] string without its quotes. *)
Definition trimJSONString (s : string) : string :=
  match cut_prefix s quote with
  | Some rest => match cut_suffix rest quote with Some t => t | None => s end
  | None => s
  end.

(** *** Values of patch operations

    The body was decoded into [any]: an object is a Go map, where the last of
    equal keys counts.  [json.Marshal] writes its keys in order, and
    [json.Unmarshal] reads them into a struct. *)
Definition as_map (l : list (string * json)) : gmap string json := foldl (fun m kv => <[kv.1 := kv.2]> m) ∅ l.

Definition key_le (a b : string * json) : Prop := String.leb a.1 b.1 = true.
#[export] Instance key_le_dec : RelDecision key_le := fun a b => bool_eq_dec (String.leb a.1 b.1) true.

Definition marshalled (l : list (string * json)) : list (string * json) :=
  merge_sort key_le (map_to_list (as_map l)).

(** A key into a string or a boolean: [null] leaves it as it is. *)
Definition string_into (old : string) (v : json) : option string :=
  match v with JNull => Some old | JString s => Some s | _ => None end.
Definition bool_into (old : bool) (v : json) : option bool :=
  match v with JNull => Some old | JBool b => Some b | _ => None end.

Definition email_key (e : SCIMEmail) (kv : string * json) : option SCIMEmail :=
  let '(k, v) := kv in
  if same_key k "value" then (fun x => {| em_Value := x; em_Type := em_Type e; em_Primary := em_Primary e |}) <$> string_into (em_Value e) v
  else if same_key k "type" then (fun x => {| em_Value := em_Value e; em_Type := x; em_Primary := em_Primary e |}) <$> string_into (em_Type e) v
  else if same_key k "primary" then (fun x => {| em_Value := em_Value e; em_Type := em_Type e; em_Primary := x |}) <$> bool_into (em_Primary e) v
  else Some e.

Definition member_key (m : SCIMMember) (kv : string * json) : option SCIMMember :=
  let '(k, v) := kv in
  if same_key k "value" then (fun x => {| me_Value := x; me_Display := me_Display m; me_Ref := me_Ref m |}) <$> string_into (me_Value m) v
  else if same_key k "display" then (fun x => {| me_Value := me_Value m; me_Display := x; me_Ref := me_Ref m |}) <$> string_into (me_Display m) v
  else if same_key k "$ref" then (fun x => {| me_Value := me_Value m; me_Display := me_Display m; me_Ref := x |}) <$> string_into (me_Ref m) v
  else Some m.

(** A slice of structs; an element [null] stays zero. *)
Definition unmarshalList {A} (zero : A) (key : A -> string * json -> option A) (v : json) : option (list A) :=
  match v with
  | JNull => Some []
  | JArray l => mapM (fun e => match e with
      | JNull => Some zero
      | JObject kvs => foldl (fun x kv => x ≫= fun x => key x kv) (Some zero) (marshalled kvs)
      | _ => None
      end) l
  | _ => None
  end.

Definition patchValueToEmails (v : json) : option (list SCIMEmail) :=
  unmarshalList {| em_Value := ""; em_Type := ""; em_Primary := false |} email_key v.

Definition patchValueToMembers (v : json) : option (list SCIMMember) :=
  unmarshalList {| me_Value := ""; me_Display := ""; me_Ref := "" |} member_key v.

(** How deep a value is nested: the recursion of the patches goes no deeper. *)
Fixpoint json_depth (v : json) : nat :=
  match v with
  | JArray l => S (foldr (fun x n => Nat.max (json_depth x) n) 0%nat l)
  | JObject l => S (foldr (fun kv n => Nat.max (json_depth kv.2) n) 0%nat l)
  | _ => 1%nat
  end.

(** ** Tables *)

Record sstore := { sbase : db; external : gmap string string; scim_token : option string }.

Definition set_sbase (s : sstore) d := {| sbase := d; external := external s; scim_token := scim_token s |}.
Definition set_external (s : sstore) m := {| sbase := sbase s; external := m; scim_token := scim_token s |}.

(** A statement on the other tables. *)
Definition on_base {A} (st : stmt db A) : stmt sstore A := fun s =>
  match st (sbase s) with inl (a, d) => inl (a, set_sbase s d) | inr e => inr e end.

(** What an [UPDATE users] sets; the last change is always set. *)
Record user_set := {
  us_username : option string;
  us_email : option string;
  us_first : option string;
  us_last : option string;
  us_active : option bool;
  us_external : option (option string);
}.

Definition apply_set (now : Z) (x : user_set) (u : user) : user := {|
  u_id := u_id u; u_username := default (u_username u) (us_username x); u_email := default (u_email u) (us_email x);
  u_password_hash := u_password_hash u; u_first_name := default (u_first_name u) (us_first x);
  u_last_name := default (u_last_name u) (us_last x); u_phone := u_phone u;
  u_is_active := default (u_is_active u) (us_active x); u_is_admin := u_is_admin u; u_mfa_enabled := u_mfa_enabled u;
  u_created_at := u_created_at u; u_updated_at := now |}.

Definition apply_external (id : string) (x : user_set) (m : gmap string string) : gmap string string :=
  match us_external x with
  | None => m
  | Some None => delete id m
  | Some (Some e) => <[id := e]> m
  end.

(** [UPDATE users SET .. WHERE id = $1]: the row as it is then, if there is one. *)
Definition set_user (now : Z) (id : string) (x : user_set) : stmt sstore (option user) := fun s =>
  let d := sbase s in
  match byKey u_id (users d) id with
  | None => inl (None, s)
  | Some u =>
      let u' := apply_set now x u in
      if clash u_id (Some ∘ u_username) (users d) id (Some (u_username u')) then inr (ErrUnique "users_username_key")
      else if clash u_id (Some ∘ u_email) (users d) id (Some (u_email u')) then inr (ErrUnique "users_email_key")
      else inl (Some u', set_external (set_sbase s (set_users d (upd u_id id (apply_set now x) (users d)))) (apply_external id x (external s)))
  end.

(** The same with [RETURNING] and [Scan]: no row is an error. *)
Definition returning {A} (st : stmt sstore (option A)) : stmt sstore A := fun s =>
  match st s with inl (Some a, s') => inl (a, s') | inl (None, _) => inr ErrNoRows | inr e => inr e end.

Definition insert_scim_user (newID : string) (now : Z) (username email hash first last : string) (active : bool) (ext : option string)
  : stmt sstore user := fun s =>
  let d := sbase s in
  let u := {| u_id := newID; u_username := username; u_email := email; u_password_hash := Some hash; u_first_name := first;
              u_last_name := last; u_phone := None; u_is_active := active; u_is_admin := false; u_mfa_enabled := false;
              u_created_at := now; u_updated_at := now |} in
  if has u_id (users d) newID then inr (ErrUnique "users_pkey")
  else if has u_username (users d) username then inr (ErrUnique "users_username_key")
  else if has u_email (users d) email then inr (ErrUnique "users_email_key")
  else inl (u, set_external (set_sbase s (set_users d (users d ++ [u])%list))
                 (match ext with Some e => <[newID := e]> (external s) | None => external s end)).

(** [DELETE FROM user_groups WHERE group_id = $1]. *)
Definition clear_members (gid : string) : stmt db unit := fun d =>
  inl (tt, set_user_groups d (without snd (user_groups d) gid)).

(** [UPDATE groups SET name = $2 WHERE id = $1]. *)
Definition rename_group (id name : string) : stmt db (option group) := fun d =>
  match update_group id (Some name) None d with
  | inr ErrNoRows => inl (None, d)
  | inr e => inr e
  | inl (g, d') => inl (Some g, d')
  end.

(** ** The endpoints *)

Inductive scimBody :=
| SbUsers (r : SCIMListResponse SCIMUser)
| SbUser (u : SCIMUser)
| SbGroups (r : SCIMListResponse SCIMGroup)
| SbGroup (g : SCIMGroup)
| SbDocument (j : json)
| SbNone.

Definition dbUserToSCIM (u : user) (ext : option string) : SCIMUser := {|
  sc_ID := u_id u; sc_ExternalID := default "" ext; sc_UserName := u_username u; sc_GivenName := u_first_name u;
  sc_FamilyName := u_last_name u; sc_Formatted := u_first_name u ++ " " ++ u_last_name u;
  sc_Emails := if String.eqb (u_email u) "" then [] else [{| em_Value := u_email u; em_Type := "work"; em_Primary := true |}];
  sc_Active := u_is_active u; sc_Created := u_created_at u; sc_LastModified := u_updated_at u |}.

Definition dbGroupToSCIM (id name : string) (createdAt : Z) (members : list SCIMMember) : SCIMGroup := {|
  sg_ID := id; sg_Name := name; sg_Members := members; sg_Created := createdAt |}.

Section handlers.
Context `{GoRange} `{SqlOrder} `{DeviceEnv} `{AuthEnv} {E : Type}.
Context (fail : list nat -> bool).

Definition userOf (s : sstore) (u : user) : SCIMUser := dbUserToSCIM u (external s !! u_id u).

(** *** Users *)

Definition listUsers (startIndex count : string) : H sstore E (Z * scimBody) :=
  let '(start, n) := parseSCIMPagination startIndex count in
  let! total := query (fail [0]%nat) (fun s => Z.of_nat (length (users (sbase s)))) 500 "failed to count users" in
  let! win := query (fail [1]%nat) (fun s => window n (start - 1) (rows_by 120 u_created_at (users (sbase s)))) 500 "failed to list users" in
  let! l := the win 500 "failed to list users" in
  do! require (match l with [] => true | _ => negb (fail [2]%nat) end) 500 "failed to read user" in
  do! require (negb (fail [3]%nat)) 500 "failed to iterate users" in
  let! us := asks (fun s => map (userOf s) l) in
  respondJSON 200 (SbUsers {| TotalResults := total; StartIndex := start; ItemsPerPage := Z.of_nat (length us); Resources := us |}).

(** A password is always set; [random] are the bytes read for it. *)
Definition scimPassword (random : list Z) (password : string) : string :=
  if String.eqb password "" then "scim-" ++ EncodeToString random else password.

Definition givenName (req : CreateUserRequest) : string := default "" (fst <$> sq_Name req).
Definition familyName (req : CreateUserRequest) : string := default "" (snd <$> sq_Name req).

Definition createUser (newID : string) (now : Z) (random : list Z) (body : option CreateUserRequest) : H sstore E (Z * scimBody) :=
  let! req := the body 400 "invalid JSON" in
  do! require (negb (String.eqb (sq_UserName req) "")) 400 "userName is required" in
  let email := primaryEmail (sq_Emails req) in
  let isActive := default true (sq_Active req) in
  let! hash := the (HashPassword (scimPassword random (sq_Password req))) 500 "failed to create user" in
  let! u := exec (fail [0]%nat) (insert_scim_user newID now (sq_UserName req) email hash (givenName req) (familyName req) isActive
      (strPtrOrNil (sq_ExternalID req))) (fun _ => (409, "user already exists or invalid data")) in
  respondJSON 201 (SbUser (dbUserToSCIM u (strPtrOrNil (sq_ExternalID req)))).

(** Every error of the query is answered 404. *)
Definition showUser (k : nat) (id : string) : H sstore E (Z * scimBody) :=
  let! row := query (fail [k]) (fun s => userOf s <$> byKey u_id (users (sbase s)) id) 404 "user not found" in
  let! u := the row 404 "user not found" in
  respondJSON 200 (SbUser u).

Definition getUser (rawId : string) : H sstore E (Z * scimBody) :=
  let! id := the (uuid_Parse rawId) 400 "invalid user ID" in
  showUser 0 id.

Definition replaceUser (now : Z) (rawId : string) (body : option CreateUserRequest) : H sstore E (Z * scimBody) :=
  let! id := the (uuid_Parse rawId) 400 "invalid user ID" in
  let! req := the body 400 "invalid JSON" in
  let ext := strPtrOrNil (sq_ExternalID req) in
  let! u := exec (fail [0]%nat) (returning (set_user now id {| us_username := Some (sq_UserName req);
      us_email := Some (primaryEmail (sq_Emails req)); us_first := Some (givenName req); us_last := Some (familyName req);
      us_active := Some (default true (sq_Active req)); us_external := Some ext |})) (fun _ => (404, "user not found")) in
  respondJSON 200 (SbUser (dbUserToSCIM u ext)).

(** The text of a database error is the driver's. *)
Definition dbError (e : sql_error) : refusal := (400, "database error").

Definition setting (path : list nat) (now : Z) (id : string) (x : user_set) : H sstore E unit :=
  do! exec (fail path) (set_user now id x) dbError in
  ret tt.

(** A loop over the entries of a map. *)
Fixpoint forEach {A} (k : nat) (l : list A) (body : nat -> A -> H sstore E unit) : H sstore E unit :=
  match l with
  | [] => ret tt
  | x :: l => do! body k x in forEach (S k) l body
  end.

(** [fuel] bounds the recursion into objects under empty keys; running out of it
    is an answer the code cannot give. *)
Definition out_of_fuel : refusal := (0, "out of fuel").

Fixpoint applyUserReplace (fuel : nat) (path : list nat) (now : Z) (id : string) (attr : string) (v : json) : H sstore E unit :=
  match fuel with
  | O => stop out_of_fuel
  | S fuel =>
      if String.eqb attr "active" || String.eqb attr "Active" then
        match v with
        | JBool b => setting path now id {| us_username := None; us_email := None; us_first := None; us_last := None; us_active := Some b; us_external := None |}
        | _ => respondError 400 "invalid value for active: expected boolean"
        end
      else if String.eqb attr "userName" then
        match v with
        | JString x => setting path now id {| us_username := Some x; us_email := None; us_first := None; us_last := None; us_active := None; us_external := None |}
        | _ => respondError 400 "invalid value for userName: expected string"
        end
      else if String.eqb attr "name.givenName" then
        match v with
        | JString x => setting path now id {| us_username := None; us_email := None; us_first := Some x; us_last := None; us_active := None; us_external := None |}
        | _ => respondError 400 "invalid value for name.givenName: expected string"
        end
      else if String.eqb attr "name.familyName" then
        match v with
        | JString x => setting path now id {| us_username := None; us_email := None; us_first := None; us_last := Some x; us_active := None; us_external := None |}
        | _ => respondError 400 "invalid value for name.familyName: expected string"
        end
      else if String.eqb attr "emails" then
        let! l := the (patchValueToEmails v) 400 "invalid emails format" in
        setting path now id {| us_username := None; us_email := Some (primaryEmail l); us_first := None; us_last := None; us_active := None; us_external := None |}
      else if String.eqb attr "externalId" then
        let x := match v with JString x => x | _ => "" end in
        setting path now id {| us_username := None; us_email := None; us_first := None; us_last := None; us_active := None; us_external := Some (strPtrOrNil x) |}
      else if String.eqb attr "" then
        match v with
        | JObject l => forEach 0 (range 121 (as_map l)) (fun k kv => applyUserReplace fuel (k :: path) now id kv.1 kv.2)
        | _ => respondError 400 "expected object value when path is empty"
        end
      else respondError 400 ("unsupported patch path: " ++ attr)
  end.

Definition is_op (a b : string) (op : PatchOperation) : bool := String.eqb (po_Op op) a || String.eqb (po_Op op) b.

(** Deep enough for the value at hand. *)
Definition replaceAttr (path : list nat) (now : Z) (id : string) (attr : string) (v : json) : H sstore E unit :=
  applyUserReplace (S (json_depth v)) path now id attr v.

Definition patchUserOp (k : nat) (now : Z) (id : string) (op : PatchOperation) : H sstore E unit :=
  if is_op "replace" "Replace" op || is_op "add" "Add" op then replaceAttr [k; 0]%nat now id (po_Path op) (po_Value op)
  else if is_op "remove" "Remove" op then replaceAttr [k; 0]%nat now id (po_Path op) JNull
  else respondError 400 ("unsupported operation: " ++ po_Op op).

Definition patchUser (now : Z) (rawId : string) (body : option (list PatchOperation)) : H sstore E (Z * scimBody) :=
  let! id := the (uuid_Parse rawId) 400 "invalid user ID" in
  let! ops := the body 400 "invalid JSON" in
  do! forEach 0 ops (fun k op => patchUserOp k now id op) in
  showUser 1 id.

Definition deleteUser (now : Z) (rawId : string) : H sstore E (Z * scimBody) :=
  let! id := the (uuid_Parse rawId) 400 "invalid user ID" in
  do! exec (fail [0]%nat) (returning (set_user now id {| us_username := None; us_email := None; us_first := None; us_last := None;
      us_active := Some false; us_external := None |}))
    (fun e => match e with ErrNoRows => (404, "user not found") | _ => (500, "failed to deactivate user") end) in
  respondJSON 204 SbNone.

(** *** Groups *)

(** [JOIN users .. ORDER BY u.username], in the database's collation. *)
Definition memberRows (gid : string) (s : sstore) : list SCIMMember :=
  rows 122 (m ← user_groups (sbase s); u ← users (sbase s);
    if String.eqb m.2 gid && String.eqb (u_id u) m.1
    then [{| me_Value := u_id u; me_Display := u_username u; me_Ref := "" |}] else []).

Definition loadGroupMembers (path : list nat) (gid : string) (s : sstore) : option (list SCIMMember) :=
  let l := memberRows gid s in
  if fail (0 :: path)%nat then None
  else if match l with [] => false | _ => fail (1 :: path)%nat end then None
  else if fail (2 :: path)%nat then None
  else Some l.

Definition groupOf (path : list nat) (s : sstore) (g : group) : option SCIMGroup :=
  dbGroupToSCIM (gr_id g) (gr_name g) (gr_created_at g) <$> loadGroupMembers path (gr_id g) s.

Definition listGroups (startIndex count : string) : H sstore E (Z * scimBody) :=
  let '(start, n) := parseSCIMPagination startIndex count in
  let! total := query (fail [0]%nat) (fun s => Z.of_nat (length (groups (sbase s)))) 500 "failed to count groups" in
  let! win := query (fail [1]%nat) (fun s => window n (start - 1) (rows_by 123 gr_created_at (groups (sbase s)))) 500 "failed to list groups" in
  let! l := the win 500 "failed to list groups" in
  do! require (match l with [] => true | _ => negb (fail [2]%nat) end) 500 "failed to read group" in
  let! loaded := asks (fun s => mapM (fun kg => groupOf [kg.1; 4]%nat s kg.2) (zip (seq 0 (length l)) l)) in
  let! gs := the loaded 500 "failed to load group members" in
  do! require (negb (fail [3]%nat)) 500 "failed to iterate groups" in
  respondJSON 200 (SbGroups {| TotalResults := total; StartIndex := start; ItemsPerPage := Z.of_nat (length gs); Resources := gs |}).

Record groupRequest := { gq_DisplayName : string; gq_Members : list SCIMMember }.

(** Errors are logged, and an identifier that does not parse is skipped. *)
Definition addLogged (gid : string) (k : nat) (m : SCIMMember) : H sstore E unit :=
  match uuid_Parse (me_Value m) with
  | None => ret tt
  | Some uid => do! attempt (fail [k; 5]%nat) (on_base (insert_member uid gid)) in ret tt
  end.

(** After a failure the reply has no members. *)
Definition reloaded (gid : string) : H sstore E (list SCIMMember) :=
  asks (fun s => default [] (loadGroupMembers [6]%nat gid s)).

Definition createGroup (newID : string) (now : Z) (body : option groupRequest) : H sstore E (Z * scimBody) :=
  let! req := the body 400 "invalid JSON" in
  do! require (negb (String.eqb (gq_DisplayName req) "")) 400 "displayName is required" in
  let! g := exec (fail [0]%nat) (on_base (insert_group newID now (gq_DisplayName req) "")) (fun _ => (409, "group already exists or invalid data")) in
  do! forEach 0 (gq_Members req) (addLogged (gr_id g)) in
  let! members := reloaded (gr_id g) in
  respondJSON 201 (SbGroup (dbGroupToSCIM (gr_id g) (gq_DisplayName req) (gr_created_at g) members)).

Definition showGroup (k : nat) (id : string) : H sstore E (Z * scimBody) :=
  let! row := query (fail [k]) (fun s => byKey gr_id (groups (sbase s)) id) 404 "group not found" in
  let! g := the row 404 "group not found" in
  let! loaded := asks (fun s => groupOf [k; 7]%nat s g) in
  let! r := the loaded 500 "failed to load group members" in
  respondJSON 200 (SbGroup r).

Definition getGroup (rawId : string) : H sstore E (Z * scimBody) :=
  let! id := the (uuid_Parse rawId) 400 "invalid group ID" in
  showGroup 0 id.

Definition replaceGroup (rawId : string) (body : option groupRequest) : H sstore E (Z * scimBody) :=
  let! id := the (uuid_Parse rawId) 400 "invalid group ID" in
  let! req := the body 400 "invalid JSON" in
  do! require (negb (String.eqb (gq_DisplayName req) "")) 400 "displayName is required" in
  let! g := exec (fail [0]%nat) (returning (on_base (rename_group id (gq_DisplayName req)))) (fun _ => (404, "group not found")) in
  do! exec (fail [1]%nat) (on_base (clear_members id)) (fun _ => (500, "failed to update group members")) in
  do! forEach 0 (gq_Members req) (addLogged id) in
  let! members := reloaded id in
  respondJSON 200 (SbGroup (dbGroupToSCIM id (gq_DisplayName req) (gr_created_at g) members)).

(** Here an error ends the request; what was done before stays. *)
Definition addMember (path : list nat) (gid : string) (k : nat) (m : SCIMMember) : H sstore E unit :=
  match uuid_Parse (me_Value m) with
  | None => ret tt
  | Some uid => exec (fail (k :: path)) (on_base (insert_member uid gid)) (fun _ => (400, "failed to add member " ++ me_Value m))
  end.

Definition dropMember (path : list nat) (gid : string) (k : nat) (m : SCIMMember) : H sstore E unit :=
  match uuid_Parse (me_Value m) with
  | None => ret tt
  | Some uid => do! exec (fail (k :: path)) (on_base (delete_member uid gid)) (fun _ => (400, "failed to remove member " ++ me_Value m)) in ret tt
  end.

Definition setName (path : list nat) (id : string) (v : json) : H sstore E unit :=
  match v with
  | JString x => do! exec (fail path) (on_base (rename_group id x)) dbError in ret tt
  | _ => respondError 400 "invalid value for displayName: expected string"
  end.

Fixpoint applyGroupPatch (fuel : nat) (path : list nat) (id attr : string) (v : json) : H sstore E unit :=
  match fuel with
  | O => stop out_of_fuel
  | S fuel =>
      if String.eqb attr "displayName" then setName path id v
      else if String.eqb attr "members" then
        let! ms := the (patchValueToMembers v) 400 "invalid members format" in
        do! exec (fail path) (on_base (clear_members id)) (fun _ => (400, "failed to clear members")) in
        forEach 0 ms (addMember (8 :: path)%nat id)
      else if String.eqb attr "" then
        match v with
        | JObject l => forEach 0 (range 124 (as_map l)) (fun k kv => applyGroupPatch fuel (k :: path) id kv.1 kv.2)
        | _ => respondError 400 "expected object value when path is empty"
        end
      else respondError 400 ("unsupported patch path: " ++ attr)
  end.

Fixpoint applyGroupAdd (fuel : nat) (path : list nat) (id attr : string) (v : json) : H sstore E unit :=
  match fuel with
  | O => stop out_of_fuel
  | S fuel =>
      if String.eqb attr "members" then
        let! ms := the (patchValueToMembers v) 400 "invalid members format" in
        forEach 0 ms (addMember (8 :: path)%nat id)
      else if String.eqb attr "displayName" then applyGroupPatch 1 path id attr v
      else if String.eqb attr "" then
        match v with
        | JObject l => forEach 0 (range 125 (as_map l)) (fun k kv => applyGroupAdd fuel (k :: path) id kv.1 kv.2)
        | _ => respondError 400 "expected object value when path is empty"
        end
      else respondError 400 ("unsupported patch path: " ++ attr)
  end.

Definition applyGroupRemove (path : list nat) (id attr : string) (v : json) : H sstore E unit :=
  match parseMemberFilter attr with
  | Some memberID =>
      let! uid := the (uuid_Parse memberID) 400 ("invalid member ID in filter: " ++ memberID) in
      do! exec (fail path) (on_base (delete_member uid id)) dbError in ret tt
  | None =>
      if String.eqb attr "members" then
        match v with
        | JNull => exec (fail path) (on_base (clear_members id)) dbError
        | _ => let! ms := the (patchValueToMembers v) 400 "invalid members format" in
               forEach 0 ms (dropMember (8 :: path)%nat id)
        end
      else respondError 400 ("unsupported remove path: " ++ attr)
  end.

Definition patchGroupOp (k : nat) (id : string) (op : PatchOperation) : H sstore E unit :=
  let v := po_Value op in
  if is_op "replace" "Replace" op then applyGroupPatch (S (json_depth v)) [k; 1]%nat id (po_Path op) v
  else if is_op "add" "Add" op then applyGroupAdd (S (json_depth v)) [k; 1]%nat id (po_Path op) v
  else if is_op "remove" "Remove" op then applyGroupRemove [k; 1]%nat id (po_Path op) v
  else respondError 400 ("unsupported operation: " ++ po_Op op).

Definition patchGroup (rawId : string) (body : option (list PatchOperation)) : H sstore E (Z * scimBody) :=
  let! id := the (uuid_Parse rawId) 400 "invalid group ID" in
  let! exists_ := query (fail [0]%nat) (fun s => has gr_id (groups (sbase s)) id) 404 "group not found" in
  do! require exists_ 404 "group not found" in
  let! ops := the body 400 "invalid JSON" in
  do! forEach 0 ops (fun k op => patchGroupOp k id op) in
  showGroup 2 id.

Definition deleteGroup (rawId : string) : H sstore E (Z * scimBody) :=
  let! id := the (uuid_Parse rawId) 400 "invalid group ID" in
  do! deleting (fail [0]%nat) (on_base (delete_group id)) "failed to delete group" "group not found" in
  respondJSON 204 SbNone.
End handlers.

(** *** Discovery *)

Definition JStr (s : string) : json := JString s.

Definition supported (b : bool) (more : list (string * json)) : json := JObject (("supported", JBool b) :: more).

Definition serviceProviderConfig {E} : H sstore E (Z * scimBody) :=
  respondJSON 200 (SbDocument (JObject [
    ("schemas", JArray [JStr "urn:ietf:params:scim:schemas:core:2.0:ServiceProviderConfig"]);
    ("documentationUri", JStr "https://outpost.example.com/docs/scim");
    ("patch", supported true []);
    ("bulk", supported false [("maxOperations", JInt 0); ("maxPayloadSize", JInt 0)]);
    ("filter", supported true [("maxResults", JInt 200)]);
    ("changePassword", supported false []); ("sort", supported false []); ("etag", supported false []);
    ("authenticationSchemes", JArray [JObject [("name", JStr "OAuth Bearer Token");
       ("description", JStr "Authentication scheme using the OAuth Bearer Token Standard");
       ("specUri", JStr "https://www.rfc-editor.org/info/rfc6750"); ("type", JStr "oauthbearertoken"); ("primary", JBool true)]])])).

Definition attribute (name type : string) (multi : bool) (more : list (string * json)) : json :=
  JObject ([("name", JStr name); ("type", JStr type); ("multiValued", JBool multi)] ++ more)%list.

Definition optional_ : list (string * json) := [("required", JBool false)].
Definition subs_ (l : list json) : list (string * json) := [("subAttributes", JArray l)].

Definition schemaOf (id name description : string) (attributes : list json) : json :=
  JObject [("schemas", JArray [JStr "urn:ietf:params:scim:schemas:core:2.0:Schema"]); ("id", JStr id); ("name", JStr name);
           ("description", JStr description); ("attributes", JArray attributes)].

Definition schemas {E} : H sstore E (Z * scimBody) :=
  respondJSON 200 (SbDocument (JObject [
    ("schemas", JArray [JStr "urn:ietf:params:scim:api:messages:2.0:ListResponse"]);
    ("totalResults", JInt 2); ("startIndex", JInt 1); ("itemsPerPage", JInt 2);
    ("Resources", JArray [
      schemaOf "urn:ietf:params:scim:schemas:core:2.0:User" "User" "User Account" [
        attribute "userName" "string" false [("required", JBool true); ("uniqueness", JStr "server")];
        attribute "name" "complex" false (optional_ ++ subs_ [attribute "givenName" "string" false [];
          attribute "familyName" "string" false []; attribute "formatted" "string" false []])%list;
        attribute "emails" "complex" true (optional_ ++ subs_ [attribute "value" "string" false [];
          attribute "type" "string" false []; attribute "primary" "boolean" false []])%list;
        attribute "active" "boolean" false optional_;
        attribute "externalId" "string" false optional_];
      schemaOf "urn:ietf:params:scim:schemas:core:2.0:Group" "Group" "Group" [
        attribute "displayName" "string" false [("required", JBool true)];
        attribute "members" "complex" true (optional_ ++ subs_ [attribute "value" "string" false [];
          attribute "display" "string" false []; attribute "$ref" "reference" false []])%list]])])).

(** ** Routes *)

Inductive request :=
| ListUsers (startIndex count : string)
| CreateUser (newID : string) (now : Z) (random : list Z) (body : option CreateUserRequest)
| GetUser (id : string)
| ReplaceUser (now : Z) (id : string) (body : option CreateUserRequest)
| PatchUser (now : Z) (id : string) (body : option (list PatchOperation))
| DeleteUser (now : Z) (id : string)
| ListGroups (startIndex count : string)
| CreateGroup (newID : string) (now : Z) (body : option groupRequest)
| GetGroup (id : string)
| ReplaceGroup (id : string) (body : option groupRequest)
| PatchGroup (id : string) (body : option (list PatchOperation))
| DeleteGroup (id : string)
| ServiceProviderConfig
| Schemas.

Section routes.
Context `{GoRange} `{SqlOrder} `{DeviceEnv} `{AuthEnv} {E : Type}.

Definition serve (fail : list nat -> bool) (r : request) : H sstore E (Z * scimBody) :=
  match r with
  | ListUsers a b => listUsers fail a b
  | CreateUser newID now random body => createUser fail newID now random body
  | GetUser id => getUser fail id
  | ReplaceUser now id body => replaceUser fail now id body
  | PatchUser now id body => patchUser fail now id body
  | DeleteUser now id => deleteUser fail now id
  | ListGroups a b => listGroups fail a b
  | CreateGroup newID now body => createGroup fail newID now body
  | GetGroup id => getGroup fail id
  | ReplaceGroup id body => replaceGroup fail id body
  | PatchGroup id body => patchGroup fail id body
  | DeleteGroup id => deleteGroup fail id
  | ServiceProviderConfig => serviceProviderConfig
  | Schemas => schemas
  end.

(** [len(authHeader) < 8]: the token has at least one character.  The comparison
    takes the same time for every text of a length; its result is equality. *)
Definition bearerTokenAuth {A} (queryFails : bool) (authHeader : string) (next : H sstore E A) : H sstore E A :=
  let! token := the (match cut_prefix authHeader "Bearer " with Some "" => None | t => t end) 401 "Bearer token required" in
  let! stored := query queryFails scim_token 403 "SCIM provisioning is not configured" in
  let! stored := the stored 403 "SCIM provisioning is not configured" in
  do! require (String.eqb token (trimJSONString stored)) 401 "Invalid bearer token" in
  next.

Definition endpoint (fail : list nat -> bool) (authHeader : string) (r : request) : H sstore E (Z * scimBody) :=
  bearerTokenAuth (fail [9]%nat) authHeader (serve fail r).
End routes.

(** ** What the requests keep *)

Section invariants.
Context `{GoRange} `{SqlOrder} `{DeviceEnv} `{AuthEnv} {E : Type} (I : sstore -> Prop).

(** An invariant of the statements. *)
Record kept : Prop := {
  kept_set now id x : stmt_preserves I (set_user now id x);
  kept_insert newID now name email hash first last active ext :
    stmt_preserves I (insert_scim_user newID now name email hash first last active ext);
  kept_add uid gid : stmt_preserves I (on_base (insert_member uid gid));
  kept_drop uid gid : stmt_preserves I (on_base (delete_member uid gid));
  kept_clear gid : stmt_preserves I (on_base (clear_members gid));
  kept_rename id name : stmt_preserves I (on_base (rename_group id name));
  kept_group newID now name : stmt_preserves I (on_base (insert_group newID now name ""));
  kept_delete id : stmt_preserves I (on_base (delete_group id));
}.

Lemma returning_preserves {A} (st : stmt sstore (option A)) : stmt_preserves I st -> stmt_preserves I (returning st).
Proof. intros Hst s a s' Hs. unfold returning. destruct (st s) as [[[b|] s1]|e] eqn:E1; intros; simplify_eq. by eapply Hst. Qed.

Lemma forEach_preserves {A} (l : list A) (body : nat -> A -> H sstore E unit) k :
  (forall k x, preserves I (body k x)) -> preserves I (forEach k l body).
Proof.
  intros Hb. revert k. induction l as [|x l IH]; intros k; cbn [forEach]; [apply preserves_ret|].
  apply preserves_bind; [apply Hb|]. intros _. apply IH.
Qed.

Hypothesis K : kept.
Variable fail : list nat -> bool.

Lemma setting_preserves path now id x : preserves (E := E) I (setting fail path now id x).
Proof. unfold setting. destruct K. invariant_steps; auto. Qed.

Lemma applyUserReplace_preserves fuel : forall path now id attr v, preserves (E := E) I (applyUserReplace fail fuel path now id attr v).
Proof.
  induction fuel as [|fuel IH]; intros path now id attr v; cbn [applyUserReplace]; [apply preserves_stop|].
  repeat match goal with |- preserves _ (if ?b then _ else _) => destruct b end; try case_match;
    first [ apply preserves_respondError | apply setting_preserves | apply preserves_the_bind; intros; apply setting_preserves
          | apply forEach_preserves; intros; apply IH ].
Qed.

Lemma addMember_preserves path gid k m : preserves (E := E) I (addMember fail path gid k m).
Proof. unfold addMember. destruct K. invariant_steps; auto. Qed.

Lemma applyGroupPatch_preserves fuel : forall path id attr v, preserves (E := E) I (applyGroupPatch fail fuel path id attr v).
Proof.
  destruct K. induction fuel as [|fuel IH]; intros path id attr v; cbn [applyGroupPatch]; [apply preserves_stop|].
  repeat match goal with |- preserves _ (if ?b then _ else _) => destruct b end; unfold setName; try case_match;
    try apply preserves_respondError; try (apply forEach_preserves; intros; apply IH); invariant_steps; auto.
  apply forEach_preserves. intros. apply addMember_preserves.
Qed.

Lemma applyGroupAdd_preserves fuel : forall path id attr v, preserves (E := E) I (applyGroupAdd fail fuel path id attr v).
Proof.
  induction fuel as [|fuel IH]; intros path id attr v; cbn [applyGroupAdd]; [apply preserves_stop|].
  repeat match goal with |- preserves _ (if ?b then _ else _) => destruct b end; try case_match;
    first [ apply preserves_respondError | apply (applyGroupPatch_preserves 1) | apply forEach_preserves; intros; apply IH
          | apply preserves_the_bind; intros; apply forEach_preserves; intros; apply addMember_preserves ].
Qed.

Lemma applyGroupRemove_preserves path id attr v : preserves (E := E) I (applyGroupRemove fail path id attr v).
Proof.
  destruct K. unfold applyGroupRemove, dropMember. repeat case_match; invariant_steps; auto;
    apply forEach_preserves; intros; invariant_steps; auto.
Qed.

Lemma patchUserOp_preserves k now id op : preserves (E := E) I (patchUserOp fail k now id op).
Proof. unfold patchUserOp, replaceAttr. repeat case_match; first [apply applyUserReplace_preserves | apply preserves_respondError]. Qed.

Lemma patchGroupOp_preserves k id op : preserves (E := E) I (patchGroupOp fail k id op).
Proof.
  unfold patchGroupOp. repeat case_match;
    first [apply applyGroupPatch_preserves | apply applyGroupAdd_preserves | apply applyGroupRemove_preserves | apply preserves_respondError].
Qed.

Lemma serve_preserves r : preserves (E := E) I (serve fail r).
Proof.
  destruct K as [Hset Hins Hadd Hdrop Hclear Hren Hgrp Hdel]. destruct r; cbn [serve];
    unfold listUsers, createUser, getUser, replaceUser, patchUser, deleteUser, listGroups, createGroup, getGroup, replaceGroup,
      patchGroup, deleteGroup, serviceProviderConfig, schemas, showUser, showGroup, reloaded;
    try (destruct (parseSCIMPagination _ _)); invariant_steps; auto;
    try (apply returning_preserves; auto; done);
    try (apply forEach_preserves; intros; first [apply patchUserOp_preserves | apply patchGroupOp_preserves
                                                | unfold addLogged; invariant_steps; auto]).
Qed.
End invariants.

(** *** The tables stay consistent *)

Definition scim_wf (s : sstore) : Prop :=
  integrity (sbase s) /\ forall id e, external s !! id = Some e -> id ∈ map u_id (users (sbase s)).

Lemma on_base_wf {A} (st : stmt db A) :
  stmt_preserves integrity st -> (forall d a d', st d = inl (a, d') -> users d' = users d) -> stmt_preserves scim_wf (on_base st).
Proof.
  intros Hst Hu s a s' [Hi He]. unfold on_base. destruct (st (sbase s)) as [[b d]|e] eqn:E1; [|done]. intros [= <- <-].
  split; [by eapply Hst|]. cbn. by rewrite (Hu _ _ _ E1).
Qed.

Lemma set_user_wf now id x : stmt_preserves scim_wf (set_user now id x).
Proof.
  intros s u s' [Hi He]. unfold set_user. destruct (byKey u_id _ id) as [u0|] eqn:Hk; [|intros; simplify_eq; by split].
  destruct (clash _ (Some ∘ u_username) _ _ _) eqn:Hn; [done|]. destruct (clash _ (Some ∘ u_email) _ _ _) eqn:Hm; [done|].
  intros [= <- <-]. apply byKey_Some in Hk as Hk'. destruct Hk' as [Hin Hid]. split; cbn.
  - keep_integrity Hi; (apply unique_upd_plain; [done..|]); intros y Hy Hyk; by rewrite (byKey_row u_id (users (sbase s)) id u0 y).
  - intros i e Hl. rewrite upd_keys by done. unfold apply_external in Hl.
    assert (id ∈ map u_id (users (sbase s))) as Hmem by (rewrite <- Hid; by apply list_elem_of_fmap_2).
    destruct (us_external x) as [[y|]|]; [|apply lookup_delete_Some in Hl as [_ Hl]|]; [|by eapply He..].
    apply lookup_insert_Some in Hl as [[<- _]|[_ Hl]]; [done|by eapply He].
Qed.

Lemma insert_scim_user_wf newID now name email hash first last active ext :
  stmt_preserves scim_wf (insert_scim_user newID now name email hash first last active ext).
Proof.
  intros s u s' [Hi He]. unfold insert_scim_user. repeat case_match; intros; simplify_eq; lookups; (split; cbn; [keep_integrity Hi|]);
    intros i e Hl; rewrite map_app; apply elem_of_app.
  - apply lookup_insert_Some in Hl as [[<- _]|[_ Hl]]; [right; by left|left; by eapply He].
  - left. by eapply He.
Qed.

Lemma clear_members_integrity gid : stmt_preserves integrity (clear_members gid).
Proof. intros d u d' Hi. unfold clear_members, without. intros; simplify_eq. keep_integrity Hi. Qed.

Lemma rename_group_integrity id name : stmt_preserves integrity (rename_group id name).
Proof.
  intros d u d' Hi. unfold rename_group. destruct (update_group id (Some name) None d) as [[g d1]|[]] eqn:E1; intros; simplify_eq; try done.
  by eapply update_group_integrity.
Qed.

(** What the statements on the other tables leave alone: all but groups,
    memberships and access rules. *)
Definition same_rest (d d' : db) : Prop :=
  users d' = users d /\ devices d' = devices d /\ networks d' = networks d /\ gateways d' = gateways d /\
  gateway_networks d' = gateway_networks d /\ device_posture d' = device_posture d /\
  device_trust_scores d' = device_trust_scores d /\ trust_auto d' = trust_auto d /\ ztna_policies d' = ztna_policies d /\
  smart_routes d' = smart_routes d /\ smart_route_entries d' = smart_route_entries d /\
  network_smart_routes d' = network_smart_routes d /\
  roles d' = roles d /\ user_roles d' = user_roles d /\ logins d' = logins d.

Lemma base_statements :
  (forall uid gid d a d', insert_member uid gid d = inl (a, d') -> same_rest d d') /\
  (forall uid gid d a d', delete_member uid gid d = inl (a, d') -> same_rest d d') /\
  (forall gid d a d', clear_members gid d = inl (a, d') -> same_rest d d') /\
  (forall id name d a d', rename_group id name d = inl (a, d') -> same_rest d d') /\
  (forall newID now name desc d a d', insert_group newID now name desc d = inl (a, d') -> same_rest d d') /\
  (forall id d a d', delete_group id d = inl (a, d') -> same_rest d d').
Proof.
  unfold rename_group, insert_member, delete_member, clear_members, update_group, insert_group, delete_group.
  repeat split; intros; repeat case_match; by simplify_eq.
Qed.

Lemma kept_wf : kept scim_wf.
Proof.
  destruct base_statements as (B1 & B2 & B3 & B4 & B5 & B6).
  split; intros; [apply set_user_wf|apply insert_scim_user_wf|..]; apply on_base_wf.
  - apply insert_member_integrity.
  - intros ? ? ? [Hu _]%B1. exact Hu.
  - apply delete_member_integrity.
  - intros ? ? ? [Hu _]%B2. exact Hu.
  - apply clear_members_integrity.
  - intros ? ? ? [Hu _]%B3. exact Hu.
  - apply rename_group_integrity.
  - intros ? ? ? [Hu _]%B4. exact Hu.
  - apply insert_group_integrity.
  - intros ? ? ? [Hu _]%B5. exact Hu.
  - apply delete_group_integrity.
  - intros ? ? ? [Hu _]%B6. exact Hu.
Qed.

(** *** What the token is good for *)

(** An account before and after: what provisioning does not touch. *)
Definition same_account (u0 u : user) : Prop :=
  u_id u = u_id u0 /\ u_password_hash u = u_password_hash u0 /\ u_phone u = u_phone u0 /\
  u_is_admin u = u_is_admin u0 /\ u_mfa_enabled u = u_mfa_enabled u0 /\ u_created_at u = u_created_at u0.

(** Compared with an earlier state: the token and the rest of the tables are as
    they were; no account is gone, and each of those that were there, in its
    place, keeps its identity, password, phone, administrator flag and second
    factor; those that come after them are new, have no second factor and are no
    administrators. *)
Definition confined (s0 s : sstore) : Prop :=
  scim_token s = scim_token s0 /\ same_rest (set_users (sbase s0) (users (sbase s))) (sbase s) /\
  exists old new, users (sbase s) = (old ++ new)%list /\ Forall2 same_account (users (sbase s0)) old /\
    Forall (fun u => u_is_admin u = false /\ u_mfa_enabled u = false /\
                     (u_id u ∉ map u_id (users (sbase s0)))) new.

Lemma confined_refl s : confined s s.
Proof.
  split; [done|]. split; [by repeat split|]. exists (users (sbase s)), []. split; [by rewrite app_nil_r|].
  split; [|done]. apply Forall2_same_length_lookup_2; [done|]. intros i x y E1 E2. by simplify_eq.
Qed.

Lemma on_base_confined {A} (st : stmt db A) s0 :
  (forall d a d', st d = inl (a, d') -> same_rest d d') -> stmt_preserves (confined s0) (on_base st).
Proof.
  intros Hst s a s' (Ht & Hr & Hu). unfold on_base. destruct (st (sbase s)) as [[b d]|e] eqn:E1; [|done]. intros [= <- <-].
  apply Hst in E1. unfold confined. split; [done|]. split.
  - unfold same_rest in *. cbn in *. destruct_and!. repeat split; congruence.
  - cbn. destruct E1 as [-> _]. exact Hu.
Qed.

Lemma same_rest_users d0 d l : same_rest (set_users d0 (users d)) d -> same_rest (set_users d0 l) (set_users d l).
Proof. unfold same_rest. cbn. tauto. Qed.

Lemma upd_app {A} (key : A -> string) k f (l1 l2 : list A) : upd key k f (l1 ++ l2) = (upd key k f l1 ++ upd key k f l2)%list.
Proof. unfold upd. apply map_app. Qed.

Lemma same_accounts_ids l0 l : Forall2 same_account l0 l -> map u_id l = map u_id l0.
Proof. induction 1 as [|? ? ? ? [E _] _ IH]; cbn; [done|]. by rewrite E, IH. Qed.

Lemma set_user_confined s0 now id x : stmt_preserves (confined s0) (set_user now id x).
Proof.
  intros s u s' Hc. unfold set_user. destruct (byKey u_id _ id) as [u0|]; [|intros; simplify_eq; exact Hc].
  destruct Hc as (Ht & Hr & old & new & Hl & Hold & Hnew).
  repeat case_match; intros; simplify_eq. split; [done|]. split; [by apply same_rest_users|]. cbn.
  exists (upd u_id id (apply_set now x) old), (upd u_id id (apply_set now x) new). rewrite Hl, upd_app. split; [done|]. split.
  - clear Hl Hr Hnew. induction Hold as [|a b l0 l Hab _ IH]; cbn; [constructor|]. constructor; [|exact IH].
    destruct (String.eqb (u_id b) id); [|done]. unfold same_account in *. cbn. tauto.
  - apply Forall_forall. intros y [[Hy _]|(z & Hz & _ & ->)]%elem_of_upd; rewrite Forall_forall in Hnew; [by apply Hnew|].
    by apply (Hnew z).
Qed.

Lemma insert_scim_user_confined s0 newID now name email hash first last active ext :
  stmt_preserves (confined s0) (insert_scim_user newID now name email hash first last active ext).
Proof.
  intros s u s' (Ht & Hr & old & new & Hl & Hold & Hnew). unfold insert_scim_user.
  destruct (has u_id (users (sbase s)) newID) eqn:Hid; [done|].
  destruct (has u_username _ _); [done|]. destruct (has u_email _ _); [done|]. intros [= <- <-].
  split; [done|]. split; [by apply same_rest_users|]. cbn. exists old. eexists (new ++ [_])%list. rewrite Hl, <- app_assoc.
  split; [reflexivity|]. split; [done|]. apply Forall_app. split; [done|]. apply Forall_singleton. cbn. do 2 (split; [done|]).
  apply has_false in Hid. rewrite <- (same_accounts_ids _ _ Hold). intros Hin. apply Hid. rewrite Hl, map_app.
  apply elem_of_app. by left.
Qed.

Lemma kept_confined s0 : kept (confined s0).
Proof.
  destruct base_statements as (B1 & B2 & B3 & B4 & B5 & B6).
  split; intros; [apply set_user_confined|apply insert_scim_user_confined|apply on_base_confined; eauto..].
Qed.

(** ** Texts *)

Lemma string_length_app (a b : string) : String.length (a ++ b) = (String.length a + String.length b)%nat.
Proof. induction a as [|c a IH]; [done|]. rewrite append_cons. cbn. by rewrite IH. Qed.

Lemma cut_suffix_Some s suffix t : cut_suffix s suffix = Some t <-> s = t ++ suffix.
Proof.
  revert t. induction s as [|c s IH]; intros t; cbn [cut_suffix].
  - destruct (String.eqb_spec "" suffix) as [<-|Hne]; split.
    + by intros [= <-].
    + destruct t; [done|]. by rewrite append_cons.
    + done.
    + destruct t; [by rewrite append_nil|by rewrite append_cons].
  - destruct (String.eqb_spec (String c s) suffix) as [<-|Hne]; split.
    + by intros [= <-].
    + intros Ht. destruct t as [|a t]; [done|]. apply (f_equal String.length) in Ht. rewrite string_length_app in Ht. cbn in Ht. lia.
    + destruct (cut_suffix s suffix) as [u|] eqn:E1; [|done]. intros [= <-]. rewrite append_cons. f_equal. by apply IH.
    + destruct t as [|a t]; [by rewrite append_nil|]. rewrite append_cons. intros [= <- Hs].
      by rewrite (proj2 (IH t) Hs).
Qed.

(** A filter as the identity providers write it. *)
Definition memberFilter (id : string) : string := filterPrefix ++ id ++ filterSuffix.

Lemma memberFilter_parses path id : parseMemberFilter path = Some id <-> id <> "" /\ path = memberFilter id.
Proof.
  unfold parseMemberFilter, memberFilter. split.
  - destruct (cut_prefix path filterPrefix) as [rest|] eqn:E1; [|done]. apply cut_prefix_Some in E1 as ->.
    destruct (cut_suffix rest filterSuffix) as [t|] eqn:E2; [|done]. apply cut_suffix_Some in E2 as ->.
    destruct t; [done|]. by intros [= <-].
  - intros [Hne ->]. rewrite cut_prefix_app, (proj2 (cut_suffix_Some _ _ id)) by done. by destruct id.
Qed.

(** A member filter is read back as it was written: the filter of an
    identifier yields the identifier, and every text that is accepted is the
    filter of the identifier it yields. *)
Theorem parseMemberFilter_roundtrip path id : parseMemberFilter path = Some id <-> id <> "" /\ path = memberFilter id.
Proof. apply memberFilter_parses. Qed.

(** ** The bearer token *)

Section theorems.
Context `{GoRange} `{SqlOrder} `{DeviceEnv} `{AuthEnv} {E : Type}.

(** The token a header presents is the one that is stored. *)
Definition authorised (authHeader : string) (s : sstore) : Prop :=
  exists token text, token <> "" /\ authHeader = "Bearer " ++ token /\ scim_token s = Some text /\ trimJSONString text = token.

(** C14. Nothing happens without the token.  When the query for the stored token is
    answered, a request whose header is "Bearer " and the stored token, which is
    not empty, is served as the handlers do, and any other is refused with 401 or
    403 and changes nothing; so without a stored token every request is
    refused. *)
Theorem token_required fail authHeader r s :
  fail [9]%nat = false ->
  (authorised authHeader s -> run (E := E) (endpoint fail authHeader r) s = run (serve fail r) s) /\
  (~ authorised authHeader s -> exists st msg, (st = 401 \/ st = 403) /\
     run (E := E) (endpoint fail authHeader r) s = (Failure st msg, s, [])).
Proof.
  intros Hf. unfold endpoint, bearerTokenAuth, authorised. rewrite Hf. split.
  - intros (token & text & Hne & -> & Ht & Htrim). rewrite cut_prefix_app.
    destruct token as [|c token]; [done|]. unfold run, bind, the, query, require, ret. rewrite Ht, Htrim, String.eqb_refl. cbn [app].
    by destruct (serve fail r s) as [[[[]|[]] ?] ?].
  - intros Hno. unfold run, bind, the, query, require, ret, respondError, stop.
    destruct (cut_prefix authHeader "Bearer ") as [[|c token]|] eqn:Hc; [eauto| |eauto]. apply cut_prefix_Some in Hc.
    destruct (scim_token s) as [text|] eqn:Ht; [|eauto]. destruct (String.eqb_spec (String c token) (trimJSONString text)) as [Heq|]; [|eauto].
    exfalso. apply Hno. by exists (String c token), text.
Qed.

(** C13. The token provisions, and no more: whatever is asked with it, the tables
    stay consistent and user identifiers of the provider belong to users; the
    devices, networks, gateways, policies, smart routes, roles and sessions are
    untouched; no account disappears, and every account that was there keeps its
    identifier, password, phone, administrator flag and second factor; a new
    account is no administrator and has no second factor. *)
Theorem scim_confined fail authHeader r s :
  scim_wf s -> scim_wf (run (E := E) (endpoint fail authHeader r) s).1.2 /\ confined s (run (E := E) (endpoint fail authHeader r) s).1.2.
Proof.
  assert (forall I, kept I -> preserves (E := E) I (endpoint fail authHeader r)) as Hk.
  { intros I HI. unfold endpoint, bearerTokenAuth. pose proof (serve_preserves (E := E) I HI fail r) as Hs. invariant_steps. }
  intros Hwf. split; apply preserves_run; [apply Hk, kept_wf|done|apply Hk, kept_confined|].
  apply confined_refl.
Qed.
End theorems.

(** ** The patches end *)

Lemma as_map_lookup l k v : as_map l !! k = Some v -> (k, v) ∈ l.
Proof.
  unfold as_map. induction l as [|[a b] l IH] using rev_ind; [cbn; by rewrite lookup_empty|].
  rewrite foldl_app. cbn. intros [[<- <-]|[_ Hl]]%lookup_insert_Some; apply elem_of_app; [right; by left|left; auto].
Qed.

Lemma entry_depth l k v : as_map l !! k = Some v -> (json_depth v < json_depth (JObject l))%nat.
Proof.
  intros Hin%as_map_lookup. cbn [json_depth]. apply Nat.lt_succ_r. induction l as [|[a b] l IH]; [by apply elem_of_nil in Hin|].
  cbn. apply elem_of_cons in Hin as [[= <- <-]|Hin]; [lia|]. specialize (IH Hin). lia.
Qed.

Section termination.
Context `{GoRange} `{SqlOrder} `{DeviceEnv} `{AuthEnv} {E : Type} (fail : list nat -> bool).

(** [m] never runs out of fuel. *)
Definition ends {A} (m : H sstore E A) : Prop := forall s, wp m (fun _ _ _ => True) (fun r _ _ => r.1 <> 0) s.

Lemma ends_bind {A C} (m : H sstore E A) (k : A -> H sstore E C) : ends m -> (forall a, ends (k a)) -> ends (bind m k).
Proof.
  intros Hm Hk s. apply wp_bind. eapply wp_mono; [| |apply (Hm s)]; [|done]. intros a s1 es _. apply Hk.
Qed.

Lemma ends_ret {A} (a : A) : ends (ret a).
Proof. by intros s. Qed.
Lemma ends_respondError {A} st msg : st <> 0 -> ends (respondError (A := A) st msg).
Proof. by intros Hst s. Qed.
Lemma ends_the {A} (o : option A) st msg : st <> 0 -> ends (the o st msg).
Proof. intros Hst s. by destruct o. Qed.
Lemma ends_require b st msg : st <> 0 -> ends (require b st msg).
Proof. intros Hst s. by destruct b. Qed.
Lemma ends_query {A} fails (f : sstore -> A) st msg : st <> 0 -> ends (query fails f st msg).
Proof. intros Hst s. by destruct fails. Qed.
Lemma ends_asks {A} (f : sstore -> A) : ends (asks f).
Proof. by intros s. Qed.
Lemma ends_exec {A} fails (st : stmt sstore A) onerr : (forall e, (onerr e).1 <> 0) -> ends (exec fails st onerr).
Proof. intros He s. apply wp_exec. destruct (if fails then _ else _) as [[a s']|e]; [done|apply He]. Qed.
Lemma ends_attempt {A} fails (st : stmt sstore A) : ends (attempt fails st).
Proof. intros s. apply wp_attempt. by destruct (if fails then _ else _) as [[a s']|e]. Qed.

Lemma ends_forEach {A} (l : list A) (body : nat -> A -> H sstore E unit) k :
  (forall k x, x ∈ l -> ends (body k x)) -> ends (forEach k l body).
Proof.
  revert k. induction l as [|x l IH]; intros k Hb; cbn [forEach]; [apply ends_ret|].
  apply ends_bind; [apply Hb; by left|]. intros _. apply IH. intros j y Hy. apply Hb. by right.
Qed.

Ltac ends_steps := repeat first
  [ apply ends_ret | apply ends_asks | apply ends_attempt | apply ends_respondError; done | apply ends_the; done
  | apply ends_require; done | apply ends_query; done
  | apply ends_exec; by intros [] | apply ends_bind; [|intros ?] | case_match ].

Lemma ends_setting path now id x : ends (setting fail path now id x).
Proof. unfold setting. ends_steps. Qed.

Lemma elem_range {V} n (m : gmap string V) kv : kv ∈ range n m -> m !! kv.1 = Some kv.2.
Proof. destruct kv as [k v]. rewrite (range_perm n m). apply elem_of_map_to_list. Qed.

Lemma ends_user fuel : forall path now id attr v, (json_depth v < fuel)%nat -> ends (applyUserReplace fail fuel path now id attr v).
Proof.
  induction fuel as [|fuel IH]; intros path now id attr v Hd; [lia|]. cbn [applyUserReplace].
  repeat match goal with |- ends (if ?b then _ else _) => destruct b end; try (destruct v; ends_steps; apply ends_setting);
    try (apply ends_bind; [by apply ends_the|intros ?; apply ends_setting]); try by apply ends_respondError.
  destruct v; try by apply ends_respondError. apply ends_forEach. intros k kv Hkv%elem_range%entry_depth. apply IH. lia.
Qed.

Lemma ends_addMember path gid k m : ends (addMember fail path gid k m).
Proof. unfold addMember. ends_steps. Qed.

Lemma ends_patch fuel : forall path id attr v, (json_depth v < fuel)%nat -> ends (applyGroupPatch fail fuel path id attr v).
Proof.
  induction fuel as [|fuel IH]; intros path id attr v Hd; [lia|]. cbn [applyGroupPatch].
  repeat match goal with |- ends (if ?b then _ else _) => destruct b end; [unfold setName; ends_steps| | |ends_steps].
  - ends_steps. apply ends_forEach. intros. apply ends_addMember.
  - destruct v; try by apply ends_respondError. apply ends_forEach. intros k kv Hkv%elem_range%entry_depth. apply IH. lia.
Qed.

Lemma ends_add fuel : forall path id attr v, (json_depth v < fuel)%nat -> ends (applyGroupAdd fail fuel path id attr v).
Proof.
  induction fuel as [|fuel IH]; intros path id attr v Hd; [lia|]. cbn [applyGroupAdd].
  destruct (String.eqb attr "members"); [ends_steps; apply ends_forEach; intros; apply ends_addMember|].
  destruct (String.eqb_spec attr "displayName") as [->|]; [cbn; unfold setName; ends_steps|].
  destruct (String.eqb attr ""); [|ends_steps].
  destruct v; try by apply ends_respondError. apply ends_forEach. intros k kv Hkv%elem_range%entry_depth. apply IH. lia.
Qed.

Lemma ends_remove path id attr v : ends (applyGroupRemove fail path id attr v).
Proof. unfold applyGroupRemove. ends_steps; apply ends_forEach; intros; unfold dropMember; ends_steps. Qed.

(** Every patch comes to an end: however the objects of a patch are nested,
    the recursion into them is no deeper than the value, so no request runs out
    of the fuel the model gives it. *)
Theorem patches_end r s : (run (E := E) (serve fail r) s).1.1 <> Failure out_of_fuel.1 out_of_fuel.2.
Proof.
  assert (ends (serve fail r)) as Hr.
  { destruct r; cbn [serve];
      unfold listUsers, createUser, getUser, replaceUser, patchUser, deleteUser, listGroups, createGroup, getGroup, replaceGroup,
        patchGroup, deleteGroup, deleting, serviceProviderConfig, schemas, showUser, showGroup, reloaded, respondJSON;
      try (destruct (parseSCIMPagination _ _)); ends_steps; apply ends_forEach; intros k x _;
      unfold patchUserOp, patchGroupOp, replaceAttr, addLogged; ends_steps;
      first [apply ends_user | apply ends_patch | apply ends_add | apply ends_remove]; cbn; lia. }
  specialize (Hr s). unfold wp, run in *. destruct (serve fail r s) as [[[[? ?]|[st msg]] s'] es]; [done|]. cbn in *. congruence.
Qed.
End termination.

(** ** What is provisioned *)

Section provisioning.
Context `{GoRange} `{SqlOrder} `{DeviceEnv} `{AuthEnv} {E : Type}.

(** The identifiers a list of members names. *)
Definition named (l : list SCIMMember) : list string := omap (fun m => uuid_Parse (me_Value m)) l.

Lemma addLogged_all fail gid l : (forall p, fail p = false) -> forall k s,
  gid ∈ map gr_id (groups (sbase s)) ->
  wp (E := E) (forEach k l (addLogged fail gid)) (fun _ s' _ =>
    users (sbase s') = users (sbase s) /\
    forall p, p ∈ user_groups (sbase s') <->
      p ∈ user_groups (sbase s) \/ (p.2 = gid /\ p.1 ∈ named l /\ p.1 ∈ map u_id (users (sbase s)))) (fun _ _ _ => True) s.
Proof.
  intros Hf. induction l as [|m l IH]; intros k s Hg; cbn [forEach].
  - split; [done|]. intros p. cbn. rewrite elem_of_nil. tauto.
  - apply wp_bind. unfold addLogged at 1, named. cbn. destruct (uuid_Parse (me_Value m)) as [uid|] eqn:Hm.
    + apply wp_bind, wp_attempt. rewrite Hf. unfold on_base, insert_member. case_bool_decide as Hin.
      * apply wp_ret. cbn [app]. eapply wp_mono; [| |by apply IH]; [|done]. cbn. intros _ s' _ [Hu Hp]. split; [done|].
        intros p. rewrite Hp, elem_of_cons. destruct p as [a b]. cbn. naive_solver.
      * destruct (has u_id (users (sbase s)) uid) eqn:Hhas.
        -- apply has_true in Hhas. rewrite (proj2 (has_true gr_id _ gid)) by done. cbn [andb]. apply wp_ret. cbn [app].
           eapply wp_mono; [| |apply IH; by cbn]; [|done]. cbn. intros _ s' _ [Hu Hp]. split; [done|].
           intros p. rewrite Hp, elem_of_app, list_elem_of_singleton, elem_of_cons. destruct p as [a b]. cbn. naive_solver.
        -- apply has_false in Hhas. cbn [andb]. apply wp_ret. cbn [app]. eapply wp_mono; [| |by apply IH]; [|done].
           cbn. intros _ s' _ [Hu Hp]. split; [done|]. intros p. rewrite Hp, elem_of_cons. destruct p as [a b]. cbn. naive_solver.
    + apply wp_ret. cbn [app]. by apply IH.
Qed.

(** A replaced group has the members it was given: after an accepted
    replacement with the database answering, its members are exactly the users
    that exist among those listed, and the other groups keep theirs. *)
Theorem replaceGroup_members fail rawId id req s st b s' es :
  (forall p, fail p = false) -> uuid_Parse rawId = Some id ->
  run (E := E) (replaceGroup fail rawId (Some req)) s = (Reply st b, s', es) ->
  forall uid gid, (uid, gid) ∈ user_groups (sbase s') <->
    (gid <> id /\ (uid, gid) ∈ user_groups (sbase s)) \/
    (gid = id /\ uid ∈ named (gq_Members req) /\ uid ∈ map u_id (users (sbase s))).
Proof.
  intros Hf Hid Hrun. pattern s'. refine (run_Reply _ _ _ _ _ _ (fun _ s' _ => _ s') Hrun _). clear Hrun.
  unfold replaceGroup. rewrite Hid. apply wp_bind, wp_the, wp_bind, wp_the, wp_bind, wp_require.
  destruct (negb (String.eqb _ _)); [|done]. apply wp_bind, wp_exec. rewrite Hf. unfold returning, on_base at 1, rename_group, update_group.
  destruct (byKey gr_id (groups (sbase s)) id) as [g|] eqn:Hk; [|done]. destruct (clash _ _ _ _ _); [done|].
  apply wp_bind, wp_exec. rewrite Hf. unfold on_base, clear_members. apply wp_bind.
  eapply wp_mono; [| |apply addLogged_all; [done|]]; [|done|].
  - intros _ s1 es1 [Hu Hp]. unfold reloaded, respondJSON. apply wp_bind, wp_asks, wp_ret. intros uid gid. rewrite Hp.
    cbn [sbase set_sbase user_groups set_user_groups users]. rewrite elem_of_without. cbn. naive_solver.
  - cbn. rewrite upd_keys by done. apply byKey_Some in Hk as [Hin <-]. by apply list_elem_of_fmap_2.
Qed.

(** The user a request writes. *)
Definition written (r : request) : option string :=
  match r with CreateUser newID _ _ _ => Some newID | ReplaceUser _ id _ => Some id | _ => None end.

Lemma showUser_row fail id u s : fail [0]%nat = false -> byKey u_id (users (sbase s)) id = Some u ->
  run (E := E) (showUser fail 0 id) s = (Reply 200 (SbUser (userOf s u)), s, []).
Proof. intros Hf Hk. unfold run, showUser, bind, query. rewrite Hf, Hk. done. Qed.

(** What was provisioned is what is read: the resource that answers the
    creation or the replacement of a user is the one a later request for that
    user gets. *)
Theorem user_reads_back fail fail' r raw id s st b s' es :
  scim_wf s -> written r = Some raw -> uuid_Parse raw = Some id -> (forall newID now rnd body, r = CreateUser newID now rnd body -> id = newID) ->
  fail' [0]%nat = false -> run (E := E) (serve fail r) s = (Reply st b, s', es) ->
  run (E := E) (serve fail' (GetUser raw)) s' = (Reply 200 b, s', []).
Proof.
  intros [Hi He] Hw Hid Hnew Hf Hrun.
  enough (exists u, byKey u_id (users (sbase s')) id = Some u /\ b = SbUser (userOf s' u)) as (u & Hk & ->).
  { cbn [serve]. unfold getUser, run, bind, the. rewrite Hid. unfold ret.
    pose proof (showUser_row fail' id u s' Hf Hk) as Hs. unfold run in Hs. by destruct (showUser fail' 0 id s') as [[[[]|[]] ?] ?]. }
  refine (run_Reply _ _ _ _ _ _ (fun r s' _ => exists u, byKey u_id (users (sbase s')) id = Some u /\ r.2 = SbUser (userOf s' u)) Hrun _).
  clear Hrun. destruct r; try done; cbn in Hw; injection Hw as ->; cbn [serve].
  - specialize (Hnew _ _ _ _ eq_refl) as <-. unfold createUser. apply wp_bind, wp_the. destruct body as [req|]; [|done].
    apply wp_bind, wp_require. destruct (negb _); [|done]. apply wp_bind, wp_the. destruct (HashPassword _) as [hash|]; [|done].
    apply wp_bind, wp_exec. destruct (fail [0]%nat); [done|]. unfold insert_scim_user. destruct (has u_id _ _) eqn:Hh; [done|].
    apply has_false in Hh. do 2 (destruct (has _ _ _); [done|]). apply wp_ret.
    match goal with |- context [app (users (sbase s)) (cons ?u nil)] => exists u; split; [exact (byKey_app_own u_id _ u _ eq_refl Hh)|] end.
    unfold userOf. cbn. f_equal. f_equal. destruct (strPtrOrNil _); [by rewrite lookup_insert_eq|].
    destruct (external s !! id) eqn:Hl; [|done]. by apply He in Hl.
  - unfold replaceUser. rewrite Hid. apply wp_bind, wp_the, wp_bind, wp_the. destruct body as [req|]; [|done].
    apply wp_bind, wp_exec. destruct (fail [0]%nat); [done|]. unfold returning, set_user.
    destruct (byKey u_id _ id) as [u0|] eqn:Hk; [|done]. do 2 (destruct (clash _ _ _ _ _); [done|]). apply wp_ret.
    exists (apply_set now {| us_username := Some (sq_UserName req); us_email := Some (primaryEmail (sq_Emails req));
      us_first := Some (givenName req); us_last := Some (familyName req); us_active := Some (default true (sq_Active req));
      us_external := Some (strPtrOrNil (sq_ExternalID req)) |} u0).
    split; [etransitivity; [by apply (byKey_upd u_id)|by rewrite Hk]|]. apply byKey_Some in Hk as [_ <-]. unfold userOf. cbn. f_equal. f_equal.
    destruct (strPtrOrNil _); [by rewrite lookup_insert_eq|by rewrite lookup_delete_eq].
Qed.

Lemma showGroup_pure fail k id : pure (E := E) (showGroup fail k id).
Proof. unfold showGroup, respondJSON. repeat first [ pure_step | apply pure_bind; [|intros ?] ]. Qed.

(** A membership is withdrawn by the filter the identity providers send:
    after an accepted patch with that one operation the user is out of the
    group, and every other membership is as it was. *)
Theorem member_withdrawn fail rawId id op uid s st b s' es :
  uuid_Parse rawId = Some id -> uuid_Parse uid = Some uid -> uid <> "" ->
  is_op "remove" "Remove" op = true -> po_Path op = memberFilter uid ->
  run (E := E) (patchGroup fail rawId (Some [op])) s = (Reply st b, s', es) ->
  forall p, p ∈ user_groups (sbase s') <-> p ∈ user_groups (sbase s) /\ p <> (uid, id).
Proof.
  intros Hid Huid Hne Hop Hpath Hrun. pattern s'. refine (run_Reply _ _ _ _ _ _ (fun _ s' _ => _ s') Hrun _). clear Hrun.
  unfold patchGroup. rewrite Hid. apply wp_bind, wp_the, wp_bind, wp_query. destruct (fail [0]%nat); [done|].
  apply wp_bind, wp_require. destruct (has gr_id _ id); [|done]. apply wp_bind, wp_the, wp_bind. cbn [forEach]. apply wp_bind.
  assert (is_op "replace" "Replace" op = false /\ is_op "add" "Add" op = false) as [H5 H6].
  { unfold is_op in *. apply orb_true_iff in Hop as [ ->%String.eqb_eq | ->%String.eqb_eq ]; done. }
  unfold patchGroupOp. rewrite H5, H6, Hop. unfold applyGroupRemove. rewrite Hpath, (proj2 (memberFilter_parses _ uid)) by done.
  rewrite Huid. apply wp_bind, wp_the, wp_bind, wp_exec. destruct (fail _); [done|]. unfold on_base, delete_member.
  apply wp_ret, wp_ret. eapply wp_mono; [| |apply (showGroup_pure fail 2 id)].
  - intros a s1 es1 [-> _] p. cbn [sbase set_sbase user_groups set_user_groups].
    rewrite list_elem_of_In, filter_In, <- list_elem_of_In, negb_true_iff. unfold same_pair. rewrite bool_decide_eq_false. naive_solver.
  - done.
Qed.
End provisioning.

(** ** Runs *)

Definition demo_store : sstore := {| sbase := demo_db; external := {["ann" := "idp-1"]}; scim_token := Some (quote ++ "s3cret" ++ quote) |}.

Definition fine : list nat -> bool := fun _ => false.

Definition demo_serve (r : request) : H sstore effect (Z * scimBody) :=
  @serve range_default sql_default toy_device_env toy_env effect fine r.

(** What an endpoint answers, does to the tables, and says to the gateways. *)
Definition answer (r : request) : reply scimBody := (run (demo_serve r) demo_store).1.1.
Definition after (r : request) : sstore := (run (demo_serve r) demo_store).1.2.
Definition told (r : request) : list effect := (run (demo_serve r) demo_store).2.

Definition scim_request (username email : string) : CreateUserRequest := {|
  sq_ExternalID := "idp-7"; sq_UserName := username; sq_Name := Some ("Eve", "Doe");
  sq_Emails := if String.eqb email "" then [] else [{| em_Value := email; em_Type := "work"; em_Primary := true |}];
  sq_Active := None; sq_Password := "" |}.

Definition member (id : string) : SCIMMember := {| me_Value := id; me_Display := ""; me_Ref := "" |}.

Example patch_value_decoded :
  me_Value <$> (default [] (patchValueToMembers (JArray [JObject [("Value", JString "ann")]; JNull]))) = ["ann"; ""].
Proof. by vm_compute. Qed.

Lemma demo_store_ok : scim_wf demo_store.
Proof.
  split; [apply demo_integrity|]. cbn. intros id e [<- _]%lookup_singleton_Some. left.
Qed.

Lemma parseMemberFilter_roundtrip_witness : parseMemberFilter (memberFilter "ann") = Some "ann".
Proof. apply parseMemberFilter_roundtrip. split; [discriminate|reflexivity]. Defined.

Lemma token_required_witness :
  run (@endpoint range_default sql_default toy_device_env toy_env effect fine "Bearer s3cret" (GetUser "ann")) demo_store =
  run (demo_serve (GetUser "ann")) demo_store.
Proof.
  apply (@token_required range_default sql_default toy_device_env toy_env effect fine "Bearer s3cret" (GetUser "ann") demo_store eq_refl).
  exists "s3cret", (quote ++ "s3cret" ++ quote). split; [done|]. split; [done|]. split; by vm_compute.
Defined.

Lemma scim_confined_witness :
  let s' := (run (@endpoint range_default sql_default toy_device_env toy_env effect fine "Bearer s3cret"
    (PatchUser 5 "ann" (Some [{| po_Op := "replace"; po_Path := "userName"; po_Value := JString "anna" |}]))) demo_store).1.2 in
  map u_username (users (sbase s')) = ["anna"; "bob"] /\ scim_wf s' /\ confined demo_store s'.
Proof.
  split; [by vm_compute|].
  exact (@scim_confined range_default sql_default toy_device_env toy_env effect fine "Bearer s3cret" _ demo_store demo_store_ok).
Defined.

Lemma replaceGroup_members_witness :
  forall uid gid, (uid, gid) ∈ user_groups (sbase (after (ReplaceGroup "dev" (Some {| gq_DisplayName := "dev"; gq_Members := [member "bob"; member "zoe"] |})))) <->
    (gid <> "dev" /\ (uid, gid) ∈ user_groups demo_db) \/ (gid = "dev" /\ uid ∈ ["bob"; "zoe"] /\ uid ∈ ["ann"; "bob"]).
Proof.
  eapply (@replaceGroup_members sql_default toy_device_env effect fine "dev" "dev"
    {| gq_DisplayName := "dev"; gq_Members := [member "bob"; member "zoe"] |} demo_store); [done|done|].
  vm_compute. reflexivity.
Defined.

Lemma user_reads_back_witness :
  exists u, answer (CreateUser "eve" 9 [] (Some (scim_request "eve" "eve@x"))) = Reply 201 (SbUser u) /\
    run (demo_serve (GetUser "eve")) (after (CreateUser "eve" 9 [] (Some (scim_request "eve" "eve@x")))) =
      (Reply 200 (SbUser u), after (CreateUser "eve" 9 [] (Some (scim_request "eve" "eve@x"))), []).
Proof.
  eexists. split; [by vm_compute|].
  eapply (@user_reads_back range_default sql_default toy_device_env toy_env effect fine fine
    (CreateUser "eve" 9 [] (Some (scim_request "eve" "eve@x"))) "eve" "eve" demo_store 201).
  - apply demo_store_ok.
  - done.
  - done.
  - by intros ? ? ? ? [= <-].
  - done.
  - vm_compute. reflexivity.
Defined.

Definition withdraw : PatchOperation := {| po_Op := "remove"; po_Path := memberFilter "ann"; po_Value := JNull |}.

Lemma member_withdrawn_witness :
  forall p, p ∈ user_groups (sbase (after (PatchGroup "dev" (Some [withdraw])))) <-> p ∈ user_groups demo_db /\ p <> ("ann", "dev").
Proof.
  eapply (@member_withdrawn range_default sql_default toy_device_env effect fine "dev" "dev" withdraw "ann" demo_store);
    [done|done|done|done|done|]. vm_compute. reflexivity.
Defined.

(** ** Where the code falls short *)

Definition peers_of (d : db) : list string := match @fetchPeers sql_default false d "g1" with Ok l => map PublicKey l | _ => [] end.

(** A user the identity provider removes is marked inactive, and keeps the
    tunnel: no gateway is told, and the list of peers does not ask whether the
    owner is active. *)
Theorem removed_user_keeps_tunnel :
  answer (DeleteUser 5 "ann") = Reply 204 SbNone /\ told (DeleteUser 5 "ann") = [] /\
  map u_is_active (users (sbase (after (DeleteUser 5 "ann")))) = [false; true] /\
  "pkA" ∈ peers_of (sbase (after (DeleteUser 5 "ann"))).
Proof. split; [by vm_compute|]. split; [by vm_compute|]. split; [by vm_compute|]. vm_compute. left. Qed.

(** A change of membership changes the configuration of a gateway, and none is
    told. *)
Theorem membership_not_pushed :
  let r := ReplaceGroup "dev" (Some {| gq_DisplayName := "dev"; gq_Members := [] |}) in
  told r = [] /\
  @buildFirewallConfigFromPool range_default sql_default no_faults (sbase (after r)) "g1" <>
  @buildFirewallConfigFromPool range_default sql_default no_faults demo_db "g1".
Proof. split; [by vm_compute|]. vm_compute. congruence. Qed.

(** A replacement is not checked for a name, and a name or address in use is
    answered as a user that does not exist. *)
Theorem replacement_unchecked :
  map u_username (users (sbase (after (ReplaceUser 5 "ann" (Some (scim_request "" "ann")))))) = [""; "bob"] /\
  answer (ReplaceUser 5 "ann" (Some (scim_request "bob" "x@y"))) = Failure 404 "user not found".
Proof. split; by vm_compute. Qed.

(** A patch is not atomic: the operations before the one that fails stay. *)
Theorem patch_half_done :
  let r := PatchUser 5 "ann" (Some [{| po_Op := "replace"; po_Path := "active"; po_Value := JBool false |};
                                    {| po_Op := "remove"; po_Path := "name.givenName"; po_Value := JNull |}]) in
  answer r = Failure 400 "invalid value for name.givenName: expected string" /\
  map u_is_active (users (sbase (after r))) = [false; true].
Proof. split; by vm_compute. Qed.

(** Two users without an address: the second is refused, the empty text being in
    use. *)
Theorem second_user_without_email :
  let s := after (CreateUser "eve" 9 [] (Some (scim_request "eve" ""))) in
  (run (demo_serve (CreateUser "zoe" 9 [] (Some (scim_request "zoe" "")))) s).1.1 = Failure 409 "user already exists or invalid data".
Proof. by vm_compute. Qed.

(** A provisioned user is in no group and has no role; one created by an
    administrator joins [everyone] and gets a role. *)
Theorem provisioned_user_bare :
  let d := sbase (after (CreateUser "eve" 9 [] (Some (scim_request "eve" "eve@x")))) in
  List.filter (fun m => String.eqb m.1 "eve") (user_groups d) = [] /\ user_roles d = user_roles demo_db.
Proof. split; by vm_compute. Qed.

(** System groups can be deleted here; the endpoint of groups refuses. *)
Theorem system_group_deleted :
  let s := set_sbase demo_store (set_groups demo_db [{| gr_id := "all"; gr_name := "everyone"; gr_description := ""; gr_is_system := true; gr_created_at := 0 |}]) in
  groups (sbase (run (demo_serve (DeleteGroup "all")) s).1.2) = [].
Proof. by vm_compute. Qed.
