(* ===== verification/Mfa.v ===== *)
(** * Multi-factor authentication

    [internal/auth/mfa]: enrolment of TOTP secrets, backup codes and WebAuthn
    credentials, the challenge sessions of the WebAuthn ceremonies, and the
    mailed codes.  The account rows, the backup-code rows and the check at
    login are those of file [Login], and the theorems relate what a user enrols
    here to what the login accepts there.  TOTP, bcrypt and the WebAuthn library
    are parameters; random draws, fresh identifiers and the answers of the
    database come with the request ([call]).  Byte strings are strings; the
    identifier columns that no query reads are left out. *)

From S2P Require Import Prelude Ledger Auth Login Http Tables.
From Stdlib Require Import ZArith Lia Ascii String.
From stdpp Require Import base gmap strings list sorting.
Import Token Middleware.

Local Open Scope Z_scope.
Local Open Scope string_scope.
Local Open Scope outpost_scope.

(** ** State *)

Record totp_row := { tt_user : string; tt_secret : string; tt_verified : bool; tt_created : Z }.

Record WebAuthnCredential := {
  wc_ID : string;
  wc_UserID : string;
  wc_CredentialID : string;
  wc_PublicKey : string;
  wc_SignCount : Z;
  wc_Name : string;
  wc_CreatedAt : Z;
}.

Record mfa_state := {
  m_accounts : list account;
  m_totp : list totp_row;
  m_codes : list backup_code;
  m_webauthn : list WebAuthnCredential;
  m_redis : gmap string (string * Z);      (* key -> value, instant of expiry *)
}.

Definition set_m_accounts (s : mfa_state) l : mfa_state := {| m_accounts := l; m_totp := m_totp s;
  m_codes := m_codes s; m_webauthn := m_webauthn s; m_redis := m_redis s |}.
Definition set_m_totp (s : mfa_state) l : mfa_state := {| m_accounts := m_accounts s; m_totp := l;
  m_codes := m_codes s; m_webauthn := m_webauthn s; m_redis := m_redis s |}.
Definition set_m_codes (s : mfa_state) l : mfa_state := {| m_accounts := m_accounts s; m_totp := m_totp s;
  m_codes := l; m_webauthn := m_webauthn s; m_redis := m_redis s |}.
Definition set_m_webauthn (s : mfa_state) l : mfa_state := {| m_accounts := m_accounts s; m_totp := m_totp s;
  m_codes := m_codes s; m_webauthn := l; m_redis := m_redis s |}.
Definition set_m_redis (s : mfa_state) m : mfa_state := {| m_accounts := m_accounts s; m_totp := m_totp s;
  m_codes := m_codes s; m_webauthn := m_webauthn s; m_redis := m |}.

(** What the endpoints of [auth.go] see of these tables. *)
Definition login_view (s : mfa_state) (d : auth_db) : auth_db := {|
  accounts := m_accounts s;
  mfa_totp := list_to_map (map (fun t => (tt_user t, tt_secret t)) (m_totp s));
  backup_codes := m_codes s;
  reset_tokens := reset_tokens d; blacklist := blacklist d |}.

(** ** The libraries *)

Record Credential := { cr_ID : string; cr_PublicKey : string; cr_SignCount : Z }.

Record webauthnUser := { wu_id : string; wu_name : string; wu_displayName : string; wu_credentials : list Credential }.

Class MfaLib : Type := {
  (** bcrypt: salt and password *)
  GenerateFromPassword : string -> string -> option string;
  (** random bytes, issuer and account: the secret and the [otpauth] URL *)
  totp_Generate : string -> string -> string -> option (string * string);
  (** the PNG of the URL *)
  key_PNG : string -> option string;
  SessionData : Type;
  session_Marshal : SessionData -> result string;
  session_Unmarshal : string -> result SessionData;
  (** a random challenge and the user: the options for the browser and the session *)
  wa_BeginRegistration : string -> webauthnUser -> result (string * SessionData);
  wa_BeginLogin : string -> webauthnUser -> result (string * SessionData);
  (** the user, the session and the answer of the authenticator *)
  wa_FinishRegistration : webauthnUser -> SessionData -> string -> result Credential;
  wa_FinishLogin : webauthnUser -> SessionData -> string -> result Credential;
  (** PostgreSQL reads a [uuid] *)
  pg_uuid : string -> option string;
  (** the text of a database or Redis error *)
  driver_error : string;
}.

(** What surrounds one request. *)
Record call := {
  fails : nat -> bool;             (* which statements fail *)
  now : Z;
  rnd : nat -> option Z;           (* draws of crypto/rand *)
  newIDs : nat -> string;          (* uuid.New() *)
  salts : nat -> string;
  nonce : string;                  (* the random bytes of the TOTP and WebAuthn libraries *)
}.

(** ** Statements *)

Definition set_mfa_enabled (b : bool) (a : account) : account := {|
  ac_id := ac_id a; ac_username := ac_username a; ac_email := ac_email a;
  ac_password_hash := ac_password_hash a; ac_is_admin := ac_is_admin a;
  ac_is_active := ac_is_active a; ac_must_change := ac_must_change a;
  ac_mfa_enabled := b; ac_failed := ac_failed a; ac_locked_until := ac_locked_until a |}.

Definition update_mfa_enabled (uid : string) (b : bool) : stmt mfa_state unit := fun s =>
  inl (tt, set_m_accounts s (upd ac_id uid (set_mfa_enabled b) (m_accounts s))).

Definition upsert_totp (uid secret : string) (created : Z) : stmt mfa_state unit := fun s =>
  let row := {| tt_user := uid; tt_secret := secret; tt_verified := false; tt_created := created |} in
  if negb (has ac_id (m_accounts s) uid) then inr ErrForeignKey
  else if has tt_user (m_totp s) uid then inl (tt, set_m_totp s (upd tt_user uid (fun _ => row) (m_totp s)))
  else inl (tt, set_m_totp s (m_totp s ++ [row])).

Definition mark_verified (uid : string) : stmt mfa_state unit := fun s =>
  inl (tt, set_m_totp s (upd tt_user uid (fun t => {| tt_user := tt_user t; tt_secret := tt_secret t;
    tt_verified := true; tt_created := tt_created t |}) (m_totp s))).

Definition delete_totp (uid : string) : stmt mfa_state unit := fun s =>
  inl (tt, set_m_totp s (without tt_user (m_totp s) uid)).

Definition delete_codes (uid : string) : stmt mfa_state unit := fun s =>
  inl (tt, set_m_codes s (without bc_user (m_codes s) uid)).

Definition insert_code (id uid hash : string) : stmt mfa_state unit := fun s =>
  if has bc_id (m_codes s) id then inr (ErrUnique "mfa_backup_codes_pkey")
  else if negb (has ac_id (m_accounts s) uid) then inr ErrForeignKey
  else inl (tt, set_m_codes s (m_codes s ++ [{| bc_id := id; bc_user := uid; bc_hash := hash; bc_used := false |}])).

Definition mark_used (id : string) : stmt mfa_state unit := fun s =>
  inl (tt, set_m_codes s (markUsed id (m_codes s))).

Definition insert_webauthn (c : WebAuthnCredential) : stmt mfa_state unit := fun s =>
  if has wc_ID (m_webauthn s) (wc_ID c) then inr (ErrUnique "mfa_webauthn_pkey")
  else if has wc_CredentialID (m_webauthn s) (wc_CredentialID c) then inr (ErrUnique "mfa_webauthn_credential_id_key")
  else if negb (has ac_id (m_accounts s) (wc_UserID c)) then inr ErrForeignKey
  else inl (tt, set_m_webauthn s (m_webauthn s ++ [c])).

Definition with_count (n : Z) (c : WebAuthnCredential) : WebAuthnCredential := {|
  wc_ID := wc_ID c; wc_UserID := wc_UserID c; wc_CredentialID := wc_CredentialID c;
  wc_PublicKey := wc_PublicKey c; wc_SignCount := n; wc_Name := wc_Name c; wc_CreatedAt := wc_CreatedAt c |}.

Definition update_sign_count (id : string) (n : Z) : stmt mfa_state unit := fun s =>
  inl (tt, set_m_webauthn s (upd wc_ID id (with_count n) (m_webauthn s))).

Definition delete_webauthn (id : string) : stmt mfa_state unit := fun s =>
  inl (tt, set_m_webauthn s (without wc_ID (m_webauthn s) id)).

Definition delete_webauthn_of (id uid : string) : stmt mfa_state nat := fun s =>
  let hit c := String.eqb (wc_ID c) id && String.eqb (wc_UserID c) uid in
  inl (length (List.filter hit (m_webauthn s)),
       set_m_webauthn s (List.filter (fun c => negb (hit c)) (m_webauthn s))).

Definition redis_set (key data : string) (expires : Z) : stmt mfa_state unit := fun s =>
  inl (tt, set_m_redis s (<[key := (data, expires)]> (m_redis s))).

Definition redis_del (key : string) : stmt mfa_state unit := fun s =>
  inl (tt, set_m_redis s (delete key (m_redis s))).

Definition redis_get (now : Z) (key : string) (s : mfa_state) : option string :=
  match m_redis s !! key with
  | Some (data, expires) => if (now <? expires)%Z then Some data else None
  | None => None
  end.

(** ** Random texts *)

(** [rand.Int]: a number below [max]. *)
Definition rand_Int (rnd : nat -> option Z) (k : nat) (max : Z) : option Z :=
  (fun z => z mod max) <$> rnd k.

(** [randomString], drawing from the [k]-th number on. *)
Fixpoint randomString (rnd : nat -> option Z) (k length : nat) (alphabet : string) : option string :=
  match length with
  | O => Some ""
  | S n =>
      idx ← rand_Int rnd k (Z.of_nat (String.length alphabet));
      c ← String.get (Z.to_nat idx) alphabet;
      String c <$> randomString rnd (S k) n alphabet
  end.

Definition backupCodeCount : nat := 10.
Definition backupCodeLength : nat := 8.
Definition backupCodeChars : string := "abcdefghijklmnopqrstuvwxyz0123456789".

(** [generateDigitCode]: the byte of '0' plus the number drawn. *)
Fixpoint generateDigitCode (rnd : nat -> option Z) (k length : nat) : option string :=
  match length with
  | O => Some ""
  | S n =>
      d ← rand_Int rnd k 10;
      String (ascii_of_N (48 + Z.to_N d)) <$> generateDigitCode rnd (S k) n
  end.

(** [base64.StdEncoding.EncodeToString]. *)
Definition base64_char (n : N) : ascii :=
  ascii_of_N (if n <? 26 then 65 + n else if n <? 52 then 71 + n else if n <? 62 then n - 4
              else if n =? 62 then 43 else 47)%N.

Fixpoint base64_encode (s : string) : string :=
  let sextet (v i : N) := base64_char (N.land (N.shiftr v (6 * i)) 63) in
  match s with
  | EmptyString => ""
  | String a EmptyString =>
      let v := (N_of_ascii a * 65536)%N in
      String (sextet v 3%N) (String (sextet v 2%N) "==")
  | String a (String b EmptyString) =>
      let v := (N_of_ascii a * 65536 + N_of_ascii b * 256)%N in
      String (sextet v 3%N) (String (sextet v 2%N) (String (sextet v 1%N) "="))
  | String a (String b (String c rest)) =>
      let v := (N_of_ascii a * 65536 + N_of_ascii b * 256 + N_of_ascii c)%N in
      String (sextet v 3%N) (String (sextet v 2%N) (String (sextet v 1%N) (String (sextet v 0%N) (base64_encode rest))))
  end.

Example base64_ok : map base64_encode ["Man"; "Ma"; "M"; ""] = ["TWFu"; "TWE="; "TQ=="; ""].
Proof. vm_compute. reflexivity. Qed.

(** ** Manager, store and ceremonies

    [e] is the answer of the caller to an error, from its text where the
    caller shows it. *)

Abbreviation M := (H mfa_state Empty_set).

Section mfa.
Context `{AuthEnv} `{MfaLib}.
Implicit Types (c : call) (e : refusal).

Definition or_refuse {A} (o : option A) e : M A := the o e.1 e.2.

Definition no_error {A} (r : result A) (e : string -> refusal) : M A :=
  match r with Ok a => ret a | Err msg => stop (e msg) end.

(** *** TOTP *)

Definition GenerateSecret (random issuer account : string) : option (string * string * string) :=
  key ← totp_Generate random issuer account;
  png ← key_PNG key.2;
  Some (key.1, key.2, "data:image/png;base64," ++ base64_encode png).

Definition EnableTOTP c (uid issuer : string) e : M (string * string * string) :=
  let! (secret, url, img) := or_refuse (GenerateSecret (nonce c) issuer uid) e in
  do! exec (fails c 0) (upsert_totp uid secret (now c)) (fun _ => e) in
  ret (secret, url, img).

Definition VerifyTOTP c (uid code : string) e : M bool :=
  let! row := query (fails c 0) (fun s => byKey tt_user (m_totp s) uid) e.1 e.2 in
  let! t := or_refuse row e in
  if negb (totp_Validate code (tt_secret t) (now c)) then ret false else
  do! when (negb (tt_verified t)) (exec (fails c 1) (mark_verified uid) (fun _ => e)) in
  ret true.

Definition DisableTOTP c (uid : string) e : M unit :=
  exec (fails c 0) (delete_totp uid) (fun _ => e).

(** *** Backup codes *)

Definition newCodes (rnd : nat -> option Z) : option (list string) :=
  mapM (fun i => randomString rnd (backupCodeLength * i) backupCodeLength backupCodeChars) (seq 0 backupCodeCount).

Definition storeCode c (uid : string) e (ic : nat * string) : M unit :=
  let! hash := or_refuse (GenerateFromPassword (salts c ic.1) ic.2) e in
  exec (fails c (3 + ic.1)%nat) (insert_code (newIDs c ic.1) uid hash) (fun _ => e).

Definition GenerateBackupCodes c (uid : string) e : M (list string) :=
  let! codes := or_refuse (newCodes (rnd c)) e in
  do! require (negb (fails c 0)) e.1 e.2 in
  atomically (
    do! exec (fails c 1) (delete_codes uid) (fun _ => e) in
    do! forM (imap pair codes) (storeCode c uid e) in
    do! require (negb (fails c 2)) e.1 e.2 in
    ret codes).

(** The loop over the rows of the query: the scan of the [i]-th row and the
    update can fail. *)
Fixpoint scanCodes c e (code : string) (i : nat) (rows : list backup_code) : M bool :=
  match rows with
  | [] => do! require (negb (fails c 1)) e.1 e.2 in ret false
  | r :: rows =>
      do! require (negb (fails c (3 + i)%nat)) e.1 e.2 in
      if CheckPassword (bc_hash r) code then
        do! exec (fails c 2) (mark_used (bc_id r)) (fun _ => e) in ret true
      else scanCodes c e code (S i) rows
  end.

Definition ValidateBackupCode c (uid code : string) e : M bool :=
  let! rows := query (fails c 0) (fun s => unusedOf uid (m_codes s)) e.1 e.2 in
  scanCodes c e code 0 rows.

(** *** Status *)

Record MFAStatus := {
  MFAEnabled : bool;
  TOTPConfigured : bool;
  TOTPVerified : bool;
  WebAuthnCount : Z;
  BackupCodesLeft : Z;
}.

Definition GetUserMFAStatus c (uid : string) e : M MFAStatus :=
  let! user := query (fails c 0) (fun s => byKey ac_id (m_accounts s) uid) e.1 e.2 in
  let! a := or_refuse user e in
  let! totp := query (fails c 1) (fun s => List.filter (fun t => String.eqb (tt_user t) uid) (m_totp s)) e.1 e.2 in
  let! keys := query (fails c 2) (fun s => rowsWith wc_UserID (m_webauthn s) uid) e.1 e.2 in
  let! unused := query (fails c 3) (fun s => length (unusedOf uid (m_codes s))) e.1 e.2 in
  ret {| MFAEnabled := ac_mfa_enabled a; TOTPConfigured := (0 <? length totp)%nat;
         TOTPVerified := (0 <? length (List.filter tt_verified totp))%nat;
         WebAuthnCount := Z.of_nat keys; BackupCodesLeft := Z.of_nat unused |}.

Definition SetMFAEnabled (fails : bool) (uid : string) (enabled : bool) e : M unit :=
  exec fails (update_mfa_enabled uid enabled) (fun _ => e).

(** *** WebAuthn credentials *)

(** [time.Time{}]. *)
Definition zeroTime : Z := -62135596800 * second.

Definition RegisterCredential (fails : bool) c (cred : WebAuthnCredential) e : M unit :=
  let cred := {|
    wc_ID := if String.eqb (wc_ID cred) "" then newIDs c 0 else wc_ID cred;
    wc_UserID := wc_UserID cred; wc_CredentialID := wc_CredentialID cred;
    wc_PublicKey := wc_PublicKey cred; wc_SignCount := wc_SignCount cred; wc_Name := wc_Name cred;
    wc_CreatedAt := if (wc_CreatedAt cred =? zeroTime)%Z then now c else wc_CreatedAt cred |} in
  exec fails (insert_webauthn cred) (fun _ => e).

Definition older_key (a b : WebAuthnCredential) : Prop := (wc_CreatedAt a <= wc_CreatedAt b)%Z.
#[local] Instance older_key_dec : RelDecision older_key := fun a b => Z_le_dec _ _.

Definition credentialsOf (uid : string) (s : mfa_state) : list WebAuthnCredential :=
  merge_sort older_key (List.filter (fun w => String.eqb (wc_UserID w) uid) (m_webauthn s)).

(** The query and the scan of the rows can fail. *)
Definition GetCredentials (k : nat) c (uid : string) (e : string -> refusal) : M (list WebAuthnCredential) :=
  let failed msg := e (msg ++ driver_error) in
  let! rows := query (fails c k) (credentialsOf uid)
                 (failed "querying WebAuthn credentials: ").1 (failed "querying WebAuthn credentials: ").2 in
  do! require (match rows with [] => true | _ => negb (fails c (k + 1)%nat) end)
        (failed "scanning WebAuthn credential: ").1 (failed "scanning WebAuthn credential: ").2 in
  do! require (negb (fails c (k + 2)%nat))
        (failed "iterating WebAuthn credentials: ").1 (failed "iterating WebAuthn credentials: ").2 in
  ret rows.

Definition UpdateSignCount (fails : bool) (id : string) (n : Z) e : M unit :=
  exec fails (update_sign_count id n) (fun _ => e).

Definition DeleteCredential (fails : bool) (id : string) e : M unit :=
  let! u := or_refuse (pg_uuid id) e in
  exec fails (delete_webauthn u) (fun _ => e).

Definition DeleteCredentialForUser (fails : bool) (id uid : string) e : M unit :=
  let! u := or_refuse (pg_uuid id) e in
  do! exec fails (affected (delete_webauthn_of u uid)) (fun _ => e) in
  ret tt.

(** *** Challenge sessions *)

Definition challengeKey (uid flow : string) : string := "webauthn:" ++ flow ++ ":" ++ uid.
Definition challengeTTL : Z := 5 * minute.

(** [rdb] says whether there is a Redis client. *)
Definition saveSession (rdb fails : bool) c (uid flow : string) (session : SessionData) (e : string -> refusal) : M unit :=
  let! data := no_error (session_Marshal session) (fun m => e ("marshalling session: " ++ m)) in
  if rdb then exec fails (redis_set (challengeKey uid flow) data (now c + challengeTTL)%Z) (fun _ => e driver_error)
  else ret tt.

Definition loadSession (rdb getFails delFails : bool) c (uid flow : string) (e : string -> refusal) : M SessionData :=
  do! require rdb (e "no session store available").1 (e "no session store available").2 in
  let key := challengeKey uid flow in
  let missing := e "session not found or expired" in
  let! found := query getFails (redis_get (now c) key) missing.1 missing.2 in
  let! data := or_refuse found missing in
  do! attempt delFails (redis_del key) in
  no_error (session_Unmarshal data) (fun m => e ("unmarshalling session: " ++ m)).

(** [uint32(cred.SignCount)]. *)
Definition uint32 (z : Z) : Z := (z mod 2 ^ 32)%Z.

Definition buildUser (k : nat) c (uid username displayName : string) (e : string -> refusal) : M webauthnUser :=
  let! creds := GetCredentials k c uid e in
  ret {| wu_id := uid; wu_name := username; wu_displayName := displayName;
         wu_credentials := map (fun w => {| cr_ID := wc_CredentialID w; cr_PublicKey := wc_PublicKey w;
                                            cr_SignCount := uint32 (wc_SignCount w) |}) creds |}.

Definition BeginRegistration (rdb : bool) c (uid username displayName : string) (e : string -> refusal) : M string :=
  let! user := buildUser 0 c uid username displayName (fun m => e ("building user: " ++ m)) in
  let! (creation, session) := no_error (wa_BeginRegistration (nonce c) user) (fun m => e ("begin registration: " ++ m)) in
  do! saveSession rdb (fails c 3) c uid "register" session (fun m => e ("saving session: " ++ m)) in
  ret creation.

(** [FinishRegistration] always answers with an error. *)
Definition FinishRegistration (rdb : bool) c (uid username displayName credName : string) (e : string -> refusal) : M string :=
  do! buildUser 0 c uid username displayName (fun m => e ("building user: " ++ m)) in
  do! loadSession rdb (fails c 3) (fails c 4) c uid "register" (fun m => e ("loading session: " ++ m)) in
  stop (e "use HTTP handler directly").

Definition BeginLogin (rdb : bool) c (uid username displayName : string) (e : string -> refusal) : M string :=
  let! user := buildUser 0 c uid username displayName (fun m => e ("building user: " ++ m)) in
  do! require (match wu_credentials user with [] => false | _ => true end)
        (e "no WebAuthn credentials registered").1 (e "no WebAuthn credentials registered").2 in
  let! (assertion, session) := no_error (wa_BeginLogin (nonce c) user) (fun m => e ("begin login: " ++ m)) in
  do! saveSession rdb (fails c 3) c uid "login" session (fun m => e ("saving session: " ++ m)) in
  ret assertion.

(** ** Endpoints

    [ceremony] is [None] when the ceremonies are not configured, and says
    otherwise whether they have a Redis client. *)

Inductive mfa_body :=
| BStatus (s : MFAStatus)
| BSetup (secret qr_url qr_image : string)
| BValid (valid : bool)
| BCodes (codes : list string)
| BCredentials (l : list WebAuthnCredential)
| BOptions (options : string)
| BRegistered (name : string)
| BEmpty.

Definition authenticated (claims : option TokenClaims) : M TokenClaims :=
  the claims 401 "unauthenticated".

Definition decoded {A} (body : option A) : M A := the body 400 "invalid request body".

Definition getStatus c claims : M (Z * mfa_body) :=
  let! cl := authenticated claims in
  let! status := GetUserMFAStatus c (UserID cl) (500, "failed to get MFA status") in
  respondJSON 200 (BStatus status).

Definition setupTOTP c claims (body : option string) : M (Z * mfa_body) :=
  let! cl := authenticated claims in
  let! issuer := decoded body in
  let issuer := if String.eqb issuer "" then "Outpost VPN" else issuer in
  let! (secret, url, img) := EnableTOTP c (UserID cl) issuer (500, "failed to setup TOTP") in
  respondJSON 200 (BSetup secret url img).

Definition verifyTOTP c claims (body : option string) : M (Z * mfa_body) :=
  let! cl := authenticated claims in
  let! code := decoded body in
  do! require (negb (String.eqb code "")) 400 "code is required" in
  let! valid := VerifyTOTP c (UserID cl) code (500, "TOTP verification failed") in
  if negb valid then respondJSON 200 (BValid false) else
  do! SetMFAEnabled (fails c 2) (UserID cl) true (500, "TOTP verified but failed to enable MFA flag") in
  respondJSON 200 (BValid true).

Definition disableTOTP c claims : M (Z * mfa_body) :=
  let! cl := authenticated claims in
  do! DisableTOTP c (UserID cl) (500, "failed to disable TOTP") in
  respondJSON 204 BEmpty.

Definition generateBackupCodes c claims : M (Z * mfa_body) :=
  let! cl := authenticated claims in
  let! codes := GenerateBackupCodes c (UserID cl) (500, "failed to generate backup codes") in
  respondJSON 200 (BCodes codes).

Definition verifyBackupCode c claims (body : option string) : M (Z * mfa_body) :=
  let! cl := authenticated claims in
  let! code := decoded body in
  do! require (negb (String.eqb code "")) 400 "code is required" in
  let! valid := ValidateBackupCode c (UserID cl) code (500, "backup code verification failed") in
  respondJSON 200 (BValid valid).

Definition listWebAuthnCredentials c claims : M (Z * mfa_body) :=
  let! cl := authenticated claims in
  let! creds := GetCredentials 0 c (UserID cl) (fun _ => (500, "failed to list credentials")) in
  respondJSON 200 (BCredentials creds).

Record registerWebAuthnRequest := { rw_CredentialID : string; rw_PublicKey : string; rw_Name : string }.

Definition registerWebAuthnCredential c claims (body : option registerWebAuthnRequest) : M (Z * mfa_body) :=
  let! cl := authenticated claims in
  let! req := decoded body in
  do! require (negb (String.eqb (rw_CredentialID req) "" || String.eqb (rw_PublicKey req) "")) 400
        "credential_id and public_key are required" in
  do! RegisterCredential (fails c 0) c {| wc_ID := ""; wc_UserID := UserID cl;
        wc_CredentialID := rw_CredentialID req; wc_PublicKey := rw_PublicKey req; wc_SignCount := 0;
        wc_Name := rw_Name req; wc_CreatedAt := zeroTime |} (500, "failed to register credential") in
  respondJSON 201 BEmpty.

Definition deleteWebAuthnCredential c claims (id : string) : M (Z * mfa_body) :=
  let! cl := authenticated claims in
  do! require (negb (String.eqb id "")) 400 "credential id is required" in
  do! DeleteCredentialForUser (fails c 0) id (UserID cl) (404, "credential not found") in
  respondJSON 204 BEmpty.

Definition configured (ceremony : option bool) : M bool := the ceremony 503 "WebAuthn not configured".

Definition beginWebAuthnRegistration (ceremony : option bool) c claims : M (Z * mfa_body) :=
  let! rdb := configured ceremony in
  let! cl := authenticated claims in
  let! options := BeginRegistration rdb c (UserID cl) (Username cl) (Username cl)
                    (fun m => (500, "failed to begin registration: " ++ m)) in
  respondJSON 200 (BOptions options).

Definition finishWebAuthnRegistration (ceremony : option bool) c claims (name answer : string) : M (Z * mfa_body) :=
  let! rdb := configured ceremony in
  let! cl := authenticated claims in
  let credName := if String.eqb name "" then "Security Key" else name in
  let! user := buildUser 0 c (UserID cl) (Username cl) (Username cl) (fun _ => (500, "failed to build user")) in
  let! session := loadSession rdb (fails c 3) (fails c 4) c (UserID cl) "register"
                    (fun _ => (400, "no pending registration or session expired")) in
  let! credential := no_error (wa_FinishRegistration user session answer)
                       (fun m => (400, "registration verification failed: " ++ m)) in
  do! RegisterCredential (fails c 5) c {| wc_ID := ""; wc_UserID := UserID cl;
        wc_CredentialID := cr_ID credential; wc_PublicKey := cr_PublicKey credential;
        wc_SignCount := cr_SignCount credential; wc_Name := credName; wc_CreatedAt := zeroTime |}
        (500, "failed to store credential") in
  do! SetMFAEnabled (fails c 6) (UserID cl) true (500, "credential stored but failed to enable MFA") in
  respondJSON 201 (BRegistered credName).

Definition beginWebAuthnLogin (ceremony : option bool) c claims : M (Z * mfa_body) :=
  let! rdb := configured ceremony in
  let! cl := authenticated claims in
  let! options := BeginLogin rdb c (UserID cl) (Username cl) (Username cl) (fun m => (400, m)) in
  respondJSON 200 (BOptions options).

(** The credentials after a failed query are an empty slice. *)
Definition readCredentials (k : nat) c (uid : string) : M (list WebAuthnCredential) :=
  asks (fun s => if fails c k || fails c (k + 1)%nat || fails c (k + 2)%nat then [] else credentialsOf uid s).

(** The first credential with that identifier; errors are dropped. *)
Definition recordSignCount c (uid : string) (credential : Credential) : M unit :=
  let! creds := readCredentials 5 c uid in
  match List.find (fun w => String.eqb (wc_CredentialID w) (cr_ID credential)) creds with
  | Some w => do! attempt (fails c 8) (update_sign_count (wc_ID w) (cr_SignCount credential)) in ret tt
  | None => ret tt
  end.

Definition finishWebAuthnLogin (ceremony : option bool) c claims (answer : string) : M (Z * mfa_body) :=
  let! rdb := configured ceremony in
  let! cl := authenticated claims in
  let! user := buildUser 0 c (UserID cl) (Username cl) (Username cl) (fun _ => (500, "failed to build user")) in
  let! session := loadSession rdb (fails c 3) (fails c 4) c (UserID cl) "login"
                    (fun _ => (400, "no pending login or session expired")) in
  let! credential := no_error (wa_FinishLogin user session answer)
                       (fun m => (401, "assertion verification failed: " ++ m)) in
  do! recordSignCount c (UserID cl) credential in
  respondJSON 200 (BValid true).

(** ** Requests *)

Inductive mfa_request :=
| GetStatus
| SetupTOTP (body : option string)
| VerifyTOTPCode (body : option string)
| DisableTOTPReq
| NewBackupCodes
| VerifyBackupCode (body : option string)
| ListCredentials
| RegisterKey (body : option registerWebAuthnRequest)
| DeleteKey (id : string)
| BeginRegister
| FinishRegister (name answer : string)
| BeginAssert
| FinishAssert (answer : string).

Definition serve (ceremony : option bool) c (claims : option TokenClaims) (r : mfa_request) : M (Z * mfa_body) :=
  match r with
  | GetStatus => getStatus c claims
  | SetupTOTP b => setupTOTP c claims b
  | VerifyTOTPCode b => verifyTOTP c claims b
  | DisableTOTPReq => disableTOTP c claims
  | NewBackupCodes => generateBackupCodes c claims
  | VerifyBackupCode b => verifyBackupCode c claims b
  | ListCredentials => listWebAuthnCredentials c claims
  | RegisterKey b => registerWebAuthnCredential c claims b
  | DeleteKey id => deleteWebAuthnCredential c claims id
  | BeginRegister => beginWebAuthnRegistration ceremony c claims
  | FinishRegister n a => finishWebAuthnRegistration ceremony c claims n a
  | BeginAssert => beginWebAuthnLogin ceremony c claims
  | FinishAssert a => finishWebAuthnLogin ceremony c claims a
  end.

(** ** Confinement

    [others uid s s']: everything that belongs to other users is the same in
    both states. *)

Record mfa_wf (s : mfa_state) : Prop := {
  wf_totp : NoDup (map tt_user (m_totp s));
  wf_codes : NoDup (map bc_id (m_codes s));
  wf_keys : NoDup (map wc_ID (m_webauthn s));
  wf_creds : NoDup (map wc_CredentialID (m_webauthn s));
  wf_totp_user : Forall (fun t => tt_user t ∈ map ac_id (m_accounts s)) (m_totp s);
  wf_code_user : Forall (fun b => bc_user b ∈ map ac_id (m_accounts s)) (m_codes s);
  wf_cred_user : Forall (fun w => wc_UserID w ∈ map ac_id (m_accounts s)) (m_webauthn s);
}.

Record others (uid : string) (s s' : mfa_state) : Prop := {
  ot_accounts : without ac_id (m_accounts s') uid = without ac_id (m_accounts s) uid;
  ot_totp : without tt_user (m_totp s') uid = without tt_user (m_totp s) uid;
  ot_codes : without bc_user (m_codes s') uid = without bc_user (m_codes s) uid;
  ot_keys : without wc_UserID (m_webauthn s') uid = without wc_UserID (m_webauthn s) uid;
  ot_redis : forall k, k <> challengeKey uid "register" -> k <> challengeKey uid "login" ->
    m_redis s' !! k = m_redis s !! k;
}.

Lemma others_refl uid s : others uid s s.
Proof. by constructor. Qed.

Lemma others_trans uid s1 s2 s3 : others uid s1 s2 -> others uid s2 s3 -> others uid s1 s3.
Proof.
  intros A B. constructor; [by rewrite (ot_accounts _ _ _ B), (ot_accounts _ _ _ A)
    | by rewrite (ot_totp _ _ _ B), (ot_totp _ _ _ A) | by rewrite (ot_codes _ _ _ B), (ot_codes _ _ _ A)
    | by rewrite (ot_keys _ _ _ B), (ot_keys _ _ _ A) |].
  intros k Hr Hl. by rewrite (ot_redis _ _ _ B), (ot_redis _ _ _ A).
Qed.

Lemma without_map {A} (key : A -> string) (g : A -> A) l uid :
  (forall x, x ∈ l -> key x <> uid -> g x = x) -> (forall x, key x = uid -> key (g x) = uid) ->
  without key (map g l) uid = without key l uid.
Proof.
  intros Hg Hk. unfold without. induction l as [|x l IH]; [done|]. cbn.
  rewrite IH by (intros; apply Hg; [by right|done]).
  destruct (String.eqb_spec (key x) uid) as [E|E].
  - by rewrite (proj2 (String.eqb_eq _ _) (Hk x E)).
  - rewrite Hg by (done || by left). by rewrite (proj2 (String.eqb_neq _ _) E).
Qed.

Lemma without_filter {A} (key : A -> string) (P : A -> bool) l uid :
  (forall x, key x <> uid -> P x = true) -> without key (List.filter P l) uid = without key l uid.
Proof.
  intros HP. unfold without. induction l as [|x l IH]; [done|]. cbn.
  destruct (String.eqb_spec (key x) uid) as [E|E].
  - destruct (P x); cbn; [|done]. by rewrite (proj2 (String.eqb_eq _ _) E).
  - rewrite HP by done. cbn. rewrite (proj2 (String.eqb_neq _ _) E). cbn. by rewrite IH.
Qed.

Lemma without_own {A} (key : A -> string) l x uid : key x = uid -> without key (l ++ [x]) uid = without key l uid.
Proof. intros <-. unfold without. rewrite List.filter_app. cbn. by rewrite String.eqb_refl, app_nil_r. Qed.

Section confined.
Context (uid : string) (s0 : mfa_state).

Definition mine (s : mfa_state) : Prop := mfa_wf s /\ others uid s0 s.

Lemma update_mfa_enabled_mine b : stmt_preserves mine (update_mfa_enabled uid b).
Proof.
  intros s [] s' [[] Ho] [= <-]. assert (map ac_id (upd ac_id uid (set_mfa_enabled b) (m_accounts s)) = map ac_id (m_accounts s)) as E
    by by apply upd_keys.
  split; [constructor; cbn; rewrite ?E; done|]. eapply others_trans; [exact Ho|]. constructor; cbn; try done.
  apply without_map; intros x; [|by destruct (String.eqb _ _)].
  intros _ Hne. by rewrite (proj2 (String.eqb_neq _ _) Hne).
Qed.

Lemma upsert_totp_mine secret t : stmt_preserves mine (upsert_totp uid secret t).
Proof.
  intros s [] s' [[] Ho]. unfold upsert_totp. destruct (has ac_id _ uid) eqn:Hu; [|done]. cbn.
  apply has_true in Hu. destruct (has tt_user _ uid) eqn:Ht; intros [= <-].
  - split; [constructor; cbn; try done|].
    + unfold upd. rewrite map_map. erewrite map_ext; [exact wf_totp0|]. intros x. cbn.
      by destruct (String.eqb_spec (tt_user x) uid).
    + by apply Forall_upd.
    + eapply others_trans; [exact Ho|]. constructor; cbn; try done. apply without_map; intros x.
      * intros _ Hne. by rewrite (proj2 (String.eqb_neq _ _) Hne).
      * intros Hx. by rewrite (proj2 (String.eqb_eq _ _) Hx).
  - apply has_false in Ht. split; [constructor; cbn; try done|].
    + by apply unique_insert.
    + apply Forall_app. by repeat constructor.
    + eapply others_trans; [exact Ho|]. constructor; cbn; try done. by apply (without_own tt_user).
Qed.

Lemma mark_verified_mine : stmt_preserves mine (mark_verified uid).
Proof.
  intros s [] s' [[] Ho] [= <-]. split; [constructor; cbn; try done|].
  - by rewrite upd_keys.
  - by apply Forall_upd.
  - eapply others_trans; [exact Ho|]. constructor; cbn; try done. apply without_map; intros x.
    + intros _ Hne. by rewrite (proj2 (String.eqb_neq _ _) Hne).
    + by destruct (String.eqb _ _).
Qed.

Lemma delete_totp_mine : stmt_preserves mine (delete_totp uid).
Proof.
  intros s [] s' [[] Ho] [= <-]. split; [constructor; cbn; try done|].
  - by apply unique_filter.
  - by apply Forall_list_filter.
  - eapply others_trans; [exact Ho|]. constructor; cbn; try done. apply without_filter. intros x Hx.
    by apply negb_true_iff, String.eqb_neq.
Qed.

Lemma delete_codes_mine : stmt_preserves mine (delete_codes uid).
Proof.
  intros s [] s' [[] Ho] [= <-]. split; [constructor; cbn; try done|].
  - by apply unique_filter.
  - by apply Forall_list_filter.
  - eapply others_trans; [exact Ho|]. constructor; cbn; try done. apply without_filter. intros x Hx.
    by apply negb_true_iff, String.eqb_neq.
Qed.

Lemma insert_code_mine id hash : stmt_preserves mine (insert_code id uid hash).
Proof.
  intros s [] s' [[] Ho]. unfold insert_code. destruct (has bc_id _ id) eqn:Hid; [done|]. apply has_false in Hid.
  destruct (has ac_id _ uid) eqn:Hu; [|done]. apply has_true in Hu. cbn. intros [= <-].
  split; [constructor; cbn; try done|].
  - by apply unique_insert.
  - apply Forall_app. by repeat constructor.
  - eapply others_trans; [exact Ho|]. constructor; cbn; try done.
    by apply (without_own bc_user).
Qed.

Lemma mark_used_mine r s s' : mine s -> r ∈ unusedOf uid (m_codes s) -> mark_used (bc_id r) s = inl (tt, s') -> mine s'.
Proof.
  intros [[] Ho] [[Hr _] Hin]%list_elem_of_filter [= <-]. split; [constructor; cbn; try done|].
  - unfold markUsed. rewrite map_map. erewrite map_ext; [exact wf_codes0|]. intros x. by case_decide.
  - unfold markUsed. apply Forall_map. eapply Forall_impl; [exact wf_code_user0|]. intros x Hx. cbn. by case_decide.
  - eapply others_trans; [exact Ho|]. constructor; cbn; try done. apply without_map; intros x.
    + intros Hx Hne. rewrite decide_False; [done|]. intros E. apply Hne.
      by rewrite (NoDup_map_inj bc_id _ x r wf_codes0 Hx Hin E).
    + by case_decide.
Qed.

Lemma insert_webauthn_mine w : wc_UserID w = uid -> stmt_preserves mine (insert_webauthn w).
Proof.
  intros Hw s [] s' [[] Ho]. unfold insert_webauthn. destruct (has wc_ID _ _) eqn:Hid; [done|].
  destruct (has wc_CredentialID _ _) eqn:Hc; [done|]. destruct (has ac_id _ _) eqn:Hu; [|done]. cbn.
  apply has_false in Hid, Hc. apply has_true in Hu. intros [= <-]. split; [constructor; cbn; try done|].
  - by apply unique_insert.
  - by apply unique_insert.
  - apply Forall_app. by repeat constructor.
  - eapply others_trans; [exact Ho|]. constructor; cbn; try done. by apply (without_own wc_UserID).
Qed.

Lemma update_sign_count_mine w n s s' :
  mine s -> w ∈ credentialsOf uid s -> update_sign_count (wc_ID w) n s = inl (tt, s') -> mine s'.
Proof.
  intros [[] Ho] Hw [= <-]. unfold credentialsOf in Hw. rewrite (merge_sort_Permutation older_key) in Hw.
  apply list_elem_of_In, filter_In in Hw as [Hw Hu%String.eqb_eq]. apply list_elem_of_In in Hw.
  split; [constructor; cbn; try done|].
  - by rewrite upd_keys.
  - unfold upd. rewrite map_map. erewrite map_ext; [exact wf_creds0|]. intros x. by destruct (String.eqb _ _).
  - by apply Forall_upd.
  - eapply others_trans; [exact Ho|]. constructor; cbn; try done. apply without_map; intros x.
    + intros Hx Hne. destruct (String.eqb_spec (wc_ID x) (wc_ID w)) as [E|]; [|done].
      destruct Hne. by rewrite (NoDup_map_inj wc_ID _ x w wf_keys0 Hx Hw E).
    + by destruct (String.eqb _ _).
Qed.

Lemma delete_webauthn_of_mine id : stmt_preserves mine (delete_webauthn_of id uid).
Proof.
  intros s n s' [[] Ho] [= <- <-]. split; [constructor; cbn; try done|].
  - by apply unique_filter.
  - by apply unique_filter.
  - by apply Forall_list_filter.
  - eapply others_trans; [exact Ho|]. constructor; cbn; try done. apply without_filter. intros x Hx.
    rewrite (proj2 (String.eqb_neq (wc_UserID x) uid) Hx). by rewrite andb_false_r.
Qed.

Lemma redis_mine f k : k = challengeKey uid "register" \/ k = challengeKey uid "login" ->
  (forall m k', k' <> k -> f m !! k' = m !! k') ->
  stmt_preserves mine (fun s => inl (tt, set_m_redis s (f (m_redis s)))).
Proof.
  intros Hk Hf s [] s' [[] Ho] [= <-]. split; [by constructor|].
  eapply others_trans; [exact Ho|]. constructor; cbn; try done. intros k1 Hr Hl. apply Hf. naive_solver.
Qed.
End confined.

(** A handler keeps [mine] from every state, or from a given one. *)
Section requests.
Context (uid : string) (s0 : mfa_state).

Let I := mine uid s0.

Lemma preserves_no_error {A} (r : result A) (e : string -> refusal) : preserves I (no_error (A := A) r e).
Proof. intros s Hs. by destruct r. Qed.

Lemma GetCredentials_mine k c u (e : string -> refusal) : preserves I (GetCredentials k c u e).
Proof. unfold GetCredentials. invariant_steps. Qed.

Lemma buildUser_mine k c u n d (e : string -> refusal) : preserves I (buildUser k c u n d e).
Proof. unfold buildUser. apply preserves_bind; [apply GetCredentials_mine|]. intros l. apply preserves_ret. Qed.

Lemma saveSession_mine rdb f c flow session (e : string -> refusal) :
  flow = "register" \/ flow = "login" -> preserves I (saveSession rdb f c uid flow session e).
Proof.
  intros Hf. unfold saveSession. apply preserves_bind; [apply preserves_no_error|]. intros data.
  destruct rdb; [|apply preserves_ret]. apply preserves_exec.
  apply (redis_mine uid s0 (fun m => <[challengeKey uid flow := (data, (now c + challengeTTL)%Z)]> m) (challengeKey uid flow)).
  - destruct Hf as [-> | ->]; auto.
  - intros m k Hk. by apply lookup_insert_ne.
Qed.

Lemma loadSession_mine rdb g f c flow (e : string -> refusal) :
  flow = "register" \/ flow = "login" -> preserves I (loadSession rdb g f c uid flow e).
Proof.
  intros Hf. unfold loadSession. invariant_steps; [|apply preserves_no_error].
  apply (redis_mine uid s0 (fun m => delete (challengeKey uid flow) m) (challengeKey uid flow)).
  - destruct Hf as [-> | ->]; auto.
  - intros m k Hk. by apply lookup_delete_ne.
Qed.

Lemma RegisterCredential_mine f c w e : wc_UserID w = uid -> preserves I (RegisterCredential f c w e).
Proof. intros Hw. apply preserves_exec. by apply insert_webauthn_mine. Qed.

Lemma SetMFAEnabled_mine f b e : preserves I (SetMFAEnabled f uid b e).
Proof. apply preserves_exec, update_mfa_enabled_mine. Qed.

Lemma scanCodes_mine c e code i rows s :
  I s -> (forall r, r ∈ rows -> r ∈ unusedOf uid (m_codes s)) ->
  wp (scanCodes c e code i rows) (fun _ s' _ => I s') (fun _ s' _ => I s') s.
Proof.
  intros Hs. revert i. induction rows as [|r rows IH]; intros i Hin; cbn [scanCodes].
  - by apply (preserves_bind I); [apply preserves_require|intros; apply preserves_ret|].
  - apply wp_bind, wp_require. destruct (negb _); [|done]. destruct (CheckPassword _ _).
    + apply wp_bind, wp_exec. destruct (fails c 2); [done|]. destruct (mark_used _ s) as [[[] s']|] eqn:Eu; [|done].
      cbn. eapply mark_used_mine; [exact Hs| |exact Eu]. apply Hin. by left.
    + apply IH. intros x Hx. apply Hin. by right.
Qed.

Lemma ValidateBackupCode_mine c code e : preserves I (ValidateBackupCode c uid code e).
Proof.
  intros s Hs. apply wp_bind, wp_query. destruct (fails c 0); [done|]. by apply scanCodes_mine.
Qed.

Lemma recordSignCount_mine c credential : preserves I (recordSignCount c uid credential).
Proof.
  intros s Hs. unfold recordSignCount, readCredentials. apply wp_bind, wp_asks.
  destruct (fails c 5 || _ || _); [done|]. destruct (List.find _ _) as [w|] eqn:Ew; [|done].
  apply find_some in Ew as [Hw _]. apply wp_bind, wp_attempt. destruct (fails c 8); [done|].
  eapply update_sign_count_mine; [exact Hs| |done]. by apply list_elem_of_In.
Qed.
End requests.

#[local] Hint Resolve preserves_no_error GetCredentials_mine buildUser_mine RegisterCredential_mine
  SetMFAEnabled_mine ValidateBackupCode_mine recordSignCount_mine upsert_totp_mine mark_verified_mine update_mfa_enabled_mine
  delete_totp_mine delete_codes_mine insert_code_mine delete_webauthn_of_mine affected_preserves : handlers.
#[local] Hint Extern 1 (preserves _ (saveSession _ _ _ _ _ _ _)) => apply saveSession_mine; auto : handlers.
#[local] Hint Extern 1 (preserves _ (loadSession _ _ _ _ _ _ _)) => apply loadSession_mine; auto : handlers.

#[local] Opaque ValidateBackupCode RegisterCredential recordSignCount buildUser saveSession loadSession.

Lemma serve_mine ceremony c cl r s0 : preserves (mine (UserID cl) s0) (serve ceremony c (Some cl) r).
Proof.
  destruct r; cbn [serve]; unfold getStatus, setupTOTP, verifyTOTP, disableTOTP, generateBackupCodes,
    verifyBackupCode, listWebAuthnCredentials, registerWebAuthnCredential, deleteWebAuthnCredential,
    beginWebAuthnRegistration, finishWebAuthnRegistration, beginWebAuthnLogin, finishWebAuthnLogin;
    unfold authenticated, decoded, configured, EnableTOTP, VerifyTOTP, DisableTOTP, GenerateBackupCodes,
    GetUserMFAStatus, DeleteCredentialForUser, BeginRegistration, BeginLogin, storeCode;
    invariant_steps; simplify_eq; auto with handlers.
Qed.

#[local] Transparent ValidateBackupCode RegisterCredential recordSignCount buildUser saveSession loadSession.

(** C19. Users manage only their own factors.  On tables with intact keys and
    references, whatever request of the factor endpoints an authenticated user
    makes, and whatever statements of it fail, the flags,
    secrets, backup codes, security keys and pending challenges of every other
    user are as before, and keys and references of the tables stay intact; a
    request without claims is refused and changes nothing. *)
Theorem mfa_confined ceremony c claims r s (Hwf : mfa_wf s) :
  let '(reply, s', _) := run (serve ceremony c claims r) s in
  mfa_wf s' /\
  match claims with
  | Some cl => others (UserID cl) s s'
  | None => s' = s /\ (reply_status reply = 401 \/ reply_status reply = 503)
  end.
Proof.
  destruct claims as [cl|].
  - pose proof (preserves_run _ _ s (serve_mine ceremony c cl r s) (conj Hwf (others_refl _ _))) as Hm.
    by destruct (run _ s) as [[reply s'] es].
  - destruct r, ceremony; cbn; auto.
Qed.

(** ** Backup codes

    The unused codes of a user are a bag of plain codes: checking a code takes
    it out of the bag. *)

Definition bcrypt_exact : Prop := forall salt p h q,
  GenerateFromPassword salt p = Some h -> String.length q = String.length p -> CheckPassword h q = String.eqb q p.

(** A row stands for a code when it accepts, of the texts of that length, this
    one only. *)
Definition stands_for (r : backup_code) (code : string) : Prop :=
  forall p, String.length p = backupCodeLength -> CheckPassword (bc_hash r) p = String.eqb p code.

Definition bag_of (uid : string) (l : list backup_code) (bag : list string) : Prop :=
  Forall2 stands_for (unusedOf uid l) bag.

Lemma filter_true {A} (P : A -> Prop) `{!forall x, Decision (P x)} (l : list A) :
  (forall x, x ∈ l -> P x) -> filter P l = l.
Proof.
  induction l as [|x l IH]; intros HP; [done|]. rewrite filter_cons, decide_True by (apply HP; by left).
  f_equal. apply IH. intros y Hy. apply HP. by right.
Qed.

(** One occurrence less. *)
Fixpoint list_remove (code : string) (bag : list string) : option (list string) :=
  match bag with
  | [] => None
  | x :: bag => if decide (code = x) then Some bag else cons x <$> list_remove code bag
  end.

Lemma unusedOf_consume uid id l :
  unusedOf uid (consumeCode id l).1 = filter (fun r => bc_id r <> id) (unusedOf uid l).
Proof.
  unfold unusedOf, consumeCode. cbn. induction l as [|r l IH]; [done|]. cbn [map].
  rewrite !filter_cons. destruct (decide (bc_id r = id /\ bc_used r = false)) as [[Hid Hu]|Hn]; cbn.
  - rewrite decide_False by naive_solver. rewrite IH. case_decide; [|done]. rewrite filter_cons.
    by rewrite decide_False by tauto.
  - case_decide as Hd; [|done]. rewrite filter_cons, decide_True by naive_solver. by rewrite IH.
Qed.

Lemma consume_some id r l : r ∈ l -> bc_id r = id -> bc_used r = false -> (consumeCode id l).2 <> 0%nat.
Proof.
  intros Hr Hid Hu E. cbn in E. apply length_zero_iff_nil in E.
  assert (r ∈ filter (fun x => bc_id x = id /\ bc_used x = false) l) as Hf by (apply list_elem_of_filter; auto).
  rewrite E in Hf. by apply elem_of_nil in Hf.
Qed.

Lemma tryRows_bag rows bag code l :
  String.length code = backupCodeLength ->
  Forall2 stands_for rows bag -> NoDup (map bc_id rows) ->
  (forall r, r ∈ rows -> r ∈ l /\ bc_used r = false) ->
  match list_remove code bag with
  | Some bag' => exists r, r ∈ rows /\ CheckPassword (bc_hash r) code = true /\
      tryRows false rows code l = (true, (consumeCode (bc_id r) l).1) /\
      Forall2 stands_for (filter (fun x => bc_id x <> bc_id r) rows) bag'
  | None => tryRows false rows code l = (false, l)
  end.
Proof.
  intros Hlen HF. induction HF as [|r c rows bag Hr HF IH]; intros Hnd Hin; [done|].
  cbn [list_remove tryRows]. cbn [map] in Hnd. apply NoDup_cons in Hnd as [Hfresh Hnd]. rewrite (Hr code Hlen).
  destruct (decide (code = c)) as [->|Hne].
  - rewrite String.eqb_refl. exists r. assert (r ∈ l /\ bc_used r = false) as [Hl Hu] by (apply Hin; by left).
    pose proof (consume_some (bc_id r) r l Hl eq_refl Hu) as Hn. rewrite (Hr c Hlen), String.eqb_refl.
    destruct (consumeCode (bc_id r) l) as [l' n]. cbn in Hn. rewrite (proj2 (Nat.eqb_neq _ _) Hn).
    split_and!; [by left|done|done|]. rewrite filter_cons, decide_False by tauto.
    rewrite filter_true; [done|]. intros x Hx Ex. apply Hfresh. rewrite <- Ex.
    apply list_elem_of_fmap. eauto.
  - rewrite (proj2 (String.eqb_neq _ _) Hne).
    specialize (IH Hnd (fun x Hx => Hin x (list_elem_of_further _ _ _ Hx))).
    destruct (list_remove code bag) as [bag1|]; cbn [fmap option_fmap option_map]; [|done]. destruct IH as (x & Hx & Hc & Ht & HF').
    exists x. split_and!; [by right|done|done|]. rewrite filter_cons, decide_True; [by constructor|].
    intros E. apply Hfresh. rewrite E. apply list_elem_of_fmap. eauto.
Qed.

(** Checking codes one after the other, at the login and against the bag. *)
Fixpoint tryAll (d : auth_db) (uid : string) (codes : list string) : list bool :=
  match codes with
  | [] => []
  | code :: codes => let '(ok, d') := tryBackupCode false false d uid code in ok :: tryAll d' uid codes
  end.

Fixpoint takeAll (bag codes : list string) : list bool :=
  match codes with
  | [] => []
  | code :: codes => match list_remove code bag with
                     | Some bag' => true :: takeAll bag' codes
                     | None => false :: takeAll bag codes
                     end
  end.

Lemma unusedOf_ids uid l : NoDup (map bc_id l) -> NoDup (map bc_id (unusedOf uid l)).
Proof. apply NoDup_map_filter. Qed.

Lemma consume_ids id l : NoDup (map bc_id l) -> NoDup (map bc_id (consumeCode id l).1).
Proof. intros Hnd. pose proof (consumeCode_unused id l Hnd) as Hc. destruct (consumeCode id l). tauto. Qed.

Lemma tryAll_takeAll d uid bag codes :
  NoDup (map bc_id (backup_codes d)) -> bag_of uid (backup_codes d) bag ->
  Forall (fun code => String.length code = backupCodeLength) codes ->
  tryAll d uid codes = takeAll bag codes.
Proof.
  intros Hnd Hbag Hlen. revert d bag Hnd Hbag. induction Hlen as [|code codes Hc Hlen IH]; intros d bag Hnd Hbag; [done|].
  cbn [tryAll takeAll]. unfold tryBackupCode.
  pose proof (tryRows_bag _ _ code (backup_codes d) Hc Hbag (unusedOf_ids _ _ Hnd)) as Hrows.
  destruct (list_remove code bag) as [bag'|].
  - destruct Hrows as (r & Hr & _ & -> & HF); [by intros r [[? ?] ?]%list_elem_of_filter|]. f_equal. apply IH; [by apply consume_ids|].
    unfold bag_of. cbn [backup_codes set_backup_codes]. by rewrite unusedOf_consume.
  - rewrite Hrows by (by intros r [[? ?] ?]%list_elem_of_filter). f_equal. apply IH; by destruct d.
Qed.

(** *** Generation *)

Definition in_alphabet (alphabet : string) (s : string) : Prop :=
  Forall (fun a => a ∈ list_ascii_of_string alphabet) (list_ascii_of_string s).

Lemma get_in s n a : String.get n s = Some a -> a ∈ list_ascii_of_string s.
Proof.
  revert n. induction s as [|b s IH]; intros [|n]; cbn; try done; [intros [= ->]; by left|].
  intros Hn. right. by eapply IH.
Qed.

Lemma get_below s n : (n < String.length s)%nat -> exists a, String.get n s = Some a.
Proof.
  revert n. induction s as [|b s IH]; intros [|n]; cbn; try lia; eauto. intros Hn. apply IH. lia.
Qed.

Lemma randomString_ok rnd k n alphabet s :
  randomString rnd k n alphabet = Some s -> String.length s = n /\ in_alphabet alphabet s.
Proof.
  revert k s. induction n as [|n IH]; intros k s; cbn.
  - intros [= <-]. split; [done|constructor].
  - intros (idx & _ & (a & Ha & Hs)%bind_Some)%bind_Some.
    apply fmap_Some in Hs as (t & [Ht1 Ht2]%IH & ->). cbn. split; [by f_equal|].
    constructor; [by eapply get_in|done].
Qed.

(** The draws are enough: only an error of the generator stops it. *)
Lemma randomString_total rnd k n alphabet :
  alphabet <> "" -> (forall i, is_Some (rnd i)) -> is_Some (randomString rnd k n alphabet).
Proof.
  intros Ha Hr. assert (0 < Z.of_nat (String.length alphabet))%Z as Hpos by (destruct alphabet; cbn; [done|lia]).
  revert k. induction n as [|n IH]; intros k; cbn; [eauto|].
  destruct (Hr k) as [z Hz]. unfold rand_Int at 1. rewrite Hz. cbn.
  pose proof (Z.mod_pos_bound z _ Hpos) as Hb.
  destruct (get_below alphabet (Z.to_nat (z mod Z.of_nat (String.length alphabet)))) as [a ->]; [lia|]. cbn.
  destruct (IH (S k)) as [t ->]. cbn. eauto.
Qed.

Definition code_ok (code : string) : Prop :=
  String.length code = backupCodeLength /\ in_alphabet backupCodeChars code.

Lemma newCodes_ok rnd codes : newCodes rnd = Some codes -> length codes = backupCodeCount /\ Forall code_ok codes.
Proof.
  intros Hm%mapM_Some. split; [by rewrite <- (Forall2_length _ _ _ Hm), length_seq|].
  eapply Forall2_Forall_r; [exact Hm|]. apply Forall_forall. intros i _ code Hc. by apply randomString_ok in Hc.
Qed.

Lemma unusedOf_app uid l l' : unusedOf uid (l ++ l') = (unusedOf uid l ++ unusedOf uid l')%list.
Proof. apply filter_app. Qed.

Lemma unusedOf_without uid l : unusedOf uid (without bc_user l uid) = [].
Proof.
  unfold unusedOf. destruct (filter _ _) as [|r rest] eqn:E; [done|].
  assert (r ∈ filter (fun x => bc_user x = uid /\ bc_used x = false) (without bc_user l uid)) as Hr
    by (rewrite E; by left).
  apply list_elem_of_filter in Hr as [[Hu _] Hr]. by apply elem_of_without in Hr as [_ ?].
Qed.

Lemma storeCodes_bag c uid e l s bag :
  bcrypt_exact -> Forall (fun ic => String.length ic.2 = backupCodeLength) l -> bag_of uid (m_codes s) bag ->
  wp (forM l (storeCode c uid e)) (fun _ s' _ => bag_of uid (m_codes s') (bag ++ map snd l)) (fun _ _ _ => True) s.
Proof.
  intros Hb Hl. revert s bag. induction Hl as [|[i code] l Hc Hl IH]; intros s bag Hbag.
  { cbn. by rewrite app_nil_r. }
  cbn [forM]. apply wp_bind. unfold storeCode. apply wp_bind, wp_the.
  destruct (GenerateFromPassword _ _) as [hash|] eqn:Eh; [|done]. apply wp_exec.
  destruct (fails c _); [done|]. unfold insert_code. cbn [fst snd].
  destruct (has bc_id _ _); [done|]. destruct (has ac_id _ _); [|done]. cbn [negb].
  eapply wp_mono; [| |apply IH with (bag := (bag ++ [code])%list)]; [|done|].
  - intros u s' es. cbn. by rewrite <- app_assoc.
  - unfold bag_of. cbn [m_codes set_m_codes]. rewrite unusedOf_app. apply Forall2_app; [done|].
    unfold unusedOf. rewrite filter_cons, decide_True by done. constructor; [|constructor].
    intros p Hp. cbn. apply (Hb _ _ _ _ Eh). by rewrite Hp.
Qed.

Lemma snd_imap {A} (l : list A) k : map snd (imap (fun i x => ((k + i)%nat, x)) l) = l.
Proof.
  revert k. induction l as [|x l IH]; intros k; [done|]. cbn. f_equal.
  rewrite <- (IH (S k)) at 2. f_equal. apply imap_ext. intros i y _. cbn. f_equal. lia.
Qed.

Lemma GenerateBackupCodes_bag c uid e s : bcrypt_exact ->
  wp (GenerateBackupCodes c uid e)
     (fun codes s' _ => newCodes (rnd c) = Some codes /\ bag_of uid (m_codes s') codes) (fun _ _ _ => True) s.
Proof.
  intros Hb. unfold GenerateBackupCodes. apply wp_bind, wp_the. destruct (newCodes (rnd c)) as [codes|] eqn:Ec; [|done].
  apply wp_bind, wp_require. destruct (negb _); [|done]. apply wp_atomically, wp_bind, wp_exec.
  destruct (fails c 1); [done|]. cbn [delete_codes]. apply newCodes_ok in Ec as [_ Hok]. apply wp_bind.
  assert (map snd (imap pair codes) = codes) as Es by apply (snd_imap codes 0).
  eapply wp_mono; [| |apply storeCodes_bag with (bag := []); [done|..]]; [|done| |].
  - intros u s' es Hbag. apply wp_bind, wp_require. destruct (negb _); [|done]. cbn. split; [done|].
    by rewrite Es in Hbag.
  - apply Forall_forall. intros [i code] Hin. assert (code ∈ map snd (imap pair codes)) as Hc
      by (apply list_elem_of_fmap; by exists (i, code)).
    rewrite Es in Hc. by apply (proj1 (Forall_forall _ _) Hok) in Hc as [? _].
  - unfold bag_of. cbn [m_codes set_m_codes]. rewrite unusedOf_without. constructor.
Qed.

(** C17. Backup codes work as a bag of single-use codes.  A successful
    generation returns ten codes of eight characters of the alphabet.  From then
    on the check at the login accepts, in any sequence of attempts with texts of
    eight characters, each served to its end before the next and with every
    statement answered, exactly what a bag holding these ten codes accepts when
    each success takes the code out: every code once, and no code generated
    earlier.  It is assumed that bcrypt accepts a text of the length of the
    hashed one exactly when it is the hashed one; nothing is said of texts of
    another length, which bcrypt may take for the code (it repeats short
    texts). *)
Theorem backup_codes_refine c cl s codes s' es d attempts
    (Hb : bcrypt_exact) (Hwf : mfa_wf s)
    (Hgen : run (generateBackupCodes c (Some cl)) s = (Reply 200 (BCodes codes), s', es))
    (Hlen : Forall (fun code => String.length code = backupCodeLength) attempts) :
  length codes = 10%nat /\ Forall code_ok codes /\
  tryAll (login_view s' d) (UserID cl) attempts = takeAll codes attempts.
Proof.
  assert (mfa_wf s') as Hwf'.
  { pose proof (preserves_run _ _ s (serve_mine None c cl NewBackupCodes s) (conj Hwf (others_refl _ _))) as Hm.
    cbn [serve] in Hm. rewrite Hgen in Hm. apply Hm. }
  assert (newCodes (rnd c) = Some codes /\ bag_of (UserID cl) (m_codes s') codes) as [Hc Hbag].
  { revert Hgen. unfold run, generateBackupCodes, authenticated, bind, the, ret, respondJSON.
    pose proof (GenerateBackupCodes_bag c (UserID cl) (500, "failed to generate backup codes") s Hb) as Hw.
    unfold wp in Hw. destruct (GenerateBackupCodes _ _ _ s) as [[[l|[? ?]] s1] fs]; [|done].
    by intros [= <- <- _]. }
  apply newCodes_ok in Hc as [Hn Hok]. split_and!; [done..|].
  apply tryAll_takeAll; [apply (wf_codes _ Hwf')|done..].
Qed.

(** *** The check of the MFA endpoint *)

Lemma markUsed_consume id l : markUsed id l = (consumeCode id l).1.
Proof.
  cbn. apply map_ext. intros [i u h []]; cbn.
  - rewrite (decide_False (P := i = id /\ true = false)) by (by intros [_ ?]). by case_decide.
  - destruct (decide (i = id)); [by rewrite decide_True|by rewrite decide_False by (by intros [? _])].
Qed.

Lemma scanCodes_tryRows c e code i rows s :
  (forall k, fails c k = false) -> (forall r, r ∈ rows -> r ∈ m_codes s /\ bc_used r = false) ->
  let '(ok, l) := tryRows false rows code (m_codes s) in
  scanCodes c e code i rows s = (inl ok, set_m_codes s l, []).
Proof.
  intros Hf. revert i. induction rows as [|r rows IH]; intros i Hin; cbn [tryRows scanCodes].
  - unfold bind, require, ret. rewrite Hf. by destruct s.
  - unfold bind at 1, require, ret at 1. rewrite Hf. cbn [negb].
    destruct (CheckPassword _ _).
    + destruct (Hin r) as [Hr Hu]; [by left|]. pose proof (consume_some (bc_id r) r _ Hr eq_refl Hu) as Hn.
      pose proof (markUsed_consume (bc_id r) (m_codes s)) as Hm.
      destruct (consumeCode (bc_id r) (m_codes s)) as [l n]. cbn in Hn, Hm.
      rewrite (proj2 (Nat.eqb_neq _ _) Hn). unfold bind, exec. rewrite Hf. cbn. by rewrite Hm.
    + specialize (IH (S i) (fun x Hx => Hin x (list_elem_of_further _ _ _ Hx))).
      destruct (tryRows _ _ _ _) as [ok l]. by rewrite IH.
Qed.

(** The two backup-code checks agree.  When no statement fails and
    nothing runs in between, the check of the MFA endpoint and the one of the
    login answer the same and leave the same tables, although one guards its
    update and the other does not. *)
Theorem backup_checks_agree c uid code e s d (Hf : forall k, fails c k = false) :
  let '(ok, d') := tryBackupCode false false (login_view s d) uid code in
  exists s', ValidateBackupCode c uid code e s = (inl ok, s', []) /\ login_view s' d = d'.
Proof.
  unfold tryBackupCode. cbn [backup_codes login_view].
  pose proof (scanCodes_tryRows c e code 0 (unusedOf uid (m_codes s)) s Hf) as Hs.
  destruct (tryRows false (unusedOf uid (m_codes s)) code (m_codes s)) as [ok l].
  eexists. unfold ValidateBackupCode, bind at 1, query. rewrite Hf, Hs; [done|].
  by intros r [[_ ?] ?]%list_elem_of_filter.
Qed.

(** ** Challenges *)

Section ceremonies.
Context (uid : string).

Let key := challengeKey uid "register".
Let none (s : mfa_state) : Prop := m_redis s !! key = None.

Lemma challengeKey_inj u flow : flow = "register" \/ flow = "login" ->
  challengeKey u flow = key -> u = uid /\ flow = "register".
Proof.
  intros [-> | ->] E; [|discriminate E]. by apply (string_app_inj_l "webauthn:register:") in E.
Qed.

(** Statements on the tables do not touch the challenges. *)
Lemma table_none {A} (st : stmt mfa_state A) :
  (forall s a s', st s = inl (a, s') -> m_redis s' = m_redis s) -> stmt_preserves none st.
Proof. intros Hst s a s' Hs E. unfold none. by rewrite (Hst s a s' E). Qed.

Lemma saveSession_none rdb f c u flow session (e : string -> refusal) :
  flow = "register" \/ flow = "login" -> u <> uid \/ flow = "login" ->
  preserves none (saveSession rdb f c u flow session e).
Proof.
  intros Hf Hne. unfold saveSession. apply preserves_bind; [intros s Hs; by destruct (session_Marshal _)|]. intros data.
  destruct rdb; [|apply preserves_ret]. apply preserves_exec. intros s [] s' Hs [= <-].
  unfold none. cbn. rewrite lookup_insert_ne; [done|]. intros [? ?]%challengeKey_inj; [|done]. subst.
  by destruct Hne.
Qed.

Lemma loadSession_none rdb g f c u flow (e : string -> refusal) : preserves none (loadSession rdb g f c u flow e).
Proof.
  unfold loadSession. invariant_steps; [|intros s Hs; by destruct (session_Unmarshal _)].
  intros s [] s' Hs [= <-]. unfold none. cbn. destruct (decide (challengeKey u flow = key)) as [->|Hne].
  - by rewrite lookup_delete_eq.
  - by rewrite lookup_delete_ne.
Qed.

Definition begins (claims : option TokenClaims) (r : mfa_request) : bool :=
  match claims, r with Some cl, BeginRegister => String.eqb (UserID cl) uid | _, _ => false end.

Definition finishes (claims : option TokenClaims) (r : mfa_request) : bool :=
  match claims, r with Some cl, FinishRegister _ _ => String.eqb (UserID cl) uid | _, _ => false end.

Ltac table_step := apply table_none; intros ? ? ? ?; unfold update_mfa_enabled, upsert_totp, mark_verified,
  delete_totp, delete_codes, insert_code, mark_used, insert_webauthn, update_sign_count, delete_webauthn_of, affected in *;
  repeat case_match;
  lazymatch goal with E : inr _ = inl _ |- _ => discriminate E | _ => idtac end;
  repeat match goal with E : inl _ = inl _ |- _ => injection E as ? ? end; subst; reflexivity.

#[local] Opaque saveSession loadSession.
Lemma no_error_none {A} (r : result A) (e : string -> refusal) : preserves none (no_error (A := A) r e).
Proof. intros s Hs. by destruct r. Qed.
#[local] Opaque no_error.

Lemma scanCodes_none c e code i rows : preserves none (scanCodes c e code i rows).
Proof.
  revert i. induction rows as [|r rows IH]; intros i; cbn [scanCodes].
  - apply preserves_bind; [apply preserves_require|intros; apply preserves_ret].
  - apply preserves_bind; [apply preserves_require|intros _]. destruct (CheckPassword _ _); [|apply IH].
    apply preserves_bind; [apply preserves_exec; table_step|intros; apply preserves_ret].
Qed.

Lemma serve_none ceremony c claims r : begins claims r = false -> preserves none (serve ceremony c claims r).
Proof.
  intros Hb. destruct r; cbn [serve]; unfold getStatus, setupTOTP, verifyTOTP, disableTOTP, generateBackupCodes,
    verifyBackupCode, listWebAuthnCredentials, registerWebAuthnCredential, deleteWebAuthnCredential,
    beginWebAuthnRegistration, finishWebAuthnRegistration, beginWebAuthnLogin, finishWebAuthnLogin;
    unfold authenticated, decoded, configured, EnableTOTP, VerifyTOTP, DisableTOTP, GenerateBackupCodes,
    GetUserMFAStatus, DeleteCredentialForUser, BeginRegistration, BeginLogin, storeCode;
    invariant_steps; try table_step; try apply no_error_none; try apply scanCodes_none; try apply loadSession_none.
  - apply saveSession_none; [by left|]. left. intros E. subst. cbn in Hb. by rewrite E, String.eqb_refl in Hb.
  - apply saveSession_none; by right.
  - apply saveSession_none; by right.
  - apply preserves_asks.
Qed.

#[local] Transparent saveSession loadSession no_error.

Lemma pure_no_error {A} (r : result A) (e : string -> refusal) : pure (no_error (A := A) r e).
Proof. intros s. by destruct r. Qed.

Lemma pure_buildUser k c u n d (e : string -> refusal) : pure (buildUser k c u n d e).
Proof.
  unfold buildUser, GetCredentials. repeat (apply pure_bind; [|intros ?]);
    first [apply pure_query | apply pure_require | apply pure_ret].
Qed.

Lemma wp_then {A C} (P : Prop) (m : M A) (k : A -> M C) s :
  wp m (fun _ s' _ => P /\ none s') (fun _ _ _ => True) s -> (forall a, preserves none (k a)) ->
  wp (bind m k) (fun _ s' _ => P /\ none s') (fun _ _ _ => True) s.
Proof.
  intros Hm Hk. apply wp_bind. eapply wp_mono; [| |exact Hm]; [|done]. intros a s' es [HP Hs'].
  eapply wp_mono; [| |apply (Hk a s' Hs')]; [|done]. auto.
Qed.

Lemma loadSession_consumes rdb g c (e : string -> refusal) s :
  wp (loadSession rdb g false c uid "register" e)
    (fun _ s' _ => is_Some (m_redis s !! key) /\ none s') (fun _ _ _ => True) s.
Proof.
  unfold loadSession. fold key. apply wp_pure; [apply pure_require|]. intros _.
  apply wp_bind, wp_query. destruct g; [done|]. unfold redis_get.
  destruct (m_redis s !! key) as [[data t]|] eqn:Ek; [|done]. destruct (now c <? t)%Z; [|done].
  apply wp_bind, wp_the. apply wp_bind, wp_attempt. cbn [redis_del].
  assert (none (set_m_redis s (delete key (m_redis s)))) as Hn by (unfold none; cbn; by rewrite lookup_delete_eq).
  eapply wp_mono; [| |apply (no_error_none _ _ _ Hn)]; eauto.
Qed.

Lemma finish_consumes ceremony c cl n a s : fails c 4 = false -> UserID cl = uid ->
  wp (finishWebAuthnRegistration ceremony c (Some cl) n a)
    (fun _ s' _ => is_Some (m_redis s !! key) /\ none s') (fun _ _ _ => True) s.
Proof.
  intros Hdel Huid. unfold finishWebAuthnRegistration, configured, authenticated.
  apply wp_pure; [apply pure_the|]. intros rdb. apply wp_bind, wp_the. rewrite Huid, Hdel.
  apply wp_pure; [apply pure_buildUser|]. intros user. apply wp_then; [apply loadSession_consumes|]. intros session.
  apply preserves_bind; [apply no_error_none|]. intros credential.
  apply preserves_bind; [apply preserves_exec; table_step|]. intros _.
  apply preserves_bind; [apply preserves_exec; table_step|]. intros _. apply preserves_ret.
Qed.

Lemma begin_clean ceremony c claims : clean (beginWebAuthnRegistration ceremony c claims).
Proof.
  unfold beginWebAuthnRegistration, BeginRegistration, configured, authenticated, saveSession.
  apply clean_bind; [apply pure_the|]. intros rdb. apply clean_bind; [apply pure_the|]. intros cl.
  apply clean_bind_total; [|intros; apply total_respondJSON].
  apply clean_bind; [apply pure_buildUser|]. intros user. apply clean_bind; [apply pure_no_error|]. intros [creation session].
  apply clean_bind_total; [|intros; apply total_ret]. apply clean_bind; [apply pure_no_error|]. intros data.
  destruct rdb; [apply clean_exec|apply total_clean, total_ret].
Qed.

(** One request in a run; a registration is begun or completed when it is
    accepted. *)
Definition served_mfa (ceremony : option bool) (s : mfa_state) (x : call * option TokenClaims * mfa_request)
  : reply mfa_body * mfa_state * list Empty_set := let '(c, claims, r) := x in run (serve ceremony c claims r) s.

Definition accepted {B} (r : reply B) : bool := match r with Reply _ _ => true | _ => false end.

Definition begun (ceremony : option bool) (s : mfa_state) (x : call * option TokenClaims * mfa_request) : bool :=
  begins x.1.2 x.2 && accepted (served_mfa ceremony s x).1.1.
Definition completed (ceremony : option bool) (s : mfa_state) (x : call * option TokenClaims * mfa_request) : bool :=
  finishes x.1.2 x.2 && accepted (served_mfa ceremony s x).1.1.

Definition registrations (ceremony : option bool) : list (call * option TokenClaims * mfa_request) -> mfa_state -> nat * nat :=
  ledger (fun s x => (served_mfa ceremony s x).1.2) (begun ceremony) (completed ceremony).

Definition pending (s : mfa_state) : nat := match m_redis s !! key with Some _ => 1 | None => 0 end.

Lemma pending_0 s : none s -> pending s = 0%nat.
Proof. unfold pending, none. by intros ->. Qed.

Lemma registrations_balanced ceremony x : fails x.1.1 4 = false ->
  balanced (fun s x => (served_mfa ceremony s x).1.2) (begun ceremony) (completed ceremony) pending x.
Proof.
  destruct x as [[c claims] r]. cbn [fst snd]. intros Hdel s. unfold begun, completed. cbn [fst snd].
  destruct (served_mfa ceremony s (c, claims, r)) as [[reply s'] es] eqn:Hrun. cbn [served_mfa fst snd] in *.
  destruct (begins claims r) eqn:Eb.
  - assert (finishes claims r = false) as -> by (by destruct claims, r). cbn [andb]. destruct reply as [st b|st msg]; cbn [accepted].
    + unfold pending. repeat case_match; lia.
    + destruct r; try by destruct claims. cbn [serve] in Hrun. apply clean_run in Hrun as [-> _]; [lia|apply begin_clean].
  - cbn [andb]. destruct (m_redis s !! key) eqn:Ek.
    + destruct (finishes claims r) eqn:Ef, reply as [st b|st msg]; cbn [andb accepted];
        try (unfold pending at 2; rewrite Ek; unfold pending; case_match; lia).
      destruct claims as [cl|], r; try done. apply String.eqb_eq in Ef.
      pose proof (run_Reply _ _ _ _ _ _ _ Hrun (finish_consumes ceremony c cl name answer s Hdel Ef)) as [_ Hn].
      rewrite (pending_0 s' Hn). unfold pending. rewrite Ek. lia.
    + pose proof (preserves_run _ _ s (serve_none ceremony c claims r Eb) Ek) as Hn. rewrite Hrun in Hn. cbn in Hn.
      rewrite (pending_0 s' Hn). destruct (finishes claims r) eqn:Ef, reply as [st b|st msg]; cbn [andb accepted]; try lia.
      destruct claims as [cl|], r; try done. apply String.eqb_eq in Ef.
      pose proof (run_Reply _ _ _ _ _ _ _ Hrun (finish_consumes ceremony c cl name answer s Hdel Ef)) as [[x Hx] _].
      congruence.
Qed.

(** C18. A WebAuthn challenge completes at most one registration.  Along any
    sequence of requests of any users in which Redis carries out its
    deletions, a user with no pending challenge completes no more
    registrations than that user has begun. *)
Theorem challenge_single_use ceremony trace s
    (Hdel : Forall (fun x => fails x.1.1 4 = false) trace)
    (Hs : m_redis s !! challengeKey uid "register" = None) :
  let '(begun, completed) := registrations ceremony trace s in (completed <= begun)%nat.
Proof.
  assert ((registrations ceremony trace s).2 <= (registrations ceremony trace s).1 + pending s)%nat as Hl.
  { apply ledger_balanced. eapply Forall_impl; [exact Hdel|]. intros x. apply registrations_balanced. }
  rewrite (pending_0 s Hs) in Hl. destruct (registrations _ _ _) as [b f]. cbn in Hl. lia.
Qed.
End ceremonies.

(** ** What the login makes of an enrolment *)

Lemma login_view_totp s d uid :
  mfa_totp (login_view s d) !! uid = tt_secret <$> byKey tt_user (m_totp s) uid.
Proof.
  cbn [mfa_totp login_view]. unfold byKey. induction (m_totp s) as [|t l IH]; cbn; [done|].
  destruct (String.eqb_spec (tt_user t) uid) as [E|E].
  - rewrite E, lookup_insert_eq. done.
  - by rewrite lookup_insert_ne.
Qed.

Lemma byKey_without {A} (key : A -> string) l k : byKey key (without key l k) k = None.
Proof. apply byKey_None. intros (x & -> & [_ ?]%elem_of_without)%list_elem_of_fmap. done. Qed.

Lemma setup_stores c cl body s :
  wp (setupTOTP c (Some cl) body)
    (fun r s' _ => forall secret url img, r = (200, BSetup secret url img) ->
       m_accounts s' = m_accounts s /\
       byKey tt_user (m_totp s') (UserID cl) =
         Some {| tt_user := UserID cl; tt_secret := secret; tt_verified := false; tt_created := now c |})
    (fun _ _ _ => True) s.
Proof.
  unfold setupTOTP, authenticated, decoded, EnableTOTP. apply wp_bind, wp_the. apply wp_pure; [apply pure_the|].
  intros issuer. apply wp_bind. apply wp_pure; [apply pure_the|]. intros [[secret url] img]. apply wp_bind, wp_exec.
  destruct (fails c 0); [done|]. unfold upsert_totp. destruct (has ac_id _ _); [|done]. cbn [negb].
  destruct (has tt_user _ _) eqn:Ht; cbn; intros ? ? ? [= <- <- <-]; (split; [done|]).
  - etransitivity; [by apply (byKey_upd tt_user)|]. apply has_true in Ht. destruct (byKey _ _ _) eqn:E; [done|].
    by apply byKey_None in E.
  - apply has_false in Ht. by apply (byKey_app_own tt_user).
Qed.

Lemma verify_enables c cl code s :
  wp (verifyTOTP c (Some cl) (Some code))
    (fun r s' _ => r = (200, BValid true) -> exists t,
       byKey tt_user (m_totp s) (UserID cl) = Some t /\ totp_Validate code (tt_secret t) (now c) = true /\
       m_accounts s' = upd ac_id (UserID cl) (set_mfa_enabled true) (m_accounts s) /\
       exists t', byKey tt_user (m_totp s') (UserID cl) = Some t' /\ tt_secret t' = tt_secret t /\ tt_verified t' = true)
    (fun _ _ _ => True) s.
Proof.
  unfold verifyTOTP, authenticated, decoded, VerifyTOTP. apply wp_bind, wp_the, wp_bind, wp_the.
  apply wp_pure; [apply pure_require|]. intros _. apply wp_bind, wp_bind, wp_query. destruct (fails c 0); [done|].
  apply wp_bind, wp_the. destruct (byKey _ _ _) as [t|] eqn:Et; [|done].
  destruct (totp_Validate _ _ _) eqn:Ev; cbn [negb]; [|by cbn]. apply wp_bind, wp_when.
  unfold SetMFAEnabled. destruct (tt_verified t) eqn:Ever; cbn [negb].
  - apply wp_ret. cbn [negb]. apply wp_bind, wp_exec. destruct (fails c 2); [done|]. cbn. intros _.
    exists t. split_and!; [done..|]. by exists t.
  - apply wp_exec. destruct (fails c 1); [done|]. cbn [mark_verified]. apply wp_ret. cbn [negb].
    apply wp_bind, wp_exec. destruct (fails c 2); [done|]. cbn. intros _.
    exists t. split_and!; [done..|]. eexists. split; [etransitivity; [by apply (byKey_upd tt_user)|by rewrite Et]|done].
Qed.

Section login.
Context `{JwtLib} (jwtSecret : string).

(** An account with the flag gets no session token from the password alone. *)
Lemma login_asks sf uf t d rq a hash r d' :
  loginRow d (lq_username rq) = Some (a, hash) -> ac_mfa_enabled a = true ->
  login jwtSecret sf uf t d (Some rq) = ({| status := 200; payload := BLogin r |}, d') ->
  lr_token r = "" /\ lr_mfa_required r = true.
Proof.
  intros Hrow Hm. unfold login. destruct (_ || _); [done|]. destruct sf; [done|]. rewrite Hrow.
  destruct (negb (ac_is_active a)); [done|]. destruct (match ac_locked_until a with Some u => (t <? u)%Z | None => false end); [done|].
  destruct (negb (CheckPassword _ _)); [done|]. cbv zeta. rewrite Hm. destruct (GenerateToken _ _ _); [|done]. by intros [= <- _].
Qed.

Lemma upd_all {A} (key : A -> string) k f l x (P : A -> Prop) :
  (forall y, P (f y)) -> (forall y, key (f y) = key y) -> x ∈ upd key k f l -> key x = k -> P x.
Proof.
  intros HP Hk (y & -> & Hy)%list_elem_of_fmap. destruct (String.eqb_spec (key y) k) as [E|E]; [auto|done].
Qed.

(** A TOTP enrolment is what the login enforces.  Once a user has set up
    a secret and confirmed it with a code, the code was valid for that very
    secret; from then on a login with the user's password yields no session
    token but asks for the second factor, and the second step looks codes up
    under that secret and accepts the valid ones. *)
Theorem totp_enrolment c1 c2 cl body code s s1 s2 es1 es2 secret url img d
    (Hsetup : Http.run (setupTOTP c1 (Some cl) body) s = (Reply 200 (BSetup secret url img), s1, es1))
    (Hverify : Http.run (verifyTOTP c2 (Some cl) (Some code)) s1 = (Reply 200 (BValid true), s2, es2)) :
  totp_Validate code secret (now c2) = true /\
  (forall sf uf t rq a hash r d', loginRow (login_view s2 d) (lq_username rq) = Some (a, hash) -> ac_id a = UserID cl ->
     login jwtSecret sf uf t (login_view s2 d) (Some rq) = ({| status := 200; payload := BLogin r |}, d') ->
     lr_token r = "" /\ lr_mfa_required r = true) /\
  (forall t rq claims a, ValidateToken jwtSecret t (mq_token rq) = Ok claims -> TokenType claims = "mfa" ->
     UserID claims = UserID cl -> mq_token rq <> "" -> mq_code rq <> "" ->
     findBy (fun a => String.eqb (ac_id a) (UserID cl)) (m_accounts s2) = Some a ->
     totp_Validate (mq_code rq) secret t = true ->
     let '(resp, d') := verifyMFA jwtSecret nofaults t (login_view s2 d) (Some rq) in
     d' = login_view s2 d /\ (status resp = 200 \/ payload resp = BError "failed to generate token")).
Proof.
  destruct (run_Reply _ _ _ _ _ _ _ Hsetup (setup_stores c1 cl body s) secret url img eq_refl) as [_ Hrow].
  destruct (run_Reply _ _ _ _ _ _ _ Hverify (verify_enables c2 cl code s1) eq_refl)
    as (t & Ht & Hv & Hacc & t' & Ht' & Hsec & _).
  rewrite Hrow in Ht. injection Ht as <-. cbn in Hv, Hsec. split_and!; [done|..].
  - intros sf uf t rq a hash r d' Hlr Hid. apply (login_asks sf uf t _ rq a hash); [done|].
    unfold loginRow in Hlr. apply bind_Some in Hlr as (b & Hb & (h & _ & [= <- <-])%bind_Some).
    unfold findBy in Hb. apply fmap_Some in Hb as ([i x] & Hx & Hxb). cbn in Hxb. subst x.
    apply list_find_Some in Hx as (Hi & _). cbn [accounts login_view] in Hi. rewrite Hacc in Hi.
    apply list_elem_of_lookup_2 in Hi. by apply (upd_all ac_id (UserID cl) (set_mfa_enabled true) (m_accounts s1) b (fun x => ac_mfa_enabled x = true)).
  - intros u rq claims a Hval Htype Hu Htok Hcode Ha Hc. unfold verifyMFA.
    rewrite (proj2 (String.eqb_neq _ _) Htok), (proj2 (String.eqb_neq _ _) Hcode), Hval, Htype. cbn [orb negb String.eqb Ascii.eqb Bool.eqb].
    cbn [totpSelectFails nofaults]. rewrite Hu, login_view_totp, Ht'. cbn [fmap option_fmap option_map].
    rewrite Hsec, Hc. cbn [negb andb userSelectFails nofaults accounts login_view]. rewrite Ha.
    destruct (GenerateToken _ _ _); [|by auto]. split; [done|]. by left.
Qed.

(** Without a TOTP row no second step ever succeeds, backup codes included. *)
Lemma verifyMFA_needs_totp f t d rq claims :
  ValidateToken jwtSecret t (mq_token rq) = Ok claims -> mfa_totp d !! UserID claims = None ->
  status (verifyMFA jwtSecret f t d (Some rq)).1 <> 200.
Proof.
  intros Hval Hn. unfold verifyMFA. destruct (_ || _); [done|]. rewrite Hval.
  destruct (negb _); [done|]. destruct (totpSelectFails f); [done|]. by rewrite Hn.
Qed.

(** *** Where the code falls short *)

(** Switching TOTP off leaves the flag of the account on: a login still asks for
    a second factor, and none is accepted any more, backup codes included. *)
Theorem disable_locks_out c cl s s' es d
    (Hoff : Http.run (disableTOTP c (Some cl)) s = (Reply 204 BEmpty, s', es)) :
  m_accounts s' = m_accounts s /\
  forall f t rq claims, ValidateToken jwtSecret t (mq_token rq) = Ok claims -> UserID claims = UserID cl ->
    status (verifyMFA jwtSecret f t (login_view s' d) (Some rq)).1 <> 200.
Proof.
  unfold Http.run, disableTOTP, authenticated, DisableTOTP, bind, exec in Hoff. cbn in Hoff.
  destruct (fails c 0); [done|]. injection Hoff as <- <-. split; [done|].
  intros f t rq claims Hval Hu. apply (verifyMFA_needs_totp f t _ rq claims Hval).
  rewrite login_view_totp, Hu. cbn [m_totp set_m_totp]. by rewrite byKey_without.
Qed.
End login.

(** Without Redis a registration begins but never completes: nothing keeps the
    challenge in memory. *)
Theorem no_redis_no_registration c claims name answer s st b s' es :
  Http.run (finishWebAuthnRegistration (Some false) c claims name answer) s <> (Reply st b, s', es).
Proof.
  intros Hr. refine (run_Reply _ _ _ _ _ _ (fun _ _ _ => False) Hr _).
  unfold finishWebAuthnRegistration, configured, authenticated. apply wp_bind, wp_the.
  apply wp_pure; [apply pure_the|]. intros cl. apply wp_pure; [apply pure_buildUser|]. intros user.
  by apply wp_bind.
Qed.
End mfa.

(** ** Mailed codes ([email.go]) *)

Module Email.

Record emailToken := { Code : string; ExpiresAt : Z }.

Definition emailTokenTTL : Z := 5 * minute.

Abbreviation tokens := (gmap string emailToken).

Definition SendToken (now : Z) (rnd : nat -> option Z) (uid : string) (m : tokens) : option string * tokens :=
  match generateDigitCode rnd 0 6 with
  | Some code => (Some code, <[uid := {| Code := code; ExpiresAt := now + emailTokenTTL |}]> m)
  | None => (None, m)
  end.

Definition ValidateToken (now : Z) (uid code : string) (m : tokens) : bool * tokens :=
  match m !! uid with
  | None => (false, m)
  | Some tok =>
      if (ExpiresAt tok <? now)%Z then (false, delete uid m)
      else if negb (String.eqb (Code tok) code) then (false, m)
      else (true, delete uid m)
  end.

(** The promise: the code sent last to the user, for five minutes, until it is
    used.  [sent] has the code and the instant of the last unused mail. *)
Inductive event := Send (rnd : nat -> option Z) (uid : string) | Validate (uid code : string).

Definition step (now : Z) (e : event) (m : tokens) : bool * tokens :=
  match e with
  | Send rnd uid => let '(code, m) := SendToken now rnd uid m in (bool_decide (is_Some code), m)
  | Validate uid code => ValidateToken now uid code m
  end.

Definition promise (now : Z) (e : event) (sent : gmap string (string * Z)) : bool * gmap string (string * Z) :=
  match e with
  | Send rnd uid => match generateDigitCode rnd 0 6 with
                    | Some code => (true, <[uid := (code, now)]> sent)
                    | None => (false, sent)
                    end
  | Validate uid code =>
      match sent !! uid with
      | Some (c, t) => if String.eqb c code && (now <=? t + 5 * minute)%Z then (true, delete uid sent) else (false, sent)
      | None => (false, sent)
      end
  end.

Fixpoint answers {S} (step : Z -> event -> S -> bool * S) (trace : list (Z * event)) (s : S) : list bool :=
  match trace with
  | [] => []
  | (t, e) :: trace => let '(b, s) := step t e s in b :: answers step trace s
  end.

(** From [t] on the manager answers for what is sent: a token it has dropped has
    expired. *)
Definition tracks (t : Z) (m : tokens) (sent : gmap string (string * Z)) : Prop :=
  forall uid, match m !! uid, sent !! uid with
              | Some tok, Some (c, t0) => Code tok = c /\ ExpiresAt tok = (t0 + emailTokenTTL)%Z
              | None, Some (_, t0) => (t0 + emailTokenTTL < t)%Z
              | None, None => True
              | Some _, None => False
              end.

Lemma tracks_later t t' m sent : (t <= t')%Z -> tracks t m sent -> tracks t' m sent.
Proof. intros Hle Htr uid. specialize (Htr uid). repeat case_match; try done. lia. Qed.

Lemma tracks_both t m m' sent sent' uid :
  tracks t m sent -> (forall u, u <> uid -> m' !! u = m !! u /\ sent' !! u = sent !! u) ->
  match m' !! uid, sent' !! uid with
  | Some tok, Some (c, t0) => Code tok = c /\ ExpiresAt tok = (t0 + emailTokenTTL)%Z
  | None, Some (_, t0) => (t0 + emailTokenTTL < t)%Z
  | None, None => True
  | Some _, None => False
  end -> tracks t m' sent'.
Proof.
  intros Htr Hu Huid u. destruct (decide (u = uid)) as [->|Hne]; [done|].
  destruct (Hu u Hne) as [-> ->]. apply Htr.
Qed.

Lemma step_tracks t e m sent : tracks t m sent ->
  (step t e m).1 = (promise t e sent).1 /\ tracks t (step t e m).2 (promise t e sent).2.
Proof.
  intros Htr. destruct e as [rnd uid|uid code]; cbn [step promise].
  - unfold SendToken. destruct (generateDigitCode rnd 0 6) as [code|]; cbn; [|done]. split; [done|].
    apply (tracks_both t m _ sent _ uid Htr).
    + intros u Hu. by rewrite !lookup_insert_ne by done.
    + by rewrite !lookup_insert_eq.
  - unfold ValidateToken. pose proof (Htr uid) as Hu.
    destruct (m !! uid) as [tok|] eqn:Em, (sent !! uid) as [[c t0]|] eqn:Es; try done.
    + destruct Hu as [Hc He]. rewrite He. unfold emailTokenTTL in *.
      destruct (Z.ltb_spec (t0 + 5 * minute) t) as [Hlt|Hge].
      * rewrite (proj2 (Z.leb_gt t (t0 + 5 * minute)) Hlt), andb_false_r. split; [done|].
        apply (tracks_both t m _ sent _ uid Htr); cbn.
        -- intros u Hne. by rewrite lookup_delete_ne.
        -- by rewrite lookup_delete_eq, Es.
      * rewrite (proj2 (Z.leb_le t (t0 + 5 * minute)) Hge), andb_true_r, Hc.
        destruct (String.eqb c code); cbn; [|done]. split; [done|].
        apply (tracks_both t m _ sent _ uid Htr).
        -- intros u Hne. by rewrite !lookup_delete_ne.
        -- by rewrite !lookup_delete_eq.
    + unfold emailTokenTTL in Hu. rewrite (proj2 (Z.leb_gt t (t0 + 5 * minute)) Hu), andb_false_r. done.
Qed.

(** Mailed codes keep their promise.  Along any sequence of mails and
    checks, in the order of time, a check succeeds exactly when the code is the
    one last mailed to that user, at most five minutes ago, and has not been
    used. *)
Theorem email_codes_refine trace
    (Htime : Sorted Z.le (map fst trace)) :
  answers step trace ∅ = answers promise trace ∅.
Proof.
  enough (forall t m sent, tracks t m sent -> HdRel Z.le t (map fst trace) ->
    answers step trace m = answers promise trace sent) as Hall.
  { destruct trace as [|[t e] trace]; [done|]. apply (Hall t).
    - intros uid. by rewrite !lookup_empty.
    - constructor. cbn. lia. }
  induction trace as [|[t' e] trace IH]; intros t m sent Htr Hhd; [done|]. cbn in Htime, Hhd.
  apply Sorted_inv in Htime as [Htime Hrel]. apply HdRel_inv in Hhd.
  pose proof (step_tracks t' e m sent (tracks_later _ _ _ _ Hhd Htr)) as [Hb Htr'].
  cbn [answers]. destruct (step t' e m) as [b m'], (promise t' e sent) as [b' sent']. cbn in Hb, Htr'. subst b'.
  f_equal. by apply (IH Htime t').
Qed.

End Email.

(** ** Running the endpoints *)

Definition toy_mfa : MfaLib := {|
  GenerateFromPassword := fun _ p => Some p;
  totp_Generate := fun r issuer account => Some (r, "otpauth://totp/" ++ issuer ++ ":" ++ account);
  key_PNG := fun u => Some u;
  SessionData := string;
  session_Marshal := fun s => Ok s;
  session_Unmarshal := fun s => Ok s;
  wa_BeginRegistration := fun r u => Ok (r, r);
  wa_BeginLogin := fun r u => Ok (r, r);
  wa_FinishRegistration := fun u s a => if String.eqb s a then Ok {| cr_ID := a; cr_PublicKey := "pk"; cr_SignCount := 1 |} else Err "challenge";
  wa_FinishLogin := fun u s a => if String.eqb s a then Ok {| cr_ID := a; cr_PublicKey := "pk"; cr_SignCount := 2 |} else Err "challenge";
  pg_uuid := Some;
  driver_error := "error" |}.

Definition call_at (t : Z) : call := {|
  fails := fun _ => false; now := t; rnd := fun k => Some (Z.of_nat (k * k + k / 8)); newIDs := fun k => String (ascii_of_nat (65 + k)) "";
  salts := fun _ => ""; nonce := "123456" |}.

Definition bob_claims : TokenClaims := {|
  UserID := "u2"; Username := "bob"; Email := "b@x"; IsAdmin := false; Roles := []; TokenType := "";
  ExpiresAt := None; IssuedAt := None |}.

Definition mfa0 : mfa_state := {|
  m_accounts := [bob true false]; m_totp := []; m_codes := [code1]; m_webauthn := []; m_redis := ∅ |}.

Lemma mfa0_wf : mfa_wf mfa0.
Proof. constructor; cbn; repeat constructor; set_solver. Qed.

Definition after (r : mfa_request) (s : mfa_state) : mfa_state :=
  (run (@serve toy_env toy_mfa (Some true) (call_at 0) (Some bob_claims) r) s).1.2.

Lemma mfa_confined_witness :
  reply_status (run (@serve toy_env toy_mfa (Some true) (call_at 0) (Some bob_claims) NewBackupCodes) mfa0).1.1 = 200 /\
  let '(_, s', _) := run (@serve toy_env toy_mfa (Some true) (call_at 0) (Some bob_claims) NewBackupCodes) mfa0 in
  mfa_wf s' /\ others "u2" mfa0 s'.
Proof.
  split; [vm_compute; reflexivity|].
  exact (@mfa_confined toy_env toy_mfa (Some true) (call_at 0) (Some bob_claims) NewBackupCodes mfa0 mfa0_wf).
Defined.

Definition tencodes : list string := default [] (newCodes (rnd (call_at 0))).

Lemma backup_codes_refine_witness :
  @tryAll toy_env (login_view (after NewBackupCodes mfa0) (authdb true false)) "u2"
    ["abcd1234"; hd "" tencodes; hd "" tencodes] = [false; true; false].
Proof.
  refine (eq_trans (proj2 (proj2 (@backup_codes_refine toy_env toy_mfa (call_at 0) bob_claims mfa0 tencodes
    (after NewBackupCodes mfa0) [] (authdb true false) ["abcd1234"; hd "" tencodes; hd "" tencodes] _ mfa0_wf _ _))) _).
  - intros salt p h q [= <-] _. apply String.eqb_sym.
  - vm_compute. reflexivity.
  - vm_compute. repeat constructor.
  - vm_compute. reflexivity.
Defined.

Lemma backup_checks_agree_witness :
  exists s', @ValidateBackupCode toy_env (call_at 0) "u2" "abcd1234" (500, "x") mfa0 = (inl true, s', []) /\
    map bc_used (m_codes s') = [true].
Proof.
  destruct (@backup_checks_agree toy_env (call_at 0) "u2" "abcd1234" (500, "x") mfa0 (authdb true false) (fun _ => eq_refl))
    as (s' & Hv & Hd).
  exists s'. split; [exact Hv|]. apply (f_equal (fun d => map bc_used (backup_codes d))) in Hd. exact Hd.
Defined.

Definition enrol_trace : list (call * option TokenClaims * mfa_request) :=
  [(call_at 0, Some bob_claims, BeginRegister); (call_at 1, Some bob_claims, FinishRegister "" "123456");
   (call_at 2, Some bob_claims, FinishRegister "" "123456")].

Lemma challenge_single_use_witness :
  @registrations toy_env toy_mfa "u2" (Some true) enrol_trace mfa0 = (1, 1)%nat /\ (1 <= 1)%nat.
Proof.
  split; [vm_compute; reflexivity|].
  apply (@challenge_single_use toy_env toy_mfa "u2" (Some true) enrol_trace mfa0); [repeat constructor|reflexivity].
Defined.

Definition enrolled_bob : mfa_state := after (VerifyTOTPCode (Some "123456")) (after (SetupTOTP (Some "")) mfa0).

Lemma totp_enrolment_witness :
  exists r d', @login clear_jwt toy_env "s" false false 0 (login_view enrolled_bob (authdb true false)) (lq "pw")
    = ({| status := 200; payload := BLogin r |}, d') /\ lr_token r = "" /\ lr_mfa_required r = true.
Proof.
  destruct (@totp_enrolment toy_env toy_mfa clear_jwt "s" (call_at 0) (call_at 0) bob_claims (Some "") "123456" mfa0
    (after (SetupTOTP (Some "")) mfa0) enrolled_bob [] [] "123456" "otpauth://totp/Outpost VPN:u2"
    ("data:image/png;base64," ++ base64_encode "otpauth://totp/Outpost VPN:u2") (authdb true false)) as (_ & Hl & _).
  - vm_compute. reflexivity.
  - vm_compute. reflexivity.
  - eexists _, _. split; [vm_compute; reflexivity|].
    refine (Hl false false 0 {| lq_username := "bob"; lq_password := "pw" |} (bob true true) "pw" _ _ _ eq_refl _);
      vm_compute; reflexivity.
Defined.

Definition mail_trace : list (Z * Email.event) :=
  [(0, Email.Send (rnd (call_at 0)) "u2"); (1, Email.Validate "u2" "014965"); (2, Email.Validate "u2" "014965")].

Lemma email_codes_refine_witness : Email.answers Email.step mail_trace ∅ = [true; true; false].
Proof.
  refine (eq_trans (Email.email_codes_refine mail_trace _) _); [repeat constructor; cbn; lia|vm_compute; reflexivity].
Defined.

(** *** Where the code falls short *)

(** A new setup replaces the verified secret at once: the login accepts codes
    for the new, unverified one and refuses those of the old one. *)
Theorem setup_replaces_secret :
  let s := after (SetupTOTP (Some "")) {| m_accounts := [bob true true]; m_codes := []; m_webauthn := []; m_redis := ∅;
    m_totp := [{| tt_user := "u2"; tt_secret := "654321"; tt_verified := true; tt_created := 0 |}] |} in
  let enter code := status (@verifyMFA clear_jwt toy_env "s" nofaults 1 (login_view s (authdb true true))
    (Some {| mq_token := pending0; mq_code := code; mq_method := "totp" |})).1 in
  map tt_verified (m_totp s) = [false] /\ enter "123456" = 200 /\ enter "654321" = 401.
Proof. vm_compute. auto. Qed.

(** A user whose only factor is a security key is asked for a second factor at
    the login and can give none. *)
Theorem passkey_locks_out :
  let s := after (FinishRegister "" "123456") (after BeginRegister mfa0) in
  let view := login_view s (authdb true true) in
  length (m_webauthn s) = 1%nat /\
  lr_mfa_required (match payload (@login clear_jwt toy_env "s" false false 0 view (lq "pw")).1 with
                   | BLogin r => r | _ => {| lr_token := ""; lr_expires_at := 0; lr_mfa_required := false;
                                             lr_mfa_token := ""; lr_must_change := false |} end) = true /\
  (@verifyMFA clear_jwt toy_env "s" nofaults 1 view
    (Some {| mq_token := pending0; mq_code := "abcd1234"; mq_method := "backup" |})).1
  = Login.respondError 500 "mfa not configured".
Proof. vm_compute. auto. Qed.

(** The older endpoint stores any key for the user without a challenge. *)
Theorem key_without_challenge :
  let s := (run (@serve toy_env toy_mfa None (call_at 0) (Some bob_claims)
    (RegisterKey (Some {| rw_CredentialID := "k"; rw_PublicKey := "anything"; rw_Name := "x" |}))) mfa0).1.2 in
  map wc_PublicKey (m_webauthn s) = ["anything"].
Proof. vm_compute. reflexivity. Qed.

(** A challenge that Redis fails to delete completes a second time. *)
Theorem challenge_kept_on_error :
  let c t := {| fails := fun k => (k =? 4)%nat; now := t; rnd := fun _ => Some 0; newIDs := fun _ => itoa t;
                salts := fun _ => ""; nonce := "123456" |} in
  let s1 := (run (@serve toy_env toy_mfa (Some true) (c 0) (Some bob_claims) BeginAssert)
    (after (FinishRegister "" "123456") (after BeginRegister mfa0))).1.2 in
  let '(r2, s2, _) := run (@serve toy_env toy_mfa (Some true) (c 1) (Some bob_claims) (FinishAssert "123456")) s1 in
  let '(r3, _, _) := run (@serve toy_env toy_mfa (Some true) (c 2) (Some bob_claims) (FinishAssert "123456")) s2 in
  reply_status r2 = 200 /\ reply_status r3 = 200.
Proof. vm_compute. auto. Qed.
