(* ===== verification/Oidc.v ===== *)
(** * OpenID Connect provider

    [internal/auth/oidc]: the authorization-code flow with PKCE, the token and
    user-information endpoints and the published key, over the clients, the
    authorization codes and the users.  RS256 tokens are a class; the digests of
    PKCE and of the key identifier are computed ([Sha256]).  A redirect is the
    address of the client with the parameters set on it.  The columns
    [email_verified] and [full_name] of [users], which the code reads, are
    [profile]: [None] when the table has no such columns. *)

From S2P Require Import Prelude Ledger Schema Sha256 Auth Login Policy Http Tables.
From Stdlib Require Import ZArith Lia Ascii String.
From stdpp Require Import base gmap strings list.
Import Token Middleware.

Local Open Scope Z_scope.
Local Open Scope string_scope.
Local Open Scope outpost_scope.

(** ** State *)

Record Client := {
  cl_ID : string;
  cl_SecretHash : string;
  cl_Name : string;
  cl_RedirectURIs : list string;
  cl_Scopes : list string;
  cl_CreatedAt : Z;
}.

Record AuthCode := {
  ac_Code : string;
  ac_ClientID : string;
  ac_UserID : string;
  ac_Scopes : list string;
  ac_Nonce : string;
  ac_RedirectURI : string;
  ac_CodeChallenge : string;
  ac_CodeChallengeMethod : string;
  ac_ExpiresAt : Z;
  ac_CreatedAt : Z;
}.

Record oidc_state := {
  o_base : db;
  o_clients : list Client;
  o_codes : list AuthCode;
  profile : option (gmap string (bool * string));   (* user id -> email_verified, full_name *)
}.

Definition set_codes (s : oidc_state) (l : list AuthCode) : oidc_state := {|
  o_base := o_base s; o_clients := o_clients s; o_codes := l; profile := profile s |}.

(** ** Tokens *)

Record UserInfo := {
  ui_UserID : string;
  ui_Email : string;
  ui_EmailVerified : bool;
  ui_Name : string;
  ui_Username : string;
  ui_Groups : list string;
}.

Record RegisteredClaims := {
  Issuer : string;
  Subject : string;
  Audience : list string;
  rc_ExpiresAt : option Z;
  rc_IssuedAt : option Z;
  rc_NotBefore : option Z;
}.

(** The claims of a token as JSON: the registered ones and the fields of either
    kind of token, empty ones being left out. *)
Record payload := {
  pl_registered : RegisteredClaims;
  pl_nonce : string;
  pl_email : string;
  pl_email_verified : bool;
  pl_name : string;
  pl_preferred_username : string;
  pl_groups : list string;
  pl_scope : string;
  pl_client_id : string;
}.

(** RS256 under the key of the provider, and the key. *)
Class RsaLib : Type := {
  rs_sign : payload -> option string;
  rs_verify : Z -> string -> option payload;
  rs_modulus : list Z;              (* N.Bytes() *)
  rs_exponent : Z;
  rs_sign_verify : forall p t now e, rs_sign p = Some t -> rc_ExpiresAt (pl_registered p) = Some e -> now < e ->
    (forall n, rc_NotBefore (pl_registered p) = Some n -> n <= now) -> rs_verify now t = Some p;
  rs_modulus_bytes : Forall is_byte rs_modulus;
}.

(** [BuildIDTokenClaims]. *)
Definition BuildIDTokenClaims (now : Z) (user : UserInfo) (issuer clientID nonce : string) (lifetime : Z) : payload := {|
  pl_registered := {| Issuer := issuer; Subject := ui_UserID user; Audience := [clientID];
    rc_ExpiresAt := Some (NewNumericDate (now + lifetime)); rc_IssuedAt := Some (NewNumericDate now);
    rc_NotBefore := Some (NewNumericDate now) |};
  pl_nonce := nonce; pl_email := ui_Email user; pl_email_verified := ui_EmailVerified user;
  pl_name := ui_Name user; pl_preferred_username := ui_Username user; pl_groups := ui_Groups user;
  pl_scope := ""; pl_client_id := "" |}.

Definition accessClaims (now : Z) (issuer : string) (ac : AuthCode) (lifetime : Z) : payload := {|
  pl_registered := {| Issuer := issuer; Subject := ac_UserID ac; Audience := [ac_ClientID ac];
    rc_ExpiresAt := Some (NewNumericDate (now + lifetime)); rc_IssuedAt := Some (NewNumericDate now);
    rc_NotBefore := None |};
  pl_nonce := ""; pl_email := ""; pl_email_verified := false; pl_name := ""; pl_preferred_username := "";
  pl_groups := []; pl_scope := strings_join " " (ac_Scopes ac); pl_client_id := ac_ClientID ac |}.

(** ** Text *)

(** [base64.RawURLEncoding]. *)
Definition url64_char (n : Z) : ascii :=
  ascii_of_nat (Z.to_nat (if n <? 26 then 65 + n else if n <? 52 then 71 + n else if n <? 62 then n - 4
                          else if n =? 62 then 45 else 95)%Z).

Definition sextet (v i : Z) : ascii := url64_char (v / 64 ^ i mod 64).

Fixpoint base64URLEncode (l : list Z) : string :=
  match l with
  | a :: b :: c :: l =>
      let v := (a * 65536 + b * 256 + c)%Z in
      String (sextet v 3) (String (sextet v 2) (String (sextet v 1) (String (sextet v 0) (base64URLEncode l))))
  | [a; b] => let v := (a * 65536 + b * 256)%Z in String (sextet v 3) (String (sextet v 2) (String (sextet v 1) ""))
  | [a] => let v := (a * 65536)%Z in String (sextet v 3) (String (sextet v 2) "")
  | [] => ""
  end.

(** [verifyPKCE]; comparing in constant time is comparing. *)
Definition verifyPKCE (challenge method verifier : string) : bool :=
  if String.eqb method "" || String.eqb method "S256" then
    String.eqb (base64URLEncode (sha256 (bytes verifier))) challenge
  else false.

(** The example of RFC 7636, appendix B. *)
Example verifyPKCE_ok :
  verifyPKCE "E9Melhoa2OwvFrEMTJguCHaoeK1t8URWbuGJSstw-cM" "S256" "dBjftJeZ4CVP-mB92K27uhbUJU1p1r_wW1gFWFOEjXk" = true.
Proof. vm_compute. reflexivity. Qed.

(** [big.NewInt(e).Bytes()]: big-endian without leading zeros, at most eight. *)
Fixpoint big_bytes (fuel : nat) (n : Z) (acc : list Z) : list Z :=
  match fuel with
  | O => acc
  | S fuel => if (n <=? 0)%Z then acc else big_bytes fuel (n / 256) ((n mod 256)%Z :: acc)
  end.

Example exponent_ok : base64URLEncode (big_bytes 8 65537 []) = "AQAB".
Proof. vm_compute. reflexivity. Qed.

(** [generateRandomCode]: [random] is what the generator yields. *)
Definition generateRandomCode (random : option (nat -> Z)) (nBytes : nat) : option string :=
  (fun r => EncodeToString (map (fun i => (r i mod 256)%Z) (seq 0 nBytes))) <$> random.

Definition authCodeLifetime : Z := 10 * minute.
Definition accessTokenLifetime : Z := hour.
Definition idTokenLifetime : Z := hour.

Definition ValidateRedirectURI (client : Client) (uri : string) : bool :=
  existsb (fun allowed => String.eqb allowed uri) (cl_RedirectURIs client).

(** [strings.Split(scope, " ")]. *)
Definition scopesOf (client : Client) (scope : string) : list string :=
  if String.eqb scope "" then cl_Scopes client else split_on " " scope.

(** ** Endpoints *)

Inductive oidc_body :=
| BRedirect (uri : string) (params : list (string * string))
| BTokens (access_token id_token scope : string) (expires_in : Z)
| BUserInfo (sub : string) (u : UserInfo)
| BKeys (kid n e : string)
| BDiscovery (issuer : string) (endpoints : list string).

Record ocall := {
  ofails : nat -> bool;
  onow : Z;
  orandom : option (nat -> Z);
  parses : string -> bool;          (* url.Parse accepts *)
  oread : option nat;               (* how many groups are read before an error *)
}.

Record authorizeRequest := {
  aq_client_id : string; aq_redirect_uri : string; aq_response_type : string; aq_scope : string;
  aq_state : string; aq_nonce : string; aq_code_challenge : string; aq_code_challenge_method : string;
}.

Record tokenRequest := {
  tq_grant_type : string; tq_code : string; tq_redirect_uri : string; tq_code_verifier : string;
  tq_client_id : string; tq_client_secret : string;
}.

Abbreviation O := (H oidc_state Empty_set).

(** [INSERT INTO oidc_auth_codes]. *)
Definition insert_auth_code (ac : AuthCode) : stmt oidc_state unit := fun s =>
  if has ac_Code (o_codes s) (ac_Code ac) then inr (ErrUnique "oidc_auth_codes_pkey")
  else if negb (has cl_ID (o_clients s) (ac_ClientID ac) && has u_id (users (o_base s)) (ac_UserID ac)) then inr ErrForeignKey
  else inl (tt, set_codes s (o_codes s ++ [ac])).

(** [DELETE FROM oidc_auth_codes WHERE code = $1 RETURNING ..]. *)
Definition take_auth_code (code : string) : stmt oidc_state AuthCode := fun s =>
  match byKey ac_Code (o_codes s) code with
  | Some ac => inl (ac, set_codes s (without ac_Code (o_codes s) code))
  | None => inr ErrNoRows
  end.

Section oidc.
Context `{AuthEnv} `{RsaLib} `{SqlOrder} (issuer : string).
Implicit Types (c : ocall).

(** [kid]: the first eight bytes of the digest of the modulus. *)
Definition deriveKeyID : string := EncodeToString (take 8 (sha256 rs_modulus)).

(** The text has the error code of OAuth2 in front. *)
Definition tokenError {A} (errCode description : string) (status : Z) : O A :=
  respondError status (errCode ++ ": " ++ description).

Definition tokenRequire (b : bool) (errCode description : string) (status : Z) : O unit :=
  if b then ret tt else tokenError errCode description status.

Definition errorRedirect c (redirectURI state errCode description : string) : O (Z * oidc_body) :=
  if String.eqb redirectURI "" then respondError 400 description
  else if negb (parses c redirectURI) then respondError 400 description
  else respondJSON 302 (BRedirect redirectURI
         ([("error", errCode); ("error_description", description)] ++ if String.eqb state "" then [] else [("state", state)])).

Definition GetClient (fails : bool) (clientID : string) (status : Z) (message : string) : O Client :=
  let! row := query fails (fun s => byKey cl_ID (o_clients s) clientID) status message in
  the row status message.

Definition CreateAuthCode (fails : bool) (ac : AuthCode) (e : refusal) : O unit :=
  exec fails (insert_auth_code ac) (fun _ => e).

Definition ConsumeAuthCode (fails : bool) (code : string) (e : refusal) : O AuthCode :=
  exec fails (take_auth_code code) (fun _ => e).

(** The query fails when a column is missing. *)
Definition userInfoRow (userID : string) (s : oidc_state) : option UserInfo :=
  cols ← profile s;
  u ← byKey u_id (users (o_base s)) userID;
  p ← cols !! userID;
  Some {| ui_UserID := u_id u; ui_Email := u_email u; ui_EmailVerified := p.1; ui_Name := p.2;
          ui_Username := u_username u; ui_Groups := [] |}.

Definition GetUserInfo (fails : bool) (userID : string) (e : refusal) : O UserInfo :=
  let! row := query fails (userInfoRow userID) e.1 e.2 in
  the row e.1 e.2.

Definition userGroups (userID : string) (s : oidc_state) : list string :=
  rows 130 (g ← groups (o_base s); ug ← user_groups (o_base s);
            if String.eqb ug.2 (gr_id g) && String.eqb ug.1 userID then [gr_name g] else []).

(** [GetUserGroups]; the callers drop its error, which comes with nothing when
    the query or a scan fails and with the rows so far when the iteration
    does. *)
Definition GetUserGroups (fails : bool) c (userID : string) : O (list string) :=
  asks (fun s => if fails then [] else
    match oread c with Some k => take k (userGroups userID s) | None => userGroups userID s end).

Definition authorize c claims (q : authorizeRequest) : O (Z * oidc_body) :=
  let! cl := the claims 401 "authentication required" in
  let! client := GetClient (ofails c 0) (aq_client_id q) 400 "invalid client_id" in
  do! require (ValidateRedirectURI client (aq_redirect_uri q)) 400 "invalid redirect_uri" in
  if negb (String.eqb (aq_response_type q) "code") then
    errorRedirect c (aq_redirect_uri q) (aq_state q) "unsupported_response_type" "only response_type=code is supported" else
  if negb (String.eqb (aq_code_challenge_method q) "" || String.eqb (aq_code_challenge_method q) "S256") then
    errorRedirect c (aq_redirect_uri q) (aq_state q) "invalid_request" "only S256 code_challenge_method is supported" else
  let! code := the (generateRandomCode (orandom c) 32) 500 "internal error" in
  do! CreateAuthCode (ofails c 1) {| ac_Code := code; ac_ClientID := aq_client_id q; ac_UserID := UserID cl;
        ac_Scopes := scopesOf client (aq_scope q); ac_Nonce := aq_nonce q; ac_RedirectURI := aq_redirect_uri q;
        ac_CodeChallenge := aq_code_challenge q; ac_CodeChallengeMethod := aq_code_challenge_method q;
        ac_ExpiresAt := onow c + authCodeLifetime; ac_CreatedAt := onow c |} (500, "internal error") in
  do! require (parses c (aq_redirect_uri q)) 400 "malformed redirect_uri" in
  respondJSON 302 (BRedirect (aq_redirect_uri q)
    (("code", code) :: if String.eqb (aq_state q) "" then [] else [("state", aq_state q)])).

Definition checkClient (client : Client) (clientSecret : string) : O unit :=
  if String.eqb (cl_SecretHash client) "" then ret tt else
  do! tokenRequire (negb (String.eqb clientSecret "")) "invalid_client" "client_secret is required for confidential clients" 401 in
  tokenRequire (CheckPassword (cl_SecretHash client) clientSecret) "invalid_client" "invalid client credentials" 401.

Definition checkPKCE (ac : AuthCode) (verifier : string) : O unit :=
  if String.eqb (ac_CodeChallenge ac) "" then ret tt else
  do! tokenRequire (negb (String.eqb verifier "")) "invalid_grant" "code_verifier required" 400 in
  tokenRequire (verifyPKCE (ac_CodeChallenge ac) (ac_CodeChallengeMethod ac) verifier) "invalid_grant" "PKCE verification failed" 400.

Definition with_groups (u : UserInfo) (l : list string) : UserInfo := {|
  ui_UserID := ui_UserID u; ui_Email := ui_Email u; ui_EmailVerified := ui_EmailVerified u;
  ui_Name := ui_Name u; ui_Username := ui_Username u; ui_Groups := l |}.

(** [form] is [None] when the form does not parse. *)
Definition token c (form : option tokenRequest) : O (Z * oidc_body) :=
  let! q := the form 400 "invalid_request: malformed form body" in
  do! tokenRequire (String.eqb (tq_grant_type q) "authorization_code") "unsupported_grant_type" "only authorization_code is supported" 400 in
  let! ac := ConsumeAuthCode (ofails c 0) (tq_code q) (400, "invalid_grant: invalid or expired authorization code") in
  do! tokenRequire (negb (ac_ExpiresAt ac <? onow c)%Z) "invalid_grant" "authorization code expired" 400 in
  do! tokenRequire (negb (String.eqb (tq_client_id q) "")) "invalid_request" "client_id is required" 400 in
  do! tokenRequire (String.eqb (tq_client_id q) (ac_ClientID ac)) "invalid_grant" "client_id mismatch" 400 in
  do! tokenRequire (String.eqb (tq_redirect_uri q) (ac_RedirectURI ac)) "invalid_grant" "redirect_uri mismatch" 400 in
  let! client := GetClient (ofails c 1) (ac_ClientID ac) 401 "invalid_client: unknown client" in
  do! checkClient client (tq_client_secret q) in
  do! checkPKCE ac (tq_code_verifier q) in
  let! info := GetUserInfo (ofails c 2) (ac_UserID ac) (500, "server_error: failed to retrieve user") in
  let! groups := GetUserGroups (ofails c 3) c (ac_UserID ac) in
  let! idToken := the (rs_sign (BuildIDTokenClaims (onow c) (with_groups info groups) issuer (ac_ClientID ac) (ac_Nonce ac) idTokenLifetime))
                    500 "server_error: failed to sign id_token" in
  let! access := the (rs_sign (accessClaims (onow c) issuer ac accessTokenLifetime)) 500 "server_error: failed to sign access_token" in
  respondJSON 200 (BTokens access idToken (strings_join " " (ac_Scopes ac)) (accessTokenLifetime / second)).

Definition extractBearerToken (header : string) : string :=
  match cut_prefix header "Bearer " with Some t => t | None => "" end.

Definition userinfo c (header : string) : O (Z * oidc_body) :=
  do! require (negb (String.eqb (extractBearerToken header) "")) 401 "missing bearer token" in
  let! p := the (rs_verify (onow c) (extractBearerToken header)) 401 "invalid token" in
  let sub := Subject (pl_registered p) in
  let! info := GetUserInfo (ofails c 0) sub (404, "user not found") in
  let! groups := GetUserGroups (ofails c 1) c sub in
  respondJSON 200 (BUserInfo sub (with_groups info groups)).

Definition jwks : O (Z * oidc_body) :=
  respondJSON 200 (BKeys deriveKeyID (base64URLEncode rs_modulus) (base64URLEncode (big_bytes 8 rs_exponent []))).

Definition discovery : O (Z * oidc_body) :=
  respondJSON 200 (BDiscovery issuer (map (append issuer) ["/authorize"; "/token"; "/userinfo"; "/jwks"])).

Inductive oidc_request :=
| Discovery
| Authorize (claims : option TokenClaims) (q : authorizeRequest)
| TokenReq (form : option tokenRequest)
| UserInfoReq (header : string)
| Jwks.

Definition oidc_serve c (r : oidc_request) : O (Z * oidc_body) :=
  match r with
  | Discovery => discovery
  | Authorize claims q => authorize c claims q
  | TokenReq form => token c form
  | UserInfoReq h => userinfo c h
  | Jwks => jwks
  end.

(** ** Invariant: what a stored code vouches for *)

Record oidc_wf (s : oidc_state) : Prop := {
  wf_code_unique : NoDup (map ac_Code (o_codes s));
  wf_code_client : Forall (fun ac => exists cl, byKey cl_ID (o_clients s) (ac_ClientID ac) = Some cl /\
    ac_RedirectURI ac ∈ cl_RedirectURIs cl) (o_codes s);
  wf_code_user : Forall (fun ac => ac_UserID ac ∈ map u_id (users (o_base s))) (o_codes s);
  wf_code_life : Forall (fun ac => ac_ExpiresAt ac = (ac_CreatedAt ac + authCodeLifetime)%Z) (o_codes s);
}.

Lemma take_auth_code_wf code : stmt_preserves oidc_wf (take_auth_code code).
Proof.
  intros s ac s' Hwf. unfold take_auth_code. destruct (byKey _ _ _); [|done]. intros [= <- <-]. destruct Hwf.
  constructor; cbn; [by apply unique_filter|by apply Forall_list_filter..].
Qed.

Lemma ValidateRedirectURI_elem cl uri : ValidateRedirectURI cl uri = true -> uri ∈ cl_RedirectURIs cl.
Proof. intros (x & Hx & <-%String.eqb_eq)%existsb_exists. by apply list_elem_of_In. Qed.

(** The endpoints do not write to the clients and users. *)
Definition fixed_part (s s' : oidc_state) : Prop :=
  o_base s' = o_base s /\ o_clients s' = o_clients s /\ profile s' = profile s.

(** What an accepted authorization leaves behind: the code in the address it
    redirects to is stored for the caller and the client, with a registered
    address. *)
Definition authorized c (cl : TokenClaims) (q : authorizeRequest) (s s' : oidc_state) (r : Z * oidc_body) : Prop :=
  exists params, r = (302, BRedirect (aq_redirect_uri q) params) /\
  (exists client, byKey cl_ID (o_clients s) (aq_client_id q) = Some client /\ aq_redirect_uri q ∈ cl_RedirectURIs client) /\
  fixed_part s s' /\
  ((s' = s /\ "code" ∉ map fst params) \/
   exists ac, params = (("code", ac_Code ac) :: if String.eqb (aq_state q) "" then [] else [("state", aq_state q)]) /\
     o_codes s' = (o_codes s ++ [ac])%list /\ (ac_Code ac ∉ map ac_Code (o_codes s)) /\
     ac_UserID ac = UserID cl /\ UserID cl ∈ map u_id (users (o_base s)) /\ ac_ClientID ac = aq_client_id q /\
     ac_RedirectURI ac = aq_redirect_uri q /\ ac_CodeChallenge ac = aq_code_challenge q /\
     ac_CreatedAt ac = onow c /\ ac_ExpiresAt ac = (onow c + authCodeLifetime)%Z).

Lemma pure_errorRedirect c u st e d : pure (errorRedirect c u st e d).
Proof. unfold errorRedirect. by repeat case_match. Qed.

Lemma errorRedirect_wp c u st e d s (Q : Z * oidc_body -> oidc_state -> list Empty_set -> Prop) :
  (forall params, "code" ∉ map fst params -> Q (302, BRedirect u params) s []) ->
  wp (errorRedirect c u st e d) Q (fun _ _ _ => True) s.
Proof.
  intros HQ. unfold errorRedirect. destruct (String.eqb u ""); [done|]. destruct (negb _); [done|].
  apply HQ. destruct (String.eqb st ""); cbn; set_solver.
Qed.

Lemma authorize_wp c cl q s :
  wp (authorize c (Some cl) q) (fun r s' _ => authorized c cl q s s' r) (fun _ _ _ => True) s.
Proof.
  unfold authorize. apply wp_bind, wp_the. unfold GetClient. apply wp_bind, wp_bind, wp_query.
  destruct (ofails c 0); [done|]. apply wp_the. destruct (byKey _ _ _) as [client|] eqn:Ec; [|done].
  apply wp_bind, wp_require. destruct (ValidateRedirectURI _ _) eqn:Eu; [|done]. apply ValidateRedirectURI_elem in Eu.
  assert (forall params, "code" ∉ map fst params -> authorized c cl q s s (302, BRedirect (aq_redirect_uri q) params)) as Herr
    by (intros params Hp; exists params; split_and!; [done|eauto|done|by left]).
  destruct (negb (String.eqb _ "code")); [by apply errorRedirect_wp|].
  destruct (negb (_ || _)); [by apply errorRedirect_wp|].
  apply wp_pure; [apply pure_the|]. intros code. apply wp_bind, wp_exec. destruct (ofails c 1); [done|].
  unfold insert_auth_code. cbn [ac_Code ac_ClientID ac_UserID]. destruct (has ac_Code _ _) eqn:Ek; [done|].
  destruct (has cl_ID _ _ && _) eqn:Efk; [|done]. apply andb_true_iff in Efk as [_ Efk]. cbn [negb].
  apply wp_bind, wp_require. destruct (parses _ _); [|done]. cbn.
  eexists. split; [done|]. split; [eauto|]. split; [done|]. right.
  match goal with |- context [(_ ++ [?a])%list] => exists a end.
  cbn. split_and!; try done; [by apply has_false in Ek|by apply has_true].
Qed.

Lemma authorize_wf c claims q : preserves oidc_wf (authorize c claims q).
Proof.
  intros s Hs. destruct claims as [cl|]; [|done].
  unfold authorize. apply wp_bind, wp_the. unfold GetClient. apply wp_bind, wp_bind, wp_query.
  destruct (ofails c 0); [done|]. apply wp_the. destruct (byKey _ _ _) as [client|] eqn:Ec; [|done].
  apply wp_bind, wp_require. destruct (ValidateRedirectURI _ _) eqn:Eu; [|done]. apply ValidateRedirectURI_elem in Eu.
  assert (forall u st e d, wp (errorRedirect c u st e d) (fun _ s' _ => oidc_wf s') (fun _ s' _ => oidc_wf s') s) as Herr.
  { intros. eapply wp_mono; [| |apply pure_errorRedirect]; by intros ? ? ? [-> _]. }
  destruct (negb (String.eqb _ "code")); [apply Herr|]. destruct (negb (_ || _)); [apply Herr|].
  apply wp_bind, wp_the. destruct (generateRandomCode _ _) as [code|]; [|done]. apply wp_bind, wp_exec.
  destruct (ofails c 1); [done|].
  unfold insert_auth_code. cbn [ac_Code ac_ClientID ac_UserID]. destruct (has ac_Code _ _) eqn:Ek; [done|].
  destruct (has cl_ID _ _ && _) eqn:Efk; [|done]. apply andb_true_iff in Efk as [_ Efk]. cbn [negb].
  enough (oidc_wf (set_codes s (o_codes s ++ [{| ac_Code := code; ac_ClientID := aq_client_id q; ac_UserID := UserID cl;
        ac_Scopes := scopesOf client (aq_scope q); ac_Nonce := aq_nonce q; ac_RedirectURI := aq_redirect_uri q;
        ac_CodeChallenge := aq_code_challenge q; ac_CodeChallengeMethod := aq_code_challenge_method q;
        ac_ExpiresAt := onow c + authCodeLifetime; ac_CreatedAt := onow c |}])))
    by (apply wp_bind, wp_require; by destruct (parses _ _)).
  apply has_false in Ek. apply has_true in Efk. destruct Hs. constructor; cbn.
  - by apply unique_insert.
  - apply Forall_app. repeat constructor; [done|]. cbn. eauto.
  - apply Forall_app. by repeat constructor.
  - apply Forall_app. by repeat constructor.
Qed.

Lemma preserves_tokenRequire (I : oidc_state -> Prop) b e d st : preserves I (tokenRequire b e d st).
Proof. intros s Hs. by destruct b. Qed.
Lemma pure_tokenRequire b e d st : pure (tokenRequire b e d st).
Proof. intros s. by destruct b. Qed.

Lemma pure_checkClient client secret : pure (checkClient client secret).
Proof.
  unfold checkClient. destruct (String.eqb _ ""); [apply pure_ret|].
  apply pure_bind; [apply pure_tokenRequire|intros; apply pure_tokenRequire].
Qed.
Lemma pure_checkPKCE ac v : pure (checkPKCE ac v).
Proof.
  unfold checkPKCE. destruct (String.eqb _ ""); [apply pure_ret|].
  apply pure_bind; [apply pure_tokenRequire|intros; apply pure_tokenRequire].
Qed.
Lemma pure_GetClient f id st m : pure (GetClient f id st m).
Proof. apply pure_bind; [apply pure_query|intros; apply pure_the]. Qed.
Lemma pure_GetUserInfo f id e : pure (GetUserInfo f id e).
Proof. apply pure_bind; [apply pure_query|intros; apply pure_the]. Qed.

Lemma pure_userinfo c h : pure (userinfo c h).
Proof.
  unfold userinfo. repeat (apply pure_bind; [|intros ?]);
    first [apply pure_require | apply pure_query | apply pure_the | apply pure_GetUserInfo | apply pure_asks | apply pure_ret].
Qed.

(** Everything after the code is taken only reads. *)
Lemma token_wf c form : preserves oidc_wf (token c form).
Proof.
  unfold token. apply preserves_bind; [apply preserves_the|intros q].
  apply preserves_bind; [apply preserves_tokenRequire|intros _].
  apply preserves_bind; [apply preserves_exec, take_auth_code_wf|intros ac]. apply pure_preserves.
  repeat (apply pure_bind; [|intros ?]);
    first [apply pure_tokenRequire | apply pure_query | apply pure_GetClient | apply pure_checkClient | apply pure_checkPKCE
          | apply pure_GetUserInfo | apply pure_asks | apply pure_the | apply pure_ret].
Qed.

Lemma oidc_serve_wf c r : preserves oidc_wf (oidc_serve c r).
Proof.
  destruct r; cbn [oidc_serve]; [apply preserves_ret|apply authorize_wf|apply token_wf| |apply preserves_ret].
  apply pure_preserves, pure_userinfo.
Qed.

(** ** The flow *)

(** What a token request that is answered with tokens has shown. *)
Record grant_ok c (q : tokenRequest) (s s' : oidc_state) (access idToken : string) (ac : AuthCode) : Prop := {
  gr_stored : byKey ac_Code (o_codes s) (tq_code q) = Some ac;
  gr_spent : s' = set_codes s (without ac_Code (o_codes s) (tq_code q));
  gr_fresh : (onow c <= ac_ExpiresAt ac)%Z;
  gr_client : tq_client_id q = ac_ClientID ac;
  gr_uri : tq_redirect_uri q = ac_RedirectURI ac;
  gr_secret : exists client, byKey cl_ID (o_clients s) (ac_ClientID ac) = Some client /\
    (cl_SecretHash client = "" \/ CheckPassword (cl_SecretHash client) (tq_client_secret q) = true);
  gr_pkce : ac_CodeChallenge ac = "" \/
    verifyPKCE (ac_CodeChallenge ac) (ac_CodeChallengeMethod ac) (tq_code_verifier q) = true;
  gr_access : rs_sign (accessClaims (onow c) issuer ac accessTokenLifetime) = Some access;
  gr_id : exists info groups, userInfoRow (ac_UserID ac) s = Some info /\
    rs_sign (BuildIDTokenClaims (onow c) (with_groups info groups) issuer (ac_ClientID ac) (ac_Nonce ac) idTokenLifetime) = Some idToken;
}.

Lemma tokenRequire_wp {C} b e d st (k : unit -> O C) (Q : C -> oidc_state -> list Empty_set -> Prop) s :
  (b = true -> wp (k tt) Q (fun _ _ _ => True) s) -> wp (bind (tokenRequire b e d st) k) Q (fun _ _ _ => True) s.
Proof. intros Hk. apply wp_bind. destruct b; [|done]. by apply Hk. Qed.

Lemma checkClient_wp {C} client secret (k : unit -> O C) (Q : C -> oidc_state -> list Empty_set -> Prop) s :
  (cl_SecretHash client = "" \/ CheckPassword (cl_SecretHash client) secret = true -> wp (k tt) Q (fun _ _ _ => True) s) ->
  wp (bind (checkClient client secret) k) Q (fun _ _ _ => True) s.
Proof.
  intros Hk. unfold checkClient. destruct (String.eqb_spec (cl_SecretHash client) "") as [E|_]; [by apply wp_bind, Hk; left|].
  apply wp_bind, tokenRequire_wp. intros _. destruct (CheckPassword _ _) eqn:Ec; [|done]. apply Hk. by right.
Qed.

Lemma checkPKCE_wp {C} ac v (k : unit -> O C) (Q : C -> oidc_state -> list Empty_set -> Prop) s :
  (ac_CodeChallenge ac = "" \/ verifyPKCE (ac_CodeChallenge ac) (ac_CodeChallengeMethod ac) v = true ->
   wp (k tt) Q (fun _ _ _ => True) s) ->
  wp (bind (checkPKCE ac v) k) Q (fun _ _ _ => True) s.
Proof.
  intros Hk. unfold checkPKCE. destruct (String.eqb_spec (ac_CodeChallenge ac) "") as [E|_]; [by apply wp_bind, Hk; left|].
  apply wp_bind, tokenRequire_wp. intros _. destruct (verifyPKCE _ _ _) eqn:Ec; [|done]. apply Hk. by right.
Qed.

Lemma userInfoRow_codes uid s l : userInfoRow uid (set_codes s l) = userInfoRow uid s.
Proof. done. Qed.

Lemma token_wp c q s :
  wp (token c (Some q)) (fun r s' _ => exists access idToken ac,
      r = (200, BTokens access idToken (strings_join " " (ac_Scopes ac)) 3600) /\ grant_ok c q s s' access idToken ac)
    (fun _ _ _ => True) s.
Proof.
  unfold token. apply wp_bind, wp_the, tokenRequire_wp. intros _. unfold ConsumeAuthCode. apply wp_bind, wp_exec.
  destruct (ofails c 0); [done|]. unfold take_auth_code. destruct (byKey _ _ _) as [ac|] eqn:Eac; [|done].
  apply tokenRequire_wp. intros Hexp%negb_true_iff%Z.ltb_ge. apply tokenRequire_wp. intros _.
  apply tokenRequire_wp. intros Hcl%String.eqb_eq. apply tokenRequire_wp. intros Huri%String.eqb_eq.
  unfold GetClient. apply wp_bind, wp_bind, wp_query. destruct (ofails c 1); [done|]. apply wp_the.
  cbn [o_clients set_codes]. destruct (byKey _ _ (ac_ClientID ac)) as [client|] eqn:Ec; [|done].
  apply checkClient_wp. intros Hsecret. apply checkPKCE_wp. intros Hpkce.
  unfold GetUserInfo. apply wp_bind, wp_bind, wp_query. destruct (ofails c 2); [done|]. apply wp_the.
  rewrite userInfoRow_codes. destruct (userInfoRow _ _) as [info|] eqn:Eu; [|done]. apply wp_bind, wp_asks.
  set (groups := if ofails c 3 then _ else _).
  apply wp_bind, wp_the. destruct (rs_sign (BuildIDTokenClaims _ _ _ _ _ _)) as [idToken|] eqn:Eid; [|done].
  apply wp_bind, wp_the. destruct (rs_sign (accessClaims _ _ _ _)) as [access|] eqn:Ea; [|done].
  cbn. exists access, idToken, ac. split; [done|]. constructor; eauto.
Qed.

(** Redirects go to registered addresses only, and carry a code only for
    the user who is logged in: every redirect of the authorization endpoint is
    to an address registered for the client, and a code in it is stored for
    that user, client and address. *)
Theorem redirect_registered c claims q s st uri params s' es
    (Hrun : run (authorize c claims q) s = (Reply st (BRedirect uri params), s', es)) :
  exists cl client, claims = Some cl /\ byKey cl_ID (o_clients s) (aq_client_id q) = Some client /\
    uri ∈ cl_RedirectURIs client /\
    forall code, ("code", code) ∈ params -> exists ac, ac ∈ o_codes s' /\ ac_Code ac = code /\
      ac_UserID ac = UserID cl /\ ac_ClientID ac = aq_client_id q /\ ac_RedirectURI ac = uri /\
      (code ∉ map ac_Code (o_codes s)).
Proof.
  destruct claims as [cl|]; [|by cbn in Hrun]. exists cl.
  destruct (run_Reply _ _ _ _ _ _ _ Hrun (authorize_wp c cl q s)) as (ps & [= _ -> ->] & (client & Hc & Hu) & _ & Hcase).
  exists client. split_and!; try done. intros code Hin. destruct Hcase as [[_ Hno]|(ac & Hps & Hcodes & Hfresh & Huser & _ & Hcl & Huri & _)].
  - destruct Hno. apply list_elem_of_fmap. by exists ("code", code).
  - assert (code = ac_Code ac) as ->.
    { rewrite Hps in Hin. apply elem_of_cons in Hin as [[= ->]|Hin]; [done|].
      destruct (String.eqb _ ""); [by apply elem_of_nil in Hin|]. by apply list_elem_of_singleton in Hin. }
    exists ac. split_and!; try done. rewrite Hcodes. set_solver.
Qed.

(** *** Single use *)

Section ledger.
Context (code : string).

Definition request : Type := ocall * oidc_request.

Definition stored (s : oidc_state) : nat := if has ac_Code (o_codes s) code then 1 else 0.

Definition after (s : oidc_state) (x : request) : oidc_state := (run (oidc_serve x.1 x.2) s).1.2.

(** The code enters the table. *)
Definition enters (s : oidc_state) (x : request) : bool :=
  negb (has ac_Code (o_codes s) code) && has ac_Code (o_codes (after s x)) code.

(** Tokens are handed out for it. *)
Definition redeems (s : oidc_state) (x : request) : bool :=
  match x.2, (run (oidc_serve x.1 x.2) s).1.1 with
  | TokenReq (Some q), Reply _ _ => String.eqb (tq_code q) code
  | _, _ => false
  end.

Lemma has_without l : has ac_Code (without ac_Code l code) code = false.
Proof. apply has_false. intros (x & -> & [_ ?]%elem_of_without)%list_elem_of_fmap. done. Qed.

Lemma request_balanced x : balanced after enters redeems stored x.
Proof.
  intros s. unfold enters, stored. destruct (redeems s x) eqn:Er.
  - destruct x as [c r]. unfold redeems, after in *. cbn [fst snd] in *. destruct r as [| |[q|]| |]; try done.
    cbn [oidc_serve] in *. destruct (run (token c (Some q)) s) as [[[st b|st msg] s'] es] eqn:Hrun; [|done]. cbn [fst snd] in *.
    apply String.eqb_eq in Er.
    destruct (run_Reply _ _ _ _ _ _ _ Hrun (token_wp c q s)) as (a & i & ac & _ & [Hst Hsp _ _ _ _ _ _ _]).
    rewrite Er in Hst, Hsp. destruct (byKey_Some _ _ _ _ Hst) as [Hin Hc].
    assert (has ac_Code (o_codes s) code = true) as ->.
    { apply has_true, list_elem_of_fmap. eauto. }
    rewrite Hsp. cbn [o_codes set_codes]. rewrite has_without. cbn. lia.
  - destruct (has ac_Code (o_codes s) code), (has ac_Code (o_codes (after s x)) code); cbn; lia.
Qed.

(** C9. An authorization code is redeemed at most once.  Along any sequence of
    requests of anyone, tokens are handed out for a code no more often than the
    code was stored. *)
Theorem code_single_use trace s (Hs : code ∉ map ac_Code (o_codes s)) :
  let '(issued, redeemed) := ledger after enters redeems trace s in (redeemed <= issued)%nat.
Proof.
  pose proof (ledger_balanced after enters redeems stored trace s) as Hl. unfold stored in Hl.
  rewrite (proj2 (has_false _ _ _) Hs) in Hl. destruct (ledger _ _ _ _ _) as [i p]. cbn in Hl.
  rewrite Nat.add_0_r in Hl. apply Hl. apply Forall_forall. intros x _. apply request_balanced.
Qed.
End ledger.

(** Every state the provider reaches from one without codes is well formed. *)
Lemma history_wf history s0 : o_codes s0 = [] -> oidc_wf (foldl after s0 history).
Proof.
  intros E. assert (oidc_wf s0) as Hwf by (constructor; rewrite E; constructor). clear E.
  revert s0 Hwf. induction history as [|[c r] l IH]; intros s0 Hwf; [done|]. cbn [foldl]. apply IH.
  apply (preserves_run oidc_wf _ s0 (oidc_serve_wf c r)), Hwf.
Qed.

(** The authorization-code flow is sound.  After any sequence of requests
    to a provider that started without codes, tokens are handed out only for a
    stored code, which the same request removes, within ten minutes of its
    creation, to the client it was issued for and with the address it was issued
    for, one registered for that client; a client with a secret has shown it,
    and when the code carries a challenge the verifier hashes to it.  The access
    token and the id token are signed texts whose issuer is the provider, whose
    subject is the user who authorized the code and whose only audience is the
    client; the access token carries the scopes of the code and lasts one hour,
    the id token carries the nonce of the code and the address and user name of
    that user's account.  Tokens are handed out only by a database that has the
    profile columns [email_verified] and [full_name]; the migrations create
    neither. *)
Theorem token_sound s0 history c q s st access idToken scope expires s' es
    (Hempty : o_codes s0 = []) (Hs : s = foldl after s0 history)
    (Hrun : run (token c (Some q)) s = (Reply st (BTokens access idToken scope expires), s', es)) :
  exists ac client u pa pid, ac ∈ o_codes s /\ ac_Code ac = tq_code q /\ (ac ∉ o_codes s') /\
    (onow c <= ac_CreatedAt ac + 10 * minute)%Z /\
    tq_client_id q = ac_ClientID ac /\ byKey cl_ID (o_clients s) (tq_client_id q) = Some client /\
    tq_redirect_uri q = ac_RedirectURI ac /\ tq_redirect_uri q ∈ cl_RedirectURIs client /\
    (cl_SecretHash client = "" \/ CheckPassword (cl_SecretHash client) (tq_client_secret q) = true) /\
    (ac_CodeChallenge ac = "" \/ base64URLEncode (sha256 (bytes (tq_code_verifier q))) = ac_CodeChallenge ac) /\
    u ∈ users (o_base s) /\ u_id u = ac_UserID ac /\
    rs_sign pa = Some access /\ Issuer (pl_registered pa) = issuer /\
    Subject (pl_registered pa) = u_id u /\ Audience (pl_registered pa) = [tq_client_id q] /\
    rc_ExpiresAt (pl_registered pa) = Some (NewNumericDate (onow c + hour)) /\
    pl_client_id pa = tq_client_id q /\ pl_scope pa = strings_join " " (ac_Scopes ac) /\
    rs_sign pid = Some idToken /\ Issuer (pl_registered pid) = issuer /\
    Subject (pl_registered pid) = u_id u /\ Audience (pl_registered pid) = [tq_client_id q] /\
    pl_nonce pid = ac_Nonce ac /\ pl_email pid = u_email u /\ pl_preferred_username pid = u_username u.
Proof.
  assert (oidc_wf s) as [Hnd Hreg Huser Hlife] by (rewrite Hs; by apply history_wf).
  destruct (run_Reply _ _ _ _ _ _ _ Hrun (token_wp c q s))
    as (a & i & ac & [= _ -> -> _ _] & [Hst Hsp Hfr Hcl Huri Hsec Hpk Hacc Hid]).
  destruct (byKey_Some _ _ _ _ Hst) as [Hin Hcode]. destruct Hsec as (client & Hclient & Hsec).
  rewrite Forall_forall in Hreg, Huser, Hlife. destruct (Hreg ac Hin) as (client' & Hc' & Hmem).
  rewrite Hclient in Hc'. injection Hc' as <-.
  destruct Hid as (info & groups & Hrow & Hid). unfold userInfoRow in Hrow.
  destruct (profile s) as [cols|]; [|done]. cbn in Hrow.
  destruct (byKey u_id (users (o_base s)) (ac_UserID ac)) as [u|] eqn:Eu; [|done]. cbn in Hrow.
  destruct (cols !! ac_UserID ac); [|done]. cbn in Hrow. injection Hrow as <-.
  destruct (byKey_Some _ _ _ _ Eu) as [Huin Huid].
  eexists ac, client, u, _, _. rewrite Hcl, Huri. split_and!; try eassumption; try done.
  - rewrite Hsp. cbn. intros [_ ?]%elem_of_without. done.
  - specialize (Hlife ac Hin). unfold authCodeLifetime in Hlife. lia.
  - destruct Hpk as [?|Hpk]; [by left|right]. unfold verifyPKCE in Hpk. destruct (_ || _); [|done].
    by apply String.eqb_eq in Hpk.
Qed.

(** The access token opens the user-information endpoint.  Within the hour
    after tokens were handed out, less the truncation to seconds, the endpoint
    answers the access token with the profile of the user who authorized the
    code, as the tables have it then. *)
Theorem access_token_works c c2 q s st access idToken scope expires s' es s2 info
    (Hrun : run (token c (Some q)) s = (Reply st (BTokens access idToken scope expires), s', es))
    (Hne : access <> "")
    (Htime : (onow c2 < onow c + hour - second)%Z) (Hok : forall k, ofails c2 k = false)
    (Hinfo : forall ac, byKey ac_Code (o_codes s) (tq_code q) = Some ac -> userInfoRow (ac_UserID ac) s2 = Some info) :
  exists ac groups, byKey ac_Code (o_codes s) (tq_code q) = Some ac /\
  run (userinfo c2 ("Bearer " ++ access)) s2 =
    (Reply 200 (BUserInfo (ac_UserID ac) (with_groups info groups)), s2, []).
Proof.
  destruct (run_Reply _ _ _ _ _ _ _ Hrun (token_wp c q s)) as (a & i & ac & [= _ -> -> _ _] & [Hst _ _ _ _ _ _ Hacc _]).
  exists ac. specialize (Hinfo ac Hst).
  assert (rs_verify (onow c2) a = Some (accessClaims (onow c) issuer ac accessTokenLifetime)) as Hv.
  { eapply rs_sign_verify; [exact Hacc|reflexivity| |done]. unfold NewNumericDate, accessTokenLifetime.
    pose proof (Z.mod_pos_bound (onow c + hour) second ltac:(done)). lia. }
  eexists. split; [done|]. unfold userinfo, extractBearerToken. rewrite cut_prefix_app.
  rewrite (proj2 (String.eqb_neq _ _) Hne). unfold run, bind, require, the, ret. cbn [negb]. rewrite Hv.
  unfold GetUserInfo, GetUserGroups, bind, query, the, asks, ret. rewrite !Hok. cbn [pl_registered accessClaims Subject].
  rewrite Hinfo. cbn. reflexivity.
Qed.

(** *** Where the code falls short *)

(** Without the columns the query names, no code is ever exchanged: the request
    takes the code and then fails. *)
Theorem no_columns_no_tokens c q s st b s' es (Hp : profile s = None) :
  run (token c (Some q)) s <> (Reply st b, s', es) /\
  forall h, run (userinfo c h) s <> (Reply st b, s', es).
Proof.
  assert (forall uid, userInfoRow uid s = None) as Hn by (intros; unfold userInfoRow; by rewrite Hp). split.
  - intros Hrun. destruct (run_Reply _ _ _ _ _ _ _ Hrun (token_wp c q s)) as (a & i & ac & _ & [_ _ _ _ _ _ _ _ (info & g & Hi & _)]).
    by rewrite Hn in Hi.
  - intros h Hrun. refine (run_Reply _ _ _ _ _ _ (fun _ _ _ => False) Hrun _).
    unfold userinfo. apply wp_pure; [apply pure_require|]. intros _. apply wp_pure; [apply pure_the|]. intros p.
    unfold GetUserInfo. apply wp_bind, wp_bind, wp_query. destruct (ofails c 0); [done|]. apply wp_the. by rewrite Hn.
Qed.
End oidc.

(** ** The published key *)

(** How a relying party reads it. *)
Definition url64_val (c : ascii) : option Z :=
  let n := Z.of_nat (nat_of_ascii c) in
  if ((65 <=? n) && (n <=? 90))%Z then Some (n - 65)%Z
  else if ((97 <=? n) && (n <=? 122))%Z then Some (n - 71)%Z
  else if ((48 <=? n) && (n <=? 57))%Z then Some (n + 4)%Z
  else if (n =? 45)%Z then Some 62%Z else if (n =? 95)%Z then Some 63%Z else None.

Fixpoint base64URLDecode (s : string) : option (list Z) :=
  match s with
  | EmptyString => Some []
  | String a (String b EmptyString) =>
      match url64_val a, url64_val b with
      | Some x, Some y => Some [((x * 64 + y) / 16)%Z]
      | _, _ => None
      end
  | String a (String b (String c EmptyString)) =>
      match url64_val a, url64_val b, url64_val c with
      | Some x, Some y, Some z => let v := ((x * 64 + y) * 64 + z)%Z in Some [(v / 1024)%Z; (v / 4 mod 256)%Z]
      | _, _, _ => None
      end
  | String a (String b (String c (String d s))) =>
      match url64_val a, url64_val b, url64_val c, url64_val d, base64URLDecode s with
      | Some x, Some y, Some z, Some w, Some l =>
          let v := (((x * 64 + y) * 64 + z) * 64 + w)%Z in
          Some ((v / 65536)%Z :: (v / 256 mod 256)%Z :: (v mod 256)%Z :: l)
      | _, _, _, _, _ => None
      end
  | _ => None
  end.

Definition big_value (l : list Z) : Z := foldl (fun v b => v * 256 + b)%Z 0%Z l.

Lemma url64_chars_ok : forallb (fun n => bool_decide (url64_val (url64_char (Z.of_nat n)) = Some (Z.of_nat n))) (seq 0 64) = true.
Proof. vm_compute. reflexivity. Qed.

Lemma url64_val_sextet v i : url64_val (sextet v i) = Some (v / 64 ^ i mod 64)%Z.
Proof.
  unfold sextet. assert (0 <= v / 64 ^ i mod 64 < 64)%Z as Hb by (apply Z.mod_pos_bound; lia).
  pose proof (proj1 (forallb_forall _ _) url64_chars_ok (Z.to_nat (v / 64 ^ i mod 64))) as Hc.
  cbv beta in Hc. rewrite Z2Nat.id in Hc by lia. apply bool_decide_eq_true in Hc; [done|]. apply in_seq. lia.
Qed.

Lemma base64URL_roundtrip : forall l, Forall is_byte l -> base64URLDecode (base64URLEncode l) = Some l.
Proof.
  fix IH 1. intros [|a [|b [|c l]]] Hl.
  - done.
  - apply Forall_cons in Hl as [Ha _]. cbn [base64URLEncode base64URLDecode]. rewrite !url64_val_sextet.
    unfold is_byte in *. do 2 f_equal. change (64 ^ 3)%Z with 262144%Z. change (64 ^ 2)%Z with 4096%Z.
    Z.div_mod_to_equations. lia.
  - apply Forall_cons in Hl as [Ha Hl], Hl as [Hb _]. cbn [base64URLEncode base64URLDecode]. rewrite !url64_val_sextet.
    unfold is_byte in *. change (64 ^ 3)%Z with 262144%Z. change (64 ^ 2)%Z with 4096%Z. change (64 ^ 1)%Z with 64%Z.
    f_equal. f_equal; [|f_equal]; Z.div_mod_to_equations; lia.
  - apply Forall_cons in Hl as [Ha Hl], Hl as [Hb Hl], Hl as [Hc Hl]. cbn [base64URLEncode base64URLDecode].
    rewrite !url64_val_sextet, (IH l Hl). unfold is_byte in *.
    change (64 ^ 3)%Z with 262144%Z. change (64 ^ 2)%Z with 4096%Z. change (64 ^ 1)%Z with 64%Z. change (64 ^ 0)%Z with 1%Z.
    set (v := (a * 65536 + b * 256 + c)%Z). assert (0 <= v < 16777216)%Z as Hv by lia.
    assert ((((v / 262144 mod 64) * 64 + v / 4096 mod 64) * 64 + v / 64 mod 64) * 64 + v / 1 mod 64 = v)%Z as ->
      by (clearbody v; Z.div_mod_to_equations; lia).
    f_equal. f_equal; [|f_equal; [|f_equal]]; subst v; Z.div_mod_to_equations; lia.
Qed.

Lemma big_value_app l v : foldl (fun v b => v * 256 + b)%Z v l = (v * 256 ^ Z.of_nat (length l) + big_value l)%Z.
Proof.
  unfold big_value. revert v. induction l as [|b l IH]; intros v; [cbn; lia|]. cbn [foldl length].
  rewrite IH, (IH (0 * 256 + b)%Z), Nat2Z.inj_succ, Z.pow_succ_r by lia. lia.
Qed.

Lemma big_bytes_value fuel n acc : (0 <= n < 256 ^ Z.of_nat fuel)%Z ->
  big_value (big_bytes fuel n acc) = (n * 256 ^ Z.of_nat (length acc) + big_value acc)%Z.
Proof.
  revert n acc. induction fuel as [|fuel IH]; intros n acc Hn.
  { cbn [big_bytes]. assert (n = 0)%Z as -> by (cbn in Hn; lia). lia. }
  cbn [big_bytes]. destruct (Z.leb_spec n 0); [assert (n = 0)%Z as -> by lia; lia|].
  rewrite IH. 2:{ rewrite Nat2Z.inj_succ, Z.pow_succ_r in Hn by lia. split; [apply Z.div_pos; lia|].
    apply Z.div_lt_upper_bound; lia. }
  cbn [length]. rewrite Nat2Z.inj_succ, Z.pow_succ_r by lia.
  unfold big_value at 1. cbn [foldl]. rewrite (big_value_app acc (0 * 256 + n mod 256)).
  pose proof (Z.div_mod n 256 ltac:(lia)). nia.
Qed.

Lemma big_bytes_bytes fuel n acc : Forall is_byte acc -> Forall is_byte (big_bytes fuel n acc).
Proof.
  revert n acc. induction fuel as [|fuel IH]; intros n acc Ha; cbn [big_bytes]; [done|].
  destruct (n <=? 0)%Z; [done|]. apply IH. constructor; [|done]. apply Z.mod_pos_bound. lia.
Qed.

(** The published key reads back as the signing key: decoding the texts of
    the key set yields the modulus and the exponent, whatever they are. *)
Theorem jwks_roundtrip `{RsaLib} s (He : (0 <= rs_exponent < 2 ^ 64)%Z) :
  exists kid n e eb, run jwks s = (Reply 200 (BKeys kid n e), s, []) /\
    base64URLDecode n = Some rs_modulus /\ base64URLDecode e = Some eb /\ big_value eb = rs_exponent.
Proof.
  unfold run, jwks, respondJSON, ret. eexists _, _, _, _. split; [reflexivity|]. split_and!.
  - apply base64URL_roundtrip, rs_modulus_bytes.
  - apply base64URL_roundtrip, big_bytes_bytes. constructor.
  - rewrite big_bytes_value by (change (256 ^ Z.of_nat 8)%Z with (2 ^ 64)%Z; lia). cbn. lia.
Qed.

(** ** Running the provider *)

#[export] Instance RegisteredClaims_eq : EqDecision RegisteredClaims. Proof. solve_decision. Defined.
#[export] Instance payload_eq : EqDecision payload. Proof. solve_decision. Defined.

Definition pkce_verifier : string := "dBjftJeZ4CVP-mB92K27uhbUJU1p1r_wW1gFWFOEjXk".

Definition app : Client := {|
  cl_ID := "app"; cl_SecretHash := "pw"; cl_Name := "App"; cl_RedirectURIs := ["https://app/cb"];
  cl_Scopes := ["openid"]; cl_CreatedAt := 0 |}.

Definition ask : authorizeRequest := {|
  aq_client_id := "app"; aq_redirect_uri := "https://app/cb"; aq_response_type := "code"; aq_scope := "openid admin";
  aq_state := "xyz"; aq_nonce := "n"; aq_code_challenge := "E9Melhoa2OwvFrEMTJguCHaoeK1t8URWbuGJSstw-cM";
  aq_code_challenge_method := "S256" |}.

Definition code0 : string := default "" (generateRandomCode (Some Z.of_nat) 32).

Definition ac0 : AuthCode := {|
  ac_Code := code0; ac_ClientID := "app"; ac_UserID := "u2"; ac_Scopes := ["openid"; "admin"]; ac_Nonce := "n";
  ac_RedirectURI := "https://app/cb"; ac_CodeChallenge := "E9Melhoa2OwvFrEMTJguCHaoeK1t8URWbuGJSstw-cM";
  ac_CodeChallengeMethod := "S256"; ac_ExpiresAt := 10 * minute; ac_CreatedAt := 0 |}.

Definition info0 : UserInfo := {|
  ui_UserID := "u2"; ui_Email := "b@x"; ui_EmailVerified := true; ui_Name := "Bob B"; ui_Username := "bob"; ui_Groups := [] |}.

(** A key that has signed the two tokens of the example. *)
Definition signed : list (payload * string) :=
  [(accessClaims second "https://vpn" ac0 hour, "access"); (BuildIDTokenClaims second info0 "https://vpn" "app" "n" hour, "id")].

Definition toy_sign (p : payload) : option string := snd <$> List.find (fun x => bool_decide (x.1 = p)) signed.

Definition toy_verify (now : Z) (t : string) : option payload :=
  x ← List.find (fun x : payload * string => String.eqb x.2 t) signed;
  if bool_decide (now < default 0 (rc_ExpiresAt (pl_registered x.1)))%Z &&
     bool_decide (default 0 (rc_NotBefore (pl_registered x.1)) <= now \/ rc_NotBefore (pl_registered x.1) = None)%Z
  then Some x.1 else None.

Lemma toy_sign_verify p t now e : toy_sign p = Some t -> rc_ExpiresAt (pl_registered p) = Some e -> (now < e)%Z ->
  (forall n, rc_NotBefore (pl_registered p) = Some n -> (n <= now)%Z) -> toy_verify now t = Some p.
Proof.
  unfold toy_sign, toy_verify, signed. cbn [List.find].
  case_bool_decide as E1; [|case_bool_decide as E2; [|done]]; cbn [fst snd fmap option_fmap option_map] in *;
    subst p; intros [= <-] Hexp Hlt Hnb; cbn [String.eqb Ascii.eqb Bool.eqb].
  - cbn [mbind option_bind fst]. rewrite Hexp. cbn [default]. rewrite bool_decide_true by done.
    rewrite bool_decide_true by by right. done.
  - cbn [mbind option_bind fst]. rewrite Hexp. cbn [default]. rewrite bool_decide_true by done.
    rewrite bool_decide_true; [done|]. left. apply Hnb. done.
Qed.

Definition toy_rsa : RsaLib.
Proof.
  refine {| rs_sign := toy_sign; rs_verify := toy_verify; rs_modulus := [187; 1; 2; 3]; rs_exponent := 65537 |}.
  - apply toy_sign_verify.
  - repeat constructor; lia.
Defined.
#[local] Existing Instance toy_rsa.

Definition nobody : db := {|
  users := [{| u_id := "u2"; u_username := "bob"; u_email := "b@x"; u_password_hash := None; u_first_name := "Bob"; u_last_name := "B";
    u_phone := None; u_is_active := false; u_is_admin := false; u_mfa_enabled := false; u_created_at := 0; u_updated_at := 0 |}];
  devices := []; networks := []; gateways := []; gateway_networks := []; groups := []; user_groups := []; network_acls := [];
  device_posture := []; device_trust_scores := []; trust_auto := None; ztna_policies := []; smart_routes := [];
  smart_route_entries := []; network_smart_routes := []; roles := []; user_roles := []; logins := [] |}.

Definition oidc0 (columns : bool) : oidc_state := {|
  o_base := nobody; o_clients := [app]; o_codes := [];
  profile := if columns then Some {[ "u2" := (true, "Bob B") ]} else None |}.

Lemma oidc0_wf b : oidc_wf (oidc0 b).
Proof. constructor; cbn; constructor. Qed.

Definition at_ (t : Z) : ocall := {|
  ofails := fun _ => false; onow := t; orandom := Some Z.of_nat; parses := fun _ => true; oread := None |}.

Definition bob_session : TokenClaims := {|
  UserID := "u2"; Username := "bob"; Email := "b@x"; IsAdmin := false; Roles := []; TokenType := "";
  ExpiresAt := None; IssuedAt := None |}.

Definition exchange : tokenRequest := {|
  tq_grant_type := "authorization_code"; tq_code := code0; tq_redirect_uri := "https://app/cb"; tq_code_verifier := pkce_verifier;
  tq_client_id := "app"; tq_client_secret := "pw" |}.

Abbreviation provider_after := (@after toy_env toy_rsa sql_default "https://vpn").

Definition with_code (b : bool) : oidc_state := provider_after (oidc0 b) (at_ 0, Authorize (Some bob_session) ask).

Lemma with_code_wf b : oidc_wf (with_code b).
Proof.
  apply (preserves_run oidc_wf _ (oidc0 b) (@oidc_serve_wf toy_env toy_rsa sql_default "https://vpn" (at_ 0) (Authorize (Some bob_session) ask))), oidc0_wf.
Qed.

Definition tokens0 := run (@token toy_env toy_rsa sql_default "https://vpn" (at_ second) (Some exchange)) (with_code true).

Example tokens0_ok : tokens0.1.1 = Reply 200 (BTokens "access" "id" "openid admin" 3600).
Proof. vm_compute. reflexivity. Qed.

Lemma token_sound_witness :
  exists ac client, ac ∈ o_codes (with_code true) /\ ac_Code ac = code0 /\ byKey cl_ID (o_clients (with_code true)) "app" = Some client /\
    "https://app/cb" ∈ cl_RedirectURIs client /\ base64URLEncode (sha256 (bytes pkce_verifier)) = ac_CodeChallenge ac.
Proof.
  destruct (@token_sound toy_env toy_rsa sql_default "https://vpn" (oidc0 true) [(at_ 0, Authorize (Some bob_session) ask)]
    (at_ second) exchange (with_code true) 200 "access" "id" "openid admin" 3600 tokens0.1.2 [])
    as (ac & client & u & pa & pid & Hin & Hc & _ & _ & _ & Hcl & _ & Hu & _ & Hp & _).
  - reflexivity.
  - reflexivity.
  - vm_compute. reflexivity.
  - exists ac, client. split_and!; try done. destruct Hp as [Hp|Hp]; [|exact Hp].
    assert (o_codes (with_code true) = [ac0]) as E by (vm_compute; reflexivity).
    rewrite E in Hin. apply list_elem_of_singleton in Hin. subst ac. discriminate Hp.
Defined.

Definition redirected := run (@authorize (at_ 0) (Some bob_session) ask) (oidc0 true).

Lemma redirect_registered_witness :
  exists ac, ac ∈ o_codes redirected.1.2 /\ ac_Code ac = code0 /\ ac_UserID ac = "u2".
Proof.
  destruct (@redirect_registered (at_ 0) (Some bob_session) ask (oidc0 true) 302 "https://app/cb"
    [("code", code0); ("state", "xyz")] redirected.1.2 []) as (cl & client & [= <-] & _ & _ & Hcode).
  - vm_compute. reflexivity.
  - destruct (Hcode code0) as (ac & Hin & Hc & Hu & _); [by left|]. by exists ac.
Defined.

Definition replay : list (ocall * oidc_request) :=
  [(at_ 0, Authorize (Some bob_session) ask); (at_ second, TokenReq (Some exchange)); (at_ second, TokenReq (Some exchange))].

Lemma code_single_use_witness :
  ledger provider_after (@enters toy_env toy_rsa sql_default "https://vpn" code0)
    (@redeems toy_env toy_rsa sql_default "https://vpn" code0) replay (oidc0 true) = (1, 1)%nat /\ (1 <= 1)%nat.
Proof.
  split; [vm_compute; reflexivity|].
  apply (@code_single_use toy_env toy_rsa sql_default "https://vpn" code0 replay (oidc0 true)). cbn. by intros ?%elem_of_nil.
Defined.

Lemma access_token_works_witness :
  exists ac groups, byKey ac_Code (o_codes (with_code true)) code0 = Some ac /\
  run (@userinfo toy_rsa sql_default (at_ (30 * minute)) "Bearer access") tokens0.1.2 =
    (Reply 200 (BUserInfo (ac_UserID ac) (with_groups info0 groups)), tokens0.1.2, []).
Proof.
  apply (@access_token_works toy_env toy_rsa sql_default "https://vpn" (at_ second) (at_ (30 * minute)) exchange (with_code true)
    200 "access" "id" "openid admin" 3600 tokens0.1.2 [] tokens0.1.2 info0).
  - vm_compute. reflexivity.
  - discriminate.
  - vm_compute. reflexivity.
  - reflexivity.
  - intros ac Hac. vm_compute in Hac. injection Hac as <-. vm_compute. reflexivity.
Defined.

Lemma jwks_roundtrip_witness :
  exists kid n e eb, run jwks (oidc0 true) = (Reply 200 (BKeys kid n e), oidc0 true, []) /\
    base64URLDecode n = Some [187; 1; 2; 3] /\ base64URLDecode e = Some eb /\ big_value eb = 65537.
Proof. apply (@jwks_roundtrip toy_rsa (oidc0 true)). cbn. lia. Defined.

(** *** Where the code falls short *)

(** With the tables of the migrations, which have neither column, a correct
    exchange burns the code and answers 500. *)
Theorem exchange_fails_on_schema :
  let '(r, s', _) := run (@token toy_env toy_rsa sql_default "https://vpn" (at_ second) (Some exchange)) (with_code false) in
  map ac_Code (o_codes (with_code false)) = [code0] /\ o_codes s' = [] /\
  r = Failure 500 "server_error: failed to retrieve user".
Proof. vm_compute. auto. Qed.

(** The user-information endpoint takes the identity token, which clients pass
    on, for an access token. *)
Theorem id_token_opens_userinfo :
  (run (@userinfo toy_rsa sql_default (at_ (2 * second)) "Bearer id") (with_code true)).1.1 = Reply 200 (BUserInfo "u2" info0).
Proof. vm_compute. reflexivity. Qed.

(** A client is granted scopes it is not registered for, and the user of the
    example is disabled: neither is checked. *)
Theorem scopes_and_status_unchecked :
  cl_Scopes app = ["openid"] /\ map u_is_active (users nobody) = [false] /\
  tokens0.1.1 = Reply 200 (BTokens "access" "id" "openid admin" 3600).
Proof. vm_compute. auto. Qed.

(** The routes are mounted without the middleware that sets the claims, so
    the authorization endpoint refuses everyone. *)
Theorem authorize_without_middleware c q s :
  run (authorize c None q) s = (Failure 401 "authentication required", s, []).
Proof. reflexivity. Qed.
