(* ===== verification/Ldap.v ===== *)
(** * Directory synchronisation

    [internal/auth/ldap/sync.go]: users and groups of an LDAP directory are
    upserted by their distinguished name, users who left the directory are
    disabled, and a login is a bind as the user.  The [Connector] interface of
    the source is a class; [LDAPConnector] is an instance of it over the client
    library.  The columns [ldap_dn] are maps from identifiers; [ldap_schema]
    says which of the indexes, columns and tables the statements name are
    there.  [faults] says which statement fails: the upsert of the [i]-th entry,
    the [j]-th member of it, and so on.  Of error texts the quoted arguments are
    left out. *)

From S2P Require Import Prelude Json Schema Sha256 Login Policy Http Tables.
From Stdlib Require Import ZArith Lia Ascii String.
From stdpp Require Import base gmap strings list.

Local Open Scope Z_scope.
Local Open Scope string_scope.

(** ** Configuration *)

Record UserAttributeMap := {
  um_Username : string; um_Email : string; um_FirstName : string; um_LastName : string; um_Phone : string; um_DN : string }.

Definition DefaultUserAttrMap : UserAttributeMap := {|
  um_Username := "sAMAccountName"; um_Email := "mail"; um_FirstName := "givenName"; um_LastName := "sn";
  um_Phone := "telephoneNumber"; um_DN := "dn" |}.

Record GroupAttributeMap := { gm_Name : string; gm_Members : string }.

Definition DefaultGroupAttrMap : GroupAttributeMap := {| gm_Name := "cn"; gm_Members := "member" |}.

Record Config := {
  cf_URL : string; cf_BindDN : string; cf_BindPassword : string; cf_BaseDN : string;
  cf_UserFilter : string; cf_GroupFilter : string; cf_UserAttrMap : UserAttributeMap;
  cf_GroupAttrMap : GroupAttributeMap; cf_TLS : bool; cf_SkipVerify : bool }.

#[export] Instance UserAttributeMap_eq : EqDecision UserAttributeMap. Proof. solve_decision. Defined.
#[export] Instance GroupAttributeMap_eq : EqDecision GroupAttributeMap. Proof. solve_decision. Defined.

(** [NewSyncer]: the defaults. *)
Definition NewSyncer (cfg : Config) : Config := {|
  cf_URL := cf_URL cfg; cf_BindDN := cf_BindDN cfg; cf_BindPassword := cf_BindPassword cfg; cf_BaseDN := cf_BaseDN cfg;
  cf_UserFilter := if String.eqb (cf_UserFilter cfg) "" then "(objectClass=person)" else cf_UserFilter cfg;
  cf_GroupFilter := if String.eqb (cf_GroupFilter cfg) "" then "(objectClass=group)" else cf_GroupFilter cfg;
  cf_UserAttrMap := if decide (cf_UserAttrMap cfg = {| um_Username := ""; um_Email := ""; um_FirstName := "";
      um_LastName := ""; um_Phone := ""; um_DN := "" |}) then DefaultUserAttrMap else cf_UserAttrMap cfg;
  cf_GroupAttrMap := if decide (cf_GroupAttrMap cfg = {| gm_Name := ""; gm_Members := "" |})
    then DefaultGroupAttrMap else cf_GroupAttrMap cfg;
  cf_TLS := cf_TLS cfg; cf_SkipVerify := cf_SkipVerify cfg |}.

(** [tlsConfig]: whether certificates go unverified, or no TLS. *)
Definition tlsConfig (cfg : Config) : option bool := if cf_TLS cfg then Some (cf_SkipVerify cfg) else None.

(** ** Entries *)

Record Entry := { en_DN : string; en_Attributes : gmap string (list string) }.

Definition GetAttributeValues (e : Entry) (name : string) : list string := default [] (en_Attributes e !! name).

Definition GetAttributeValue (e : Entry) (name : string) : string := hd "" (GetAttributeValues e name).

Record LDAPUser := { lu_DN : string; lu_Username : string; lu_Email : string; lu_FirstName : string; lu_LastName : string; lu_Phone : string }.

Definition entryToUser (cfg : Config) (e : Entry) : LDAPUser :=
  let m := cf_UserAttrMap cfg in {|
  lu_DN := en_DN e; lu_Username := GetAttributeValue e (um_Username m); lu_Email := GetAttributeValue e (um_Email m);
  lu_FirstName := GetAttributeValue e (um_FirstName m); lu_LastName := GetAttributeValue e (um_LastName m);
  lu_Phone := GetAttributeValue e (um_Phone m) |}.

Definition userSearchAttrs (cfg : Config) : list string :=
  let m := cf_UserAttrMap cfg in
  ([um_Username m; um_Email m; um_FirstName m; um_LastName m] ++ if String.eqb (um_Phone m) "" then [] else [um_Phone m])%list.

(** ** Connections *)

Class Connector : Type := {
  connection : Type;
  Connect : string -> option bool -> connection -> result unit * connection;
  Bind : string -> string -> connection -> result unit * connection;
  Search : string -> string -> list string -> connection -> result (list Entry) * connection;
  Close : connection -> connection;
}.

(** The client library. *)
Class GoLdap : Type := {
  Conn : Type;
  DialURL : string -> option bool -> result Conn;
  StartTLS : bool -> Conn -> result Conn;
  lib_Bind : string -> string -> Conn -> result unit * Conn;
  (** base, filter, attributes, page size (0: one request) *)
  lib_Search : string -> string -> list string -> Z -> Conn -> result (list (string * list (string * list string))) * Conn;
}.

Record LDAPConnector `{GoLdap} := { lc_conn : option Conn; lc_pageSize : Z }.

Definition defaultPageSize : Z := 500.

(** [strings.ToLower] on the letters of the scheme. *)
Fixpoint scheme_lower (s : string) : string :=
  match s with
  | EmptyString => ""
  | String c r => let n := nat_of_ascii c in
      String (if (65 <=? n)%nat && (n <=? 90)%nat then ascii_of_nat (n + 32) else c) (scheme_lower r)
  end.

Definition has_prefix (s p : string) : bool := bool_decide (is_Some (cut_prefix s p)).

Section connector.
Context `{GoLdap}.

Definition NewLDAPConnector : LDAPConnector := {| lc_conn := None; lc_pageSize := defaultPageSize |}.
Definition SetPageSize (size : Z) (c : LDAPConnector) : LDAPConnector := {| lc_conn := lc_conn c; lc_pageSize := size |}.

Definition lc_Connect (url : string) (tls : option bool) (c : LDAPConnector) : result unit * LDAPConnector :=
  let c := {| lc_conn := None; lc_pageSize := lc_pageSize c |} in
  let isLDAPS := has_prefix (scheme_lower url) "ldaps://" in
  match DialURL url (if isLDAPS then Some (default false tls) else None) with
  | Err m => (Err ("ldap dial " ++ url ++ ": " ++ m), c)
  | Ok conn =>
      match (if isLDAPS then Ok conn else match tls with Some skip => StartTLS skip conn | None => Ok conn end) with
      | Err m => (Err ("ldap STARTTLS: " ++ m), c)
      | Ok conn => (Ok tt, {| lc_conn := Some conn; lc_pageSize := lc_pageSize c |})
      end
  end.

Definition lc_Bind (dn password : string) (c : LDAPConnector) : result unit * LDAPConnector :=
  match lc_conn c with
  | None => (Err "ldap: not connected", c)
  | Some conn =>
      let '(r, conn') := lib_Bind dn password conn in
      (match r with Ok _ => Ok tt | Err m => Err ("ldap bind as " ++ dn ++ ": " ++ m) end,
       {| lc_conn := Some conn'; lc_pageSize := lc_pageSize c |})
  end.

(** An attribute that occurs twice counts once, the last time. *)
Definition toEntry (le : string * list (string * list string)) : Entry := {|
  en_DN := le.1; en_Attributes := foldl (fun m a => <[a.1 := a.2]> m) ∅ le.2 |}.

Definition lc_Search (baseDN filter : string) (attributes : list string) (c : LDAPConnector)
  : result (list Entry) * LDAPConnector :=
  match lc_conn c with
  | None => (Err "ldap: not connected", c)
  | Some conn =>
      let '(r, conn') := lib_Search baseDN filter attributes (lc_pageSize c) conn in
      (match r with
       | Ok l => Ok (map toEntry l)
       | Err m => Err ((if (0 <? lc_pageSize c)%Z then "ldap paged search: " else "ldap search: ") ++ m)
       end, {| lc_conn := Some conn'; lc_pageSize := lc_pageSize c |})
  end.

Definition lc_Close (c : LDAPConnector) : LDAPConnector := {| lc_conn := None; lc_pageSize := lc_pageSize c |}.

#[export] Instance LDAPConnector_Connector : Connector := {|
  connection := LDAPConnector; Connect := lc_Connect; Bind := lc_Bind; Search := lc_Search; Close := lc_Close |}.
End connector.

(** ** Tables *)

Record ldap_schema := {
  dn_unique : bool;         (* a unique index on users.ldap_dn *)
  group_dn : bool;          (* groups.ldap_dn, unique, and groups.updated_at *)
  group_members_table : bool }.

(** What the migrations create. *)
Definition migrated : ldap_schema := {| dn_unique := false; group_dn := false; group_members_table := false |}.

Record ldap_state := {
  l_base : db;
  l_dn : gmap string string;             (* user id -> ldap_dn *)
  l_gdn : gmap string string;            (* group id -> ldap_dn *)
  l_members : list (string * string);    (* group_members: group_id, user_id *)
}.

Definition with_users (s : ldap_state) (l : list user) : ldap_state := {|
  l_base := set_users (l_base s) l; l_dn := l_dn s; l_gdn := l_gdn s; l_members := l_members s |}.

Definition dnOf (s : ldap_state) (u : user) : option string := l_dn s !! u_id u.

Definition userWithDN (s : ldap_state) (dn : string) : option user :=
  List.find (fun x => bool_decide (dnOf s x = Some dn)) (users (l_base s)).

(** A name or address that another row has. *)
Definition taken (s : ldap_state) (id : string) (u : LDAPUser) : bool :=
  existsb (fun y => negb (String.eqb (u_id y) id) &&
                    (String.eqb (u_username y) (lu_Username u) || String.eqb (u_email y) (lu_Email u))) (users (l_base s)).

Definition from_directory (u : LDAPUser) (now : Z) (x : user) : user := {|
  u_id := u_id x; u_username := lu_Username u; u_email := lu_Email u; u_password_hash := u_password_hash x;
  u_first_name := lu_FirstName u; u_last_name := lu_LastName u; u_phone := u_phone x; u_is_active := true;
  u_is_admin := u_is_admin x; u_mfa_enabled := u_mfa_enabled x; u_created_at := u_created_at x; u_updated_at := now |}.

Definition directory_user (id hash : string) (u : LDAPUser) (now : Z) : user := {|
  u_id := id; u_username := lu_Username u; u_email := lu_Email u; u_password_hash := Some hash;
  u_first_name := lu_FirstName u; u_last_name := lu_LastName u; u_phone := None; u_is_active := true;
  u_is_admin := false; u_mfa_enabled := false; u_created_at := now; u_updated_at := now |}.

Definition upsert_ldap_user (sc : ldap_schema) (newID : string) (now : Z) (hash : string) (u : LDAPUser)
  : stmt ldap_state string := fun s =>
  if negb (dn_unique sc) then inr ErrOther else
  match userWithDN s (lu_DN u) with
  | Some x =>
      if taken s (u_id x) u then inr (ErrUnique "users")
      else inl ("updated", with_users s (upd u_id (u_id x) (from_directory u now) (users (l_base s))))
  | None =>
      if has u_id (users (l_base s)) newID || taken s newID u then inr (ErrUnique "users")
      else inl ("created", {| l_base := set_users (l_base s) (users (l_base s) ++ [directory_user newID hash u now]);
                              l_dn := <[newID := lu_DN u]> (l_dn s); l_gdn := l_gdn s; l_members := l_members s |})
  end.

Definition disable (now : Z) (x : user) : user := {|
  u_id := u_id x; u_username := u_username x; u_email := u_email x; u_password_hash := u_password_hash x;
  u_first_name := u_first_name x; u_last_name := u_last_name x; u_phone := u_phone x; u_is_active := false;
  u_is_admin := u_is_admin x; u_mfa_enabled := u_mfa_enabled x; u_created_at := u_created_at x; u_updated_at := now |}.

(** The users that left the directory. *)
Definition gone (s : ldap_state) (seen : list string) (x : user) : bool :=
  match dnOf s x with
  | Some dn => negb (String.eqb dn "") && negb (existsb (String.eqb dn) seen) && u_is_active x
  | None => false
  end.

Definition disable_gone (now : Z) (seen : list string) : stmt ldap_state nat := fun s =>
  inl (length (List.filter (gone s seen) (users (l_base s))),
       with_users s (map (fun x => if gone s seen x then disable now x else x) (users (l_base s)))).

Definition groupWithDN (s : ldap_state) (dn : string) : option group :=
  List.find (fun g => bool_decide (l_gdn s !! gr_id g = Some dn)) (groups (l_base s)).

Definition named (name : string) (g : group) : group := {|
  gr_id := gr_id g; gr_name := name; gr_description := gr_description g; gr_is_system := gr_is_system g;
  gr_created_at := gr_created_at g |}.

(** The identifier of the group and what was done. *)
Definition upsert_ldap_group (sc : ldap_schema) (newID : string) (now : Z) (name dn : string)
  : stmt ldap_state (string * string) := fun s =>
  let clash id := existsb (fun g => negb (String.eqb (gr_id g) id) && String.eqb (gr_name g) name) (groups (l_base s)) in
  if negb (group_dn sc) then inr ErrOther else
  match groupWithDN s dn with
  | Some g =>
      if clash (gr_id g) then inr (ErrUnique "groups_name_key")
      else inl ((gr_id g, "updated"), {| l_base := set_groups (l_base s) (upd gr_id (gr_id g) (named name) (groups (l_base s)));
                  l_dn := l_dn s; l_gdn := l_gdn s; l_members := l_members s |})
  | None =>
      if has gr_id (groups (l_base s)) newID || clash newID then inr (ErrUnique "groups_name_key")
      else inl ((newID, "created"), {| l_base := set_groups (l_base s) (groups (l_base s) ++
                  [{| gr_id := newID; gr_name := name; gr_description := ""; gr_is_system := false; gr_created_at := now |}]);
                  l_dn := l_dn s; l_gdn := <[newID := dn]> (l_gdn s); l_members := l_members s |})
  end.

Definition clear_group (sc : ldap_schema) (gid : string) : stmt ldap_state unit := fun s =>
  if negb (group_members_table sc) then inr ErrOther
  else inl (tt, {| l_base := l_base s; l_dn := l_dn s; l_gdn := l_gdn s; l_members := without fst (l_members s) gid |}).

(** [INSERT .. SELECT $1, id FROM users WHERE ldap_dn = $2 ON CONFLICT DO NOTHING]. *)
Definition add_members (sc : ldap_schema) (gid dn : string) : stmt ldap_state unit := fun s =>
  if negb (group_members_table sc) then inr ErrOther else
  let ids := map u_id (List.filter (fun x => bool_decide (dnOf s x = Some dn)) (users (l_base s))) in
  let new := List.filter (fun id => negb (existsb (fun m => String.eqb m.1 gid && String.eqb m.2 id) (l_members s))) ids in
  inl (tt, {| l_base := l_base s; l_dn := l_dn s; l_gdn := l_gdn s; l_members := (l_members s ++ map (pair gid) new)%list |}).

(** ** Synchronisation *)

Record SyncResult := { Created : Z; Updated : Z; Disabled : Z; Errors : list string }.

Definition no_result : SyncResult := {| Created := 0; Updated := 0; Disabled := 0; Errors := [] |}.
Definition add_error (m : string) (r : SyncResult) : SyncResult := {|
  Created := Created r; Updated := Updated r; Disabled := Disabled r; Errors := (Errors r ++ [m])%list |}.
Definition count_action (action : string) (r : SyncResult) : SyncResult :=
  if String.eqb action "created" then {| Created := Created r + 1; Updated := Updated r; Disabled := Disabled r; Errors := Errors r |}
  else if String.eqb action "updated" then {| Created := Created r; Updated := Updated r + 1; Disabled := Disabled r; Errors := Errors r |}
  else r.

Record lcall := {
  lnow : Z;
  lids : nat -> string;
  lrandom : nat -> list Z;           (* the 16 random bytes *)
  upsertFails : nat -> bool;
  disableFails : bool;
  clearFails : nat -> bool;
  memberFails : nat -> nat -> bool;
  sql_text : string;                 (* the text of a database error *)
}.

Definition attempted {A} (fails : bool) (st : stmt ldap_state A) (s : ldap_state) : option (A * ldap_state) :=
  if fails then None else match st s with inl r => Some r | inr _ => None end.

Section sync.
Context `{AuthEnv} `{Connector} (sc : ldap_schema) (cfg : Config).
Implicit Types (c : lcall) (cn : connection).

Definition connect cn : result unit * connection :=
  match Connect (cf_URL cfg) (tlsConfig cfg) cn with
  | (Err m, cn) => (Err ("ldap: connecting to " ++ cf_URL cfg ++ ": " ++ m), cn)
  | (Ok _, cn) =>
      match Bind (cf_BindDN cfg) (cf_BindPassword cfg) cn with
      | (Err m, cn) => (Err ("ldap: bind as " ++ cf_BindDN cfg ++ ": " ++ m), Close cn)
      | (Ok _, cn) => (Ok tt, cn)
      end
  end.

Definition TestConnection cn : result unit * connection :=
  match connect cn with
  | (Err m, cn) => (Err m, cn)
  | (Ok _, cn) => (Ok tt, Close cn)
  end.

(** The state of a loop: tables, distinguished names seen, counters. *)
Definition progress : Type := ldap_state * list string * SyncResult.

(** One entry: skipped with an error, or upserted. *)
Definition syncUser c (i : nat) (e : Entry) (p : progress) : progress :=
  let '(s, seen, r) := p in
  let u := entryToUser cfg e in
  if String.eqb (lu_Username u) "" then (s, seen, add_error ("skipping entry " ++ lu_DN u ++ ": empty username") r) else
  let seen := lu_DN u :: seen in
  match HashPassword ("ldap-" ++ EncodeToString (lrandom c i)) with
  | None => (s, seen, add_error ("hashing password for " ++ lu_Username u) r)
  | Some hash =>
      match attempted (upsertFails c i) (upsert_ldap_user sc (lids c i) (lnow c) hash u) s with
      | None => (s, seen, add_error ("upserting user " ++ lu_Username u ++ " (" ++ lu_DN u ++ "): " ++ sql_text c) r)
      | Some (action, s') => (s', seen, count_action action r)
      end
  end.

Fixpoint syncAll c (i : nat) (l : list Entry) (p : progress) : progress :=
  match l with
  | [] => p
  | e :: l => syncAll c (S i) l (syncUser c i e p)
  end.

Definition disableGone c (p : progress) : ldap_state * SyncResult :=
  let '(s, seen, r) := p in
  match seen with
  | [] => (s, r)
  | _ => match attempted (disableFails c) (disable_gone (lnow c) seen) s with
         | None => (s, add_error ("deactivating removed ldap users: " ++ sql_text c) r)
         | Some (n, s') => (s', {| Created := Created r; Updated := Updated r; Disabled := Z.of_nat n; Errors := Errors r |})
         end
  end.

Definition SyncUsers c (s : ldap_state) cn : result SyncResult * ldap_state * connection :=
  match connect cn with
  | (Err m, cn) => (Err m, s, cn)
  | (Ok _, cn) =>
      match Search (cf_BaseDN cfg) (cf_UserFilter cfg) (userSearchAttrs cfg) cn with
      | (Err m, cn) => (Err ("ldap: searching users with filter: " ++ m), s, Close cn)
      | (Ok entries, cn) =>
          let '(s', r) := disableGone c (syncAll c 0 entries (s, [], no_result)) in (Ok r, s', Close cn)
      end
  end.

Fixpoint syncMembers c (i j : nat) (gid name : string) (l : list string) (s : ldap_state) (r : SyncResult)
  : ldap_state * SyncResult :=
  match l with
  | [] => (s, r)
  | dn :: l =>
      match attempted (memberFails c i j) (add_members sc gid dn) s with
      | None => syncMembers c i (S j) gid name l s (add_error ("adding member " ++ dn ++ " to group " ++ name ++ ": " ++ sql_text c) r)
      | Some (_, s') => syncMembers c i (S j) gid name l s' r
      end
  end.

Definition syncGroup c (i : nat) (e : Entry) (p : ldap_state * SyncResult) : ldap_state * SyncResult :=
  let '(s, r) := p in
  let name := GetAttributeValue e (gm_Name (cf_GroupAttrMap cfg)) in
  if String.eqb name "" then (s, add_error ("skipping group entry " ++ en_DN e ++ ": empty name") r) else
  match attempted (upsertFails c i) (upsert_ldap_group sc (lids c i) (lnow c) name (en_DN e)) s with
  | None => (s, add_error ("upserting group " ++ name ++ ": " ++ sql_text c) r)
  | Some ((gid, action), s') =>
      let r := count_action action r in
      match attempted (clearFails c i) (clear_group sc gid) s' with
      | None => (s', add_error ("clearing members for group " ++ name ++ ": " ++ sql_text c) r)
      | Some (_, s'') => syncMembers c i 0 gid name (GetAttributeValues e (gm_Members (cf_GroupAttrMap cfg))) s'' r
      end
  end.

Fixpoint syncGroups c (i : nat) (l : list Entry) (p : ldap_state * SyncResult) : ldap_state * SyncResult :=
  match l with
  | [] => p
  | e :: l => syncGroups c (S i) l (syncGroup c i e p)
  end.

Definition SyncGroups c (s : ldap_state) cn : result SyncResult * ldap_state * connection :=
  match connect cn with
  | (Err m, cn) => (Err m, s, cn)
  | (Ok _, cn) =>
      match Search (cf_BaseDN cfg) (cf_GroupFilter cfg) [gm_Name (cf_GroupAttrMap cfg); gm_Members (cf_GroupAttrMap cfg)] cn with
      | (Err m, cn) => (Err ("ldap: searching groups with filter: " ++ m), s, Close cn)
      | (Ok entries, cn) => let '(s', r) := syncGroups c 0 entries (s, no_result) in (Ok r, s', Close cn)
      end
  end.

(** ** Authentication *)

(** [fmt.Sprintf("%02x", c)]. *)
Definition hex2 (c : ascii) : string := EncodeToString [Z.of_nat (nat_of_ascii c)].

Definition filter_special (c : ascii) : bool :=
  let n := nat_of_ascii c in
  (n =? 92)%nat || (n =? 42)%nat || (n =? 40)%nat || (n =? 41)%nat || (n =? 0)%nat.

Fixpoint ldapEscapeFilter (s : string) : string :=
  match s with
  | EmptyString => ""
  | String c r => (if filter_special c then String (ascii_of_nat 92) (hex2 c) else String c "") ++ ldapEscapeFilter r
  end.

Definition userFilter (username : string) : string :=
  "(&" ++ cf_UserFilter cfg ++ "(" ++ um_Username (cf_UserAttrMap cfg) ++ "=" ++ ldapEscapeFilter username ++ "))".

Definition Authenticate (username password : string) cn : result LDAPUser * connection :=
  match connect cn with
  | (Err m, cn) => (Err m, cn)
  | (Ok _, cn) =>
      match Search (cf_BaseDN cfg) (userFilter username) (userSearchAttrs cfg) cn with
      | (Err m, cn) => (Err ("ldap: searching for user: " ++ m), Close cn)
      | (Ok [], cn) => (Err "ldap: user not found", Close cn)
      | (Ok [e], cn) =>
          match Bind (en_DN e) password cn with
          | (Err m, cn) => (Err ("ldap: authentication failed for user: " ++ m), Close cn)
          | (Ok _, cn) => (Ok (entryToUser cfg e), Close cn)
          end
      | (Ok _, cn) => (Err "ldap: multiple entries found for user", Close cn)
      end
  end.

(** ** What a synchronisation leaves alone *)

(** The part of an account that is not the directory's. *)
Definition own_part (x : user) : string * option string * option string * bool * bool * Z :=
  (u_id x, u_password_hash x, u_phone x, u_is_admin x, u_mfa_enabled x, u_created_at x).

Record kept (s s' : ldap_state) : Prop := {
  kp_old : forall x, x ∈ users (l_base s) -> exists x', x' ∈ users (l_base s') /\ own_part x' = own_part x /\
    dnOf s' x' = dnOf s x /\ (dnOf s x = None -> x' = x);
  kp_new : forall x', x' ∈ users (l_base s') ->
    (exists x, x ∈ users (l_base s) /\ own_part x' = own_part x /\ dnOf s' x' = dnOf s x /\ (dnOf s x = None -> x' = x)) \/
    ((u_id x' ∉ map u_id (users (l_base s))) /\ u_is_admin x' = false /\ u_mfa_enabled x' = false /\ is_Some (dnOf s' x'));
}.

Lemma own_part_id x y : own_part x = own_part y -> u_id x = u_id y.
Proof. by intros [= ? ? ? ? ? ?]. Qed.

Lemma kept_refl s : kept s s.
Proof. constructor; [intros x Hx; by exists x|]. intros x Hx. left. by exists x. Qed.

Lemma kept_trans s1 s2 s3 : kept s1 s2 -> kept s2 s3 -> kept s1 s3.
Proof.
  intros [O1 N1] [O2 N2]. constructor.
  - intros x Hx. destruct (O1 x Hx) as (y & Hy & Ey & Dy & Uy). destruct (O2 y Hy) as (z & Hz & Ez & Dz & Uz).
    exists z. split_and!; [done|congruence..|]. intros Hn. rewrite Uz; [auto|congruence].
  - intros z Hz. destruct (N2 z Hz) as [(y & Hy & Ez & Dz & Uz)|(Hf & Ha & Hm & Hd)].
    + destruct (N1 y Hy) as [(x & Hx & Ey & Dy & Uy)|(Hf & Ha & Hm & Hd)].
      * left. exists x. split_and!; [done|congruence..|]. intros Hn. rewrite Uz; [auto|congruence].
      * right. injection Ez as Eid _ _ Ead Emf _. rewrite Eid, Ead, Emf, Dz. done.
    + right. split_and!; [|done..]. intros (x & Ex & Hx)%list_elem_of_fmap. apply Hf.
      destruct (O1 x Hx) as (y & Hy & Ey & _). apply list_elem_of_fmap. exists y. split; [|done].
      apply own_part_id in Ey. congruence.
Qed.

(** A change of rows that all come from the directory. *)
Lemma kept_map s f :
  (forall x, own_part (f x) = own_part x) ->
  (forall x, x ∈ users (l_base s) -> dnOf s x = None -> f x = x) ->
  kept s (with_users s (map f (users (l_base s)))).
Proof.
  intros Ho Hn. assert (forall x, dnOf (with_users s (map f (users (l_base s)))) (f x) = dnOf s x) as Hd.
  { intros x. unfold dnOf. cbn [l_dn with_users]. by rewrite (own_part_id _ _ (Ho x)). }
  constructor.
  - intros x Hx. exists (f x). split_and!; [apply list_elem_of_fmap; eauto|done..|auto].
  - intros x' (x & -> & Hx)%list_elem_of_fmap. left. exists x. split_and!; auto.
Qed.

Lemma userWithDN_Some s dn x : userWithDN s dn = Some x -> x ∈ users (l_base s) /\ dnOf s x = Some dn.
Proof. intros [Hx Hd%bool_decide_eq_true]%find_some. by rewrite list_elem_of_In. Qed.

Lemma upsert_kept newID now hash u s a s' :
  upsert_ldap_user sc newID now hash u s = inl (a, s') -> kept s s'.
Proof.
  unfold upsert_ldap_user. destruct (dn_unique sc); [|done]. cbn [negb].
  destruct (userWithDN s (lu_DN u)) as [x|] eqn:Ex.
  - destruct (taken _ _ _); [done|]. intros [= <- <-]. apply userWithDN_Some in Ex as [_ Hd]. apply kept_map.
    + intros y. by destruct (String.eqb _ _).
    + intros y _ Hn. destruct (String.eqb_spec (u_id y) (u_id x)) as [E|]; [|done].
      unfold dnOf in *. congruence.
  - destruct (has u_id _ newID) eqn:Hid; [done|]. destruct (taken _ _ _); [done|]. intros [= <- <-].
    apply has_false in Hid.
    assert (forall x, x ∈ users (l_base s) -> u_id x <> newID) as Hne.
    { intros x Hx <-. apply Hid. apply list_elem_of_fmap. eauto. }
    constructor; cbn [l_base set_users users].
    + intros x Hx. exists x. split_and!; [set_solver|done| |done]. unfold dnOf. cbn. rewrite lookup_insert_ne; [done|].
      intros E. by destruct (Hne x Hx).
    + intros x [Hx| ->%list_elem_of_singleton]%elem_of_app.
      * left. exists x. split_and!; [done|done| |done]. unfold dnOf. cbn. rewrite lookup_insert_ne; [done|].
        intros E. by destruct (Hne x Hx).
      * right. cbn. unfold dnOf. cbn. rewrite lookup_insert_eq. eauto.
Qed.

Lemma attempted_Some {A} fails (st : stmt ldap_state A) s a s' : attempted fails st s = Some (a, s') -> st s = inl (a, s').
Proof. unfold attempted. destruct fails; [done|]. destruct (st s) as [[]|]; [|done]. by intros [= <- <-]. Qed.

Lemma syncUser_kept c i e s seen r s' seen' r' : syncUser c i e (s, seen, r) = (s', seen', r') -> kept s s'.
Proof.
  unfold syncUser. destruct (String.eqb _ ""); [intros [= <- _ _]; apply kept_refl|].
  destruct (HashPassword _); [|intros [= <- _ _]; apply kept_refl].
  destruct (attempted _ _ _) as [[a s1]|] eqn:Ea; intros [= <- _ _]; [|apply kept_refl].
  apply attempted_Some in Ea. by eapply upsert_kept.
Qed.

Lemma syncAll_kept c i l p : kept p.1.1 (syncAll c i l p).1.1.
Proof.
  revert i p. induction l as [|e l IH]; intros i p; cbn [syncAll]; [apply kept_refl|].
  eapply kept_trans; [|apply IH]. destruct p as [[s seen] r].
  destruct (syncUser c i e (s, seen, r)) as [[s' seen'] r'] eqn:E. by eapply syncUser_kept.
Qed.

Lemma disable_gone_kept now seen s n s' : disable_gone now seen s = inl (n, s') -> kept s s'.
Proof.
  intros [= _ <-]. apply kept_map.
  - intros x. by destruct (gone _ _ _).
  - intros x _ Hn. unfold gone. by rewrite Hn.
Qed.

Lemma disableGone_kept c p : kept p.1.1 (disableGone c p).1.
Proof.
  destruct p as [[s seen] r]. cbn [disableGone]. destruct seen as [|d seen]; [apply kept_refl|].
  destruct (attempted _ _ _) as [[n s1]|] eqn:Ea; [|apply kept_refl]. apply attempted_Some in Ea.
  by eapply disable_gone_kept.
Qed.

(** A synchronisation touches only what the directory owns.  Whatever the
    directory answers and whatever statements fail, every account is still
    there with its identifier, password, phone, rights and second factor;
    accounts without a distinguished name are unchanged; and every new account
    has a distinguished name and no administrator rights. *)
Theorem sync_confined c s cn : kept s (SyncUsers c s cn).1.2.
Proof.
  unfold SyncUsers. destruct (connect cn) as [[[]|m] cn1]; [|apply kept_refl].
  destruct (Search _ _ _ cn1) as [[l|m] cn2]; [|apply kept_refl].
  pose proof (syncAll_kept c 0 l (s, [], no_result)) as Ha. pose proof (disableGone_kept c (syncAll c 0 l (s, [], no_result))) as Hd.
  destruct (disableGone _ _) as [s' r]. cbn in *. by eapply kept_trans.
Qed.

(** ** What a synchronisation establishes *)

(** The account is as the directory has it. *)
Definition matches_entry (u : LDAPUser) (x : user) : Prop :=
  u_username x = lu_Username u /\ u_email x = lu_Email u /\ u_first_name x = lu_FirstName u /\
  u_last_name x = lu_LastName u /\ u_is_active x = true.

Definition present (s : ldap_state) (u : LDAPUser) : Prop :=
  exists x, x ∈ users (l_base s) /\ dnOf s x = Some (lu_DN u) /\ matches_entry u x.

Lemma upsert_present newID now hash u s a s' :
  upsert_ldap_user sc newID now hash u s = inl (a, s') -> present s' u /\ (a = "created" \/ a = "updated").
Proof.
  unfold upsert_ldap_user. destruct (dn_unique sc); [|done]. cbn [negb].
  destruct (userWithDN s (lu_DN u)) as [x|] eqn:Ex.
  - destruct (taken _ _ _); [done|]. intros [= <- <-]. apply userWithDN_Some in Ex as [Hx Hd]. split; [|by right].
    exists (from_directory u now x). split_and!; [|done|done]. apply list_elem_of_fmap. exists x.
    by rewrite String.eqb_refl.
  - destruct (has u_id _ newID); [done|]. destruct (taken _ _ _); [done|]. intros [= <- <-]. split; [|by left].
    exists (directory_user newID hash u now). cbn. split_and!; [set_solver| |done]. unfold dnOf. cbn. by rewrite lookup_insert_eq.
Qed.

Lemma upsert_keeps_present newID now hash u v s a s' : lu_DN v <> lu_DN u ->
  upsert_ldap_user sc newID now hash u s = inl (a, s') -> present s v -> present s' v.
Proof.
  intros Hne. unfold upsert_ldap_user. destruct (dn_unique sc); [|done]. cbn [negb].
  destruct (userWithDN s (lu_DN u)) as [x|] eqn:Ex.
  - destruct (taken _ _ _); [done|]. intros [= <- <-] (y & Hy & Hdy & Hm). apply userWithDN_Some in Ex as [Hx Hd].
    exists y. split_and!; [|done|done]. apply list_elem_of_fmap. exists y. split; [|done].
    destruct (String.eqb_spec (u_id y) (u_id x)) as [E|]; [|done]. unfold dnOf in *. rewrite E in Hdy. congruence.
  - destruct (has u_id _ newID) eqn:Hid; [done|]. destruct (taken _ _ _); [done|]. intros [= <- <-] (y & Hy & Hdy & Hm).
    exists y. split_and!; [cbn; set_solver| |done]. unfold dnOf in *. cbn. rewrite lookup_insert_ne; [done|].
    intros ->. apply has_false in Hid. apply Hid. apply list_elem_of_fmap. eauto.
Qed.

Lemma syncUser_step c i e s seen r : Errors (syncUser c i e (s, seen, r)).2 = [] ->
  let u := entryToUser cfg e in
  lu_Username u <> "" /\ Errors r = [] /\ (syncUser c i e (s, seen, r)).1.2 = lu_DN u :: seen /\
  present (syncUser c i e (s, seen, r)).1.1 u /\
  Created (syncUser c i e (s, seen, r)).2 + Updated (syncUser c i e (s, seen, r)).2 = Created r + Updated r + 1 /\
  forall v, lu_DN v <> lu_DN u -> present s v -> present (syncUser c i e (s, seen, r)).1.1 v.
Proof.
  unfold syncUser. destruct (String.eqb_spec (lu_Username (entryToUser cfg e)) "") as [_|Hu].
  { cbn. by destruct (Errors r). }
  destruct (HashPassword _) as [hash|]; [|cbn; by destruct (Errors r)].
  destruct (attempted _ _ _) as [[a s1]|] eqn:Ea; [|cbn; by destruct (Errors r)]. apply attempted_Some in Ea.
  cbn [fst snd]. destruct (upsert_present _ _ _ _ _ _ _ Ea) as [Hp Ha]. intros He. split_and!; try done.
  - by destruct Ha as [-> | ->].
  - destruct Ha as [-> | ->]; cbn; lia.
  - intros v Hne. by eapply upsert_keeps_present.
Qed.

(** A run without errors: names seen, accounts present, counters. *)
Lemma syncAll_done c i l done s r :
  NoDup (map lu_DN (map (entryToUser cfg) l) ++ map lu_DN done)%list ->
  (forall u, u ∈ done -> present s u) ->
  let '(s', seen', r') := syncAll c i l (s, map lu_DN done, r) in
  Errors r' = [] ->
  Errors r = [] /\ Forall (fun e => lu_Username (entryToUser cfg e) <> "") l /\
  (forall d, d ∈ seen' <-> d ∈ (map lu_DN (map (entryToUser cfg) l) ++ map lu_DN done)%list) /\
  (forall u, u ∈ (map (entryToUser cfg) l ++ done)%list -> present s' u) /\
  Created r' + Updated r' = Created r + Updated r + Z.of_nat (length l).
Proof.
  revert i done s r. induction l as [|e l IH]; intros i done s r Hnd Hdone; cbn [syncAll].
  { intros He. split_and!; [done|constructor|done|done|cbn; lia]. }
  cbn [map] in Hnd. rewrite <- app_comm_cons in Hnd. apply NoDup_cons in Hnd as [Hfresh Hnd].
  pose proof (syncUser_step c i e s (map lu_DN done) r) as Hstep.
  assert (forall m r1 l p, Errors (syncAll c m l p).2 = [] -> p.2 = r1 -> Errors r1 = []) as Hmono.
  { clear. intros m r1 l. revert m r1. induction l as [|e l IH]; intros m r1 p He <-; cbn [syncAll] in He; [done|].
    assert (Errors (syncUser c m e p).2 = []) as Hs by (eapply IH; [exact He|done]).
    destruct p as [[s seen] r]. apply syncUser_step in Hs. tauto. }
  destruct (syncUser c i e (s, map lu_DN done, r)) as [[s1 seen1] r1] eqn:E1. cbn [fst snd] in Hstep.
  destruct (syncAll c (S i) l (s1, seen1, r1)) as [[s' seen'] r'] eqn:E2. intros He.
  assert (Errors r1 = []) as Hr1 by (eapply (Hmono (S i) r1 l (s1, seen1, r1)); [by rewrite E2|done]).
  destruct (Hstep Hr1) as (Hu & Hr & Hseen & Hp & Hcount & Hkeep). subst seen1.
  specialize (IH (S i) (entryToUser cfg e :: done) s1 r1).
  cbn [map] in IH. rewrite E2 in IH. destruct IH as (_ & Hall & Hs' & Hpres & Hc); [| |done|].
  - rewrite <- Permutation_middle. by constructor.
  - intros u [->|Hin]%elem_of_cons; [done|]. apply Hkeep; [|auto]. intros Eq. apply Hfresh. rewrite <- Eq.
    apply elem_of_app. right. by apply list_elem_of_fmap_2.
  - split_and!; [done|by constructor| | |cbn [length]; lia].
    + intros d. rewrite Hs'. cbn [map]. set_solver.
    + intros u. cbn [map]. intros Hin. apply Hpres. set_solver.
Qed.

Lemma disable_present now seen s n s' u :
  disable_gone now seen s = inl (n, s') -> lu_DN u ∈ seen -> present s u -> present s' u.
Proof.
  intros [= _ <-] Hs (x & Hx & Hd & Hm). exists x. split_and!; [|done|done]. apply list_elem_of_fmap. exists x.
  split; [|done]. unfold gone. rewrite Hd. assert (existsb (String.eqb (lu_DN u)) seen = true) as ->; [|by rewrite andb_false_r].
  apply existsb_exists. exists (lu_DN u). rewrite String.eqb_refl. split; [by apply list_elem_of_In|done].
Qed.

Lemma disable_effect now seen s n s' x :
  disable_gone now seen s = inl (n, s') -> x ∈ users (l_base s') -> u_is_active x = true ->
  forall dn, dnOf s' x = Some dn -> dn <> "" -> dn ∈ seen.
Proof.
  intros [= _ <-] (y & -> & Hy)%list_elem_of_fmap. destruct (gone s seen y) eqn:Eg; [done|]. intros Hact dn Hd Hne.
  change (dnOf s y = Some dn) in Hd. unfold gone in Eg. rewrite Hd, (proj2 (String.eqb_neq _ _) Hne), Hact, andb_true_r in Eg.
  cbn [negb andb] in Eg. apply negb_false_iff, existsb_exists in Eg as (d & Hd' & ->%String.eqb_eq).
  by apply list_elem_of_In.
Qed.

(** On a schema with a unique index on [users.ldap_dn], which no migration
    creates (see [sync_without_index]), after a synchronisation without errors
    of a directory with at least one entry and distinct names the accounts
    mirror the directory.  Every entry has an active account with its name,
    address and distinguished name; every other account that came from the
    directory is disabled; and the counters add up to the entries. *)
Theorem sync_mirrors_directory c s cn r s' cn1 cn2 cn' entries
    (Hconn : connect cn = (Ok tt, cn1))
    (Hsearch : Search (cf_BaseDN cfg) (cf_UserFilter cfg) (userSearchAttrs cfg) cn1 = (Ok entries, cn2))
    (Hnd : NoDup (map en_DN entries)) (Hsome : entries <> [])
    (Hrun : SyncUsers c s cn = (Ok r, s', cn')) (Herr : Errors r = []) :
  (forall e, e ∈ entries -> present s' (entryToUser cfg e)) /\
  (forall x dn, x ∈ users (l_base s') -> u_is_active x = true -> dnOf s' x = Some dn -> dn <> "" ->
     dn ∈ map en_DN entries) /\
  Created r + Updated r = Z.of_nat (length entries).
Proof.
  unfold SyncUsers in Hrun. rewrite Hconn, Hsearch in Hrun.
  assert (map lu_DN (map (entryToUser cfg) entries) = map en_DN entries) as Edn by by rewrite map_map.
  pose proof (syncAll_done c 0 entries [] s no_result) as Hd. cbn [map] in Hd. rewrite app_nil_r, Edn in Hd.
  specialize (Hd Hnd (fun u Hu => False_ind _ (not_elem_of_nil _ Hu))).
  destruct (syncAll c 0 entries (s, [], no_result)) as [[s1 seen] r1]. cbn [disableGone] in Hrun.
  destruct (match seen with [] => _ | _ => _ end) as [s2 r2] eqn:Edis. injection Hrun as -> -> _.
  assert (exists n, Errors r1 = [] /\ disable_gone (lnow c) seen s1 = inl (n, s') /\ Created r = Created r1 /\ Updated r = Updated r1
          \/ (seen = [] /\ Errors r1 = [])) as [n Hcase].
  { exists (length (List.filter (gone s1 seen) (users (l_base s1)))). destruct seen as [|d seen]; [injection Edis as _ <-; auto|].
    destruct (attempted _ _ _) as [[n s3]|] eqn:Ea; injection Edis as <- <-.
    - apply attempted_Some in Ea. left. cbn in Herr. split_and!; try done. rewrite Ea. by injection Ea as <- _.
    - cbn in Herr. by destruct (Errors r1). }
  assert (Errors r1 = []) as Hr1 by (destruct Hcase; tauto).
  destruct (Hd Hr1) as (_ & _ & Hseen & Hpres & Hcount). rewrite app_nil_r in Hpres.
  destruct Hcase as [(_ & Hdis & -> & ->)|[-> _]].
  - split_and!; [|..|by rewrite Hcount].
    + intros e He. eapply disable_present; [exact Hdis| |].
      * apply Hseen, list_elem_of_fmap. by exists e.
      * apply Hpres, list_elem_of_fmap. by exists e.
    + intros x dn Hx Hact Hdn Hne. apply Hseen. by eapply disable_effect.
  - destruct entries as [|e entries]; [done|]. exfalso. apply (not_elem_of_nil (en_DN e)), Hseen. by left.
Qed.
End sync.

(** ** Authentication *)

(** How a directory reads an assertion value (RFC 4515): a backslash and two
    hexadecimal digits stand for a byte, and the characters of the filter
    syntax may not occur bare. *)
Definition filter_syntax (c : ascii) : bool :=
  bool_decide (nat_of_ascii c ∈ [0; 40; 41; 42]%nat).   (* NUL ( ) * *)

Fixpoint unescape (s : string) : option string :=
  match s with
  | EmptyString => Some ""
  | String c r =>
      if (nat_of_ascii c =? 92)%nat then
        match r with
        | String a (String b r) =>
            match hex_val a, hex_val b, unescape r with
            | Some x, Some y, Some t => Some (String (ascii_of_nat (Z.to_nat (16 * x + y))) t)
            | _, _, _ => None
            end
        | _ => None
        end
      else if filter_syntax c then None
      else String c <$> unescape r
  end.

Lemma unescape_hex c t : unescape (String (ascii_of_nat 92) (hex2 c) ++ t) = String c <$> unescape t.
Proof.
  unfold hex2. cbn [EncodeToString]. rewrite !append_cons, append_nil. set (n := Z.of_nat (nat_of_ascii c)).
  assert (0 <= n < 256)%Z as Hn by (unfold n; pose proof (nat_ascii_bounded c); lia).
  cbn [unescape]. replace (nat_of_ascii (ascii_of_nat 92) =? 92)%nat with true by reflexivity.
  rewrite !hex_val_digit by (Z.div_mod_to_equations; lia). rewrite <- Z.div_mod by done.
  destruct (unescape t); [|done]. cbn. do 2 f_equal. unfold n. by rewrite Nat2Z.id, ascii_nat_embedding.
Qed.

Lemma filter_special_false c : filter_special c = false -> (nat_of_ascii c =? 92)%nat = false /\ filter_syntax c = false.
Proof. destruct c as [[] [] [] [] [] [] [] []]; vm_compute; done. Qed.

Lemma escape_reads_back s : unescape (ldapEscapeFilter s) = Some s.
Proof.
  induction s as [|c s IH]; [done|]. cbn [ldapEscapeFilter]. destruct (filter_special c) eqn:Es.
  - by rewrite unescape_hex, IH.
  - rewrite append_cons, append_nil. cbn [unescape]. apply filter_special_false in Es as [-> ->]. by rewrite IH.
Qed.

(** A name put into a search filter stays a value (RFC 4515): read back as an
    assertion value, with a backslash and two hexadecimal digits for a byte and
    neither parentheses, asterisk nor NUL bare, the escaped text is exactly the
    name, whatever bytes it has. *)
Theorem ldapEscapeFilter_roundtrip s : unescape (ldapEscapeFilter s) = Some s.
Proof. apply escape_reads_back. Qed.

(** Whatever the connector answers, a login succeeds only if the service account
    is connected, a search for a value that reads back as the name finds a
    single entry, and a bind as that entry with the password is accepted; the
    user returned is that entry's. *)
Theorem Authenticate_sound `{Connector} cfg username password u cn cn' :
  Authenticate cfg username password cn = (Ok u, cn') ->
  exists cn1 cn2 cn3 value e, connect cfg cn = (Ok tt, cn1) /\ unescape value = Some username /\
    Search (cf_BaseDN cfg)
      ("(&" ++ cf_UserFilter cfg ++ "(" ++ um_Username (cf_UserAttrMap cfg) ++ "=" ++ value ++ "))")
      (userSearchAttrs cfg) cn1 = (Ok [e], cn2) /\
    Bind (en_DN e) password cn2 = (Ok tt, cn3) /\ u = entryToUser cfg e.
Proof.
  unfold Authenticate. destruct (connect cfg cn) as [[[]|m] cn1] eqn:Ec; [|done].
  destruct (Search _ _ _ cn1) as [[[|e [|e' l]]|m] cn2] eqn:Es; try done.
  destruct (Bind (en_DN e) password cn2) as [[[]|m] cn3] eqn:Eb; [|done]. intros [= <- _].
  exists cn1, cn2, cn3, (ldapEscapeFilter username), e. split_and!; try done. apply escape_reads_back.
Qed.

(** ** Running it *)

(** A connector that needs no connection, over a fixed directory. *)
Definition person (dn name mail : string) : Entry := {|
  en_DN := dn; en_Attributes := {[ "sAMAccountName" := [name]; "mail" := [mail]; "givenName" := ["G"]; "sn" := ["S"] ]} |}.

Definition staff : list Entry := [person "cn=ann" "ann" "a@x"; person "cn=bob" "bob" "b@x"].

Definition acme : Config := {|
  cf_URL := "ldaps://dc"; cf_BindDN := "cn=svc"; cf_BindPassword := "s3cret"; cf_BaseDN := "dc=acme"; cf_UserFilter := "";
  cf_GroupFilter := ""; cf_UserAttrMap := DefaultUserAttrMap; cf_GroupAttrMap := DefaultGroupAttrMap; cf_TLS := true; cf_SkipVerify := false |}.

(** The text up to a character. *)
Fixpoint upto (c : ascii) (s : string) : string :=
  match s with
  | EmptyString => ""
  | String a r => if Ascii.eqb a c then "" else String a (upto c r)
  end.

(** A connector that needs no connection, over the people above. *)
Definition toy_search (people : list Entry) (filter : string) : list Entry :=
  match cut_prefix filter "(&(objectClass=person)(sAMAccountName=" with
  | Some rest =>
      match unescape (upto ")" rest) with
      | Some name => List.filter (fun e => existsb (String.eqb name) (GetAttributeValues e "sAMAccountName")) people
      | None => []
      end
  | None => people
  end.

Definition toy_password (dn : string) : option string := Some (if String.eqb dn "cn=svc" then "s3cret" else "pw " ++ dn).

Definition toy_connector (people : list Entry) : Connector := {|
  connection := unit;
  Connect := fun _ _ _ => (Ok tt, tt);
  Bind := fun dn password _ =>
    (if bool_decide (password <> "" /\ toy_password dn = Some password) then Ok tt else Err "49", tt);
  Search := fun _ filter _ _ => (Ok (toy_search people filter), tt);
  Close := fun _ => tt |}.

Definition ldap_call (t : Z) : lcall := {|
  lnow := t; lids := fun i => "n" ++ itoa (Z.of_nat i); lrandom := fun _ => [1; 2]; upsertFails := fun _ => false;
  disableFails := false; clearFails := fun _ => false; memberFails := fun _ _ => false; sql_text := "error" |}.

Definition worker (id name mail : string) (active : bool) : user := {|
  u_id := id; u_username := name; u_email := mail; u_password_hash := None; u_first_name := ""; u_last_name := ""; u_phone := None;
  u_is_active := active; u_is_admin := false; u_mfa_enabled := false; u_created_at := 0; u_updated_at := 0 |}.

Definition people (l : list user) (dns : gmap string string) : ldap_state := {|
  l_base := {| users := l; devices := []; networks := []; gateways := []; gateway_networks := []; groups := []; user_groups := [];
    network_acls := []; device_posture := []; device_trust_scores := []; trust_auto := None; ztna_policies := []; smart_routes := [];
    smart_route_entries := []; network_smart_routes := []; roles := []; user_roles := []; logins := [] |};
  l_dn := dns; l_gdn := ∅; l_members := [] |}.

(** Ann is known, Carl has left, Dora is local. *)
Definition company : ldap_state :=
  people [worker "u1" "ann" "old@x" true; worker "u3" "carl" "c@x" true; worker "u4" "dora" "d@x" true]
         {[ "u1" := "cn=ann"; "u3" := "cn=carl" ]}.

Definition complete : ldap_schema := {| dn_unique := true; group_dn := true; group_members_table := true |}.

Definition synced := @SyncUsers toy_env (toy_connector staff) complete (NewSyncer acme) (ldap_call 5) company tt.

Lemma sync_mirrors_directory_witness :
  present (synced.1.2) (entryToUser (NewSyncer acme) (person "cn=bob" "bob" "b@x")) /\
  map u_is_active (users (l_base (synced.1.2))) = [true; false; true; true].
Proof.
  split; [|vm_compute; reflexivity].
  refine (proj1 (@sync_mirrors_directory toy_env (toy_connector staff) complete (NewSyncer acme) (ldap_call 5) company tt
    {| Created := 1; Updated := 1; Disabled := 1; Errors := [] |} synced.1.2 tt tt tt staff _ _ _ _ _ _) _ _).
  - vm_compute. reflexivity.
  - vm_compute. reflexivity.
  - apply (bool_decide_unpack (NoDup (map en_DN staff))). vm_compute. exact I.
  - discriminate.
  - vm_compute. reflexivity.
  - reflexivity.
  - right. left.
Defined.

Lemma Authenticate_sound_witness :
  exists cn1 cn2 cn3 value e, @connect (toy_connector staff) (NewSyncer acme) tt = (Ok tt, cn1) /\ unescape value = Some "bob" /\
    @Search (toy_connector staff) "dc=acme" ("(&(objectClass=person)(sAMAccountName=" ++ value ++ "))")
      (userSearchAttrs (NewSyncer acme)) cn1 = (Ok [e], cn2) /\
    @Bind (toy_connector staff) (en_DN e) "pw cn=bob" cn2 = (Ok tt, cn3) /\
    entryToUser (NewSyncer acme) (person "cn=bob" "bob" "b@x") = entryToUser (NewSyncer acme) e.
Proof.
  apply (@Authenticate_sound (toy_connector staff) (NewSyncer acme) "bob" "pw cn=bob" _ tt tt). vm_compute. reflexivity.
Defined.

(** ** Where the code falls short *)

(** Without a unique index on [users.ldap_dn], which no migration creates, every
    upsert fails: a synchronisation creates and updates nobody, and can only
    disable. *)
Theorem sync_without_index `{AuthEnv} `{Connector} cfg c s cn r s' cn' :
  @SyncUsers _ _ migrated cfg c s cn = (Ok r, s', cn') -> Created r = 0 /\ Updated r = 0.
Proof.
  assert (forall l i p, Created (syncAll migrated cfg c i l p).2 = Created p.2 /\ Updated (syncAll migrated cfg c i l p).2 = Updated p.2) as Hall.
  { induction l as [|e l IH]; intros i [[s0 seen] r0]; cbn [syncAll]; [done|].
    destruct (IH (S i) (syncUser migrated cfg c i e (s0, seen, r0))) as [-> ->]. unfold syncUser.
    destruct (String.eqb _ ""); [done|]. destruct (HashPassword _); [|done]. unfold attempted. by destruct (upsertFails c i). }
  unfold SyncUsers. destruct (connect cfg cn) as [[[]|m] cn1]; [|done]. destruct (Search _ _ _ cn1) as [[l|m] cn2]; [|done].
  specialize (Hall l 0%nat (s, [], no_result)). destruct (syncAll migrated cfg c 0 l (s, [], no_result)) as [[s1 seen] r1].
  cbn in Hall. unfold disableGone. destruct seen; [by intros [= <- _ _]|].
  destruct (attempted _ _ _) as [[n s2]|]; by intros [= <- _ _].
Qed.

(** Nor do groups have the column, nor is there a table [group_members]. *)
Theorem groups_without_columns :
  let g := {| en_DN := "cn=ops"; en_Attributes := {[ "cn" := ["ops"]; "member" := ["cn=ann"] ]} |} in
  (@syncGroup migrated (NewSyncer acme) (ldap_call 0) 0 g (company, no_result)).2 =
    add_error "upserting group ops: error" no_result.
Proof. vm_compute. reflexivity. Qed.

(** A person who moves in the directory gets a new distinguished name: the
    insertion clashes with the old account, and the old account is disabled. *)
Theorem moved_user_disabled :
  let s := people [worker "u1" "ann" "a@x" true] {[ "u1" := "cn=ann,ou=old" ]} in
  let '(r, s', _) := @SyncUsers toy_env (toy_connector staff) complete (NewSyncer acme) (ldap_call 5) s tt in
  map (fun u => (u_username u, u_is_active u)) (users (l_base s')) = [("ann", false); ("bob", true)].
Proof. vm_compute. reflexivity. Qed.

(** An account an administrator has disabled is enabled again by the next
    synchronisation. *)
Theorem disabled_user_returns :
  let s := people [worker "u1" "ann" "a@x" false] {[ "u1" := "cn=ann" ]} in
  let '(r, s', _) := @SyncUsers toy_env (toy_connector staff) complete (NewSyncer acme) (ldap_call 5) s tt in
  map (fun u => (u_username u, u_is_active u)) (users (l_base s')) = [("ann", true); ("bob", true)].
Proof. vm_compute. reflexivity. Qed.
