(* ===== verification/Saml.v ===== *)
(** * SAML service provider

    [internal/auth/saml/provider.go]: a user who has authenticated at an
    identity provider is found or created by the mail address of the assertion
    and gets a session token.  XML, signatures and the protocol are those of
    crewjam/saml, class [SamlLib]; what the file adds is modelled: start-up, the
    endpoints, the reading of the attributes and the statements on the users.
    A redirect is an address with parameters, as in [Oidc]. *)

From S2P Require Import Prelude Schema Auth Login Policy Http Tables Groups.
From Stdlib Require Import ZArith Lia Ascii String.
From stdpp Require Import base gmap strings list.
Import Token Middleware.

Local Open Scope Z_scope.
Local Open Scope string_scope.
Local Open Scope outpost_scope.

(** ** Configuration *)

Record AttributeMap := { am_Email : string; am_FirstName : string; am_LastName : string; am_Username : string; am_Groups : string }.

#[global] Instance AttributeMap_eq : EqDecision AttributeMap.
Proof. solve_decision. Defined.

Definition DefaultAttributeMap : AttributeMap := {|
  am_Email := "urn:oid:0.9.2342.19200300.100.1.3"; am_FirstName := "givenName"; am_LastName := "sn"; am_Username := "uid";
  am_Groups := "memberOf" |}.

Definition no_attributes : AttributeMap :=
  {| am_Email := ""; am_FirstName := ""; am_LastName := ""; am_Username := ""; am_Groups := "" |}.

Record Config := {
  sc_EntityID : string;
  sc_ACSURL : string;
  sc_IDPMetadataURL : string;
  sc_IDPMetadata : string;
  sc_CertFile : string;
  sc_KeyFile : string;
  sc_SignRequests : bool;
  sc_AllowIDPInitiated : bool;
  sc_AttributeMap : AttributeMap;
  sc_JWTSecret : string;
  sc_BaseURL : string;
}.

Definition with_defaults (c : Config) (m : AttributeMap) (base : string) : Config := {|
  sc_EntityID := sc_EntityID c; sc_ACSURL := sc_ACSURL c; sc_IDPMetadataURL := sc_IDPMetadataURL c;
  sc_IDPMetadata := sc_IDPMetadata c; sc_CertFile := sc_CertFile c; sc_KeyFile := sc_KeyFile c;
  sc_SignRequests := sc_SignRequests c; sc_AllowIDPInitiated := sc_AllowIDPInitiated c; sc_AttributeMap := m;
  sc_JWTSecret := sc_JWTSecret c; sc_BaseURL := base |}.

(** ** The library *)

Definition HTTPRedirectBinding : string := "urn:oasis:names:tc:SAML:2.0:bindings:HTTP-Redirect".
Definition HTTPPostBinding : string := "urn:oasis:names:tc:SAML:2.0:bindings:HTTP-POST".

(** The single logout services of each descriptor: binding and location. *)
Definition EntityDescriptor : Type := list (list (string * string)).

(** [saml.ServiceProvider], as far as the file sets it. *)
Record samlSP := {
  sl_EntityID : string;
  sl_KeyPair : string;
  sl_MetadataURL : string;
  sl_AcsURL : string;
  sl_IDPMetadata : EntityDescriptor;
  sl_AllowIDPInitiated : bool;
}.

Record Attribute := { at_Name : string; at_FriendlyName : string; at_Values : list string }.

(** The name identifier, absent when the subject has none, and the statements. *)
Record Assertion := { as_NameID : option string; as_Statements : list (list Attribute) }.

Record AuthnRequest := { rq_ID : string; rq_Redirect : option string }.

Class SamlLib : Type := {
  url_Parse : string -> option (string * string);                 (* scheme and host *)
  LoadX509KeyPair : string -> string -> option string;
  ParseCertificate : string -> bool;
  FetchMetadata : string -> option EntityDescriptor;
  ParseMetadata : string -> option EntityDescriptor;
  MakeAuthenticationRequest : samlSP -> Z -> option AuthnRequest;
  MakeLogoutRequest : samlSP -> string -> string -> option string; (* the address to redirect to *)
  ParseResponse : samlSP -> Z -> string -> list string -> option Assertion;
  (** The request a response says it answers. *)
  InResponseTo : string -> string;
  (** A response is accepted only for one of the requests given, unless the
      provider may start. *)
  ParseResponse_request : forall sp now r ids a, ParseResponse sp now r ids = Some a ->
    sl_AllowIDPInitiated sp = true \/ InResponseTo r ∈ ids;
  (** Identifiers of requests begin with "id-". *)
  request_ID : forall sp now q, MakeAuthenticationRequest sp now = Some q -> exists r, rq_ID q = "id-" ++ r;
}.

(** ** Start-up *)

Record ServiceProvider := { sv_cfg : Config; sv_sp : option samlSP }.

Section provider.
Context `{SamlLib}.

Definition loadIDPMetadata (cfg : Config) : option EntityDescriptor :=
  if negb (String.eqb (sc_IDPMetadataURL cfg) "") then
    match url_Parse (sc_IDPMetadataURL cfg) with
    | None => None
    | Some _ => FetchMetadata (sc_IDPMetadataURL cfg)
    end
  else if negb (String.eqb (sc_IDPMetadata cfg) "") then ParseMetadata (sc_IDPMetadata cfg)
  else None.

Definition initSAMLSP (cfg : Config) : option samlSP :=
  if String.eqb (sc_CertFile cfg) "" || String.eqb (sc_KeyFile cfg) "" then None else
  match LoadX509KeyPair (sc_CertFile cfg) (sc_KeyFile cfg) with
  | None => None
  | Some keyPair =>
      if negb (ParseCertificate keyPair) then None else
      match url_Parse (sc_ACSURL cfg) with
      | None => None
      | Some _ =>
          let metadataURL := match url_Parse (sc_EntityID cfg ++ "/metadata") with
                             | Some _ => sc_EntityID cfg ++ "/metadata" | None => sc_ACSURL cfg end in
          match loadIDPMetadata cfg with
          | None => None
          | Some idp => Some {| sl_EntityID := sc_EntityID cfg; sl_KeyPair := keyPair; sl_MetadataURL := metadataURL;
                                sl_AcsURL := sc_ACSURL cfg; sl_IDPMetadata := idp;
                                sl_AllowIDPInitiated := sc_AllowIDPInitiated cfg |}
          end
      end
  end.

Definition NewServiceProvider (cfg : Config) : ServiceProvider :=
  let m := if bool_decide (sc_AttributeMap cfg = no_attributes) then DefaultAttributeMap else sc_AttributeMap cfg in
  let base := if String.eqb (sc_BaseURL cfg) "" && negb (String.eqb (sc_ACSURL cfg) "") then
                match url_Parse (sc_ACSURL cfg) with
                | Some (scheme, host) => scheme ++ "://" ++ host
                | None => sc_BaseURL cfg
                end
              else sc_BaseURL cfg in
  let cfg := with_defaults cfg m base in
  {| sv_cfg := cfg; sv_sp := initSAMLSP cfg |}.

(** ** Assertions *)

Record SAMLUser := {
  su_Email : string;
  su_FirstName : string;
  su_LastName : string;
  su_Username : string;
  su_Groups : list string;
  su_NameID : string;
}.

Definition attrValues (a : Attribute) : list string := List.filter (fun v => negb (String.eqb v "")) (at_Values a).

Definition matchesAttr (name friendlyName configured fallback : string) : bool :=
  if negb (String.eqb configured "") then String.eqb name configured || String.eqb friendlyName configured
  else String.eqb name fallback || String.eqb friendlyName fallback.

Definition matches (a : Attribute) (configured fallback : string) : bool :=
  matchesAttr (at_Name a) (at_FriendlyName a) configured fallback.

(** The body of the loop over the attributes. *)
Definition readAttribute (m : AttributeMap) (u : SAMLUser) (a : Attribute) : SAMLUser :=
  match attrValues a with
  | [] => u
  | v :: values =>
      if matches a (am_Email m) "email" then
        {| su_Email := v; su_FirstName := su_FirstName u; su_LastName := su_LastName u; su_Username := su_Username u;
           su_Groups := su_Groups u; su_NameID := su_NameID u |}
      else if matches a (am_FirstName m) "givenName" then
        {| su_Email := su_Email u; su_FirstName := v; su_LastName := su_LastName u; su_Username := su_Username u;
           su_Groups := su_Groups u; su_NameID := su_NameID u |}
      else if matches a (am_LastName m) "sn" then
        {| su_Email := su_Email u; su_FirstName := su_FirstName u; su_LastName := v; su_Username := su_Username u;
           su_Groups := su_Groups u; su_NameID := su_NameID u |}
      else if matches a (am_Username m) "uid" then
        {| su_Email := su_Email u; su_FirstName := su_FirstName u; su_LastName := su_LastName u; su_Username := v;
           su_Groups := su_Groups u; su_NameID := su_NameID u |}
      else if matches a (am_Groups m) "memberOf" then
        {| su_Email := su_Email u; su_FirstName := su_FirstName u; su_LastName := su_LastName u; su_Username := su_Username u;
           su_Groups := v :: values; su_NameID := su_NameID u |}
      else u
  end.

Definition readAttributes (m : AttributeMap) (nameID : string) (l : list (list Attribute)) : SAMLUser :=
  foldl (readAttribute m) {| su_Email := ""; su_FirstName := ""; su_LastName := ""; su_Username := ""; su_Groups := [];
                             su_NameID := nameID |} (concat l).

(** The part before the first "@", or all when there is none or nothing before it. *)
Fixpoint before_at (s : string) : option string :=
  match s with
  | EmptyString => None
  | String c r => if Ascii.eqb c "@" then Some "" else String c <$> before_at r
  end.

Definition localPart (email : string) : string :=
  match before_at email with Some (String c r) => String c r | _ => email end.

(** The fall-backs after the loop. *)
Definition with_fallbacks (u : SAMLUser) : SAMLUser :=
  let email := if String.eqb (su_Email u) "" then su_NameID u else su_Email u in
  {| su_Email := email; su_FirstName := su_FirstName u; su_LastName := su_LastName u;
     su_Username := if String.eqb (su_Username u) "" then localPart email else su_Username u;
     su_Groups := su_Groups u; su_NameID := su_NameID u |}.

Inductive processed :=
| Accepted (u : SAMLUser)
| Rejected
| Panicked.                     (* a subject without a name identifier *)

Definition possibleIDs : list string := [HTTPPostBinding].

Definition ProcessAssertion (sv : ServiceProvider) (now : Z) (response : string) : processed :=
  match sv_sp sv with
  | None => Rejected
  | Some sp =>
      match ParseResponse sp now response possibleIDs with
      | None => Rejected
      | Some a =>
          match as_NameID a with
          | None => Panicked
          | Some nameID =>
              let u := with_fallbacks (readAttributes (sc_AttributeMap (sv_cfg sv)) nameID (as_Statements a)) in
              if String.eqb (su_Email u) "" then Rejected else Accepted u
          end
      end
  end.

(** ** Statements *)

Definition named (now : Z) (first last : string) (x : user) : user := {|
  u_id := u_id x; u_username := u_username x; u_email := u_email x; u_password_hash := u_password_hash x;
  u_first_name := first; u_last_name := last; u_phone := u_phone x; u_is_active := u_is_active x;
  u_is_admin := u_is_admin x; u_mfa_enabled := u_mfa_enabled x; u_created_at := u_created_at x; u_updated_at := now |}.

(** [INSERT ... ON CONFLICT (email) DO UPDATE ... RETURNING id, is_admin]. *)
Definition insert_saml_user (newID : string) (now : Z) (u : SAMLUser) : stmt db (string * bool) := fun d =>
  match byKey u_email (users d) (su_Email u) with
  | Some x => inl ((u_id x, u_is_admin x), set_users d (upd u_email (su_Email u) (named now (su_FirstName u) (su_LastName u)) (users d)))
  | None =>
      if has u_id (users d) newID || has u_username (users d) (su_Username u) then inr (ErrUnique "users")
      else inl ((newID, false), set_users d (users d ++
        [{| u_id := newID; u_username := su_Username u; u_email := su_Email u; u_password_hash := None;
            u_first_name := su_FirstName u; u_last_name := su_LastName u; u_phone := None; u_is_active := true;
            u_is_admin := false; u_mfa_enabled := false; u_created_at := now; u_updated_at := now |}])%list)
  end.

Definition update_names (now : Z) (id first last : string) : stmt db unit := fun d =>
  inl (tt, set_users d (upd u_id id (named now first last) (users d))).

(** ** Endpoints *)

Inductive saml_body :=
| SMetadata (sp : samlSP)
| SFallbackMetadata (entityID acsURL : string) (signed : bool)
| SRedirect (address : string) (params : list (string * string)).

Context {E : Type}.
Let S (A : Type) := H db E A.

Definition panicked : refusal := (500, "").

(** [f i]: the i-th statement fails; any error of the first reads as no user. *)
Definition upsertUser (f : nat -> bool) (now : Z) (newID : string) (u : SAMLUser) : S (string * bool) :=
  let! found := asks (fun d => if f 0%nat then None else byKey u_email (users d) (su_Email u)) in
  match found with
  | None => exec (f 1%nat) (insert_saml_user newID now u) (fun _ => (500, "failed to create user account"))
  | Some x =>
      do! attempt (f 1%nat) (update_names now (u_id x) (su_FirstName u) (su_LastName u)) in
      ret (u_id x, u_is_admin x)
  end.

Definition saml_claims (now : Z) (uid : string) (u : SAMLUser) (isAdmin : bool) : TokenClaims := {|
  UserID := uid; Username := su_Username u; Email := su_Email u; IsAdmin := isAdmin; Roles := []; TokenType := "";
  ExpiresAt := Some (NewNumericDate (now + 24 * hour)); IssuedAt := Some (NewNumericDate now) |}.

(** [form]: the value of SAMLResponse, [None] when the form does not parse. *)
Definition handleACS `{JwtLib} (sv : ServiceProvider) (f : nat -> bool) (now : Z) (newID : string) (form : option string)
  : S (Z * saml_body) :=
  let! _ := the (sv_sp sv) 500 "SAML not configured" in
  let! response := the form 400 "bad request" in
  do! require (negb (String.eqb response "")) 400 "missing SAMLResponse" in
  let! u := match ProcessAssertion sv now response with
            | Accepted u => ret u
            | Rejected => respondError 401 "authentication failed"
            | Panicked => stop panicked
            end in
  let! (userID, isAdmin) := upsertUser f now newID u in
  let! token := match GenerateToken (sc_JWTSecret (sv_cfg sv)) now (saml_claims now userID u isAdmin) with
                | Ok t => ret t
                | Err _ => respondError 500 "failed to create session"
                end in
  respondJSON 302 (SRedirect (sc_BaseURL (sv_cfg sv) ++ "/login")
    [("token", token); ("expires_at", itoa (unix (now + 24 * hour)))]).

Definition handleMetadata (sv : ServiceProvider) : S (Z * saml_body) :=
  match sv_sp sv with
  | Some sp => respondJSON 200 (SMetadata sp)
  | None => respondJSON 200 (SFallbackMetadata (sc_EntityID (sv_cfg sv)) (sc_ACSURL (sv_cfg sv)) (sc_SignRequests (sv_cfg sv)))
  end.

Definition handleLogin (sv : ServiceProvider) (now : Z) : S (Z * saml_body) :=
  let! sp := the (sv_sp sv) 500 "SAML not configured" in
  let! q := the (MakeAuthenticationRequest sp now) 500 "failed to initiate SAML login" in
  let! address := the (rq_Redirect q) 500 "failed to initiate SAML login" in
  respondJSON 302 (SRedirect address []).

Definition name_char (c : ascii) : bool :=
  let n := nat_of_ascii c in
  ((97 <=? n) && (n <=? 122))%nat || ((65 <=? n) && (n <=? 90))%nat || ((48 <=? n) && (n <=? 57))%nat ||
  existsb (Ascii.eqb c) ["@"; "."; "_"; "+"; "-"; "="; "/"]%char.

(** Bytes outside ASCII belong to characters that are not listed. *)
Fixpoint isValidNameID (s : string) : bool :=
  match s with EmptyString => true | String c s => name_char c && isValidNameID s end.

Definition first_location (binding : string) (l : list (string * string)) : option string :=
  snd <$> List.find (fun x => String.eqb x.1 binding) l.

Fixpoint getIDPSLOLocation (l : EntityDescriptor) : string :=
  match l with
  | [] => ""
  | desc :: l =>
      match first_location HTTPRedirectBinding desc with
      | Some loc => loc
      | None => match first_location HTTPPostBinding desc with Some loc => loc | None => getIDPSLOLocation l end
      end
  end.

(** The name the logout is for: the address of a valid token, else a parameter
    of harmless characters. *)
Definition logoutName `{JwtLib} (sv : ServiceProvider) (now : Z) (authorization candidate : string) : string :=
  let nameID := if (7 <? Z.of_nat (String.length authorization))%Z then
                  match cut_prefix authorization "Bearer " with
                  | Some tok => match ValidateToken (sc_JWTSecret (sv_cfg sv)) now tok with Ok c => Email c | Err _ => "" end
                  | None => ""
                  end
                else "" in
  if negb (String.eqb nameID "") then nameID
  else if negb (String.eqb candidate "") && (Z.of_nat (String.length candidate) <=? 256)%Z && isValidNameID candidate then candidate
  else "".

Definition handleLogout `{JwtLib} (sv : ServiceProvider) (now : Z) (authorization candidate : string) : S (Z * saml_body) :=
  let! sp := the (sv_sp sv) 500 "SAML not configured" in
  let nameID := logoutName sv now authorization candidate in
  let local := SRedirect (sc_BaseURL (sv_cfg sv) ++ "/login") [] in
  if String.eqb nameID "" then respondJSON 302 local else
  let sloURL := getIDPSLOLocation (sl_IDPMetadata sp) in
  if String.eqb sloURL "" then respondJSON 302 local else
  match MakeLogoutRequest sp sloURL nameID with
  | None => respondJSON 302 local
  | Some address => respondJSON 302 (SRedirect address [])
  end.
End provider.

(** ** What a login changes *)

(** An account before and after a login: unchanged, or the one of the address
    with other first and last names and another time of change. *)
Definition renamed (email : string) (x y : user) : Prop :=
  y = x \/
  (u_email x = email /\ u_id y = u_id x /\ u_username y = u_username x /\ u_email y = u_email x /\
   u_password_hash y = u_password_hash x /\ u_phone y = u_phone x /\ u_is_active y = u_is_active x /\
   u_is_admin y = u_is_admin x /\ u_mfa_enabled y = u_mfa_enabled x /\ u_created_at y = u_created_at x).

(** Nothing but the names of the account with that address, or one new
    account that is no administrator and has no password. *)
Definition confined (email : string) (d d' : db) : Prop :=
  exists l new, users d' = (l ++ new)%list /\ d' = set_users d (users d') /\ Forall2 (renamed email) (users d) l /\
    (new = [] \/ exists x, new = [x] /\ u_email x = email /\ u_is_admin x = false /\ u_password_hash x = None /\
       email ∉ map u_email (users d)).

Lemma set_users_self d : set_users d (users d) = d.
Proof. by destruct d. Qed.

Lemma set_users_twice d l l' : set_users (set_users d l) l' = set_users d l'.
Proof. done. Qed.

Lemma renamed_refl email l : Forall2 (renamed email) l l.
Proof. induction l; constructor; [by left|done]. Qed.

Lemma same_confined email d : confined email d d.
Proof.
  exists (users d), []. rewrite app_nil_r, set_users_self. split_and!; [done|done|apply renamed_refl|by left].
Qed.

Lemma upd_renamed (key : user -> string) k email now first last l :
  (forall x, x ∈ l -> key x = k -> u_email x = email) ->
  Forall2 (renamed email) l (upd key k (named now first last) l).
Proof.
  intros Hk. unfold upd. induction l as [|x l IH]; cbn; constructor.
  - destruct (String.eqb_spec (key x) k) as [E|E]; [|by left]. right. split; [apply Hk; [by left|done]|by repeat split].
  - apply IH. intros y Hy. apply Hk. by right.
Qed.

Lemma upd_confined (key : user -> string) k email now first last d :
  (forall x, x ∈ users d -> key x = k -> u_email x = email) ->
  confined email d (set_users d (upd key k (named now first last) (users d))).
Proof.
  intros Hk. exists (upd key k (named now first last) (users d)), []. rewrite app_nil_r.
  split_and!; [done|done|by apply upd_renamed|by left].
Qed.

Lemma upd_named_integrity (key : user -> string) k now first last d : integrity d ->
  integrity (set_users d (upd key k (named now first last) (users d))).
Proof.
  intros Hi. pose proof (column_upd key u_id k (named now first last) (users d) (fun _ => eq_refl)) as E1.
  pose proof (column_upd key u_username k (named now first last) (users d) (fun _ => eq_refl)) as E2.
  pose proof (column_upd key u_email k (named now first last) (users d) (fun _ => eq_refl)) as E3.
  destruct Hi. split; cbn; rewrite ?E1, ?E2, ?E3; done.
Qed.

Lemma insert_saml_user_integrity newID now u : stmt_preserves integrity (insert_saml_user newID now u).
Proof.
  intros d a d' Hi. unfold insert_saml_user. destruct (byKey _ _ _) as [x|] eqn:E.
  - intros [= <- <-]. by apply upd_named_integrity.
  - destruct (_ || _) eqn:Eh; [done|]. intros [= <- <-]. apply orb_false_iff in Eh as [E1%has_false E2%has_false].
    apply byKey_None in E. keep_integrity Hi.
Qed.

Section logins.
Context `{SamlLib} {E : Type}.

(** What [upsertUser] leaves: the account with the address of the assertion,
    whose identifier and rights it returns. *)
Lemma upsertUser_wp f now newID u d (Hi : integrity d) :
  wp (S := db) (E := E) (upsertUser f now newID u)
    (fun r d' es => es = [] /\ integrity d' /\ confined (su_Email u) d d' /\
       exists x, x ∈ users d' /\ u_email x = su_Email u /\ r = (u_id x, u_is_admin x) /\
         (forall y, y ∈ users d -> u_email y = su_Email u -> u_id y = u_id x /\ u_is_admin y = u_is_admin x))
    (fun _ d' es => es = [] /\ d' = d) d.
Proof.
  unfold upsertUser. apply wp_bind, wp_asks.
  assert (forall x, byKey u_email (users d) (su_Email u) = Some x -> x ∈ users d /\ u_email x = su_Email u) as Hby by apply byKey_Some.
  assert (forall x, x ∈ users d -> u_email x = su_Email u ->
    forall y, y ∈ users d -> u_email y = su_Email u -> u_id y = u_id x /\ u_is_admin y = u_is_admin x) as Hone.
  { intros x Hx Ex y Hy Ey. assert (y = x) as -> by (eapply (NoDup_map_inj u_email); [apply Hi|done|done|congruence]). done. }
  destruct (if f 0%nat then None else byKey u_email (users d) (su_Email u)) as [x|] eqn:Ef.
  - assert (byKey u_email (users d) (su_Email u) = Some x) as Hx by (by destruct (f 0%nat)). apply Hby in Hx as [Hin Hx].
    apply wp_bind, wp_attempt. destruct (f 1%nat).
    + apply wp_ret. split_and!; [done|done|apply same_confined|]. exists x. split_and!; try done. by apply Hone.
    + cbn [update_names]. apply wp_ret. split_and!; [done|by apply upd_named_integrity| |].
      * apply upd_confined. intros y Hy Ey. assert (y = x) as -> by (eapply (NoDup_map_inj u_id); [apply Hi|done..]). done.
      * exists (named now (su_FirstName u) (su_LastName u) x). split_and!; try done; [|exact (Hone x Hin ltac:(done))].
        apply elem_of_upd. right. by exists x.
  - apply wp_exec. destruct (f 1%nat); [done|]. pose proof (insert_saml_user_integrity newID now u d) as Hint.
    unfold insert_saml_user in *. destruct (byKey u_email (users d) (su_Email u)) as [x|] eqn:Hx.
    + specialize (Hint _ _ Hi eq_refl). destruct (Hby x eq_refl) as [Hin Ex]. split_and!; [done|done|apply upd_confined; done|].
      exists (named now (su_FirstName u) (su_LastName u) x). split_and!; try done; [|exact (Hone x Hin ltac:(done))].
      apply elem_of_upd. right. by exists x.
    + destruct (_ || _); [done|]. specialize (Hint _ _ Hi eq_refl). apply byKey_None in Hx. split_and!; [done|done| |].
      * exists (users d). eexists. split_and!; [reflexivity|done|apply renamed_refl|]. right. eexists. split_and!; done.
      * eexists. split_and!; [cbn; apply elem_of_app; right; by left|done|done|]. intros y Hy Ey. destruct Hx.
        rewrite <- Ey. change (map u_email (users d)) with (u_email <$> users d). by apply list_elem_of_fmap_2.
Qed.

Context `{JwtLib}.

Definition redirectTo (sv : ServiceProvider) (now : Z) (token : string) : saml_body :=
  SRedirect (sc_BaseURL (sv_cfg sv) ++ "/login") [("token", token); ("expires_at", itoa (unix (now + 24 * hour)))].

Lemma handleACS_wp sv f now newID form d (Hi : integrity d) :
  wp (S := db) (E := E) (handleACS sv f now newID form)
    (fun b d' es => es = [] /\ integrity d' /\ exists response u x token,
       form = Some response /\ ProcessAssertion sv now response = Accepted u /\ confined (su_Email u) d d' /\
       x ∈ users d' /\ u_email x = su_Email u /\
       (forall y, y ∈ users d -> u_email y = su_Email u -> u_id y = u_id x /\ u_is_admin y = u_is_admin x) /\
       GenerateToken (sc_JWTSecret (sv_cfg sv)) now (saml_claims now (u_id x) u (u_is_admin x)) = Ok token /\
       b = (302, redirectTo sv now token))
    (fun _ d' es => es = [] /\ integrity d' /\ exists email, confined email d d') d.
Proof.
  unfold handleACS. apply wp_bind, wp_the. destruct (sv_sp sv) as [sp|].
  2:{ split_and!; [done|done|exists ""; apply same_confined]. }
  apply wp_bind, wp_the. destruct form as [response|].
  2:{ split_and!; [done|done|exists ""; apply same_confined]. }
  apply wp_bind, wp_require. destruct (negb _).
  2:{ split_and!; [done|done|exists ""; apply same_confined]. }
  apply wp_bind. destruct (ProcessAssertion sv now response) as [u| |] eqn:Hp.
  2,3: split_and!; [done|done|exists ""; apply same_confined].
  apply wp_ret. apply wp_bind. eapply wp_mono; [| |apply (upsertUser_wp f now newID u d Hi)].
  - intros r d' es (-> & Hi' & Hc & x & Hx & Ex & -> & Hy). cbn [fst snd]. apply wp_bind.
    destruct (GenerateToken _ now _) as [token|e] eqn:Ht.
    + apply wp_ret. split_and!; [done|done|]. exists response, u, x, token. split_and!; done.
    + cbn. split_and!; [done|done|eauto].
  - intros r d' es [-> ->]. split_and!; [done|done|exists ""; apply same_confined].
Qed.

(** A token comes out of the assertion endpoint only for a response the
    library accepted, and is one of the account whose address the assertion
    gives: until its expiry the middleware lets it through with the identifier
    and the rights of that account.  If an account had that address before, it
    is that one, with the identifier and rights it had; if not, it is a new one
    without rights. *)
Theorem saml_login_sound sv f now newID form d st b d' es (Hi : integrity d)
    (Hrun : run (S := db) (E := E) (handleACS sv f now newID form) d = (Reply st b, d', es)) :
  exists sp response a u x token,
    form = Some response /\ sv_sp sv = Some sp /\ ParseResponse sp now response possibleIDs = Some a /\
    ProcessAssertion sv now response = Accepted u /\ x ∈ users d' /\ u_email x = su_Email u /\
    st = 302 /\ b = redirectTo sv now token /\
    ((exists y, y ∈ users d /\ u_email y = su_Email u /\ u_id y = u_id x /\ u_is_admin y = u_is_admin x) \/
     ((su_Email u ∉ map u_email (users d)) /\ u_is_admin x = false)) /\
    forall HashToken bl later, (later <= now + 24 * hour - second)%Z -> bl !! HashToken token = None ->
      exists claims, JWTMiddleware HashToken (sc_JWTSecret (sv_cfg sv)) (Some (true, bl)) later ("Bearer " ++ token) = Next claims /\
        UserID claims = u_id x /\ IsAdmin claims = u_is_admin x.
Proof.
  pose proof (run_Reply _ _ _ _ _ _ _ Hrun (wp_mono _ _ _ _ _ _ (fun _ _ _ X => X) (fun _ _ _ _ => I)
    (handleACS_wp sv f now newID form d Hi))) as (_ & _ & response & u & x & token & -> & Hp & Hc & Hx & Ex & Hy & Ht & [= -> ->]).
  pose proof Hp as Hp'. unfold ProcessAssertion in Hp'. destruct (sv_sp sv) as [sp|] eqn:Hsp; [|done].
  destruct (ParseResponse sp now response possibleIDs) as [a|] eqn:Ha; [|done].
  exists sp, response, a, u, x, token. split_and!; try done.
  - destruct Hc as (l & new & Hl & _ & Hall & Hnew). rewrite Hl in Hx. apply elem_of_app in Hx as [Hx|Hx].
    + left. apply list_elem_of_lookup in Hx as [i Hx]. eapply Forall2_lookup_r in Hall as (y & Hyl & Hr); [|exact Hx].
      apply list_elem_of_lookup_2 in Hyl. exists y. destruct Hr as [->|Hr]; [done|].
      destruct Hr as (Ey & Eid & _ & _ & _ & _ & _ & Ead & _). done.
    + right. destruct Hnew as [->|(z & -> & _ & Hz & _ & Hno)]; [by apply elem_of_nil in Hx|].
      apply list_elem_of_singleton in Hx as ->. auto.
  - intros HashToken bl later Hl Hbl.
    exists (issued now (saml_claims now (u_id x) u (u_is_admin x))). split; [|done]. unfold JWTMiddleware.
    change (String.eqb ("Bearer " ++ token) "") with false. cbv iota. rewrite cut_prefix_app.
    rewrite (GenerateToken_valid (sc_JWTSecret (sv_cfg sv)) now _ token later _ Ht eq_refl).
    2:{ cbn. pose proof (NewNumericDate_bound (now + 24 * hour)). lia. }
    cbn [TokenType issued with_times saml_claims]. change (String.eqb "" "mfa") with false. cbv iota.
    unfold IsBlacklisted. rewrite Hbl. by rewrite bool_decide_eq_false_2 by (by intros [? ?]).
Qed.

(** C15. Whatever is posted to the assertion endpoint, whatever the SAML
    library makes of it and whatever statement fails, the tables stay
    consistent and only the users table changes; there is one address such that
    every account keeps all its columns, except that the one with this address
    may get other first and last names and a new time of change; and at most one
    account is new, with this address, which nobody had, without password and no
    administrator.  Nobody is notified. *)
Theorem saml_confined sv f now newID form d (Hi : integrity d) :
  let '(_, d', es) := run (S := db) (E := E) (handleACS sv f now newID form) d in
  es = [] /\ integrity d' /\ exists email, confined email d d'.
Proof.
  destruct (run _ d) as [[r d'] es] eqn:Hrun.
  eapply (run_wp _ _ _ _ _ (fun _ d' es => es = [] /\ integrity d' /\ exists email, confined email d d') Hrun).
  eapply wp_mono; [| |apply (handleACS_wp sv f now newID form d Hi)].
  - intros a s es' (-> & Hi' & _ & u & _ & _ & _ & _ & Hc & _). eauto.
  - intros a s es' (-> & Hi' & email & Hc). eauto.
Qed.
End logins.

(** ** Attributes *)

(** Where an attribute gives the address: the first value that is not empty. *)
Definition emailOf (m : AttributeMap) (a : Attribute) : option string :=
  if matches a (am_Email m) "email" then head (attrValues a) else None.

Lemma readAttribute_email m u a : su_Email (readAttribute m u a) = default (su_Email u) (emailOf m a).
Proof.
  unfold readAttribute, emailOf. destruct (attrValues a) as [|v vs]; cbn [head]; [by destruct (matches _ _ _)|].
  destruct (matches a (am_Email m) "email"); [done|]. by repeat destruct (matches a _ _).
Qed.

Lemma readAttribute_nameID m u a : su_NameID (readAttribute m u a) = su_NameID u.
Proof. unfold readAttribute. destruct (attrValues a); [done|]. by repeat destruct (matches a _ _). Qed.

Lemma foldl_email m l : forall u,
  su_Email (foldl (readAttribute m) u l) = default (su_Email u) (last (omap (emailOf m) l)) /\
  su_NameID (foldl (readAttribute m) u l) = su_NameID u.
Proof.
  induction l as [|a l IH]; intros u; cbn [foldl omap list_omap]; [done|].
  destruct (IH (readAttribute m u a)) as [-> ->]. rewrite readAttribute_nameID. split; [|done]. rewrite readAttribute_email.
  destruct (emailOf m a) as [v|]; [|done]. cbn [default]. rewrite last_cons. by destruct (last (omap (emailOf m) l)).
Qed.

Lemma emailOf_nonempty m a v : emailOf m a = Some v -> v <> "".
Proof.
  unfold emailOf. destruct (matches a _ _); [|done]. unfold attrValues. intros Hh.
  assert (v ∈ List.filter (fun v => negb (String.eqb v "")) (at_Values a)) as Hin.
  { destruct (List.filter _ _) as [|w ws]; [done|]. injection Hh as ->. by left. }
  apply list_elem_of_In, filter_In in Hin as [_ Hn]. by apply negb_true_iff, String.eqb_neq in Hn.
Qed.

(** The address a login is for is that of the last attribute that gives one,
    or else the name identifier; it is never empty, and nothing else of the
    assertion decides which account is meant. *)
Theorem ProcessAssertion_email `{SamlLib} sv now response u (Hp : ProcessAssertion sv now response = Accepted u) :
  exists sp a nameID, sv_sp sv = Some sp /\ ParseResponse sp now response possibleIDs = Some a /\ as_NameID a = Some nameID /\
    su_NameID u = nameID /\ su_Email u <> "" /\
    su_Email u = default nameID (last (omap (emailOf (sc_AttributeMap (sv_cfg sv))) (concat (as_Statements a)))).
Proof.
  unfold ProcessAssertion in Hp. destruct (sv_sp sv) as [sp|]; [|done].
  destruct (ParseResponse sp now response possibleIDs) as [a|] eqn:Ha; [|done]. destruct (as_NameID a) as [nameID|] eqn:Hn; [|done].
  destruct (String.eqb (su_Email (with_fallbacks _)) "") eqn:He; [done|]. injection Hp as <-. exists sp, a, nameID.
  set (m := sc_AttributeMap (sv_cfg sv)) in *. unfold readAttributes in *.
  set (u0 := {| su_Email := "" |}) in *. destruct (foldl_email m (concat (as_Statements a)) u0) as [E1 E2].
  split_and!; [done|done|done| |by apply String.eqb_neq|]; cbn [with_fallbacks su_NameID su_Email] in *.
  - by rewrite E2.
  - rewrite E1, E2. cbn [su_Email su_NameID u0]. destruct (last (omap (emailOf m) (concat (as_Statements a)))) as [v|] eqn:El; [|done].
    cbn -[String.eqb]. apply last_Some_elem_of, list_elem_of_omap in El as (x & _ & Hx%emailOf_nonempty).
    by apply String.eqb_neq in Hx as ->.
Qed.

(** ** Logout *)

Lemma isValidNameID_chars s : isValidNameID s = true <-> forall i c, String.get i s = Some c -> name_char c = true.
Proof.
  induction s as [|c s IH]; cbn [isValidNameID]; [by split|]. rewrite andb_true_iff, IH. split.
  - intros [Hc Hs] [|i] x; cbn; [by intros [= <-]|apply Hs].
  - intros Hall. split; [by apply (Hall 0%nat)|]. intros i x Hx. by apply (Hall (S i)).
Qed.

(** The characters XML and HTML give a meaning. *)
Definition markup : list ascii := ["<"; ">"; "&"; "034"; "'"; "000"; "009"; "010"; "013"; " "]%char.

Lemma name_char_plain c : name_char c = true -> c ∉ markup.
Proof.
  unfold markup. rewrite !elem_of_cons, elem_of_nil. intros Hc Hin.
  repeat destruct Hin as [->|Hin]; try discriminate Hc. done.
Qed.

(** A logout changes nothing, and the name it gives the identity provider is
    the address in a valid token or, failing that, a parameter of at most 256
    characters none of which is markup. *)
Theorem logout_name_safe `{SamlLib} `{JwtLib} {E} sv now authorization candidate d :
  (let '(_, d', es) := run (S := db) (E := E) (handleLogout sv now authorization candidate) d in d' = d /\ es = []) /\
  (logoutName sv now authorization candidate = "" \/
   (exists tok c, authorization = "Bearer " ++ tok /\ ValidateToken (sc_JWTSecret (sv_cfg sv)) now tok = Ok c /\
      logoutName sv now authorization candidate = Email c) \/
   (logoutName sv now authorization candidate = candidate /\ (Z.of_nat (String.length candidate) <= 256)%Z /\
      forall i c, String.get i candidate = Some c -> c ∉ markup)).
Proof.
  split.
  - unfold run, handleLogout, bind, the. destruct (sv_sp sv) as [sp|]; [|done]. cbn -[logoutName getIDPSLOLocation].
    destruct (String.eqb _ ""); [done|]. destruct (String.eqb _ ""); [done|]. by destruct (MakeLogoutRequest _ _ _).
  - unfold logoutName. set (name := if (7 <? _)%Z then _ else _).
    assert (name = "" \/ exists tok c, authorization = "Bearer " ++ tok /\ ValidateToken (sc_JWTSecret (sv_cfg sv)) now tok = Ok c /\ name = Email c)
      as Hname.
    { unfold name. destruct (7 <? _)%Z; [|by left]. destruct (cut_prefix authorization "Bearer ") as [tok|] eqn:Hc; [|by left].
      destruct (ValidateToken _ now tok) as [c|] eqn:Hv; [|by left]. right. exists tok, c. split_and!; [|done|done].
      by apply cut_prefix_Some in Hc. }
    destruct (String.eqb_spec name "") as [E0|E0]; cbn [negb]; [|destruct Hname as [?|Hname]; [done|auto]].
    destruct (negb (String.eqb candidate "") && _ && _) eqn:Hb; [|by left]. right. right.
    rewrite !andb_true_iff in Hb. destruct Hb as [[_ Hl%Z.leb_le] Hv]. split_and!; [done|done|].
    intros i c Hi. eapply name_char_plain. by eapply isValidNameID_chars.
Qed.

(** ** Runs *)

(** A library that accepts every response to an expected request and finds in
    it one assertion. *)
Program Definition toy_saml (a : Assertion) : SamlLib := {|
  url_Parse := fun u => Some ("https", u); LoadX509KeyPair := fun c k => Some (c ++ k); ParseCertificate := fun _ => true;
  FetchMetadata := fun _ => Some []; ParseMetadata := fun _ => Some [];
  MakeAuthenticationRequest := fun sp now => Some {| rq_ID := "id-" ++ itoa now; rq_Redirect := Some "https://idp/sso" |};
  MakeLogoutRequest := fun sp url name => Some (url ++ "?" ++ name);
  ParseResponse := fun sp now r ids => if sl_AllowIDPInitiated sp || bool_decide (r ∈ ids) then Some a else None;
  InResponseTo := fun r => r |}.
Next Obligation.
  intros a sp now r ids a'. cbn. destruct (sl_AllowIDPInitiated sp); [by left|]. cbn.
  case_bool_decide; [by right|done].
Qed.
Next Obligation. intros a sp now q [= <-]. by eexists. Qed.

(** How the core mounts the endpoints: with no mapping, no base address and no
    logins started by the provider. *)
Definition core_config (idpInitiated : bool) : Config := {|
  sc_EntityID := "https://vpn/saml"; sc_ACSURL := "https://vpn/saml/acs"; sc_IDPMetadataURL := "https://idp/meta"; sc_IDPMetadata := "";
  sc_CertFile := "cert"; sc_KeyFile := "key"; sc_SignRequests := false; sc_AllowIDPInitiated := idpInitiated;
  sc_AttributeMap := no_attributes; sc_JWTSecret := "k"; sc_BaseURL := "" |}.

Definition claim (name v : string) : Attribute := {| at_Name := name; at_FriendlyName := ""; at_Values := [""; v] |}.

Definition about_ann : Assertion := {|
  as_NameID := Some "x1"; as_Statements := [[claim "urn:oid:0.9.2342.19200300.100.1.3" "ann"]; [claim "givenName" "Ann"; claim "uid" "root"]] |}.

(** Ann is disabled and has a second factor. *)
Definition ann_off : user := {|
  u_id := "ann"; u_username := "ann"; u_email := "ann"; u_password_hash := None; u_first_name := ""; u_last_name := "";
  u_phone := None; u_is_active := false; u_is_admin := true; u_mfa_enabled := true; u_created_at := 0; u_updated_at := 0 |}.

Definition saml_db : db := set_users demo_db [ann_off; mkUser "bob" true].

Lemma saml_db_ok : integrity saml_db.
Proof. pose proof Groups.demo_integrity as Hi. destruct Hi. split; done. Qed.

Definition posted (a : Assertion) (idpInitiated : bool) (response : string) : reply saml_body * db * list unit :=
  let lib := toy_saml a in
  run (@handleACS lib unit clear_jwt (@NewServiceProvider lib (core_config idpInitiated)) (fun _ => false) 5 "new" (Some response)) saml_db.

Lemma saml_login_sound_witness : exists token,
  (posted about_ann true "r").1.1 = Reply 302 (SRedirect "https://https://vpn/saml/acs/login" [("token", token); ("expires_at", itoa (unix (5 + 24 * hour)))]).
Proof.
  destruct (posted about_ann true "r") as [[[st b|st b] d'] es] eqn:Hrun; [|vm_compute in Hrun; discriminate Hrun].
  destruct (@saml_login_sound (toy_saml about_ann) unit clear_jwt _ _ _ _ _ _ st b d' es saml_db_ok Hrun)
    as (sp & response & a & u & x & token & _ & _ & _ & _ & _ & _ & -> & -> & _).
  exists token. reflexivity.
Defined.

Lemma saml_confined_witness : (posted about_ann true "r").2 = [] /\ integrity (posted about_ann true "r").1.2.
Proof.
  pose proof (@saml_confined (toy_saml about_ann) unit clear_jwt (@NewServiceProvider (toy_saml about_ann) (core_config true))
    (fun _ => false) 5 "new" (Some "r") saml_db saml_db_ok) as Hc.
  unfold posted. cbv zeta. destruct (run _ saml_db) as [[r d'] es]. destruct Hc as (-> & Hi & _). done.
Defined.

(** ** Where the code falls short *)

(** The identifiers of the requests made are not kept, and the one identifier
    given to the library is the name of a binding: a response to a request of
    this provider is refused, so a login that starts here never ends. *)
Theorem login_never_completes `{SamlLib} `{JwtLib} {E} cfg f t now newID response d q sp :
  sc_AllowIDPInitiated cfg = false -> sv_sp (NewServiceProvider cfg) = Some sp ->
  MakeAuthenticationRequest sp t = Some q -> InResponseTo response = rq_ID q -> response <> "" ->
  run (S := db) (E := E) (handleACS (NewServiceProvider cfg) f now newID (Some response)) d =
    (Failure 401 "authentication failed", d, []).
Proof.
  intros Hidp Hsp Hq Hto Hne. unfold run, handleACS. rewrite Hsp. unfold bind at 1, the at 1. cbn -[ProcessAssertion].
  unfold bind at 1. cbn -[ProcessAssertion]. apply String.eqb_neq in Hne as ->. unfold bind at 1. cbn -[ProcessAssertion].
  assert (ProcessAssertion (NewServiceProvider cfg) now response = Rejected) as ->; [|done].
  unfold ProcessAssertion. rewrite Hsp. destruct (ParseResponse sp now response possibleIDs) as [a|] eqn:Hp; [|done].
  apply ParseResponse_request in Hp as [Hp|Hp].
  - exfalso. unfold NewServiceProvider in Hsp. cbn [sv_sp] in Hsp. revert Hp. unfold initSAMLSP in Hsp.
    repeat case_match; try discriminate Hsp; injection Hsp as <-; cbn; by rewrite Hidp.
  - exfalso. apply list_elem_of_singleton in Hp. destruct (request_ID _ _ _ Hq) as [r Hr]. rewrite Hto, Hr in Hp. discriminate Hp.
Qed.

(** A disabled account with a second factor gets a session without either
    being asked about, and its token carries the login name of the assertion,
    here that of another account. *)
Lemma disabled_account_enters : exists token,
  (posted about_ann true "r").1.1 = Reply 302 (SRedirect "https://https://vpn/saml/acs/login" [("token", token); ("expires_at", itoa 86400)]) /\
  exists c, @ValidateToken clear_jwt "k" 6 token = Ok c /\ UserID c = "ann" /\ IsAdmin c = true /\ Username c = "root".
Proof. eexists. split; [vm_compute; reflexivity|]. eexists. split; [vm_compute; reflexivity|]. done. Qed.

(** The default mapping replaces the fall-back names: an attribute "email" is
    not read, and the name identifier is taken for the address. *)
Lemma email_attribute_ignored :
  @ProcessAssertion (toy_saml {| as_NameID := Some "x1"; as_Statements := [[claim "email" "ann"]] |})
    (@NewServiceProvider (toy_saml about_ann) (core_config true)) 5 "r" =
  Accepted {| su_Email := "x1"; su_FirstName := ""; su_LastName := ""; su_Username := "x1"; su_Groups := []; su_NameID := "x1" |}.
Proof. vm_compute. reflexivity. Qed.

(** A new user whose login name is in use cannot enter. *)
Lemma username_clash_refused :
  (posted {| as_NameID := Some "ann@other"; as_Statements := [] |} true "r").1.1 = Failure 500 "failed to create user account".
Proof. vm_compute. reflexivity. Qed.
