(* ===== verification/Tenants.v ===== *)
(** * Tenants

    [internal/tenant]: the tenants with their plans and limits, the assignment
    of users, networks and gateways to them, the statistics, and the middleware
    that finds the tenant of a request.  The nullable columns [tenant_id] are
    maps from row identifiers.  Requests reach the endpoints behind
    [auth.RequireAdmin].  [pg_uuid] is how PostgreSQL reads an identifier. *)

From S2P Require Import Prelude Net Schema Auth Http Tables.
From Stdlib Require Import ZArith Lia Ascii String.
From stdpp Require Import base gmap strings list sorting.
Import Token Middleware.

Local Open Scope Z_scope.
Local Open Scope string_scope.
Local Open Scope outpost_scope.

(** ** State *)

Record Tenant := {
  tn_ID : string;
  tn_Name : string;
  tn_Slug : string;
  tn_Plan : string;
  tn_MaxUsers : Z;
  tn_MaxDevices : Z;
  tn_MaxNetworks : Z;
  tn_IsActive : bool;
  tn_CreatedAt : Z;
  tn_UpdatedAt : Z;
}.

(** The tables with a column [tenant_id]. *)
Inductive resource := RUser | RNetwork | RGateway.
#[export] Instance resource_eq : EqDecision resource. Proof. solve_decision. Defined.

Record tenant_state := {
  t_base : db;
  tenants : list Tenant;
  owner : resource -> gmap string string;
}.

Definition with_tenants (s : tenant_state) (l : list Tenant) : tenant_state := {|
  t_base := t_base s; tenants := l; owner := owner s |}.

Definition with_owner (s : tenant_state) (r : resource) (m : gmap string string) : tenant_state := {|
  t_base := t_base s; tenants := tenants s; owner := fun r' => if decide (r' = r) then m else owner s r' |}.

Definition ids (r : resource) (d : db) : list string :=
  match r with RUser => map u_id (users d) | RNetwork => map n_id (networks d) | RGateway => map g_id (gateways d) end.

(** [updated_at = now()]. *)
Definition touch_user (t : Z) (x : user) : user := {|
  u_id := u_id x; u_username := u_username x; u_email := u_email x; u_password_hash := u_password_hash x;
  u_first_name := u_first_name x; u_last_name := u_last_name x; u_phone := u_phone x; u_is_active := u_is_active x;
  u_is_admin := u_is_admin x; u_mfa_enabled := u_mfa_enabled x; u_created_at := u_created_at x; u_updated_at := t |}.

Definition touch_network (t : Z) (x : network) : network := {|
  n_id := n_id x; n_name := n_name x; n_address := n_address x; n_tunnel_cidr := n_tunnel_cidr x; n_dns := n_dns x;
  n_port := n_port x; n_keepalive := n_keepalive x; n_is_active := n_is_active x; n_created_at := n_created_at x; n_updated_at := t |}.

Definition touch_gateway (t : Z) (x : gateway) : gateway := {|
  g_id := g_id x; g_network_id := g_network_id x; g_name := g_name x; g_public_ip := g_public_ip x; g_pubkey := g_pubkey x;
  g_privkey := g_privkey x; g_endpoint := g_endpoint x; g_is_active := g_is_active x; g_priority := g_priority x;
  g_token_hash := g_token_hash x; g_last_seen := g_last_seen x; g_health_status := g_health_status x;
  g_consecutive_failures := g_consecutive_failures x; g_created_at := g_created_at x; g_updated_at := t |}.

Definition touch (r : resource) (t : Z) (id : string) (d : db) : db :=
  match r with
  | RUser => set_users d (upd u_id id (touch_user t) (users d))
  | RNetwork => set_networks d (upd n_id id (touch_network t) (networks d))
  | RGateway => set_gateways d (upd g_id id (touch_gateway t) (gateways d))
  end.

(** ** Statements *)

(** The range of an INTEGER column. *)
Definition int4 (z : Z) : bool := ((- 2 ^ 31 <=? z) && (z <? 2 ^ 31))%Z.

Definition limits_fit (t : Tenant) : bool := int4 (tn_MaxUsers t) && int4 (tn_MaxDevices t) && int4 (tn_MaxNetworks t).

Definition insert_tenant (t : Tenant) : stmt tenant_state unit := fun s =>
  if negb (limits_fit t) then inr ErrOther
  else if has tn_ID (tenants s) (tn_ID t) then inr (ErrUnique "tenants_pkey")
  else if has tn_Slug (tenants s) (tn_Slug t) then inr (ErrUnique "tenants_slug_key")
  else inl (tt, with_tenants s (tenants s ++ [t])).

(** [t] with the new values; the row keeps its creation time. *)
Definition replaced (t : Tenant) (now : Z) (x : Tenant) : Tenant := {|
  tn_ID := tn_ID x; tn_Name := tn_Name t; tn_Slug := tn_Slug t; tn_Plan := tn_Plan t; tn_MaxUsers := tn_MaxUsers t;
  tn_MaxDevices := tn_MaxDevices t; tn_MaxNetworks := tn_MaxNetworks t; tn_IsActive := tn_IsActive t;
  tn_CreatedAt := tn_CreatedAt x; tn_UpdatedAt := now |}.

Definition update_tenant (t : Tenant) (now : Z) : stmt tenant_state nat := fun s =>
  if negb (limits_fit t) then inr ErrOther
  else if negb (has tn_ID (tenants s) (tn_ID t)) then inl (0%nat, s)
  else if clash tn_ID (Some ∘ tn_Slug) (tenants s) (tn_ID t) (Some (tn_Slug t)) then inr (ErrUnique "tenants_slug_key")
  else inl (1%nat, with_tenants s (upd tn_ID (tn_ID t) (replaced t now) (tenants s))).

(** [ON DELETE SET NULL] in the three tables. *)
Definition delete_tenant (id : string) : stmt tenant_state nat := fun s =>
  inl (rowsWith tn_ID (tenants s) id,
       {| t_base := t_base s; tenants := without tn_ID (tenants s) id;
          owner := fun r => filter (fun kv => kv.2 <> id) (owner s r) |}).

Section tenants.
Context (pg_uuid : string -> option string).

Abbreviation T := (H tenant_state Empty_set).

(** [UPDATE .. SET tenant_id = $1, updated_at = now() WHERE id = $2]. *)
Definition set_tenant (r : resource) (now : Z) (tenant id : string) : stmt tenant_state nat := fun s =>
  match pg_uuid tenant, pg_uuid id with
  | Some t, Some i =>
      if negb (bool_decide (i ∈ ids r (t_base s))) then inl (0%nat, s)
      else if negb (has tn_ID (tenants s) t) then inr ErrForeignKey
      else inl (1%nat, with_owner {| t_base := touch r now i (t_base s); tenants := tenants s; owner := owner s |} r
                         (<[i := t]> (owner s r)))
  | _, _ => inr ErrBadText
  end.

(** [UPDATE .. SET tenant_id = NULL, updated_at = now() WHERE id = $1]. *)
Definition unset_tenant (r : resource) (now : Z) (id : string) : stmt tenant_state nat := fun s =>
  match pg_uuid id with
  | Some i =>
      if negb (bool_decide (i ∈ ids r (t_base s))) then inl (0%nat, s)
      else inl (1%nat, with_owner {| t_base := touch r now i (t_base s); tenants := tenants s; owner := owner s |} r
                         (delete i (owner s r)))
  | None => inr ErrBadText
  end.

(** ** Manager

    [e] is the caller's answer to an error. *)

Record tcall := {
  tfails : nat -> bool; tnow : Z; tid : string;
  tread : option nat   (* rows read before the iteration fails *) }.
Implicit Types (c : tcall) (e : refusal).

Definition Create c (t : Tenant) (onerr : sql_error -> refusal) : T Tenant :=
  let t := {| tn_ID := if String.eqb (tn_ID t) "" then tid c else tn_ID t; tn_Name := tn_Name t; tn_Slug := tn_Slug t;
    tn_Plan := tn_Plan t; tn_MaxUsers := tn_MaxUsers t; tn_MaxDevices := tn_MaxDevices t; tn_MaxNetworks := tn_MaxNetworks t;
    tn_IsActive := tn_IsActive t; tn_CreatedAt := tnow c; tn_UpdatedAt := tnow c |} in
  do! exec (tfails c 0) (insert_tenant t) onerr in
  ret t.

Definition tenantRow (raw : string) (s : tenant_state) : option Tenant :=
  id ← pg_uuid raw; byKey tn_ID (tenants s) id.

Definition Get (fails : bool) (id : string) e : T Tenant :=
  let! row := query fails (tenantRow id) e.1 e.2 in the row e.1 e.2.

Definition GetBySlug (fails : bool) (slug : string) e : T Tenant :=
  let! row := query fails (fun s => byKey tn_Slug (tenants s) slug) e.1 e.2 in the row e.1 e.2.

Definition newerBy {A} (created : A -> Z) (a b : A) : Prop := (created b <= created a)%Z.
#[local] Instance newerBy_dec {A} (created : A -> Z) : RelDecision (newerBy created) := fun a b => Z_le_dec _ _.

(** [ORDER BY created_at DESC]; the query, a scan and the iteration can fail. *)
Definition List_ c e : T (list Tenant) :=
  let! l := query (tfails c 0) (fun s => merge_sort (newerBy tn_CreatedAt) (tenants s)) e.1 e.2 in
  do! require (match l with [] => true | _ => negb (tfails c 1) end) e.1 e.2 in
  do! require (negb (tfails c 2)) e.1 e.2 in
  ret l.

Definition Update (fails : bool) c (t : Tenant) e : T unit :=
  do! exec fails (affected (update_tenant t (tnow c))) (fun _ => e) in
  ret tt.

Definition Delete (fails : bool) (id : string) e : T unit :=
  let! i := the (pg_uuid id) e.1 e.2 in
  do! exec fails (affected (delete_tenant i)) (fun _ => e) in
  ret tt.

(** ** Endpoints *)

Record createTenantRequest := {
  ct_Name : string; ct_Slug : string; ct_Plan : string; ct_MaxUsers : Z; ct_MaxDevices : Z; ct_MaxNetworks : Z }.

Record updateTenantRequest := {
  ut_Name : option string; ut_Slug : option string; ut_Plan : option string; ut_MaxUsers : option Z;
  ut_MaxDevices : option Z; ut_MaxNetworks : option Z; ut_IsActive : option bool }.

Definition validPlan (p : string) : bool := String.eqb p "free" || String.eqb p "pro" || String.eqb p "enterprise".

(** A limit of zero is the default of the plan. *)
Definition planDefault (plan : string) (given free pro enterprise : Z) : Z :=
  if (given =? 0)%Z then
    if String.eqb plan "free" then free else if String.eqb plan "pro" then pro
    else if String.eqb plan "enterprise" then enterprise else given
  else given.

Definition newTenant (req : createTenantRequest) : Tenant :=
  let plan := if String.eqb (ct_Plan req) "" then "free" else ct_Plan req in {|
  tn_ID := ""; tn_Name := ct_Name req; tn_Slug := ct_Slug req; tn_Plan := plan;
  tn_MaxUsers := planDefault plan (ct_MaxUsers req) 10 100 10000;
  tn_MaxDevices := planDefault plan (ct_MaxDevices req) 20 500 50000;
  tn_MaxNetworks := planDefault plan (ct_MaxNetworks req) 2 20 200;
  tn_IsActive := true; tn_CreatedAt := 0; tn_UpdatedAt := 0 |}.

Record tenantStats := { ts_TenantID : string; ts_UserCount : Z; ts_DeviceCount : Z; ts_NetworkCount : Z; ts_GatewayCount : Z }.

Record user_row := {
  ur_ID : string; ur_Username : string; ur_Email : string; ur_FirstName : string; ur_LastName : string; ur_Role : string;
  ur_IsActive : bool; ur_CreatedAt : Z }.
Record network_row := { nr_ID : string; nr_Name : string; nr_CIDR : cidr; nr_DNS : list string; nr_IsActive : bool; nr_CreatedAt : Z }.
Record gateway_row := { wr_ID : string; wr_Name : string; wr_Endpoint : string; wr_HealthStatus : string; wr_IsOnline : bool; wr_CreatedAt : Z }.

Inductive tenant_body :=
| BTenants (l : list Tenant)
| BTenant (t : Tenant)
| BStats (s : tenantStats)
| BUsers (l : list user_row)
| BNetworks (l : list network_row)
| BGateways (l : list gateway_row)
| BDone (status : string)
| BNone.

Definition list_tenants c : T (Z * tenant_body) :=
  let! l := List_ c (500, "failed to list tenants") in
  respondJSON 200 (BTenants l).

(** [body] is the decoded request or the text of the decoding error. *)
Definition parseBody {A} (body : result A) : T A :=
  match body with Ok a => ret a | Err m => respondError 400 m end.

Definition create_tenant c (body : result createTenantRequest) : T (Z * tenant_body) :=
  let! req := parseBody body in
  do! require (negb (String.eqb (ct_Name req) "")) 400 "name is required" in
  do! require (negb (String.eqb (ct_Slug req) "")) 400 "slug is required" in
  let t := newTenant req in
  do! require (validPlan (tn_Plan t)) 400 "plan must be free, pro, or enterprise" in
  let! created := Create c t (fun err => match err with
      | ErrUnique k => (409, if strings_Contains k "name" then "tenant with this name already exists"
                             else "tenant with this slug already exists")
      | _ => (500, "failed to create tenant") end) in
  respondJSON 201 (BTenant created).

Definition requireID (id : string) : T unit := require (negb (String.eqb id "")) 400 "id is required".

Definition get_tenant c (id : string) : T (Z * tenant_body) :=
  do! requireID id in
  let! t := Get (tfails c 0) id (404, "tenant not found") in
  respondJSON 200 (BTenant t).

Definition patched (req : updateTenantRequest) (t : Tenant) : Tenant := {|
  tn_ID := tn_ID t; tn_Name := default (tn_Name t) (ut_Name req); tn_Slug := default (tn_Slug t) (ut_Slug req);
  tn_Plan := default (tn_Plan t) (ut_Plan req); tn_MaxUsers := default (tn_MaxUsers t) (ut_MaxUsers req);
  tn_MaxDevices := default (tn_MaxDevices t) (ut_MaxDevices req); tn_MaxNetworks := default (tn_MaxNetworks t) (ut_MaxNetworks req);
  tn_IsActive := default (tn_IsActive t) (ut_IsActive req); tn_CreatedAt := tn_CreatedAt t; tn_UpdatedAt := tn_UpdatedAt t |}.

Definition update_tenant_endpoint c (id : string) (body : result updateTenantRequest) : T (Z * tenant_body) :=
  do! requireID id in
  let! req := parseBody body in
  do! require (match ut_Plan req with Some p => validPlan p | None => true end) 400 "plan must be free, pro, or enterprise" in
  let! existing := Get (tfails c 0) id (404, "tenant not found") in
  do! Update (tfails c 1) c (patched req existing) (500, "failed to update tenant") in
  let! updated := Get (tfails c 2) id (500, "failed to fetch updated tenant") in
  respondJSON 200 (BTenant updated).

Definition set_active (b : bool) (t : Tenant) : Tenant := {|
  tn_ID := tn_ID t; tn_Name := tn_Name t; tn_Slug := tn_Slug t; tn_Plan := tn_Plan t; tn_MaxUsers := tn_MaxUsers t;
  tn_MaxDevices := tn_MaxDevices t; tn_MaxNetworks := tn_MaxNetworks t; tn_IsActive := b; tn_CreatedAt := tn_CreatedAt t;
  tn_UpdatedAt := tn_UpdatedAt t |}.

Definition deactivate c (id : string) : T (Z * tenant_body) :=
  do! requireID id in
  let! existing := Get (tfails c 0) id (404, "tenant not found") in
  do! Update (tfails c 1) c (set_active false existing) (500, "failed to deactivate tenant") in
  respondJSON 204 BNone.

(** The rows of a table that have this tenant. *)
Definition ownedBy (s : tenant_state) (r : resource) (raw id : string) : bool :=
  match pg_uuid raw with Some t => bool_decide (owner s r !! id = Some t) | None => false end.

Definition tenantUsers (raw : string) (s : tenant_state) : list user :=
  List.filter (fun u => ownedBy s RUser raw (u_id u)) (users (t_base s)).
Definition tenantNetworks (raw : string) (s : tenant_state) : list network :=
  List.filter (fun n => ownedBy s RNetwork raw (n_id n)) (networks (t_base s)).
Definition tenantGateways (raw : string) (s : tenant_state) : list gateway :=
  List.filter (fun g => ownedBy s RGateway raw (g_id g)) (gateways (t_base s)).
Definition tenantDevices (raw : string) (s : tenant_state) : list device :=
  List.filter (fun d => existsb (fun u => String.eqb (u_id u) (d_user_id d)) (tenantUsers raw s)) (devices (t_base s)).

Definition count {A} (fails : bool) (f : tenant_state -> list A) : T Z :=
  query fails (fun s => Z.of_nat (length (f s))) 500 "failed to load stats".

Definition stats c (id : string) : T (Z * tenant_body) :=
  do! requireID id in
  do! Get (tfails c 0) id (404, "tenant not found") in
  let! us := count (tfails c 1) (tenantUsers id) in
  let! ds := count (tfails c 2) (tenantDevices id) in
  let! ns := count (tfails c 3) (tenantNetworks id) in
  let! gs := count (tfails c 4) (tenantGateways id) in
  respondJSON 200 (BStats {| ts_TenantID := id; ts_UserCount := us; ts_DeviceCount := ds; ts_NetworkCount := ns; ts_GatewayCount := gs |}).

(** A query of rows, newest first; an identifier that is no [uuid] fails it.  The
    error of the iteration is not looked at: the rows up to it are answered. *)
Definition listed {A} c (id : string) (created : A -> Z) (f : tenant_state -> list A) (queryMsg scanMsg : string) : T (list A) :=
  do! the (pg_uuid id) 500 queryMsg in
  let! l := query (tfails c 0) (fun s => merge_sort (newerBy created) (f s)) 500 queryMsg in
  do! require (match l with [] => true | _ => negb (tfails c 1) end) 500 scanMsg in
  ret (match tread c with Some k => take k l | None => l end).

Definition listUsers c (id : string) : T (Z * tenant_body) :=
  let! l := listed c id u_created_at (tenantUsers id) "failed to query users" "failed to scan user" in
  respondJSON 200 (BUsers (map (fun u => {| ur_ID := u_id u; ur_Username := u_username u; ur_Email := u_email u;
    ur_FirstName := u_first_name u; ur_LastName := u_last_name u; ur_Role := if u_is_admin u then "admin" else "user";
    ur_IsActive := u_is_active u; ur_CreatedAt := u_created_at u |}) l)).

Definition listNetworks c (id : string) : T (Z * tenant_body) :=
  let! l := listed c id n_created_at (tenantNetworks id) "failed to query networks" "failed to scan network" in
  respondJSON 200 (BNetworks (map (fun n => {| nr_ID := n_id n; nr_Name := n_name n; nr_CIDR := n_address n; nr_DNS := n_dns n;
    nr_IsActive := n_is_active n; nr_CreatedAt := n_created_at n |}) l)).

(** Online: seen within two minutes. *)
Definition isOnline (now : Z) (g : gateway) : bool :=
  match g_last_seen g with Some t => (now - 120 * second <? t)%Z | None => false end.

Definition listGateways c (id : string) : T (Z * tenant_body) :=
  let! l := listed c id g_created_at (tenantGateways id) "failed to query gateways" "failed to scan gateway" in
  respondJSON 200 (BGateways (map (fun g => {| wr_ID := g_id g; wr_Name := g_name g; wr_Endpoint := g_endpoint g;
    wr_HealthStatus := g_health_status g; wr_IsOnline := isOnline (tnow c) g; wr_CreatedAt := g_created_at g |}) l)).

Definition assign_resource (r : resource) c (what tenantID id : string) : T (Z * tenant_body) :=
  do! deleting (tfails c 0) (set_tenant r (tnow c) tenantID id) ("failed to assign " ++ what) (what ++ " not found") in
  respondJSON 200 (BDone "assigned").

Definition unassign_resource (r : resource) c (what id : string) : T (Z * tenant_body) :=
  do! deleting (tfails c 0) (unset_tenant r (tnow c) id) ("failed to unassign " ++ what) (what ++ " not found") in
  respondJSON 200 (BDone "unassigned").

Definition assignUser c : string -> string -> T (Z * tenant_body) := assign_resource RUser c "user".
Definition unassignUser c : string -> T (Z * tenant_body) := unassign_resource RUser c "user".
Definition assignNetwork c : string -> string -> T (Z * tenant_body) := assign_resource RNetwork c "network".
Definition unassignNetwork c : string -> T (Z * tenant_body) := unassign_resource RNetwork c "network".
Definition assignGateway c : string -> string -> T (Z * tenant_body) := assign_resource RGateway c "gateway".
Definition unassignGateway c : string -> T (Z * tenant_body) := unassign_resource RGateway c "gateway".

Inductive tenant_request :=
| TList | TCreate (body : result createTenantRequest) | TGet (id : string)
| TUpdate (id : string) (body : result updateTenantRequest) | TDeactivate (id : string) | TStats (id : string)
| TListUsers (id : string) | TListNetworks (id : string) | TListGateways (id : string)
| TAssign (r : resource) (tenant id : string) | TUnassign (r : resource) (tenant id : string).

(** [Routes]: every endpoint is behind [RequireAdmin]. *)
Definition tenant_serve c (claims : option TokenClaims) (r : tenant_request) : T (Z * tenant_body) :=
  match RequireAdmin claims with
  | Reject st m => respondError st m
  | Next _ =>
      match r with
      | TList => list_tenants c
      | TCreate b => create_tenant c b
      | TGet id => get_tenant c id
      | TUpdate id b => update_tenant_endpoint c id b
      | TDeactivate id => deactivate c id
      | TStats id => stats c id
      | TListUsers id => listUsers c id
      | TListNetworks id => listNetworks c id
      | TListGateways id => listGateways c id
      | TAssign RUser t id => assignUser c t id
      | TAssign RNetwork t id => assignNetwork c t id
      | TAssign RGateway t id => assignGateway c t id
      | TUnassign RUser _ id => unassignUser c id
      | TUnassign RNetwork _ id => unassignNetwork c id
      | TUnassign RGateway _ id => unassignGateway c id
      end
  end.

(** ** The middleware *)

(** [strings.LastIndex(host, ":")]: the text before it. *)
Definition stripPort (host : string) : string :=
  match split_on ":" host with
  | [] | [_] => host
  | parts => strings_join ":" (removelast parts)
  end.

Definition extractSubdomain (host : string) : string :=
  match split_on "." (stripPort host) with
  | a :: _ :: _ :: _ => a
  | _ => ""
  end.

(** The tenant in the context of the next handler, or a refusal. *)
Definition TenantMiddleware (fails : bool) (header host : string) : T (option Tenant) :=
  let notFound := (404, "tenant not found") in
  let! t := (if negb (String.eqb header "") then let! t := Get fails header notFound in ret (Some t)
             else let slug := extractSubdomain host in
                  if negb (String.eqb slug "") then let! t := GetBySlug fails slug notFound in ret (Some t) else ret None) in
  match t with
  | Some t => do! require (tn_IsActive t) 403 "tenant is disabled" in ret (Some t)
  | None => ret None
  end.

(** ** Invariant *)

Record tenant_wf (s : tenant_state) : Prop := {
  tw_ids : NoDup (map tn_ID (tenants s));
  tw_slugs : NoDup (map tn_Slug (tenants s));
  tw_plans : Forall (fun t => validPlan (tn_Plan t) = true) (tenants s);
  tw_limits : Forall (fun t => limits_fit t = true) (tenants s);
  tw_owner : forall r id t, owner s r !! id = Some t -> id ∈ ids r (t_base s) /\ t ∈ map tn_ID (tenants s);
}.

Lemma touch_ids r r' t id d : ids r' (touch r t id d) = ids r' d.
Proof.
  destruct r, r'; try done; cbn [touch ids set_users set_networks set_gateways users networks gateways];
    apply upd_keys; by intros [].
Qed.

Lemma set_tenant_wf r now t id : stmt_preserves tenant_wf (set_tenant r now t id).
Proof.
  intros s n s' Hs. unfold set_tenant. destruct (pg_uuid t) as [t'|]; [|done]. destruct (pg_uuid id) as [i|]; [|done].
  case_bool_decide as Hi; [|by intros [= <- <-]]. destruct (has tn_ID _ _) eqn:Ht; [|done]. apply has_true in Ht.
  intros [= <- <-]. destruct Hs. constructor; try done. intros r' k v. cbn [owner with_owner t_base tenants]. rewrite touch_ids.
  case_decide as Er; [|apply tw_owner0]. subst r'. destruct (decide (k = i)) as [->|Hne].
  - rewrite lookup_insert_eq. by intros [= <-].
  - rewrite lookup_insert_ne by done. apply tw_owner0.
Qed.

Lemma unset_tenant_wf r now id : stmt_preserves tenant_wf (unset_tenant r now id).
Proof.
  intros s n s' Hs. unfold unset_tenant. destruct (pg_uuid id) as [i|]; [|done].
  case_bool_decide as Hi; intros [= <- <-]; [|done]. destruct Hs. constructor; try done.
  intros r' k v. cbn [owner with_owner t_base tenants]. rewrite touch_ids.
  case_decide as Er; [|apply tw_owner0]. subst r'. intros [_ Hk]%lookup_delete_Some. by apply tw_owner0.
Qed.

Lemma delete_tenant_wf id : stmt_preserves tenant_wf (delete_tenant id).
Proof.
  intros s n s' [] [= <- <-]. constructor; cbn.
  - by apply unique_filter.
  - by apply unique_filter.
  - by apply Forall_list_filter.
  - by apply Forall_list_filter.
  - intros r k t [Hk Ht]%map_lookup_filter_Some. cbn in Ht. destruct (tw_owner0 _ _ _ Hk) as [? Hin]. split; [done|].
    apply list_elem_of_fmap in Hin as (x & -> & Hx). apply list_elem_of_fmap. exists x. split; [done|].
    by apply elem_of_without.
Qed.

Lemma insert_tenant_wf t : validPlan (tn_Plan t) = true -> stmt_preserves tenant_wf (insert_tenant t).
Proof.
  intros Hp s [] s' Hs. unfold insert_tenant. destruct (limits_fit t) eqn:El; [|done]. cbn [negb].
  destruct (has tn_ID _ _) eqn:Ei; [done|]. destruct (has tn_Slug _ _) eqn:Esl; [done|]. apply has_false in Ei, Esl.
  intros [= <-]. destruct Hs. constructor; cbn.
  - by apply unique_insert.
  - by apply unique_insert.
  - by apply Forall_snoc_row.
  - by apply Forall_snoc_row.
  - intros r k v Hk. destruct (tw_owner0 _ _ _ Hk) as [? ?]. split; [done|]. rewrite map_app. set_solver.
Qed.

Lemma update_tenant_wf t now : validPlan (tn_Plan t) = true -> stmt_preserves tenant_wf (update_tenant t now).
Proof.
  intros Hp s n s' Hs. unfold update_tenant. destruct (limits_fit t) eqn:El; [|done]. cbn [negb].
  destruct (has tn_ID _ _) eqn:Ei; cbn [negb]; [|by intros [= <- <-]].
  destruct (clash _ _ _ _ _) eqn:Ec; [done|]. intros [= <- <-]. destruct Hs.
  assert (map tn_ID (upd tn_ID (tn_ID t) (replaced t now) (tenants s)) = map tn_ID (tenants s)) as E by by apply upd_keys.
  constructor; cbn.
  - by rewrite E.
  - apply unique_upd_plain; try done.
  - by apply Forall_upd.
  - by apply Forall_upd.
  - intros r k v Hk. rewrite E. by apply tw_owner0.
Qed.

Lemma Get_row fails id e s :
  wp (Get fails id e) (fun t s' es => s' = s /\ es = [] /\ tenantRow id s = Some t) (fun r s' es => s' = s /\ es = []) s.
Proof.
  unfold Get. apply wp_bind, wp_query. destruct fails; [done|]. apply wp_the. by destruct (tenantRow id s).
Qed.

Lemma pure_Get fails id e : pure (Get fails id e).
Proof. intros s. eapply wp_mono; [| |apply Get_row]; naive_solver. Qed.

Lemma tenantRow_elem id s t : tenantRow id s = Some t -> t ∈ tenants s /\ pg_uuid id = Some (tn_ID t).
Proof.
  unfold tenantRow. intros (i & Hi & Ht)%bind_Some. apply byKey_Some in Ht as [? <-]. done.
Qed.

(** An update of a tenant read before keeps the invariant. *)
Lemma Update_after_Get fails1 fails2 id c e1 e2 f {B} (k : unit -> T B) s :
  tenant_wf s -> (forall t, t ∈ tenants s -> validPlan (tn_Plan (f t)) = true) ->
  (forall u, preserves tenant_wf (k u)) ->
  wp (let! t := Get fails1 id e1 in let! u := Update fails2 c (f t) e2 in k u)
     (fun _ s' _ => tenant_wf s') (fun _ s' _ => tenant_wf s') s.
Proof.
  intros Hs Hf Hk. apply wp_bind. eapply wp_mono; [| |apply Get_row]; [|by intros ? ? ? [-> _]].
  intros t s1 es (-> & -> & [Ht _]%tenantRow_elem). unfold Update.
  eapply (preserves_bind tenant_wf); [|exact Hk|exact Hs].
  apply preserves_bind; [|intros; apply preserves_ret]. apply preserves_exec, affected_preserves, update_tenant_wf. by apply Hf.
Qed.

Lemma update_endpoint_wf c id body : preserves tenant_wf (update_tenant_endpoint c id body).
Proof.
  intros s Hs. unfold update_tenant_endpoint, requireID, parseBody. apply wp_bind, wp_require. destruct (negb _); [|done].
  apply wp_bind. destruct body as [req|m]; [|done]. apply wp_ret, wp_bind, wp_require.
  destruct (match ut_Plan req with Some p => validPlan p | None => true end) eqn:Ep; [|done].
  eapply wp_mono; [| |apply (Update_after_Get (tfails c 0) (tfails c 1) id c _ _ (patched req)); [exact Hs| |]]; [done..| |].
  - intros t Ht. cbn. destruct (ut_Plan req); [done|]. by apply (proj1 (Forall_forall _ _) (tw_plans s Hs)).
  - intros u. apply preserves_bind; [|intros; apply preserves_ret].
    intros s1 Hs1. eapply wp_mono; [| |apply pure_Get]; by intros ? ? ? [-> _].
Qed.

Lemma deactivate_wf c id : preserves tenant_wf (deactivate c id).
Proof.
  intros s Hs. unfold deactivate, requireID. apply wp_bind, wp_require. destruct (negb _); [|done].
  apply (Update_after_Get (tfails c 0) (tfails c 1) id c _ _ (set_active false)); [exact Hs| |intros; apply preserves_ret].
  intros t Ht. exact (proj1 (Forall_forall _ _) (tw_plans s Hs) t Ht).
Qed.

Lemma create_tenant_wf c body : preserves tenant_wf (create_tenant c body).
Proof.
  unfold create_tenant, parseBody, Create. destruct body as [req|m]; [|intros s Hs; exact Hs].
  invariant_steps; by apply insert_tenant_wf.
Qed.

Lemma pure_listed {A} c id (created : A -> Z) f q sc : pure (listed c id created f q sc).
Proof.
  unfold listed. repeat (apply pure_bind; [|intros ?]);
    first [apply pure_the | apply pure_query | apply pure_require | apply pure_ret].
Qed.

(** The tenant tables stay consistent.  Whatever is asked of the tenant
    endpoints and whatever fails, identifiers and slugs are unique, plans are
    known, limits fit their columns, and every assignment joins a row and a
    tenant that exist; and only an administrator changes anything. *)
Theorem tenants_stay_wf c claims r s (Hs : tenant_wf s) :
  let '(reply, s', _) := run (tenant_serve c claims r) s in
  tenant_wf s' /\ (s' = s \/ exists cl, claims = Some cl /\ IsAdmin cl = true).
Proof.
  assert (preserves tenant_wf (tenant_serve c claims r)) as Hp.
  { unfold tenant_serve. destruct (RequireAdmin claims); [intros s1 Hs1; exact Hs1|].
    assert (forall A (m : T A), pure m -> preserves tenant_wf m) as Hpure.
    { intros A m Hm s1 Hs1. eapply wp_mono; [| |apply (Hm s1)]; by intros ? ? ? [-> _]. }
    assert (forall r what t id, preserves tenant_wf (assign_resource r c what t id)) as Ha.
    { intros. apply preserves_bind; [apply preserves_deleting, set_tenant_wf|intros; apply preserves_ret]. }
    assert (forall r what id, preserves tenant_wf (unassign_resource r c what id)) as Hu.
    { intros. apply preserves_bind; [apply preserves_deleting, unset_tenant_wf|intros; apply preserves_ret]. }
    destruct r as [|b|id|id b|id|id|id|id|id|[] t id|[] t id];
      first [apply create_tenant_wf | apply update_endpoint_wf | apply deactivate_wf | apply Ha | apply Hu | apply Hpure].
    - unfold list_tenants, List_. repeat (apply pure_bind; [|intros ?]); first [apply pure_query | apply pure_require | apply pure_ret].
    - unfold get_tenant. repeat (apply pure_bind; [|intros ?]); first [apply pure_require | apply pure_query | apply pure_the | apply pure_ret].
    - unfold stats, count. repeat (apply pure_bind; [|intros ?]); first [apply pure_require | apply pure_query | apply pure_the | apply pure_ret].
    - apply pure_bind; [apply pure_listed|intros; apply pure_ret].
    - apply pure_bind; [apply pure_listed|intros; apply pure_ret].
    - apply pure_bind; [apply pure_listed|intros; apply pure_ret]. }
  pose proof (preserves_run tenant_wf _ s Hp Hs) as Hw. destruct (run _ s) as [[reply s'] es] eqn:Hrun. split; [exact Hw|].
  destruct claims as [cl|]; [destruct (IsAdmin cl) eqn:Ea; [right; eauto|]|]; left;
    unfold tenant_serve, RequireAdmin in Hrun; rewrite ?Ea in Hrun; by injection Hrun as <- <- <-.
Qed.

(** ** Assignment *)

Definition has_tenant (s : tenant_state) (r : resource) (id : string) : option string := owner s r !! id.

(** An assignment moves exactly one row.  After an accepted assignment the
    row belongs to that tenant, which exists, and every other row of every
    table belongs to whom it did. *)
Theorem assign_exact r c what tenant id s st b s' es
    (Hrun : run (assign_resource r c what tenant id) s = (Reply st b, s', es)) :
  exists t i, pg_uuid tenant = Some t /\ pg_uuid id = Some i /\ i ∈ ids r (t_base s) /\ t ∈ map tn_ID (tenants s) /\
    has_tenant s' r i = Some t /\ tenants s' = tenants s /\
    forall r' k, (r', k) <> (r, i) -> has_tenant s' r' k = has_tenant s r' k.
Proof.
  refine (run_Reply _ _ _ _ _ _ (fun _ s' _ => exists t i, pg_uuid tenant = Some t /\ pg_uuid id = Some i /\
    i ∈ ids r (t_base s) /\ t ∈ map tn_ID (tenants s) /\ has_tenant s' r i = Some t /\ tenants s' = tenants s /\
    forall r' k, (r', k) <> (r, i) -> has_tenant s' r' k = has_tenant s r' k) Hrun _).
  unfold assign_resource, deleting. apply wp_bind, wp_exec. destruct (tfails c 0); [done|]. unfold affected, set_tenant.
  destruct (pg_uuid tenant) as [t|]; [|done]. destruct (pg_uuid id) as [i|]; [|done]. case_bool_decide as Hi; [|done].
  destruct (has tn_ID _ _) eqn:Ht; [|done]. apply has_true in Ht. cbn. exists t, i. split_and!; try done; unfold has_tenant; cbn.
  - rewrite decide_True by done. by rewrite lookup_insert_eq.
  - intros r' k Hne. case_decide as Er; [|done]. subst r'. rewrite lookup_insert_ne; [done|]. congruence.
Qed.

(** ** Statistics *)

Lemma existsb_map_row {A B} (f : B -> bool) (g : A -> B) l : existsb f (map g l) = existsb (fun x => f (g x)) l.
Proof. induction l as [|x l IH]; [done|]. cbn. by rewrite IH. Qed.

Lemma existsb_perm {A} (f : A -> bool) l l' : l ≡ₚ l' -> existsb f l = existsb f l'.
Proof.
  induction 1 as [|x l l' _ IH|x y l|l1 l2 l3 _ IH1 _ IH2]; cbn; [done|by rewrite IH| |congruence].
  by destruct (f x), (f y).
Qed.

(** The statistics count what the lists show: when nothing fails, the
    numbers of users, networks and gateways of a tenant are the lengths of the
    lists the other endpoints answer for it, and the devices are those of the
    users listed. *)
Theorem stats_match_lists c id s st b s' es
    (Hok : forall k, tfails c k = false) (Hread : tread c = None)
    (Hrun : run (stats c id) s = (Reply st (BStats b), s', es)) :
  exists us ns gs, s' = s /\
    run (listUsers c id) s = (Reply 200 (BUsers us), s, []) /\
    run (listNetworks c id) s = (Reply 200 (BNetworks ns), s, []) /\
    run (listGateways c id) s = (Reply 200 (BGateways gs), s, []) /\
    ts_UserCount b = Z.of_nat (length us) /\ ts_NetworkCount b = Z.of_nat (length ns) /\
    ts_GatewayCount b = Z.of_nat (length gs) /\
    ts_DeviceCount b = Z.of_nat (length (List.filter (fun d => existsb (fun u => String.eqb (ur_ID u) (d_user_id d)) us) (devices (t_base s)))).
Proof.
  assert (exists t, tenantRow id s = Some t /\ s' = s /\ b = {| ts_TenantID := id; ts_UserCount := Z.of_nat (length (tenantUsers id s));
    ts_DeviceCount := Z.of_nat (length (tenantDevices id s)); ts_NetworkCount := Z.of_nat (length (tenantNetworks id s));
    ts_GatewayCount := Z.of_nat (length (tenantGateways id s)) |}) as (t & [_ Hid]%tenantRow_elem & -> & ->).
  { revert Hrun. unfold stats, requireID, Get, count, run, bind, require, query, the. rewrite !Hok.
    destruct (negb _); [|done]. cbn. destruct (tenantRow id s) as [t|]; [|done]. cbn. intros [= _ <- <- _]. eauto. }
  assert (forall A (created : A -> Z) f q sc, listed c id created f q sc s = (inl (merge_sort (newerBy created) (f s)), s, [])) as Hl.
  { intros. unfold listed, bind, the, query, require, ret. rewrite Hid, !Hok, Hread. cbn. by destruct (merge_sort _ _). }
  eexists _, _, _. split; [done|]. unfold run, listUsers, listNetworks, listGateways, bind. rewrite !Hl. cbn.
  split; [done|]. split; [done|]. split; [done|]. rewrite !length_map, !merge_sort_Permutation. split_and!; try done.
  f_equal. f_equal. apply List.filter_ext. intros d. unfold tenantDevices. cbn.
  rewrite existsb_map_row. symmetry. apply existsb_perm, merge_sort_Permutation.
Qed.

(** ** The tenant of a request *)

Definition label (s : string) : Prop := no_char "." s = true /\ no_char ":" s = true.

Lemma join_no_colon l : Forall label l -> no_char ":" (strings_join "." l) = true.
Proof.
  induction 1 as [|x l [_ Hx] Hl IH]; [done|]. destruct l as [|y l]; [done|].
  change (strings_join "." (x :: y :: l)) with (x ++ "." ++ strings_join "." (y :: l)). by rewrite !no_char_app, Hx, IH.
Qed.

Lemma stripPort_bare h : no_char ":" h = true -> stripPort h = h.
Proof. intros Hh. unfold stripPort. by rewrite split_on_no_char. Qed.

Lemma stripPort_port h p : no_char ":" h = true -> no_char ":" p = true -> stripPort (h ++ ":" ++ p) = h.
Proof.
  intros Hh Hp. unfold stripPort. rewrite append_cons, append_nil, split_on_app, (split_on_no_char _ p) by done. done.
Qed.

(** The tenant of a request is the first label of its host.  For a host of
    at least three labels, with or without a port, the middleware passes the
    request exactly when there is an active tenant with the first label as its
    slug, and the request carries that tenant; a host of fewer labels passes
    without one. *)
Theorem tenant_by_host labels port s (Hne : labels <> []) (Hl : Forall label labels) (Hp : no_char ":" port = true)
    (Hfirst : forall a l, labels = a :: l -> a <> "") host
    (Hhost : host = strings_join "." labels \/ host = (strings_join "." labels ++ ":" ++ port)%string) :
  match labels with
  | slug :: _ :: _ :: _ =>
      forall o, (TenantMiddleware false "" host s).1.1 = inl o <->
        exists t, o = Some t /\ byKey tn_Slug (tenants s) slug = Some t /\ tn_IsActive t = true
  | _ => TenantMiddleware false "" host s = (inl None, s, [])
  end.
Proof.
  assert (stripPort host = strings_join "." labels) as Estrip.
  { destruct Hhost as [-> | ->]; [apply stripPort_bare|apply stripPort_port]; auto using join_no_colon. }
  assert (split_on "." (stripPort host) = labels) as Esplit.
  { rewrite Estrip. apply split_on_join; [done|]. eapply Forall_impl; [exact Hl|]. by intros x [? _]. }
  assert (extractSubdomain host = match labels with a :: _ :: _ :: _ => a | _ => "" end) as Esub
    by (unfold extractSubdomain; by rewrite Esplit).
  destruct labels as [|slug [|x [|y l]]]; [done|unfold TenantMiddleware; by rewrite Esub..|].
  intros o. unfold TenantMiddleware. cbn [negb String.eqb]. rewrite Esub.
  rewrite (proj2 (String.eqb_neq slug "")) by by eapply Hfirst. cbn [negb].
  unfold GetBySlug, bind, query, the, ret, require, respondError, stop.
  destruct (byKey tn_Slug (tenants s) slug) as [t|]; cbn.
  - destruct (tn_IsActive t) eqn:Ea; cbn; split.
    + intros [= <-]. eauto.
    + by intros (t' & -> & [= ->] & _).
    + done.
    + intros (t' & _ & [= ->] & Ha). congruence.
  - split; [done|]. by intros (t' & _ & [=] & _).
Qed.
End tenants.

(** ** Running the endpoints *)

Definition tcall0 : tcall := {| tfails := fun _ => false; tnow := 9; tid := "t9"; tread := None |}.

Definition acme_tenant : Tenant := {|
  tn_ID := "t1"; tn_Name := "Acme"; tn_Slug := "acme"; tn_Plan := "free"; tn_MaxUsers := 1; tn_MaxDevices := 20;
  tn_MaxNetworks := 2; tn_IsActive := true; tn_CreatedAt := 0; tn_UpdatedAt := 0 |}.

Definition tenant_user (id : string) : user := {|
  u_id := id; u_username := id; u_email := id ++ "@x"; u_password_hash := None; u_first_name := ""; u_last_name := ""; u_phone := None;
  u_is_active := true; u_is_admin := false; u_mfa_enabled := false; u_created_at := 0; u_updated_at := 0 |}.

Definition tenant0 : tenant_state := {|
  t_base := {| users := [tenant_user "u1"; tenant_user "u2"]; devices := []; networks := []; gateways := []; gateway_networks := [];
    groups := []; user_groups := []; network_acls := []; device_posture := []; device_trust_scores := []; trust_auto := None;
    ztna_policies := []; smart_routes := []; smart_route_entries := []; network_smart_routes := []; roles := []; user_roles := []; logins := [] |};
  tenants := [acme_tenant]; owner := fun r => match r with RUser => {[ "u1" := "t1" ]} | _ => ∅ end |}.

Lemma tenant0_wf : tenant_wf tenant0.
Proof.
  constructor; cbn; try (repeat constructor; set_solver).
  intros [] id t; cbn; [|by rewrite lookup_empty..]. intros [<- <-]%lookup_singleton_Some. set_solver.
Qed.

Definition boss : TokenClaims := {|
  UserID := "u9"; Username := "boss"; Email := "b@x"; IsAdmin := true; Roles := []; TokenType := ""; ExpiresAt := None; IssuedAt := None |}.

Definition assigned : tenant_state := (run (tenant_serve Some tcall0 (Some boss) (TAssign RUser "t1" "u2")) tenant0).1.2.

Lemma tenants_stay_wf_witness : tenant_wf assigned.
Proof. apply (tenants_stay_wf Some tcall0 (Some boss) (TAssign RUser "t1" "u2") tenant0 tenant0_wf). Defined.

Lemma assign_exact_witness :
  has_tenant assigned RUser "u2" = Some "t1" /\ has_tenant assigned RUser "u1" = has_tenant tenant0 RUser "u1".
Proof.
  destruct (assign_exact Some RUser tcall0 "user" "t1" "u2" tenant0 200 (BDone "assigned") assigned [])
    as (t & i & [= <-] & [= <-] & _ & _ & Ht & _ & Hrest); [vm_compute; reflexivity|].
  split; [exact Ht|]. apply Hrest. discriminate.
Defined.

Lemma stats_match_lists_witness :
  exists us, run (listUsers Some tcall0 "t1") assigned = (Reply 200 (BUsers us), assigned, []) /\ 2 = Z.of_nat (length us).
Proof.
  destruct (stats_match_lists Some tcall0 "t1" assigned 200
    {| ts_TenantID := "t1"; ts_UserCount := 2; ts_DeviceCount := 0; ts_NetworkCount := 0; ts_GatewayCount := 0 |} assigned [])
    as (us & ns & gs & _ & Hu & _ & _ & Hn & _).
  - reflexivity.
  - reflexivity.
  - vm_compute. reflexivity.
  - exists us. split; [exact Hu|exact Hn].
Defined.

Lemma tenant_by_host_witness :
  (TenantMiddleware Some false "" "acme.vpn.example.com:8443" tenant0).1.1 = inl (Some acme_tenant).
Proof.
  refine (proj2 (tenant_by_host Some ["acme"; "vpn"; "example"; "com"] "8443" tenant0 _ _ _ _ "acme.vpn.example.com:8443" _ _) _).
  - discriminate.
  - repeat constructor.
  - reflexivity.
  - intros a l [= <- _]. discriminate.
  - right. reflexivity.
  - exists acme_tenant. auto.
Defined.

(** ** Where the code falls short *)

(** The limits of a plan are stored and shown, but nothing compares with them:
    a tenant with room for one user gets a second one. *)
Theorem limits_not_enforced :
  tn_MaxUsers acme_tenant = 1 /\ length (tenantUsers Some "t1" assigned) = 2%nat.
Proof. vm_compute. auto. Qed.

(** An update accepts the empty name and slug and negative limits that a
    creation refuses or replaces. *)
Theorem update_unchecked :
  let req := {| ut_Name := Some ""; ut_Slug := Some ""; ut_Plan := None; ut_MaxUsers := Some (-5); ut_MaxDevices := None;
                ut_MaxNetworks := None; ut_IsActive := None |} in
  let '(r, s', _) := run (tenant_serve Some tcall0 (Some boss) (TUpdate "t1" (Ok req))) tenant0 in
  reply_status r = 200 /\ map (fun t => (tn_Name t, tn_Slug t, tn_MaxUsers t)) (tenants s') = [("", "", -5)].
Proof. vm_compute. auto. Qed.

(** A slug in use is answered 409 at creation and 500 at an update. *)
Theorem update_conflict_is_500 :
  let other := {| tn_ID := "t2"; tn_Name := "B"; tn_Slug := "b"; tn_Plan := "pro"; tn_MaxUsers := 1; tn_MaxDevices := 1;
                  tn_MaxNetworks := 1; tn_IsActive := true; tn_CreatedAt := 0; tn_UpdatedAt := 0 |} in
  let s := with_tenants tenant0 [acme_tenant; other] in
  let req := {| ut_Name := None; ut_Slug := Some "acme"; ut_Plan := None; ut_MaxUsers := None; ut_MaxDevices := None;
                ut_MaxNetworks := None; ut_IsActive := None |} in
  (run (tenant_serve Some tcall0 (Some boss) (TUpdate "t2" (Ok req))) s).1.1 = Failure 500 "failed to update tenant" /\
  (run (tenant_serve Some tcall0 (Some boss) (TCreate (Ok {| ct_Name := "C"; ct_Slug := "acme"; ct_Plan := ""; ct_MaxUsers := 0;
    ct_MaxDevices := 0; ct_MaxNetworks := 0 |}))) s).1.1 = Failure 409 "tenant with this slug already exists".
Proof. vm_compute. auto. Qed.

(** The tenant in the path of an unassignment is ignored. *)
Theorem unassign_any_tenant :
  has_tenant (run (tenant_serve Some tcall0 (Some boss) (TUnassign RUser "t-other" "u1")) tenant0).1.2 RUser "u1" = None.
Proof. vm_compute. reflexivity. Qed.

(** A request to an address instead of a name is taken for a tenant called by
    its first number. *)
Theorem address_taken_for_tenant :
  (TenantMiddleware Some false "" "10.0.0.1:8080" tenant0).1.1 = inr (404, "tenant not found").
Proof. vm_compute. reflexivity. Qed.
