(* ===== verification/ClientConfig.v ===== *)
(** * Client configuration files

    [internal/wireguard/config.go], which writes the file a WireGuard client
    loads, and the two endpoints of [internal/core/handler/device.go] that hand
    one out: [downloadConfig] and [sendConfig].  [unrender] is a device of the
    proofs, a left inverse of [RenderConfig]: it stands for no program and says
    nothing on how wg-quick or another client reads a file. *)

From S2P Require Import Prelude Net Schema Auth Policy Hub Devices Http Tables.
From Stdlib Require Import ZArith Lia Ascii String.
From stdpp Require Import base gmap strings list list_numbers sorting pretty.
Import Auth.Token.

Local Open Scope Z_scope.
Local Open Scope string_scope.
Local Open Scope outpost_scope.

(** ** The text ([config.go]) *)

Record PeerConfig := {
  pc_PublicKey : string;
  pc_AllowedIPs : list string;
  pc_Endpoint : string;
  pc_PresharedKey : string;
  pc_PersistentKeepalive : Z;
}.

Record InterfaceConfig := {
  ic_PrivateKey : string;
  ic_Address : string;
  ic_ListenPort : Z;
  ic_DNS : list string;
  ic_MTU : Z;
  ic_Peers : list PeerConfig;
}.

Definition newline : string := String (ascii_of_nat 10) "".

Definition nonempty {A} (l : list A) : bool := match l with [] => false | _ => true end.

Definition RenderPeerConfig (peer : PeerConfig) : string :=
  "[Peer]" ++ newline ++
  "PublicKey = " ++ pc_PublicKey peer ++ newline ++
  (if negb (String.eqb (pc_PresharedKey peer) "") then "PresharedKey = " ++ pc_PresharedKey peer ++ newline else "") ++
  (if nonempty (pc_AllowedIPs peer) then "AllowedIPs = " ++ strings_join ", " (pc_AllowedIPs peer) ++ newline else "") ++
  (if negb (String.eqb (pc_Endpoint peer) "") then "Endpoint = " ++ pc_Endpoint peer ++ newline else "") ++
  (if (0 <? pc_PersistentKeepalive peer)%Z
   then "PersistentKeepalive = " ++ itoa (pc_PersistentKeepalive peer) ++ newline else "").

Fixpoint renderPeers (peers : list PeerConfig) : string :=
  match peers with
  | [] => ""
  | peer :: peers => newline ++ RenderPeerConfig peer ++ renderPeers peers
  end.

Definition RenderConfig (iface : InterfaceConfig) : string :=
  "[Interface]" ++ newline ++
  "PrivateKey = " ++ ic_PrivateKey iface ++ newline ++
  (if negb (String.eqb (ic_Address iface) "") then "Address = " ++ ic_Address iface ++ newline else "") ++
  (if (0 <? ic_ListenPort iface)%Z then "ListenPort = " ++ itoa (ic_ListenPort iface) ++ newline else "") ++
  (if nonempty (ic_DNS iface) then "DNS = " ++ strings_join ", " (ic_DNS iface) ++ newline else "") ++
  (if (0 <? ic_MTU iface)%Z then "MTU = " ++ itoa (ic_MTU iface) ++ newline else "") ++
  renderPeers (ic_Peers iface).

(** ** A left inverse of the writer, for the proofs *)

Definition skipSpace (s : string) : string := trim_prefix s " ".

(** A line "key = value", and the parts of a list. *)
Definition field (line : string) : option (string * string) :=
  match cut_at "=" line with
  | Some (k, v) => Some (k, skipSpace v)
  | None => None
  end.

Definition parts (v : string) : list string := map skipSpace (split_on "," v).

Definition number (v : string) : option Z :=
  match Atoi v with (n, false) => Some n | _ => None end.

Definition set_peer (k v : string) (p : PeerConfig) : option PeerConfig :=
  let with_ k' e psk l n := {| pc_PublicKey := k'; pc_AllowedIPs := l; pc_Endpoint := e; pc_PresharedKey := psk;
                               pc_PersistentKeepalive := n |} in
  let '{| pc_PublicKey := key; pc_AllowedIPs := l; pc_Endpoint := e; pc_PresharedKey := psk;
          pc_PersistentKeepalive := n |} := p in
  if String.eqb k "PublicKey " then Some (with_ v e psk l n)
  else if String.eqb k "PresharedKey " then Some (with_ key e v l n)
  else if String.eqb k "AllowedIPs " then Some (with_ key e psk (l ++ parts v)%list n)
  else if String.eqb k "Endpoint " then Some (with_ key v psk l n)
  else if String.eqb k "PersistentKeepalive " then with_ key e psk l <$> number v
  else None.

Definition set_interface (k v : string) (i : InterfaceConfig) : option InterfaceConfig :=
  let with_ key a port dns mtu := {| ic_PrivateKey := key; ic_Address := a; ic_ListenPort := port; ic_DNS := dns;
                                    ic_MTU := mtu; ic_Peers := ic_Peers i |} in
  let '{| ic_PrivateKey := key; ic_Address := a; ic_ListenPort := port; ic_DNS := dns; ic_MTU := mtu |} := i in
  if String.eqb k "PrivateKey " then Some (with_ v a port dns mtu)
  else if String.eqb k "Address " then Some (with_ key v port dns mtu)
  else if String.eqb k "ListenPort " then (fun p => with_ key a p dns mtu) <$> number v
  else if String.eqb k "DNS " then Some (with_ key a port (dns ++ parts v)%list mtu)
  else if String.eqb k "MTU " then with_ key a port dns <$> number v
  else None.

Definition no_peer : PeerConfig :=
  {| pc_PublicKey := ""; pc_AllowedIPs := []; pc_Endpoint := ""; pc_PresharedKey := ""; pc_PersistentKeepalive := 0 |}.
Definition no_interface : InterfaceConfig :=
  {| ic_PrivateKey := ""; ic_Address := ""; ic_ListenPort := 0; ic_DNS := []; ic_MTU := 0; ic_Peers := [] |}.

Definition add_peer (i : InterfaceConfig) (p : PeerConfig) : InterfaceConfig := {|
  ic_PrivateKey := ic_PrivateKey i; ic_Address := ic_Address i; ic_ListenPort := ic_ListenPort i; ic_DNS := ic_DNS i;
  ic_MTU := ic_MTU i; ic_Peers := (ic_Peers i ++ [p])%list |}.

(** What has been read: the interface so far and the peer whose section is open. *)
Definition reading : Type := InterfaceConfig * option PeerConfig.

Definition close (st : reading) : InterfaceConfig :=
  match st with (i, Some p) => add_peer i p | (i, None) => i end.

Definition read_line (st : reading) (line : string) : option reading :=
  if String.eqb line "" then Some st
  else if String.eqb line "[Interface]" then Some (close st, None)
  else if String.eqb line "[Peer]" then Some (close st, Some no_peer)
  else
    '(k, v) ← field line;
    match st with
    | (i, Some p) => p' ← set_peer k v p; Some (i, Some p')
    | (i, None) => i' ← set_interface k v i; Some (i', None)
    end.

Fixpoint read_lines (st : reading) (l : list string) : option reading :=
  match l with
  | [] => Some st
  | line :: l => st' ← read_line st line; read_lines st' l
  end.

Definition unrender (text : string) : option InterfaceConfig :=
  close <$> read_lines (no_interface, None) (split_on (ascii_of_nat 10) text).

(** Values that a line can hold: no line break, and for the entries of a list
    no comma; no leading space. *)
Definition lineable (s : string) : bool := no_char (ascii_of_nat 10) s && String.eqb (skipSpace s) s.
Definition item (s : string) : bool := lineable s && no_char "," s.
Definition counter (z : Z) : bool := ((0 <=? z) && (z <=? max_int64))%Z.

Definition peer_lineable (p : PeerConfig) : bool :=
  lineable (pc_PublicKey p) && forallb item (pc_AllowedIPs p) && lineable (pc_Endpoint p) &&
  lineable (pc_PresharedKey p) && counter (pc_PersistentKeepalive p).

Definition config_lineable (i : InterfaceConfig) : bool :=
  lineable (ic_PrivateKey i) && lineable (ic_Address i) && counter (ic_ListenPort i) && forallb item (ic_DNS i) &&
  counter (ic_MTU i) && forallb peer_lineable (ic_Peers i).

Example renders :
  RenderConfig {| ic_PrivateKey := "k="; ic_Address := "10.0.0.2/24"; ic_ListenPort := 0; ic_DNS := ["1.1.1.1"; "8.8.8.8"];
    ic_MTU := 1420; ic_Peers := [{| pc_PublicKey := "p="; pc_AllowedIPs := ["10.0.0.0/24"]; pc_Endpoint := "h:1";
    pc_PresharedKey := ""; pc_PersistentKeepalive := 25 |}] |} =
  strings_join newline ["[Interface]"; "PrivateKey = k="; "Address = 10.0.0.2/24"; "DNS = 1.1.1.1, 8.8.8.8"; "MTU = 1420";
    ""; "[Peer]"; "PublicKey = p="; "AllowedIPs = 10.0.0.0/24"; "Endpoint = h:1"; "PersistentKeepalive = 25"; ""].
Proof. reflexivity. Qed.

(** ** Decimal texts *)

Lemma digit_of_N x : (x < 10)%N ->
  is_digit (pretty_N_char x) = true /\ digit_val (pretty_N_char x) = Z.of_N x.
Proof.
  intros Hx. assert (x ∈ [0;1;2;3;4;5;6;7;8;9]%N) as Hin.
  { rewrite list_elem_of_In. cbn [In]. lia. }
  revert x Hx Hin. intros x _. rewrite list_elem_of_In. cbn [In]. intros Hin.
  repeat destruct Hin as [<-|Hin]; done.
Qed.

Lemma parse_uint_pretty x s : (Z.of_N x <= max_uint64)%Z ->
  parse_uint_go (pretty_N_go x s) 0 = parse_uint_go s (Z.of_N x).
Proof.
  revert s. induction (N.lt_wf_0 x) as [x _ IH]. intros s Hx.
  destruct (decide (x = 0)%N) as [->|Hpos]; [by rewrite pretty_N_go_0|].
  rewrite pretty_N_go_step by lia. rewrite IH; cycle 1.
  { apply N.div_lt; lia. } { rewrite N2Z.inj_div. apply Z.le_trans with (Z.of_N x); [|done]. apply Z.div_le_upper_bound; lia. }
  destruct (digit_of_N (x mod 10)) as [Hd Hv]; [apply N.mod_lt; lia|]. cbn [parse_uint_go]. rewrite Hd, Hv.
  assert (Z.of_N (x / 10) * 10 + Z.of_N (x mod 10) = Z.of_N x)%Z as -> by (pose proof (N.div_mod x 10); lia).
  by rewrite (proj2 (Z.ltb_ge _ _) Hx).
Qed.

(** A text that parses is made of digits. *)
Lemma parse_uint_digits c s a n : is_digit c = false -> parse_uint_go s a = NumOk n -> no_char c s = true.
Proof.
  intros Hc. revert a. induction s as [|b s IH]; intros a; [done|]. cbn [parse_uint_go no_char].
  destruct (is_digit b) eqn:Hb; [|done]. destruct (max_uint64 <? _)%Z; [done|]. intros Hp.
  rewrite (IH _ Hp). destruct (Ascii.eqb_spec b c) as [->|]; [congruence|done].
Qed.

Lemma parse_uint_itoa z : (0 <= z <= max_uint64)%Z -> parse_uint (itoa z) = NumOk z.
Proof.
  intros Hz. unfold itoa. destruct z as [|p|p]; [done| |lia].
  change (pretty (Z.pos p)) with (pretty_N_go (N.pos p) "").
  pose proof (parse_uint_pretty (N.pos p) "" (proj2 Hz)) as Hp.
  destruct (pretty_N_go (N.pos p) "") as [|a s]; [|done]. cbn in Hp. injection Hp. lia.
Qed.

Lemma Atoi_itoa z : (0 <= z <= max_int64)%Z -> Atoi (itoa z) = (z, false).
Proof.
  intros Hz. assert (parse_uint (itoa z) = NumOk z) as Hp.
  { apply parse_uint_itoa. unfold max_int64, max_uint64 in *. lia. }
  unfold Atoi.
  assert ((match itoa z with String "-" t => (true, t) | String "+" t => (false, t) | _ => (false, itoa z) end)
    = (false, itoa z)) as ->.
  { assert (no_char "-" (itoa z) = true /\ no_char "+" (itoa z) = true) as [H1 H2].
    { destruct (itoa z); [done|]. split; by eapply parse_uint_digits. }
    destruct (itoa z) as [|[[] [] [] [] [] [] [] []] t]; try done. }
  rewrite Hp. unfold max_int64 in *. destruct (Z.leb_spec (2 ^ 63) z); [lia|done].
Qed.

Lemma no_char_itoa c z : is_digit c = false -> (0 <= z <= max_int64)%Z -> no_char c (itoa z) = true.
Proof.
  intros Hc Hz. assert (parse_uint (itoa z) = NumOk z) as Hp.
  { apply parse_uint_itoa. unfold max_int64, max_uint64 in *. lia. }
  destruct (itoa z); [done|]. by eapply parse_uint_digits.
Qed.

(** ** What is written can be read *)

Fixpoint unlines (l : list string) : string :=
  match l with [] => "" | s :: l => s ++ newline ++ unlines l end.

Lemma unlines_app l k : unlines (l ++ k) = unlines l ++ unlines k.
Proof. induction l as [|s l IH]; cbn [unlines app]; [done|]. by rewrite IH, !string_app_assoc. Qed.

Lemma split_unlines l : Forall (fun s => no_char (ascii_of_nat 10) s = true) l ->
  split_on (ascii_of_nat 10) (unlines l) = (l ++ [""])%list.
Proof.
  induction 1 as [|s l Hs Hl IH]; [done|]. cbn [unlines app]. unfold newline. rewrite append_cons, append_nil.
  by rewrite split_on_app, IH.
Qed.

(** The lines of a section. *)
Definition opt (b : bool) (line : string) : list string := if b then [line] else [].

Definition peerLines (p : PeerConfig) : list string :=
  ("[Peer]" :: ("PublicKey = " ++ pc_PublicKey p)%string ::
   opt (negb (String.eqb (pc_PresharedKey p) "")) ("PresharedKey = " ++ pc_PresharedKey p)%string ++
   opt (nonempty (pc_AllowedIPs p)) ("AllowedIPs = " ++ strings_join ", " (pc_AllowedIPs p))%string ++
   opt (negb (String.eqb (pc_Endpoint p) "")) ("Endpoint = " ++ pc_Endpoint p)%string ++
   opt (0 <? pc_PersistentKeepalive p)%Z ("PersistentKeepalive = " ++ itoa (pc_PersistentKeepalive p))%string)%list.

Fixpoint peersLines (l : list PeerConfig) : list string :=
  match l with [] => [] | p :: l => "" :: peerLines p ++ peersLines l end%list.

Definition configLines (i : InterfaceConfig) : list string :=
  ("[Interface]" :: ("PrivateKey = " ++ ic_PrivateKey i)%string ::
   opt (negb (String.eqb (ic_Address i) "")) ("Address = " ++ ic_Address i)%string ++
   opt (0 <? ic_ListenPort i)%Z ("ListenPort = " ++ itoa (ic_ListenPort i))%string ++
   opt (nonempty (ic_DNS i)) ("DNS = " ++ strings_join ", " (ic_DNS i))%string ++
   opt (0 <? ic_MTU i)%Z ("MTU = " ++ itoa (ic_MTU i))%string ++
   peersLines (ic_Peers i))%list.

Lemma unlines_opt b line : unlines (opt b line) = if b then line ++ newline else "".
Proof. destruct b; [|done]. cbn. by rewrite string_app_nil_r. Qed.

Lemma if_app (b : bool) (s t : string) : (if b then s ++ t ++ newline else "") = if b then (s ++ t) ++ newline else "".
Proof. destruct b; [by rewrite string_app_assoc|done]. Qed.

Lemma RenderPeerConfig_lines p : RenderPeerConfig p = unlines (peerLines p).
Proof.
  unfold RenderPeerConfig, peerLines. cbn [unlines]. rewrite !unlines_app, !unlines_opt, !if_app. by rewrite !string_app_assoc.
Qed.

Lemma renderPeers_lines l : renderPeers l = unlines (peersLines l).
Proof.
  induction l as [|p l IH]; cbn [renderPeers peersLines unlines]; [done|].
  by rewrite IH, RenderPeerConfig_lines, unlines_app, append_nil.
Qed.

Lemma RenderConfig_lines i : RenderConfig i = unlines (configLines i).
Proof.
  unfold RenderConfig, configLines. rewrite renderPeers_lines. cbn [unlines].
  rewrite !unlines_app, !unlines_opt, !if_app. by rewrite !string_app_assoc.
Qed.

(** No value breaks its line. *)
Lemma no_char_join c sep l : no_char c sep = true -> forallb (no_char c) l = true -> no_char c (strings_join sep l) = true.
Proof.
  intros Hsep. induction l as [|s l IH]; [done|]. cbn [forallb]. intros [Hs Hl]%andb_true_iff.
  destruct l as [|t l]; [done|]. change (strings_join sep (s :: t :: l)) with (s ++ sep ++ strings_join sep (t :: l)).
  by rewrite !no_char_app, Hs, Hsep, (IH Hl).
Qed.

Lemma lineable_nl s : lineable s = true -> no_char (ascii_of_nat 10) s = true.
Proof. by intros [? _]%andb_true_iff. Qed.

Lemma items_nl l : forallb item l = true -> no_char (ascii_of_nat 10) (strings_join ", " l) = true.
Proof.
  intros Hl. apply no_char_join; [done|]. rewrite forallb_forall in Hl |- *. intros s Hs.
  apply Hl, andb_true_iff in Hs as [Hs _]. by apply lineable_nl.
Qed.

Lemma counter_range z : counter z = true -> (0 <= z <= max_int64)%Z.
Proof. unfold counter. intros [?%Z.leb_le ?%Z.leb_le]%andb_true_iff. lia. Qed.

Lemma Forall_opt (P : string -> Prop) b line : (b = true -> P line) -> Forall P (opt b line).
Proof. destruct b; cbn; auto. Qed.

Lemma no_char_kv c k v : no_char c k = true -> no_char c v = true -> no_char c (k ++ v) = true.
Proof. intros Hk Hv. by rewrite no_char_app, Hk. Qed.

Ltac no_newline := repeat first [apply Forall_cons_2 | apply Forall_app_2 | apply Forall_opt; intros _ | apply Forall_nil_2];
  first [reflexivity | apply no_char_kv; [reflexivity|]; eauto using lineable_nl, items_nl, no_char_itoa, counter_range].

Lemma peerLines_nl p : peer_lineable p = true -> Forall (fun s => no_char (ascii_of_nat 10) s = true) (peerLines p).
Proof.
  unfold peer_lineable. rewrite !andb_true_iff. intros [[[[? ?] ?] ?] ?]. unfold peerLines. no_newline.
Qed.

Lemma peersLines_nl l : forallb peer_lineable l = true -> Forall (fun s => no_char (ascii_of_nat 10) s = true) (peersLines l).
Proof.
  induction l as [|p l IH]; cbn [forallb peersLines]; [constructor|]. intros [Hp Hl]%andb_true_iff.
  constructor; [done|]. apply Forall_app_2; [by apply peerLines_nl|auto].
Qed.

Lemma configLines_nl i : config_lineable i = true -> Forall (fun s => no_char (ascii_of_nat 10) s = true) (configLines i).
Proof.
  unfold config_lineable. rewrite !andb_true_iff. intros [[[[[? ?] ?] ?] ?] ?]. unfold configLines.
  repeat first [apply Forall_cons_2 | apply Forall_app_2 | apply Forall_opt; intros _ ].
  all: first [by apply peersLines_nl | no_newline].
Qed.

(** Reading the lines of a section. *)
Lemma read_lines_app st l k : read_lines st (l ++ k)%list = st' ← read_lines st l; read_lines st' k.
Proof.
  revert st. induction l as [|s l IH]; intros st; [done|]. cbn [app read_lines].
  destruct (read_line st s); [apply IH|done].
Qed.

Lemma read_opt b line st st' rest :
  (b = true -> read_line st line = Some st') -> (b = false -> st = st') ->
  read_lines st (opt b line ++ rest)%list = read_lines st' rest.
Proof. destruct b; cbn; intros H1 H2; [by rewrite H1|by rewrite H2]. Qed.

Lemma skipSpace_cons s : skipSpace (String " " s) = s.
Proof. unfold skipSpace, trim_prefix. cbn. by destruct s. Qed.

Lemma field_kv k v : no_char "=" k = true -> field (k ++ String "=" (String " " v)) = Some (k, v).
Proof. intros Hk. unfold field. rewrite cut_at_app by done. by rewrite skipSpace_cons. Qed.

Lemma split_comma s t : no_char "," s = true -> split_on "," (s ++ ", " ++ t) = s :: split_on "," (String " " t).
Proof. apply split_on_app. Qed.

Lemma split_comma_space t : split_on "," (String " " t) =
  match split_on "," t with [] => [] | w :: ws => String " " w :: ws end.
Proof. cbn. pose proof (split_on_ne "," t). by destruct (split_on "," t). Qed.

Lemma split_join_comma s l : no_char "," s = true -> forallb (no_char ",") l = true ->
  split_on "," (strings_join ", " (s :: l)) = s :: map (String " ") l.
Proof.
  revert s. induction l as [|t l IH]; intros s Hs; cbn [forallb]; [intros _; by apply split_on_no_char|].
  intros [Ht Hl]%andb_true_iff. change (strings_join ", " (s :: t :: l)) with (s ++ ", " ++ strings_join ", " (t :: l)).
  by rewrite split_comma, split_comma_space, IH.
Qed.

Lemma item_comma s : item s = true -> no_char "," s = true.
Proof. by intros [_ ?]%andb_true_iff. Qed.

Lemma item_space s : item s = true -> skipSpace s = s.
Proof. unfold item, lineable. rewrite !andb_true_iff, String.eqb_eq. tauto. Qed.

Lemma parts_join l : nonempty l = true -> forallb item l = true -> parts (strings_join ", " l) = l.
Proof.
  destruct l as [|s l]; [done|]. intros _. cbn [forallb]. intros [Hs Hl]%andb_true_iff. unfold parts.
  rewrite split_join_comma by (auto using item_comma; rewrite forallb_forall in *; auto using item_comma).
  cbn [map]. rewrite (item_space s Hs), map_map. f_equal. clear Hs.
  induction l as [|t l IH]; [done|]. cbn [forallb map] in *. apply andb_true_iff in Hl as [_ Hl].
  by rewrite skipSpace_cons, IH.
Qed.

Lemma number_itoa z : counter z = true -> number (itoa z) = Some z.
Proof. intros Hz. unfold number. by rewrite Atoi_itoa by (by apply counter_range). Qed.

Lemma zero_default z : counter z = true -> (0 <? z)%Z = false -> z = 0%Z.
Proof. intros Hz%counter_range ?%Z.ltb_ge. lia. Qed.

(** One line of a section. *)
Definition name_ok (k : string) : bool := negb (String.eqb k "") && no_char "=" k && no_char "[" k.

Lemma read_line_kv st k v : name_ok k = true ->
  read_line st (k ++ String "=" (String " " v)) =
  match st with
  | (i, Some p) => p' ← set_peer k v p; Some (i, Some p')
  | (i, None) => i' ← set_interface k v i; Some (i', None)
  end.
Proof.
  unfold name_ok. rewrite !andb_true_iff. intros [[Hne Heq] Hb]. destruct k as [|a k]; [done|]. unfold read_line.
  change (String.eqb (String a k ++ _) "") with false. cbv iota.
  assert (Ascii.eqb a "[" = false) as Ha by (cbn in Hb; by apply andb_true_iff in Hb as [?%negb_true_iff _]).
  rewrite !append_cons. cbn [String.eqb]. rewrite Ha. cbv iota. rewrite <- append_cons, field_kv by done. done.
Qed.

Lemma read_peer_line i p p' k v : name_ok k = true -> set_peer k v p = Some p' ->
  read_line (i, Some p) (k ++ String "=" (String " " v)) = Some (i, Some p').
Proof. intros Hk Hp. rewrite read_line_kv by done. by rewrite Hp. Qed.

Lemma read_interface_line i i' k v : name_ok k = true -> set_interface k v i = Some i' ->
  read_line (i, None) (k ++ String "=" (String " " v)) = Some (i', None).
Proof. intros Hk Hp. rewrite read_line_kv by done. by rewrite Hp. Qed.

Lemma eqb_empty s : negb (String.eqb s "") = false -> s = "".
Proof. intros ?%negb_false_iff. by apply String.eqb_eq. Qed.

Lemma empty_list {A} (l : list A) : nonempty l = false -> l = [].
Proof. by destruct l. Qed.

Lemma read_peer st p rest : peer_lineable p = true ->
  read_lines st (peerLines p ++ rest)%list = read_lines (close st, Some p) rest.
Proof.
  unfold peer_lineable. rewrite !andb_true_iff. intros [[[[Hk Hl] He] Hpsk] Hn]. destruct p as [k l e psk n]. cbn in Hk, Hl, He, Hpsk, Hn.
  unfold peerLines. cbn [pc_PublicKey pc_AllowedIPs pc_Endpoint pc_PresharedKey pc_PersistentKeepalive].
  cbn [app read_lines]. rewrite <- !app_assoc. change (read_line st "[Peer]") with (Some (close st, Some no_peer)).
  cbn [mbind option_bind]. rewrite (read_peer_line _ _ {| pc_PublicKey := k; pc_AllowedIPs := []; pc_Endpoint := "";
    pc_PresharedKey := ""; pc_PersistentKeepalive := 0 |} "PublicKey " k) by reflexivity. cbn [mbind option_bind].
  rewrite (read_opt _ _ _ (close st, Some {| pc_PublicKey := k; pc_AllowedIPs := []; pc_Endpoint := "";
    pc_PresharedKey := psk; pc_PersistentKeepalive := 0 |})); cycle 1.
  { intros _. by apply (read_peer_line _ _ _ "PresharedKey "). } { by intros ->%eqb_empty. }
  rewrite (read_opt _ _ _ (close st, Some {| pc_PublicKey := k; pc_AllowedIPs := l; pc_Endpoint := "";
    pc_PresharedKey := psk; pc_PersistentKeepalive := 0 |})); cycle 1.
  { intros Hne. apply (read_peer_line _ _ _ "AllowedIPs "); [done|]. cbn. by rewrite parts_join. } { by intros ->%empty_list. }
  rewrite (read_opt _ _ _ (close st, Some {| pc_PublicKey := k; pc_AllowedIPs := l; pc_Endpoint := e;
    pc_PresharedKey := psk; pc_PersistentKeepalive := 0 |})); cycle 1.
  { intros _. by apply (read_peer_line _ _ _ "Endpoint "). } { by intros ->%eqb_empty. }
  apply read_opt.
  - intros _. apply (read_peer_line _ _ _ "PersistentKeepalive "); [done|]. cbn. by rewrite number_itoa.
  - intros ->%zero_default; done.
Qed.

Definition with_peers (i : InterfaceConfig) (l : list PeerConfig) : InterfaceConfig := {|
  ic_PrivateKey := ic_PrivateKey i; ic_Address := ic_Address i; ic_ListenPort := ic_ListenPort i; ic_DNS := ic_DNS i;
  ic_MTU := ic_MTU i; ic_Peers := (ic_Peers i ++ l)%list |}.

Lemma read_peers st l : forallb peer_lineable l = true ->
  close <$> read_lines st (peersLines l ++ [""])%list = Some (with_peers (close st) l).
Proof.
  revert st. induction l as [|p l IH]; intros st; cbn [forallb peersLines].
  - intros _. cbn. f_equal. destruct (close st) as [? ? ? ? ? ps]. unfold with_peers. cbn. by rewrite app_nil_r.
  - intros [Hp Hl]%andb_true_iff. cbn [app read_lines]. rewrite <- app_assoc. change (read_line st "") with (Some st). cbn [mbind option_bind].
    rewrite read_peer, IH by done. unfold with_peers, close at 1. cbn. by rewrite <- app_assoc.
Qed.

Lemma read_interface st i rest : config_lineable i = true -> close st = no_interface ->
  read_lines st (configLines {| ic_PrivateKey := ic_PrivateKey i; ic_Address := ic_Address i; ic_ListenPort := ic_ListenPort i;
    ic_DNS := ic_DNS i; ic_MTU := ic_MTU i; ic_Peers := [] |} ++ rest)%list =
  read_lines ({| ic_PrivateKey := ic_PrivateKey i; ic_Address := ic_Address i; ic_ListenPort := ic_ListenPort i;
    ic_DNS := ic_DNS i; ic_MTU := ic_MTU i; ic_Peers := [] |}, None) rest.
Proof.
  unfold config_lineable. rewrite !andb_true_iff. intros [[[[[Hk Ha] Hp] Hd] Hm] _] Hst. destruct i as [k a p d m ps].
  cbn in Hk, Ha, Hp, Hd, Hm |- *. rewrite Hst, <- !app_assoc. unfold no_interface.
  rewrite (read_interface_line _ {| ic_PrivateKey := k; ic_Address := ""; ic_ListenPort := 0; ic_DNS := []; ic_MTU := 0;
    ic_Peers := [] |} "PrivateKey " k) by reflexivity. cbn [mbind option_bind].
  rewrite (read_opt _ _ _ ({| ic_PrivateKey := k; ic_Address := a; ic_ListenPort := 0; ic_DNS := []; ic_MTU := 0;
    ic_Peers := [] |}, None)); cycle 1.
  { intros _. by apply (read_interface_line _ _ "Address "). } { by intros ->%eqb_empty. }
  rewrite (read_opt _ _ _ ({| ic_PrivateKey := k; ic_Address := a; ic_ListenPort := p; ic_DNS := []; ic_MTU := 0;
    ic_Peers := [] |}, None)); cycle 1.
  { intros _. apply (read_interface_line _ _ "ListenPort "); [done|]. cbn. by rewrite number_itoa. } { intros ->%zero_default; done. }
  rewrite (read_opt _ _ _ ({| ic_PrivateKey := k; ic_Address := a; ic_ListenPort := p; ic_DNS := d; ic_MTU := 0;
    ic_Peers := [] |}, None)); cycle 1.
  { intros Hne. apply (read_interface_line _ _ "DNS "); [done|]. cbn. by rewrite parts_join. } { by intros ->%empty_list. }
  apply read_opt.
  - intros _. apply (read_interface_line _ _ "MTU "); [done|]. cbn. by rewrite number_itoa.
  - intros ->%zero_default; done.
Qed.

Lemma configLines_peers i : configLines i =
  (configLines {| ic_PrivateKey := ic_PrivateKey i; ic_Address := ic_Address i; ic_ListenPort := ic_ListenPort i;
    ic_DNS := ic_DNS i; ic_MTU := ic_MTU i; ic_Peers := [] |} ++ peersLines (ic_Peers i))%list.
Proof. unfold configLines. cbn -[opt]. by rewrite <- !app_assoc. Qed.

Lemma unrender_RenderConfig iface : config_lineable iface = true -> unrender (RenderConfig iface) = Some iface.
Proof.
  intros Hl. unfold unrender. rewrite RenderConfig_lines, split_unlines by (by apply configLines_nl).
  rewrite configLines_peers, <- app_assoc, read_interface by done.
  assert (forallb peer_lineable (ic_Peers iface) = true) as Hp.
  { unfold config_lineable in Hl. rewrite !andb_true_iff in Hl. tauto. }
  rewrite read_peers by done. by destruct iface.
Qed.

(** C27. The rendered text determines the configuration: two configurations
    with the same text agree in every key, address, list and number, and in
    the peers and their order, provided that in both no value holds a line
    break or starts with a space, no entry of a list holds a comma, and the
    port, the MTU and the keepalives are not negative. *)
Theorem RenderConfig_injective i j (Hi : config_lineable i = true) (Hj : config_lineable j = true) :
  RenderConfig i = RenderConfig j -> i = j.
Proof.
  intros E. apply unrender_RenderConfig in Hi, Hj. rewrite E, Hj in Hi. by injection Hi.
Qed.

Definition office : InterfaceConfig := {|
  ic_PrivateKey := "cHJpdmF0ZQ=="; ic_Address := "10.0.0.2/24"; ic_ListenPort := 51820; ic_DNS := ["1.1.1.1"; "8.8.8.8"]; ic_MTU := 0;
  ic_Peers := [{| pc_PublicKey := "cHVibGlj"; pc_AllowedIPs := ["10.0.0.0/24"; "10.1.0.0/16"]; pc_Endpoint := "vpn.example:51820";
                  pc_PresharedKey := ""; pc_PersistentKeepalive := 25 |};
               {| pc_PublicKey := "c2Vjb25k"; pc_AllowedIPs := []; pc_Endpoint := "";
                  pc_PresharedKey := "cHNr"; pc_PersistentKeepalive := 0 |}] |}.

Lemma RenderConfig_injective_witness :
  let lean := {| ic_PrivateKey := ic_PrivateKey office; ic_Address := ic_Address office; ic_ListenPort := 0;
                 ic_DNS := ic_DNS office; ic_MTU := 0; ic_Peers := ic_Peers office |} in
  RenderConfig office <> RenderConfig lean.
Proof. intros lean E. assert (office = lean) as F by exact (RenderConfig_injective office lean eq_refl eq_refl E). discriminate F. Defined.

(** A line break in a value adds lines of its own: the endpoint of a gateway
    is any text, and can bring a section with a command that wg-quick runs. *)
Lemma value_with_newline_injects :
  let endpoint := strings_join newline ["h:1"; "[Interface]"; "PostUp = id"] in
  split_on (ascii_of_nat 10) (RenderPeerConfig {| pc_PublicKey := "k"; pc_AllowedIPs := []; pc_Endpoint := endpoint;
    pc_PresharedKey := ""; pc_PersistentKeepalive := 0 |}) =
  ["[Peer]"; "PublicKey = k"; "Endpoint = h:1"; "[Interface]"; "PostUp = id"; ""].
Proof. reflexivity. Qed.

(** ** The endpoints ([device.go]) *)

Record configResponse := {
  cf_Config : string;
  cf_PrivateKey : string;
  cf_PublicKey : string;
  cf_Gateways : list gatewayEndpointResponse;
}.

Inductive config_body :=
| BConfig (c : configResponse)
| BSent (email : string).

(** A message handed to the mailer. *)
Record config_mail := { cm_to : string; cm_device : string; cm_text : string }.

(** The primary gateway and the list, as the loop over the rows builds them. *)
Record primary := {
  gatewayEndpoint : string;
  gatewayPubkey : string;
  dlClientEndpoint : string;
  dlGateways : list gatewayEndpointResponse;
}.

Section config_handlers.
Context `{SqlOrder, DeviceEnv}.
Implicit Types (d : db).

(** A call: the statements that fail, the rows of the gateway query that do
    not scan (by gateway), and after how many rows the iteration breaks off;
    both are passed over in silence. *)
Record config_call := {
  cfails : nat -> bool;
  badRow : string -> bool;
  rowsRead : option nat;
}.
Implicit Types (c : config_call).

(** The network of the device, or the oldest active one. *)
Definition deviceNetwork d (nid : option string) : option network :=
  match nid with
  | Some nid => byKey n_id (networks d) nid
  | None => head (rows_by 32 n_created_at (List.filter n_is_active (networks d)))
  end.

Definition networkDNS (n : network) : list string := match n_dns n with [] => defaultDNS | l => l end.

(** [ORDER BY g.priority DESC, g.created_at]. *)
Definition by_priority {A} (key : A -> gateway) (l : list A) : list A :=
  sort_by (fun x => - g_priority (key x))%Z (sort_by (fun x => g_created_at (key x)) l).

Definition gatewaysServing d (nid : string) : list (gateway * option network) :=
  by_priority fst (rows 36
    (g ← List.filter g_is_active (gateways d);
     gn ← List.filter (fun gn => String.eqb gn.1 (g_id g) && String.eqb gn.2 nid) (gateway_networks d);
     n ← List.filter (fun n => String.eqb (n_id n) gn.2) (networks d);
     [(g, Some n)])).

(** [LEFT JOIN networks n ON n.id = g.network_id]. *)
Definition gatewaysActive d : list (gateway * option network) :=
  by_priority fst (rows 37
    (map (fun g => (g, nid ← g_network_id g; byKey n_id (networks d) nid)) (List.filter g_is_active (gateways d)))).

Definition gatewayRowsFor d (nid : option string) : list (gateway * option network) :=
  match nid with Some nid => gatewaysServing d nid | None => gatewaysActive d end.

(** The endpoint of a row; the port falls back to 51820. *)
Definition rowEndpoint (gn : gateway * option network) : string :=
  match g_public_ip gn.1 with
  | None => g_endpoint gn.1
  | Some ip =>
      let gwPort := default 51820%Z (n_port <$> gn.2) in
      let gwPort := if Z.eqb gwPort 0 then 51820%Z else gwPort in
      host ip ++ ":" ++ itoa gwPort
  end.

Definition addRow (p : primary) (gn : gateway * option network) : primary :=
  let ep := rowEndpoint gn in
  let l := (dlGateways p ++ [{| ge_ID := g_id gn.1; ge_Endpoint := ep; ge_ServerPublicKey := g_pubkey gn.1;
                                ge_Priority := g_priority gn.1; ge_HealthStatus := g_health_status gn.1 |}])%list in
  if String.eqb (gatewayEndpoint p) "" then
    {| gatewayEndpoint := g_endpoint gn.1; gatewayPubkey := g_pubkey gn.1; dlClientEndpoint := ep; dlGateways := l |}
  else {| gatewayEndpoint := gatewayEndpoint p; gatewayPubkey := gatewayPubkey p;
          dlClientEndpoint := dlClientEndpoint p; dlGateways := l |}.

Definition scanned c (l : list (gateway * option network)) : list (gateway * option network) :=
  List.filter (fun gn => negb (badRow c (g_id gn.1))) (match rowsRead c with Some k => take k l | None => l end).

Definition collect (l : list (gateway * option network)) : primary :=
  foldl addRow {| gatewayEndpoint := ""; gatewayPubkey := ""; dlClientEndpoint := ""; dlGateways := [] |} l.

(** The stored private key; an error of the query counts as none. *)
Definition storedKey (fails : bool) d (id : string) : option string :=
  if fails then None else
  dev ← byKey d_id (devices d) id; k ← d_privkey dev; if String.eqb k "" then None else Some k.

(** A client has the mask of the network its address was taken from.  The
    parse error is not looked at, and the block is then nil. *)
Definition maskOf (n : network) : option Z := cidr_len <$> ParseCIDR (cidr_text (allocCIDR n)).

Definition clientConfig (privateKey address : string) (dns : list string) (pubkey endpoint : string) (allowed : list string)
  : InterfaceConfig := {|
  ic_PrivateKey := privateKey; ic_Address := address; ic_ListenPort := 0; ic_DNS := dns; ic_MTU := 0;
  ic_Peers := [{| pc_PublicKey := pubkey; pc_AllowedIPs := allowed; pc_Endpoint := endpoint; pc_PresharedKey := "";
                  pc_PersistentKeepalive := 25 |}] |}.

Definition panicked : refusal := (500, "").

Definition downloadConfig c (claims : option TokenClaims) (rawId : string) : H db config_mail (Z * config_body) :=
  let! id := the (uuid_Parse rawId) 400 "invalid UUID" in
  let! cl := the claims 401 "authentication required" in
  let! found := query (cfails c 0) (fun d => byKey d_id (devices d) id) 500 "failed to fetch device" in
  let! dev := the found 404 "device not found" in
  do! require (IsAdmin cl || String.eqb (UserID cl) (d_user_id dev)) 403 "you can only download config for your own devices" in
  let! net := query (cfails c 1) (fun d => deviceNetwork d (d_network_id dev)) 500 "failed to read network mask" in
  let! n := the net 500 "failed to read network mask" in
  let! gws := query (cfails c 2) (fun d => gatewayRowsFor d (d_network_id dev)) 500 "failed to read gateway configuration" in
  let gw := collect (scanned c gws) in
  do! require (negb (String.eqb (gatewayEndpoint gw) "")) 422
    "no active gateway available — create and activate a gateway first" in
  let! stored := asks (fun d => storedKey (cfails c 3) d id) in
  let! privateKey := the stored 422 "config download unavailable: this device was enrolled with a user-provided key. Re-create the device with auto-generated keys or use your own WireGuard config file." in
  let! publicKey := the (wg_PublicKey privateKey) 500 "failed to derive public key" in
  let! mask := the (maskOf n) panicked.1 panicked.2 in
  let! allowedIPs := asks (fun d => resolveAllowedIPs (cfails c 4) d (d_user_id dev) (cidr_text (n_address n))) in
  let configText := RenderConfig (clientConfig privateKey (host (d_assigned_ip dev) ++ "/" ++ itoa mask)
                      (networkDNS n) (gatewayPubkey gw) (dlClientEndpoint gw) allowedIPs) in
  respondJSON 200 (BConfig {| cf_Config := configText; cf_PrivateKey := privateKey; cf_PublicKey := publicKey;
                              cf_Gateways := dlGateways gw |}).

(** [FROM gateways g JOIN networks n ON n.id = g.network_id WHERE n.is_active
    AND g.is_active ORDER BY .. LIMIT 1]. *)
Definition anyGateway d : option (gateway * network) :=
  head (by_priority fst (rows 38
    (g ← List.filter g_is_active (gateways d);
     n ← List.filter (fun n => bool_decide (g_network_id g = Some (n_id n)) && n_is_active n) (networks d);
     [(g, n)]))).

Definition deviceAndOwner d (id : string) : option (device * user) :=
  dev ← byKey d_id (devices d) id; u ← byKey u_id (users d) (d_user_id dev); Some (dev, u).

(** [mailer]: whether one is configured, and then whether it reports that the
    message it was handed was delivered. *)
Definition sendConfig c (mailer : option bool) (claims : option TokenClaims) (rawId : string)
  : H db config_mail (Z * config_body) :=
  let! delivers := the mailer 422 "email is not configured on this instance" in
  let! id := the (uuid_Parse rawId) 400 "invalid UUID" in
  let! cl := the claims 401 "authentication required" in
  let! found := query (cfails c 0) (fun d => deviceAndOwner d id) 500 "failed to fetch device" in
  let! (dev, u) := the found 404 "device not found" in
  do! require (IsAdmin cl || String.eqb (UserID cl) (d_user_id dev)) 403 "you can only send config for your own devices" in
  let! (assignedIP, nid) := asks (fun d =>
    match (if cfails c 1 then None else byKey d_id (devices d) id) with
    | Some dev => (host (d_assigned_ip dev), d_network_id dev)
    | None => ("", None)
    end) in
  let! net := query (cfails c 2) (fun d => deviceNetwork d nid) 500 "failed to read network configuration" in
  let! n := the net 500 "failed to read network configuration" in
  let! found := query (cfails c 3) anyGateway 500 "failed to read gateway configuration" in
  let! (g, gn) := the found 500 "failed to read gateway configuration" in
  let! stored := asks (fun d => storedKey (cfails c 4) d id) in
  let! privateKey := the stored 422 "config email unavailable: this device was enrolled with a user-provided key" in
  let! mask := the (maskOf n) panicked.1 panicked.2 in
  let configText := RenderConfig (clientConfig privateKey (assignedIP ++ "/" ++ itoa mask) (networkDNS n) (g_pubkey g)
                      (clientEndpoint g gn) [cidr_text (n_address n)]) in
  do! emit (fun _ => [{| cm_to := u_email u; cm_device := d_name dev; cm_text := configText |}]) in
  do! require delivers 500 "failed to send configuration email" in
  respondJSON 200 (BSent (u_email u)).
End config_handlers.

(** ** What a download holds *)

Section config_proofs.
Context `{SqlOrder, DeviceEnv}.

Definition gatewayEntry' (gn : gateway * option network) : gatewayEndpointResponse := {|
  ge_ID := g_id gn.1; ge_Endpoint := rowEndpoint gn; ge_ServerPublicKey := g_pubkey gn.1;
  ge_Priority := g_priority gn.1; ge_HealthStatus := g_health_status gn.1 |}.

Definition reachable (gn : gateway * option network) : bool := negb (String.eqb (g_endpoint gn.1) "").

Lemma fold_kept p l : gatewayEndpoint p <> "" ->
  foldl addRow p l = {| gatewayEndpoint := gatewayEndpoint p; gatewayPubkey := gatewayPubkey p;
    dlClientEndpoint := dlClientEndpoint p; dlGateways := (dlGateways p ++ map gatewayEntry' l)%list |}.
Proof.
  revert p. induction l as [|gn l IH]; intros p Hp; cbn [foldl map].
  - rewrite app_nil_r. by destruct p.
  - rewrite IH; unfold addRow; rewrite (proj2 (String.eqb_neq _ _) Hp); cbn; [|done]. by rewrite <- app_assoc.
Qed.

Lemma fold_first p l : gatewayEndpoint p = "" ->
  match List.find reachable l with
  | Some gn => foldl addRow p l = {| gatewayEndpoint := g_endpoint gn.1; gatewayPubkey := g_pubkey gn.1;
      dlClientEndpoint := rowEndpoint gn; dlGateways := (dlGateways p ++ map gatewayEntry' l)%list |}
  | None => gatewayEndpoint (foldl addRow p l) = ""
  end.
Proof.
  revert p. induction l as [|gn l IH]; intros p Hp; [done|]. cbn [foldl map List.find].
  set (p' := addRow p gn). assert (p' = {| gatewayEndpoint := g_endpoint gn.1; gatewayPubkey := g_pubkey gn.1;
    dlClientEndpoint := rowEndpoint gn; dlGateways := (dlGateways p ++ [gatewayEntry' gn])%list |}) as Hp'.
  { unfold p', addRow. by rewrite Hp. }
  unfold reachable at 1. destruct (String.eqb_spec (g_endpoint gn.1) "") as [E|E]; cbn [negb].
  - assert (gatewayEndpoint p' = "") as He by (by rewrite Hp'). specialize (IH p' He).
    destruct (List.find reachable l); [|done]. rewrite IH, Hp'. cbn. by rewrite <- app_assoc.
  - rewrite fold_kept by (by rewrite Hp'). rewrite Hp'. cbn. by rewrite <- app_assoc.
Qed.

Lemma collect_first l :
  match List.find reachable l with
  | Some gn => collect l = {| gatewayEndpoint := g_endpoint gn.1; gatewayPubkey := g_pubkey gn.1;
      dlClientEndpoint := rowEndpoint gn; dlGateways := map gatewayEntry' l |}
  | None => gatewayEndpoint (collect l) = ""
  end.
Proof. unfold collect. by apply fold_first. Qed.

(** *** The order of the gateways *)

Definition higher (x y : gateway * option network) : Prop := (g_priority y.1 <= g_priority x.1)%Z.

Lemma by_priority_sorted l : StronglySorted higher (by_priority fst l).
Proof.
  unfold by_priority.
  generalize (sort_by_sorted (fun x : gateway * option network => - g_priority x.1)%Z (sort_by (fun x => g_created_at x.1) l)).
  induction 1 as [|x k Hs IH Hall]; constructor; [done|]. eapply Forall_impl; [exact Hall|]. unfold higher. cbn. lia.
Qed.

Lemma sorted_List_filter {A} (R : relation A) f l : StronglySorted R l -> StronglySorted R (List.filter f l).
Proof.
  induction 1 as [|x l Hs IH Hall]; cbn; [constructor|]. destruct (f x); [|done]. constructor; [done|].
  rewrite List.Forall_forall in Hall |- *. intros y [Hy _]%filter_In. auto.
Qed.

Lemma sorted_take {A} (R : relation A) n l : StronglySorted R l -> StronglySorted R (take n l).
Proof.
  intros Hl. revert n. induction Hl as [|x l Hs IH Hall]; intros [|n]; cbn; constructor; auto. by apply Forall_take.
Qed.

Lemma scanned_sorted c l : StronglySorted higher l -> StronglySorted higher (scanned c l).
Proof. intros Hl. apply sorted_List_filter. destruct (rowsRead c); [by apply sorted_take|done]. Qed.

Lemma scanned_incl c l x : x ∈ scanned c l -> x ∈ l.
Proof.
  unfold scanned. rewrite list_elem_of_In, filter_In, <- list_elem_of_In. intros [Hx _].
  destruct (rowsRead c) as [k|]; [|done]. rewrite <- (take_drop k l). apply elem_of_app. by left.
Qed.

Lemma find_highest l gn x : StronglySorted higher l -> List.find reachable l = Some gn ->
  x ∈ l -> reachable x = true -> (g_priority x.1 <= g_priority gn.1)%Z.
Proof.
  induction 1 as [|y l Hs IH Hall]; cbn; [done|]. destruct (reachable y) eqn:Hy.
  - intros [= <-]. intros [->|Hx]%elem_of_cons _; [lia|]. rewrite Forall_forall in Hall. by apply Hall.
  - intros Hf [->|Hx]%elem_of_cons Hr; [congruence|]. by apply IH.
Qed.

Lemma gatewayRowsFor_sorted d nid : StronglySorted higher (gatewayRowsFor d nid).
Proof. destruct nid; apply by_priority_sorted. Qed.

Lemma elem_of_by_priority {A} (key : A -> gateway) l x : x ∈ by_priority key l <-> x ∈ l.
Proof. unfold by_priority. by rewrite !sort_by_perm. Qed.

(** A row of the query is an active gateway that serves the network. *)
Lemma gatewayRowsFor_ok d nid (gn : gateway * option network) : gn ∈ gatewayRowsFor d nid ->
  gn.1 ∈ gateways d /\ g_is_active gn.1 = true /\
  match nid with Some nid => (g_id gn.1, nid) ∈ gateway_networks d | None => True end.
Proof.
  destruct nid as [nid|]; cbn.
  - unfold gatewaysServing. rewrite elem_of_by_priority, elem_of_rows. rewrite list_elem_of_bind.
    intros (g & Hg & Hin%list_elem_of_In%filter_In). rewrite list_elem_of_bind in Hg.
    destruct Hg as ([g' n'] & Hg & Hj%list_elem_of_In%filter_In). rewrite list_elem_of_bind in Hg.
    destruct Hg as (n & ->%list_elem_of_singleton & _). cbn in *. rewrite andb_true_iff, !String.eqb_eq in Hj.
    destruct Hj as [Hj%list_elem_of_In [-> ->]], Hin as [Hin%list_elem_of_In Ha]. done.
  - unfold gatewaysActive. rewrite elem_of_by_priority, elem_of_rows. intros (g & -> & Hg)%list_elem_of_fmap.
    apply list_elem_of_In, filter_In in Hg as [Hg%list_elem_of_In Ha]. done.
Qed.

Lemma storedKey_Some fails d id k dev : byKey d_id (devices d) id = Some dev -> storedKey fails d id = Some k ->
  d_privkey dev = Some k.
Proof.
  unfold storedKey. intros Hd. destruct fails; [done|]. rewrite Hd. cbn. destruct (d_privkey dev) as [k'|]; [|done]. cbn.
  destruct (String.eqb k' ""); [done|]. by intros [= ->].
Qed.

Lemma deviceNetwork_In d nid n : deviceNetwork d nid = Some n -> n ∈ networks d.
Proof.
  destruct nid; cbn; [by intros [? _]%byKey_Some|]. intros Hh%head_Some_elem_of.
  rewrite elem_of_rows_by, list_elem_of_In, filter_In in Hh. rewrite list_elem_of_In. tauto.
Qed.

Lemma maskOf_ok d n : nets_ok d -> n ∈ networks d -> maskOf n = Some (cidr_len (allocCIDR n)).
Proof.
  unfold nets_ok. rewrite Forall_forall. intros Hn Hin. unfold maskOf. by rewrite ParseCIDR_text by auto.
Qed.

(** The configuration of a device behind a gateway. *)
Definition config_of c d (dev : device) (n : network) (gn : gateway * option network) (k : string) : InterfaceConfig :=
  clientConfig k (host (d_assigned_ip dev) ++ "/" ++ itoa (cidr_len (allocCIDR n))) (networkDNS n) (g_pubkey gn.1)
    (rowEndpoint gn) (resolveAllowedIPs (cfails c 4) d (d_user_id dev) (cidr_text (n_address n))).

(** When a download is granted: the device, its network, the first gateway
    that has an endpoint, the keys. *)
Record downloadable c d (cl : TokenClaims) (id : string) (dev : device) (n : network) (gn : gateway * option network)
    (k pub : string) : Prop := {
  dl_device : byKey d_id (devices d) id = Some dev;
  dl_owner : IsAdmin cl || String.eqb (UserID cl) (d_user_id dev) = true;
  dl_network : deviceNetwork d (d_network_id dev) = Some n;
  dl_gateway : List.find reachable (scanned c (gatewayRowsFor d (d_network_id dev))) = Some gn;
  dl_key : storedKey (cfails c 3) d id = Some k;
  dl_public : wg_PublicKey k = Some pub;
}.

Lemma reachable_find l gn : List.find reachable l = Some gn -> String.eqb (g_endpoint gn.1) "" = false.
Proof. intros [_ Hr]%find_some. unfold reachable in Hr. by apply negb_true_iff. Qed.

Ltac run_step := cbn -[collect maskOf storedKey RenderConfig clientConfig String.eqb byKey gatewayRowsFor deviceNetwork
  scanned resolveAllowedIPs wg_PublicKey anyGateway deviceAndOwner].

(** Both directions of a download at once. *)
Lemma download_run c cl rawId d id dev n gn k pub : nets_ok d -> uuid_Parse rawId = Some id ->
  cfails c 0 = false -> cfails c 1 = false -> cfails c 2 = false -> downloadable c d cl id dev n gn k pub ->
  run (downloadConfig c (Some cl) rawId) d =
    (Reply 200 (BConfig {| cf_Config := RenderConfig (config_of c d dev n gn k); cf_PrivateKey := k; cf_PublicKey := pub;
       cf_Gateways := map gatewayEntry' (scanned c (gatewayRowsFor d (d_network_id dev))) |}), d, []).
Proof.
  intros Hnets Hid H0' H1' H2' [Hdev Hown Hnet Hgw Hk Hpub]. unfold run, downloadConfig, bind, the, query, require, asks.
  rewrite Hid, H0', H1', H2'. run_step. rewrite Hdev. run_step. rewrite Hown.
  run_step. rewrite Hnet.
  run_step.
  pose proof (collect_first (scanned c (gatewayRowsFor d (d_network_id dev)))) as Hc. rewrite Hgw in Hc. rewrite Hc.
  run_step. rewrite (reachable_find _ _ Hgw).
  run_step. rewrite Hk.
  run_step. rewrite Hpub.
  run_step.
  rewrite (maskOf_ok d) by (done || by eapply deviceNetwork_In). reflexivity.
Qed.

Lemma download_inv c claims rawId d st b d' es :
  run (downloadConfig c claims rawId) d = (Reply st b, d', es) ->
  exists cl id dev n gn k pub, claims = Some cl /\ uuid_Parse rawId = Some id /\
    cfails c 0 = false /\ cfails c 1 = false /\ cfails c 2 = false /\ downloadable c d cl id dev n gn k pub.
Proof.
  unfold run, downloadConfig, bind, the, query, require, asks.
  destruct (uuid_Parse rawId) as [id|]; [|done]. destruct claims as [cl|]; [|done]. run_step.
  destruct (cfails c 0); [done|]. destruct (byKey d_id (devices d) id) as [dev|] eqn:Hdev; [|done]. run_step.
  destruct (IsAdmin cl || _) eqn:Hown; [|done]. run_step.
  destruct (cfails c 1); [done|]. destruct (deviceNetwork d (d_network_id dev)) as [n|] eqn:Hnet; [|done]. run_step.
  destruct (cfails c 2); [done|]. run_step.
  pose proof (collect_first (scanned c (gatewayRowsFor d (d_network_id dev)))) as Hc.
  destruct (List.find reachable _) as [gn|] eqn:Hgw; [|by rewrite Hc].
  destruct (negb (String.eqb (gatewayEndpoint _) "")); [|done]. run_step.
  destruct (storedKey (cfails c 3) d id) as [k|] eqn:Hk; [|done]. run_step.
  destruct (wg_PublicKey k) as [pub|] eqn:Hpub; [|done]. intros _.
  exists cl, id, dev, n, gn, k, pub. split_and!; try done.
Qed.

(** The rows of the query for the gateways of a network. *)
Lemma elem_of_gatewaysServing d nid g n : (g, Some n) ∈ gatewaysServing d nid <->
  g ∈ gateways d /\ g_is_active g = true /\ (g_id g, nid) ∈ gateway_networks d /\ n ∈ networks d /\ n_id n = nid.
Proof.
  unfold gatewaysServing. rewrite elem_of_by_priority, elem_of_rows, list_elem_of_bind.
  setoid_rewrite list_elem_of_bind. setoid_rewrite list_elem_of_bind. setoid_rewrite list_elem_of_singleton.
  setoid_rewrite list_elem_of_In. setoid_rewrite filter_In. setoid_rewrite <- list_elem_of_In.
  setoid_rewrite andb_true_iff. setoid_rewrite String.eqb_eq. split.
  - intros (g' & ([h m] & (n' & [= -> ->] & Hn & En) & Hgn & Eh & Em) & Hg & Ha). cbn in *. by subst.
  - intros (Hg & Ha & Hgn & Hn & En). exists g. split; [|done]. exists (g_id g, nid). split; [|done]. by exists n.
Qed.

Lemma gatewaysServing_row d nid gn : gn ∈ gatewaysServing d nid -> exists n, gn.2 = Some n.
Proof.
  unfold gatewaysServing. rewrite elem_of_by_priority, elem_of_rows, list_elem_of_bind.
  intros (g & (m & (n & ->%list_elem_of_singleton & _)%list_elem_of_bind & _)%list_elem_of_bind & _). by exists n.
Qed.

(** An access list of one of the user's groups on an active network. *)
Definition lists d (uid : string) (a : network_acl) (n : network) : Prop :=
  a ∈ network_acls d /\ (uid, a_group_id a) ∈ user_groups d /\ n ∈ networks d /\ n_id n = a_network_id a /\
  n_is_active n = true.

Lemma elem_of_allowedRows d uid x : x ∈ allowedRows d uid <->
  exists a n, lists d uid a n /\
    x ∈ (if bool_decide (a_allowed_ips a = wildcard) then [cidr_text (n_address n)] else map cidr_text (a_allowed_ips a)).
Proof.
  unfold allowedRows, lists. rewrite elem_of_remove_dups, list_elem_of_bind.
  setoid_rewrite list_elem_of_bind. setoid_rewrite list_elem_of_bind.
  setoid_rewrite (list_elem_of_In (List.filter _ _)). setoid_rewrite filter_In. setoid_rewrite <- list_elem_of_In.
  setoid_rewrite andb_true_iff. setoid_rewrite String.eqb_eq. split.
  - intros (a & ([u g] & (n & Hx & Hn & En & Ha) & Hug & Eu & Eg) & Hin). cbn in *. subst. exists a, n. auto 10.
  - intros (a & n & (Hin & Hug & Hn & En & Ha) & Hx). exists a. split; [|done]. exists (uid, a_group_id a).
    split; [|done]. by exists n.
Qed.

(** The blocks of a client: only what the access lists of the user name or the
    fallback; every block an access list names; the fallback alone without an
    access list. *)
Lemma resolveAllowedIPs_spec fails d uid fallback :
  (forall x, x ∈ resolveAllowedIPs fails d uid fallback -> x = fallback \/ exists a n, lists d uid a n /\
     (x = cidr_text (n_address n) \/ exists b, b ∈ a_allowed_ips a /\ x = cidr_text b)) /\
  (fails = false -> forall a n b, lists d uid a n -> a_allowed_ips a <> wildcard -> b ∈ a_allowed_ips a ->
     cidr_text b ∈ resolveAllowedIPs fails d uid fallback) /\
  ((forall a n, ~ lists d uid a n) -> resolveAllowedIPs fails d uid fallback = [fallback]).
Proof.
  unfold resolveAllowedIPs. split_and!.
  - intros x Hx. destruct fails; [by apply list_elem_of_singleton in Hx; left|].
    destruct (rows 35 (allowedRows d uid)) as [|y l] eqn:E; [by apply list_elem_of_singleton in Hx; left|].
    rewrite <- E, elem_of_rows, elem_of_allowedRows in Hx. destruct Hx as (a & n & Hl & Hx). right. exists a, n.
    split; [done|]. case_bool_decide; [left; by apply list_elem_of_singleton in Hx|].
    right. apply list_elem_of_fmap in Hx as (b & -> & Hb). by exists b.
  - intros -> a n b Hl Hw Hb. assert (cidr_text b ∈ rows 35 (allowedRows d uid)) as Hin.
    { rewrite elem_of_rows, elem_of_allowedRows. exists a, n. split; [done|]. rewrite bool_decide_false by done.
      by apply list_elem_of_fmap_2. }
    destruct (rows 35 (allowedRows d uid)); [by apply not_elem_of_nil in Hin|done].
  - intros Hno. destruct fails; [done|]. assert (allowedRows d uid = []) as ->.
    { destruct (allowedRows d uid) as [|x l] eqn:E; [done|].
      destruct (proj1 (elem_of_allowedRows d uid x)) as (a & n & Hl & _); [rewrite E; left|by destruct (Hno a n)]. }
    by assert (rows 35 (@nil string) = []) as -> by (apply Permutation_nil; symmetry; apply rows_perm).
Qed.

(** What a download hands out for a device of the network [nid] with private
    key [k]: the keys, the address, the resolvers and the one peer. *)
Record handed_out c d (dev : device) (nid k : string) (r : configResponse) (cfg : InterfaceConfig) (p : PeerConfig)
    (n : network) (g : gateway) : Prop := {
  ho_text : cf_Config r = RenderConfig cfg;
  ho_private : cf_PrivateKey r = k /\ ic_PrivateKey cfg = k;
  ho_public : wg_PublicKey k = Some (cf_PublicKey r);
  ho_network : n ∈ networks d /\ n_id n = nid;
  ho_address : ic_Address cfg = host (d_assigned_ip dev) ++ "/" ++ itoa (cidr_len (allocCIDR n));
  ho_dns : ic_DNS cfg = match n_dns n with [] => ["1.1.1.1"; "8.8.8.8"] | l => l end;
  ho_unset : ic_ListenPort cfg = 0%Z /\ ic_MTU cfg = 0%Z;
  ho_peers : ic_Peers cfg = [p];
  ho_gateway : g ∈ gateways d /\ g_is_active g = true /\ (g_id g, nid) ∈ gateway_networks d /\ g_endpoint g <> "";
  ho_peer : pc_PublicKey p = g_pubkey g /\ pc_PresharedKey p = "" /\ pc_PersistentKeepalive p = 25%Z;
  ho_endpoint : match g_public_ip g with
                | None => pc_Endpoint p = g_endpoint g
                | Some ip => exists m, m ∈ networks d /\ n_id m = nid /\
                    pc_Endpoint p = host ip ++ ":" ++ itoa (if Z.eqb (n_port m) 0 then 51820 else n_port m)%Z
                end;
  ho_first : rowsRead c = None -> forall g', g' ∈ gateways d -> g_is_active g' = true -> (g_id g', nid) ∈ gateway_networks d ->
    g_endpoint g' <> "" -> badRow c (g_id g') = false -> (g_priority g' <= g_priority g)%Z;
  ho_allowed : forall x, x ∈ pc_AllowedIPs p -> x = cidr_text (n_address n) \/ exists a n', lists d (d_user_id dev) a n' /\
    (x = cidr_text (n_address n') \/ exists b, b ∈ a_allowed_ips a /\ x = cidr_text b);
  ho_listed : cfails c 4 = false -> forall a n' b, lists d (d_user_id dev) a n' -> a_allowed_ips a <> wildcard ->
    b ∈ a_allowed_ips a -> cidr_text b ∈ pc_AllowedIPs p;
  ho_fallback : (forall a n', ~ lists d (d_user_id dev) a n') -> pc_AllowedIPs p = [cidr_text (n_address n)];
}.

Lemma byKey_is_Some {A} (key : A -> string) l x k : x ∈ l -> key x = k -> is_Some (byKey key l k).
Proof.
  intros Hx <-. destruct (byKey key l (key x)) as [y|] eqn:E; [by eexists|].
  apply byKey_None in E. destruct E. by apply list_elem_of_fmap_2.
Qed.

Lemma scanned_all c l gn : rowsRead c = None -> gn ∈ l -> badRow c (g_id gn.1) = false -> gn ∈ scanned c l.
Proof.
  intros Hr Hin Hb. unfold scanned. rewrite Hr, list_elem_of_In, filter_In, <- list_elem_of_In, Hb. done.
Qed.

Lemma reachable_endpoint gn : reachable gn = true <-> g_endpoint gn.1 <> "".
Proof. unfold reachable. by rewrite negb_true_iff, String.eqb_neq. Qed.

Lemma downloadable_handed_out c d cl id dev n gn k pub nid : nets_ok d -> d_network_id dev = Some nid ->
  downloadable c d cl id dev n gn k pub ->
  handed_out c d dev nid k {| cf_Config := RenderConfig (config_of c d dev n gn k); cf_PrivateKey := k; cf_PublicKey := pub;
    cf_Gateways := map gatewayEntry' (scanned c (gatewayRowsFor d (d_network_id dev))) |} (config_of c d dev n gn k)
    {| pc_PublicKey := g_pubkey gn.1; pc_AllowedIPs := resolveAllowedIPs (cfails c 4) d (d_user_id dev) (cidr_text (n_address n));
       pc_Endpoint := rowEndpoint gn; pc_PresharedKey := ""; pc_PersistentKeepalive := 25 |} n gn.1.
Proof.
  intros Hnets Hnid Hdl. destruct (resolveAllowedIPs_spec (cfails c 4) d (d_user_id dev) (cidr_text (n_address n))) as (A1 & A2 & A3).
  destruct Hdl as [_ _ Hn Hgw _ Hpub]. rewrite Hnid in Hn, Hgw. cbn [deviceNetwork gatewayRowsFor] in Hn, Hgw.
  apply byKey_Some in Hn as [Hn En]. pose proof (find_some _ _ Hgw) as [Hin%list_elem_of_In%scanned_incl Hr%reachable_endpoint].
  destruct (gatewaysServing_row _ _ _ Hin) as [m Hm]. destruct gn as [g m']. cbn in Hm, Hr. subst m'.
  apply elem_of_gatewaysServing in Hin as (Hg & Ha & Hs & Hm & Em).
  constructor; cbn [cf_Config cf_PrivateKey cf_PublicKey config_of clientConfig ic_PrivateKey ic_Address ic_DNS ic_ListenPort ic_MTU
    ic_Peers pc_PublicKey pc_PresharedKey pc_PersistentKeepalive pc_AllowedIPs pc_Endpoint fst snd]; try done.
  - unfold rowEndpoint. cbn [fst snd]. destruct (g_public_ip g) as [ip|]; [|done]. by exists m.
  - intros Hrr g' Hg' Ha' Hs' He' Hb'. apply (find_highest _ (g, Some m) (g', Some n)) in Hgw;
      [done|apply scanned_sorted, (gatewayRowsFor_sorted d (Some nid))| |by apply reachable_endpoint].
    apply scanned_all; [done| |done]. by apply elem_of_gatewaysServing.
Qed.


(** ** What is mailed *)

Definition mailed c d (id : string) (n : network) (gn : gateway * network) (k : string) : string :=
  let '(ip, _) := match (if cfails c 1 then None else byKey d_id (devices d) id) with
                  | Some dev => (host (d_assigned_ip dev), d_network_id dev) | None => ("", None) end in
  RenderConfig (clientConfig k (ip ++ "/" ++ itoa (default 0%Z (maskOf n))) (networkDNS n) (g_pubkey gn.1)
    (clientEndpoint gn.1 gn.2) [cidr_text (n_address n)]).

(** The message the endpoint hands to the mailer. *)
Definition owners_mail c (claims : option TokenClaims) (rawId : string) d (u : user) (es : list config_mail) : Prop :=
  exists cl id dev n gn k, claims = Some cl /\ uuid_Parse rawId = Some id /\
    byKey d_id (devices d) id = Some dev /\ byKey u_id (users d) (d_user_id dev) = Some u /\
    IsAdmin cl || String.eqb (UserID cl) (d_user_id dev) = true /\
    deviceNetwork d (if cfails c 1 then None else d_network_id dev) = Some n /\ anyGateway d = Some gn /\
    d_privkey dev = Some k /\ is_Some (maskOf n) /\
    es = [{| cm_to := u_email u; cm_device := d_name dev; cm_text := mailed c d id n gn k |}].

Lemma sendConfig_wp c mailer claims rawId d :
  wp (sendConfig c mailer claims rawId)
    (fun b d' es => exists u, mailer = Some true /\ b = (200%Z, BSent (u_email u)) /\ d' = d /\ owners_mail c claims rawId d u es)
    (fun r d' es => d' = d /\ (es = [] \/ r = (500%Z, "failed to send configuration email") /\ mailer = Some false /\
       exists u, owners_mail c claims rawId d u es)) d.
Proof.
  unfold sendConfig. apply wp_bind, wp_the. destruct mailer as [delivers|]; [|by (split; [|left])].
  apply wp_bind, wp_the. destruct (uuid_Parse rawId) as [id|] eqn:Hid; [|by (split; [|left])].
  apply wp_bind, wp_the. destruct claims as [cl|]; [|by (split; [|left])].
  apply wp_bind, wp_query. destruct (cfails c 0); [by (split; [|left])|]. apply wp_bind, wp_the.
  unfold deviceAndOwner. destruct (byKey d_id (devices d) id) as [dev|] eqn:Hdev; [|by (split; [|left])]. cbn [mbind option_bind].
  destruct (byKey u_id (users d) (d_user_id dev)) as [u|] eqn:Hu; [|by (split; [|left])]. cbn [mbind option_bind].
  apply wp_bind, wp_require. destruct (IsAdmin cl || _) eqn:Hown; [|by (split; [|left])].
  apply wp_bind, wp_asks. rewrite ?Hdev.
  set (ipn := match (if cfails c 1 then None else Some dev) with Some _ => _ | None => _ end).
  assert (ipn = (if cfails c 1 then "" else host (d_assigned_ip dev), if cfails c 1 then None else d_network_id dev)) as ->
    by (unfold ipn; by destruct (cfails c 1)).
  apply wp_bind, wp_query. destruct (cfails c 2); [by (split; [|left])|]. apply wp_bind, wp_the.
  destruct (deviceNetwork d _) as [n|] eqn:Hn; [|by (split; [|left])].
  apply wp_bind, wp_query. destruct (cfails c 3); [by (split; [|left])|]. apply wp_bind, wp_the.
  destruct (anyGateway d) as [[g gnet]|] eqn:Hg; [|by (split; [|left])].
  apply wp_bind, wp_asks. apply wp_bind, wp_the. destruct (storedKey (cfails c 4) d id) as [k|] eqn:Hk; [|by (split; [|left])].
  apply wp_bind, wp_the. destruct (maskOf n) as [mask|] eqn:Hm; [|by (split; [|left])].
  assert (owners_mail c (Some cl) rawId d u [{| cm_to := u_email u; cm_device := d_name dev;
    cm_text := RenderConfig (clientConfig k ((if cfails c 1 then "" else host (d_assigned_ip dev)) ++ "/" ++ itoa mask)
      (networkDNS n) (g_pubkey g) (clientEndpoint g gnet) [cidr_text (n_address n)]) |}]) as Hmail.
  { exists cl, id, dev, n, (g, gnet), k. split_and!; try done; [by eapply storedKey_Some|].
    unfold mailed. rewrite Hdev, Hm. by destruct (cfails c 1). }
  apply wp_bind, wp_emit. apply wp_bind, wp_require. destruct delivers; cbn [app].
  - apply wp_ret. cbn [app]. by exists u.
  - split; [done|]. right. split_and!; [done..|]. by exists u.
Qed.

Lemma anyGateway_ok d g n : anyGateway d = Some (g, n) -> g ∈ gateways d /\ g_is_active g = true.
Proof.
  intros Hh%head_Some_elem_of. rewrite elem_of_by_priority, elem_of_rows in Hh.
  apply list_elem_of_bind in Hh as (g' & (n' & [= -> ->]%list_elem_of_singleton & _)%list_elem_of_bind & Hg).
  apply list_elem_of_In, filter_In in Hg as [Hg%list_elem_of_In Ha]. done.
Qed.

Lemma owners_mail_spec c claims rawId d u es : nets_ok d -> owners_mail c claims rawId d u es ->
  exists cl id dev cfg p g, claims = Some cl /\ uuid_Parse rawId = Some id /\
    byKey d_id (devices d) id = Some dev /\ (IsAdmin cl = true \/ UserID cl = d_user_id dev) /\
    u ∈ users d /\ u_id u = d_user_id dev /\
    es = [{| cm_to := u_email u; cm_device := d_name dev; cm_text := RenderConfig cfg |}] /\
    d_privkey dev = Some (ic_PrivateKey cfg) /\
    (cfails c 1 = false -> exists n, n ∈ networks d /\ (forall nid, d_network_id dev = Some nid -> n_id n = nid) /\
       ic_Address cfg = host (d_assigned_ip dev) ++ "/" ++ itoa (cidr_len (allocCIDR n))) /\
    ic_Peers cfg = [p] /\ g ∈ gateways d /\ g_is_active g = true /\ pc_PublicKey p = g_pubkey g.
Proof.
  intros Hnets (cl & id & dev & n & [g gn] & k & Hcl & Hid & Hdev & Hu & Hown & Hn & Hg & Hk & Hm & ->).
  apply byKey_Some in Hu as [Hin Hu]. apply anyGateway_ok in Hg as [Hg Ha]. exists cl, id, dev. unfold mailed.
  rewrite Hdev, (maskOf_ok d) by (done || by eapply deviceNetwork_In). cbn [default].
  assert (forall (b : bool), (let '(ip, _) := match (if b then None else Some dev) with
    | Some dev => (host (d_assigned_ip dev), d_network_id dev) | None => ("", None) end in
    RenderConfig (clientConfig k (ip ++ "/" ++ itoa (cidr_len (allocCIDR n))) (networkDNS n) (g_pubkey (g, gn).1)
      (clientEndpoint (g, gn).1 (g, gn).2) [cidr_text (n_address n)])) =
    RenderConfig (clientConfig k ((if b then "" else host (d_assigned_ip dev)) ++ "/" ++ itoa (cidr_len (allocCIDR n)))
      (networkDNS n) (g_pubkey g) (clientEndpoint g gn) [cidr_text (n_address n)])) as -> by (by intros []).
  do 2 eexists. exists g. split_and!; try done.
  - apply orb_true_iff in Hown as [?|?%String.eqb_eq]; auto.
  - intros F. rewrite F in Hn |- *. exists n. split; [by eapply deviceNetwork_In|]. split; [|done].
    intros nid E. rewrite E in Hn. by apply byKey_Some in Hn as [_ ?].
Qed.

(** C26. Whatever is asked and whichever statement fails, no table changes,
    and the endpoint hands over no message, or one message.  The message then
    goes to the address of the device's owner, on the request of the owner or an
    administrator; its text is the rendering of the private key stored for that
    very device, of the device's own address with the mask of its network's
    block (unless the second reading of the device failed), and of one peer
    that is an active gateway; the answer is 200, or 500 when the mailer
    reports a failure. *)
Theorem config_mailed_to_owner c mailer claims rawId d r d' es (Hnets : nets_ok d)
    (Hrun : run (sendConfig c mailer claims rawId) d = (r, d', es)) :
  d' = d /\
  (es = [] \/ exists cl id dev u cfg p g, claims = Some cl /\ uuid_Parse rawId = Some id /\
     byKey d_id (devices d) id = Some dev /\ (IsAdmin cl = true \/ UserID cl = d_user_id dev) /\
     u ∈ users d /\ u_id u = d_user_id dev /\
     es = [{| cm_to := u_email u; cm_device := d_name dev; cm_text := RenderConfig cfg |}] /\
     d_privkey dev = Some (ic_PrivateKey cfg) /\
     (cfails c 1 = false -> exists n, n ∈ networks d /\ (forall nid, d_network_id dev = Some nid -> n_id n = nid) /\
        ic_Address cfg = host (d_assigned_ip dev) ++ "/" ++ itoa (cidr_len (allocCIDR n))) /\
     ic_Peers cfg = [p] /\ g ∈ gateways d /\ g_is_active g = true /\ pc_PublicKey p = g_pubkey g /\
     (mailer = Some true /\ r = Reply 200 (BSent (u_email u)) \/
      mailer = Some false /\ r = Failure 500 "failed to send configuration email")).
Proof.
  revert Hrun. unfold run. pose proof (sendConfig_wp c mailer claims rawId d) as Hw. unfold wp in Hw.
  destruct (sendConfig c mailer claims rawId d) as [[[[st b]|[st m]] s'] es']; intros [= <- <- <-].
  - destruct Hw as (u & -> & [= -> ->] & -> & Hm). split; [done|]. right.
    destruct (owners_mail_spec _ _ _ _ _ _ Hnets Hm) as (cl & id & dev & cfg & p & g & ?).
    exists cl, id, dev, u, cfg, p, g. naive_solver.
  - destruct Hw as [-> [->|([= -> ->] & -> & u & Hm)]]; (split; [done|]); [by left|]. right.
    destruct (owners_mail_spec _ _ _ _ _ _ Hnets Hm) as (cl & id & dev & cfg & p & g & ?).
    exists cl, id, dev, u, cfg, p, g. naive_solver.
Qed.

(** The mailed text is the downloaded one when the user has no entry in an
    access list and the gateway the mail names is the device's own. *)
Theorem mail_matches_download c cl rawId mailer d id dev n gn gnet k pub st b d' es
    (Hnets : nets_ok d) (Hid : uuid_Parse rawId = Some id) (Hf : forall i, cfails c i = false)
    (Hdl : downloadable c d cl id dev n gn k pub)
    (Hrun : run (sendConfig c mailer (Some cl) rawId) d = (Reply st b, d', es))
    (Hacl : allowedRows d (d_user_id dev) = [])
    (Hg : anyGateway d = Some (gn.1, gnet)) (Hport : gn.2 = Some gnet) (Hnz : n_port gnet <> 0%Z) :
  map cm_text es = [RenderConfig (config_of c d dev n gn k)].
Proof.
  destruct (run_Reply _ _ _ _ _ _ _ Hrun (wp_mono _ _ _ _ _ _ (fun _ _ _ X => X) (fun _ _ _ _ => I)
    (sendConfig_wp c mailer (Some cl) rawId d)))
    as (u & _ & _ & _ & cl' & id' & dev' & n' & gn' & k' & [= <-] & Hid' & Hdev' & _ & _ & Hn' & Hg' & Hk' & _ & ->).
  rewrite Hid in Hid'. injection Hid' as <-. rewrite (dl_device _ _ _ _ _ _ _ _ _ Hdl) in Hdev'. injection Hdev' as <-.
  rewrite Hf, (dl_network _ _ _ _ _ _ _ _ _ Hdl) in Hn'. injection Hn' as <-. rewrite Hg in Hg'. injection Hg' as <-.
  rewrite (storedKey_Some (cfails c 3) d id k dev) in Hk' by apply Hdl. injection Hk' as <-.
  assert (resolveAllowedIPs (cfails c 4) d (d_user_id dev) (cidr_text (n_address n)) = [cidr_text (n_address n)]) as Hallow.
  { unfold resolveAllowedIPs. rewrite Hf, Hacl.
    by assert (rows 35 (@nil string) = []) as -> by (apply Permutation_nil; symmetry; apply rows_perm). }
  assert (rowEndpoint gn = clientEndpoint gn.1 gnet) as Hep.
  { unfold rowEndpoint, clientEndpoint. rewrite Hport. cbn. destruct (g_public_ip gn.1); [|done].
    by rewrite (proj2 (Z.eqb_neq _ _) Hnz). }
  cbn [map cm_text]. f_equal. unfold mailed, config_of. rewrite Hf, (dl_device _ _ _ _ _ _ _ _ _ Hdl), Hallow, Hep.
  by rewrite (maskOf_ok d) by (done || eapply deviceNetwork_In; apply Hdl).
Qed.

(** *** Keys *)

Definition paired (dev : device) : Prop := forall k, d_privkey dev = Some k -> wg_PublicKey k = Some (d_pubkey dev).
Definition keys_ok (d : db) : Prop := Forall paired (devices d).

Lemma createKeys_paired pubkey pub priv : createKeys pubkey = Ok (pub, priv) ->
  forall k, ptrOrNil priv = Some k -> wg_PublicKey k = Some pub.
Proof.
  unfold createKeys, ptrOrNil. destruct (_ || _); [|by intros [= <- <-]].
  destruct GeneratePrivateKey as [p|]; [|done]. destruct (wg_PublicKey p) eqn:Hp; [|done]. intros [= <- <-] k.
  destruct (String.eqb p ""); [done|]. by intros [= <-].
Qed.

Lemma insertDevice_keys c newID now r snap cur dev d' : keys_ok cur ->
  (forall k, nd_privkey r = Some k -> wg_PublicKey k = Some (nd_pubkey r)) ->
  insertDevice c newID now r snap cur = Inserted dev d' -> keys_ok d'.
Proof.
  intros Hcur Hr. unfold insertDevice. destruct (rows 30 <$> freeAddresses c snap) as [[|ip l]|]; [done| |done].
  repeat case_match; try done. intros [= <- <-]. unfold keys_ok. cbn. apply Forall_app_2; [done|]. by apply Forall_singleton.
Qed.

Lemma allocLoop_keys todo i c newID now r env fails d :
  (forall i d, keys_ok d -> keys_ok (env i d)) ->
  (forall k, nd_privkey r = Some k -> wg_PublicKey k = Some (nd_pubkey r)) -> keys_ok d ->
  keys_ok (alloc_db (allocLoop todo i c newID now r env fails d)).
Proof.
  intros Henv Hr. revert i d. induction todo as [|todo IH]; intros i d Hd; cbn [allocLoop]; [done|].
  destruct (fails i); [done|]. pose proof (Henv i d Hd) as Hd'.
  destruct (insertDevice c (newID i) now r d (env i d)) as [dev d'| | | | |] eqn:Ei; try done; [|by apply IH].
  by eapply insertDevice_keys.
Qed.

(** A stored private key belongs to the public key of its row, and the
    creation of devices keeps it so whatever other writers and failures there
    are; therefore the key pair of a downloaded configuration is the one the
    gateways have as peer. *)
Theorem keys_stay_paired fail env newID now d claims queryUser body
    (Henv : forall i d, keys_ok d -> keys_ok (env i d)) (Hok : keys_ok d) :
  let d' := (create fail env newID now d claims queryUser body).2 in
  keys_ok d' /\
  forall c claims' rawId st r d2 es, run (downloadConfig c claims' rawId) d' = (Reply st (BConfig r), d2, es) ->
    exists dev, dev ∈ devices d' /\ d_privkey dev = Some (cf_PrivateKey r) /\ cf_PublicKey r = d_pubkey dev.
Proof.
  cbv zeta. assert (keys_ok (create fail env newID now d claims queryUser body).2) as Hd'.
  { unfold create. destruct body as [req|]; [|done]. destruct (String.eqb _ ""); [done|]. destruct (_ && _); [done|].
    destruct (createKeys _) as [[pub priv]|] eqn:Hk; [|done]. destruct claims as [cl|]; [|done]. cbv zeta.
    destruct (_ && _); [done|]. destruct (uuid_Parse _) as [uid|]; [|done].
    destruct (resolveNetwork _ _ _) as [[n|]|]; [|done..].
    match goal with |- context [allocLoop ?t ?i ?c ?nid ?now ?r ?env ?f ?d] =>
      pose proof (allocLoop_keys t i c nid now r env f d Henv (createKeys_paired _ _ _ Hk) Hok) as Ha;
      destruct (allocLoop t i c nid now r env f d) as [dev d1|[] d1|d1] end; done. }
  split; [done|]. intros c claims' rawId st r d2 es Hrun.
  destruct (download_inv _ _ _ _ _ _ _ _ Hrun) as (cl & id & dev & n & gn & k & pub & -> & Hid & F0 & F1 & F2 & Hdl).
  exists dev. pose proof (dl_device _ _ _ _ _ _ _ _ _ Hdl) as [Hin _]%byKey_Some. split; [done|].
  assert (d_privkey dev = Some k) as Hk by (eapply storedKey_Some; apply Hdl).
  unfold keys_ok in Hd'. rewrite Forall_forall in Hd'. pose proof (Hd' dev Hin k Hk) as Hpub.
  rewrite (dl_public _ _ _ _ _ _ _ _ _ Hdl) in Hpub. injection Hpub as ->.
  revert Hrun. unfold run, downloadConfig, bind, the, query, require, asks. rewrite Hid. run_step. rewrite F0. run_step.
  rewrite (dl_device _ _ _ _ _ _ _ _ _ Hdl). run_step. rewrite (dl_owner _ _ _ _ _ _ _ _ _ Hdl), F1. run_step.
  rewrite (dl_network _ _ _ _ _ _ _ _ _ Hdl), F2. run_step.
  pose proof (collect_first (scanned c (gatewayRowsFor (create fail env newID now d claims queryUser body).2 (d_network_id dev)))) as Hc.
  rewrite (dl_gateway _ _ _ _ _ _ _ _ _ Hdl) in Hc. rewrite Hc. run_step.
  rewrite (reachable_find _ _ (dl_gateway _ _ _ _ _ _ _ _ _ Hdl)). run_step. rewrite (dl_key _ _ _ _ _ _ _ _ _ Hdl). run_step.
  rewrite (dl_public _ _ _ _ _ _ _ _ _ Hdl). run_step. destruct (maskOf n); [|done]. run_step. by intros [= <- <- <- <-].
Qed.
End config_proofs.

(** ** A deployment to run the endpoints on *)

Definition with_key (dev : device) (k pub : string) : device := {|
  d_id := d_id dev; d_user_id := d_user_id dev; d_name := d_name dev; d_pubkey := pub; d_privkey := Some k;
  d_assigned_ip := d_assigned_ip dev; d_is_approved := d_is_approved dev; d_last_handshake := None;
  d_network_id := d_network_id dev; d_created_at := 0; d_updated_at := 0 |}.

Definition gw (id : string) (net : option string) (priority : Z) (endpoint : string) : gateway := {|
  g_id := id; g_network_id := net; g_name := id; g_public_ip := None; g_pubkey := id; g_privkey := None;
  g_endpoint := endpoint; g_is_active := true; g_priority := priority; g_token_hash := id; g_last_seen := None;
  g_health_status := "healthy"; g_consecutive_failures := 0; g_created_at := 0; g_updated_at := 0 |}.

(** Two networks, each with a gateway; the one of the other network has the
    higher priority.  Ann's group may reach one address of the first. *)
Definition cfg_db (acls : list network_acl) : db := {|
  users := [mkUser "ann" false; mkUser "bob" true];
  devices := [with_key (mkDevice "d1" "ann" "" 168361986 "n1") "k1" "pub-k1"];
  networks := [mkNetwork "n1" (Cidr 168361984 29); mkNetwork "n2" (Cidr 168427776 24)];
  gateways := [gw "g1" (Some "n1") 10 "one:51820"; gw "g2" (Some "n2") 20 "two:51820"];
  gateway_networks := [("g1", "n1")%string; ("g2", "n2")%string];
  groups := []; user_groups := [("ann", "dev")%string]; network_acls := acls; device_posture := [];
  device_trust_scores := [];
  trust_auto := None; ztna_policies := []; smart_routes := []; smart_route_entries := [];
  network_smart_routes := []; roles := []; user_roles := []; logins := [] |}.

Definition one_address : network_acl := {|
  a_id := "a1"; a_network_id := "n1"; a_group_id := "dev"; a_allowed_ips := [Cidr 168361987 32] |}.

Definition calm_call : config_call := {| cfails := fun _ => false; badRow := fun _ => false; rowsRead := None |}.
Definition ann_claims : option TokenClaims := Some (claims_of "ann" false).

Definition downloaded (d : db) : reply config_body :=
  (run (@downloadConfig sql_default toy_device_env calm_call ann_claims "d1") d).1.1.
Definition sent (d : db) : reply config_body * list config_mail :=
  let '(r, _, es) := run (@sendConfig sql_default toy_device_env calm_call (Some true) ann_claims "d1") d in (r, es).

(** The fields a rendered text determines: the address, the peer and its blocks. *)
Definition seen (text : string) : option (string * list (string * string * list string)) :=
  option_map (fun i => (ic_Address i, map (fun p => (pc_PublicKey p, pc_Endpoint p, pc_AllowedIPs p)) (ic_Peers i)))
    (unrender text).

Definition seen_reply (r : reply config_body) : option (string * list (string * string * list string)) :=
  match r with Reply _ (BConfig c) => seen (cf_Config c) | _ => None end.

Lemma cfg_nets_ok acls : nets_ok (cfg_db acls).
Proof. repeat constructor; cbn; lia. Qed.

Definition ann_key : device := with_key (mkDevice "d1" "ann" "" 168361986 "n1") "k1" "pub-k1".


Lemma config_mailed_to_owner_witness :
  map cm_to (sent (cfg_db [])).2 = ["ann"] /\
  exists dev, byKey d_id (devices (cfg_db [])) "d1" = Some dev /\ d_user_id dev = "ann".
Proof.
  split; [vm_compute; reflexivity|].
  destruct (run (@sendConfig sql_default toy_device_env calm_call (Some true) ann_claims "d1") (cfg_db [])) as [[r d'] es] eqn:Hrun.
  destruct (@config_mailed_to_owner sql_default toy_device_env calm_call (Some true) ann_claims "d1" (cfg_db []) r d' es
    (cfg_nets_ok _) Hrun) as [_ [->|(cl & id & dev & u & cfg & p & g & [= <-] & Hid & Hdev & [Ha|Hu] & _)]].
  - vm_compute in Hrun. discriminate.
  - discriminate Ha.
  - vm_compute in Hid. injection Hid as <-. exists dev. by split.
Defined.

Lemma keys_stay_paired_witness :
  let d' := (@create sql_default toy_device_env noFail (fun _ d => d) newIDs 7 (cfg_db [])
               (Some (claims_of "ann" false)) "" create_body).2 in
  @keys_ok toy_device_env d' /\ map d_pubkey (devices d') = ["pub-k1"; "pub-priv"].
Proof.
  split; [|vm_compute; reflexivity].
  apply (@keys_stay_paired sql_default toy_device_env noFail (fun _ d => d) newIDs 7 (cfg_db [])
    (Some (claims_of "ann" false)) "" create_body).
  - intros _ d Hd. exact Hd.
  - apply Forall_singleton. intros k [= <-]. reflexivity.
Defined.

Lemma mail_matches_download_witness :
  let d := set_gateways (cfg_db []) [gw "g1" (Some "n1") 10 "one:51820"] in
  map cm_text (sent d).2 = [RenderConfig (@config_of sql_default calm_call d
    (with_key (mkDevice "d1" "ann" "" 168361986 "n1") "k1" "pub-k1") (mkNetwork "n1" (Cidr 168361984 29))
    (gw "g1" (Some "n1") 10 "one:51820", Some (mkNetwork "n1" (Cidr 168361984 29))) "k1")].
Proof.
  intros d. eapply (@mail_matches_download sql_default toy_device_env calm_call (claims_of "ann" false) "d1" (Some true) d "d1"
    _ _ (gw "g1" (Some "n1") 10 "one:51820", Some (mkNetwork "n1" (Cidr 168361984 29))) (mkNetwork "n1" (Cidr 168361984 29)) "k1" "pub-k1"
    200 (BSent "ann") d).
  - repeat constructor; cbn; lia.
  - reflexivity.
  - reflexivity.
  - split; vm_compute; reflexivity.
  - vm_compute. reflexivity.
  - reflexivity.
  - vm_compute. reflexivity.
  - reflexivity.
  - discriminate.
Defined.

(** The mailed configuration names the gateway of highest priority of any
    network, here one that does not serve the device's, and the whole network
    instead of what the access list grants. *)
Lemma mail_names_foreign_gateway :
  seen_reply (downloaded (cfg_db [one_address])) = Some ("10.9.0.2/29", [("g1", "one:51820", ["10.9.0.3/32"])]) /\
  map (fun m => seen (cm_text m)) (sent (cfg_db [one_address])).2 =
    [Some ("10.9.0.2/29", [("g2", "two:51820", ["10.9.0.0/29"])])].
Proof. split; vm_compute; reflexivity. Qed.

(** A gateway that serves the network through the junction table alone is
    found by the download and not by the mail. *)
Lemma mail_needs_legacy_column :
  let d := set_gateways (cfg_db []) [gw "g1" None 10 "one:51820"] in
  reply_status (downloaded d) = 200 /\ (sent d).1 = Failure 500 "failed to read gateway configuration".
Proof. split; vm_compute; reflexivity. Qed.

(** When the second reading of the device fails, the mail has no address and
    the network is the oldest active one. *)
Lemma mail_without_address :
  let c := {| cfails := fun i => Nat.eqb i 1; badRow := fun _ => false; rowsRead := None |} in
  let '(r, _, es) := run (@sendConfig sql_default toy_device_env c (Some true) ann_claims "d1") (cfg_db []) in
  r = Reply 200 (BSent "ann") /\ map (fun m => fst <$> seen (cm_text m)) es = [Some "/29"].
Proof. split; vm_compute; reflexivity. Qed.
