(* ===== verification/Client.v ===== *)
(** * The VPN client

    [internal/client]: the posture a Linux machine reports
    ([posture_linux.go]), the calls to the core with the token they keep
    ([client.go]), and the tunnel with its session loop ([tunnel.go],
    [tunnel_userspace.go]).  The core is a function from a request and its
    state to an answer; what the answers of the modelled endpoints look like
    on the wire is written out with the keys of their structs, so that both
    sides of the interface are here.  Commands, keys and sockets belong to the
    operating system: every call to it may fail. *)

From S2P Require Import Prelude RateLimit Net Schema Json Ztna Auth Login Policy Hub Devices Http ZtnaAdmin ClientConfig.
From Stdlib Require Import ZArith Lia Ascii String.
From stdpp Require Import base gmap strings list.
Import Auth.Token.

Local Open Scope Z_scope.
Local Open Scope string_scope.
Local Open Scope outpost_scope.

(** ** Posture ([posture_linux.go]) *)

Record DevicePosture := {
  dpo_OSType : string;
  dpo_OSVersion : string;
  dpo_Hostname : string;
  dpo_DiskEncrypted : bool;
  dpo_ScreenLockEnabled : bool;
  dpo_AntivirusActive : bool;
  dpo_FirewallEnabled : bool;
}.

(** The machine: the output of a command ([None] when it fails), a file, and
    the host name. *)
Record machine := {
  output : list string -> option string;
  file : string -> option string;
  hostName : string;
}.
Implicit Types (mc : machine).

(** [strings.TrimSpace] on ASCII white space. *)
Definition is_space (a : ascii) : bool := let n := nat_of_ascii a in ((9 <=? n) && (n <=? 13) || (n =? 32))%nat.

Fixpoint trimLeft (s : string) : string :=
  match s with String a r => if is_space a then trimLeft r else s | EmptyString => "" end.

(** Behind the last character that is not a space. *)
Fixpoint trimRight (s : string) : string :=
  match s with
  | EmptyString => ""
  | String a r => match trimRight r with
                  | EmptyString => if is_space a then "" else String a ""
                  | r' => String a r'
                  end
  end.

Definition TrimSpace (s : string) : string := trimRight (trimLeft s).

Definition checkLinuxLUKS mc : bool :=
  match output mc ["lsblk"; "-o"; "TYPE"] with Some out => strings_Contains out "crypt" | None => false end.

Definition checkLinuxFirewall mc : bool :=
  (match output mc ["iptables"; "-L"; "-n"] with
   | Some out => (10 <? length (split_on (ascii_of_nat 10) out))%nat | None => false end)
  || (match output mc ["nft"; "list"; "ruleset"] with
      | Some out => (0 <? String.length (TrimSpace out))%nat | None => false end)
  || (match output mc ["ufw"; "status"] with Some out => strings_Contains out "active" | None => false end).

(** [strings.Trim] with a quotation mark. *)
Fixpoint dropQuotes (s : string) : string :=
  match s with String a r => if Nat.eqb (nat_of_ascii a) 34 then dropQuotes r else s | EmptyString => "" end.

Fixpoint dropQuotesRight (s : string) : string :=
  match s with
  | EmptyString => ""
  | String a r => match dropQuotesRight r with
                  | EmptyString => if Nat.eqb (nat_of_ascii a) 34 then "" else String a ""
                  | r' => String a r'
                  end
  end.

Fixpoint versionLine (lines : list string) : string :=
  match lines with
  | [] => "unknown"
  | line :: lines =>
      match cut_prefix line "VERSION_ID=" with
      | Some v => dropQuotesRight (dropQuotes v)
      | None => versionLine lines
      end
  end.

Definition getLinuxVersion mc : string :=
  match file mc "/etc/os-release" with
  | None => "unknown"
  | Some data => versionLine (split_on (ascii_of_nat 10) data)
  end.

Definition CollectPosture mc : DevicePosture := {|
  dpo_OSType := "linux"; dpo_OSVersion := getLinuxVersion mc; dpo_Hostname := hostName mc;
  dpo_DiskEncrypted := checkLinuxLUKS mc; dpo_ScreenLockEnabled := true; dpo_AntivirusActive := false;
  dpo_FirewallEnabled := checkLinuxFirewall mc |}.

(** ** The wire *)

(** A key of a struct: the values of all keys that match, one after the other,
    [None] for a value of the wrong type. *)
Fixpoint field_of {A} (dec : A -> json -> option A) (key : string) (old : A) (l : list (string * json)) : option A :=
  match l with
  | [] => Some old
  | (k, v) :: l => if same_key k key then new ← dec old v; field_of dec key new l else field_of dec key old l
  end.

Definition dec_string (old : string) (v : json) : option string :=
  match v with JString s => Some s | JNull => Some old | _ => None end.
Definition dec_bool (old : bool) (v : json) : option bool :=
  match v with JBool b => Some b | JNull => Some old | _ => None end.
Definition dec_int (old : Z) (v : json) : option Z :=
  match v with
  | JInt z => if ((min_int64 <=? z) && (z <=? max_int64))%Z then Some z else None
  | JNull => Some old
  | _ => None
  end.

(** A slice: [null] makes it nil; its elements start from zero. *)
Definition dec_slice {A} (dec : A -> json -> option A) (zero : A) (old : list A) (v : json) : option (list A) :=
  match v with JArray l => mapM (dec zero) l | JNull => Some [] | _ => None end.

Definition object (v : json) : option (list (string * json)) :=
  match v with JObject l => Some l | JNull => Some [] | _ => None end.

Record login_answer := { la_Token : string; la_ExpiresAt : Z; la_MFARequired : bool; la_MFAToken : string }.

Definition dec_login (v : json) : option login_answer :=
  l ← object v;
  t ← field_of dec_string "token" "" l; e ← field_of dec_int "expires_at" 0%Z l;
  r ← field_of dec_bool "mfa_required" false l; mt ← field_of dec_string "mfa_token" "" l;
  Some {| la_Token := t; la_ExpiresAt := e; la_MFARequired := r; la_MFAToken := mt |}.

Record GatewayEndpoint := {
  gep_ID : string;
  gep_Endpoint : string;
  gep_ServerKey : string;
  gep_Priority : Z;
  gep_HealthStatus : string;
}.

Definition dec_gateway (_ : GatewayEndpoint) (v : json) : option GatewayEndpoint :=
  l ← object v;
  i ← field_of dec_string "id" "" l; e ← field_of dec_string "endpoint" "" l;
  k ← field_of dec_string "server_public_key" "" l; p ← field_of dec_int "priority" 0%Z l;
  h ← field_of dec_string "health_status" "" l;
  Some {| gep_ID := i; gep_Endpoint := e; gep_ServerKey := k; gep_Priority := p; gep_HealthStatus := h |}.

Record NetworkConfig := {
  nc_ID : string;
  nc_Name : string;
  nc_Address : string;
  nc_AllowedIPs : list string;
  nc_DNS : list string;
  nc_Endpoint : string;
  nc_ServerKey : string;
}.

Definition dec_network (_ : NetworkConfig) (v : json) : option NetworkConfig :=
  l ← object v;
  i ← field_of dec_string "id" "" l; n ← field_of dec_string "name" "" l; a ← field_of dec_string "address" "" l;
  ips ← field_of (dec_slice dec_string "") "allowed_ips" [] l; dns ← field_of (dec_slice dec_string "") "dns" [] l;
  e ← field_of dec_string "endpoint" "" l; k ← field_of dec_string "server_public_key" "" l;
  Some {| nc_ID := i; nc_Name := n; nc_Address := a; nc_AllowedIPs := ips; nc_DNS := dns; nc_Endpoint := e; nc_ServerKey := k |}.

Record enrollmentResponse := {
  en_DeviceID : string;
  en_AllowedIPs : list string;
  en_DNS : list string;
  en_Endpoint : string;
  en_ServerKey : string;
  en_Address : string;
  en_Networks : list NetworkConfig;
  en_Gateways : list GatewayEndpoint;
}.

Definition no_gateway : GatewayEndpoint :=
  {| gep_ID := ""; gep_Endpoint := ""; gep_ServerKey := ""; gep_Priority := 0; gep_HealthStatus := "" |}.
Definition no_network : NetworkConfig :=
  {| nc_ID := ""; nc_Name := ""; nc_Address := ""; nc_AllowedIPs := []; nc_DNS := []; nc_Endpoint := ""; nc_ServerKey := "" |}.

Definition dec_enrollment (v : json) : option enrollmentResponse :=
  l ← object v;
  i ← field_of dec_string "device_id" "" l;
  ips ← field_of (dec_slice dec_string "") "allowed_ips" [] l; dns ← field_of (dec_slice dec_string "") "dns" [] l;
  e ← field_of dec_string "endpoint" "" l; k ← field_of dec_string "server_public_key" "" l;
  a ← field_of dec_string "address" "" l;
  ns ← field_of (dec_slice dec_network no_network) "networks" [] l;
  gs ← field_of (dec_slice dec_gateway no_gateway) "gateways" [] l;
  Some {| en_DeviceID := i; en_AllowedIPs := ips; en_DNS := dns; en_Endpoint := e; en_ServerKey := k; en_Address := a;
          en_Networks := ns; en_Gateways := gs |}.

Record PostureResult := { ps_ZTNABlocked : bool; ps_ZTNAReason : string; ps_TrustScore : Z; ps_TrustLevel : string }.

Definition dec_posture (v : json) : option PostureResult :=
  l ← object v;
  b ← field_of dec_bool "ztna_blocked" false l; r ← field_of dec_string "ztna_reason" "" l;
  s ← field_of dec_int "trust_score" 0%Z l; lv ← field_of dec_string "trust_level" "" l;
  Some {| ps_ZTNABlocked := b; ps_ZTNAReason := r; ps_TrustScore := s; ps_TrustLevel := lv |}.

(** *** What the core writes *)

(** [loginResponse] of [handler/auth.go]; [omitempty] drops zero values. *)
Definition enc_login (r : loginResponse) : json :=
  JObject ([("token", JString (lr_token r)); ("expires_at", JInt (lr_expires_at r))] ++
    (if lr_mfa_required r then [("mfa_required", JBool true)] else []) ++
    (if String.eqb (lr_mfa_token r) "" then [] else [("mfa_token", JString (lr_mfa_token r))]) ++
    (if lr_must_change r then [("password_must_change", JBool true)] else []))%list.

(** [gatewayEndpointResponse] and [enrollResponse] of [handler/device.go]. *)
Definition enc_gateway (g : gatewayEndpointResponse) : json :=
  JObject [("id", JString (ge_ID g)); ("endpoint", JString (ge_Endpoint g)); ("server_public_key", JString (ge_ServerPublicKey g));
           ("priority", JInt (ge_Priority g)); ("health_status", JString (ge_HealthStatus g))].

Definition enc_enroll (e : enrollResponse) : json :=
  JObject ([("device_id", JString (er_DeviceID e)); ("address", JString (er_Address e));
            ("dns", JArray (map JString (er_DNS e))); ("endpoint", JString (er_Endpoint e));
            ("server_public_key", JString (er_ServerPublicKey e)); ("allowed_ips", JArray (map JString (er_AllowedIPs e)));
            ("persistent_keepalive", JInt (er_PersistentKeepalive e))] ++
    (match er_Gateways e with [] => [] | l => [("gateways", JArray (map enc_gateway l))] end))%list.

(** The answer to a report, [map[string]any] of [handler/ztna.go]. *)
Definition enc_posture (y : postureReply) : json :=
  JObject ([("status", JString "accepted"); ("posture_score", JInt (ry_PostureScore y))] ++
    (match ry_Trust y with
     | Some (s, l) => [("trust_score", JInt s); ("trust_level", JString (Trust.level_text l))] | None => [] end) ++
    (match ry_Blocked y with
     | Some reason => [("ztna_blocked", JBool true); ("ztna_reason", JString reason)] | None => [] end))%list.

(** ** Calls to the core ([client.go]) *)

Record httpRequest := {
  hr_Method : string;
  hr_Path : string;
  hr_Body : option json;
  hr_Authorization : option string;
}.

(** An answer: its text and the JSON value in it, if it is one. *)
Record httpResponse := { hs_StatusCode : Z; hs_Text : string; hs_JSON : option json }.

(** [disk] holds the files of the configuration directory by name. *)
Record client := { c_token : string; c_deviceID : string; c_disk : gmap string string }.

Definition with_token (t : string) (c : client) : client :=
  {| c_token := t; c_deviceID := c_deviceID c; c_disk := c_disk c |}.
Definition with_device (i : string) (c : client) : client :=
  {| c_token := c_token c; c_deviceID := i; c_disk := c_disk c |}.
Definition with_disk (d : gmap string string) (c : client) : client :=
  {| c_token := c_token c; c_deviceID := c_deviceID c; c_disk := d |}.

(** What the file system does in one call: a failed write may leave the file
    as it was or with part of the content. *)
Inductive io := IoOk | IoFail (left_behind : option string).
Record io_call := { mkdirOk : bool; write_ : io; removeOk : bool }.

Section client.
Context {W : Type} (server : httpRequest -> W -> option httpResponse * W).
Implicit Types (k : io_call).

Definition K (A : Type) : Type := H (client * W) httpRequest A.

Definition the_client : K client := asks fst.
Definition setc (f : client -> client) : K unit := fun s => (inl tt, (f s.1, s.2), []).
Definition failed {A} (msg : string) : K A := stop (0, msg).
Definition orFail {A} (o : option A) (msg : string) : K A := match o with Some a => ret a | None => failed msg end.

(** [doRequest]: the token goes along when asked for and known. *)
Definition doRequest (what method path : string) (body : option json) (auth : bool) : K httpResponse := fun s =>
  let rq := {| hr_Method := method; hr_Path := path; hr_Body := body;
               hr_Authorization := if auth && negb (String.eqb (c_token s.1) "") then Some ("Bearer " ++ c_token s.1) else None |} in
  match server rq s.2 with
  | (Some r, w) => (inl r, (s.1, w), [rq])
  | (None, w) => (inr (0, what), (s.1, w), [rq])
  end.

(** [readError]: the error of the core, or its text. *)
Definition readError {A} (r : httpResponse) : K A :=
  failed ("server error (" ++ itoa (hs_StatusCode r) ++ "): " ++
    match (v ← hs_JSON r; l ← object v; field_of dec_string "error" "" l) with
    | Some e => if String.eqb e "" then hs_Text r else e
    | None => hs_Text r
    end).

Definition status_in (l : list Z) (r : httpResponse) : bool := existsb (Z.eqb (hs_StatusCode r)) l.

Definition decoded {A} (dec : json -> option A) (what : string) (r : httpResponse) : K A :=
  orFail (v ← hs_JSON r; dec v) what.

(** [saveToken]. *)
Definition saveFile k (name content : string) : K unit :=
  if negb (mkdirOk k) then failed "mkdir" else
  match write_ k with
  | IoOk => setc (fun c => with_disk (<[name := content]> (c_disk c)) c)
  | IoFail left_ =>
      do! setc (fun c => match left_ with Some x => with_disk (<[name := x]> (c_disk c)) c | None => c end) in failed "write"
  end.

Definition saveToken k (token : string) : K unit := saveFile k "token" token.

(** [Login] returns the answer together with the error of a failed save. *)
Definition Login k (username password : string) : K (login_answer * bool) :=
  let! resp := doRequest "login" "POST" "/api/v1/auth/login"
    (Some (JObject [("username", JString username); ("password", JString password)])) false in
  if negb (status_in [200%Z] resp) then readError resp else
  let! result := decoded dec_login "decode login response" resp in
  if la_MFARequired result then ret (result, true) else
  do! setc (with_token (la_Token result)) in
  let! saved := fun s => match saveToken k (la_Token result) s with
                         | (inl _, s', es) => (inl true, s', es) | (inr _, s', es) => (inl false, s', es) end in
  ret (result, saved).

Definition VerifyMFA k (mfaToken code method : string) : K unit :=
  let! resp := doRequest "verify mfa" "POST" "/api/v1/auth/mfa/verify"
    (Some (JObject [("mfa_token", JString mfaToken); ("code", JString code); ("method", JString method)])) false in
  if negb (status_in [200%Z] resp) then readError resp else
  let! result := decoded dec_login "decode mfa response" resp in
  do! setc (with_token (la_Token result)) in
  saveToken k (la_Token result).

Definition Enroll (publicKey deviceName : string) : K enrollmentResponse :=
  let! resp := doRequest "enroll" "POST" "/api/v1/devices/enroll"
    (Some (JObject [("wireguard_pubkey", JString publicKey); ("name", JString deviceName)])) true in
  if negb (status_in [200%Z; 201%Z] resp) then readError resp else
  let! result := decoded dec_enrollment "decode enrollment response" resp in
  do! setc (with_device (en_DeviceID result)) in
  ret result.

(** A map is written with its keys in order. *)
Definition enc_report (deviceID : string) (p : DevicePosture) : json :=
  JObject [("antivirus_active", JBool (dpo_AntivirusActive p)); ("device_id", JString deviceID);
           ("disk_encrypted", JBool (dpo_DiskEncrypted p)); ("firewall_enabled", JBool (dpo_FirewallEnabled p));
           ("os_type", JString (dpo_OSType p)); ("os_version", JString (dpo_OSVersion p));
           ("screen_lock_enabled", JBool (dpo_ScreenLockEnabled p))].

Definition ReportPosture (mc : machine) : K PostureResult :=
  let! c := the_client in
  if String.eqb (c_deviceID c) "" then failed "device not enrolledAs, cannot report posture" else
  let! resp := doRequest "report posture" "POST" "/api/v1/ztna/posture" (Some (enc_report (c_deviceID c) (CollectPosture mc))) true in
  if negb (status_in [200%Z] resp) then readError resp else
  decoded dec_posture "decode posture response" resp.

Definition RefreshSession k : K unit :=
  let! resp := doRequest "refresh session" "POST" "/api/v1/auth/refresh" None true in
  if negb (status_in [200%Z] resp) then readError resp else
  let! result := decoded dec_login "decode refresh response" resp in
  do! setc (with_token (la_Token result)) in
  saveToken k (la_Token result).

Definition Logout k : K unit :=
  let! resp := doRequest "logout" "POST" "/api/v1/auth/logout" None true in
  if negb (status_in [200%Z; 204%Z] resp) then readError resp else
  setc (fun c => with_disk (if removeOk k then delete "token" (c_disk c) else c_disk c) (with_token "" c)).

(** [ensureKeys]: the stored key when it is one, or a new one.  A key that
    cannot be written is not used. *)
Definition ensureKeys `{DeviceEnv} k : K (string * string) :=
  let! c := the_client in
  match (priv ← c_disk c !! "private.key"; pub ← wg_PublicKey priv; Some (priv, pub)) with
  | Some keys => ret keys
  | None =>
      let! privateKey := orFail GeneratePrivateKey "generate private key" in
      let! publicKey := orFail (wg_PublicKey privateKey) "derive public key" in
      do! saveFile k "private.key" privateKey in
      ret (privateKey, publicKey)
  end.

Definition LoadToken : K unit :=
  let! c := the_client in
  let! data := orFail (c_disk c !! "token") "read token" in
  let token := TrimSpace data in
  if String.eqb token "" then failed "token file is empty" else setc (with_token token).
End client.

(** ** The tunnel ([tunnel.go], [tunnel_userspace.go]) *)

Inductive TunnelState :=
| TunnelDisconnected | TunnelConnecting | TunnelConnected | TunnelReconnecting | TunnelMFARequired | TunnelZTNABlocked.

#[export] Instance TunnelState_eq_dec : EqDecision TunnelState.
Proof. solve_decision. Defined.

(** [runtime.GOOS]; the code has a case for each of the two. *)
Inductive goos := Darwin | Linux | OtherOS.

#[export] Instance goos_eq_dec : EqDecision goos.
Proof. solve_decision. Defined.

(** [wgtypes.PeerConfig] and [wgtypes.Config], with the fields the client sets. *)
Record wgPeer := {
  wp_PublicKey : string;
  wp_UpdateOnly : bool;
  wp_ReplaceAllowedIPs : bool;
  wp_AllowedIPs : list cidr;
  wp_Endpoint : option string;
  wp_Keepalive : option Z;
}.
Record wgConfig := { wgc_PrivateKey : option string; wgc_Peers : list wgPeer }.

(** What the manager does to the system; a command comes with its success. *)
Inductive deed :=
| Cmd (args : list string) (ok : bool)
| Configure (iface : string) (c : wgConfig)
| IpcSet (text : string)
| DeviceUp
| CloseDevice
| CloseTun
| Changed (s : TunnelState).

Record TunnelManager := {
  tm_state : TunnelState;
  tm_ifaceName : string;
  tm_wgDevice : bool;           (* an in-process device is held *)
  tm_tunDevice : bool;
  tm_gateways : list GatewayEndpoint;
  tm_currentGateway : nat;
  tm_allowedIPs : list string;
  tm_ztnaBlockReason : string;
}.

Definition set_state (s : TunnelState) (t : TunnelManager) : TunnelManager := {|
  tm_state := s; tm_ifaceName := tm_ifaceName t; tm_wgDevice := tm_wgDevice t; tm_tunDevice := tm_tunDevice t;
  tm_gateways := tm_gateways t; tm_currentGateway := tm_currentGateway t; tm_allowedIPs := tm_allowedIPs t;
  tm_ztnaBlockReason := tm_ztnaBlockReason t |}.
Definition set_device (iface : string) (w u : bool) (t : TunnelManager) : TunnelManager := {|
  tm_state := tm_state t; tm_ifaceName := iface; tm_wgDevice := w; tm_tunDevice := u;
  tm_gateways := tm_gateways t; tm_currentGateway := tm_currentGateway t; tm_allowedIPs := tm_allowedIPs t;
  tm_ztnaBlockReason := tm_ztnaBlockReason t |}.
Definition set_targets (l : list GatewayEndpoint) (i : nat) (ips : list string) (t : TunnelManager) : TunnelManager := {|
  tm_state := tm_state t; tm_ifaceName := tm_ifaceName t; tm_wgDevice := tm_wgDevice t; tm_tunDevice := tm_tunDevice t;
  tm_gateways := l; tm_currentGateway := i; tm_allowedIPs := ips; tm_ztnaBlockReason := tm_ztnaBlockReason t |}.
Definition set_reason (r : string) (t : TunnelManager) : TunnelManager := {|
  tm_state := tm_state t; tm_ifaceName := tm_ifaceName t; tm_wgDevice := tm_wgDevice t; tm_tunDevice := tm_tunDevice t;
  tm_gateways := tm_gateways t; tm_currentGateway := tm_currentGateway t; tm_allowedIPs := tm_allowedIPs t;
  tm_ztnaBlockReason := r |}.

Definition NewTunnelManager : TunnelManager := {|
  tm_state := TunnelDisconnected; tm_ifaceName := "outpost0"; tm_wgDevice := false; tm_tunDevice := false;
  tm_gateways := []; tm_currentGateway := 0; tm_allowedIPs := []; tm_ztnaBlockReason := "" |}.

(** Code outside: the 32 bytes of a key in hexadecimal, and the resolution of
    an endpoint. *)
Class KeyEnv : Type := {
  key_hex : string -> string;
  resolveUDP : string -> option string;
}.

(** What the system answers in one call: the output of the command that fails
    ([None]: it succeeds), the name of the new TUN device, and whether the
    other steps succeed. *)
Record os_call := {
  cmdFails : list string -> option string;
  tunName : option string;       (* [None]: CreateTUN fails *)
  nameOk : bool;
  wgctrlOk : bool;
  configureOk : bool;
  ipcOk : bool;
  upOk : bool;
}.

Section tunnel.
Context `{DeviceEnv} `{KeyEnv} (os : goos).
Implicit Types (k : os_call) (p : PeerConfig) (cfg : InterfaceConfig).

Definition T (A : Type) : Type := H TunnelManager deed A.

Definition modify (f : TunnelManager -> TunnelManager) : T unit := fun t => (inl tt, f t, []).
Definition does (d : deed) : T unit := emit (fun _ => [d]).
Definition refuse {A} (msg : string) : T A := stop (0, msg).

(** A command: its output when it fails. *)
Definition command k (args : list string) : T (option string) :=
  do! does (Cmd args (match cmdFails k args with None => true | Some _ => false end)) in
  ret (cmdFails k args).

(** A failure is passed over when the thing is there already. *)
Definition unless (known : string) (out : option string) (msg : string) : T unit :=
  match out with
  | Some o => if strings_Contains (TrimSpace o) known then ret tt else refuse msg
  | None => ret tt
  end.

Definition setState (s : TunnelState) : T unit :=
  let! old := asks tm_state in
  do! modify (set_state s) in
  when (negb (bool_decide (old = s))) (does (Changed s)).

(** *** Configurations *)

Definition ipcPeer (key : string) p : string :=
  "public_key=" ++ key_hex key ++ newline ++
  (if String.eqb (pc_Endpoint p) "" then "" else "endpoint=" ++ pc_Endpoint p ++ newline) ++
  foldr (fun c r => "allowed_ip=" ++ c ++ newline ++ r) "" (pc_AllowedIPs p) ++
  (if (0 <? pc_PersistentKeepalive p)%Z
   then "persistent_keepalive_interval=" ++ itoa (pc_PersistentKeepalive p) ++ newline else "").

(** Peers whose key does not parse are skipped. *)
Definition buildIpcConfig cfg : result string :=
  match wgtypes_ParseKey (ic_PrivateKey cfg) with
  | None => Err "parse private key"
  | Some priv =>
      Ok ("private_key=" ++ key_hex priv ++ newline ++
          foldr (fun p r => match wgtypes_ParseKey (pc_PublicKey p) with
                            | None => r | Some key => ipcPeer key p ++ r end) "" (ic_Peers cfg))
  end.

Definition buildIpcPeerConfig p : result string :=
  match wgtypes_ParseKey (pc_PublicKey p) with
  | None => Err "parse public key"
  | Some key => Ok (ipcPeer key p)
  end.

Definition wgPeerOf (updateOnly : bool) (key : string) p : wgPeer := {|
  wp_PublicKey := key; wp_UpdateOnly := updateOnly; wp_ReplaceAllowedIPs := true;
  wp_AllowedIPs := omap ParseCIDR (pc_AllowedIPs p);
  wp_Endpoint := if String.eqb (pc_Endpoint p) "" then None else resolveUDP (pc_Endpoint p);
  wp_Keepalive := if (0 <? pc_PersistentKeepalive p)%Z then Some (mul64 (pc_PersistentKeepalive p) second) else None |}.

Definition buildWgctrlPeerConfig p : result wgConfig :=
  match wgtypes_ParseKey (pc_PublicKey p) with
  | None => Err "parse public key"
  | Some key => Ok {| wgc_PrivateKey := None; wgc_Peers := [wgPeerOf true key p] |}
  end.

Definition buildWgctrlConfig cfg : result wgConfig :=
  match wgtypes_ParseKey (ic_PrivateKey cfg) with
  | None => Err "parse private key"
  | Some priv =>
      Ok {| wgc_PrivateKey := Some priv;
            wgc_Peers := omap (fun p => (fun key => wgPeerOf false key p) <$> wgtypes_ParseKey (pc_PublicKey p)) (ic_Peers cfg) |}
  end.

(** *** The interface *)

(** The dotted mask of a block, [net.IP(ipnet.Mask).String()]. *)
Definition maskText (c : cidr) : string := host (2 ^ 32 - cidr_size c).

Definition assignAddress k (iface addr : string) : T unit :=
  match os with
  | Darwin =>
      match split_on "/" addr, ParseCIDR addr with
      | ip :: _, Some block =>
          let! out := command k ["ifconfig"; iface; "inet"; ip; ip; "netmask"; maskText block] in
          match out with None => ret tt | Some _ => refuse "ifconfig" end
      | _, _ => refuse "invalid CIDR address"
      end
  | Linux =>
      let! out := command k ["ip"; "addr"; "add"; addr; "dev"; iface] in
      unless "File exists" out "ip addr add"
  | OtherOS => refuse "unsupported OS"
  end.

Definition setInterfaceUp k (iface : string) : T unit :=
  match os with
  | Darwin => let! out := command k ["ifconfig"; iface; "up"] in
              match out with None => ret tt | Some _ => refuse "ifconfig up" end
  | Linux => let! out := command k ["ip"; "link"; "set"; iface; "up"] in
             match out with None => ret tt | Some _ => refuse "ip link set up" end
  | OtherOS => refuse "unsupported OS"
  end.

(** A route that cannot be added is only logged. *)
Definition addRoute k (iface cidr : string) : T unit :=
  match os with
  | Darwin => let! _ := command k ["route"; "add"; "-net"; cidr; "-interface"; iface] in ret tt
  | Linux => let! _ := command k ["ip"; "route"; "add"; cidr; "dev"; iface] in ret tt
  | OtherOS => ret tt
  end.

Definition formatResolvConf (dns : list string) : string := strings_join newline (map (fun d => "nameserver " ++ d) dns).

Definition setDNS k (dns : list string) : T unit :=
  match os with
  | Linux =>
      let! iface := asks tm_ifaceName in
      let! _ := command k ["bash"; "-c";
        "echo '" ++ formatResolvConf dns ++ "' | resolvconf -a " ++ iface ++ " 2>/dev/null"] in ret tt
  | _ => ret tt
  end.

(** The steps both systems share after the device is configured. *)
Definition finishUp k (iface : string) cfg : T unit :=
  do! (if String.eqb (ic_Address cfg) "" then ret tt else assignAddress k iface (ic_Address cfg)) in
  do! setInterfaceUp k iface in
  do! forM (ic_Peers cfg) (fun p => forM (pc_AllowedIPs p) (addRoute k iface)) in
  when (nonempty (ic_DNS cfg)) (setDNS k (ic_DNS cfg)).

Definition darwinUp k cfg : T unit :=
  match tunName k with
  | None => refuse "create tun"
  | Some actualName =>
      if negb (nameOk k) then do! does CloseTun in refuse "get tun name" else
      do! (fun t => (inl tt, set_device actualName (tm_wgDevice t) (tm_tunDevice t) t, [])) in
      let abandon msg := do! does CloseDevice in do! does CloseTun in refuse msg in
      match buildIpcConfig cfg with
      | Err _ => abandon "build ipc config"
      | Ok ipcConf =>
          do! does (IpcSet ipcConf) in
          if negb (ipcOk k) then abandon "ipc set" else
          do! does DeviceUp in
          if negb (upOk k) then abandon "device up" else
          do! modify (set_device actualName true true) in
          finishUp k actualName cfg
      end
  end.

Definition linuxUp k cfg : T unit :=
  let! ifaceName := asks tm_ifaceName in
  let! out := command k ["ip"; "link"; "add"; ifaceName; "type"; "wireguard"] in
  do! unless "File exists" out "create interface" in
  if negb (wgctrlOk k) then refuse "wgctrl.New" else
  match buildWgctrlConfig cfg with
  | Err m => refuse m
  | Ok wgCfg =>
      if negb (configureOk k) then refuse "configure device" else
      do! does (Configure ifaceName wgCfg) in
      finishUp k ifaceName cfg
  end.

Definition userspaceUp k cfg : T unit :=
  if bool_decide (os = Darwin) then darwinUp k cfg else linuxUp k cfg.

Definition userspaceDown k : T unit :=
  let! t := asks id in
  do! when (tm_wgDevice t) (does CloseDevice) in
  do! when (tm_tunDevice t) (does CloseTun) in
  do! modify (fun t => set_device (tm_ifaceName t) false false t) in
  match os with
  | Darwin => let! _ := command k ["rm"; "-f"; "/var/run/wireguard/" ++ tm_ifaceName t ++ ".sock"] in ret tt
  | Linux => let! _ := command k ["ip"; "link"; "del"; tm_ifaceName t] in ret tt
  | OtherOS => ret tt
  end.

(** *** Connecting *)

Definition peersOfEnrollment (e : enrollmentResponse) : list PeerConfig :=
  match en_Networks e with
  | [] => [{| pc_PublicKey := en_ServerKey e; pc_AllowedIPs := en_AllowedIPs e; pc_Endpoint := en_Endpoint e;
              pc_PresharedKey := ""; pc_PersistentKeepalive := 25 |}]
  | ns => map (fun n => {| pc_PublicKey := nc_ServerKey n; pc_AllowedIPs := nc_AllowedIPs n; pc_Endpoint := nc_Endpoint n;
                           pc_PresharedKey := ""; pc_PersistentKeepalive := 25 |}) ns
  end.

Definition interfaceOf (privateKey : string) (e : enrollmentResponse) : InterfaceConfig := {|
  ic_PrivateKey := privateKey; ic_Address := en_Address e; ic_ListenPort := 0; ic_DNS := en_DNS e; ic_MTU := 0;
  ic_Peers := peersOfEnrollment e |}.

(** An error on the way leaves the tunnel disconnected. *)
Definition orDown (m : T unit) (msg : string) : T unit := fun t => match m t with
  | (inl a, t', es) => (inl a, t', es)
  | (inr _, t', es) => match (do! setState TunnelDisconnected in refuse (A := unit) msg) t' with
                       | (x, t2, fs) => (x, t2, (es ++ fs)%list) end
  end.

(** [Connect]; [keys] is what [ensureKeys] and [enroll] what [Enroll] returned. *)
Definition Connect k (keys : option (string * string)) (enroll : option enrollmentResponse) : T unit :=
  do! setState TunnelConnecting in
  match keys with
  | None => orDown (refuse (A := unit) "") "ensure keys"
  | Some (privateKey, _) =>
      match enroll with
      | None => orDown (refuse (A := unit) "") "enroll device"
      | Some e =>
          do! modify (set_targets (en_Gateways e) 0 (en_AllowedIPs e)) in
          do! orDown (userspaceUp k (interfaceOf privateKey e)) "bring up tunnel" in
          setState TunnelConnected
      end
  end.

(** [Disconnect]; the error of [userspaceDown] is always nil.  The file it
    removes at the end is written by nothing here. *)
Definition Disconnect k : T unit :=
  let! s := asks tm_state in
  if bool_decide (s = TunnelDisconnected) then ret tt else
  do! userspaceDown k in
  setState TunnelDisconnected.

(** *** The session loop *)

(** The log line slices the key, which panics on a short one. *)
Definition panic {A} (msg : string) : T A := stop (1, msg).

Definition applyPeerUpdate k p : T unit :=
  let! t := asks id in
  if (String.length (pc_PublicKey p) <? 8)%nat then panic "slice bounds out of range" else
  if tm_wgDevice t then
    match buildIpcPeerConfig p with
    | Err m => refuse m
    | Ok ipc => do! does (IpcSet ipc) in if ipcOk k then ret tt else refuse "ipc set"
    end
  else if negb (wgctrlOk k) then refuse "wgctrl.New" else
  match buildWgctrlPeerConfig p with
  | Err m => refuse m
  | Ok c => do! does (Configure (tm_ifaceName t) c) in if configureOk k then ret tt else refuse "configure"
  end.

Definition failoverPeer (g : GatewayEndpoint) (ips : list string) : PeerConfig := {|
  pc_PublicKey := gep_ServerKey g; pc_AllowedIPs := ips; pc_Endpoint := gep_Endpoint g; pc_PresharedKey := "";
  pc_PersistentKeepalive := 25 |}.

(** Errors of the update are logged, a panic is not caught.  The device is
    only held on macOS. *)
Definition logged (m : T unit) : T unit := fun t =>
  match m t with
  | (inr (code, msg), t', es) => if Z.eqb code 1 then (inr (code, msg), t', es) else (inl tt, t', es)
  | r => r
  end.

Definition failoverToNextGateway k : T unit :=
  let! t := asks id in
  if (length (tm_gateways t) <=? 1)%nat then ret tt else
  let next := ((tm_currentGateway t + 1) mod length (tm_gateways t))%nat in
  do! modify (set_targets (tm_gateways t) next (tm_allowedIPs t)) in
  match tm_gateways t !! next with
  | Some newGW =>
      when (tm_wgDevice t) (logged (applyPeerUpdate k (failoverPeer newGW (tm_allowedIPs t))))
  | None => ret tt
  end.

Definition handleZTNABlock k (reason : string) : T unit :=
  do! modify (set_reason reason) in
  do! userspaceDown k in
  setState TunnelZTNABlocked.

(** [getLastHandshake] over the peers of the device ([None]: it cannot be
    read); the zero time is [None]. *)
Definition getLastHandshake (peers : option (list (option Z))) : option Z :=
  match peers with
  | None => None
  | Some l => foldl (fun latest hs => match hs, latest with
                                     | Some t, Some t0 => if (t0 <? t)%Z then Some t else Some t0
                                     | Some t, None => Some t
                                     | None, _ => latest
                                     end) None l
  end.

(** What a ticker brings: the answer to a posture report ([None]: it failed),
    whether the refresh succeeded, the age of the last handshake ([None]:
    there was none); or the context is done. *)
Inductive tick :=
| PostureTick (r : option PostureResult)
| RefreshTick (ok : bool)
| HealthTick (age : option Z)
| Done.

(** The loop: its counter, [None] when it has returned. *)
Definition staleHandshake (age : option Z) : bool :=
  match age with None => true | Some a => (45 * second <? a)%Z end.

Definition onTick k (count : nat) (e : tick) : T (option nat) :=
  let! s := asks tm_state in
  let! t := asks id in
  match e with
  | Done => ret None
  | PostureTick r =>
      if bool_decide (s = TunnelConnected) then
        match r with
        | Some r => if ps_ZTNABlocked r then do! handleZTNABlock k (ps_ZTNAReason r) in ret None else ret (Some count)
        | None => ret (Some count)
        end
      else ret (Some count)
  | RefreshTick ok => if ok then ret (Some count) else do! setState TunnelMFARequired in ret (Some count)
  | HealthTick age =>
      if negb (bool_decide (s = TunnelConnected)) then ret (Some 0%nat) else
      if (length (tm_gateways t) <=? 1)%nat then ret (Some count) else
      if staleHandshake age then
        let count := S count in
        if (3 <=? count)%nat then do! failoverToNextGateway k in ret (Some 0%nat) else ret (Some count)
      else ret (Some 0%nat)
  end.

(** [RunSessionLoop] from its first select on, over what the tickers and the
    context bring. *)
Fixpoint loop k (count : option nat) (l : list tick) : T (option nat) :=
  match count, l with
  | None, _ | _, [] => ret count
  | Some n, e :: l => let! c := onTick k n e in loop k c l
  end.

(** The report made on entry. *)
Definition RunSessionLoop k (first : option PostureResult) (l : list tick) : T (option nat) :=
  let! s := asks tm_state in
  match first with
  | Some r => if bool_decide (s = TunnelConnected) && ps_ZTNABlocked r
              then do! handleZTNABlock k (ps_ZTNAReason r) in ret None else loop k (Some 0%nat) l
  | None => loop k (Some 0%nat) l
  end.
End tunnel.

(** ** The tunnel follows its events *)

Section tunnel_proofs.
Context `{DeviceEnv} `{KeyEnv} (os : goos) (k : os_call).
Implicit Types (t : TunnelManager) (l : list tick).

(** *** Bringing the interface up and down leaves the session alone *)

Record same_session t0 t : Prop := {
  ss_state : tm_state t = tm_state t0;
  ss_gateways : tm_gateways t = tm_gateways t0;
  ss_current : tm_currentGateway t = tm_currentGateway t0;
  ss_ips : tm_allowedIPs t = tm_allowedIPs t0;
  ss_reason : tm_ztnaBlockReason t = tm_ztnaBlockReason t0;
}.

Lemma same_session_refl t : same_session t t.
Proof. by split. Qed.

Lemma keeps_modify (I : TunnelManager -> Prop) f : (forall t, I t -> I (f t)) -> preserves I (modify f).
Proof. intros Hf t Ht. cbn. auto. Qed.

Lemma keeps_does (I : TunnelManager -> Prop) d : preserves I (does d).
Proof. apply preserves_emit. Qed.

Lemma keeps_command (I : TunnelManager -> Prop) args : preserves I (command k args).
Proof. apply preserves_bind; [apply keeps_does|intros; apply preserves_ret]. Qed.

Lemma keeps_unless (I : TunnelManager -> Prop) known out msg : preserves I (unless known out msg).
Proof. unfold unless. destruct out; [destruct (strings_Contains _ _)|]; auto with handlers. apply preserves_stop. Qed.

Ltac keep_steps := repeat lazymatch goal with
  | |- preserves _ (bind _ _) => apply preserves_bind; [|intros ?]
  | |- preserves _ (command _ _) => apply keeps_command
  | |- preserves _ (does _) => apply keeps_does
  | |- preserves _ (unless _ _ _) => apply keeps_unless
  | |- preserves _ (ret _) => apply preserves_ret
  | |- preserves _ (stop _) => apply preserves_stop
  | |- preserves _ (asks _) => apply preserves_asks
  | |- preserves _ (when _ _) => apply preserves_when
  | |- preserves _ (forM _ _) => apply preserves_forM; intros ? ?
  | |- preserves _ (match ?x with _ => _ end) => destruct x
  end.

Lemma finishUp_keeps (I : TunnelManager -> Prop) iface cfg : preserves I (finishUp os k iface cfg).
Proof. unfold finishUp, assignAddress, setInterfaceUp, addRoute, setDNS, refuse. keep_steps. Qed.

Lemma userspaceUp_keeps t0 cfg : preserves (same_session t0) (userspaceUp os k cfg).
Proof.
  assert (forall i w u, preserves (same_session t0) (modify (set_device i w u))) as Hm.
  { intros i w u. apply keeps_modify. by intros t []. }
  unfold userspaceUp, darwinUp, linuxUp, refuse. keep_steps; try apply finishUp_keeps; try apply Hm.
  all: intros t [? ? ? ? ?]; by split.
Qed.

Definition cmd (args : list string) : deed := Cmd args (match cmdFails k args with None => true | Some _ => false end).

Lemma command_run args t : command k args t = (inl (cmdFails k args), t, [cmd args]).
Proof. reflexivity. Qed.

Definition downDeeds t : list deed :=
  (if tm_wgDevice t then [CloseDevice] else []) ++ (if tm_tunDevice t then [CloseTun] else []) ++
  match os with
  | Darwin => [cmd ["rm"; "-f"; ("/var/run/wireguard/" ++ tm_ifaceName t ++ ".sock")%string]]
  | Linux => [cmd ["ip"; "link"; "del"; tm_ifaceName t]]
  | OtherOS => []
  end.

(** Neither a configuration nor an update of a peer. *)
Definition harmless (d : deed) : Prop := match d with Configure _ _ | IpcSet _ => False | _ => True end.

Lemma userspaceDown_run t : userspaceDown os k t = (inl tt, set_device (tm_ifaceName t) false false t, downDeeds t).
Proof.
  unfold userspaceDown, downDeeds, cmd. unfold bind at 1 2 3 4, asks, when, does, emit, modify, ret, id.
  destruct (tm_wgDevice t), (tm_tunDevice t), os; cbn -[String.append]; reflexivity.
Qed.

Lemma downDeeds_harmless t : Forall harmless (downDeeds t).
Proof. unfold downDeeds. destruct (tm_wgDevice t), (tm_tunDevice t), os; repeat constructor. Qed.

Lemma downDeeds_linux t : os = Linux -> cmd ["ip"; "link"; "del"; tm_ifaceName t] ∈ downDeeds t.
Proof. intros Hos. unfold downDeeds. rewrite Hos, !elem_of_app. right. right. by left. Qed.

Lemma setState_run s t : exists es, setState s t = (inl tt, set_state s t, es) /\
  Forall harmless es.
Proof.
  unfold setState, bind, asks, modify, when, does, emit, ret. cbn. destruct (negb _); cbn; eexists; (split; [reflexivity|]); repeat constructor.
Qed.

(** *** Connecting *)

Lemma orDown_fails m msg t x t' es : orDown m msg t = (x, t', es) ->
  match x with inl _ => m t = (inl tt, t', es) | inr _ => tm_state t' = TunnelDisconnected end.
Proof.
  unfold orDown. destruct (m t) as [[[[]|e] t1] es1]; [by intros [= <- <- <-]|]. unfold bind at 1.
  destruct (setState_run TunnelDisconnected t1) as (fs & -> & _). by intros [= <- <- <-].
Qed.

(** Connecting ends connected or disconnected: when it succeeds, the
    interface was brought up with exactly the key, the address and the peers
    of the enrolment, and the gateways to fall back on are those of the
    enrolment with the first one current; when anything fails the state is
    disconnected. *)
Theorem Connect_exact keys enroll t x t' es (Hrun : Connect os k keys enroll t = (x, t', es)) :
  match x with
  | inl _ => tm_state t' = TunnelConnected /\ exists priv pub e t1 t2 fs, keys = Some (priv, pub) /\ enroll = Some e /\
      userspaceUp os k (interfaceOf priv e) t1 = (inl tt, t2, fs) /\ (forall d, d ∈ fs -> d ∈ es) /\
      tm_gateways t' = en_Gateways e /\ tm_currentGateway t' = 0%nat /\ tm_allowedIPs t' = en_AllowedIPs e
  | inr _ => tm_state t' = TunnelDisconnected
  end.
Proof.
  revert Hrun. unfold Connect. unfold bind at 1. destruct (setState_run TunnelConnecting t) as (es0 & -> & _).
  destruct keys as [[priv pub]|].
  2:{ destruct (orDown _ _ _) as [[y t1] es1] eqn:Ho. intros [= <- <- <-]. apply orDown_fails in Ho. by destruct y. }
  destruct enroll as [e|].
  2:{ destruct (orDown _ _ _) as [[y t1] es1] eqn:Ho. intros [= <- <- <-]. apply orDown_fails in Ho. by destruct y. }
  unfold bind at 1 2, modify. destruct (orDown _ _ _) as [[[[]|y] t1] es1] eqn:Ho; apply orDown_fails in Ho.
  2:{ by intros [= <- <- <-]. }
  pose proof (userspaceUp_keeps (set_targets (en_Gateways e) 0 (en_AllowedIPs e) (set_state TunnelConnecting t))
    (interfaceOf priv e) _ (same_session_refl _)) as Hk. unfold wp in Hk. rewrite Ho in Hk. destruct Hk as [_ Hg Hc Hi _].
  destruct (setState_run TunnelConnected t1) as (es2 & -> & _). intros [= <- <- <-]. cbn. split; [done|].
  exists priv, pub, e. do 3 eexists. split_and!; [done|done|exact Ho| |done..].
  intros d Hd. rewrite !elem_of_app. auto.
Qed.

(** *** The loop *)

Lemma pure_asks_bind {A C} (f : TunnelManager -> A) (g : A -> T C) t : bind (asks f) g t = g (f t) t.
Proof. unfold bind, asks. by destruct (g (f t) t) as [[? ?] ?]. Qed.

(** The keys of the gateways are long enough for the log line. *)
Definition keys_long t : Prop := tm_wgDevice t = true -> Forall (fun g => (8 <= String.length (gep_ServerKey g))%nat) (tm_gateways t).

Lemma applyPeerUpdate_logged p t : (8 <= String.length (pc_PublicKey p))%nat ->
  exists es, logged (applyPeerUpdate k p) t = (inl tt, t, es).
Proof.
  intros Hp. unfold logged, applyPeerUpdate. rewrite pure_asks_bind.
  rewrite (proj2 (Nat.ltb_ge _ _) Hp). unfold id. destruct (tm_wgDevice t).
  - destruct (buildIpcPeerConfig p); [|cbn; eauto]. unfold bind, does, emit. destruct (ipcOk k); cbn; eauto.
  - destruct (wgctrlOk k); [|cbn; eauto]. cbn [negb]. destruct (buildWgctrlPeerConfig p); [|cbn; eauto].
    unfold bind, does, emit. destruct (configureOk k); cbn; eauto.
Qed.

Definition failed_over t : TunnelManager :=
  set_targets (tm_gateways t) ((tm_currentGateway t + 1) mod length (tm_gateways t)) (tm_allowedIPs t) t.

Lemma failover_run t : keys_long t -> (1 < length (tm_gateways t))%nat ->
  exists es, failoverToNextGateway k t = (inl tt, failed_over t, es) /\ (tm_wgDevice t = false -> es = []).
Proof.
  intros Hk Hn. unfold failoverToNextGateway. rewrite pure_asks_bind. unfold id.
  rewrite (proj2 (Nat.leb_gt _ _) Hn). unfold bind, modify.
  destruct (tm_gateways t !! _) as [g|] eqn:Hg; [|by eexists].
  unfold when. destruct (tm_wgDevice t) eqn:Hw; [|by eexists].
  destruct (applyPeerUpdate_logged (failoverPeer g (tm_allowedIPs t)) (failed_over t)) as [es Hes].
  { cbn. specialize (Hk Hw). rewrite Forall_lookup in Hk. by eapply Hk. }
  unfold failed_over in Hes. rewrite Hes. by eexists.
Qed.

(** The effect of one event, where nothing panics. *)
Definition next (n : nat) (e : tick) t : option nat * TunnelManager :=
  match e with
  | PostureTick (Some r) =>
      if bool_decide (tm_state t = TunnelConnected) && ps_ZTNABlocked r
      then (None, set_state TunnelZTNABlocked (set_device (tm_ifaceName t) false false (set_reason (ps_ZTNAReason r) t)))
      else (Some n, t)
  | PostureTick None => (Some n, t)
  | RefreshTick ok => (Some n, if ok then t else set_state TunnelMFARequired t)
  | Done => (None, t)
  | HealthTick age =>
      if negb (bool_decide (tm_state t = TunnelConnected)) then (Some 0%nat, t)
      else if (length (tm_gateways t) <=? 1)%nat then (Some n, t)
      else if staleHandshake age then if (3 <=? S n)%nat then (Some 0%nat, failed_over t) else (Some (S n), t)
      else (Some 0%nat, t)
  end.

Lemma onTick_next n e t : keys_long t ->
  exists es, onTick os k n e t = (inl (next n e t).1, (next n e t).2, es) /\
    (tm_wgDevice t = false -> Forall harmless es) /\
    (tm_state t <> TunnelZTNABlocked -> tm_state (next n e t).2 = TunnelZTNABlocked -> os = Linux ->
       cmd ["ip"; "link"; "del"; tm_ifaceName t] ∈ es).
Proof.
  intros Hk. unfold onTick. rewrite !pure_asks_bind. unfold id. destruct e as [[r|]|ok|age|]; cbn [next].
  - destruct (bool_decide _); [|by eexists]. destruct (ps_ZTNABlocked r); cbn [andb]; [|by eexists].
    unfold handleZTNABlock. unfold bind at 1 2 3, modify. rewrite userspaceDown_run.
    match goal with |- context [setState ?s ?x] => destruct (setState_run s x) as (es & Hes & Hh) end. rewrite Hes. cbn [ret]. eexists. split; [reflexivity|].
    rewrite app_nil_r. cbn [app]. split; [intros _; apply Forall_app_2; [apply downDeeds_harmless|done]|].
    intros _ _ Hos. rewrite elem_of_app. left. by apply (downDeeds_linux (set_reason (ps_ZTNAReason r) t)).
  - destruct (bool_decide _); by eexists.
  - destruct ok; [by eexists|]. unfold bind. destruct (setState_run TunnelMFARequired t) as (es & -> & Hh). cbn.
    rewrite app_nil_r. by eexists.
  - destruct (bool_decide _); cbn [negb]; [|by eexists]. destruct (Nat.leb_spec (length (tm_gateways t)) 1) as [Hl|Hl]; [by eexists|].
    destruct (staleHandshake age); [|by eexists]. cbv zeta. destruct (3 <=? S n)%nat; [|by eexists].
    unfold bind. destruct (failover_run t Hk Hl) as (es & -> & Hes). cbn. eexists. split; [reflexivity|].
    split; [|done]. intros Hw. by rewrite (Hes Hw).
  - by eexists.
Qed.

Lemma next_long n e t : keys_long t -> keys_long (next n e t).2.
Proof.
  unfold keys_long. intros Hk. destruct e as [[r|]|[]|age|]; cbn [next]; repeat case_match; cbn; done.
Qed.

Lemma next_iface n e t : tm_ifaceName (next n e t).2 = tm_ifaceName t.
Proof. destruct e as [[r|]|[]|age|]; cbn [next]; repeat case_match; done. Qed.

(** The whole loop. *)
Fixpoint nexts (n : option nat) l t : option nat * TunnelManager :=
  match n, l with
  | None, _ | _, [] => (n, t)
  | Some n, e :: l => nexts (next n e t).1 l (next n e t).2
  end.

Lemma nexts_None l t : nexts None l t = (None, t).
Proof. by destruct l. Qed.

Lemma loop_None l t : loop os k None l t = (inl None, t, []).
Proof. by destruct l. Qed.

Lemma loop_nexts l : forall n t, keys_long t ->
  exists es, loop os k (Some n) l t = (inl (nexts (Some n) l t).1, (nexts (Some n) l t).2, es) /\
    (tm_wgDevice t = false -> Forall harmless es) /\
    (tm_state t <> TunnelZTNABlocked -> tm_state (nexts (Some n) l t).2 = TunnelZTNABlocked -> os = Linux ->
       cmd ["ip"; "link"; "del"; tm_ifaceName t] ∈ es).
Proof.
  induction l as [|e l IH]; intros n t Hk; cbn [loop nexts]; [by eexists|].
  unfold bind. destruct (onTick_next n e t Hk) as (es & -> & Hh & Hd).
  pose proof (next_long n e t Hk) as Hk'. pose proof (next_iface n e t) as Hi.
  assert (tm_wgDevice t = false -> tm_wgDevice (next n e t).2 = false) as Hw.
  { destruct e as [[r|]|[]|age|]; cbn [next]; repeat case_match; done. }
  destruct (next n e t) as [[m|] t1]; cbn [fst snd] in *.
  - destruct (IH m t1 Hk') as (fs & -> & Hf & Hd2). eexists. split; [reflexivity|]. split.
    + intros Ht. apply Forall_app_2; auto.
    + intros Ht Hn Hos. rewrite elem_of_app. destruct (decide (tm_state t1 = TunnelZTNABlocked)); [left; auto|].
      right. rewrite <- Hi. auto.
  - rewrite loop_None, nexts_None. eexists. split; [reflexivity|]. rewrite app_nil_r. auto.
Qed.

(** The ages the health ticker saw. *)
Definition ages l : list (option Z) := omap (fun e => match e with HealthTick a => Some a | _ => None end) l.

Definition three_stale (al : list (option Z)) : Prop :=
  exists (l1 : list (option Z)) a b c (l2 : list (option Z)), al = (l1 ++ a :: b :: c :: l2)%list /\ staleHandshake a = true /\ staleHandshake b = true /\ staleHandshake c = true.

Lemma three_stale_app (l1 al : list (option Z)) : three_stale al -> three_stale (l1 ++ al)%list.
Proof. intros (k1 & a & b & c & k2 & -> & Hs). exists (l1 ++ k1)%list, a, b, c, k2. by rewrite <- app_assoc. Qed.

(** [n] stale checks stand before the rest. *)
Lemma next_current_same n e t : (forall age, e <> HealthTick age) -> tm_currentGateway (next n e t).2 = tm_currentGateway t.
Proof. intros He. destruct e as [[r|]|[]|age|]; cbn [next]; repeat case_match; cbn; try done. by destruct (He age). Qed.

Lemma nexts_stale l : forall n t, (n < 3)%nat -> tm_currentGateway (nexts (Some n) l t).2 <> tm_currentGateway t ->
  three_stale (replicate n None ++ ages l)%list.
Proof.
  induction l as [|e l IH]; intros n t Hn; cbn [nexts]; [done|].
  destruct e as [[r|]|ok|age|]; cbn [next].
  - destruct (_ && _); [cbn [nexts]; destruct l; done|]. by apply IH.
  - by apply IH.
  - intros Hc. apply (IH n (if ok then t else set_state TunnelMFARequired t)); [done|]. by destruct ok.
  - change (ages (HealthTick age :: l)) with (age :: ages l). assert (forall m, (m < 3)%nat -> tm_currentGateway (nexts (Some 0%nat) l t).2 <> tm_currentGateway t ->
      three_stale (replicate m None ++ age :: ages l)%list) as Hreset.
    { intros m Hm Hc. apply (IH 0%nat t) in Hc; [|lia]. apply three_stale_app. by apply (three_stale_app [age]). }
    destruct (bool_decide _); cbn [negb]; [|by apply Hreset].
    destruct (length (tm_gateways t) <=? 1)%nat eqn:Hl.
    { intros Hc. exfalso. revert Hc. clear -Hl.
      assert (forall t n, tm_gateways t = tm_gateways t -> (length (tm_gateways t) <=? 1)%nat = true ->
        tm_currentGateway (nexts n l t).2 = tm_currentGateway t) as Hsame.
      { clear. induction l as [|e l IH]; intros t [n|] _ Hl; cbn [nexts]; try done.
        assert (tm_gateways (next n e t).2 = tm_gateways t /\ tm_currentGateway (next n e t).2 = tm_currentGateway t) as [Hg Hc].
        { destruct e as [[r|]|[]|age|]; cbn [next]; rewrite ?Hl; repeat case_match; done. }
        rewrite IH; [done|done|by rewrite Hg]. }
      intros Hc. by apply Hc, Hsame. }
    destruct (staleHandshake age) eqn:Hs; [|by apply Hreset].
    destruct n as [|[|[|n]]]; cbn [Nat.leb]; [| | |lia].
    + intros Hc. apply (IH 1%nat t) in Hc; [|lia]. destruct Hc as ([|x l1] & a & b & c & l2 & Heq & Ha & Hb & Hc); cbn in Heq.
      * injection Heq as E1 E2. exists [], age, b, c, l2. cbn [app replicate]. by rewrite E2.
      * injection Heq as E1 E2. exists (age :: l1), a, b, c, l2. cbn [app replicate]. by rewrite E2.
    + intros Hc. apply (IH 2%nat t) in Hc; [|lia].
      destruct Hc as ([|x [|y l1]] & a & b & c & l2 & Heq & Ha & Hb & Hc); cbn in Heq; injection Heq as E1 E2 E3.
      * exists [], None, age, c, l2. cbn [app replicate]. by rewrite E3.
      * exists [None], age, b, c, l2. cbn [app replicate]. by rewrite E3.
      * exists (None :: age :: l1), a, b, c, l2. cbn [app replicate]. by rewrite E3.
    + intros _. exists [], None, None, age, (ages l). done.
  - cbn [nexts fst snd]. by rewrite nexts_None.
Qed.

(** The client changes its gateway only after three stale checks in a
    row: if, along any events, the current gateway is another one at the end,
    then the ages seen by the health ticker have three consecutive entries
    without a handshake in the last 45 seconds. *)
Theorem failover_needs_three l t c t' es (Hk : keys_long t)
    (Hrun : loop os k (Some 0%nat) l t = (inl c, t', es)) (Hch : tm_currentGateway t' <> tm_currentGateway t) :
  three_stale (ages l).
Proof.
  destruct (loop_nexts l 0 t Hk) as (fs & Hl & _). rewrite Hl in Hrun. injection Hrun as _ <- _.
  apply (nexts_stale l 0 t); [lia|done].
Qed.

Lemma next_stale n a t : staleHandshake a = true -> tm_state t = TunnelConnected -> (1 < length (tm_gateways t))%nat ->
  next n (HealthTick a) t = if (3 <=? S n)%nat then (Some 0%nat, failed_over t) else (Some (S n), t).
Proof.
  intros Ha Hs Hn. unfold next. rewrite Hs, Ha, bool_decide_eq_true_2 by done. cbn [negb].
  by rewrite (proj2 (Nat.leb_gt _ _) Hn).
Qed.

(** Three stale checks in a row move on to the next gateway. *)
Lemma nexts_three a b c l t : staleHandshake a = true -> staleHandshake b = true -> staleHandshake c = true ->
  tm_state t = TunnelConnected -> (1 < length (tm_gateways t))%nat ->
  nexts (Some 0%nat) (HealthTick a :: HealthTick b :: HealthTick c :: l) t = nexts (Some 0%nat) l (failed_over t).
Proof.
  intros Ha Hb Hc Hs Hn. unfold nexts; fold nexts. rewrite (next_stale 0 a) by done. cbn [Nat.leb fst snd].
  rewrite (next_stale 1 b) by done. cbn [Nat.leb fst snd]. by rewrite (next_stale 2 c) by done.
Qed.

Lemma nexts_rounds j : forall l t, length l = (3 * j)%nat -> Forall (fun e => exists a, e = HealthTick a /\ staleHandshake a = true) l ->
  tm_state t = TunnelConnected -> (1 < length (tm_gateways t))%nat -> (tm_currentGateway t < length (tm_gateways t))%nat ->
  nexts (Some 0%nat) l t =
    (Some 0%nat, set_targets (tm_gateways t) ((tm_currentGateway t + j) mod length (tm_gateways t)) (tm_allowedIPs t) t).
Proof.
  induction j as [|j IH]; intros l t Hl Hall Hs Hn Hc.
  - destruct l; [|done]. cbn. rewrite Nat.add_0_r, Nat.mod_small by done. by destruct t.
  - destruct l as [|e1 [|e2 [|e3 l]]]; cbn in Hl; try lia.
    apply Forall_cons in Hall as [(a & -> & Ha) Hall]. apply Forall_cons in Hall as [(b & -> & Hb) Hall].
    apply Forall_cons in Hall as [(c & -> & Hcc) Hall]. rewrite nexts_three by done.
    rewrite IH; [|lia|done|done|done|cbn; apply Nat.mod_upper_bound; lia]. cbn. f_equal. unfold set_targets, failed_over. cbn. f_equal.
    rewrite Nat.Div0.add_mod_idemp_l. f_equal. lia.
Qed.

(** The index of the current gateway goes round: after [3 j] stale checks in a
    row it stands [j] places on, cyclically.  What the device is told is another
    matter: see [failover_reaches_no_device] and [failover_update_only]. *)
Theorem every_gateway_tried l t j (Hk : keys_long t) (Hl : length l = (3 * j)%nat)
    (Hstale : Forall (fun e => exists a, e = HealthTick a /\ staleHandshake a = true) l)
    (Hs : tm_state t = TunnelConnected) (Hn : (1 < length (tm_gateways t))%nat)
    (Hc : (tm_currentGateway t < length (tm_gateways t))%nat) :
  exists es t', loop os k (Some 0%nat) l t = (inl (Some 0%nat), t', es) /\ tm_state t' = TunnelConnected /\
    tm_gateways t' = tm_gateways t /\
    tm_currentGateway t' = ((tm_currentGateway t + j) mod length (tm_gateways t))%nat.
Proof.
  destruct (loop_nexts l 0 t Hk) as (es & Hrun & _). rewrite (nexts_rounds j) in Hrun by done.
  exists es. eexists. split; [exact Hrun|]. done.
Qed.

(** *** Blocked devices *)

(** An event after which reports may still be made. *)
Definition quiet (e : tick) : bool := match e with RefreshTick false | Done => false | _ => true end.

(** A device that is told so, while no refresh has failed and the context is
    not done. *)
Definition told_blocked l : Prop :=
  exists l1 r l2, l = (l1 ++ PostureTick (Some r) :: l2)%list /\ ps_ZTNABlocked r = true /\ Forall (fun e => quiet e = true) l1.

Lemma told_cons e l : quiet e = true -> (forall r, e = PostureTick (Some r) -> ps_ZTNABlocked r = false) ->
  told_blocked (e :: l) <-> told_blocked l.
Proof.
  intros He Hb. split.
  - intros (l1 & r & l2 & Heq & Hr & Hf). destruct l1 as [|x l1]; injection Heq as -> ->.
    + by rewrite (Hb r) in Hr.
    + exists l1, r, l2. apply Forall_cons in Hf as [_ Hf]. done.
  - intros (l1 & r & l2 & -> & Hr & Hf). exists (e :: l1), r, l2. split_and!; [done|done|by constructor].
Qed.

Lemma not_told e l : quiet e = false -> ~ told_blocked (e :: l).
Proof.
  intros He (l1 & r & l2 & Heq & _ & Hf). destruct l1 as [|x l1]; injection Heq as -> ->; [done|].
  apply Forall_cons in Hf as [? _]. congruence.
Qed.

(** Without a session nothing is reported, and only the context ends the loop. *)
Lemma nexts_mfa l : forall n t, tm_state t = TunnelMFARequired ->
  ((nexts (Some n) l t).1 = None <-> Done ∈ l) /\ tm_state (nexts (Some n) l t).2 = TunnelMFARequired /\
  tm_currentGateway (nexts (Some n) l t).2 = tm_currentGateway t.
Proof.
  induction l as [|e l IH]; intros n t Hs; cbn [nexts].
  { split_and!; try done. split; [done|]. by intros ?%elem_of_nil. }
  rewrite elem_of_cons. assert (e = Done \/ e <> Done) as [->|Hne] by (destruct e; auto).
  { cbn [next fst snd]. rewrite nexts_None. split_and!; try done. split; [by left|done]. }
  assert (exists m, next n e t = (Some m, t) \/ next n e t = (Some m, set_state TunnelMFARequired t)) as [m [->| ->]].
  { destruct e as [[r|]|[]|age|]; cbn [next]; rewrite ?Hs; cbn; eauto. done. }
  - cbn [fst snd]. destruct (IH m t Hs) as (-> & ? & ?). split_and!; try done. split; [by right|by intros [<-|?]].
  - cbn [fst snd]. destruct (IH m (set_state TunnelMFARequired t) eq_refl) as (-> & ? & ?). split_and!; try done.
    split; [by right|by intros [<-|?]].
Qed.

Lemma nexts_blocked l : forall n t, tm_state t = TunnelConnected ->
  ((nexts (Some n) l t).1 = None <-> told_blocked l \/ Done ∈ l) /\
  (tm_state (nexts (Some n) l t).2 = TunnelZTNABlocked <-> told_blocked l) /\
  (told_blocked l -> tm_wgDevice (nexts (Some n) l t).2 = false /\ tm_tunDevice (nexts (Some n) l t).2 = false).
Proof.
  assert (~ told_blocked []) as H0' by (by intros ([] & ? & ? & ? & _)).
  induction l as [|e l IH]; intros n t Hs.
  { cbn [nexts fst snd]. rewrite Hs. pose proof (not_elem_of_nil (A := tick) Done). split_and!; [|done|done].
    split; [done|]. tauto. }
  rewrite elem_of_cons. destruct (quiet e) eqn:He.
  2:{ pose proof (not_told e l He) as Hno. destruct e as [| [] | |]; try done; cbn [nexts next fst snd].
      - destruct (nexts_mfa l n (set_state TunnelMFARequired t) eq_refl) as (-> & -> & _).
        split_and!; [|done|done]. split; [by right; right|]. by intros [?|[?|?]].
      - rewrite nexts_None. cbn [fst snd]. rewrite Hs. split_and!; [|done|done]. split; [by right; left|done]. }
  assert (Done <> e) as Hne by (by intros <-).
  assert (forall m t1, next n e t = (Some m, t1) -> tm_state t1 = TunnelConnected -> (told_blocked (e :: l) <-> told_blocked l) ->
    ((nexts (Some n) (e :: l) t).1 = None <-> told_blocked (e :: l) \/ Done = e \/ Done ∈ l) /\
    (tm_state (nexts (Some n) (e :: l) t).2 = TunnelZTNABlocked <-> told_blocked (e :: l)) /\
    (told_blocked (e :: l) -> tm_wgDevice (nexts (Some n) (e :: l) t).2 = false /\ tm_tunDevice (nexts (Some n) (e :: l) t).2 = false)) as Hgo.
  { intros m t1 Hn Ht1 Ht. cbn [nexts]. rewrite Hn, Ht. cbn [fst snd]. destruct (IH m t1 Ht1) as (-> & -> & Hd).
    split_and!; [tauto|done|done]. }
  destruct e as [[r|]|[]|age|]; try done.
  - destruct (ps_ZTNABlocked r) eqn:Hb.
    + assert (told_blocked (PostureTick (Some r) :: l)) as Ht by (by exists [], r, l).
      cbn [nexts]. unfold next. rewrite Hs, Hb, bool_decide_eq_true_2 by done. cbn [andb fst snd]. rewrite nexts_None.
      cbn [fst snd]. split_and!; try done. split; [by left|done].
    + apply (Hgo n t); [|done|apply told_cons; [done|by intros ? [= <-]]].
      unfold next. rewrite Hb. by destruct (bool_decide _).
  - apply (Hgo n t); [done|done|by apply told_cons].
  - apply (Hgo n t); [done|done|by apply told_cons].
  - assert (exists m t1, next n (HealthTick age) t = (Some m, t1) /\ tm_state t1 = TunnelConnected) as (m & t1 & Hn & Ht1).
    { unfold next. repeat case_match; eauto. }
    apply (Hgo m t1); [done|done|by apply told_cons].
Qed.

(** C28. The loop of a connected client, along any events, returns exactly
    when its context is done or an answer to a report says the device is
    blocked while no refresh has failed and the context is not done.  The
    client then ends in the blocked state exactly in the second case, in which
    it has closed its devices and, on Linux, given the command that deletes the
    interface.  (The keys of the gateways have eight characters or more where
    the device is held, so that no log line panics.) *)
Theorem ztna_block_exact l t c t' es (Hk : keys_long t) (Hs : tm_state t = TunnelConnected)
    (Hrun : loop os k (Some 0%nat) l t = (c, t', es)) :
  (c = inl None <-> told_blocked l \/ Done ∈ l) /\
  (tm_state t' = TunnelZTNABlocked <-> told_blocked l) /\
  (told_blocked l -> tm_wgDevice t' = false /\ tm_tunDevice t' = false /\
     (os = Linux -> exists ok, Cmd ["ip"; "link"; "del"; tm_ifaceName t] ok ∈ es)).
Proof.
  destruct (loop_nexts l 0 t Hk) as (fs & Hl & _ & Hd). rewrite Hl in Hrun. injection Hrun as <- <- <-.
  destruct (nexts_blocked l 0 t Hs) as (Hiff & Hst & Hdown). split_and!.
  - rewrite <- Hiff. split; [by intros [= ->]|by intros ->].
  - done.
  - intros Ht. destruct (Hdown Ht) as (H2' & H3'). split_and!; try done. intros Hos. eexists. apply Hd; [by rewrite Hs| |done].
    by apply Hst.
Qed.

(** Where the state machine falls short: a failed refresh ends the reports and
    the failover for good, even when later refreshes succeed. *)
Lemma mfa_required_is_final l t n : keys_long t -> tm_state t = TunnelConnected ->
  exists c t' es, loop os k (Some n) (RefreshTick false :: l) t = (inl c, t', es) /\ tm_state t' = TunnelMFARequired /\
    tm_currentGateway t' = tm_currentGateway t.
Proof.
  intros Hk Hs. destruct (loop_nexts (RefreshTick false :: l) n t Hk) as (es & Hl & _). rewrite Hl. cbn [nexts next fst snd] in *.
  destruct (nexts_mfa l n (set_state TunnelMFARequired t) eq_refl) as (_ & Hst & Hc).
  by exists (nexts (Some n) l (set_state TunnelMFARequired t)).1, (nexts (Some n) l (set_state TunnelMFARequired t)).2, es.
Qed.

(** Without a held device, which only macOS has, the failover configures
    nothing: the gateway changes in the manager alone. *)
Lemma failover_reaches_no_device l t n c t' es : tm_wgDevice t = false ->
  loop os k (Some n) l t = (c, t', es) -> Forall harmless es.
Proof.
  intros Hw Hrun. assert (keys_long t) as Hk by (unfold keys_long; congruence).
  destruct (loop_nexts l n t Hk) as (fs & Hl & Hh & _). rewrite Hl in Hrun. injection Hrun as _ _ <-. auto.
Qed.
End tunnel_proofs.

(** ** Both sides of the wire *)

Lemma dec_strings l : mapM (dec_string "") (map JString l) = Some l.
Proof. induction l as [|s l IH]; cbn; [done|]. by rewrite IH. Qed.

Definition gatewayOf (g : gatewayEndpointResponse) : GatewayEndpoint := {|
  gep_ID := ge_ID g; gep_Endpoint := ge_Endpoint g; gep_ServerKey := ge_ServerPublicKey g; gep_Priority := ge_Priority g;
  gep_HealthStatus := ge_HealthStatus g |}.

Lemma dec_gateway_enc old g : in_int64 (ge_Priority g) -> dec_gateway old (enc_gateway g) = Some (gatewayOf g).
Proof.
  unfold in_int64. intros [Hl Hu]. unfold dec_gateway, enc_gateway. cbn -[min_int64 max_int64].
  by rewrite (proj2 (Z.leb_le _ _) Hl), (proj2 (Z.leb_le _ _) Hu).
Qed.

Lemma dec_gateways l : Forall (fun g => in_int64 (ge_Priority g)) l ->
  mapM (dec_gateway no_gateway) (map enc_gateway l) = Some (map gatewayOf l).
Proof.
  induction 1 as [|g l Hg Hl IH]; [done|]. cbn [map mapM]. rewrite dec_gateway_enc by done. cbn [mbind option_bind]. by rewrite IH.
Qed.

Definition enrolledAs (e : enrollResponse) : enrollmentResponse := {|
  en_DeviceID := er_DeviceID e; en_AllowedIPs := er_AllowedIPs e; en_DNS := er_DNS e; en_Endpoint := er_Endpoint e;
  en_ServerKey := er_ServerPublicKey e; en_Address := er_Address e; en_Networks := [];
  en_Gateways := map gatewayOf (er_Gateways e) |}.

Lemma dec_enrollment_enc e : Forall (fun g => in_int64 (ge_Priority g)) (er_Gateways e) ->
  dec_enrollment (enc_enroll e) = Some (enrolledAs e).
Proof.
  intros Hg. unfold dec_enrollment, enc_enroll, enrolledAs. destruct e as [i a dns ep k ips ka gs]. cbn in Hg |- *.
  destruct gs as [|g gs]; cbn -[mapM dec_gateway]; rewrite !dec_strings; cbn -[mapM dec_gateway]; [done|].
  change (enc_gateway g :: map enc_gateway gs) with (map enc_gateway (g :: gs)). by rewrite dec_gateways.
Qed.

Section wire.
Context {W : Type} (server : httpRequest -> W -> option httpResponse * W).

(** What the core writes in answer to an enrolment is what the client
    reads: the device, its address, name servers and the gateways in their
    order; and the interface the client then brings up has that address and,
    as its one peer, the gateway, blocks and endpoint of the answer. *)
Theorem enrolment_understood pub name (c : client) w w' e text priv status
    (Hst : status = 200%Z \/ status = 201%Z) (Hg : Forall (fun g => in_int64 (ge_Priority g)) (er_Gateways e))
    (Hans : forall rq, hr_Path rq = "/api/v1/devices/enroll" ->
       server rq w = (Some {| hs_StatusCode := status; hs_Text := text; hs_JSON := Some (enc_enroll e) |}, w')) :
  exists es, Enroll server pub name (c, w) = (inl (enrolledAs e), (with_device (er_DeviceID e) c, w'), es) /\
    interfaceOf priv (enrolledAs e) = {|
      ic_PrivateKey := priv; ic_Address := er_Address e; ic_ListenPort := 0; ic_DNS := er_DNS e; ic_MTU := 0;
      ic_Peers := [{| pc_PublicKey := er_ServerPublicKey e; pc_AllowedIPs := er_AllowedIPs e; pc_Endpoint := er_Endpoint e;
                      pc_PresharedKey := ""; pc_PersistentKeepalive := 25 |}] |}.
Proof.
  eexists. split; [|reflexivity]. unfold Enroll, bind at 1, doRequest. rewrite Hans by done.
  assert (status_in [200%Z; 201%Z] {| hs_StatusCode := status; hs_Text := text; hs_JSON := Some (enc_enroll e) |} = true) as ->.
  { unfold status_in. cbn. by destruct Hst as [->| ->]. }
  cbn [negb]. unfold decoded. cbn [hs_JSON mbind option_bind]. rewrite dec_enrollment_enc by done. reflexivity.
Qed.
End wire.

(** The block the core reports is the block the client sees. *)
Lemma dec_posture_enc y : (forall s l, ry_Trust y = Some (s, l) -> in_int64 s) ->
  dec_posture (enc_posture y) = Some {| ps_ZTNABlocked := bool_decide (is_Some (ry_Blocked y));
    ps_ZTNAReason := default "" (ry_Blocked y); ps_TrustScore := default 0%Z (fst <$> ry_Trust y);
    ps_TrustLevel := default "" ((fun x => Trust.level_text x.2) <$> ry_Trust y) |}.
Proof.
  intros Ht. unfold dec_posture, enc_posture. destruct y as [sc [[s l]|] [r|]]; cbn -[min_int64 max_int64] in *; try done.
  all: destruct (Ht s l eq_refl) as [Hl Hu]; by rewrite (proj2 (Z.leb_le _ _) Hl), (proj2 (Z.leb_le _ _) Hu).
Qed.

Lemma dec_login_enc r : in_int64 (lr_expires_at r) -> dec_login (enc_login r) = Some {|
  la_Token := lr_token r; la_ExpiresAt := lr_expires_at r; la_MFARequired := lr_mfa_required r; la_MFAToken := lr_mfa_token r |}.
Proof.
  unfold in_int64. intros [Hl Hu]. unfold dec_login, enc_login. destruct r as [t e [] mt []]; cbn -[min_int64 max_int64] in *;
    (destruct (String.eqb_spec mt "") as [->|Hm]; cbn -[min_int64 max_int64];
     by rewrite (proj2 (Z.leb_le _ _) Hl), (proj2 (Z.leb_le _ _) Hu)).
Qed.

(** ** Keeping a session alive *)

Import Auth.Middleware.

Section session.
Context `{JwtLib} `{AuthEnv} (secret remoteAddr : string) (k : io_call).

(** The core as a refresh meets it: the tables and the limiter in front of the
    [/auth] routes, in its in-memory mode. *)
Definition core : Type := auth_db * ipRateLimiter.

(** The refresh endpoint of [handler/auth.go] at instant [now], behind the
    limiter [server.go] mounts it with; every statement is answered. *)
Definition refreshEndpoint (now : Z) (rq : httpRequest) (w : core) : option httpResponse * core :=
  let '(r, d') := refreshToken secret true false false false now w.1 (default "" (hr_Authorization rq)) in
  match rateLimitMiddleware (fun ip rl => RateLimit.allow ip now rl) remoteAddr (r, d') w.2 with
  | (inl (code, text), rl) => (Some {| hs_StatusCode := code; hs_Text := text; hs_JSON := None |}, (w.1, rl))
  | (inr (r, d'), rl) =>
      (Some {| hs_StatusCode := status r; hs_Text := "";
               hs_JSON := match payload r with
                          | BLogin l => Some (enc_login l)
                          | Login.BError m => Some (JObject [("error", JString m)])
                          | _ => None
                          end |}, (d', rl))
  end.

(** Refreshes at the given instants, up to the first that fails. *)
Fixpoint keepAlive (times : list Z) (s : client * core) : bool * (client * core) :=
  match times with
  | [] => (true, s)
  | now :: times =>
      match RefreshSession (refreshEndpoint now) k s with
      | (inl _, s', _) => keepAlive times s'
      | (inr _, s', _) => (false, s')
      end
  end.

(** The library signs, with a text that is not empty; digests do not collide. *)
Hypothesis signs : forall c, exists t, jwt_sign secret c = Some t /\ t <> "".
Hypothesis no_collision : forall a b, HashToken a = HashToken b -> a = b.
Hypothesis disk_ok : mkdirOk k = true /\ write_ k = IoOk.

(** At least a minute, and less than a day less a second, between refreshes. *)
Fixpoint spaced (from : Z) (times : list Z) : Prop :=
  match times with
  | [] => True
  | t :: times => (from + 60 * second <= t <= from + 24 * hour - second)%Z /\ (0 <= t <= 2 ^ 62)%Z /\ spaced t times
  end.

Fixpoint last_refresh (from : Z) (times : list Z) : Z :=
  match times with [] => from | t :: times => last_refresh t times end.

(** The client holds a session token issued at [from] for the user, whose
    account is active, no token issued since is revoked, and the limiter has
    seen no request of the client's address since. *)
Record alive (uid : string) (from : Z) (s : client * core) : Prop := {
  al_issued : exists name mail adm, GenerateToken secret from (session_claims uid name mail adm) = Ok (c_token s.1);
  al_account : exists a, findBy (fun a => String.eqb (ac_id a) uid) (accounts s.2.1) = Some a /\ ac_is_active a = true;
  al_unrevoked : forall t u name mail adm tok, (t = from \/ from + second <= t)%Z ->
    GenerateToken secret t (session_claims u name mail adm) = Ok tok -> blacklist s.2.1 !! HashToken tok = None;
  al_limiter : RateLimit.limit s.2.2 = 10%Z /\ RateLimit.window s.2.2 = (60 * second)%Z /\
    Forall (fun t => (t <= from)%Z) (default [] (attempts s.2.2 !! clientIP remoteAddr));
}.

Lemma issued_iat t u name mail adm : IssuedAt (issued t (session_claims u name mail adm)) = Some (NewNumericDate t).
Proof. done. Qed.

Lemma tokens_differ t1 t2 u1 n1 m1 a1 u2 n2 m2 a2 tok1 tok2 : (t1 + second <= t2)%Z ->
  GenerateToken secret t1 (session_claims u1 n1 m1 a1) = Ok tok1 ->
  GenerateToken secret t2 (session_claims u2 n2 m2 a2) = Ok tok2 -> HashToken tok2 <> HashToken tok1.
Proof.
  intros Ht H1' H2' Heq%no_collision. subst.
  assert (ValidateToken secret (t1) tok1 = Ok (issued t1 (session_claims u1 n1 m1 a1))) as Hv.
  { eapply GenerateToken_valid; [done|reflexivity|]. cbn. pose proof (NewNumericDate_bound (t1 + 24 * hour)).
    unfold hour, second in *. lia. }
  pose proof (GenerateToken_payload _ _ _ _ _ _ _ H2' Hv) as He. apply (f_equal IssuedAt) in He. rewrite !issued_iat in He.
  injection He as He. pose proof (NewNumericDate_bound t1). pose proof (NewNumericDate_bound t2). lia.
Qed.

(** A minute after the last request the limiter lets the next one pass. *)
Lemma allow_after rl ip from now : RateLimit.limit rl = 10%Z -> RateLimit.window rl = (60 * second)%Z ->
  Forall (fun t => (t <= from)%Z) (default [] (attempts rl !! ip)) -> (from + 60 * second <= now)%Z ->
  exists rl', RateLimit.allow ip now rl = (true, rl') /\ RateLimit.limit rl' = 10%Z /\ RateLimit.window rl' = (60 * second)%Z /\
    Forall (fun t => (t <= now)%Z) (default [] (attempts rl' !! ip)).
Proof.
  intros Hl Hw Hf Hn. unfold RateLimit.allow. rewrite Hw, Hl.
  assert (recent (now - 60 * second) (default [] (attempts rl !! ip)) = []) as ->.
  { unfold recent. induction Hf as [|t l Ht Hf IH]; [done|]. cbn. rewrite (proj2 (Z.ltb_ge _ _)) by lia. done. }
  eexists. split; [reflexivity|]. cbn. split_and!; [done|done|]. rewrite lookup_insert_eq. cbn. by repeat constructor.
Qed.

Lemma refresh_alive uid from now c w : alive uid from (c, w) ->
  (from + 60 * second <= now <= from + 24 * hour - second)%Z -> (0 <= now <= 2 ^ 62)%Z ->
  exists s' es, RefreshSession (refreshEndpoint now) k (c, w) = (inl tt, s', es) /\ alive uid now s'.
Proof.
  destruct w as [d rl]. intros [(name & mail & adm & Hg) (a & Ha & Hact) Hun (Hlim & Hwin & Hatt)] Hnow Hrange.
  cbn [fst snd] in *. destruct (allow_after rl (clientIP remoteAddr) from now Hlim Hwin Hatt) as (rl' & Hallow & Hlim'); [lia|].
  assert (ValidateToken secret now (c_token c) = Ok (issued from (session_claims uid name mail adm))) as Hv.
  { eapply GenerateToken_valid; [done|reflexivity|]. cbn. pose proof (NewNumericDate_bound (from + 24 * hour)). lia. }
  assert (c_token c <> "") as Hne.
  { destruct (signs (issued from (session_claims uid name mail adm))) as (t & Ht & Hne).
    apply GenerateToken_Ok in Hg. congruence. }
  destruct (GenerateToken secret now (session_claims uid name mail (ac_is_admin a))) as [new|] eqn:Hnew.
  2:{ unfold GenerateToken in Hnew. cbn in Hnew.
      match type of Hnew with context [jwt_sign secret ?x] => destruct (signs x) as (t & Ht & _) end. rewrite Ht in Hnew. done. }
  set (e := NewNumericDate (from + 24 * hour)).
  set (d' := set_blacklist d (<[HashToken (c_token c) := e]> (blacklist d))).
  assert (refreshToken secret true false false false now d ("Bearer " ++ c_token c) = (sessionResponse now new false, d')) as Hr.
  { unfold refreshToken. rewrite cut_prefix_app. destruct (c_token c) as [|x t] eqn:Ht; [done|]. rewrite Hv.
    unfold IsBlacklisted, Add. cbn [negb]. rewrite (Hun from uid name mail adm) by auto.
    rewrite bool_decide_eq_false_2 by (by intros [? ?]). cbn [TokenType issued with_times session_claims UserID].
    change (String.eqb "" "mfa") with false. cbv iota. rewrite Ha, Hact. cbn [negb].
    match goal with |- context [GenerateToken secret now ?x] => change x with (session_claims uid name mail (ac_is_admin a)) end.
    by rewrite Hnew. }
  exists (with_disk (<["token" := new]> (c_disk c)) (with_token new c), (d', rl')). eexists. split.
  - unfold RefreshSession, bind at 1, doRequest. cbn [fst snd andb]. rewrite (proj2 (String.eqb_neq _ _) Hne). cbn [negb].
    unfold refreshEndpoint at 1. cbn [hr_Authorization from_option fst snd]. unfold id. rewrite Hr. unfold rateLimitMiddleware. rewrite Hallow.
    cbn [status payload sessionResponse].
    unfold status_in. cbn [existsb hs_StatusCode Z.eqb Pos.eqb orb negb]. unfold decoded. cbn [hs_JSON mbind option_bind].
    rewrite dec_login_enc; [|cbn; unfold in_int64, unix, min_int64, max_int64, hour, second;
      pose proof (Z.div_pos (now + 24 * (3600 * 10 ^ 9)) (10 ^ 9)); pose proof (Z.div_le_upper_bound (now + 24 * (3600 * 10 ^ 9)) (10 ^ 9) (2 ^ 63 - 1)); lia].
    cbn [orFail la_Token lr_token]. unfold saveToken, saveFile. destruct disk_ok as [-> ->]. reflexivity.
  - split.
    + exists name, mail, (ac_is_admin a). done.
    + by exists a.
    + intros t u n m ad tok Ht Hg2. cbn. rewrite lookup_insert_ne.
      * eapply Hun; [|exact Hg2]. right. unfold second in *. lia.
      * apply not_eq_sym. eapply tokens_differ; [|exact Hg|exact Hg2]. unfold second in *. lia.
    + done.
Qed.

(** A client that refreshes its session in time keeps it: starting from a
    session token of an active account that is not revoked, every refresh at
    least a minute and less than a day after the one before succeeds, provided
    nothing else asks the [/auth] routes from its address and every statement
    and file operation is answered, and the token then held opens the API for
    that user. *)
Theorem session_survives uid from times c w (Ha : alive uid from (c, w)) (Hs : spaced from times) :
  let '(ok, (c', (d', _))) := keepAlive times (c, w) in
  ok = true /\ forall later, (later <= last_refresh from times + 24 * hour - second)%Z ->
    exists claims, JWTMiddleware HashToken secret (Some (true, blacklist d')) later ("Bearer " ++ c_token c') = Next claims /\
      UserID claims = uid.
Proof.
  revert from c w Ha Hs. induction times as [|now times IH]; intros from c w Ha Hs; cbn [keepAlive last_refresh].
  - destruct w as [d rl]. split; [done|]. intros later Hl. destruct Ha as [(name & mail & adm & Hg) _ Hun _].
    exists (issued from (session_claims uid name mail adm)). split; [|done]. unfold JWTMiddleware.
    change (String.eqb ("Bearer " ++ c_token c) "") with false. cbv iota. rewrite cut_prefix_app.
    rewrite (GenerateToken_valid secret from (session_claims uid name mail adm) (c_token c) later _ Hg eq_refl).
    2:{ cbn. pose proof (NewNumericDate_bound (from + 24 * hour)). lia. }
    cbn [TokenType issued with_times session_claims]. change (String.eqb "" "mfa") with false. cbv iota.
    unfold IsBlacklisted. cbn in Hun. rewrite (Hun from uid name mail adm) by auto. by rewrite bool_decide_eq_false_2 by (by intros [? ?]).
  - cbn [spaced] in Hs. destruct Hs as (Hn & Hr & Hs). destruct (refresh_alive uid from now c w Ha Hn Hr) as ([c1 w1] & es & -> & Ha1).
    by apply IH.
Qed.
End session.

(** ** Runs *)

Definition toy_keys : KeyEnv := {| key_hex := fun s => s; resolveUDP := Some |}.

Definition calm_os : os_call := {|
  cmdFails := fun _ => None; tunName := Some "utun7"; nameOk := true; wgctrlOk := true; configureOk := true;
  ipcOk := true; upOk := true |}.

Definition gwA : GatewayEndpoint :=
  {| gep_ID := "a"; gep_Endpoint := "a:1"; gep_ServerKey := "AAAAAAAA"; gep_Priority := 20; gep_HealthStatus := "healthy" |}.
Definition gwB : GatewayEndpoint :=
  {| gep_ID := "b"; gep_Endpoint := "b:1"; gep_ServerKey := "BBBBBBBB"; gep_Priority := 10; gep_HealthStatus := "healthy" |}.

Definition enrol0 : enrollmentResponse := {|
  en_DeviceID := "d1"; en_AllowedIPs := ["10.0.0.0/24"]; en_DNS := ["1.1.1.1"]; en_Endpoint := "a:1"; en_ServerKey := "AAAAAAAA";
  en_Address := "10.0.0.2/24"; en_Networks := []; en_Gateways := [gwA; gwB] |}.

Definition connectRun (os : goos) (k : os_call) : (unit + refusal) * TunnelManager * list deed :=
  @Connect toy_device_env toy_keys os k (Some ("priv", "pub")) (Some enrol0) NewTunnelManager.

Definition connected (os : goos) : TunnelManager := (connectRun os calm_os).1.2.

Lemma Connect_exact_witness :
  tm_state (connected Linux) = TunnelConnected /\ tm_gateways (connected Linux) = [gwA; gwB] /\
  Configure "outpost0" {| wgc_PrivateKey := Some "priv"; wgc_Peers := [{| wp_PublicKey := "AAAAAAAA"; wp_UpdateOnly := false;
    wp_ReplaceAllowedIPs := true; wp_AllowedIPs := [Cidr 167772160 24]; wp_Endpoint := Some "a:1";
    wp_Keepalive := Some (25 * second)%Z |}] |} ∈ (connectRun Linux calm_os).2.
Proof.
  destruct (connectRun Linux calm_os) as [[x t'] es] eqn:Hc.
  pose proof (@Connect_exact toy_device_env toy_keys Linux calm_os (Some ("priv", "pub")) (Some enrol0) NewTunnelManager x t' es Hc) as Hx.
  unfold connected. rewrite Hc. destruct x as [[]|r]; [|exfalso; vm_compute in Hc; discriminate].
  destruct Hx as (Hs & priv & pub & e & t1 & t2 & fs & _ & [= <-] & _ & _ & Hg & _). split; [exact Hs|]. split; [exact Hg|].
  vm_compute in Hc. injection Hc as _ <-. vm_compute. right. right. by left.
Defined.

Definition stale3 : list tick := [HealthTick None; HealthTick (Some (50 * second)); HealthTick None].

Lemma failover_needs_three_witness :
  tm_currentGateway (@loop toy_device_env toy_keys Linux calm_os (Some 0%nat) stale3 (connected Linux)).1.2 = 1%nat /\
  three_stale (ages stale3).
Proof.
  destruct (@loop toy_device_env toy_keys Linux calm_os (Some 0%nat) stale3 (connected Linux)) as [[[c|r] t'] es] eqn:Hl;
    [|exfalso; vm_compute in Hl; discriminate].
  assert (tm_currentGateway t' = 1%nat) as Hcur by (vm_compute in Hl; by injection Hl as _ <- _). split; [exact Hcur|].
  apply (@failover_needs_three toy_device_env toy_keys Linux calm_os stale3 (connected Linux) c t' es); [by intros ?|exact Hl|].
  rewrite Hcur. vm_compute. discriminate.
Defined.

Lemma every_gateway_tried_witness :
  exists es t', @loop toy_device_env toy_keys Darwin calm_os (Some 0%nat) (stale3 ++ stale3)%list (connected Darwin) =
    (inl (Some 0%nat), t', es) /\ tm_currentGateway t' = 0%nat.
Proof.
  destruct (@every_gateway_tried toy_device_env toy_keys Darwin calm_os (stale3 ++ stale3)%list (connected Darwin) 2)
    as (es & t' & Hl & _ & _ & Hc); [..|exists es, t'; split; [exact Hl|rewrite Hc; reflexivity]].
  - intros _. repeat constructor; cbn; lia.
  - reflexivity.
  - repeat (apply Forall_cons; split; [eexists; split; reflexivity|]). apply Forall_nil_2.
  - reflexivity.
  - vm_compute. lia.
  - vm_compute. lia.
Defined.

Definition blocked_answer : PostureResult :=
  {| ps_ZTNABlocked := true; ps_ZTNAReason := "trust score too low"; ps_TrustScore := 10; ps_TrustLevel := "critical" |}.

Lemma ztna_block_exact_witness :
  let ticks := [HealthTick None; RefreshTick true; PostureTick (Some blocked_answer); RefreshTick false] in
  told_blocked ticks /\
  tm_state (@loop toy_device_env toy_keys Linux calm_os (Some 0%nat) ticks (connected Linux)).1.2 = TunnelZTNABlocked.
Proof.
  intros ticks.
  destruct (@loop toy_device_env toy_keys Linux calm_os (Some 0%nat) ticks (connected Linux)) as [[c t'] es] eqn:Hl.
  destruct (@ztna_block_exact toy_device_env toy_keys Linux calm_os ticks (connected Linux) c t' es) as (_ & Hst & _);
    [by intros ?|reflexivity|exact Hl|].
  assert (tm_state t' = TunnelZTNABlocked) as Ht by (vm_compute in Hl; by injection Hl as _ <- _). split; [by apply Hst|exact Ht].
Defined.

Definition reply0 : enrollResponse := {|
  er_DeviceID := "d1"; er_Address := "10.0.0.2/24"; er_DNS := ["1.1.1.1"]; er_Endpoint := "a:1"; er_ServerPublicKey := "AAAAAAAA";
  er_AllowedIPs := ["10.0.0.0/24"]; er_PersistentKeepalive := 25;
  er_Gateways := [{| ge_ID := "a"; ge_Endpoint := "a:1"; ge_ServerPublicKey := "AAAAAAAA"; ge_Priority := 20; ge_HealthStatus := "healthy" |};
                  {| ge_ID := "b"; ge_Endpoint := "b:1"; ge_ServerPublicKey := "BBBBBBBB"; ge_Priority := 10; ge_HealthStatus := "healthy" |}] |}.

Lemma enrolment_understood_witness :
  let server (rq : httpRequest) (w : unit) :=
    (Some {| hs_StatusCode := 201; hs_Text := ""; hs_JSON := Some (enc_enroll reply0) |}, w) in
  exists es, Enroll server "pub" "laptop" ({| c_token := "t"; c_deviceID := ""; c_disk := ∅ |}, tt) =
    (inl enrol0, ({| c_token := "t"; c_deviceID := "d1"; c_disk := ∅ |}, tt), es).
Proof.
  intros server.
  destruct (@enrolment_understood unit server "pub" "laptop" {| c_token := "t"; c_deviceID := ""; c_disk := ∅ |} tt tt reply0 "" "priv" 201)
    as (es & He & _); [by right| |reflexivity|exists es; exact He].
  repeat constructor; cbn; unfold min_int64, max_int64; lia.
Defined.

Definition good_disk : io_call := {| mkdirOk := true; write_ := IoOk; removeOk := true |}.
Definition bob_session : client :=
  {| c_token := token_of (@login clear_jwt toy_env "s" false false 0 (authdb true false) (lq "pw")).1; c_deviceID := ""; c_disk := ∅ |}.
Definition minutes (n : Z) : Z := (n * 60 * second)%Z.

Lemma clear_signs c : exists t, @jwt_sign clear_jwt "s" c = Some t /\ t <> "".
Proof.
  eexists. split; [reflexivity|]. intros E. pose proof (unfields_fields (claims_code "s" c)) as Hf. rewrite E in Hf. discriminate.
Qed.

Definition bob_start : client * core := (bob_session, (authdb true false, authRateLimiter)).

Lemma session_survives_witness :
  let '(ok, (c', (d', _))) := @keepAlive clear_jwt toy_env "s" "198.51.100.7:4000" good_disk [minutes 20; minutes 40; minutes 60] bob_start in
  ok = true /\ exists claims, @JWTMiddleware clear_jwt (@HashToken toy_env) "s" (Some (true, blacklist d')) (minutes 1000)
    ("Bearer " ++ c_token c') = Next claims /\ UserID claims = "u2".
Proof.
  pose proof (@session_survives clear_jwt toy_env "s" "198.51.100.7:4000" good_disk clear_signs (fun a b X => X) (conj eq_refl eq_refl)
    "u2" 0 [minutes 20; minutes 40; minutes 60] bob_start.1 bob_start.2) as Hs.
  change (bob_start.1, bob_start.2) with bob_start in Hs.
  destruct (@keepAlive clear_jwt toy_env "s" "198.51.100.7:4000" good_disk [minutes 20; minutes 40; minutes 60] bob_start) as [ok [c' [d' rl]]].
  destruct Hs as [Hok Hlater].
  - split; [|by eexists|done|by repeat split; constructor]. exists "bob", "b@x", true. vm_compute. reflexivity.
  - cbn [spaced]. unfold minutes, hour, second. repeat split; lia.
  - split; [exact Hok|]. apply Hlater. cbn [last_refresh]. unfold minutes, hour, second. lia.
Defined.

(** Refreshing more than ten times in a minute ends the session: the eleventh
    answer is 429, which the client takes for an error. *)
Lemma eager_refresh_refused :
  (@keepAlive clear_jwt toy_env "s" "198.51.100.7:4000" good_disk (map (fun i => (Z.of_nat i * second)%Z) (seq 1 10)) bob_start).1 = true /\
  (@keepAlive clear_jwt toy_env "s" "198.51.100.7:4000" good_disk (map (fun i => (Z.of_nat i * second)%Z) (seq 1 11)) bob_start).1 = false.
Proof. split; vm_compute; reflexivity. Qed.

(** *** Where the client does less than it means to *)

(** "Status: inactive" contains "active". *)
Lemma inactive_firewall_counts :
  checkLinuxFirewall {| output := fun args => match args with "ufw" :: _ => Some "Status: inactive" | _ => None end;
    file := fun _ => None; hostName := "h" |} = true.
Proof. reflexivity. Qed.

(** A connection that fails after the interface was added leaves it there, and
    disconnecting afterwards does nothing. *)
Definition no_address : os_call := {|
  cmdFails := fun args => match args with "ip" :: "addr" :: _ => Some "denied" | _ => None end; tunName := Some "utun7"; nameOk := true;
  wgctrlOk := true; configureOk := true; ipcOk := true; upOk := true |}.

Lemma failed_connect_leaves_interface :
  let '(x, t, es) := connectRun Linux no_address in
  x = inr (0, "bring up tunnel") /\ tm_state t = TunnelDisconnected /\
  Cmd ["ip"; "link"; "add"; "outpost0"; "type"; "wireguard"] true ∈ es /\
  (forall ok, Cmd ["ip"; "link"; "del"; "outpost0"] ok ∉ es) /\
  @Disconnect Linux no_address t = (inl tt, t, []).
Proof.
  vm_compute. split_and!; [done|done|right; by left| |done].
  intros ok Hin. repeat (apply elem_of_cons in Hin as [Hin|Hin]; [discriminate|]). by apply elem_of_nil in Hin.
Qed.

(** A peer whose key does not parse is skipped, and the client is connected
    with no peer at all. *)
Lemma connected_without_peer :
  let env := {| uuid_Parse := Some; pg_uuid := Some; wgtypes_GeneratePrivateKey := Some "priv";
                wgtypes_ParseKey := fun s => if String.eqb s "AAAAAAAA" then None else Some s;
                wgtypes_PublicKey := fun s => s; inet_Text := host |} in
  let '(x, t, es) := @Connect env toy_keys Linux calm_os (Some ("priv", "pub")) (Some enrol0) NewTunnelManager in
  x = inl tt /\ tm_state t = TunnelConnected /\ Configure "outpost0" {| wgc_PrivateKey := Some "priv"; wgc_Peers := [] |} ∈ es.
Proof. vm_compute. split_and!; [done|done|right; right; by left]. Qed.

(** The update for a failover applies to existing peers only, and the new
    gateway is not one. *)
Lemma failover_update_only g ips c : @buildWgctrlPeerConfig toy_device_env toy_keys (failoverPeer g ips) = Ok c ->
  Forall (fun p => wp_UpdateOnly p = true) (wgc_Peers c).
Proof. cbn. intros [= <-]. by repeat constructor. Qed.

(** On macOS a short key ends the program. *)
Lemma short_key_panics :
  let g := {| gep_ID := "c"; gep_Endpoint := "c:1"; gep_ServerKey := "short"; gep_Priority := 0; gep_HealthStatus := "" |} in
  (@failoverToNextGateway toy_device_env toy_keys calm_os (set_targets [gwA; g] 0 [] (connected Darwin))).1.1 =
    inr (1, "slice bounds out of range").
Proof. reflexivity. Qed.
