(* ===== verification/GatewayMode.v ===== *)
(** * The client as a site-to-site gateway

    [internal/client/gateway_mode.go]: starting and stopping the interface of
    a tunnel with wg-quick, its configuration file, and the health report made
    from the output of "wg show".  The core's answer is the one of
    [S2SAdmin]. *)

From S2P Require Import Prelude Net Schema Json Auth Login Policy Hub Devices Http Tables S2SAdmin ClientConfig Client.
From Stdlib Require Import ZArith Lia Ascii String.
From stdpp Require Import base gmap strings list.
Import Auth.Token.

Local Open Scope Z_scope.
Local Open Scope string_scope.
Local Open Scope outpost_scope.

(** ** The configuration *)

Record s2sPeerConf := { sp_PublicKey : string; sp_Endpoint : string; sp_AllowedIPs : list string; sp_Keepalive : Z }.

Record s2sConfigResponse := {
  sc_TunnelID : string;
  sc_TunnelName : string;
  sc_GatewayID : string;
  sc_PrivateKey : string;
  sc_Address : string;
  sc_ListenPort : Z;
  sc_DNS : list string;
  sc_Peers : list s2sPeerConf;
  sc_Routes : list string;
}.

Definition no_s2s_peer : s2sPeerConf := {| sp_PublicKey := ""; sp_Endpoint := ""; sp_AllowedIPs := []; sp_Keepalive := 0 |}.

Definition dec_s2s_peer (_ : s2sPeerConf) (v : json) : option s2sPeerConf :=
  l ← object v;
  k ← field_of dec_string "public_key" "" l; e ← field_of dec_string "endpoint" "" l;
  ips ← field_of (dec_slice dec_string "") "allowed_ips" [] l; ka ← field_of dec_int "keepalive" 0%Z l;
  Some {| sp_PublicKey := k; sp_Endpoint := e; sp_AllowedIPs := ips; sp_Keepalive := ka |}.

Definition dec_s2s (v : json) : option s2sConfigResponse :=
  l ← object v;
  ti ← field_of dec_string "tunnel_id" "" l; tn ← field_of dec_string "tunnel_name" "" l;
  gi ← field_of dec_string "gateway_id" "" l; pk ← field_of dec_string "private_key" "" l;
  a ← field_of dec_string "address" "" l; lp ← field_of dec_int "listen_port" 0%Z l;
  dns ← field_of (dec_slice dec_string "") "dns" [] l;
  ps ← field_of (dec_slice dec_s2s_peer no_s2s_peer) "peers" [] l;
  rs ← field_of (dec_slice dec_string "") "routes" [] l;
  Some {| sc_TunnelID := ti; sc_TunnelName := tn; sc_GatewayID := gi; sc_PrivateKey := pk; sc_Address := a; sc_ListenPort := lp;
          sc_DNS := dns; sc_Peers := ps; sc_Routes := rs |}.

Definition buildWireGuardConfig (privKey : string) (c : s2sConfigResponse) : string :=
  RenderConfig {|
    ic_PrivateKey := privKey; ic_Address := sc_Address c;
    ic_ListenPort := if (0 <? sc_ListenPort c)%Z then sc_ListenPort c else 0;
    ic_DNS := sc_DNS c; ic_MTU := 0;
    ic_Peers := map (fun p => {| pc_PublicKey := sp_PublicKey p; pc_AllowedIPs := sp_AllowedIPs p; pc_Endpoint := sp_Endpoint p;
                                 pc_PresharedKey := ""; pc_PersistentKeepalive := sp_Keepalive p |}) (sc_Peers c) |}.

(** ** Health *)

Definition minute : Z := 60 * second.

(** The age is [time.Since] of the handshake; [None] is the zero time. *)
Definition classifyHealth (age : option Z) : string :=
  match age with
  | None => "DOWN"
  | Some age => if (age <? 2 * minute)%Z then "HEALTHY" else if (age <? 5 * minute)%Z then "DEGRADED" else "DOWN"
  end.

Record peerHealthStatus := {
  ph_PublicKey : string;
  ph_Status : string;
  ph_LastHandshake : Z;
  ph_RxBytes : Z;
  ph_TxBytes : Z;
  ph_Endpoint : string;
}.

(** [fmt.Sscanf] with one number: leading spaces, a sign, digits; what follows
    is not looked at, and without a number in range the variable stays 0. *)
Fixpoint leading_digits (s : string) : string :=
  match s with String a r => if is_digit a then String a (leading_digits r) else "" | EmptyString => "" end.

Definition scan_number (s : string) : Z :=
  let s := trimLeft s in
  let '(neg, t) := match s with String "-" t => (true, t) | String "+" t => (false, t) | _ => (false, s) end in
  match parse_uint (leading_digits t) with
  | NumOk n => if neg then (if (2 ^ 63 <? n)%Z then 0 else - n)%Z else (if (2 ^ 63 <=? n)%Z then 0 else n)%Z
  | _ => 0%Z
  end.

Definition tab : ascii := ascii_of_nat 9.

(** A line of the dump; [now] in nanoseconds. *)
Definition peerLine (now : Z) (line : string) : option peerHealthStatus :=
  let line := TrimSpace line in
  if String.eqb line "" then None else
  match split_on tab line with
  | pubKey :: _ :: endpoint :: _ :: f4 :: f5 :: f6 :: _ =>
      let handshakeUnix := scan_number f4 in
      Some {| ph_PublicKey := pubKey;
              ph_Status := classifyHealth (if (0 <? handshakeUnix)%Z then Some (sub64 now (mul64 handshakeUnix second)) else None);
              ph_LastHandshake := handshakeUnix; ph_RxBytes := scan_number f5; ph_TxBytes := scan_number f6;
              ph_Endpoint := endpoint |}
  | _ => None
  end.

(** [collectWGPeerStats] on the output of the command. *)
Definition collectWGPeerStats (now : Z) (stdout : string) : list peerHealthStatus :=
  omap (peerLine now) (tail (split_on (ascii_of_nat 10) (TrimSpace stdout))).

(** The report: nothing is sent without output or without peers. *)
Definition enc_peer (p : peerHealthStatus) : json :=
  JObject ([("public_key", JString (ph_PublicKey p)); ("status", JString (ph_Status p));
            ("last_handshake_unix", JInt (ph_LastHandshake p)); ("rx_bytes", JInt (ph_RxBytes p)); ("tx_bytes", JInt (ph_TxBytes p))] ++
    (if String.eqb (ph_Endpoint p) "" then [] else [("endpoint", JString (ph_Endpoint p))]))%list.

Definition reportHealth (tunnelID gatewayID token : string) (now : Z) (stdout : option string) : option httpRequest :=
  match stdout with
  | None => None
  | Some out =>
      match collectWGPeerStats now out with
      | [] => None
      | peers => Some {|
          hr_Method := "POST"; hr_Path := "/api/v1/s2s-tunnels/" ++ tunnelID ++ "/health";
          hr_Body := Some (JObject [("tunnel_id", JString tunnelID); ("gateway_id", JString gatewayID);
                                    ("peers", JArray (map enc_peer peers)); ("timestamp", JInt (unix now))]);
          hr_Authorization := if String.eqb token "" then None else Some ("Bearer " ++ token) |}
      end
  end.

(** ** Starting and stopping *)

Record GatewayMode := {
  gm_running : bool;
  gm_stopClosed : bool;       (* stopCh is closed *)
  gm_gatewayID : string;
  gm_disk : gmap string string;
}.

Definition with_running (b : bool) (g : GatewayMode) : GatewayMode := {|
  gm_running := b; gm_stopClosed := gm_stopClosed g; gm_gatewayID := gm_gatewayID g; gm_disk := gm_disk g |}.
Definition with_closed (g : GatewayMode) : GatewayMode := {|
  gm_running := gm_running g; gm_stopClosed := true; gm_gatewayID := gm_gatewayID g; gm_disk := gm_disk g |}.
Definition with_id (i : string) (g : GatewayMode) : GatewayMode := {|
  gm_running := gm_running g; gm_stopClosed := gm_stopClosed g; gm_gatewayID := i; gm_disk := gm_disk g |}.
Definition with_files (f : gmap string string -> gmap string string) (g : GatewayMode) : GatewayMode := {|
  gm_running := gm_running g; gm_stopClosed := gm_stopClosed g; gm_gatewayID := gm_gatewayID g; gm_disk := f (gm_disk g) |}.

Definition NewGatewayMode : GatewayMode :=
  {| gm_running := false; gm_stopClosed := false; gm_gatewayID := ""; gm_disk := ∅ |}.

Inductive gdeed :=
| WgQuick (up ok : bool)
| Asked (rq : httpRequest)
| SyncLoop (ends : bool).     (* started; it ends at once when the channel is closed *)

(** The system in one call. *)
Record gm_call := {
  gmkdirOk : bool;
  gwriteKey : io;
  gwriteConf : io;
  gremoveOk : bool;
  gquickOk : bool;
  ganswer : option httpResponse;      (* of the core; [None]: no answer *)
}.

Section gateway_mode.
Context `{DeviceEnv} (tunnelID hostname token : string).
Implicit Types (k : gm_call).

Definition G (A : Type) : Type := H GatewayMode gdeed A.

Definition gmod (f : GatewayMode -> GatewayMode) : G unit := fun g => (inl tt, f g, []).
Definition gfail {A} (msg : string) : G A := stop (0, msg).
Definition gneed {A} (o : option A) (msg : string) : G A := match o with Some a => ret a | None => gfail msg end.

Definition writeFile (w : io) (name content : string) (msg : string) : G unit :=
  match w with
  | IoOk => gmod (with_files (<[name := content]>))
  | IoFail left_ => do! gmod (with_files (fun d => match left_ with Some x => <[name := x]> d | None => d end)) in gfail msg
  end.

Definition keyFile : string := "s2s_private.key".
Definition confFile : string := "outpost-s2s.conf".

Definition hostnameOr : string := if String.eqb hostname "" then "outpost-gateway" else hostname.

(** The key is written before the core is asked. *)
Definition fetchS2SConfig k : G (string * s2sConfigResponse) :=
  let! privKey := gneed GeneratePrivateKey "generate private key" in
  if negb (gmkdirOk k) then gfail "mkdir" else
  do! writeFile (gwriteKey k) keyFile privKey "save private key" in
  do! emit (fun _ => [Asked {| hr_Method := "GET"; hr_Path := "/api/v1/s2s-tunnels/" ++ tunnelID ++ "/config/" ++ hostnameOr;
                               hr_Body := None; hr_Authorization := if String.eqb token "" then None else Some ("Bearer " ++ token) |}]) in
  let! resp := gneed (ganswer k) "fetch S2S config" in
  if negb ((200 <=? hs_StatusCode resp) && (hs_StatusCode resp <? 300))%Z then gfail "server returned" else
  let! config := gneed (v ← hs_JSON resp; dec_s2s v) "parse config" in
  ret (privKey, config).

(** Every error on the way clears the flag again. *)
Definition orStop {A} (m : G A) : G A := fun g =>
  match m g with
  | (inl a, g', es) => (inl a, g', es)
  | (inr e, g', es) => (inr e, with_running false g', es)
  end.

Definition Start k : G unit :=
  let! running := asks gm_running in
  if running then gfail "gateway mode already running" else
  do! gmod (with_running true) in
  orStop (
    let! (privKey, config) := fetchS2SConfig k in
    do! gmod (with_id (sc_GatewayID config)) in
    let wgConfig := buildWireGuardConfig privKey config in
    if negb (gmkdirOk k) then gfail "create config dir" else
    do! writeFile (gwriteConf k) confFile wgConfig "write config" in
    do! emit (fun _ => [WgQuick true (gquickOk k)]) in
    if negb (gquickOk k) then
      do! gmod (with_files (fun d => if gremoveOk k then delete confFile d else d)) in gfail "bring up S2S interface"
    else emit (fun g => [SyncLoop (gm_stopClosed g)])).

Definition Stop k : G unit :=
  let! running := asks gm_running in
  if negb running then ret tt else
  do! gmod with_closed in
  do! gmod (with_running false) in
  do! emit (fun _ => [WgQuick false (gquickOk k)]) in
  if negb (gquickOk k) then gfail "wg-quick down" else
  gmod (with_files (fun d => if gremoveOk k then delete confFile d else d)).

Inductive gm_op := OpStart (k : gm_call) | OpStop (k : gm_call).

Definition run_op (o : gm_op) : G unit := match o with OpStart k => Start k | OpStop k => Stop k end.

Fixpoint run_ops (l : list gm_op) (g : GatewayMode) : GatewayMode * list gdeed :=
  match l with
  | [] => (g, [])
  | o :: l => match run_op o g with (_, g', es) => let '(g2, fs) := run_ops l g' in (g2, (es ++ fs)%list) end
  end.
End gateway_mode.

(** ** The output of "wg show" *)

(** A line of the dump. *)
Record dumpPeer := {
  du_key : string;
  du_psk : string;
  du_endpoint : string;
  du_ips : string;
  du_handshake : Z;
  du_rx : Z;
  du_tx : Z;
  du_keepalive : string;
}.

Definition dumpFields (p : dumpPeer) : list string :=
  [du_key p; du_psk p; du_endpoint p; du_ips p; itoa (du_handshake p); itoa (du_rx p); itoa (du_tx p); du_keepalive p].

Definition line (fields : list string) : string := strings_join (String tab "") fields.

(** The interface line, then one line per peer. *)
Definition dump (iface : list string) (peers : list dumpPeer) : string :=
  unlines (line iface :: map (fun p => line (dumpFields p)) peers).

(** A field holds no white space and is not empty. *)
Fixpoint no_space (s : string) : bool :=
  match s with EmptyString => true | String a r => negb (is_space a) && no_space r end.
Definition word (s : string) : bool := negb (String.eqb s "") && no_space s.

Definition statusOf (now : Z) (p : dumpPeer) : peerHealthStatus := {|
  ph_PublicKey := du_key p;
  ph_Status := classifyHealth (if (0 <? du_handshake p)%Z then Some (sub64 now (mul64 (du_handshake p) second)) else None);
  ph_LastHandshake := du_handshake p; ph_RxBytes := du_rx p; ph_TxBytes := du_tx p; ph_Endpoint := du_endpoint p |}.

Definition dump_ok (p : dumpPeer) : bool :=
  word (du_key p) && word (du_psk p) && word (du_endpoint p) && word (du_ips p) && word (du_keepalive p) &&
  counter (du_handshake p) && counter (du_rx p) && counter (du_tx p).

(** Texts that begin and end with something visible. *)
Fixpoint ends_visible (s : string) : bool :=
  match s with
  | EmptyString => false
  | String a EmptyString => negb (is_space a)
  | String _ r => ends_visible r
  end.

Definition begins_visible (s : string) : bool := match s with String a _ => negb (is_space a) | EmptyString => false end.

Lemma ends_visible_cons a s : ends_visible s = true -> ends_visible (String a s) = true.
Proof. by destruct s. Qed.

Lemma ends_visible_app s t : ends_visible t = true -> ends_visible (s ++ t) = true.
Proof. intros Ht. induction s as [|a s IH]; [done|]. rewrite append_cons. by apply ends_visible_cons. Qed.

Lemma begins_visible_app s t : begins_visible s = true -> begins_visible (s ++ t) = true.
Proof. by destruct s. Qed.

Lemma trimRight_newline s : ends_visible s = true -> trimRight (s ++ newline) = s /\ trimRight s = s.
Proof.
  induction s as [|a [|b s] IH]; [done| |].
  - rewrite append_cons, append_nil. cbn. intros Ha%negb_true_iff. by rewrite Ha.
  - intros Hs. destruct (IH Hs) as [E1 E2]. rewrite append_cons. cbn [trimRight] in E1, E2 |- *. by rewrite E1, E2.
Qed.

Lemma TrimSpace_newline s : begins_visible s = true -> ends_visible s = true ->
  TrimSpace (s ++ newline) = s /\ TrimSpace s = s.
Proof.
  intros Hb He. unfold TrimSpace. destruct s as [|a s]; [done|]. rewrite append_cons. cbn [trimLeft begins_visible] in *.
  rewrite (proj1 (negb_true_iff _) Hb). rewrite <- append_cons. by apply trimRight_newline.
Qed.

Lemma word_begins s : word s = true -> begins_visible s = true.
Proof. unfold word. destruct s as [|a s]; cbn; [done|]. intros [? _]%andb_true_iff. done. Qed.

Lemma word_ends s : word s = true -> ends_visible s = true.
Proof.
  unfold word. induction s as [|a [|b s] IH]; cbn; [done| |].
  - intros [? _]%andb_true_iff. done.
  - intros [_ Hs]%andb_true_iff. by apply IH.
Qed.

Lemma no_space_char c s : is_space c = true -> no_space s = true -> no_char c s = true.
Proof.
  intros Hc. induction s as [|a s IH]; cbn; [done|]. intros [Ha Hs]%andb_true_iff. rewrite IH by done.
  destruct (Ascii.eqb_spec a c) as [->|]; [by rewrite Hc in Ha|done].
Qed.

Lemma word_char c s : is_space c = true -> word s = true -> no_char c s = true.
Proof. intros Hc [_ Hs]%andb_true_iff. by apply no_space_char. Qed.

(** A line of words. *)
Lemma line_visible l : l <> [] -> Forall (fun s => word s = true) l ->
  begins_visible (line l) = true /\ ends_visible (line l) = true.
Proof.
  intros Hne Hl. unfold line. induction Hl as [|s l Hs Hl IH]; [done|]. destruct l as [|t l].
  - cbn. split; [by apply word_begins|by apply word_ends].
  - change (strings_join (String tab "") (s :: t :: l)) with (s ++ String tab "" ++ strings_join (String tab "") (t :: l)).
    destruct IH as [_ He]; [done|]. split; [by apply begins_visible_app, word_begins|]. by do 2 apply ends_visible_app.
Qed.

Lemma line_split l : l <> [] -> Forall (fun s => word s = true) l -> split_on tab (line l) = l.
Proof.
  intros Hne Hl. apply split_on_join; [done|]. eapply Forall_impl; [exact Hl|]. intros s. by apply word_char.
Qed.

Lemma line_nl l : Forall (fun s => word s = true) l -> no_char (ascii_of_nat 10) (line l) = true.
Proof.
  intros Hl. apply no_char_join; [done|]. apply forallb_forall. intros s Hs%list_elem_of_In.
  rewrite Forall_forall in Hl. apply word_char; [done|by apply Hl].
Qed.

(** Numbers. *)
Lemma digit_visible a : is_digit a = true -> is_space a = false.
Proof. destruct a as [[] [] [] [] [] [] [] []]; done. Qed.

Lemma parse_digits s a n : parse_uint_go s a = NumOk n -> leading_digits s = s /\ no_space s = true.
Proof.
  revert a. induction s as [|b s IH]; intros a; cbn [parse_uint_go leading_digits no_space]; [done|].
  destruct (is_digit b) eqn:Hb; [|done]. destruct (_ <? _)%Z; [done|]. intros Hp. destruct (IH _ Hp) as [-> ->].
  by rewrite (digit_visible b Hb).
Qed.

Lemma itoa_word z : counter z = true -> word (itoa z) = true /\ scan_number (itoa z) = z.
Proof.
  intros Hz%counter_range. assert (parse_uint (itoa z) = NumOk z) as Hp.
  { apply parse_uint_itoa. unfold max_int64, max_uint64 in *. lia. }
  assert (no_char "-" (itoa z) = true /\ no_char "+" (itoa z) = true) as [Hm Hpl] by (split; by apply no_char_itoa).
  unfold scan_number, word. destruct (itoa z) as [|a s] eqn:Ei; [done|].
  destruct (parse_digits _ _ _ Hp) as [Hd Hs]. split; [by rewrite Hs|].
  cbn [no_space] in Hs. apply andb_true_iff in Hs as [Ha%negb_true_iff _]. cbn [trimLeft]. rewrite Ha.
  assert ((match String a s with String "-" t => (true, t) | String "+" t => (false, t) | _ => (false, String a s) end)
    = (false, String a s)) as ->.
  { destruct a as [[] [] [] [] [] [] [] []]; done. }
  rewrite Hd, Hp. destruct (Z.leb_spec (2 ^ 63) z); [unfold max_int64 in Hz; lia|done].
Qed.

Lemma dumpFields_words p : dump_ok p = true -> Forall (fun s => word s = true) (dumpFields p).
Proof.
  unfold dump_ok. rewrite !andb_true_iff. intros [[[[[[[? ?] ?] ?] ?] ?%itoa_word] ?%itoa_word] ?%itoa_word].
  unfold dumpFields. repeat (apply Forall_cons; split; [tauto|]). apply Forall_nil_2.
Qed.

Lemma peerLine_dump now p : dump_ok p = true -> peerLine now (line (dumpFields p)) = Some (statusOf now p).
Proof.
  intros Hp. pose proof (dumpFields_words p Hp) as Hw. unfold peerLine.
  destruct (line_visible (dumpFields p)) as [Hb He]; [done|done|]. destruct (TrimSpace_newline _ Hb He) as [_ ->].
  assert (String.eqb (line (dumpFields p)) "" = false) as -> by (by destruct (line (dumpFields p))).
  rewrite line_split by done. unfold dumpFields. unfold dump_ok in Hp. rewrite !andb_true_iff in Hp.
  destruct Hp as [[[_ [_ Hh]%itoa_word] [_ Hr]%itoa_word] [_ Ht]%itoa_word]. unfold statusOf. by rewrite Hh, Hr, Ht.
Qed.

(** Lines of words as one text. *)
Lemma unlines_join s l : unlines (s :: l) = strings_join newline (s :: l) ++ newline.
Proof.
  revert s. induction l as [|t l IH]; intros s; [cbn; by rewrite string_app_nil_r|].
  cbn [unlines]. cbn [unlines] in IH. rewrite IH.
  change (strings_join newline (s :: t :: l)) with (s ++ newline ++ strings_join newline (t :: l)). by rewrite !string_app_assoc.
Qed.

Lemma join_visible l : l <> [] -> Forall (fun s => begins_visible s = true /\ ends_visible s = true) l ->
  begins_visible (strings_join newline l) = true /\ ends_visible (strings_join newline l) = true.
Proof.
  intros Hne Hl. induction Hl as [|s l [Hb He] Hl IH]; [done|]. destruct l as [|t l]; [done|].
  change (strings_join newline (s :: t :: l)) with (s ++ newline ++ strings_join newline (t :: l)).
  destruct IH as [_ He']; [done|]. split; [by apply begins_visible_app|by do 2 apply ends_visible_app].
Qed.

(** The health report has one entry per peer of the dump, in its order,
    with the key, the endpoint, the counters and the handshake of its line,
    and the status that handshake's age gives. *)
Theorem dump_roundtrip now iface peers (Hne : iface <> []) (Hi : Forall (fun s => word s = true) iface)
    (Hp : forallb dump_ok peers = true) :
  collectWGPeerStats now (dump iface peers) = map (statusOf now) peers.
Proof.
  unfold collectWGPeerStats, dump. rewrite unlines_join.
  assert (Forall (fun fs => fs <> [] /\ Forall (fun s => word s = true) fs) (iface :: map dumpFields peers)) as Hall.
  { constructor; [done|]. apply Forall_fmap, Forall_forall. intros p Hin. rewrite forallb_forall in Hp. split; [done|].
    apply dumpFields_words, Hp. by apply list_elem_of_In. }
  assert (line iface :: map (fun p => line (dumpFields p)) peers = map line (iface :: map dumpFields peers)) as ->.
  { cbn. by rewrite map_map. }
  set (ls := map line (iface :: map dumpFields peers)).
  assert (ls <> []) as Hls by done.
  assert (Forall (fun s => begins_visible s = true /\ ends_visible s = true) ls) as Hv.
  { apply Forall_fmap. eapply Forall_impl; [exact Hall|]. intros fs [? ?]. by apply line_visible. }
  destruct (join_visible ls Hls Hv) as [Hb He]. destruct (TrimSpace_newline _ Hb He) as [-> _].
  unfold newline. rewrite split_on_join; [|done|].
  2:{ apply Forall_fmap. eapply Forall_impl; [exact Hall|]. intros fs [_ ?]. by apply line_nl. }
  unfold ls. cbn [map tail]. clear -Hp. induction peers as [|p peers IH]; [done|]. cbn [forallb] in Hp.
  apply andb_true_iff in Hp as [Hp1 Hp2]. cbn [map omap list_omap]. rewrite peerLine_dump by done. f_equal. by apply IH.
Qed.

(** ** The life of the interface *)

Section lifecycle.
Context `{DeviceEnv} (tunnelID hostname token : string).
Implicit Types (k : gm_call) (g : GatewayMode).

(** The configuration file, with the private key in it, is there. *)
Definition has_conf g : Prop := is_Some (gm_disk g !! confFile).

(** Calls in which the system does what it is told to undo: a failed write
    leaves no part of the file, removal works, and wg-quick takes the
    interface down. *)
Definition undoes (o : gm_op) : Prop :=
  match o with
  | OpStart k => gremoveOk k = true /\ (forall x, gwriteConf k <> IoFail (Some x))
  | OpStop k => gremoveOk k = true /\ gquickOk k = true
  end.

(** Asking for the configuration touches the key file and nothing else. *)
Lemma fetch_keeps k (P : bool -> bool -> option string -> Prop) :
  preserves (fun g => P (gm_running g) (gm_stopClosed g) (gm_disk g !! confFile)) (fetchS2SConfig tunnelID hostname token k).
Proof.
  assert (forall o : option string, forall msg, preserves (fun g => P (gm_running g) (gm_stopClosed g) (gm_disk g !! confFile)) (gneed o msg)) as Hs.
  { intros [x|] msg; [apply preserves_ret|apply preserves_stop]. }
  unfold fetchS2SConfig. apply preserves_bind; [apply Hs|intros privKey]. destruct (negb (gmkdirOk k)); [apply preserves_stop|].
  apply preserves_bind; [|intros _].
  { unfold writeFile. destruct (gwriteKey k) as [|[x|]].
    - intros g Hg. cbn. rewrite lookup_insert_ne by done. done.
    - apply preserves_bind; [|intros _; apply preserves_stop]. intros g Hg. cbn. rewrite lookup_insert_ne by done. done.
    - apply preserves_bind; [|intros _; apply preserves_stop]. by intros g Hg. }
  apply preserves_bind; [apply preserves_emit|intros _]. apply preserves_bind.
  { destruct (ganswer k); [apply preserves_ret|apply preserves_stop]. }
  intros resp. destruct (negb _); [apply preserves_stop|]. apply preserves_bind; [|intros; apply preserves_ret].
  destruct (v ← hs_JSON resp; dec_s2s v); [apply preserves_ret|apply preserves_stop].
Qed.

Lemma Start_conf k g x g' es : (gremoveOk k = true /\ (forall x, gwriteConf k <> IoFail (Some x))) ->
  (has_conf g <-> gm_running g = true) -> Start tunnelID hostname token k g = (x, g', es) ->
  (has_conf g' <-> gm_running g' = true).
Proof.
  intros [Hrm Hw] Hg. unfold Start, has_conf in *. unfold bind at 1, asks. destruct (gm_running g) eqn:Hr; [by intros [= <- <- <-]; rewrite Hr|].
  assert (gm_disk g !! confFile = None) as Hno by (apply eq_None_not_Some; rewrite Hg; done).
  unfold bind at 1, gmod. unfold orStop. unfold bind at 1.
  pose proof (fetch_keeps k (fun r _ c => r = true /\ c = None) (with_running true g) (conj eq_refl Hno)) as Hf. unfold wp in Hf.
  destruct (fetchS2SConfig tunnelID hostname token k (with_running true g)) as [[[[priv config]|e] g1] es1]; destruct Hf as [Hrun Hf].
  2:{ intros [= <- <- <-]. cbn. rewrite Hf. split; [by intros []|done]. }
  unfold bind at 1. destruct (gmkdirOk k); cbn [negb].
  2:{ intros [= <- <- <-]. cbn. rewrite Hf. split; [by intros []|done]. }
  unfold writeFile. destruct (gwriteConf k) as [|[p|]] eqn:Ew; [|by destruct (Hw p)|].
  - destruct (gquickOk k); cbn -[confFile buildWireGuardConfig].
    + intros [= <- <- <-]. cbn -[confFile buildWireGuardConfig]. rewrite lookup_insert_eq.
      by rewrite Hrun.
    + intros [= <- <- <-]. cbn -[confFile buildWireGuardConfig]. rewrite Hrm, lookup_delete_eq. split; [by intros []|done].
  - intros [= <- <- <-]. cbn. rewrite Hf. split; [by intros []|done].
Qed.

Lemma Stop_conf k g x g' es : (gremoveOk k = true /\ gquickOk k = true) ->
  (has_conf g <-> gm_running g = true) -> Stop k g = (x, g', es) -> (has_conf g' <-> gm_running g' = true).
Proof.
  intros [Hrm Hq] Hg. unfold Stop, has_conf in *. unfold bind at 1, asks. destruct (gm_running g) eqn:Hr; cbn [negb].
  - unfold bind, gmod, emit. rewrite Hq. cbn -[confFile]. intros [= <- <- <-]. cbn -[confFile]. rewrite Hrm, lookup_delete_eq.
    split; [by intros []|done].
  - intros [= <- <- <-]. by rewrite Hr.
Qed.

(** Whatever the order of starts and stops, and whatever fails on the
    way, the configuration file with the private key is on disk exactly while
    the gateway is running, as long as the system does what it is told to
    undo. *)
Theorem conf_only_while_running ops g (Hops : Forall undoes ops) (Hg : has_conf g <-> gm_running g = true) :
  let g' := (run_ops tunnelID hostname token ops g).1 in has_conf g' <-> gm_running g' = true.
Proof.
  revert g Hg. induction Hops as [|o ops Ho Hops IH]; intros g Hg; [done|]. cbn [run_ops].
  destruct (run_op tunnelID hostname token o g) as [[x g1] es] eqn:Hrun.
  assert (has_conf g1 <-> gm_running g1 = true) as Hg1.
  { destruct o as [k|k]; cbn [run_op undoes] in *; [by eapply Start_conf|by eapply Stop_conf]. }
  specialize (IH g1 Hg1). by destruct (run_ops tunnelID hostname token ops g1) as [g2 fs].
Qed.

(** A start succeeds only on a JSON answer. *)
Lemma Start_needs_json k g g' es : Start tunnelID hostname token k g = (inl tt, g', es) ->
  exists resp v, ganswer k = Some resp /\ (200 <= hs_StatusCode resp < 300)%Z /\ hs_JSON resp = Some v.
Proof.
  unfold Start. unfold bind at 1, asks. destruct (gm_running g); [done|]. unfold bind at 1, gmod, orStop. unfold bind at 1.
  unfold fetchS2SConfig. unfold bind at 1. destruct GeneratePrivateKey as [p|]; [|done]. cbn [gneed ret].
  destruct (gmkdirOk k); [|done]. cbn [negb]. unfold bind at 1. destruct (gwriteKey k); [|done]. cbn [writeFile gmod].
  unfold bind at 1, emit. unfold bind at 1. destruct (ganswer k) as [resp|]; [|done]. cbn [gneed ret].
  destruct (200 <=? hs_StatusCode resp)%Z eqn:E1; [|done]. destruct (hs_StatusCode resp <? 300)%Z eqn:E2; [|done].
  cbn [andb negb]. unfold bind at 1. destruct (hs_JSON resp) as [v|] eqn:Ej; [|done]. intros _.
  exists resp, v. apply Z.leb_le in E1. apply Z.ltb_lt in E2. done.
Qed.
End lifecycle.

(** ** Against the core *)

(** The core answers with a file that begins with a comment. *)
Lemma generateConfig_text `{SqlOrder} `{DeviceEnv} `{PgText} `{PgxScan} {E} fail generated rawId rawGateway s st b s' es :
  run (generateConfig (E := E) fail generated rawId rawGateway) s = (Reply st b, s', es) ->
  exists f t, b = SbFile f (String "#" t).
Proof.
  intros Hrun. assert (replies (fun b => exists f t, b = SbFile f (String "#" t)) (generateConfig (E := E) fail generated rawId rawGateway)) as Hr.
  { unfold generateConfig. repeat (apply replies_bind; intros ?). apply replies_json. eexists _, _. reflexivity. }
  apply (run_Reply _ _ _ _ _ _ _ Hrun (Hr s)).
Qed.

(** What the client gets over HTTP from the endpoint; [read] finds the JSON
    value in a text. *)
Definition http_answer (read : string -> option json) (r : reply s2sBody) : httpResponse :=
  match r with
  | Reply st (SbFile _ text) => {| hs_StatusCode := st; hs_Text := text; hs_JSON := read text |}
  | Reply st _ => {| hs_StatusCode := st; hs_Text := ""; hs_JSON := None |}
  | Failure st msg => {| hs_StatusCode := st; hs_Text := msg; hs_JSON := Some (JObject [("error", JString msg)]) |}
  end.

(** Every refusal of the endpoint is a client or server error. *)
Definition refuses {S E A} (m : H S E A) : Prop := forall s, wp m (fun _ _ _ => True) (fun e _ _ => (400 <= e.1)%Z) s.

Lemma refuses_bind {S E A C} (m : H S E A) (f : A -> H S E C) : refuses m -> (forall a, refuses (f a)) -> refuses (bind m f).
Proof. intros Hm Hf s. apply wp_bind. eapply wp_mono; [| |apply Hm]; [intros a s' es _|done]. apply Hf. Qed.

Lemma refuses_the {S E A} (o : option A) st msg : (400 <= st)%Z -> refuses (the (S := S) (E := E) o st msg).
Proof. intros Hst s. apply wp_the. by destruct o. Qed.

Lemma refuses_query {S E A} fails (f : S -> A) st msg : (400 <= st)%Z -> refuses (query (E := E) fails f st msg).
Proof. intros Hst s. apply wp_query. by destruct fails. Qed.

Lemma refuses_require {S E} b st msg : (400 <= st)%Z -> refuses (require (S := S) (E := E) b st msg).
Proof. intros Hst s. apply wp_require. by destruct b. Qed.

Lemma refuses_fetch {S E A} fails n (f : S -> list A) q sc it : refuses (fetch (E := E) fails n f q sc it).
Proof.
  unfold fetch. apply refuses_bind; [by apply refuses_query|]. intros l. apply refuses_bind; [by apply refuses_require|].
  intros _. apply refuses_bind; [by apply refuses_require|]. intros _ s. by apply wp_ret.
Qed.

Lemma generateConfig_refuses `{SqlOrder} `{DeviceEnv} `{PgText} `{PgxScan} {E} fail generated rawId rawGateway s st msg s' es :
  run (generateConfig (E := E) fail generated rawId rawGateway) s = (Failure st msg, s', es) -> (400 <= st)%Z.
Proof.
  assert (refuses (generateConfig (E := E) fail generated rawId rawGateway)) as Hr.
  { unfold generateConfig. repeat (apply refuses_bind; [first [apply refuses_the | apply refuses_query | apply refuses_fetch]; lia|intros ?]).
    intros s0. by apply wp_ret. }
  specialize (Hr s). unfold run, wp in *. destruct (generateConfig fail generated rawId rawGateway s) as [[[[? ?]|[? ?]] ?] ?]; [done|].
  by intros [= <- <- <- <-].
Qed.

(** The gateway mode cannot start against this core: whatever the endpoint
    answers, it is an error or a text that is not JSON. *)
Theorem gateway_mode_never_starts `{SqlOrder} `{DeviceEnv} `{PgText} `{PgxScan} {E} (read : string -> option json)
    (Hread : forall t, read (String "#" t) = None) fail generated tunnelID hostname token k g s r s' es
    (Hcore : run (generateConfig (E := E) fail generated tunnelID (hostnameOr hostname)) s = (r, s', es))
    (Hans : ganswer k = Some (http_answer read r)) :
  (Start tunnelID hostname token k g).1.1 <> inl tt.
Proof.
  destruct (Start tunnelID hostname token k g) as [[x g'] fs] eqn:Hst. cbn. intros ->.
  destruct (Start_needs_json _ _ _ _ _ _ _ Hst) as (resp & v & Ha & Hs & Hj). rewrite Hans in Ha. injection Ha as <-.
  destruct r as [st b|st msg].
  - destruct (generateConfig_text _ _ _ _ _ _ _ _ _ Hcore) as (f & t & ->). cbn in Hj. by rewrite Hread in Hj.
  - apply generateConfig_refuses in Hcore. cbn in Hs. lia.
Qed.

(** ** Runs *)

Definition peer0 : dumpPeer := {|
  du_key := "PEERKEY="; du_psk := "(none)"; du_endpoint := "1.2.3.4:51820"; du_ips := "10.1.0.0/16"; du_handshake := 1000;
  du_rx := 5; du_tx := 7; du_keepalive := "25" |}.
Definition peer1 : dumpPeer := {|
  du_key := "NEWKEY="; du_psk := "(none)"; du_endpoint := "(none)"; du_ips := "(none)"; du_handshake := 0;
  du_rx := 0; du_tx := 0; du_keepalive := "off" |}.

Lemma dump_roundtrip_witness :
  map (fun h => (ph_PublicKey h, ph_Status h)) (collectWGPeerStats (1100 * second) (dump ["PRIV="; "PUB="; "51820"; "off"] [peer0; peer1])) =
    [("PEERKEY=", "HEALTHY"); ("NEWKEY=", "DOWN")].
Proof.
  rewrite (dump_roundtrip (1100 * second) ["PRIV="; "PUB="; "51820"; "off"] [peer0; peer1]);
    [reflexivity|done|repeat constructor|reflexivity].
Defined.

Definition s2s_answer : httpResponse := {| hs_StatusCode := 200; hs_Text := ""; hs_JSON := Some (JObject [("gateway_id", JString "g1")]) |}.
Definition good : gm_call := {|
  gmkdirOk := true; gwriteKey := IoOk; gwriteConf := IoOk; gremoveOk := true; gquickOk := true; ganswer := Some s2s_answer |}.
Definition no_quick : gm_call := {|
  gmkdirOk := true; gwriteKey := IoOk; gwriteConf := IoOk; gremoveOk := true; gquickOk := false; ganswer := Some s2s_answer |}.

Lemma conf_only_while_running_witness :
  let g := (@run_ops toy_device_env "t" "h" "tok" [OpStart no_quick; OpStart good; OpStart good] NewGatewayMode).1 in
  gm_running g = true /\ has_conf g.
Proof.
  intros g. assert (gm_running g = true) as Hr by (vm_compute; reflexivity). split; [exact Hr|].
  apply (@conf_only_while_running toy_device_env "t" "h" "tok" [OpStart no_quick; OpStart good; OpStart good] NewGatewayMode); [..|exact Hr].
  - repeat constructor; by intros x.
  - split; [by intros [? ?]|done].
Defined.

(** A stop that fails clears the flag first: the next stop does nothing, and
    the interface and the file with the private key stay. *)
Lemma failed_stop_keeps_key :
  let '(g, es) := @run_ops toy_device_env "t" "h" "tok" [OpStart good; OpStop no_quick; OpStop good] NewGatewayMode in
  gm_running g = false /\ has_conf g /\ WgQuick false true ∉ es.
Proof.
  vm_compute. split_and!; [done|by eexists|]. intros Hin.
  repeat (apply elem_of_cons in Hin as [Hin|Hin]; [discriminate|]). by apply elem_of_nil in Hin.
Qed.

(** The channel stays closed: after a restart the reporting loop ends at once. *)
Lemma restart_reports_nothing :
  let '(g, es) := @run_ops toy_device_env "t" "h" "tok" [OpStart good; OpStop good; OpStart good] NewGatewayMode in
  gm_running g = true /\ List.filter (fun d => match d with SyncLoop _ => true | _ => false end) es = [SyncLoop false; SyncLoop true].
Proof. vm_compute. done. Qed.

(** A refused start leaves the new private key on disk. *)
Lemma refused_start_leaves_key :
  let k := {| gmkdirOk := true; gwriteKey := IoOk; gwriteConf := IoOk; gremoveOk := true; gquickOk := true; ganswer := None |} in
  let g := (@run_ops toy_device_env "t" "h" "tok" [OpStart k; OpStop k] NewGatewayMode).1 in
  gm_running g = false /\ gm_disk g !! keyFile = Some "priv".
Proof. vm_compute. done. Qed.
