(* ===== verification/NatTraversal.v ===== *)
(** * NAT traversal

    [internal/nat]: the detection of the kind of address translation a host is
    behind ([discovery.go]), a STUN server ([stun.go]), the check of the realm
    and the credentials of the relay ([turn.go]), and the endpoints that store
    the results ([handler.go]).  What the network answers is an argument; the
    messages of STUN are a class.  The STUN server reads all packets into one
    buffer and handles each in a goroutine of its own, which is modelled by the
    shared buffer and an order of events. *)

From S2P Require Import Prelude Schema Auth Policy Devices Http Regex Tables.
From Stdlib Require Import ZArith Lia Ascii String.
From stdpp Require Import base gmap strings list sorting.
Import Token Middleware.

Local Open Scope Z_scope.
Local Open Scope string_scope.
Local Open Scope outpost_scope.

(** ** Discovery *)

Inductive NATType := NATTypeFullCone | NATTypeRestrictedCone | NATTypePortRestricted | NATTypeSymmetric | NATTypeOpen | NATTypeUnknown.

#[global] Instance NATType_eq : EqDecision NATType.
Proof. solve_decision. Defined.

Definition nat_text (t : NATType) : string :=
  match t with
  | NATTypeFullCone => "full_cone" | NATTypeRestrictedCone => "restricted_cone" | NATTypePortRestricted => "port_restricted"
  | NATTypeSymmetric => "symmetric" | NATTypeOpen => "open" | NATTypeUnknown => "unknown"
  end.

Record DiscoveryResult := { dr_NATType : NATType; dr_ExternalIP : string; dr_ExternalPort : Z }.

Record mappedAddr := { ma_IP : string; ma_Port : Z }.

(** How a transaction with a STUN server ends. *)
Inductive transaction :=
| NoSocket                                      (* dialling, the client or its start fail *)
| EventError
| Answer (xor mapped : option mappedAddr)       (* the two attributes of the message *)
| NoAnswer.                                     (* five seconds have passed *)

Definition getMappedAddress (t : transaction) : option mappedAddr :=
  match t with
  | NoSocket | EventError | NoAnswer => None
  | Answer (Some a) _ => Some a
  | Answer None m => m
  end.

(** The same from a given local port; the addresses may not resolve. *)
Definition getMappedAddressFromPort (resolves : bool) (t : transaction) : option mappedAddr :=
  if negb resolves then None else getMappedAddress t.

Definition result_at (t : NATType) (a : mappedAddr) : DiscoveryResult :=
  {| dr_NATType := t; dr_ExternalIP := ma_IP a; dr_ExternalPort := ma_Port a |}.

(** The answers of the three transactions, the third from the local port that
    the first one saw from outside, and the outbound address.  The flag says
    whether an error is returned. *)
Definition Discover (first second : transaction) (third : Z -> bool * transaction) (outbound : option string)
  : DiscoveryResult * bool :=
  match getMappedAddress first with
  | None => ({| dr_NATType := NATTypeUnknown; dr_ExternalIP := ""; dr_ExternalPort := 0 |}, true)
  | Some mapped1 =>
      if bool_decide (outbound = Some (ma_IP mapped1)) then (result_at NATTypeOpen mapped1, false) else
      match getMappedAddress second with
      | None => (result_at NATTypeUnknown mapped1, false)
      | Some mapped2 =>
          if negb (String.eqb (ma_IP mapped1) (ma_IP mapped2)) || negb (ma_Port mapped1 =? ma_Port mapped2)%Z
          then (result_at NATTypeSymmetric mapped1, false) else
          match getMappedAddressFromPort (third (ma_Port mapped1)).1 (third (ma_Port mapped1)).2 with
          | None => (result_at NATTypeRestrictedCone mapped1, false)
          | Some mapped3 =>
              if (ma_Port mapped3 =? ma_Port mapped1)%Z then (result_at NATTypeFullCone mapped1, false)
              else (result_at NATTypePortRestricted mapped1, false)
          end
      end
  end.

(** *** Against a translator

    A translator gives every local port and destination an address outside; two
    local ports are never told apart by nothing. *)

Record translator := {
  outside : Z -> string -> mappedAddr;     (* local port, server *)
  inject : forall p q s, outside p s = outside q s -> p = q;
}.

(** The kinds of RFC 3489: the address outside does not depend on the server
    (a cone), or differs for every two servers. *)
Definition cone (n : translator) : Prop := forall p s s', outside n p s = outside n p s'.
Definition symmetric (n : translator) : Prop := forall p q s s', s <> s' -> outside n p s <> outside n q s'.

(** What the host sees: a fresh local port for each of the first two requests. *)
Definition observed (n : translator) (p1 p2 : Z) (s1 s2 : string) (host : string) : DiscoveryResult * bool :=
  let ask p s := Answer (Some (outside n p s)) None in
  Discover (ask p1 s1) (ask p2 s2) (fun p => (true, ask p s2)) (Some host).

Lemma same_address a b :
  negb (String.eqb (ma_IP a) (ma_IP b)) || negb (ma_Port a =? ma_Port b)%Z = false <-> a = b.
Proof.
  destruct a as [i p], b as [j q]. cbn. rewrite orb_false_iff, !negb_false_iff, String.eqb_eq, Z.eqb_eq.
  split; [by intros [-> ->]|by intros [= -> ->]].
Qed.

Lemma differ_address a b :
  negb (String.eqb (ma_IP a) (ma_IP b)) || negb (ma_Port a =? ma_Port b)%Z = true <-> a <> b.
Proof. rewrite <- same_address. by destruct (_ || _). Qed.

(** A result always names the address the first server saw, and an error is
    returned exactly when that server gave none. *)
Lemma Discover_address first second third outbound :
  let '(r, failed) := Discover first second third outbound in
  match getMappedAddress first with
  | None => failed = true /\ dr_NATType r = NATTypeUnknown /\ dr_ExternalIP r = "" /\ dr_ExternalPort r = 0%Z
  | Some a => failed = false /\ dr_ExternalIP r = ma_IP a /\ dr_ExternalPort r = ma_Port a
  end.
Proof.
  unfold Discover. destruct (getMappedAddress first) as [a|]; [|done]. case_bool_decide; [done|].
  destruct (getMappedAddress second) as [b|]; [|done]. destruct (_ || _); [done|].
  destruct (getMappedAddressFromPort _ _) as [c|]; [|done]. by destruct (_ =? _)%Z.
Qed.

(** Behind a translator with two different servers, the host is told that
    it is open exactly when the first server saw its own address, and behind a
    symmetric translator it is told so; and the address in the result is the one
    the first server saw. *)
Theorem Discover_sound n p1 p2 s1 s2 host (Hs : s1 <> s2) :
  let '(r, failed) := observed n p1 p2 s1 s2 host in
  failed = false /\ dr_ExternalIP r = ma_IP (outside n p1 s1) /\ dr_ExternalPort r = ma_Port (outside n p1 s1) /\
  (dr_NATType r = NATTypeOpen <-> ma_IP (outside n p1 s1) = host) /\
  (symmetric n -> ma_IP (outside n p1 s1) <> host -> dr_NATType r = NATTypeSymmetric).
Proof.
  unfold observed. pose proof (Discover_address (Answer (Some (outside n p1 s1)) None) (Answer (Some (outside n p2 s2)) None)
    (fun p => (true, Answer (Some (outside n p s2)) None)) (Some host)) as Ha.
  destruct (Discover _ _ _ _) as [r failed] eqn:Hd. cbn [getMappedAddress] in Ha. destruct Ha as (-> & H1 & H2).
  split_and!; [done..| |]; revert Hd; unfold Discover; cbn [getMappedAddress getMappedAddressFromPort negb fst snd].
  - case_bool_decide as Hb; [intros [= <-]; cbn; split; [by injection Hb as <-|done]|].
    assert (ma_IP (outside n p1 s1) <> host) as Hne by congruence.
    destruct (_ || _); [intros [= <-]; by split|]. destruct (_ =? _)%Z; intros [= <-]; by split.
  - intros Hd Hsym Hne. rewrite bool_decide_eq_false_2 in Hd by congruence.
    rewrite (proj2 (differ_address _ _) (Hsym p1 p2 s1 s2 Hs)) in Hd. by injection Hd as <-.
Qed.

(** The first two requests come from different local ports, so a cone, which
    gives two ports two addresses, looks symmetric. *)
Theorem cone_taken_for_symmetric n p1 p2 s1 s2 host : cone n -> p1 <> p2 -> ma_IP (outside n p1 s1) <> host ->
  dr_NATType (observed n p1 p2 s1 s2 host).1 = NATTypeSymmetric.
Proof.
  intros Hc Hp Hh. unfold observed, Discover. cbn [getMappedAddress]. rewrite bool_decide_eq_false_2 by congruence.
  assert (outside n p1 s1 <> outside n p2 s2) as Hne.
  { intros E. apply Hp. apply (inject n p1 p2 s1). by rewrite E, (Hc p2 s2 s1). }
  by rewrite (proj2 (differ_address _ _) Hne).
Qed.

(** ** The STUN server *)

(** Messages of RFC 5389: the transaction of a binding request, and the
    response with the address of the client. *)
Class StunLib : Type := {
  stun_Decode : list Z -> option (bool * string);           (* a binding request?, transaction *)
  stun_Build : string -> mappedAddr -> option (list Z);
}.

Definition buffer_size : nat := 1500.

(** A datagram that does not fit is cut off. *)
Definition received (data : list Z) : list Z := take buffer_size data.

Record stun_server := {
  buf : list Z;
  tasks : list (nat * mappedAddr);            (* goroutines that have not run: length, client *)
  sent : list (list Z * mappedAddr);
}.

Definition NewSTUNServer : stun_server := {| buf := replicate buffer_size 0%Z; tasks := []; sent := [] |}.

Inductive stun_event :=
| Arrive (data : list Z) (from : mappedAddr)  (* ReadFrom returns, a goroutine is started *)
| Handle (i : nat).                           (* the i-th waiting goroutine runs *)

Section stun.
Context `{StunLib}.

(** [handlePacket]: nothing is sent for what is not a binding request. *)
Definition handlePacket (data : list Z) (addr : mappedAddr) : option (list Z * mappedAddr) :=
  match stun_Decode data with
  | None => None
  | Some (binding, transaction) =>
      if negb binding then None
      else match stun_Build transaction addr with Some raw => Some (raw, addr) | None => None end
  end.

(** The slice a goroutine was given is part of the one buffer. *)
Definition stun_step (s : stun_server) (e : stun_event) : stun_server :=
  match e with
  | Arrive data from =>
      let n := length (received data) in
      {| buf := received data ++ drop n (buf s); tasks := tasks s ++ [(n, from)]; sent := sent s |}
  | Handle i =>
      match tasks s !! i with
      | None => s
      | Some (n, from) =>
          {| buf := buf s; tasks := delete i (tasks s);
             sent := sent s ++ match handlePacket (take n (buf s)) from with Some r => [r] | None => [] end |}
      end
  end%list.

Definition serve_stun (l : list stun_event) : stun_server := foldl stun_step NewSTUNServer l.

(** Every packet is handled before the next one is read. *)
Definition one_by_one (l : list (list Z * mappedAddr)) : list stun_event :=
  concat (map (fun x => [Arrive x.1 x.2; Handle 0]) l).

Lemma one_by_one_run l s : tasks s = [] ->
  let s' := foldl stun_step s (one_by_one l) in
  tasks s' = [] /\ sent s' = (sent s ++ omap (fun x => handlePacket (received x.1) x.2) l)%list.
Proof.
  revert s. induction l as [|[data from] l IH]; intros s Ht; cbn [one_by_one map concat app foldl].
  - cbn. by rewrite app_nil_r.
  - fold (one_by_one l). set (s1 := stun_step (stun_step s _) _).
    assert (tasks s1 = [] /\ sent s1 = (sent s ++ match handlePacket (received data) from with Some r => [r] | None => [] end)%list)
      as [H1 H2].
    { unfold s1. cbn -[received drop take]. rewrite Ht. cbn -[received drop take]. by rewrite take_app_length. }
    destruct (IH s1 H1) as [-> ->]. split; [done|]. rewrite H2, <- app_assoc. f_equal. cbn [omap list_omap fst snd].
    by destruct (handlePacket (received data) from).
Qed.

(** When no packet arrives while another is handled, every binding request is
    answered once, in order, to the client it came from and with its own
    transaction, and nothing else is sent. *)
Theorem stun_answers l :
  sent (serve_stun (one_by_one l)) = omap (fun x => handlePacket (received x.1) x.2) l.
Proof. unfold serve_stun. by destruct (one_by_one_run l NewSTUNServer eq_refl) as [_ ->]. Qed.
End stun.

(** A toy encoding: the first byte says request, the second is the transaction. *)
Definition toy_stun : StunLib := {|
  stun_Decode := fun l => match l with b :: t :: _ => Some ((b =? 1)%Z, itoa t) | _ => None end;
  stun_Build := fun t a => Some [2; Z.of_nat (String.length t); ma_Port a]%Z |}.

(** A second packet that arrives before the first is handled overwrites it:
    the first client gets an answer with the transaction of the second. *)
Lemma buffer_overwritten :
  let a := {| ma_IP := "10.0.0.1"; ma_Port := 1 |} in let b := {| ma_IP := "10.0.0.2"; ma_Port := 2 |} in
  sent (@serve_stun toy_stun [Arrive [1; 7]%Z a; Arrive [1; 100]%Z b; Handle 0; Handle 0]) =
    [([2; 3; 1]%Z, a); ([2; 3; 2]%Z, b)] /\
  sent (@serve_stun toy_stun (one_by_one [([1; 7]%Z, a); ([1; 100]%Z, b)])) = [([2; 1; 1]%Z, a); ([2; 3; 2]%Z, b)].
Proof. split; vm_compute; reflexivity. Qed.

(** ** The relay *)

Definition realm_char (c : ascii) : bool :=
  let n := nat_of_ascii c in
  ((97 <=? n) && (n <=? 122))%nat || ((65 <=? n) && (n <=? 90))%nat || ((48 <=? n) && (n <=? 57))%nat ||
  existsb (Ascii.eqb c) ["."; "_"; "-"]%char.

Definition validRealmRe : regex := RSeq (RClass realm_char) (RStar (RClass realm_char)).

Definition ValidateRealm (realm : string) : bool :=
  (0 <? Z.of_nat (String.length realm))%Z && (Z.of_nat (String.length realm) <=? 255)%Z && Regex.matches validRealmRe realm.

Lemma lang_star_class p l : lang (RStar (RClass p)) l <-> Forall (fun c => p c = true) l.
Proof.
  split.
  - remember (RStar (RClass p)) as r eqn:Er. induction 1 as [| | | | |?|r l1 l2 Hne H1 IH1 H2 IH2]; try discriminate Er; [constructor|].
    injection Er as ->. apply lang_class_inv in H1 as (c & -> & Hc). constructor; [done|by apply IH2].
  - induction 1 as [|c l Hc Hl IH]; [apply lang_star0|]. change (c :: l) with ([c] ++ l)%list.
    apply lang_star; [done| |done]. by constructor.
Qed.

(** A realm is accepted exactly when it has 1 to 255 characters, each a letter,
    a digit, a dot, a dash or an underscore. *)
Theorem ValidateRealm_correct realm : ValidateRealm realm = true <->
  realm <> "" /\ (String.length realm <= 255)%nat /\ Forall (fun c => realm_char c = true) (list_ascii_of_string realm).
Proof.
  unfold ValidateRealm, validRealmRe. rewrite !andb_true_iff, matches_lang, lang_seq_inv. split.
  - intros [[H1%Z.ltb_lt H2%Z.leb_le] (l1 & l2 & E & (c & -> & Hc)%lang_class_inv & Hl%lang_star_class)].
    split_and!; [by intros ->|lia|]. rewrite E. by constructor.
  - intros (Hne & Hlen & Hall). destruct realm as [|c r]; [done|]. cbn [list_ascii_of_string] in *. apply Forall_cons in Hall as [Hc Hr].
    split; [split; [apply Z.ltb_lt; cbn [String.length]; lia|apply Z.leb_le; lia]|].
    exists [c], (list_ascii_of_string r). split_and!; [done|by constructor|by apply lang_star_class].
Qed.

(** [GenerateAuthKey] of the library hashes its three arguments. *)
Definition AuthHandler (GenerateAuthKey : string -> string -> string -> string) (username realm : string) : string * bool :=
  (GenerateAuthKey username realm username, true).

(** ** The endpoints *)

Record relay_row := {
  rl_ID : string; rl_Name : string; rl_Address : string; rl_Region : string; rl_Protocol : string; rl_IsActive : bool;
  rl_CreatedAt : Z; rl_UpdatedAt : Z;
}.

Record nat_row := {
  ns_DeviceID : string; ns_NATType : string; ns_ExternalIP : string; ns_ExternalPort : Z; ns_RelayServerID : option string;
  ns_LastChecked : Z; ns_CreatedAt : Z;
}.

Record nat_state := { nt_base : db; nat_status : list nat_row; relay_servers : list relay_row }.

Definition with_status (s : nat_state) l : nat_state := {| nt_base := nt_base s; nat_status := l; relay_servers := relay_servers s |}.
Definition with_relays (s : nat_state) l st : nat_state := {| nt_base := nt_base s; nat_status := st; relay_servers := l |}.

Definition status_seen (now : Z) (r : DiscoveryResult) (x : nat_row) : nat_row := {|
  ns_DeviceID := ns_DeviceID x; ns_NATType := nat_text (dr_NATType r); ns_ExternalIP := dr_ExternalIP r;
  ns_ExternalPort := dr_ExternalPort r; ns_RelayServerID := ns_RelayServerID x; ns_LastChecked := now; ns_CreatedAt := ns_CreatedAt x |}.

(** [INSERT INTO nat_status ... ON CONFLICT (device_id) DO UPDATE]. *)
Definition upsert_status (now : Z) (device : string) (r : DiscoveryResult) : stmt nat_state unit := fun s =>
  if negb (has d_id (devices (nt_base s)) device) then inr ErrForeignKey else
  if has ns_DeviceID (nat_status s) device then inl (tt, with_status s (upd ns_DeviceID device (status_seen now r) (nat_status s)))
  else inl (tt, with_status s (nat_status s ++
    [{| ns_DeviceID := device; ns_NATType := nat_text (dr_NATType r); ns_ExternalIP := dr_ExternalIP r;
        ns_ExternalPort := dr_ExternalPort r; ns_RelayServerID := None; ns_LastChecked := now; ns_CreatedAt := now |}])%list).

Definition insert_relay (newID : string) (now : Z) (name address region protocol : string) : stmt nat_state relay_row := fun s =>
  let r := {| rl_ID := newID; rl_Name := name; rl_Address := address; rl_Region := region; rl_Protocol := protocol;
              rl_IsActive := true; rl_CreatedAt := now; rl_UpdatedAt := now |} in
  if has rl_ID (relay_servers s) newID then inr (ErrUnique "relay_servers_pkey")
  else if negb (String.eqb protocol "stun" || String.eqb protocol "turn") then inr ErrOther
  else inl (r, with_relays s (relay_servers s ++ [r])%list (nat_status s)).

(** The foreign key sets the reference of a status to NULL. *)
Definition unrelay (id : string) (x : nat_row) : nat_row := {|
  ns_DeviceID := ns_DeviceID x; ns_NATType := ns_NATType x; ns_ExternalIP := ns_ExternalIP x; ns_ExternalPort := ns_ExternalPort x;
  ns_RelayServerID := if bool_decide (ns_RelayServerID x = Some id) then None else ns_RelayServerID x;
  ns_LastChecked := ns_LastChecked x; ns_CreatedAt := ns_CreatedAt x |}.

Definition delete_relay_row (id : string) : stmt nat_state nat := fun s =>
  inl (rowsWith rl_ID (relay_servers s) id,
       with_relays s (without rl_ID (relay_servers s) id) (map (unrelay id) (nat_status s))).

Inductive nat_body :=
| NStatus (r : nat_row)
| NCheck (r : DiscoveryResult)
| NRelays (l : list relay_row)
| NRelay (r : relay_row)
| NNone.

Record natCheckRequest := { nc_DeviceID : string; nc_STUNServer1 : string; nc_STUNServer2 : string }.
Record relayRequest := { rr_Name : string; rr_Address : string; rr_Region : string; rr_Protocol : string }.

(** A request with its time, the identifier the database gives, and which of
    its statements fail. *)
Record nat_call := { ncall_now : Z; ncall_newID : string; ncall_fails : nat -> bool }.

Section endpoints.
Context `{DeviceEnv} `{SqlOrder} {E : Type}.
(** What the detection finds for two servers. *)
Context (discover : string -> string -> DiscoveryResult * bool).
Let N (A : Type) := H nat_state E A.

Definition getStatus (c : nat_call) (deviceID : string) : N (Z * nat_body) :=
  do! require (negb (String.eqb deviceID "")) 400 "device_id query parameter is required" in
  let! id := the (uuid_Parse deviceID) 400 "invalid device_id UUID" in
  let! row := query (ncall_fails c 0) (fun s => byKey ns_DeviceID (nat_status s) id) 500 "failed to query NAT status" in
  let! ns := the row 404 "no NAT status found for this device" in
  respondJSON 200 (NStatus ns).

Definition serverOr (s fallback : string) : string := if String.eqb s "" then fallback else s.

Definition triggerCheck (c : nat_call) (body : option natCheckRequest) : N (Z * nat_body) :=
  let! req := the body 400 "invalid JSON" in
  do! require (negb (String.eqb (nc_DeviceID req) "")) 400 "device_id is required" in
  let! id := the (uuid_Parse (nc_DeviceID req)) 400 "invalid device_id UUID" in
  let '(result, _) := discover (serverOr (nc_STUNServer1 req) "stun.l.google.com:19302")
                               (serverOr (nc_STUNServer2 req) "stun1.l.google.com:19302") in
  do! exec (ncall_fails c 0) (upsert_status (ncall_now c) id result)
    (fun e => match e with ErrForeignKey => (400, "device not found") | _ => (500, "failed to save NAT status") end) in
  respondJSON 200 (NCheck result).

Definition listRelays (c : nat_call) : N (Z * nat_body) :=
  let! l := fetch (ncall_fails c) 0 (fun s => rows_by 42 (fun r => - rl_CreatedAt r)%Z (relay_servers s))
    "failed to list relay servers" "failed to scan relay server" "failed to iterate relay servers" in
  respondJSON 200 (NRelays l).

Definition createRelay (c : nat_call) (body : option relayRequest) : N (Z * nat_body) :=
  let! req := the body 400 "invalid JSON" in
  do! require (negb (String.eqb (rr_Name req) "" || String.eqb (rr_Address req) "" || String.eqb (rr_Protocol req) ""))
    400 "name, address, and protocol are required" in
  do! require (String.eqb (rr_Protocol req) "stun" || String.eqb (rr_Protocol req) "turn") 400 "protocol must be 'stun' or 'turn'" in
  let! r := exec (ncall_fails c 0) (insert_relay (ncall_newID c) (ncall_now c) (rr_Name req) (rr_Address req) (rr_Region req) (rr_Protocol req))
    (fun e => match e with ErrUnique _ => (409, "relay server already exists") | _ => (500, "failed to create relay server") end) in
  respondJSON 201 (NRelay r).

Definition deleteRelay (c : nat_call) (rawId : string) : N (Z * nat_body) :=
  let! id := the (uuid_Parse rawId) 400 "invalid UUID" in
  let! _ := exec (ncall_fails c 0) (affected (delete_relay_row id))
    (fun e => match e with
              | ErrForeignKey => (409, "relay server is referenced by NAT status entries")
              | ErrNoRows => (404, "relay server not found")
              | _ => (500, "failed to delete relay server")
              end) in
  respondJSON 204 NNone.

Inductive nat_request :=
| NGetStatus (device : string)
| NTriggerCheck (body : option natCheckRequest)
| NListRelays
| NCreateRelay (body : option relayRequest)
| NDeleteRelay (id : string).

(** [Routes]: two of the endpoints are for administrators. *)
Definition nat_serve (c : nat_call) (claims : option TokenClaims) (r : nat_request) : N (Z * nat_body) :=
  let admin (m : N (Z * nat_body)) : N (Z * nat_body) :=
    match RequireAdmin claims with Reject st msg => respondError st msg | Next _ => m end in
  match r with
  | NGetStatus d => getStatus c d
  | NTriggerCheck b => triggerCheck c b
  | NListRelays => listRelays c
  | NCreateRelay b => admin (createRelay c b)
  | NDeleteRelay id => admin (deleteRelay c id)
  end.

(** *** Well-formed tables *)

Definition known_types : list string := map nat_text
  [NATTypeFullCone; NATTypeRestrictedCone; NATTypePortRestricted; NATTypeSymmetric; NATTypeOpen; NATTypeUnknown].

Record nat_wf (s : nat_state) : Prop := {
  nw_devices : NoDup (map ns_DeviceID (nat_status s));
  nw_relays : NoDup (map rl_ID (relay_servers s));
  nw_fk : fk (map ns_DeviceID (nat_status s)) (map d_id (devices (nt_base s)));
  nw_types : Forall (fun x => ns_NATType x ∈ known_types) (nat_status s);
  nw_protocols : Forall (fun r => rl_Protocol r = "stun" \/ rl_Protocol r = "turn") (relay_servers s);
  nw_relay_fk : Forall (fun x => forall r, ns_RelayServerID x = Some r -> r ∈ map rl_ID (relay_servers s)) (nat_status s);
}.

Lemma nat_text_known t : nat_text t ∈ known_types.
Proof. apply list_elem_of_fmap_2. destruct t; set_solver. Qed.

Lemma upsert_status_wf now device r : stmt_preserves nat_wf (upsert_status now device r).
Proof.
  intros s [] s' [Ha Hb Hc Hd0 He Hf]. unfold upsert_status. destruct (has d_id _ device) eqn:Hd; [|done]. cbn [negb].
  apply has_true in Hd. destruct (has ns_DeviceID _ device) eqn:Hs; intros [= <-].
  - pose proof (column_upd ns_DeviceID ns_DeviceID device (status_seen now r) (nat_status s) (fun _ => eq_refl)) as E1.
    split; cbn; rewrite ?E1; try done; apply Forall_upd; auto. intros x Hx. apply nat_text_known.
  - apply has_false in Hs. split; cbn; try done.
    + rewrite map_app. cbn. by apply NoDup_insert.
    + by apply fk_insert_l.
    + apply Forall_snoc_row; [done|]. apply nat_text_known.
    + apply Forall_snoc_row; [done|]. done.
Qed.

Lemma insert_relay_wf newID now name address region protocol : stmt_preserves nat_wf (insert_relay newID now name address region protocol).
Proof.
  intros s r s' [Ha Hb Hc Hd0 He Hf]. unfold insert_relay. destruct (has rl_ID _ newID) eqn:Hi; [done|]. apply has_false in Hi.
  destruct (String.eqb protocol "stun" || _) eqn:Hp; [|done]. cbn [negb]. intros [= <- <-]. split; cbn; try done.
  - rewrite map_app. cbn. by apply NoDup_insert.
  - apply Forall_snoc_row; [done|]. cbn. apply orb_true_iff in Hp as [?%String.eqb_eq|?%String.eqb_eq]; auto.
  - eapply Forall_impl; [exact Hf|]. intros x Hx rid Hr. rewrite map_app. apply elem_of_app. left. by apply Hx.
Qed.

Lemma delete_relay_wf id : stmt_preserves nat_wf (delete_relay_row id).
Proof.
  intros s n s' [Ha Hb Hc Hd0 He Hf]. unfold delete_relay_row. intros [= <- <-].
  assert (map ns_DeviceID (map (unrelay id) (nat_status s)) = map ns_DeviceID (nat_status s)) as E1 by (by rewrite map_map).
  split; cbn; rewrite ?E1; try done.
  - by apply unique_filter.
  - apply Forall_fmap. eapply Forall_impl; [exact Hd0|]. done.
  - by apply Forall_list_filter.
  - apply Forall_fmap. eapply Forall_impl; [exact Hf|]. intros x Hx r. cbn. case_bool_decide as Hne; [done|]. intros Hr.
    specialize (Hx r Hr). change (map rl_ID ?l) with (rl_ID <$> l) in *. apply list_elem_of_fmap in Hx as (y & -> & Hy).
    apply list_elem_of_fmap_2. unfold without. apply list_elem_of_In, filter_In. split; [by apply list_elem_of_In|].
    apply negb_true_iff, String.eqb_neq. intros <-. by apply Hne.
Qed.

(** Whatever is asked of these endpoints and whatever fails, a device has at
    most one status, of a known type and for a device that exists, relays have
    a known protocol and a status refers only to a relay that exists; the
    devices and the other tables are untouched, and relays are changed by
    administrators only. *)
Theorem nat_stays_wf c claims r s (Hw : nat_wf s) :
  let '(_, s', _) := run (nat_serve c claims r) s in
  nat_wf s' /\ nt_base s' = nt_base s /\
  (relay_servers s' = relay_servers s \/ exists cl, claims = Some cl /\ IsAdmin cl = true).
Proof.
  set (I s' := nat_wf s' /\ nt_base s' = nt_base s).
  assert (preserves I (nat_serve c claims r)) as Hp.
  { assert (forall A (st : stmt nat_state A), stmt_preserves nat_wf st -> (forall s a s', st s = inl (a, s') -> nt_base s' = nt_base s) ->
      stmt_preserves I st) as Hst.
    { intros A st H2 H3 s1 a s2 [H4 H5] Hs. split; [by eapply H2|]. by rewrite <- H5, (H3 s1 a s2). }
    assert (forall now d res, stmt_preserves I (upsert_status now d res)) as Hu.
    { intros. apply Hst; [apply upsert_status_wf|]. intros s1 a s2. unfold upsert_status. repeat case_match; intros; by simplify_eq. }
    assert (forall a b x y z w, stmt_preserves I (insert_relay a b x y z w)) as Hr.
    { intros. apply Hst; [apply insert_relay_wf|]. intros s1 ? s2. unfold insert_relay. repeat case_match; intros; by simplify_eq. }
    assert (forall id, stmt_preserves I (affected (delete_relay_row id))) as Hd.
    { intros. apply affected_preserves, Hst; [apply delete_relay_wf|]. intros s1 ? s2. by intros [= <- <-]. }
    destruct r as [d|b| |b|id]; cbn [nat_serve].
    - unfold getStatus. invariant_steps.
    - unfold triggerCheck. invariant_steps. all: apply Hu.
    - unfold listRelays. invariant_steps.
    - destruct (RequireAdmin claims); [apply preserves_respondError|]. unfold createRelay. invariant_steps. all: apply Hr.
    - destruct (RequireAdmin claims); [apply preserves_respondError|]. unfold deleteRelay. invariant_steps. all: apply Hd. }
  pose proof (preserves_run I _ s Hp (conj Hw eq_refl)) as Hi.
  destruct (run _ s) as [[reply s'] es] eqn:Hrun. destruct Hi as [Hi1 Hi2]. split_and!; [done|done|].
  destruct claims as [cl|]; [destruct (IsAdmin cl) eqn:Ea; [right; eauto|]|]; left;
    (destruct r as [d|b| |b|id]; cbn [nat_serve] in Hrun; unfold RequireAdmin in Hrun; rewrite ?Ea in Hrun;
     [| | |by injection Hrun as <- <- <-..]).
  all: set (J (s' : nat_state) := relay_servers s' = relay_servers s).
  all: match type of Hrun with run ?m ?s0 = _ =>
         assert (preserves J m) as Hj; [|pose proof (preserves_run J m s0 Hj eq_refl) as Hr; by rewrite Hrun in Hr] end.
  all: unfold getStatus, triggerCheck, listRelays; invariant_steps.
  all: intros ? ? ? HJ; unfold upsert_status; repeat case_match; intros; simplify_eq; exact HJ.
Qed.

(** An accepted check answers what the detection found, and stores it for the
    device that was named. *)
Theorem check_stored c claims req s st b s' es
    (Hrun : run (nat_serve c claims (NTriggerCheck (Some req))) s = (Reply st b, s', es)) (Hw : nat_wf s) :
  exists id r row, uuid_Parse (nc_DeviceID req) = Some id /\ b = NCheck r /\
    r = (discover (serverOr (nc_STUNServer1 req) "stun.l.google.com:19302") (serverOr (nc_STUNServer2 req) "stun1.l.google.com:19302")).1 /\
    byKey ns_DeviceID (nat_status s') id = Some row /\ ns_NATType row = nat_text (dr_NATType r) /\
    ns_ExternalIP row = dr_ExternalIP r /\ ns_ExternalPort row = dr_ExternalPort r /\ ns_LastChecked row = ncall_now c /\
    forall other, other <> id -> byKey ns_DeviceID (nat_status s') other = byKey ns_DeviceID (nat_status s) other.
Proof.
  revert Hrun. unfold run. cbn [nat_serve]. unfold triggerCheck. unfold bind at 1. cbn [the ret]. unfold bind at 1.
  destruct (negb (String.eqb (nc_DeviceID req) "")); [|done]. cbn [require ret]. unfold bind at 1.
  destruct (uuid_Parse (nc_DeviceID req)) as [id|]; [|done]. cbn [the ret].
  destruct (discover _ _) as [r failed] eqn:Hd. unfold bind at 1, exec. destruct (ncall_fails c 0); [done|].
  unfold upsert_status. destruct (has d_id _ id); [|done]. cbn [negb].
  destruct (has ns_DeviceID (nat_status s) id) eqn:Hs; intros [= <- <- <- <-]; exists id, r.
  - apply has_true in Hs. destruct (byKey ns_DeviceID (nat_status s) id) as [x|] eqn:Hx.
    2:{ apply byKey_None in Hx. by destruct Hx. }
    exists (status_seen (ncall_now c) r x). cbn [with_status nat_status]. split_and!; try done.
    + rewrite byKey_upd by done. by rewrite Hx.
    + intros other Hne. by apply byKey_upd_other.
  - apply has_false in Hs. eexists. cbn [with_status nat_status]. split_and!; [done|done|done|by apply byKey_app_own|done|done|done|done|].
    intros other Hne. by apply byKey_app_other.
Qed.
End endpoints.

(** ** Runs *)

Definition home : DiscoveryResult := {| dr_NATType := NATTypeSymmetric; dr_ExternalIP := "198.51.100.7"; dr_ExternalPort := 40000 |}.

Definition nat0 : nat_state := {| nt_base := demo_db; nat_status := [];
  relay_servers := [{| rl_ID := "r1"; rl_Name := "a"; rl_Address := "x:1"; rl_Region := ""; rl_Protocol := "turn"; rl_IsActive := true;
                       rl_CreatedAt := 0; rl_UpdatedAt := 0 |}] |}.

Lemma nat0_wf : nat_wf nat0.
Proof. split; cbn; try (by repeat constructor; set_solver). Qed.

Definition ncall0 : nat_call := {| ncall_now := 9; ncall_newID := "new"; ncall_fails := fun _ => false |}.

Definition ann_token : TokenClaims := {|
  UserID := "ann"; Username := "ann"; Email := ""; IsAdmin := false; Roles := []; TokenType := ""; ExpiresAt := None; IssuedAt := None |}.

Definition nat_run (claims : option TokenClaims) (r : nat_request) (s : nat_state) : reply nat_body * nat_state * list unit :=
  run (@nat_serve toy_device_env sql_default unit (fun _ _ => (home, false)) ncall0 claims r) s.

Lemma Discover_sound_witness :
  let n := {| outside := fun p s => {| ma_IP := s; ma_Port := p |}; inject := fun p q s e => f_equal ma_Port e |} in
  let '(r, failed) := observed n 1000 1001 "a" "b" "10.0.0.1" in failed = false /\ dr_NATType r = NATTypeSymmetric.
Proof.
  pose proof (Discover_sound {| outside := fun p s => {| ma_IP := s; ma_Port := p |}; inject := fun p q s e => f_equal ma_Port e |}
    1000 1001 "a" "b" "10.0.0.1" ltac:(discriminate)) as Hs. cbv zeta.
  destruct (observed _ 1000 1001 "a" "b" "10.0.0.1") as [r failed]. destruct Hs as (-> & _ & _ & _ & Hsym). split; [reflexivity|].
  apply Hsym; [|discriminate]. intros p q s s' Hne E. injection E as E _. exact (Hne E).
Defined.

Lemma nat_stays_wf_witness : nat_wf (nat_run (Some ann_token) (NTriggerCheck (Some {| nc_DeviceID := "d1"; nc_STUNServer1 := "";
  nc_STUNServer2 := "" |})) nat0).1.2.
Proof.
  pose proof (@nat_stays_wf toy_device_env sql_default unit (fun _ _ => (home, false)) ncall0 (Some ann_token)
    (NTriggerCheck (Some {| nc_DeviceID := "d1"; nc_STUNServer1 := ""; nc_STUNServer2 := "" |})) nat0 nat0_wf) as Hw.
  unfold nat_run. destruct (run _ nat0) as [[r s] es]. apply Hw.
Defined.

(** ** Where the code falls short *)

(** The check runs on the core: what is stored for Bob's device, at the request
    of Ann, is what the core sees of itself. *)
Lemma check_is_of_the_core :
  let '(r, s, _) := nat_run (Some ann_token) (NTriggerCheck (Some {| nc_DeviceID := "d2"; nc_STUNServer1 := "evil:53"; nc_STUNServer2 := "" |})) nat0 in
  reply_status r = 200 /\ option_map ns_ExternalIP (byKey ns_DeviceID (nat_status s) "d2") = Some "198.51.100.7".
Proof. vm_compute. split; reflexivity. Qed.

(** A relay in use is deleted and its uses forgotten: the conflict the endpoint
    prepares for does not occur. *)
Lemma relay_in_use_deleted :
  let s := with_status nat0 [{| ns_DeviceID := "d1"; ns_NATType := "open"; ns_ExternalIP := ""; ns_ExternalPort := 0;
                                ns_RelayServerID := Some "r1"; ns_LastChecked := 0; ns_CreatedAt := 0 |}] in
  let boss := {| UserID := "bob"; Username := "bob"; Email := ""; IsAdmin := true; Roles := []; TokenType := ""; ExpiresAt := None; IssuedAt := None |} in
  let '(r, s', _) := nat_run (Some boss) (NDeleteRelay "r1") s in
  reply_status r = 204 /\ map ns_RelayServerID (nat_status s') = [None].
Proof. vm_compute. split; reflexivity. Qed.
