(* ===== verification/AuditLog.v ===== *)
(** * The audit log

    [internal/observability]: the middleware that records requests
    ([audit_middleware.go], [audit.go]), the endpoints that list, export and
    count the records ([audit_handler.go]), and the notifications made from
    them ([internal/core/handler/notification.go]).  The middleware is composed
    with the one that authenticates, the way [core/server.go] nests them. *)

From S2P Require Import Prelude Net Rfc3339 Json Auth Policy Devices Http Tables.
From Stdlib Require Import ZArith Lia Ascii String.
From stdpp Require Import base gmap strings list sorting.
Import Token Middleware.

Local Open Scope Z_scope.
Local Open Scope string_scope.
Local Open Scope outpost_scope.

(** ** Records *)

Record audit_row := {
  al_id : Z;
  al_timestamp : Z;
  al_user : option string;
  al_action : string;
  al_resource : string;
  al_details : option json;
  al_ip : option string;
  al_agent : option string;
}.

(** The users the records may refer to, the table, and its sequence. *)
Record audit_state := { au_users : list string; audit_log : list audit_row; au_next : Z }.

(** What the database takes as a text of its encoding, and as an address. *)
Class AuditDb : Type := { pg_text : string -> bool; pg_inet : string -> bool }.

(** [Log]: [true] is a nil error.  A parameter the database cannot read fails
    the statement; a user that does not exist violates the foreign key, after
    a number of the sequence has been taken. *)
Definition Log `{AuditDb} (fails : bool) (now : Z) (userID : option string) (action resource : string) (details : json) (ip agent : string)
    (s : audit_state) : audit_state * bool :=
  if fails || negb (pg_text action && pg_text resource && pg_inet ip && pg_text agent) then (s, false) else
  let next := {| au_users := au_users s; audit_log := audit_log s; au_next := au_next s + 1 |} in
  match userID with
  | Some u => if bool_decide (u ∈ au_users s) then
                ({| au_users := au_users s; au_next := au_next s + 1;
                    audit_log := audit_log s ++ [{| al_id := au_next s; al_timestamp := now; al_user := Some u; al_action := action;
                      al_resource := resource; al_details := Some details; al_ip := Some ip; al_agent := Some agent |}] |}, true)
              else (next, false)
  | None => ({| au_users := au_users s; au_next := au_next s + 1;
                audit_log := audit_log s ++ [{| al_id := au_next s; al_timestamp := now; al_user := None; al_action := action;
                  al_resource := resource; al_details := Some details; al_ip := Some ip; al_agent := Some agent |}] |}, true)
  end%list.

(** ** The middleware *)

(** A request with the claims of its context. *)
Record http_request := {
  hq_Method : string; hq_Path : string; hq_RawQuery : string; hq_RemoteAddr : string; hq_UserAgent : string;
  hq_Authorization : string; hq_claims : option TokenClaims;
}.

Definition with_claims (r : http_request) (c : TokenClaims) : http_request := {|
  hq_Method := hq_Method r; hq_Path := hq_Path r; hq_RawQuery := hq_RawQuery r; hq_RemoteAddr := hq_RemoteAddr r;
  hq_UserAgent := hq_UserAgent r; hq_Authorization := hq_Authorization r; hq_claims := Some c |}.

Definition changes (method : string) : bool := existsb (String.eqb method) ["POST"; "PUT"; "PATCH"; "DELETE"].

Definition host_of (remoteAddr : string) : string :=
  match SplitHostPort remoteAddr with Some (h, _) => h | None => remoteAddr end.

Definition requestDetails (r : http_request) (status : Z) : json :=
  JObject ([("method", JString (hq_Method r)); ("status_code", JInt status)] ++
           if String.eqb (hq_RawQuery r) "" then [] else [("query", JString (hq_RawQuery r))])%list.

Definition nilUUID : string := "00000000-0000-0000-0000-000000000000".

Section middleware.
Context `{DeviceEnv} `{AuditDb} {S : Type}.

(** A handler answers with a status; the last part of the state is the log. *)
Definition http_handler : Type := http_request -> S * audit_state -> Z * (S * audit_state).

(** What the goroutine writes after the answer. *)
Definition record (fails : bool) (now : Z) (r : http_request) (status : Z) (a : audit_state) : audit_state :=
  let userIDStr := match hq_claims r with Some c => UserID c | None => "" end in
  let write uid := (Log fails now uid (hq_Method r ++ " " ++ hq_Path r) (hq_Path r) (requestDetails r status)
                     (host_of (hq_RemoteAddr r)) (hq_UserAgent r) a).1 in
  if String.eqb userIDStr "" then write None
  else match uuid_Parse userIDStr with
       | None => a
       | Some uid => write (if String.eqb uid nilUUID then None else Some uid)
       end.

Definition AuditMiddleware (fails : bool) (now : Z) (next : http_handler) : http_handler := fun r s =>
  if negb (changes (hq_Method r)) then next r s
  else if negb (bool_decide (is_Some (cut_prefix (hq_Path r) "/api/"))) then next r s
  else let '(status, (s1, a)) := next r s in (status, (s1, record fails now r status a)).

(** The authenticating middleware hands its handler a request of its own, with
    the claims in its context. *)
Definition Authenticated `{JwtLib} (HashToken : string -> string) (secret : string) (bl : option (bool * gmap string Z)) (now : Z)
    (next : http_handler) : http_handler := fun r s =>
  match JWTMiddleware HashToken secret bl now (hq_Authorization r) with
  | Reject status _ => (status, s)
  | Next claims => next (with_claims r claims) s
  end.

(** The order of [setupHTTPRouter]: the log is around the authentication. *)
Definition core_stack `{JwtLib} HashToken secret bl (fails : bool) (now : Z) (next : http_handler) : http_handler :=
  AuditMiddleware fails now (Authenticated HashToken secret bl now next).

(** A handler that does not write the log itself. *)
Definition leaves_log (h : http_handler) : Prop := forall r s, (h r s).2.2 = s.2.

Lemma Authenticated_leaves `{JwtLib} HashToken secret bl now next : leaves_log next -> leaves_log (Authenticated HashToken secret bl now next).
Proof. intros Hn r s. unfold Authenticated. destruct (JWTMiddleware _ _ _ _ _); [done|apply Hn]. Qed.

Lemma Log_adds now uid action resource details ip agent a : (forall u, uid = Some u -> u ∈ au_users a) ->
  pg_text action && pg_text resource && pg_inet ip && pg_text agent = true ->
  exists row, (Log false now uid action resource details ip agent a).1 =
    {| au_users := au_users a; audit_log := (audit_log a ++ [row])%list; au_next := au_next a + 1 |} /\
    al_id row = au_next a /\ al_user row = uid /\ al_action row = action /\ al_timestamp row = now /\ al_details row = Some details.
Proof.
  intros Hu Hp. unfold Log. rewrite Hp. cbn [negb orb]. destruct uid as [u|]; [|by eexists]. rewrite bool_decide_eq_true_2 by (by apply Hu). by eexists.
Qed.

(** What the record of a request is written with. *)
Definition action_of (r : http_request) : string := hq_Method r ++ " " ++ hq_Path r.

Definition recordable (r : http_request) : bool :=
  pg_text (action_of r) && pg_text (hq_Path r) && pg_inet (host_of (hq_RemoteAddr r)) && pg_text (hq_UserAgent r).

Definition audited (r : http_request) : bool := changes (hq_Method r) && bool_decide (is_Some (cut_prefix (hq_Path r) "/api/")).

Lemma record_anonymous now r status a : hq_claims r = None ->
  record false now r status a = (Log false now None (action_of r) (hq_Path r) (requestDetails r status)
    (host_of (hq_RemoteAddr r)) (hq_UserAgent r) a).1.
Proof. intros Hc. unfold record. by rewrite Hc. Qed.

(** The log neither changes an answer nor misses a change: the answer of
    the handler is returned as it is; a request that only reads, or is not for
    the API, writes nothing; and any other, accepted or refused, writes exactly
    one record, with its method, path and the status of the answer, as long as
    the database takes its path, address and user agent. *)
Theorem audit_exact now next r s (Hn : leaves_log next) (Hc : hq_claims r = None) (Hr : recordable r = true) :
  let '(status, (s1, a1)) := next r s in
  let '(status', (s1', a')) := AuditMiddleware false now next r s in
  status' = status /\ s1' = s1 /\
  if audited r
  then exists row, audit_log a' = (audit_log s.2 ++ [row])%list /\ al_action row = action_of r /\
         al_details row = Some (requestDetails r status) /\ al_timestamp row = now
  else a' = s.2.
Proof.
  pose proof (Hn r s) as Hl. unfold AuditMiddleware, audited. destruct (next r s) as [status [s1 a1]]. cbn [fst snd] in Hl. subst a1.
  destruct (changes (hq_Method r)); cbn [negb andb]; [|done]. destruct (bool_decide _); cbn [negb]; [|done].
  split_and!; [done|done|]. rewrite record_anonymous by done.
  destruct (Log_adds now None (action_of r) (hq_Path r) (requestDetails r status)
    (host_of (hq_RemoteAddr r)) (hq_UserAgent r) s.2) as (row & -> & _ & _ & Ha & Ht & Hd); [done|done|]. eauto 6.
Qed.

(** A user agent the database does not take, such as a byte that is not UTF-8,
    keeps the request out of the log: the handler runs all the same. *)
Lemma unreadable_agent_unaudited now next r s : leaves_log next -> hq_claims r = None -> pg_text (hq_UserAgent r) = false ->
  AuditMiddleware false now next r s = next r s.
Proof.
  intros Hn Hc Ha. pose proof (Hn r s) as Hl. unfold AuditMiddleware. destruct (negb (changes _)); [done|]. destruct (negb _); [done|].
  destruct (next r s) as [status [s1 a]]. rewrite record_anonymous by done. unfold Log. rewrite Ha, !andb_false_r. done.
Qed.

(** The claims are in the context of the inner request only, so the log, which
    reads the outer one, names no user whoever makes the request. *)
Theorem audit_names_nobody `{JwtLib} HashToken secret bl fails now next r s :
  leaves_log next -> hq_claims r = None -> Forall (fun x => al_user x = None) (audit_log s.2) ->
  Forall (fun x => al_user x = None) (audit_log (core_stack HashToken secret bl fails now next r s).2.2).
Proof.
  intros Hn Hc Hs. pose proof (Authenticated_leaves HashToken secret bl now next Hn r s) as Hl. unfold core_stack, AuditMiddleware.
  destruct (Authenticated _ _ _ _ _ r s) as [status [s1 a]]. cbn [fst snd] in Hl. subst a.
  destruct (changes _); [|done]. destruct (bool_decide _); [|done]. cbn [negb snd]. unfold record. rewrite Hc. cbn [String.eqb].
  unfold Log. destruct (fails || _); [done|]. cbn. apply Forall_app. split; [done|]. by constructor.
Qed.
End middleware.

(** ** Filters *)

Record audit_query := { q_user_id : string; q_action : string; q_resource : string; q_from : string; q_to : string }.

Inductive arg := AText (s : string) | ATime (t : Z).

(** The accumulators of [buildWhereClause]: conditions, arguments, next index. *)
Definition clause : Type := list string * list arg * Z.

Definition addCondition (column : string) (a : option arg) (c : clause) : clause :=
  let '(conditions, args, idx) := c in
  match a with
  | None => c
  | Some a => ((conditions ++ [(column ++ " $" ++ itoa idx)%string])%list, (args ++ [a])%list, (idx + 1)%Z)
  end.

Definition textArg (v : string) : option arg := if String.eqb v "" then None else Some (AText v).
Definition timeArg (v : string) : option arg := if String.eqb v "" then None else ATime <$> parseRFC3339 v.

Definition columns (q : audit_query) : list (string * option arg) :=
  [("user_id =", textArg (q_user_id q)); ("action =", textArg (q_action q)); ("resource =", textArg (q_resource q));
   ("timestamp >=", timeArg (q_from q)); ("timestamp <=", timeArg (q_to q))].

Definition buildWhereClause (q : audit_query) : string * list arg :=
  let '(conditions, args, _) := foldl (fun c x => addCondition x.1 x.2 c) ([], [], 1) (columns q) in
  match conditions with [] => ("", []) | _ => (" WHERE " ++ strings_join " AND " conditions, args) end.

(** The conditions that are present, each with its argument. *)
Definition present (q : audit_query) : list (string * arg) :=
  omap (fun x => match x.2 with Some a => Some (x.1, a) | None => None end) (columns q).

Fixpoint numbered (i : Z) (l : list string) : list string :=
  match l with [] => [] | c :: l => (c ++ " $" ++ itoa i) :: numbered (i + 1)%Z l end.

Lemma fold_conditions l conds args idx :
  foldl (fun c x => addCondition x.1 x.2 c) (conds, args, idx) l =
  let p := omap (fun x => match x.2 with Some a => Some (x.1, a) | None => None end) l in
  ((conds ++ numbered idx (map fst p))%list, (args ++ map snd p)%list, idx + Z.of_nat (length p)).
Proof.
  revert conds args idx. induction l as [|[c [a|]] l IH]; intros conds args idx; cbn [foldl omap list_omap fst snd map numbered length].
  - cbn. by rewrite !app_nil_r, Z.add_0_r.
  - cbn [addCondition]. rewrite IH. cbv zeta. cbn [map fst snd numbered length]. rewrite <- !app_assoc. cbn [app]. f_equal. lia.
  - cbn [addCondition]. by rewrite IH.
Qed.

(** The text of the filter is made of the names of the columns that are
    filtered and of numbers, never of what was asked for: two requests that
    filter the same columns give the same statement, and its n-th placeholder
    stands for the n-th argument. *)
Theorem where_clause_safe q :
  let '(text, args) := buildWhereClause q in
  args = map snd (present q) /\
  text = match map fst (present q) with [] => "" | cols => " WHERE " ++ strings_join " AND " (numbered 1 cols) end.
Proof.
  unfold buildWhereClause. rewrite fold_conditions. cbv zeta. cbn [app]. fold (present q).
  destruct (present q) as [|[c a] p]; [done|]. cbn [map fst snd numbered]. done.
Qed.

(** What the statement selects. *)
Definition rowSatisfies `{DeviceEnv} (q : audit_query) (x : audit_row) : bool :=
  (String.eqb (q_user_id q) "" || bool_decide (is_Some (al_user x) /\ pg_uuid (q_user_id q) = al_user x)) &&
  (String.eqb (q_action q) "" || String.eqb (al_action x) (q_action q)) &&
  (String.eqb (q_resource q) "" || String.eqb (al_resource x) (q_resource q)) &&
  match timeArg (q_from q) with Some (ATime t) => (t <=? al_timestamp x)%Z | _ => true end &&
  match timeArg (q_to q) with Some (ATime t) => (al_timestamp x <=? t)%Z | _ => true end.

(** The database reads the arguments: a uuid, and texts. *)
Definition castable `{DeviceEnv} `{AuditDb} (q : audit_query) : bool :=
  (String.eqb (q_user_id q) "" || bool_decide (is_Some (pg_uuid (q_user_id q)))) && pg_text (q_action q) && pg_text (q_resource q).

(** ** Endpoints *)

Definition parseAuditPagination (page perPage : string) : Z * Z :=
  let num v fallback ok := let '(n, err) := Atoi v in if negb (String.eqb v "") && negb err && ok n then n else fallback in
  (num page 1 (fun n => 0 <? n)%Z, num perPage 50 (fun n => (0 <? n) && (n <=? 1000))%Z).

Record AuditEntry := {
  ae_ID : Z; ae_Timestamp : Z; ae_UserID : option string; ae_Action : string; ae_Resource : string; ae_Details : option json;
  ae_IPAddress : string; ae_UserAgent : string;
}.

Definition auditEntryOf (x : audit_row) : AuditEntry := {|
  ae_ID := al_id x; ae_Timestamp := al_timestamp x; ae_UserID := al_user x; ae_Action := al_action x; ae_Resource := al_resource x;
  ae_Details := al_details x; ae_IPAddress := default "" (al_ip x); ae_UserAgent := default "" (al_agent x) |}.

(** Action, hour and count. *)
Record AuditStat := { as_Action : string; as_Bucket : string; as_Count : Z }.

Inductive audit_body :=
| AList (data : list AuditEntry) (total page perPage totalPages : Z)
| AEntries (l : list AuditEntry)
| ACsv (text : string)
| AStats (l : list AuditStat).

(** *** CSV: [encoding/csv] *)

Definition newline : string := String (ascii_of_nat 10) "".
Definition quote_char : ascii := ascii_of_nat 34.

(** Spaces of ASCII; a field is quoted when it begins with one. *)
Definition leading_space (s : string) : bool :=
  match s with String c _ => let n := nat_of_ascii c in ((9 <=? n) && (n <=? 13) || (n =? 32))%nat | EmptyString => false end.

Definition special (c : ascii) : bool :=
  let n := nat_of_ascii c in (n =? 10)%nat || (n =? 13)%nat || (n =? 34)%nat || (n =? 44)%nat.

Fixpoint any_special (s : string) : bool :=
  match s with EmptyString => false | String c s => special c || any_special s end.

Definition fieldNeedsQuotes (s : string) : bool :=
  if String.eqb s "" then false else String.eqb s "\." || any_special s || leading_space s.

Fixpoint doubled (s : string) : string :=
  match s with
  | EmptyString => ""
  | String c s => if Ascii.eqb c quote_char then String c (String c (doubled s)) else String c (doubled s)
  end.

Definition csv_field (s : string) : string :=
  if fieldNeedsQuotes s then String quote_char (doubled s ++ String quote_char "") else s.

Definition csv_record (l : list string) : string := strings_join "," (map csv_field l) ++ newline.

Definition csv_text (l : list (list string)) : string := foldr (fun r t => csv_record r ++ t) "" l.

Section endpoints.
Context `{DeviceEnv} `{AuditDb} `{SqlOrder}.
(** [json.Marshal] of the decoded details. *)
Context (marshal : json -> string).
Context {E : Type}.
Let A (X : Type) := H audit_state E X.

(** The rows of a filter, the latest first. *)
Definition selected (q : audit_query) (s : audit_state) : list audit_row :=
  rows_by 43 (fun x => - al_timestamp x) (List.filter (rowSatisfies q) (audit_log s)).

(** [f i]: the i-th statement fails, or the scan or the iteration of its rows. *)
Definition listAuditLogs (f : nat -> bool) (q : audit_query) (page perPage : string) : A (Z * audit_body) :=
  let '(p, pp) := parseAuditPagination page perPage in
  let offset := pageOffset p pp in
  let! total := query (f 0%nat || negb (castable q)) (fun s => Z.of_nat (length (selected q s))) 500 "failed to count audit logs" in
  let! rows := query (f 1%nat || (offset <? 0)%Z) (fun s => take (Z.to_nat pp) (drop (Z.to_nat offset) (selected q s)))
    500 "failed to query audit logs" in
  do! require (match rows with [] => true | _ => negb (f 2%nat) end) 500 "failed to scan audit log row" in
  do! require (negb (f 3%nat)) 500 "failed to iterate audit log rows" in
  respondJSON 200 (AList (map auditEntryOf rows) total p pp ((total + pp - 1) / pp)).

(** The zone of the process is UTC. *)
Definition csvHeader : list string := ["id"; "timestamp"; "user_id"; "action"; "resource"; "details"; "ip_address"; "user_agent"].

Definition csvFields (e : AuditEntry) : list string :=
  [itoa (ae_ID e); formatUTC (ae_Timestamp e); default "" (ae_UserID e); ae_Action e; ae_Resource e;
   match ae_Details e with Some d => marshal d | None => "" end; ae_IPAddress e; ae_UserAgent e].

Definition writeCSV (l : list AuditEntry) : string := csv_text (csvHeader :: map csvFields l).

Definition exportLimit : nat := Z.to_nat 50000.

Definition exportAuditLogs (f : nat -> bool) (q : audit_query) (format : string) : A (Z * audit_body) :=
  let! rows := query (f 0%nat || negb (castable q)) (fun s => take exportLimit (selected q s)) 500 "failed to query audit logs" in
  do! require (match rows with [] => true | _ => negb (f 1%nat) end) 500 "failed to scan audit log row" in
  do! require (negb (f 2%nat)) 500 "failed to iterate audit log rows" in
  respondJSON 200 (if same_key format "csv" then ACsv (writeCSV (map auditEntryOf rows)) else AEntries (map auditEntryOf rows)).

Definition hour_ns : Z := 3600 * 1000000000.

(** [date_trunc('hour', timestamp)]. *)
Definition bucketOf (x : audit_row) : Z := al_timestamp x / hour_ns * hour_ns.

Definition groupKey (x : audit_row) : string * Z := (al_action x, bucketOf x).

Definition countOf (l : list audit_row) (k : string * Z) : Z := Z.of_nat (length (List.filter (fun x => bool_decide (groupKey x = k)) l)).

(** [GROUP BY action, bucket ORDER BY bucket DESC, count DESC]. *)
Definition grouped (l : list audit_row) : list (string * Z * Z) :=
  sort_by (fun g => - g.1.2) (sort_by (fun g => - g.2) (rows 44 (map (fun k => (k, countOf l k)) (remove_dups (map groupKey l))))).

Definition auditStats (f : nat -> bool) (q : audit_query) : A (Z * audit_body) :=
  let! groups := query (f 0%nat || negb (castable q)) (fun s => grouped (List.filter (rowSatisfies q) (audit_log s))) 500 "failed to query audit stats" in
  do! require (match groups with [] => true | _ => negb (f 1%nat) end) 500 "failed to scan audit stat row" in
  do! require (negb (f 2%nat)) 500 "failed to iterate audit stat rows" in
  respondJSON 200 (AStats (map (fun g => {| as_Action := g.1.1; as_Bucket := formatUTC g.1.2; as_Count := g.2 |}) groups)).

Inductive audit_request :=
| AList_ (q : audit_query) (page perPage : string)
| AExport (q : audit_query) (format : string)
| AStats_ (q : audit_query).

(** [Routes]: all for administrators. *)
Definition audit_serve (f : nat -> bool) (claims : option TokenClaims) (r : audit_request) : A (Z * audit_body) :=
  match RequireAdmin claims with
  | Reject st m => respondError st m
  | Next _ => match r with
              | AList_ q p pp => listAuditLogs f q p pp
              | AExport q fmt => exportAuditLogs f q fmt
              | AStats_ q => auditStats f q
              end
  end.
End endpoints.

(** ** Reading CSV back *)

Inductive csv_mode := AtStart | InPlain | InQuoted | AfterQuote.

(** RFC 4180: records end with a line break, fields are separated by commas,
    and a quote in a quoted field is doubled. *)
Fixpoint csv_read (m : csv_mode) (field : string) (fields : list string) (s : string) : option (list (list string)) :=
  match s with
  | EmptyString => match m, fields with AtStart, [] => Some [] | _, _ => None end
  | String c s =>
      let comma := csv_read AtStart "" (fields ++ [field])%list s in
      let line := cons (fields ++ [field])%list <$> csv_read AtStart "" [] s in
      if Ascii.eqb c quote_char then
        match m with
        | AtStart => csv_read InQuoted "" fields s
        | InPlain => None
        | InQuoted => csv_read AfterQuote field fields s
        | AfterQuote => csv_read InQuoted (field ++ String c "") fields s
        end
      else match m with
           | InQuoted => csv_read InQuoted (field ++ String c "") fields s
           | _ => if Ascii.eqb c "," then comma
                  else if Ascii.eqb c (ascii_of_nat 10) then line
                  else match m with AfterQuote => None | _ => csv_read InPlain (field ++ String c "") fields s end
           end
  end.

Definition readCSV (s : string) : option (list (list string)) := csv_read AtStart "" [] s.

Lemma snoc_app f c s : (f ++ String c "") ++ s = f ++ String c s.
Proof. by rewrite <- string_app_assoc. Qed.

Lemma special_spec c : special c = false -> Ascii.eqb c quote_char = false /\ Ascii.eqb c "," = false /\ Ascii.eqb c (ascii_of_nat 10) = false.
Proof.
  unfold special. rewrite !orb_false_iff, !Nat.eqb_neq. intros [[[H1 H2] H3] H4].
  split_and!; apply Ascii.eqb_neq; intros ->; by vm_compute in *.
Qed.

Lemma read_plain s : forall f fields rest, any_special s = false ->
  csv_read InPlain f fields (s ++ rest) = csv_read InPlain (f ++ s) fields rest.
Proof.
  induction s as [|c s IH]; intros f fields rest Hs; [by rewrite string_app_nil_r|]. cbn [any_special] in Hs.
  apply orb_false_iff in Hs as [(E1 & E2 & E3)%special_spec Hs]. rewrite append_cons. cbn [csv_read]. rewrite E1, E2, E3, IH by done.
  by rewrite snoc_app.
Qed.

Lemma read_quoted s : forall f fields rest,
  csv_read InQuoted f fields (doubled s ++ String quote_char rest) = csv_read AfterQuote (f ++ s) fields rest.
Proof.
  induction s as [|c s IH]; intros f fields rest.
  - rewrite string_app_nil_r. reflexivity.
  - cbn [doubled]. destruct (Ascii.eqb c quote_char) eqn:E; rewrite ?append_cons; cbn [csv_read]; rewrite ?E, IH, snoc_app; done.
Qed.

Definition ends (d : ascii) : bool := Ascii.eqb d "," || Ascii.eqb d (ascii_of_nat 10).

(** What happens at the end of a field. *)
Definition finish (s : string) (fields : list string) (d : ascii) (rest : string) : option (list (list string)) :=
  if Ascii.eqb d "," then csv_read AtStart "" (fields ++ [s])%list rest
  else cons (fields ++ [s])%list <$> csv_read AtStart "" [] rest.

Lemma read_end m f fields d rest : ends d = true -> m <> InQuoted -> csv_read m f fields (String d rest) = finish f fields d rest.
Proof.
  intros Hd Hm. unfold ends in Hd. cbn [csv_read]. unfold finish.
  assert (Ascii.eqb d quote_char = false) as ->.
  { apply Ascii.eqb_neq. intros ->. by vm_compute in Hd. }
  destruct (Ascii.eqb d ","); destruct m; try done; by destruct (Ascii.eqb d (ascii_of_nat 10)).
Qed.

Lemma read_one s fields d rest : ends d = true ->
  csv_read AtStart "" fields (csv_field s ++ String d rest) = finish s fields d rest.
Proof.
  intros Hd. unfold csv_field. destruct (fieldNeedsQuotes s) eqn:Hq.
  - rewrite append_cons. cbn [csv_read]. change (Ascii.eqb quote_char quote_char) with true. cbv iota.
    rewrite <- string_app_assoc, append_cons. rewrite read_quoted. by apply read_end.
  - destruct s as [|c s]; [by apply read_end|].
    assert (any_special (String c s) = false) as Hs.
    { unfold fieldNeedsQuotes in Hq. cbn [String.eqb] in Hq. rewrite !orb_false_iff in Hq. tauto. }
    cbn [any_special] in Hs. apply orb_false_iff in Hs as [(E1 & E2 & E3)%special_spec Hs].
    rewrite append_cons. cbn [csv_read]. rewrite E1, E2, E3, read_plain by done. by apply read_end.
Qed.

Lemma read_record l : forall fields rest, l <> [] ->
  csv_read AtStart "" fields (csv_record l ++ rest) = cons (fields ++ l)%list <$> csv_read AtStart "" [] rest.
Proof.
  unfold csv_record. induction l as [|s [|t l] IH]; intros fields rest Hne; [done| |].
  - cbn [map strings_join]. unfold newline. rewrite <- !string_app_assoc, append_cons. by rewrite read_one.
  - cbn [map]. change (strings_join "," (csv_field s :: csv_field t :: map csv_field l)) with
      (csv_field s ++ "," ++ strings_join "," (map csv_field (t :: l))).
    rewrite <- !string_app_assoc, append_cons, read_one by done. unfold finish. cbn [Ascii.eqb Bool.eqb].
    change ("" ++ ?x) with x. rewrite string_app_assoc, IH by done. by rewrite <- app_assoc.
Qed.

(** The exported file is read back as what was exported: one record of
    eight fields per entry after the header, whatever commas, quotes and line
    breaks the paths, details and user agents hold. *)
Theorem csv_roundtrip marshal l : readCSV (writeCSV marshal l) = Some (csvHeader :: map (csvFields marshal) l).
Proof.
  unfold readCSV, writeCSV.
  assert (forall ls, Forall (fun r => r <> []) ls -> csv_read AtStart "" [] (csv_text ls) = Some ls) as Hall.
  { induction 1 as [|r ls Hr Hls IH]; [done|]. cbn [csv_text foldr]. fold (csv_text ls). by rewrite read_record, IH. }
  apply Hall. constructor; [done|]. apply Forall_fmap, Forall_forall. done.
Qed.

(** ** Notifications: [core/handler/notification.go] *)

Definition notificationActionPatterns : list string :=
  ["POST /api/v1/auth/login"; "POST /api/v1/auth/logout"; "POST /api/v1/devices%"; "DELETE /api/v1/devices%"; "POST /api/v1/users%";
   "DELETE /api/v1/users%"; "POST /api/v1/networks%"; "DELETE /api/v1/networks%"; "POST /api/v1/gateways%"; "DELETE /api/v1/gateways%";
   "PUT /api/v1/settings%"; "gateway.connected"; "gateway.disconnected"; "device.approved"; "device.revoked"].

(** The condition on [action] that [buildActionFilter] writes: [LIKE] for a
    pattern with a percent sign, equality for another. *)
Definition conditionText (p : string) : string :=
  if strings_Contains p "%" then "action LIKE '" ++ p ++ "'" else "action = '" ++ p ++ "'".

Definition buildActionFilter : string := strings_join " OR " (map conditionText notificationActionPatterns).

(** [LIKE]: [%] stands for any text, [_] for one character, and a backslash
    takes the next character as it is. *)
Fixpoint sql_like (p : string) : string -> bool :=
  match p with
  | EmptyString => fun s => String.eqb s ""
  | String c p =>
      let lit (e : ascii) (next : string -> bool) s := match s with String d s => Ascii.eqb d e && next s | EmptyString => false end in
      if Ascii.eqb c "%" then
        fix any s := sql_like p s || match s with String _ s => any s | EmptyString => false end
      else if Ascii.eqb c "_" then fun s => match s with String _ s => sql_like p s | EmptyString => false end
      else if Ascii.eqb c "\" then match p with String e p => lit e (sql_like p) | EmptyString => fun _ => false end
      else lit c (sql_like p)
  end.

Definition conditionHolds (p action : string) : bool := if strings_Contains p "%" then sql_like p action else String.eqb action p.

Definition surfaced (action : string) : bool := existsb (fun p => conditionHolds p action) notificationActionPatterns.

Record notificationItem := {
  no_ID : Z; no_Timestamp : Z; no_Action : string; no_Resource : string; no_Details : option json; no_UserID : option string;
}.

Definition itemOf (x : audit_row) : notificationItem := {|
  no_ID := al_id x; no_Timestamp := al_timestamp x; no_Action := al_action x; no_Resource := al_resource x;
  no_Details := al_details x; no_UserID := al_user x |}.

Inductive notification_body :=
| NItems (items : list notificationItem) (total : Z)
| NCount (count : Z)
| NOk.

Section notifications.
Context `{DeviceEnv} `{SqlOrder} {E : Type}.
Let A (X : Type) := H audit_state E X.

(** The rows of the account that asks: all of them for an administrator. *)
Definition notifiable (c : TokenClaims) (x : audit_row) : bool :=
  (IsAdmin c || bool_decide (is_Some (al_user x) /\ pg_uuid (UserID c) = al_user x)) && surfaced (al_action x).

Definition readable (c : TokenClaims) : bool := IsAdmin c || bool_decide (is_Some (pg_uuid (UserID c))).

Definition limitOf (v : string) : Z := let n := queryInt v 30 in if ((n <? 1) || (100 <? n))%Z then 30 else n.

Definition notifications_list (f : nat -> bool) (claims : option TokenClaims) (limit : string) : A (Z * notification_body) :=
  let! c := the claims 401 "unauthorized" in
  let! rows := query (f 0%nat || negb (readable c))
    (fun s => take (Z.to_nat (limitOf limit)) (rows_by 45 (fun x => - al_timestamp x) (List.filter (notifiable c) (audit_log s))))
    500 "failed to query notifications" in
  do! require (match rows with [] => true | _ => negb (f 1%nat) end) 500 "failed to scan notification" in
  do! require (negb (f 2%nat)) 500 "failed to iterate notifications" in
  respondJSON 200 (NItems (map itemOf rows) (Z.of_nat (length rows))).

Definition sinceOf (now : Z) (v : string) : Z :=
  let day := now - 24 * hour_ns in
  if String.eqb v "" then day else match parseRFC3339 v with Some t => t | None => day end.

Definition unreadCount (f : nat -> bool) (now : Z) (claims : option TokenClaims) (since : string) : A (Z * notification_body) :=
  let! c := the claims 401 "unauthorized" in
  let! n := query (f 0%nat || negb (readable c))
    (fun s => Z.of_nat (length (List.filter (fun x => notifiable c x && (sinceOf now since <? al_timestamp x)%Z) (audit_log s))))
    500 "failed to count notifications" in
  respondJSON 200 (NCount n).

Definition markRead : A (Z * notification_body) := respondJSON 200 NOk.

Inductive notification_request := NList (limit : string) | NUnread (since : string) | NMarkRead.

Definition notification_serve (f : nat -> bool) (now : Z) (claims : option TokenClaims) (r : notification_request) : A (Z * notification_body) :=
  match r with
  | NList limit => notifications_list f claims limit
  | NUnread since => unreadCount f now claims since
  | NMarkRead => markRead
  end.

Lemma limitOf_bounds v : 1 <= limitOf v <= 100.
Proof. unfold limitOf. destruct (_ || _)%bool eqn:Hb; [lia|]. apply orb_false_iff in Hb as [E1%Z.ltb_ge E2%Z.ltb_ge]. lia. Qed.

(** What an account is shown. *)
Definition may_see (c : TokenClaims) (x : audit_row) : Prop :=
  surfaced (al_action x) = true /\ (IsAdmin c = false -> exists u, pg_uuid (UserID c) = Some u /\ al_user x = Some u).

Lemma notifiable_may_see c x : notifiable c x = true -> may_see c x.
Proof.
  unfold notifiable. intros [Hv Hs]%andb_true_iff. split; [done|]. intros Ha. rewrite Ha in Hv. cbn in Hv.
  apply bool_decide_eq_true_1 in Hv as [[u Hu] Hp]. rewrite Hu in Hp. eauto.
Qed.

(** The first rows of a descending order, and the others. *)
Lemma latest_first q n (l : list audit_row) : let ordered := rows_by q (fun x => - al_timestamp x) l in
  forall x y, x ∈ take n ordered -> y ∈ drop n ordered -> al_timestamp y <= al_timestamp x.
Proof.
  intros ordered x y Hx Hy. pose proof (rows_by_sorted q (fun x => - al_timestamp x) l) as Hs. fold ordered in Hs.
  rewrite <- (take_drop n ordered) in Hs. pose proof (StronglySorted_app_1_elem_of _ _ _ _ _ Hs Hx Hy) as Hle. cbn in Hle. lia.
Qed.

(** An account is shown the latest of the records it may see, at most a
    hundred: every item is one of them, and one that is left out is no later
    than any that is shown.  Only an administrator is shown records of others. *)
Theorem notifications_exact now c limit s (Hc : readable c = true) :
  exists shown rest,
    run (notification_serve (fun _ => false) now (Some c) (NList limit)) s =
      (Reply 200 (NItems (map itemOf shown) (Z.of_nat (length shown))), s, []) /\
    (shown ++ rest)%list ≡ₚ List.filter (notifiable c) (audit_log s) /\ Forall (may_see c) shown /\
    (forall x y, x ∈ shown -> y ∈ rest -> al_timestamp y <= al_timestamp x) /\
    Z.of_nat (length shown) <= limitOf limit <= 100 /\ (Z.of_nat (length shown) < limitOf limit -> rest = []).
Proof.
  pose proof (limitOf_bounds limit) as Hl. set (n := Z.to_nat (limitOf limit)).
  set (ordered := rows_by 45 (fun x => - al_timestamp x) (List.filter (notifiable c) (audit_log s))).
  assert (ordered ≡ₚ List.filter (notifiable c) (audit_log s)) as Hp by apply rows_by_perm.
  exists (take n ordered), (drop n ordered). rewrite take_drop. split_and!; [|done| |apply latest_first| |lia|].
  - unfold notification_serve, notifications_list, run, the, bind, ret, query. rewrite Hc. cbn [negb orb]. fold ordered n.
    by destruct (take n ordered).
  - apply Forall_take. rewrite Hp. apply Forall_forall. intros x Hx. apply list_elem_of_In, filter_In in Hx as [_ Hv].
    by apply notifiable_may_see.
  - rewrite length_take. lia.
  - rewrite length_take. intros Hlt. apply drop_ge. lia.
Qed.

(** [LIKE] with a percent sign at the end of a plain text is a prefix test. *)
Definition plain_char (c : ascii) : bool := negb (Ascii.eqb c "%" || Ascii.eqb c "_" || Ascii.eqb c "\").

Lemma like_all s : sql_like "%" s = true.
Proof. induction s as [|c s IH]; [done|]. cbn in *. by rewrite IH. Qed.

Lemma like_prefix p s : forallb plain_char (list_ascii_of_string p) = true ->
  sql_like (p ++ "%") s = bool_decide (is_Some (cut_prefix s p)).
Proof.
  revert s. induction p as [|c p IH]; intros s Hp.
  - rewrite append_nil, like_all, bool_decide_eq_true_2; [done|]. by destruct s.
  - cbn in Hp. apply andb_true_iff in Hp as [Hc Hp]. unfold plain_char in Hc. rewrite !negb_orb, !andb_true_iff, !negb_true_iff in Hc.
    destruct Hc as [[E1 E2] E3]. rewrite append_cons. cbn [sql_like]. rewrite E1, E2, E3. destruct s as [|d s]; [done|].
    rewrite IH by done. cbn [cut_prefix]. by destruct (Ascii.eqb d c).
Qed.
End notifications.

(** ** The log, the listing and the notifications together *)

(** A record of nobody is shown to administrators only. *)
Lemma nobody_sees `{DeviceEnv} c l : IsAdmin c = false -> Forall (fun x => al_user x = None) l -> List.filter (notifiable c) l = [].
Proof.
  intros Hc Hl. induction Hl as [|x l Hx Hl IH]; [done|]. cbn [List.filter]. unfold notifiable at 1. rewrite Hc. cbn [orb].
  rewrite bool_decide_eq_false_2; [done|]. rewrite Hx. by intros [[u Hu] _].
Qed.

(** Because the log names nobody, an account that is not an administrator has
    no notification of any request, its own included. *)
Lemma users_never_notified `{DeviceEnv} `{AuditDb} `{JwtLib} `{SqlOrder} {S : Type} HashToken secret bl now next r (s : S * audit_state) c limit :
  leaves_log next -> hq_claims r = None -> Forall (fun x => al_user x = None) (audit_log s.2) ->
  IsAdmin c = false -> readable c = true ->
  let after := (core_stack HashToken secret bl false now next r s).2.2 in
  run (notification_serve (E:=unit) (fun _ => false) now (Some c) (NList limit)) after = (Reply 200 (NItems [] 0), after, []).
Proof.
  intros Hn Hc Hs Ha Hr after.
  assert (Forall (fun x => al_user x = None) (audit_log after)) as Hall by (by apply audit_names_nobody).
  unfold notification_serve, notifications_list, run, the, bind, ret, query. rewrite Hr. cbn [negb orb].
  rewrite (nobody_sees c) by done.
  pose proof (rows_by_perm 45 (fun x => - al_timestamp x) (@nil audit_row)) as Hp. symmetry in Hp. apply Permutation_nil in Hp as ->.
  by rewrite take_nil.
Qed.

(** ** Runs *)

Definition ascii_text (s : string) : bool :=
  forallb (fun c => let n := nat_of_ascii c in (1 <=? n)%nat && (n <? 128)%nat) (list_ascii_of_string s).

#[local] Instance toy_audit_db : AuditDb := {| pg_text := ascii_text; pg_inet := fun s => negb (String.eqb s "") |}.

Definition audit0 : audit_state := {| au_users := ["ann"]; audit_log := []; au_next := 1 |}.

Definition req0 : http_request := {|
  hq_Method := "DELETE"; hq_Path := "/api/v1/devices/d1"; hq_RawQuery := "force=1"; hq_RemoteAddr := "198.51.100.7:4000"; hq_UserAgent := "curl/8";
  hq_Authorization := ""; hq_claims := None |}.

(** A handler that counts what it is asked. *)
Definition counting : @http_handler nat := fun _ s => (204, (Datatypes.S s.1, s.2)).

Lemma audit_exact_witness : exists row, audit_log (AuditMiddleware (H0:=toy_device_env) false 7 counting req0 (0%nat, audit0)).2.2 = [row] /\
  al_action row = "DELETE /api/v1/devices/d1" /\
  al_details row = Some (JObject [("method", JString "DELETE"); ("status_code", JInt 204); ("query", JString "force=1")]).
Proof.
  pose proof (audit_exact (H0:=toy_device_env) 7 counting req0 (0%nat, audit0) (fun _ _ => eq_refl) eq_refl eq_refl) as Ha.
  cbn [counting fst snd] in Ha. destruct (AuditMiddleware _ _ _ _ _) as [st [s1 a]]. destruct Ha as (_ & _ & row & Hrow & Hact & Hd & _).
  exists row. split; [exact Hrow|]. split; [exact Hact|]. exact Hd.
Defined.

(** The device is deleted, and no record says so. *)
Example byte_hides_the_change :
  let r := {| hq_Method := hq_Method req0; hq_Path := hq_Path req0; hq_RawQuery := ""; hq_RemoteAddr := hq_RemoteAddr req0;
              hq_UserAgent := String (ascii_of_nat 255) ""; hq_Authorization := ""; hq_claims := None |} in
  AuditMiddleware (H0:=toy_device_env) false 7 counting r (0%nat, audit0) = (204, (1%nat, audit0)).
Proof. cbv zeta. by rewrite unreadable_agent_unaudited. Qed.

Definition auditAnn : TokenClaims := {|
  UserID := "ann"; Username := "ann"; Email := ""; IsAdmin := false; Roles := []; TokenType := ""; ExpiresAt := None; IssuedAt := None |}.

Lemma notifications_exact_witness : exists shown rest,
  run (notification_serve (H0:=toy_device_env) (H1:=sql_default) (E:=unit) (fun _ => false) 7 (Some auditAnn) (NList "5")) audit0 =
    (Reply 200 (NItems (map itemOf shown) (Z.of_nat (length shown))), audit0, []) /\ (shown ++ rest)%list ≡ₚ [].
Proof.
  destruct (notifications_exact (H0:=toy_device_env) (H1:=sql_default) (E:=unit) 7 auditAnn "5" audit0 eq_refl) as (shown & rest & Hr & Hp & _).
  exists shown, rest. split; [exact Hr|exact Hp].
Defined.

(** Plain names are compared; the others are prefixes. *)
Lemma surfaced_spec action : surfaced action =
  existsb (String.eqb action) ["POST /api/v1/auth/login"; "POST /api/v1/auth/logout"; "gateway.connected"; "gateway.disconnected";
                               "device.approved"; "device.revoked"] ||
  existsb (fun p => bool_decide (is_Some (cut_prefix action p)))
    ["POST /api/v1/devices"; "DELETE /api/v1/devices"; "POST /api/v1/users"; "DELETE /api/v1/users"; "POST /api/v1/networks";
     "DELETE /api/v1/networks"; "POST /api/v1/gateways"; "DELETE /api/v1/gateways"; "PUT /api/v1/settings"].
Proof.
  assert (forall p q, p ++ "%" = q -> forallb plain_char (list_ascii_of_string p) = true -> strings_Contains q "%" = true ->
    conditionHolds q action = bool_decide (is_Some (cut_prefix action p))) as Hp.
  { intros p q <- Hp Hc. unfold conditionHolds. rewrite Hc. by apply like_prefix. }
  assert (forall p, strings_Contains p "%" = false -> conditionHolds p action = String.eqb action p) as He.
  { intros p Hc. unfold conditionHolds. by rewrite Hc. }
  unfold surfaced, notificationActionPatterns. cbn [existsb].
  repeat match goal with |- context [conditionHolds ?q action] =>
    first [rewrite (He q) by reflexivity
          |let p := eval vm_compute in (String.substring 0 (String.length q - 1) q) in rewrite (Hp p q) by reflexivity] end.
  rewrite !orb_false_r. repeat match goal with |- context [String.eqb action ?x] => generalize (String.eqb action x); intros ? end.
  repeat match goal with |- context [bool_decide ?x] => generalize (bool_decide x); intros ? end.
  repeat match goal with b : bool |- _ => destruct b; rewrite ?orb_true_r; try done end.
Qed.
