(* ===== verification/Siem.v ===== *)
(** * Export of the audit log

    [internal/observability/siem.go]: the exporter that sends the records of
    the audit log to a webhook and to a syslog server, and keeps in the
    settings the number of the last one sent.  The answers of the two servers,
    name resolution, JSON encoding and the faults of the database are
    parameters of each batch. *)

From S2P Require Import Prelude Net Rfc3339 Json Policy Devices Http Tables Sha256 ClientConfig AuditLog Webhook.
From Stdlib Require Import ZArith Lia Ascii String.
From stdpp Require Import base gmap strings list sorting.

Local Open Scope Z_scope.
Local Open Scope string_scope.
Local Open Scope outpost_scope.

(** ** Syslog *)

(** One byte of [strings.NewReplacer]. *)
Definition escaped (c : ascii) : string :=
  if Ascii.eqb c "\" then "\\"
  else if Ascii.eqb c quote_char then String "\" (String quote_char "")
  else if Ascii.eqb c "]" then "\]"
  else if Ascii.eqb c (ascii_of_nat 10) then "\n"
  else if Ascii.eqb c (ascii_of_nat 13) then "\r"
  else String c "".

Fixpoint sanitizeSyslogValue (s : string) : string :=
  match s with EmptyString => "" | String c s => escaped c ++ sanitizeSyslogValue s end.

Definition param (name value : string) : string := name ++ "=" ++ String quote_char (sanitizeSyslogValue value ++ String quote_char "").

Definition dash (o : option string) : string := default "-" o.

(** The text of the datagram; [marshal] is [json.Marshal] of the details. *)
Definition syslogMessage (marshal : json -> option string) (e : AuditEntry) : string :=
  "<134>1 " ++ formatUTC (ae_Timestamp e) ++ " outpost audit-log - - [audit " ++
  param "user_id" (dash (ae_UserID e)) ++ " " ++ param "action" (ae_Action e) ++ " " ++ param "resource" (ae_Resource e) ++ " " ++
  param "ip" (ae_IPAddress e) ++ "] " ++ dash (match ae_Details e with Some d => marshal d | None => None end).

(** *** A reader of the messages *)

(** A quoted value, after its opening quote, and what follows it. *)
Fixpoint readValue (s : string) : option (string * string) :=
  match s with
  | EmptyString => None
  | String c s =>
      if Ascii.eqb c quote_char then Some ("", s)
      else if Ascii.eqb c "\" then
        match s with
        | EmptyString => None
        | String d s => let c := if Ascii.eqb d "n" then ascii_of_nat 10 else if Ascii.eqb d "r" then ascii_of_nat 13 else d in
                        prod_map (String c) id <$> readValue s
        end
      else prod_map (String c) id <$> readValue s
  end.

Definition readParam (name s : string) : option (string * string) :=
  match cut_prefix s (name ++ "=" ++ String quote_char "") with Some s => readValue s | None => None end.

Fixpoint readWord (s : string) : string * string :=
  match s with
  | EmptyString => ("", "")
  | String c t => if Ascii.eqb c " " then ("", s) else let '(w, r) := readWord t in (String c w, r)
  end.

Record syslog_event := { sy_time : string; sy_user : string; sy_action : string; sy_resource : string; sy_ip : string; sy_msg : string }.

Definition readSyslog (s : string) : option syslog_event :=
  s ← cut_prefix s "<134>1 ";
  let '(time, s) := readWord s in
  s ← cut_prefix s " outpost audit-log - - [audit ";
  '(user, s) ← readParam "user_id" s;
  s ← cut_prefix s " ";
  '(action, s) ← readParam "action" s;
  s ← cut_prefix s " ";
  '(resource, s) ← readParam "resource" s;
  s ← cut_prefix s " ";
  '(ip, s) ← readParam "ip" s;
  s ← cut_prefix s "] ";
  Some {| sy_time := time; sy_user := user; sy_action := action; sy_resource := resource; sy_ip := ip; sy_msg := s |}.

Lemma read_escaped c s : readValue (escaped c ++ s) = prod_map (String c) id <$> readValue s.
Proof.
  unfold escaped. destruct (Ascii.eqb_spec c "\"); [by subst|]. destruct (Ascii.eqb_spec c quote_char); [by subst|].
  destruct (Ascii.eqb_spec c "]"); [by subst|]. destruct (Ascii.eqb_spec c (ascii_of_nat 10)); [by subst|].
  destruct (Ascii.eqb_spec c (ascii_of_nat 13)); [by subst|]. rewrite append_cons, append_nil. cbn [readValue].
  by rewrite !(proj2 (Ascii.eqb_neq _ _)).
Qed.

Lemma read_sanitized v s : readValue (sanitizeSyslogValue v ++ String quote_char s) = Some (v, s).
Proof.
  induction v as [|c v IH]; [done|]. cbn [sanitizeSyslogValue]. by rewrite <- string_app_assoc, read_escaped, IH.
Qed.

Lemma read_param name v s : readParam name (param name v ++ s) = Some (v, s).
Proof.
  assert (param name v ++ s = (name ++ "=" ++ String quote_char "") ++ (sanitizeSyslogValue v ++ String quote_char s)) as ->.
  { unfold param. rewrite <- !string_app_assoc. do 2 f_equal. rewrite !append_cons, append_nil. f_equal. by rewrite <- string_app_assoc. }
  unfold readParam. rewrite cut_prefix_app. apply read_sanitized.
Qed.

Lemma readWord_app w s : no_char " " w = true -> readWord (w ++ String " " s) = (w, String " " s).
Proof.
  induction w as [|c w IH]; intros Hw; [done|]. cbn [no_char] in Hw. apply andb_true_iff in Hw as [Hc%negb_true_iff Hw].
  rewrite append_cons. cbn [readWord]. by rewrite Hc, IH.
Qed.

Lemma padded_no_space k n : no_char " " (padded k n) = true.
Proof.
  induction k as [|k IH]; [done|]. cbn [padded no_char]. rewrite IH, andb_true_r, negb_true_iff. apply Ascii.eqb_neq. intros Hd.
  pose proof (Z.mod_pos_bound (n / 10 ^ Z.of_nat k) 10 ltac:(lia)) as Hb.
  destruct (is_digit_char (n / 10 ^ Z.of_nat k mod 10) ltac:(lia)) as [Hi _]. by rewrite Hd in Hi.
Qed.

Lemma formatUTC_no_space t : no_char " " (formatUTC t) = true.
Proof. unfold formatUTC. by rewrite !no_char_app, !padded_no_space. Qed.

(** No record can change the shape of its message: whatever quotes,
    brackets, backslashes and line breaks the action, the resource, the user
    and the address hold, the four parameters of the message are read back as
    they are, with the time and the details. *)
Theorem syslog_roundtrip marshal e :
  readSyslog (syslogMessage marshal e) = Some {|
    sy_time := formatUTC (ae_Timestamp e); sy_user := dash (ae_UserID e); sy_action := ae_Action e; sy_resource := ae_Resource e;
    sy_ip := ae_IPAddress e; sy_msg := dash (match ae_Details e with Some d => marshal d | None => None end) |}.
Proof.
  unfold readSyslog, syslogMessage. rewrite cut_prefix_app. cbn [mbind option_bind].
  change (" outpost audit-log - - [audit " ++ ?x) with (String " " ("outpost audit-log - - [audit " ++ x)).
  rewrite readWord_app by apply formatUTC_no_space.
  change (String " " ("outpost audit-log - - [audit " ++ ?x)) with (" outpost audit-log - - [audit " ++ x).
  rewrite cut_prefix_app. cbn [mbind option_bind].
  do 3 (rewrite read_param; cbn [mbind option_bind]; rewrite cut_prefix_app; cbn [mbind option_bind]).
  rewrite read_param. cbn [mbind option_bind]. by rewrite cut_prefix_app.
Qed.

(** ** The exporter *)

Record SIEMExporter := { webhookURL : string; syslogAddr : string; hmacSecret : string; lastID : Z }.

Definition NewSIEMExporter : SIEMExporter := {| webhookURL := ""; syslogAddr := ""; hmacSecret := ""; lastID := 0 |}.

Definition Configure (url addr : string) (x : SIEMExporter) : SIEMExporter :=
  {| webhookURL := url; syslogAddr := addr; hmacSecret := hmacSecret x; lastID := lastID x |}.

Definition SetHMACSecret (secret : string) (x : SIEMExporter) : SIEMExporter :=
  {| webhookURL := webhookURL x; syslogAddr := syslogAddr x; hmacSecret := secret; lastID := lastID x |}.

Definition set_lastID (n : Z) (x : SIEMExporter) : SIEMExporter :=
  {| webhookURL := webhookURL x; syslogAddr := syslogAddr x; hmacSecret := hmacSecret x; lastID := n |}.

(** The guard of the HTTP client, the same as that of the webhooks. *)
Definition siemIsPrivateIP (ip : IP) : bool :=
  IsLoopback ip || IsPrivate ip || IsLinkLocalUnicast ip || IsLinkLocalMulticast ip || IsUnspecified ip.

Definition siemDialContext (lookup : resolver) (addr : string) : dial_result :=
  match SplitHostPort addr with
  | None => DialRefused "invalid address"
  | Some (host, port) =>
      match lookup host with
      | None => DialRefused "DNS lookup failed"
      | Some [] => DialRefused "no IPs resolved"
      | Some (ip :: ips) =>
          if existsb siemIsPrivateIP (ip :: ips) then DialRefused "resolved IP is in a private/internal range"
          else Dialled ip port
      end
  end.

Lemma same_guard lookup addr : siemDialContext lookup addr = safeDialContext lookup addr.
Proof. reflexivity. Qed.

Inductive siem_effect :=
| Hook (e : wh_effect)
| Datagram (addr text : string).

(** What is outside. *)
Class SiemLib : Type := {
  marshalEntry : AuditEntry -> option string;
  marshalDetails : json -> option string;
  requestable : string -> bool;
}.

Inductive udp := UdpNoDial | UdpNoWrite | UdpSent.

(** The two servers while one event is sent. *)
Record servers := { sv_http : exchange; sv_udp : udp }.

Section exporter.
Context `{SiemLib}.

(** [true] is a nil error. *)
Definition siemRequest (x : SIEMExporter) (payload : string) : http_request := {|
  rq_URL := webhookURL x; rq_Body := payload;
  rq_Header := (("Content-Type", "application/json") ::
    if String.eqb (hmacSecret x) "" then [] else [("X-Outpost-Signature", ("sha256=" ++ signPayload (hmacSecret x) payload)%string)])%list |}.

Definition ExportToWebhook (v : servers) (x : SIEMExporter) (e : AuditEntry) : bool * list siem_effect :=
  if String.eqb (webhookURL x) "" then (true, []) else
  match marshalEntry e with
  | None => (false, [])
  | Some payload =>
      if negb (requestable (webhookURL x)) then (false, []) else
      let '(status, es) := Do (sv_http v) (siemRequest x payload) in
      (match status with Some st => negb (300 <=? st)%Z | None => false end, map Hook es)
  end.

Definition ExportToSyslog (v : servers) (x : SIEMExporter) (e : AuditEntry) : bool * list siem_effect :=
  if String.eqb (syslogAddr x) "" then (true, []) else
  match sv_udp v with
  | UdpNoDial | UdpNoWrite => (false, [])
  | UdpSent => (true, [Datagram (syslogAddr x) (syslogMessage marshalDetails e)])
  end.

(** Both are tried; the first error is returned. *)
Definition ExportEvent (v : servers) (x : SIEMExporter) (e : AuditEntry) : bool * list siem_effect :=
  let '(ok1, es1) := if String.eqb (webhookURL x) "" then (true, []) else ExportToWebhook v x e in
  let '(ok2, es2) := if String.eqb (syslogAddr x) "" then (true, []) else ExportToSyslog v x e in
  (ok1 && ok2, es1 ++ es2)%list.

(** *** A batch *)

(** The faults of the database and the servers during one batch, by the number
    of the row: a row that fails to scan closes the result. *)
Record batch_env := { be_query : bool; be_arrive : nat; be_scan : nat -> bool; be_servers : nat -> servers; be_save : bool }.

Definition batchSize : nat := 500.

Definition pending (last : Z) (log : list audit_row) : list audit_row :=
  sort_by al_id (List.filter (fun r => last <? al_id r)%Z log).

(** The loop: [maxID], the numbers of the events that were exported, and what
    was sent. *)
Fixpoint exportRows (b : batch_env) (x : SIEMExporter) (k : nat) (maxID : Z) (rows : list audit_row) : Z * list Z * list siem_effect :=
  match rows with
  | [] => (maxID, [], [])
  | r :: rows =>
      if be_scan b k then (maxID, [], []) else
      let '(ok, es) := ExportEvent (be_servers b k) x (auditEntryOf r) in
      if negb ok then (maxID, [], es) else
      let '(m, done, es') := exportRows b x (Datatypes.S k) (if (maxID <? al_id r)%Z then al_id r else maxID) rows in
      (m, al_id r :: done, es ++ es')%list
  end.

(** The setting is the text of a number; a failure to save it is only logged. *)
Definition saveCursor (fails : bool) (id : Z) (cursor : option string) : option string := if fails then cursor else Some (itoa id).

Definition loadCursor (fails : bool) (cursor : option string) (x : SIEMExporter) : SIEMExporter :=
  if fails then x else
  match cursor with
  | None => x
  | Some v => let '(n, err) := Atoi v in if err then x else set_lastID n x
  end.

Definition exportBatch (b : batch_env) (log : list audit_row) (x : SIEMExporter) (cursor : option string)
    : SIEMExporter * option string * list Z * list siem_effect :=
  if String.eqb (webhookURL x) "" && String.eqb (syslogAddr x) "" then (x, cursor, [], [])
  else if be_query b then (x, cursor, [], [])
  else let '(m, done, es) := exportRows b x 0 0 (take (be_arrive b) (take batchSize (pending (lastID x) log))) in
       if (0 <? m)%Z then (set_lastID m x, saveCursor (be_save b) m cursor, done, es) else (x, cursor, done, es).

(** *** The exporter at work *)

(** The log as other transactions see it, the exporter, its setting, the
    numbers of the events that every configured server took, in the order they
    did, and those of the records that became visible late: a number is drawn
    when the record is written, but the record is seen when its transaction
    commits, and by then one with a higher number may have been exported. *)
Record siem_world := { sw_log : list audit_row; sw_exporter : SIEMExporter; sw_cursor : option string; sw_done : list Z; sw_late : list Z }.

Definition overtaken (done : list Z) (id : Z) : bool := existsb (fun z => id <=? z)%Z done.

Definition becomes_visible (r : audit_row) (w : siem_world) : siem_world := {|
  sw_log := (sw_log w ++ [r])%list; sw_exporter := sw_exporter w; sw_cursor := sw_cursor w; sw_done := sw_done w;
  sw_late := if overtaken (sw_done w) (al_id r) then al_id r :: sw_late w else sw_late w |}.

(** A record with a fresh number becomes visible, in whatever order of the
    numbers; a batch is run; the process starts again and reads the cursor. *)
Inductive siem_step : siem_world -> siem_world -> Prop :=
| step_record r w : 0 < al_id r <= max_int64 -> al_id r ∉ map al_id (sw_log w) -> siem_step w (becomes_visible r w)
| step_batch b w x c done es : exportBatch b (sw_log w) (sw_exporter w) (sw_cursor w) = (x, c, done, es) ->
    siem_step w {| sw_log := sw_log w; sw_exporter := x; sw_cursor := c; sw_done := (sw_done w ++ done)%list; sw_late := sw_late w |}
| step_restart fails w :
    siem_step w {| sw_log := sw_log w; sw_cursor := sw_cursor w; sw_done := sw_done w; sw_late := sw_late w;
                   sw_exporter := loadCursor fails (sw_cursor w) (set_lastID 0 (sw_exporter w)) |}.

(** A position of the cursor: the start, or an exported record, with everything
    up to it exported or late. *)
Record reached (n : Z) (w : siem_world) : Prop := {
  at_record : n = 0 \/ n ∈ sw_done w;
  all_done : forall r, r ∈ sw_log w -> al_id r <= n -> al_id r ∈ sw_done w \/ al_id r ∈ sw_late w;
}.

Record siem_inv (w : siem_world) : Prop := {
  ids_positive : Forall (fun r => 0 < al_id r <= max_int64) (sw_log w);
  last_reached : reached (lastID (sw_exporter w)) w;
  saved_reached : match sw_cursor w with None => True | Some v => exists n, v = itoa n /\ 0 <= n <= max_int64 /\ reached n w end;
}.

Lemma exportRows_prefix b x rows : forall k m0, exists n es,
  let done := map al_id (take n rows) in exportRows b x k m0 rows = (foldl Z.max m0 done, done, es).
Proof.
  induction rows as [|r rows IH]; intros k m0; cbn [exportRows]; [by exists 0%nat, []|].
  destruct (be_scan b k); [by exists 0%nat, []|]. destruct (ExportEvent _ _ _) as [ok es] eqn:He.
  destruct ok; cbn [negb]; [|by exists 0%nat, es].
  destruct (IH (Datatypes.S k) (Z.max m0 (al_id r))) as (n & es' & Hn).
  exists (Datatypes.S n), (es ++ es')%list. cbv zeta in *. cbn [take map foldl].
  replace (if (m0 <? al_id r)%Z then al_id r else m0) with (Z.max m0 (al_id r)) by (destruct (Z.ltb_spec m0 (al_id r)); lia).
  by rewrite Hn.
Qed.

Lemma foldl_max_in (l : list Z) : forall m0, foldl Z.max m0 l = m0 \/ foldl Z.max m0 l ∈ l.
Proof.
  induction l as [|z l IH]; intros m0; cbn [foldl]; [by left|].
  destruct (IH (Z.max m0 z)) as [->|Hin]; [|right; by apply list_elem_of_further].
  destruct (Z.max_spec m0 z) as [[_ ->]|[_ ->]]; [right; apply list_elem_of_here|by left].
Qed.

Lemma pending_spec last log r : r ∈ pending last log <-> r ∈ log /\ last < al_id r.
Proof.
  unfold pending. rewrite sort_by_perm, list_elem_of_In, filter_In, <- list_elem_of_In. by rewrite Z.ltb_lt.
Qed.

(** The events of a batch are the next ones of the log, in order and without a
    gap, and the cursor moves to the last of them. *)
Lemma exportBatch_spec b log x c : Forall (fun r => 0 < al_id r) log -> 
  let '(x', c', done, _) := exportBatch b log x c in
  exists n, done = map al_id (take n (pending (lastID x) log)) /\
    (done = [] /\ x' = x /\ c' = c \/
     exists m r, x' = set_lastID m x /\ c' = saveCursor (be_save b) m c /\ al_id r = m /\ r ∈ take n (pending (lastID x) log) /\
       forall y, y ∈ pending (lastID x) log -> al_id y <= m -> al_id y ∈ done).
Proof.
  intros Hpos. unfold exportBatch. destruct (_ && _); [by exists 0%nat; split; [|left]|]. destruct (be_query b); [by exists 0%nat; split; [|left]|].
  set (p := pending (lastID x) log).
  destruct (exportRows_prefix b x (take (be_arrive b) (take batchSize p)) 0 0) as (n & es & Hn). cbv zeta in Hn. rewrite Hn, !take_take. cbv beta iota.
  set (k := ((n `min` be_arrive b) `min` batchSize)%nat).
  destruct (Z.ltb_spec 0 (foldl Z.max 0 (map al_id (take k p)))) as [Hm|Hm]; cbv beta iota; exists k; (split; [done|]).
  - right. destruct (foldl_max_in (map al_id (take k p)) 0) as [E|Hin]; [lia|].
    change (map al_id (take k p)) with (al_id <$> take k p) in Hin at 2. apply list_elem_of_fmap in Hin as (r & Hr & Hin).
    exists (foldl Z.max 0 (map al_id (take k p))), r. split_and!; [done|done|done|done|]. intros y Hy Hle.
    rewrite <- (take_drop k p) in Hy. apply elem_of_app in Hy as [Hy|Hy]; [by apply list_elem_of_fmap_2|].
    pose proof (sort_by_sorted al_id (List.filter (fun r => lastID x <? al_id r)%Z log)) as Hs.
    fold (pending (lastID x) log) p in Hs. rewrite <- (take_drop k p) in Hs.
    pose proof (StronglySorted_app_1_elem_of _ _ _ _ _ Hs Hin Hy) as Hxy. cbn in Hxy.
    replace (al_id y) with (al_id r) by lia. by apply list_elem_of_fmap_2.
  - left. split_and!; [|done|done]. destruct (take k p) as [|r l] eqn:E; [done|]. exfalso.
    assert (r ∈ p) as [Hr _]%pending_spec by (rewrite <- (take_drop k p), E; apply list_elem_of_here).
    rewrite Forall_forall in Hpos. specialize (Hpos r Hr). cbn [map foldl] in Hm.
    assert (forall l m0, m0 <= foldl Z.max m0 l) as Hmono.
    { induction l0 as [|z l0 IH]; intros m0; cbn [foldl]; [lia|]. specialize (IH (Z.max m0 z)). lia. }
    specialize (Hmono (map al_id l) (Z.max 0 (al_id r))). lia.
Qed.

Lemma reached_done n w w' : sw_log w' = sw_log w -> sw_late w' = sw_late w -> (forall z, z ∈ sw_done w -> z ∈ sw_done w') ->
  reached n w -> reached n w'.
Proof. intros Hl Hlate Hd [Hat Hall]. split; rewrite ?Hl, ?Hlate; [naive_solver|]. intros r Hr Hle. destruct (Hall r Hr Hle); auto. Qed.

Lemma reached_record n w r : 0 < al_id r -> reached n w -> reached n (becomes_visible r w).
Proof.
  intros Hpos [Hat Hall]. split; cbn; [done|].
  intros y [Hy|Hy]%elem_of_app Hle.
  - destruct (Hall y Hy Hle); [by left|right]. case_match; [by right|done].
  - apply list_elem_of_singleton in Hy as ->. right. destruct Hat as [->|Hin]; [lia|].
    assert (overtaken (sw_done w) (al_id r) = true) as ->; [|by left].
    apply existsb_exists. exists n. rewrite <- list_elem_of_In, Z.leb_le. done.
Qed.

Lemma loaded_reached fails w : siem_inv w -> reached (lastID (loadCursor fails (sw_cursor w) (set_lastID 0 (sw_exporter w)))) w.
Proof.
  intros [Hpos _ Hs].
  assert (reached 0 w) as Hz.
  { split; [by left|]. intros r Hr Hle. rewrite Forall_forall in Hpos. specialize (Hpos r Hr). cbn in Hpos. lia. }
  unfold loadCursor. destruct fails; [done|]. destruct (sw_cursor w) as [v|]; [|done]. destruct Hs as (n & -> & Hn & Hr).
  by rewrite Atoi_itoa.
Qed.

Lemma siem_inv_step w w' : siem_step w w' -> siem_inv w -> siem_inv w'.
Proof.
  intros Hstep Hi. pose proof Hi as [Hpos Hlast Hsaved]. destruct Hstep as [r w Hr Hfresh|b w x c done es Hb|fails w].
  - split; cbn.
    + apply Forall_app. split; [done|]. by constructor.
    + apply reached_record; [lia|done].
    + destruct (sw_cursor w) as [v|]; [|done]. destruct Hsaved as (n & Hv & Hn & Hre). exists n. split_and!; [done|lia|lia|].
      apply reached_record; [lia|done].
  - pose proof (exportBatch_spec b (sw_log w) (sw_exporter w) (sw_cursor w)) as Hspec. rewrite Hb in Hspec.
    destruct Hspec as (n & Hdone & Hcase); [eapply Forall_impl; [exact Hpos|]; cbn; lia|].
    set (w' := {| sw_log := sw_log w; sw_exporter := x; sw_cursor := c; sw_done := (sw_done w ++ done)%list; sw_late := sw_late w |}).
    assert (forall n, reached n w -> reached n w') as Hkeep by (intros n'; apply reached_done; [done|done|set_solver]).
    assert (match sw_cursor w with None => True | Some v => exists n, v = itoa n /\ 0 <= n <= max_int64 /\ reached n w' end) as Hold.
    { destruct (sw_cursor w) as [v|]; [|done]. destruct Hsaved as (n' & Hv & Hn & Hre). exists n'. auto. }
    destruct Hcase as [(_ & -> & ->)|(m & r & -> & -> & Hm & Hr & Hall)]; [split; cbn; auto|].
    assert (m ∈ done) as Hmd by (rewrite Hdone, <- Hm; by apply list_elem_of_fmap_2).
    apply elem_of_take in Hr as (i & Hr & _). apply list_elem_of_lookup_2, pending_spec in Hr as [Hr Hgt].
    assert (reached m w') as Hre.
    { split; [right; cbn; apply elem_of_app; by right|]. cbn. intros y Hy Hle. rewrite elem_of_app.
      destruct (Z.le_gt_cases (al_id y) (lastID (sw_exporter w))) as [Hold'|Hnew].
      - destruct (all_done _ _ Hlast y Hy Hold'); auto.
      - left. right. apply Hall; [|done]. by apply pending_spec. }
    split; [done|done|]. cbn. unfold saveCursor. destruct (be_save b); [done|]. exists m. split_and!; [done| | |done];
      rewrite Forall_forall in Hpos; specialize (Hpos r Hr); cbn in Hpos; lia.
  - split; [done| |].
    + eapply reached_done; [| | |by apply loaded_reached]; done.
    + cbn. destruct (sw_cursor w) as [v|]; [|done]. destruct Hsaved as (n & Hv & Hn & Hre). exists n. split_and!; [done|lia|lia|].
      by eapply reached_done; [| | |exact Hre].
Qed.

Definition siem_start (x : SIEMExporter) : siem_world := {| sw_log := []; sw_exporter := set_lastID 0 x; sw_cursor := None; sw_done := []; sw_late := [] |}.

Lemma siem_inv_rtc w w' : rtc siem_step w w' -> siem_inv w -> siem_inv w'.
Proof. induction 1; eauto using siem_inv_step. Qed.

Lemma siem_inv_reachable x w : rtc siem_step (siem_start x) w -> siem_inv w.
Proof.
  intros Hr. eapply siem_inv_rtc; [exact Hr|].
  split; [by constructor| |done]. split; [by left|]. intros r Hin. by apply elem_of_nil in Hin.
Qed.


(** ** Delivery *)

(** What the exporter counts as exported reached each configured server: the
    HTTP client ended with a status below 300 after a request whose body is the
    entry, signed when there is a secret, and the datagram with its message was written. *)
Theorem exported_delivered v x e es (He : ExportEvent v x e = (true, es)) :
  (webhookURL x <> "" -> exists payload st, marshalEntry e = Some payload /\ Hook (Post (siemRequest x payload)) ∈ es /\
     (Do (sv_http v) (siemRequest x payload)).1 = Some st /\ st < 300 /\
     (hmacSecret x <> "" -> In ("X-Outpost-Signature", "sha256=" ++ signPayload (hmacSecret x) payload) (rq_Header (siemRequest x payload)))) /\
  (syslogAddr x <> "" -> Datagram (syslogAddr x) (syslogMessage marshalDetails e) ∈ es).
Proof.
  unfold ExportEvent in He. destruct (if String.eqb (webhookURL x) "" then _ else _) as [ok1 es1] eqn:E1.
  destruct (if String.eqb (syslogAddr x) "" then _ else _) as [ok2 es2] eqn:E2. injection He as [-> ->]%andb_true_iff <-.
  split; intros Hne; apply String.eqb_neq in Hne.
  - unfold ExportToWebhook in E1. rewrite Hne in E1. destruct (marshalEntry e) as [payload|]; [|done].
    destruct (requestable _); cbn [negb] in E1; [|done]. pose proof (Do_sends (sv_http v) (siemRequest x payload)) as Hsent.
    destruct (Do (sv_http v) (siemRequest x payload)) as [[st|] ds] eqn:HDo; [|done]. injection E1 as Hst%negb_true_iff%Z.leb_gt <-.
    exists payload, st. split_and!; [done| |by rewrite HDo|lia|].
    + apply elem_of_app. left. apply list_elem_of_In, in_map, list_elem_of_In. by apply (Hsent st).
    + intros Hs. apply String.eqb_neq in Hs. unfold siemRequest. cbn [rq_Header]. rewrite Hs. right. by left.
  - unfold ExportToSyslog in E2. rewrite Hne in E2. destruct (sv_udp v); try done. injection E2 as <-. set_solver.
Qed.

(** ** Progress *)

(** Servers that take everything, and a database without faults. *)
Record working (b : batch_env) (x : SIEMExporter) : Prop := {
  wk_target : String.eqb (webhookURL x) "" && String.eqb (syslogAddr x) "" = false;
  wk_query : be_query b = false;
  wk_arrive : (batchSize <= be_arrive b)%nat;
  wk_scan : forall k, be_scan b k = false;
  wk_take : forall k e, (ExportEvent (be_servers b k) x e).1 = true;
}.

Lemma working_rows b x rows : working b x -> forall k m0, (exportRows b x k m0 rows).1.2 = map al_id rows.
Proof.
  intros [_ _ _ Hscan Htake]. induction rows as [|r rows IH]; intros k m0; [done|]. cbn [exportRows map]. rewrite Hscan.
  specialize (Htake k (auditEntryOf r)). destruct (ExportEvent _ _ _) as [ok es]. cbn in Htake. subst ok. cbn [negb].
  specialize (IH (Datatypes.S k) (if (m0 <? al_id r)%Z then al_id r else m0)).
  destruct (exportRows _ _ _ _ rows) as [[m d] es']. cbn in *. by rewrite IH.
Qed.

Lemma working_set b x n : working b x -> working b (set_lastID n x).
Proof. intros [H1 H2 H3 H4 H5]. by split. Qed.

(** [n] batches of a log that does not change. *)
Fixpoint batches (b : batch_env) (log : list audit_row) (n : nat) (x : SIEMExporter) (c : option string) : SIEMExporter * option string * list Z :=
  match n with
  | O => (x, c, [])
  | Datatypes.S n => let '(x1, c1, done, _) := exportBatch b log x c in
                     let '(x2, c2, done') := batches b log n x1 c1 in (x2, c2, done ++ done')%list
  end.

Lemma sorted_ids_unique (p q : list audit_row) : StronglySorted (fun a b => al_id a <= al_id b) p ->
  StronglySorted (fun a b => al_id a <= al_id b) q -> NoDup (map al_id p) -> p ≡ₚ q -> p = q.
Proof.
  intros Hp. revert q. induction Hp as [|a p Hp IH Ha]; intros q Hq Hnd Hpq; [by apply Permutation_nil in Hpq as ->|].
  destruct Hq as [|b q Hq Hb]; [by symmetry in Hpq; apply Permutation_nil in Hpq|].
  assert (a = b) as <-.
  { assert (b ∈ a :: p) as Hbin by (rewrite Hpq; apply list_elem_of_here).
    assert (a ∈ b :: q) as Hain by (rewrite <- Hpq; apply list_elem_of_here).
    apply elem_of_cons in Hbin as [->|Hbin]; [done|]. apply elem_of_cons in Hain as [->|Hain]; [done|].
    rewrite Forall_forall in Ha, Hb. specialize (Ha b Hbin). specialize (Hb a Hain). cbn in Ha, Hb.
    apply NoDup_cons in Hnd as [Hnin _]. exfalso. apply Hnin. replace (al_id a) with (al_id b) by lia. by apply list_elem_of_fmap_2. }
  f_equal. apply IH; [done|by apply NoDup_cons in Hnd as [_ ?]|by apply Permutation_cons_inv in Hpq].
Qed.

Lemma filter_perm {A} (f : A -> bool) l l' : l ≡ₚ l' -> List.filter f l ≡ₚ List.filter f l'.
Proof.
  induction 1 as [|x l l' Hl IH|x y l|l l' l'' _ IH _ IH']; cbn; [done| | |by etrans].
  - destruct (f x); [by constructor|done].
  - destruct (f x), (f y); try done. constructor.
Qed.

Lemma filter_twice last m (l : list audit_row) : last <= m ->
  List.filter (fun y => m <? al_id y)%Z (List.filter (fun y => last <? al_id y)%Z l) = List.filter (fun y => m <? al_id y)%Z l.
Proof.
  intros Hle. induction l as [|y l IH]; cbn; [done|]. destruct (Z.ltb_spec last (al_id y)); cbn; rewrite IH; [done|].
  by destruct (Z.ltb_spec m (al_id y)); [lia|].
Qed.

(** The records above the last of a prefix are the others. *)
Lemma pending_rest last log n r : NoDup (map al_id log) -> Forall (fun y => al_id y <= al_id r) (take n (pending last log)) ->
  r ∈ take n (pending last log) -> pending (al_id r) log = drop n (pending last log).
Proof.
  intros Hnd Hmax Hr. set (p := pending last log) in *.
  assert (NoDup (map al_id p)) as Hndp.
  { unfold p, pending. change (map al_id ?l) with (al_id <$> l). rewrite sort_by_perm.
    clear -Hnd. induction log as [|y log IH]; cbn; [constructor|]. apply NoDup_cons in Hnd as [Hy Hnd].
    destruct (last <? al_id y)%Z; cbn; [|auto]. constructor; [|auto]. intros Hin. apply Hy.
    apply list_elem_of_fmap in Hin as (z & Hz & Hin). apply list_elem_of_In, filter_In in Hin as [Hin _].
    rewrite Hz. apply list_elem_of_fmap_2. by apply list_elem_of_In. }
  pose proof (sort_by_sorted al_id (List.filter (fun r => last <? al_id r)%Z log)) as Hs. fold (pending last log) p in Hs.
  assert (Forall (fun y => al_id r < al_id y) (drop n p)) as Hrest.
  { apply Forall_forall. intros y Hy. rewrite <- (take_drop n p) in Hs, Hndp. pose proof (StronglySorted_app_1_elem_of _ _ _ _ _ Hs Hr Hy) as Hle.
    cbn in Hle. change (map al_id ?l) with (al_id <$> l) in Hndp. rewrite fmap_app in Hndp. apply NoDup_app in Hndp as (_ & Hdis & _).
    specialize (Hdis (al_id r) (list_elem_of_fmap_2 _ _ _ Hr)). assert (al_id r <> al_id y); [|lia].
    intros E. apply Hdis. rewrite E. by apply list_elem_of_fmap_2. }
  symmetry. apply sorted_ids_unique.
  - rewrite <- (take_drop n p) in Hs. by apply StronglySorted_app_1_r in Hs.
  - apply sort_by_sorted.
  - rewrite <- (take_drop n p) in Hndp. change (map al_id ?l) with (al_id <$> l) in Hndp. rewrite fmap_app in Hndp.
    by apply NoDup_app in Hndp as (_ & _ & ?).
  - unfold pending at 1. rewrite sort_by_perm.
    assert (forall l, Forall (fun y => al_id y <= al_id r) l -> List.filter (fun y => al_id r <? al_id y)%Z l = []) as Hnone.
    { induction 1 as [|y l Hy Hl IHl]; cbn; [done|]. by rewrite (proj2 (Z.ltb_ge _ _)). }
    assert (forall l, Forall (fun y => al_id r < al_id y) l -> List.filter (fun y => al_id r <? al_id y)%Z l = l) as Hall.
    { induction 1 as [|y l Hy Hl IHl]; cbn; [done|]. by rewrite (proj2 (Z.ltb_lt _ _)), IHl. }
    assert (last < al_id r) as Hgt.
    { assert (r ∈ p) as [_ ?]%pending_spec; [|done]. rewrite <- (take_drop n p). apply elem_of_app. by left. }
    rewrite <- (Hall (drop n p)) by done. rewrite <- (app_nil_l (List.filter _ (drop n p))), <- (Hnone (take n p)) by done.
    rewrite <- List.filter_app, take_drop. unfold p, pending. rewrite (filter_perm _ _ _ (sort_by_perm al_id _)).
    by rewrite filter_twice by lia.
Qed.

Lemma foldl_max_ge (l : list Z) : forall m0, m0 <= foldl Z.max m0 l /\ Forall (fun z => z <= foldl Z.max m0 l) l.
Proof.
  induction l as [|z l IH]; intros m0; cbn [foldl]; [split; [lia|constructor]|].
  destruct (IH (Z.max m0 z)) as [Hm Hall]. split; [lia|]. constructor; [lia|done].
Qed.

Lemma working_exports b x rows : working b x ->
  exists es, exportRows b x 0 0 rows = (foldl Z.max 0 (map al_id rows), map al_id rows, es).
Proof.
  intros Hw. destruct (exportRows_prefix b x rows 0 0) as (n & es & Hn). cbv zeta in Hn.
  pose proof (working_rows b x rows Hw 0 0) as Hr. rewrite Hn in Hr. cbn in Hr. exists es. by rewrite Hn, Hr.
Qed.

Lemma working_batch b log x c : working b x -> NoDup (map al_id log) -> Forall (fun r => 0 < al_id r) log ->
  let '(x', _, done, _) := exportBatch b log x c in
  done = map al_id (take batchSize (pending (lastID x) log)) /\ working b x' /\
  pending (lastID x') log = drop batchSize (pending (lastID x) log).
Proof.
  intros Hw Hnd Hpos. unfold exportBatch. rewrite (wk_target b x Hw), (wk_query b x Hw). set (p := pending (lastID x) log) in *.
  rewrite (take_ge (take batchSize p) (be_arrive b)) by (rewrite length_take; pose proof (wk_arrive b x Hw); lia).
  destruct (working_exports b x (take batchSize p) Hw) as [es ->]. cbv beta iota.
  destruct (take batchSize p) as [|r0 l] eqn:E.
  { assert (p = []) as Hp by (destruct p; [done|by unfold batchSize in E]). cbn. rewrite Hp. by rewrite drop_nil. }
  rewrite <- E. destruct (foldl_max_ge (map al_id (take batchSize p)) 0) as [_ Hge].
  assert (exists r, r ∈ take batchSize p /\ al_id r = foldl Z.max 0 (map al_id (take batchSize p)) /\ 0 < al_id r) as (r & Hr & Hm & Hp).
  { assert (r0 ∈ take batchSize p) as Hr0 by (rewrite E; apply list_elem_of_here).
    assert (r0 ∈ p) as [Hin0 _]%pending_spec by (rewrite <- (take_drop batchSize p); apply elem_of_app; by left).
    rewrite Forall_forall in Hpos. rewrite Forall_forall in Hge. specialize (Hpos r0 Hin0). specialize (Hge _ (list_elem_of_fmap_2 al_id _ _ Hr0)). cbv beta in Hpos, Hge.
    destruct (foldl_max_in (map al_id (take batchSize p)) 0) as [E0|Hin]; [lia|].
    apply list_elem_of_fmap in Hin as (r & Hr & Hin). exists r. rewrite <- Hr. split_and!; [done|done|lia]. }
  rewrite (proj2 (Z.ltb_lt _ _)) by lia. split; [done|]. split; [by apply working_set|]. cbn [lastID set_lastID]. rewrite <- Hm.
  apply pending_rest; [done| |done]. rewrite Forall_forall in Hge. apply Forall_forall. intros y Hy. rewrite Hm. by apply Hge, list_elem_of_fmap_2.
Qed.

(** Servers that take everything get everything, once and in order: after
    one batch for each 500 records that remain, the numbers exported are those
    of the records above the cursor, ascending, and nothing is left. *)
Theorem export_completes b log x c n (Hw : working b x) (Hnd : NoDup (map al_id log)) (Hpos : Forall (fun r => 0 < al_id r) log)
  (Hn : (length (pending (lastID x) log) <= n * batchSize)%nat) :
  let '(x', _, done) := batches b log n x c in done = map al_id (pending (lastID x) log) /\ pending (lastID x') log = [].
Proof.
  revert x c Hw Hn. induction n as [|n IH]; intros x c Hw Hn; cbn [batches].
  - assert (pending (lastID x) log = []) as Hp by (apply nil_length_inv; lia). by rewrite Hp.
  - pose proof (working_batch b log x c Hw Hnd Hpos) as Hb. destruct (exportBatch b log x c) as [[[x1 c1] done] es].
    destruct Hb as (-> & Hw1 & Hp1). specialize (IH x1 c1 Hw1). rewrite Hp1, length_drop in IH.
    destruct (batches b log n x1 c1) as [[x2 c2] done']. destruct IH as [-> Hend]; [lia|]. split; [|done].
    by rewrite <- map_app, take_drop.
Qed.
End exporter.

(** ** Runs *)

#[local] Instance toy_siem : SiemLib := {|
  marshalEntry := fun e => Some (ae_Action e); marshalDetails := fun _ => None; requestable := fun _ => true |}.

Definition siem_row (n : Z) : audit_row := {|
  al_id := n; al_timestamp := n; al_user := None; al_action := "POST /api/v1/x"; al_resource := "/api/v1/x"; al_details := None;
  al_ip := None; al_agent := None |}.

Definition up : servers := {| sv_http := [{| h_dial := None; h_lookup := fun _ => None; h_result := Answer 200 None |}]; sv_udp := UdpSent |}.
Definition down : servers := {| sv_http := [{| h_dial := None; h_lookup := fun _ => None; h_result := Answer 503 None |}]; sv_udp := UdpSent |}.

Definition batch0 : batch_env := {| be_query := false; be_arrive := 500; be_scan := fun _ => false; be_servers := fun _ => up; be_save := false |}.

(** The second event of the batch is refused. *)
Definition batch1 : batch_env := {| be_query := false; be_arrive := 500; be_scan := fun _ => false;
  be_servers := fun k => if (k =? 1)%nat then down else up; be_save := false |}.

Definition exporter0 : SIEMExporter := Configure "https://siem.example" "10.0.0.1:514" NewSIEMExporter.


Lemma batch0_working : working batch0 exporter0.
Proof. by split. Qed.

Lemma export_completes_witness :
  let '(x', _, done) := batches batch0 [siem_row 3; siem_row 1] 1 exporter0 None in done = [1; 3] /\ pending (lastID x') [siem_row 3; siem_row 1] = [].
Proof.
  pose proof (export_completes batch0 [siem_row 3; siem_row 1] exporter0 None 1 batch0_working) as He.
  destruct (batches batch0 [siem_row 3; siem_row 1] 1 exporter0 None) as [[x' c] done].
  apply He; [apply (bool_decide_unpack _); vm_compute; exact I|repeat constructor|vm_compute; lia].
Defined.

(** ** Where the code falls short *)

(** A record that becomes visible after one with a higher number has been
    exported stays below the cursor: no batch exports it. *)
Lemma late_record_skipped b log x c : Forall (fun r => al_id r <= lastID x) log ->
  (exportBatch b log x c).1.2 = [].
Proof.
  intros Hlog. assert (pending (lastID x) log = []) as Hp.
  { destruct (pending (lastID x) log) as [|r l] eqn:E; [done|].
    assert (r ∈ pending (lastID x) log) as [Hr Hgt]%pending_spec by (rewrite E; apply list_elem_of_here).
    rewrite Forall_forall in Hlog. specialize (Hlog r Hr). cbn in Hlog. lia. }
  unfold exportBatch. destruct (_ && _); [done|]. destruct (be_query b); [done|]. by rewrite Hp, !take_nil.
Qed.

Example late_record : let x := set_lastID 6 exporter0 in (exportBatch batch0 [siem_row 6; siem_row 5] x None).1.2 = [].
Proof. apply late_record_skipped. by repeat constructor. Qed.

(** A server that refuses one event for good stops the export to the other. *)
Example one_server_down : let x := exporter0 in
  let b := {| be_query := false; be_arrive := 500; be_scan := fun _ => false; be_servers := fun _ => down; be_save := false |} in
  (exportBatch b [siem_row 1; siem_row 2] x None).1.2 = [] /\
  map (fun e => match e with Datagram a _ => a | Hook _ => "" end) (exportBatch b [siem_row 1; siem_row 2] x None).2 = [""; "10.0.0.1:514"].
Proof. split; reflexivity. Qed.
