(* ===== verification/Mail.v ===== *)
(** * Mail

    [internal/mail/mailer.go] and the endpoint that sends a test message
    ([internal/core/handler/mail.go]).  The SMTP server is a parameter: which
    step of the conversation fails.  The HTML templates are a parameter too
    (Go's [html/template]); what is modelled is the message around them. *)

From S2P Require Import Prelude Net Auth Http.
From Stdlib Require Import ZArith Lia Ascii String.
From stdpp Require Import base strings list.
Import Token Middleware.

Local Open Scope Z_scope.
Local Open Scope string_scope.
Local Open Scope outpost_scope.

Definition cr : ascii := ascii_of_nat 13.
Definition lf : ascii := ascii_of_nat 10.
Definition crlf : string := String cr (String lf "").

(** The configuration of the mailer. *)
Record Config := {
  SMTPHost : string; SMTPPort : Z; FromAddress : string; FromName : string; SMTPUsername : string; SMTPPassword : string; UseTLS : bool;
}.

Definition fromHeader (c : Config) : string :=
  if String.eqb (FromName c) "" then FromAddress c else FromName c ++ " <" ++ FromAddress c ++ ">".

Definition headers (c : Config) (to subject : string) : string :=
  strings_join crlf ["From: " ++ fromHeader c; "To: " ++ to; "Subject: " ++ subject; "MIME-Version: 1.0"; "Content-Type: text/html; charset=UTF-8"].

Definition mimeMessage (c : Config) (to subject htmlBody : string) : string := headers c to subject ++ crlf ++ crlf ++ htmlBody.

(** What the server is handed: the envelope and the message. *)
Record submission := { sb_addr : string; sb_auth : option (string * string); sb_from : string; sb_to : string; sb_data : string }.

(** [net/smtp] refuses an address with a line break before it is sent. *)
Definition validateLine (s : string) : bool := no_char cr s && no_char lf s.

(** The steps of the conversation that fail; a message is the server's once its
    data is closed. *)
Record smtp_faults := {
  sf_dial : bool; sf_client : bool; sf_auth : bool; sf_mail : bool; sf_rcpt : bool; sf_data : bool; sf_write : bool; sf_close : bool; sf_quit : bool;
}.

(** [true] is a nil error; with it, what the server took. *)
Definition conversation (f : smtp_faults) (m : submission) : bool * list submission :=
  if sf_mail f || negb (validateLine (sb_from m)) || sf_rcpt f || negb (validateLine (sb_to m)) || sf_data f || sf_write f || sf_close f
  then (false, [])
  else (negb (sf_quit f), [m]).

Definition sendTLS (f : smtp_faults) (m : submission) : bool * list submission :=
  if sf_dial f then (false, []) else if sf_client f then (false, [])
  else if match sb_auth m with Some _ => sf_auth f | None => false end then (false, [])
  else conversation f m.

(** [smtp.SendMail]: the addresses are checked before the server is dialled. *)
Definition SendMail (f : smtp_faults) (m : submission) : bool * list submission :=
  if negb (validateLine (sb_from m)) || negb (validateLine (sb_to m)) then (false, [])
  else sendTLS f m.

Definition Send (c : Config) (f : smtp_faults) (to subject htmlBody : string) : bool * list submission :=
  let m := {| sb_addr := JoinHostPort (SMTPHost c) (itoa (SMTPPort c));
              sb_auth := if String.eqb (SMTPUsername c) "" then None else Some (SMTPUsername c, SMTPPassword c);
              sb_from := FromAddress c; sb_to := to; sb_data := mimeMessage c to subject htmlBody |} in
  if UseTLS c then sendTLS f m else SendMail f m.

(** *** The messages *)

(** [renderTemplate], by the name of the template: [None] is an error. *)
Class Templates : Type := { render : string -> list (string * string) -> option string }.

Definition rendered `{Templates} (c : Config) (f : smtp_faults) (name : string) (data : list (string * string)) (to subject : string)
    : bool * list submission :=
  match render name data with None => (false, []) | Some body => Send c f to subject body end.

(** The dash of the subjects, in UTF-8. *)
Definition em_dash : string := String (ascii_of_nat 226) (String (ascii_of_nat 128) (String (ascii_of_nat 148) "")).

Definition SendMFACode `{Templates} c f (to code : string) :=
  rendered c f "mfa" [("Code", code)] to ("Your verification code " ++ em_dash ++ " Outpost VPN").

Definition SendEnrollmentInvite `{Templates} c f (to enrollURL instanceName : string) :=
  rendered c f "enroll" [("EnrollURL", enrollURL); ("InstanceName", instanceName)] to ("Device enrollment invitation " ++ em_dash ++ " " ++ instanceName).

Definition SendPasswordReset `{Templates} c f (to resetURL : string) :=
  rendered c f "reset" [("ResetURL", resetURL)] to ("Password reset " ++ em_dash ++ " Outpost VPN").

Definition SendWelcome `{Templates} c f (to username instanceName : string) :=
  rendered c f "welcome" [("Username", username); ("InstanceName", instanceName)] to ("Welcome to " ++ instanceName).

Definition SendDeviceConfig `{Templates} c f (to deviceName configText : string) :=
  rendered c f "device_config" [("DeviceName", deviceName); ("Config", configText)] to
    ("WireGuard configuration for " ++ deviceName ++ " " ++ em_dash ++ " Outpost VPN").

(** ** Reading a message *)

(** A line, up to its line break. *)
Fixpoint readLine (s : string) : option (string * string) :=
  match s with
  | EmptyString => None
  | String a t =>
      match (if Ascii.eqb a cr then match t with String b r => if Ascii.eqb b lf then Some r else None | EmptyString => None end else None) with
      | Some r => Some ("", r)
      | None => prod_map (String a) id <$> readLine t
      end
  end.

Fixpoint readName (s : string) : option (string * string) :=
  match s with
  | EmptyString => None
  | String a t =>
      match (if Ascii.eqb a ":" then match t with String b r => if Ascii.eqb b " " then Some r else None | EmptyString => None end else None) with
      | Some r => Some ("", r)
      | None => prod_map (String a) id <$> readName t
      end
  end.

(** Fields up to the empty line, and the body; the fuel bounds the lines. *)
Fixpoint readFields (fuel : nat) (s : string) : option (list (string * string) * string) :=
  match fuel with
  | O => None
  | Datatypes.S fuel =>
      '(line, s) ← readLine s;
      if String.eqb line "" then Some ([], s)
      else field ← readName line; '(fields, body) ← readFields fuel s; Some (field :: fields, body)
  end.

Definition readMessage (s : string) : option (list (string * string) * string) := readFields (String.length s) s.

Lemma readLine_app l s : validateLine l = true -> readLine (l ++ crlf ++ s) = Some (l, s).
Proof.
  unfold validateLine. induction l as [|a l IH]; intros Hl; [done|]. cbn [no_char] in Hl.
  rewrite !andb_true_iff, !negb_true_iff in Hl. destruct Hl as [[Ha Hl] [_ Hl']]. rewrite append_cons. cbn [readLine]. rewrite Ha.
  rewrite IH; [done|]. by rewrite Hl, Hl'.
Qed.

Lemma readFields_header fuel name value s : validateLine value = true ->
  (forall t, readName (name ++ ": " ++ t) = Some (name, t)) -> validateLine name = true -> name <> "" ->
  readFields (Datatypes.S fuel) ((name ++ ": " ++ value) ++ crlf ++ s) = '(fields, body) ← readFields fuel s; Some ((name, value) :: fields, body).
Proof.
  intros Hv Hn Hnl Hne. cbn [readFields]. rewrite readLine_app.
  - cbn [mbind option_bind]. rewrite Hn. by destruct name.
  - unfold validateLine in *. rewrite !no_char_app. apply andb_true_iff in Hnl as [-> ->], Hv as [-> ->]. done.
Qed.

(** A message has the fields it is meant to have and no others: when the
    name and address of the sender, the recipient and the subject are each one
    line, the message is read back as the five fields and the body. *)
Theorem message_roundtrip c to subject body (Hf : validateLine (fromHeader c) = true) (Ht : validateLine to = true)
  (Hs : validateLine subject = true) :
  readMessage (mimeMessage c to subject body) =
    Some ([("From", fromHeader c); ("To", to); ("Subject", subject); ("MIME-Version", "1.0"); ("Content-Type", "text/html; charset=UTF-8")], body).
Proof.
  unfold readMessage.
  assert (mimeMessage c to subject body = ("From" ++ ": " ++ fromHeader c) ++ crlf ++ ("To" ++ ": " ++ to) ++ crlf ++
    ("Subject" ++ ": " ++ subject) ++ crlf ++ ("MIME-Version" ++ ": " ++ "1.0") ++ crlf ++
    ("Content-Type" ++ ": " ++ "text/html; charset=UTF-8") ++ crlf ++ crlf ++ body) as E.
  { unfold mimeMessage, headers. cbn [strings_join]. rewrite <- !string_app_assoc. reflexivity. }
  assert (exists k, String.length (mimeMessage c to subject body) = (6 + k)%nat) as [k ->].
  { rewrite E. eexists. rewrite <- !string_app_assoc. reflexivity. }
  rewrite E. cbn [Nat.add]. rewrite !readFields_header by done. reflexivity.
Qed.

(** What the server takes is addressed to one line: a recipient with a line
    break is refused, whichever way the message is sent. *)
Lemma taken_valid c f to subject body m : m ∈ (Send c f to subject body).2 ->
  validateLine to = true /\ validateLine (FromAddress c) = true /\ sb_to m = to /\ sb_data m = mimeMessage c to subject body.
Proof.
  unfold Send. set (m0 := {| sb_to := to |}).
  assert (forall l, m ∈ (conversation f m0).2 -> l = m -> validateLine to = true /\ validateLine (FromAddress c) = true /\ m = m0) as Hc.
  { intros l. unfold conversation. cbn [sb_from sb_to m0]. destruct (validateLine (FromAddress c)); [|by rewrite !orb_true_r; intros Hin%elem_of_nil].
    destruct (validateLine to); [|rewrite !orb_true_r; cbn; by intros Hin%elem_of_nil].
    destruct (_ || _); intros Hin Hl; [by apply elem_of_nil in Hin|]. by apply list_elem_of_singleton in Hin. }
  assert (m ∈ (sendTLS f m0).2 -> validateLine to = true /\ validateLine (FromAddress c) = true /\ m = m0) as Ht.
  { unfold sendTLS. destruct (sf_dial f); [by intros Hin%elem_of_nil|]. destruct (sf_client f); [by intros Hin%elem_of_nil|].
    destruct (match sb_auth m0 with Some _ => _ | None => _ end); [by intros Hin%elem_of_nil|]. intros Hin. by apply (Hc m). }
  intros Hin. assert (m ∈ (sendTLS f m0).2) as (H1 & H2 & ->)%Ht; [|done].
  destruct (UseTLS c); [done|]. unfold SendMail in Hin. destruct (_ || _); [by apply elem_of_nil in Hin|done].
Qed.

(** ** The endpoint *)

Definition testSubject : string := "Outpost VPN - SMTP Test".
Definition testBody : string :=
  "<h1>SMTP Configuration Test</h1><p>If you are reading this, your SMTP settings are working correctly.</p>".

(** [mailer]: the configuration, if mail is configured; [body]: the recipient. *)
Definition testSMTP {S : Type} (mailer : option Config) (f : smtp_faults) (body : option string) : H S submission (Z * string) :=
  let! c := the mailer 400 "SMTP is not configured" in
  let! to := the body 400 "invalid JSON" in
  do! require (negb (String.eqb to "")) 400 "to (email address) is required" in
  let '(ok, sent) := Send c f to testSubject testBody in
  do! emit (fun _ => sent) in
  do! require ok 500 "failed to send test email" in
  respondJSON 200 "sent".

Definition mail_serve {S : Type} (mailer : option Config) (f : smtp_faults) (claims : option TokenClaims) (body : option string)
    : H S submission (Z * string) :=
  match RequireAdmin claims with Reject st m => respondError st m | Next _ => testSMTP mailer f body end.

(** ** Runs *)

Definition mail_config : Config := {| SMTPHost := "mail.example"; SMTPPort := 465; FromAddress := "vpn@example"; FromName := "Outpost";
  SMTPUsername := ""; SMTPPassword := ""; UseTLS := true |}.

Definition no_faults : smtp_faults := {| sf_dial := false; sf_client := false; sf_auth := false; sf_mail := false; sf_rcpt := false;
  sf_data := false; sf_write := false; sf_close := false; sf_quit := false |}.

Lemma message_roundtrip_witness : readMessage (mimeMessage mail_config "ann@example" testSubject testBody) =
  Some ([("From", "Outpost <vpn@example>"); ("To", "ann@example"); ("Subject", testSubject); ("MIME-Version", "1.0");
         ("Content-Type", "text/html; charset=UTF-8")], testBody).
Proof. apply (message_roundtrip mail_config "ann@example" testSubject testBody); reflexivity. Defined.

(** ** Where the code falls short *)

(** The subject of a configuration holds the name of the device, which its owner
    chooses: a name with line breaks adds fields to the message, or ends them. *)
#[local] Instance toy_templates : Templates := {| render := fun _ _ => Some "<p>body</p>" |}.

Example device_name_injects :
  map (fun m => readMessage (sb_data m))
    (SendDeviceConfig mail_config no_faults "ann@example" ("pc" ++ crlf ++ "Reply-To: eve@example" ++ crlf ++ crlf ++ "<p>call me</p>") "").2 =
  [Some ([("From", "Outpost <vpn@example>"); ("To", "ann@example"); ("Subject", "WireGuard configuration for pc"); ("Reply-To", "eve@example")],
    "<p>call me</p> " ++ em_dash ++ " Outpost VPN" ++ crlf ++ "MIME-Version: 1.0" ++ crlf ++
    "Content-Type: text/html; charset=UTF-8" ++ crlf ++ crlf ++ "<p>body</p>")].
Proof. vm_compute. reflexivity. Qed.

(** A message the server has taken is reported as a failure when the farewell
    fails. *)
Example taken_but_failed : Send mail_config {| sf_dial := false; sf_client := false; sf_auth := false; sf_mail := false; sf_rcpt := false;
  sf_data := false; sf_write := false; sf_close := false; sf_quit := true |} "ann@example" "s" "b" =
  (false, [{| sb_addr := "mail.example:465"; sb_auth := None; sb_from := "vpn@example"; sb_to := "ann@example";
              sb_data := mimeMessage mail_config "ann@example" "s" "b" |}]).
Proof. reflexivity. Qed.
