(* ===== verification/Settings.v ===== *)
(** * Settings, dashboard, probes

    [internal/core/handler/settings.go], [dashboard.go] and [health.go].  A
    setting is a JSON value; [decoded] is what remains of a value that Go
    decodes into an [any] (numbers are floats), [jsonb] what the database makes
    of it, which may refuse it.  The endpoints are shown to implement a finite
    map of decoded values. *)

From S2P Require Import Prelude Schema Json Auth Policy Devices Http Tables Mail.
From S2P Require S2SAdmin.
From Stdlib Require Import ZArith Lia Ascii String.
From stdpp Require Import base gmap strings list.
Import Token Middleware.

Local Open Scope Z_scope.
Local Open Scope string_scope.
Local Open Scope outpost_scope.

(** What is read back from the database is what was decoded: [jsonb] keeps
    numbers and the last value of each key. *)
Class SettingsLib : Type := {
  decoded : json -> json;
  jsonb : json -> option json;
  storableKey : string -> bool;
  jsonb_decoded : forall v v', jsonb (decoded v) = Some v' -> decoded v' = decoded v;
}.

(** The tables the dashboard counts, and the settings with the times of their
    last updates. *)
Record settings_state := { ss_db : db; ss_settings : gmap string (json * Z) }.

Inductive settings_body :=
| SAll (m : gmap string json)
| SEntry (key : string) (value : json)
| SBatch (m : gmap string json)
| SSent
| SNoContent.

Inductive settings_request :=
| SGetAll
| SGet (key : string)
| SSet (key : string) (body : option json)
| SBatchSet (body : option (gmap string json))
| SDelete (key : string)
| STestSMTP (body : option string).

Section settings.
Context `{SettingsLib} `{GoRange}.
Let T (X : Type) := H settings_state submission X.

Definition upsertSetting (now : Z) (key : string) (v : json) : stmt settings_state unit := fun s =>
  if storableKey key then
    match jsonb v with
    | Some v => inl (tt, {| ss_db := ss_db s; ss_settings := <[key := (v, now)]> (ss_settings s) |})
    | None => inr ErrOther
    end
  else inr ErrOther.

Definition deleteSetting (key : string) : stmt settings_state nat := fun s =>
  if storableKey key then
    match ss_settings s !! key with
    | Some _ => inl (1%nat, {| ss_db := ss_db s; ss_settings := delete key (ss_settings s) |})
    | None => inl (0%nat, s)
    end
  else inr ErrOther.

(** What the settings say, for Go. *)
Definition valuesOf (s : settings_state) : gmap string json := (fun e => decoded e.1) <$> ss_settings s.

(** [f i]: the i-th statement fails, or the scan or the iteration of its rows. *)
Definition getAll (f : nat -> bool) : T (Z * settings_body) :=
  let! m := query (f 0%nat) valuesOf 500 "failed to query settings" in
  do! require (bool_decide (m = ∅) || negb (f 1%nat)) 500 "failed to scan setting" in
  do! require (negb (f 2%nat)) 500 "failed to iterate settings" in
  respondJSON 200 (SAll m).

Definition getSetting (f : nat -> bool) (key : string) : T (Z * settings_body) :=
  let! found := query (f 0%nat || negb (storableKey key)) (fun s => valuesOf s !! key) 500 "failed to fetch setting" in
  let! v := the found 404 "setting not found" in
  respondJSON 200 (SEntry key v).

(** [body]: the field [value] of the body, [null] when it has none. *)
Definition setSetting (f : nat -> bool) (now : Z) (key : string) (body : option json) : T (Z * settings_body) :=
  let! v := the body 400 "invalid JSON" in
  do! exec (f 0%nat) (upsertSetting now key (decoded v)) (fun _ => (500, "failed to save setting")) in
  respondJSON 200 (SEntry key (decoded v)).

(** The loop over the map is in an order of its own; [f k] is asked for the
    statement on key [k], after the begin of the transaction and before its
    commit. *)
Definition batchSet (begins commits : bool) (f : string -> bool) (now : Z) (body : option (gmap string json)) : T (Z * settings_body) :=
  let! m := the body 400 "invalid JSON" in
  do! require (negb (bool_decide (m = ∅))) 400 "request body must be a non-empty JSON object" in
  do! require (negb begins) 500 "failed to begin transaction" in
  atomically (
    do! forM (range 46 m) (fun kv =>
      exec (f kv.1) (upsertSetting now kv.1 (decoded kv.2)) (fun _ => (500, "failed to save setting: " ++ kv.1))) in
    do! require (negb commits) 500 "failed to commit settings" in
    respondJSON 200 (SBatch (decoded <$> m))).

Definition removeSetting (f : nat -> bool) (key : string) : T (Z * settings_body) :=
  do! deleting (f 0%nat) (deleteSetting key) "failed to delete setting" "setting not found" in
  respondJSON 204 SNoContent.

(** The faults of one request. *)
Record settings_faults := { stf : nat -> bool; stf_begin : bool; stf_commit : bool; stf_key : string -> bool; stf_smtp : smtp_faults }.

Definition TestSMTP (mailer : option Config) (f : smtp_faults) (body : option string) : T (Z * settings_body) :=
  let! c := the mailer 400 "SMTP is not configured" in
  let! to := the body 400 "invalid JSON" in
  do! require (negb (String.eqb to "")) 400 "to (email address) is required" in
  let '(ok, sent) := Send c f to testSubject testBody in
  do! emit (fun _ => sent) in
  do! require ok 500 "failed to send test email" in
  respondJSON 200 SSent.

(** [Routes]: all for administrators. *)
Definition settings_serve (mailer : option Config) (f : settings_faults) (now : Z) (claims : option TokenClaims) (r : settings_request)
    : T (Z * settings_body) :=
  match RequireAdmin claims with
  | Reject st m => respondError st m
  | Next _ =>
      match r with
      | SGetAll => getAll (stf f)
      | SGet key => getSetting (stf f) key
      | SSet key body => setSetting (stf f) now key body
      | SBatchSet body => batchSet (stf_begin f) (stf_commit f) (stf_key f) now body
      | SDelete key => removeSetting (stf f) key
      | STestSMTP body => TestSMTP mailer (stf_smtp f) body
      end
  end.

(** ** A finite map *)

(** What an accepted request does to the map, and what it is answered. *)
Definition spec (r : settings_request) (m : gmap string json) : option (Z * settings_body * gmap string json) :=
  match r with
  | SGetAll => Some (200, SAll m, m)
  | SGet key => v ← m !! key; Some (200, SEntry key v, m)
  | SSet key body => v ← body; Some (200, SEntry key (decoded v), <[key := decoded v]> m)
  | SBatchSet body => b ← body; if bool_decide (b = ∅) then None else Some (200, SBatch (decoded <$> b), (decoded <$> b) ∪ m)
  | SDelete key => _ ← m !! key; Some (204, SNoContent, delete key m)
  | STestSMTP _ => Some (200, SSent, m)
  end.

Lemma upsertSetting_spec now key v s s' : upsertSetting now key (decoded v) s = inl (tt, s') ->
  ss_db s' = ss_db s /\ valuesOf s' = <[key := decoded v]> (valuesOf s).
Proof.
  unfold upsertSetting. destruct (storableKey key); [|done]. destruct (jsonb (decoded v)) as [v'|] eqn:Hv; [|done]. intros [= <-].
  split; [done|]. unfold valuesOf. cbn [ss_settings]. rewrite fmap_insert. cbn. by rewrite (jsonb_decoded v v' Hv).
Qed.

(** The loop of the batch, in any order of its keys. *)
Lemma batch_loop f now (l : list (string * json)) : forall s, NoDup l.*1 ->
  wp (E := submission) (forM l (fun kv => exec (f kv.1) (upsertSetting now kv.1 (decoded kv.2)) (fun _ => (500, "failed to save setting: " ++ kv.1))))
    (fun _ s' es => es = [] /\ ss_db s' = ss_db s /\ valuesOf s' = (decoded <$> list_to_map l) ∪ valuesOf s)
    (fun r _ es => es = [] /\ r.1 = 500) s.
Proof.
  induction l as [|[k v] l IH]; intros s Hnd; cbn [forM].
  - apply wp_ret. split_and!; [done|done|]. cbn. by rewrite fmap_empty, (left_id_L ∅ (∪)).
  - apply NoDup_cons in Hnd as [Hk Hnd]. apply wp_bind, wp_exec. cbn [fst snd]. destruct (f k); [done|].
    destruct (upsertSetting now k (decoded v) s) as [[[] s1]|e] eqn:Hu; [|done]. apply upsertSetting_spec in Hu as [Hd Hv].
    eapply wp_mono; [| |apply (IH s1 Hnd)].
    + intros [] s' es (-> & Hd' & Hv'). split_and!; [done|congruence|]. rewrite Hv', Hv. cbn [list_to_map foldr].
      rewrite fmap_insert, <- insert_union_l, insert_union_r; [done|].
      rewrite lookup_fmap, (not_elem_of_list_to_map_1 l k) by done. done.
    + intros r s' es [-> Hr]. done.
Qed.

(** C35. The endpoints are a finite map from keys to values: each accepted
    request answers and changes the settings as the map does, a batch sets all
    of its keys whatever the order of its loop, and a request that is refused,
    or fails at any statement, changes nothing. *)
Theorem settings_refine_map mailer f now claims r s : 
  let '(reply, s', _) := run (settings_serve mailer f now claims r) s in
  match reply with
  | Reply st b => (exists c, claims = Some c /\ IsAdmin c = true) /\ ss_db s' = ss_db s /\ spec r (valuesOf s) = Some (st, b, valuesOf s')
  | Failure _ _ => s' = s
  end.
Proof.
  destruct (run _ s) as [[reply s'] es] eqn:Hrun. pattern reply, s', es. eapply (run_wp _ _ _ _ _ _ Hrun). clear Hrun reply s' es. cbv beta. unfold settings_serve.
  destruct (RequireAdmin claims) as [st m|c] eqn:Ha; [done|].
  assert (exists c, claims = Some c /\ IsAdmin c = true) as Hc.
  { unfold RequireAdmin in Ha. destruct claims as [c'|]; [|done]. exists c'. by destruct (IsAdmin c'). }
  destruct r as [|key|key body|body|key|body].
  - unfold getAll. apply wp_bind, wp_query. destruct (stf f 0%nat); [done|]. apply wp_bind, wp_require. destruct (_ || _); [|done].
    apply wp_bind, wp_require. by destruct (negb _).
  - unfold getSetting. apply wp_bind, wp_query. destruct (_ || _); [done|]. apply wp_bind, wp_the.
    destruct (valuesOf s !! key) as [v|] eqn:Hv; [|done]. cbn. by rewrite Hv.
  - unfold setSetting. apply wp_bind, wp_the. destruct body as [v|]; [|done]. apply wp_bind, wp_exec. destruct (stf f 0%nat); [done|].
    destruct (upsertSetting now key (decoded v) s) as [[[] s1]|e] eqn:Hu; [|done]. apply upsertSetting_spec in Hu as [Hd Hv]. cbn. by rewrite Hv.
  - unfold batchSet. apply wp_bind, wp_the. destruct body as [b|]; [|done]. apply wp_bind, wp_require.
    destruct (bool_decide (b = ∅)) eqn:Hb; [done|]. cbn [negb]. apply wp_bind, wp_require. destruct (stf_begin f); [done|]. cbn [negb].
    apply wp_atomically, wp_bind. assert (NoDup (range 46 b).*1) as Hnd by (rewrite range_perm; apply NoDup_fst_map_to_list).
    eapply wp_mono; [| |apply (batch_loop (stf_key f) now (range 46 b) s Hnd)]; [|done].
    intros [] s1 es1 (-> & Hd & Hv). apply wp_bind, wp_require. destruct (stf_commit f); [done|]. cbn. rewrite Hb. split_and!; [done|done|].
    rewrite Hv. do 3 f_equal. f_equal. apply list_to_map_flip. by rewrite range_perm.
  - unfold removeSetting. apply wp_bind. unfold deleting. apply wp_exec. destruct (stf f 0%nat); [done|]. unfold affected, deleteSetting.
    destruct (storableKey key); [|done]. destruct (ss_settings s !! key) as [e|] eqn:Hk; [|done]. cbn. unfold valuesOf. cbn [ss_settings].
    rewrite lookup_fmap, Hk. cbn. by rewrite fmap_delete.
  - unfold TestSMTP. apply wp_bind, wp_the. destruct mailer as [c'|]; [|done]. apply wp_bind, wp_the. destruct body as [to|]; [|done].
    apply wp_bind, wp_require. destruct (negb _); [|done]. destruct (Send _ _ _ _ _) as [ok sent]. apply wp_bind, wp_emit, wp_bind, wp_require.
    by destruct ok.
Qed.
End settings.

(** ** Dashboard and probes *)

Record dashboardStats := {
  ActiveUsers : Z; TotalUsers : Z; ActiveDevices : Z; TotalDevices : Z; ActiveGateways : Z; TotalGateways : Z; ActiveNetworks : Z; S2STunnels : Z;
}.

Definition countIf {A} (f : A -> bool) (l : list A) : Z := Z.of_nat (length (List.filter f l)).

Definition dashboard_stats {E} (fails : bool) : H S2SAdmin.store E (Z * dashboardStats) :=
  let! s := query fails (fun s => let d := S2SAdmin.base s in {|
    ActiveUsers := countIf u_is_active (users d); TotalUsers := Z.of_nat (length (users d));
    ActiveDevices := countIf d_is_approved (devices d); TotalDevices := Z.of_nat (length (devices d));
    ActiveGateways := countIf g_is_active (gateways d); TotalGateways := Z.of_nat (length (gateways d));
    ActiveNetworks := countIf n_is_active (networks d); S2STunnels := countIf S2SAdmin.tr_is_active (S2SAdmin.tunnels s) |}) 500 "failed to load dashboard stats" in
  respondJSON 200 s.

Definition Healthz {S E} : H S E (Z * string) := respondJSON 200 "ok".

(** [pool]: whether the database answers, if there is one. *)
Definition Readyz {S E} (pool : option bool) : H S E (Z * string) :=
  let! reachable := the pool 503 "database pool not configured" in
  do! require reachable 503 "database unreachable" in
  respondJSON 200 "ok".

(** ** Runs *)

Definition toy_decoded (v : json) : json := match v with JFloat l => JString l | _ => v end.

Lemma toy_law v v' : Some (toy_decoded v) = Some v' -> toy_decoded v' = toy_decoded v.
Proof. intros [= <-]. by destruct v. Qed.

#[local] Instance toy_settings : SettingsLib := {|
  decoded := toy_decoded; jsonb := Some; storableKey := no_char (ascii_of_nat 0); jsonb_decoded := toy_law |}.

Definition root : TokenClaims := {|
  UserID := "r"; Username := "r"; Email := ""; IsAdmin := true; Roles := []; TokenType := ""; ExpiresAt := None; IssuedAt := None |}.

Definition settings_run (r : settings_request) (s : settings_state) :=
  run (settings_serve (H1 := range_default) None {| stf := fun _ => false; stf_begin := false; stf_commit := false;
    stf_key := fun k => String.eqb k "bad"; stf_smtp := no_faults |} 7 (Some root) r) s.

Definition settings0 : settings_state := {| ss_db := demo_db; ss_settings := {["mfa.required" := (JBool false, 0)]} |}.

Example settings_ok :
  let after := (settings_run (SBatchSet (Some {["mfa.required" := JBool true; "general.locale" := JString "en"]})) settings0).1.2 in
  (settings_run (SGet "mfa.required") after).1.1 = Reply 200 (SEntry "mfa.required" (JBool true)) /\
  (settings_run (SBatchSet (Some {["a" := JNull; "bad" := JNull]})) after).1.2 = after /\
  (settings_run (SDelete "nope") after).1.1 = Failure 404 "setting not found".
Proof. split_and!; vm_compute; reflexivity. Qed.

Lemma settings_refine_map_witness :
  let '(reply, s', _) := settings_run (SSet "general.locale" (Some (JString "de"))) settings0 in
  reply = Reply 200 (SEntry "general.locale" (JString "de")) /\ valuesOf s' = <["general.locale" := JString "de"]> (valuesOf settings0).
Proof.
  pose proof (settings_refine_map (H1 := range_default) None {| stf := fun _ => false; stf_begin := false; stf_commit := false;
    stf_key := fun k => String.eqb k "bad"; stf_smtp := no_faults |} 7 (Some root) (SSet "general.locale" (Some (JString "de"))) settings0) as Hs.
  unfold settings_run. destruct (run _ settings0) as [[reply s'] es] eqn:Hr. destruct reply as [st b|st m].
  - destruct Hs as (_ & _ & Hs). injection Hs as <- <- Hv. split; [reflexivity|]. symmetry. exact Hv.
  - vm_compute in Hr. discriminate Hr.
Defined.
