(* ===== verification/Pki.v ===== *)
(** * Key rotation

    [internal/pki/manager.go]: the table of key pairs, the rotation of the keys
    of devices and gateways, and the job that rotates the keys that are about
    to expire.  Keys come from wgtypes: each rotation is given the private key
    it generates, or none when the generator fails.  Identifiers are those of
    the tables, in the form the database gives them. *)

From S2P Require Import Prelude Schema Policy Devices Http Tables ClientConfig.
From Stdlib Require Import ZArith Lia Ascii String.
From stdpp Require Import base strings list sorting.

Local Open Scope Z_scope.
Local Open Scope string_scope.
Local Open Scope outpost_scope.

Definition day_ns : Z := 24 * 3600 * 1000000000.
Definition DefaultKeyLifetime : Z := 90 * day_ns.

(** A row of [key_pairs]. *)
Record key_pair := {
  kp_id : string; kp_device : option string; kp_gateway : option string; kp_public : string; kp_created : Z; kp_expires : Z;
  kp_active : bool; kp_rotation : Z;
}.

(** What the operations return; a missing owner is the empty text. *)
Record KeyPair := {
  KID : string; KDeviceID : string; KGatewayID : string; KPublicKey : string; KCreatedAt : Z; KExpiresAt : Z; KIsActive : bool; KRotationID : Z;
}.

Definition pairOf (x : key_pair) : KeyPair := {|
  KID := kp_id x; KDeviceID := default "" (kp_device x); KGatewayID := default "" (kp_gateway x); KPublicKey := kp_public x;
  KCreatedAt := kp_created x; KExpiresAt := kp_expires x; KIsActive := kp_active x; KRotationID := kp_rotation x |}.

Record pki_state := { pk_db : db; key_pairs : list key_pair }.

(** One rotation: its clock, the identifier and the private key it draws, and
    the statements that fail. *)
Record rotation := { ro_now : Z; ro_id : string; ro_private : option string; ro_fails : nat -> bool }.

Definition deactivated (mine : key_pair -> bool) (x : key_pair) : key_pair :=
  if mine x && kp_active x then {|
    kp_id := kp_id x; kp_device := kp_device x; kp_gateway := kp_gateway x; kp_public := kp_public x; kp_created := kp_created x;
    kp_expires := kp_expires x; kp_active := false; kp_rotation := kp_rotation x |}
  else x.

(** [COALESCE(MAX(rotation_id), 0) + 1]. *)
Definition nextRotation (mine : key_pair -> bool) (l : list key_pair) : Z :=
  foldr Z.max 0 (map kp_rotation (List.filter mine l)) + 1.

Definition with_pubkey (key : string) (now : Z) (x : device) : device := {|
  d_id := d_id x; d_user_id := d_user_id x; d_name := d_name x; d_pubkey := key; d_privkey := d_privkey x; d_assigned_ip := d_assigned_ip x;
  d_is_approved := d_is_approved x; d_last_handshake := d_last_handshake x; d_network_id := d_network_id x; d_created_at := d_created_at x;
  d_updated_at := now |}.

Definition gateway_pubkey (key : string) (now : Z) (g : gateway) : gateway := {|
  g_id := g_id g; g_network_id := g_network_id g; g_name := g_name g; g_public_ip := g_public_ip g; g_pubkey := key; g_privkey := g_privkey g;
  g_endpoint := g_endpoint g; g_is_active := g_is_active g; g_priority := g_priority g; g_token_hash := g_token_hash g;
  g_last_seen := g_last_seen g; g_health_status := g_health_status g; g_consecutive_failures := g_consecutive_failures g;
  g_created_at := g_created_at g; g_updated_at := now |}.

(** [UPDATE ... SET wireguard_pubkey]: the column is unique. *)
Definition set_device_key (id key : string) (now : Z) (d : db) : option db :=
  if existsb (fun x => String.eqb (d_pubkey x) key && negb (String.eqb (d_id x) id)) (devices d) then None
  else Some (set_devices d (map (fun x => if String.eqb (d_id x) id then with_pubkey key now x else x) (devices d))).

Definition set_gateway_key (id key : string) (now : Z) (d : db) : option db :=
  if existsb (fun g => String.eqb (g_pubkey g) key && negb (String.eqb (g_id g) id)) (gateways d) then None
  else Some (set_gateways d (map (fun g => if String.eqb (g_id g) id then gateway_pubkey key now g else g) (gateways d))).

Section pki.
Context `{DeviceEnv} `{SqlOrder}.

(** What the two rotations have in common, inside one transaction: an early
    return leaves the tables as they are. *)
Definition rotate (r : rotation) (mine : key_pair -> bool) (exists_ : db -> bool) (owner : option string * option string) (updating : string)
    (update : string -> db -> option db) (s : pki_state) : result KeyPair * pki_state :=
  match ro_private r with
  | None => (Err "generate private key", s)
  | Some priv =>
      let pubKey := wgtypes_PublicKey priv in
      if ro_fails r 0%nat then (Err "begin tx", s) else
      let next := nextRotation mine (key_pairs s) in
      if ro_fails r 1%nat || (2147483647 <? next)%Z then (Err "get rotation id", s) else
      if ro_fails r 2%nat then (Err "deactivate old keys", s) else
      let kp := {| kp_id := ro_id r; kp_device := owner.1; kp_gateway := owner.2; kp_public := pubKey; kp_created := ro_now r;
                   kp_expires := ro_now r + DefaultKeyLifetime; kp_active := true; kp_rotation := next |} in
      if ro_fails r 3%nat || has kp_id (key_pairs s) (ro_id r) || negb (exists_ (pk_db s)) then (Err "insert key pair", s) else
      match (if ro_fails r 4%nat then None else update pubKey (pk_db s)) with
      | None => (Err updating, s)
      | Some d =>
          if ro_fails r 5%nat then (Err "commit tx", s) else
          (Ok (pairOf kp), {| pk_db := d; key_pairs := (map (deactivated mine) (key_pairs s) ++ [kp])%list |})
      end
  end.

Definition ofDevice (id : string) (x : key_pair) : bool := bool_decide (kp_device x = Some id).
Definition ofGateway (id : string) (x : key_pair) : bool := bool_decide (kp_gateway x = Some id).

Definition RotateDeviceKey (r : rotation) (deviceID : string) : pki_state -> result KeyPair * pki_state :=
  rotate r (ofDevice deviceID) (fun d => has d_id (devices d) deviceID) (Some deviceID, None) "update device pubkey"
    (fun key => set_device_key deviceID key (ro_now r)).

Definition RotateGatewayKey (r : rotation) (gatewayID : string) : pki_state -> result KeyPair * pki_state :=
  rotate r (ofGateway gatewayID) (fun d => has g_id (gateways d) gatewayID) (None, Some gatewayID) "update gateway pubkey"
    (fun key => set_gateway_key gatewayID key (ro_now r)).

(** [f]: the query, the scan of a row, the iteration. *)
Definition GetExpiring (f : nat -> bool) (now within : Z) (s : pki_state) : result (list KeyPair) :=
  let found := rows_by 47 kp_expires (List.filter (fun x => kp_active x && (kp_expires x <=? now + within)%Z) (key_pairs s)) in
  if f 0%nat then Err "query expiring keys"
  else if f 1%nat && negb (bool_decide (found = [])) then Err "scan key pair"
  else if f 2%nat then Err "iterate key pairs"
  else Ok (map pairOf found).

(** One key of the loop; each rotation has its own draws. *)
Definition rotateOne (rd rg : rotation) (kp : KeyPair) (s : pki_state) : option string * pki_state :=
  let '(e, s) := if String.eqb (KDeviceID kp) "" then (None, s)
                 else match RotateDeviceKey rd (KDeviceID kp) s with
                      | (Err m, s) => (Some ("rotate device key " ++ KDeviceID kp ++ ": " ++ m), s)
                      | (Ok _, s) => (None, s)
                      end in
  match e with
  | Some m => (Some m, s)
  | None => if String.eqb (KGatewayID kp) "" then (None, s)
            else match RotateGatewayKey rg (KGatewayID kp) s with
                 | (Err m, s) => (Some ("rotate gateway key " ++ KGatewayID kp ++ ": " ++ m), s)
                 | (Ok _, s) => (None, s)
                 end
  end.

Fixpoint rotateAll (draws : nat -> rotation * rotation) (k : nat) (l : list KeyPair) (s : pki_state) : option string * pki_state :=
  match l with
  | [] => (None, s)
  | kp :: l => match rotateOne (draws k).1 (draws k).2 kp s with
               | (Some m, s) => (Some m, s)
               | (None, s) => rotateAll draws (Datatypes.S k) l s
               end
  end.

Definition AutoRotate (f : nat -> bool) (now : Z) (draws : nat -> rotation * rotation) (s : pki_state) : option string * pki_state :=
  match GetExpiring f now (7 * day_ns) s with
  | Err m => (Some ("get expiring keys: " ++ m), s)
  | Ok l => rotateAll draws 0 l s
  end.

(** ** One active key *)

Definition key_owner (x : key_pair) : option string * option string := (kp_device x, kp_gateway x).

Definition one_owner (o : option string * option string) : Prop := exists id, id <> "" /\ (o = (Some id, None) \/ o = (None, Some id)).

(** Each key has one owner, each owner at most one active key, and that is its
    latest. *)
Record pki_inv (s : pki_state) : Prop := {
  pi_ids : NoDup (map kp_id (key_pairs s));
  pi_owner : Forall (fun x => one_owner (key_owner x)) (key_pairs s);
  pi_active : forall x y, x ∈ key_pairs s -> y ∈ key_pairs s -> kp_active x = true -> kp_active y = true -> key_owner x = key_owner y -> x = y;
  pi_latest : forall x y, x ∈ key_pairs s -> y ∈ key_pairs s -> kp_active x = true -> key_owner y = key_owner x -> kp_rotation y <= kp_rotation x;
}.

Lemma deactivated_fields mine x : kp_id (deactivated mine x) = kp_id x /\ key_owner (deactivated mine x) = key_owner x /\
  kp_rotation (deactivated mine x) = kp_rotation x /\ kp_expires (deactivated mine x) = kp_expires x.
Proof. unfold deactivated. by destruct (mine x && kp_active x). Qed.

Lemma deactivated_active mine x : kp_active (deactivated mine x) = true -> mine x = false /\ deactivated mine x = x /\ kp_active x = true.
Proof. unfold deactivated. destruct (mine x) eqn:Hm, (kp_active x) eqn:Ha; cbn; rewrite ?Ha; done. Qed.

Lemma nextRotation_above mine l x : x ∈ l -> mine x = true -> kp_rotation x < nextRotation mine l.
Proof.
  intros Hx Hm. unfold nextRotation. assert (In x (List.filter mine l)) as Hin by (apply filter_In; split; [by apply list_elem_of_In|done]).
  induction (List.filter mine l) as [|y l' IH]; [done|]. cbn. destruct Hin as [->|Hin]; [lia|]. specialize (IH Hin). lia.
Qed.

Lemma rotate_inv r mine exists_ owner updating update s :
  (forall x, one_owner (key_owner x) -> mine x = true <-> key_owner x = owner) -> one_owner owner ->
  pki_inv s -> pki_inv (rotate r mine exists_ owner updating update s).2.
Proof.
  destruct owner as [od og]. intros Hmine Hown Hi. pose proof Hi as [Hids Howner Hact Hlast]. unfold rotate. destruct (ro_private r) as [priv|]; [|done].
  destruct (ro_fails r 0%nat); [done|]. destruct (_ || _); [done|]. destruct (ro_fails r 2%nat); [done|].
  destruct (ro_fails r 3%nat || has kp_id (key_pairs s) (ro_id r) || _) eqn:Hf; [done|].
  destruct (if ro_fails r 4%nat then None else _) as [d|]; [|done]. destruct (ro_fails r 5%nat); [done|]. cbn [snd].
  set (kp := {| kp_id := ro_id r |}). rewrite Forall_forall in Howner.
  assert (forall z, z ∈ (map (deactivated mine) (key_pairs s) ++ [kp])%list -> z = kp \/ exists x, x ∈ key_pairs s /\ z = deactivated mine x) as Hcase.
  { intros z [Hz|Hz]%elem_of_app; [right|left; by apply list_elem_of_singleton in Hz].
    change (map (deactivated mine) ?l) with (deactivated mine <$> l) in Hz. apply list_elem_of_fmap in Hz as (x & -> & Hx). by exists x. }
  split; cbn [key_pairs].
  - rewrite map_app, map_map. rewrite (map_ext _ kp_id) by (intros x; apply deactivated_fields). apply NoDup_app. split_and!; [done| |apply NoDup_singleton].
    intros k Hk Hin%list_elem_of_singleton. cbn in Hin. subst k. apply orb_false_iff in Hf as [[_ Hf]%orb_false_iff _].
    apply list_elem_of_fmap in Hk as (x & Hxk & Hx). unfold has in Hf. apply list_elem_of_In in Hx.
    pose proof (existsb_exists (fun y => String.eqb (kp_id y) (ro_id r)) (key_pairs s)) as [_ He]. rewrite He in Hf; [done|].
    exists x. split; [done|]. by apply String.eqb_eq.
  - apply Forall_forall. intros z [->|(x & Hx & ->)]%Hcase; [done|]. destruct (deactivated_fields mine x) as (_ & -> & _). by apply Howner.
  - intros x y [->|(x0 & Hx & ->)]%Hcase [->|(y0 & Hy & ->)]%Hcase Hax Hay Ho; [done| | |].
    + apply deactivated_active in Hay as (Hm & Ey & _). rewrite Ey in Ho. exfalso. rewrite (proj2 (Hmine y0 (Howner y0 Hy))) in Hm; [done|by symmetry].
    + apply deactivated_active in Hax as (Hm & Ex & _). rewrite Ex in Ho. exfalso. by rewrite (proj2 (Hmine x0 (Howner x0 Hx))) in Hm.
    + apply deactivated_active in Hax as (_ & Ex & Hax), Hay as (_ & Ey & Hay). rewrite Ex, Ey in *. by apply Hact.
  - intros x y [->|(x0 & Hx & ->)]%Hcase [->|(y0 & Hy & ->)]%Hcase Hax Ho; [lia| | |].
    + destruct (deactivated_fields mine y0) as (_ & E & -> & _). rewrite E in Ho. apply Z.lt_le_incl, nextRotation_above; [done|]. by apply Hmine; [apply Howner|].
    + apply deactivated_active in Hax as (Hm & Ex & _). rewrite Ex in Ho. exfalso. rewrite (proj2 (Hmine x0 (Howner x0 Hx))) in Hm; [done|by symmetry].
    + apply deactivated_active in Hax as (_ & Ex & Hax). rewrite Ex. destruct (deactivated_fields mine y0) as (_ & E & -> & _). rewrite E, Ex in Ho. by apply Hlast.
Qed.

Lemma ofDevice_owner id x : one_owner (key_owner x) -> ofDevice id x = true <-> key_owner x = (Some id, None).
Proof.
  intros (i & _ & Hi). unfold ofDevice. rewrite bool_decide_eq_true. unfold key_owner in *. destruct Hi as [Hi|Hi]; injection Hi as -> ->; split; naive_solver.
Qed.

Lemma ofGateway_owner id x : one_owner (key_owner x) -> ofGateway id x = true <-> key_owner x = (None, Some id).
Proof.
  intros (i & _ & Hi). unfold ofGateway. rewrite bool_decide_eq_true. unfold key_owner in *. destruct Hi as [Hi|Hi]; injection Hi as -> ->; split; naive_solver.
Qed.

Lemma RotateDeviceKey_inv r id s : id <> "" -> pki_inv s -> pki_inv (RotateDeviceKey r id s).2.
Proof. intros Hne. apply rotate_inv; [apply ofDevice_owner|exists id; auto]. Qed.

Lemma RotateGatewayKey_inv r id s : id <> "" -> pki_inv s -> pki_inv (RotateGatewayKey r id s).2.
Proof. intros Hne. apply rotate_inv; [apply ofGateway_owner|exists id; auto]. Qed.

Lemma rotateOne_inv rd rg kp s : pki_inv s -> pki_inv (rotateOne rd rg kp s).2.
Proof.
  intros Hi. unfold rotateOne. destruct (String.eqb_spec (KDeviceID kp) "") as [_|Hd].
  - destruct (String.eqb_spec (KGatewayID kp) "") as [_|Hg]; [done|]. pose proof (RotateGatewayKey_inv rg _ s Hg Hi).
    by destruct (RotateGatewayKey rg _ s) as [[?|?] s2].
  - pose proof (RotateDeviceKey_inv rd _ s Hd Hi) as Hi'. destruct (RotateDeviceKey rd _ s) as [[?|?] s1]; cbn in Hi'; [|done].
    destruct (String.eqb_spec (KGatewayID kp) "") as [_|Hg]; [done|]. pose proof (RotateGatewayKey_inv rg _ s1 Hg Hi').
    by destruct (RotateGatewayKey rg _ s1) as [[?|?] s2].
Qed.

Lemma rotateAll_inv draws l : forall k s, pki_inv s -> pki_inv (rotateAll draws k l s).2.
Proof.
  induction l as [|kp l IH]; intros k s Hi; cbn [rotateAll]; [done|]. pose proof (rotateOne_inv (draws k).1 (draws k).2 kp s Hi) as Hi'.
  destruct (rotateOne _ _ kp s) as [[m|] s1]; [done|]. by apply IH.
Qed.

(** Whatever fails, the job leaves each owner with at most one active key, its
    latest. *)
Theorem AutoRotate_inv f now draws s (Hi : pki_inv s) : pki_inv (AutoRotate f now draws s).2.
Proof. unfold AutoRotate. destruct (GetExpiring _ _ _ s); [by apply rotateAll_inv|done]. Qed.

(** ** Renewal *)

(** What a successful rotation does. *)
Lemma rotate_Ok r mine exists_ owner updating update s kp s' : rotate r mine exists_ owner updating update s = (Ok kp, s') ->
  exists priv row, ro_private r = Some priv /\ kp = pairOf row /\ key_owner row = owner /\ kp_active row = true /\
    kp_public row = wgtypes_PublicKey priv /\ kp_expires row = ro_now r + DefaultKeyLifetime /\ exists_ (pk_db s) = true /\
    key_pairs s' = (map (deactivated mine) (key_pairs s) ++ [row])%list /\ update (wgtypes_PublicKey priv) (pk_db s) = Some (pk_db s').
Proof.
  unfold rotate. destruct (ro_private r) as [priv|]; [|done]. destruct (ro_fails r 0%nat); [done|]. destruct (_ || _); [done|].
  destruct (ro_fails r 2%nat); [done|]. destruct (ro_fails r 3%nat || _ || negb (exists_ (pk_db s))) eqn:Hf; [done|].
  destruct (ro_fails r 4%nat); [done|]. destruct (update _ _) as [d|] eqn:Hu; [|done]. destruct (ro_fails r 5%nat); [done|].
  intros [= <- <-]. apply orb_false_iff in Hf as [_ Hf%negb_false_iff]. destruct owner. by eexists priv, _.
Qed.

(** The active keys that end by a time. *)
Definition due (t : Z) (x : key_pair) : bool := kp_active x && (kp_expires x <=? t)%Z.

Lemma rotate_due r mine exists_ owner updating update s t : t < ro_now r + DefaultKeyLifetime ->
  match rotate r mine exists_ owner updating update s with
  | (Ok _, s') => forall x, x ∈ key_pairs s' -> due t x = true -> x ∈ key_pairs s /\ mine x = false
  | (Err _, s') => s' = s
  end.
Proof.
  intros Ht. destruct (rotate r mine exists_ owner updating update s) as [[kp|m] s'] eqn:Hr.
  - apply rotate_Ok in Hr as (priv & row & _ & _ & _ & _ & _ & He & _ & Hk & _). rewrite Hk. unfold due.
    intros x [Hx|Hx]%elem_of_app [Ha He']%andb_true_iff.
    + apply list_elem_of_fmap in Hx as (y & -> & Hy). apply deactivated_active in Ha as (Hm & -> & _). done.
    + apply list_elem_of_singleton in Hx as ->. rewrite He in He'. lia.
  - revert Hr. unfold rotate. repeat case_match; naive_solver.
Qed.

Lemma rotateOne_due rd rg kp s t : t < ro_now rd + DefaultKeyLifetime -> t < ro_now rg + DefaultKeyLifetime ->
  (rotateOne rd rg kp s).1 = None ->
  forall x, x ∈ key_pairs (rotateOne rd rg kp s).2 -> due t x = true -> x ∈ key_pairs s /\
    (KDeviceID kp <> "" -> ofDevice (KDeviceID kp) x = false) /\ (KGatewayID kp <> "" -> ofGateway (KGatewayID kp) x = false).
Proof.
  intros Hd Hg. unfold rotateOne, RotateDeviceKey, RotateGatewayKey.
  set (ud := fun key => set_device_key _ key _). set (ug := fun key => set_gateway_key _ key _).
  assert (forall s1, match (if String.eqb (KGatewayID kp) "" then (None, s1) else
      match rotate rg (ofGateway (KGatewayID kp)) (fun d => has g_id (gateways d) (KGatewayID kp)) (None, Some (KGatewayID kp)) "update gateway pubkey" ug s1 with
      | (Err m, s) => (Some ("rotate gateway key " ++ KGatewayID kp ++ ": " ++ m), s) | (Ok _, s) => (None, s) end) with
    | (None, s2) => forall x, x ∈ key_pairs s2 -> due t x = true -> x ∈ key_pairs s1 /\ (KGatewayID kp <> "" -> ofGateway (KGatewayID kp) x = false)
    | (Some _, _) => True end) as Hgw.
  { intros s1. destruct (String.eqb_spec (KGatewayID kp) ""); [done|].
    pose proof (rotate_due rg (ofGateway (KGatewayID kp)) (fun d => has g_id (gateways d) (KGatewayID kp)) (None, Some (KGatewayID kp))
      "update gateway pubkey" ug s1 t Hg) as Hr. destruct (rotate _ _ _ _ _ _ _) as [[?|?] s2]; [|done]. intros x Hx Hdue. naive_solver. }
  destruct (String.eqb_spec (KDeviceID kp) "") as [Ed|Ed].
  - specialize (Hgw s). destruct (if String.eqb (KGatewayID kp) "" then _ else _) as [[m|] s2]; cbn; [done|]. intros _ x Hx Hdue.
    destruct (Hgw x Hx Hdue). naive_solver.
  - pose proof (rotate_due rd (ofDevice (KDeviceID kp)) (fun d => has d_id (devices d) (KDeviceID kp)) (Some (KDeviceID kp), None)
      "update device pubkey" ud s t Hd) as Hr. destruct (rotate rd _ _ _ _ _ _) as [[?|?] s1]; cbn; [|done].
    specialize (Hgw s1). destruct (if String.eqb (KGatewayID kp) "" then _ else _) as [[m|] s2]; cbn; [done|]. intros _ x Hx Hdue.
    destruct (Hgw x Hx Hdue) as [Hx1 Hg1]. destruct (Hr x Hx1 Hdue). naive_solver.
Qed.

(** Every key that is due belongs to an owner of the list. *)
Definition listed (l : list KeyPair) (x : key_pair) : Prop :=
  exists kp, kp ∈ l /\ KDeviceID kp = default "" (kp_device x) /\ KGatewayID kp = default "" (kp_gateway x).

Lemma rotateAll_due t draws l : forall k s, (forall j, t < ro_now (draws j).1 + DefaultKeyLifetime /\ t < ro_now (draws j).2 + DefaultKeyLifetime) ->
  pki_inv s -> (forall x, x ∈ key_pairs s -> due t x = true -> listed l x) ->
  (rotateAll draws k l s).1 = None -> forall x, x ∈ key_pairs (rotateAll draws k l s).2 -> due t x = false.
Proof.
  induction l as [|kp l IH]; intros k s Ht Hi Hl; cbn [rotateAll].
  - intros _ x Hx. destruct (due t x) eqn:Hd; [|done]. destruct (Hl x Hx Hd) as (kp & Hkp & _). by apply elem_of_nil in Hkp.
  - pose proof (rotateOne_due (draws k).1 (draws k).2 kp s t (proj1 (Ht k)) (proj2 (Ht k))) as Hone.
    pose proof (rotateOne_inv (draws k).1 (draws k).2 kp s Hi) as Hi1.
    destruct (rotateOne _ _ kp s) as [[m|] s1]; cbn [fst snd] in *; [done|]. apply IH; [done|done|].
    intros x Hx Hd. destruct (Hone eq_refl x Hx Hd) as (Hx0 & Hdev & Hgw). destruct (Hl x Hx0 Hd) as (kp' & Hin & E1 & E2).
    apply elem_of_cons in Hin as [->|Hin]; [|by exists kp']. exfalso.
    destruct Hi as [_ Hown _ _]. rewrite Forall_forall in Hown. destruct (Hown x Hx0) as (id & Hne & Ho). unfold key_owner in Ho.
    destruct Ho as [[= Ho1 Ho2]|[= Ho1 Ho2]]; rewrite Ho1 in E1; rewrite Ho2 in E2; cbn in E1, E2.
    + rewrite E1 in Hdev. specialize (Hdev Hne). unfold ofDevice in Hdev. by rewrite Ho1, bool_decide_eq_true_2 in Hdev.
    + rewrite E2 in Hgw. specialize (Hgw Hne). unfold ofGateway in Hgw. by rewrite Ho2, bool_decide_eq_true_2 in Hgw.
Qed.

(** When the job reports no error, no active key is left that ends within a
    week: each was replaced by one that is valid for ninety days. *)
Theorem AutoRotate_renews f now draws s (Hi : pki_inv s) (Ht : forall j, now <= ro_now (draws j).1 /\ now <= ro_now (draws j).2)
  (Hok : (AutoRotate f now draws s).1 = None) :
  forall x, x ∈ key_pairs (AutoRotate f now draws s).2 -> kp_active x = true -> now + 7 * day_ns < kp_expires x.
Proof.
  intros x Hx Ha. revert Hok Hx. unfold AutoRotate. destruct (GetExpiring f now (7 * day_ns) s) as [l|m] eqn:Hg; [|done]. intros Hok Hx.
  assert (due (now + 7 * day_ns) x = false) as Hd.
  { apply (rotateAll_due (now + 7 * day_ns) draws l 0 s); [|done| |done|done].
    - intros j. destruct (Ht j). unfold DefaultKeyLifetime, day_ns. lia.
    - intros y Hy Hdy. unfold GetExpiring in Hg. destruct (f 0%nat); [done|]. destruct (_ && _); [done|]. destruct (f 2%nat); [done|].
      injection Hg as <-. exists (pairOf y). split_and!; [|done|done]. apply list_elem_of_fmap_2. rewrite rows_by_perm.
      apply list_elem_of_In, filter_In. split; [by apply list_elem_of_In|exact Hdy]. }
  unfold due in Hd. rewrite Ha in Hd. cbn in Hd. lia.
Qed.

(** ** Where the code falls short *)

(** The private key of a rotation is in no table and not in what is returned: a
    device whose stored key was its own is left with a public key that the
    stored one does not belong to. *)
Lemma rotation_locks_out r id s kp s' dev priv old : RotateDeviceKey r id s = (Ok kp, s') -> ro_private r = Some priv ->
  dev ∈ devices (pk_db s) -> d_id dev = id -> d_privkey dev = Some old -> wg_PublicKey old <> Some (wgtypes_PublicKey priv) ->
  exists dev', dev' ∈ devices (pk_db s') /\ d_id dev' = id /\ ~ paired dev'.
Proof.
  intros Hr Hp Hdev Hid Hk Hne. apply rotate_Ok in Hr as (priv' & row & Hp' & _ & _ & _ & _ & _ & _ & _ & Hu).
  rewrite Hp in Hp'. injection Hp' as <-. unfold set_device_key in Hu. destruct (existsb _ _); [done|]. injection Hu as Hu.
  exists (with_pubkey (wgtypes_PublicKey priv) (ro_now r) dev). rewrite <- Hu. cbn. split_and!; [|done|].
  - apply list_elem_of_fmap. exists dev. by rewrite Hid, String.eqb_refl.
  - intros Hpair. by apply Hne, Hpair.
Qed.
End pki.

(** ** Runs *)

Definition pki0 : pki_state := {| pk_db := demo_db; key_pairs := [] |}.

Definition draw (n : string) (now : Z) : rotation := {| ro_now := now; ro_id := n; ro_private := Some n; ro_fails := fun _ => false |}.

Lemma pki0_inv : pki_inv pki0.
Proof. split; cbn; [constructor|constructor| |]; intros x y Hx; by apply elem_of_nil in Hx. Qed.

Definition pki1 : pki_state := (RotateDeviceKey (H0 := toy_device_env) (draw "k1" 0) "d1" pki0).2.

Lemma AutoRotate_inv_witness : pki_inv (AutoRotate (H0 := toy_device_env) (H1 := sql_default) (fun _ => false) (85 * day_ns)
  (fun _ => (draw "k2" (85 * day_ns), draw "k3" (85 * day_ns))) pki1).2.
Proof.
  apply (AutoRotate_inv (H0 := toy_device_env) (H1 := sql_default)). apply (RotateDeviceKey_inv (H0 := toy_device_env)); [discriminate|exact pki0_inv].
Defined.

Lemma AutoRotate_renews_witness :
  let s := (AutoRotate (H0 := toy_device_env) (H1 := sql_default) (fun _ => false) (85 * day_ns)
    (fun _ => (draw "k2" (85 * day_ns), draw "k3" (85 * day_ns))) pki1).2 in
  map (fun x => (kp_id x, kp_active x, kp_rotation x)) (key_pairs s) = [("k1", false, 1); ("k2", true, 2)] /\
  forall x, x ∈ key_pairs s -> kp_active x = true -> 85 * day_ns + 7 * day_ns < kp_expires x.
Proof.
  split; [vm_compute; reflexivity|].
  apply (AutoRotate_renews (H0 := toy_device_env) (H1 := sql_default) (fun _ => false) (85 * day_ns)
    (fun _ => (draw "k2" (85 * day_ns), draw "k3" (85 * day_ns))) pki1).
  - apply (RotateDeviceKey_inv (H0 := toy_device_env)); [discriminate|exact pki0_inv].
  - intros j. split; apply Z.le_refl.
  - vm_compute. reflexivity.
Defined.
