(* ===== verification/Proxy.v ===== *)
(** * The enrolment proxy

    [internal/proxy/server.go]: the server in the DMZ that hands the requests
    for enrolment and authentication to the core.  The core is a function from
    requests to answers (none when it cannot be reached); the identifier of the
    request and the address the middleware settles on are parameters of the
    call. *)

From S2P Require Import Prelude Http.
From Stdlib Require Import ZArith Lia Ascii String.
From stdpp Require Import base gmap strings list.

Local Open Scope Z_scope.
Local Open Scope string_scope.

(** [http.Header], by canonical names. *)
Abbreviation header := (gmap string (list string)).

Definition header_Get (h : header) (k : string) : string := match h !! k with Some (v :: _) => v | _ => "" end.
Definition header_Set (h : header) (k v : string) : header := <[k := [v]]> h.

Record proxy_request := { pr_Method : string; pr_Path : string; pr_RawQuery : string; pr_Header : header; pr_Body : string; pr_RemoteAddr : string }.

(** A request to the core, and an answer. *)
Record core_request := { cr_Method : string; cr_URL : string; cr_Header : header; cr_Body : string }.
Record answer := { an_Status : Z; an_Header : header; an_Body : string }.

Definition core_server : Type := core_request -> option answer.

Definition relayedHeaders : list string :=
  ["Content-Type"; "Content-Length"; "Accept"; "Accept-Language"; "Authorization"; "Cookie"; "User-Agent"; "X-Forwarded-For"; "X-Request-Id"].

Definition copyHeaders (src dst : header) (keys : list string) : header :=
  foldl (fun dst k => if String.eqb (header_Get src k) "" then dst else header_Set dst k (header_Get src k)) dst keys.

(** The trailing slashes of the base. *)
Fixpoint trimSlashes (l : list ascii) : list ascii :=
  match l with c :: l => if Ascii.eqb c "/" then trimSlashes l else c :: l | [] => [] end.
Definition TrimRightSlash (s : string) : string := string_of_list_ascii (rev (trimSlashes (rev (list_ascii_of_string s)))).

Definition coreURL (base path : string) : string := TrimRightSlash base ++ path.

(** [http.Error]. *)
Definition http_Error (body : string) (status : Z) : answer := {|
  an_Status := status; an_Header := {["Content-Type" := ["text/plain; charset=utf-8"]; "X-Content-Type-Options" := ["nosniff"]]};
  an_Body := body ++ String (ascii_of_nat 10) "" |}.

Definition quoted (s : string) : string := let q := String (ascii_of_nat 34) "" in q ++ s ++ q.

Definition jsonObject (l : list (string * string)) : string :=
  "{" ++ strings_join "," (map (fun kv => quoted kv.1 ++ ":" ++ quoted kv.2) l) ++ "}".

Definition jsonError (m : string) : string := jsonObject [("error", m); ("message", m)].

Definition forwardedFor (r : proxy_request) (existing : string) : string :=
  if String.eqb existing "" then pr_RemoteAddr r else existing ++ ", " ++ pr_RemoteAddr r.

(** The headers of the request to the core. *)
Definition outHeader (reqID : string) (r : proxy_request) : header :=
  let h := copyHeaders (pr_Header r) ∅ relayedHeaders in
  let h := header_Set h "X-Forwarded-By" "outpost-proxy" in
  let h := if String.eqb (pr_RemoteAddr r) "" then h else header_Set h "X-Forwarded-For" (forwardedFor r (header_Get h "X-Forwarded-For")) in
  if String.eqb reqID "" then h else header_Set h "X-Request-Id" reqID.

(** [requestable]: the URL and the method make a request. *)
Definition forwardRequest (core : core_server) (requestable : bool) (reqID : string) (r : proxy_request) (targetURL : string)
    : answer * list core_request :=
  if negb requestable then (http_Error (jsonError "internal proxy error") 502, []) else
  let out := {| cr_Method := pr_Method r; cr_URL := targetURL; cr_Header := outHeader reqID r; cr_Body := pr_Body r |} in
  match core out with
  | None => (http_Error (jsonError "core unreachable") 502, [out])
  | Some a => (a, [out])
  end.

(** What the proxy serves: method, path, and the path at the core. *)
Definition routes : list (string * string * string) :=
  [("POST", "/enroll", "/api/v1/devices/enroll"); ("POST", "/auth/login", "/api/v1/auth/login");
   ("POST", "/auth/mfa/verify", "/api/v1/auth/mfa/verify"); ("POST", "/auth/refresh", "/api/v1/auth/refresh");
   ("GET", "/auth/oidc/authorize", "/api/v1/auth/oidc/authorize"); ("POST", "/auth/oidc/callback", "/api/v1/auth/oidc/callback")].

Definition plainJSON (status : Z) (body : string) : answer := {|
  an_Status := status; an_Header := {["Content-Type" := ["application/json"]]}; an_Body := body |}.

Definition readyz (core : core_server) (base : string) : answer * list core_request :=
  let out := {| cr_Method := "GET"; cr_URL := coreURL base "/healthz"; cr_Header := ∅; cr_Body := "" |} in
  match core out with
  | Some a => if (an_Status a =? 200)%Z then (plainJSON 200 (jsonObject [("status", "ok")]), [out]) else (plainJSON 503 (jsonObject [("status", "not_ready"); ("reason", "core unreachable")]), [out])
  | None => (plainJSON 503 (jsonObject [("status", "not_ready"); ("reason", "core unreachable")]), [out])
  end.

(** The router: an unknown path is 404, a known one with another method 405. *)
Definition proxy_serve (core : core_server) (requestable : bool) (base reqID : string) (r : proxy_request) : answer * list core_request :=
  match List.find (fun x => String.eqb x.1.1 (pr_Method r) && String.eqb x.1.2 (pr_Path r)) routes with
  | Some (_, _, target) => forwardRequest core requestable reqID r (coreURL base target)
  | None =>
      if String.eqb (pr_Method r) "GET" && String.eqb (pr_Path r) "/healthz" then (plainJSON 200 (jsonObject [("status", "ok"); ("service", "outpost-proxy")]), [])
      else if String.eqb (pr_Method r) "GET" && String.eqb (pr_Path r) "/readyz" then readyz core base
      else if existsb (fun x => String.eqb x.1.2 (pr_Path r)) routes || existsb (String.eqb (pr_Path r)) ["/healthz"; "/readyz"]
      then ({| an_Status := 405; an_Header := ∅; an_Body := "" |}, [])
      else (http_Error "404 page not found" 404, [])
  end.

(** ** What reaches the core *)

Definition passed : list string := ["X-Forwarded-By"; "X-Forwarded-For"; "X-Request-Id"] ++ relayedHeaders.

Lemma copyHeaders_dom src keys : forall dst k, is_Some (copyHeaders src dst keys !! k) -> is_Some (dst !! k) \/ k ∈ keys.
Proof.
  unfold copyHeaders. induction keys as [|k0 keys IH]; intros dst k Hk; cbn [foldl] in Hk; [by left|].
  apply IH in Hk as [Hk|Hk]; [|right; set_solver]. destruct (String.eqb (header_Get src k0) ""); [by left|].
  unfold header_Set in Hk. destruct (decide (k = k0)) as [->|Hne]; [right; set_solver|]. rewrite lookup_insert_ne in Hk by done. by left.
Qed.

Lemma header_Set_dom h k v j : is_Some (header_Set h k v !! j) -> is_Some (h !! j) \/ j = k.
Proof. unfold header_Set. destruct (decide (j = k)) as [->|Hne]; [by right|]. rewrite lookup_insert_ne by done. by left. Qed.

Lemma outHeader_dom reqID r k : is_Some (outHeader reqID r !! k) -> k ∈ passed.
Proof.
  unfold outHeader, passed. set (h0 := copyHeaders _ _ _).
  assert (forall j, is_Some (h0 !! j) -> j ∈ relayedHeaders) as H0.
  { intros j Hj. apply copyHeaders_dom in Hj as [Hj|]; [|done]. rewrite lookup_empty in Hj. by destruct Hj. }
  intros Hk. apply elem_of_app. destruct (String.eqb reqID ""), (String.eqb (pr_RemoteAddr r) "");
    repeat match goal with Hj : is_Some (header_Set _ _ _ !! _) |- _ => apply header_Set_dom in Hj as [Hj| ->]; [|left; set_solver] end;
    right; by apply H0.
Qed.

(** The proxy opens six operations of the core and no others: whatever is asked
    of it, it sends at most one request, to one of their addresses with the
    method and the body of the request, or to the health check; with headers of
    a fixed list; and the answer of the core is returned as it is. *)
Theorem proxy_confined core requestable base reqID r :
  let '(a, out) := proxy_serve core requestable base reqID r in
  out = [] \/
  (exists o, out = [o] /\ cr_Method o = pr_Method r /\ (forall k, is_Some (cr_Header o !! k) -> k ∈ passed) /\
     (exists path target, (pr_Method r, path, target) ∈ routes /\ path = pr_Path r /\ cr_URL o = coreURL base target /\ cr_Body o = pr_Body r /\
        (core o = Some a \/ core o = None /\ an_Status a = 502) \/
      pr_Path r = "/readyz" /\ cr_URL o = coreURL base "/healthz" /\ cr_Body o = "" /\ cr_Header o = ∅)).
Proof.
  unfold proxy_serve. destruct (List.find _ routes) as [[[m p] target]|] eqn:Hf.
  - apply find_some in Hf as [Hin Hb]. cbn in Hb. apply andb_true_iff in Hb as [->%String.eqb_eq ->%String.eqb_eq].
    unfold forwardRequest. destruct (negb requestable); [by left|]. set (o := {| cr_URL := coreURL base target |}).
    destruct (core o) as [a|] eqn:Hc; right; exists o; (split_and!; [done|done|apply outHeader_dom|]);
      exists (pr_Path r), target; left; (split_and!; [by apply list_elem_of_In|done|done|done|]); [by left|by right].
  - destruct (_ && _); [by left|]. destruct (String.eqb (pr_Method r) "GET" && String.eqb (pr_Path r) "/readyz") eqn:Hr.
    + apply andb_true_iff in Hr as [Hm%String.eqb_eq Hp%String.eqb_eq]. unfold readyz. set (o := {| cr_URL := coreURL base "/healthz" |}).
      assert (forall k, is_Some (cr_Header o !! k) -> k ∈ passed) as Hh by (intros k Hk; cbn in Hk; rewrite lookup_empty in Hk; by destruct Hk).
      destruct (core o) as [a|]; [destruct (_ =? _)%Z|]; right; exists o; (split_and!; [done|by rewrite Hm|done|]); exists "", ""; by right.
    + destruct (_ || _); by left.
Qed.

(** ** Where the code falls short *)

(** The query of a request is not part of the target: an authorization request
    arrives at the core without its parameters. *)
Lemma query_dropped core base reqID r q :
  (proxy_serve core true base reqID r).2 =
  (proxy_serve core true base reqID {| pr_Method := pr_Method r; pr_Path := pr_Path r; pr_RawQuery := q; pr_Header := pr_Header r;
     pr_Body := pr_Body r; pr_RemoteAddr := pr_RemoteAddr r |}).2.
Proof. reflexivity. Qed.

(** The client decides how the list of addresses begins, and the core takes the
    first for the address of the client. *)
Lemma client_chooses_address reqID r v : header_Get (pr_Header r) "X-Forwarded-For" = v -> v <> "" -> pr_RemoteAddr r <> "" ->
  header_Get (outHeader reqID r) "X-Forwarded-For" = v ++ ", " ++ pr_RemoteAddr r.
Proof.
  intros Hv Hne Hr. unfold outHeader. apply String.eqb_neq in Hr. rewrite Hr.
  assert (forall h k w, k <> "X-Forwarded-For" -> header_Get (header_Set h k w) "X-Forwarded-For" = header_Get h "X-Forwarded-For") as Hother.
  { intros h k w Hk. unfold header_Get, header_Set. by rewrite lookup_insert_ne. }
  assert (forall h w, header_Get (header_Set h "X-Forwarded-For" w) "X-Forwarded-For" = w) as Hsame.
  { intros h w. unfold header_Get, header_Set. by rewrite lookup_insert_eq. }
  assert (header_Get (copyHeaders (pr_Header r) ∅ relayedHeaders) "X-Forwarded-For" = v) as Hc.
  { unfold copyHeaders, relayedHeaders. cbn [foldl]. apply String.eqb_neq in Hne.
    repeat match goal with |- context [if String.eqb (header_Get _ ?k) "" then _ else _] =>
      lazymatch k with "X-Forwarded-For" => rewrite Hv, Hne | _ => destruct (String.eqb (header_Get (pr_Header r) k) "") end end;
    rewrite ?Hother by done; apply Hsame. }
  assert (forwardedFor r v = v ++ ", " ++ pr_RemoteAddr r) as Hf by (unfold forwardedFor; by rewrite (proj2 (String.eqb_neq _ _))).
  destruct (String.eqb reqID ""); rewrite ?Hother by done; by rewrite Hsame, Hother, Hc, Hf by done.
Qed.

Example proxied_login : (proxy_serve (fun o => Some {| an_Status := 200; an_Header := ∅; an_Body := cr_URL o |}) true "https://core//" "id-1"
  {| pr_Method := "POST"; pr_Path := "/auth/login"; pr_RawQuery := ""; pr_Header := ∅; pr_Body := "{}"; pr_RemoteAddr := "203.0.113.9" |}).1 =
  {| an_Status := 200; an_Header := ∅; an_Body := "https://core/api/v1/auth/login" |}.
Proof. reflexivity. Qed.
