(* ===== verification/Analytics.v ===== *)
(** * Analytics

    [internal/analytics]: the flow records, the four aggregates over a range of
    time and their endpoints, composed with the reports of the gateways that
    write the records ([handlePeerStats], file [Gateways]).  Sessions of the
    database are in UTC. *)

From S2P Require Import Prelude Rfc3339 Schema Policy Devices Http Tables.
From S2P Require Gateways.
From Stdlib Require Import ZArith Lia Ascii String.
From stdpp Require Import base gmap strings list sorting.

Local Open Scope Z_scope.
Local Open Scope string_scope.
Local Open Scope outpost_scope.

(** A row of [flow_records], the columns the aggregates read. *)
Record flow := { f_gateway : string; f_device : string; f_user : string; f_sent : Z; f_recv : Z; f_at : Z }.

Record flow_state := { fs_users : list (string * string); flows : list flow }.

(** [Record]: [true] is a nil error. *)
Definition RecordFlow (fails : bool) (x : flow) (s : flow_state) : flow_state * bool :=
  if fails then (s, false) else ({| fs_users := fs_users s; flows := (flows s ++ [x])%list |}, true).

Record UserBandwidth := { ub_UserID : string; ub_Username : string; ub_Rx : Z; ub_Tx : Z; ub_Total : Z }.
Record BandwidthBucket := { bb_Bucket : Z; bb_Rx : Z; bb_Tx : Z }.
Record HourlyConnections := { hc_Hour : Z; hc_DayOfWeek : Z; hc_Count : Z }.
Record summaryResponse := { sm_TotalRx : Z; sm_TotalTx : Z; sm_Flows : Z; sm_Users : Z; sm_Devices : Z }.

Definition sum_of {A} (v : A -> Z) (l : list A) : Z := foldr (fun x t => v x + t) 0 l.

Definition within (from to : Z) (l : list flow) : list flow := List.filter (fun x => (from <=? f_at x)%Z && (f_at x <? to)%Z) l.

(** The rows of one group. *)
Definition of_group {K} `{EqDecision K} (key : flow -> K) (g : K) (l : list flow) : list flow := List.filter (fun x => bool_decide (key x = g)) l.

Definition group_keys {K} `{EqDecision K} (key : flow -> K) (l : list flow) : list K := remove_dups (map key l).

Definition ns : Z := 1000000000.

Definition bucketStart (secs : Z) (x : flow) : Z := f_at x / (secs * ns) * (secs * ns).

(** 1970 began on a Thursday; Monday is 0. *)
Definition slot (x : flow) : Z * Z := ((f_at x / (86400 * ns) + 3) mod 7, f_at x / (3600 * ns) mod 24).

Definition int64_ok (z : Z) : bool := (min_int64 <=? z)%Z && (z <=? max_int64)%Z.

Section analytics.
Context `{SqlOrder} {E : Type}.
Let T (X : Type) := H flow_state E X.

Definition username (s : flow_state) (u : string) : string :=
  match List.find (fun x => String.eqb x.1 u) (fs_users s) with Some (_, n) => n | None => u end.

Definition userRow (s : flow_state) (l : list flow) (u : string) : UserBandwidth :=
  let g := of_group f_user u l in
  {| ub_UserID := u; ub_Username := username s u; ub_Rx := sum_of f_recv g; ub_Tx := sum_of f_sent g; ub_Total := sum_of (fun x => f_sent x + f_recv x) g |}.

Definition userOk (u : UserBandwidth) : bool := int64_ok (ub_Rx u) && int64_ok (ub_Tx u) && int64_ok (ub_Total u).

(** [f]: the query, the scan of a row and the iteration that fail; a sum that
    does not fit its field fails to scan. *)
Definition TopUsers (f : nat -> bool) (from to : Z) (limit : nat) (s : flow_state) : option (list UserBandwidth) :=
  let l := within from to (flows s) in
  let rows := take limit (rows_by 48 (fun u => - ub_Total u) (map (userRow s l) (group_keys f_user l))) in
  if f 0%nat || negb (forallb (fun u => negb (f 1%nat) && userOk u) rows) || f 2%nat then None else Some rows.

Definition bucketRow (secs : Z) (l : list flow) (b : Z) : BandwidthBucket :=
  let g := of_group (bucketStart secs) b l in {| bb_Bucket := b; bb_Rx := sum_of f_recv g; bb_Tx := sum_of f_sent g |}.

Definition bucketOk (b : BandwidthBucket) : bool := int64_ok (bb_Rx b) && int64_ok (bb_Tx b).

(** [secs]: the seconds of the duration; below one an hour is taken. *)
Definition BandwidthOverTime (f : nat -> bool) (from to secs : Z) (s : flow_state) : option (list BandwidthBucket) :=
  let secs := if (secs <? 1)%Z then 3600 else secs in
  let l := within from to (flows s) in
  let rows := rows_by 49 bb_Bucket (map (bucketRow secs l) (group_keys (bucketStart secs) l)) in
  if f 0%nat || negb (forallb (fun b => negb (f 1%nat) && bucketOk b) rows) || f 2%nat then None else Some rows.

Definition slotRow (l : list flow) (k : Z * Z) : HourlyConnections :=
  {| hc_Hour := k.2; hc_DayOfWeek := k.1; hc_Count := Z.of_nat (length (of_group slot k l)) |}.

Definition ConnectionsByHour (f : nat -> bool) (from to : Z) (s : flow_state) : option (list HourlyConnections) :=
  let l := within from to (flows s) in
  let rows := rows_by 50 (fun h => hc_DayOfWeek h * 24 + hc_Hour h) (map (slotRow l) (group_keys slot l)) in
  if f 0%nat || (f 1%nat && negb (bool_decide (group_keys slot l = []))) || f 2%nat then None else Some rows.

Definition summarise (fails : bool) (from to : Z) (s : flow_state) : option summaryResponse :=
  let l := within from to (flows s) in
  let r := {| sm_TotalTx := sum_of f_sent l; sm_TotalRx := sum_of f_recv l; sm_Flows := Z.of_nat (length l);
              sm_Users := Z.of_nat (length (group_keys f_user l)); sm_Devices := Z.of_nat (length (group_keys f_device l)) |} in
  if fails || negb (int64_ok (sm_TotalTx r) && int64_ok (sm_TotalRx r)) then None else Some r.

(** *** Endpoints *)

Definition day : Z := 24 * 3600 * ns.

(** [parseTimeRange]: [None] is the error of the parser. *)
Definition parseTimeRange (now : Z) (from to : string) : option (Z * Z) :=
  f ← (if String.eqb from "" then Some (now - day) else parseRFC3339 from);
  t ← (if String.eqb to "" then Some now else parseRFC3339 to);
  Some (f, t).

Definition limitParam (v : string) : nat :=
  let '(n, err) := Atoi v in
  if String.eqb v "" then 10%nat else if negb err && (0 <? n)%Z && (n <=? 100)%Z then Z.to_nat n else 10%nat.

Inductive analytics_body :=
| ABandwidth (l : list BandwidthBucket)
| ATop (l : list UserBandwidth)
| AHeat (l : list HourlyConnections)
| ASummary (s : summaryResponse).

Inductive analytics_request :=
| RBandwidth (from to bucket : string)
| RTop (from to limit : string)
| RHeat (from to : string)
| RSummary (from to : string).

(** [parseDuration] gives the whole seconds of a duration. *)
Definition bandwidth (parseDuration : string -> option Z) (f : nat -> bool) (now : Z) (from to bucket : string) : T (Z * analytics_body) :=
  let! range := the (parseTimeRange now from to) 400 "parsing time" in
  let! secs := the (if String.eqb bucket "" then Some 3600 else parseDuration bucket) 400 "invalid bucket duration" in
  let! rows := asks (BandwidthOverTime f range.1 range.2 secs) in
  let! rows := the rows 500 "failed to query bandwidth data" in
  respondJSON 200 (ABandwidth rows).

Definition topUsers (f : nat -> bool) (now : Z) (from to limit : string) : T (Z * analytics_body) :=
  let! range := the (parseTimeRange now from to) 400 "parsing time" in
  let! rows := asks (TopUsers f range.1 range.2 (limitParam limit)) in
  let! rows := the rows 500 "failed to query top users" in
  respondJSON 200 (ATop rows).

Definition connectionsHeatmap (f : nat -> bool) (now : Z) (from to : string) : T (Z * analytics_body) :=
  let! range := the (parseTimeRange now from to) 400 "parsing time" in
  let! rows := asks (ConnectionsByHour f range.1 range.2) in
  let! rows := the rows 500 "failed to query connections heatmap" in
  respondJSON 200 (AHeat rows).

Definition analyticsSummary (f : nat -> bool) (now : Z) (from to : string) : T (Z * analytics_body) :=
  let! range := the (parseTimeRange now from to) 400 "parsing time" in
  let! s := asks (summarise (f 0%nat) range.1 range.2) in
  let! s := the s 500 "failed to query summary" in
  respondJSON 200 (ASummary s).

Definition analytics_serve (parseDuration : string -> option Z) (f : nat -> bool) (now : Z) (r : analytics_request) : T (Z * analytics_body) :=
  match r with
  | RBandwidth from to bucket => bandwidth parseDuration f now from to bucket
  | RTop from to limit => topUsers f now from to limit
  | RHeat from to => connectionsHeatmap f now from to
  | RSummary from to => analyticsSummary f now from to
  end.

(** ** The aggregates agree *)

Lemma sum_of_perm {A} (v : A -> Z) l l' : l ≡ₚ l' -> sum_of v l = sum_of v l'.
Proof. unfold sum_of. induction 1; cbn; lia. Qed.

Lemma sum_of_map {A B} (v : B -> Z) (f : A -> B) l : sum_of v (map f l) = sum_of (fun x => v (f x)) l.
Proof. unfold sum_of in *. induction l as [|x l IH]; cbn; [done|]. by rewrite IH. Qed.

Lemma sum_of_cons {A} (v : A -> Z) x l : sum_of v (x :: l) = v x + sum_of v l.
Proof. done. Qed.

(** The sum over the groups of the sums of their rows is the sum of the rows. *)
Lemma sum_of_groups {K} `{EqDecision K} (key : flow -> K) (v : flow -> Z) (l : list flow) (gs : list K) :
  NoDup gs -> (forall x, x ∈ l -> key x ∈ gs) -> sum_of (fun g => sum_of v (of_group key g l)) gs = sum_of v l.
Proof.
  intros Hnd. induction l as [|x l IH]; intros Hin.
  - clear. induction gs as [|g gs IH]; [done|]. by rewrite sum_of_cons, IH.
  - rewrite sum_of_cons, <- IH by (intros y Hy; apply Hin; set_solver). clear IH.
    assert (key x ∈ gs) as Hx by (apply Hin; set_solver). clear Hin.
    assert (forall g, sum_of v (of_group key g (x :: l)) = (if bool_decide (key x = g) then v x else 0) + sum_of v (of_group key g l)) as Hg.
    { intros g. unfold of_group. cbn [List.filter]. by destruct (bool_decide (key x = g)). }
    induction Hnd as [|g gs Hng Hnd IH]; [by apply elem_of_nil in Hx|]. rewrite !sum_of_cons, Hg.
    destruct (decide (key x = g)) as [Heq|Hne]; [subst g|].
    + rewrite bool_decide_eq_true_2 by done. enough (sum_of (fun g => sum_of v (of_group key g (x :: l))) gs = sum_of (fun g => sum_of v (of_group key g l)) gs) by lia.
      clear -Hng Hg. induction gs as [|h gs IH]; [done|]. rewrite !sum_of_cons, IH, Hg by set_solver. by rewrite bool_decide_eq_false_2 by set_solver.
    + rewrite bool_decide_eq_false_2 by done. rewrite IH by set_solver. lia.
Qed.

Lemma sum_over_groups {K} `{EqDecision K} (key : flow -> K) v l : sum_of (fun g => sum_of v (of_group key g l)) (group_keys key l) = sum_of v l.
Proof.
  apply sum_of_groups; [apply NoDup_remove_dups|]. intros x Hx. apply elem_of_remove_dups. by apply list_elem_of_fmap_2.
Qed.

Lemma length_sum_of {A} (l : list A) : Z.of_nat (length l) = sum_of (fun _ => 1) l.
Proof. induction l as [|x l IH]; [done|]. rewrite sum_of_cons, <- IH. cbn [length]. lia. Qed.

(** The charts and the summary tell the same story: over the same range the
    buckets add up to the bytes of the summary, the heat map to its flows, and
    the users, when none is cut off by the limit, to the bytes of both
    directions. *)
Theorem charts_match_summary from to secs limit s b u h m
  (Hb : BandwidthOverTime (fun _ => false) from to secs s = Some b) (Hu : TopUsers (fun _ => false) from to limit s = Some u)
  (Hh : ConnectionsByHour (fun _ => false) from to s = Some h) (Hm : summarise false from to s = Some m) :
  sum_of bb_Rx b = sm_TotalRx m /\ sum_of bb_Tx b = sm_TotalTx m /\ sum_of hc_Count h = sm_Flows m /\
  Z.of_nat (length u) <= sm_Users m /\ (sm_Users m <= Z.of_nat limit -> sum_of ub_Total u = sm_TotalRx m + sm_TotalTx m).
Proof.
  unfold summarise in Hm. cbn [sm_TotalTx sm_TotalRx orb] in Hm. destruct (negb _); [done|]. injection Hm as <-. cbn [sm_TotalRx sm_TotalTx sm_Flows sm_Users].
  set (l := within from to (flows s)) in *.
  unfold BandwidthOverTime in Hb. destruct (_ || _); [done|]. injection Hb as <-.
  unfold ConnectionsByHour in Hh. cbn [orb andb] in Hh. injection Hh as <-.
  unfold TopUsers in Hu. destruct (_ || _); [done|]. injection Hu as <-. fold l. set (secs' := if (secs <? 1)%Z then 3600 else secs).
  split_and!.
  - rewrite (sum_of_perm _ _ _ (rows_by_perm _ _ _)), sum_of_map. cbn [bucketRow bb_Rx]. apply sum_over_groups.
  - rewrite (sum_of_perm _ _ _ (rows_by_perm _ _ _)), sum_of_map. cbn [bucketRow bb_Tx]. apply sum_over_groups.
  - rewrite (sum_of_perm _ _ _ (rows_by_perm _ _ _)), sum_of_map. cbn [slotRow hc_Count]. rewrite length_sum_of.
    rewrite <- (sum_over_groups slot (fun _ => 1) l). clear. induction (group_keys slot l) as [|g gs IH]; [done|]. by rewrite !sum_of_cons, IH, length_sum_of.
  - rewrite length_take, rows_by_perm, length_map. lia.
  - intros Hl. rewrite take_ge by (rewrite rows_by_perm, length_map; lia). rewrite (sum_of_perm _ _ _ (rows_by_perm _ _ _)), sum_of_map.
    cbn [userRow ub_Total]. rewrite sum_over_groups. clear. induction l as [|x l IH]; [done|]. rewrite !sum_of_cons, IH. lia.
Qed.

(** The users are ranked: one left out by the limit has no more than any listed. *)
Lemma TopUsers_ranked f from to limit s u : TopUsers f from to limit s = Some u ->
  (length u <= limit)%nat /\ StronglySorted (fun x y => ub_Total y <= ub_Total x) u.
Proof.
  unfold TopUsers. destruct (_ || _); [done|]. intros [= <-]. split; [rewrite length_take; lia|].
  match goal with |- StronglySorted _ (take _ (rows_by ?q ?key ?l)) => pose proof (rows_by_sorted q key l) as Hs; revert Hs; generalize (rows_by q key l) end.
  intros l Hs. rewrite <- (take_drop limit l) in Hs. apply StronglySorted_app_1_l in Hs.
  induction Hs as [|x l' Hs IH Hx]; constructor; [done|]. eapply Forall_impl; [exact Hx|]. cbn. lia.
Qed.
End analytics.

(** ** The records the gateways write *)

(** The row of one report, at the time of the statement. *)
Definition flow_at (now : Z) (x : Gateways.flow_row) : flow := {|
  f_gateway := Gateways.fl_gateway x; f_device := Gateways.fl_device x; f_user := Gateways.fl_user x; f_sent := Gateways.fl_sent x;
  f_recv := Gateways.fl_recv x; f_at := now |}.

(** A gateway reports the counters of the interface, which only grow, and every
    report is summed: a peer that has sent [c] bytes once, and nothing since,
    counts for [n * c] after [n] reports. *)
Definition reports (c : Z) (n : nat) : list flow :=
  map (fun k => {| f_gateway := "g"; f_device := "d"; f_user := "u"; f_sent := c; f_recv := 0; f_at := Z.of_nat k |}) (seq 0 n).

Lemma counters_are_summed c n : sum_of f_sent (reports c n) = Z.of_nat n * c.
Proof.
  unfold reports. rewrite sum_of_map. cbn. generalize 0%nat. induction n as [|n IH]; intros k; [done|]. cbn [seq]. rewrite sum_of_cons, IH. lia.
Qed.

(** Two reports of the same counter, through the handler of the core. *)
Example idle_peer_counts_twice :
  let ps := {| Gateways.ps_PublicKey := "dev1"; Gateways.ps_RxBytes := 0; Gateways.ps_TxBytes := 1000; Gateways.ps_LastHandshake := None; Gateways.ps_Endpoint := "" |} in
  let dev := {| d_id := "d"; d_user_id := "u"; d_name := ""; d_pubkey := "dev1"; d_privkey := None; d_assigned_ip := 0; d_is_approved := true;
                d_last_handshake := None; d_network_id := Some "n1"; d_created_at := 0; d_updated_at := 0 |} in
  let d := set_devices demo_db [dev] in
  let s0 := {| Gateways.base := {| users := users d; devices := devices d; networks := networks d; gateways := gateways d;
                 gateway_networks := [("g1", "n1")]; groups := groups d; user_groups := user_groups d; network_acls := network_acls d;
                 device_posture := device_posture d; device_trust_scores := device_trust_scores d; trust_auto := trust_auto d;
                 ztna_policies := ztna_policies d; smart_routes := smart_routes d; smart_route_entries := smart_route_entries d;
                 network_smart_routes := network_smart_routes d; roles := roles d; user_roles := user_roles d; logins := logins d |};
               Gateways.peer_stats := []; Gateways.flow_records := [] |} in
  let s2 := Gateways.handlePeerStats (fun _ _ => false) "g1" (Gateways.handlePeerStats (fun _ _ => false) "g1" s0 [ps]) [ps] in
  summarise false 0 10 {| fs_users := []; flows := map (flow_at 5) (Gateways.flow_records s2) |} =
  Some {| sm_TotalRx := 0; sm_TotalTx := 2000; sm_Flows := 2; sm_Users := 1; sm_Devices := 1 |}.
Proof. vm_compute. reflexivity. Qed.

Definition flow_state0 : flow_state := {| fs_users := [("u", "ann")]; flows := reports 5 3 |}.

Lemma charts_match_summary_witness : exists b u h m,
  BandwidthOverTime (H0 := sql_default) (fun _ => false) 0 10 60 flow_state0 = Some b /\
  TopUsers (H0 := sql_default) (fun _ => false) 0 10 5 flow_state0 = Some u /\
  ConnectionsByHour (H0 := sql_default) (fun _ => false) 0 10 flow_state0 = Some h /\ summarise false 0 10 flow_state0 = Some m /\
  sum_of ub_Total u = sm_TotalRx m + sm_TotalTx m.
Proof.
  do 4 eexists. split; [vm_compute; reflexivity|]. split; [vm_compute; reflexivity|]. split; [vm_compute; reflexivity|]. split; [vm_compute; reflexivity|].
  apply (charts_match_summary (H0 := sql_default) 0 10 60 5 flow_state0
    [{| bb_Bucket := 0; bb_Rx := 0; bb_Tx := 15 |}] _ [{| hc_Hour := 0; hc_DayOfWeek := 3; hc_Count := 3 |}]); vm_compute; try reflexivity; discriminate.
Defined.
