(* ===== verification/Compliance.v ===== *)
(** * Compliance reports

    [internal/compliance]: the checks for SOC 2, ISO 27001 and GDPR, the rates
    and the score.  Rates are binary64 numbers, computed as the standard
    specifies ([SpecFloat]).  Each query reads the tables at its own moment:
    [snap i] are the tables the i-th query sees, [fails i] says that it fails. *)

From S2P Require Import Prelude Schema Policy Devices Http Tables.
From Stdlib Require Import ZArith Lia Ascii String SpecFloat.
From stdpp Require Import base gmap strings list.

Local Open Scope Z_scope.
Local Open Scope string_scope.
Local Open Scope outpost_scope.

(** ** Rates *)

Definition float64 (z : Z) : spec_float := binary_normalize 53 1024 z 0 false.

(** [float64(part) / float64(total) * 100]; of nothing, 100. *)
Definition rate (part total : Z) : spec_float :=
  if (total =? 0)%Z then float64 100 else SFmul 53 1024 (SFdiv 53 1024 (float64 part) (float64 total)) (float64 100).

Definition rateStatus (r : spec_float) : string :=
  if SFltb r (float64 100) then if SFleb (float64 80) r then "warning" else "failed" else "passed".

Definition every {A} (n : nat) (f : Z -> A) : list A := map (fun k => f (Z.of_nat k)) (seq 0 n).

(** With up to 25 users or devices, the rounded comparison agrees with that of
    the counts. *)
Example rates_at_the_thresholds :
  forallb (fun total => forallb (fun part => (total <? part)%Z || (total =? 0)%Z ||
    String.eqb (rateStatus (rate part total)) (if (part =? total)%Z then "passed" else if (4 * total <=? 5 * part)%Z then "warning" else "failed"))
    (every 26 id)) (every 26 id) = true.
Proof. vm_compute. reflexivity. Qed.

(** ** Tables *)

Record compliance_db := { cd_db : db; cd_audit_rows : Z; cd_mfa_required : option string }.

Definition countWhere {A} (f : A -> bool) (l : list A) : Z := Z.of_nat (length (List.filter f l)).

(** The rows of each device's last check, and how many devices have one that
    satisfies [f]. *)
Definition latestRows (l : list posture_row) : list posture_row :=
  List.filter (fun x => forallb (fun y => negb (String.eqb (dp_device_id y) (dp_device_id x)) || (dp_checked_at y <=? dp_checked_at x)%Z) l) l.

Definition devicesWith (f : posture_row -> bool) (l : list posture_row) : Z :=
  Z.of_nat (length (remove_dups (map dp_device_id (List.filter f (latestRows l))))).

Record ComplianceCheck := { ck_ID : string; ck_Framework : string; ck_Name : string; ck_Description : string; ck_Status : string; ck_Details : string }.

Record ComplianceReport := {
  rp_OverallScore : Z; rp_MaxScore : Z; rp_Percentage : Z; rp_MFAAdoption : spec_float; rp_EncryptionRate : spec_float; rp_PostureRate : spec_float;
  rp_AuditLogEnabled : bool; rp_PasswordPolicy : bool; rp_SessionTimeout : bool; rp_Checks : list ComplianceCheck;
}.

Section checker.
(** [fmt.Sprintf] with the verb for one decimal. *)
Context (one_decimal : spec_float -> string).
Context (snap : nat -> compliance_db) (fails : nat -> bool).

Definition mfaAdoptionRate (i : nat) : option spec_float :=
  if fails i then None else
  let l := List.filter u_is_active (users (cd_db (snap i))) in Some (rate (countWhere u_mfa_enabled l) (Z.of_nat (length l))).

Definition deviceRate (f : posture_row -> bool) (i : nat) : option spec_float :=
  if fails i then None else
  let l := device_posture (cd_db (snap i)) in Some (rate (devicesWith f l) (devicesWith (fun _ => true) l)).

Definition encryptionRate : nat -> option spec_float := deviceRate dp_disk_encrypted.
Definition postureRate : nat -> option spec_float := deviceRate (fun x => (80 <=? dp_score x)%Z).

Definition auditLogEnabled (i : nat) : option bool := if fails i then None else Some (0 <? cd_audit_rows (snap i))%Z.

Definition passwordPolicyEnabled (i : nat) : bool :=
  negb (fails i) && bool_decide (cd_mfa_required (snap i) = Some "true").

Definition sessionTimeoutEnabled (i : nat) : bool := negb (fails i).

Definition pick (b : bool) (yes no : string) : string := if b then yes else no.

Definition percentOf (r : spec_float) (what : string) : string := one_decimal r ++ "% of " ++ what.

Definition RunSOC2Checks (i : nat) : option (list ComplianceCheck) :=
  mfa ← mfaAdoptionRate i;
  audit ← auditLogEnabled (i + 1);
  Some [
    {| ck_ID := "soc2-cc6.1-mfa"; ck_Framework := "SOC2"; ck_Name := "Multi-Factor Authentication";
       ck_Description := "All users should have MFA enabled (CC6.1)"; ck_Status := rateStatus mfa; ck_Details := percentOf mfa "users have MFA enabled" |};
    {| ck_ID := "soc2-cc6.6-encryption"; ck_Framework := "SOC2"; ck_Name := "Encryption in Transit";
       ck_Description := "All traffic must be encrypted via WireGuard tunnels (CC6.6)"; ck_Status := "passed";
       ck_Details := "All connections use WireGuard encryption" |};
    {| ck_ID := "soc2-cc7.2-audit"; ck_Framework := "SOC2"; ck_Name := "System Monitoring";
       ck_Description := "Audit logging must be enabled and active (CC7.2)"; ck_Status := pick audit "passed" "failed";
       ck_Details := pick audit "Audit logging is enabled" "No audit log entries found" |}].

Definition RunISO27001Checks (i : nat) : option (list ComplianceCheck) :=
  posture ← postureRate i;
  roleCount ← (if fails (i + 1)%nat then None else Some (Z.of_nat (length (roles (cd_db (snap (i + 1)%nat))))));
  enc ← encryptionRate (i + 2);
  Some [
    {| ck_ID := "iso27001-a8.1-posture"; ck_Framework := "ISO27001"; ck_Name := "Device Posture Compliance";
       ck_Description := "All devices must pass posture checks (A.8.1)"; ck_Status := rateStatus posture;
       ck_Details := percentOf posture "devices pass posture checks" |};
    {| ck_ID := "iso27001-a9.4-rbac"; ck_Framework := "ISO27001"; ck_Name := "Role-Based Access Control";
       ck_Description := "Access control must use role-based permissions (A.9.4)"; ck_Status := if (roleCount <? 2)%Z then "warning" else "passed";
       ck_Details := if (roleCount <? 2)%Z then "Insufficient role separation" else itoa roleCount ++ " roles configured" |};
    {| ck_ID := "iso27001-a10.1-encryption"; ck_Framework := "ISO27001"; ck_Name := "Disk Encryption";
       ck_Description := "All devices must have disk encryption enabled (A.10.1)"; ck_Status := rateStatus enc;
       ck_Details := percentOf enc "devices have disk encryption" |}].

Definition RunGDPRChecks (i : nat) : option (list ComplianceCheck) :=
  audit ← auditLogEnabled i;
  activeUsers ← (if fails (i + 1)%nat then None else Some (countWhere u_is_active (users (cd_db (snap (i + 1)%nat)))));
  Some [
    {| ck_ID := "gdpr-art5-encryption"; ck_Framework := "GDPR"; ck_Name := "Data Encryption";
       ck_Description := "Personal data must be protected with appropriate encryption (Art. 5(1)(f))"; ck_Status := "passed";
       ck_Details := "WireGuard provides end-to-end encryption for all VPN traffic" |};
    {| ck_ID := "gdpr-art30-audit"; ck_Framework := "GDPR"; ck_Name := "Records of Processing";
       ck_Description := "Records of processing activities must be maintained (Art. 30)"; ck_Status := pick audit "passed" "failed";
       ck_Details := pick audit "Audit logging provides records of processing activities"
         "Audit logging is not active; processing records unavailable" |};
    {| ck_ID := "gdpr-art32-access"; ck_Framework := "GDPR"; ck_Name := "Access Control";
       ck_Description := "Appropriate access controls must be in place (Art. 32)"; ck_Status := "passed";
       ck_Details := itoa activeUsers ++ " active users with role-based access control" |}].

Definition points (c : ComplianceCheck) : Z :=
  if String.eqb (ck_Status c) "passed" then 2 else if String.eqb (ck_Status c) "warning" then 1 else 0.

Definition earnedOf (l : list ComplianceCheck) : Z := foldl (fun n c => n + points c) 0 l.

(** [OverallScore], [MaxScore], [Percentage]. *)
Definition calculateOverallScore (l : list ComplianceCheck) : Z * Z * Z :=
  match l with
  | [] => (0, 0, 0)
  | _ => let earned := earnedOf l in
         let maxScore := Z.of_nat (length l) * 2 in
         let percentage := Z.quot (earned * 100) maxScore in
         (earned, maxScore, if (100 <? percentage)%Z then 100 else percentage)
  end.

Definition RunAllChecks : option ComplianceReport :=
  soc2 ← RunSOC2Checks 0;
  iso ← RunISO27001Checks 2;
  gdpr ← RunGDPRChecks 5;
  mfa ← mfaAdoptionRate 7;
  enc ← encryptionRate 8;
  posture ← postureRate 9;
  audit ← auditLogEnabled 10;
  let l := (soc2 ++ iso ++ gdpr)%list in
  let '(score, maxScore, percentage) := calculateOverallScore l in
  Some {| rp_OverallScore := score; rp_MaxScore := maxScore; rp_Percentage := percentage; rp_MFAAdoption := mfa; rp_EncryptionRate := enc;
          rp_PostureRate := posture; rp_AuditLogEnabled := audit; rp_PasswordPolicy := passwordPolicyEnabled 11;
          rp_SessionTimeout := sessionTimeoutEnabled 12; rp_Checks := l |}.

(** *** Endpoints *)

Inductive compliance_request := CReport | CSoc2 | CIso | CGdpr.
Inductive compliance_body := CBReport (r : ComplianceReport) | CBChecks (l : list ComplianceCheck).

Definition complianceReport {S E} : H S E (Z * compliance_body) :=
  let! x := the RunAllChecks 500 "failed to run compliance checks" in respondJSON 200 (CBReport x).
Definition soc2 {S E} : H S E (Z * compliance_body) :=
  let! x := the (RunSOC2Checks 0) 500 "failed to run SOC2 checks" in respondJSON 200 (CBChecks x).
Definition iso27001 {S E} : H S E (Z * compliance_body) :=
  let! x := the (RunISO27001Checks 0) 500 "failed to run ISO27001 checks" in respondJSON 200 (CBChecks x).
Definition gdpr {S E} : H S E (Z * compliance_body) :=
  let! x := the (RunGDPRChecks 0) 500 "failed to run GDPR checks" in respondJSON 200 (CBChecks x).

Definition compliance_serve {S E} (r : compliance_request) : H S E (Z * compliance_body) :=
  match r with CReport => complianceReport | CSoc2 => soc2 | CIso => iso27001 | CGdpr => gdpr end.

(** ** The score *)

Lemma points_range c : 0 <= points c <= 2.
Proof. unfold points. destruct (String.eqb _ _); [lia|]. destruct (String.eqb _ _); lia. Qed.

Lemma earned_from n l : foldl (fun n c => n + points c) n l = n + foldr (fun c t => points c + t) 0 l.
Proof. revert n. induction l as [|c l IH]; intros n; cbn; [lia|]. rewrite IH. lia. Qed.

Lemma earned_bounds l : 0 <= earnedOf l <= 2 * Z.of_nat (length l) /\ (earnedOf l = 2 * Z.of_nat (length l) <-> Forall (fun c => ck_Status c = "passed") l).
Proof.
  unfold earnedOf. rewrite earned_from, Z.add_0_l. induction l as [|c l [Hr Hiff]]; [done|]. cbn [foldr length]. pose proof (points_range c).
  split; [lia|]. rewrite Forall_cons, <- Hiff. assert (points c = 2 <-> ck_Status c = "passed") as Hc.
  { unfold points. destruct (String.eqb_spec (ck_Status c) "passed"); [tauto|]. destruct (String.eqb _ _); naive_solver. }
  rewrite <- Hc. lia.
Qed.

(** Whatever the tables hold and however they change between the queries, a
    report has nine checks, its score is between nothing and full marks, and it
    is 100 percent exactly when every check has passed. *)
Theorem score_bounds r (Hr : RunAllChecks = Some r) :
  length (rp_Checks r) = 9%nat /\ rp_MaxScore r = 18 /\ rp_OverallScore r = earnedOf (rp_Checks r) /\
  rp_Percentage r = rp_OverallScore r * 100 / 18 /\ 33 <= rp_Percentage r <= 100 /\
  (rp_Percentage r = 100 <-> Forall (fun c => ck_Status c = "passed") (rp_Checks r)).
Proof.
  unfold RunAllChecks in Hr. destruct (RunSOC2Checks 0) as [cs|] eqn:H1; [|done]. destruct (RunISO27001Checks 2) as [ci|] eqn:H2; [|done].
  destruct (RunGDPRChecks 5) as [cg|] eqn:H3; [|done]. cbn [mbind option_bind] in Hr.
  destruct (mfaAdoptionRate 7); [|done]. destruct (encryptionRate 8); [|done]. destruct (postureRate 9); [|done]. destruct (auditLogEnabled 10); [|done].
  cbn [mbind option_bind] in Hr. set (l := (cs ++ ci ++ cg)%list) in *.
  assert (length l = 9%nat /\ 6 <= earnedOf l) as [Hlen Hfloor].
  { unfold RunSOC2Checks in H1. destruct (mfaAdoptionRate 0); [|done]. destruct (auditLogEnabled (0 + 1)); [|done]. injection H1 as <-.
    unfold RunISO27001Checks in H2. destruct (postureRate 2); [|done]. destruct (fails (2 + 1)%nat); [done|]. cbn [mbind option_bind] in H2.
    destruct (encryptionRate (2 + 2)); [|done]. injection H2 as <-.
    unfold RunGDPRChecks in H3. destruct (auditLogEnabled 5); [|done]. destruct (fails (5 + 1)%nat); [done|]. injection H3 as <-.
    split; [done|]. unfold l, earnedOf. rewrite earned_from. cbn [app foldr].
    repeat match goal with |- context [points ?c] => first
      [ progress change (points c) with 2
      | let Hp := fresh in pose proof (points_range c) as Hp; generalize dependent (points c); intros ? Hp ] end. lia. }
  destruct (earned_bounds l) as [Hb Hall]. rewrite Hlen in Hb, Hall.
  unfold calculateOverallScore in Hr. destruct l as [|c0 l0] eqn:El; [done|]. rewrite <- El in *. rewrite Hlen in Hr.
  rewrite Z.quot_div_nonneg in Hr by lia. change (Z.of_nat 9 * 2) with 18 in Hr.
  pose proof (Z.div_mod (earnedOf l * 100) 18 ltac:(lia)) as Hd. pose proof (Z.mod_pos_bound (earnedOf l * 100) 18 ltac:(lia)) as Hmod.
  destruct (Z.ltb_spec 100 (earnedOf l * 100 / 18)); [lia|]. injection Hr as <-. cbn. rewrite <- Hall. split_and!; try done; lia.
Qed.
End checker.

(** ** Runs *)

Definition empty_db : compliance_db := {| cd_db := set_users demo_db []; cd_audit_rows := 0; cd_mfa_required := None |}.

Lemma score_bounds_witness : exists r, RunAllChecks (fun _ => "") (fun _ => empty_db) (fun _ => false) = Some r /\ 33 <= rp_Percentage r <= 100.
Proof.
  destruct (RunAllChecks (fun _ => "") (fun _ => empty_db) (fun _ => false)) as [r|] eqn:E; [|vm_compute in E; discriminate E].
  exists r. split; [reflexivity|]. apply (score_bounds (fun _ => "") (fun _ => empty_db) (fun _ => false) r E).
Defined.

(** ** Where the code falls short *)


(** With no account and no device every rate is full. *)
Example nothing_is_compliant : rp_MFAAdoption <$> RunAllChecks (fun _ => "") (fun _ => empty_db) (fun _ => false) = Some (float64 100).
Proof. vm_compute. reflexivity. Qed.

(** The time-out of sessions counts as enforced although no table says so, and
    the password policy is the setting for the second factor. *)
Example flags_of_other_things :
  let r s := RunAllChecks (fun _ => "") (fun _ => {| cd_db := cd_db empty_db; cd_audit_rows := 1; cd_mfa_required := s |}) (fun _ => false) in
  (fun x => (rp_SessionTimeout x, rp_PasswordPolicy x)) <$> r (Some "true") = Some (true, true) /\
  (fun x => (rp_SessionTimeout x, rp_PasswordPolicy x)) <$> r None = Some (true, false).
Proof. split; vm_compute; reflexivity. Qed.
